(* ===== verification/_CoqProject ===== *)
-Q . S2P
Prelude.v
Errors.v
CMem.v
Safety.v
Platform.v
Blob.v
Alloc.v
Array.v
ArrayTheorems.v
Map.v
MapTheorems.v
MapRefinement.v
Stuffer.v
StufferInv.v
StufferWrite.v
StufferSpec.v
StufferTheorems.v
NetworkOrder.v
StufferBuild.v
StufferText.v
StufferHex.v
StufferPrintf.v
StufferBase64.v
StufferPem.v
ErrorStrings.v
Sequence.v
HandshakeTables.v
Connection.v
HandshakeOrder.v
HandshakeTypes.v
HandshakeMessage.v
HandshakeIO.v
HandshakeSafety.v
HandshakeDriver.v
HandshakeNegotiation.v
HandshakeTheorems.v
HandshakeNames.v
Libcrypto.v
Hash.v
Hmac.v
HmacTheorems.v
Hkdf.v
HkdfTheorems.v
Ciphers.v
CipherSuites.v
RecordState.v
RecordRead.v
RecordWrite.v
RecordCbc.v
RecordSizes.v
RecordAead.v
RecordDemo.v
RecordAeadWrite.v
RecordInner.v
RecordAeadRead.v
RecordRoundtrip.v
IoState.v
Alerts.v
FlushTheorems.v
KeyUpdate.v
KeyUpdateTheorems.v
Send.v
SendTheorems.v
Recv.v
IoTheorems.v
Prf.v
PrfTheorems.v
Groups.v
SignatureSchemes.v
CipherPreferences.v
SecurityPolicies.v
SecurityRules.v
PolicyTheorems.v
ConnectionParams.v
AuthSelection.v
AuthTheorems.v
KexSelection.v
CipherSelection.v
CipherTheorems.v
CipherServer.v
