(* ===== verification/Prelude.v ===== *)
(** * s2n-tls: a verification library

    ** The program and what is modelled

    s2n-tls is an implementation of TLS in C.  Its lower layers manage memory
    (utils/s2n_mem.c), describe byte ranges (utils/s2n_blob.c) and read and write
    byte streams (stuffer/).  Above them the record layer (tls/s2n_record_*.c)
    protects records with the ciphers of libcrypto, s2n_send, s2n_recv and
    s2n_shutdown move the application's data, alerts and post-handshake messages
    in and out of records, and the handshake driver (tls/s2n_handshake_io.c)
    walks through a table of messages and calls the handler of each.  The
    parameters of a connection (cipher suite, signature scheme, group) are
    selected by policies (tls/s2n_security_policies.c).  This library models
    those parts function by function.

    Foundations:

    - [Errors], [ErrorStrings]: error/s2n_errno.h and s2n_errno.c.
    - [CMem]: what C means here.  A function is a command on the heap, the static
      variables of s2n_mem.c and the struct it is given by pointer; it ends with
      a value, with an s2n error and the state it leaves behind (C does not roll
      back), or with [UB], undefined behaviour: an access out of bounds, through
      NULL, or to freed memory.  [wp] is the weakest precondition of a command;
      [Raises], in [Alloc], says which errors a command can end with.
    - [Platform]: the C library, the kernel and the memory callbacks of an
      application are parameters with the behaviour their documentation promises
      ([PlatformOk]); NDEBUG selects the build.
    - [Safety]: utils/s2n_safety.c, checked arithmetic, constant-time comparison,
      copy and PKCS#1 unpadding.
    - [Blob]: utils/s2n_blob.c.
    - [Alloc]: utils/s2n_mem.c.  The class [BlobAllocator] is what the allocator
      promises to its clients; its instance is proved from the code, and the
      stuffers, arrays and maps are verified against the class.
    - [Array], [ArrayTheorems]: utils/s2n_array.c.  [Map] (with the
      mathematics of open addressing, [Probing]), [MapTheorems], [MapRefinement]:
      utils/s2n_map.c.

    Byte streams:

    - [Stuffer] (the functions of stuffer/s2n_stuffer.c), [StufferInv] (the
      invariant, and reading), [StufferWrite] (wiping, resizing and writing),
      [StufferSpec] (memory safety and the refinement of a byte queue),
      [StufferTheorems] (the operations one by one), [StufferBuild] (messages in
      fixed memory, s2n_stuffer_writev_bytes, and in its second module a calculus
      of encoders and decoders).
    - [NetworkOrder]: stuffer/s2n_stuffer_network_order.c, big-endian integers,
      reservations and length-prefixed vectors.
    - [StufferText], [StufferPrintf]: stuffer/s2n_stuffer_text.c.
    - [StufferHex]: stuffer/s2n_stuffer_hex.c.  [StufferBase64]: s2n_stuffer_base64.c.
      [StufferPem]: s2n_stuffer_pem.c.
    - [Sequence]: crypto/s2n_sequence.c, the sequence numbers of records.

    The handshake driver:

    - [HandshakeTables]: the message types, both state machines and both tables
      of message orders of tls/s2n_handshake_io.c and s2n_handshake.h;
      [HandshakeOrder]: what the tables contain.
    - [Connection]: the fields of s2n_connection, s2n_handshake and s2n_config
      that the handshake uses, tls/s2n_handshake_type.c, and the choice of the
      state machine and of the handshake type; [HandshakeTypes]: which handshake
      types a connection can have.
    - [HandshakeMessage]: message headers (tls/s2n_handshake.c) and the
      reassembly of messages from records (s2n_read_full_handshake_message).
    - [HandshakeIO]: the driver, from s2n_advance_message to s2n_negotiate.  The
      message handlers and the record layer are reached through the class
      [HandshakeEnv].
    - [HandshakeSafety], [HandshakeDriver], [HandshakeNegotiation],
      [HandshakeTheorems]: the invariant of a connection during the handshake,
      the contract [HandshakeEnvOk] between the driver and the components it
      calls, the proof that every function of the driver keeps the invariant,
      and what follows.
    - [HandshakeNames]: the names of handshake types and messages.

    Cryptography, as far as it is code of the repository:

    - [Libcrypto]: what the build and the process know about libcrypto.
    - [Hash], [Hmac], [HmacTheorems], [Hkdf], [HkdfTheorems]: crypto/s2n_hash.c,
      s2n_hmac.c and s2n_hkdf.c, on digest functions of libcrypto that are a
      parameter ([Digests]); both the HKDF of the repository and the one of
      libcrypto (S2N_LIBCRYPTO_SUPPORTS_HKDF) are there.
    - [Ciphers]: session keys and the cipher objects of crypto/s2n_*cipher*.c,
      in the build with EVP_AEAD.
    - [KeyUpdate]: its first module, [Tls13Keys], is crypto/s2n_tls13_keys.c.
    - [Prf]: tls/s2n_handshake_hashes.c, s2n_handshake_transcript.c and s2n_prf.c,
      crypto/s2n_prf_libcrypto.c: the transcript hashes, the PRFs of SSLv3 to TLS
      1.2, the master secret, the finished messages and key expansion.  [PrfTheorems]:
      what they compute.

    The record layer:

    - [RecordState] (tls/s2n_crypto.c and the record fields of the connection),
      [RecordRead] (tls/s2n_record_read*.c, s2n_aead.c, s2n_cbc.c), [RecordWrite]
      (tls/s2n_record_write.c).
    - [RecordCbc] (MAC and padding of CBC records), [RecordSizes] (the sizes of
      records), [RecordAead], [RecordAeadWrite], [RecordInner], [RecordAeadRead],
      [RecordRoundtrip] (records under AEAD ciphers), [RecordDemo] (a concrete
      record layer that the witnesses evaluate).

    Sending, receiving and closing:

    - [IoState]: the fields of the connection that they add, and the environment
      [IoEnv]: the send and recv callbacks, the clock and errno.  Its second
      module is tls/s2n_early_data_io.c with the accounting of early data.
    - [Alerts]: tls/s2n_alerts.c, and in its second module, [Flush], utils/s2n_io.c,
      s2n_flush and the functions that call the callbacks.  [KeyUpdate]: tls/s2n_key_update.c and
      s2n_update_application_traffic_keys.  [Send]: tls/s2n_send.c, the sending
      half of tls/s2n_post_handshake.c, and the loop that sends session tickets.
      [Recv]: tls/s2n_recv.c, the receiving half of s2n_post_handshake.c, error
      blinding, and in its second module tls/s2n_shutdown.c.
    - [FlushTheorems], [KeyUpdateTheorems], [SendTheorems], [IoTheorems]: what
      they do.

    Negotiation of parameters:

    - [CipherSuites] (tls/s2n_cipher_suites.c as data, start-up), [Groups] (curves
      and KEMs), [SignatureSchemes], [CipherPreferences], [SecurityPolicies],
      [SecurityRules], [PolicyTheorems] (policies and the rules they promise).
    - [ConnectionParams], [AuthSelection], [AuthTheorems] (signature schemes and
      certificates), [KexSelection], [CipherSelection], [CipherTheorems],
      [CipherServer] (the choice of the cipher suite by client and server).

    ** How the C code is translated

    Integers are [Z] with their width written out: [u8], [u16], [u32] and [u64]
    reduce a result that may wrap.  The heap is a finite map from blocks to byte
    strings and a pointer is a block with an offset, so two blobs may share
    memory and a stale pointer is an error.  A function that takes a pointer to a
    struct is a command whose state is that struct; one that takes two structs
    has a pair as its state, and [zoom] runs a command on one of them.  POSIX_GUARD and
    RESULT_GUARD are the bind of commands, POSIX_ENSURE is [ensure], a call
    whose failure is handled is [attempt].  PRECONDITION and POSTCONDITION run
    the validation functions as the macros of the build do.  A local array is
    passed by value ([LocalBuf], [LocalDst]).  NULL checks on the struct pointers
    themselves are left out, since the struct is always there.  The connection
    grows by layers: [Connection.s2n_connection] has the fields of the handshake,
    [RecordState.record_conn] adds those of the record layer, and on top of it
    [IoState.io_conn] those of sending and receiving and [Prf.prf_conn] those of
    key derivation; the functions of a layer run on
    the next one through a lens ([on_base], [on_record]).

    ** What the theorems show

    - Memory: [StufferSpec.stuffer_memory_safe] (no sequence of stuffer calls has
      undefined behaviour, breaks the invariant or touches memory of anybody
      else), [Alloc.realloc_correct], [StufferTheorems] for writing, resizing,
      wiping, erasing and copying, errors included.
    - Refinement: a stuffer is a queue of bytes ([StufferSpec.stuffer_refines_queue]),
      an array a list ([ArrayTheorems.array_refines_list]), a hash table a finite
      map with a lock ([MapRefinement.map_refines_finite_map]), an HMAC state a
      machine that remembers the message ([HmacTheorems.hmac_correct]); s2n_send
      appends records of the data to a stream ([SendTheorems.send_stream]).
    - Encodings: integers and vectors ([NetworkOrder]), text ([StufferText]),
      hexadecimal ([StufferHex]), base64 ([StufferBase64.base64_roundtrip]), PEM objects
      ([StufferPem.pem_object_parsed], [pem_memory_safe]), message headers and fragmented messages
      ([HandshakeMessage.read_full_message_correct]), sequence numbers, lists of
      signature schemes ([AuthTheorems.supported_list_roundtrip]).
    - Key derivation: [HkdfTheorems.hkdf_correct] and [expand_label_correct], RFC
      5869 and the labels of RFC 8446; the PRF is that of the RFC of the protocol
      version ([PrfTheorems.prf_correct]), and with it key expansion gives each side
      its keys ([key_expansion_correct]) and the finished messages cover the
      transcript ([finished_correct]); a key update moves to the next generation of
      keys and starts its record numbers from zero ([KeyUpdateTheorems.traffic_keys_updated]).
    - Records: what is written under an AEAD cipher is exactly the record of the
      RFC ([RecordAeadWrite.aead_record_written]), what is read is accepted exactly
      when it authenticates ([RecordAeadRead.aead_record_read]), and reading undoes
      writing ([RecordRoundtrip.record_round_trip]); the check of CBC records is
      equivalent to its plain meaning ([RecordCbc.verify_cbc_correct]); sizes fit.
    - Sending: [FlushTheorems.flush_correct] (the output is delivered in order, or
      a prefix of it when the transport refuses), [SendTheorems.send_stream] (the
      data is neither lost nor repeated by partial results and retries).
    - Closing: [IoTheorems.alert_fragment] (alerts are understood however they are
      split), [Alerts.error_alert_total] (the table of alerts has no gap),
      [IoTheorems.shutdown_one_alert] (one alert at most ends the stream).
    - Message orders: each of the 512 rows of both tables is the order that a
      specification computes from the flags, and in every order application data
      comes after both Finished messages ([HandshakeOrder]); the types that are set have a
      row ([HandshakeTypes]), the state machine never switches, and changes of the
      type do not rewrite the past.
    - The driver: [HandshakeTheorems.negotiate_safe] (no undefined behaviour,
      the invariant is kept, the handshake never moves back),
      [negotiation_ends_after_finished], [unexpected_message_refused] and
      [fatal_error_is_final].
    - Negotiation: [CipherServer.server_suite_correct], [CipherTheorems.client_suite_correct],
      [AuthTheorems.signature_select_correct]; every policy keeps its promises
      ([PolicyTheorems.policies_keep_promises]).
    - Constant-time helpers compute what their plain counterparts compute; timing
      itself is outside the model.
    - Divergences: a handshake type without a row
      ([HandshakeTypes.resumed_client_auth_has_no_row]), names mixed up between
      protocol versions ([HandshakeNames.type_names_are_mixed_up]), a failing
      realloc that has zeroed its contents ([Alloc.realloc_failure_erases_contents]),
      hash tables that failed additions fill ([MapRefinement.failed_add_fills_table]), and
      HKDF on big-endian machines ([HkdfTheorems.big_endian_expand]).

    The theorems about code that calls libcrypto or the application assume the
    documented behaviour of those: [DigestsOk], [HkdfOk], [AeadOk] (decryption
    undoes encryption and refuses everything else, in place, without touching
    other memory), [AeadInitOk] (a key that is set is used), [Base64Ok] (blocks are encoded as RFC
    4648 says), [EnvOk] (a callback takes at most what it is offered and is
    not interrupted for ever).  Each has an instance that the witnesses evaluate.

    ** Fuel

    Loops over an index are structural on the number of iterations left.  Loops
    that end for another reason take fuel: those of [StufferText] get the number
    of unread bytes, each iteration consumes one, as does that of [StufferPem]; s2n_handshake_message_send, the
    loop over the messages of a record, [flush_loop], [alert_loop] and [send_loop]
    get the number of bytes there are, and every iteration consumes at least one;
    [probe_loop], [lookup_loop] and [advance_loop] of the hash tables get the
    capacity, [expand_loop] of HKDF the number of rounds, [iana_search] the length
    of the table, [record_type_loop] the length of the padding, [p_hash_loop] and
    [prf_sslv3_loop] the size of the output, [nst_loop] the
    number of tickets, and [retry_eintr] the largest number of interrupts in a
    row that the environment has.  Running out of that fuel is [UB], so a
    theorem that excludes [UB] shows that it is enough.  s2n_negotiate_impl,
    s2n_recv and s2n_shutdown run for as long as the peer keeps them waiting: they take the
    number of iterations, return [false] or [None] when they are not over by
    then, and a theorem about them holds for every number.

    ** What is not modelled

    The handlers of the handshake messages, the hello messages with their
    extensions and the key schedule of TLS 1.3 (with the transcript update,
    parameters of [HandshakeIO]: [Prf] is on its own connection record); PSKs and the contents of session tickets; the
    life cycle and the setters of s2n_config and s2n_connection; kernel TLS and
    QUIC: each of these is code that could be added above the present layers.
    X.509 validation, key generation and signatures are mostly calls into
    libcrypto.  System calls, threads and the state of the process (fork
    detection, random numbers) are outside the model, and so is time: the delay
    of error blinding is computed but not waited for. *)
From Stdlib Require Export ZArith Lia.
From stdpp Require Export base list gmap.

Open Scope Z_scope.

(** ** Tactics and hint databases *)

Create HintDb s2n.
Create HintDb s2n_rw.

(** Destructs every conjunction and existential in the context. *)
Ltac split_hyps :=
  repeat match goal with
  | H : _ /\ _ |- _ => destruct H
  | H : exists _, _ |- _ => destruct H
  end.

(** Splits the goal into its conjuncts. *)
Ltac split_goal := repeat match goal with |- _ /\ _ => split end.

(** Turns boolean comparisons on [Z] into propositions. *)
Ltac zbool :=
  repeat match goal with
  | H : (_ <=? _)%Z = true |- _ => apply Z.leb_le in H
  | H : (_ <=? _)%Z = false |- _ => apply Z.leb_gt in H
  | H : (_ <? _)%Z = true |- _ => apply Z.ltb_lt in H
  | H : (_ <? _)%Z = false |- _ => apply Z.ltb_ge in H
  | H : (_ =? _)%Z = true |- _ => apply Z.eqb_eq in H
  | H : (_ =? _)%Z = false |- _ => apply Z.eqb_neq in H
  | H : andb _ _ = true |- _ => apply andb_prop in H as [? ?]
  | H : orb _ _ = false |- _ => apply orb_false_elim in H as [? ?]
  | H : negb _ = true |- _ => apply negb_true_iff in H
  | H : negb _ = false |- _ => apply negb_false_iff in H
  end.

(** Decided propositions in the hypotheses. *)
Ltac decided :=
  repeat match goal with
  | H : bool_decide _ = true |- _ => apply bool_decide_eq_true in H
  | H : bool_decide _ = false |- _ => apply bool_decide_eq_false in H
  end.

(** Case analysis on an integer test of the goal, with the test reflected. *)
Ltac zcase :=
  match goal with
  | |- context [(?a <=? ?b)%Z] => let H := fresh "Hz" in destruct (Z.leb_spec0 a b) as [H|H]
  | |- context [(?a <? ?b)%Z] => let H := fresh "Hz" in destruct (Z.ltb_spec0 a b) as [H|H]
  | |- context [(?a =? ?b)%Z] => let H := fresh "Hz" in destruct (Z.eqb_spec a b) as [H|H]
  end.

(** ** Machine integers: a [w]-bit unsigned integer is a [Z] kept in range by
    an explicit wrap-around. *)

Definition u8 (z : Z) : Z := z mod 2 ^ 8.
Definition u16 (z : Z) : Z := z mod 2 ^ 16.
Definition u32 (z : Z) : Z := z mod 2 ^ 32.
Definition u64 (z : Z) : Z := z mod 2 ^ 64.

Definition UINT8_MAX : Z := 2 ^ 8 - 1.
Definition UINT16_MAX : Z := 2 ^ 16 - 1.
Definition UINT32_MAX : Z := 2 ^ 32 - 1.
Definition UINT64_MAX : Z := 2 ^ 64 - 1.

Definition is_u8 (z : Z) : Prop := 0 <= z < 2 ^ 8.
Definition is_u16 (z : Z) : Prop := 0 <= z < 2 ^ 16.
Definition is_u32 (z : Z) : Prop := 0 <= z < 2 ^ 32.
Definition is_u64 (z : Z) : Prop := 0 <= z < 2 ^ 64.

Definition bool_to_Z (b : bool) : Z := if b then 1 else 0.

Lemma u8_small (z : Z) : 0 <= z < 2 ^ 8 -> u8 z = z.
Proof. apply Z.mod_small. Qed.
Lemma u16_small (z : Z) : 0 <= z < 2 ^ 16 -> u16 z = z.
Proof. apply Z.mod_small. Qed.
Lemma u32_small (z : Z) : 0 <= z < 2 ^ 32 -> u32 z = z.
Proof. apply Z.mod_small. Qed.
Lemma u64_small (z : Z) : 0 <= z < 2 ^ 64 -> u64 z = z.
Proof. apply Z.mod_small. Qed.
Lemma u8_range (z : Z) : is_u8 (u8 z).
Proof. apply Z.mod_pos_bound. reflexivity. Qed.
Lemma u32_range (z : Z) : is_u32 (u32 z).
Proof. apply Z.mod_pos_bound. reflexivity. Qed.
Lemma u64_range (z : Z) : is_u64 (u64 z).
Proof. apply Z.mod_pos_bound. reflexivity. Qed.

Lemma u8_id (z : Z) : is_u8 z -> u8 z = z.
Proof. apply u8_small. Qed.
Lemma u32_id (z : Z) : is_u32 z -> u32 z = z.
Proof. apply u32_small. Qed.

#[export] Hint Resolve u8_range u32_range u64_range : s2n.

(** ** Byte strings addressed by [Z] offsets *)

Definition zlen {A} (l : list A) : Z := Z.of_nat (length l).

(** [zslice l off n]: the [n] elements of [l] from offset [off]. *)
Definition zslice {A} (l : list A) (off n : Z) : list A :=
  take (Z.to_nat n) (drop (Z.to_nat off) l).

(** [zsplice l off bs]: [l] with the elements from [off] on overwritten by [bs]. *)
Definition zsplice {A} (l : list A) (off : Z) (bs : list A) : list A :=
  take (Z.to_nat off) l ++ bs ++ drop (Z.to_nat off + length bs) l.

(** The array read [l[i]]. *)
Definition znth (l : list Z) (i : Z) : Z := nth (Z.to_nat i) l 0.

Definition is_bytes (l : list Z) : Prop := Forall is_u8 l.

Section ZSlice.
Context {A : Type}.
Implicit Types l bs : list A.

Lemma zlen_nonneg l : 0 <= zlen l.
Proof. unfold zlen. lia. Qed.

Lemma zlen_app l1 l2 : zlen (l1 ++ l2) = zlen l1 + zlen l2.
Proof. unfold zlen. rewrite length_app. lia. Qed.

Lemma zlen_cons (x : A) l : zlen (x :: l) = 1 + zlen l.
Proof. unfold zlen. simpl. lia. Qed.

Lemma zlen_nil : zlen (@nil A) = 0.
Proof. reflexivity. Qed.

Lemma zlen_repeat (x : A) (n : Z) : 0 <= n -> zlen (repeat x (Z.to_nat n)) = n.
Proof. intros. unfold zlen. rewrite repeat_length. lia. Qed.

Lemma zlen_0_nil l : zlen l = 0 -> l = [].
Proof. destruct l; [done|]. unfold zlen. simpl. lia. Qed.

Lemma zlen_zslice l off n :
  0 <= off -> 0 <= n -> off + n <= zlen l -> zlen (zslice l off n) = n.
Proof.
  intros. unfold zlen, zslice in *. rewrite length_take, length_drop. lia.
Qed.

Lemma zslice_0 l off : zslice l off 0 = [].
Proof. reflexivity. Qed.

Lemma zslice_full l : zslice l 0 (zlen l) = l.
Proof. unfold zslice, zlen. rewrite Nat2Z.id. simpl. apply firstn_all. Qed.

Lemma take_add_drop_ex (k : list A) (n m : nat) :
  take (n + m) k = take n k ++ take m (drop n k).
Proof.
  revert n. induction k as [|x k IH]; intros [|n]; simpl; try done.
  - by rewrite !take_nil.
  - by rewrite IH.
Qed.

Lemma zslice_app_range l off n m :
  0 <= off -> 0 <= n -> 0 <= m ->
  zslice l off (n + m) = zslice l off n ++ zslice l (off + n) m.
Proof.
  intros. unfold zslice.
  rewrite !Z2Nat.inj_add by lia. rewrite <- drop_drop.
  apply take_add_drop_ex.
Qed.

Lemma zslice_zslice l a n b k :
  0 <= a -> 0 <= b -> 0 <= k -> b + k <= n ->
  zslice (zslice l a n) b k = zslice l (a + b) k.
Proof.
  intros. unfold zslice. rewrite skipn_firstn_comm, drop_drop, take_take.
  f_equal; [lia|]. f_equal. lia.
Qed.

Lemma zlen_zsplice l off bs :
  0 <= off -> off + zlen bs <= zlen l -> zlen (zsplice l off bs) = zlen l.
Proof.
  intros. unfold zlen, zsplice in *.
  rewrite !length_app, length_take, length_drop. lia.
Qed.

Lemma zslice_zsplice_same l off bs :
  0 <= off -> off <= zlen l -> zslice (zsplice l off bs) off (zlen bs) = bs.
Proof.
  intros. unfold zslice, zsplice, zlen in *. rewrite Nat2Z.id.
  rewrite drop_app_length' by (rewrite length_take; lia).
  apply take_app_length.
Qed.

Lemma zslice_zsplice_before l off bs a n :
  0 <= a -> 0 <= n -> a + n <= off -> off <= zlen l ->
  zslice (zsplice l off bs) a n = zslice l a n.
Proof.
  intros. unfold zslice, zsplice, zlen in *.
  rewrite drop_app_le by (rewrite length_take; lia).
  rewrite take_app_le by (rewrite length_drop, length_take; lia).
  rewrite skipn_firstn_comm, take_take. f_equal. lia.
Qed.

Lemma zslice_zsplice_after l off bs a n :
  0 <= off -> off + zlen bs <= a -> off + zlen bs <= zlen l ->
  zslice (zsplice l off bs) a n = zslice l a n.
Proof.
  intros. unfold zslice, zsplice, zlen in *. f_equal.
  rewrite app_assoc, drop_app_ge by (rewrite length_app, length_take; lia).
  rewrite drop_drop, length_app, length_take. f_equal. lia.
Qed.

Lemma zsplice_nil l off : zsplice l off [] = l.
Proof. unfold zsplice. simpl. rewrite Nat.add_0_r. apply take_drop. Qed.

(** Overwriting twice, the second range right after the first. *)
Lemma zsplice_zsplice_app l o b1 b2 :
  0 <= o -> o + zlen b1 + zlen b2 <= zlen l ->
  zsplice (zsplice l o b1) (o + zlen b1) b2 = zsplice l o (b1 ++ b2).
Proof.
  intros. unfold zsplice, zlen in *.
  assert (Hto : Z.to_nat (o + Z.of_nat (length b1)) = (Z.to_nat o + length b1)%nat) by lia.
  rewrite Hto, (app_assoc (take _ l)).
  rewrite take_app_length' by (rewrite length_app, length_take; lia).
  rewrite drop_app_ge by (rewrite length_app, length_take; lia).
  rewrite drop_drop, !length_app, length_take, <- !app_assoc.
  do 4 f_equal. lia.
Qed.

Lemma zsplice_zslice_self l o n :
  0 <= o -> 0 <= n -> o + n <= zlen l -> zsplice l o (zslice l o n) = l.
Proof.
  intros. unfold zsplice, zslice, zlen in *. rewrite length_take, length_drop.
  rewrite Nat.min_l by lia. rewrite <- drop_drop, take_drop, take_drop. done.
Qed.

Lemma zslice_zsplice_within l o n i bs :
  0 <= o -> 0 <= i -> i + zlen bs <= n -> o + n <= zlen l ->
  zslice (zsplice l (o + i) bs) o n = zsplice (zslice l o n) i bs.
Proof.
  intros. unfold zsplice, zslice, zlen in *.
  rewrite Z2Nat.inj_add by lia.
  rewrite drop_app_le by (rewrite length_take; lia).
  rewrite skipn_firstn_comm. replace (Z.to_nat o + Z.to_nat i - Z.to_nat o)%nat with (Z.to_nat i) by lia.
  rewrite take_take, Nat.min_l by lia.
  rewrite take_app_ge by (rewrite length_take, length_drop; lia).
  rewrite length_take, length_drop, Nat.min_l by lia.
  rewrite take_app_ge by lia. do 2 f_equal.
  rewrite skipn_firstn_comm, drop_drop. f_equal; [lia|]. f_equal. lia.
Qed.

Lemma Forall_zslice (P : A -> Prop) l off n : Forall P l -> Forall P (zslice l off n).
Proof. intros. unfold zslice. by apply Forall_take, Forall_drop. Qed.

Lemma Forall_zsplice (P : A -> Prop) l off bs :
  Forall P l -> Forall P bs -> Forall P (zsplice l off bs).
Proof.
  intros. unfold zsplice. rewrite !Forall_app. split_and!; [|done|].
  - by apply Forall_take.
  - by apply Forall_drop.
Qed.
End ZSlice.

(** ** Array reads *)

Lemma drop_znth (l : list Z) (i : Z) :
  0 <= i < zlen l -> drop (Z.to_nat i) l = znth l i :: drop (Z.to_nat (i + 1)) l.
Proof.
  unfold zlen, znth. intros. replace (Z.to_nat (i + 1)) with (S (Z.to_nat i)) by lia.
  assert (Hi : (Z.to_nat i < length l)%nat) by lia. revert Hi.
  generalize (Z.to_nat i). clear. intros n. revert n.
  induction l as [|x l IH]; intros [|n] Hn; simpl in *; try lia; try done.
  apply IH. lia.
Qed.

Lemma zslice_cons (l : list Z) (i n : Z) :
  0 <= i -> 0 < n -> i + n <= zlen l -> zslice l i n = znth l i :: zslice l (i + 1) (n - 1).
Proof.
  intros. unfold zslice. rewrite drop_znth by lia.
  replace (Z.to_nat n) with (S (Z.to_nat (n - 1))) by lia. done.
Qed.

Lemma znth_zslice (l : list Z) (o n i : Z) :
  0 <= o -> 0 <= i < n -> znth (zslice l o n) i = znth l (o + i).
Proof.
  intros. unfold znth, zslice. rewrite nth_firstn.
  rewrite (proj2 (Nat.ltb_lt _ _)) by lia. rewrite nth_skipn. f_equal. lia.
Qed.

Lemma znth_is_u8 (l : list Z) (i : Z) : is_bytes l -> is_u8 (znth l i).
Proof.
  intros Hl. unfold znth. generalize (Z.to_nat i). induction Hl; intros [|n]; simpl; auto.
  all: unfold is_u8; lia.
Qed.

Lemma is_bytes_repeat (b : Z) (n : nat) : is_u8 b -> is_bytes (repeat b n).
Proof. intros. induction n; simpl; [constructor|by constructor]. Qed.

(** Closes [is_bytes l] for a literal [l]. *)
Ltac solve_bytes :=
  unfold is_bytes;
  repeat first [apply Forall_nil_2 | apply Forall_cons_2; [unfold is_u8; lia|]].

(** ** Bitwise operations on bytes *)

Lemma is_u8_land (z : Z) : is_u8 z <-> Z.land z 255 = z.
Proof.
  change 255 with (Z.ones 8). rewrite Z.land_ones by lia. unfold is_u8. split.
  - apply Z.mod_small.
  - intros <-. apply Z.mod_pos_bound. lia.
Qed.

Lemma is_u8_lor (a b : Z) : is_u8 a -> is_u8 b -> is_u8 (Z.lor a b).
Proof. rewrite !is_u8_land. intros. rewrite Z.land_lor_distr_l. congruence. Qed.

Lemma is_u8_lxor (a b : Z) : is_u8 a -> is_u8 b -> is_u8 (Z.lxor a b).
Proof.
  rewrite !is_u8_land. intros Ha Hb. rewrite <- Ha, <- Hb at 2.
  apply Z.bits_inj'. intros n _. rewrite !Z.land_spec, !Z.lxor_spec, !Z.land_spec.
  by destruct (Z.testbit a n), (Z.testbit b n), (Z.testbit 255 n).
Qed.

(** Closes [is_u8 e] for [e] built from bytes by bitwise operations. *)
Ltac solve_u8 :=
  repeat first [assumption | apply u8_range | apply is_u8_lor | apply is_u8_lxor | apply znth_is_u8].

#[export] Hint Resolve is_u8_lor is_u8_lxor znth_is_u8 is_bytes_repeat : s2n.
#[export] Hint Resolve zlen_nonneg Forall_zslice Forall_zsplice : s2n.
