(* ===== verification/Errors.v ===== *)
(** * Error codes: error/s2n_errno.h, error/s2n_errno.c

    The [s2n_error] enumeration with the numeric values the C enum gives its
    members (six type bits above twenty-six value bits), and the accessors that
    the rest of the library uses to classify an error. *)
From S2P Require Import Prelude.
Open Scope Z_scope.

Module Errors.

(** ** s2n_error_type (api/s2n.h) *)

Inductive s2n_error_type :=
| S2N_ERR_T_OK | S2N_ERR_T_IO | S2N_ERR_T_CLOSED | S2N_ERR_T_BLOCKED
| S2N_ERR_T_ALERT | S2N_ERR_T_PROTO | S2N_ERR_T_INTERNAL | S2N_ERR_T_USAGE.

#[export] Instance s2n_error_type_eq_dec : EqDecision s2n_error_type.
Proof. solve_decision. Defined.

Definition error_type_value (t : s2n_error_type) : Z :=
  match t with
  | S2N_ERR_T_OK => 0 | S2N_ERR_T_IO => 1 | S2N_ERR_T_CLOSED => 2
  | S2N_ERR_T_BLOCKED => 3 | S2N_ERR_T_ALERT => 4 | S2N_ERR_T_PROTO => 5
  | S2N_ERR_T_INTERNAL => 6 | S2N_ERR_T_USAGE => 7
  end.

Definition S2N_ERR_NUM_VALUE_BITS : Z := 26.

(** ** The enumeration, in the order of the header *)

Inductive s2n_error :=
| S2N_ERR_OK
| S2N_ERR_IO
| S2N_ERR_CLOSED
| S2N_ERR_IO_BLOCKED
| S2N_ERR_ASYNC_BLOCKED
| S2N_ERR_EARLY_DATA_BLOCKED
| S2N_ERR_APP_DATA_BLOCKED
| S2N_ERR_ALERT
| S2N_ERR_ENCRYPT
| S2N_ERR_DECRYPT
| S2N_ERR_BAD_MESSAGE
| S2N_ERR_UNEXPECTED_CERT_REQUEST
| S2N_ERR_MISSING_CERT_REQUEST
| S2N_ERR_MISSING_CLIENT_CERT
| S2N_ERR_KEY_INIT
| S2N_ERR_KEY_DESTROY
| S2N_ERR_DH_SERIALIZING
| S2N_ERR_DH_SHARED_SECRET
| S2N_ERR_DH_WRITING_PUBLIC_KEY
| S2N_ERR_DH_FAILED_SIGNING
| S2N_ERR_DH_COPYING_PARAMETERS
| S2N_ERR_DH_GENERATING_PARAMETERS
| S2N_ERR_CIPHER_NOT_SUPPORTED
| S2N_ERR_NO_APPLICATION_PROTOCOL
| S2N_ERR_FALLBACK_DETECTED
| S2N_ERR_HASH_DIGEST_FAILED
| S2N_ERR_HASH_INIT_FAILED
| S2N_ERR_HASH_UPDATE_FAILED
| S2N_ERR_HASH_COPY_FAILED
| S2N_ERR_HASH_WIPE_FAILED
| S2N_ERR_HASH_NOT_READY
| S2N_ERR_ALLOW_MD5_FOR_FIPS_FAILED
| S2N_ERR_DECODE_CERTIFICATE
| S2N_ERR_DECODE_PRIVATE_KEY
| S2N_ERR_INVALID_HELLO_RETRY
| S2N_ERR_INVALID_SIGNATURE_ALGORITHM
| S2N_ERR_INVALID_SIGNATURE_SCHEME
| S2N_ERR_NO_VALID_SIGNATURE_SCHEME
| S2N_ERR_CBC_VERIFY
| S2N_ERR_DH_COPYING_PUBLIC_KEY
| S2N_ERR_SIGN
| S2N_ERR_VERIFY_SIGNATURE
| S2N_ERR_ECDHE_GEN_KEY
| S2N_ERR_ECDHE_SHARED_SECRET
| S2N_ERR_ECDHE_UNSUPPORTED_CURVE
| S2N_ERR_ECDHE_INVALID_PUBLIC_KEY
| S2N_ERR_ECDHE_INVALID_PUBLIC_KEY_FIPS
| S2N_ERR_ECDSA_UNSUPPORTED_CURVE
| S2N_ERR_ECDHE_SERIALIZING
| S2N_ERR_KEM_UNSUPPORTED_PARAMS
| S2N_ERR_SHUTDOWN_RECORD_TYPE
| S2N_ERR_SHUTDOWN_CLOSED
| S2N_ERR_NON_EMPTY_RENEGOTIATION_INFO
| S2N_ERR_RECORD_LIMIT
| S2N_ERR_CERT_UNTRUSTED
| S2N_ERR_CERT_REVOKED
| S2N_ERR_CERT_NOT_YET_VALID
| S2N_ERR_CERT_EXPIRED
| S2N_ERR_CERT_TYPE_UNSUPPORTED
| S2N_ERR_CERT_INVALID
| S2N_ERR_CERT_MAX_CHAIN_DEPTH_EXCEEDED
| S2N_ERR_CERT_REJECTED
| S2N_ERR_CRL_LOOKUP_FAILED
| S2N_ERR_CRL_SIGNATURE
| S2N_ERR_CRL_ISSUER
| S2N_ERR_CRL_UNHANDLED_CRITICAL_EXTENSION
| S2N_ERR_CRL_INVALID_THIS_UPDATE
| S2N_ERR_CRL_INVALID_NEXT_UPDATE
| S2N_ERR_CRL_NOT_YET_VALID
| S2N_ERR_CRL_EXPIRED
| S2N_ERR_INVALID_MAX_FRAG_LEN
| S2N_ERR_MAX_FRAG_LEN_MISMATCH
| S2N_ERR_PROTOCOL_VERSION_UNSUPPORTED
| S2N_ERR_BAD_KEY_SHARE
| S2N_ERR_CANCELLED
| S2N_ERR_PROTOCOL_DOWNGRADE_DETECTED
| S2N_ERR_MAX_INNER_PLAINTEXT_SIZE
| S2N_ERR_RECORD_STUFFER_SIZE
| S2N_ERR_FRAGMENT_LENGTH_TOO_LARGE
| S2N_ERR_FRAGMENT_LENGTH_TOO_SMALL
| S2N_ERR_RECORD_STUFFER_NEEDS_DRAINING
| S2N_ERR_MISSING_EXTENSION
| S2N_ERR_UNSUPPORTED_EXTENSION
| S2N_ERR_DUPLICATE_EXTENSION
| S2N_ERR_MAX_EARLY_DATA_SIZE
| S2N_ERR_EARLY_DATA_TRIAL_DECRYPT
| S2N_ERR_NO_RENEGOTIATION
| S2N_ERR_KTLS_KEYUPDATE
| S2N_ERR_MADVISE
| S2N_ERR_ALLOC
| S2N_ERR_MLOCK
| S2N_ERR_MUNLOCK
| S2N_ERR_FSTAT
| S2N_ERR_OPEN
| S2N_ERR_MMAP
| S2N_ERR_ATEXIT
| S2N_ERR_NOMEM
| S2N_ERR_NULL
| S2N_ERR_SAFETY
| S2N_ERR_INITIALIZED
| S2N_ERR_NOT_INITIALIZED
| S2N_ERR_RANDOM_UNINITIALIZED
| S2N_ERR_OPEN_RANDOM
| S2N_ERR_RESIZE_STATIC_STUFFER
| S2N_ERR_RESIZE_TAINTED_STUFFER
| S2N_ERR_STUFFER_OUT_OF_DATA
| S2N_ERR_STUFFER_IS_FULL
| S2N_ERR_STUFFER_NOT_FOUND
| S2N_ERR_STUFFER_HAS_UNPROCESSED_DATA
| S2N_ERR_HASH_INVALID_ALGORITHM
| S2N_ERR_PRF_INVALID_ALGORITHM
| S2N_ERR_PRF_INVALID_SEED
| S2N_ERR_PRF_DERIVE
| S2N_ERR_P_HASH_INVALID_ALGORITHM
| S2N_ERR_P_HASH_INIT_FAILED
| S2N_ERR_P_HASH_UPDATE_FAILED
| S2N_ERR_P_HASH_FINAL_FAILED
| S2N_ERR_P_HASH_WIPE_FAILED
| S2N_ERR_HMAC_INVALID_ALGORITHM
| S2N_ERR_HKDF_OUTPUT_SIZE
| S2N_ERR_HKDF
| S2N_ERR_ALERT_PRESENT
| S2N_ERR_HANDSHAKE_STATE
| S2N_ERR_SHUTDOWN_PAUSED
| S2N_ERR_SIZE_MISMATCH
| S2N_ERR_DRBG
| S2N_ERR_DRBG_REQUEST_SIZE
| S2N_ERR_KEY_CHECK
| S2N_ERR_CIPHER_TYPE
| S2N_ERR_MAP_DUPLICATE
| S2N_ERR_MAP_IMMUTABLE
| S2N_ERR_MAP_MUTABLE
| S2N_ERR_MAP_INVALID_MAP_SIZE
| S2N_ERR_INITIAL_HMAC
| S2N_ERR_INVALID_NONCE_TYPE
| S2N_ERR_UNIMPLEMENTED
| S2N_ERR_HANDSHAKE_UNREACHABLE
| S2N_ERR_READ
| S2N_ERR_WRITE
| S2N_ERR_BAD_FD
| S2N_ERR_RDRAND_FAILED
| S2N_ERR_FAILED_CACHE_RETRIEVAL
| S2N_ERR_X509_TRUST_STORE
| S2N_ERR_UNKNOWN_PROTOCOL_VERSION
| S2N_ERR_NULL_CN_NAME
| S2N_ERR_NULL_SANS
| S2N_ERR_CLIENT_HELLO_VERSION
| S2N_ERR_CLIENT_PROTOCOL_VERSION
| S2N_ERR_SERVER_PROTOCOL_VERSION
| S2N_ERR_ACTUAL_PROTOCOL_VERSION
| S2N_ERR_POLLING_FROM_SOCKET
| S2N_ERR_RECV_STUFFER_FROM_CONN
| S2N_ERR_SEND_STUFFER_TO_CONN
| S2N_ERR_PRECONDITION_VIOLATION
| S2N_ERR_POSTCONDITION_VIOLATION
| S2N_ERR_INTEGER_OVERFLOW
| S2N_ERR_ARRAY_INDEX_OOB
| S2N_ERR_FREE_STATIC_BLOB
| S2N_ERR_RESIZE_STATIC_BLOB
| S2N_ERR_RECORD_LENGTH_TOO_LARGE
| S2N_ERR_SET_DUPLICATE_VALUE
| S2N_ERR_INVALID_PARSED_EXTENSIONS
| S2N_ERR_ASYNC_CALLBACK_FAILED
| S2N_ERR_ASYNC_MORE_THAN_ONE
| S2N_ERR_PQ_CRYPTO
| S2N_ERR_INVALID_CERT_STATE
| S2N_ERR_INVALID_EARLY_DATA_STATE
| S2N_ERR_PKEY_CTX_INIT
| S2N_ERR_FORK_DETECTION_INIT
| S2N_ERR_RETRIEVE_FORK_GENERATION_NUMBER
| S2N_ERR_LIBCRYPTO_VERSION_NUMBER_MISMATCH
| S2N_ERR_LIBCRYPTO_VERSION_NAME_MISMATCH
| S2N_ERR_INTERNAL_LIBCRYPTO_ERROR
| S2N_ERR_OSSL_PROVIDER
| S2N_ERR_BAD_HEX
| S2N_ERR_TEST_ASSERTION
| S2N_ERR_CONFIG_NULL_BEFORE_CH_CALLBACK
| S2N_ERR_ZERO_LIFETIME_TICKET
| S2N_ERR_NO_ALERT
| S2N_ERR_SERVER_MODE
| S2N_ERR_CLIENT_MODE
| S2N_ERR_CLIENT_MODE_DISABLED
| S2N_ERR_TOO_MANY_CERTIFICATES
| S2N_ERR_TOO_MANY_SIGNATURE_SCHEMES
| S2N_ERR_CLIENT_AUTH_NOT_SUPPORTED_IN_FIPS_MODE
| S2N_ERR_INVALID_BASE64
| S2N_ERR_INVALID_HEX
| S2N_ERR_INVALID_PEM
| S2N_ERR_DH_PARAMS_CREATE
| S2N_ERR_DH_TOO_SMALL
| S2N_ERR_DH_PARAMETER_CHECK
| S2N_ERR_INVALID_PKCS3
| S2N_ERR_NO_CERTIFICATE_IN_PEM
| S2N_ERR_SERVER_NAME_TOO_LONG
| S2N_ERR_NUM_DEFAULT_CERTIFICATES
| S2N_ERR_MULTIPLE_DEFAULT_CERTIFICATES_PER_AUTH_TYPE
| S2N_ERR_INVALID_CIPHER_PREFERENCES
| S2N_ERR_INVALID_APPLICATION_PROTOCOL
| S2N_ERR_KEY_MISMATCH
| S2N_ERR_SEND_SIZE
| S2N_ERR_CORK_SET_ON_UNMANAGED
| S2N_ERR_UNRECOGNIZED_EXTENSION
| S2N_ERR_EXTENSION_NOT_RECEIVED
| S2N_ERR_INVALID_SCT_LIST
| S2N_ERR_INVALID_OCSP_RESPONSE
| S2N_ERR_UPDATING_EXTENSION
| S2N_ERR_INVALID_SERIALIZED_SESSION_STATE
| S2N_ERR_SERIALIZED_SESSION_STATE_TOO_LONG
| S2N_ERR_SESSION_ID_TOO_LONG
| S2N_ERR_CLIENT_AUTH_NOT_SUPPORTED_IN_SESSION_RESUMPTION_MODE
| S2N_ERR_INVALID_TICKET_KEY_LENGTH
| S2N_ERR_INVALID_TICKET_KEY_NAME_OR_NAME_LENGTH
| S2N_ERR_TICKET_KEY_NOT_UNIQUE
| S2N_ERR_TICKET_KEY_LIMIT
| S2N_ERR_NO_TICKET_ENCRYPT_DECRYPT_KEY
| S2N_ERR_ENCRYPT_DECRYPT_KEY_SELECTION_FAILED
| S2N_ERR_KEY_USED_IN_SESSION_TICKET_NOT_FOUND
| S2N_ERR_SENDING_NST
| S2N_ERR_INVALID_DYNAMIC_THRESHOLD
| S2N_ERR_INVALID_ARGUMENT
| S2N_ERR_NOT_IN_UNIT_TEST
| S2N_ERR_NOT_IN_TEST
| S2N_ERR_UNSUPPORTED_CPU
| S2N_ERR_SESSION_ID_TOO_SHORT
| S2N_ERR_CONNECTION_CACHING_DISALLOWED
| S2N_ERR_SESSION_TICKET_NOT_SUPPORTED
| S2N_ERR_OCSP_NOT_SUPPORTED
| S2N_ERR_INVALID_SIGNATURE_ALGORITHMS_PREFERENCES
| S2N_ERR_RSA_PSS_NOT_SUPPORTED
| S2N_ERR_INVALID_ECC_PREFERENCES
| S2N_ERR_DEPRECATED_SECURITY_POLICY
| S2N_ERR_INVALID_SECURITY_POLICY
| S2N_ERR_INVALID_KEM_PREFERENCES
| S2N_ERR_ASYNC_ALREADY_PERFORMED
| S2N_ERR_ASYNC_NOT_PERFORMED
| S2N_ERR_ASYNC_WRONG_CONNECTION
| S2N_ERR_ASYNC_ALREADY_APPLIED
| S2N_ERR_UNSUPPORTED_WITH_QUIC
| S2N_ERR_DUPLICATE_PSK_IDENTITIES
| S2N_ERR_OFFERED_PSKS_TOO_LONG
| S2N_ERR_INVALID_SESSION_TICKET
| S2N_ERR_REENTRANCY
| S2N_ERR_INVALID_STATE
| S2N_ERR_EARLY_DATA_NOT_ALLOWED
| S2N_ERR_NO_CERT_FOUND
| S2N_ERR_CERT_NOT_VALIDATED
| S2N_ERR_NO_PRIVATE_KEY
| S2N_ERR_PSK_MODE
| S2N_ERR_X509_EXTENSION_VALUE_NOT_FOUND
| S2N_ERR_INVALID_X509_EXTENSION_TYPE
| S2N_ERR_INSUFFICIENT_MEM_SIZE
| S2N_ERR_KEYING_MATERIAL_EXPIRED
| S2N_ERR_SECRET_SCHEDULE_STATE
| S2N_ERR_CERT_OWNERSHIP
| S2N_ERR_HANDSHAKE_NOT_COMPLETE
| S2N_ERR_KTLS_MANAGED_IO
| S2N_ERR_KTLS_UNSUPPORTED_PLATFORM
| S2N_ERR_KTLS_UNSUPPORTED_CONN
| S2N_ERR_KTLS_ENABLE
| S2N_ERR_KTLS_BAD_CMSG
| S2N_ERR_KTLS_RENEG
| S2N_ERR_ATOMIC
| S2N_ERR_KTLS_KEY_LIMIT
| S2N_ERR_SECURITY_POLICY_INCOMPATIBLE_CERT
| S2N_ERR_INVALID_SERIALIZED_CONNECTION
| S2N_ERR_TOO_MANY_CAS
| S2N_ERR_API_UNSUPPORTED_BY_LIBCRYPTO
| S2N_ERR_FIPS_MODE_UNSUPPORTED.

(** Members of the category [S2N_ERR_T_OK], in order. *)
Definition errors_T_OK : list s2n_error :=
  [S2N_ERR_OK].

(** Members of the category [S2N_ERR_T_IO], in order. *)
Definition errors_T_IO : list s2n_error :=
  [S2N_ERR_IO].

(** Members of the category [S2N_ERR_T_CLOSED], in order. *)
Definition errors_T_CLOSED : list s2n_error :=
  [S2N_ERR_CLOSED].

(** Members of the category [S2N_ERR_T_BLOCKED], in order. *)
Definition errors_T_BLOCKED : list s2n_error :=
  [S2N_ERR_IO_BLOCKED;
   S2N_ERR_ASYNC_BLOCKED;
   S2N_ERR_EARLY_DATA_BLOCKED;
   S2N_ERR_APP_DATA_BLOCKED].

(** Members of the category [S2N_ERR_T_ALERT], in order. *)
Definition errors_T_ALERT : list s2n_error :=
  [S2N_ERR_ALERT].

(** Members of the category [S2N_ERR_T_PROTO], in order. *)
Definition errors_T_PROTO : list s2n_error :=
  [S2N_ERR_ENCRYPT;
   S2N_ERR_DECRYPT;
   S2N_ERR_BAD_MESSAGE;
   S2N_ERR_UNEXPECTED_CERT_REQUEST;
   S2N_ERR_MISSING_CERT_REQUEST;
   S2N_ERR_MISSING_CLIENT_CERT;
   S2N_ERR_KEY_INIT;
   S2N_ERR_KEY_DESTROY;
   S2N_ERR_DH_SERIALIZING;
   S2N_ERR_DH_SHARED_SECRET;
   S2N_ERR_DH_WRITING_PUBLIC_KEY;
   S2N_ERR_DH_FAILED_SIGNING;
   S2N_ERR_DH_COPYING_PARAMETERS;
   S2N_ERR_DH_GENERATING_PARAMETERS;
   S2N_ERR_CIPHER_NOT_SUPPORTED;
   S2N_ERR_NO_APPLICATION_PROTOCOL;
   S2N_ERR_FALLBACK_DETECTED;
   S2N_ERR_HASH_DIGEST_FAILED;
   S2N_ERR_HASH_INIT_FAILED;
   S2N_ERR_HASH_UPDATE_FAILED;
   S2N_ERR_HASH_COPY_FAILED;
   S2N_ERR_HASH_WIPE_FAILED;
   S2N_ERR_HASH_NOT_READY;
   S2N_ERR_ALLOW_MD5_FOR_FIPS_FAILED;
   S2N_ERR_DECODE_CERTIFICATE;
   S2N_ERR_DECODE_PRIVATE_KEY;
   S2N_ERR_INVALID_HELLO_RETRY;
   S2N_ERR_INVALID_SIGNATURE_ALGORITHM;
   S2N_ERR_INVALID_SIGNATURE_SCHEME;
   S2N_ERR_NO_VALID_SIGNATURE_SCHEME;
   S2N_ERR_CBC_VERIFY;
   S2N_ERR_DH_COPYING_PUBLIC_KEY;
   S2N_ERR_SIGN;
   S2N_ERR_VERIFY_SIGNATURE;
   S2N_ERR_ECDHE_GEN_KEY;
   S2N_ERR_ECDHE_SHARED_SECRET;
   S2N_ERR_ECDHE_UNSUPPORTED_CURVE;
   S2N_ERR_ECDHE_INVALID_PUBLIC_KEY;
   S2N_ERR_ECDHE_INVALID_PUBLIC_KEY_FIPS;
   S2N_ERR_ECDSA_UNSUPPORTED_CURVE;
   S2N_ERR_ECDHE_SERIALIZING;
   S2N_ERR_KEM_UNSUPPORTED_PARAMS;
   S2N_ERR_SHUTDOWN_RECORD_TYPE;
   S2N_ERR_SHUTDOWN_CLOSED;
   S2N_ERR_NON_EMPTY_RENEGOTIATION_INFO;
   S2N_ERR_RECORD_LIMIT;
   S2N_ERR_CERT_UNTRUSTED;
   S2N_ERR_CERT_REVOKED;
   S2N_ERR_CERT_NOT_YET_VALID;
   S2N_ERR_CERT_EXPIRED;
   S2N_ERR_CERT_TYPE_UNSUPPORTED;
   S2N_ERR_CERT_INVALID;
   S2N_ERR_CERT_MAX_CHAIN_DEPTH_EXCEEDED;
   S2N_ERR_CERT_REJECTED;
   S2N_ERR_CRL_LOOKUP_FAILED;
   S2N_ERR_CRL_SIGNATURE;
   S2N_ERR_CRL_ISSUER;
   S2N_ERR_CRL_UNHANDLED_CRITICAL_EXTENSION;
   S2N_ERR_CRL_INVALID_THIS_UPDATE;
   S2N_ERR_CRL_INVALID_NEXT_UPDATE;
   S2N_ERR_CRL_NOT_YET_VALID;
   S2N_ERR_CRL_EXPIRED;
   S2N_ERR_INVALID_MAX_FRAG_LEN;
   S2N_ERR_MAX_FRAG_LEN_MISMATCH;
   S2N_ERR_PROTOCOL_VERSION_UNSUPPORTED;
   S2N_ERR_BAD_KEY_SHARE;
   S2N_ERR_CANCELLED;
   S2N_ERR_PROTOCOL_DOWNGRADE_DETECTED;
   S2N_ERR_MAX_INNER_PLAINTEXT_SIZE;
   S2N_ERR_RECORD_STUFFER_SIZE;
   S2N_ERR_FRAGMENT_LENGTH_TOO_LARGE;
   S2N_ERR_FRAGMENT_LENGTH_TOO_SMALL;
   S2N_ERR_RECORD_STUFFER_NEEDS_DRAINING;
   S2N_ERR_MISSING_EXTENSION;
   S2N_ERR_UNSUPPORTED_EXTENSION;
   S2N_ERR_DUPLICATE_EXTENSION;
   S2N_ERR_MAX_EARLY_DATA_SIZE;
   S2N_ERR_EARLY_DATA_TRIAL_DECRYPT;
   S2N_ERR_NO_RENEGOTIATION;
   S2N_ERR_KTLS_KEYUPDATE].

(** Members of the category [S2N_ERR_T_INTERNAL], in order. *)
Definition errors_T_INTERNAL : list s2n_error :=
  [S2N_ERR_MADVISE;
   S2N_ERR_ALLOC;
   S2N_ERR_MLOCK;
   S2N_ERR_MUNLOCK;
   S2N_ERR_FSTAT;
   S2N_ERR_OPEN;
   S2N_ERR_MMAP;
   S2N_ERR_ATEXIT;
   S2N_ERR_NOMEM;
   S2N_ERR_NULL;
   S2N_ERR_SAFETY;
   S2N_ERR_INITIALIZED;
   S2N_ERR_NOT_INITIALIZED;
   S2N_ERR_RANDOM_UNINITIALIZED;
   S2N_ERR_OPEN_RANDOM;
   S2N_ERR_RESIZE_STATIC_STUFFER;
   S2N_ERR_RESIZE_TAINTED_STUFFER;
   S2N_ERR_STUFFER_OUT_OF_DATA;
   S2N_ERR_STUFFER_IS_FULL;
   S2N_ERR_STUFFER_NOT_FOUND;
   S2N_ERR_STUFFER_HAS_UNPROCESSED_DATA;
   S2N_ERR_HASH_INVALID_ALGORITHM;
   S2N_ERR_PRF_INVALID_ALGORITHM;
   S2N_ERR_PRF_INVALID_SEED;
   S2N_ERR_PRF_DERIVE;
   S2N_ERR_P_HASH_INVALID_ALGORITHM;
   S2N_ERR_P_HASH_INIT_FAILED;
   S2N_ERR_P_HASH_UPDATE_FAILED;
   S2N_ERR_P_HASH_FINAL_FAILED;
   S2N_ERR_P_HASH_WIPE_FAILED;
   S2N_ERR_HMAC_INVALID_ALGORITHM;
   S2N_ERR_HKDF_OUTPUT_SIZE;
   S2N_ERR_HKDF;
   S2N_ERR_ALERT_PRESENT;
   S2N_ERR_HANDSHAKE_STATE;
   S2N_ERR_SHUTDOWN_PAUSED;
   S2N_ERR_SIZE_MISMATCH;
   S2N_ERR_DRBG;
   S2N_ERR_DRBG_REQUEST_SIZE;
   S2N_ERR_KEY_CHECK;
   S2N_ERR_CIPHER_TYPE;
   S2N_ERR_MAP_DUPLICATE;
   S2N_ERR_MAP_IMMUTABLE;
   S2N_ERR_MAP_MUTABLE;
   S2N_ERR_MAP_INVALID_MAP_SIZE;
   S2N_ERR_INITIAL_HMAC;
   S2N_ERR_INVALID_NONCE_TYPE;
   S2N_ERR_UNIMPLEMENTED;
   S2N_ERR_HANDSHAKE_UNREACHABLE;
   S2N_ERR_READ;
   S2N_ERR_WRITE;
   S2N_ERR_BAD_FD;
   S2N_ERR_RDRAND_FAILED;
   S2N_ERR_FAILED_CACHE_RETRIEVAL;
   S2N_ERR_X509_TRUST_STORE;
   S2N_ERR_UNKNOWN_PROTOCOL_VERSION;
   S2N_ERR_NULL_CN_NAME;
   S2N_ERR_NULL_SANS;
   S2N_ERR_CLIENT_HELLO_VERSION;
   S2N_ERR_CLIENT_PROTOCOL_VERSION;
   S2N_ERR_SERVER_PROTOCOL_VERSION;
   S2N_ERR_ACTUAL_PROTOCOL_VERSION;
   S2N_ERR_POLLING_FROM_SOCKET;
   S2N_ERR_RECV_STUFFER_FROM_CONN;
   S2N_ERR_SEND_STUFFER_TO_CONN;
   S2N_ERR_PRECONDITION_VIOLATION;
   S2N_ERR_POSTCONDITION_VIOLATION;
   S2N_ERR_INTEGER_OVERFLOW;
   S2N_ERR_ARRAY_INDEX_OOB;
   S2N_ERR_FREE_STATIC_BLOB;
   S2N_ERR_RESIZE_STATIC_BLOB;
   S2N_ERR_RECORD_LENGTH_TOO_LARGE;
   S2N_ERR_SET_DUPLICATE_VALUE;
   S2N_ERR_INVALID_PARSED_EXTENSIONS;
   S2N_ERR_ASYNC_CALLBACK_FAILED;
   S2N_ERR_ASYNC_MORE_THAN_ONE;
   S2N_ERR_PQ_CRYPTO;
   S2N_ERR_INVALID_CERT_STATE;
   S2N_ERR_INVALID_EARLY_DATA_STATE;
   S2N_ERR_PKEY_CTX_INIT;
   S2N_ERR_FORK_DETECTION_INIT;
   S2N_ERR_RETRIEVE_FORK_GENERATION_NUMBER;
   S2N_ERR_LIBCRYPTO_VERSION_NUMBER_MISMATCH;
   S2N_ERR_LIBCRYPTO_VERSION_NAME_MISMATCH;
   S2N_ERR_INTERNAL_LIBCRYPTO_ERROR;
   S2N_ERR_OSSL_PROVIDER;
   S2N_ERR_BAD_HEX;
   S2N_ERR_TEST_ASSERTION;
   S2N_ERR_CONFIG_NULL_BEFORE_CH_CALLBACK;
   S2N_ERR_ZERO_LIFETIME_TICKET].

(** Members of the category [S2N_ERR_T_USAGE], in order. *)
Definition errors_T_USAGE : list s2n_error :=
  [S2N_ERR_NO_ALERT;
   S2N_ERR_SERVER_MODE;
   S2N_ERR_CLIENT_MODE;
   S2N_ERR_CLIENT_MODE_DISABLED;
   S2N_ERR_TOO_MANY_CERTIFICATES;
   S2N_ERR_TOO_MANY_SIGNATURE_SCHEMES;
   S2N_ERR_CLIENT_AUTH_NOT_SUPPORTED_IN_FIPS_MODE;
   S2N_ERR_INVALID_BASE64;
   S2N_ERR_INVALID_HEX;
   S2N_ERR_INVALID_PEM;
   S2N_ERR_DH_PARAMS_CREATE;
   S2N_ERR_DH_TOO_SMALL;
   S2N_ERR_DH_PARAMETER_CHECK;
   S2N_ERR_INVALID_PKCS3;
   S2N_ERR_NO_CERTIFICATE_IN_PEM;
   S2N_ERR_SERVER_NAME_TOO_LONG;
   S2N_ERR_NUM_DEFAULT_CERTIFICATES;
   S2N_ERR_MULTIPLE_DEFAULT_CERTIFICATES_PER_AUTH_TYPE;
   S2N_ERR_INVALID_CIPHER_PREFERENCES;
   S2N_ERR_INVALID_APPLICATION_PROTOCOL;
   S2N_ERR_KEY_MISMATCH;
   S2N_ERR_SEND_SIZE;
   S2N_ERR_CORK_SET_ON_UNMANAGED;
   S2N_ERR_UNRECOGNIZED_EXTENSION;
   S2N_ERR_EXTENSION_NOT_RECEIVED;
   S2N_ERR_INVALID_SCT_LIST;
   S2N_ERR_INVALID_OCSP_RESPONSE;
   S2N_ERR_UPDATING_EXTENSION;
   S2N_ERR_INVALID_SERIALIZED_SESSION_STATE;
   S2N_ERR_SERIALIZED_SESSION_STATE_TOO_LONG;
   S2N_ERR_SESSION_ID_TOO_LONG;
   S2N_ERR_CLIENT_AUTH_NOT_SUPPORTED_IN_SESSION_RESUMPTION_MODE;
   S2N_ERR_INVALID_TICKET_KEY_LENGTH;
   S2N_ERR_INVALID_TICKET_KEY_NAME_OR_NAME_LENGTH;
   S2N_ERR_TICKET_KEY_NOT_UNIQUE;
   S2N_ERR_TICKET_KEY_LIMIT;
   S2N_ERR_NO_TICKET_ENCRYPT_DECRYPT_KEY;
   S2N_ERR_ENCRYPT_DECRYPT_KEY_SELECTION_FAILED;
   S2N_ERR_KEY_USED_IN_SESSION_TICKET_NOT_FOUND;
   S2N_ERR_SENDING_NST;
   S2N_ERR_INVALID_DYNAMIC_THRESHOLD;
   S2N_ERR_INVALID_ARGUMENT;
   S2N_ERR_NOT_IN_UNIT_TEST;
   S2N_ERR_NOT_IN_TEST;
   S2N_ERR_UNSUPPORTED_CPU;
   S2N_ERR_SESSION_ID_TOO_SHORT;
   S2N_ERR_CONNECTION_CACHING_DISALLOWED;
   S2N_ERR_SESSION_TICKET_NOT_SUPPORTED;
   S2N_ERR_OCSP_NOT_SUPPORTED;
   S2N_ERR_INVALID_SIGNATURE_ALGORITHMS_PREFERENCES;
   S2N_ERR_RSA_PSS_NOT_SUPPORTED;
   S2N_ERR_INVALID_ECC_PREFERENCES;
   S2N_ERR_DEPRECATED_SECURITY_POLICY;
   S2N_ERR_INVALID_SECURITY_POLICY;
   S2N_ERR_INVALID_KEM_PREFERENCES;
   S2N_ERR_ASYNC_ALREADY_PERFORMED;
   S2N_ERR_ASYNC_NOT_PERFORMED;
   S2N_ERR_ASYNC_WRONG_CONNECTION;
   S2N_ERR_ASYNC_ALREADY_APPLIED;
   S2N_ERR_UNSUPPORTED_WITH_QUIC;
   S2N_ERR_DUPLICATE_PSK_IDENTITIES;
   S2N_ERR_OFFERED_PSKS_TOO_LONG;
   S2N_ERR_INVALID_SESSION_TICKET;
   S2N_ERR_REENTRANCY;
   S2N_ERR_INVALID_STATE;
   S2N_ERR_EARLY_DATA_NOT_ALLOWED;
   S2N_ERR_NO_CERT_FOUND;
   S2N_ERR_CERT_NOT_VALIDATED;
   S2N_ERR_NO_PRIVATE_KEY;
   S2N_ERR_PSK_MODE;
   S2N_ERR_X509_EXTENSION_VALUE_NOT_FOUND;
   S2N_ERR_INVALID_X509_EXTENSION_TYPE;
   S2N_ERR_INSUFFICIENT_MEM_SIZE;
   S2N_ERR_KEYING_MATERIAL_EXPIRED;
   S2N_ERR_SECRET_SCHEDULE_STATE;
   S2N_ERR_CERT_OWNERSHIP;
   S2N_ERR_HANDSHAKE_NOT_COMPLETE;
   S2N_ERR_KTLS_MANAGED_IO;
   S2N_ERR_KTLS_UNSUPPORTED_PLATFORM;
   S2N_ERR_KTLS_UNSUPPORTED_CONN;
   S2N_ERR_KTLS_ENABLE;
   S2N_ERR_KTLS_BAD_CMSG;
   S2N_ERR_KTLS_RENEG;
   S2N_ERR_ATOMIC;
   S2N_ERR_KTLS_KEY_LIMIT;
   S2N_ERR_SECURITY_POLICY_INCOMPATIBLE_CERT;
   S2N_ERR_INVALID_SERIALIZED_CONNECTION;
   S2N_ERR_TOO_MANY_CAS;
   S2N_ERR_API_UNSUPPORTED_BY_LIBCRYPTO;
   S2N_ERR_FIPS_MODE_UNSUPPORTED].

Definition errors_of_type (t : s2n_error_type) : list s2n_error :=
  match t with
  | S2N_ERR_T_OK => errors_T_OK
  | S2N_ERR_T_IO => errors_T_IO
  | S2N_ERR_T_CLOSED => errors_T_CLOSED
  | S2N_ERR_T_BLOCKED => errors_T_BLOCKED
  | S2N_ERR_T_ALERT => errors_T_ALERT
  | S2N_ERR_T_PROTO => errors_T_PROTO
  | S2N_ERR_T_INTERNAL => errors_T_INTERNAL
  | S2N_ERR_T_USAGE => errors_T_USAGE
  end.

(** The category of a member and its rank in the category, the two halves of the
    enum value. *)
Definition error_position (e : s2n_error) : s2n_error_type * Z :=
  match e with
  | S2N_ERR_OK => (S2N_ERR_T_OK, 0)
  | S2N_ERR_IO => (S2N_ERR_T_IO, 0)
  | S2N_ERR_CLOSED => (S2N_ERR_T_CLOSED, 0)
  | S2N_ERR_IO_BLOCKED => (S2N_ERR_T_BLOCKED, 0)
  | S2N_ERR_ASYNC_BLOCKED => (S2N_ERR_T_BLOCKED, 1)
  | S2N_ERR_EARLY_DATA_BLOCKED => (S2N_ERR_T_BLOCKED, 2)
  | S2N_ERR_APP_DATA_BLOCKED => (S2N_ERR_T_BLOCKED, 3)
  | S2N_ERR_ALERT => (S2N_ERR_T_ALERT, 0)
  | S2N_ERR_ENCRYPT => (S2N_ERR_T_PROTO, 0)
  | S2N_ERR_DECRYPT => (S2N_ERR_T_PROTO, 1)
  | S2N_ERR_BAD_MESSAGE => (S2N_ERR_T_PROTO, 2)
  | S2N_ERR_UNEXPECTED_CERT_REQUEST => (S2N_ERR_T_PROTO, 3)
  | S2N_ERR_MISSING_CERT_REQUEST => (S2N_ERR_T_PROTO, 4)
  | S2N_ERR_MISSING_CLIENT_CERT => (S2N_ERR_T_PROTO, 5)
  | S2N_ERR_KEY_INIT => (S2N_ERR_T_PROTO, 6)
  | S2N_ERR_KEY_DESTROY => (S2N_ERR_T_PROTO, 7)
  | S2N_ERR_DH_SERIALIZING => (S2N_ERR_T_PROTO, 8)
  | S2N_ERR_DH_SHARED_SECRET => (S2N_ERR_T_PROTO, 9)
  | S2N_ERR_DH_WRITING_PUBLIC_KEY => (S2N_ERR_T_PROTO, 10)
  | S2N_ERR_DH_FAILED_SIGNING => (S2N_ERR_T_PROTO, 11)
  | S2N_ERR_DH_COPYING_PARAMETERS => (S2N_ERR_T_PROTO, 12)
  | S2N_ERR_DH_GENERATING_PARAMETERS => (S2N_ERR_T_PROTO, 13)
  | S2N_ERR_CIPHER_NOT_SUPPORTED => (S2N_ERR_T_PROTO, 14)
  | S2N_ERR_NO_APPLICATION_PROTOCOL => (S2N_ERR_T_PROTO, 15)
  | S2N_ERR_FALLBACK_DETECTED => (S2N_ERR_T_PROTO, 16)
  | S2N_ERR_HASH_DIGEST_FAILED => (S2N_ERR_T_PROTO, 17)
  | S2N_ERR_HASH_INIT_FAILED => (S2N_ERR_T_PROTO, 18)
  | S2N_ERR_HASH_UPDATE_FAILED => (S2N_ERR_T_PROTO, 19)
  | S2N_ERR_HASH_COPY_FAILED => (S2N_ERR_T_PROTO, 20)
  | S2N_ERR_HASH_WIPE_FAILED => (S2N_ERR_T_PROTO, 21)
  | S2N_ERR_HASH_NOT_READY => (S2N_ERR_T_PROTO, 22)
  | S2N_ERR_ALLOW_MD5_FOR_FIPS_FAILED => (S2N_ERR_T_PROTO, 23)
  | S2N_ERR_DECODE_CERTIFICATE => (S2N_ERR_T_PROTO, 24)
  | S2N_ERR_DECODE_PRIVATE_KEY => (S2N_ERR_T_PROTO, 25)
  | S2N_ERR_INVALID_HELLO_RETRY => (S2N_ERR_T_PROTO, 26)
  | S2N_ERR_INVALID_SIGNATURE_ALGORITHM => (S2N_ERR_T_PROTO, 27)
  | S2N_ERR_INVALID_SIGNATURE_SCHEME => (S2N_ERR_T_PROTO, 28)
  | S2N_ERR_NO_VALID_SIGNATURE_SCHEME => (S2N_ERR_T_PROTO, 29)
  | S2N_ERR_CBC_VERIFY => (S2N_ERR_T_PROTO, 30)
  | S2N_ERR_DH_COPYING_PUBLIC_KEY => (S2N_ERR_T_PROTO, 31)
  | S2N_ERR_SIGN => (S2N_ERR_T_PROTO, 32)
  | S2N_ERR_VERIFY_SIGNATURE => (S2N_ERR_T_PROTO, 33)
  | S2N_ERR_ECDHE_GEN_KEY => (S2N_ERR_T_PROTO, 34)
  | S2N_ERR_ECDHE_SHARED_SECRET => (S2N_ERR_T_PROTO, 35)
  | S2N_ERR_ECDHE_UNSUPPORTED_CURVE => (S2N_ERR_T_PROTO, 36)
  | S2N_ERR_ECDHE_INVALID_PUBLIC_KEY => (S2N_ERR_T_PROTO, 37)
  | S2N_ERR_ECDHE_INVALID_PUBLIC_KEY_FIPS => (S2N_ERR_T_PROTO, 38)
  | S2N_ERR_ECDSA_UNSUPPORTED_CURVE => (S2N_ERR_T_PROTO, 39)
  | S2N_ERR_ECDHE_SERIALIZING => (S2N_ERR_T_PROTO, 40)
  | S2N_ERR_KEM_UNSUPPORTED_PARAMS => (S2N_ERR_T_PROTO, 41)
  | S2N_ERR_SHUTDOWN_RECORD_TYPE => (S2N_ERR_T_PROTO, 42)
  | S2N_ERR_SHUTDOWN_CLOSED => (S2N_ERR_T_PROTO, 43)
  | S2N_ERR_NON_EMPTY_RENEGOTIATION_INFO => (S2N_ERR_T_PROTO, 44)
  | S2N_ERR_RECORD_LIMIT => (S2N_ERR_T_PROTO, 45)
  | S2N_ERR_CERT_UNTRUSTED => (S2N_ERR_T_PROTO, 46)
  | S2N_ERR_CERT_REVOKED => (S2N_ERR_T_PROTO, 47)
  | S2N_ERR_CERT_NOT_YET_VALID => (S2N_ERR_T_PROTO, 48)
  | S2N_ERR_CERT_EXPIRED => (S2N_ERR_T_PROTO, 49)
  | S2N_ERR_CERT_TYPE_UNSUPPORTED => (S2N_ERR_T_PROTO, 50)
  | S2N_ERR_CERT_INVALID => (S2N_ERR_T_PROTO, 51)
  | S2N_ERR_CERT_MAX_CHAIN_DEPTH_EXCEEDED => (S2N_ERR_T_PROTO, 52)
  | S2N_ERR_CERT_REJECTED => (S2N_ERR_T_PROTO, 53)
  | S2N_ERR_CRL_LOOKUP_FAILED => (S2N_ERR_T_PROTO, 54)
  | S2N_ERR_CRL_SIGNATURE => (S2N_ERR_T_PROTO, 55)
  | S2N_ERR_CRL_ISSUER => (S2N_ERR_T_PROTO, 56)
  | S2N_ERR_CRL_UNHANDLED_CRITICAL_EXTENSION => (S2N_ERR_T_PROTO, 57)
  | S2N_ERR_CRL_INVALID_THIS_UPDATE => (S2N_ERR_T_PROTO, 58)
  | S2N_ERR_CRL_INVALID_NEXT_UPDATE => (S2N_ERR_T_PROTO, 59)
  | S2N_ERR_CRL_NOT_YET_VALID => (S2N_ERR_T_PROTO, 60)
  | S2N_ERR_CRL_EXPIRED => (S2N_ERR_T_PROTO, 61)
  | S2N_ERR_INVALID_MAX_FRAG_LEN => (S2N_ERR_T_PROTO, 62)
  | S2N_ERR_MAX_FRAG_LEN_MISMATCH => (S2N_ERR_T_PROTO, 63)
  | S2N_ERR_PROTOCOL_VERSION_UNSUPPORTED => (S2N_ERR_T_PROTO, 64)
  | S2N_ERR_BAD_KEY_SHARE => (S2N_ERR_T_PROTO, 65)
  | S2N_ERR_CANCELLED => (S2N_ERR_T_PROTO, 66)
  | S2N_ERR_PROTOCOL_DOWNGRADE_DETECTED => (S2N_ERR_T_PROTO, 67)
  | S2N_ERR_MAX_INNER_PLAINTEXT_SIZE => (S2N_ERR_T_PROTO, 68)
  | S2N_ERR_RECORD_STUFFER_SIZE => (S2N_ERR_T_PROTO, 69)
  | S2N_ERR_FRAGMENT_LENGTH_TOO_LARGE => (S2N_ERR_T_PROTO, 70)
  | S2N_ERR_FRAGMENT_LENGTH_TOO_SMALL => (S2N_ERR_T_PROTO, 71)
  | S2N_ERR_RECORD_STUFFER_NEEDS_DRAINING => (S2N_ERR_T_PROTO, 72)
  | S2N_ERR_MISSING_EXTENSION => (S2N_ERR_T_PROTO, 73)
  | S2N_ERR_UNSUPPORTED_EXTENSION => (S2N_ERR_T_PROTO, 74)
  | S2N_ERR_DUPLICATE_EXTENSION => (S2N_ERR_T_PROTO, 75)
  | S2N_ERR_MAX_EARLY_DATA_SIZE => (S2N_ERR_T_PROTO, 76)
  | S2N_ERR_EARLY_DATA_TRIAL_DECRYPT => (S2N_ERR_T_PROTO, 77)
  | S2N_ERR_NO_RENEGOTIATION => (S2N_ERR_T_PROTO, 78)
  | S2N_ERR_KTLS_KEYUPDATE => (S2N_ERR_T_PROTO, 79)
  | S2N_ERR_MADVISE => (S2N_ERR_T_INTERNAL, 0)
  | S2N_ERR_ALLOC => (S2N_ERR_T_INTERNAL, 1)
  | S2N_ERR_MLOCK => (S2N_ERR_T_INTERNAL, 2)
  | S2N_ERR_MUNLOCK => (S2N_ERR_T_INTERNAL, 3)
  | S2N_ERR_FSTAT => (S2N_ERR_T_INTERNAL, 4)
  | S2N_ERR_OPEN => (S2N_ERR_T_INTERNAL, 5)
  | S2N_ERR_MMAP => (S2N_ERR_T_INTERNAL, 6)
  | S2N_ERR_ATEXIT => (S2N_ERR_T_INTERNAL, 7)
  | S2N_ERR_NOMEM => (S2N_ERR_T_INTERNAL, 8)
  | S2N_ERR_NULL => (S2N_ERR_T_INTERNAL, 9)
  | S2N_ERR_SAFETY => (S2N_ERR_T_INTERNAL, 10)
  | S2N_ERR_INITIALIZED => (S2N_ERR_T_INTERNAL, 11)
  | S2N_ERR_NOT_INITIALIZED => (S2N_ERR_T_INTERNAL, 12)
  | S2N_ERR_RANDOM_UNINITIALIZED => (S2N_ERR_T_INTERNAL, 13)
  | S2N_ERR_OPEN_RANDOM => (S2N_ERR_T_INTERNAL, 14)
  | S2N_ERR_RESIZE_STATIC_STUFFER => (S2N_ERR_T_INTERNAL, 15)
  | S2N_ERR_RESIZE_TAINTED_STUFFER => (S2N_ERR_T_INTERNAL, 16)
  | S2N_ERR_STUFFER_OUT_OF_DATA => (S2N_ERR_T_INTERNAL, 17)
  | S2N_ERR_STUFFER_IS_FULL => (S2N_ERR_T_INTERNAL, 18)
  | S2N_ERR_STUFFER_NOT_FOUND => (S2N_ERR_T_INTERNAL, 19)
  | S2N_ERR_STUFFER_HAS_UNPROCESSED_DATA => (S2N_ERR_T_INTERNAL, 20)
  | S2N_ERR_HASH_INVALID_ALGORITHM => (S2N_ERR_T_INTERNAL, 21)
  | S2N_ERR_PRF_INVALID_ALGORITHM => (S2N_ERR_T_INTERNAL, 22)
  | S2N_ERR_PRF_INVALID_SEED => (S2N_ERR_T_INTERNAL, 23)
  | S2N_ERR_PRF_DERIVE => (S2N_ERR_T_INTERNAL, 24)
  | S2N_ERR_P_HASH_INVALID_ALGORITHM => (S2N_ERR_T_INTERNAL, 25)
  | S2N_ERR_P_HASH_INIT_FAILED => (S2N_ERR_T_INTERNAL, 26)
  | S2N_ERR_P_HASH_UPDATE_FAILED => (S2N_ERR_T_INTERNAL, 27)
  | S2N_ERR_P_HASH_FINAL_FAILED => (S2N_ERR_T_INTERNAL, 28)
  | S2N_ERR_P_HASH_WIPE_FAILED => (S2N_ERR_T_INTERNAL, 29)
  | S2N_ERR_HMAC_INVALID_ALGORITHM => (S2N_ERR_T_INTERNAL, 30)
  | S2N_ERR_HKDF_OUTPUT_SIZE => (S2N_ERR_T_INTERNAL, 31)
  | S2N_ERR_HKDF => (S2N_ERR_T_INTERNAL, 32)
  | S2N_ERR_ALERT_PRESENT => (S2N_ERR_T_INTERNAL, 33)
  | S2N_ERR_HANDSHAKE_STATE => (S2N_ERR_T_INTERNAL, 34)
  | S2N_ERR_SHUTDOWN_PAUSED => (S2N_ERR_T_INTERNAL, 35)
  | S2N_ERR_SIZE_MISMATCH => (S2N_ERR_T_INTERNAL, 36)
  | S2N_ERR_DRBG => (S2N_ERR_T_INTERNAL, 37)
  | S2N_ERR_DRBG_REQUEST_SIZE => (S2N_ERR_T_INTERNAL, 38)
  | S2N_ERR_KEY_CHECK => (S2N_ERR_T_INTERNAL, 39)
  | S2N_ERR_CIPHER_TYPE => (S2N_ERR_T_INTERNAL, 40)
  | S2N_ERR_MAP_DUPLICATE => (S2N_ERR_T_INTERNAL, 41)
  | S2N_ERR_MAP_IMMUTABLE => (S2N_ERR_T_INTERNAL, 42)
  | S2N_ERR_MAP_MUTABLE => (S2N_ERR_T_INTERNAL, 43)
  | S2N_ERR_MAP_INVALID_MAP_SIZE => (S2N_ERR_T_INTERNAL, 44)
  | S2N_ERR_INITIAL_HMAC => (S2N_ERR_T_INTERNAL, 45)
  | S2N_ERR_INVALID_NONCE_TYPE => (S2N_ERR_T_INTERNAL, 46)
  | S2N_ERR_UNIMPLEMENTED => (S2N_ERR_T_INTERNAL, 47)
  | S2N_ERR_HANDSHAKE_UNREACHABLE => (S2N_ERR_T_INTERNAL, 48)
  | S2N_ERR_READ => (S2N_ERR_T_INTERNAL, 49)
  | S2N_ERR_WRITE => (S2N_ERR_T_INTERNAL, 50)
  | S2N_ERR_BAD_FD => (S2N_ERR_T_INTERNAL, 51)
  | S2N_ERR_RDRAND_FAILED => (S2N_ERR_T_INTERNAL, 52)
  | S2N_ERR_FAILED_CACHE_RETRIEVAL => (S2N_ERR_T_INTERNAL, 53)
  | S2N_ERR_X509_TRUST_STORE => (S2N_ERR_T_INTERNAL, 54)
  | S2N_ERR_UNKNOWN_PROTOCOL_VERSION => (S2N_ERR_T_INTERNAL, 55)
  | S2N_ERR_NULL_CN_NAME => (S2N_ERR_T_INTERNAL, 56)
  | S2N_ERR_NULL_SANS => (S2N_ERR_T_INTERNAL, 57)
  | S2N_ERR_CLIENT_HELLO_VERSION => (S2N_ERR_T_INTERNAL, 58)
  | S2N_ERR_CLIENT_PROTOCOL_VERSION => (S2N_ERR_T_INTERNAL, 59)
  | S2N_ERR_SERVER_PROTOCOL_VERSION => (S2N_ERR_T_INTERNAL, 60)
  | S2N_ERR_ACTUAL_PROTOCOL_VERSION => (S2N_ERR_T_INTERNAL, 61)
  | S2N_ERR_POLLING_FROM_SOCKET => (S2N_ERR_T_INTERNAL, 62)
  | S2N_ERR_RECV_STUFFER_FROM_CONN => (S2N_ERR_T_INTERNAL, 63)
  | S2N_ERR_SEND_STUFFER_TO_CONN => (S2N_ERR_T_INTERNAL, 64)
  | S2N_ERR_PRECONDITION_VIOLATION => (S2N_ERR_T_INTERNAL, 65)
  | S2N_ERR_POSTCONDITION_VIOLATION => (S2N_ERR_T_INTERNAL, 66)
  | S2N_ERR_INTEGER_OVERFLOW => (S2N_ERR_T_INTERNAL, 67)
  | S2N_ERR_ARRAY_INDEX_OOB => (S2N_ERR_T_INTERNAL, 68)
  | S2N_ERR_FREE_STATIC_BLOB => (S2N_ERR_T_INTERNAL, 69)
  | S2N_ERR_RESIZE_STATIC_BLOB => (S2N_ERR_T_INTERNAL, 70)
  | S2N_ERR_RECORD_LENGTH_TOO_LARGE => (S2N_ERR_T_INTERNAL, 71)
  | S2N_ERR_SET_DUPLICATE_VALUE => (S2N_ERR_T_INTERNAL, 72)
  | S2N_ERR_INVALID_PARSED_EXTENSIONS => (S2N_ERR_T_INTERNAL, 73)
  | S2N_ERR_ASYNC_CALLBACK_FAILED => (S2N_ERR_T_INTERNAL, 74)
  | S2N_ERR_ASYNC_MORE_THAN_ONE => (S2N_ERR_T_INTERNAL, 75)
  | S2N_ERR_PQ_CRYPTO => (S2N_ERR_T_INTERNAL, 76)
  | S2N_ERR_INVALID_CERT_STATE => (S2N_ERR_T_INTERNAL, 77)
  | S2N_ERR_INVALID_EARLY_DATA_STATE => (S2N_ERR_T_INTERNAL, 78)
  | S2N_ERR_PKEY_CTX_INIT => (S2N_ERR_T_INTERNAL, 79)
  | S2N_ERR_FORK_DETECTION_INIT => (S2N_ERR_T_INTERNAL, 80)
  | S2N_ERR_RETRIEVE_FORK_GENERATION_NUMBER => (S2N_ERR_T_INTERNAL, 81)
  | S2N_ERR_LIBCRYPTO_VERSION_NUMBER_MISMATCH => (S2N_ERR_T_INTERNAL, 82)
  | S2N_ERR_LIBCRYPTO_VERSION_NAME_MISMATCH => (S2N_ERR_T_INTERNAL, 83)
  | S2N_ERR_INTERNAL_LIBCRYPTO_ERROR => (S2N_ERR_T_INTERNAL, 84)
  | S2N_ERR_OSSL_PROVIDER => (S2N_ERR_T_INTERNAL, 85)
  | S2N_ERR_BAD_HEX => (S2N_ERR_T_INTERNAL, 86)
  | S2N_ERR_TEST_ASSERTION => (S2N_ERR_T_INTERNAL, 87)
  | S2N_ERR_CONFIG_NULL_BEFORE_CH_CALLBACK => (S2N_ERR_T_INTERNAL, 88)
  | S2N_ERR_ZERO_LIFETIME_TICKET => (S2N_ERR_T_INTERNAL, 89)
  | S2N_ERR_NO_ALERT => (S2N_ERR_T_USAGE, 0)
  | S2N_ERR_SERVER_MODE => (S2N_ERR_T_USAGE, 1)
  | S2N_ERR_CLIENT_MODE => (S2N_ERR_T_USAGE, 2)
  | S2N_ERR_CLIENT_MODE_DISABLED => (S2N_ERR_T_USAGE, 3)
  | S2N_ERR_TOO_MANY_CERTIFICATES => (S2N_ERR_T_USAGE, 4)
  | S2N_ERR_TOO_MANY_SIGNATURE_SCHEMES => (S2N_ERR_T_USAGE, 5)
  | S2N_ERR_CLIENT_AUTH_NOT_SUPPORTED_IN_FIPS_MODE => (S2N_ERR_T_USAGE, 6)
  | S2N_ERR_INVALID_BASE64 => (S2N_ERR_T_USAGE, 7)
  | S2N_ERR_INVALID_HEX => (S2N_ERR_T_USAGE, 8)
  | S2N_ERR_INVALID_PEM => (S2N_ERR_T_USAGE, 9)
  | S2N_ERR_DH_PARAMS_CREATE => (S2N_ERR_T_USAGE, 10)
  | S2N_ERR_DH_TOO_SMALL => (S2N_ERR_T_USAGE, 11)
  | S2N_ERR_DH_PARAMETER_CHECK => (S2N_ERR_T_USAGE, 12)
  | S2N_ERR_INVALID_PKCS3 => (S2N_ERR_T_USAGE, 13)
  | S2N_ERR_NO_CERTIFICATE_IN_PEM => (S2N_ERR_T_USAGE, 14)
  | S2N_ERR_SERVER_NAME_TOO_LONG => (S2N_ERR_T_USAGE, 15)
  | S2N_ERR_NUM_DEFAULT_CERTIFICATES => (S2N_ERR_T_USAGE, 16)
  | S2N_ERR_MULTIPLE_DEFAULT_CERTIFICATES_PER_AUTH_TYPE => (S2N_ERR_T_USAGE, 17)
  | S2N_ERR_INVALID_CIPHER_PREFERENCES => (S2N_ERR_T_USAGE, 18)
  | S2N_ERR_INVALID_APPLICATION_PROTOCOL => (S2N_ERR_T_USAGE, 19)
  | S2N_ERR_KEY_MISMATCH => (S2N_ERR_T_USAGE, 20)
  | S2N_ERR_SEND_SIZE => (S2N_ERR_T_USAGE, 21)
  | S2N_ERR_CORK_SET_ON_UNMANAGED => (S2N_ERR_T_USAGE, 22)
  | S2N_ERR_UNRECOGNIZED_EXTENSION => (S2N_ERR_T_USAGE, 23)
  | S2N_ERR_EXTENSION_NOT_RECEIVED => (S2N_ERR_T_USAGE, 24)
  | S2N_ERR_INVALID_SCT_LIST => (S2N_ERR_T_USAGE, 25)
  | S2N_ERR_INVALID_OCSP_RESPONSE => (S2N_ERR_T_USAGE, 26)
  | S2N_ERR_UPDATING_EXTENSION => (S2N_ERR_T_USAGE, 27)
  | S2N_ERR_INVALID_SERIALIZED_SESSION_STATE => (S2N_ERR_T_USAGE, 28)
  | S2N_ERR_SERIALIZED_SESSION_STATE_TOO_LONG => (S2N_ERR_T_USAGE, 29)
  | S2N_ERR_SESSION_ID_TOO_LONG => (S2N_ERR_T_USAGE, 30)
  | S2N_ERR_CLIENT_AUTH_NOT_SUPPORTED_IN_SESSION_RESUMPTION_MODE => (S2N_ERR_T_USAGE, 31)
  | S2N_ERR_INVALID_TICKET_KEY_LENGTH => (S2N_ERR_T_USAGE, 32)
  | S2N_ERR_INVALID_TICKET_KEY_NAME_OR_NAME_LENGTH => (S2N_ERR_T_USAGE, 33)
  | S2N_ERR_TICKET_KEY_NOT_UNIQUE => (S2N_ERR_T_USAGE, 34)
  | S2N_ERR_TICKET_KEY_LIMIT => (S2N_ERR_T_USAGE, 35)
  | S2N_ERR_NO_TICKET_ENCRYPT_DECRYPT_KEY => (S2N_ERR_T_USAGE, 36)
  | S2N_ERR_ENCRYPT_DECRYPT_KEY_SELECTION_FAILED => (S2N_ERR_T_USAGE, 37)
  | S2N_ERR_KEY_USED_IN_SESSION_TICKET_NOT_FOUND => (S2N_ERR_T_USAGE, 38)
  | S2N_ERR_SENDING_NST => (S2N_ERR_T_USAGE, 39)
  | S2N_ERR_INVALID_DYNAMIC_THRESHOLD => (S2N_ERR_T_USAGE, 40)
  | S2N_ERR_INVALID_ARGUMENT => (S2N_ERR_T_USAGE, 41)
  | S2N_ERR_NOT_IN_UNIT_TEST => (S2N_ERR_T_USAGE, 42)
  | S2N_ERR_NOT_IN_TEST => (S2N_ERR_T_USAGE, 43)
  | S2N_ERR_UNSUPPORTED_CPU => (S2N_ERR_T_USAGE, 44)
  | S2N_ERR_SESSION_ID_TOO_SHORT => (S2N_ERR_T_USAGE, 45)
  | S2N_ERR_CONNECTION_CACHING_DISALLOWED => (S2N_ERR_T_USAGE, 46)
  | S2N_ERR_SESSION_TICKET_NOT_SUPPORTED => (S2N_ERR_T_USAGE, 47)
  | S2N_ERR_OCSP_NOT_SUPPORTED => (S2N_ERR_T_USAGE, 48)
  | S2N_ERR_INVALID_SIGNATURE_ALGORITHMS_PREFERENCES => (S2N_ERR_T_USAGE, 49)
  | S2N_ERR_RSA_PSS_NOT_SUPPORTED => (S2N_ERR_T_USAGE, 50)
  | S2N_ERR_INVALID_ECC_PREFERENCES => (S2N_ERR_T_USAGE, 51)
  | S2N_ERR_DEPRECATED_SECURITY_POLICY => (S2N_ERR_T_USAGE, 52)
  | S2N_ERR_INVALID_SECURITY_POLICY => (S2N_ERR_T_USAGE, 53)
  | S2N_ERR_INVALID_KEM_PREFERENCES => (S2N_ERR_T_USAGE, 54)
  | S2N_ERR_ASYNC_ALREADY_PERFORMED => (S2N_ERR_T_USAGE, 55)
  | S2N_ERR_ASYNC_NOT_PERFORMED => (S2N_ERR_T_USAGE, 56)
  | S2N_ERR_ASYNC_WRONG_CONNECTION => (S2N_ERR_T_USAGE, 57)
  | S2N_ERR_ASYNC_ALREADY_APPLIED => (S2N_ERR_T_USAGE, 58)
  | S2N_ERR_UNSUPPORTED_WITH_QUIC => (S2N_ERR_T_USAGE, 59)
  | S2N_ERR_DUPLICATE_PSK_IDENTITIES => (S2N_ERR_T_USAGE, 60)
  | S2N_ERR_OFFERED_PSKS_TOO_LONG => (S2N_ERR_T_USAGE, 61)
  | S2N_ERR_INVALID_SESSION_TICKET => (S2N_ERR_T_USAGE, 62)
  | S2N_ERR_REENTRANCY => (S2N_ERR_T_USAGE, 63)
  | S2N_ERR_INVALID_STATE => (S2N_ERR_T_USAGE, 64)
  | S2N_ERR_EARLY_DATA_NOT_ALLOWED => (S2N_ERR_T_USAGE, 65)
  | S2N_ERR_NO_CERT_FOUND => (S2N_ERR_T_USAGE, 66)
  | S2N_ERR_CERT_NOT_VALIDATED => (S2N_ERR_T_USAGE, 67)
  | S2N_ERR_NO_PRIVATE_KEY => (S2N_ERR_T_USAGE, 68)
  | S2N_ERR_PSK_MODE => (S2N_ERR_T_USAGE, 69)
  | S2N_ERR_X509_EXTENSION_VALUE_NOT_FOUND => (S2N_ERR_T_USAGE, 70)
  | S2N_ERR_INVALID_X509_EXTENSION_TYPE => (S2N_ERR_T_USAGE, 71)
  | S2N_ERR_INSUFFICIENT_MEM_SIZE => (S2N_ERR_T_USAGE, 72)
  | S2N_ERR_KEYING_MATERIAL_EXPIRED => (S2N_ERR_T_USAGE, 73)
  | S2N_ERR_SECRET_SCHEDULE_STATE => (S2N_ERR_T_USAGE, 74)
  | S2N_ERR_CERT_OWNERSHIP => (S2N_ERR_T_USAGE, 75)
  | S2N_ERR_HANDSHAKE_NOT_COMPLETE => (S2N_ERR_T_USAGE, 76)
  | S2N_ERR_KTLS_MANAGED_IO => (S2N_ERR_T_USAGE, 77)
  | S2N_ERR_KTLS_UNSUPPORTED_PLATFORM => (S2N_ERR_T_USAGE, 78)
  | S2N_ERR_KTLS_UNSUPPORTED_CONN => (S2N_ERR_T_USAGE, 79)
  | S2N_ERR_KTLS_ENABLE => (S2N_ERR_T_USAGE, 80)
  | S2N_ERR_KTLS_BAD_CMSG => (S2N_ERR_T_USAGE, 81)
  | S2N_ERR_KTLS_RENEG => (S2N_ERR_T_USAGE, 82)
  | S2N_ERR_ATOMIC => (S2N_ERR_T_USAGE, 83)
  | S2N_ERR_KTLS_KEY_LIMIT => (S2N_ERR_T_USAGE, 84)
  | S2N_ERR_SECURITY_POLICY_INCOMPATIBLE_CERT => (S2N_ERR_T_USAGE, 85)
  | S2N_ERR_INVALID_SERIALIZED_CONNECTION => (S2N_ERR_T_USAGE, 86)
  | S2N_ERR_TOO_MANY_CAS => (S2N_ERR_T_USAGE, 87)
  | S2N_ERR_API_UNSUPPORTED_BY_LIBCRYPTO => (S2N_ERR_T_USAGE, 88)
  | S2N_ERR_FIPS_MODE_UNSUPPORTED => (S2N_ERR_T_USAGE, 89)
  end.

(** The value of a member: [S2N_ERR_T_<category>_START + rank]. *)
Definition error_code (e : s2n_error) : Z :=
  let (t, i) := error_position e in
  Z.shiftl (error_type_value t) S2N_ERR_NUM_VALUE_BITS + i.

(** s2n_error_get_type: [error >> S2N_ERR_NUM_VALUE_BITS]. *)
Definition s2n_error_get_type (error : Z) : Z :=
  Z.shiftr error S2N_ERR_NUM_VALUE_BITS.

(** S2N_ERROR_IS_BLOCKING. *)
Definition S2N_ERROR_IS_BLOCKING (e : s2n_error) : bool :=
  s2n_error_get_type (error_code e) =? error_type_value S2N_ERR_T_BLOCKED.

(** ** Facts *)

Lemma error_position_lookup (e : s2n_error) :
  errors_of_type (fst (error_position e)) !! Z.to_nat (snd (error_position e)) = Some e.
Proof. by destruct e. Qed.

Lemma error_position_range (e : s2n_error) :
  0 <= snd (error_position e) < 2 ^ S2N_ERR_NUM_VALUE_BITS.
Proof. destruct e; unfold S2N_ERR_NUM_VALUE_BITS; simpl; lia. Qed.

Lemma error_type_value_inj (t u : s2n_error_type) :
  error_type_value t = error_type_value u -> t = u.
Proof. by destruct t, u. Qed.

Lemma error_code_split (e : s2n_error) :
  error_code e / 2 ^ S2N_ERR_NUM_VALUE_BITS = error_type_value (fst (error_position e)) /\
  error_code e mod 2 ^ S2N_ERR_NUM_VALUE_BITS = snd (error_position e).
Proof.
  pose proof (error_position_range e) as Hr. unfold error_code.
  destruct (error_position e) as [t i]; simpl in *.
  rewrite Z.shiftl_mul_pow2 by done.
  set (m := 2 ^ S2N_ERR_NUM_VALUE_BITS) in *.
  rewrite Z.add_comm, Z.div_add, Z.mod_add by lia.
  rewrite Z.div_small, Z.mod_small by lia. lia.
Qed.

Lemma error_code_inj (e e' : s2n_error) : error_code e = error_code e' -> e = e'.
Proof.
  intros Heq. destruct (error_code_split e) as [Ht Hi], (error_code_split e') as [Ht' Hi'].
  rewrite Heq, Ht' in Ht. rewrite Heq, Hi' in Hi. apply error_type_value_inj in Ht.
  pose proof (error_position_lookup e) as L. rewrite <- Ht, <- Hi in L.
  rewrite error_position_lookup in L. congruence.
Qed.

(** s2n_error_get_type recovers the category of every error, and two errors
    with the same numeric value are the same error. *)
Theorem error_get_type_correct (e : s2n_error) :
  s2n_error_get_type (error_code e) = error_type_value (fst (error_position e)) /\
  forall e', error_code e = error_code e' -> e = e'.
Proof.
  split.
  - unfold s2n_error_get_type. rewrite Z.shiftr_div_pow2 by done.
    apply error_code_split.
  - intros e'. apply error_code_inj.
Qed.

#[export] Instance s2n_error_eq_dec : EqDecision s2n_error.
Proof.
  intros e e'. destruct (decide (error_code e = error_code e')) as [H|H].
  - left. by apply error_code_inj.
  - right. congruence.
Defined.

Definition error_eqb (e e' : s2n_error) : bool := bool_decide (e = e').

End Errors.
Export Errors.
