(* ===== verification/CMem.v ===== *)
(** * C memory and the effect monad

    Every C function of the library is a [Cmd X A]: a transformer of the
    program state ([world]: the heap and the static variables of s2n_mem.c)
    together with the struct [X] it is handed by pointer.  The result is a
    value, an s2n error (with the state the failing function left behind, since
    C does not roll back), or [UB] for an access the C standard leaves
    undefined.  A heap is a finite map from block identifiers to byte strings
    and a pointer is a block with an offset, so that aliasing between a blob, a
    slice of it and a raw pointer is visible. *)
From S2P Require Import Prelude Errors.
Open Scope Z_scope.

(** ** Pointers and heaps *)

Record ptr := Ptr { blk : positive; off : Z }.

#[export] Instance ptr_eq_dec : EqDecision ptr.
Proof. solve_decision. Defined.

Abbreviation heap := (gmap positive (list Z)).

(** The load of [n] bytes at [p]; [None] when the access is out of bounds. *)
Definition hload (h : heap) (p : ptr) (n : Z) : option (list Z) :=
  match h !! blk p with
  | Some l => if (0 <=? off p) && (off p + n <=? zlen l) then Some (zslice l (off p) n) else None
  | None => None
  end.

(** The store of [bs] at [p]; [None] when the access is out of bounds. *)
Definition hstore (h : heap) (p : ptr) (bs : list Z) : option heap :=
  match h !! blk p with
  | Some l =>
      if (0 <=? off p) && (off p + zlen bs <=? zlen l)
      then Some (<[blk p := zsplice l (off p) bs]> h) else None
  | None => None
  end.

(** ** The function pointers of s2n_mem.c

    [User] stands for a callback installed by the application. *)
Inductive mem_cb := MlockImpl | NoMlockImpl | UserImpl.
Inductive mem_init_cb := MemInitImpl | UserInit.

(** The static variables of utils/s2n_mem.c. *)
Record mem_statics := MemStatics {
  page_size : Z;
  initialized : bool;
  s2n_mem_init_cb : mem_init_cb;
  s2n_mem_cleanup_cb : mem_init_cb;
  s2n_mem_malloc_cb : mem_cb;
  s2n_mem_free_cb : mem_cb;
}.

(** Their initial values, and the values after s2n_mem_init with the default
    callbacks and 4 KiB pages. *)
Definition initial_statics : mem_statics :=
  MemStatics 4096 false MemInitImpl MemInitImpl MlockImpl MlockImpl.
Definition started_statics : mem_statics :=
  MemStatics 4096 true MemInitImpl MemInitImpl MlockImpl MlockImpl.

Record world := World { hp : heap; mem : mem_statics }.

(** ** Results and commands *)

Inductive outcome (A : Type) :=
| Ok (a : A)
| Err (e : s2n_error)
| UB.
Arguments Ok {A} a.
Arguments Err {A} e.
Arguments UB {A}.

Definition Cmd (X A : Type) : Type := world * X -> outcome A * (world * X).

Definition ret {X A} (a : A) : Cmd X A := fun s => (Ok a, s).
Definition fail {X A} (e : s2n_error) : Cmd X A := fun s => (Err e, s).
Definition undefined {X A} : Cmd X A := fun s => (UB, s).

Definition bind {X A B} (c : Cmd X A) (k : A -> Cmd X B) : Cmd X B := fun s =>
  match c s with
  | (Ok a, s') => k a s'
  | (Err e, s') => (Err e, s')
  | (UB, s') => (UB, s')
  end.

Declare Scope cmd_scope.
Delimit Scope cmd_scope with cmd.
Notation "x <-- c ;; k" := (bind c (fun x => k))
  (at level 100, c at next level, right associativity) : cmd_scope.
Notation "c ;;; k" := (bind c (fun _ => k)) (at level 100, right associativity) : cmd_scope.
Open Scope cmd_scope.

(** ENSURE(cond, error) *)
Definition ensure {X} (b : bool) (e : s2n_error) : Cmd X unit :=
  if b then ret tt else fail e.

(** S2N_IMPLIES *)
Definition S2N_IMPLIES (a b : bool) : bool := negb a || b.

Definition get_obj {X} : Cmd X X := fun '(w, x) => (Ok x, (w, x)).
Definition put_obj {X} (x : X) : Cmd X unit := fun '(w, _) => (Ok tt, (w, x)).
Definition modify {X} (f : X -> X) : Cmd X unit := fun '(w, x) => (Ok tt, (w, f x)).
Definition get_world {X} : Cmd X world := fun '(w, x) => (Ok w, (w, x)).
Definition put_heap {X} (h : heap) : Cmd X unit := fun '(w, x) => (Ok tt, (World h (mem w), x)).

(** Runs a command and turns failure into a value: the caller inspects the
    return code, as in [int r = f(...); ...]. *)
Definition attempt {X A} (c : Cmd X A) : Cmd X (A + s2n_error) := fun s =>
  match c s with
  | (Ok a, s') => (Ok (inl a), s')
  | (Err e, s') => (Ok (inr e), s')
  | (UB, s') => (UB, s')
  end.

(** Continues with the return code [r] held in a variable. *)
Definition guard_rc {X A} (r : A + s2n_error) : Cmd X A :=
  match r with inl a => ret a | inr e => fail e end.

(** A field of a struct, for a call that is passed [&x->field]. *)
Record lens (X Y : Type) := Lens { lget : X -> Y; lset : Y -> X -> X }.
Arguments Lens {X Y} lget lset.
Arguments lget {X Y} l x.
Arguments lset {X Y} l y x.

Definition zoom {X Y A} (l : lens X Y) (c : Cmd Y A) : Cmd X A := fun '(w, x) =>
  let '(r, (w', y')) := c (w, lget l x) in (r, (w', lset l y' x)).

Definition fst_lens {X Y} : lens (X * Y) X := Lens fst (fun x p => (x, snd p)).
Definition snd_lens {X Y} : lens (X * Y) Y := Lens snd (fun y p => (fst p, y)).

(** Runs a command on a local struct of the calling function; its final value
    is returned with the result. *)
Definition with_local {X Y A} (y : Y) (c : Cmd Y A) : Cmd X (A * Y) := fun '(w, x) =>
  match c (w, y) with
  | (Ok a, (w', y')) => (Ok (a, y'), (w', x))
  | (Err e, (w', _)) => (Err e, (w', x))
  | (UB, (w', _)) => (UB, (w', x))
  end.

(** The same for a caller that goes on after a failure: the return code and the
    final value of the local struct. *)
Definition try_local {X Y A} (y : Y) (c : Cmd Y A) : Cmd X ((A + s2n_error) * Y) := fun '(w, x) =>
  match c (w, y) with
  | (Ok a, (w', y')) => (Ok (inl a, y'), (w', x))
  | (Err e, (w', y')) => (Ok (inr e, y'), (w', x))
  | (UB, (w', _)) => (UB, (w', x))
  end.

Definition put_mem {X} (m : mem_statics) : Cmd X unit := fun '(w, x) => (Ok tt, (World (hp w) m, x)).

(** ** Memory access through possibly-NULL pointers *)

Definition is_null (p : option ptr) : bool := match p with None => true | Some _ => false end.

(** S2N_MEM_IS_READABLE: [((len) == 0) || (base) != NULL]. *)
Definition S2N_MEM_IS_READABLE (p : option ptr) (n : Z) : bool := (n =? 0) || negb (is_null p).

(** ENSURE_REF on a data pointer. *)
Definition ensure_ref {X} (p : option ptr) : Cmd X unit := ensure (negb (is_null p)) S2N_ERR_NULL.

(** Pointer arithmetic; an offset from NULL other than 0 is undefined. *)
Definition ptr_add {X} (p : option ptr) (n : Z) : Cmd X (option ptr) :=
  match p with
  | Some q => ret (Some (Ptr (blk q) (off q + n)))
  | None => if n =? 0 then ret None else undefined
  end.

Definition load {X} (p : ptr) (n : Z) : Cmd X (list Z) := fun '(w, x) =>
  match hload (hp w) p n with
  | Some bs => (Ok bs, (w, x))
  | None => (UB, (w, x))
  end.

Definition store {X} (p : ptr) (bs : list Z) : Cmd X unit := fun '(w, x) =>
  match hstore (hp w) p bs with
  | Some h => (Ok tt, (World h (mem w), x))
  | None => (UB, (w, x))
  end.

(** The read [p[i]]. *)
Definition load_byte {X} (p : option ptr) (i : Z) : Cmd X Z :=
  match p with
  | Some q => bs <-- load (Ptr (blk q) (off q + i)) 1;; ret (znth bs 0)
  | None => undefined
  end.

(** The write [p[i] = b]. *)
Definition store_byte {X} (p : option ptr) (i b : Z) : Cmd X unit :=
  match p with
  | Some q => store (Ptr (blk q) (off q + i)) [u8 b]
  | None => undefined
  end.

(** A source or destination buffer: a pointer into the heap, or a local array
    of the calling C function, whose contents are passed (or returned) by
    value. *)
Inductive buffer := HeapBuf (p : option ptr) | LocalBuf (bs : list Z).

Definition buf_readable (b : buffer) (n : Z) : bool :=
  match b with HeapBuf p => S2N_MEM_IS_READABLE p n | LocalBuf _ => true end.

Definition buf_is_null (b : buffer) : bool :=
  match b with HeapBuf p => is_null p | LocalBuf _ => false end.

(** The bytes [b[0..n)]; a local array that is too short is out of bounds. *)
Definition load_buf {X} (b : buffer) (n : Z) : Cmd X (list Z) :=
  match b with
  | HeapBuf (Some p) => load p n
  | HeapBuf None => undefined
  | LocalBuf bs => if n <=? zlen bs then ret (zslice bs 0 n) else undefined
  end.

(** CHECKED_MEMCPY(to, from, n): s2n_ensure_memmove_trace guarded by [n != 0]. *)
Definition checked_memcpy {X} (to : option ptr) (from : buffer) (n : Z) : Cmd X unit :=
  if n =? 0 then ret tt
  else match to with
       | None => fail S2N_ERR_NULL
       | Some q =>
           ensure (negb (buf_is_null from)) S2N_ERR_NULL ;;;
           bs <-- load_buf from n ;;
           store q bs
       end.

(** CHECKED_MEMCPY into a local array: the copied bytes are the array's new
    prefix. *)
Definition checked_memcpy_out {X} (from : option ptr) (n : Z) : Cmd X (list Z) :=
  if n =? 0 then ret []
  else match from with
       | None => fail S2N_ERR_NULL
       | Some q => load q n
       end.

(** CHECKED_MEMSET(p, c, n). *)
Definition checked_memset {X} (p : option ptr) (c n : Z) : Cmd X unit :=
  if n =? 0 then ret tt
  else match p with
       | None => fail S2N_ERR_NULL
       | Some q => store q (repeat (u8 c) (Z.to_nat n))
       end.

(** ** Weakest preconditions

    [wp c s Q E]: from [s], [c] has no undefined behaviour, ends in [Q] when it
    returns and in [E] when it fails. *)
Definition wp {X A} (c : Cmd X A) (s : world * X)
    (Q : A -> world -> X -> Prop) (E : s2n_error -> world -> X -> Prop) : Prop :=
  match c s with
  | (Ok a, (w, x)) => Q a w x
  | (Err e, (w, x)) => E e w x
  | (UB, _) => False
  end.

Section WpRules.
Context {X : Type}.
Implicit Types (w : world) (x : X).

Lemma wp_ret {A} (a : A) w x Q E : Q a w x -> wp (ret a) (w, x) Q E.
Proof. done. Qed.

Lemma wp_fail {A} e w x (Q : A -> world -> X -> Prop) E : E e w x -> wp (fail e) (w, x) Q E.
Proof. done. Qed.

Lemma wp_bind {A B} (c : Cmd X A) (k : A -> Cmd X B) s Q E :
  wp c s (fun a w x => wp (k a) (w, x) Q E) E -> wp (bind c k) s Q E.
Proof. unfold wp, bind. by destruct (c s) as [[a|e|] [w x]]. Qed.

Lemma wp_mono {A} (c : Cmd X A) s (Q Q' : A -> world -> X -> Prop) (E E' : s2n_error -> world -> X -> Prop) :
  wp c s Q E -> (forall a w x, Q a w x -> Q' a w x) -> (forall e w x, E e w x -> E' e w x) ->
  wp c s Q' E'.
Proof. unfold wp. intros H HQ HE. destruct (c s) as [[a|e|] [w x]]; auto. Qed.

Lemma wp_bind_mono {A B} (c : Cmd X A) (k : A -> Cmd X B) s Q0 E0 Q E :
  wp c s Q0 E0 ->
  (forall a w x, Q0 a w x -> wp (k a) (w, x) Q E) ->
  (forall e w x, E0 e w x -> E e w x) ->
  wp (bind c k) s Q E.
Proof. intros H HQ HE. apply wp_bind. eapply wp_mono; eauto. Qed.

Lemma wp_bind_assoc {A B C} (c : Cmd X A) (k : A -> Cmd X B) (k' : B -> Cmd X C) s Q E :
  wp (bind (bind c k) k') s Q E -> wp (bind c (fun a => bind (k a) k')) s Q E.
Proof. unfold wp, bind. by destruct (c s) as [[a|e|] s']. Qed.

Lemma wp_ensure b e w x Q E :
  (b = true -> Q tt w x) -> (b = false -> E e w x) -> wp (ensure b e) (w, x) Q E.
Proof. unfold ensure. destruct b; intros H1 H2; [by apply wp_ret, H1|by apply wp_fail, H2]. Qed.

Lemma wp_get_obj w x Q E : Q x w x -> wp get_obj (w, x) Q E.
Proof. done. Qed.

Lemma wp_modify (f : X -> X) w x Q E : Q tt w (f x) -> wp (modify f) (w, x) Q E.
Proof. done. Qed.

Lemma wp_zoom {Y A} (l : lens X Y) (c : Cmd Y A) w x Q E :
  wp c (w, lget l x) (fun a w' y' => Q a w' (lset l y' x)) (fun e w' y' => E e w' (lset l y' x)) ->
  wp (zoom l c) (w, x) Q E.
Proof. unfold wp, zoom. by destruct (c (w, lget l x)) as [[a|e|] [w' y']]. Qed.

Lemma wp_with_local {Y A} (y : Y) (c : Cmd Y A) w x Q E :
  wp c (w, y) (fun a w' y' => Q (a, y') w' x) (fun e w' _ => E e w' x) ->
  wp (with_local y c) (w, x) Q E.
Proof. unfold wp, with_local. by destruct (c (w, y)) as [[a|e|] [w' y']]. Qed.

Lemma wp_try_local {Y A} (y : Y) (c : Cmd Y A) w x Q E :
  wp c (w, y) (fun a w' y' => Q (inl a, y') w' x) (fun e w' y' => Q (inr e, y') w' x) ->
  wp (try_local y c) (w, x) Q E.
Proof. unfold wp, try_local. by destruct (c (w, y)) as [[a|e|] [w' y']]. Qed.

Lemma wp_attempt {A} (c : Cmd X A) s Q E :
  wp c s (fun a => Q (inl a)) (fun e => Q (inr e)) -> wp (attempt c) s Q E.
Proof. unfold wp, attempt. by destruct (c s) as [[a|e|] [w x]]. Qed.

(** A command whose result is known. *)
Lemma wp_run {A} (c : Cmd X A) s a w x Q E : c s = (Ok a, (w, x)) -> Q a w x -> wp c s Q E.
Proof. unfold wp. by intros ->. Qed.

(** Showing the exact result of a command through its [wp]. *)
Lemma wp_eq {A} (c : Cmd X A) s (a : A) w x :
  wp c s (fun a' w' x' => (Ok a, (w, x)) = (Ok a', (w', x'))) (fun _ _ _ => False) ->
  c s = (Ok a, (w, x)).
Proof. unfold wp. by destruct (c s) as [[a'|e|] [w' x']]. Qed.

Lemma wp_ok_inv {A} (c : Cmd X A) s (Q : A -> world -> X -> Prop) E a w x :
  wp c s Q E -> c s = (Ok a, (w, x)) -> Q a w x.
Proof. unfold wp. intros H e. by rewrite e in H. Qed.
End WpRules.

(** Running a sequence whose first command is known. *)
Lemma run_bind {X A B} (c : Cmd X A) (k : A -> Cmd X B) s a s' : c s = (Ok a, s') -> bind c k s = k a s'.
Proof. unfold bind. by intros ->. Qed.

Lemma run_ensure {X B} b e (k : unit -> Cmd X B) s : bind (ensure b e) k s = if b then k tt s else (Err e, s).
Proof. by destruct b. Qed.

(** ** Valid accesses *)

Definition valid_access (h : heap) (p : ptr) (n : Z) : Prop :=
  exists l, h !! blk p = Some l /\ 0 <= off p /\ 0 <= n /\ off p + n <= zlen l.

(** The bytes [p[0..n)] of a heap. *)
Definition bytes_at (h : heap) (p : ptr) (n : Z) : list Z := default [] (hload h p n).

(** The heap after [bs] is written at [p]. *)
Definition heap_with (h : heap) (p : ptr) (bs : list Z) : heap := default h (hstore h p bs).

Definition heap_ok (h : heap) : Prop := map_Forall (fun _ l => is_bytes l) h.

Section Access.
Implicit Types (h : heap) (p q : ptr).

Lemma valid_access_sub h p n i k :
  valid_access h p n -> 0 <= i -> 0 <= k -> i + k <= n ->
  valid_access h (Ptr (blk p) (off p + i)) k.
Proof. intros (l & ? & ? & ? & ?) ???. exists l. simpl. split_goal; [done|lia..]. Qed.

Lemma valid_access_head h p n :
  valid_access h p n -> 0 < n -> valid_access h p 1.
Proof. intros (l & ? & ? & ? & ?) ?. exists l. split_goal; [done|lia..]. Qed.

Lemma valid_access_tail h p n :
  valid_access h p n -> 0 < n -> valid_access h (Ptr (blk p) (off p + 1)) (n - 1).
Proof. intros Hv ?. apply (valid_access_sub _ _ n); [done|lia..]. Qed.

Lemma hload_valid h p n : valid_access h p n -> hload h p n = Some (bytes_at h p n).
Proof.
  intros (l & Hl & H0 & Hn & Hle). unfold bytes_at, hload. rewrite Hl.
  rewrite (proj2 (Z.leb_le _ _) H0), (proj2 (Z.leb_le _ _) Hle). done.
Qed.

Lemma bytes_at_lookup h p n l :
  h !! blk p = Some l -> 0 <= off p -> off p + n <= zlen l ->
  bytes_at h p n = zslice l (off p) n.
Proof.
  intros Hl H0 Hle. unfold bytes_at, hload. rewrite Hl.
  rewrite (proj2 (Z.leb_le _ _) H0), (proj2 (Z.leb_le _ _) Hle). done.
Qed.

Lemma zlen_bytes_at h p n : valid_access h p n -> zlen (bytes_at h p n) = n.
Proof.
  intros (l & Hl & H0 & Hn & Hle). rewrite (bytes_at_lookup h p n l) by done.
  by apply zlen_zslice.
Qed.

Lemma bytes_at_0 h p : bytes_at h p 0 = [].
Proof.
  unfold bytes_at, hload. destruct (h !! blk p); [|done]. destruct (_ && _); [|done]. apply zslice_0.
Qed.

Lemma bytes_at_is_bytes h p n : heap_ok h -> is_bytes (bytes_at h p n).
Proof.
  intros Hh. unfold bytes_at, hload.
  destruct (h !! blk p) as [l|] eqn:Hl; [|constructor].
  destruct (_ && _); [|constructor]. simpl. apply Forall_zslice.
  exact (Hh _ _ Hl).
Qed.

Lemma hstore_valid h p bs :
  valid_access h p (zlen bs) -> hstore h p bs = Some (heap_with h p bs).
Proof.
  intros (l & Hl & H0 & Hn & Hle). unfold heap_with, hstore. rewrite Hl.
  rewrite (proj2 (Z.leb_le _ _) H0), (proj2 (Z.leb_le _ _) Hle). done.
Qed.

Lemma heap_with_lookup h p bs l :
  h !! blk p = Some l -> 0 <= off p -> off p + zlen bs <= zlen l ->
  heap_with h p bs = <[blk p := zsplice l (off p) bs]> h.
Proof.
  intros Hl H0 Hle. unfold heap_with, hstore. rewrite Hl.
  rewrite (proj2 (Z.leb_le _ _) H0), (proj2 (Z.leb_le _ _) Hle). done.
Qed.

Lemma heap_with_ne h p bs k :
  valid_access h p (zlen bs) -> k <> blk p -> heap_with h p bs !! k = h !! k.
Proof.
  intros (l & Hl & ? & ? & ?) Hne. rewrite (heap_with_lookup _ _ _ l) by done.
  by rewrite lookup_insert_ne.
Qed.

Lemma heap_with_ok h p bs : heap_ok h -> is_bytes bs -> heap_ok (heap_with h p bs).
Proof.
  intros Hh Hb. unfold heap_with, hstore.
  destruct (h !! blk p) as [l|] eqn:Hl; [|done].
  destruct (_ && _); [|done]. simpl.
  apply map_Forall_insert_2; [|done]. apply Forall_zsplice; [|done]. exact (Hh _ _ Hl).
Qed.

Lemma valid_access_heap_with h p bs q n :
  valid_access h p (zlen bs) -> valid_access h q n -> valid_access (heap_with h p bs) q n.
Proof.
  intros Hp (l' & Hl' & ? & ? & ?). destruct Hp as (l & Hl & ? & ? & ?).
  rewrite (heap_with_lookup _ _ _ l) by done.
  destruct (decide (blk q = blk p)) as [e|ne].
  - exists (zsplice l (off p) bs). rewrite e, lookup_insert_eq.
    rewrite zlen_zsplice by done. rewrite e in Hl'. simplify_eq. done.
  - exists l'. rewrite lookup_insert_ne by done. done.
Qed.

Lemma bytes_at_heap_with_same h p bs :
  valid_access h p (zlen bs) -> bytes_at (heap_with h p bs) p (zlen bs) = bs.
Proof.
  intros (l & Hl & H0 & Hn & Hle).
  rewrite (bytes_at_lookup _ _ _ (zsplice l (off p) bs)).
  - apply zslice_zsplice_same; lia.
  - rewrite (heap_with_lookup _ _ _ l) by done. apply lookup_insert_eq.
  - done.
  - by rewrite zlen_zsplice.
Qed.

(** Reading a range that the write does not touch. *)
Lemma bytes_at_heap_with_disjoint h p bs q n :
  valid_access h p (zlen bs) -> valid_access h q n ->
  blk q <> blk p \/ off q + n <= off p \/ off p + zlen bs <= off q ->
  bytes_at (heap_with h p bs) q n = bytes_at h q n.
Proof.
  intros (l & Hl & Hp0 & Hpn & Hple) (l' & Hl' & Hq0 & Hqn & Hqle) Hd.
  rewrite (bytes_at_lookup h q n l') by done.
  rewrite (heap_with_lookup _ _ _ l) by done.
  destruct (decide (blk q = blk p)) as [e|ne].
  - rewrite e, Hl in Hl'. injection Hl' as <-.
    rewrite (bytes_at_lookup _ _ _ (zsplice l (off p) bs)); [| |done|].
    + destruct Hd as [?|[?|?]]; [done| |].
      * apply zslice_zsplice_before; lia.
      * apply zslice_zsplice_after; lia.
    + rewrite e. apply lookup_insert_eq.
    + by rewrite zlen_zsplice.
  - rewrite (bytes_at_lookup _ _ _ l'); [done| |done|done].
    by rewrite lookup_insert_ne.
Qed.

Lemma bytes_at_app h p n m :
  valid_access h p (n + m) -> 0 <= n -> 0 <= m ->
  bytes_at h p (n + m) = bytes_at h p n ++ bytes_at h (Ptr (blk p) (off p + n)) m.
Proof.
  intros (l & Hl & ? & ? & ?) ??. rewrite !(bytes_at_lookup _ _ _ l) by (simpl; done || lia).
  by apply zslice_app_range.
Qed.

Lemma bytes_at_sub h p n i k :
  valid_access h p n -> 0 <= i -> 0 <= k -> i + k <= n ->
  bytes_at h (Ptr (blk p) (off p + i)) k = zslice (bytes_at h p n) i k.
Proof.
  intros (l & Hl & ? & ? & ?) ???. rewrite !(bytes_at_lookup _ _ _ l) by (simpl; done || lia).
  by rewrite zslice_zslice.
Qed.

(** Two adjacent writes are one. *)
Lemma heap_with_app h p b1 b2 :
  valid_access h p (zlen (b1 ++ b2)) ->
  heap_with (heap_with h p b1) (Ptr (blk p) (off p + zlen b1)) b2 = heap_with h p (b1 ++ b2).
Proof.
  intros (l & Hl & ? & ? & Hle). rewrite zlen_app in Hle.
  pose proof (zlen_nonneg b1). pose proof (zlen_nonneg b2).
  rewrite (heap_with_lookup h p b1 l) by (done || lia).
  rewrite (heap_with_lookup h p (b1 ++ b2) l) by (rewrite ?zlen_app; done || lia).
  rewrite (heap_with_lookup _ _ _ (zsplice l (off p) b1)); simpl.
  - by rewrite insert_insert_eq, zsplice_zsplice_app by lia.
  - apply lookup_insert_eq.
  - lia.
  - rewrite zlen_zsplice by lia. lia.
Qed.

Lemma heap_with_cons h p b bs :
  valid_access h p (zlen (b :: bs)) ->
  heap_with (heap_with h p [b]) (Ptr (blk p) (off p + 1)) bs = heap_with h p (b :: bs).
Proof. apply (heap_with_app h p [b] bs). Qed.

Lemma heap_with_self h p n : valid_access h p n -> heap_with h p (bytes_at h p n) = h.
Proof.
  intros Hv. pose proof (zlen_bytes_at _ _ _ Hv). destruct Hv as (l & Hl & ? & ? & ?).
  rewrite (heap_with_lookup _ _ _ l) by (done || lia).
  rewrite (bytes_at_lookup _ _ _ l) by done. rewrite zsplice_zslice_self by done.
  by apply insert_id.
Qed.

Lemma heap_with_nil h p : heap_with h p [] = h.
Proof.
  unfold heap_with, hstore. destruct (h !! blk p) eqn:Hl; [|done].
  destruct (_ && _); [|done]. simpl. rewrite zsplice_nil. by apply insert_id.
Qed.

(** The first byte of a range and the rest. *)
Lemma bytes_at_cons h p n :
  valid_access h p n -> 0 < n ->
  bytes_at h p n =
    znth (bytes_at h p 1) 0 :: bytes_at h (Ptr (blk p) (off p + 1)) (n - 1).
Proof.
  intros (l & Hl & ? & ? & ?) ?. rewrite !(bytes_at_lookup _ _ _ l) by (simpl; done || lia).
  simpl. rewrite zslice_cons by lia. rewrite znth_zslice by lia.
  do 2 f_equal. lia.
Qed.

Lemma bytes_at_ext h h' p n :
  h !! blk p = h' !! blk p -> bytes_at h p n = bytes_at h' p n.
Proof. intros e. unfold bytes_at, hload. by rewrite e. Qed.

Lemma valid_access_ext h h' p n :
  h !! blk p = h' !! blk p -> valid_access h p n -> valid_access h' p n.
Proof. intros e (l & ? & ?). exists l. by rewrite <- e. Qed.
End Access.

#[export] Hint Resolve bytes_at_is_bytes heap_with_ok valid_access_heap_with : s2n.

(** Closes [heap_ok h] and [valid_access h p n] for a literal heap. *)
Ltac solve_heap_ok :=
  unfold heap_ok; cbn [hp];
  repeat (apply map_Forall_insert_2; [solve_bytes|]); apply map_Forall_empty.
Ltac solve_valid_access :=
  eexists; cbn [hp blk off];
  split; [vm_compute; reflexivity|]; unfold zlen; cbn [length]; lia.

Section MemRules.
Context {X : Type}.
Implicit Types (w : world) (x : X).

Lemma wp_load p n w x Q E :
  valid_access (hp w) p n -> Q (bytes_at (hp w) p n) w x -> wp (load p n) (w, x) Q E.
Proof. intros Hv HQ. unfold wp, load. by rewrite (hload_valid _ _ _ Hv). Qed.

Lemma wp_store p bs w x Q E :
  valid_access (hp w) p (zlen bs) ->
  Q tt (World (heap_with (hp w) p bs) (mem w)) x -> wp (store p bs) (w, x) Q E.
Proof. intros Hv HQ. unfold wp, store. by rewrite (hstore_valid _ _ _ Hv). Qed.

Lemma wp_load_byte q i w x Q E :
  valid_access (hp w) (Ptr (blk q) (off q + i)) 1 ->
  Q (znth (bytes_at (hp w) (Ptr (blk q) (off q + i)) 1) 0) w x ->
  wp (load_byte (Some q) i) (w, x) Q E.
Proof. intros. apply wp_bind, wp_load; [done|]. by apply wp_ret. Qed.

Lemma wp_store_byte q i b w x Q E :
  valid_access (hp w) (Ptr (blk q) (off q + i)) 1 ->
  Q tt (World (heap_with (hp w) (Ptr (blk q) (off q + i)) [u8 b]) (mem w)) x ->
  wp (store_byte (Some q) i b) (w, x) Q E.
Proof. intros. apply wp_store; done. Qed.

Lemma wp_ptr_add_some q n w x Q E :
  Q (Some (Ptr (blk q) (off q + n))) w x -> wp (ptr_add (Some q) n) (w, x) Q E.
Proof. done. Qed.

Lemma wp_checked_memset q c n w x Q E :
  0 <= n -> (n <> 0 -> valid_access (hp w) q n) ->
  (n = 0 -> Q tt w x) ->
  (n <> 0 -> Q tt (World (heap_with (hp w) q (repeat (u8 c) (Z.to_nat n))) (mem w)) x) ->
  wp (checked_memset (Some q) c n) (w, x) Q E.
Proof.
  intros Hn Hv H0 H1. unfold checked_memset.
  destruct (Z.eqb_spec n 0); [by apply wp_ret, H0|].
  apply wp_store; [|auto]. rewrite zlen_repeat by done. auto.
Qed.
End MemRules.

(** The contents of a source buffer of length [n]. *)
Definition buf_is (h : heap) (b : buffer) (n : Z) (bs : list Z) : Prop :=
  zlen bs = n /\
  match b with
  | HeapBuf (Some p) => valid_access h p n /\ bytes_at h p n = bs
  | HeapBuf None => n = 0
  | LocalBuf l => n <= zlen l /\ zslice l 0 n = bs
  end.

Lemma wp_load_buf {X} b n bs w (x : X) Q E :
  buf_is (hp w) b n bs -> n <> 0 -> Q bs w x -> wp (load_buf b n) (w, x) Q E.
Proof.
  intros [Hlen Hb] Hn HQ. destruct b as [[p|]|l]; simpl in *.
  - destruct Hb as [Hv <-]. by apply wp_load.
  - done.
  - destruct Hb as [Hle <-]. rewrite (proj2 (Z.leb_le _ _) Hle). by apply wp_ret.
Qed.

Lemma wp_checked_memcpy {X} q b n bs w (x : X) Q E :
  buf_is (hp w) b n bs -> n <> 0 -> valid_access (hp w) q n ->
  Q tt (World (heap_with (hp w) q bs) (mem w)) x ->
  wp (checked_memcpy (Some q) b n) (w, x) Q E.
Proof.
  intros Hb Hn Hv HQ. unfold checked_memcpy. destruct (Z.eqb_spec n 0); [done|].
  apply wp_bind, wp_ensure.
  - intros _. apply wp_bind. eapply wp_load_buf; [done..|].
    destruct Hb as [Hlen _]. apply wp_store; [by rewrite Hlen|done].
  - destruct b as [[p|]|l]; simpl; [done| |done]. by destruct Hb as [_ ?].
Qed.
