(* ===== verification/Safety.v ===== *)
(** * utils/s2n_safety.c: checked arithmetic and constant-time helpers *)
From S2P Require Import Prelude Errors CMem.
Open Scope Z_scope.

Module Safety.

Section Definitions.
Context {X : Type}.

(** ** Checked 32-bit arithmetic *)

Definition s2n_align_to (initial alignment : Z) : Cmd X Z :=
  ensure (negb (alignment =? 0)) S2N_ERR_SAFETY ;;;
  if initial =? 0 then ret 0
  else
    let i := initial in
    let a := alignment in
    let result := u64 (a * u64 (u64 (i - 1) / a + 1)) in
    ensure (result <=? UINT32_MAX) S2N_ERR_INTEGER_OVERFLOW ;;;
    ret (u32 result).

Definition s2n_mul_overflow (a b : Z) : Cmd X Z :=
  let result := u64 (a * b) in
  ensure (result <=? UINT32_MAX) S2N_ERR_INTEGER_OVERFLOW ;;;
  ret (u32 result).

Definition s2n_add_overflow (a b : Z) : Cmd X Z :=
  let result := u64 (a + b) in
  ensure (result <=? UINT32_MAX) S2N_ERR_INTEGER_OVERFLOW ;;;
  ret (u32 result).

Definition s2n_sub_overflow (a b : Z) : Cmd X Z :=
  ensure (b <=? a) S2N_ERR_INTEGER_OVERFLOW ;;;
  ret (u32 (a - b)).

(** ** Constant-time comparison and copy *)

(** [*ptr] for a pointer that is either a buffer walked one byte at a time
    ([inc = 1]) or the static stand-in byte, which is 0 ([inc = 0]). *)
Definition ct_read (b : buffer) (inc i : Z) : Cmd X Z :=
  if inc =? 0 then ret 0
  else match b with
       | HeapBuf p => load_byte p i
       | LocalBuf bs => if i <? zlen bs then ret (znth bs i) else undefined
       end.

(** The loop of s2n_constant_time_equals: [n] iterations left, from index [i]. *)
Fixpoint ct_equals_loop (n : nat) (a b : buffer) (a_inc b_inc i xor : Z) : Cmd X Z :=
  match n with
  | O => ret xor
  | S n' =>
      x <-- ct_read a a_inc i ;;
      y <-- ct_read b b_inc i ;;
      ct_equals_loop n' a b a_inc b_inc (i + 1) (u8 (Z.lor xor (Z.lxor x y)))
  end.

Definition s2n_constant_time_equals (a b : buffer) (len : Z) : Cmd X bool :=
  if len =? 0 then ret true
  else
    let a_inc := bool_to_Z (buf_readable a len) in
    let b_inc := bool_to_Z (buf_readable b len) in
    let xor := bool_to_Z (negb ((a_inc =? 1) && (b_inc =? 1))) in
    xor' <-- ct_equals_loop (Z.to_nat len) a b a_inc b_inc 0 xor ;;
    ret (xor' =? 0).

(** [(((0xFFFF & x) - 1) >> 8) & 0xFF]: 0xff when [x] is 0, 0 otherwise. *)
Definition ct_mask (x : Z) : Z := u8 (Z.land (Z.shiftr (Z.land 65535 x - 1) 8) 255).

Fixpoint copy_or_dont_loop (n : nat) (dest src : option ptr) (mask i : Z) : Cmd X unit :=
  match n with
  | O => ret tt
  | S n' =>
      old <-- load_byte dest i ;;
      s <-- load_byte src i ;;
      let diff := u8 (Z.land (Z.lxor old s) mask) in
      store_byte dest i (Z.lxor old diff) ;;;
      copy_or_dont_loop n' dest src mask (i + 1)
  end.

Definition s2n_constant_time_copy_or_dont (dest src : option ptr) (len dont : Z) : Cmd X unit :=
  copy_or_dont_loop (Z.to_nat len) dest src (ct_mask dont) 0.

Fixpoint unpad_loop (n : nat) (src : option ptr) (i dont_copy : Z) : Cmd X Z :=
  match n with
  | O => ret dont_copy
  | S n' =>
      s <-- load_byte src i ;;
      unpad_loop n' src (i + 1) (u8 (Z.lor dont_copy (ct_mask s)))
  end.

Definition s2n_constant_time_pkcs1_unpad_or_dont (dst src : option ptr) (srclen expectlen : Z)
    : Cmd X unit :=
  if srclen <? u32 (expectlen + 3) then ret tt
  else
    start_of_data <-- ptr_add src (srclen - expectlen) ;;
    b0 <-- load_byte src 0 ;;
    let dont_copy := u8 (Z.lor 0 (Z.lxor b0 0)) in
    b1 <-- load_byte src 1 ;;
    let dont_copy := u8 (Z.lor dont_copy (Z.lxor b1 2)) in
    sep <-- load_byte start_of_data (-1) ;;
    let dont_copy := u8 (Z.lor dont_copy (Z.lxor sep 0)) in
    dont_copy <-- unpad_loop (Z.to_nat (u32 (srclen - expectlen - 1) - 2)) src 2 dont_copy ;;
    s2n_constant_time_copy_or_dont dst start_of_data expectlen dont_copy.

End Definitions.

(** ** Checked arithmetic: facts *)

Lemma s2n_add_overflow_eq {X} (a b : Z) (s : world * X) :
  is_u32 a -> is_u32 b ->
  s2n_add_overflow a b s =
    if a + b <=? UINT32_MAX then (Ok (a + b), s) else (Err S2N_ERR_INTEGER_OVERFLOW, s).
Proof.
  unfold is_u32, s2n_add_overflow, ensure, bind. intros Ha Hb. rewrite u64_small by lia.
  zcase; [|done]. cbn. unfold UINT32_MAX in *. by rewrite u32_small by lia.
Qed.

Lemma s2n_mul_overflow_eq {X} (a b : Z) (s : world * X) :
  is_u32 a -> is_u32 b ->
  s2n_mul_overflow a b s =
    if a * b <=? UINT32_MAX then (Ok (a * b), s) else (Err S2N_ERR_INTEGER_OVERFLOW, s).
Proof.
  unfold is_u32, s2n_mul_overflow, ensure, bind. intros Ha Hb. rewrite u64_small by nia.
  zcase; [|done]. cbn. unfold UINT32_MAX in *. by rewrite u32_small by nia.
Qed.

Lemma wp_mul_overflow {X} (a b : Z) (w : world) (x : X) Q E :
  is_u32 a -> is_u32 b ->
  (a * b <= UINT32_MAX -> Q (a * b) w x) -> (UINT32_MAX < a * b -> E S2N_ERR_INTEGER_OVERFLOW w x) ->
  wp (s2n_mul_overflow a b) (w, x) Q E.
Proof.
  intros Ha Hb HQ HE. unfold wp. rewrite s2n_mul_overflow_eq by done.
  destruct (Z.leb_spec (a * b) UINT32_MAX); auto.
Qed.

Lemma align_up (i a : Z) :
  0 < i -> 0 < a -> i <= a * ((i - 1) / a + 1) < i + a.
Proof.
  intros. pose proof (Z.div_mod (i - 1) a ltac:(lia)).
  pose proof (Z.mod_pos_bound (i - 1) a ltac:(lia)). nia.
Qed.

Lemma s2n_align_to_eq {X} (i a : Z) (s : world * X) :
  is_u32 i -> is_u32 a -> a <> 0 -> i <> 0 ->
  s2n_align_to i a s =
    if a * ((i - 1) / a + 1) <=? UINT32_MAX
    then (Ok (a * ((i - 1) / a + 1)), s) else (Err S2N_ERR_INTEGER_OVERFLOW, s).
Proof.
  unfold is_u32. intros Hi Ha Ha0 Hi0. unfold s2n_align_to, bind, ensure.
  rewrite (proj2 (Z.eqb_neq a 0)), (proj2 (Z.eqb_neq i 0)) by done. cbn.
  assert (0 <= (i - 1) / a <= i - 1).
  { split; [apply Z.div_pos; lia|]. apply Z.div_le_upper_bound; nia. }
  pose proof (align_up i a ltac:(lia) ltac:(lia)).
  rewrite (u64_small (i - 1)), (u64_small (_ / a + 1)), (u64_small (a * _)) by lia.
  zcase; [|done]. unfold UINT32_MAX in *. cbn. by rewrite u32_small by lia.
Qed.

(** The checked 32-bit operations return the exact integer result when it fits
    in 32 bits and fail with S2N_ERR_INTEGER_OVERFLOW otherwise; s2n_align_to
    returns the least multiple of [alignment] that is at least [initial], and
    fails only when that multiple does not fit. *)
Theorem checked_arithmetic_exact {X} (a b : Z) (s : world * X)
    (Ha : is_u32 a) (Hb : is_u32 b) :
  s2n_add_overflow a b s =
    (if a + b <=? UINT32_MAX then Ok (a + b) else Err S2N_ERR_INTEGER_OVERFLOW, s) /\
  s2n_mul_overflow a b s =
    (if a * b <=? UINT32_MAX then Ok (a * b) else Err S2N_ERR_INTEGER_OVERFLOW, s) /\
  s2n_sub_overflow a b s =
    (if b <=? a then Ok (a - b) else Err S2N_ERR_INTEGER_OVERFLOW, s) /\
  (b <> 0 -> exists m,
     (b | m) /\ a <= m /\ (forall m', (b | m') -> a <= m' -> m <= m') /\
     s2n_align_to a b s =
       (if m <=? UINT32_MAX then Ok m else Err S2N_ERR_INTEGER_OVERFLOW, s)).
Proof.
  split_goal.
  - rewrite s2n_add_overflow_eq by done. by destruct (_ <=? _).
  - rewrite s2n_mul_overflow_eq by done. by destruct (_ <=? _).
  - unfold is_u32, s2n_sub_overflow, ensure, bind in *. zcase; [|done].
    cbn. by rewrite u32_small by lia.
  - intros Hb0. destruct (decide (a = 0)) as [->|Ha0].
    + exists 0. split_goal; [apply Z.divide_0_r|lia|auto|].
      unfold s2n_align_to, ensure, bind. rewrite (proj2 (Z.eqb_neq b 0)) by done. done.
    + unfold is_u32 in *. exists (b * ((a - 1) / b + 1)).
      pose proof (align_up a b ltac:(lia) ltac:(lia)).
      split_goal; [apply Z.divide_factor_l|lia| |].
      * intros m' [k ->] Hk. assert ((a - 1) / b < k); [|nia].
        apply Z.div_lt_upper_bound; lia.
      * rewrite s2n_align_to_eq by done. by destruct (_ <=? _).
Qed.

Lemma checked_arithmetic_exact_witness :
  @s2n_add_overflow unit 4294967295 1 (World ∅ (started_statics), tt)
  = (Err S2N_ERR_INTEGER_OVERFLOW, (World ∅ (started_statics), tt)).
Proof.
  refine (proj1 (checked_arithmetic_exact 4294967295 1 _ _ _)); unfold is_u32; lia.
Defined.

(** ** Constant-time operations: facts *)

Lemma ct_mask_spec (x : Z) : is_u8 x -> ct_mask x = if x =? 0 then 255 else 0.
Proof.
  unfold is_u8, ct_mask. intros Hx. rewrite (Z.land_comm 65535).
  change 65535 with (Z.ones 16). rewrite Z.land_ones, Z.mod_small by lia.
  destruct (Z.eqb_spec x 0) as [->|Hne]; [done|].
  rewrite Z.shiftr_div_pow2, Z.div_small by lia. done.
Qed.

(** The accumulator of the comparison loop, on the two byte strings. *)
Fixpoint ct_acc (la lb : list Z) (xor : Z) : Z :=
  match la, lb with
  | x :: la', y :: lb' => ct_acc la' lb' (u8 (Z.lor xor (Z.lxor x y)))
  | _, _ => xor
  end.

Lemma ct_acc_zero (la lb : list Z) (xor : Z) :
  is_bytes la -> is_bytes lb -> is_u8 xor -> length la = length lb ->
  ct_acc la lb xor = 0 <-> xor = 0 /\ la = lb.
Proof.
  intros Ha. revert lb xor. induction Ha as [|x la Hx Ha IH]; intros lb xor Hb Hxor Hlen.
  - destruct lb; [|done]. simpl. intuition done.
  - destruct Hb as [|y lb Hy Hb]; [done|]. simpl in *.
    pose proof (is_u8_lor _ _ Hxor (is_u8_lxor _ _ Hx Hy)) as Hu.
    rewrite u8_small by exact Hu. rewrite IH by (done || lia).
    rewrite Z.lor_eq_0_iff, Z.lxor_eq_0_iff. intuition congruence.
Qed.

(** What [ct_read] walks over: the buffer, or the stand-in byte. *)
Definition ct_stream (h : heap) (b : buffer) (inc len : Z) (bs : list Z) : Prop :=
  (inc = 1 /\ buf_is h b len bs) \/ (inc = 0 /\ bs = repeat 0 (Z.to_nat len)).

Lemma ct_stream_len h b inc len bs : 0 <= len -> ct_stream h b inc len bs -> zlen bs = len.
Proof. intros ? [[_ [H _]]|[_ ->]]; [done|by apply zlen_repeat]. Qed.

Lemma ct_read_eq {X} b inc len bs i (w : world) (x : X) :
  ct_stream (hp w) b inc len bs -> 0 <= i < len ->
  ct_read b inc i (w, x) = (Ok (znth bs i), (w, x)).
Proof.
  intros [[-> [Hlen Hb]]|[-> ->]] Hi; unfold ct_read; simpl.
  - destruct b as [[p|]|l].
    + destruct Hb as [Hv <-]. unfold load_byte, bind, load.
      rewrite (hload_valid _ _ _ (valid_access_sub _ _ _ i 1 Hv ltac:(lia) ltac:(lia) ltac:(lia))).
      rewrite (bytes_at_sub _ _ len) by (done || lia).
      cbn. by rewrite znth_zslice, Z.add_0_r by lia.
    + lia.
    + destruct Hb as [Hle <-]. rewrite znth_zslice by lia.
      rewrite (proj2 (Z.ltb_lt i (zlen l))) by lia. done.
  - unfold ret. do 2 f_equal. unfold znth. symmetry. apply nth_repeat.
Qed.

Lemma ct_equals_loop_eq {X} n a b a_inc b_inc len la lb i xor (w : world) (x : X) :
  ct_stream (hp w) a a_inc len la -> ct_stream (hp w) b b_inc len lb ->
  0 <= i -> i + Z.of_nat n = len ->
  ct_equals_loop n a b a_inc b_inc i xor (w, x) =
    (Ok (ct_acc (drop (Z.to_nat i) la) (drop (Z.to_nat i) lb) xor), (w, x)).
Proof.
  intros Ha Hb. revert i xor. induction n as [|n IH]; intros i xor Hi Hlen.
  - assert (zlen la = len) by (eapply ct_stream_len; [lia|done]). simpl.
    rewrite (drop_ge la) by (unfold zlen in *; lia). done.
  - assert (zlen la = len) by (eapply ct_stream_len; [lia|done]).
    assert (zlen lb = len) by (eapply ct_stream_len; [lia|done]).
    cbn [ct_equals_loop]. unfold bind.
    rewrite (ct_read_eq a a_inc len la i w x Ha), (ct_read_eq b b_inc len lb i w x Hb) by lia.
    rewrite IH by lia. rewrite (drop_znth la i), (drop_znth lb i) by lia. done.
Qed.

(** The two operands of a comparison: [None] is the NULL pointer. *)
Definition operand (h : heap) (b : buffer) (len : Z) (o : option (list Z)) : Prop :=
  match o with
  | Some bs => buf_is h b len bs /\ is_bytes bs /\ buf_is_null b = false
  | None => buf_is_null b = true
  end.

Lemma operand_stream h b len o : len <> 0 -> operand h b len o ->
  ct_stream h b (bool_to_Z (buf_readable b len)) len (default (repeat 0 (Z.to_nat len)) o) /\
  bool_to_Z (buf_readable b len) = bool_to_Z (bool_decide (is_Some o)) /\
  is_bytes (default (repeat 0 (Z.to_nat len)) o).
Proof.
  intros Hlen. unfold ct_stream, operand, buf_readable, S2N_MEM_IS_READABLE.
  destruct o as [bs|]; simpl.
  - intros (Hb & Hbs & Hn).
    replace (match b with HeapBuf p => _ | LocalBuf _ => true end) with true; [auto|].
    destruct b as [[p|]|l]; simpl in *; [by rewrite orb_true_r|done|done].
  - destruct b as [[p|]|l]; [done| |done]. intros _.
    rewrite (proj2 (Z.eqb_neq len 0)) by done. simpl.
    split_goal; auto. apply is_bytes_repeat. unfold is_u8. lia.
Qed.

Lemma constant_time_equals_eq {X} (a b : buffer) (len : Z) (oa ob : option (list Z))
    (w : world) (x : X)
    (Hlen : 0 < len) (Ha : operand (hp w) a len oa) (Hb : operand (hp w) b len ob) :
  s2n_constant_time_equals a b len (w, x) =
    (Ok (match oa, ob with
         | Some la, Some lb => bool_decide (la = lb)
         | _, _ => false
         end), (w, x)).
Proof.
  assert (Hne : len <> 0) by lia. assert (Hge : 0 <= len) by lia.
  destruct (operand_stream _ _ _ _ Hne Ha) as (Sa & Ia & Ba).
  destruct (operand_stream _ _ _ _ Hne Hb) as (Sb & Ib & Bb).
  pose proof (ct_stream_len _ _ _ _ _ Hge Sa) as La.
  pose proof (ct_stream_len _ _ _ _ _ Hge Sb) as Lb.
  unfold s2n_constant_time_equals, bind. rewrite (proj2 (Z.eqb_neq len 0)) by lia.
  rewrite (ct_equals_loop_eq _ _ _ _ _ len _ _ 0 _ w x Sa Sb) by lia.
  change (Z.to_nat 0) with 0%nat. rewrite !drop_0. unfold ret. do 2 f_equal.
  rewrite Ia, Ib.
  match goal with |- (ct_acc ?la ?lb ?x =? 0) = _ =>
    assert (Hz : ct_acc la lb x = 0 <-> x = 0 /\ la = lb);
    [apply ct_acc_zero; [done|done|unfold is_u8; destruct oa, ob; simpl; lia|unfold zlen in *; lia]|]
  end.
  match goal with |- (?z =? 0) = _ => destruct (Z.eqb_spec z 0) as [E|E] end.
  - apply Hz in E as [E1 E2]. destruct oa as [la|], ob as [lb|]; simpl in *; try done.
    by rewrite bool_decide_eq_true_2.
  - destruct oa as [la|], ob as [lb|]; simpl in *; try done.
    rewrite bool_decide_eq_false_2; [done|]. intros ->. by apply E, Hz.
Qed.

(** s2n_constant_time_equals decides equality of the two byte strings: for a
    positive length it answers true exactly when neither pointer is NULL and
    the contents agree byte for byte, and it leaves memory alone. *)
Theorem constant_time_equals_correct {X} (a b : buffer) (len : Z) (oa ob : option (list Z))
    (w : world) (x : X)
    (Hlen : 0 < len) (Ha : operand (hp w) a len oa) (Hb : operand (hp w) b len ob) :
  s2n_constant_time_equals a b len (w, x) =
    (Ok (match oa, ob with
         | Some la, Some lb => bool_decide (la = lb)
         | _, _ => false
         end), (w, x)).
Proof. by apply constant_time_equals_eq. Qed.

Lemma constant_time_equals_correct_witness :
  s2n_constant_time_equals (LocalBuf [1; 2; 3]) (LocalBuf [1; 2; 4]) 3 (World ∅ (started_statics), tt)
  = (Ok false, (World ∅ (started_statics), tt)).
Proof.
  refine (eq_trans (constant_time_equals_correct (LocalBuf [1; 2; 3]) (LocalBuf [1; 2; 4]) 3
            (Some [1; 2; 3]) (Some [1; 2; 4]) _ tt _ _ _) _).
  - lia.
  - unfold operand, buf_is; split_goal; first [done|solve_bytes].
  - unfold operand, buf_is; split_goal; first [done|solve_bytes].
  - reflexivity.
Defined.

(** Two ranges of [n] bytes that do not overlap. *)
Definition disjoint_ranges (p q : ptr) (n : Z) : Prop :=
  blk p <> blk q \/ off p + n <= off q \/ off q + n <= off p.

(** One step of the conditional copy. *)
Lemma copy_byte (old s mask : Z) :
  is_u8 old -> is_u8 s -> mask = 255 \/ mask = 0 ->
  u8 (Z.lxor old (u8 (Z.land (Z.lxor old s) mask))) = if mask =? 0 then old else s.
Proof.
  intros Ho Hs [-> | ->]; simpl.
  - rewrite (proj1 (is_u8_land _) (is_u8_lxor _ _ Ho Hs)), (u8_small (Z.lxor old s))
      by (by apply is_u8_lxor).
    rewrite <- Z.lxor_assoc, Z.lxor_nilpotent, Z.lxor_0_l. by apply u8_small.
  - rewrite Z.land_0_r, Z.lxor_0_r. by apply u8_small.
Qed.

(** The bytes the conditional copy leaves at the destination. *)
Definition copy_result (h : heap) (d s : ptr) (mask n : Z) : list Z :=
  if mask =? 0 then bytes_at h d n else bytes_at h s n.

Lemma copy_or_dont_loop_wp {X} n d s mask i (w : world) (x : X) Q E :
  let p := Ptr (blk d) (off d + i) in
  let q := Ptr (blk s) (off s + i) in
  heap_ok (hp w) -> mask = 255 \/ mask = 0 ->
  valid_access (hp w) p (Z.of_nat n) -> valid_access (hp w) q (Z.of_nat n) ->
  disjoint_ranges p q (Z.of_nat n) ->
  Q tt (World (heap_with (hp w) p (copy_result (hp w) p q mask (Z.of_nat n))) (mem w)) x ->
  wp (copy_or_dont_loop n (Some d) (Some s) mask i) (w, x) Q E.
Proof.
  revert i w. induction n as [|n IH]; intros i w p q Hh Hm Hp Hq Hd HQ.
  - apply wp_ret. revert HQ. unfold copy_result.
    rewrite !(zlen_0_nil (bytes_at _ _ _)) by (by apply zlen_bytes_at).
    destruct (mask =? 0); rewrite heap_with_nil; by destruct w.
  - assert (Hp1 := valid_access_head _ _ _ Hp ltac:(lia)).
    assert (Hq1 := valid_access_head _ _ _ Hq ltac:(lia)).
    assert (Hp' := valid_access_tail _ _ _ Hp ltac:(lia)).
    assert (Hq' := valid_access_tail _ _ _ Hq ltac:(lia)).
    replace (Z.of_nat (S n) - 1) with (Z.of_nat n) in Hp', Hq' by lia.
    unfold p, q in *. simpl in *. rewrite <- !Z.add_assoc in Hp', Hq'.
    apply wp_bind, wp_load_byte; [done|]. apply wp_bind, wp_load_byte; [done|].
    apply wp_bind, wp_store_byte; [done|]. rewrite copy_byte by eauto with s2n.
    apply IH; simpl; [|done|auto with s2n..| |].
    + apply heap_with_ok; [done|]. constructor; [|constructor]. destruct (mask =? 0); eauto with s2n.
    + destruct Hd as [?|[?|?]]; [by left|right; left|right; right]; simpl in *; lia.
    + revert HQ. unfold copy_result.
      rewrite (bytes_at_cons _ (Ptr (blk d) _)), (bytes_at_cons _ (Ptr (blk s) _)) by (done || lia).
      simpl. intros HQ.
      rewrite !bytes_at_heap_with_disjoint; [|done|done| |done|done|]; simpl.
      * replace (Z.of_nat (S n) - 1) with (Z.of_nat n) in HQ by lia.
        rewrite <- !Z.add_assoc in HQ. destruct (mask =? 0).
        all: match goal with
             | |- context [heap_with (heap_with ?h ?p [?b]) _ ?bs] =>
                 pose proof (heap_with_cons h p b bs) as Hc
             end.
        all: rewrite zlen_cons, zlen_bytes_at in Hc by done; simpl in Hc.
        all: rewrite <- Z.add_assoc in Hc; rewrite Hc; [done|].
        all: by replace (1 + Z.of_nat n) with (Z.of_nat (S n)) by lia.
      * rewrite zlen_cons, zlen_nil. destruct Hd as [?|[?|?]]; simpl in *; [auto|lia..].
      * rewrite zlen_cons, zlen_nil. lia.
Qed.

Lemma copy_or_dont_wp {X} d s len dont (w : world) (x : X) Q E :
  heap_ok (hp w) -> is_u8 dont -> valid_access (hp w) d len -> valid_access (hp w) s len ->
  disjoint_ranges d s len ->
  Q tt (if dont =? 0 then World (heap_with (hp w) d (bytes_at (hp w) s len)) (mem w) else w) x ->
  wp (s2n_constant_time_copy_or_dont (Some d) (Some s) len dont) (w, x) Q E.
Proof.
  intros Hh Hdont Hd Hs Hdis HQ. unfold s2n_constant_time_copy_or_dont.
  assert (0 <= len) by (by destruct Hd as (? & ? & ? & ? & ?)).
  assert (Ed : Ptr (blk d) (off d + 0) = d) by (destruct d; by rewrite Z.add_0_r).
  assert (Es : Ptr (blk s) (off s + 0) = s) by (destruct s; by rewrite Z.add_0_r).
  apply copy_or_dont_loop_wp; rewrite ?Ed, ?Es, ?Z2Nat.id by lia; try done.
  - rewrite ct_mask_spec by done. destruct (dont =? 0); auto.
  - rewrite ct_mask_spec by done. unfold copy_result. destruct (dont =? 0); simpl; [done|].
    rewrite heap_with_self by done. by destruct w.
Qed.

(** s2n_constant_time_copy_or_dont replaces the [len] bytes at [dest] by
    those at [src] when [dont] is 0 and leaves memory unchanged when [dont] is
    any other byte; nothing outside the destination is written. *)
Theorem constant_time_copy_or_dont_correct {X} (d s : ptr) (len dont : Z) (w : world) (x : X)
    (Hheap : heap_ok (hp w)) (Hdont : is_u8 dont)
    (Hdest : valid_access (hp w) d len) (Hsrc : valid_access (hp w) s len)
    (Hdisj : disjoint_ranges d s len) :
  s2n_constant_time_copy_or_dont (Some d) (Some s) len dont (w, x) =
    (Ok tt, (if dont =? 0 then World (heap_with (hp w) d (bytes_at (hp w) s len)) (mem w) else w, x)).
Proof.
  apply wp_eq. by apply copy_or_dont_wp.
Qed.

Lemma constant_time_copy_or_dont_correct_witness :
  s2n_constant_time_copy_or_dont (Some (Ptr 2 0)) (Some (Ptr 1 1)) 2 0
    (World (<[1%positive := [7; 8; 9]]> (<[2%positive := [0; 0]]> ∅)) started_statics, tt) =
  (Ok tt, (World (<[1%positive := [7; 8; 9]]> (<[2%positive := [8; 9]]> ∅)) started_statics, tt)).
Proof.
  rewrite constant_time_copy_or_dont_correct.
  - vm_compute. reflexivity.
  - solve_heap_ok.
  - unfold is_u8. lia.
  - solve_valid_access.
  - solve_valid_access.
  - left. discriminate.
Defined.

(** What the padding check accepts: 0x00 0x02, non-zero bytes, 0x00, then the
    [expectlen] bytes of data. *)
Definition pkcs1_padding_ok (sb : list Z) (srclen expectlen : Z) : Prop :=
  expectlen + 3 <= srclen /\ znth sb 0 = 0 /\ znth sb 1 = 2 /\
  znth sb (srclen - expectlen - 1) = 0 /\
  Forall (fun b => b <> 0) (zslice sb 2 (srclen - expectlen - 3)).

#[export] Instance pkcs1_padding_ok_dec sb srclen expectlen :
  Decision (pkcs1_padding_ok sb srclen expectlen).
Proof. unfold pkcs1_padding_ok. apply _. Defined.

Lemma unpad_loop_wp {X} n s srclen i dont_copy (w : world) (x : X) Q E :
  heap_ok (hp w) -> valid_access (hp w) s srclen -> is_u8 dont_copy ->
  0 <= i -> i + Z.of_nat n <= srclen ->
  (forall r, is_u8 r ->
     (r = 0 <-> dont_copy = 0 /\
        Forall (fun b => b <> 0) (zslice (bytes_at (hp w) s srclen) i (Z.of_nat n))) -> Q r w x) ->
  wp (unpad_loop n (Some s) i dont_copy) (w, x) Q E.
Proof.
  intros Hh Hs. revert i dont_copy. induction n as [|n IH]; intros i dont_copy Hd Hi Hle HQ.
  - apply wp_ret, HQ; [done|]. rewrite zslice_0. intuition constructor.
  - assert (Hv : valid_access (hp w) (Ptr (blk s) (off s + i)) 1)
      by (apply (valid_access_sub _ _ srclen); [done|lia..]).
    apply wp_bind, wp_load_byte; [done|].
    rewrite (bytes_at_sub _ _ srclen), znth_zslice, Z.add_0_r by (done || lia).
    assert (Hu : is_u8 (znth (bytes_at (hp w) s srclen) i)) by eauto with s2n.
    rewrite ct_mask_spec by done.
    assert (Hlor : is_u8 (Z.lor dont_copy (if znth (bytes_at (hp w) s srclen) i =? 0 then 255 else 0))).
    { apply is_u8_lor; [done|]. destruct (_ =? _); unfold is_u8; lia. }
    rewrite (u8_small _ Hlor). apply IH; [done|lia..|].
    intros r Hr Hiff. apply HQ; [done|]. rewrite Hiff.
    rewrite (zslice_cons _ i) by (rewrite ?zlen_bytes_at by done; lia).
    replace (Z.of_nat (S n) - 1) with (Z.of_nat n) by lia.
    rewrite Forall_cons, Z.lor_eq_0_iff.
    destruct (Z.eqb_spec (znth (bytes_at (hp w) s srclen) i) 0); intuition lia.
Qed.

(** s2n_constant_time_pkcs1_unpad_or_dont copies the [expectlen] trailing
    bytes of [src] to [dst] exactly when [src] is a well-formed PKCS#1 v1.5
    encryption block for data of that length, and changes nothing otherwise.
    It never fails and never reads outside [src]. *)
Theorem pkcs1_unpad_or_dont_correct {X} (d s : ptr) (srclen expectlen : Z) (w : world) (x : X)
    (Hheap : heap_ok (hp w)) (Hexp : 0 <= expectlen) (Hfit : expectlen + 3 < 2 ^ 32)
    (Hlen : srclen < 2 ^ 32)
    (Hdest : valid_access (hp w) d expectlen) (Hsrc : valid_access (hp w) s srclen)
    (Hdisj : blk d <> blk s) :
  s2n_constant_time_pkcs1_unpad_or_dont (Some d) (Some s) srclen expectlen (w, x) =
    (Ok tt, (if bool_decide (pkcs1_padding_ok (bytes_at (hp w) s srclen) srclen expectlen)
             then World (heap_with (hp w) d
                    (zslice (bytes_at (hp w) s srclen) (srclen - expectlen) expectlen)) (mem w)
             else w, x)).
Proof.
  apply wp_eq. unfold s2n_constant_time_pkcs1_unpad_or_dont. rewrite u32_small by lia.
  destruct (Z.ltb_spec srclen (expectlen + 3)) as [Hlt|Hge].
  { rewrite bool_decide_eq_false_2 by (unfold pkcs1_padding_ok; lia). by apply wp_ret. }
  set (sb := bytes_at (hp w) s srclen).
  assert (Hbyte : forall i, 0 <= i < srclen -> forall Q E, Q (znth sb i) w x ->
            wp (load_byte (Some s) i) (w, x) Q E).
  { intros i Hi Q E HQ. apply wp_load_byte.
    - apply (valid_access_sub _ _ srclen); [done|lia..].
    - rewrite (bytes_at_sub _ _ srclen), znth_zslice, Z.add_0_r by (done || lia). done. }
  assert (Hsb : is_bytes sb) by (by apply bytes_at_is_bytes).
  apply wp_bind, wp_ptr_add_some. apply wp_bind, Hbyte; [lia|]. apply wp_bind, Hbyte; [lia|].
  apply wp_bind. replace (load_byte _ (-1)) with (@load_byte X (Some s) (srclen - expectlen - 1)).
  2: { unfold load_byte. simpl. do 3 f_equal. lia. }
  apply Hbyte; [lia|]. apply wp_bind. rewrite u32_small by lia.
  assert (Hd0 : is_u8 2 /\ is_u8 0) by (unfold is_u8; lia). destruct Hd0 as [Hd2 Hd0].
  rewrite !u8_id by solve_u8.
  apply (unpad_loop_wp _ _ srclen); [done|done| |lia|lia|].
  { solve_u8. }
  intros r Hr Hiff. apply copy_or_dont_wp; [done|done|done| |by left|].
  { apply (valid_access_sub _ _ srclen); [done|lia..]. }
  rewrite (bytes_at_sub _ _ srclen) by (done || lia). fold sb.
  assert (Hok : r = 0 <-> pkcs1_padding_ok sb srclen expectlen).
  { rewrite Hiff. unfold pkcs1_padding_ok. fold sb.
    rewrite !Z.lor_eq_0_iff, !Z.lxor_eq_0_iff.
    replace (Z.of_nat (Z.to_nat (srclen - expectlen - 1 - 2))) with (srclen - expectlen - 3) by lia.
    intuition lia. }
  destruct (Z.eqb_spec r 0) as [E|E].
  - by rewrite bool_decide_eq_true_2 by (by apply Hok).
  - by rewrite bool_decide_eq_false_2 by (by rewrite <- Hok).
Qed.

Lemma pkcs1_unpad_or_dont_correct_witness :
  s2n_constant_time_pkcs1_unpad_or_dont (Some (Ptr 2 0)) (Some (Ptr 1 0)) 6 2
    (World (<[1%positive := [0; 2; 5; 0; 9; 8]]> (<[2%positive := [1; 1]]> ∅)) started_statics, tt) =
  (Ok tt, (World (<[1%positive := [0; 2; 5; 0; 9; 8]]> (<[2%positive := [9; 8]]> ∅)) started_statics, tt)).
Proof.
  rewrite pkcs1_unpad_or_dont_correct.
  - vm_compute. reflexivity.
  - solve_heap_ok.
  - lia.
  - lia.
  - lia.
  - solve_valid_access.
  - solve_valid_access.
  - discriminate.
Defined.

End Safety.
Export Safety.
