(* ===== verification/Platform.v ===== *)
(** * What the code relies on from outside the repository

    The C library, the kernel and the callbacks an application may install are
    not part of the repository: they are the operations of a [Platform], and
    what their documentation promises is [PlatformOk].  [NDEBUG] selects the
    build: the DEBUG_ENSURE and POSTCONDITION macros of utils/s2n_ensure.h are
    checks in a debug build and vanish in a release build. *)
From S2P Require Import Prelude Errors CMem.
Open Scope Z_scope.

Class Platform := {
  (** Whether the library was compiled with -DNDEBUG. *)
  NDEBUG : bool;
  (** [malloc(n)]: NULL, or the bytes of the new block. *)
  libc_malloc : heap -> Z -> option (list Z);
  (** [posix_memalign(&p, alignment, n)]: a failure code, or the bytes of the new block. *)
  libc_memalign : heap -> Z -> Z -> option (list Z);
  (** [madvise(p, n, MADV_DONTDUMP) == 0], [mlock(p, n) == 0]. *)
  madvise_ok : heap -> positive -> Z -> bool;
  mlock_ok : heap -> positive -> Z -> bool;
  (** [sysconf(_SC_PAGESIZE)]. *)
  sysconf_pagesize : Z;
  (** [getenv("S2N_DONT_MLOCK") || s2n_in_unit_test()]. *)
  dont_mlock : bool;
  (** An application's s2n_mem_malloc_callback: failure, or the pointer it
      stores (NULL or a new block) and the size it reports. *)
  user_malloc : heap -> Z -> option (option (list Z) * Z);
  (** Whether an application's s2n_mem_free_callback succeeds. *)
  user_free_ok : heap -> positive -> Z -> bool;
  (** Whether an application's init and cleanup callbacks succeed. *)
  user_init_ok : bool;
  user_cleanup_ok : bool;
}.

Class PlatformOk `{Platform} : Prop := {
  libc_malloc_spec h n l : 0 <= n -> libc_malloc h n = Some l -> zlen l = n /\ is_bytes l;
  libc_memalign_spec h a n l : 0 <= n -> libc_memalign h a n = Some l -> zlen l = n /\ is_bytes l;
  user_malloc_spec h n l k : user_malloc h n = Some (Some l, k) -> zlen l = k /\ is_u32 k /\ is_bytes l;
}.

(** A platform on which every allocation succeeds with zeroed memory. *)
Definition demo_platform : Platform := {|
  NDEBUG := false;
  libc_malloc _ n := Some (repeat 0 (Z.to_nat n));
  libc_memalign _ _ n := Some (repeat 0 (Z.to_nat n));
  madvise_ok _ _ _ := true;
  mlock_ok _ _ _ := true;
  sysconf_pagesize := 4096;
  dont_mlock := true;
  user_malloc _ _ := None;
  user_free_ok _ _ _ := true;
  user_init_ok := true;
  user_cleanup_ok := true;
|}.

#[export] Instance demo_platform_ok : @PlatformOk demo_platform.
Proof.
  assert (Hz : forall n, is_bytes (repeat 0 (Z.to_nat n))).
  { intros n. apply is_bytes_repeat. unfold is_u8. lia. }
  split; simpl.
  - intros h n l Hn [= <-]. by rewrite zlen_repeat.
  - intros h a n l Hn [= <-]. by rewrite zlen_repeat.
  - done.
Qed.

Section Macros.
Context `{Platform} {X : Type}.

(** RESULT_DEBUG_ENSURE *)
Definition debug_ensure (b : bool) (e : s2n_error) : Cmd X unit :=
  if NDEBUG then ret tt else ensure b e.

(** POSIX_POSTCONDITION, RESULT_POSTCONDITION *)
Definition postcondition (c : Cmd X unit) : Cmd X unit :=
  if NDEBUG then ret tt else c.

Lemma debug_ensure_true b e (s : world * X) : b = true -> debug_ensure b e s = (Ok tt, s).
Proof. intros ->. unfold debug_ensure, ensure. by destruct NDEBUG. Qed.

Lemma postcondition_ok c (s : world * X) : c s = (Ok tt, s) -> postcondition c s = (Ok tt, s).
Proof. intros Hc. unfold postcondition. by destruct NDEBUG. Qed.
End Macros.
