(* ===== verification/Blob.v ===== *)
(** * utils/s2n_blob.c: byte ranges *)
From S2P Require Import Prelude Errors CMem Platform Safety.
Open Scope Z_scope.

Module Blob.

(** struct s2n_blob *)
Record s2n_blob := Blob {
  data : option ptr;
  size : Z;
  allocated : Z;
  growable : bool;
}.

Definition set_size (n : Z) (b : s2n_blob) : s2n_blob := Blob (data b) n (allocated b) (growable b).

(** [(struct s2n_blob){ 0 }] *)
Definition zero_blob : s2n_blob := Blob None 0 0 false.

(** [tolower] in the C locale. *)
Definition tolower (c : Z) : Z := if (65 <=? c) && (c <=? 90) then c + 32 else c.

Section Definitions.
Context `{Platform}.

Definition s2n_blob_validate {X} (b : s2n_blob) : Cmd X unit :=
  debug_ensure (S2N_IMPLIES (is_null (data b)) (size b =? 0)) S2N_ERR_SAFETY ;;;
  debug_ensure (S2N_IMPLIES (is_null (data b)) (allocated b =? 0)) S2N_ERR_SAFETY ;;;
  debug_ensure (S2N_IMPLIES (negb (growable b)) (allocated b =? 0)) S2N_ERR_SAFETY ;;;
  debug_ensure (S2N_IMPLIES (growable b) ((0 <? allocated b) || (size b =? 0))) S2N_ERR_SAFETY ;;;
  debug_ensure (S2N_IMPLIES (growable b) (size b <=? allocated b)) S2N_ERR_SAFETY ;;;
  debug_ensure (S2N_MEM_IS_READABLE (data b) (allocated b)) S2N_ERR_SAFETY ;;;
  debug_ensure (S2N_MEM_IS_READABLE (data b) (size b)) S2N_ERR_SAFETY.

Definition s2n_blob_init (d : option ptr) (n : Z) : Cmd s2n_blob unit :=
  ensure (S2N_MEM_IS_READABLE d n) S2N_ERR_SAFETY ;;;
  put_obj (Blob d n 0 false) ;;;
  b <-- get_obj ;;
  postcondition (s2n_blob_validate b).

Definition s2n_blob_zero : Cmd s2n_blob unit :=
  b <-- get_obj ;;
  s2n_blob_validate b ;;;
  checked_memset (data b) 0 (Z.max (allocated b) (size b)) ;;;
  postcondition (s2n_blob_validate b).

(** The state is the slice that is (re)initialised; [b] is read only. *)
Definition s2n_blob_slice (b : s2n_blob) (offset n : Z) : Cmd s2n_blob unit :=
  s2n_blob_validate b ;;;
  slice <-- get_obj ;;
  s2n_blob_validate slice ;;;
  slice_size <-- s2n_add_overflow offset n ;;
  ensure (slice_size <=? size b) S2N_ERR_SIZE_MISMATCH ;;;
  d <-- (if is_null (data b) then ret None else ptr_add (data b) offset) ;;
  put_obj (Blob d n 0 false) ;;;
  slice' <-- get_obj ;;
  postcondition (s2n_blob_validate slice').

Fixpoint char_to_lower_loop (n : nat) (d : option ptr) (i : Z) : Cmd s2n_blob unit :=
  match n with
  | O => ret tt
  | S n' =>
      c <-- load_byte d i ;;
      store_byte d i (tolower c) ;;;
      char_to_lower_loop n' d (i + 1)
  end.

Definition s2n_blob_char_to_lower : Cmd s2n_blob unit :=
  b <-- get_obj ;;
  s2n_blob_validate b ;;;
  char_to_lower_loop (Z.to_nat (size b)) (data b) 0 ;;;
  postcondition (s2n_blob_validate b).

(** utils/s2n_mem.c: a blob that s2n_realloc may resize. *)
Definition s2n_blob_is_growable (b : s2n_blob) : bool :=
  growable b || (is_null (data b) && (size b =? 0) && (allocated b =? 0)).
End Definitions.

(** ** The blob invariant

    The fields are 32-bit; a NULL blob is empty; the bytes the blob covers are
    accessible; an allocated blob owns its block, from the start of it. *)
Record blob_ok (h : heap) (b : s2n_blob) : Prop := {
  ok_size : is_u32 (size b);
  ok_allocated : is_u32 (allocated b);
  ok_null : data b = None -> size b = 0 /\ allocated b = 0 /\ growable b = false;
  ok_static : growable b = false -> allocated b = 0;
  ok_growable : growable b = true ->
    size b <= allocated b /\ 0 < allocated b /\
    exists p l, data b = Some p /\ off p = 0 /\ h !! blk p = Some l /\ allocated b <= zlen l;
  ok_access : forall p, data b = Some p -> valid_access h p (Z.max (size b) (allocated b));
}.

(** The bytes of a blob. *)
Definition blob_bytes (h : heap) (b : s2n_blob) : list Z :=
  match data b with Some p => bytes_at h p (size b) | None => [] end.

(** The block of a blob. *)
Definition in_block (b : s2n_blob) (k : positive) : Prop :=
  exists p, data b = Some p /\ blk p = k.

(** Every block other than the one of [b] is the same in both heaps. *)
Definition frame (b : s2n_blob) (h h' : heap) : Prop :=
  forall k l, h !! k = Some l -> ~ in_block b k -> h' !! k = Some l.

Lemma frame_refl b h : frame b h h.
Proof. by intros k l Hk _. Qed.

Lemma frame_trans b h1 h2 h3 : frame b h1 h2 -> frame b h2 h3 -> frame b h1 h3.
Proof. intros H12 H23 k l Hk Hb. by apply H23; [apply H12|]. Qed.

Lemma frame_heap_with b p q bs h :
  data b = Some p -> blk q = blk p -> valid_access h q (zlen bs) -> frame b h (heap_with h q bs).
Proof.
  intros Hp Hq Hv k l Hk Hb. rewrite heap_with_ne; [done|done|].
  intros ->. apply Hb. by exists p.
Qed.

#[export] Hint Resolve frame_refl frame_trans : s2n.

Lemma blob_ok_zero h : blob_ok h zero_blob.
Proof. split; simpl; try done; unfold is_u32; lia. Qed.

Lemma blob_access h b p i n :
  blob_ok h b -> data b = Some p -> 0 <= i -> 0 <= n -> i + n <= size b ->
  valid_access h (Ptr (blk p) (off p + i)) n.
Proof. intros Hb Hp ???. eapply valid_access_sub; [by apply Hb|lia..]. Qed.

Lemma blob_access_all h b p : blob_ok h b -> data b = Some p -> valid_access h p (size b).
Proof.
  intros Hb Hp. pose proof (ok_size _ _ Hb). unfold is_u32 in *.
  pose proof (blob_access _ _ _ 0 (size b) Hb Hp) as Hv. destruct p as [k o].
  simpl in Hv. rewrite Z.add_0_r in Hv. apply Hv; lia.
Qed.

(** The invariant only depends on the block of the blob. *)
Lemma blob_ok_ext h h' b :
  (forall k, in_block b k -> h !! k = h' !! k) -> blob_ok h b -> blob_ok h' b.
Proof.
  intros Heq [? ? ? ? Hg Ha]. split; try done.
  - intros g. destruct (Hg g) as (? & ? & p & l & Hp & ? & Hl & ?). split_goal; [done..|].
    exists p, l. rewrite <- Heq; [done|by exists p].
  - intros p Hp. eapply valid_access_ext; [|by apply Ha]. apply Heq. by exists p.
Qed.

(** A write inside the heap does not change which accesses are valid. *)
Lemma blob_ok_heap_with h p bs b :
  valid_access h p (zlen bs) -> blob_ok h b -> blob_ok (heap_with h p bs) b.
Proof.
  intros Hv [? ? ? ? Hg Ha]. split; try done.
  - intros g. destruct (Hg g) as (? & ? & q & l & Hq & ? & Hl & Hlen). split_goal; [done..|].
    destruct Hv as (l' & Hl' & ? & ? & ?).
    rewrite (heap_with_lookup _ _ _ l') by done. destruct (decide (blk q = blk p)) as [e|ne].
    + exists q, (zsplice l' (off p) bs). rewrite e, lookup_insert_eq.
      rewrite zlen_zsplice by done. rewrite e, Hl' in Hl. injection Hl as ->. done.
    + exists q, l. by rewrite lookup_insert_ne.
  - intros q Hq. apply valid_access_heap_with; [done|by apply Ha].
Qed.

#[export] Hint Resolve blob_ok_zero blob_ok_heap_with : s2n.

Lemma blob_bytes_len h b : blob_ok h b -> zlen (blob_bytes h b) = size b.
Proof.
  intros Hb. unfold blob_bytes. destruct (data b) as [p|] eqn:Hp.
  - by apply zlen_bytes_at, blob_access_all.
  - by destruct (ok_null _ _ Hb Hp) as (-> & _).
Qed.

(** A write inside a blob. *)
Lemma blob_bytes_write h b p i bs :
  blob_ok h b -> data b = Some p -> 0 <= i -> i + zlen bs <= size b ->
  blob_bytes (heap_with h (Ptr (blk p) (off p + i)) bs) b = zsplice (blob_bytes h b) i bs.
Proof.
  intros Hb Hp Hi Hle. pose proof (blob_access_all _ _ _ Hb Hp) as (l & Hl & H0 & Hn & Hlen).
  unfold blob_bytes. rewrite Hp. rewrite (heap_with_lookup _ _ _ l) by (simpl; done || lia).
  rewrite (bytes_at_lookup _ p (size b) (zsplice l (off p + i) bs)); [|apply lookup_insert_eq|done|].
  2: { rewrite zlen_zsplice by (simpl; lia). lia. }
  rewrite (bytes_at_lookup _ _ _ l) by done. by apply zslice_zsplice_within.
Qed.

Section Facts.
Context `{Platform}.

Lemma blob_validate_ok {X} (w : world) (x : X) b :
  blob_ok (hp w) b -> s2n_blob_validate b (w, x) = (Ok tt, (w, x)).
Proof.
  intros [Hs Ha Hnull Hst Hgr _]. unfold s2n_blob_validate, bind.
  assert (Hn : is_null (data b) = true -> size b = 0 /\ allocated b = 0).
  { destruct (data b); [done|]. intros _. split; by apply Hnull. }
  rewrite !debug_ensure_true; try done; unfold S2N_IMPLIES, S2N_MEM_IS_READABLE, is_u32 in *.
  - destruct (is_null (data b)); simpl; [|by rewrite orb_true_r].
    rewrite orb_false_r. apply Z.eqb_eq. by apply Hn.
  - destruct (is_null (data b)); simpl; [|by rewrite orb_true_r].
    rewrite orb_false_r. apply Z.eqb_eq. by apply Hn.
  - destruct (growable b); simpl; [|done]. apply Z.leb_le. by apply Hgr.
  - destruct (growable b); simpl; [|done]. apply orb_true_iff. left. apply Z.ltb_lt. by apply Hgr.
  - destruct (growable b); simpl; [done|]. apply Z.eqb_eq. by apply Hst.
  - destruct (is_null (data b)); simpl; [|done]. apply Z.eqb_eq. by apply Hn.
  - destruct (is_null (data b)); simpl; [|done]. apply Z.eqb_eq. by apply Hn.
Qed.

Lemma wp_blob_validate {X} (w : world) (x : X) b Q E :
  blob_ok (hp w) b -> Q tt w x -> wp (s2n_blob_validate b) (w, x) Q E.
Proof. intros Hb HQ. by apply (wp_run _ _ tt w x); [apply blob_validate_ok|]. Qed.

Lemma wp_blob_postcondition {X} (w : world) (x : X) b Q E :
  blob_ok (hp w) b -> Q tt w x -> wp (postcondition (s2n_blob_validate b)) (w, x) Q E.
Proof.
  intros Hb HQ. apply (wp_run _ _ tt w x); [|done].
  by apply postcondition_ok, blob_validate_ok.
Qed.

(** The heap after a blob has been zeroed. *)
Definition zeroed (h : heap) (b : s2n_blob) : heap :=
  match data b with
  | Some p => heap_with h p (repeat 0 (Z.to_nat (Z.max (allocated b) (size b))))
  | None => h
  end.

Lemma zeroed_access h b p : blob_ok h b -> data b = Some p ->
  valid_access h p (zlen (repeat 0 (Z.to_nat (Z.max (allocated b) (size b))))).
Proof.
  intros Hb Hp. pose proof (ok_size _ _ Hb). unfold is_u32 in *.
  rewrite zlen_repeat by lia. rewrite Z.max_comm. by apply Hb.
Qed.

Lemma frame_zeroed h b : blob_ok h b -> frame b h (zeroed h b).
Proof.
  intros Hb. unfold zeroed. destruct (data b) as [p|] eqn:Hp; [|apply frame_refl].
  eapply frame_heap_with; [done|done|by apply zeroed_access].
Qed.

Lemma blob_ok_zeroed h b : blob_ok h b -> blob_ok (zeroed h b) b.
Proof.
  intros Hb. unfold zeroed. destruct (data b) as [p|] eqn:Hp; [|done].
  apply blob_ok_heap_with; [|done]. by apply zeroed_access.
Qed.

Lemma heap_ok_zeroed h b : heap_ok h -> heap_ok (zeroed h b).
Proof.
  intros Hh. unfold zeroed. destruct (data b); [|done].
  apply heap_with_ok; [done|]. apply is_bytes_repeat. unfold is_u8. lia.
Qed.

Lemma wp_blob_zero (w : world) b Q E :
  blob_ok (hp w) b ->
  Q tt (World (zeroed (hp w) b) (mem w)) b -> wp s2n_blob_zero (w, b) Q E.
Proof.
  intros Hb HQ. apply wp_bind, wp_get_obj, wp_bind, wp_blob_validate; [done|].
  pose proof (blob_ok_zeroed _ _ Hb) as Hb'. unfold zeroed in *.
  apply wp_bind. destruct (data b) as [p|] eqn:Hp.
  - pose proof (zeroed_access _ _ _ Hb Hp). pose proof (ok_size _ _ Hb). unfold is_u32 in *.
    apply wp_checked_memset; [lia| | |].
    + intros _. by rewrite zlen_repeat in H0 by lia.
    + intros e. rewrite e in HQ, Hb'. simpl in HQ, Hb'. rewrite heap_with_nil in HQ, Hb'.
      destruct w as [h m]. by apply wp_blob_postcondition.
    + intros _. by apply wp_blob_postcondition.
  - destruct (ok_null _ _ Hb Hp) as (-> & -> & _). apply wp_ret.
    destruct w as [h m]. by apply wp_blob_postcondition.
Qed.
(** A slice covers a sub-range of the bytes of [b]. *)
Definition slice_of (b : s2n_blob) (offset n : Z) : s2n_blob :=
  Blob (match data b with Some p => Some (Ptr (blk p) (off p + offset)) | None => None end) n 0 false.

Lemma slice_of_ok h b offset n :
  blob_ok h b -> 0 <= offset -> 0 <= n -> offset + n <= size b -> blob_ok h (slice_of b offset n).
Proof.
  intros Hb ???. pose proof (ok_size _ _ Hb). unfold is_u32 in *.
  split; simpl; try done; unfold is_u32; try lia.
  - destruct (data b) eqn:Hd; [done|]. intros _. destruct (ok_null _ _ Hb Hd) as [? _]. lia.
  - intros q. destruct (data b) as [p|] eqn:Hd; [|done]. intros [= <-].
    rewrite Z.max_l by lia. by eapply blob_access.
Qed.

Lemma wp_blob_slice (w : world) b slice offset n Q E :
  blob_ok (hp w) b -> blob_ok (hp w) slice -> is_u32 offset -> is_u32 n ->
  (offset + n <= size b -> Q tt w (slice_of b offset n)) ->
  (size b < offset + n -> forall e, E e w slice) ->
  wp (s2n_blob_slice b offset n) (w, slice) Q E.
Proof.
  intros Hb Hs Ho Hn HQ HE. pose proof (ok_size _ _ Hb) as Hsz. unfold is_u32 in *.
  apply wp_bind, wp_blob_validate; [done|]. apply wp_bind, wp_get_obj.
  apply wp_bind, wp_blob_validate; [done|]. apply wp_bind.
  unfold wp at 1. rewrite s2n_add_overflow_eq by done. unfold UINT32_MAX. zcase.
  2: { apply HE; lia. }
  apply wp_bind, wp_ensure; intros Hle; zbool; [|by apply HE].
  assert (Hd : (if is_null (data b) then ret None else ptr_add (data b) offset) =
               @ret s2n_blob _ (data (slice_of b offset n))) by (unfold slice_of; by destruct (data b)).
  rewrite Hd. apply wp_bind, wp_ret, wp_bind.
  change (Blob _ n 0 false) with (slice_of b offset n).
  apply (wp_run _ _ tt w (slice_of b offset n)); [done|].
  apply wp_bind, wp_get_obj, wp_blob_postcondition; [|by apply HQ].
  apply slice_of_ok; [done|lia..].
Qed.

Lemma char_to_lower_loop_wp n b p i (w : world) Q E :
  heap_ok (hp w) -> valid_access (hp w) (Ptr (blk p) (off p + i)) (Z.of_nat n) ->
  Q tt (World (heap_with (hp w) (Ptr (blk p) (off p + i))
          (map tolower (bytes_at (hp w) (Ptr (blk p) (off p + i)) (Z.of_nat n)))) (mem w)) b ->
  wp (char_to_lower_loop n (Some p) i) (w, b) Q E.
Proof.
  revert i w. induction n as [|n IH]; intros i w Hh Hv HQ.
  - apply wp_ret. rewrite (zlen_0_nil (bytes_at _ _ _)) in HQ by (by apply zlen_bytes_at).
    simpl in HQ. rewrite heap_with_nil in HQ. by destruct w.
  - assert (H1 := valid_access_head _ _ _ Hv ltac:(lia)).
    assert (H2 := valid_access_tail _ _ _ Hv ltac:(lia)).
    replace (Z.of_nat (S n) - 1) with (Z.of_nat n) in H2 by lia.
    simpl in H2. rewrite <- Z.add_assoc in H2.
    apply wp_bind, wp_load_byte; [done|]. apply wp_bind, wp_store_byte; [done|].
    set (c := znth _ 0) in *.
    assert (Hc : is_u8 c) by (apply znth_is_u8, bytes_at_is_bytes; done).
    assert (Ht : is_u8 (tolower c)).
    { unfold tolower, is_u8 in *. destruct (_ && _) eqn:E0; zbool; lia. }
    rewrite (u8_id _ Ht).
    rewrite bytes_at_cons in HQ by (done || lia). fold c in HQ.
    replace (Z.of_nat (S n) - 1) with (Z.of_nat n) in HQ by lia.
    apply IH; simpl; [|auto with s2n|].
    + apply heap_with_ok; [done|]. by apply Forall_cons_2.
    + simpl in HQ. rewrite <- Z.add_assoc in HQ.
      rewrite bytes_at_heap_with_disjoint; [|done|done|rewrite zlen_cons, zlen_nil; simpl; lia].
      match goal with |- context [heap_with (heap_with ?h ?p [?b]) _ ?bs] =>
        pose proof (heap_with_cons h p b bs) as Hcons end.
      simpl in Hcons. rewrite <- Z.add_assoc in Hcons. rewrite Hcons; [done|].
      unfold zlen in *. simpl. rewrite length_map.
      pose proof (zlen_bytes_at _ _ _ H2) as Hlen. unfold zlen in Hlen.
      replace (Z.of_nat (S _)) with (Z.of_nat (S n)) by lia. done.
Qed.

(** s2n_blob_char_to_lower rewrites the bytes of the blob, and nothing else,
    to their lower-case form; it always succeeds on a valid blob. *)
Theorem blob_char_to_lower_correct (w : world) (b : s2n_blob)
    (Hheap : heap_ok (hp w)) (Hblob : blob_ok (hp w) b) :
  exists h', s2n_blob_char_to_lower (w, b) = (Ok tt, (World h' (mem w), b)) /\
    blob_bytes h' b = map tolower (blob_bytes (hp w) b) /\ frame b (hp w) h' /\ blob_ok h' b.
Proof.
  pose proof (ok_size _ _ Hblob) as Hsz. unfold is_u32 in Hsz.
  unfold s2n_blob_char_to_lower, blob_bytes. destruct (data b) as [p|] eqn:Hp.
  - set (bs := map tolower (bytes_at (hp w) p (size b))).
    assert (Hv : valid_access (hp w) p (size b)) by (by apply blob_access_all).
    assert (Hlen : zlen bs = size b).
    { unfold bs, zlen. rewrite length_map. by apply zlen_bytes_at. }
    assert (Ep : Ptr (blk p) (off p + 0) = p) by (destruct p; by rewrite Z.add_0_r).
    exists (heap_with (hp w) p bs). split_goal.
    + apply wp_eq, wp_bind, wp_get_obj, wp_bind, wp_blob_validate; [done|].
      apply wp_bind. rewrite Hp. apply char_to_lower_loop_wp; rewrite ?Ep, ?Z2Nat.id by lia; [done..|].
      apply wp_blob_postcondition; [|done]. apply blob_ok_heap_with; [|done].
      change (valid_access (hp w) p (zlen bs)). by rewrite Hlen.
    + rewrite <- Hlen. apply bytes_at_heap_with_same. by rewrite Hlen.
    + eapply frame_heap_with; [done|done|by rewrite Hlen].
    + apply blob_ok_heap_with; [|done]. by rewrite Hlen.
  - exists (hp w). destruct (ok_null _ _ Hblob Hp) as (Hs0 & _ & _).
    split_goal; [|done|apply frame_refl|done].
    apply wp_eq, wp_bind, wp_get_obj, wp_bind, wp_blob_validate; [done|].
    rewrite Hs0. apply wp_bind, wp_ret, wp_blob_postcondition; [done|]. by destruct w.
Qed.
End Facts.

Lemma blob_char_to_lower_correct_witness :
  exists h', @s2n_blob_char_to_lower demo_platform
    (World {[1%positive := [72; 101; 49]]} started_statics, Blob (Some (Ptr 1 0)) 3 0 false) =
    (Ok tt, (World h' started_statics, Blob (Some (Ptr 1 0)) 3 0 false)) /\
    blob_bytes h' (Blob (Some (Ptr 1 0)) 3 0 false) = [104; 101; 49].
Proof.
  assert (Hh : heap_ok {[1%positive := [72; 101; 49]]})
    by (apply map_Forall_singleton; solve_bytes).
  assert (Hb : blob_ok {[1%positive := [72; 101; 49]]} (Blob (Some (Ptr 1 0)) 3 0 false)).
  { split; simpl; unfold is_u32; try done; try lia. intros p [= <-]. solve_valid_access. }
  destruct (@blob_char_to_lower_correct demo_platform
    (World {[1%positive := [72; 101; 49]]} started_statics) _ Hh Hb) as (h' & Hrun & Hbytes & _).
  exists h'. split; [exact Hrun|]. rewrite Hbytes. vm_compute. reflexivity.
Defined.

End Blob.
Export Blob.
