(* ===== verification/Alloc.v ===== *)
(** * utils/s2n_mem.c: the allocator

    Allocation goes through the callbacks held in the static variables of
    s2n_mem.c ([mem_statics]); the two implementations in the file sit on the
    C library of the [Platform], and an application may install its own. *)
From S2P Require Import Prelude Errors CMem Safety Platform Blob.
Open Scope Z_scope.

Module Alloc.

Section Definitions.
Context `{Platform}.

(** The statics as an argument of the code that reads them. *)
Definition get_mem {X} : Cmd X mem_statics := w <-- get_world ;; ret (mem w).

(** A block the C library has just handed out. *)
Definition alloc_block {X} (l : list Z) : Cmd X ptr := fun '(w, x) =>
  let k := fresh (dom (hp w)) in
  (Ok (Ptr k 0), (World (<[k := l]> (hp w)) (mem w), x)).

(** [free(p)]; freeing anything but the start of a live block is undefined. *)
Definition libc_free {X} (p : option ptr) : Cmd X unit := fun '(w, x) =>
  match p with
  | None => (Ok tt, (w, x))
  | Some q =>
      if (off q =? 0) && bool_decide (is_Some (hp w !! blk q))
      then (Ok tt, (World (delete (blk q) (hp w)) (mem w), x))
      else (UB, (w, x))
  end.

Definition s2n_mem_free_mlock_impl {X} (p : option ptr) (n : Z) : Cmd X unit :=
  (* munlock: errors are ignored *)
  libc_free p.

Definition s2n_mem_free_no_mlock_impl {X} (p : option ptr) (n : Z) : Cmd X unit :=
  libc_free p.

Definition s2n_mem_malloc_mlock_impl {X} (requested : Z) : Cmd X (option ptr * Z) :=
  m <-- get_mem ;;
  allocate <-- s2n_align_to requested (page_size m) ;;
  w <-- get_world ;;
  match libc_memalign (hp w) (page_size m) allocate with
  | None => fail S2N_ERR_ALLOC
  | Some l =>
      p <-- alloc_block l ;;
      w <-- get_world ;;
      (if madvise_ok (hp w) (blk p) allocate then ret tt
       else s2n_mem_free_no_mlock_impl (Some p) allocate ;;; fail S2N_ERR_MADVISE) ;;;
      (if mlock_ok (hp w) (blk p) allocate then ret tt
       else s2n_mem_free_no_mlock_impl (Some p) allocate ;;; fail S2N_ERR_MLOCK) ;;;
      ret (Some p, allocate)
  end.

Definition s2n_mem_malloc_no_mlock_impl {X} (requested : Z) : Cmd X (option ptr * Z) :=
  w <-- get_world ;;
  match libc_malloc (hp w) requested with
  | None => fail S2N_ERR_ALLOC
  | Some l => p <-- alloc_block l ;; ret (Some p, requested)
  end.

(** The call [s2n_mem_malloc_cb(&ptr, requested, &allocated)].  An application
    callback that fails leaves s2n_errno as it was ([S2N_ERR_OK]). *)
Definition call_malloc_cb {X} (requested : Z) : Cmd X (option ptr * Z) :=
  m <-- get_mem ;;
  match s2n_mem_malloc_cb m with
  | MlockImpl => s2n_mem_malloc_mlock_impl requested
  | NoMlockImpl => s2n_mem_malloc_no_mlock_impl requested
  | UserImpl =>
      w <-- get_world ;;
      match user_malloc (hp w) requested with
      | None => fail S2N_ERR_OK
      | Some (None, k) => ret (None, k)
      | Some (Some l, k) => p <-- alloc_block l ;; ret (Some p, k)
      end
  end.

(** The test [s2n_mem_free_cb(ptr, allocated) >= S2N_SUCCESS]. *)
Definition call_free_cb {X} (p : ptr) (n : Z) : Cmd X bool :=
  m <-- get_mem ;;
  match s2n_mem_free_cb m with
  | MlockImpl => s2n_mem_free_mlock_impl (Some p) n ;;; ret true
  | NoMlockImpl => s2n_mem_free_no_mlock_impl (Some p) n ;;; ret true
  | UserImpl =>
      w <-- get_world ;;
      if user_free_ok (hp w) (blk p) n then libc_free (Some p) ;;; ret true else ret false
  end.

Definition s2n_free_without_wipe : Cmd s2n_blob unit :=
  b <-- get_obj ;;
  s2n_blob_validate b ;;;
  m <-- get_mem ;;
  ensure (initialized m) S2N_ERR_NOT_INITIALIZED ;;;
  ensure (s2n_blob_is_growable b) S2N_ERR_FREE_STATIC_BLOB ;;;
  match data b with
  | Some p => ok <-- call_free_cb p (allocated b) ;; ensure ok S2N_ERR_CANCELLED
  | None => ret tt
  end ;;;
  put_obj zero_blob.

Definition s2n_free : Cmd s2n_blob unit :=
  zero_rc <-- attempt s2n_blob_zero ;;
  s2n_free_without_wipe ;;;
  guard_rc zero_rc.

Definition s2n_free_or_wipe : Cmd s2n_blob unit :=
  zero_rc <-- attempt s2n_blob_zero ;;
  b <-- get_obj ;;
  (if negb (allocated b =? 0) then s2n_free_without_wipe else ret tt) ;;;
  guard_rc zero_rc.

Definition s2n_realloc (n : Z) : Cmd s2n_blob unit :=
  m <-- get_mem ;;
  ensure (initialized m) S2N_ERR_NOT_INITIALIZED ;;;
  b <-- get_obj ;;
  ensure (s2n_blob_is_growable b) S2N_ERR_RESIZE_STATIC_BLOB ;;;
  if n =? 0 then s2n_free
  else if n <=? allocated b then
    (if n <? size b then
       (* zero the bytes that are given up *)
       with_local zero_blob (s2n_blob_slice b n (u32 (size b - n)) ;;; s2n_blob_zero) ;;; ret tt
     else ret tt) ;;;
    modify (set_size n)
  else
    new <-- call_malloc_cb n ;;
    let '(new_data, new_allocated) := new in
    ensure (n <=? new_allocated) S2N_ERR_ALLOC ;;;
    ensure (negb (is_null new_data)) S2N_ERR_ALLOC ;;;
    (if negb (size b =? 0) then checked_memcpy new_data (HeapBuf (data b)) (size b) else ret tt) ;;;
    (if negb (allocated b =? 0) then s2n_free else ret tt) ;;;
    put_obj (Blob new_data n new_allocated true).

Definition s2n_alloc (n : Z) : Cmd s2n_blob unit :=
  m <-- get_mem ;;
  ensure (initialized m) S2N_ERR_NOT_INITIALIZED ;;;
  put_obj zero_blob ;;;
  s2n_realloc n.

(** The state is the pointer variable [*p_data]. *)
Definition s2n_free_object (n : Z) : Cmd (option ptr) unit :=
  p <-- get_obj ;;
  match p with
  | None => ret tt
  | Some _ =>
      m <-- get_mem ;;
      ensure (initialized m) S2N_ERR_NOT_INITIALIZED ;;;
      put_obj None ;;;
      with_local (Blob p n n true) s2n_free ;;;
      ret tt
  end.

(** [s2n_dup(from, to)]; the state is [to]. *)
Definition s2n_dup (from : s2n_blob) : Cmd s2n_blob unit :=
  m <-- get_mem ;;
  ensure (initialized m) S2N_ERR_NOT_INITIALIZED ;;;
  to <-- get_obj ;;
  ensure (size to =? 0) S2N_ERR_SAFETY ;;;
  ensure (is_null (data to)) S2N_ERR_SAFETY ;;;
  ensure (negb (size from =? 0)) S2N_ERR_SAFETY ;;;
  ensure (negb (is_null (data from))) S2N_ERR_SAFETY ;;;
  s2n_alloc (size from) ;;;
  to <-- get_obj ;;
  checked_memcpy (data to) (HeapBuf (data from)) (size to).

(** ** Start-up and shutdown *)

Definition s2n_mem_init_impl {X} : Cmd X unit :=
  ensure (0 <? sysconf_pagesize) S2N_ERR_SAFETY ;;;
  ensure (sysconf_pagesize <=? Z.min UINT32_MAX (2 ^ 63 - 1)) S2N_ERR_SAFETY ;;;
  m <-- get_mem ;;
  let m := MemStatics (u32 sysconf_pagesize) (initialized m) (s2n_mem_init_cb m)
             (s2n_mem_cleanup_cb m) (s2n_mem_malloc_cb m) (s2n_mem_free_cb m) in
  put_mem (if dont_mlock
           then MemStatics (page_size m) (initialized m) (s2n_mem_init_cb m)
                  (s2n_mem_cleanup_cb m) NoMlockImpl NoMlockImpl
           else m).

Definition s2n_mem_cleanup_impl {X} : Cmd X unit :=
  m <-- get_mem ;;
  put_mem (MemStatics 4096 (initialized m) (s2n_mem_init_cb m) (s2n_mem_cleanup_cb m)
             NoMlockImpl NoMlockImpl).

Definition s2n_mem_override_callbacks {X} (i c : mem_init_cb) (mal fr : mem_cb) : Cmd X unit :=
  m <-- get_mem ;;
  put_mem (MemStatics (page_size m) (initialized m) i c mal fr).

Definition s2n_mem_set_callbacks {X} (i c : mem_init_cb) (mal fr : mem_cb) : Cmd X unit :=
  m <-- get_mem ;;
  ensure (negb (initialized m)) S2N_ERR_INITIALIZED ;;;
  s2n_mem_override_callbacks i c mal fr.

Definition s2n_mem_get_callbacks {X} : Cmd X (mem_init_cb * mem_init_cb * mem_cb * mem_cb) :=
  m <-- get_mem ;;
  ret (s2n_mem_init_cb m, s2n_mem_cleanup_cb m, s2n_mem_malloc_cb m, s2n_mem_free_cb m).

Definition set_initialized {X} (v : bool) : Cmd X unit :=
  m <-- get_mem ;;
  put_mem (MemStatics (page_size m) v (s2n_mem_init_cb m) (s2n_mem_cleanup_cb m)
             (s2n_mem_malloc_cb m) (s2n_mem_free_cb m)).

Definition s2n_mem_init {X} : Cmd X unit :=
  m <-- get_mem ;;
  match s2n_mem_init_cb m with
  | MemInitImpl => r <-- attempt s2n_mem_init_impl ;; ensure (match r with inl _ => true | inr _ => false end) S2N_ERR_CANCELLED
  | UserInit => ensure user_init_ok S2N_ERR_CANCELLED
  end ;;;
  set_initialized true.

Definition s2n_mem_is_init {X} : Cmd X bool := m <-- get_mem ;; ret (initialized m).
Definition s2n_mem_get_page_size {X} : Cmd X Z := m <-- get_mem ;; ret (page_size m).

Definition s2n_mem_cleanup {X} : Cmd X unit :=
  m <-- get_mem ;;
  ensure (initialized m) S2N_ERR_NOT_INITIALIZED ;;;
  match s2n_mem_cleanup_cb m with
  | MemInitImpl => s2n_mem_cleanup_impl
  | UserInit => ensure user_cleanup_ok S2N_ERR_CANCELLED
  end ;;;
  set_initialized false.

End Definitions.

(** ** Invariants *)

(** The allocator has been started, with a usable page size. *)
Definition mem_ok (m : mem_statics) : Prop :=
  initialized m = true /\ is_u32 (page_size m) /\ page_size m <> 0.

Definition world_ok (w : world) : Prop := heap_ok (hp w) /\ mem_ok (mem w).

(** The heap after the block of [b] is freed. *)
Definition freed (h : heap) (b : s2n_blob) : heap :=
  match data b with Some p => delete (blk p) h | None => h end.

Lemma frame_freed h b : frame b h (freed h b).
Proof.
  intros k l Hk Hb. unfold freed. destruct (data b) as [p|] eqn:Hp; [|done].
  rewrite lookup_delete_ne; [done|]. intros <-. apply Hb. by exists p.
Qed.

Lemma heap_ok_freed h b : heap_ok h -> heap_ok (freed h b).
Proof. intros Hh. unfold freed. destruct (data b); [|done]. by apply map_Forall_delete. Qed.

Lemma freed_zeroed h b : blob_ok h b -> freed (zeroed h b) b = freed h b.
Proof.
  intros Hb. unfold freed, zeroed. destruct (data b) as [p|] eqn:Hp; [|done].
  pose proof (zeroed_access _ _ _ Hb Hp) as (l & Hl & ? & ? & ?).
  by rewrite (heap_with_lookup _ _ _ l), delete_insert_eq by done.
Qed.

(** What s2n_realloc promises when it succeeds on [b] ... *)
Definition realloc_post (w : world) (b : s2n_blob) (n : Z) (w' : world) (b' : s2n_blob) : Prop :=
  mem w' = mem w /\ heap_ok (hp w') /\ blob_ok (hp w') b' /\
  size b' = n /\ s2n_blob_is_growable b' = true /\
  frame b (hp w) (hp w') /\
  (forall k, in_block b' k -> in_block b k \/ hp w !! k = None) /\
  zslice (blob_bytes (hp w') b') 0 (Z.min n (size b)) =
  zslice (blob_bytes (hp w) b) 0 (Z.min n (size b)).

(** ... and when it fails. *)
Definition realloc_err (w : world) (b : s2n_blob) (w' : world) (b' : s2n_blob) : Prop :=
  b' = b /\ mem w' = mem w /\ heap_ok (hp w') /\ blob_ok (hp w') b /\ frame b (hp w) (hp w') /\
  (s2n_mem_free_cb (mem w) <> UserImpl ->
   forall k, in_block b k -> hp w' !! k = hp w !! k).

(** ** The contract of the allocator, as its clients see it *)

Class BlobAllocator `{Platform} : Prop := {
  realloc_spec w b n :
    world_ok w -> blob_ok (hp w) b -> is_u32 n ->
    wp (s2n_realloc n) (w, b)
       (fun _ w' b' => s2n_blob_is_growable b = true /\ realloc_post w b n w' b')
       (fun _ w' b' => realloc_err w b w' b');
  free_spec w b :
    world_ok w -> blob_ok (hp w) b ->
    wp s2n_free (w, b)
       (fun _ w' b' => b' = zero_blob /\ w' = World (freed (hp w) b) (mem w))
       (fun _ w' b' => b' = b /\ w' = World (zeroed (hp w) b) (mem w) /\
          (s2n_blob_is_growable b = true -> s2n_mem_free_cb (mem w) = UserImpl));
  free_without_wipe_spec w b :
    world_ok w -> blob_ok (hp w) b ->
    wp s2n_free_without_wipe (w, b)
       (fun _ w' b' => b' = zero_blob /\ w' = World (freed (hp w) b) (mem w))
       (fun _ w' b' => b' = b /\ w' = w /\
          (s2n_blob_is_growable b = true -> s2n_mem_free_cb (mem w) = UserImpl));
}.

Section Facts.
Context `{HP : Platform}.

Lemma wp_get_mem {X} (w : world) (x : X) Q E : Q (mem w) w x -> wp get_mem (w, x) Q E.
Proof. done. Qed.

Lemma wp_get_world {X} (w : world) (x : X) Q E : Q w w x -> wp get_world (w, x) Q E.
Proof. done. Qed.

Lemma wp_put_obj {X} (w : world) (x y : X) Q E : Q tt w y -> wp (put_obj y) (w, x) Q E.
Proof. done. Qed.

Lemma wp_libc_free {X} p l (w : world) (x : X) Q E :
  hp w !! blk p = Some l -> off p = 0 ->
  Q tt (World (delete (blk p) (hp w)) (mem w)) x -> wp (libc_free (Some p)) (w, x) Q E.
Proof.
  intros Hl Ho HQ. unfold wp, libc_free. rewrite Ho, bool_decide_eq_true_2 by (by rewrite Hl). done.
Qed.

(** A block that is freed at once leaves the heap as it was. *)
Lemma wp_alloc_then_free {X} l n (w : world) (x : X) e Q E :
  E e w x ->
  let k := fresh (dom (hp w)) in
  wp (s2n_mem_free_no_mlock_impl (Some (Ptr k 0)) n ;;; @fail X unit e)
     (World (<[k := l]> (hp w)) (mem w), x) Q E.
Proof.
  intros HE k. apply wp_bind, (wp_libc_free _ l); simpl; [apply lookup_insert_eq|done|].
  apply wp_fail. rewrite delete_insert_id; [by destruct w|].
  apply not_elem_of_dom, is_fresh.
Qed.

Lemma wp_call_malloc_cb `{!PlatformOk} {X} n (w : world) (x : X) Q E :
  mem_ok (mem w) -> is_u32 n -> n <> 0 ->
  (forall e, E e w x) -> (forall k, Q (None, k) w x) ->
  (forall key l, hp w !! key = None -> is_u32 (zlen l) -> is_bytes l ->
     Q (Some (Ptr key 0), zlen l) (World (<[key := l]> (hp w)) (mem w)) x) ->
  wp (call_malloc_cb n) (w, x) Q E.
Proof.
  intros (Hi & Hp & Hp0) Hn Hn0 HE HN HQ.
  assert (Hf : hp w !! fresh (dom (hp w)) = None) by (apply not_elem_of_dom, is_fresh).
  apply wp_bind, wp_get_mem. destruct (s2n_mem_malloc_cb (mem w)).
  - apply wp_bind, wp_get_mem, wp_bind. unfold wp at 1.
    rewrite s2n_align_to_eq by done. zcase; [|by apply HE].
    apply wp_bind, wp_get_world.
    destruct (libc_memalign _ _ _) as [l|] eqn:Hm; [|apply HE].
    pose proof (align_up n (page_size (mem w)) ltac:(unfold is_u32 in *; lia) ltac:(unfold is_u32 in *; lia)) as Hal.
    apply libc_memalign_spec in Hm as [Hlen Hb]; [|unfold is_u32 in *; lia].
    apply wp_bind. unfold alloc_block, wp at 1. apply wp_bind, wp_get_world, wp_bind. simpl.
    destruct (madvise_ok _ _ _).
    2: { by apply wp_alloc_then_free. }
    apply wp_ret, wp_bind. destruct (mlock_ok _ _ _).
    2: { by apply wp_alloc_then_free. }
    apply wp_ret, wp_ret. rewrite <- Hlen. apply HQ; [done| |done].
    rewrite Hlen. unfold is_u32, UINT32_MAX in *. lia.
  - apply wp_bind, wp_get_world.
    destruct (libc_malloc _ _) as [l|] eqn:Hm; [|apply HE].
    apply libc_malloc_spec in Hm as [Hlen Hb]; [|apply Hn].
    apply wp_bind. unfold alloc_block, wp at 1. apply wp_ret. rewrite <- Hlen.
    apply HQ; [done| |done]. by rewrite Hlen.
  - apply wp_bind, wp_get_world.
    destruct (user_malloc _ _) as [[[l|] k]|] eqn:Hm; [|apply HN|apply HE].
    apply user_malloc_spec in Hm as (<- & Hk & Hb).
    apply wp_bind. unfold alloc_block, wp at 1. by apply wp_ret, HQ.
Qed.

Lemma wp_call_free_cb {X} p l n (w : world) (x : X) Q E :
  hp w !! blk p = Some l -> off p = 0 ->
  Q true (World (delete (blk p) (hp w)) (mem w)) x ->
  (s2n_mem_free_cb (mem w) = UserImpl -> Q false w x) ->
  wp (call_free_cb p n) (w, x) Q E.
Proof.
  intros Hl Ho HQ HN. apply wp_bind, wp_get_mem. destruct (s2n_mem_free_cb (mem w)) eqn:Hcb.
  - apply wp_bind. by apply (wp_libc_free _ l).
  - apply wp_bind. by apply (wp_libc_free _ l).
  - apply wp_bind, wp_get_world. destruct (user_free_ok _ _ _); [|by apply wp_ret, HN].
    apply wp_bind. by apply (wp_libc_free _ l).
Qed.

Lemma growable_flag b p : s2n_blob_is_growable b = true -> data b = Some p -> growable b = true.
Proof. unfold s2n_blob_is_growable. intros Hg Hp. rewrite Hp in Hg. by destruct (growable b). Qed.

Lemma wp_free_without_wipe (w : world) b Q E :
  mem_ok (mem w) -> blob_ok (hp w) b ->
  (s2n_blob_is_growable b = true -> Q tt (World (freed (hp w) b) (mem w)) zero_blob) ->
  (forall e, (s2n_blob_is_growable b = true -> s2n_mem_free_cb (mem w) = UserImpl) -> E e w b) ->
  wp s2n_free_without_wipe (w, b) Q E.
Proof.
  intros (Hi & _ & _) Hb HQ HE.
  apply wp_bind, wp_get_obj, wp_bind, wp_blob_validate; [done|].
  apply wp_bind, wp_get_mem, wp_bind, wp_ensure; [intros _|congruence].
  apply wp_bind, wp_ensure; intros Hg; [|apply HE; congruence].
  specialize (HQ Hg). apply wp_bind. unfold freed in HQ. destruct (data b) as [p|] eqn:Hp.
  - pose proof (growable_flag _ _ Hg Hp) as Hgr.
    destruct (ok_growable _ _ Hb Hgr) as (_ & _ & q & l & Hq & Ho & Hl & _).
    rewrite Hp in Hq. injection Hq as <-.
    apply wp_bind, (wp_call_free_cb _ l); [done|done| |].
    + apply wp_ensure; [intros _|done]. by apply wp_put_obj.
    + intros Hu. apply wp_ensure; [done|intros _]. by apply HE.
  - apply wp_ret, wp_put_obj. by destruct w.
Qed.

Lemma wp_free (w : world) b Q E :
  mem_ok (mem w) -> blob_ok (hp w) b ->
  (s2n_blob_is_growable b = true -> Q tt (World (freed (hp w) b) (mem w)) zero_blob) ->
  (forall e, (s2n_blob_is_growable b = true -> s2n_mem_free_cb (mem w) = UserImpl) ->
     E e (World (zeroed (hp w) b) (mem w)) b) ->
  wp s2n_free (w, b) Q E.
Proof.
  intros Hm Hb HQ HE. apply wp_bind, wp_attempt, wp_blob_zero; [done|].
  apply wp_bind, wp_free_without_wipe; simpl; [done|by apply blob_ok_zeroed| |done].
  intros Hg. apply wp_ret. rewrite freed_zeroed by done. by apply HQ.
Qed.
End Facts.

Section Clients.
Context `{HP : Platform} `{!BlobAllocator}.

(** A new blob. *)
Lemma wp_alloc_blob (w : world) n Q E :
  world_ok w -> is_u32 n ->
  (forall w' b', realloc_post w zero_blob n w' b' -> Q tt w' b') ->
  (forall e w' b', realloc_err w zero_blob w' b' -> E e w' b') ->
  forall b, wp (s2n_alloc n) (w, b) Q E.
Proof.
  intros Hw Hn HQ HE b. pose proof Hw as [Hh (Hi & _)].
  apply wp_bind, wp_get_mem, wp_bind, wp_ensure; [intros _|congruence].
  apply wp_bind, wp_put_obj. eapply wp_mono; [apply realloc_spec; auto with s2n|..]; simpl.
  - intros [] w' b' [_ Hpost]. by apply HQ.
  - intros e w' b' Herr. by apply HE.
Qed.

(** A copy of a blob in new memory. *)
Definition dup_post (w : world) (from : s2n_blob) (w' : world) (b : s2n_blob) : Prop :=
  world_ok w' /\ mem w' = mem w /\ blob_ok (hp w') b /\ growable b = true /\ size b = size from /\
  blob_bytes (hp w') b = blob_bytes (hp w) from /\
  (forall k l, hp w !! k = Some l -> hp w' !! k = Some l) /\
  (forall k, in_block b k -> hp w !! k = None).

Lemma wp_dup (w : world) from Q E :
  world_ok w -> blob_ok (hp w) from ->
  (size from <> 0 -> forall w' b, dup_post w from w' b -> Q tt w' b) ->
  (forall e w', world_ok w' -> mem w' = mem w -> (forall k l, hp w !! k = Some l -> hp w' !! k = Some l) ->
     E e w' zero_blob) ->
  wp (s2n_dup from) (w, zero_blob) Q E.
Proof.
  intros Hw Hb HQ HE. pose proof Hw as [Hh (Hi & Hmem)].
  assert (Hsame : forall e, E e w zero_blob) by (intros e; by apply HE).
  apply wp_bind, wp_get_mem, wp_bind, wp_ensure; [intros _|congruence].
  apply wp_bind, wp_get_obj, wp_bind, wp_ensure; [intros _|done].
  apply wp_bind, wp_ensure; [intros _|done].
  apply wp_bind, wp_ensure; [intros Hsz|auto]. apply wp_bind, wp_ensure; [intros Hd|auto].
  destruct (data from) as [p|] eqn:Hp; [|done]. pose proof (ok_size _ _ Hb) as Hs.
  destruct (Z.eqb_spec (size from) 0) as [|Hs0]; [done|]. specialize (HQ Hs0). clear Hsz Hd.
  apply wp_bind, wp_alloc_blob; [done|done| |].
  2: { intros e w' b' (-> & Hm & Hh' & _ & Hf & _). apply HE; [split; [done|by rewrite Hm]|done|].
       intros k l Hk. apply Hf; [done|]. by intros (q & ? & _). }
  intros w' b' (Hm & Hh' & Hb' & Hsz & Hg & Hf & Hfr & _). apply wp_bind, wp_get_obj.
  assert (Hk : forall k l, hp w !! k = Some l -> hp w' !! k = Some l).
  { intros k l Hkl. apply Hf; [done|]. by intros (q & ? & _). }
  unfold is_u32 in Hs. destruct (data b') as [q|] eqn:Hq; [|destruct (ok_null _ _ Hb' Hq); lia].
  assert (Hfresh : hp w !! blk q = None).
  { destruct (Hfr (blk q)) as [(z & ? & _)|]; [by exists q|done|done]. }
  pose proof (blob_access_all _ _ _ Hb Hp) as Hvp. pose proof (blob_access_all _ _ _ Hb' Hq) as Hvq.
  assert (Hne : blk p <> blk q). { destruct Hvp as (l & Hl & _). congruence. }
  assert (Hv' : valid_access (hp w') p (size from)).
  { destruct Hvp as (l & Hl & Hrest). exists l. by rewrite (Hk _ _ Hl). }
  assert (Hbp : bytes_at (hp w') p (size from) = blob_bytes (hp w) from).
  { unfold blob_bytes. rewrite Hp. apply bytes_at_ext. destruct Hvp as (l & Hl & _). by rewrite Hl, (Hk _ _ Hl). }
  rewrite Hsz. pose proof (zlen_bytes_at _ _ _ Hv') as Hzl. rewrite Hbp in Hzl. rewrite Hsz in Hvq.
  apply (wp_checked_memcpy _ _ _ (blob_bytes (hp w) from)); [by split|done|done|].
  assert (Hvs : valid_access (hp w') q (zlen (blob_bytes (hp w) from))) by (by rewrite Hzl).
  apply HQ. unfold dup_post. split_goal; simpl.
  - split; [|by rewrite Hm]. apply heap_with_ok; [done|]. rewrite <- Hbp. by apply bytes_at_is_bytes.
  - done.
  - by apply blob_ok_heap_with.
  - by apply (growable_flag _ q).
  - done.
  - unfold blob_bytes at 1. rewrite Hq, Hsz, <- Hzl. by apply bytes_at_heap_with_same.
  - intros k l Hkl. rewrite heap_with_ne; [by apply Hk|done|congruence].
  - intros k (z & Hz & <-). congruence.
Qed.

(** [s2n_free_object] on an object of [n] bytes. *)
Lemma wp_free_object (w : world) p n l Q E :
  world_ok w -> off p = 0 -> hp w !! blk p = Some l -> 0 < n < 2 ^ 32 -> n <= zlen l ->
  Q tt (World (delete (blk p) (hp w)) (mem w)) None ->
  (forall e h, s2n_mem_free_cb (mem w) = UserImpl -> E e (World h (mem w)) None) ->
  wp (s2n_free_object n) (w, Some p) Q E.
Proof.
  intros Hw Ho Hl Hn Hle HQ HE. pose proof Hw as [Hh (Hi & Hmem)].
  apply wp_bind, wp_get_obj, wp_bind, wp_get_mem, wp_bind, wp_ensure; [intros _|congruence].
  apply wp_bind, wp_put_obj, wp_bind, wp_with_local.
  assert (Hb : blob_ok (hp w) (Blob (Some p) n n true)).
  { split; simpl; unfold is_u32; try lia; try done.
    - intros _. split_goal; [lia|lia|]. by exists p, l.
    - intros q [= <-]. exists l. rewrite Z.max_id. split_goal; [done|lia..]. }
  eapply wp_mono; [by apply free_spec|..]; simpl.
  - intros [] w' b' (-> & ->). by apply wp_ret.
  - intros e w' b' (-> & -> & Hu). by apply HE, Hu.
Qed.
End Clients.

(** ** Resizing in place *)

Lemma set_size_ok h b n :
  blob_ok h b -> s2n_blob_is_growable b = true -> 0 < n -> n <= allocated b -> blob_ok h (set_size n b).
Proof.
  intros Hb Hg Hn Hle. pose proof (ok_allocated _ _ Hb) as Ha. unfold is_u32 in Ha.
  split; simpl; unfold is_u32; try lia; try apply Hb.
  - intros e. destruct (ok_null _ _ Hb e) as (_ & ? & _). lia.
  - intros e. destruct (ok_growable _ _ Hb e) as (_ & ? & ?). auto.
  - intros p Hp. rewrite Z.max_r by lia.
    assert (Hgr := growable_flag _ _ Hg Hp). destruct (ok_growable _ _ Hb Hgr) as (? & _).
    pose proof (ok_access _ _ Hb _ Hp) as Hv. by rewrite Z.max_r in Hv by lia.
Qed.

Lemma blob_bytes_set_size h b n k :
  blob_ok h b -> s2n_blob_is_growable b = true -> 0 < n <= allocated b -> 0 <= k <= Z.min n (size b) ->
  zslice (blob_bytes h (set_size n b)) 0 k = zslice (blob_bytes h b) 0 k.
Proof.
  intros Hb Hg Hn Hk. assert (Hb' : blob_ok h (set_size n b)) by (by apply set_size_ok; try lia).
  unfold blob_bytes. simpl. destruct (data b) as [p|] eqn:Hp; [|done].
  rewrite <- !bytes_at_sub; [done| |lia..| |lia|lia|lia].
  - by apply blob_access_all.
  - by apply (blob_access_all h (set_size n b)).
Qed.

(** ** Moving to a new block *)

(** The new blob, and the heap with the old contents copied into its block. *)
Definition moved (h : heap) (b : s2n_blob) (key : positive) (l : list Z) : heap :=
  heap_with (<[key := l]> h) (Ptr key 0) (blob_bytes h b).

Section Move.
Variables (h : heap) (b : s2n_blob) (key : positive) (l : list Z) (n : Z).
Hypothesis Hfresh : h !! key = None.
Hypothesis Hheap : heap_ok h.
Hypothesis Hl : is_bytes l.
Hypothesis Hlen : is_u32 (zlen l).
Hypothesis Hb : blob_ok h b.
Hypothesis Hn : 0 < n <= zlen l.
Hypothesis Hbn : size b <= n.

Let new := Blob (Some (Ptr key 0)) n (zlen l) true.

Lemma not_fresh_block k : in_block b k -> k <> key.
Proof using Hfresh Hb.
  intros (p & Hp & e) e'. destruct (ok_access _ _ Hb _ Hp) as (l' & Hl' & _). congruence.
Qed.

Lemma moved_access : valid_access (<[key := l]> h) (Ptr key 0) (zlen (blob_bytes h b)).
Proof using Hb Hn Hbn.
  rewrite blob_bytes_len by done. exists l. simpl. rewrite lookup_insert_eq.
  pose proof (ok_size _ _ Hb) as Hs. unfold is_u32 in Hs. split_goal; [done|lia..].
Qed.

Lemma moved_lookup_key : exists l', moved h b key l !! key = Some l' /\ zlen l' = zlen l.
Proof using Hb Hn Hbn.
  destruct moved_access as (l' & Hl' & ? & ? & ?). simpl in *.
  rewrite lookup_insert_eq in Hl'. injection Hl' as <-. unfold moved.
  rewrite (heap_with_lookup _ _ _ l); [|apply lookup_insert_eq|done|done].
  exists (zsplice l 0 (blob_bytes h b)). simpl. rewrite lookup_insert_eq. split; [done|].
  by apply zlen_zsplice.
Qed.

Lemma moved_lookup_ne k : k <> key -> moved h b key l !! k = h !! k.
Proof using Hb Hn Hbn.
  intros Hne. unfold moved. rewrite heap_with_ne; [|apply moved_access|done].
  by rewrite lookup_insert_ne.
Qed.

Lemma moved_old_ok : blob_ok (moved h b key l) b.
Proof using Hfresh Hb Hn Hbn.
  apply (blob_ok_ext h); [|done]. intros k Hk. symmetry. by apply moved_lookup_ne, not_fresh_block.
Qed.

Lemma moved_heap_ok : heap_ok (moved h b key l).
Proof using Hheap Hl.
  apply heap_with_ok; [by apply map_Forall_insert_2|]. unfold blob_bytes.
  destruct (data b); [by apply bytes_at_is_bytes|constructor].
Qed.

Lemma freed_moved_key : freed (moved h b key l) b !! key = moved h b key l !! key.
Proof using Hfresh Hb.
  unfold freed. destruct (data b) as [p|] eqn:Hp; [|done].
  rewrite lookup_delete_ne; [done|]. apply not_fresh_block. by exists p.
Qed.

Lemma moved_new_ok : blob_ok (freed (moved h b key l) b) new.
Proof using Hfresh Hlen Hb Hn Hbn.
  destruct moved_lookup_key as (l' & Hl' & Hll').
  split; simpl; unfold is_u32 in *; try lia; try done.
  - intros _. split_goal; [lia|lia|]. exists (Ptr key 0), l'. simpl.
    rewrite freed_moved_key. split_goal; done || lia.
  - intros p [= <-]. exists l'. simpl. rewrite freed_moved_key. split_goal; [done|lia..].
Qed.

Lemma moved_bytes : zslice (blob_bytes (freed (moved h b key l) b) new) 0 (size b) = blob_bytes h b.
Proof using Hfresh Hb Hn Hbn Hlen.
  pose proof (ok_size _ _ Hb) as Hs. unfold is_u32 in Hs.
  unfold blob_bytes at 1. simpl.
  assert (Hv : valid_access (freed (moved h b key l) b) (Ptr key 0) n)
    by exact (blob_access_all _ new _ moved_new_ok eq_refl).
  rewrite <- (bytes_at_sub _ _ n 0 (size b) Hv) by lia.
  simpl. rewrite (bytes_at_ext _ (moved h b key l)) by apply freed_moved_key.
  rewrite <- (blob_bytes_len h b Hb) at 1. apply bytes_at_heap_with_same, moved_access.
Qed.

Lemma moved_frame : frame b h (freed (moved h b key l) b).
Proof using Hfresh Hb Hn Hbn.
  apply (frame_trans _ _ (moved h b key l)); [|apply frame_freed].
  intros k l' Hk _. rewrite moved_lookup_ne; [done|congruence].
Qed.
End Move.

(** A heap that extends the old one is an acceptable state after a failure. *)
Lemma realloc_err_intro w b h' :
  blob_ok (hp w) b -> heap_ok h' -> (forall k l, hp w !! k = Some l -> h' !! k = Some l) ->
  realloc_err w b (World h' (mem w)) b.
Proof.
  intros Hb Hh' Hsub. assert (Heq : forall k, in_block b k -> h' !! k = hp w !! k).
  { intros k (p & Hp & <-). destruct (ok_access _ _ Hb _ Hp) as (l & Hl & _). rewrite Hl. by apply Hsub. }
  unfold realloc_err. split_goal; simpl; try done.
  - apply (blob_ok_ext (hp w)); [|done]. intros. symmetry. auto.
  - intros k l Hk _. auto.
Qed.

Lemma growable_size h b : blob_ok h b -> s2n_blob_is_growable b = true -> size b <= allocated b.
Proof.
  intros Hb Hg. unfold s2n_blob_is_growable in Hg. destruct (growable b) eqn:Hgr; [by apply Hb|].
  zbool. lia.
Qed.

Lemma growable_null h b :
  blob_ok h b -> s2n_blob_is_growable b = true -> allocated b = 0 -> data b = None.
Proof.
  intros Hb Hg Ha. unfold s2n_blob_is_growable in Hg. destruct (growable b) eqn:Hgr.
  - destruct (ok_growable _ _ Hb Hgr) as (_ & ? & _). lia.
  - zbool. by destruct (data b).
Qed.

Lemma realloc_post_moved w b n key l :
  heap_ok (hp w) -> blob_ok (hp w) b -> hp w !! key = None -> is_u32 (zlen l) -> is_bytes l ->
  0 < n <= zlen l -> size b <= n ->
  realloc_post w b n (World (freed (moved (hp w) b key l) b) (mem w))
    (Blob (Some (Ptr key 0)) n (zlen l) true).
Proof.
  intros Hh Hb Hfr Hlen Hl Hn Hbn. unfold realloc_post. split_goal; simpl; try done.
  - by apply heap_ok_freed, moved_heap_ok.
  - by eapply moved_new_ok.
  - by eapply moved_frame.
  - intros k (p & [= <-] & <-). by right.
  - rewrite Z.min_r by lia. rewrite (moved_bytes _ _ _ _ n) by done.
    rewrite <- (blob_bytes_len (hp w) b) by done. by rewrite zslice_full.
Qed.

Lemma wp_copy_old h m b key l n Q E :
  blob_ok h b -> h !! key = None -> 0 < n <= zlen l -> size b <= n ->
  Q tt (World (moved h b key l) m) b ->
  wp (if negb (size b =? 0) then checked_memcpy (Some (Ptr key 0)) (HeapBuf (data b)) (size b) else ret tt)
     (World (<[key := l]> h) m, b) Q E.
Proof.
  intros Hb Hfr Hn Hbn HQ. unfold moved in HQ. destruct (Z.eqb_spec (size b) 0) as [e|ne]; simpl.
  - apply wp_ret. rewrite (zlen_0_nil (blob_bytes _ _)), heap_with_nil in HQ; [done|].
    by rewrite blob_bytes_len.
  - apply (wp_checked_memcpy _ _ _ (blob_bytes h b)); [|done| |done]; simpl.
    + split; [by apply blob_bytes_len|]. unfold blob_bytes.
      destruct (data b) as [p|] eqn:Hp; [|by destruct (ok_null _ _ Hb Hp)].
      assert (Hk : blk p <> key) by (apply (not_fresh_block h b); [done|done|by exists p]).
      split.
      * eapply valid_access_ext; [|by apply blob_access_all]. by rewrite lookup_insert_ne.
      * apply bytes_at_ext. by rewrite lookup_insert_ne.
    + rewrite <- (blob_bytes_len h b) by done. by apply (moved_access _ _ _ _ n).
Qed.

Section Realloc.
Context `{HP : Platform} `{!PlatformOk}.

(** The last case of s2n_realloc: a new block. *)
Lemma wp_realloc_move w b n :
  world_ok w -> blob_ok (hp w) b -> is_u32 n -> s2n_blob_is_growable b = true ->
  n <> 0 -> allocated b < n ->
  wp (new <-- call_malloc_cb n ;;
      let '(new_data, new_allocated) := new in
      ensure (n <=? new_allocated) S2N_ERR_ALLOC ;;;
      ensure (negb (is_null new_data)) S2N_ERR_ALLOC ;;;
      (if negb (size b =? 0) then checked_memcpy new_data (HeapBuf (data b)) (size b) else ret tt) ;;;
      (if negb (allocated b =? 0) then s2n_free else ret tt) ;;;
      put_obj (Blob new_data n new_allocated true)) (w, b)
     (fun _ w' b' => s2n_blob_is_growable b = true /\ realloc_post w b n w' b')
     (fun _ w' b' => realloc_err w b w' b').
Proof.
  intros [Hheap Hm] Hb Hn Hg Hn0 Hlt. pose proof (growable_size _ _ Hb Hg) as Hsa.
  pose proof (ok_size _ _ Hb) as Hs. unfold is_u32 in Hs, Hn.
  assert (Hsame : realloc_err w b w b) by (destruct w; by apply realloc_err_intro).
  apply wp_bind, wp_call_malloc_cb; [done|done|done|done| |].
  { intros k. apply wp_bind, wp_ensure; intros _; [|done]. by apply wp_bind, wp_ensure. }
  intros key l Hfr Hlen Hl. apply wp_bind, wp_ensure; intros Hle; zbool.
  2: { apply realloc_err_intro; [done|by apply map_Forall_insert_2|].
       intros k l' Hk. rewrite lookup_insert_ne; [done|congruence]. }
  apply wp_bind, wp_ensure; [intros _|done].
  assert (Hn' : 0 < n <= zlen l) by lia. assert (Hbn : size b <= n) by lia.
  apply wp_bind, (wp_copy_old _ _ _ _ _ n); [done..|].
  pose proof (realloc_post_moved w b n key l Hheap Hb Hfr Hlen Hl Hn' Hbn) as Hfin.
  apply wp_bind. destruct (Z.eqb_spec (allocated b) 0) as [e|ne]; simpl.
  - apply wp_ret, wp_put_obj. split; [done|]. unfold freed in Hfin.
    by rewrite (growable_null _ _ Hb Hg e) in Hfin.
  - assert (Hok : blob_ok (moved (hp w) b key l) b) by (by apply (moved_old_ok _ _ _ _ n)).
    apply wp_free; simpl; [done|done| |].
    + intros _. by apply wp_put_obj.
    + intros err Hu. unfold realloc_err. split_goal; simpl; try done.
      * by apply heap_ok_zeroed, moved_heap_ok.
      * by apply blob_ok_zeroed.
      * apply (frame_trans _ _ (moved (hp w) b key l)); [|by apply frame_zeroed].
        intros k l' Hk _. rewrite (moved_lookup_ne _ _ _ _ n); [done|done|lia|lia|congruence].
      * intros Hnu. by destruct (Hnu (Hu Hg)).
Qed.

(** The second case: the blob already has the space. *)
Lemma wp_realloc_in_place w b n :
  world_ok w -> blob_ok (hp w) b -> is_u32 n -> s2n_blob_is_growable b = true ->
  n <> 0 -> n <= allocated b ->
  wp ((if n <? size b then
         with_local zero_blob (s2n_blob_slice b n (u32 (size b - n)) ;;; s2n_blob_zero) ;;; ret tt
       else ret tt) ;;; modify (set_size n)) (w, b)
     (fun _ w' b' => s2n_blob_is_growable b = true /\ realloc_post w b n w' b')
     (fun _ w' b' => realloc_err w b w' b').
Proof.
  intros [Hheap Hm] Hb Hn Hg Hn0 Hle. pose proof (ok_size _ _ Hb) as Hs. unfold is_u32 in Hs, Hn.
  assert (Hfin : forall h', heap_ok h' -> blob_ok h' b -> frame b (hp w) h' ->
     zslice (blob_bytes h' b) 0 (Z.min n (size b)) = zslice (blob_bytes (hp w) b) 0 (Z.min n (size b)) ->
     realloc_post w b n (World h' (mem w)) (set_size n b)).
  { intros h' Hh' Hb' Hf Hbytes. unfold realloc_post. split_goal; simpl; try done.
    - apply set_size_ok; [done|done|lia|done].
    - unfold s2n_blob_is_growable in *. simpl. destruct (growable b) eqn:Hgr; [done|]. zbool. lia.
    - intros k Hk. by left.
    - rewrite <- Hbytes. apply blob_bytes_set_size; [done|done|lia|lia]. }
  apply wp_bind. destruct (Z.ltb_spec n (size b)) as [Hlt|Hge].
  2: { apply wp_ret, wp_modify. split; [done|]. destruct w. by apply Hfin; auto with s2n. }
  apply wp_bind, wp_with_local, wp_bind. rewrite u32_small by lia.
  apply wp_blob_slice; [done|apply blob_ok_zero|done|unfold is_u32; lia| |lia].
  intros _. assert (Hsl : blob_ok (hp w) (slice_of b n (size b - n))) by (apply slice_of_ok; [done|lia..]).
  apply wp_blob_zero; [done|]. apply wp_ret, wp_modify. split; [done|].
  destruct (data b) as [p|] eqn:Hp; [|by destruct (ok_null _ _ Hb Hp) as (? & ? & ?); lia].
  pose proof (zeroed_access _ _ (Ptr (blk p) (off p + n)) Hsl) as Hza.
  unfold zeroed, slice_of in *. rewrite Hp in *. simpl in *. specialize (Hza eq_refl).
  apply Hfin.
  - apply heap_with_ok; [done|]. apply is_bytes_repeat. unfold is_u8. lia.
  - by apply blob_ok_heap_with.
  - by eapply frame_heap_with.
  - rewrite Z.min_l by lia. unfold blob_bytes. rewrite Hp.
    assert (Hv := blob_access_all _ _ _ Hb Hp).
    rewrite <- !bytes_at_sub by (auto with s2n; lia).
    rewrite bytes_at_heap_with_disjoint; [done|done| |simpl; lia].
    apply (valid_access_sub _ _ (size b)); [done|lia..].
Qed.

Lemma realloc_spec_holds w b n :
  world_ok w -> blob_ok (hp w) b -> is_u32 n ->
  wp (s2n_realloc n) (w, b)
     (fun _ w' b' => s2n_blob_is_growable b = true /\ realloc_post w b n w' b')
     (fun _ w' b' => realloc_err w b w' b').
Proof.
  intros Hw Hb Hn. pose proof Hw as [Hheap Hm]. pose proof Hm as (Hi & _ & _).
  pose proof (ok_size _ _ Hb) as Hs. unfold is_u32 in Hs.
  apply wp_bind, wp_get_mem, wp_bind, wp_ensure; [intros _|congruence].
  apply wp_bind, wp_get_obj, wp_bind, wp_ensure; intros Hg.
  2: { destruct w. by apply realloc_err_intro. }
  destruct (Z.eqb_spec n 0) as [->|Hn0].
  - apply wp_free; [done|done| |].
    + intros _. split; [done|]. unfold realloc_post. split_goal; simpl; try done.
      * by apply heap_ok_freed.
      * apply frame_freed.
      * by intros k (p & ? & _).
      * rewrite Z.min_l by lia. by rewrite !zslice_0.
    + intros e Hu. unfold realloc_err. split_goal; simpl; try done.
      * by apply heap_ok_zeroed.
      * by apply blob_ok_zeroed.
      * by apply frame_zeroed.
      * intros Hnu. by destruct (Hnu (Hu Hg)).
  - destruct (Z.leb_spec n (allocated b)).
    + by apply wp_realloc_in_place.
    + by apply wp_realloc_move.
Qed.

#[export] Instance s2n_mem_allocator : BlobAllocator.
Proof.
  split.
  - apply realloc_spec_holds.
  - intros w b [_ Hm] Hb. by apply wp_free.
  - intros w b [_ Hm] Hb. by apply wp_free_without_wipe.
Qed.

End Realloc.


(** A platform whose application-supplied free callback refuses to free. *)
Definition refusing_platform : Platform := {|
  NDEBUG := false;
  libc_malloc _ n := Some (repeat 0 (Z.to_nat n));
  libc_memalign _ _ n := Some (repeat 0 (Z.to_nat n));
  madvise_ok _ _ _ := true;
  mlock_ok _ _ _ := true;
  sysconf_pagesize := 4096;
  dont_mlock := true;
  user_malloc _ n := Some (Some (repeat 0 (Z.to_nat n)), n);
  user_free_ok _ _ _ := false;
  user_init_ok := true;
  user_cleanup_ok := true;
|}.

(** The comment on s2n_realloc says that *b remains unchanged when it fails.  The struct
    does, but when the application's free callback fails the old contents have
    already been zeroed: the caller is left with a blob of zeroes. *)
Theorem realloc_failure_erases_contents :
  exists w w' b e, @s2n_realloc refusing_platform 8 (w, b) = (Err e, (w', b)) /\
    blob_bytes (hp w) b = [1; 2; 3; 4] /\ blob_bytes (hp w') b = [0; 0; 0; 0].
Proof.
  exists (World {[1%positive := [1; 2; 3; 4]]}
    (MemStatics 4096 true MemInitImpl MemInitImpl UserImpl UserImpl)).
  eexists _, (Blob (Some (Ptr 1 0)) 4 4 true), _. split; [vm_compute; reflexivity|].
  split; vm_compute; reflexivity.
Qed.

End Alloc.
Export Alloc.

(** * Which errors a function can raise

    [raises c P]: whenever [c] fails, its error satisfies [P].  The rules follow
    the structure of commands; the facts at the end say which errors the memory
    functions of utils/s2n_mem.c and utils/s2n_blob.c raise. *)
Module Raises.

Definition raises {X A} (c : Cmd X A) (P : s2n_error -> bool) : Prop :=
  forall s, match c s with (Err e, _) => P e = true | _ => True end.

Create HintDb raises.

Section Rules.
Context {X : Type} (P : s2n_error -> bool).

Lemma raises_ret {A} (a : A) : raises (X := X) (ret a) P.
Proof. done. Qed.

Lemma raises_fail {A} e : P e = true -> raises (X := X) (A := A) (fail e) P.
Proof. by intros HP s. Qed.

Lemma raises_undefined {A} : raises (X := X) (A := A) undefined P.
Proof. done. Qed.

Lemma raises_bind {A B} (c : Cmd X A) (k : A -> Cmd X B) :
  raises c P -> (forall a, raises (k a) P) -> raises (bind c k) P.
Proof.
  intros Hc Hk s. unfold bind. specialize (Hc s). destruct (c s) as [[a|e|] s']; [apply Hk|done|done].
Qed.

Lemma raises_ensure b e : P e = true -> raises (X := X) (ensure b e) P.
Proof. intros HP s. by destruct b. Qed.

Lemma raises_attempt {A} (c : Cmd X A) : raises (attempt c) P.
Proof. intros s. unfold attempt. by destruct (c s) as [[a|e|] s']. Qed.

Lemma raises_get_obj : raises (X := X) get_obj P.
Proof. by intros [w x]. Qed.
Lemma raises_put_obj x : raises (X := X) (put_obj x) P.
Proof. by intros [w y]. Qed.
Lemma raises_modify f : raises (X := X) (modify f) P.
Proof. by intros [w y]. Qed.
Lemma raises_get_world : raises (X := X) get_world P.
Proof. by intros [w y]. Qed.
Lemma raises_get_mem : raises (X := X) get_mem P.
Proof. by intros [w y]. Qed.

Lemma raises_zoom {Y A} (l : lens X Y) (c : Cmd Y A) : raises c P -> raises (zoom l c) P.
Proof.
  intros Hc [w x]. unfold zoom. specialize (Hc (w, lget l x)). by destruct (c (w, lget l x)) as [[a|e|] [w' y']].
Qed.

Lemma raises_with_local {Y A} (y : Y) (c : Cmd Y A) : raises c P -> raises (X := X) (with_local y c) P.
Proof. intros Hc [w x]. unfold with_local. specialize (Hc (w, y)). by destruct (c (w, y)) as [[a|e|] [w' y']]. Qed.

Lemma raises_load p n : raises (X := X) (load p n) P.
Proof. intros [w x]. unfold load. by destruct (hload _ _ _). Qed.
Lemma raises_store p bs : raises (X := X) (store p bs) P.
Proof. intros [w x]. unfold store. by destruct (hstore _ _ _). Qed.

Lemma raises_load_buf b n : raises (X := X) (load_buf b n) P.
Proof. destruct b as [[p|]|l]; simpl; [apply raises_load|done|]. by destruct (n <=? zlen l). Qed.

Lemma raises_ptr_add p n : raises (X := X) (ptr_add p n) P.
Proof. destruct p; simpl; [done|]. by destruct (n =? 0). Qed.

Lemma raises_if {A} (b : bool) (c d : Cmd X A) : raises c P -> raises d P -> raises (if b then c else d) P.
Proof. by destruct b. Qed.

Lemma raises_checked_memcpy p b n : P S2N_ERR_NULL = true -> raises (X := X) (checked_memcpy p b n) P.
Proof.
  intros HP. unfold checked_memcpy. apply raises_if; [done|]. destruct p; [|by apply raises_fail].
  apply raises_bind; [by apply raises_ensure|]. intros _. apply raises_bind; [apply raises_load_buf|]. intros. apply raises_store.
Qed.

Lemma raises_checked_memset p c n : P S2N_ERR_NULL = true -> raises (X := X) (checked_memset p c n) P.
Proof. intros HP. unfold checked_memset. apply raises_if; [done|]. destruct p; [apply raises_store|by apply raises_fail]. Qed.

Lemma raises_guard_rc {A} (r : A + s2n_error) :
  match r with inr e => P e = true | inl _ => True end -> raises (X := X) (guard_rc r) P.
Proof. destruct r; [done|apply raises_fail]. Qed.

(** A caller that passes on the error of an earlier call. *)
Lemma raises_attempt_bind {A B} (c : Cmd X A) (k : A + s2n_error -> Cmd X B) :
  raises c P -> (forall r, match r with inr e => P e = true | inl _ => True end -> raises (k r) P) ->
  raises (bind (attempt c) k) P.
Proof.
  intros Hc Hk s. unfold bind, attempt. specialize (Hc s). destruct (c s) as [[a|e|] s']; [by apply Hk|by apply Hk|done].
Qed.

(** Adding the error to what is known about a failure. *)
Lemma wp_raises {A} (c : Cmd X A) s Q E : raises c P -> wp c s Q (fun e w x => P e = true -> E e w x) -> wp c s Q E.
Proof. intros Hc. unfold wp. specialize (Hc s). destruct (c s) as [[a|e|] [w x]]; auto. Qed.
End Rules.

#[export] Hint Resolve raises_ret raises_undefined raises_get_obj raises_put_obj raises_modify raises_get_world
  raises_get_mem raises_load raises_store raises_load_buf raises_ptr_add raises_attempt : raises.

(** Follows the structure of a command; errors are decided by computation. *)
Ltac solve_raises :=
  repeat first
    [ solve [auto with raises]
    | apply raises_fail; reflexivity
    | apply raises_ensure; reflexivity
    | apply raises_checked_memcpy; reflexivity
    | apply raises_checked_memset; reflexivity
    | apply raises_guard_rc; assumption
    | apply raises_attempt_bind; [|intros ? ?]
    | apply raises_bind; [|intros ?]
    | apply raises_zoom
    | apply raises_with_local
    | apply raises_if
    | match goal with |- raises (match ?x with _ => _ end) _ => destruct x end ].

(** ** The memory functions *)

Definition mem_error (e : s2n_error) : bool :=
  existsb (error_eqb e) [S2N_ERR_OK; S2N_ERR_NULL; S2N_ERR_SAFETY; S2N_ERR_ALLOC; S2N_ERR_MADVISE; S2N_ERR_MLOCK;
    S2N_ERR_INTEGER_OVERFLOW; S2N_ERR_NOT_INITIALIZED; S2N_ERR_RESIZE_STATIC_BLOB; S2N_ERR_FREE_STATIC_BLOB;
    S2N_ERR_CANCELLED; S2N_ERR_SIZE_MISMATCH].

Section Memory.
Context `{HP : Platform}.

Lemma raises_debug_ensure {X} b e : mem_error e = true -> raises (X := X) (debug_ensure b e) mem_error.
Proof. intros. unfold debug_ensure. apply raises_if; [done|by apply raises_ensure]. Qed.

Lemma raises_postcondition {X} (c : Cmd X unit) : raises c mem_error -> raises (postcondition c) mem_error.
Proof. intros. unfold postcondition. by apply raises_if. Qed.

Lemma raises_blob_validate {X} b : raises (X := X) (s2n_blob_validate b) mem_error.
Proof. unfold s2n_blob_validate. repeat (apply raises_bind; [|intros ?]); by apply raises_debug_ensure. Qed.

Lemma raises_alloc_block {X} l : raises (X := X) (alloc_block l) mem_error.
Proof. by intros [w x]. Qed.
Lemma raises_libc_free {X} p : raises (X := X) (libc_free p) mem_error.
Proof. intros [w x]. unfold libc_free. destruct p as [p|]; [|done]. by destruct (_ && _). Qed.

#[local] Hint Resolve raises_blob_validate raises_alloc_block raises_libc_free raises_postcondition : raises.

Lemma raises_blob_zero : raises s2n_blob_zero mem_error.
Proof. unfold s2n_blob_zero. solve_raises. Qed.

Lemma raises_align_to {X} a b : raises (X := X) (s2n_align_to a b) mem_error.
Proof. unfold s2n_align_to. solve_raises. Qed.

Lemma raises_add_overflow {X} a b : raises (X := X) (s2n_add_overflow a b) mem_error.
Proof. unfold s2n_add_overflow. solve_raises. Qed.

Lemma raises_mul_overflow {X} a b : raises (X := X) (s2n_mul_overflow a b) mem_error.
Proof. unfold s2n_mul_overflow. solve_raises. Qed.

Lemma raises_blob_slice b o n : raises (s2n_blob_slice b o n) mem_error.
Proof.
  unfold s2n_blob_slice. repeat first [apply raises_add_overflow | solve_raises].
Qed.

#[local] Hint Resolve raises_blob_zero raises_align_to raises_blob_slice : raises.

Lemma raises_call_malloc_cb {X} n : raises (X := X) (call_malloc_cb n) mem_error.
Proof.
  unfold call_malloc_cb, s2n_mem_malloc_mlock_impl, s2n_mem_malloc_no_mlock_impl, s2n_mem_free_no_mlock_impl. solve_raises.
Qed.

Lemma raises_call_free_cb {X} p n : raises (X := X) (call_free_cb p n) mem_error.
Proof. unfold call_free_cb, s2n_mem_free_mlock_impl, s2n_mem_free_no_mlock_impl. solve_raises. Qed.

#[local] Hint Resolve raises_call_malloc_cb raises_call_free_cb : raises.

Lemma raises_free : raises s2n_free mem_error.
Proof. unfold s2n_free, s2n_free_without_wipe. solve_raises. Qed.

#[local] Hint Resolve raises_free : raises.

Lemma raises_realloc n : raises (s2n_realloc n) mem_error.
Proof. unfold s2n_realloc. solve_raises. Qed.

#[local] Hint Resolve raises_realloc : raises.

Lemma raises_alloc n : raises (s2n_alloc n) mem_error.
Proof. unfold s2n_alloc. solve_raises. Qed.

Lemma raises_free_object n : raises (s2n_free_object n) mem_error.
Proof. unfold s2n_free_object. solve_raises. Qed.

#[local] Hint Resolve raises_alloc : raises.

Lemma raises_dup b : raises (s2n_dup b) mem_error.
Proof. unfold s2n_dup. solve_raises. Qed.
End Memory.

#[export] Hint Resolve raises_blob_zero raises_free raises_realloc raises_alloc raises_mul_overflow raises_free_object raises_dup raises_blob_validate
  raises_postcondition : raises.
End Raises.
Export Raises.
