(* ===== verification/Array.v ===== *)
(** * utils/s2n_array.c: growable arrays

    An array keeps its elements, all of [element_size] bytes, side by side in a
    growable blob.  The operations, their memory safety, and that an array
    refines a list of elements. *)
From S2P Require Import Prelude Errors CMem Platform Safety Blob Alloc.
Open Scope Z_scope.

Module Array.

(** struct s2n_array *)
Record s2n_array := Array {
  array_mem : s2n_blob;  (* mem *)
  array_len : Z;  (* len *)
  element_size : Z;
}.

Definition array_mem_lens : lens s2n_array s2n_blob :=
  Lens array_mem (fun b a => Array b (array_len a) (element_size a)).
Definition set_array_len (n : Z) (a : s2n_array) : s2n_array := Array (array_mem a) n (element_size a).

Definition S2N_INITIAL_ARRAY_SIZE : Z := 16.

(** [sizeof(struct s2n_array)] on a 64-bit platform: a pointer, two uint32_t and
    a bit-field, and two uint32_t more. *)
Definition SIZEOF_ARRAY : Z := 32.

(** The C function of that name: the ranges may overlap. *)
Definition memmove {X} (to from : option ptr) (n : Z) : Cmd X unit :=
  match to, from with
  | Some q, Some p => bs <-- load p n ;; store q bs
  | _, _ => undefined
  end.

Section Definitions.
Context `{Platform}.

Definition s2n_array_validate : Cmd s2n_array unit :=
  a <-- get_obj ;;
  s2n_blob_validate (array_mem a) ;;;
  ensure (negb (element_size a =? 0)) S2N_ERR_SAFETY ;;;
  mem_size <-- s2n_mul_overflow (array_len a) (element_size a) ;;
  ensure (mem_size <=? size (array_mem a)) S2N_ERR_SAFETY ;;;
  ensure (S2N_IMPLIES (negb (size (array_mem a) =? 0)) (growable (array_mem a))) S2N_ERR_SAFETY.

Definition s2n_array_enlarge (capacity : Z) : Cmd s2n_array unit :=
  a <-- get_obj ;;
  mem_needed <-- s2n_mul_overflow (element_size a) capacity ;;
  zoom array_mem_lens (s2n_realloc mem_needed) ;;;
  a <-- get_obj ;;
  array_elements_size <-- s2n_mul_overflow (element_size a) (array_len a) ;;
  p <-- ptr_add (data (array_mem a)) array_elements_size ;;
  checked_memset p 0 (u32 (size (array_mem a) - array_elements_size)) ;;;
  postcondition s2n_array_validate.

Definition s2n_array_init_with_capacity (element_size_ capacity : Z) : Cmd s2n_array unit :=
  put_obj (Array zero_blob 0 element_size_) ;;;
  s2n_array_enlarge capacity.

Definition s2n_array_init (element_size_ : Z) : Cmd s2n_array unit :=
  s2n_array_init_with_capacity element_size_ 0.

Definition s2n_array_get (idx : Z) : Cmd s2n_array (option ptr) :=
  s2n_array_validate ;;;
  a <-- get_obj ;;
  ensure (idx <? array_len a) S2N_ERR_ARRAY_INDEX_OOB ;;;
  ptr_add (data (array_mem a)) (u32 (element_size a * idx)).

Definition s2n_array_num_elements : Cmd s2n_array Z :=
  s2n_array_validate ;;;
  a <-- get_obj ;;
  ret (array_len a).

Definition s2n_array_capacity : Cmd s2n_array Z :=
  s2n_array_validate ;;;
  a <-- get_obj ;;
  ret (size (array_mem a) / element_size a).

Definition s2n_array_insert (idx : Z) : Cmd s2n_array (option ptr) :=
  s2n_array_validate ;;;
  a <-- get_obj ;;
  ensure (idx <=? array_len a) S2N_ERR_ARRAY_INDEX_OOB ;;;
  current_capacity <-- s2n_array_capacity ;;
  (if current_capacity <=? array_len a then
     new_capacity <-- s2n_mul_overflow current_capacity 2 ;;
     s2n_array_enlarge (Z.max new_capacity S2N_INITIAL_ARRAY_SIZE)
   else ret tt) ;;;
  a <-- get_obj ;;
  (if idx <? array_len a then
     size_ <-- s2n_mul_overflow (u32 (array_len a - idx)) (element_size a) ;;
     to <-- ptr_add (data (array_mem a)) (u32 (element_size a * u32 (idx + 1))) ;;
     from <-- ptr_add (data (array_mem a)) (u32 (element_size a * idx)) ;;
     memmove to from size_
   else ret tt) ;;;
  element <-- ptr_add (data (array_mem a)) (u32 (element_size a * idx)) ;;
  modify (set_array_len (u32 (array_len a + 1))) ;;;
  postcondition s2n_array_validate ;;;
  ret element.

Definition s2n_array_pushback : Cmd s2n_array (option ptr) :=
  s2n_array_validate ;;;
  a <-- get_obj ;;
  s2n_array_insert (array_len a).

Definition s2n_array_insert_and_copy (idx : Z) (element : buffer) : Cmd s2n_array unit :=
  insert_location <-- s2n_array_insert idx ;;
  a <-- get_obj ;;
  checked_memcpy insert_location element (element_size a).

Definition s2n_array_remove (idx : Z) : Cmd s2n_array unit :=
  s2n_array_validate ;;;
  a <-- get_obj ;;
  ensure (idx <? array_len a) S2N_ERR_ARRAY_INDEX_OOB ;;;
  (if negb (idx =? u32 (array_len a - 1)) then
     size_ <-- s2n_mul_overflow (u32 (u32 (array_len a - idx) - 1)) (element_size a) ;;
     to <-- ptr_add (data (array_mem a)) (u32 (element_size a * idx)) ;;
     from <-- ptr_add (data (array_mem a)) (u32 (element_size a * u32 (idx + 1))) ;;
     memmove to from size_
   else ret tt) ;;;
  modify (set_array_len (u32 (array_len a - 1))) ;;;
  a <-- get_obj ;;
  p <-- ptr_add (data (array_mem a)) (u32 (element_size a * array_len a)) ;;
  checked_memset p 0 (element_size a) ;;;
  postcondition s2n_array_validate.

(** An array that s2n_array_new allocated: its address and its contents.  The
    state is the pointer variable. *)
Definition s2n_array_free_p : Cmd (option (ptr * s2n_array)) unit :=
  v <-- get_obj ;;
  match v with
  | None => ret tt
  | Some (p, a) =>
      r <-- try_local (array_mem a) s2n_free ;;
      let a := Array (snd r) (array_len a) (element_size a) in
      put_obj (Some (p, a)) ;;;
      guard_rc (fst r) ;;;
      r <-- try_local (Some p) (s2n_free_object SIZEOF_ARRAY) ;;
      put_obj (match snd r with Some p => Some (p, a) | None => None end) ;;;
      guard_rc (fst r)
  end.

Definition s2n_array_free {X} (v : ptr * s2n_array) : Cmd X unit :=
  with_local (Some v) s2n_array_free_p ;;; ret tt.

(** A new array is cleaned up when it cannot be initialized. *)
Definition s2n_array_new_with_capacity {X} (element_size_ capacity : Z) : Cmd X (ptr * s2n_array) :=
  m <-- with_local zero_blob (s2n_alloc SIZEOF_ARRAY) ;;
  match data (snd m) with
  | None => undefined
  | Some p =>
      r <-- try_local (Array zero_blob 0 0) (s2n_array_init_with_capacity element_size_ capacity) ;;
      match fst r with
      | inl _ => ret (p, snd r)
      | inr e => with_local (Some (p, snd r)) s2n_array_free_p ;;; fail e
      end
  end.

Definition s2n_array_new {X} (element_size_ : Z) : Cmd X (ptr * s2n_array) :=
  r <-- attempt (s2n_array_new_with_capacity element_size_ S2N_INITIAL_ARRAY_SIZE) ;;
  match r with inl v => ret v | inr _ => fail S2N_ERR_NULL end.
End Definitions.
End Array.
Export Array.
