(* ===== verification/ArrayTheorems.v ===== *)
(** * Arrays refine lists

    [array_is h a l]: in the heap [h] the array [a] holds the elements [l], in
    order, followed by unused memory that is zero.  Each operation is specified
    on [l]. *)
From S2P Require Import Prelude Errors CMem Platform Safety Blob Alloc Array.
Open Scope Z_scope.

Module ArrayTheorems.

(** ** The abstract list

    The calls of a client and what they return; an element that is handed out
    by address is seen through its bytes. *)
Inductive array_op :=
| ArrayInsert (idx : Z) (x : list Z)  (* s2n_array_insert_and_copy *)
| ArrayPushback
| ArrayGet (idx : Z)
| ArrayRemove (idx : Z)
| ArrayNum.

Inductive array_result := ResultUnit | ResultElement (x : list Z) | ResultNum (n : Z).

Definition array_args_ok (es : Z) (o : array_op) : Prop :=
  match o with
  | ArrayInsert idx x => is_u32 idx /\ zlen x = es /\ is_bytes x
  | ArrayGet idx | ArrayRemove idx => is_u32 idx
  | ArrayPushback | ArrayNum => True
  end.

(** [l[idx] = x] for a new element [x]. *)
Definition insert_at (idx : Z) (x : list Z) (l : list (list Z)) : list (list Z) :=
  take (Z.to_nat idx) l ++ x :: drop (Z.to_nat idx) l.
Definition remove_at (idx : Z) (l : list (list Z)) : list (list Z) :=
  take (Z.to_nat idx) l ++ drop (S (Z.to_nat idx)) l.

(** The room for elements after an insertion: a full array doubles. *)
Definition next_capacity (cap : Z) (l : list (list Z)) : Z :=
  if zlen l <? cap then cap else Z.max (2 * cap) S2N_INITIAL_ARRAY_SIZE.

(** The elements [l] and the room [cap].  Only an insertion into a full array
    can fail for lack of memory. *)
Inductive list_step (es cap : Z) (l : list (list Z)) : array_op -> array_result + s2n_error -> Z -> list (list Z) -> Prop :=
| list_insert idx x : idx <= zlen l ->
    list_step es cap l (ArrayInsert idx x) (inl ResultUnit) (next_capacity cap l) (insert_at idx x l)
| list_insert_oob idx x : zlen l < idx ->
    list_step es cap l (ArrayInsert idx x) (inr S2N_ERR_ARRAY_INDEX_OOB) cap l
| list_insert_no_memory idx x e : idx <= zlen l -> cap <= zlen l -> mem_error e = true ->
    list_step es cap l (ArrayInsert idx x) (inr e) cap l
| list_pushback :
    let x := repeat 0 (Z.to_nat es) in
    list_step es cap l ArrayPushback (inl (ResultElement x)) (next_capacity cap l) (l ++ [x])
| list_pushback_no_memory e : cap <= zlen l -> mem_error e = true -> list_step es cap l ArrayPushback (inr e) cap l
| list_get idx x : l !! Z.to_nat idx = Some x -> list_step es cap l (ArrayGet idx) (inl (ResultElement x)) cap l
| list_get_oob idx : zlen l <= idx -> list_step es cap l (ArrayGet idx) (inr S2N_ERR_ARRAY_INDEX_OOB) cap l
| list_remove idx : idx < zlen l -> list_step es cap l (ArrayRemove idx) (inl ResultUnit) cap (remove_at idx l)
| list_remove_oob idx : zlen l <= idx -> list_step es cap l (ArrayRemove idx) (inr S2N_ERR_ARRAY_INDEX_OOB) cap l
| list_num : list_step es cap l ArrayNum (inl (ResultNum (zlen l))) cap l.

Inductive list_run (es : Z) : Z -> list (list Z) -> list array_op -> list (array_result + s2n_error) -> Z -> list (list Z) -> Prop :=
| list_run_nil cap l : list_run es cap l [] [] cap l
| list_run_cons cap l o r cap' l' os rs cap'' l'' :
    list_step es cap l o r cap' l' -> list_run es cap' l' os rs cap'' l'' ->
    list_run es cap l (o :: os) (r :: rs) cap'' l''.

(** The same calls on an array. *)
Definition element_bytes `{Platform} (p : option ptr) : Cmd s2n_array (list Z) :=
  a <-- get_obj ;; load_buf (HeapBuf p) (element_size a).

Definition run_array_op `{Platform} (o : array_op) : Cmd s2n_array array_result :=
  match o with
  | ArrayInsert idx x => s2n_array_insert_and_copy idx (LocalBuf x) ;;; ret ResultUnit
  | ArrayPushback => p <-- s2n_array_pushback ;; x <-- element_bytes p ;; ret (ResultElement x)
  | ArrayGet idx => p <-- s2n_array_get idx ;; x <-- element_bytes p ;; ret (ResultElement x)
  | ArrayRemove idx => s2n_array_remove idx ;;; ret ResultUnit
  | ArrayNum => n <-- s2n_array_num_elements ;; ret (ResultNum n)
  end.

Fixpoint run_array_ops `{Platform} (os : list array_op) : Cmd s2n_array (list (array_result + s2n_error)) :=
  match os with
  | [] => ret []
  | o :: os => r <-- attempt (run_array_op o) ;; rs <-- run_array_ops os ;; ret (r :: rs)
  end.

(** ** The correspondence *)

Record array_is (h : heap) (a : s2n_array) (l : list (list Z)) : Prop := {
  ai_blob : blob_ok h (array_mem a);
  ai_growable : s2n_blob_is_growable (array_mem a) = true;
  ai_element : 0 < element_size a < 2 ^ 32;
  ai_len : array_len a = zlen l;
  ai_elements : Forall (fun x => zlen x = element_size a) l;
  ai_room : element_size a * zlen l <= size (array_mem a);
  ai_bytes : blob_bytes h (array_mem a) =
    concat l ++ repeat 0 (Z.to_nat (size (array_mem a) - element_size a * zlen l));
}.

Definition capacity_of (a : s2n_array) : Z := size (array_mem a) / element_size a.

(** ** Lists of elements as bytes *)

Lemma zlen_concat es l : Forall (fun x : list Z => zlen x = es) l -> zlen (concat l) = es * zlen l.
Proof.
  induction 1 as [|x l Hx _ IH]; simpl; [unfold zlen; simpl; lia|].
  rewrite zlen_app, zlen_cons, IH, Hx. lia.
Qed.

Lemma zsplice_app_mid {A} (a b c bs : list A) :
  zlen bs = zlen b -> zsplice (a ++ b ++ c) (zlen a) bs = a ++ bs ++ c.
Proof.
  intros Hlen. unfold zsplice, zlen in *. rewrite Nat2Z.id, take_app_length. do 2 f_equal.
  rewrite drop_app_ge by lia. rewrite drop_app_ge by lia.
  replace (_ - _ - _)%nat with 0%nat by lia. done.
Qed.

Lemma zslice_app_mid {A} (a b c : list A) n : zlen b = n -> zslice (a ++ b ++ c) (zlen a) n = b.
Proof.
  intros <-. unfold zslice, zlen. rewrite !Nat2Z.id, drop_app_length. apply take_app_length.
Qed.

Lemma repeat_split (n m : Z) : 0 <= n -> n <= m ->
  repeat 0 (Z.to_nat m) = repeat 0 (Z.to_nat n) ++ repeat 0 (Z.to_nat (m - n)).
Proof. intros. rewrite <- repeat_app. f_equal. lia. Qed.

(** Making room for one element in front of [y], and closing the gap it leaves. *)
Lemma splice_open es l1 y l2 rest :
  0 < es -> Forall (fun x : list Z => zlen x = es) l1 -> zlen y = es -> Forall (fun x : list Z => zlen x = es) l2 ->
  zsplice (concat (l1 ++ y :: l2) ++ repeat 0 (Z.to_nat es) ++ rest) (es * (zlen l1 + 1)) (concat (y :: l2)) =
  concat (l1 ++ y :: y :: l2) ++ rest.
Proof.
  intros Hes Hl1 Hy Hl2. assert (Hc1 := zlen_concat _ _ Hl1). assert (Hc2 := zlen_concat _ _ Hl2).
  rewrite !concat_app. simpl.
  replace (es * (zlen l1 + 1)) with (zlen (concat l1 ++ y)) by (rewrite zlen_app; nia).
  rewrite <- !app_assoc, (app_assoc (concat l1)), (app_assoc (concat l2)).
  rewrite zsplice_app_mid by (rewrite !zlen_app, zlen_repeat by lia; lia).
  by rewrite <- !app_assoc.
Qed.

Lemma splice_close es l1 y l2 rest :
  0 < es -> Forall (fun x : list Z => zlen x = es) l1 -> zlen y = es -> Forall (fun x : list Z => zlen x = es) l2 ->
  zsplice (zsplice (concat (l1 ++ y :: l2) ++ rest) (es * zlen l1) (concat l2))
    (es * zlen (l1 ++ l2)) (repeat 0 (Z.to_nat es)) =
  concat (l1 ++ l2) ++ repeat 0 (Z.to_nat es) ++ rest.
Proof.
  intros Hes Hl1 Hy Hl2. assert (Hc1 := zlen_concat _ _ Hl1). assert (Hc2 := zlen_concat _ _ Hl2).
  rewrite !concat_app. simpl. rewrite <- Hc1, <- !app_assoc.
  (* the moved bytes cover the first bytes of [y ++ concat l2], of which [es] remain *)
  pose proof (zlen_nonneg (concat l2)) as H0. set (n := length (concat l2)).
  rewrite (app_assoc y), <- (take_drop n (y ++ concat l2)), <- app_assoc.
  assert (Hn : length (take n (y ++ concat l2)) = n) by (rewrite length_take, length_app; unfold n; lia).
  rewrite zsplice_app_mid by (unfold zlen; by rewrite Hn).
  replace (es * zlen (l1 ++ l2)) with (zlen (concat l1 ++ concat l2)) by (rewrite !zlen_app; nia).
  rewrite (app_assoc (concat l1)), zsplice_app_mid; [by rewrite <- app_assoc|].
  rewrite zlen_repeat by lia. unfold zlen in *. rewrite length_drop, length_app. unfold n. lia.
Qed.

(** ** Memory *)

Lemma array_is_ext h h' a l :
  (forall k, in_block (array_mem a) k -> h !! k = h' !! k) -> array_is h a l -> array_is h' a l.
Proof.
  intros Heq [Hb ? ? ? ? ? Hby]. split; try done; [by apply (blob_ok_ext h)|].
  rewrite <- Hby. unfold blob_bytes. destruct (data (array_mem a)) as [p|] eqn:Hp; [|done].
  apply bytes_at_ext. symmetry. apply Heq. by exists p.
Qed.

(** The part of the memory that follows the first elements. *)
Lemma array_data h a l : array_is h a l -> 0 < size (array_mem a) ->
  exists p, data (array_mem a) = Some p /\ growable (array_mem a) = true.
Proof.
  intros Ha Hs. destruct (data (array_mem a)) as [p|] eqn:Hp.
  - exists p. split; [done|]. eapply growable_flag; [apply Ha|done].
  - destruct (ok_null _ _ (ai_blob _ _ _ Ha) Hp). lia.
Qed.

Section Rules.
Context `{HP : Platform} `{!PlatformOk}.

Lemma wp_array_validate (w : world) a l Q E :
  array_is (hp w) a l -> Q tt w a -> wp s2n_array_validate (w, a) Q E.
Proof.
  intros Ha HQ. pose proof Ha as [Hb Hg Hes Hlen _ Hroom _]. pose proof (zlen_nonneg l).
  pose proof (ok_size _ _ Hb) as Hs. unfold is_u32 in Hs.
  apply wp_bind, wp_get_obj, wp_bind, wp_blob_validate; [done|].
  apply wp_bind, wp_ensure; [intros _|intros Hz; zbool; lia].
  apply wp_bind, wp_mul_overflow; [unfold is_u32; nia|unfold is_u32; lia| |unfold UINT32_MAX; nia].
  intros _. apply wp_bind, wp_ensure; [intros _|intros Hz; zbool; lia].
  apply wp_ensure; [done|]. intros Hz. unfold S2N_IMPLIES in Hz. exfalso.
  destruct (Z.eqb_spec (size (array_mem a)) 0); [done|].
  destruct (array_data _ _ _ Ha ltac:(lia)) as (p & _ & Hgr). by rewrite Hgr in Hz.
Qed.

Lemma wp_array_postcondition (w : world) a l Q E :
  array_is (hp w) a l -> Q tt w a -> wp (postcondition s2n_array_validate) (w, a) Q E.
Proof. intros Ha HQ. unfold postcondition. destruct NDEBUG; [done|by eapply wp_array_validate]. Qed.

#[local] Instance in_block_dec b k : Decision (in_block b k).
Proof.
  unfold in_block. destruct (data b) as [p|]; [|right; by intros (? & ? & _)].
  destruct (decide (blk p = k)); [left; eauto|right; by intros (? & [= <-] & ?)].
Defined.

(** What a call leaves of the rest of the memory. *)
Definition array_frame (w : world) (a : s2n_array) (w' : world) (a' : s2n_array) : Prop :=
  world_ok w' /\ mem w' = mem w /\ element_size a' = element_size a /\
  frame (array_mem a) (hp w) (hp w') /\
  (forall k, in_block (array_mem a') k -> in_block (array_mem a) k \/ hp w !! k = None).

Lemma array_frame_refl w a : world_ok w -> array_frame w a w a.
Proof. intros. unfold array_frame. split_goal; auto with s2n. Qed.

Lemma array_frame_trans w1 a1 w2 a2 w3 a3 :
  array_frame w1 a1 w2 a2 -> array_frame w2 a2 w3 a3 -> array_frame w1 a1 w3 a3.
Proof.
  intros (_ & Hm1 & He1 & Hf1 & Hi1) (? & Hm2 & He2 & Hf2 & Hi2). unfold array_frame. split_goal; [done|congruence|congruence| |].
  - intros k l Hk Hn. apply Hf2; [by apply Hf1|]. intros Hk2. destruct (Hi1 k Hk2); congruence.
  - intros k Hk. destruct (Hi2 k Hk) as [?|Hnone]; [by apply Hi1|].
    destruct (hp w1 !! k) as [l|] eqn:Hl; [|by right]. left.
    destruct (decide (in_block (array_mem a1) k)) as [?|Hn]; [done|]. exfalso.
    apply (Hf1 _ _ Hl) in Hn. congruence.
Qed.

(** The world of the caller stays as it was when memory inside the array changes. *)
Lemma array_frame_write w a p i bs a' :
  world_ok w -> blob_ok (hp w) (array_mem a) -> data (array_mem a) = Some p ->
  0 <= i -> i + zlen bs <= size (array_mem a) -> is_bytes bs ->
  array_mem a' = array_mem a -> element_size a' = element_size a ->
  array_frame w a (World (heap_with (hp w) (Ptr (blk p) (off p + i)) bs) (mem w)) a'.
Proof.
  intros [Hh Hm] Hb Hp Hi Hle Hbs Hmem Hes. pose proof (zlen_nonneg bs).
  unfold array_frame. split_goal; simpl; [split; [by apply heap_with_ok|done]|done|done| |].
  - eapply frame_heap_with; [done|done|]. eapply blob_access; [done|done|lia..].
  - intros k. rewrite Hmem. by left.
Qed.

(** Elements that are kept at the front of a new memory, with the rest zeroed. *)
Lemma array_is_intro h a l :
  blob_ok h (array_mem a) -> s2n_blob_is_growable (array_mem a) = true -> 0 < element_size a < 2 ^ 32 ->
  array_len a = zlen l -> Forall (fun x => zlen x = element_size a) l ->
  element_size a * zlen l <= size (array_mem a) ->
  zslice (blob_bytes h (array_mem a)) 0 (element_size a * zlen l) = concat l ->
  zslice (blob_bytes h (array_mem a)) (element_size a * zlen l) (size (array_mem a) - element_size a * zlen l) =
    repeat 0 (Z.to_nat (size (array_mem a) - element_size a * zlen l)) ->
  array_is h a l.
Proof.
  intros Hb ? ? ? ? ? H1 H2. pose proof (zlen_nonneg l). split; try done.
  rewrite <- H1, <- H2, <- zslice_app_range by nia.
  rewrite <- (zslice_full (blob_bytes _ _)) at 1. f_equal. rewrite blob_bytes_len by done. lia.
Qed.

Lemma wp_array_zero_rest w a l Q E :
  world_ok w -> blob_ok (hp w) (array_mem a) -> s2n_blob_is_growable (array_mem a) = true ->
  0 < element_size a < 2 ^ 32 -> array_len a = zlen l -> Forall (fun x => zlen x = element_size a) l ->
  element_size a * zlen l <= size (array_mem a) ->
  zslice (blob_bytes (hp w) (array_mem a)) 0 (element_size a * zlen l) = concat l ->
  (forall w', array_is (hp w') a l -> array_frame w a w' a -> Q tt w' a) ->
  wp (p <-- ptr_add (data (array_mem a)) (element_size a * zlen l) ;;
      checked_memset p 0 (u32 (size (array_mem a) - element_size a * zlen l)) ;;;
      postcondition s2n_array_validate) (w, a) Q E.
Proof.
  intros Hw Hb Hg Hes Hlen Hl Hroom Hpre HQ. pose proof (zlen_nonneg l) as Hl0.
  pose proof (ok_size _ _ Hb) as Hs. unfold is_u32 in Hs. rewrite u32_small by nia.
  set (n := size (array_mem a) - element_size a * zlen l) in *.
  assert (Hnone : n = 0 -> array_is (hp w) a l).
  { intros Hn. apply array_is_intro; try done. fold n. by rewrite Hn. }
  assert (Hfin : forall w', array_is (hp w') a l -> array_frame w a w' a ->
    wp (postcondition s2n_array_validate) (w', a) Q E).
  { intros w' Ha' Hf'. eapply wp_array_postcondition; [done|by apply HQ]. }
  apply wp_bind. destruct (data (array_mem a)) as [p|] eqn:Hp.
  - apply wp_ptr_add_some, wp_bind, wp_checked_memset; [nia| |by intros; apply Hfin; auto using array_frame_refl|].
    { intros _. eapply blob_access; [done|done|nia..]. }
    intros Hn0. change (u8 0) with 0. assert (Hzn : zlen (repeat 0 (Z.to_nat n)) = n) by (apply zlen_repeat; nia).
    apply Hfin; [|eapply array_frame_write; try done; [nia|rewrite Hzn; nia|apply is_bytes_repeat; unfold is_u8; lia]].
    apply array_is_intro; try done; simpl.
    + apply blob_ok_heap_with; [|done]. rewrite Hzn. eapply blob_access; [done|done|nia..].
    + rewrite blob_bytes_write by (try done; nia).
      rewrite zslice_zsplice_before; [done|lia|nia|nia|]. rewrite blob_bytes_len by done. nia.
    + rewrite blob_bytes_write by (try done; nia). fold n. rewrite <- Hzn at 2.
      apply zslice_zsplice_same; [nia|]. rewrite blob_bytes_len by done. nia.
  - destruct (ok_null _ _ Hb Hp) as (Hs0 & _). assert (element_size a * zlen l = 0) as He by nia.
    assert (n = 0) as Hn by lia. rewrite He, Hn. simpl. apply wp_ret, wp_bind, wp_ret.
    apply Hfin; auto using array_frame_refl.
Qed.

Lemma wp_array_enlarge w a l cap Q E :
  world_ok w -> array_is (hp w) a l -> is_u32 cap -> zlen l <= cap -> s2n_mem_free_cb (mem w) <> UserImpl ->
  (forall w' a', array_is (hp w') a' l -> array_frame w a w' a' ->
     size (array_mem a') = element_size a * cap -> Q tt w' a') ->
  (forall e w', array_is (hp w') a l -> array_frame w a w' a -> E e w' a) ->
  wp (s2n_array_enlarge cap) (w, a) Q E.
Proof.
  intros Hw Ha Hcap Hle Hu HQ HE. pose proof Ha as [Hb Hg Hes Hlen Hl Hroom Hby].
  pose proof (zlen_nonneg l) as Hl0. pose proof (ok_size _ _ Hb) as Hs. unfold is_u32 in Hs, Hcap.
  apply wp_bind, wp_get_obj, wp_bind, wp_mul_overflow; [unfold is_u32; lia|done| |].
  2: { intros _. apply HE; auto using array_frame_refl. }
  intros Hn. unfold UINT32_MAX in Hn.
  apply wp_bind, wp_zoom. eapply wp_mono; [apply realloc_spec; [done|done|unfold is_u32; simpl; nia]|..]; simpl.
  2: { intros e w' b' (-> & Hm & Hh & Hb' & Hf & Hk). destruct a as [b len es]. simpl in *.
       apply HE.
       - apply (array_is_ext (hp w)); [|done]. intros k Hin. symmetry. by apply Hk.
       - unfold array_frame. split_goal; [split; [done|by rewrite Hm; apply Hw]|done|done|done|by left]. }
  intros [] w' b' (_ & Hm & Hh & Hb' & Hsz & Hg' & Hf & Hi & Hpre).
  apply wp_bind, wp_get_obj, wp_bind. simpl. rewrite Hlen.
  apply wp_mul_overflow; [unfold is_u32; lia|unfold is_u32; nia| |unfold UINT32_MAX; nia]. intros _.
  set (a' := Array b' (zlen l) (element_size a)).
  assert (Hfr : array_frame w a w' a').
  { unfold array_frame. split_goal; [split; [done|by rewrite Hm; apply Hw]|done..]. }
  apply (wp_array_zero_rest w' a' l); try done; simpl.
  - apply Hfr.
  - rewrite Hsz. nia.
  - assert (Hmin : element_size a * zlen l <= Z.min (element_size a * cap) (size (array_mem a))) by nia.
    rewrite <- (zslice_zslice _ 0 (Z.min (element_size a * cap) (size (array_mem a))) 0) by nia.
    rewrite Hpre, zslice_zslice, Hby by nia. simpl.
    rewrite <- (zlen_concat _ l) by done.
    rewrite <- (app_nil_l (concat l ++ _)). by apply zslice_app_mid.
  - intros w'' Ha'' Hf''. apply HQ; [done|by eapply array_frame_trans|done].
Qed.

Lemma wp_memmove {X} to from n bs (w : world) (x : X) Q E :
  valid_access (hp w) from n -> bytes_at (hp w) from n = bs -> valid_access (hp w) to n ->
  Q tt (World (heap_with (hp w) to bs) (mem w)) x -> wp (memmove (Some to) (Some from) n) (w, x) Q E.
Proof.
  intros Hf Hbs Ht HQ. apply wp_bind, wp_load; [done|]. rewrite Hbs. apply wp_store; [|done].
  rewrite <- Hbs. by rewrite zlen_bytes_at.
Qed.

(** Memory inside an array, seen from its bytes. *)
Lemma blob_bytes_at h b p i n :
  blob_ok h b -> data b = Some p -> 0 <= i -> 0 <= n -> i + n <= size b ->
  bytes_at h (Ptr (blk p) (off p + i)) n = zslice (blob_bytes h b) i n.
Proof.
  intros Hb Hp ???. unfold blob_bytes. rewrite Hp. apply bytes_at_sub; [by apply blob_access_all|lia..].
Qed.

(** Opening a gap in front of the element at [zlen l1]. *)
Lemma wp_array_open w a l1 l2 p Q E :
  world_ok w -> array_is (hp w) a (l1 ++ l2) -> data (array_mem a) = Some p ->
  element_size a * (zlen (l1 ++ l2) + 1) <= size (array_mem a) ->
  (forall w' x, zlen x = element_size a -> array_frame w a w' a ->
     array_is (hp w') (set_array_len (zlen (l1 ++ l2) + 1) a) (l1 ++ x :: l2) ->
     (l2 = [] -> x = repeat 0 (Z.to_nat (element_size a))) -> Q tt w' a) ->
  wp (if zlen l1 <? array_len a then
        size_ <-- s2n_mul_overflow (u32 (array_len a - zlen l1)) (element_size a) ;;
        to <-- ptr_add (data (array_mem a)) (u32 (element_size a * u32 (zlen l1 + 1))) ;;
        from <-- ptr_add (data (array_mem a)) (u32 (element_size a * zlen l1)) ;;
        memmove to from size_
      else ret tt) (w, a) Q E.
Proof.
  intros Hw Ha Hp Hroom HQ. pose proof Ha as [Hb Hg Hes Hlen Hl _ Hby].
  pose proof (zlen_nonneg l1) as H1. pose proof (zlen_nonneg l2) as H2.
  pose proof (ok_size _ _ Hb) as Hs. unfold is_u32 in Hs. rewrite Hlen.
  rewrite zlen_app in *. apply Forall_app in Hl as [Hl1 Hl2].
  assert (Hz : repeat 0 (Z.to_nat (size (array_mem a) - element_size a * (zlen l1 + zlen l2))) =
    repeat 0 (Z.to_nat (element_size a)) ++
    repeat 0 (Z.to_nat (size (array_mem a) - element_size a * (zlen l1 + zlen l2 + 1)))).
  { rewrite (repeat_split (element_size a)) by nia. do 3 f_equal. nia. }
  rewrite Hz in Hby. destruct (Z.ltb_spec (zlen l1) (zlen l1 + zlen l2)) as [Hlt|Hge].
  - destruct l2 as [|y l2]; [unfold zlen in Hlt; simpl in Hlt; lia|].
    rewrite zlen_cons in *. apply Forall_cons in Hl2 as [Hy Hl2].
    pose proof (zlen_nonneg l2) as H2'.
    rewrite (u32_small (zlen l1 + 1)), (u32_small (_ * (zlen l1 + 1))), (u32_small (_ * zlen l1)) by nia.
    rewrite (u32_small (_ - zlen l1)) by nia. replace (zlen l1 + (1 + zlen l2) - zlen l1) with (1 + zlen l2) by lia.
    apply wp_bind, wp_mul_overflow; [unfold is_u32; nia|unfold is_u32; lia| |unfold UINT32_MAX; nia]. intros _.
    rewrite Hp. apply wp_bind, wp_ptr_add_some, wp_bind, wp_ptr_add_some.
    assert (Hc1 := zlen_concat _ _ Hl1). assert (Hc2 := zlen_concat _ _ Hl2).
    apply (wp_memmove _ _ _ (concat (y :: l2))).
    + eapply blob_access; [done|done|nia..].
    + rewrite (blob_bytes_at _ (array_mem a)) by (try done; nia). rewrite Hby, concat_app, <- app_assoc.
      replace (element_size a * zlen l1) with (zlen (concat l1)) by nia. apply zslice_app_mid.
      simpl. rewrite zlen_app. nia.
    + eapply blob_access; [done|done|nia..].
    + assert (Hyl : zlen (concat (y :: l2)) = element_size a * (1 + zlen l2)) by (simpl; rewrite zlen_app; nia).
      apply (HQ _ y).
      * done.
      * eapply array_frame_write; try done; [nia|nia|]. apply Forall_concat.
        assert (Hbs : is_bytes (blob_bytes (hp w) (array_mem a))).
        { unfold blob_bytes. rewrite Hp. apply bytes_at_is_bytes, Hw. }
        rewrite Hby, concat_app in Hbs. unfold is_bytes in Hbs. rewrite !Forall_app in Hbs.
        destruct Hbs as [[_ Hbs] _]. by apply Forall_concat in Hbs.
      * split; try done; simpl.
        -- apply blob_ok_heap_with; [|done]. change (y ++ concat l2) with (concat (y :: l2)). rewrite Hyl. eapply blob_access; [done|done|nia..].
        -- rewrite zlen_app, !zlen_cons. lia.
        -- rewrite Forall_app, !Forall_cons. done.
        -- rewrite zlen_app, !zlen_cons. nia.
        -- change (y ++ concat l2) with (concat (y :: l2)). rewrite blob_bytes_write by (try done; nia).
           rewrite Hby, splice_open by (done || lia). rewrite zlen_app, !zlen_cons. do 3 f_equal. lia.
      * done.
  - assert (zlen l2 = 0) as Hl20 by lia. apply zlen_0_nil in Hl20 as ->. apply wp_ret.
    apply (HQ _ (repeat 0 (Z.to_nat (element_size a)))).
    + apply zlen_repeat. lia.
    + by apply array_frame_refl.
    + assert (Hzl : zlen (repeat 0 (Z.to_nat (element_size a))) = element_size a) by (apply zlen_repeat; lia).
      split; try done; simpl.
      * rewrite zlen_app, zlen_cons. lia.
      * rewrite Forall_app, Forall_cons. done.
      * rewrite zlen_app, zlen_cons. lia.
      * rewrite Hby, !concat_app, zlen_app, zlen_cons. simpl. rewrite !app_nil_r, <- !app_assoc.
        do 4 f_equal. f_equal. f_equal. unfold zlen. simpl. lia.
    + done.
Qed.

Lemma array_room h a l : array_is h a l -> zlen l < size (array_mem a) / element_size a ->
  element_size a * (zlen l + 1) <= size (array_mem a).
Proof.
  intros [_ _ Hes _ _ _ _] Hlt. pose proof (Z.mul_div_le (size (array_mem a)) (element_size a) ltac:(lia)). nia.
Qed.

Lemma raises_enlarge cap : raises (s2n_array_enlarge cap) mem_error.
Proof.
  unfold s2n_array_enlarge, s2n_array_validate. repeat first [apply raises_mul_overflow|apply raises_postcondition|solve_raises].
Qed.

(** The memory an insertion needs. *)
Lemma wp_array_make_room w a l Q E :
  world_ok w -> array_is (hp w) a l -> s2n_mem_free_cb (mem w) <> UserImpl ->
  (forall w' a', array_is (hp w') a' l -> array_frame w a w' a' ->
     element_size a' * (zlen l + 1) <= size (array_mem a') -> capacity_of a' = next_capacity (capacity_of a) l -> Q tt w' a') ->
  (forall e w', capacity_of a <= zlen l -> mem_error e = true -> array_is (hp w') a l -> array_frame w a w' a -> E e w' a) ->
  wp (current_capacity <-- s2n_array_capacity ;;
      if current_capacity <=? array_len a then
        new_capacity <-- s2n_mul_overflow current_capacity 2 ;;
        s2n_array_enlarge (Z.max new_capacity S2N_INITIAL_ARRAY_SIZE)
      else ret tt) (w, a) Q E.
Proof.
  intros Hw Ha Hu HQ HE. pose proof Ha as [Hb _ Hes Hlen _ Hroom _].
  pose proof (zlen_nonneg l). pose proof (ok_size _ _ Hb) as Hs. unfold is_u32 in Hs.
  apply wp_bind, wp_bind, (wp_array_validate _ _ l), wp_bind, wp_get_obj, wp_ret; [done|].
  assert (Hc : 0 <= size (array_mem a) / element_size a <= size (array_mem a)).
  { split; [apply Z.div_pos; lia|]. apply Z.div_le_upper_bound; nia. }
  assert (Hl : zlen l <= size (array_mem a) / element_size a) by (apply Z.div_le_lower_bound; lia).
  fold (capacity_of a) in *. rewrite Hlen. unfold next_capacity in HQ.
  destruct (Z.leb_spec (capacity_of a) (zlen l)) as [Hfull|Hspace]; destruct (Z.ltb_spec (zlen l) (capacity_of a)); try lia.
  - apply wp_bind, wp_mul_overflow; [unfold is_u32; lia|unfold is_u32; lia| |].
    2: { intros _. apply HE; auto using array_frame_refl. }
    unfold UINT32_MAX. intros Hmax. apply (wp_raises mem_error), (wp_array_enlarge _ _ l); try done; [apply raises_enlarge|..|auto].
    + unfold is_u32, S2N_INITIAL_ARRAY_SIZE. lia.
    + lia.
    + intros w' a' Ha' Hf' Hsz. pose proof Hf' as (_ & _ & Hes' & _). apply HQ; [done..| |].
      * rewrite Hes', Hsz. apply Z.mul_le_mono_nonneg_l; unfold S2N_INITIAL_ARRAY_SIZE; lia.
      * unfold capacity_of at 1. rewrite Hes', Hsz, Z.mul_comm, Z.div_mul by lia. by rewrite Z.mul_comm.
  - apply wp_ret, HQ; [done|by apply array_frame_refl| |done]. by apply (array_room (hp w)).
Qed.

(** s2n_array_insert, with the position given by the elements before it. *)
Lemma wp_array_insert w a l1 l2 Q E :
  world_ok w -> array_is (hp w) a (l1 ++ l2) -> s2n_mem_free_cb (mem w) <> UserImpl ->
  (forall w' a' p x, data (array_mem a') = Some p -> zlen x = element_size a ->
     array_is (hp w') a' (l1 ++ x :: l2) -> array_frame w a w' a' ->
     (l2 = [] -> x = repeat 0 (Z.to_nat (element_size a))) -> capacity_of a' = next_capacity (capacity_of a) (l1 ++ l2) ->
     Q (Some (Ptr (blk p) (off p + element_size a * zlen l1))) w' a') ->
  (forall e w', capacity_of a <= zlen (l1 ++ l2) -> mem_error e = true ->
     array_is (hp w') a (l1 ++ l2) -> array_frame w a w' a -> E e w' a) ->
  wp (s2n_array_insert (zlen l1)) (w, a) Q E.
Proof.
  intros Hw Ha Hu HQ HE. pose proof (zlen_nonneg l1) as H1. pose proof (zlen_nonneg l2) as H2.
  apply wp_bind, (wp_array_validate _ _ (l1 ++ l2)), wp_bind, wp_get_obj; [done|].
  apply wp_bind, wp_ensure; [intros _|intros Hz; zbool; rewrite (ai_len _ _ _ Ha), zlen_app in Hz; lia].
  apply wp_bind_assoc, wp_bind, (wp_array_make_room _ _ (l1 ++ l2)); [done..| |done].
  intros w' a' Ha' Hf' Hroom Hcap. pose proof Ha' as [Hb' _ Hes' Hlen' _ _ _].
  pose proof (ok_size _ _ Hb') as Hs'. unfold is_u32 in Hs'. rewrite zlen_app in *.
  destruct (array_data _ _ _ Ha' ltac:(nia)) as (p & Hp & _).
  apply wp_bind, wp_get_obj, wp_bind, (wp_array_open _ _ l1 l2 p); [apply Hf'|done|done|by rewrite zlen_app|].
  intros w'' x Hx Hf'' Ha'' Hzero. rewrite Hp. apply wp_bind, wp_ptr_add_some, wp_bind, wp_modify.
  rewrite Hlen', (u32_small (_ + 1)), (u32_small (_ * zlen l1)) by nia. rewrite zlen_app in Ha''.
  apply wp_bind. eapply wp_array_postcondition; [done|]. apply wp_ret.
  destruct Hf' as (Hw' & Hm' & Hes & Hfr' & Hin'). rewrite Hes in *.
  apply (HQ _ _ p x); [done..| |done|done].
  assert (Hf1 : array_frame w a w' a') by (unfold array_frame; split_goal; done).
  apply (array_frame_trans _ _ _ _ _ _ Hf1). destruct Hf'' as (? & ? & ? & ? & ?).
  unfold array_frame. split_goal; done.
Qed.

Lemma wp_array_insert_oob w a l idx Q E :
  array_is (hp w) a l -> zlen l < idx -> E S2N_ERR_ARRAY_INDEX_OOB w a ->
  wp (s2n_array_insert idx) (w, a) Q E.
Proof.
  intros Ha Hlt HE. apply wp_bind, (wp_array_validate _ _ l), wp_bind, wp_get_obj; [done|].
  apply wp_bind, wp_ensure; [|done]. rewrite (ai_len _ _ _ Ha). intros Hz. zbool. lia.
Qed.

(** Sliding the elements [l2] over [y]. *)
Lemma wp_array_close w a l1 y l2 p Q E :
  world_ok w -> array_is (hp w) a (l1 ++ y :: l2) -> data (array_mem a) = Some p ->
  (forall w', array_frame w a w' a -> blob_ok (hp w') (array_mem a) ->
     blob_bytes (hp w') (array_mem a) =
       zsplice (blob_bytes (hp w) (array_mem a)) (element_size a * zlen l1) (concat l2) -> Q tt w' a) ->
  wp (if negb (zlen l1 =? u32 (array_len a - 1)) then
        size_ <-- s2n_mul_overflow (u32 (u32 (array_len a - zlen l1) - 1)) (element_size a) ;;
        to <-- ptr_add (data (array_mem a)) (u32 (element_size a * zlen l1)) ;;
        from <-- ptr_add (data (array_mem a)) (u32 (element_size a * u32 (zlen l1 + 1))) ;;
        memmove to from size_
      else ret tt) (w, a) Q E.
Proof.
  intros Hw Ha Hp HQ. pose proof Ha as [Hb Hg Hes Hlen Hl Hroom Hby].
  pose proof (zlen_nonneg l1) as H1. pose proof (zlen_nonneg l2) as H2.
  pose proof (ok_size _ _ Hb) as Hs. unfold is_u32 in Hs. rewrite Hlen, zlen_app, zlen_cons in *.
  apply Forall_app in Hl as [Hl1 Hl2]. apply Forall_cons in Hl2 as [Hy Hl2].
  assert (Hc1 := zlen_concat _ _ Hl1). assert (Hc2 := zlen_concat _ _ Hl2).
  rewrite (u32_small (_ - zlen l1)), (u32_small (_ - 1)), (u32_small (_ - 1)) by nia.
  destruct (Z.eqb_spec (zlen l1) (zlen l1 + (1 + zlen l2) - 1)) as [He|Hne]; simpl.
  - assert (l2 = []) as -> by (apply zlen_0_nil; lia). apply wp_ret, HQ; [by apply array_frame_refl|done|].
    simpl. by rewrite zsplice_nil.
  - rewrite (u32_small (zlen l1 + 1)), (u32_small (_ * (zlen l1 + 1))), (u32_small (_ * zlen l1)) by nia.
    replace (zlen l1 + (1 + zlen l2) - zlen l1 - 1) with (zlen l2) by lia.
    apply wp_bind, wp_mul_overflow; [unfold is_u32; nia|unfold is_u32; lia| |unfold UINT32_MAX; nia]. intros _.
    rewrite Hp. apply wp_bind, wp_ptr_add_some, wp_bind, wp_ptr_add_some.
    assert (Hmid : zslice (blob_bytes (hp w) (array_mem a)) (element_size a * (zlen l1 + 1)) (zlen l2 * element_size a) = concat l2).
    { rewrite Hby, concat_app. simpl. rewrite (app_assoc (concat l1)), <- app_assoc.
      replace (element_size a * (zlen l1 + 1)) with (zlen (concat l1 ++ y)) by (rewrite zlen_app; nia).
      apply zslice_app_mid. nia. }
    apply (wp_memmove _ _ _ (concat l2)).
    + eapply blob_access; [done|done|nia..].
    + by rewrite (blob_bytes_at _ (array_mem a)) by (try done; nia).
    + eapply blob_access; [done|done|nia..].
    + apply HQ; simpl.
      * eapply array_frame_write; try done; [nia|nia|]. rewrite <- Hmid. apply Forall_zslice.
        unfold blob_bytes. rewrite Hp. apply bytes_at_is_bytes, Hw.
      * apply blob_ok_heap_with; [|done]. rewrite Hc2. eapply blob_access; [done|done|nia..].
      * apply blob_bytes_write; [done|done|nia|nia].
Qed.

Lemma wp_array_remove w a l1 y l2 Q E :
  world_ok w -> array_is (hp w) a (l1 ++ y :: l2) ->
  (forall w' a', array_is (hp w') a' (l1 ++ l2) -> array_frame w a w' a' -> capacity_of a' = capacity_of a -> Q tt w' a') ->
  wp (s2n_array_remove (zlen l1)) (w, a) Q E.
Proof.
  intros Hw Ha HQ. pose proof Ha as [Hb Hg Hes Hlen Hl Hroom Hby].
  pose proof (zlen_nonneg l1) as H1. pose proof (zlen_nonneg l2) as H2.
  pose proof (ok_size _ _ Hb) as Hs. unfold is_u32 in Hs. rewrite zlen_app, zlen_cons in Hlen, Hroom, Hby.
  apply Forall_app in Hl as [Hl1 Hl2]. apply Forall_cons in Hl2 as [Hy Hl2].
  destruct (array_data _ _ _ Ha ltac:(nia)) as (p & Hp & _).
  apply wp_bind, (wp_array_validate _ _ (l1 ++ y :: l2)), wp_bind, wp_get_obj; [done|].
  apply wp_bind, wp_ensure; [intros _|intros Hz; zbool; lia].
  apply wp_bind, (wp_array_close _ _ l1 y l2 p); [done..|]. intros w' Hf' Hb' Hby'.
  rewrite Hlen, (u32_small (_ - 1)) by nia. apply wp_bind, wp_modify, wp_bind, wp_get_obj. simpl. rewrite Hp.
  apply wp_bind, wp_ptr_add_some.
  set (n := zlen l1 + (1 + zlen l2) - 1). assert (Hn : n = zlen (l1 ++ l2)) by (rewrite zlen_app; lia).
  rewrite (u32_small (_ * n)) by nia. set (a' := set_array_len n a).
  assert (Hz : zlen (repeat 0 (Z.to_nat (element_size a))) = element_size a) by (apply zlen_repeat; lia).
  apply wp_bind, wp_checked_memset; [lia|intros _; eapply blob_access; [done|done|nia..]|lia|intros _].
  change (u8 0) with 0.
  assert (Hfin : array_is (heap_with (hp w') (Ptr (blk p) (off p + element_size a * n)) (repeat 0 (Z.to_nat (element_size a)))) a' (l1 ++ l2)).
  { split; try done; simpl.
    - apply blob_ok_heap_with; [|done]. rewrite Hz. eapply blob_access; [done|done|nia..].
    - by apply Forall_app.
    - rewrite <- Hn. nia.
    - rewrite blob_bytes_write by (try done; nia). rewrite Hby', Hby, Hn, splice_close by (done || lia).
      f_equal. rewrite zlen_app, <- repeat_app. f_equal. nia. }
  eapply wp_array_postcondition; [done|]. apply HQ; [done| |done].
  apply (array_frame_trans _ _ w' a); [done|].
  eapply array_frame_write; try done; [apply Hf'|nia|nia|apply is_bytes_repeat; unfold is_u8; lia].
Qed.

Lemma wp_array_get w a l idx Q E :
  array_is (hp w) a l -> is_u32 idx ->
  (forall x p, l !! Z.to_nat idx = Some x -> data (array_mem a) = Some p ->
     bytes_at (hp w) (Ptr (blk p) (off p + element_size a * idx)) (element_size a) = x ->
     Q (Some (Ptr (blk p) (off p + element_size a * idx))) w a) ->
  (zlen l <= idx -> E S2N_ERR_ARRAY_INDEX_OOB w a) ->
  wp (s2n_array_get idx) (w, a) Q E.
Proof.
  intros Ha Hidx HQ HE. pose proof Ha as [Hb Hg Hes Hlen Hl Hroom Hby]. unfold is_u32 in Hidx.
  pose proof (ok_size _ _ Hb) as Hs. unfold is_u32 in Hs.
  apply wp_bind, (wp_array_validate _ _ l), wp_bind, wp_get_obj; [done|].
  apply wp_bind, wp_ensure; intros Hz; zbool; [|apply HE; lia].
  destruct (array_data _ _ _ Ha ltac:(nia)) as (p & Hp & _). rewrite Hp, u32_small by nia.
  destruct (lookup_lt_is_Some_2 l (Z.to_nat idx)) as [x Hx]; [unfold zlen in *; lia|].
  apply (HQ x); [done..|]. rewrite (blob_bytes_at _ (array_mem a)) by (try done; nia).
  apply list_elem_of_split_length in Hx as (l1 & l2 & -> & Hl1). rewrite Hby, concat_app. simpl.
  apply Forall_app in Hl as [Hl1' Hl2]. apply Forall_cons in Hl2 as [Hx _].
  rewrite <- !app_assoc. replace (element_size a * idx) with (zlen (concat l1)); [by apply zslice_app_mid|].
  rewrite (zlen_concat _ _ Hl1'). unfold zlen. rewrite <- Hl1. nia.
Qed.

(** A client that writes to the element it was given. *)
Lemma array_is_write h a l1 y l2 p x :
  array_is h a (l1 ++ y :: l2) -> data (array_mem a) = Some p -> zlen x = element_size a ->
  array_is (heap_with h (Ptr (blk p) (off p + element_size a * zlen l1)) x) a (l1 ++ x :: l2).
Proof.
  intros [Hb Hg Hes Hlen Hl Hroom Hby] Hp Hx. pose proof (zlen_nonneg l1). pose proof (zlen_nonneg l2).
  rewrite zlen_app, zlen_cons in Hlen, Hroom, Hby. pose proof (ok_size _ _ Hb) as Hs. unfold is_u32 in Hs.
  apply Forall_app in Hl as [Hl1 Hl2]. apply Forall_cons in Hl2 as [Hy Hl2].
  split; try done.
  - apply blob_ok_heap_with; [|done]. rewrite Hx. eapply blob_access; [done|done|nia..].
  - rewrite zlen_app, zlen_cons. done.
  - rewrite Forall_app, Forall_cons. done.
  - by rewrite zlen_app, zlen_cons.
  - rewrite blob_bytes_write by (try done; nia). rewrite Hby, zlen_app, zlen_cons, !concat_app. simpl.
    rewrite <- (zlen_concat _ _ Hl1), <- !app_assoc. apply zsplice_app_mid. congruence.
Qed.

Lemma split_at {A} (l : list A) (idx : Z) : 0 <= idx <= zlen l ->
  exists l1 l2, l = l1 ++ l2 /\ idx = zlen l1 /\ l1 = take (Z.to_nat idx) l /\ l2 = drop (Z.to_nat idx) l.
Proof.
  intros Hidx. exists (take (Z.to_nat idx) l), (drop (Z.to_nat idx) l).
  split_goal; [by rewrite take_drop| |done..]. unfold zlen in *. rewrite length_take. lia.
Qed.

Lemma wp_array_insert_and_copy w a l idx x Q E :
  world_ok w -> array_is (hp w) a l -> s2n_mem_free_cb (mem w) <> UserImpl ->
  is_u32 idx -> zlen x = element_size a -> is_bytes x ->
  (forall w' a', idx <= zlen l -> array_is (hp w') a' (insert_at idx x l) -> array_frame w a w' a' ->
     capacity_of a' = next_capacity (capacity_of a) l -> Q tt w' a') ->
  (zlen l < idx -> E S2N_ERR_ARRAY_INDEX_OOB w a) ->
  (forall e w', idx <= zlen l -> capacity_of a <= zlen l -> mem_error e = true -> array_is (hp w') a l -> array_frame w a w' a -> E e w' a) ->
  wp (s2n_array_insert_and_copy idx (LocalBuf x)) (w, a) Q E.
Proof.
  intros Hw Ha Hu Hidx Hx Hbs HQ HO HE. unfold is_u32 in Hidx. apply wp_bind.
  destruct (Z.le_gt_cases idx (zlen l)) as [Hle|Hgt]; [|by apply (wp_array_insert_oob _ _ l); auto].
  destruct (split_at l idx) as (l1 & l2 & Hsplit & Hi & H1 & H2); [lia|]. subst idx.
  assert (Hins : insert_at (zlen l1) x l = l1 ++ x :: l2) by (unfold insert_at; by rewrite <- H1, <- H2).
  rewrite Hsplit in Ha. apply (wp_array_insert _ _ l1 l2); [done..| |].
  2: { intros e w' Hc He Ha' Hf'. rewrite <- Hsplit in *. by apply HE. }
  intros w' a' p y Hp Hy Ha' Hf' _ Hcap. rewrite <- Hsplit in Hcap. pose proof Hf' as (Hw' & _ & Hes & _).
  apply wp_bind, wp_get_obj. rewrite Hes. pose proof (ai_element _ _ _ Ha) as He.
  pose proof (ai_room _ _ _ Ha') as Hroom. rewrite zlen_app, zlen_cons in Hroom. pose proof (zlen_nonneg l2).
  pose proof (zlen_nonneg l1). pose proof (ai_blob _ _ _ Ha') as Hb'. rewrite Hes in Hroom.
  apply (wp_checked_memcpy _ _ _ x); simpl.
  - split; [done|]. split; [lia|]. rewrite <- Hx. apply zslice_full.
  - lia.
  - eapply blob_access; [done|done|nia..].
  - apply HQ; [done| | |done].
    + rewrite Hins, <- Hes. apply (array_is_write _ _ l1 y); [done|done|congruence].
    + apply (array_frame_trans _ _ w' a'); [done|]. eapply array_frame_write; try done; nia.
Qed.

Lemma wp_element_bytes w a l1 x l2 p Q E :
  array_is (hp w) a (l1 ++ x :: l2) -> data (array_mem a) = Some p -> Q x w a ->
  wp (element_bytes (Some (Ptr (blk p) (off p + element_size a * zlen l1)))) (w, a) Q E.
Proof.
  intros [Hb Hg Hes Hlen Hl Hroom Hby] Hp HQ. pose proof (zlen_nonneg l1). pose proof (zlen_nonneg l2).
  rewrite zlen_app, zlen_cons in Hroom. apply Forall_app in Hl as [Hl1 Hl2]. apply Forall_cons in Hl2 as [Hy Hl2].
  apply wp_bind, wp_get_obj, wp_load; [eapply blob_access; [done|done|nia..]|].
  rewrite (blob_bytes_at _ (array_mem a)) by (try done; nia). rewrite Hby, concat_app. simpl.
  rewrite <- (zlen_concat _ _ Hl1), <- !app_assoc, zslice_app_mid; done.
Qed.

Lemma array_op_refines o w a l :
  world_ok w -> array_is (hp w) a l -> s2n_mem_free_cb (mem w) <> UserImpl -> array_args_ok (element_size a) o ->
  wp (attempt (run_array_op o)) (w, a)
    (fun r w' a' => exists l', list_step (element_size a) (capacity_of a) l o r (capacity_of a') l' /\
       array_is (hp w') a' l' /\ array_frame w a w' a')
    (fun _ _ _ => False).
Proof.
  intros Hw Ha Hu Hargs. pose proof (array_frame_refl w a Hw) as Hrefl.
  apply wp_attempt. destruct o as [idx x| |idx|idx|]; simpl in Hargs; simpl run_array_op; apply wp_bind.
  - destruct Hargs as (Hidx & Hx & Hbs). apply (wp_array_insert_and_copy _ _ l); try done.
    + intros w' a' Hle Ha' Hf' Hcap. apply wp_ret. rewrite Hcap. eauto using list_step.
    + intros Hlt. eauto using list_step.
    + intros e w' Hle Hc He Ha' Hf'. eauto 6 using list_step.
  - apply wp_bind, (wp_array_validate _ _ l), wp_bind, wp_get_obj; [done|].
    rewrite (ai_len _ _ _ Ha). apply (wp_array_insert _ _ l []); rewrite ?app_nil_r; [done..| |].
    + intros w' a' p x Hp Hx Ha' Hf' Hz Hcap. rewrite Hz in Ha' by done. pose proof Hf' as (_ & _ & Hes & _).
      apply wp_bind. rewrite <- Hes. eapply wp_element_bytes; [done..|]. apply wp_ret. rewrite Hes, Hcap.
      eexists. split_goal; [apply list_pushback|done..].
    + intros e w' Hc He Ha' Hf'. eauto using list_step.
  - apply (wp_array_get _ _ l); [done..| |eauto using list_step].
    intros x p Hx Hp _. pose proof Hx as Hx'. apply list_elem_of_split_length in Hx as (l1 & l2 & -> & Hl1).
    replace idx with (zlen l1) by (unfold zlen, is_u32 in *; lia).
    apply wp_bind. eapply wp_element_bytes; [done..|]. apply wp_ret.
    replace (zlen l1) with idx by (unfold zlen, is_u32 in *; lia). eauto using list_step.
  - unfold is_u32 in Hargs. destruct (Z.lt_ge_cases idx (zlen l)) as [Hlt|Hge].
    + destruct (split_at l idx) as (l1 & l2 & Hsplit & Hi & H1 & H2); [lia|].
      destruct l2 as [|y l2]; [rewrite Hsplit, app_nil_r in Hlt; lia|]. subst idx.
      assert (Hrem : remove_at (zlen l1) l = l1 ++ l2).
      { unfold remove_at. rewrite <- H1. f_equal. rewrite Hsplit. unfold zlen. rewrite Nat2Z.id.
        rewrite drop_app_ge by lia. by replace (S (length l1) - length l1)%nat with 1%nat by lia. }
      rewrite Hsplit in Ha. apply (wp_array_remove _ _ l1 y l2); [done..|].
      intros w' a' Ha' Hf' Hcap. apply wp_ret. rewrite Hcap. exists (l1 ++ l2). split_goal; [|done..].
      rewrite <- Hrem. by apply list_remove.
    + apply wp_bind, (wp_array_validate _ _ l), wp_bind, wp_get_obj; [done|].
      apply wp_bind, wp_ensure; [|eauto using list_step].
      rewrite (ai_len _ _ _ Ha). intros Hz. zbool. lia.
  - apply wp_bind, (wp_array_validate _ _ l), wp_bind, wp_get_obj; [done|].
    apply wp_ret, wp_ret. rewrite (ai_len _ _ _ Ha). eauto using list_step.
Qed.

(** A new array has no elements. *)
Lemma wp_array_init w a0 es Q E :
  world_ok w -> s2n_mem_free_cb (mem w) <> UserImpl -> 0 < es < 2 ^ 32 ->
  (forall w' a, array_is (hp w') a [] -> array_frame w (Array zero_blob 0 es) w' a -> Q tt w' a) ->
  (forall e w' a, E e w' a) ->
  wp (s2n_array_init es) (w, a0) Q E.
Proof.
  intros Hw Hu Hes HQ HE. apply wp_bind, wp_put_obj.
  apply (wp_array_enlarge _ _ []); try done; [|auto].
  split; simpl; try done; [unfold zlen; simpl; lia|].
  unfold zlen, blob_bytes. simpl. by rewrite Z.mul_0_r.
Qed.

(** C23 An array refines a list: for every sequence of insertions, appends, reads, removals and
    size queries, the results and the elements that the array ends with are those
    of the same operations on a list.  Indices out of range are refused with
    S2N_ERR_ARRAY_INDEX_OOB, a new element at the end is zero, only an insertion
    into a full array can fail, with an error of the allocator and no effect, a
    full array doubles, no call has undefined behaviour and none touches memory
    that the array does not own. *)
Theorem array_refines_list (os : list array_op) (w : world) (a : s2n_array) (l : list (list Z))
    (Hworld : world_ok w) (Harray : array_is (hp w) a l)
    (Hcb : s2n_mem_free_cb (mem w) <> UserImpl) (Hargs : Forall (array_args_ok (element_size a)) os) :
  exists rs w' a' l', run_array_ops os (w, a) = (Ok rs, (w', a')) /\
    list_run (element_size a) (capacity_of a) l os rs (capacity_of a') l' /\ array_is (hp w') a' l' /\ array_frame w a w' a'.
Proof.
  revert w a l Hworld Harray Hcb Hargs. induction os as [|o os IH]; intros w a l Hw Ha Hu Hargs.
  - exists [], w, a, l. split_goal; [done|constructor|done|by apply array_frame_refl].
  - apply Forall_cons in Hargs as [Ho Hargs].
    pose proof (array_op_refines o w a l Hw Ha Hu Ho) as H0. unfold wp in H0. simpl. unfold bind at 1.
    destruct (attempt _ _) as [[r|e|] [w1 a1]]; [|done..]. destruct H0 as (l1 & Hstep & Ha1 & Hf1).
    pose proof Hf1 as (Hw1 & Hm1 & Hes1 & _).
    destruct (IH w1 a1 l1) as (rs & w2 & a2 & l2 & Hrun & Hlr & Ha2 & Hf2); [done|done|by rewrite Hm1|by rewrite Hes1|].
    exists (r :: rs), w2, a2, l2. unfold bind. rewrite Hrun. rewrite Hes1 in Hlr.
    split_goal; [done|by econstructor|done|by eapply array_frame_trans].
Qed.
End Rules.

Lemma array_refines_list_witness :
  exists rs w' a' l', @run_array_ops demo_platform [ArrayPushback; ArrayInsert 0 [1; 2]; ArrayGet 1; ArrayRemove 0; ArrayGet 5]
      (World ∅ started_statics, Array zero_blob 0 2) = (Ok rs, (w', a')) /\
    list_run 2 0 [] [ArrayPushback; ArrayInsert 0 [1; 2]; ArrayGet 1; ArrayRemove 0; ArrayGet 5] rs (capacity_of a') l' /\
    array_is (hp w') a' l' /\ array_frame (World ∅ started_statics) (Array zero_blob 0 2) w' a'.
Proof.
  apply (@array_refines_list demo_platform _ _ (World ∅ started_statics) (Array zero_blob 0 2) []).
  - split; [apply map_Forall_empty|]. split; [done|]. simpl. unfold is_u32. lia.
  - split; simpl; done.
  - done.
  - repeat constructor; unfold is_u32; simpl; try lia; unfold is_u8; lia.
Defined.
End ArrayTheorems.
