(* ===== verification/Map.v ===== *)
(** * utils/s2n_map.c: hash tables

    A map is a table of [capacity] entries with linear probing.  The hash of a
    key is the first word of its SHA-256 digest, which the libcrypto computes:
    it is a parameter.  The table is an array of structs: its memory is a block
    of the heap, and the fields of its structs are the list [entries]. *)
From S2P Require Import Prelude Errors CMem Safety Platform Blob Alloc.
Open Scope Z_scope.

(** * Linear probing

    The mathematics of the hash tables of utils/s2n_map.c: a table is a list of
    slots that are empty or hold a key and a value, and a key is looked for from
    its own slot on, cyclically, up to the first empty slot. *)
Module Probing.
Section Theory.
Context {K V : Type} `{EqDecision K} `{Countable K}.
Abbreviation slots_t := (list (option (K * V))).
Variable word : K -> Z.
Implicit Types (slots : slots_t) (k : K) (v : V) (h i d e : Z).

Definition slot_at slots i : option (K * V) := default None (slots !! Z.to_nat i).

(** The slot that is tried after [d] steps from [h]. *)
Definition step_from slots h d : Z := (h + d) mod zlen slots.

(** The first slot of a key. *)
Definition home slots k : Z := word k mod zlen slots.

Definition pairs slots : list (K * V) := omap id slots.
Definition contents slots : gmap K V := list_to_map (pairs slots).

(** No probe for a key stops before the slot that holds it. *)
Definition probes_reach slots : Prop :=
  forall i k v, 0 <= i < zlen slots -> slot_at slots i = Some (k, v) ->
    forall d, 0 <= d < (i - home slots k) mod zlen slots -> slot_at slots (step_from slots (home slots k) d) <> None.

Record probing_ok slots : Prop := {
  po_reach : probes_reach slots;
  po_keys : NoDup (map fst (pairs slots));
}.

(** The slots tried before [e] hold other keys. *)
Definition passed slots k e : Prop :=
  forall d, 0 <= d < e -> exists k' v', slot_at slots (step_from slots (home slots k) d) = Some (k', v') /\ k' <> k.

(** ** Slots *)

Lemma step_range slots h d : 0 < zlen slots -> 0 <= step_from slots h d < zlen slots.
Proof. intros. by apply Z.mod_pos_bound. Qed.

Lemma step_dist slots h i : 0 < zlen slots -> 0 <= i < zlen slots -> step_from slots h ((i - h) mod zlen slots) = i.
Proof.
  intros Hn Hi. unfold step_from. rewrite Z.add_mod_idemp_r by lia.
  replace (h + (i - h)) with i by lia. by apply Z.mod_small.
Qed.

Lemma dist_step slots h d : 0 < zlen slots -> 0 <= d < zlen slots -> (step_from slots h d - h) mod zlen slots = d.
Proof.
  intros Hn Hd. unfold step_from. rewrite Zminus_mod_idemp_l. replace (h + d - h) with d by lia.
  by apply Z.mod_small.
Qed.

Lemma slot_at_lookup slots i o : 0 <= i < zlen slots -> slots !! Z.to_nat i = Some o <-> slot_at slots i = o.
Proof.
  intros Hi. unfold slot_at. destruct (lookup_lt_is_Some_2 slots (Z.to_nat i)) as [x Hx]; [unfold zlen in *; lia|].
  rewrite Hx. simpl. split; [by intros [= ->]|by intros ->].
Qed.

Lemma slot_at_insert slots i o j : 0 <= i < zlen slots -> 0 <= j ->
  slot_at (<[Z.to_nat i := o]> slots) j = if i =? j then o else slot_at slots j.
Proof.
  intros Hi Hj. unfold slot_at, zlen in *. destruct (Z.eqb_spec i j) as [->|Hne].
  - by rewrite list_lookup_insert_eq by lia.
  - by rewrite list_lookup_insert_ne by lia.
Qed.

Lemma zlen_insert {A} (l : list A) n x : zlen (<[n := x]> l) = zlen l.
Proof. unfold zlen. by rewrite length_insert. Qed.

Lemma in_pairs slots kv : kv ∈ pairs slots <-> exists i, 0 <= i < zlen slots /\ slot_at slots i = Some kv.
Proof.
  unfold pairs. rewrite list_elem_of_omap. split.
  - intros (o & Hin & He). simpl in He. subst o. apply list_elem_of_lookup in Hin as [i Hi].
    pose proof (lookup_lt_Some _ _ _ Hi). exists (Z.of_nat i). unfold zlen, slot_at. rewrite Nat2Z.id, Hi. split; [lia|done].
  - intros (i & Hi & Hs). exists (Some kv). split; [|done]. apply slot_at_lookup in Hs; [|done].
    by apply list_elem_of_lookup_2 in Hs.
Qed.

(** A table that is not full has an empty slot. *)
Lemma empty_slot slots : zlen (pairs slots) < zlen slots -> exists i, 0 <= i < zlen slots /\ slot_at slots i = None.
Proof.
  intros Hlt. induction slots as [|[kv|] slots IH]; [unfold zlen in *; simpl in *; lia| |].
  - destruct IH as (i & Hi & Hs).
    { change (pairs (Some kv :: slots)) with (kv :: pairs slots) in Hlt. rewrite !zlen_cons in Hlt. lia. }
    exists (i + 1). rewrite zlen_cons. split; [lia|]. unfold slot_at in *.
    replace (Z.to_nat (i + 1)) with (S (Z.to_nat i)) by lia. done.
  - exists 0. rewrite zlen_cons. pose proof (zlen_nonneg slots). split; [lia|done].
Qed.

Lemma pairs_fill slots i kv : 0 <= i < zlen slots -> slot_at slots i = None ->
  pairs (<[Z.to_nat i := Some kv]> slots) ≡ₚ kv :: pairs slots.
Proof.
  intros Hi Hs. apply slot_at_lookup in Hs; [|done]. unfold pairs.
  rewrite insert_take_drop by (apply lookup_lt_Some in Hs; done).
  rewrite <- (take_drop_middle _ _ _ Hs) at 3. rewrite !omap_app. simpl. by rewrite Permutation_middle.
Qed.

Lemma pairs_clear slots i kv : 0 <= i < zlen slots -> slot_at slots i = Some kv ->
  pairs slots ≡ₚ kv :: pairs (<[Z.to_nat i := None]> slots).
Proof.
  intros Hi Hs. apply slot_at_lookup in Hs; [|done]. unfold pairs.
  rewrite insert_take_drop by (apply lookup_lt_Some in Hs; done).
  rewrite <- (take_drop_middle _ _ _ Hs) at 1. rewrite !omap_app. simpl. by rewrite Permutation_middle.
Qed.

Lemma contents_slot slots i k v : probing_ok slots -> 0 <= i < zlen slots -> slot_at slots i = Some (k, v) ->
  contents slots !! k = Some v.
Proof. intros [_ Hk] Hi Hs. apply elem_of_list_to_map_1; [done|]. apply in_pairs. by exists i. Qed.

(** ** What a finished probe means *)

Lemma probe_absent slots k e : probing_ok slots -> 0 < zlen slots -> 0 <= e < zlen slots ->
  passed slots k e -> slot_at slots (step_from slots (home slots k) e) = None -> contents slots !! k = None.
Proof.
  intros [Hreach _] Hn He Hp Hs. apply not_elem_of_list_to_map_1. intros Hin.
  apply list_elem_of_fmap in Hin as ([k' v] & Hk & Hin). simpl in Hk. subst k'.
  apply in_pairs in Hin as (i & Hi & Hsi).
  pose proof (Z.mod_pos_bound (i - home slots k) (zlen slots) Hn) as Hd.
  pose proof (step_dist slots (home slots k) i Hn Hi) as Hst.
  destruct (Z.lt_trichotomy ((i - home slots k) mod zlen slots) e) as [Hlt|[Heq|Hgt]].
  - destruct (Hp _ (conj (proj1 Hd) Hlt)) as (k' & v' & Hs' & Hne). rewrite Hst in Hs'. congruence.
  - rewrite <- Heq, Hst in Hs. congruence.
  - by destruct (Hreach i k v Hi Hsi e ltac:(lia)).
Qed.

(** A probe over a full table that does not find the key. *)
Lemma probe_all slots k : 0 < zlen slots -> passed slots k (zlen slots) -> contents slots !! k = None.
Proof.
  intros Hn Hp. apply not_elem_of_list_to_map_1. intros Hin.
  apply list_elem_of_fmap in Hin as ([k' v] & Hk & Hin). simpl in Hk. subst k'.
  apply in_pairs in Hin as (i & Hi & Hsi).
  destruct (Hp ((i - home slots k) mod zlen slots)) as (k' & v' & Hs & Hne); [by apply Z.mod_pos_bound|].
  rewrite step_dist in Hs by done. congruence.
Qed.

(** ** Filling a slot *)

Lemma fill_ok slots k v e : probing_ok slots -> 0 < zlen slots -> 0 <= e < zlen slots ->
  passed slots k e -> slot_at slots (step_from slots (home slots k) e) = None ->
  let slots' := <[Z.to_nat (step_from slots (home slots k) e) := Some (k, v)]> slots in
  probing_ok slots' /\ contents slots' = <[k := v]> (contents slots) /\ zlen (pairs slots') = zlen (pairs slots) + 1.
Proof.
  intros Hok Hn He Hp Hs slots'. pose proof (step_range slots (home slots k) e Hn) as Hi.
  pose proof (probe_absent _ _ _ Hok Hn He Hp Hs) as Habs. destruct Hok as [Hreach Hkeys].
  pose proof (pairs_fill slots _ (k, v) Hi Hs) as Hperm. fold slots' in Hperm.
  assert (Hlen : zlen slots' = zlen slots) by apply zlen_insert.
  assert (Hhome : forall k', home slots' k' = home slots k') by (intros; unfold home; by rewrite Hlen).
  assert (Hnd : NoDup (map fst (pairs slots'))).
  { rewrite Hperm. simpl. apply NoDup_cons. split; [|done]. by apply not_elem_of_list_to_map. }
  split_goal.
  - split; [|done]. intros i k' v' Hir Hsi d Hd. rewrite Hlen in *. rewrite Hhome in *.
    unfold step_from. rewrite Hlen. fold (step_from slots (home slots k') d).
    pose proof (step_range slots (home slots k') d Hn) as Hj.
    unfold slots' in *. rewrite slot_at_insert in Hsi |- * by lia.
    destruct (Z.eqb_spec (step_from slots (home slots k) e) i) as [Heq|Hne].
    + injection Hsi as <- <-. rewrite <- Heq, dist_step in Hd by done.
      destruct (_ =? _); [done|]. destruct (Hp d Hd) as (k' & v' & -> & _). done.
    + destruct (_ =? _); [done|]. by apply (Hreach i k' v').
  - unfold contents. rewrite (list_to_map_proper _ ((k, v) :: pairs slots)); [done|done|done].
  - unfold zlen. rewrite Hperm. simpl. lia.
Qed.

(** Overwriting the value of a key. *)
Lemma replace_ok slots k v v' i : probing_ok slots -> 0 <= i < zlen slots -> slot_at slots i = Some (k, v) ->
  let slots' := <[Z.to_nat i := Some (k, v')]> slots in
  probing_ok slots' /\ contents slots' = <[k := v']> (contents slots) /\ zlen (pairs slots') = zlen (pairs slots).
Proof.
  intros [Hreach Hkeys] Hi Hs slots'.
  set (cleared := <[Z.to_nat i := None]> slots).
  assert (Hsc : slot_at cleared i = None).
  { unfold cleared. rewrite slot_at_insert by lia. by rewrite Z.eqb_refl. }
  pose proof (pairs_clear slots i (k, v) Hi Hs) as Hp1. fold cleared in Hp1.
  assert (Hp2 : pairs slots' ≡ₚ (k, v') :: pairs cleared).
  { rewrite <- (pairs_fill cleared i (k, v')); [|by unfold cleared; rewrite zlen_insert|done].
    unfold cleared, slots'. by rewrite list_insert_insert_eq. }
  assert (Hnd : NoDup (map fst (pairs slots'))) by (rewrite Hp2; rewrite Hp1 in Hkeys; exact Hkeys).
  assert (Hlen : zlen slots' = zlen slots) by apply zlen_insert.
  split_goal.
  - split; [|done]. intros j k2 v2 Hj Hsj d Hd. unfold home, step_from in *. rewrite Hlen in *.
    pose proof (Z.mod_pos_bound (word k2 mod zlen slots + d) (zlen slots) ltac:(lia)).
    unfold slots' in *. rewrite slot_at_insert in Hsj |- * by lia. destruct (_ =? _) eqn:E1 in |- *; [done|].
    assert (exists v3, slot_at slots j = Some (k2, v3)) as [v3 Hs3].
    { destruct (Z.eqb_spec i j) as [<-|]; [injection Hsj as <- <-; by exists v|by exists v2]. }
    by apply (Hreach j k2 v3).
  - unfold contents. rewrite (list_to_map_proper _ ((k, v') :: pairs cleared)) by done.
    rewrite (list_to_map_proper (pairs slots) ((k, v) :: pairs cleared)) by done. simpl. by rewrite insert_insert_eq.
  - unfold zlen. rewrite Hp2, Hp1. done.
Qed.

(** A table without entries. *)
Lemma empty_ok n : probing_ok (replicate n None) /\ contents (replicate n None) = ∅ /\ pairs (replicate n None) = [].
Proof.
  assert (Hp : pairs (replicate n None) = []) by (unfold pairs; induction n; [done|simpl; done]).
  split_goal; [|unfold contents; by rewrite Hp|done]. split; [|rewrite Hp; constructor].
  intros i k v _ Hs. unfold slot_at in Hs.
  destruct (replicate n None !! Z.to_nat i) as [o|] eqn:Ho; [|done].
  apply lookup_replicate in Ho as [-> _]. done.
Qed.
End Theory.
End Probing.
Export Probing.

Module Map.

(** struct s2n_map_entry *)
Record s2n_map_entry := MapEntry { entry_key : s2n_blob; entry_value : s2n_blob }.

Definition zero_entry : s2n_map_entry := MapEntry zero_blob zero_blob.

(** struct s2n_map *)
Record s2n_map := Map {
  map_capacity : Z;  (* capacity *)
  map_size : Z;  (* size *)
  immutable : bool;
  table : option ptr;
  entries : list s2n_map_entry;  (* table[0], table[1], ... *)
}.

Definition set_map_size (n : Z) (m : s2n_map) : s2n_map := Map (map_capacity m) n (immutable m) (table m) (entries m).
Definition set_immutable (b : bool) (m : s2n_map) : s2n_map := Map (map_capacity m) (map_size m) b (table m) (entries m).
Definition set_entries (l : list s2n_map_entry) (m : s2n_map) : s2n_map :=
  Map (map_capacity m) (map_size m) (immutable m) (table m) l.

(** [&map->table[slot].key] and [&map->table[slot].value] *)
Definition entry_at (slot : Z) (m : s2n_map) : s2n_map_entry := default zero_entry (entries m !! Z.to_nat slot).
Definition key_lens (slot : Z) : lens s2n_map s2n_blob :=
  Lens (fun m => entry_key (entry_at slot m))
       (fun b m => set_entries (<[Z.to_nat slot := MapEntry b (entry_value (entry_at slot m))]> (entries m)) m).
Definition value_lens (slot : Z) : lens s2n_map s2n_blob :=
  Lens (fun m => entry_value (entry_at slot m))
       (fun b m => set_entries (<[Z.to_nat slot := MapEntry (entry_key (entry_at slot m)) b]> (entries m)) m).

Definition S2N_INITIAL_TABLE_SIZE : Z := 1024.

(** Sizes of the structs on a 64-bit platform. *)
Definition SIZEOF_MAP : Z := 24.
Definition SIZEOF_MAP_ENTRY : Z := 48.

(** crypto/s2n_hash.c and the libcrypto: whether hashing fails, and the first
    uint32_t of the SHA-256 digest. *)
Class MapHash := {
  hash_fails : heap -> option s2n_error;
  sha256_word : list Z -> Z;
}.

Section Definitions.
Context `{Platform} `{MapHash}.

(** The read [map->table[slot]]. *)
Definition read_entry {X} (m : s2n_map) (slot : Z) : Cmd X s2n_map_entry :=
  match table m, entries m !! Z.to_nat slot with
  | Some _, Some e => if 0 <=? slot then ret e else undefined
  | _, _ => undefined
  end.

(** The bytes of a blob that is read in full. *)
Definition read_blob {X} (b : s2n_blob) : Cmd X (list Z) :=
  if size b =? 0 then ret [] else load_buf (HeapBuf (data b)) (size b).

Definition s2n_map_slot (key : s2n_blob) : Cmd s2n_map Z :=
  m <-- get_obj ;;
  ensure (negb (map_capacity m =? 0)) S2N_ERR_SAFETY ;;;
  w <-- get_world ;;
  match hash_fails (hp w) with
  | Some e => fail e
  | None => bs <-- read_blob key ;; ret (sha256_word bs mod map_capacity m)
  end.

(** [key->size != b.size || memcmp(key->data, b.data, key->size)] *)
Definition key_differs {X} (key b : s2n_blob) : Cmd X bool :=
  if negb (size key =? size b) then ret true
  else
    x <-- read_blob key ;;
    y <-- load_buf (HeapBuf (data b)) (size key) ;;
    ret (bool_decide (x <> y)).

(** Linear probing: the first slot that is empty, or has the key ([true]).
    [fuel] bounds the iterations. *)
Fixpoint probe_loop (fuel : nat) (key : s2n_blob) (slot : Z) : Cmd s2n_map (Z * bool) :=
  m <-- get_obj ;;
  e <-- read_entry m slot ;;
  if size (entry_key e) =? 0 then ret (slot, false)
  else
    d <-- key_differs key (entry_key e) ;;
    if d then
      match fuel with
      | O => undefined
      | S fuel' => probe_loop fuel' key (u32 (slot + 1) mod map_capacity m)
      end
    else ret (slot, true).

(** The end of s2n_map_add and s2n_map_put. *)
Definition fill_slot (slot : Z) (key value : s2n_blob) : Cmd s2n_map unit :=
  zoom (key_lens slot) (s2n_dup key) ;;;
  zoom (value_lens slot) (s2n_dup value) ;;;
  m <-- get_obj ;;
  modify (set_map_size (u32 (map_size m + 1))).

(** A command that works on the struct of the caller and on a local one, whose
    final value is the result. *)
Definition with_second {X Y} (y : Y) (c : Cmd (X * Y) unit) : Cmd X Y := fun '(w, x) =>
  match c (w, (x, y)) with
  | (Ok _, (w', (x', y'))) => (Ok y', (w', x'))
  | (Err e, (w', (x', _))) => (Err e, (w', x'))
  | (UB, (w', (x', _))) => (UB, (w', x'))
  end.

(** s2n_map_embiggen: [add] is s2n_map_add. *)
Fixpoint embiggen_loop (add : s2n_blob -> s2n_blob -> Cmd s2n_map unit) (n : nat) (i : Z) : Cmd (s2n_map * s2n_map) unit :=
  match n with
  | O => ret tt
  | S n' =>
      m <-- get_obj ;;
      e <-- read_entry (fst m) i ;;
      (if negb (size (entry_key e) =? 0) then
         zoom snd_lens (add (entry_key e) (entry_value e)) ;;;
         zoom fst_lens (zoom (key_lens i) s2n_free) ;;;
         zoom fst_lens (zoom (value_lens i) s2n_free)
       else ret tt) ;;;
      embiggen_loop add n' (i + 1)
  end.

Definition table_lens : lens s2n_map (option ptr) :=
  Lens table (fun p m => Map (map_capacity m) (map_size m) (immutable m) p (entries m)).

Definition map_embiggen (add : s2n_blob -> s2n_blob -> Cmd s2n_map unit) (capacity : Z) : Cmd s2n_map unit :=
  m <-- get_obj ;;
  ensure (negb (immutable m)) S2N_ERR_MAP_IMMUTABLE ;;;
  let bytes := u32 (capacity * SIZEOF_MAP_ENTRY) in
  mem_ <-- with_local zero_blob (s2n_alloc bytes ;;; s2n_blob_zero) ;;
  let tmp := Map capacity 0 false (data (snd mem_)) (replicate (Z.to_nat (bytes / SIZEOF_MAP_ENTRY)) zero_entry) in
  r <-- with_second tmp (embiggen_loop add (Z.to_nat (map_capacity m)) 0) ;;
  zoom table_lens (s2n_free_object (u32 (map_capacity m * SIZEOF_MAP_ENTRY))) ;;;
  put_obj (Map (map_capacity r) (map_size r) false (table r) (entries r)).

(** s2n_map_add; [fuel] bounds the nesting of s2n_map_add and s2n_map_embiggen. *)
Fixpoint map_add (fuel : nat) (key value : s2n_blob) : Cmd s2n_map unit :=
  m <-- get_obj ;;
  ensure (negb (immutable m)) S2N_ERR_MAP_IMMUTABLE ;;;
  (if map_capacity m <? u32 (map_size m * 2) then
     match fuel with
     | O => undefined
     | S fuel' => map_embiggen (map_add fuel') (u32 (map_capacity m * 2))
     end
   else ret tt) ;;;
  slot <-- s2n_map_slot key ;;
  m <-- get_obj ;;
  r <-- probe_loop (Z.to_nat (map_capacity m)) key slot ;;
  ensure (negb (snd r)) S2N_ERR_MAP_DUPLICATE ;;;
  fill_slot (fst r) key value.

Definition s2n_map_add (key value : s2n_blob) : Cmd s2n_map unit := map_add 1 key value.
Definition s2n_map_embiggen (capacity : Z) : Cmd s2n_map unit := map_embiggen (map_add 0) capacity.

Definition s2n_map_put (key value : s2n_blob) : Cmd s2n_map unit :=
  m <-- get_obj ;;
  ensure (negb (immutable m)) S2N_ERR_MAP_IMMUTABLE ;;;
  (if map_capacity m <? u32 (map_size m * 2) then s2n_map_embiggen (u32 (map_capacity m * 2)) else ret tt) ;;;
  slot <-- s2n_map_slot key ;;
  m <-- get_obj ;;
  r <-- probe_loop (Z.to_nat (map_capacity m)) key slot ;;
  (if snd r then
     zoom (key_lens (fst r)) s2n_free ;;;
     zoom (value_lens (fst r)) s2n_free ;;;
     m <-- get_obj ;;
     modify (set_map_size (u32 (map_size m - 1)))
   else ret tt) ;;;
  fill_slot (fst r) key value.

Definition s2n_map_size : Cmd s2n_map Z := m <-- get_obj ;; ret (map_size m).

Definition s2n_map_complete : Cmd s2n_map unit := modify (set_immutable true).
Definition s2n_map_unlock : Cmd s2n_map unit := modify (set_immutable false).

(** The value that is found, as a blob that refers to the memory of the map. *)
Fixpoint lookup_loop (fuel : nat) (key : s2n_blob) (initial_slot slot : Z) : Cmd s2n_map (option s2n_blob) :=
  m <-- get_obj ;;
  e <-- read_entry m slot ;;
  if size (entry_key e) =? 0 then ret None
  else
    d <-- key_differs key (entry_key e) ;;
    if d then
      let slot := u32 (slot + 1) mod map_capacity m in
      if slot =? initial_slot then ret None
      else match fuel with
           | O => undefined
           | S fuel' => lookup_loop fuel' key initial_slot slot
           end
    else
      r <-- with_local zero_blob (s2n_blob_init (data (entry_value e)) (size (entry_value e))) ;;
      ret (Some (snd r)).

Definition s2n_map_lookup (key : s2n_blob) : Cmd s2n_map (option s2n_blob) :=
  m <-- get_obj ;;
  ensure (immutable m) S2N_ERR_MAP_MUTABLE ;;;
  slot <-- s2n_map_slot key ;;
  lookup_loop (Z.to_nat (map_capacity m)) key slot slot.

Fixpoint free_loop (n : nat) (i : Z) : Cmd s2n_map unit :=
  match n with
  | O => ret tt
  | S n' =>
      m <-- get_obj ;;
      e <-- read_entry m i ;;
      (if negb (size (entry_key e) =? 0) then
         zoom (key_lens i) s2n_free ;;; zoom (value_lens i) s2n_free
       else ret tt) ;;;
      free_loop n' (i + 1)
  end.

(** A map that s2n_map_new allocated is its address and its contents. *)
Definition s2n_map_free {X} (v : option (ptr * s2n_map)) : Cmd X unit :=
  match v with
  | None => ret tt
  | Some (p, m) =>
      with_local m (free_loop (Z.to_nat (map_capacity m)) 0 ;;;
                    zoom table_lens (s2n_free_object (u32 (map_capacity m * SIZEOF_MAP_ENTRY)))) ;;;
      with_local (Some p) (s2n_free_object SIZEOF_MAP) ;;;
      ret tt
  end.

Definition s2n_map_new_with_initial_capacity {X} (capacity : Z) : Cmd X (ptr * s2n_map) :=
  ensure (negb (capacity =? 0)) S2N_ERR_MAP_INVALID_MAP_SIZE ;;;
  mem_ <-- with_local zero_blob (s2n_alloc SIZEOF_MAP) ;;
  match data (snd mem_) with
  | None => undefined
  | Some p =>
      r <-- with_local (Map 0 0 false None []) (s2n_map_embiggen capacity) ;;
      ret (p, snd r)
  end.

Definition s2n_map_new {X} : Cmd X (ptr * s2n_map) := s2n_map_new_with_initial_capacity S2N_INITIAL_TABLE_SIZE.

(** ** Iteration *)

(** struct s2n_map_iterator; the map is shared and not changed. *)
Record s2n_map_iterator := MapIterator { iter_map : s2n_map; current_index : Z; consumed : bool }.

Definition set_current_index (i : Z) (it : s2n_map_iterator) : s2n_map_iterator := MapIterator (iter_map it) i (consumed it).
Definition set_consumed (b : bool) (it : s2n_map_iterator) : s2n_map_iterator := MapIterator (iter_map it) (current_index it) b.

Definition s2n_map_iterator_has_next (it : s2n_map_iterator) : bool := negb (consumed it).

(** The search for the next full slot; [fuel] bounds the iterations. *)
Fixpoint advance_loop (fuel : nat) : Cmd s2n_map_iterator unit :=
  it <-- get_obj ;;
  if current_index it <? map_capacity (iter_map it) then
    e <-- read_entry (iter_map it) (current_index it) ;;
    if negb (size (entry_key e) =? 0) then ret tt
    else
      match fuel with
      | O => undefined
      | S fuel' => modify (set_current_index (u32 (current_index it + 1))) ;;; advance_loop fuel'
      end
  else modify (set_consumed true).

Definition s2n_map_iterator_advance : Cmd s2n_map_iterator unit :=
  it <-- get_obj ;;
  ensure (s2n_map_iterator_has_next it) S2N_ERR_ARRAY_INDEX_OOB ;;;
  modify (set_current_index (u32 (current_index it + 1))) ;;;
  advance_loop (Z.to_nat (map_capacity (iter_map it))).

Definition s2n_map_iterator_init (m : s2n_map) : Cmd s2n_map_iterator unit :=
  ensure (immutable m) S2N_ERR_MAP_MUTABLE ;;;
  it <-- get_obj ;;
  put_obj (MapIterator m 0 (consumed it)) ;;;
  e <-- read_entry m 0 ;;
  if size (entry_key e) =? 0 then s2n_map_iterator_advance else ret tt.

Definition s2n_map_iterator_next : Cmd s2n_map_iterator s2n_blob :=
  it <-- get_obj ;;
  ensure (immutable (iter_map it)) S2N_ERR_MAP_MUTABLE ;;;
  ensure (s2n_map_iterator_has_next it) S2N_ERR_ARRAY_INDEX_OOB ;;;
  ensure (current_index it <? map_capacity (iter_map it)) S2N_ERR_ARRAY_INDEX_OOB ;;;
  e <-- read_entry (iter_map it) (current_index it) ;;
  r <-- with_local zero_blob (s2n_blob_init (data (entry_value e)) (size (entry_value e))) ;;
  s2n_map_iterator_advance ;;;
  ret (snd r).
End Definitions.
End Map.
Export Map.
