(* ===== verification/MapTheorems.v ===== *)
(** * Hash tables refine finite maps

    [map_is h m M]: in the heap [h] the hash table [m] holds exactly the keys and
    values of the finite map [M], each in memory of its own, and every key can be
    found by probing.  The operations of utils/s2n_map.c are specified on [M]. *)
From S2P Require Import Prelude Errors CMem Platform Safety Blob Alloc Map.
Open Scope Z_scope.

Module MapTheorems.

Abbreviation bytes := (list Z).
Abbreviation slots_t := (list (option (bytes * bytes))).

(** ** The memory of a map *)

(** A blob that owns a block with the bytes [bs]. *)
Record owns (h : heap) (b : s2n_blob) (bs : bytes) : Prop := {
  ow_blob : blob_ok h b;
  ow_growable : growable b = true;
  ow_size : size b <> 0;
  ow_bytes : blob_bytes h b = bs;
}.

Definition entry_is (h : heap) (e : s2n_map_entry) (o : option (bytes * bytes)) : Prop :=
  match o with
  | None => e = zero_entry
  | Some (k, v) => owns h (entry_key e) k /\ owns h (entry_value e) v
  end.

Definition blob_blocks (b : s2n_blob) : list positive := match data b with Some p => [blk p] | None => [] end.
Definition entry_blocks (e : s2n_map_entry) : list positive := blob_blocks (entry_key e) ++ blob_blocks (entry_value e).
Definition table_blocks (m : s2n_map) : list positive := match table m with Some p => [blk p] | None => [] end.
Definition map_blocks (m : s2n_map) : list positive := table_blocks m ++ concat (map entry_blocks (entries m)).

Record map_mem (h : heap) (m : s2n_map) (slots : slots_t) : Prop := {
  mm_capacity : 0 <= map_capacity m /\ map_capacity m * SIZEOF_MAP_ENTRY < 2 ^ 32;
  mm_len : zlen slots = map_capacity m;
  mm_entries : Forall2 (entry_is h) (entries m) slots;
  mm_table : table m = None /\ map_capacity m = 0 \/
    exists p l, table m = Some p /\ off p = 0 /\ h !! blk p = Some l /\ 0 < map_capacity m /\
      map_capacity m * SIZEOF_MAP_ENTRY <= zlen l;
  mm_disjoint : NoDup (map_blocks m);
}.

(** What a call leaves of the rest of the memory. *)
Definition map_frame (w : world) (m : s2n_map) (w' : world) (m' : s2n_map) : Prop :=
  world_ok w' /\ mem w' = mem w /\
  (forall k l, hp w !! k = Some l -> ~ In k (map_blocks m) -> hp w' !! k = Some l) /\
  (forall k, In k (map_blocks m') -> In k (map_blocks m) \/ hp w !! k = None).

Lemma map_frame_refl w m : world_ok w -> map_frame w m w m.
Proof. intros. unfold map_frame. split_goal; auto. Qed.

Lemma map_frame_trans w1 m1 w2 m2 w3 m3 :
  map_frame w1 m1 w2 m2 -> map_frame w2 m2 w3 m3 -> map_frame w1 m1 w3 m3.
Proof.
  intros (_ & Hm1 & Hf1 & Hi1) (? & Hm2 & Hf2 & Hi2). unfold map_frame. split_goal; [done|congruence| |].
  - intros k l Hk Hn. apply Hf2; [by apply Hf1|]. intros Hk2. destruct (Hi1 k Hk2); congruence.
  - intros k Hk. destruct (Hi2 k Hk) as [?|Hnone]; [by apply Hi1|].
    destruct (hp w1 !! k) as [l|] eqn:Hl; [|by right]. left.
    destruct (in_dec Pos.eq_dec k (map_blocks m1)) as [?|Hn]; [done|]. exfalso.
    apply (Hf1 _ _ Hl) in Hn. congruence.
Qed.

Lemma blob_blocks_in b k : In k (blob_blocks b) <-> in_block b k.
Proof.
  unfold blob_blocks, in_block. destruct (data b) as [p|]; simpl; [|by split; [|intros (? & ? & _)]].
  split; [intros [<-|[]]; eauto|intros (q & [= <-] & ->); by left].
Qed.

Lemma owns_ext h h' b bs : (forall k, In k (blob_blocks b) -> h !! k = h' !! k) -> owns h b bs -> owns h' b bs.
Proof.
  intros Heq [Hb Hg Hs Hby]. split; try done.
  - apply (blob_ok_ext h); [|done]. intros k Hk. by apply Heq, blob_blocks_in.
  - rewrite <- Hby. unfold blob_bytes. destruct (data b) as [p|] eqn:Hp; [|done].
    apply bytes_at_ext. symmetry. apply Heq, blob_blocks_in. by exists p.
Qed.

Lemma entry_is_ext h h' e o : (forall k, In k (entry_blocks e) -> h !! k = h' !! k) -> entry_is h e o -> entry_is h' e o.
Proof.
  intros Heq. destruct o as [[k v]|]; [|done]. intros [Hk Hv].
  split; (apply (owns_ext h); [|done]); intros b Hb; apply Heq, in_or_app; auto.
Qed.

Lemma map_mem_ext h h' m slots :
  (forall k, In k (map_blocks m) -> h !! k = h' !! k) -> map_mem h m slots -> map_mem h' m slots.
Proof.
  intros Heq [Hc Hl He Ht Hd]. split; try done.
  - assert (Hin : forall e k, In e (entries m) -> In k (entry_blocks e) -> h !! k = h' !! k).
    { intros e k Hein Hk. apply Heq. apply in_or_app. right. apply in_concat. exists (entry_blocks e).
      split; [by apply in_map|done]. }
    clear -He Hin. induction He as [|e o es os Heo _ IH]; [constructor|]. constructor.
    + eapply entry_is_ext; [|done]. intros k Hk. apply (Hin e); [by left|done].
    + apply IH. intros e' k He' Hk. apply (Hin e'); [by right|done].
  - destruct Ht as [?|(p & l & Hp & Ho & Hb & Hrest)]; [by left|right]. exists p, l.
    rewrite <- Heq; [done|]. apply in_or_app. left. unfold table_blocks. rewrite Hp. by left.
Qed.
Lemma map_mem_set_size h m slots n : map_mem h m slots -> map_mem h (set_map_size n m) slots.
Proof. by intros [? ? ? ? ?]. Qed.

Lemma map_mem_set_immutable h m slots b : map_mem h m slots -> map_mem h (set_immutable b m) slots.
Proof. by intros [? ? ? ? ?]. Qed.

(** ** Errors *)

(** The errors by which a map refuses a call that does not fit its state. *)
Definition map_refusal (e : s2n_error) : bool :=
  existsb (error_eqb e) [S2N_ERR_MAP_DUPLICATE; S2N_ERR_MAP_IMMUTABLE; S2N_ERR_MAP_MUTABLE].

Class MapHashOk `{MapHash} : Prop := {
  (** The errors of hashing are others. *)
  hash_error h e : hash_fails h = Some e -> map_refusal e = false;
}.

Lemma mem_error_not_refusal e : mem_error e = true -> map_refusal e = false.
Proof. by destruct e. Qed.

(** ** Reading *)

Section Rules.
Context `{HP : Platform} `{!BlobAllocator} `{HH : MapHash} `{HOK : !MapHashOk}.
Implicit Types (w : world) (m : s2n_map) (slots : slots_t).

Lemma entry_lookup h m slots i : map_mem h m slots -> 0 <= i < map_capacity m ->
  exists e, entries m !! Z.to_nat i = Some e /\ entry_is h e (slot_at slots i).
Proof.
  intros [_ Hl He _ _] Hi. pose proof (Forall2_length _ _ _ He) as Hlen.
  destruct (lookup_lt_is_Some_2 (entries m) (Z.to_nat i)) as [e Hei]; [unfold zlen in Hl; lia|].
  exists e. split; [done|]. destruct (Forall2_lookup_l _ _ _ _ _ He Hei) as (o & Ho & Heo).
  unfold slot_at. by rewrite Ho.
Qed.

Lemma wp_read_entry {X} w (x : X) m slots i Q E :
  map_mem (hp w) m slots -> 0 <= i < map_capacity m ->
  (forall e, entries m !! Z.to_nat i = Some e -> entry_is (hp w) e (slot_at slots i) -> Q e w x) ->
  wp (read_entry m i) (w, x) Q E.
Proof.
  intros Hm Hi HQ. unfold read_entry. destruct (entry_lookup _ _ _ _ Hm Hi) as (e & He & Heo).
  destruct (mm_table _ _ _ Hm) as [[_ ?]|(p & l & -> & _)]; [lia|].
  rewrite He, (proj2 (Z.leb_le 0 i)) by lia. by apply wp_ret, HQ.
Qed.

Lemma wp_read_blob {X} w (x : X) b Q E :
  blob_ok (hp w) b -> Q (blob_bytes (hp w) b) w x -> wp (read_blob b) (w, x) Q E.
Proof.
  intros Hb HQ. unfold read_blob. pose proof (blob_bytes_len _ _ Hb) as Hlen.
  destruct (Z.eqb_spec (size b) 0) as [Hz|Hz].
  - rewrite Hz in Hlen. apply zlen_0_nil in Hlen. rewrite Hlen in HQ. by apply wp_ret.
  - unfold blob_bytes in HQ. destruct (data b) as [p|] eqn:Hp; [|by destruct (ok_null _ _ Hb Hp)].
    apply wp_load; [by apply blob_access_all|done].
Qed.

Lemma wp_key_differs {X} w (x : X) key b k Q E :
  blob_ok (hp w) key -> owns (hp w) b k ->
  Q (bool_decide (blob_bytes (hp w) key <> k)) w x -> wp (key_differs key b) (w, x) Q E.
Proof.
  intros Hkey [Hb _ Hs Hby] HQ. unfold key_differs.
  pose proof (blob_bytes_len _ _ Hkey) as Hl1. pose proof (blob_bytes_len _ _ Hb) as Hl2. rewrite Hby in Hl2.
  destruct (Z.eqb_spec (size key) (size b)) as [He|Hne]; simpl.
  - apply wp_bind, wp_read_blob; [done|]. apply wp_bind. unfold blob_bytes in Hby.
    destruct (data b) as [p|] eqn:Hp; [|by destruct (ok_null _ _ Hb Hp)].
    rewrite He. apply wp_load; [by apply blob_access_all|]. rewrite Hby. by apply wp_ret.
  - apply wp_ret. rewrite bool_decide_eq_true_2 in HQ; [done|]. congruence.
Qed.

Lemma wp_map_slot w m slots key Q E :
  map_mem (hp w) m slots -> 0 < map_capacity m -> blob_ok (hp w) key ->
  Q (home sha256_word slots (blob_bytes (hp w) key)) w m -> (forall e, map_refusal e = false -> E e w m) ->
  wp (s2n_map_slot key) (w, m) Q E.
Proof.
  intros Hm Hc Hk HQ HE. apply wp_bind, wp_get_obj, wp_bind, wp_ensure; [intros _|by intros _; apply HE].
  apply wp_bind, wp_get_world. destruct (hash_fails (hp w)) as [e|] eqn:Hh; [by apply wp_fail, HE, (hash_error (hp w))|].
  apply wp_bind, wp_read_blob; [done|]. apply wp_ret. unfold home in HQ. by rewrite (mm_len _ _ _ Hm) in HQ.
Qed.

(** ** Probing *)

Abbreviation start slots k := (home sha256_word slots k).

Lemma next_slot w m slots k d :
  map_mem (hp w) m slots -> 0 < map_capacity m -> 0 <= d ->
  u32 (step_from slots (start slots k) d + 1) mod map_capacity m = step_from slots (start slots k) (d + 1).
Proof.
  intros Hm Hc Hd. pose proof (mm_len _ _ _ Hm) as Hl. destruct (mm_capacity _ _ _ Hm) as [_ Hmax].
  unfold SIZEOF_MAP_ENTRY in Hmax.
  pose proof (step_range slots (start slots k) d ltac:(lia)) as Hr. rewrite u32_small by lia.
  unfold step_from. rewrite <- Hl at 1. rewrite Z.add_mod_idemp_l by lia. f_equal. lia.
Qed.

Lemma passed_step slots k d k' v' :
  0 <= d -> passed sha256_word slots k d -> slot_at slots (step_from slots (start slots k) d) = Some (k', v') -> k' <> k ->
  passed sha256_word slots k (d + 1).
Proof.
  intros Hd Hp Hs Hne e He. destruct (Z.eq_dec e d) as [->|]; [by exists k', v'|]. apply Hp. lia.
Qed.

(** There is an empty slot [room] steps ahead, so the loop ends. *)
Lemma wp_probe_loop fuel w m slots key d room Q E :
  map_mem (hp w) m slots -> 0 < map_capacity m -> blob_ok (hp w) key ->
  0 <= d <= room -> room < map_capacity m -> room - d <= Z.of_nat fuel ->
  slot_at slots (step_from slots (start slots (blob_bytes (hp w) key)) room) = None ->
  passed sha256_word slots (blob_bytes (hp w) key) d ->
  (forall e, 0 <= e < map_capacity m -> passed sha256_word slots (blob_bytes (hp w) key) e ->
     let slot := step_from slots (start slots (blob_bytes (hp w) key)) e in
     (slot_at slots slot = None -> Q (slot, false) w m) /\
     (forall v, slot_at slots slot = Some (blob_bytes (hp w) key, v) -> Q (slot, true) w m)) ->
  wp (probe_loop fuel key (step_from slots (start slots (blob_bytes (hp w) key)) d)) (w, m) Q E.
Proof.
  intros Hm Hc Hkey Hd Hroom Hfuel Hempty Hp HQ. set (k := blob_bytes (hp w) key) in *.
  revert d Hd Hfuel Hp. induction fuel as [|fuel IH]; intros d Hd Hfuel Hp;
    pose proof (step_range slots (start slots k) d) as Hr; rewrite (mm_len _ _ _ Hm) in Hr; specialize (Hr Hc);
    apply wp_bind, wp_get_obj, wp_bind, (wp_read_entry _ _ _ slots); try done; intros e He Heo;
    destruct (HQ d ltac:(lia) Hp) as [HQ1 HQ2];
    destruct (slot_at slots (step_from slots (start slots k) d)) as [[k' v']|] eqn:Hs.
  1: replace d with room in Hs by lia; congruence.
  all: try (rewrite Heo; apply wp_ret, HQ1; done).
  destruct Heo as [Hk' _]. rewrite (proj2 (Z.eqb_neq _ _)) by apply Hk'.
  apply wp_bind, (wp_key_differs _ _ _ _ k'); [done..|]. fold k.
  case_bool_decide as Hne.
  - rewrite (next_slot w) by (done || lia). apply IH.
    + destruct (Z.eq_dec d room) as [->|]; [congruence|lia].
    + lia.
    + by eapply passed_step; eauto; lia.
  - assert (k' = k) as ->. { destruct (decide (k = k')); [done|]. by destruct Hne. }
    by apply wp_ret, (HQ2 v').
Qed.

Lemma wp_probe w m slots key Q E :
  map_mem (hp w) m slots -> blob_ok (hp w) key -> zlen (pairs slots) < map_capacity m ->
  (forall e, 0 <= e < map_capacity m -> passed sha256_word slots (blob_bytes (hp w) key) e ->
     let slot := step_from slots (start slots (blob_bytes (hp w) key)) e in
     (slot_at slots slot = None -> Q (slot, false) w m) /\
     (forall v, slot_at slots slot = Some (blob_bytes (hp w) key, v) -> Q (slot, true) w m)) ->
  wp (probe_loop (Z.to_nat (map_capacity m)) key (start slots (blob_bytes (hp w) key))) (w, m) Q E.
Proof.
  intros Hm Hkey Hlt HQ. pose proof (mm_len _ _ _ Hm) as Hl. pose proof (zlen_nonneg (pairs slots)).
  destruct (empty_slot slots) as (i & Hi & Hs); [lia|].
  set (h := start slots (blob_bytes (hp w) key)) in *.
  assert (Hh : h = step_from slots h 0).
  { unfold step_from, h, home. rewrite Z.add_0_r, Z.mod_mod by lia. done. }
  rewrite Hh. apply (wp_probe_loop _ _ _ slots _ _ ((i - h) mod zlen slots)); try done; fold h.
  - lia.
  - pose proof (Z.mod_pos_bound (i - h) (zlen slots)). lia.
  - pose proof (Z.mod_pos_bound (i - h) (zlen slots)). lia.
  - pose proof (Z.mod_pos_bound (i - h) (zlen slots)). lia.
  - by rewrite step_dist by lia.
  - intros d Hd. lia.
Qed.

(** ** Looking up *)

(** A blob that refers to the bytes [bs]. *)
Definition refers (h : heap) (b : s2n_blob) (bs : bytes) : Prop := blob_ok h b /\ blob_bytes h b = bs.

Lemma wp_refer {X} w (x : X) b bs Q E :
  owns (hp w) b bs -> (forall b', refers (hp w) b' bs -> Q (tt, b') w x) ->
  wp (with_local zero_blob (s2n_blob_init (data b) (size b))) (w, x) Q E.
Proof.
  intros [Hb Hg Hs Hby] HQ. apply wp_with_local.
  assert (Hb' : blob_ok (hp w) (Blob (data b) (size b) 0 false)).
  { pose proof (ok_size _ _ Hb) as Hu. split; simpl; try done; [intros Hd; by destruct (ok_null _ _ Hb Hd)|].
    intros p Hp. unfold is_u32 in Hu. rewrite Z.max_l by lia. by apply blob_access_all. }
  apply wp_bind, wp_ensure.
  - intros _. apply wp_bind, wp_put_obj, wp_bind, wp_get_obj, wp_blob_postcondition; [done|]. by apply HQ.
  - unfold S2N_MEM_IS_READABLE. intros Hr. destruct (data b) eqn:Hd; [by rewrite orb_true_r in Hr|].
    by destruct (ok_null _ _ Hb Hd).
Qed.

Lemma wp_lookup_loop fuel w m slots key d Q E :
  map_mem (hp w) m slots -> 0 < map_capacity m -> blob_ok (hp w) key -> probing_ok sha256_word slots ->
  0 <= d < map_capacity m -> map_capacity m - d <= Z.of_nat fuel ->
  passed sha256_word slots (blob_bytes (hp w) key) d ->
  (contents slots !! blob_bytes (hp w) key = None -> Q None w m) ->
  (forall b v, contents slots !! blob_bytes (hp w) key = Some v -> refers (hp w) b v -> Q (Some b) w m) ->
  wp (lookup_loop fuel key (start slots (blob_bytes (hp w) key))
        (step_from slots (start slots (blob_bytes (hp w) key)) d)) (w, m) Q E.
Proof.
  intros Hm Hc Hkey Hok Hd Hfuel Hp HN HS. set (k := blob_bytes (hp w) key) in *.
  pose proof (mm_len _ _ _ Hm) as Hl. revert d Hd Hfuel Hp.
  induction fuel as [|fuel IH]; intros d Hd Hfuel Hp; [lia|].
  pose proof (step_range slots (start slots k) d ltac:(lia)) as Hr. rewrite Hl in Hr.
  apply wp_bind, wp_get_obj, wp_bind, (wp_read_entry _ _ _ slots); [done..|]. intros e He Heo.
  destruct (slot_at slots (step_from slots (start slots k) d)) as [[k' v']|] eqn:Hs.
  2: { rewrite Heo. apply wp_ret, HN. apply (probe_absent sha256_word slots k d); [done|lia|lia|done|done]. }
  destruct Heo as [Hk' Hv']. rewrite (proj2 (Z.eqb_neq _ _)) by apply Hk'.
  apply wp_bind, (wp_key_differs _ _ _ _ k'); [done..|]. fold k. case_bool_decide as Hne.
  - cbv zeta. rewrite (next_slot w) by (done || lia).
    assert (Hp' : passed sha256_word slots k (d + 1)) by (eapply passed_step; eauto; lia).
    assert (Hh : start slots k = step_from slots (start slots k) 0).
    { unfold step_from, home. rewrite Z.add_0_r, Z.mod_mod by lia. done. }
    destruct (Z.eqb_spec (step_from slots (start slots k) (d + 1)) (start slots k)) as [Hw|Hw].
    + apply wp_ret, HN. apply (probe_all sha256_word); [lia|].
      replace (zlen slots) with (d + 1); [done|].
      destruct (Z.eq_dec (d + 1) (zlen slots)) as [|Hnd]; [done|]. exfalso.
      pose proof (dist_step slots (start slots k) (d + 1) ltac:(lia) ltac:(lia)) as Hds.
      rewrite Hw, Z.sub_diag, Z.mod_0_l in Hds by lia. lia.
    + apply IH; [|lia|done]. destruct (Z.eq_dec (d + 1) (zlen slots)) as [Hnd|]; [|lia]. exfalso. apply Hw.
      unfold step_from, home. rewrite Hnd, Z.add_mod, Z.mod_same, Z.add_0_r, !Z.mod_mod by lia. done.
  - assert (k' = k) as ->. { destruct (decide (k = k')); [done|]. by destruct Hne. }
    apply wp_bind, (wp_refer _ _ _ v'); [done|]. intros b Hb. apply wp_ret, (HS _ v'); [|done].
    apply (contents_slot sha256_word slots (step_from slots (start slots k) d)); [done|lia|done].
Qed.

(** ** Filling a slot *)

Lemma map_blocks_live h m slots k : map_mem h m slots -> In k (map_blocks m) -> is_Some (h !! k).
Proof.
  intros [_ _ He Ht _] Hin. apply in_app_or in Hin as [Hin|Hin].
  - unfold table_blocks in Hin. destruct Ht as [[Hn _]|(p & l & Hp & _ & Hl & _)]; [by rewrite Hn in Hin|].
    rewrite Hp in Hin. destruct Hin as [<-|[]]. eauto.
  - apply in_concat in Hin as (ks & Hks & Hk). apply in_map_iff in Hks as (e & <- & Hei).
    assert (exists o, entry_is h e o) as [o Ho].
    { clear -He Hei. induction He as [|e' o es os Heo _ IH]; [done|]. destruct Hei as [->|]; eauto. }
    assert (Hown : forall b bs, owns h b bs -> In k (blob_blocks b) -> is_Some (h !! k)).
    { intros b bs [Hb _ _ _] Hkb. apply blob_blocks_in in Hkb as (p & Hp & <-).
      destruct (ok_access _ _ Hb _ Hp) as (l & Hl & _). eauto. }
    destruct o as [[bk bv]|]; [|by rewrite Ho in Hk]. destruct Ho as [Hko Hvo].
    apply in_app_or in Hk as [Hk|Hk]; eauto.
Qed.

Lemma blocks_insert_perm (l : list s2n_map_entry) i e e' :
  l !! i = Some e ->
  concat (map entry_blocks (<[i := e']> l)) ++ entry_blocks e ≡ₚ entry_blocks e' ++ concat (map entry_blocks l).
Proof.
  intros Hi. rewrite insert_take_drop by (by eapply lookup_lt_Some). rewrite <- (take_drop_middle _ _ _ Hi) at 3.
  rewrite !map_app, !concat_app. simpl. solve_Permutation.
Qed.

Lemma Forall2_insert_ext {A B} (P P' : A -> B -> Prop) la lb i a b :
  Forall2 P la lb -> (forall x y, In x la -> P x y -> P' x y) -> P' a b -> Forall2 P' (<[i := a]> la) (<[i := b]> lb).
Proof.
  intros HF Himp Hab. apply Forall2_insert; [|done]. induction HF; constructor; [apply Himp; [by left|done]|].
  apply IHHF. intros. apply Himp; [by right|done].
Qed.

(** Putting an entry with memory of its own into an empty slot. *)
Lemma map_mem_fill h h' m slots i e k v :
  map_mem h m slots -> 0 <= i < map_capacity m -> slot_at slots i = None ->
  (forall k l, h !! k = Some l -> h' !! k = Some l) ->
  (forall k, In k (entry_blocks e) -> h !! k = None) -> NoDup (entry_blocks e) ->
  entry_is h' e (Some (k, v)) ->
  map_mem h' (set_entries (<[Z.to_nat i := e]> (entries m)) m) (<[Z.to_nat i := Some (k, v)]> slots).
Proof.
  intros Hm Hi Hs Hkept Hfresh Hnd He. pose proof Hm as [Hc Hl Hes Ht Hd].
  destruct (entry_lookup _ _ _ _ Hm Hi) as (e0 & He0 & Heo). rewrite Hs in Heo. simpl in Heo. subst e0.
  assert (Hlive : forall k, In k (map_blocks m) -> h !! k = h' !! k).
  { intros k' Hk'. destruct (map_blocks_live _ _ _ _ Hm Hk') as [l Hk]. by rewrite Hk, (Hkept _ _ Hk). }
  destruct (map_mem_ext _ _ _ _ Hlive Hm) as [_ _ Hes' Ht' _].
  pose proof (blocks_insert_perm (entries m) (Z.to_nat i) zero_entry e He0) as Hperm.
  change (entry_blocks zero_entry) with (@nil positive) in Hperm. rewrite app_nil_r in Hperm.
  split; simpl; [done|by rewrite zlen_insert| |done|].
  - apply Forall2_insert; [done|]. done.
  - unfold map_blocks. simpl. change (table_blocks (set_entries _ m)) with (table_blocks m). rewrite Hperm.
    rewrite app_assoc, (Permutation_app_comm (table_blocks m)), <- app_assoc.
    apply NoDup_app. split_goal; [done| |done]. intros k' Hk' Hin. rewrite list_elem_of_In in Hk', Hin.
    destruct (map_blocks_live _ _ _ _ Hm Hin). rewrite Hfresh in * by done. done.
Qed.

Lemma in_blocks_insert m i e k :
  In k (map_blocks (set_entries (<[i := e]> (entries m)) m)) -> In k (entry_blocks e) \/ In k (map_blocks m).
Proof.
  intros Hin. apply in_app_or in Hin as [Hin|Hin]; [right; apply in_or_app; by left|].
  apply in_concat in Hin as (ks & Hks & Hk). apply in_map_iff in Hks as (e' & <- & He'). simpl in He'.
  apply list_elem_of_In, list_elem_of_lookup in He' as [j Hj].
  destruct (decide (i = j)) as [->|Hne].
  - destruct (decide (j < length (entries m))%nat).
    + rewrite list_lookup_insert_eq in Hj by done. injection Hj as <-. by left.
    + rewrite list_insert_ge in Hj by lia. right. apply in_or_app. right. apply in_concat.
      exists (entry_blocks e'). split; [|done]. apply in_map, list_elem_of_In. by eapply list_elem_of_lookup_2.
  - rewrite list_lookup_insert_ne in Hj by done. right. apply in_or_app. right. apply in_concat.
    exists (entry_blocks e'). split; [|done]. apply in_map, list_elem_of_In. by eapply list_elem_of_lookup_2.
Qed.

Lemma owns_dup w from w' b : dup_post w from w' b -> size from <> 0 -> owns (hp w') b (blob_bytes (hp w) from).
Proof. intros (_ & _ & Hb & Hg & Hs & Hby & _) Hs0. split; try done. congruence. Qed.

(** What a blob says does not change while its block stays. *)
Lemma refers_kept h h' b : (forall k l, h !! k = Some l -> h' !! k = Some l) -> blob_ok h b ->
  blob_ok h' b /\ blob_bytes h' b = blob_bytes h b.
Proof.
  intros Hkept Hb. assert (Heq : forall k, in_block b k -> h !! k = h' !! k).
  { intros k (p & Hp & <-). destruct (ok_access _ _ Hb _ Hp) as (l & Hl & _). by rewrite Hl, (Hkept _ _ Hl). }
  split; [by apply (blob_ok_ext h)|]. unfold blob_bytes. destruct (data b) as [p|] eqn:Hp; [|done].
  apply bytes_at_ext. symmetry. apply Heq. by exists p.
Qed.

Lemma wp_fill_slot w m slots key value i Q E :
  world_ok w -> map_mem (hp w) m slots -> 0 <= i < map_capacity m -> slot_at slots i = None ->
  blob_ok (hp w) key -> blob_ok (hp w) value -> 0 <= map_size m < UINT32_MAX ->
  (forall w' m', map_mem (hp w') m' (<[Z.to_nat i := Some (blob_bytes (hp w) key, blob_bytes (hp w) value)]> slots) ->
     map_frame w m w' m' -> (forall k l, hp w !! k = Some l -> hp w' !! k = Some l) ->
     map_size m' = map_size m + 1 -> map_capacity m' = map_capacity m -> immutable m' = immutable m ->
     Q tt w' m') ->
  (forall e w' m', map_refusal e = false -> map_frame w m w' m' -> E e w' m') ->
  wp (fill_slot i key value) (w, m) Q E.
Proof.
  intros Hw Hm Hi Hs Hk Hv Hsz HQ HE'. unfold UINT32_MAX in Hsz.
  apply (wp_raises mem_error); [unfold fill_slot; solve_raises|].
  assert (HE : forall e w' m', map_frame w m w' m' -> mem_error e = true -> E e w' m').
  { intros e w' m' Hf He. apply HE'; [by apply mem_error_not_refusal|done]. } clear HE'.
  destruct (entry_lookup _ _ _ _ Hm Hi) as (e0 & He0 & Heo). rewrite Hs in Heo. simpl in Heo. subst e0.
  assert (Hat : entry_at i m = zero_entry) by (unfold entry_at; by rewrite He0).
  pose proof (lookup_lt_Some _ _ _ He0) as Hlt.
  assert (Hframe : forall w' e, world_ok w' -> mem w' = mem w -> (forall k l, hp w !! k = Some l -> hp w' !! k = Some l) ->
    (forall k, In k (entry_blocks e) -> hp w !! k = None) ->
    map_frame w m w' (set_entries (<[Z.to_nat i := e]> (entries m)) m)).
  { intros w' e Hw' Hmem Hkept Hfr. unfold map_frame. split_goal; [done|done|auto|].
    intros k Hin. apply in_blocks_insert in Hin as [Hin|]; [right; auto|by left]. }
  apply wp_bind, wp_zoom. simpl. rewrite Hat. simpl. apply wp_dup; [done|done| |].
  2: { intros e w' Hw' Hmem Hkept. by apply HE, Hframe. }
  intros Hk0 w1 b1 Hd1. pose proof (owns_dup _ _ _ _ Hd1 Hk0) as Hown1. destruct Hd1 as (Hw1 & Hm1 & Hb1 & _ & _ & _ & Hkept1 & Hfr1).
  destruct (refers_kept _ _ _ Hkept1 Hv) as [Hv1 Hbv1].
  apply wp_bind, wp_zoom. simpl. unfold entry_at. simpl. rewrite list_lookup_insert_eq by done. simpl.
  apply wp_dup; [done|done| |].
  2: { intros e w' Hw' Hmem Hkept. unfold set_entries at 1. simpl. rewrite list_insert_insert_eq.
       apply HE, (Hframe w' (MapEntry b1 zero_blob)); [done|congruence|auto|].
       simpl. intros k Hin. unfold entry_blocks in Hin. rewrite app_nil_r in Hin. by apply Hfr1, blob_blocks_in. }
  intros Hv0 w2 b2 Hd2. pose proof (owns_dup _ _ _ _ Hd2 Hv0) as Hown2. destruct Hd2 as (Hw2 & Hm2 & Hb2 & _ & _ & _ & Hkept2 & Hfr2).
  rewrite Hbv1 in Hown2.
  assert (Hkept : forall k l, hp w !! k = Some l -> hp w2 !! k = Some l) by auto.
  assert (Hlive1 : forall k, in_block b1 k -> is_Some (hp w1 !! k)).
  { intros k (p & Hp & <-). destruct (ok_access _ _ Hb1 _ Hp) as (l & Hl & _). eauto. }
  assert (Hfr : forall k, In k (entry_blocks (MapEntry b1 b2)) -> hp w !! k = None).
  { intros k Hin. apply in_app_or in Hin as [Hin|Hin]; apply blob_blocks_in in Hin; [by apply Hfr1|].
    apply Hfr2 in Hin. destruct (hp w !! k) as [l|] eqn:Hl; [|done]. apply Hkept1 in Hl. congruence. }
  apply wp_bind, wp_get_obj, wp_modify. simpl. rewrite u32_small by lia.
  unfold set_entries at 1. simpl. rewrite list_insert_insert_eq.
  apply HQ; [|exact (Hframe w2 (MapEntry b1 b2) Hw2 (eq_trans Hm2 Hm1) Hkept Hfr)|done|done|done|done].
  apply map_mem_set_size, (map_mem_fill (hp w) (hp w2) m slots i (MapEntry b1 b2)); try done.
  - unfold entry_blocks. simpl. unfold blob_blocks. destruct (data b1) as [p1|] eqn:Hp1, (data b2) as [p2|] eqn:Hp2; simpl;
      [|repeat constructor; set_solver..].
    apply NoDup_cons. split; [|repeat constructor; set_solver]. intros Heq%list_elem_of_singleton.
    destruct (Hlive1 (blk p2)) as [l Hl]; [by exists p1|]. rewrite Hfr2 in Hl; [done|by exists p2].
  - split; [|done]. apply (owns_ext (hp w1)); [|done]. intros k Hin. apply blob_blocks_in in Hin.
    destruct (Hlive1 k Hin) as [l Hl]. by rewrite Hl, (Hkept2 _ _ Hl).
Qed.

(** Giving the memory of an entry back. *)
Lemma map_mem_release h m slots i e k v :
  map_mem h m slots -> 0 <= i < map_capacity m -> entries m !! Z.to_nat i = Some e -> slot_at slots i = Some (k, v) ->
  map_mem (freed (freed h (entry_key e)) (entry_value e))
    (set_entries (<[Z.to_nat i := zero_entry]> (entries m)) m) (<[Z.to_nat i := None]> slots).
Proof.
  intros Hm Hi He Hs. pose proof Hm as [Hc Hl Hes Ht Hd].
  pose proof (blocks_insert_perm (entries m) (Z.to_nat i) e zero_entry He) as Hperm. simpl in Hperm.
  set (m' := set_entries (<[Z.to_nat i := zero_entry]> (entries m)) m).
  assert (Hblocks : map_blocks m ≡ₚ entry_blocks e ++ map_blocks m').
  { unfold map_blocks at 1. rewrite <- Hperm. unfold map_blocks, m'. simpl.
    change (table_blocks (set_entries _ m)) with (table_blocks m). solve_Permutation. }
  rewrite Hblocks, NoDup_app in Hd. destruct Hd as (_ & Hdis & Hd').
  apply (map_mem_ext h).
  - intros b Hb. assert (Hn : ~ In b (entry_blocks e)).
    { intros Hin. apply (Hdis b); by apply list_elem_of_In. }
    assert (Hfr : forall h0 c, ~ In b (blob_blocks c) -> freed h0 c !! b = h0 !! b).
    { intros h0 c Hnb. unfold freed. destruct (data c) as [p|] eqn:Hp; [|done].
      apply lookup_delete_ne. intros <-. apply Hnb. unfold blob_blocks. rewrite Hp. by left. }
    rewrite !Hfr; [done| |]; intros Hin; apply Hn; apply in_or_app; auto.
  - split; simpl; [done|by rewrite zlen_insert| |done|done]. by apply Forall2_insert.
Qed.

(** The blocks a released entry leaves behind. *)
Lemma release_blocks m i e k : entries m !! i = Some e ->
  In k (map_blocks (set_entries (<[i := zero_entry]> (entries m)) m)) -> In k (map_blocks m).
Proof. intros He Hin. by apply in_blocks_insert in Hin as [[]|]. Qed.

Lemma entry_in_blocks m i e k : entries m !! i = Some e -> In k (entry_blocks e) -> In k (map_blocks m).
Proof.
  intros He Hk. apply in_or_app. right. apply in_concat. exists (entry_blocks e). split; [|done].
  apply in_map, list_elem_of_In. by eapply list_elem_of_lookup_2.
Qed.

(** The two calls of s2n_free that release an entry; [l] says where the map is. *)
Lemma wp_release {X} (l : lens X s2n_map) (x : X) w slots i e k v Q E :
  (forall x m, lget l (lset l m x) = m) -> (forall x m1 m2, lset l m1 (lset l m2 x) = lset l m1 x) ->
  world_ok w -> map_mem (hp w) (lget l x) slots -> s2n_mem_free_cb (mem w) <> UserImpl ->
  0 <= i < map_capacity (lget l x) -> entries (lget l x) !! Z.to_nat i = Some e -> slot_at slots i = Some (k, v) ->
  Q tt (World (freed (freed (hp w) (entry_key e)) (entry_value e)) (mem w))
    (lset l (set_entries (<[Z.to_nat i := zero_entry]> (entries (lget l x))) (lget l x)) x) ->
  wp (zoom l (zoom (key_lens i) s2n_free) ;;; zoom l (zoom (value_lens i) s2n_free)) (w, x) Q E.
Proof.
  intros Hgs Hss Hw Hm Hu Hi He Hs HQ. destruct (entry_lookup _ _ _ _ Hm Hi) as (e' & He' & Heo).
  rewrite He in He'. injection He' as <-. rewrite Hs in Heo. destruct Heo as [Hk Hv].
  assert (Hat : entry_at i (lget l x) = e) by (unfold entry_at; by rewrite He).
  pose proof (lookup_lt_Some _ _ _ He) as Hlt.
  apply wp_bind, wp_zoom, wp_zoom. simpl. rewrite Hat.
  apply wp_free; [apply Hw|apply Hk| |intros err Hg; destruct Hu; apply Hg; unfold s2n_blob_is_growable; by rewrite (ow_growable _ _ _ Hk)].
  intros _. apply wp_zoom, wp_zoom. rewrite Hgs. simpl. unfold entry_at at 1 2. simpl.
  rewrite list_lookup_insert_eq by done. simpl.
  assert (Hvo : owns (freed (hp w) (entry_key e)) (entry_value e) v).
  { apply (owns_ext (hp w)); [|done]. intros b Hb. unfold freed. destruct (data (entry_key e)) as [p|] eqn:Hp; [|done].
    rewrite lookup_delete_ne; [done|]. intros <-. pose proof (mm_disjoint _ _ _ Hm) as Hd.
    apply NoDup_app in Hd as (_ & _ & Hd). rewrite <- (take_drop_middle _ _ _ He), map_app, concat_app in Hd. simpl in Hd.
    apply NoDup_app in Hd as (_ & _ & Hd). apply NoDup_app in Hd as (Hd & _ & _). apply NoDup_app in Hd as (_ & Hd & _).
    apply (Hd (blk p)); apply list_elem_of_In; [|done]. unfold blob_blocks. rewrite Hp. by left. }
  apply wp_free; simpl; [apply Hw|apply Hvo| |intros err Hg; destruct Hu; apply Hg; unfold s2n_blob_is_growable; by rewrite (ow_growable _ _ _ Hv)].
  intros _. rewrite Hss. unfold set_entries at 1. simpl. rewrite list_insert_insert_eq. exact HQ.
Qed.

(** ** Adding to a table with room *)

Record table_is (h : heap) (m : s2n_map) (slots : slots_t) : Prop := {
  ti_mem : map_mem h m slots;
  ti_probing : probing_ok sha256_word slots;
  ti_size : map_size m = zlen (pairs slots);
}.

(** The heap only grows. *)
Definition grows (h h' : heap) : Prop := forall k l, h !! k = Some l -> h' !! k = Some l.

Lemma wp_add_here w m slots key value Q E :
  world_ok w -> table_is (hp w) m slots -> 0 < map_capacity m -> 2 * zlen (pairs slots) <= map_capacity m ->
  blob_ok (hp w) key -> blob_ok (hp w) value ->
  (forall v, contents slots !! blob_bytes (hp w) key = Some v -> E S2N_ERR_MAP_DUPLICATE w m) ->
  (forall w' m' slots', contents slots !! blob_bytes (hp w) key = None -> table_is (hp w') m' slots' ->
     contents slots' = <[blob_bytes (hp w) key := blob_bytes (hp w) value]> (contents slots) ->
     pairs slots' ≡ₚ (blob_bytes (hp w) key, blob_bytes (hp w) value) :: pairs slots ->
     map_capacity m' = map_capacity m -> immutable m' = immutable m ->
     map_frame w m w' m' -> grows (hp w) (hp w') -> Q tt w' m') ->
  (forall e w' m', map_refusal e = false -> map_frame w m w' m' -> E e w' m') ->
  wp (slot <-- s2n_map_slot key ;;
      m <-- get_obj ;;
      r <-- probe_loop (Z.to_nat (map_capacity m)) key slot ;;
      ensure (negb (snd r)) S2N_ERR_MAP_DUPLICATE ;;;
      fill_slot (fst r) key value) (w, m) Q E.
Proof.
  intros Hw [Hm Hp Hsz] Hc Hload Hk Hv HD HQ HE. pose proof (zlen_nonneg (pairs slots)) as Hz.
  pose proof (mm_len _ _ _ Hm) as Hl. destruct (mm_capacity _ _ _ Hm) as [_ Hmax]. unfold SIZEOF_MAP_ENTRY in Hmax.
  apply wp_bind, (wp_map_slot _ _ slots); [done|done|done| |by intros; apply HE; [|apply map_frame_refl]].
  apply wp_bind, wp_get_obj, wp_bind, wp_probe; [done|done|lia|]. intros e He Hpass slot.
  pose proof (step_range slots (start slots (blob_bytes (hp w) key)) e ltac:(lia)) as Hr. fold slot in Hr.
  rewrite Hl in Hr. split.
  - intros Hs. apply wp_bind, wp_ensure; [intros _|done].
    pose proof (probe_absent sha256_word slots (blob_bytes (hp w) key) e Hp ltac:(lia) ltac:(lia) Hpass Hs) as Habs.
    apply (wp_fill_slot _ _ slots); [done|done|done|done|done|done| | |done].
    { rewrite Hsz. unfold UINT32_MAX. lia. }
    intros w' m' Hm' Hf' Hg' Hsz' Hc' Hi'. simpl in *.
    destruct (fill_ok sha256_word slots (blob_bytes (hp w) key) (blob_bytes (hp w) value) e) as (Hp' & Hcon & Hlen);
      [done|lia|lia|done|done|].
    eapply HQ; [done| |exact Hcon| |done|done|done|done].
    + split; [done|done|]. rewrite Hlen. lia.
    + apply pairs_fill; [lia|done].
  - intros v Hs. apply wp_bind, wp_ensure; [done|intros _]. apply (HD v).
    apply (contents_slot sha256_word slots slot); [done|lia|done].
Qed.

(** ** Moving to a larger table *)

Lemma pairs_app s1 s2 : pairs (K := bytes) (V := bytes) (s1 ++ s2) = pairs s1 ++ pairs s2.
Proof. apply omap_app. Qed.

(** The table that is emptied, after [i] slots. *)
Definition drained (i : Z) (slots : slots_t) : slots_t := replicate (Z.to_nat i) None ++ drop (Z.to_nat i) slots.

Lemma drained_at slots i : 0 <= i < zlen slots -> slot_at (drained i slots) i = slot_at slots i.
Proof.
  intros Hi. unfold slot_at, drained. rewrite lookup_app_r by (rewrite length_replicate; lia).
  rewrite length_replicate, Nat.sub_diag, lookup_drop. do 2 f_equal. lia.
Qed.

Lemma drained_len slots i : 0 <= i <= zlen slots -> zlen (drained i slots) = zlen slots.
Proof. intros Hi. unfold drained, zlen in *. rewrite length_app, length_replicate, length_drop. lia. Qed.

Lemma drained_step slots i : 0 <= i < zlen slots -> <[Z.to_nat i := None]> (drained i slots) = drained (i + 1) slots.
Proof.
  intros Hi. unfold drained. destruct (drop (Z.to_nat i) slots) as [|o rest] eqn:Hd.
  { apply (f_equal length) in Hd. rewrite length_drop in Hd. unfold zlen in Hi. simpl in Hd. lia. }
  rewrite insert_app_r_alt by (rewrite length_replicate; lia). rewrite length_replicate, Nat.sub_diag. simpl.
  replace (Z.to_nat (i + 1)) with (Z.to_nat i + 1)%nat by lia.
  rewrite <- drop_drop, Hd, replicate_add. simpl. by rewrite <- app_assoc.
Qed.

Lemma drained_skip slots i : 0 <= i < zlen slots -> slot_at slots i = None -> drained i slots = drained (i + 1) slots.
Proof.
  intros Hi Hs. rewrite <- drained_step by done. symmetry. apply list_insert_id.
  apply slot_at_lookup; [by rewrite drained_len by lia|]. by rewrite drained_at.
Qed.

Lemma take_pairs_step slots i : 0 <= i < zlen slots ->
  pairs (K := bytes) (V := bytes) (take (Z.to_nat (i + 1)) slots) =
  pairs (take (Z.to_nat i) slots) ++ match slot_at slots i with Some kv => [kv] | None => [] end.
Proof.
  intros Hi. destruct (lookup_lt_is_Some_2 slots (Z.to_nat i)) as [o Ho]; [unfold zlen in *; lia|].
  replace (Z.to_nat (i + 1)) with (S (Z.to_nat i)) by lia. rewrite (take_S_r _ _ _ Ho), pairs_app.
  unfold slot_at. rewrite Ho. by destruct o as [kv|].
Qed.

Lemma table_is_ext h h' m slots :
  (forall k, In k (map_blocks m) -> h !! k = h' !! k) -> table_is h m slots -> table_is h' m slots.
Proof. intros Heq [Hm Hp Hs]. split; [by apply (map_mem_ext h)|done|done]. Qed.

Lemma wp_map_add_room fuel w m slots key value Q E :
  world_ok w -> table_is (hp w) m slots -> immutable m = false -> 0 < map_capacity m ->
  2 * zlen (pairs slots) <= map_capacity m -> blob_ok (hp w) key -> blob_ok (hp w) value ->
  (forall v, contents slots !! blob_bytes (hp w) key = Some v -> E S2N_ERR_MAP_DUPLICATE w m) ->
  (forall w' m' slots', contents slots !! blob_bytes (hp w) key = None -> table_is (hp w') m' slots' ->
     contents slots' = <[blob_bytes (hp w) key := blob_bytes (hp w) value]> (contents slots) ->
     pairs slots' ≡ₚ (blob_bytes (hp w) key, blob_bytes (hp w) value) :: pairs slots ->
     map_capacity m' = map_capacity m -> immutable m' = immutable m ->
     map_frame w m w' m' -> grows (hp w) (hp w') -> Q tt w' m') ->
  (forall e w' m', map_refusal e = false -> map_frame w m w' m' -> E e w' m') ->
  wp (map_add fuel key value) (w, m) Q E.
Proof.
  intros Hw Ht Him Hc Hload Hk Hv HD HQ HE. pose proof (zlen_nonneg (pairs slots)).
  destruct (mm_capacity _ _ _ (ti_mem _ _ _ Ht)) as [_ Hmax]. unfold SIZEOF_MAP_ENTRY in Hmax.
  destruct fuel; (apply wp_bind, wp_get_obj, wp_bind, wp_ensure; [intros _|by rewrite Him]).
  all: rewrite (ti_size _ _ _ Ht), u32_small by lia; rewrite (proj2 (Z.ltb_ge _ _)) by lia.
  all: by apply wp_bind, wp_ret, (wp_add_here _ _ slots).
Qed.

(** The memory of the two tables, since the start in [w0] with [m0]. *)
Definition both_frame (w0 : world) (m0 : s2n_map) (w : world) (m tmp : s2n_map) : Prop :=
  world_ok w /\ mem w = mem w0 /\
  (forall k l, hp w0 !! k = Some l -> ~ In k (map_blocks m0) -> hp w !! k = Some l) /\
  (forall k, In k (map_blocks m) -> In k (map_blocks m0)) /\
  (forall k, In k (map_blocks tmp) -> hp w0 !! k = None \/ In k (map_blocks m0)) /\
  (forall k, In k (map_blocks m) -> ~ In k (map_blocks tmp)).

Lemma both_frame_add w0 m0 w m tmp slots w' tmp' :
  both_frame w0 m0 w m tmp -> map_mem (hp w) m slots -> map_frame w tmp w' tmp' -> both_frame w0 m0 w' m tmp'.
Proof.
  intros (Hw & Hmem & Hf & Hbm & Hbt & Hd) Hm (Hw' & Hmem' & Hf' & Hi'). unfold both_frame. split_goal; [done|congruence| |done| |].
  - intros k l Hk Hn. apply Hf'; [by apply Hf|]. intros Hin. destruct (Hbt _ Hin); congruence.
  - intros k Hin. destruct (Hi' k Hin) as [|Hnone]; [by apply Hbt|].
    destruct (hp w0 !! k) as [l|] eqn:Hk; [|by left]. right.
    destruct (in_dec Pos.eq_dec k (map_blocks m0)) as [|Hn]; [done|]. rewrite (Hf _ _ Hk Hn) in Hnone. done.
  - intros k Hk Hin. destruct (Hi' k Hin) as [Hold|Hnone]; [by apply (Hd k)|].
    destruct (map_blocks_live _ _ _ _ Hm Hk) as [l Hl]. congruence.
Qed.

Lemma freed_lookup h b k : ~ In k (blob_blocks b) -> freed h b !! k = h !! k.
Proof.
  intros Hn. unfold freed. destruct (data b) as [p|] eqn:Hp; [|done].
  apply lookup_delete_ne. intros <-. apply Hn. unfold blob_blocks. rewrite Hp. by left.
Qed.

Lemma both_frame_release w0 m0 w m tmp i e :
  both_frame w0 m0 w m tmp -> entries m !! i = Some e ->
  both_frame w0 m0 (World (freed (freed (hp w) (entry_key e)) (entry_value e)) (mem w))
    (set_entries (<[i := zero_entry]> (entries m)) m) tmp.
Proof.
  intros ([Hh Hm] & Hmem & Hf & Hbm & Hbt & Hd) He. unfold both_frame. split_goal; simpl.
  - split; [by apply heap_ok_freed, heap_ok_freed|done].
  - done.
  - intros k l Hk Hn. assert (Hne : ~ In k (entry_blocks e)).
    { intros Hin. by apply Hn, Hbm, (entry_in_blocks _ i e). }
    rewrite !freed_lookup; [by apply Hf| |]; intros Hin; apply Hne, in_or_app; auto.
  - intros k Hin. by apply Hbm, (release_blocks m i e).
  - done.
  - intros k Hin. apply Hd. by apply (release_blocks m i e).
Qed.

Lemma wp_embiggen_loop fuel n i w m tmp slots slots_t w0 m0 Q E :
  Z.of_nat n = map_capacity m - i -> 0 <= i -> s2n_mem_free_cb (mem w0) <> UserImpl ->
  both_frame w0 m0 w m tmp -> map_mem (hp w) m (drained i slots) -> zlen slots = map_capacity m ->
  NoDup (map fst (pairs slots)) -> table_is (hp w) tmp slots_t -> immutable tmp = false ->
  0 < map_capacity tmp -> 2 * zlen (pairs slots) <= map_capacity tmp ->
  pairs slots_t ≡ₚ pairs (take (Z.to_nat i) slots) ->
  (forall w' m' tmp' slots_t', both_frame w0 m0 w' m' tmp' -> map_mem (hp w') m' (drained (map_capacity m) slots) ->
     map_capacity m' = map_capacity m -> table m' = table m -> table_is (hp w') tmp' slots_t' ->
     map_capacity tmp' = map_capacity tmp ->
     pairs slots_t' ≡ₚ pairs slots -> Q tt w' (m', tmp')) ->
  (forall e w' m' tmp', map_refusal e = false -> both_frame w0 m0 w' m' tmp' -> E e w' (m', tmp')) ->
  wp (embiggen_loop (map_add fuel) n i) (w, (m, tmp)) Q E.
Proof.
  intros Hn Hi Hu. revert i w m tmp slots_t Hn Hi. induction n as [|n IH];
    intros i w m tmp slots_t Hn Hi Hbf Hm Hlen Hnd Ht Him Hc Hload Hperm HQ HE.
  - apply wp_ret. apply (HQ _ _ _ slots_t); try done; [by replace (map_capacity m) with i by lia|].
    rewrite Hperm, firstn_all2; [done|]. unfold zlen in Hlen. lia.
  - apply wp_bind, wp_get_obj, wp_bind. simpl fst.
    apply (wp_read_entry _ _ _ (drained i slots)); [done|lia|]. intros e He Heo.
    rewrite drained_at in Heo by lia. pose proof (take_pairs_step slots i ltac:(lia)) as Htp.
    destruct (slot_at slots i) as [[k v]|] eqn:Hs.
    2: { rewrite Heo. apply wp_bind, wp_ret. apply (IH _ _ _ _ slots_t); try done; [lia|lia| |].
         - by rewrite <- drained_skip by (done || lia).
         - by rewrite Htp, app_nil_r. }
    destruct Heo as [Hok Hov]. rewrite (proj2 (Z.eqb_neq _ _)) by apply Hok. simpl.
    assert (Hpl : zlen (pairs (take (Z.to_nat i) slots)) + 1 <= zlen (pairs slots)).
    { rewrite <- (take_drop (Z.to_nat (i + 1)) slots) at 2. rewrite pairs_app, Htp, !zlen_app.
      pose proof (zlen_nonneg (pairs (drop (Z.to_nat (i + 1)) slots))). change (zlen [(k, v)]) with 1. lia. }
    assert (Hlt : zlen (pairs slots_t) + 1 <= zlen (pairs slots)).
    { replace (zlen (pairs slots_t)) with (zlen (pairs (take (Z.to_nat i) slots))); [done|].
      unfold zlen. by rewrite Hperm. }
    assert (Hfresh : contents slots_t !! k = None).
    { apply not_elem_of_list_to_map_1. intros Hin. rewrite Hperm in Hin.
      rewrite <- (take_drop (Z.to_nat (i + 1)) slots), pairs_app, Htp, !map_app in Hnd. simpl in Hnd.
      apply NoDup_app in Hnd as (Hnd & _ & _). apply NoDup_app in Hnd as (_ & Hd & _).
      apply (Hd k Hin). by left. }
    apply wp_bind, wp_bind, wp_zoom. simpl.
    pose proof Hbf as (Hw & Hmem & _).
    apply (wp_map_add_room _ _ _ slots_t); [done|done|done|done|lia|apply Hok|apply Hov| | |].
    { rewrite (ow_bytes _ _ _ Hok), Hfresh. done. }
    2: { intros e' w' tmp' He' Hf'. apply HE; [done|]. by apply (both_frame_add w0 m0 w m tmp (drained i slots)). }
    rewrite (ow_bytes _ _ _ Hok), (ow_bytes _ _ _ Hov).
    intros w1 tmp1 slots_t1 _ Ht1 _ Hperm1 Hc1 Him1 Hf1 Hg1.
    pose proof (both_frame_add _ _ _ _ _ _ _ _ Hbf Hm Hf1) as Hbf1.
    assert (Hm1 : map_mem (hp w1) m (drained i slots)).
    { apply (map_mem_ext (hp w)); [|done]. intros b Hb. destruct (map_blocks_live _ _ _ _ Hm Hb) as [l Hl].
      by rewrite Hl, (Hg1 _ _ Hl). }
    pose proof Hbf1 as (Hw1 & Hmem1 & _).
    apply (wp_release fst_lens _ _ (drained i slots) _ e k v); try done; [by rewrite Hmem1|simpl; lia|by rewrite drained_at by lia|].
    simpl. pose proof (both_frame_release _ _ _ _ _ _ _ Hbf1 He) as Hbf2.
    apply (IH _ _ _ _ slots_t1); try done; [simpl; lia|lia| | |simpl; congruence|simpl; lia|simpl; lia| |].
    + rewrite <- drained_step by lia. apply (map_mem_release _ _ _ _ e k v); [done|lia|done|by rewrite drained_at by lia].
    + apply (table_is_ext (hp w1)); [|done]. intros b Hb. simpl.
      assert (Hne : ~ In b (entry_blocks e)).
      { intros Hin. destruct Hbf1 as (_ & _ & _ & _ & _ & Hd1). apply (Hd1 b); [|done]. by apply (entry_in_blocks _ (Z.to_nat i) e). }
      rewrite !freed_lookup; [done| |]; intros Hin; apply Hne, in_or_app; auto.
    + rewrite Hperm1, Hperm, Htp. by rewrite Permutation_app_comm.
    + intros w' m' tmp' slots_t' ? ? ? ? ? Hct ?. apply (HQ _ _ _ slots_t'); try done. congruence.
Qed.

Lemma wp_with_second {X Y} (y : Y) (c : Cmd (X * Y) unit) w (x : X) Q E :
  wp c (w, (x, y)) (fun _ w' p => Q (snd p) w' (fst p)) (fun e w' p => E e w' (fst p)) ->
  wp (with_second y c) (w, x) Q E.
Proof. unfold wp, with_second. by destruct (c (w, (x, y))) as [[[]|e|] [w' [x' y']]]. Qed.

(** The memory of a new table. *)
Lemma wp_new_table {X} w (x : X) capacity Q E :
  world_ok w -> 0 < capacity -> capacity * SIZEOF_MAP_ENTRY < 2 ^ 32 ->
  (forall w' b p, data b = Some p -> world_ok w' -> mem w' = mem w -> hp w !! blk p = None -> grows (hp w) (hp w') ->
     table_is (hp w') (Map capacity 0 false (Some p) (replicate (Z.to_nat capacity) zero_entry))
       (replicate (Z.to_nat capacity) None) -> Q (tt, b) w' x) ->
  (forall e w', map_refusal e = false -> world_ok w' -> mem w' = mem w -> grows (hp w) (hp w') -> E e w' x) ->
  wp (with_local zero_blob (s2n_alloc (capacity * SIZEOF_MAP_ENTRY) ;;; s2n_blob_zero)) (w, x) Q E.
Proof.
  intros Hw Hc Hmax HQ HE. unfold SIZEOF_MAP_ENTRY in *. apply (wp_raises mem_error); [solve_raises|].
  apply wp_with_local, wp_bind, wp_alloc_blob; [done|unfold is_u32; lia| |].
  2: { intros e w' b' (-> & Hm & Hh' & _ & Hf & _) He.
       apply HE; [by apply mem_error_not_refusal|split; [done|rewrite Hm; apply Hw]|done|].
       intros k l Hk. apply Hf; [done|]. by intros (q & ? & _). }
  intros w' b (Hm & Hh' & Hb & Hsz & Hg & Hf & Hfr & _). apply wp_blob_zero; [done|].
  destruct (data b) as [p|] eqn:Hp; [|destruct (ok_null _ _ Hb Hp); lia].
  destruct (ok_growable _ _ Hb (growable_flag _ _ Hg Hp)) as (Hsa & _ & q & l & Hq & Ho & Hl & Hla).
  rewrite Hp in Hq. injection Hq as <-.
  assert (Hfresh : hp w !! blk p = None).
  { destruct (Hfr (blk p)) as [(z & ? & _)|]; [by exists p|done|done]. }
  destruct (zeroed_access _ _ _ Hb Hp) as (l' & Hl' & Hz0 & Hz1 & Hz2). rewrite Hl in Hl'. injection Hl' as <-.
  apply (HQ _ b p); try done; simpl.
  - split; [by apply heap_ok_zeroed|rewrite Hm; apply Hw].
  - intros k lk Hk. unfold zeroed. rewrite Hp, heap_with_ne; [|by apply zeroed_access|congruence].
    apply Hf; [done|]. by intros (z & ? & _).
  - destruct (empty_ok (K := bytes) (V := bytes) sha256_word (Z.to_nat capacity)) as (Hpo & _ & Hpairs).
    split; [|done|by rewrite Hpairs]. split; simpl.
    + unfold SIZEOF_MAP_ENTRY. lia.
    + unfold zlen. rewrite length_replicate. lia.
    + by apply Forall2_replicate.
    + right. eexists p, _. split_goal; [done|done| |done|].
      * unfold zeroed. rewrite Hp, (heap_with_lookup _ _ _ l) by done. apply lookup_insert_eq.
      * rewrite zlen_zsplice by done. unfold SIZEOF_MAP_ENTRY. lia.
    + unfold map_blocks, table_blocks. simpl.
      replace (concat _) with (@nil positive); [repeat constructor; set_solver|].
      clear. by induction (Z.to_nat capacity).
Qed.

Lemma wp_free_table w m slots Q E :
  world_ok w -> map_mem (hp w) m slots -> s2n_mem_free_cb (mem w) <> UserImpl ->
  (forall h' m', (forall k, ~ In k (table_blocks m) -> h' !! k = hp w !! k) -> heap_ok h' -> Q tt (World h' (mem w)) m') ->
  wp (zoom table_lens (s2n_free_object (u32 (map_capacity m * SIZEOF_MAP_ENTRY)))) (w, m) Q E.
Proof.
  intros Hw Hm Hu HQ. destruct (mm_capacity _ _ _ Hm) as [Hc Hmax]. apply wp_zoom. simpl.
  destruct (mm_table _ _ _ Hm) as [[Hn _]|(p & l & Hp & Ho & Hl & Hc0 & Hle)].
  - rewrite Hn. destruct w as [h ms]. apply HQ; [done|apply Hw].
  - unfold SIZEOF_MAP_ENTRY in *. rewrite Hp, u32_small by lia.
    apply (wp_free_object _ _ _ l); [done|done|done|lia|done| |by intros e h Hcb; destruct Hu].
    apply HQ; simpl; [|apply map_Forall_delete, Hw].
    intros k Hk. apply lookup_delete_ne. intros <-. apply Hk. unfold table_blocks. rewrite Hp. by left.
Qed.

Lemma wp_embiggen fuel w m slots capacity Q E :
  world_ok w -> s2n_mem_free_cb (mem w) <> UserImpl -> map_mem (hp w) m slots -> NoDup (map fst (pairs slots)) ->
  immutable m = false -> 0 < capacity -> capacity * SIZEOF_MAP_ENTRY < 2 ^ 32 -> 2 * zlen (pairs slots) <= capacity ->
  (forall w' m' slots', table_is (hp w') m' slots' -> map_capacity m' = capacity -> immutable m' = false ->
     pairs slots' ≡ₚ pairs slots -> map_frame w m w' m' -> Q tt w' m') ->
  (forall e w' m', map_refusal e = false -> map_frame w m w' m' -> E e w' m') ->
  wp (map_embiggen (map_add fuel) capacity) (w, m) Q E.
Proof.
  intros Hw Hu Hm Hnd Him Hc Hmax Hload HQ HE. pose proof (mm_len _ _ _ Hm) as Hlen.
  destruct (mm_capacity _ _ _ Hm) as [Hc0 _].
  apply wp_bind, wp_get_obj, wp_bind, wp_ensure; [intros _|by rewrite Him].
  cbv zeta. rewrite (u32_small (capacity * _)) by (unfold SIZEOF_MAP_ENTRY in *; lia).
  apply wp_bind, wp_new_table; [done..| |].
  2: { intros e w' He Hw' Hmem Hg. apply HE; [done|]. unfold map_frame. split_goal; [done|done|auto|auto]. }
  intros w1 b p Hp Hw1 Hmem1 Hfresh Hg1 Htmp. simpl snd. rewrite Hp, Z.div_mul by done.
  set (tmp := Map capacity 0 false (Some p) (replicate (Z.to_nat capacity) zero_entry)) in *.
  assert (Hbt : forall k, In k (map_blocks tmp) -> k = blk p).
  { intros k Hin. apply in_app_or in Hin as [[<-|[]]|Hin]; [done|]. exfalso. simpl in Hin.
    clear -Hin. induction (Z.to_nat capacity); simpl in Hin; auto. }
  assert (Hbf : both_frame w m w1 m tmp).
  { unfold both_frame. split_goal; [done|done|auto|done| |].
    - intros k ->%Hbt. by left.
    - intros k Hk ->%Hbt. destruct (map_blocks_live _ _ _ _ Hm Hk). congruence. }
  assert (Hm1 : map_mem (hp w1) m (drained 0 slots)).
  { apply (map_mem_ext (hp w)); [|exact Hm]. intros k Hk. destruct (map_blocks_live _ _ _ _ Hm Hk) as [l Hl].
    by rewrite Hl, (Hg1 _ _ Hl). }
  apply wp_bind, wp_with_second.
  apply (wp_embiggen_loop fuel _ _ _ _ _ slots (replicate (Z.to_nat capacity) None) w m); try done; [lia| | |].
  { rewrite (proj2 (proj2 (empty_ok (K := bytes) (V := bytes) sha256_word _))). done. }
  2: { intros e w' m' tmp' He (Hw' & Hmem' & Hf' & Hb' & _). apply HE; [done|]. unfold map_frame. split_goal; [done|done|done|].
       intros k Hk. left. by apply Hb'. }
  intros w2 m2 tmp2 slots2 Hbf2 Hm2 Hcm2 _ Htmp2 Hct2 Hperm2. simpl.
  destruct Hbf2 as (Hw2 & Hmem2 & Hf2 & Hbm2 & Hbt2 & Hd2). rewrite <- Hcm2.
  apply wp_bind, (wp_free_table _ _ (drained (map_capacity m) slots)); [done|done|by rewrite Hmem2|].
  intros h' m3 Hh' Hok'. apply wp_put_obj. change (Map _ _ false _ _) with (set_immutable false tmp2).
  apply (HQ _ _ slots2); try done.
  - assert (Ht' : table_is h' tmp2 slots2).
    { apply (table_is_ext (hp w2)); [|done]. intros k Hk. symmetry. apply Hh'. intros Hin. apply (Hd2 k); [|done].
      apply in_or_app. by left. }
    destruct Ht' as [? ? ?]. split; [by apply map_mem_set_immutable|done|done].
  - unfold map_frame. split_goal; simpl.
    + split; [done|rewrite Hmem2; apply Hw].
    + done.
    + intros k l Hk Hn. rewrite Hh'; [by apply Hf2|]. intros Hin. apply Hn, Hbm2, in_or_app. by left.
    + intros k Hk. destruct (Hbt2 k Hk); auto.
Qed.

(** ** Maps *)

Definition map_is (h : heap) (m : s2n_map) (M : gmap bytes bytes) : Prop :=
  exists slots, table_is h m slots /\ contents slots = M /\ 0 < map_capacity m /\
    2 * zlen (pairs slots) <= map_capacity m + 2.

Lemma contents_perm (s1 s2 : slots_t) :
  NoDup (map fst (pairs s1)) -> pairs s1 ≡ₚ pairs s2 -> contents s1 = contents s2.
Proof. intros Hnd Hp. unfold contents. by apply list_to_map_proper. Qed.

(** The map has room for one more key once it has been enlarged. *)
Lemma wp_make_room fuel w m slots Q E :
  world_ok w -> s2n_mem_free_cb (mem w) <> UserImpl -> table_is (hp w) m slots -> immutable m = false ->
  0 < map_capacity m -> 2 * zlen (pairs slots) <= map_capacity m + 2 -> zlen (pairs slots) <= 2 ^ 24 ->
  (forall w' m' slots', table_is (hp w') m' slots' -> contents slots' = contents slots ->
     0 < map_capacity m' -> 2 * zlen (pairs slots') <= map_capacity m' -> immutable m' = false ->
     map_frame w m w' m' -> Q tt w' m') ->
  (forall e w' m', map_refusal e = false -> map_frame w m w' m' -> E e w' m') ->
  wp (if map_capacity m <? u32 (map_size m * 2) then map_embiggen (map_add fuel) (u32 (map_capacity m * 2)) else ret tt)
    (w, m) Q E.
Proof.
  intros Hw Hu Ht Him Hc Hload Hmax HQ HE. pose proof (zlen_nonneg (pairs slots)).
  destruct (mm_capacity _ _ _ (ti_mem _ _ _ Ht)) as [_ Hcmax]. unfold SIZEOF_MAP_ENTRY in Hcmax.
  rewrite (ti_size _ _ _ Ht), !u32_small by lia.
  destruct (Z.ltb_spec (map_capacity m) (zlen (pairs slots) * 2)) as [Hfull|Hroom].
  - apply (wp_embiggen _ _ _ slots); try done; [apply Ht|apply (ti_probing _ _ _ Ht)|lia|unfold SIZEOF_MAP_ENTRY; lia|lia|].
    intros w' m' slots' Ht' Hc' Him' Hperm Hf'. apply (HQ _ _ slots'); try done; [|lia|].
    + apply contents_perm; [apply (ti_probing _ _ _ Ht')|done].
    + unfold zlen in *. rewrite Hperm. lia.
  - apply wp_ret. apply (HQ _ _ slots); try done; [lia|by apply map_frame_refl].
Qed.

(** Memory of the client that holds a key or a value. *)
Definition client (w : world) (m : s2n_map) (b : s2n_blob) (bs : bytes) : Prop :=
  refers (hp w) b bs /\ forall k, In k (blob_blocks b) -> ~ In k (map_blocks m).

Lemma client_frame w m w' m' b bs : client w m b bs -> map_frame w m w' m' -> client w' m' b bs.
Proof.
  intros [[Hb Hby] Hd] (_ & _ & Hf & Hi).
  assert (Hlive : forall k, In k (blob_blocks b) -> exists l, hp w !! k = Some l /\ hp w' !! k = Some l).
  { intros k Hk. pose proof Hk as (p & Hp & <-)%blob_blocks_in. destruct (ok_access _ _ Hb _ Hp) as (l & Hl & _). eauto. }
  split.
  - split.
    + apply (blob_ok_ext (hp w)); [|done]. intros k Hk%blob_blocks_in. destruct (Hlive k Hk) as (l & -> & ->). done.
    + rewrite <- Hby. unfold blob_bytes. destruct (data b) as [p|] eqn:Hp; [|done]. apply bytes_at_ext.
      destruct (Hlive (blk p)) as (l & -> & ->); [|done]. apply blob_blocks_in. by exists p.
  - intros k Hk Hin. destruct (Hi k Hin) as [|Hn]; [by apply (Hd k)|]. destruct (Hlive k Hk) as (l & Hl & _). congruence.
Qed.

Lemma contents_size slots : probing_ok sha256_word slots -> base.size (contents slots) = length (pairs slots).
Proof. intros [_ Hnd]. by apply map_size_list_to_map. Qed.

Lemma map_add_unfold fuel key value :
  map_add (S fuel) key value =
  (m <-- get_obj ;;
   ensure (negb (immutable m)) S2N_ERR_MAP_IMMUTABLE ;;;
   (if map_capacity m <? u32 (map_size m * 2) then map_embiggen (map_add fuel) (u32 (map_capacity m * 2)) else ret tt) ;;;
   slot <-- s2n_map_slot key ;;
   m <-- get_obj ;;
   r <-- probe_loop (Z.to_nat (map_capacity m)) key slot ;;
   ensure (negb (snd r)) S2N_ERR_MAP_DUPLICATE ;;;
   fill_slot (fst r) key value).
Proof. reflexivity. Qed.

Lemma wp_map_add w m M key value k v Q E :
  world_ok w -> s2n_mem_free_cb (mem w) <> UserImpl -> map_is (hp w) m M -> Z.of_nat (base.size M) <= 2 ^ 24 ->
  client w m key k -> client w m value v ->
  (immutable m = true -> E S2N_ERR_MAP_IMMUTABLE w m) ->
  (forall w' m', immutable m = false -> is_Some (M !! k) -> map_is (hp w') m' M -> immutable m' = false ->
     map_frame w m w' m' -> E S2N_ERR_MAP_DUPLICATE w' m') ->
  (forall w' m', immutable m = false -> M !! k = None -> map_is (hp w') m' (<[k := v]> M) -> immutable m' = false ->
     map_frame w m w' m' -> Q tt w' m') ->
  (forall e w' m', map_refusal e = false -> map_frame w m w' m' -> E e w' m') ->
  wp (s2n_map_add key value) (w, m) Q E.
Proof.
  intros Hw Hu (slots & Ht & Hcon & Hc & Hload) Hsz Hk Hv HI HD HQ HE.
  rewrite <- Hcon, contents_size in Hsz by apply Ht. unfold s2n_map_add. rewrite map_add_unfold.
  apply wp_bind, wp_get_obj, wp_bind, wp_ensure; intros Him; [|apply HI; by destruct (immutable m)].
  apply negb_true_iff in Him. apply wp_bind, (wp_make_room _ _ _ slots); [done..| |done].
  intros w1 m1 slots1 Ht1 Hcon1 Hc1 Hl1 Him1 Hf1. pose proof Hf1 as (Hw1 & _).
  destruct (client_frame _ _ _ _ _ _ Hk Hf1) as [[Hkb Hkk] _]. destruct (client_frame _ _ _ _ _ _ Hv Hf1) as [[Hvb Hvv] _].
  apply (wp_add_here _ _ slots1); [done..| | |].
  - rewrite Hkk, Hcon1, Hcon. intros v' Hin. apply HD; [done|by rewrite Hin| |done|done].
    exists slots1. split_goal; [done|congruence|done|lia].
  - rewrite Hkk, Hvv, Hcon1, Hcon. intros w2 m2 slots2 Hnone Ht2 Hcon2 Hperm2 Hc2 Him2 Hf2 _.
    apply HQ; [done|done| |congruence|by eapply map_frame_trans].
    exists slots2. split_goal; [done|done|lia|]. unfold zlen in *. rewrite Hperm2. simpl. lia.
  - intros e w' m' He Hf'. apply HE; [done|]. by eapply map_frame_trans.
Qed.

(** Releasing an entry of the map itself. *)
Lemma wp_release_here w m slots i e k v Q E :
  world_ok w -> map_mem (hp w) m slots -> s2n_mem_free_cb (mem w) <> UserImpl ->
  0 <= i < map_capacity m -> entries m !! Z.to_nat i = Some e -> slot_at slots i = Some (k, v) ->
  Q tt (World (freed (freed (hp w) (entry_key e)) (entry_value e)) (mem w))
    (set_entries (<[Z.to_nat i := zero_entry]> (entries m)) m) ->
  wp (zoom (key_lens i) s2n_free ;;; zoom (value_lens i) s2n_free) (w, m) Q E.
Proof.
  intros Hw Hm Hu Hi He Hs HQ. set (id_lens := Lens (fun m : s2n_map => m) (fun m _ => m)).
  assert (Hrun : wp (zoom id_lens (zoom (key_lens i) s2n_free) ;;; zoom id_lens (zoom (value_lens i) s2n_free)) (w, m) Q E)
    by (by apply (wp_release id_lens _ _ slots _ e k v)).
  assert (Hid : forall A (c : Cmd s2n_map A) s, zoom id_lens c s = c s).
  { intros A c [w0 m0]. unfold zoom. simpl. by destruct (c (w0, m0)) as [? []]. }
  unfold wp, bind in Hrun |- *. rewrite Hid in Hrun.
  destruct (zoom (key_lens i) s2n_free (w, m)) as [[a|err|] s']; [|exact Hrun|exact Hrun]. by rewrite Hid in Hrun.
Qed.

Lemma map_frame_release w m i e :
  world_ok w -> entries m !! i = Some e ->
  map_frame w m (World (freed (freed (hp w) (entry_key e)) (entry_value e)) (mem w))
    (set_entries (<[i := zero_entry]> (entries m)) m).
Proof.
  intros [Hh Hm] He. unfold map_frame. split_goal; simpl.
  - split; [by apply heap_ok_freed, heap_ok_freed|done].
  - done.
  - intros k l Hk Hn. assert (Hne : ~ In k (entry_blocks e)) by (intros Hin; by apply Hn, (entry_in_blocks _ i e)).
    rewrite !freed_lookup; [done| |]; intros Hin; apply Hne, in_or_app; auto.
  - intros k Hin. left. by apply (release_blocks m i e).
Qed.

Lemma wp_map_put w m M key value k v Q E :
  world_ok w -> s2n_mem_free_cb (mem w) <> UserImpl -> map_is (hp w) m M -> Z.of_nat (base.size M) <= 2 ^ 24 ->
  client w m key k -> client w m value v ->
  (immutable m = true -> E S2N_ERR_MAP_IMMUTABLE w m) ->
  (forall w' m', immutable m = false -> map_is (hp w') m' (<[k := v]> M) -> immutable m' = false ->
     map_frame w m w' m' -> Q tt w' m') ->
  (forall e w' m', map_refusal e = false -> map_frame w m w' m' -> E e w' m') ->
  wp (s2n_map_put key value) (w, m) Q E.
Proof.
  intros Hw Hu (slots & Ht & Hcon & Hc & Hload) Hsz Hk Hv HI HQ HE.
  rewrite <- Hcon, contents_size in Hsz by apply Ht.
  apply wp_bind, wp_get_obj, wp_bind, wp_ensure; intros Him; [|apply HI; by destruct (immutable m)].
  apply negb_true_iff in Him. apply wp_bind, (wp_make_room _ _ _ slots); [done..| |done].
  intros w1 m1 slots1 Ht1 Hcon1 Hc1 Hl1 Him1 Hf1. pose proof Hf1 as (Hw1 & Hmem1 & _).
  pose proof (client_frame _ _ _ _ _ _ Hk Hf1) as Hk1. pose proof (client_frame _ _ _ _ _ _ Hv Hf1) as Hv1.
  destruct Ht1 as [Hm1 Hp1 Hsz1]. pose proof (zlen_nonneg (pairs slots1)) as Hz. pose proof (mm_len _ _ _ Hm1) as Hlen1.
  destruct (mm_capacity _ _ _ Hm1) as [_ Hmax1]. unfold SIZEOF_MAP_ENTRY in Hmax1.
  pose proof Hk1 as [[Hkb Hkk] _].
  apply wp_bind, (wp_map_slot _ _ slots1); [done|done|done| |by intros; apply HE].
  apply wp_bind, wp_get_obj, wp_bind, wp_probe; [done|done|lia|]. rewrite Hkk. intros e He Hpass slot. cbv zeta.
  pose proof (step_range slots1 (start slots1 k) e ltac:(lia)) as Hr. fold slot in Hr. rewrite Hlen1 in Hr. split.
  - intros Hs. apply wp_bind, wp_ret. simpl fst. pose proof Hv1 as [[Hvb Hvv] _].
    apply (wp_fill_slot _ _ slots1); [done..| | |].
    { rewrite Hsz1. unfold UINT32_MAX. lia. }
    + rewrite Hkk, Hvv. intros w2 m2 Hm2 Hf2 _ Hsz2 Hc2 Him2.
      destruct (fill_ok sha256_word slots1 k v e) as (Hp2 & Hcon2 & Hlen2); [done|lia|lia|done|done|].
      fold slot in Hp2, Hcon2, Hlen2. apply HQ; [done| |congruence|by eapply map_frame_trans].
      eexists. split_goal; [split; [exact Hm2|exact Hp2|]|rewrite Hcon2; congruence|lia|]; rewrite Hlen2; lia.
    + intros err w' m' Herr Hf'. apply HE; [done|]. by eapply map_frame_trans.
  - intros v0 Hs. destruct (entry_lookup _ _ _ _ Hm1 Hr) as (ent & Hent & _). simpl.
    apply wp_bind, (wp_bind_assoc _ (fun _ => _)), wp_bind, (wp_release_here _ _ slots1 _ ent k v0); [done|done|by rewrite Hmem1|done|done|done|].
    pose proof (map_frame_release _ _ _ _ Hw1 Hent) as Hfr.
    pose proof (map_mem_release _ _ _ _ _ _ _ Hm1 Hr Hent Hs) as Hm2.
    pose proof (client_frame _ _ _ _ _ _ Hk1 Hfr) as [[Hkb2 Hkk2] _].
    pose proof (client_frame _ _ _ _ _ _ Hv1 Hfr) as [[Hvb2 Hvv2] _].
    apply wp_bind, wp_get_obj, wp_modify. simpl map_size. rewrite Hsz1.
    assert (Hpos : 1 <= zlen (pairs slots1)).
    { assert (Hin : (k, v0) ∈ pairs slots1) by (apply in_pairs; exists slot; split; [lia|done]).
      destruct (pairs slots1); [by apply not_elem_of_nil in Hin|]. rewrite zlen_cons. pose proof (zlen_nonneg l). lia. }
    rewrite u32_small by lia.
    apply (wp_fill_slot _ _ (<[Z.to_nat slot := None]> slots1)); simpl.
    + apply Hfr.
    + by apply map_mem_set_size.
    + done.
    + rewrite slot_at_insert by lia. by rewrite Z.eqb_refl.
    + done.
    + done.
    + unfold UINT32_MAX. lia.
    + simpl in Hkk2, Hvv2. rewrite Hkk2, Hvv2, list_insert_insert_eq. intros w2 m2 Hm2' Hf2 _ Hsz2 Hc2 Him2.
      destruct (replace_ok sha256_word slots1 k v0 v slot) as (Hp2 & Hcon2 & Hlen2); [done|lia|done|].
      apply HQ; [done| |congruence|].
      * eexists. split_goal; [split; [exact Hm2'|exact Hp2|]|rewrite Hcon2; congruence|lia|]; rewrite Hlen2; lia.
      * apply (map_frame_trans _ _ _ _ _ _ Hf1). by apply (map_frame_trans _ _ _ _ _ _ Hfr).
    + intros err w' m' Herr Hf'. apply HE; [done|]. apply (map_frame_trans _ _ _ _ _ _ Hf1).
      by apply (map_frame_trans _ _ _ _ _ _ Hfr).
Qed.

Lemma wp_map_lookup w m M key k Q E :
  world_ok w -> map_is (hp w) m M -> client w m key k ->
  (immutable m = false -> E S2N_ERR_MAP_MUTABLE w m) ->
  (immutable m = true -> M !! k = None -> Q None w m) ->
  (forall b v, immutable m = true -> M !! k = Some v -> refers (hp w) b v -> Q (Some b) w m) ->
  (forall e, map_refusal e = false -> E e w m) ->
  wp (s2n_map_lookup key) (w, m) Q E.
Proof.
  intros Hw (slots & [Hm Hp Hsz] & Hcon & Hc & Hload) [[Hkb Hkk] _] HI HN HS HE.
  apply wp_bind, wp_get_obj, wp_bind, wp_ensure; intros Him; [|by apply HI].
  apply wp_bind, (wp_map_slot _ _ slots); [done..| |done]. pose proof (mm_len _ _ _ Hm) as Hlen.
  assert (Hh : start slots (blob_bytes (hp w) key) = step_from slots (start slots (blob_bytes (hp w) key)) 0).
  { unfold step_from, home. rewrite Z.add_0_r, Z.mod_mod by lia. done. }
  rewrite Hh at 2. apply wp_lookup_loop; try done; rewrite ?Hkk, ?Hcon; eauto; try lia. intros d Hd. lia.
Qed.
End Rules.
End MapTheorems.
Export MapTheorems.
