(* ===== verification/MapRefinement.v ===== *)
(** * Hash tables: the abstract map and the refinement

    Sequences of calls on a hash table of utils/s2n_map.c against the same
    calls on a finite map with a lock; creation and iteration; and two ways in
    which the code goes wrong. *)
From S2P Require Import Prelude Errors CMem Platform Safety Blob Alloc Map MapTheorems.
Open Scope Z_scope.

Module MapRefinement.

(** ** The abstract map *)

Inductive map_op :=
| MapAdd (key value : s2n_blob)
| MapPut (key value : s2n_blob)
| MapLookup (key : s2n_blob)
| MapComplete
| MapUnlock
| MapSize.

Inductive map_result := MapDone | MapFound (v : option bytes) | MapCount (n : Z).

(** The bytes behind the blobs of the client. *)
Abbreviation names := (s2n_blob -> bytes).

Inductive map_step (name : names) (M : gmap bytes bytes) :
    bool -> map_op -> map_result + s2n_error -> gmap bytes bytes -> bool -> Prop :=
| step_add k v : M !! name k = None ->
    map_step name M false (MapAdd k v) (inl MapDone) (<[name k := name v]> M) false
| step_add_duplicate k v : is_Some (M !! name k) ->
    map_step name M false (MapAdd k v) (inr S2N_ERR_MAP_DUPLICATE) M false
| step_add_locked k v : map_step name M true (MapAdd k v) (inr S2N_ERR_MAP_IMMUTABLE) M true
| step_put k v : map_step name M false (MapPut k v) (inl MapDone) (<[name k := name v]> M) false
| step_put_locked k v : map_step name M true (MapPut k v) (inr S2N_ERR_MAP_IMMUTABLE) M true
| step_lookup k : map_step name M true (MapLookup k) (inl (MapFound (M !! name k))) M true
| step_lookup_unlocked k : map_step name M false (MapLookup k) (inr S2N_ERR_MAP_MUTABLE) M false
| step_complete b : map_step name M b MapComplete (inl MapDone) M true
| step_unlock b : map_step name M b MapUnlock (inl MapDone) M false
| step_size b : map_step name M b MapSize (inl (MapCount (Z.of_nat (base.size M)))) M b.

Inductive map_run (name : names) : gmap bytes bytes -> bool -> list map_op -> list (map_result + s2n_error) ->
    gmap bytes bytes -> bool -> Prop :=
| map_run_nil M b : map_run name M b [] [] M b
| map_run_cons M b o r M' b' os rs M'' b'' :
    map_step name M b o r M' b' -> map_run name M' b' os rs M'' b'' -> map_run name M b (o :: os) (r :: rs) M'' b''.

Definition op_blobs (o : map_op) : list s2n_blob :=
  match o with MapAdd k v | MapPut k v => [k; v] | MapLookup k => [k] | _ => [] end.

(** ** The same calls on a hash table *)

Section Run.
Context `{HP : Platform} `{HH : MapHash}.

(** A value that is found is seen through its bytes. *)
Definition run_map_op (o : map_op) : Cmd s2n_map map_result :=
  match o with
  | MapAdd k v => s2n_map_add k v ;;; ret MapDone
  | MapPut k v => s2n_map_put k v ;;; ret MapDone
  | MapLookup k =>
      r <-- s2n_map_lookup k ;;
      match r with Some b => bs <-- read_blob b ;; ret (MapFound (Some bs)) | None => ret (MapFound None) end
  | MapComplete => s2n_map_complete ;;; ret MapDone
  | MapUnlock => s2n_map_unlock ;;; ret MapDone
  | MapSize => n <-- s2n_map_size ;; ret (MapCount n)
  end.

(** A client goes on after a call that the map refuses, and gives up on any
    other error (no memory, or the hash cannot be computed). *)
Fixpoint run_map_ops (os : list map_op) : Cmd s2n_map (list (map_result + s2n_error) * option s2n_error) :=
  match os with
  | [] => ret ([], None)
  | o :: os =>
      r <-- attempt (run_map_op o) ;;
      let go := match r with inl _ => true | inr e => map_refusal e end in
      if go then rest <-- run_map_ops os ;; ret (r :: fst rest, snd rest)
      else ret ([], match r with inr e => Some e | inl _ => None end)
  end.
End Run.

Section Theorems.
Context `{HP : Platform} `{!BlobAllocator} `{HH : MapHash} `{HOK : !MapHashOk}.

Definition clients (name : names) (w : world) (m : s2n_map) (o : map_op) : Prop :=
  forall b, In b (op_blobs o) -> client w m b (name b).

Lemma map_is_set_immutable h m M b : map_is h m M -> map_is h (set_immutable b m) M.
Proof.
  intros (slots & [Hm Hp Hs] & Hrest). exists slots. split; [|done].
  split; [by apply map_mem_set_immutable|done|done].
Qed.

(** One call. *)
Lemma map_op_refines name o w m M :
  world_ok w -> s2n_mem_free_cb (mem w) <> UserImpl -> map_is (hp w) m M -> Z.of_nat (base.size M) <= 2 ^ 24 ->
  clients name w m o ->
  wp (attempt (run_map_op o)) (w, m)
    (fun r w' m' => map_frame w m w' m' /\
       ((exists M', map_step name M (immutable m) o r M' (immutable m') /\ map_is (hp w') m' M' /\
          (forall e, r = inr e -> map_refusal e = true)) \/
        exists e, r = inr e /\ map_refusal e = false))
    (fun _ _ _ => False).
Proof.
  intros Hw Hu Hm Hsz Hcl. pose proof (map_frame_refl w m Hw) as Hrefl. apply wp_attempt.
  assert (Hdone : forall r M' w' m', map_step name M (immutable m) o (inl r) M' (immutable m') -> map_is (hp w') m' M' ->
    map_frame w m w' m' -> map_frame w m w' m' /\
       ((exists M', map_step name M (immutable m) o (inl r) M' (immutable m') /\ map_is (hp w') m' M' /\
          (forall e, @inl map_result s2n_error r = inr e -> map_refusal e = true)) \/
        exists e, @inl map_result s2n_error r = inr e /\ map_refusal e = false)).
  { intros r M' w' m' Hst Hm' Hf'. split; [done|]. left. by exists M'. }
  assert (Hrefuse : forall e w' m', map_step name M (immutable m) o (inr e) M (immutable m') -> map_is (hp w') m' M ->
    map_refusal e = true -> map_frame w m w' m' -> map_frame w m w' m' /\
       ((exists M', map_step name M (immutable m) o (inr e) M' (immutable m') /\ map_is (hp w') m' M' /\
          (forall e', @inr map_result s2n_error e = inr e' -> map_refusal e' = true)) \/
        exists e', @inr map_result s2n_error e = inr e' /\ map_refusal e' = false)).
  { intros e w' m' Hst Hm' He Hf'. split; [done|]. left. exists M. split_goal; [done|done|by intros ? [= <-]]. }
  assert (Hfail : forall e w' m', map_refusal e = false -> map_frame w m w' m' -> map_frame w m w' m' /\
       ((exists M', map_step name M (immutable m) o (inr e) M' (immutable m') /\ map_is (hp w') m' M' /\
          (forall e', @inr map_result s2n_error e = inr e' -> map_refusal e' = true)) \/
        exists e', @inr map_result s2n_error e = inr e' /\ map_refusal e' = false)) by eauto.
  destruct o as [k v|k v|k| | |]; simpl run_map_op; unfold clients in Hcl; simpl in Hcl; apply wp_bind.
  - apply (wp_map_add _ _ M _ _ (name k) (name v)); auto.
    + intros Him. apply Hrefuse; auto. rewrite Him. constructor.
    + intros w' m' Him Hin Hm' Him' Hf'. apply Hrefuse; auto. rewrite Him, Him'. by constructor.
    + intros w' m' Him Hin Hm' Him' Hf'. apply wp_ret, (Hdone _ (<[name k := name v]> M)); auto. rewrite Him, Him'. by constructor.
  - apply (wp_map_put _ _ M _ _ (name k) (name v)); auto.
    + intros Him. apply Hrefuse; auto. rewrite Him. constructor.
    + intros w' m' Him Hm' Him' Hf'. apply wp_ret, (Hdone _ (<[name k := name v]> M)); auto. rewrite Him, Him'. by constructor.
  - apply (wp_map_lookup _ _ M _ (name k)); auto.
    + intros Him. apply Hrefuse; auto. rewrite Him. constructor.
    + intros Him Hn. apply wp_ret, (Hdone _ M); auto. rewrite Him, <- Hn. constructor.
    + intros b v Him Hs [Hb Hby]. apply wp_bind, wp_read_blob; [done|]. rewrite Hby, <- Hs.
      apply wp_ret, (Hdone _ M); auto. rewrite Him. constructor.
  - apply wp_modify, wp_ret, (Hdone _ M); auto; [constructor|by apply map_is_set_immutable].
  - apply wp_modify, wp_ret, (Hdone _ M); auto; [constructor|by apply map_is_set_immutable].
  - apply wp_bind, wp_get_obj, wp_ret, wp_ret. pose proof Hm as (slots & Ht & Hcon & _).
    rewrite (ti_size _ _ _ Ht). replace (zlen (pairs slots)) with (Z.of_nat (base.size M)).
    + apply (Hdone _ M); auto. constructor.
    + rewrite <- Hcon, contents_size by apply Ht. done.
Qed.

Lemma step_size_bound name M b o r M' b' : map_step name M b o r M' b' -> (base.size M' <= S (base.size M))%nat.
Proof.
  assert (Hins : forall k v, (base.size (<[k := v]> M) <= S (base.size M))%nat).
  { intros k v. rewrite map_size_insert. destruct (M !! k); simpl; lia. }
  destruct 1; auto.
Qed.


(** A new map is empty. *)
Lemma wp_map_new {X} w (x : X) capacity Q E :
  world_ok w -> s2n_mem_free_cb (mem w) <> UserImpl -> 0 < capacity -> capacity * SIZEOF_MAP_ENTRY < 2 ^ 32 ->
  (forall p m w', map_is (hp w') m ∅ -> immutable m = false -> world_ok w' -> mem w' = mem w ->
     grows (hp w) (hp w') -> Q (p, m) w' x) ->
  (forall e w', world_ok w' -> grows (hp w) (hp w') -> E e w' x) ->
  wp (s2n_map_new_with_initial_capacity capacity) (w, x) Q E.
Proof.
  intros Hw Hu Hc Hmax HQ HE. apply wp_bind, wp_ensure; [intros _|intros Hz; zbool; lia].
  apply wp_bind, wp_with_local, wp_alloc_blob; [done|unfold is_u32, SIZEOF_MAP; lia| |].
  2: { intros e w' b' (-> & Hm & Hh' & _ & Hf & _). apply HE; [split; [done|rewrite Hm; apply Hw]|].
       intros k l Hk. apply Hf; [done|]. by intros (q & ? & _). }
  intros w1 b (Hm1 & Hh1 & Hb & Hsz & Hg & Hf1 & Hfr & _). simpl snd.
  destruct (data b) as [p|] eqn:Hp; [|destruct (ok_null _ _ Hb Hp); unfold SIZEOF_MAP in Hsz; lia].
  assert (Hg1 : grows (hp w) (hp w1)). { intros k l Hk. apply Hf1; [done|]. by intros (q & ? & _). }
  assert (Hw1 : world_ok w1) by (split; [done|rewrite Hm1; apply Hw]).
  apply wp_bind, wp_with_local. apply (wp_embiggen _ _ _ []); [done|by rewrite Hm1| |constructor|done|done|done| | |].
  - split; simpl; try done; [by left|constructor].
  - change (zlen (pairs [])) with 0. lia.
  - intros w2 m slots Ht Hcap Him Hperm (Hw2 & Hm2 & Hf2 & _). apply wp_ret. apply HQ; [|done|done|congruence|].
    + change (pairs []) with (@nil (bytes * bytes)) in Hperm. apply Permutation_nil_r in Hperm.
      exists slots. simpl. rewrite Hcap. split_goal; [done| |done|rewrite Hperm; change (zlen []) with 0; lia].
      unfold contents. by rewrite Hperm.
    + intros k l Hk. apply Hf2; [by apply Hg1|]. by intros [].
  - intros e w2 m2 _ (Hw2 & _ & Hf2 & _). apply HE; [done|]. intros k l Hk. apply Hf2; [by apply Hg1|]. by intros [].
Qed.

(** ** Iteration *)

(** The values that the iterator returns until it is consumed; [fuel] bounds
    their number. *)
Fixpoint iterate (fuel : nat) : Cmd s2n_map_iterator (list s2n_blob) :=
  it <-- get_obj ;;
  if s2n_map_iterator_has_next it then
    match fuel with
    | O => undefined
    | S fuel' => b <-- s2n_map_iterator_next ;; bs <-- iterate fuel' ;; ret (b :: bs)
    end
  else ret [].

(** The slots from [i] on. *)
Definition rest (i : Z) (slots : slots_t) : list (bytes * bytes) := pairs (drop (Z.to_nat i) slots).

Lemma rest_step slots i : 0 <= i < zlen slots ->
  rest i slots = match slot_at slots i with Some kv => [kv] | None => [] end ++ rest (i + 1) slots.
Proof.
  intros Hi. destruct (lookup_lt_is_Some_2 slots (Z.to_nat i)) as [o Ho]; [unfold zlen in *; lia|].
  unfold rest. replace (Z.to_nat (i + 1)) with (S (Z.to_nat i)) by lia. rewrite (drop_S _ _ _ Ho).
  unfold slot_at. rewrite Ho. by destruct o as [kv|].
Qed.

(** Where an iterator over [m] stands when [vs] are the values to come. *)
Definition iterator_at (m : s2n_map) (slots : slots_t) (it : s2n_map_iterator) (vs : list bytes) : Prop :=
  iter_map it = m /\
  (if consumed it then vs = []
   else 0 <= current_index it < map_capacity m /\ slot_at slots (current_index it) <> None /\
        vs = map snd (rest (current_index it) slots)).

Lemma wp_advance_loop fuel w m slots it Q E :
  map_mem (hp w) m slots -> iter_map it = m -> consumed it = false -> 0 <= current_index it <= map_capacity m ->
  map_capacity m - current_index it <= Z.of_nat fuel ->
  (forall it', iterator_at m slots it' (map snd (rest (current_index it) slots)) -> Q tt w it') ->
  wp (advance_loop fuel) (w, it) Q E.
Proof.
  intros Hm Hit Hcon. pose proof (mm_len _ _ _ Hm) as Hlen. destruct (mm_capacity _ _ _ Hm) as [_ Hmax].
  unfold SIZEOF_MAP_ENTRY in Hmax. revert it Hit Hcon. induction fuel as [|fuel IH]; intros it Hit Hcon Hi Hfuel HQ;
    apply wp_bind, wp_get_obj; rewrite Hit; destruct (Z.ltb_spec (current_index it) (map_capacity m)) as [Hlt|Hge]; try lia.
  1,3: apply wp_modify, HQ; split; [done|]; simpl; unfold rest; rewrite drop_ge; [done|unfold zlen in Hlen; lia].
  apply wp_bind, (wp_read_entry _ _ _ slots); [done|lia|]. intros e He Heo.
  pose proof (rest_step slots (current_index it) ltac:(lia)) as Hrest.
  destruct (slot_at slots (current_index it)) as [[k v]|] eqn:Hs.
  - destruct Heo as [Hk _]. rewrite (proj2 (Z.eqb_neq _ _)) by apply Hk. apply wp_ret, HQ. split; [done|].
    rewrite Hcon. split_goal; [lia|lia|congruence|done].
  - rewrite Heo. simpl. apply wp_bind, wp_modify. rewrite u32_small by lia.
    apply IH; simpl; [done|done|lia|lia|]. by rewrite Hrest in HQ.
Qed.

Lemma wp_iterator_next w m slots it v vs Q E :
  map_mem (hp w) m slots -> immutable m = true -> iterator_at m slots it (v :: vs) ->
  (forall b it', refers (hp w) b v -> iterator_at m slots it' vs -> Q b w it') ->
  wp s2n_map_iterator_next (w, it) Q E.
Proof.
  intros Hm Him [Hit Hat] HQ. pose proof (mm_len _ _ _ Hm) as Hlen. destruct (mm_capacity _ _ _ Hm) as [_ Hmax].
  unfold SIZEOF_MAP_ENTRY in Hmax. destruct (consumed it) eqn:Hcon; [done|]. destruct Hat as (Hi & Hs & Hvs).
  rewrite rest_step in Hvs by lia. destruct (slot_at slots (current_index it)) as [[k v']|] eqn:Hsl; [|done].
  simpl in Hvs. injection Hvs as -> ->.
  apply wp_bind, wp_get_obj, wp_bind, wp_ensure; [intros _|by rewrite Hit, Him].
  apply wp_bind, wp_ensure; [intros _|unfold s2n_map_iterator_has_next; by rewrite Hcon].
  apply wp_bind, wp_ensure; [intros _|intros Hz; zbool; rewrite Hit in Hz; lia].
  apply wp_bind. rewrite Hit. apply (wp_read_entry _ _ _ slots); [done|lia|]. rewrite Hsl. intros e He [_ Hov].
  apply wp_bind, (wp_refer _ _ _ v'); [done|]. intros b Hb.
  apply wp_bind. apply wp_bind, wp_get_obj, wp_bind, wp_ensure; [intros _|unfold s2n_map_iterator_has_next; by rewrite Hcon].
  apply wp_bind, wp_modify. rewrite u32_small by lia. rewrite Hit.
  apply (wp_advance_loop _ _ m slots); simpl; [done|done|done|lia|lia|]. intros it' Hat'.
  apply wp_ret. by apply HQ.
Qed.

Lemma wp_iterate fuel w m slots it vs Q E :
  map_mem (hp w) m slots -> immutable m = true -> iterator_at m slots it vs -> (length vs <= fuel)%nat ->
  (forall bs it', Forall2 (refers (hp w)) bs vs -> s2n_map_iterator_has_next it' = false -> Q bs w it') ->
  wp (iterate fuel) (w, it) Q E.
Proof.
  intros Hm Him. revert it vs Q. induction fuel as [|fuel IH]; intros it vs Q Hat Hlen HQ;
    apply wp_bind, wp_get_obj; destruct (s2n_map_iterator_has_next it) eqn:Hn.
  2,4: apply wp_ret, HQ; [|done]; destruct Hat as [_ Hat]; unfold s2n_map_iterator_has_next in Hn;
    destruct (consumed it); [by rewrite Hat|done].
  - destruct Hat as [_ Hat]. unfold s2n_map_iterator_has_next in Hn. destruct (consumed it); [done|].
    destruct Hat as (Hi & Hs & Hvs). rewrite rest_step in Hvs by (rewrite (mm_len _ _ _ Hm); lia).
    destruct (slot_at slots (current_index it)); [|done]. subst vs. simpl in Hlen. lia.
  - assert (exists v vs', vs = v :: vs') as (v & vs' & ->).
    { destruct Hat as [_ Hat]. unfold s2n_map_iterator_has_next in Hn. destruct (consumed it); [done|].
      destruct Hat as (Hi & Hs & Hvs). rewrite rest_step in Hvs by (rewrite (mm_len _ _ _ Hm); lia).
      destruct (slot_at slots (current_index it)); [|done]. simpl in Hvs. eauto. }
    apply wp_bind, (wp_iterator_next _ m slots _ v vs'); [done..|]. intros b it' Hb Hat'.
    apply wp_bind, (IH it' vs'); [done|simpl in Hlen; lia|]. intros bs it'' Hbs Hend.
    apply wp_ret, HQ; [by constructor|done].
Qed.

(** Iteration is complete: on a locked map, an iterator that starts out zeroed returns the
    value of every key exactly once and is then consumed; the map is not
    changed. *)
Theorem map_iteration_complete (w : world) (m : s2n_map) (M : gmap bytes bytes) (fuel : nat)
    (Hmap : map_is (hp w) m M) (Hlocked : immutable m = true) (Hfuel : (base.size M <= fuel)%nat) (m0 : s2n_map) :
  exists bs vs it, (s2n_map_iterator_init m ;;; iterate fuel) (w, MapIterator m0 0 false) = (Ok bs, (w, it)) /\
    Forall2 (refers (hp w)) bs vs /\ vs ≡ₚ map snd (map_to_list M) /\ s2n_map_iterator_has_next it = false.
Proof.
  destruct Hmap as (slots & [Hm Hp Hsz] & Hcon & Hc & _). pose proof (mm_len _ _ _ Hm) as Hlen.
  destruct (mm_capacity _ _ _ Hm) as [_ Hmax]. unfold SIZEOF_MAP_ENTRY in Hmax.
  assert (Hperm : map snd (pairs slots) ≡ₚ map snd (map_to_list M)).
  { rewrite <- Hcon. unfold contents. by rewrite map_to_list_to_map by apply Hp. }
  assert (Hlen' : (length (map snd (pairs slots)) <= fuel)%nat).
  { rewrite length_map. rewrite <- Hcon, contents_size in Hfuel by done. done. }
  pose proof (rest_step slots 0 ltac:(lia)) as Hrest. simpl drop in Hrest.
  assert (Hrun : wp (s2n_map_iterator_init m ;;; iterate fuel) (w, MapIterator m0 0 false)
    (fun bs w' it => w' = w /\ Forall2 (refers (hp w)) bs (map snd (pairs slots)) /\ s2n_map_iterator_has_next it = false)
    (fun _ _ _ => False)).
  { apply wp_bind, wp_bind, wp_ensure; [intros _|by rewrite Hlocked].
    apply wp_bind, wp_get_obj, wp_bind, wp_put_obj, wp_bind, (wp_read_entry _ _ _ slots); [done|lia|]. intros e He Heo. simpl.
    destruct (slot_at slots 0) as [[k v]|] eqn:Hs.
    - destruct Heo as [Hk _]. rewrite (proj2 (Z.eqb_neq _ _)) by apply Hk. apply wp_ret.
      apply (wp_iterate _ _ m slots _ (map snd (pairs slots))); [done|done| |done|done].
      split; [done|]. simpl. split_goal; [lia|lia|congruence|done].
    - rewrite Heo. simpl. apply wp_bind, wp_get_obj, wp_bind, wp_ensure; [intros _|done].
      apply wp_bind, wp_modify. cbn [current_index iter_map set_current_index consumed]. change (u32 (0 + 1)) with 1.
      apply (wp_advance_loop _ _ m slots); cbn [current_index set_current_index]; [done|done|done|lia|lia|].
      intros it' Hat'. apply (wp_iterate _ _ m slots _ (map snd (pairs slots))); [done|done| |done|done].
      change (rest 1 slots) with ([] ++ rest (0 + 1) slots) in Hat'. by rewrite <- Hrest in Hat'. }
  unfold wp in Hrun. destruct (bind _ _ _) as [[bs|e|] [w' it]]; [|done|done].
  destruct Hrun as (-> & Hbs & Hend). by exists bs, (map snd (pairs slots)), it.
Qed.
End Theorems.

(** ** A small table *)

(** All keys collide. *)
Definition demo_hash : MapHash := {| hash_fails := fun _ => None; sha256_word := fun _ => 3 |}.

Lemma demo_hash_ok : @MapHashOk demo_hash.
Proof. by split. Defined.

(** Two slots, the second of which is full; a key and a value of the client. *)
Definition demo_map_heap : heap :=
  list_to_map [(1%positive, repeat 0 96); (2%positive, [5]); (3%positive, [6; 7]); (4%positive, [5; 9])].
Definition demo_map_world : world := World demo_map_heap started_statics.
Definition demo_map (b : bool) : s2n_map := Map 2 1 b (Some (Ptr 1 0))
  [zero_entry; MapEntry (Blob (Some (Ptr 2 0)) 1 1 true) (Blob (Some (Ptr 3 0)) 2 2 true)].
Definition demo_slots : slots_t := [None; Some ([5], [6; 7])].
Definition client_key : s2n_blob := Blob (Some (Ptr 4 0)) 2 0 false.
Definition client_known : s2n_blob := Blob (Some (Ptr 4 0)) 1 0 false.

Lemma demo_map_world_ok : world_ok demo_map_world.
Proof.
  split; [|split; [done|simpl; unfold is_u32; lia]].
  repeat (apply map_Forall_insert_2; [repeat constructor; unfold is_u8; lia|]). apply map_Forall_empty.
Qed.

Lemma demo_blob_ok i l n a (g : bool) : demo_map_heap !! i = Some l -> 0 < n <= zlen l ->
  (if g then a = n else a = 0) -> zlen l < 2 ^ 32 -> blob_ok demo_map_heap (Blob (Some (Ptr i 0)) n a g).
Proof.
  intros Hl Hn Ha Hu. split; simpl; unfold is_u32 in *; try done.
  - lia.
  - destruct g; lia.
  - by intros ->.
  - intros ->. subst a. split_goal; [lia|lia|]. exists (Ptr i 0), l. split_goal; [done..|lia].
  - intros p [= <-]. exists l. simpl. split_goal; [done|lia|destruct g; lia|destruct g; lia].
Qed.

Lemma demo_map_is b : @map_is demo_hash demo_map_heap (demo_map b) {[ [5] := [6; 7] ]}.
Proof.
  exists demo_slots. split_goal; [|done|done|vm_compute; congruence]. split; [| |done].
  - split; simpl; [unfold SIZEOF_MAP_ENTRY; lia|done| | |].
    + constructor; [done|]. constructor; [|constructor].
      split; split; try done; (eapply demo_blob_ok; [reflexivity|vm_compute; intuition congruence|done|done]).
    + right. exists (Ptr 1 0), (repeat 0 96). split_goal; [done..|]. vm_compute. congruence.
    + change (NoDup [1; 2; 3]%positive). by apply (bool_decide_unpack _).
  - split.
    + intros i k v Hi Hs d Hd. assert (i = 0 \/ i = 1) as [-> | ->] by (change (zlen demo_slots) with 2 in Hi; lia); [done|].
      change (0 <= d < 0) in Hd. lia.
    + vm_compute. repeat constructor. set_solver.
Qed.

Definition demo_name (b : s2n_blob) : bytes := blob_bytes demo_map_heap b.

Lemma demo_client b n : data b = Some (Ptr 4 0) -> blob_ok demo_map_heap b ->
  client demo_map_world (demo_map n) b (demo_name b).
Proof.
  intros Hd Hb. split; [by split|]. unfold blob_blocks. rewrite Hd. intros k [<-|[]] Hin.
  simpl in Hin. intuition congruence.
Qed.

Lemma client_blobs_ok : blob_ok demo_map_heap client_key /\ blob_ok demo_map_heap client_known.
Proof. split; (eapply demo_blob_ok; [reflexivity|vm_compute; intuition congruence|done|done]). Qed.

Definition demo_ops : list map_op :=
  [MapAdd client_key client_known; MapAdd client_known client_key; MapPut client_known client_key; MapLookup client_key;
   MapComplete; MapLookup client_key; MapLookup client_known; MapSize].


Lemma demo_run : match @run_map_ops demo_platform demo_hash demo_ops (demo_map_world, demo_map false) with
  | (Ok (rs, err), (_, m')) => err = None /\ map_capacity m' = 4 /\
      rs = [inl MapDone; inr S2N_ERR_MAP_DUPLICATE; inl MapDone; inr S2N_ERR_MAP_MUTABLE; inl MapDone;
            inl (MapFound (Some [5])); inl (MapFound (Some [5; 9])); inl (MapCount 2)]
  | _ => False
  end.
Proof. vm_compute. auto. Qed.

Lemma map_iteration_complete_witness :
  exists bs vs it, (s2n_map_iterator_init (demo_map true) ;;; @iterate demo_platform 1) (demo_map_world, MapIterator (demo_map true) 0 false) =
      (Ok bs, (demo_map_world, it)) /\
    Forall2 (refers (hp demo_map_world)) bs vs /\
    vs ≡ₚ map snd (map_to_list ({[ [5] := [6; 7] ]} : gmap bytes bytes)) /\ s2n_map_iterator_has_next it = false.
Proof.
  apply (@map_iteration_complete demo_platform demo_hash demo_map_world (demo_map true) {[ [5] := [6; 7] ]} 1 (demo_map_is true) eq_refl).
  vm_compute. lia.
Defined.

(** A refused value leaves its key in the table without counting it: the table
    is full although its size says that it is not, and the search for a free
    slot goes round for ever. *)
Example failed_add_fills_table :
  let key := Blob (Some (Ptr 3 0)) 2 0 false in
  exists e w' m', @s2n_map_add demo_platform demo_hash client_key zero_blob (demo_map_world, demo_map false) = (Err e, (w', m')) /\
    map_size m' = 1 /\ map_capacity m' = 2 /\
    forall fuel, probe_loop (S (S fuel)) key 1 (w', m') = probe_loop fuel key 1 (w', m').
Proof. intros key. do 3 eexists. split; [vm_compute; reflexivity|]. split_goal; [done|done|]. intros fuel. reflexivity. Qed.
End MapRefinement.
