(* ===== verification/Stuffer.v ===== *)
(** * stuffer/s2n_stuffer.c: byte streams over blobs

    A stuffer is a blob with a read cursor, a write cursor and a high-water
    mark.  The struct a function receives by pointer is the state of its
    command; the bytes live in the heap.  An out-parameter that is a local
    array of the caller is returned as a value ([LocalDst]). *)
From S2P Require Import Prelude Errors CMem Platform Safety Blob Alloc.
Open Scope Z_scope.

Module Stuffer.

(** struct s2n_stuffer *)
Record s2n_stuffer := Stuffer {
  blob : s2n_blob;
  read_cursor : Z;
  write_cursor : Z;
  high_water_mark : Z;
  alloced : bool;
  st_growable : bool;
  tainted : bool;
}.

Definition set_blob (b : s2n_blob) (s : s2n_stuffer) : s2n_stuffer :=
  Stuffer b (read_cursor s) (write_cursor s) (high_water_mark s) (alloced s) (st_growable s) (tainted s).
Definition set_read_cursor (n : Z) (s : s2n_stuffer) : s2n_stuffer :=
  Stuffer (blob s) n (write_cursor s) (high_water_mark s) (alloced s) (st_growable s) (tainted s).
Definition set_write_cursor (n : Z) (s : s2n_stuffer) : s2n_stuffer :=
  Stuffer (blob s) (read_cursor s) n (high_water_mark s) (alloced s) (st_growable s) (tainted s).
Definition set_high_water_mark (n : Z) (s : s2n_stuffer) : s2n_stuffer :=
  Stuffer (blob s) (read_cursor s) (write_cursor s) n (alloced s) (st_growable s) (tainted s).
Definition set_alloced (v : bool) (s : s2n_stuffer) : s2n_stuffer :=
  Stuffer (blob s) (read_cursor s) (write_cursor s) (high_water_mark s) v (st_growable s) (tainted s).
Definition set_growable (v : bool) (s : s2n_stuffer) : s2n_stuffer :=
  Stuffer (blob s) (read_cursor s) (write_cursor s) (high_water_mark s) (alloced s) v (tainted s).
Definition set_tainted (v : bool) (s : s2n_stuffer) : s2n_stuffer :=
  Stuffer (blob s) (read_cursor s) (write_cursor s) (high_water_mark s) (alloced s) (st_growable s) v.

Definition blob_lens : lens s2n_stuffer s2n_blob := Lens blob set_blob.

(** [(struct s2n_stuffer){ 0 }] *)
Definition zero_stuffer : s2n_stuffer := Stuffer zero_blob 0 0 0 false false false.

Definition S2N_MIN_STUFFER_GROWTH_IN_BYTES : Z := 1024.
Definition S2N_WIPE_PATTERN : Z := 119.

(** The macros of stuffer/s2n_stuffer.h. *)
Definition s2n_stuffer_data_available (s : s2n_stuffer) : Z := u32 (write_cursor s - read_cursor s).
Definition s2n_stuffer_space_remaining (s : s2n_stuffer) : Z := u32 (size (blob s) - write_cursor s).
Definition s2n_stuffer_is_wiped (s : s2n_stuffer) : bool := high_water_mark s =? 0.

(** Where the bytes that are read go. *)
Inductive dest := HeapDst (p : option ptr) | LocalDst.

Definition dest_is_null (d : dest) : bool :=
  match d with HeapDst p => is_null p | LocalDst => false end.

(** CHECKED_MEMCPY(d, from, n); the bytes for a local destination are returned. *)
Definition copy_out {X} (d : dest) (from : option ptr) (n : Z) : Cmd X (list Z) :=
  match d with
  | HeapDst p => checked_memcpy p (HeapBuf from) n ;;; ret []
  | LocalDst => checked_memcpy_out from n
  end.

(** struct iovec *)
Record iovec := Iovec { iov_base : buffer; iov_len : Z }.

(** [(uint8_t * ) base + n] *)
Definition buf_add {X} (b : buffer) (n : Z) : Cmd X buffer :=
  match b with
  | HeapBuf p => q <-- ptr_add p n ;; ret (HeapBuf q)
  | LocalBuf bs => ret (LocalBuf (drop (Z.to_nat n) bs))
  end.

(** [ptr == data] *)
Definition same_ptr (p : option ptr) (b : buffer) : bool :=
  match b with HeapBuf q => bool_decide (p = q) | LocalBuf _ => false end.

Section Definitions.
Context `{Platform}.

Definition s2n_stuffer_validate {X} (s : s2n_stuffer) : Cmd X unit :=
  s2n_blob_validate (blob s) ;;;
  debug_ensure (S2N_IMPLIES (st_growable s) (alloced s)) S2N_ERR_SAFETY ;;;
  debug_ensure (high_water_mark s <=? size (blob s)) S2N_ERR_SAFETY ;;;
  debug_ensure (write_cursor s <=? high_water_mark s) S2N_ERR_SAFETY ;;;
  debug_ensure (read_cursor s <=? write_cursor s) S2N_ERR_SAFETY.

(** POSIX_PRECONDITION / POSIX_POSTCONDITION on the stuffer of the command. *)
Definition pre_validate : Cmd s2n_stuffer unit :=
  s <-- get_obj ;; s2n_stuffer_validate s.
Definition post_validate : Cmd s2n_stuffer unit :=
  s <-- get_obj ;; postcondition (s2n_stuffer_validate s).

Definition s2n_stuffer_init (in_ : s2n_blob) : Cmd s2n_stuffer unit :=
  s2n_blob_validate in_ ;;;
  modify (set_blob in_) ;;;
  modify (set_read_cursor 0) ;;;
  modify (set_write_cursor 0) ;;;
  modify (set_high_water_mark 0) ;;;
  modify (set_alloced false) ;;;
  modify (set_growable false) ;;;
  modify (set_tainted false) ;;;
  post_validate.

Definition s2n_stuffer_alloc (n : Z) : Cmd s2n_stuffer unit :=
  put_obj zero_stuffer ;;;
  zoom blob_lens (s2n_alloc n) ;;;
  s <-- get_obj ;;
  s2n_stuffer_init (blob s) ;;;
  modify (set_alloced true) ;;;
  post_validate.

Definition s2n_stuffer_growable_alloc (n : Z) : Cmd s2n_stuffer unit :=
  s2n_stuffer_alloc n ;;;
  modify (set_growable true) ;;;
  post_validate.

Definition s2n_stuffer_free : Cmd s2n_stuffer unit :=
  pre_validate ;;;
  s <-- get_obj ;;
  (if alloced s then zoom blob_lens s2n_free else ret tt) ;;;
  put_obj zero_stuffer.

Definition s2n_stuffer_free_without_wipe : Cmd s2n_stuffer unit :=
  pre_validate ;;;
  s <-- get_obj ;;
  (if alloced s then zoom blob_lens s2n_free_without_wipe else ret tt) ;;;
  put_obj zero_stuffer.

Definition s2n_stuffer_wipe : Cmd s2n_stuffer unit :=
  pre_validate ;;;
  s <-- get_obj ;;
  (if negb (s2n_stuffer_is_wiped s)
   then checked_memset (data (blob s)) S2N_WIPE_PATTERN (high_water_mark s) else ret tt) ;;;
  modify (set_tainted false) ;;;
  modify (set_write_cursor 0) ;;;
  modify (set_read_cursor 0) ;;;
  modify (set_high_water_mark 0) ;;;
  post_validate.

Definition s2n_stuffer_resize (n : Z) : Cmd s2n_stuffer unit :=
  pre_validate ;;;
  s <-- get_obj ;;
  ensure (negb (tainted s)) S2N_ERR_RESIZE_TAINTED_STUFFER ;;;
  ensure (st_growable s) S2N_ERR_RESIZE_STATIC_STUFFER ;;;
  if n =? size (blob s) then ret tt
  else if n =? 0 then
    attempt s2n_stuffer_wipe ;;;
    zoom blob_lens s2n_free
  else if n <? size (blob s) then
    p <-- ptr_add (data (blob s)) n ;;
    checked_memset p S2N_WIPE_PATTERN (u32 (size (blob s) - n)) ;;;
    (if n <? read_cursor s then modify (set_read_cursor n) else ret tt) ;;;
    (if n <? write_cursor s then modify (set_write_cursor n) else ret tt) ;;;
    (if n <? high_water_mark s then modify (set_high_water_mark n) else ret tt) ;;;
    modify (fun s => set_blob (set_size n (blob s)) s) ;;;
    post_validate
  else
    zoom blob_lens (s2n_realloc n) ;;;
    post_validate.

Definition s2n_stuffer_resize_if_empty (n : Z) : Cmd s2n_stuffer unit :=
  pre_validate ;;;
  s <-- get_obj ;;
  (if is_null (data (blob s)) then
     ensure (negb (tainted s)) S2N_ERR_RESIZE_TAINTED_STUFFER ;;;
     ensure (st_growable s) S2N_ERR_RESIZE_STATIC_STUFFER ;;;
     zoom blob_lens (s2n_realloc n)
   else ret tt) ;;;
  post_validate.

Definition s2n_stuffer_rewrite : Cmd s2n_stuffer unit :=
  pre_validate ;;;
  modify (set_write_cursor 0) ;;;
  modify (set_read_cursor 0) ;;;
  post_validate.

Definition s2n_stuffer_rewind_read (n : Z) : Cmd s2n_stuffer unit :=
  pre_validate ;;;
  s <-- get_obj ;;
  ensure (n <=? read_cursor s) S2N_ERR_STUFFER_OUT_OF_DATA ;;;
  modify (set_read_cursor (u32 (read_cursor s - n))) ;;;
  post_validate.

Definition s2n_stuffer_reread : Cmd s2n_stuffer unit :=
  pre_validate ;;;
  modify (set_read_cursor 0).

Definition s2n_stuffer_wipe_n (n : Z) : Cmd s2n_stuffer unit :=
  pre_validate ;;;
  s <-- get_obj ;;
  let wipe_size := Z.min n (write_cursor s) in
  modify (set_write_cursor (u32 (write_cursor s - wipe_size))) ;;;
  modify (fun s => set_read_cursor (Z.min (read_cursor s) (write_cursor s)) s) ;;;
  s <-- get_obj ;;
  p <-- ptr_add (data (blob s)) (write_cursor s) ;;
  checked_memset p S2N_WIPE_PATTERN wipe_size ;;;
  post_validate.

Definition s2n_stuffer_is_consumed (s : s2n_stuffer) : bool :=
  (read_cursor s =? write_cursor s) && negb (tainted s).

Definition s2n_stuffer_skip_read (n : Z) : Cmd s2n_stuffer unit :=
  pre_validate ;;;
  s <-- get_obj ;;
  ensure (n <=? s2n_stuffer_data_available s) S2N_ERR_STUFFER_OUT_OF_DATA ;;;
  modify (set_read_cursor (u32 (read_cursor s + n))).

(** A failure of the guarded call makes the C function return NULL with
    s2n_errno set; a caller that only tests the pointer uses [attempt]. *)
Definition s2n_stuffer_raw_read (data_len : Z) : Cmd s2n_stuffer (option ptr) :=
  s2n_stuffer_skip_read data_len ;;;
  modify (set_tainted true) ;;;
  s <-- get_obj ;;
  if is_null (data (blob s)) then ret None
  else ptr_add (data (blob s)) (read_cursor s - data_len).

Definition s2n_stuffer_read_bytes (d : dest) (n : Z) : Cmd s2n_stuffer (list Z) :=
  ensure (negb (dest_is_null d)) S2N_ERR_NULL ;;;
  pre_validate ;;;
  s2n_stuffer_skip_read n ;;;
  s <-- get_obj ;;
  ensure_ref (data (blob s)) ;;;
  p <-- ptr_add (data (blob s)) (read_cursor s - n) ;;
  copy_out d p n.

Definition s2n_stuffer_read (out : s2n_blob) : Cmd s2n_stuffer unit :=
  s2n_stuffer_read_bytes (HeapDst (data out)) (size out) ;;; ret tt.

Definition s2n_stuffer_erase_and_read (out : s2n_blob) : Cmd s2n_stuffer unit :=
  s2n_stuffer_skip_read (size out) ;;;
  s <-- get_obj ;;
  p <-- (if is_null (data (blob s)) then ret None
         else ptr_add (data (blob s)) (read_cursor s - size out)) ;;
  ensure (S2N_MEM_IS_READABLE p (size out)) S2N_ERR_NULL ;;;
  checked_memcpy (data out) (HeapBuf p) (size out) ;;;
  checked_memset p 0 (size out).

Definition s2n_stuffer_erase_and_read_bytes (d : dest) (n : Z) : Cmd s2n_stuffer (list Z) :=
  s2n_stuffer_skip_read n ;;;
  s <-- get_obj ;;
  ensure_ref (data (blob s)) ;;;
  p <-- ptr_add (data (blob s)) (read_cursor s - n) ;;
  bs <-- copy_out d p n ;;
  checked_memset p 0 n ;;;
  ret bs.

Definition s2n_stuffer_reserve_space (n : Z) : Cmd s2n_stuffer unit :=
  pre_validate ;;;
  s <-- get_obj ;;
  (if s2n_stuffer_space_remaining s <? n then
     ensure (st_growable s) S2N_ERR_STUFFER_IS_FULL ;;;
     let growth := Z.max (u32 (n - s2n_stuffer_space_remaining s)) S2N_MIN_STUFFER_GROWTH_IN_BYTES in
     new_size <-- s2n_add_overflow (size (blob s)) growth ;;
     s2n_stuffer_resize new_size
   else ret tt) ;;;
  post_validate.

Definition s2n_stuffer_skip_write (n : Z) : Cmd s2n_stuffer unit :=
  pre_validate ;;;
  s2n_stuffer_reserve_space n ;;;
  modify (fun s => set_write_cursor (u32 (write_cursor s + n)) s) ;;;
  modify (fun s => set_high_water_mark (Z.max (write_cursor s) (high_water_mark s)) s) ;;;
  post_validate.

Definition s2n_stuffer_init_written (in_ : s2n_blob) : Cmd s2n_stuffer unit :=
  s2n_stuffer_init in_ ;;;
  s2n_stuffer_skip_write (size in_).

Definition s2n_stuffer_raw_write (data_len : Z) : Cmd s2n_stuffer (option ptr) :=
  s2n_stuffer_skip_write data_len ;;;
  modify (set_tainted true) ;;;
  s <-- get_obj ;;
  if is_null (data (blob s)) then ret None
  else ptr_add (data (blob s)) (write_cursor s - data_len).

Definition s2n_stuffer_write_bytes (d : buffer) (n : Z) : Cmd s2n_stuffer unit :=
  if n =? 0 then ret tt
  else
    ensure (buf_readable d n) S2N_ERR_SAFETY ;;;
    pre_validate ;;;
    s2n_stuffer_skip_write n ;;;
    s <-- get_obj ;;
    p <-- ptr_add (data (blob s)) (write_cursor s - n) ;;
    ensure (S2N_MEM_IS_READABLE p n) S2N_ERR_NULL ;;;
    if same_ptr p d then post_validate
    else
      checked_memcpy p d n ;;;
      post_validate.

Definition s2n_stuffer_write (in_ : s2n_blob) : Cmd s2n_stuffer unit :=
  pre_validate ;;;
  s2n_blob_validate in_ ;;;
  s2n_stuffer_write_bytes (HeapBuf (data in_)) (size in_).

(** The loop of s2n_stuffer_writev_bytes over the remaining [iov] entries. *)
Fixpoint writev_loop (iov : list iovec) (p : option ptr) (size_left to_skip : Z) : Cmd s2n_stuffer unit :=
  match iov with
  | [] => ret tt
  | v :: iov' =>
      if iov_len v <=? to_skip then writev_loop iov' p size_left (to_skip - iov_len v)
      else
        let iov_len_op := iov_len v - to_skip in
        ensure (iov_len_op <=? UINT32_MAX) S2N_ERR_SAFETY ;;;
        let len := u32 iov_len_op in
        let iov_size_to_take := u32 (Z.min size_left len) in
        ensure (negb (buf_is_null (iov_base v))) S2N_ERR_NULL ;;;
        ensure (to_skip <? iov_len v) S2N_ERR_SAFETY ;;;
        src <-- buf_add (iov_base v) to_skip ;;
        checked_memcpy p src iov_size_to_take ;;;
        let size_left := size_left - iov_size_to_take in
        if size_left =? 0 then ret tt
        else
          p <-- ptr_add p iov_size_to_take ;;
          writev_loop iov' p size_left 0
  end.

Definition s2n_stuffer_writev_bytes (iov : list iovec) (offs n : Z) : Cmd s2n_stuffer unit :=
  pre_validate ;;;
  r <-- attempt (s2n_stuffer_raw_write n) ;;
  let p := match r with inl p => p | inr _ => None end in
  ensure (S2N_MEM_IS_READABLE p n) S2N_ERR_NULL ;;;
  writev_loop iov p n offs.

(** State: [(from, to)]. *)
Definition s2n_stuffer_copy_impl (len : Z) : Cmd (s2n_stuffer * s2n_stuffer) unit :=
  zoom fst_lens (s2n_stuffer_skip_read len) ;;;
  zoom snd_lens (s2n_stuffer_skip_write len) ;;;
  st <-- get_obj ;;
  let '(from, to) := st in
  from_ptr <-- (if is_null (data (blob from)) then ret None
                else ptr_add (data (blob from)) (read_cursor from - len)) ;;
  to_ptr <-- (if is_null (data (blob to)) then ret None
              else ptr_add (data (blob to)) (write_cursor to - len)) ;;
  checked_memcpy to_ptr (HeapBuf from_ptr) len.

Definition s2n_stuffer_copy (len : Z) : Cmd (s2n_stuffer * s2n_stuffer) unit :=
  st <-- get_obj ;;
  let orig_read_cursor := read_cursor (fst st) in
  let orig_write_cursor := write_cursor (snd st) in
  r <-- attempt (s2n_stuffer_copy_impl len) ;;
  match r with
  | inl _ => ret tt
  | inr e =>
      zoom fst_lens (modify (set_read_cursor orig_read_cursor)) ;;;
      zoom snd_lens (modify (set_write_cursor orig_write_cursor)) ;;;
      fail e
  end.

(** State: [(stuffer, out)]. *)
Definition s2n_stuffer_extract_blob : Cmd (s2n_stuffer * s2n_blob) unit :=
  zoom fst_lens pre_validate ;;;
  st <-- get_obj ;;
  let s := fst st in
  zoom snd_lens (s2n_realloc (s2n_stuffer_data_available s)) ;;;
  st <-- get_obj ;;
  let out := snd st in
  (if 0 <? s2n_stuffer_data_available s then
     p <-- ptr_add (data (blob s)) (read_cursor s) ;;
     checked_memcpy (data out) (HeapBuf p) (s2n_stuffer_data_available s)
   else ret tt) ;;;
  postcondition (s2n_blob_validate out).

Definition s2n_stuffer_shift : Cmd s2n_stuffer unit :=
  s <-- get_obj ;;
  r <-- with_local s s2n_stuffer_rewrite ;;
  let copy := snd r in
  data_ <-- (if negb (read_cursor s =? 0) then ptr_add (data (blob s)) (read_cursor s)
             else ret (data (blob s))) ;;
  let data_size := s2n_stuffer_data_available s in
  r <-- with_local copy (s2n_stuffer_write_bytes (HeapBuf data_) data_size) ;;
  put_obj (snd r).

End Definitions.

End Stuffer.
Export Stuffer.
