(* ===== verification/StufferInv.v ===== *)
(** * The stuffer invariant and the behaviour of every stuffer operation

    [stuffer_ok] is the validity condition of a stuffer (what
    s2n_stuffer_validate checks, plus ownership of its memory), [written] and
    [unread] are the byte strings it represents, and [step_ok] relates the
    states before and after an operation: the invariant holds again, no memory
    of anybody else has changed, and the stuffer only ever moves to memory that
    was free.  Each operation gets a [wp] rule. *)
From S2P Require Import Prelude Errors CMem Platform Safety Blob Alloc Stuffer.
Open Scope Z_scope.

Module StufferInv.

Record stuffer_ok (h : heap) (s : s2n_stuffer) : Prop := {
  ok_blob : blob_ok h (blob s);
  ok_owner : st_growable s = true -> alloced s = true;
  ok_alloced : alloced s = true -> s2n_blob_is_growable (blob s) = true;
  ok_read : 0 <= read_cursor s <= write_cursor s;
  ok_write : write_cursor s <= high_water_mark s <= size (blob s);
}.

(** The bytes written so far, and those not read yet. *)
Definition written (h : heap) (s : s2n_stuffer) : list Z :=
  match data (blob s) with Some p => bytes_at h p (write_cursor s) | None => [] end.

Definition unread (h : heap) (s : s2n_stuffer) : list Z :=
  drop (Z.to_nat (read_cursor s)) (written h s).

Record step_ok (w : world) (s : s2n_stuffer) (w' : world) (s' : s2n_stuffer) : Prop := {
  step_mem : mem w' = mem w;
  step_heap : heap_ok (hp w');
  step_stuffer : stuffer_ok (hp w') s';
  step_frame : frame (blob s) (hp w) (hp w');
  step_fresh : forall k, in_block (blob s') k -> in_block (blob s) k \/ hp w !! k = None;
}.

(** ** Arithmetic of the cursors *)

Section Basic.
Context {h : heap} {s : s2n_stuffer} (Hs : stuffer_ok h s).

Lemma ok_size32 : 0 <= size (blob s) < 2 ^ 32.
Proof using Hs. apply Hs. Qed.

Lemma data_available_eq : s2n_stuffer_data_available s = write_cursor s - read_cursor s.
Proof using Hs.
  pose proof ok_size32. pose proof (ok_read _ _ Hs). pose proof (ok_write _ _ Hs).
  apply u32_small. lia.
Qed.

Lemma space_remaining_eq : s2n_stuffer_space_remaining s = size (blob s) - write_cursor s.
Proof using Hs.
  pose proof ok_size32. pose proof (ok_read _ _ Hs). pose proof (ok_write _ _ Hs).
  apply u32_small. lia.
Qed.

Lemma data_some n : 0 < n -> n <= size (blob s) -> exists p, data (blob s) = Some p.
Proof using Hs.
  intros. destruct (data (blob s)) as [p|] eqn:Hp; [by exists p|].
  destruct (ok_null _ _ (ok_blob _ _ Hs) Hp) as [? _]. lia.
Qed.

Lemma stuffer_access p i n :
  data (blob s) = Some p -> 0 <= i -> 0 <= n -> i + n <= size (blob s) ->
  valid_access h (Ptr (blk p) (off p + i)) n.
Proof using Hs. intros. eapply blob_access; [apply Hs|done|lia..]. Qed.

Lemma written_len : zlen (written h s) = write_cursor s.
Proof using Hs.
  pose proof (ok_read _ _ Hs). pose proof (ok_write _ _ Hs). unfold written.
  destruct (data (blob s)) as [p|] eqn:Hp.
  - pose proof (stuffer_access p 0 (write_cursor s) Hp ltac:(lia) ltac:(lia) ltac:(lia)) as Hv.
    destruct p as [k o]. simpl in Hv. rewrite Z.add_0_r in Hv. by apply zlen_bytes_at.
  - destruct (ok_null _ _ (ok_blob _ _ Hs) Hp) as [? _]. unfold zlen. simpl. lia.
Qed.

Lemma unread_len : zlen (unread h s) = write_cursor s - read_cursor s.
Proof using Hs.
  pose proof written_len as Hw. pose proof (ok_read _ _ Hs).
  unfold unread, zlen in *. rewrite length_drop. lia.
Qed.

(** The next [n] unread bytes are those at the read cursor. *)
Lemma bytes_at_cursor p n :
  data (blob s) = Some p -> 0 <= n -> n <= write_cursor s - read_cursor s ->
  bytes_at h (Ptr (blk p) (off p + read_cursor s)) n = take (Z.to_nat n) (unread h s).
Proof using Hs.
  intros Hp Hn Hle. pose proof (ok_read _ _ Hs). pose proof (ok_write _ _ Hs).
  pose proof (stuffer_access p 0 (write_cursor s) Hp ltac:(lia) ltac:(lia) ltac:(lia)) as Hv.
  destruct p as [k o]. simpl in *. rewrite Z.add_0_r in Hv.
  unfold unread, written. rewrite Hp.
  by rewrite (bytes_at_sub _ (Ptr k o) (write_cursor s)) by (done || lia).
Qed.
End Basic.

(** ** [step_ok] is a preorder on valid states *)

Lemma step_ok_refl w s : heap_ok (hp w) -> stuffer_ok (hp w) s -> step_ok w s w s.
Proof. intros. split; auto with s2n. Qed.

Lemma step_ok_trans w1 s1 w2 s2 w3 s3 :
  step_ok w1 s1 w2 s2 -> step_ok w2 s2 w3 s3 -> step_ok w1 s1 w3 s3.
Proof.
  intros [M1 H1 S1 F1 N1] [M2 H2 S2 F2 N2]. split; [congruence|done|done| |].
  - intros k l Hk Hb. apply F2; [by apply F1|]. intros Hb2.
    destruct (N1 _ Hb2) as [?|?]; [done|congruence].
  - intros k Hk. destruct (N2 _ Hk) as [Hb|Hnone]; [auto|].
    destruct (hp w1 !! k) as [l|] eqn:Hl; [|auto]. left.
    destruct (data (blob s1)) as [p|] eqn:Hp.
    + destruct (decide (blk p = k)) as [e|ne]; [by exists p|].
      rewrite (F1 k l Hl) in Hnone; [done|]. intros (q & Hq & ?). congruence.
    + rewrite (F1 k l Hl) in Hnone; [done|]. intros (q & Hq & _). congruence.
Qed.

(** A step that only moves cursors. *)
Lemma step_ok_cursors w s s' :
  heap_ok (hp w) -> stuffer_ok (hp w) s' -> blob s' = blob s -> step_ok w s w s'.
Proof. intros Hh Hs' e. split; auto with s2n. intros k Hk. rewrite e in Hk. by left. Qed.

(** A write into the stuffer's own memory. *)
Lemma step_ok_write w s s' p q bs :
  heap_ok (hp w) -> is_bytes bs -> stuffer_ok (hp w) s' -> blob s' = blob s ->
  data (blob s) = Some p -> blk q = blk p -> valid_access (hp w) q (zlen bs) ->
  step_ok w s (World (heap_with (hp w) q bs) (mem w)) s'.
Proof.
  intros Hh Hb [? ? ? ? ?] e Hp Hq Hv. split; simpl; [done|by apply heap_with_ok| | |].
  - split; try done. by apply blob_ok_heap_with.
  - by eapply frame_heap_with.
  - intros k Hk. rewrite e in Hk. by left.
Qed.

#[export] Hint Resolve step_ok_refl step_stuffer step_heap step_mem ok_blob : s2n.

(** ** Validation *)

Section Rules.
Context `{HP : Platform}.

Lemma stuffer_validate_ok {X} (w : world) (x : X) s :
  stuffer_ok (hp w) s -> s2n_stuffer_validate s (w, x) = (Ok tt, (w, x)).
Proof.
  intros [Hb Ho Ha Hr Hw]. unfold s2n_stuffer_validate, bind. rewrite blob_validate_ok by done.
  rewrite !debug_ensure_true; try done; try (apply Z.leb_le; lia).
  unfold S2N_IMPLIES. destruct (st_growable s); [by rewrite Ho|done].
Qed.

Lemma wp_pre_validate (w : world) s Q E :
  stuffer_ok (hp w) s -> Q tt w s -> wp pre_validate (w, s) Q E.
Proof. intros Hs HQ. apply (wp_run _ _ tt w s); [|done]. by apply (stuffer_validate_ok w s). Qed.

Lemma wp_post_validate (w : world) s Q E :
  stuffer_ok (hp w) s -> Q tt w s -> wp post_validate (w, s) Q E.
Proof.
  intros Hs HQ. apply (wp_run _ _ tt w s); [|done].
  by apply (postcondition_ok (s2n_stuffer_validate s)), stuffer_validate_ok.
Qed.

(** ** Reading *)

Lemma set_read_ok h s n :
  stuffer_ok h s -> 0 <= n <= write_cursor s -> stuffer_ok h (set_read_cursor n s).
Proof. intros [? ? ? ? ?] ?. by split. Qed.

(** The stuffer after [n] more bytes have been read. *)
Definition advanced (n : Z) (s : s2n_stuffer) : s2n_stuffer := set_read_cursor (read_cursor s + n) s.

Lemma advanced_0 s : advanced 0 s = s.
Proof. destruct s. unfold advanced, set_read_cursor. simpl. by rewrite Z.add_0_r. Qed.

Lemma advanced_advanced m n s : advanced m (advanced n s) = advanced (n + m) s.
Proof. unfold advanced, set_read_cursor. simpl. f_equal. lia. Qed.

Lemma advanced_ok h s n :
  stuffer_ok h s -> 0 <= n <= write_cursor s - read_cursor s -> stuffer_ok h (advanced n s).
Proof. intros Hs ?. apply set_read_ok; [done|]. pose proof (ok_read _ _ Hs). lia. Qed.

Lemma unread_advanced h s n :
  stuffer_ok h s -> 0 <= n <= write_cursor s - read_cursor s ->
  unread h (advanced n s) = drop (Z.to_nat n) (unread h s).
Proof.
  intros Hs ?. unfold unread, advanced, written. simpl. pose proof (ok_read _ _ Hs).
  rewrite drop_drop. f_equal. lia.
Qed.

Lemma wp_skip_read (w : world) s n Q E :
  stuffer_ok (hp w) s -> 0 <= n ->
  (n <= write_cursor s - read_cursor s -> Q tt w (advanced n s)) ->
  (write_cursor s - read_cursor s < n -> E S2N_ERR_STUFFER_OUT_OF_DATA w s) ->
  wp (s2n_stuffer_skip_read n) (w, s) Q E.
Proof.
  intros Hs Hn HQ HE. apply wp_bind, wp_pre_validate; [done|]. apply wp_bind, wp_get_obj.
  rewrite (data_available_eq Hs). apply wp_bind, wp_ensure; intros Hle; zbool; [|auto].
  apply wp_modify. pose proof (ok_read _ _ Hs). pose proof (ok_write _ _ Hs). pose proof (ok_size32 Hs).
  rewrite u32_small by lia. auto.
Qed.

Lemma wp_read_bytes_local (w : world) s n Q E :
  stuffer_ok (hp w) s -> 0 < n ->
  (n <= write_cursor s - read_cursor s -> Q (take (Z.to_nat n) (unread (hp w) s)) w (advanced n s)) ->
  (write_cursor s - read_cursor s < n -> E S2N_ERR_STUFFER_OUT_OF_DATA w s) ->
  wp (s2n_stuffer_read_bytes LocalDst n) (w, s) Q E.
Proof.
  intros Hs Hn HQ HE. pose proof (ok_read _ _ Hs). pose proof (ok_write _ _ Hs).
  apply wp_bind, wp_ensure; [intros _|done].
  apply wp_bind, wp_pre_validate; [done|]. apply wp_bind, wp_skip_read; [done|lia| |done].
  intros Hle. destruct (data_some Hs n) as [p Hp]; [lia..|].
  apply wp_bind, wp_get_obj. simpl. unfold ensure_ref. rewrite Hp.
  apply wp_bind, wp_ensure; [intros _|done]. apply wp_bind, wp_ptr_add_some.
  replace (read_cursor s + n - n) with (read_cursor s) by lia.
  unfold copy_out, checked_memcpy_out. rewrite (proj2 (Z.eqb_neq n 0)) by lia.
  apply wp_load; [apply (stuffer_access Hs); [done|lia..]|].
  rewrite (bytes_at_cursor Hs) by (done || lia). auto.
Qed.

End Rules.

(** ** A concrete state: a static stuffer of 8 bytes, 4 written and 1 read *)

Definition demo_heap : heap := {[1%positive := [10; 20; 30; 40; 0; 0; 0; 0]]}.
Definition demo_world : world := World demo_heap started_statics.
Definition demo_stuffer : s2n_stuffer := Stuffer (Blob (Some (Ptr 1 0)) 8 0 false) 1 4 4 false false false.

Lemma demo_world_ok : world_ok demo_world.
Proof.
  split; [apply map_Forall_singleton; solve_bytes|]. split; [done|]. simpl. unfold is_u32. lia.
Qed.

Lemma demo_stuffer_ok : stuffer_ok (hp demo_world) demo_stuffer.
Proof.
  split; simpl; try done; try lia.
  split; simpl; unfold is_u32; try done; try lia. intros p [= <-]. solve_valid_access.
Qed.

End StufferInv.
Export StufferInv.
