(* ===== verification/StufferWrite.v ===== *)
(** * Wiping, growing and writing

    The rules of the stuffer operations that change memory, proved against the
    allocator's contract ([BlobAllocator]) and not against its code. *)
From S2P Require Import Prelude Errors CMem Platform Safety Blob Alloc Stuffer StufferInv.
Open Scope Z_scope.

Module StufferWrite.

(** [n] bytes at [p] overwritten by [c]. *)
Definition fill (h : heap) (p : option ptr) (c n : Z) : heap :=
  match p with Some q => heap_with h q (repeat (u8 c) (Z.to_nat n)) | None => h end.

Lemma step_world_ok w s w' s' : world_ok w -> step_ok w s w' s' -> world_ok w'.
Proof. intros [_ Hm] Hst. split; [apply Hst|]. by rewrite (step_mem _ _ _ _ Hst). Qed.

(** The invariant only looks at these fields. *)
Lemma stuffer_ok_cursors h s r wr hwm t :
  stuffer_ok h s -> 0 <= r <= wr -> wr <= hwm <= size (blob s) ->
  stuffer_ok h (Stuffer (blob s) r wr hwm (alloced s) (st_growable s) t).
Proof. intros [? ? ? ? ?] ??. by split. Qed.

Lemma set_tainted_ok h s t : stuffer_ok h s -> stuffer_ok h (set_tainted t s).
Proof. intros [? ? ? ? ?]. by split. Qed.

(** What was written is a prefix of the blob. *)
Lemma written_blob h s :
  stuffer_ok h s -> written h s = zslice (blob_bytes h (blob s)) 0 (write_cursor s).
Proof.
  intros Hs. unfold written, blob_bytes. pose proof (ok_read _ _ Hs). pose proof (ok_write _ _ Hs).
  destruct (data (blob s)) as [p|] eqn:Hp.
  - rewrite <- (bytes_at_sub _ p (size (blob s))); [|apply (blob_access_all _ _ _ (ok_blob _ _ Hs) Hp)|lia..].
    destruct p. simpl. by rewrite Z.add_0_r.
  - unfold zslice. by rewrite drop_nil, take_nil.
Qed.

(** ** Filling a range of the stuffer's memory *)

Section Fill.
Context (w : world) (s : s2n_stuffer) (i c n : Z).
Hypothesis Hh : heap_ok (hp w).
Hypothesis Hs : stuffer_ok (hp w) s.
Hypothesis Hi : 0 <= i.
Hypothesis Hn : 0 <= n.
Hypothesis Hin : i + n <= size (blob s).

Definition at_offset (i : Z) (s : s2n_stuffer) : option ptr :=
  match data (blob s) with Some q => Some (Ptr (blk q) (off q + i)) | None => None end.

Lemma wp_fill {X} (x : X) Q E :
  Q tt (World (fill (hp w) (at_offset i s) c n) (mem w)) x ->
  wp (checked_memset (at_offset i s) c n) (w, x) Q E.
Proof using Hh Hs Hi Hn Hin.
  unfold at_offset. intros HQ. destruct (data (blob s)) as [q|] eqn:Hq.
  - apply wp_checked_memset; [done| | |done].
    + intros _. by apply (stuffer_access Hs).
    + intros e. rewrite e in HQ. simpl in HQ. rewrite heap_with_nil in HQ. by destruct w.
  - destruct (ok_null _ _ (ok_blob _ _ Hs) Hq) as [? _]. unfold checked_memset.
    replace n with 0 by lia. apply wp_ret. by destruct w.
Qed.

Lemma step_ok_fill s' :
  stuffer_ok (hp w) s' -> blob s' = blob s ->
  step_ok w s (World (fill (hp w) (at_offset i s) c n) (mem w)) s'.
Proof using Hh Hs Hi Hn Hin.
  intros Hs' e. unfold fill, at_offset. destruct (data (blob s)) as [q|] eqn:Hq.
  - apply (step_ok_write _ _ _ q); [done| |done|done|done|done|].
    + apply is_bytes_repeat, u8_range.
    + rewrite zlen_repeat by done. by apply (stuffer_access Hs).
  - destruct w. by apply step_ok_cursors.
Qed.

(** Bytes before the filled range are kept. *)
Lemma fill_before s' :
  blob s' = blob s -> stuffer_ok (hp w) s' -> write_cursor s' <= i ->
  written (fill (hp w) (at_offset i s) c n) s' = written (hp w) s'.
Proof using Hh Hs Hi Hn Hin.
  intros e Hs' Hle. unfold written, fill, at_offset. rewrite e.
  destruct (data (blob s)) as [q|] eqn:Hq; [|done].
  pose proof (ok_read _ _ Hs'). pose proof (ok_write _ _ Hs').
  apply bytes_at_heap_with_disjoint.
  - rewrite zlen_repeat by done. by apply (stuffer_access Hs).
  - pose proof (stuffer_access Hs q 0 (write_cursor s') Hq) as Hv. rewrite Z.add_0_r in Hv.
    destruct q. apply Hv; lia.
  - simpl. lia.
Qed.
End Fill.

Lemma at_offset_0 s : at_offset 0 s = data (blob s).
Proof. unfold at_offset. destruct (data (blob s)) as [[k o]|]; simpl; [by rewrite Z.add_0_r|done]. Qed.

Section Rules.
Context `{HP : Platform}.

Lemma wp_at_offset {X} (w : world) (x : X) s i Q E :
  stuffer_ok (hp w) s -> 0 <= i <= size (blob s) ->
  Q (at_offset i s) w x -> wp (ptr_add (data (blob s)) i) (w, x) Q E.
Proof.
  intros Hs Hi. unfold at_offset. destruct (data (blob s)) as [q|] eqn:Hq; [done|].
  intros HQ. destruct (ok_null _ _ (ok_blob _ _ Hs) Hq) as [? _]. simpl.
  replace i with 0 by lia. by apply wp_ret.
Qed.

(** ** s2n_stuffer_wipe and s2n_stuffer_wipe_n *)

Definition wiped (s : s2n_stuffer) : s2n_stuffer :=
  Stuffer (blob s) 0 0 0 (alloced s) (st_growable s) false.

Lemma wiped_ok h s : stuffer_ok h s -> stuffer_ok h (wiped s).
Proof. intros Hs. apply stuffer_ok_cursors; [done|lia|]. pose proof (ok_size32 Hs). lia. Qed.

Lemma wp_wipe (w : world) s Q E :
  heap_ok (hp w) -> stuffer_ok (hp w) s ->
  (forall h', h' = fill (hp w) (data (blob s)) S2N_WIPE_PATTERN (high_water_mark s) ->
     step_ok w s (World h' (mem w)) (wiped s) -> Q tt (World h' (mem w)) (wiped s)) ->
  wp s2n_stuffer_wipe (w, s) Q E.
Proof.
  intros Hh Hs HQ. pose proof (ok_read _ _ Hs). pose proof (ok_write _ _ Hs).
  apply wp_bind, wp_pre_validate; [done|]. apply wp_bind, wp_get_obj. apply wp_bind.
  specialize (HQ _ eq_refl). rewrite <- at_offset_0 in HQ |- *.
  pose proof (step_ok_fill w s 0 S2N_WIPE_PATTERN (high_water_mark s) Hh Hs ltac:(lia) ltac:(lia)
    ltac:(lia) (wiped s) (wiped_ok _ _ Hs) eq_refl) as Hstep.
  assert (Hfin : wp (modify (set_tainted false) ;;; modify (set_write_cursor 0) ;;;
     modify (set_read_cursor 0) ;;; modify (set_high_water_mark 0) ;;; post_validate)
     (World (fill (hp w) (at_offset 0 s) S2N_WIPE_PATTERN (high_water_mark s)) (mem w), s) Q E).
  { do 4 (apply wp_bind, wp_modify). apply wp_post_validate; [|by apply HQ]. apply Hstep. }
  destruct (s2n_stuffer_is_wiped s) eqn:Hw; simpl; unfold s2n_stuffer_is_wiped in Hw; zbool.
  - apply wp_ret. rewrite Hw in Hfin. unfold fill in Hfin. simpl in Hfin.
    destruct (at_offset 0 s); [rewrite heap_with_nil in Hfin|]; by destruct w.
  - apply wp_fill; [done|done|lia..|done].
Qed.

(** The stuffer without its last [k] written bytes. *)
Definition truncated (k : Z) (s : s2n_stuffer) : s2n_stuffer :=
  let wc := write_cursor s - Z.min k (write_cursor s) in
  Stuffer (blob s) (Z.min (read_cursor s) wc) wc (high_water_mark s) (alloced s) (st_growable s) (tainted s).

Lemma truncated_ok h s k : 0 <= k -> stuffer_ok h s -> stuffer_ok h (truncated k s).
Proof.
  intros Hk Hs. pose proof (ok_read _ _ Hs). pose proof (ok_write _ _ Hs).
  apply stuffer_ok_cursors; [done|lia..].
Qed.

Lemma wp_wipe_n (w : world) s k Q E :
  heap_ok (hp w) -> stuffer_ok (hp w) s -> 0 <= k ->
  (forall h', h' = fill (hp w) (at_offset (write_cursor (truncated k s)) s) S2N_WIPE_PATTERN
                     (Z.min k (write_cursor s)) ->
     step_ok w s (World h' (mem w)) (truncated k s) -> Q tt (World h' (mem w)) (truncated k s)) ->
  wp (s2n_stuffer_wipe_n k) (w, s) Q E.
Proof.
  intros Hh Hs Hk HQ. pose proof (ok_read _ _ Hs). pose proof (ok_write _ _ Hs).
  pose proof (ok_size32 Hs). pose proof (truncated_ok _ _ k Hk Hs) as Ht.
  apply wp_bind, wp_pre_validate; [done|]. apply wp_bind, wp_get_obj.
  cbv beta zeta. rewrite u32_small by lia. do 2 (apply wp_bind, wp_modify).
  change (set_read_cursor _ _) with (truncated k s).
  apply wp_bind, wp_get_obj. change (blob (truncated k s)) with (blob s).
  apply wp_bind, (wp_at_offset _ _ s); [done|simpl; lia|].
  apply wp_bind, wp_fill; [done|done|simpl; lia..|]. apply wp_post_validate.
  - apply step_ok_fill; try done; simpl; lia.
  - apply HQ; [done|]. apply step_ok_fill; try done; simpl; lia.
Qed.

(** ** s2n_stuffer_resize *)

(** The stuffer cut down or extended to [n] bytes. *)
Definition clipped (b' : s2n_blob) (n : Z) (s : s2n_stuffer) : s2n_stuffer :=
  Stuffer b' (Z.min n (read_cursor s)) (Z.min n (write_cursor s)) (Z.min n (high_water_mark s))
    (alloced s) (st_growable s) (tainted s).

Record resized (w : world) (s : s2n_stuffer) (n : Z) (w' : world) (s' : s2n_stuffer) : Prop := {
  resized_step : step_ok w s w' s';
  resized_shape : exists b', s' = clipped b' n s;
  resized_size : size (blob s') = n;
  resized_bytes : written (hp w') s' = take (Z.to_nat n) (written (hp w) s);
}.

(** After a failure the stuffer keeps its memory; its contents survive unless
    an application's free callback refused to free. *)
Record kept (w : world) (s : s2n_stuffer) (w' : world) (s' : s2n_stuffer) : Prop := {
  kept_step : step_ok w s w' s';
  kept_blob : blob s' = blob s;
  kept_all : s2n_mem_free_cb (mem w) <> UserImpl ->
    s' = s /\ written (hp w') s = written (hp w) s;
}.

Lemma kept_refl w s : heap_ok (hp w) -> stuffer_ok (hp w) s -> kept w s w s.
Proof. intros. split; auto with s2n. Qed.

(** A reallocation that keeps every byte below the high-water mark. *)
Lemma step_ok_realloc w s n w' b' :
  stuffer_ok (hp w) s -> high_water_mark s <= n -> realloc_post w (blob s) n w' b' ->
  resized w s n w' (set_blob b' s).
Proof.
  intros Hs Hn (Hm & Hh & Hb & Hsz & Hg & Hf & Hfr & Hbytes).
  pose proof (ok_read _ _ Hs). pose proof (ok_write _ _ Hs).
  assert (Hs' : stuffer_ok (hp w') (set_blob b' s)).
  { split; simpl; try done; try apply Hs. lia. }
  split; [by split| |done|].
  - exists b'. unfold clipped, set_blob. by rewrite !Z.min_r by lia.
  - rewrite (take_ge (written _ _)) by (pose proof (written_len Hs); unfold zlen in *; lia).
    rewrite !written_blob by done. simpl.
    assert (Hcut : forall l : list Z,
      zslice l 0 (write_cursor s) = zslice (zslice l 0 (Z.min n (size (blob s)))) 0 (write_cursor s))
      by (intros l; rewrite zslice_zslice by lia; done).
    rewrite (Hcut (blob_bytes (hp w') b')), (Hcut (blob_bytes (hp w) (blob s))). by rewrite Hbytes.
Qed.

Lemma set_blob_id s : set_blob (blob s) s = s.
Proof. by destruct s. Qed.

Lemma kept_realloc w s w' b' :
  stuffer_ok (hp w) s -> realloc_err w (blob s) w' b' -> kept w s w' (set_blob b' s).
Proof.
  intros Hs (-> & Hm & Hh & Hb & Hf & Hk). rewrite set_blob_id.
  assert (Hs' : stuffer_ok (hp w') s) by (destruct Hs; by split).
  split; [split|done|]; try done.
  - intros k Hk'. by left.
  - intros Hu. split; [done|]. unfold written. destruct (data (blob s)) as [p|] eqn:Hp; [|done].
    apply bytes_at_ext, Hk; [done|by exists p].
Qed.

Section Growing.
Context `{!BlobAllocator}.

(** Freeing the whole blob of a growable stuffer. *)
Lemma wp_free_blob (w : world) s Q E :
  world_ok w -> stuffer_ok (hp w) s -> alloced s = true ->
  read_cursor s = 0 -> write_cursor s = 0 -> high_water_mark s = 0 ->
  (forall w', resized w s 0 w' (set_blob zero_blob s) -> Q tt w' (set_blob zero_blob s)) ->
  (forall e w', s2n_mem_free_cb (mem w) = UserImpl -> step_ok w s w' s -> E e w' s) ->
  wp (zoom blob_lens s2n_free) (w, s) Q E.
Proof.
  intros Hw Hs Ha Hr Hwr Hhw HQ HE. apply wp_zoom.
  eapply wp_mono; [by apply free_spec; [|apply Hs]| |].
  - intros [] w' b' [Eb Ew]. rewrite Eb, Ew. simpl. apply HQ. split; simpl; [|exists zero_blob|done|].
    + split; simpl; [done|apply heap_ok_freed, Hw| |apply frame_freed|].
      * split; simpl; auto with s2n; lia.
      * by intros k (p & ? & _).
    + unfold clipped, set_blob. by rewrite Hr, Hwr, Hhw.
    + done.
  - intros e w' b' (Eb & Ew & Hu). rewrite Eb, Ew. simpl. rewrite set_blob_id. apply HE.
    + by apply Hu, Hs.
    + split; simpl; [done|apply heap_ok_zeroed, Hw| |apply frame_zeroed, Hs|by left].
      destruct Hs; split; try done. by apply blob_ok_zeroed.
Qed.

Lemma resized_trans_wipe w s w1 w2 s2 :
  stuffer_ok (hp w) s -> tainted s = false ->
  step_ok w s w1 (wiped s) -> resized w1 (wiped s) 0 w2 s2 -> resized w s 0 w2 s2.
Proof.
  intros Hs Ht H1 [H2 [b' ->] Hsz Hby]. destruct Hs as [_ _ _ Hr Hw].
  split; [by eapply step_ok_trans| |done|by rewrite Hby].
  exists b'. unfold clipped, wiped. simpl. rewrite Ht. f_equal; lia.
Qed.

Lemma set_size_growable n b :
  s2n_blob_is_growable b = true -> 0 < size b -> s2n_blob_is_growable (set_size n b) = true.
Proof. unfold s2n_blob_is_growable. simpl. destruct (growable b); [done|]. intros ??. zbool. lia. Qed.

(** Cutting the stuffer down to [n] bytes in place. *)
Lemma wp_shrink (w : world) s n Q E :
  heap_ok (hp w) -> stuffer_ok (hp w) s -> st_growable s = true -> 0 < n < size (blob s) ->
  (forall w' s', resized w s n w' s' -> Q tt w' s') ->
  wp (p <-- ptr_add (data (blob s)) n ;;
      checked_memset p S2N_WIPE_PATTERN (u32 (size (blob s) - n)) ;;;
      (if n <? read_cursor s then modify (set_read_cursor n) else ret tt) ;;;
      (if n <? write_cursor s then modify (set_write_cursor n) else ret tt) ;;;
      (if n <? high_water_mark s then modify (set_high_water_mark n) else ret tt) ;;;
      modify (fun s => set_blob (set_size n (blob s)) s) ;;;
      post_validate) (w, s) Q E.
Proof.
  intros Hh Hs Hg Hn HQ. pose proof (ok_size32 Hs). destruct Hs as [Hb Ho Ha Hr Hw] eqn:Es. clear Es.
  rewrite u32_small by lia. apply wp_bind, wp_at_offset; [done|lia|].
  apply wp_bind, wp_fill; [done|done|lia..|].
  set (w' := World _ (mem w)).
  assert (Hb' : blob_ok (hp w) (set_size n (blob s))).
  { pose proof (growable_size _ _ Hb (Ha (Ho Hg))). apply set_size_ok; try done; [auto|lia..]. }
  assert (Hs1 : stuffer_ok (hp w) (clipped (blob s) n s)) by (split; simpl; try done; lia).
  pose proof (step_ok_fill w s n S2N_WIPE_PATTERN (size (blob s) - n) Hh Hs ltac:(lia) ltac:(lia)
    ltac:(lia) _ Hs1 eq_refl) as Hst. fold w' in Hst.
  assert (Hb2 : blob_ok (hp w') (set_size n (blob s))).
  { pose proof (growable_size _ _ Hb (Ha (Ho Hg))).
    apply set_size_ok; [apply (ok_blob _ _ (step_stuffer _ _ _ _ Hst))|auto|lia..]. }
  assert (Hst' : step_ok w s w' (clipped (set_size n (blob s)) n s)).
  { destruct Hst as [? ? [? ? ? ? ?] ? ?]. split; try done. split; simpl in *; try done; try lia.
    intros Hal. apply (set_size_growable n); [by apply Ha|lia]. }
  assert (Hfin : wp post_validate (w', clipped (set_size n (blob s)) n s) Q E).
  { apply wp_post_validate; [apply Hst'|]. apply HQ. split; [done|by eexists|done|].
    change (written (hp w') (clipped (blob s) n s) = take (Z.to_nat n) (written (hp w) s)).
    unfold w'. simpl hp. rewrite (fill_before w s) by (done || (simpl; lia)).
    rewrite !written_blob by done. simpl. unfold zslice. rewrite !drop_0, take_take. f_equal. lia. }
  destruct (Z.ltb_spec n (read_cursor s)), (Z.ltb_spec n (write_cursor s)),
    (Z.ltb_spec n (high_water_mark s)).
  all: do 3 (apply wp_bind; first [apply wp_modify|apply wp_ret]); apply wp_bind, wp_modify; cbv beta.
  all: match goal with |- wp _ (_, ?x) _ _ =>
         replace x with (clipped (set_size n (blob s)) n s); [done|] end.
  all: unfold clipped, set_blob, set_high_water_mark, set_write_cursor, set_read_cursor; simpl.
  all: f_equal; lia.
Qed.

Lemma resized_refl w s n :
  heap_ok (hp w) -> stuffer_ok (hp w) s -> n = size (blob s) -> resized w s n w s.
Proof.
  intros Hh Hs ->. pose proof (written_len Hs). destruct Hs as [Hb Ho Ha Hr Hw] eqn:Es. clear Es.
  split; auto with s2n.
  - exists (blob s). unfold clipped. destruct s; simpl in *. f_equal; lia.
  - rewrite take_ge; [done|]. unfold zlen in *. lia.
Qed.

Lemma wp_resize (w : world) s n Q E :
  world_ok w -> stuffer_ok (hp w) s -> is_u32 n ->
  (forall w' s', tainted s = false -> st_growable s = true -> resized w s n w' s' -> Q tt w' s') ->
  (forall e w' s', kept w s w' s' -> E e w' s') ->
  wp (s2n_stuffer_resize n) (w, s) Q E.
Proof.
  intros Hw Hs Hn HQ HE. pose proof Hw as [Hh Hm]. pose proof (ok_write _ _ Hs). unfold is_u32 in Hn.
  apply wp_bind, wp_pre_validate; [done|]. apply wp_bind, wp_get_obj.
  apply wp_bind, wp_ensure; intros Ht; [|by apply HE, kept_refl].
  apply wp_bind, wp_ensure; intros Hg; [|by apply HE, kept_refl].
  apply negb_true_iff in Ht.
  destruct (Z.eqb_spec n (size (blob s))); [apply wp_ret, HQ; [done..|by apply resized_refl]|].
  destruct (Z.eqb_spec n 0) as [->|].
  { apply wp_bind, wp_attempt, wp_wipe; [done..|]. intros h' _ Hst.
    apply wp_free_blob; try done; [by eapply step_world_ok|apply Hst|by apply Hs| |].
    - intros w' Hr. apply HQ; [done..|]. by eapply resized_trans_wipe.
    - intros e w' Hu Hst2. apply HE. split; [by eapply step_ok_trans|done|done]. }
  destruct (Z.ltb_spec n (size (blob s))).
  { apply wp_shrink; [done..|lia|]. intros. by apply HQ. }
  apply wp_bind, wp_zoom. eapply wp_mono; [by apply realloc_spec; [|apply Hs|]| |].
  - intros [] w' b' [_ Hpost]. apply step_ok_realloc in Hpost; [|done|lia].
    apply wp_post_validate; [apply Hpost|]. by apply HQ.
  - intros e w' b' Herr. by apply HE, kept_realloc.
Qed.

(** ** s2n_stuffer_reserve_space, s2n_stuffer_skip_write *)

(** The stuffer has room for [n] more bytes and is otherwise the same. *)
Record reserved (w : world) (s : s2n_stuffer) (n : Z) (w' : world) (s' : s2n_stuffer) : Prop := {
  rsv_step : step_ok w s w' s';
  rsv_shape : s' = set_blob (blob s') s;
  rsv_room : write_cursor s + n <= size (blob s');
  rsv_bytes : written (hp w') s' = written (hp w) s;
  rsv_fits : n <= size (blob s) - write_cursor s -> w' = w /\ s' = s;
}.

Lemma resized_reserved w s n m w' s' :
  stuffer_ok (hp w) s -> size (blob s) <= m -> write_cursor s + n <= m ->
  size (blob s) - write_cursor s < n -> resized w s m w' s' -> reserved w s n w' s'.
Proof.
  intros Hs ??? [Hst [b' ->] Hsz Hby]. pose proof (written_len Hs). destruct Hs as [_ _ _ Hr Hw].
  split; [done| |simpl in *; lia| |lia].
  - unfold clipped, set_blob. simpl. f_equal; lia.
  - rewrite Hby, take_ge; [done|]. unfold zlen in *. lia.
Qed.

(** Failure can only come from a lack of room. *)
Definition full_err (w : world) (s : s2n_stuffer) (n : Z) (w' : world) (s' : s2n_stuffer) : Prop :=
  size (blob s) - write_cursor s < n /\ kept w s w' s'.

Lemma wp_reserve_space (w : world) s n Q E :
  world_ok w -> stuffer_ok (hp w) s -> is_u32 n ->
  (forall w' s', reserved w s n w' s' -> Q tt w' s') ->
  (forall e w' s', full_err w s n w' s' -> E e w' s') ->
  wp (s2n_stuffer_reserve_space n) (w, s) Q E.
Proof.
  intros Hw Hs Hn HQ HE. pose proof (ok_size32 Hs). pose proof (ok_read _ _ Hs). pose proof (ok_write _ _ Hs).
  unfold is_u32 in Hn. pose proof Hw as [Hh Hm].
  apply wp_bind, wp_pre_validate; [done|]. apply wp_bind, wp_get_obj.
  rewrite (space_remaining_eq Hs). apply wp_bind.
  destruct (Z.ltb_spec (size (blob s) - write_cursor s) n).
  - assert (Herr : full_err w s n w s) by (split; [done|by apply kept_refl]).
    apply wp_bind, wp_ensure; intros Hg; [|by apply HE].
    rewrite u32_small by lia. cbv zeta. unfold S2N_MIN_STUFFER_GROWTH_IN_BYTES.
    apply wp_bind. unfold wp at 1. rewrite s2n_add_overflow_eq by (unfold is_u32; lia).
    unfold UINT32_MAX. zcase; [|by apply HE].
    apply wp_resize; [done|done|unfold is_u32; lia| |].
    + intros w' s' _ _ Hres. apply wp_post_validate; [apply Hres|]. apply HQ.
      eapply resized_reserved; [done| | |done|done]; lia.
    + intros e w' s' Hk. apply HE. by split.
  - apply wp_ret, wp_post_validate; [done|]. apply HQ. split; auto with s2n; [by rewrite set_blob_id|lia].
Qed.

(** The stuffer with [n] more bytes counted as written. *)
Definition extended_by (b' : s2n_blob) (n : Z) (s : s2n_stuffer) : s2n_stuffer :=
  Stuffer b' (read_cursor s) (write_cursor s + n) (Z.max (write_cursor s + n) (high_water_mark s))
    (alloced s) (st_growable s) (tainted s).

Record extended (w : world) (s : s2n_stuffer) (n : Z) (w' : world) (s' : s2n_stuffer) : Prop := {
  ext_step : step_ok w s w' s';
  ext_shape : exists b', s' = extended_by b' n s;
  ext_bytes : take (Z.to_nat (write_cursor s)) (written (hp w') s') = written (hp w) s;
  ext_fits : n <= size (blob s) - write_cursor s -> w' = w /\ blob s' = blob s;
}.

Lemma reserved_extended w s n w' s' :
  stuffer_ok (hp w) s -> 0 <= n -> reserved w s n w' s' -> extended w s n w' (extended_by (blob s') n s').
Proof.
  intros Hs Hn [Hst Hsh Hroom Hby Hfit]. pose proof (ok_read _ _ Hs). pose proof (ok_write _ _ Hs).
  assert (Hs' := step_stuffer _ _ _ _ Hst).
  assert (Hext : extended_by (blob s') n s' = extended_by (blob s') n s) by (by rewrite Hsh).
  assert (Hs2 : stuffer_ok (hp w') (extended_by (blob s') n s')).
  { rewrite Hext. destruct Hs as [_ Ho _ _ _], Hs' as [? _ Ha _ Hw']. rewrite Hsh in Ha, Hw'.
    split; simpl in *; try done; lia. }
  split.
  - eapply step_ok_trans; [done|]. apply step_ok_cursors; [apply Hst|done|done].
  - by exists (blob s').
  - rewrite <- Hby, !written_blob by done. rewrite Hext. simpl.
    replace (write_cursor s') with (write_cursor s) by (by rewrite Hsh).
    unfold zslice. rewrite !drop_0, take_take. f_equal. lia.
  - intros Hle. destruct (Hfit Hle) as [-> ->]. done.
Qed.

Lemma wp_skip_write (w : world) s n Q E :
  world_ok w -> stuffer_ok (hp w) s -> is_u32 n ->
  (forall w' s', extended w s n w' s' -> Q tt w' s') ->
  (forall e w' s', full_err w s n w' s' -> E e w' s') ->
  wp (s2n_stuffer_skip_write n) (w, s) Q E.
Proof.
  intros Hw Hs Hn HQ HE. apply wp_bind, wp_pre_validate; [done|].
  apply wp_bind, wp_reserve_space; [done|done|done| |done].
  intros w' s' Hr. pose proof (rsv_step _ _ _ _ _ Hr) as Hst.
  pose proof (step_stuffer _ _ _ _ Hst) as Hs'. pose proof (ok_size32 Hs').
  pose proof (ok_read _ _ Hs). unfold is_u32 in Hn.
  assert (Hwc : write_cursor s' = write_cursor s) by (by rewrite (rsv_shape _ _ _ _ _ Hr)).
  pose proof (rsv_room _ _ _ _ _ Hr).
  apply wp_bind, wp_modify. rewrite u32_small by lia.
  apply wp_bind, wp_modify. change (set_high_water_mark _ _) with (extended_by (blob s') n s').
  assert (Hext := reserved_extended w s n w' s' Hs ltac:(lia) Hr).
  apply wp_post_validate; [apply Hext|by apply HQ].
Qed.

(** ** s2n_stuffer_write_bytes *)

(** The source does not lie in the stuffer's own memory. *)
Definition buf_outside (s : s2n_stuffer) (d : buffer) : Prop :=
  match d with HeapBuf (Some p) => ~ in_block (blob s) (blk p) | _ => True end.

Lemma buf_is_frame s h h' d n bs :
  frame (blob s) h h' -> buf_outside s d -> buf_is h d n bs -> buf_is h' d n bs.
Proof.
  intros Hf Ho [Hlen Hb]. split; [done|]. destruct d as [[p|]|l]; try done.
  destruct Hb as [(l & Hl & Hv) <-]. assert (Hl' := Hf _ _ Hl Ho). split.
  - exists l. by rewrite Hl'.
  - apply bytes_at_ext. by rewrite Hl, Hl'.
Qed.

Record appended (w : world) (s : s2n_stuffer) (bs : list Z) (w' : world) (s' : s2n_stuffer) : Prop := {
  app_step : step_ok w s w' s';
  app_shape : exists b', s' = extended_by b' (zlen bs) s;
  app_bytes : written (hp w') s' = written (hp w) s ++ bs;
  app_fits : zlen bs <= size (blob s) - write_cursor s -> blob s' = blob s;
}.

Lemma buf_is_bytes h d n bs :
  heap_ok h -> (match d with LocalBuf l => is_bytes l | _ => True end) -> buf_is h d n bs -> is_bytes bs.
Proof.
  intros Hh Hl [Hlen Hb]. destruct d as [[p|]|l].
  - destruct Hb as [_ <-]. auto with s2n.
  - subst n. apply zlen_0_nil in Hb as ->. constructor.
  - destruct Hb as [_ <-]. by apply Forall_zslice.
Qed.

(** Storing [bs] over the last bytes of a stuffer that has just been extended. *)
Lemma extended_appended w s bs w1 s1 p :
  stuffer_ok (hp w) s -> is_bytes bs -> extended w s (zlen bs) w1 s1 -> data (blob s1) = Some p ->
  appended w s bs
    (World (heap_with (hp w1) (Ptr (blk p) (off p + write_cursor s)) bs) (mem w1)) s1.
Proof.
  intros Hs Hbs [Hst [b' ->] Hby Hfit] Hp. pose proof (zlen_nonneg bs).
  pose proof (step_stuffer _ _ _ _ Hst) as Hs1. pose proof (ok_read _ _ Hs). pose proof (ok_write _ _ Hs1).
  simpl in *. pose proof (stuffer_access Hs1 p (write_cursor s) (zlen bs) Hp) as Hv. simpl in Hv.
  specialize (Hv ltac:(lia) ltac:(lia) ltac:(lia)).
  assert (Hall : valid_access (hp w1) p (write_cursor s + zlen bs)).
  { pose proof (stuffer_access Hs1 p 0 (write_cursor s + zlen bs) Hp) as Ha. simpl in Ha.
    destruct p. simpl in Ha. rewrite Z.add_0_r in Ha. apply Ha; lia. }
  split; [|by exists b'| |intros Hle; by apply Hfit].
  - eapply step_ok_trans; [done|]. eapply step_ok_write; try done. apply Hst.
  - rewrite <- Hby. unfold written. simpl. rewrite Hp.
    rewrite bytes_at_app by (auto with s2n; lia). f_equal.
    + rewrite bytes_at_heap_with_disjoint; [|done| |simpl; lia].
      2: { destruct p. pose proof (valid_access_sub _ _ _ 0 (write_cursor s) Hall) as Ha.
           simpl in Ha. rewrite Z.add_0_r in Ha. apply Ha; lia. }
      pose proof (bytes_at_sub _ _ _ 0 (write_cursor s) Hall ltac:(lia) ltac:(lia) ltac:(lia)) as Hs0.
      rewrite Z.add_0_r in Hs0. destruct p. simpl in *. rewrite Hs0. unfold zslice. by rewrite drop_0.
    + by apply bytes_at_heap_with_same.
Qed.

Lemma appended_nil w s : heap_ok (hp w) -> stuffer_ok (hp w) s -> appended w s [] w s.
Proof.
  intros Hh Hs. pose proof (ok_write _ _ Hs). split; auto with s2n.
  - exists (blob s). destruct s. unfold extended_by. simpl in *. f_equal; unfold zlen; simpl; lia.
  - by rewrite app_nil_r.
Qed.

(** Writing what is already there changes nothing. *)
Lemma wp_memcpy_unless_same {X} (w : world) (x : X) q d n bs Q E :
  buf_is (hp w) d n bs -> n <> 0 -> valid_access (hp w) q n ->
  Q tt (World (heap_with (hp w) q bs) (mem w)) x ->
  wp (if same_ptr (Some q) d then ret tt else checked_memcpy (Some q) d n) (w, x) Q E.
Proof.
  intros Hb Hn Hv HQ. destruct (same_ptr (Some q) d) eqn:Hsame.
  - destruct d as [p|]; [|done]. simpl in Hsame. apply bool_decide_eq_true in Hsame as <-.
    destruct Hb as [_ [_ <-]]. rewrite heap_with_self in HQ by done. apply wp_ret. by destruct w.
  - by apply (wp_checked_memcpy _ _ _ bs).
Qed.

(** A source is usable if it is valid, holds bytes, and will not be moved by
    the write itself. *)
Definition source_ok (w : world) (s : s2n_stuffer) (d : buffer) (bs : list Z) : Prop :=
  buf_is (hp w) d (zlen bs) bs /\ is_bytes bs /\ is_u32 (zlen bs) /\
  (size (blob s) - write_cursor s < zlen bs -> buf_outside s d).

Lemma wp_write_bytes (w : world) s d bs n Q E :
  world_ok w -> stuffer_ok (hp w) s -> source_ok w s d bs -> n = zlen bs ->
  (forall w' s', appended w s bs w' s' -> Q tt w' s') ->
  (forall e w' s', full_err w s (zlen bs) w' s' -> E e w' s') ->
  wp (s2n_stuffer_write_bytes d n) (w, s) Q E.
Proof.
  intros Hw Hs (Hd & Hbs & Hlen & Hout) -> HQ HE. pose proof Hw as [Hh Hm].
  unfold s2n_stuffer_write_bytes. destruct (Z.eqb_spec (zlen bs) 0) as [e|Hne].
  { apply wp_ret, HQ. apply zlen_0_nil in e as ->. by apply appended_nil. }
  pose proof (ok_read _ _ Hs). unfold is_u32 in Hlen.
  apply wp_bind, wp_ensure; [intros _|].
  2: { intros Hr. destruct Hd as [_ Hd], d as [[p|]|l]; simpl in *.
       all: unfold S2N_MEM_IS_READABLE in Hr; try rewrite orb_true_r in Hr; simpl in *; congruence. }
  apply wp_bind, wp_pre_validate; [done|]. apply wp_bind, wp_skip_write; [done|done|done| |done].
  intros w1 s1 Hext. pose proof (ext_step _ _ _ _ _ Hext) as Hst.
  pose proof (step_stuffer _ _ _ _ Hst) as Hs1. pose proof (ok_write _ _ Hs1).
  destruct (ext_shape _ _ _ _ _ Hext) as [b' Hsh].
  assert (Hwc : write_cursor s1 = write_cursor s + zlen bs) by (by rewrite Hsh).
  apply wp_bind, wp_get_obj. destruct (data_some Hs1 (zlen bs)) as [p Hp]; [lia..|].
  rewrite Hp. apply wp_bind, wp_ptr_add_some. rewrite Hwc.
  replace (write_cursor s + zlen bs - zlen bs) with (write_cursor s) by lia.
  apply wp_bind, wp_ensure; [intros _|unfold S2N_MEM_IS_READABLE; by rewrite orb_true_r].
  assert (Hd1 : buf_is (hp w1) d (zlen bs) bs).
  { destruct (Z.lt_ge_cases (size (blob s) - write_cursor s) (zlen bs)) as [Hlt|Hge].
    - eapply buf_is_frame; [apply Hst|by apply Hout|done].
    - by destruct (ext_fits _ _ _ _ _ Hext Hge) as [-> _]. }
  assert (Hv : valid_access (hp w1) (Ptr (blk p) (off p + write_cursor s)) (zlen bs))
    by (apply (stuffer_access Hs1); [done|lia..]).
  assert (Happ := extended_appended _ _ _ _ _ _ Hs Hbs Hext Hp).
  pose proof (wp_memcpy_unless_same w1 s1 _ d _ bs
    (fun _ w' s' => appended w s bs w' s') E Hd1 Hne Hv Happ) as Hcopy.
  destruct (same_ptr _ d); [|apply wp_bind].
  - apply wp_post_validate; [apply Hcopy|by apply HQ].
  - eapply wp_mono; [exact Hcopy| |done]. intros [] w' s' Ha.
    apply wp_post_validate; [apply Ha|by apply HQ].
Qed.

(** Bytes of a local array. *)
Lemma source_local w s bs : is_bytes bs -> is_u32 (zlen bs) -> source_ok w s (LocalBuf bs) bs.
Proof. intros. unfold source_ok, buf_is. rewrite zslice_full. by split_goal. Qed.

End Growing.

End Rules.
End StufferWrite.
Export StufferWrite.
