(* ===== verification/StufferSpec.v ===== *)
(** * What a stuffer promises

    Two specifications of the stuffer as a whole.  First, memory safety: no
    sequence of stuffer operations has undefined behaviour, breaks the
    invariant or touches memory that is not the stuffer's.  Second, a stuffer
    refines a queue of bytes: what is written is read back once and in order,
    whatever growing, shifting and failing goes on in between. *)
From S2P Require Import Prelude Errors CMem Platform Safety Blob Alloc Stuffer StufferInv StufferWrite.
Open Scope Z_scope.

Module StufferSpec.

(** [c] runs without undefined behaviour and leaves a valid stuffer, whether it
    succeeds or fails. *)
Definition safe {A} (c : Cmd s2n_stuffer A) (w : world) (s : s2n_stuffer) : Prop :=
  wp c (w, s) (fun _ w' s' => step_ok w s w' s') (fun _ w' s' => step_ok w s w' s').

Section Rules.
Context `{HP : Platform}.

Lemma wp_rewrite (w : world) s Q E :
  stuffer_ok (hp w) s ->
  (forall s', s' = set_read_cursor 0 (set_write_cursor 0 s) -> stuffer_ok (hp w) s' -> Q tt w s') ->
  wp s2n_stuffer_rewrite (w, s) Q E.
Proof.
  intros Hs HQ. pose proof (ok_read _ _ Hs). pose proof (ok_write _ _ Hs).
  assert (Hs' : stuffer_ok (hp w) (set_read_cursor 0 (set_write_cursor 0 s))).
  { apply (stuffer_ok_cursors (hp w) s 0 0 (high_water_mark s)); [done|lia..]. }
  apply wp_bind, wp_pre_validate; [done|]. do 2 (apply wp_bind, wp_modify).
  apply wp_post_validate; [done|by apply HQ].
Qed.

Lemma wp_rewind_read (w : world) s n Q E :
  stuffer_ok (hp w) s -> 0 <= n ->
  (n <= read_cursor s -> Q tt w (set_read_cursor (read_cursor s - n) s)) ->
  (read_cursor s < n -> E S2N_ERR_STUFFER_OUT_OF_DATA w s) ->
  wp (s2n_stuffer_rewind_read n) (w, s) Q E.
Proof.
  intros Hs Hn HQ HE. pose proof (ok_read _ _ Hs). pose proof (ok_write _ _ Hs). pose proof (ok_size32 Hs).
  apply wp_bind, wp_pre_validate; [done|]. apply wp_bind, wp_get_obj.
  apply wp_bind, wp_ensure; intros Hle; zbool; [|auto].
  apply wp_bind, wp_modify. rewrite u32_small by lia.
  apply wp_post_validate; [apply set_read_ok; [done|lia]|auto].
Qed.

Lemma wp_reread (w : world) s Q E :
  stuffer_ok (hp w) s -> Q tt w (set_read_cursor 0 s) -> wp s2n_stuffer_reread (w, s) Q E.
Proof. intros Hs HQ. apply wp_bind, wp_pre_validate; [done|]. by apply wp_modify. Qed.

(** The pointer handed out by raw reads and writes. *)
Lemma wp_raw_ptr {X} (w : world) (x : X) s i Q E :
  stuffer_ok (hp w) s -> 0 <= i <= size (blob s) -> Q (at_offset i s) w x ->
  wp (if is_null (data (blob s)) then ret None else ptr_add (data (blob s)) i) (w, x) Q E.
Proof.
  intros Hs Hi HQ. unfold at_offset in HQ. by destruct (data (blob s)).
Qed.

Lemma wp_raw_read (w : world) s n Q E :
  stuffer_ok (hp w) s -> 0 <= n ->
  (n <= write_cursor s - read_cursor s ->
     Q (at_offset (read_cursor s) s) w (set_tainted true (advanced n s))) ->
  (write_cursor s - read_cursor s < n -> E S2N_ERR_STUFFER_OUT_OF_DATA w s) ->
  wp (s2n_stuffer_raw_read n) (w, s) Q E.
Proof.
  intros Hs Hn HQ HE. pose proof (ok_read _ _ Hs). pose proof (ok_write _ _ Hs).
  apply wp_bind, wp_skip_read; [done|done| |done]. intros Hle.
  apply wp_bind, wp_modify, wp_bind, wp_get_obj. simpl.
  apply wp_raw_ptr; [done|lia|]. replace (read_cursor s + n - n) with (read_cursor s) by lia. auto.
Qed.

(** Reading into a local array: as [wp_read_bytes_local], for any length.  A
    read of nothing from an empty stuffer that owns no memory is refused. *)
Lemma safe_read_bytes (w : world) s n :
  heap_ok (hp w) -> stuffer_ok (hp w) s -> 0 <= n -> safe (s2n_stuffer_read_bytes LocalDst n) w s.
Proof.
  intros Hh Hs Hn. destruct (Z.eqb_spec n 0) as [->|].
  - pose proof (ok_read _ _ Hs). apply wp_bind, wp_ensure; [intros _|done].
    apply wp_bind, wp_pre_validate; [done|]. apply wp_bind, wp_skip_read; [done..| |lia].
    intros _. assert (Hadv : step_ok w s w (advanced 0 s)).
    { apply step_ok_cursors; [done|apply advanced_ok; [done|lia]|done]. }
    apply wp_bind, wp_get_obj. apply wp_bind, wp_ensure; [|done].
    simpl. destruct (data (blob s)) as [p|]; [intros _|done]. apply wp_bind, wp_ptr_add_some.
    by apply wp_ret.
  - apply wp_read_bytes_local; [done|lia| |intros; auto with s2n].
    intros Hle. apply step_ok_cursors; [done|apply advanced_ok; [done|lia]|done].
Qed.

(** The bytes that are read are erased from the stuffer. *)
Lemma wp_erase_and_read_bytes (w : world) s n Q E :
  heap_ok (hp w) -> stuffer_ok (hp w) s -> 0 < n ->
  (n <= write_cursor s - read_cursor s -> forall w',
     w' = World (fill (hp w) (at_offset (read_cursor s) s) 0 n) (mem w) ->
     step_ok w s w' (advanced n s) -> Q (take (Z.to_nat n) (unread (hp w) s)) w' (advanced n s)) ->
  (write_cursor s - read_cursor s < n -> E S2N_ERR_STUFFER_OUT_OF_DATA w s) ->
  wp (s2n_stuffer_erase_and_read_bytes LocalDst n) (w, s) Q E.
Proof.
  intros Hh Hs Hn HQ HE. pose proof (ok_read _ _ Hs). pose proof (ok_write _ _ Hs).
  apply wp_bind, wp_skip_read; [done|lia| |done]. intros Hle.
  apply wp_bind, wp_get_obj. simpl. destruct (data_some Hs n) as [p Hp]; [lia..|].
  unfold ensure_ref. rewrite Hp. apply wp_bind, wp_ensure; [intros _|done].
  apply wp_bind, wp_ptr_add_some. replace (read_cursor s + n - n) with (read_cursor s) by lia.
  apply wp_bind. unfold checked_memcpy_out. rewrite (proj2 (Z.eqb_neq n 0)) by lia.
  apply wp_load; [apply (stuffer_access Hs); [done|lia..]|].
  assert (Ep : Some (Ptr (blk p) (off p + read_cursor s)) = at_offset (read_cursor s) s)
    by (unfold at_offset; by rewrite Hp).
  rewrite Ep. apply wp_bind, wp_fill; [done|done|lia..|]. apply wp_ret.
  rewrite (bytes_at_cursor Hs) by (done || lia). apply HQ; [done|done|].
  apply step_ok_fill; [done|done|lia..| |done]. apply advanced_ok; [done|lia].
Qed.

Section Growing.
Context `{!BlobAllocator}.

Lemma wp_raw_write (w : world) s n Q E :
  world_ok w -> stuffer_ok (hp w) s -> is_u32 n ->
  (forall w' s', extended w s n w' s' -> Q (at_offset (write_cursor s) s') w' (set_tainted true s')) ->
  (forall e w' s', full_err w s n w' s' -> E e w' s') ->
  wp (s2n_stuffer_raw_write n) (w, s) Q E.
Proof.
  intros Hw Hs Hn HQ HE. pose proof (ok_read _ _ Hs). unfold is_u32 in Hn.
  apply wp_bind, wp_skip_write; [done..| |done]. intros w' s' Hext.
  pose proof (step_stuffer _ _ _ _ (ext_step _ _ _ _ _ Hext)) as Hs'. pose proof (ok_write _ _ Hs').
  destruct (ext_shape _ _ _ _ _ Hext) as [b' Hsh].
  assert (Hwc : write_cursor s' = write_cursor s + n) by (by rewrite Hsh).
  apply wp_bind, wp_modify, wp_bind, wp_get_obj. simpl.
  apply wp_raw_ptr; [done|lia|]. replace (write_cursor s' - n) with (write_cursor s) by lia. auto.
Qed.

Lemma safe_resize_if_empty (w : world) s n :
  world_ok w -> stuffer_ok (hp w) s -> is_u32 n -> safe (s2n_stuffer_resize_if_empty n) w s.
Proof.
  intros Hw Hs Hn. pose proof Hw as [Hh Hm]. apply wp_bind, wp_pre_validate; [done|].
  apply wp_bind, wp_get_obj, wp_bind.
  destruct (data (blob s)) as [p|] eqn:Hp; simpl; [by apply wp_ret, wp_post_validate; auto with s2n|].
  apply wp_bind, wp_ensure; intros _; [|auto with s2n].
  apply wp_bind, wp_ensure; intros _; [|auto with s2n].
  destruct (ok_null _ _ (ok_blob _ _ Hs) Hp) as (Hz & _). unfold is_u32 in Hn.
  pose proof (ok_write _ _ Hs). apply wp_zoom.
  eapply wp_mono; [by apply realloc_spec; [|apply Hs|]| |].
  - intros [] w' b' [_ Hpost]. apply step_ok_realloc in Hpost; [|done|lia].
    apply wp_post_validate; apply Hpost.
  - intros e w' b' Herr. apply kept_realloc in Herr; [|done]. apply Herr.
Qed.

(** ** s2n_stuffer_shift *)

Lemma wp_shift (w : world) s Q E :
  world_ok w -> stuffer_ok (hp w) s ->
  (forall w' s', step_ok w s w' s' -> read_cursor s' = 0 -> unread (hp w') s' = unread (hp w) s ->
     tainted s' = tainted s -> Q tt w' s') ->
  wp s2n_stuffer_shift (w, s) Q E.
Proof.
  intros Hw Hs HQ. pose proof Hw as [Hh Hm]. pose proof (ok_read _ _ Hs) as Hr.
  pose proof (ok_write _ _ Hs) as Hwr. pose proof (ok_size32 Hs).
  apply wp_bind, wp_get_obj, wp_bind, wp_with_local, wp_rewrite; [done|].
  intros s0 Es0 Hs0. cbv beta zeta. cbn [snd]. apply wp_bind.
  assert (Hptr : forall Q', Q' (at_offset (read_cursor s) s) w s ->
    wp (if negb (read_cursor s =? 0) then ptr_add (data (blob s)) (read_cursor s) else ret (data (blob s)))
       (w, s) Q' E).
  { intros Q' HQ'. destruct (Z.eqb_spec (read_cursor s) 0) as [e|]; simpl.
    - apply wp_ret. by rewrite e, at_offset_0 in HQ'.
    - apply wp_at_offset; [done|lia|done]. }
  apply Hptr. rewrite (data_available_eq Hs).
  pose proof (unread_len Hs) as Hlen. set (bs := unread (hp w) s) in *.
  assert (Hsrc : source_ok w s0 (HeapBuf (at_offset (read_cursor s) s)) bs).
  { unfold source_ok. rewrite Hlen. split_goal.
    - split; [done|]. unfold at_offset. destruct (data (blob s)) as [p|] eqn:Hp.
      + split; [apply (stuffer_access Hs); [done|lia..]|].
        rewrite (bytes_at_cursor Hs) by (done || lia). apply take_ge. unfold bs, zlen in *. lia.
      + destruct (ok_null _ _ (ok_blob _ _ Hs) Hp) as [? _]. lia.
    - unfold bs, unread, written. apply Forall_drop. destruct (data (blob s)); [|constructor].
      by apply bytes_at_is_bytes.
    - unfold is_u32. lia.
    - rewrite Es0. simpl. lia. }
  apply wp_bind, wp_with_local. eapply wp_write_bytes; [done|done|done|done| |].
  2: { intros e w' s' [Hfull _]. rewrite Es0 in Hfull. simpl in Hfull. lia. }
  intros w' s' [Hst [b' Hsh] Hby]. apply wp_put_obj. simpl.
  assert (Hblob0 : blob s0 = blob s) by (by rewrite Es0).
  apply HQ.
  - destruct Hst as [? ? ? Hf Hfr]. rewrite Hblob0 in Hf, Hfr. by split.
  - by rewrite Hsh, Es0.
  - unfold unread. rewrite Hby. rewrite Hsh, Es0. simpl. unfold written at 1. simpl.
    destruct (data (blob s)); [|done]. by rewrite bytes_at_0.
  - by rewrite Hsh, Es0.
Qed.

(** ** Allocation and release *)

(** A fresh stuffer of [n] bytes, empty, in memory nobody else uses. *)
Definition allocated_stuffer (w : world) (n : Z) (grow : bool) (w' : world) (s' : s2n_stuffer) : Prop :=
  s' = Stuffer (blob s') 0 0 0 true grow false /\ size (blob s') = n /\
  forall s, step_ok w s w' s'.

Lemma realloc_post_stuffer w n w' b' grow :
  0 <= n -> realloc_post w zero_blob n w' b' ->
  allocated_stuffer w n grow w' (Stuffer b' 0 0 0 true grow false).
Proof.
  intros Hn (Hm & Hh & Hb & Hsz & Hg & Hf & Hfr & _).
  unfold allocated_stuffer. split_goal; [done|done|].
  intros s. split; try done.
  - split; simpl; try done; lia.
  - intros k l Hk _. apply Hf; [done|]. by intros (p & ? & _).
  - intros k Hk. right. destruct (Hfr k Hk) as [(p & ? & _)|?]; done.
Qed.

Lemma wp_init (w : world) s b Q E :
  blob_ok (hp w) b -> Q tt w (Stuffer b 0 0 0 false false false) ->
  wp (s2n_stuffer_init b) (w, s) Q E.
Proof.
  intros Hb HQ. apply wp_bind, wp_blob_validate; [done|]. do 7 (apply wp_bind, wp_modify).
  pose proof (ok_size _ _ Hb) as Hz. unfold is_u32 in Hz.
  apply wp_post_validate; [split; simpl; try done; lia|done].
Qed.

Lemma wp_stuffer_alloc (w : world) s n Q E :
  world_ok w -> is_u32 n ->
  (forall w' s', allocated_stuffer w n false w' s' -> Q tt w' s') ->
  (forall e w' s', (forall s, step_ok w s w' s') -> E e w' s') ->
  wp (s2n_stuffer_alloc n) (w, s) Q E.
Proof.
  intros Hw Hn HQ HE. apply wp_bind, wp_put_obj, wp_bind, wp_zoom. unfold is_u32 in Hn.
  apply wp_alloc_blob; [done|done| |].
  - intros w' b' Hpost. apply wp_bind, wp_get_obj. pose proof (realloc_post_stuffer _ _ _ _ false (proj1 Hn) Hpost) as Ha.
    apply wp_bind, wp_init; [apply Hpost|]. apply wp_bind, wp_modify.
    apply wp_post_validate; [|by apply HQ]. apply (proj2 (proj2 Ha) zero_stuffer).
  - intros e w' b' (-> & Hm & Hh & Hb & Hf & _). apply HE. intros s0. split; simpl; try done.
    + intros k l Hk _. apply Hf; [done|]. by intros (p & ? & _).
    + by intros k (p & ? & _).
Qed.

Lemma wp_stuffer_growable_alloc (w : world) s n Q E :
  world_ok w -> is_u32 n ->
  (forall w' s', allocated_stuffer w n true w' s' -> Q tt w' s') ->
  (forall e w' s', (forall s, step_ok w s w' s') -> E e w' s') ->
  wp (s2n_stuffer_growable_alloc n) (w, s) Q E.
Proof.
  intros Hw Hn HQ HE. apply wp_bind, wp_stuffer_alloc; [done|done| |done].
  intros w' s' (Hsh & Hsz & Hst). apply wp_bind, wp_modify.
  assert (Ha : allocated_stuffer w n true w' (set_growable true s')).
  { destruct s' as [b r wc hw al gr ta]. simpl in *. injection Hsh as -> -> -> -> -> ->.
    unfold allocated_stuffer. split_goal; [done|done|]. intros s0. destruct (Hst s0) as [? ? Hs' ? ?].
    split; try done. by destruct Hs' as [? _ ? ? ?]. }
  apply wp_post_validate; [|by apply HQ]. apply (proj2 (proj2 Ha) zero_stuffer).
Qed.

Lemma step_ok_freed w s :
  world_ok w -> step_ok w s (World (freed (hp w) (blob s)) (mem w)) zero_stuffer.
Proof.
  intros [Hh Hm]. split; simpl; [done|by apply heap_ok_freed| |apply frame_freed|].
  - split; simpl; auto with s2n; lia.
  - by intros k (p & ? & _).
Qed.

Lemma step_ok_zero w s : heap_ok (hp w) -> step_ok w s w zero_stuffer.
Proof.
  intros Hh. split; simpl; auto with s2n; [|by intros k (p & ? & _)].
  split; simpl; auto with s2n; lia.
Qed.

Lemma safe_free (w : world) s : world_ok w -> stuffer_ok (hp w) s -> safe s2n_stuffer_free w s.
Proof.
  intros Hw Hs. apply wp_bind, wp_pre_validate; [done|]. apply wp_bind, wp_get_obj, wp_bind.
  destruct (alloced s) eqn:Ha; [|apply wp_ret, wp_put_obj, step_ok_zero, Hw].
  apply wp_zoom. eapply wp_mono; [apply free_spec; [done|apply Hs]| |].
  - intros [] w' b' [-> ->]. by apply wp_put_obj, step_ok_freed.
  - intros e w' b' (-> & -> & _). simpl. rewrite set_blob_id.
    split; simpl; [done|apply heap_ok_zeroed, Hw| |apply frame_zeroed, Hs|by left].
    destruct Hs; split; try done. by apply blob_ok_zeroed.
Qed.

Lemma safe_free_without_wipe (w : world) s :
  world_ok w -> stuffer_ok (hp w) s -> safe s2n_stuffer_free_without_wipe w s.
Proof.
  intros Hw Hs. apply wp_bind, wp_pre_validate; [done|]. apply wp_bind, wp_get_obj, wp_bind.
  destruct (alloced s) eqn:Ha; [|apply wp_ret, wp_put_obj, step_ok_zero, Hw].
  apply wp_zoom. eapply wp_mono; [apply free_without_wipe_spec; [done|apply Hs]| |].
  - intros [] w' b' [-> ->]. by apply wp_put_obj, step_ok_freed.
  - intros e w' b' (-> & -> & _). simpl. rewrite set_blob_id. apply step_ok_refl; [apply Hw|done].
Qed.

(** ** Sequences of operations *)

(** The calls a client can make on one stuffer. *)
Inductive stuffer_op :=
| OpAlloc (n : Z) | OpGrowableAlloc (n : Z) | OpFree | OpFreeWithoutWipe
| OpWipe | OpWipeN (n : Z) | OpResize (n : Z) | OpResizeIfEmpty (n : Z)
| OpRewrite | OpRewindRead (n : Z) | OpReread | OpShift
| OpSkipRead (n : Z) | OpRawRead (n : Z) | OpRead (n : Z)
| OpReserve (n : Z) | OpSkipWrite (n : Z) | OpRawWrite (n : Z) | OpWrite (bs : list Z).

Definition discard {X A} (c : Cmd X A) : Cmd X (list Z) := c ;;; ret [].

Definition run_op (o : stuffer_op) : Cmd s2n_stuffer (list Z) :=
  match o with
  | OpAlloc n => discard (s2n_stuffer_alloc n)
  | OpGrowableAlloc n => discard (s2n_stuffer_growable_alloc n)
  | OpFree => discard s2n_stuffer_free
  | OpFreeWithoutWipe => discard s2n_stuffer_free_without_wipe
  | OpWipe => discard s2n_stuffer_wipe
  | OpWipeN n => discard (s2n_stuffer_wipe_n n)
  | OpResize n => discard (s2n_stuffer_resize n)
  | OpResizeIfEmpty n => discard (s2n_stuffer_resize_if_empty n)
  | OpRewrite => discard s2n_stuffer_rewrite
  | OpRewindRead n => discard (s2n_stuffer_rewind_read n)
  | OpReread => discard s2n_stuffer_reread
  | OpShift => discard s2n_stuffer_shift
  | OpSkipRead n => discard (s2n_stuffer_skip_read n)
  | OpRawRead n => discard (s2n_stuffer_raw_read n)
  | OpRead n => s2n_stuffer_read_bytes LocalDst n
  | OpReserve n => discard (s2n_stuffer_reserve_space n)
  | OpSkipWrite n => discard (s2n_stuffer_skip_write n)
  | OpRawWrite n => discard (s2n_stuffer_raw_write n)
  | OpWrite bs => discard (s2n_stuffer_write_bytes (LocalBuf bs) (zlen bs))
  end.

(** A client that goes on after an error. *)
Fixpoint run_ops (os : list stuffer_op) : Cmd s2n_stuffer (list (list Z + s2n_error)) :=
  match os with
  | [] => ret []
  | o :: os' => r <-- attempt (run_op o) ;; rs <-- run_ops os' ;; ret (r :: rs)
  end.

(** The arguments are the 32-bit values and byte strings of C. *)
Definition op_args_ok (o : stuffer_op) : Prop :=
  match o with
  | OpAlloc n | OpGrowableAlloc n | OpWipeN n | OpResize n | OpResizeIfEmpty n | OpRewindRead n
  | OpSkipRead n | OpRawRead n | OpRead n | OpReserve n | OpSkipWrite n | OpRawWrite n => is_u32 n
  | OpWrite bs => is_bytes bs /\ is_u32 (zlen bs)
  | _ => True
  end.

Lemma safe_discard {A} (c : Cmd s2n_stuffer A) w s : safe c w s -> safe (discard c) w s.
Proof.
  intros Hc. apply wp_bind. eapply wp_mono; [exact Hc| |done]. intros a w' s' Hst. by apply wp_ret.
Qed.

Lemma step_ok_read w s n :
  heap_ok (hp w) -> stuffer_ok (hp w) s -> 0 <= n -> n <= write_cursor s - read_cursor s ->
  step_ok w s w (advanced n s).
Proof. intros. apply step_ok_cursors; [done|apply advanced_ok; [done|lia]|done]. Qed.

Lemma step_ok_taint w s w' s' t : step_ok w s w' s' -> step_ok w s w' (set_tainted t s').
Proof. intros [? ? ? ? ?]. split; try done. by apply set_tainted_ok. Qed.

#[local] Hint Resolve rsv_step ext_step app_step resized_step kept_step step_ok_taint : s2n.

Lemma safe_run_op o w s :
  world_ok w -> stuffer_ok (hp w) s -> op_args_ok o -> safe (run_op o) w s.
Proof.
  intros Hw Hs Ha. pose proof Hw as [Hh Hm]. pose proof (ok_read _ _ Hs).
  destruct o; simpl in Ha; try (apply safe_discard); unfold is_u32 in Ha.
  - apply wp_stuffer_alloc; [done|done| |auto]. intros w' s' (_ & _ & Hst). apply Hst.
  - apply wp_stuffer_growable_alloc; [done|done| |auto]. intros w' s' (_ & _ & Hst). apply Hst.
  - by apply safe_free.
  - by apply safe_free_without_wipe.
  - by apply wp_wipe.
  - apply wp_wipe_n; auto. lia.
  - apply wp_resize; eauto with s2n.
  - by apply safe_resize_if_empty.
  - apply wp_rewrite; [done|]. intros s' Es Hs'. apply step_ok_cursors; [done|done|by rewrite Es].
  - apply wp_rewind_read; [done|lia| |auto with s2n].
    intros Hle. apply step_ok_cursors; [done|apply set_read_ok; [done|lia]|done].
  - apply wp_reread; [done|]. apply step_ok_cursors; [done|apply set_read_ok; [done|lia]|done].
  - by apply wp_shift.
  - apply wp_skip_read; [done|lia| |auto with s2n]. intros. apply step_ok_read; [done|done|lia..].
  - apply wp_raw_read; [done|lia| |auto with s2n].
    intros. apply step_ok_taint, step_ok_read; [done|done|lia..].
  - apply safe_read_bytes; [done|done|lia].
  - apply wp_reserve_space; eauto with s2n. intros e w' s' [_ Hk]. apply Hk.
  - apply wp_skip_write; eauto with s2n. intros e w' s' [_ Hk]. apply Hk.
  - apply wp_raw_write; eauto with s2n. intros e w' s' [_ Hk]. apply Hk.
  - destruct Ha as [Hb Hl]. apply (wp_write_bytes w s (LocalBuf bs) bs); eauto with s2n.
    + by apply source_local.
    + intros e w' s' [_ Hk]. apply Hk.
Qed.

Lemma safe_run_ops os w s :
  world_ok w -> stuffer_ok (hp w) s -> Forall op_args_ok os ->
  wp (run_ops os) (w, s) (fun rs w' s' => length rs = length os /\ step_ok w s w' s') (fun _ _ _ => False).
Proof.
  intros Hw Hs Has. revert w s Hw Hs. induction Has as [|o os Ha _ IH]; intros w s Hw Hs.
  - apply wp_ret. split; [done|]. by apply step_ok_refl; [apply Hw|].
  - assert (Hk : forall (r : list Z + s2n_error) w' s', step_ok w s w' s' ->
      wp (rs <-- run_ops os ;; ret (r :: rs)) (w', s')
         (fun rs w' s' => length rs = length (o :: os) /\ step_ok w s w' s') (fun _ _ _ => False)).
    { intros r w' s' Hst. apply wp_bind. eapply wp_mono.
      - apply IH; [by eapply step_world_ok|apply Hst].
      - intros rs w2 s2 [Hlen Hst2]. apply wp_ret. simpl. split; [by f_equal|]. by eapply step_ok_trans.
      - done. }
    apply wp_bind, wp_attempt. eapply wp_mono; [by apply (safe_run_op o)| |]; simpl; auto.
Qed.

(** C18 Memory safety of the stuffer: whatever calls a client makes, in any order and
    with any 32-bit arguments, and going on after errors, every call returns
    (none has undefined behaviour), the stuffer is valid again, the static
    variables are unchanged, no block of memory other than the stuffer's own is
    touched, and the stuffer never comes to own memory that was in use. *)
Theorem stuffer_memory_safe (os : list stuffer_op) (w : world) (s : s2n_stuffer)
    (Hworld : world_ok w) (Hstuffer : stuffer_ok (hp w) s) (Hargs : Forall op_args_ok os) :
  exists rs w' s', run_ops os (w, s) = (Ok rs, (w', s')) /\ length rs = length os /\ step_ok w s w' s'.
Proof.
  pose proof (safe_run_ops os w s Hworld Hstuffer Hargs) as Hrun. unfold wp in Hrun.
  destruct (run_ops os (w, s)) as [[rs|e|] [w' s']]; [|done..]. by exists rs, w', s'.
Qed.

(** ** The stuffer as a queue of bytes *)

Inductive queue_op :=
| QWrite (bs : list Z) | QRead (n : Z) | QSkip (n : Z) | QReserve (n : Z) | QShift.

(** The specification: a call, its result, and the queue before and after. *)
Inductive queue_step : list Z -> queue_op -> list Z + s2n_error -> list Z -> Prop :=
| q_write q bs : queue_step q (QWrite bs) (inl []) (q ++ bs)
| q_write_fail q bs e : queue_step q (QWrite bs) (inr e) q
| q_read q n : n <= zlen q -> queue_step q (QRead n) (inl (take (Z.to_nat n) q)) (drop (Z.to_nat n) q)
| q_read_short q n : zlen q < n -> queue_step q (QRead n) (inr S2N_ERR_STUFFER_OUT_OF_DATA) q
| q_skip q n : n <= zlen q -> queue_step q (QSkip n) (inl []) (drop (Z.to_nat n) q)
| q_skip_short q n : zlen q < n -> queue_step q (QSkip n) (inr S2N_ERR_STUFFER_OUT_OF_DATA) q
| q_reserve q n r : queue_step q (QReserve n) r q
| q_shift q : queue_step q QShift (inl []) q.

Inductive queue_run : list Z -> list queue_op -> list (list Z + s2n_error) -> list Z -> Prop :=
| qr_nil q : queue_run q [] [] q
| qr_cons q o r q1 os rs q2 :
    queue_step q o r q1 -> queue_run q1 os rs q2 -> queue_run q (o :: os) (r :: rs) q2.

Definition queue_call (o : queue_op) : stuffer_op :=
  match o with
  | QWrite bs => OpWrite bs
  | QRead n => OpRead n
  | QSkip n => OpSkipRead n
  | QReserve n => OpReserve n
  | QShift => OpShift
  end.

Definition queue_args_ok (o : queue_op) : Prop :=
  match o with
  | QWrite bs => is_bytes bs /\ is_u32 (zlen bs)
  | QRead n => is_u32 n /\ n <> 0
  | QSkip n | QReserve n => is_u32 n
  | QShift => True
  end.

Lemma unread_appended w s bs w' s' :
  stuffer_ok (hp w) s -> appended w s bs w' s' -> unread (hp w') s' = unread (hp w) s ++ bs.
Proof.
  intros Hs [_ [b' ->] Hby]. pose proof (written_len Hs). pose proof (ok_read _ _ Hs).
  unfold unread at 1. rewrite Hby. simpl. apply drop_app_le. unfold zlen in *. lia.
Qed.

Lemma unread_kept w s w' s' :
  s2n_mem_free_cb (mem w) <> UserImpl -> kept w s w' s' -> unread (hp w') s' = unread (hp w) s.
Proof.
  intros Hu Hk. destruct (kept_all _ _ _ _ Hk Hu) as [-> e]. unfold unread. by rewrite e.
Qed.

(** One call implements one step of the queue. *)
Lemma queue_call_refines o w s :
  world_ok w -> stuffer_ok (hp w) s -> s2n_mem_free_cb (mem w) <> UserImpl -> queue_args_ok o ->
  wp (attempt (run_op (queue_call o))) (w, s)
     (fun r w' s' => step_ok w s w' s' /\ queue_step (unread (hp w) s) o r (unread (hp w') s'))
     (fun _ _ _ => False).
Proof.
  intros Hw Hs Hu Ha. pose proof Hw as [Hh Hm]. pose proof (unread_len Hs) as Hlen.
  pose proof (ok_read _ _ Hs).
  apply wp_attempt. destruct o as [bs|n|n|n|]; simpl in Ha; simpl run_op.
  - destruct Ha as [Hb Hl]. apply wp_bind, (wp_write_bytes w s (LocalBuf bs) bs); try done.
    + by apply source_local.
    + intros w' s' Happ. apply wp_ret. split; [apply Happ|].
      rewrite (unread_appended _ _ _ _ _ Hs Happ). constructor.
    + intros e w' s' [_ Hk]. split; [apply Hk|]. rewrite (unread_kept _ _ _ _ Hu Hk). constructor.
  - destruct Ha as [Hn Hn0]. unfold is_u32 in Hn. apply wp_read_bytes_local; [done|lia|..]; intros Hle.
    + split; [apply step_ok_read; [done|done|lia..]|].
      rewrite unread_advanced by (done || lia). constructor. lia.
    + split; [auto with s2n|]. constructor. lia.
  - unfold is_u32 in Ha. apply wp_bind, wp_skip_read; [done|lia|..]; intros Hle.
    + apply wp_ret. split; [apply step_ok_read; [done|done|lia..]|].
      rewrite unread_advanced by (done || lia). constructor. lia.
    + split; [auto with s2n|]. constructor. lia.
  - apply wp_bind, wp_reserve_space; [done..| |].
    + intros w' s' [Hst Hsh _ Hby _]. apply wp_ret. split; [done|].
      unfold unread. rewrite Hby, Hsh. simpl. constructor.
    + intros e w' s' [_ Hk]. split; [apply Hk|]. rewrite (unread_kept _ _ _ _ Hu Hk). constructor.
  - apply wp_bind, wp_shift; [done..|]. intros w' s' Hst _ Hq _. apply wp_ret. split; [done|].
    rewrite Hq. constructor.
Qed.

(** C19 A stuffer refines a queue of bytes: for every sequence of writes, reads,
    skips, reservations and shifts, the results the code returns and the unread
    bytes it ends with are those of a run of the queue.  Reads return exactly
    the oldest bytes, or S2N_ERR_STUFFER_OUT_OF_DATA and leave the queue alone
    when there are too few; failed writes leave the queue alone. *)
Theorem stuffer_refines_queue (os : list queue_op) (w : world) (s : s2n_stuffer)
    (Hworld : world_ok w) (Hstuffer : stuffer_ok (hp w) s)
    (Hcb : s2n_mem_free_cb (mem w) <> UserImpl) (Hargs : Forall queue_args_ok os) :
  exists rs w' s', run_ops (map queue_call os) (w, s) = (Ok rs, (w', s')) /\
    queue_run (unread (hp w) s) os rs (unread (hp w') s') /\ stuffer_ok (hp w') s'.
Proof.
  revert w s Hworld Hstuffer Hcb. induction Hargs as [|o os Ho _ IH]; intros w s Hw Hs Hu.
  - exists [], w, s. by split_goal; [|constructor|].
  - pose proof (queue_call_refines o w s Hw Hs Hu Ho) as H0. unfold wp in H0.
    simpl map. simpl run_ops. unfold bind at 1.
    destruct (attempt _ _) as [[r|e|] [w1 s1]]; [|done..]. destruct H0 as [Hst Hq].
    destruct (IH w1 s1) as (rs & w2 & s2 & Hrun & Hqr & Hs2).
    { by eapply step_world_ok. } { apply Hst. } { by rewrite (step_mem _ _ _ _ Hst). }
    exists (r :: rs), w2, s2. unfold bind. rewrite Hrun. split_goal; [done| |done].
    by econstructor.
Qed.

End Growing.
End Rules.

Lemma stuffer_memory_safe_witness :
  exists rs w' s', @run_ops demo_platform [OpRead 2; OpWrite [7; 8]; OpResize 16; OpShift; OpRawRead 9; OpFree]
    (demo_world, demo_stuffer) = (Ok rs, (w', s')) /\ length rs = 6%nat /\
    step_ok demo_world demo_stuffer w' s'.
Proof.
  apply (@stuffer_memory_safe demo_platform _
    [OpRead 2; OpWrite [7; 8]; OpResize 16; OpShift; OpRawRead 9; OpFree] demo_world demo_stuffer).
  - exact demo_world_ok.
  - exact demo_stuffer_ok.
  - repeat apply Forall_cons_2; try apply Forall_nil_2; simpl; try done; try split; try solve_bytes;
      unfold is_u32, zlen; simpl; lia.
Defined.

Lemma stuffer_refines_queue_witness :
  exists rs w' s', @run_ops demo_platform
      (map queue_call [QRead 2; QWrite [7; 8]; QShift; QSkip 9; QWrite [1; 2; 3; 4; 5; 6; 7; 8]])
      (demo_world, demo_stuffer) = (Ok rs, (w', s')) /\
    queue_run [20; 30; 40]
      [QRead 2; QWrite [7; 8]; QShift; QSkip 9; QWrite [1; 2; 3; 4; 5; 6; 7; 8]] rs (unread (hp w') s') /\
    stuffer_ok (hp w') s'.
Proof.
  apply (@stuffer_refines_queue demo_platform _
    [QRead 2; QWrite [7; 8]; QShift; QSkip 9; QWrite [1; 2; 3; 4; 5; 6; 7; 8]] demo_world demo_stuffer).
  - exact demo_world_ok.
  - exact demo_stuffer_ok.
  - discriminate.
  - repeat apply Forall_cons_2; try apply Forall_nil_2; simpl; try done; try split; try solve_bytes;
      unfold is_u32, zlen; simpl; lia.
Defined.

End StufferSpec.
Export StufferSpec.
