(* ===== verification/StufferTheorems.v ===== *)
(** * The stuffer operations one by one

    What each operation that moves data does on every branch: writing,
    resizing, wiping, shifting, copying between stuffers and extracting. *)
From S2P Require Import Prelude Errors CMem Platform Safety Blob Alloc Stuffer StufferInv StufferWrite StufferSpec.
Open Scope Z_scope.

Module StufferTheorems.

(** Two stuffers that do not share memory. *)
Definition separate (b1 b2 : s2n_blob) : Prop := forall k, in_block b1 k -> ~ in_block b2 k.

Lemma separate_sym b1 b2 : separate b1 b2 -> separate b2 b1.
Proof. intros Hs k H2 H1. by apply (Hs k). Qed.

(** A stuffer is not affected by a step that frames its block. *)
Lemma framed_lookup b2 h h' b1 k :
  blob_ok h b1 -> separate b1 b2 -> frame b2 h h' -> in_block b1 k -> h' !! k = h !! k.
Proof.
  intros Hb Hsep Hf (p & Hp & <-). destruct (ok_access _ _ Hb _ Hp) as (l & Hl & _).
  rewrite Hl. apply Hf; [done|]. apply Hsep. by exists p.
Qed.

Lemma framed_stuffer b2 h h' s :
  stuffer_ok h s -> separate (blob s) b2 -> frame b2 h h' ->
  stuffer_ok h' s /\ written h' s = written h s.
Proof.
  intros Hs Hsep Hf.
  assert (He : forall k, in_block (blob s) k -> h' !! k = h !! k)
    by (intros k; apply (framed_lookup b2); [apply Hs|done|done]).
  split.
  - destruct Hs as [Hb ? ? ? ?]. split; try done. apply (blob_ok_ext h); [|done].
    intros k Hk. symmetry. auto.
  - unfold written. destruct (data (blob s)) as [p|] eqn:Hp; [|done].
    apply bytes_at_ext, He. by exists p.
Qed.

Section Theorems.
Context `{HP : Platform} `{!BlobAllocator}.

(** Writing [bs] succeeds whenever it fits; a write that succeeds appends exactly [bs] to
    the written bytes, keeps the read cursor and the flags, and one that fails
    did not fit and leaves cursors, contents and flags as they were. *)
Theorem write_bytes_correct (w : world) (s : s2n_stuffer) (d : buffer) (bs : list Z)
    (Hworld : world_ok w) (Hstuffer : stuffer_ok (hp w) s) (Hsrc : source_ok w s d bs)
    (Hcb : s2n_mem_free_cb (mem w) <> UserImpl) :
  match s2n_stuffer_write_bytes d (zlen bs) (w, s) with
  | (Ok _, (w', s')) =>
      written (hp w') s' = written (hp w) s ++ bs /\ read_cursor s' = read_cursor s /\
      tainted s' = tainted s /\ step_ok w s w' s'
  | (Err _, (w', s')) =>
      size (blob s) - write_cursor s < zlen bs /\ s' = s /\ written (hp w') s = written (hp w) s
  | (UB, _) => False
  end.
Proof.
  change (wp (s2n_stuffer_write_bytes d (zlen bs)) (w, s)
    (fun _ w' s' => written (hp w') s' = written (hp w) s ++ bs /\ read_cursor s' = read_cursor s /\
       tainted s' = tainted s /\ step_ok w s w' s')
    (fun _ w' s' => size (blob s) - write_cursor s < zlen bs /\ s' = s /\
       written (hp w') s = written (hp w) s)).
  eapply wp_write_bytes; [done..| |].
  - intros w' s' [Hst [b' Hsh] Hby]. by rewrite Hsh in Hst, Hby |- *.
  - intros e w' s' [Hfull Hk]. split; [done|]. by apply Hk.
Qed.

(** Resizing keeps the bytes that still fit: on success the blob has exactly [n]
    bytes, every cursor is clipped to [n] and the first [n] written bytes are
    the same; a resize that fails changes nothing. *)
Theorem resize_correct (w : world) (s : s2n_stuffer) (n : Z)
    (Hworld : world_ok w) (Hstuffer : stuffer_ok (hp w) s) (Hn : is_u32 n)
    (Hcb : s2n_mem_free_cb (mem w) <> UserImpl) :
  match s2n_stuffer_resize n (w, s) with
  | (Ok _, (w', s')) =>
      size (blob s') = n /\ read_cursor s' = Z.min n (read_cursor s) /\
      write_cursor s' = Z.min n (write_cursor s) /\
      written (hp w') s' = take (Z.to_nat n) (written (hp w) s) /\ step_ok w s w' s'
  | (Err _, (w', s')) => s' = s /\ written (hp w') s = written (hp w) s /\ step_ok w s w' s
  | (UB, _) => False
  end.
Proof.
  change (wp (s2n_stuffer_resize n) (w, s)
    (fun _ w' s' => size (blob s') = n /\ read_cursor s' = Z.min n (read_cursor s) /\
      write_cursor s' = Z.min n (write_cursor s) /\
      written (hp w') s' = take (Z.to_nat n) (written (hp w) s) /\ step_ok w s w' s')
    (fun _ w' s' => s' = s /\ written (hp w') s = written (hp w) s /\ step_ok w s w' s)).
  apply wp_resize; [done..| |].
  - intros w' s' _ _ [Hst [b' Hsh] Hsz Hby]. rewrite Hsh in Hst, Hsz, Hby |- *. by split_goal.
  - intros e w' s' [Hst _ Hk]. destruct (Hk Hcb) as [-> ?]. by split_goal.
Qed.

(** Wiping a stuffer overwrites every byte below its high-water mark (all that was
    ever written since the last wipe) with the wipe pattern, resets the cursors
    and the tainted flag, and cannot fail. *)
Theorem wipe_correct (w : world) (s : s2n_stuffer)
    (Hheap : heap_ok (hp w)) (Hstuffer : stuffer_ok (hp w) s) :
  exists w' s', s2n_stuffer_wipe (w, s) = (Ok tt, (w', s')) /\ step_ok w s w' s' /\
    s' = Stuffer (blob s) 0 0 0 (alloced s) (st_growable s) false /\
    zslice (blob_bytes (hp w') (blob s)) 0 (high_water_mark s) =
      repeat S2N_WIPE_PATTERN (Z.to_nat (high_water_mark s)).
Proof.
  pose proof (ok_write _ _ Hstuffer) as Hw. pose proof (ok_read _ _ Hstuffer).
  eexists _, _. split.
  - apply wp_eq, wp_wipe; [done..|]. intros h' -> _. reflexivity.
  - pose proof (step_ok_fill w s 0 S2N_WIPE_PATTERN (high_water_mark s) Hheap Hstuffer ltac:(lia)
      ltac:(lia) ltac:(lia) (wiped s) (wiped_ok _ _ Hstuffer) eq_refl) as Hst.
    rewrite at_offset_0 in Hst. split_goal; [done|done|].
    pose proof (ok_blob _ _ (step_stuffer _ _ _ _ Hst)) as Hb'. simpl in Hb'.
    simpl hp. unfold blob_bytes, fill in *. destruct (data (blob s)) as [p|] eqn:Hp.
    + rewrite <- (bytes_at_sub _ p (size (blob s))) by (try lia; by apply (blob_access_all _ _ _ Hb' Hp)).
      destruct p as [k o]. simpl. rewrite Z.add_0_r.
      set (bs := repeat _ _). replace (high_water_mark s) with (zlen bs) at 1
        by (unfold bs; apply zlen_repeat; lia).
      rewrite bytes_at_heap_with_same; [done|]. unfold bs. rewrite zlen_repeat by lia.
      pose proof (stuffer_access Hstuffer _ 0 (high_water_mark s) Hp) as Hv. simpl in Hv.
      rewrite Z.add_0_r in Hv. apply Hv; lia.
    + destruct (ok_null _ _ (ok_blob _ _ Hstuffer) Hp) as [? _]. replace (high_water_mark s) with 0 by lia.
      done.
Qed.

(** Shifting moves the unread bytes to the front: afterwards the read cursor is 0 and
    the unread bytes are the same, although source and destination overlap. *)
Theorem shift_correct (w : world) (s : s2n_stuffer)
    (Hworld : world_ok w) (Hstuffer : stuffer_ok (hp w) s) :
  exists w' s', s2n_stuffer_shift (w, s) = (Ok tt, (w', s')) /\ step_ok w s w' s' /\
    read_cursor s' = 0 /\ unread (hp w') s' = unread (hp w) s /\ written (hp w') s' = unread (hp w) s.
Proof.
  assert (H0 : wp s2n_stuffer_shift (w, s)
    (fun _ w' s' => step_ok w s w' s' /\ read_cursor s' = 0 /\ unread (hp w') s' = unread (hp w) s)
    (fun _ _ _ => False)).
  { apply wp_shift; [done..|]. by intros. }
  unfold wp in H0. destruct (s2n_stuffer_shift (w, s)) as [[[]|e|] [w' s']]; [|done..].
  destruct H0 as (Hst & Hr & Hq). exists w', s'. split_goal; try done.
  rewrite <- Hq. unfold unread. by rewrite Hr.
Qed.

(** Reading with erasure returns the next [n] unread bytes and zeroes them in the
    stuffer's memory, so that no copy is left behind. *)
Theorem erase_and_read_correct (w : world) (s : s2n_stuffer) (n : Z)
    (Hheap : heap_ok (hp w)) (Hstuffer : stuffer_ok (hp w) s) (Hn : 0 < n) :
  match s2n_stuffer_erase_and_read_bytes LocalDst n (w, s) with
  | (Ok bs, (w', s')) =>
      n <= zlen (unread (hp w) s) /\ bs = take (Z.to_nat n) (unread (hp w) s) /\
      s' = set_read_cursor (read_cursor s + n) s /\ step_ok w s w' s' /\
      match data (blob s) with
      | Some p => bytes_at (hp w') (Ptr (blk p) (off p + read_cursor s)) n = repeat 0 (Z.to_nat n)
      | None => False
      end
  | (Err e, st) => e = S2N_ERR_STUFFER_OUT_OF_DATA /\ zlen (unread (hp w) s) < n /\ st = (w, s)
  | (UB, _) => False
  end.
Proof.
  pose proof (unread_len Hstuffer) as Hlen. pose proof (ok_read _ _ Hstuffer). pose proof (ok_write _ _ Hstuffer).
  assert (Hrun : wp (s2n_stuffer_erase_and_read_bytes LocalDst n) (w, s)
    (fun bs w' s' => n <= zlen (unread (hp w) s) /\ bs = take (Z.to_nat n) (unread (hp w) s) /\
      s' = set_read_cursor (read_cursor s + n) s /\ step_ok w s w' s' /\
      match data (blob s) with
      | Some p => bytes_at (hp w') (Ptr (blk p) (off p + read_cursor s)) n = repeat 0 (Z.to_nat n)
      | None => False
      end)
    (fun e w' s' => e = S2N_ERR_STUFFER_OUT_OF_DATA /\ zlen (unread (hp w) s) < n /\ (w', s') = (w, s))).
  { apply wp_erase_and_read_bytes; [done|done|lia| |].
    - intros Hle w' -> Hst. split_goal; [lia|done|done|done|].
      destruct (data_some Hstuffer n) as [p Hp]; [lia..|].
      unfold at_offset, fill. rewrite Hp. simpl hp. set (bs := repeat _ _).
      replace n with (zlen bs) at 1 by (unfold bs; apply zlen_repeat; lia).
      apply bytes_at_heap_with_same. unfold bs. rewrite zlen_repeat by lia.
      apply (stuffer_access Hstuffer); [done|lia..].
    - intros Hlt. split_goal; [done|lia|done]. }
  unfold wp in Hrun. by destruct (s2n_stuffer_erase_and_read_bytes LocalDst n (w, s)) as [[bs|e|] [w' s']].
Qed.

(** ** Copying between stuffers *)

(** Both stuffers after [len] bytes have been moved from one to the other. *)
Record copied (w : world) (from to : s2n_stuffer) (len : Z)
    (w' : world) (from' to' : s2n_stuffer) : Prop := {
  cp_from : from' = advanced len from;
  cp_unread : unread (hp w') from' = drop (Z.to_nat len) (unread (hp w) from);
  cp_to : appended w to (take (Z.to_nat len) (unread (hp w) from)) w' to';
}.

(** Having written the next bytes of [from] to [to] is a copy. *)
Lemma appended_copied w from to len w' to' :
  stuffer_ok (hp w) from -> separate (blob from) (blob to) ->
  0 <= len <= write_cursor from - read_cursor from ->
  appended w to (take (Z.to_nat len) (unread (hp w) from)) w' to' ->
  copied w from to len w' (advanced len from) to'.
Proof.
  intros Hf Hsep Hle Happ. split; [done| |done].
  destruct (framed_stuffer _ _ _ _ Hf Hsep (step_frame _ _ _ _ (app_step _ _ _ _ _ Happ))) as [Hf1 Hwr1].
  rewrite unread_advanced by done. unfold unread. by rewrite Hwr1.
Qed.

Lemma wp_copy_impl (w : world) from to len Q E :
  world_ok w -> stuffer_ok (hp w) from -> stuffer_ok (hp w) to -> separate (blob from) (blob to) ->
  is_u32 len ->
  (forall w' from' to', len <= write_cursor from - read_cursor from ->
     copied w from to len w' from' to' -> Q tt w' (from', to')) ->
  (write_cursor from - read_cursor from < len -> E S2N_ERR_STUFFER_OUT_OF_DATA w (from, to)) ->
  (forall e w' to', len <= write_cursor from - read_cursor from -> full_err w to len w' to' ->
     E e w' (advanced len from, to')) ->
  wp (s2n_stuffer_copy_impl len) (w, (from, to)) Q E.
Proof.
  intros Hw Hf Ht Hsep Hlen HQ HE1 HE2. pose proof Hw as [Hh Hm]. unfold is_u32 in Hlen.
  pose proof (ok_read _ _ Hf). pose proof (ok_write _ _ Hf). pose proof (ok_read _ _ Ht).
  apply wp_bind, wp_zoom, wp_skip_read; [done|lia| |done]. simpl. intros Hle.
  apply wp_bind, wp_zoom, wp_skip_write; simpl; [done..| |]; [|intros e w' s' Hfull; by apply HE2].
  intros w1 to1 Hext. pose proof (ext_step _ _ _ _ _ Hext) as Hst.
  pose proof (step_stuffer _ _ _ _ Hst) as Ht1. pose proof (ok_write _ _ Ht1).
  destruct (ext_shape _ _ _ _ _ Hext) as [b' Hsh].
  assert (Hwc : write_cursor to1 = write_cursor to + len) by (by rewrite Hsh).
  destruct (framed_stuffer _ _ _ _ Hf Hsep (step_frame _ _ _ _ Hst)) as [Hf1 Hwr1].
  set (bs := take (Z.to_nat len) (unread (hp w) from)).
  assert (Hbl : zlen bs = len).
  { pose proof (unread_len Hf) as Hu. unfold bs. unfold zlen in *. rewrite length_take. lia. }
  assert (Hbs : is_bytes bs).
  { unfold bs, unread, written. apply Forall_take, Forall_drop.
    destruct (data (blob from)); [by apply bytes_at_is_bytes|constructor]. }
  apply wp_bind, wp_get_obj. cbn [fst snd lset fst_lens snd_lens].
  apply wp_bind, (wp_raw_ptr _ _ from); [done|simpl; lia|]. simpl read_cursor.
  replace (read_cursor from + len - len) with (read_cursor from) by lia.
  apply wp_bind, (wp_raw_ptr _ _ to1); [done|lia|].
  replace (write_cursor to1 - len) with (write_cursor to) by lia.
  assert (Hun : unread (hp w1) from = unread (hp w) from) by (unfold unread; by rewrite Hwr1).
  destruct (Z.eqb_spec len 0) as [->|Hne].
  { apply wp_ret, HQ; [done|]. apply appended_copied; [done|done|lia|]. simpl.
    destruct (ext_fits _ _ _ _ _ Hext) as [-> Hb1]; [pose proof (ok_write _ _ Ht); lia|].
    replace to1 with to; [by apply appended_nil|]. rewrite Hsh in Hb1 |- *. simpl in Hb1. subst b'.
    pose proof (ok_write _ _ Ht). destruct to. unfold extended_by. simpl in *. f_equal; lia. }
  destruct (data_some Hf1 len) as [p Hp]; [lia..|]. destruct (data_some Ht1 len) as [q Hq]; [lia..|].
  unfold at_offset. rewrite Hp, Hq.
  apply (wp_checked_memcpy _ _ _ bs); [|done|apply (stuffer_access Ht1); [done|lia..]|].
  - split; [done|]. split; [apply (stuffer_access Hf1); [done|lia..]|].
    rewrite (bytes_at_cursor Hf1) by (done || lia). by rewrite Hun.
  - apply HQ; [done|]. apply appended_copied; [done|done|lia|].
    apply extended_appended; [done|done| |done]. fold bs. by rewrite Hbl.
Qed.

(** After a copy, and after a failed one, both stuffers are valid and separate. *)
Record copy_state (w : world) (from to : s2n_stuffer) : Prop := {
  cs_world : world_ok w;
  cs_from : stuffer_ok (hp w) from;
  cs_to : stuffer_ok (hp w) to;
  cs_sep : separate (blob from) (blob to);
  cs_cb : s2n_mem_free_cb (mem w) <> UserImpl;
}.

Lemma copy_state_step w from to w' from' to' :
  copy_state w from to -> step_ok w to w' to' -> blob from' = blob from ->
  (stuffer_ok (hp w') from -> stuffer_ok (hp w') from') -> copy_state w' from' to'.
Proof.
  intros [Hw Hf Ht Hsep Hcb] Hst Hb Hok. split.
  - by eapply step_world_ok.
  - apply Hok. by apply (framed_stuffer (blob to) (hp w)), Hst.
  - apply Hst.
  - intros k Hk Hk'. rewrite Hb in Hk. destruct (step_fresh _ _ _ _ Hst k Hk') as [Hin|Hnone].
    + by apply (Hsep k).
    + destruct Hk as (p & Hp & <-). destruct (ok_access _ _ (ok_blob _ _ Hf) _ Hp) as (l & Hl & _). congruence.
  - by rewrite (step_mem _ _ _ _ Hst).
Qed.

Lemma copied_state w from to len w' from' to' :
  copy_state w from to -> 0 <= len <= write_cursor from - read_cursor from ->
  copied w from to len w' from' to' -> copy_state w' from' to'.
Proof.
  intros Hcs Hl [-> _ Ha]. apply (copy_state_step w from to); [done|apply Ha|done|].
  intros Hok. by apply advanced_ok.
Qed.

Lemma wp_copy_step (w : world) from to len Q E :
  copy_state w from to -> is_u32 len ->
  (forall w' from' to', len <= write_cursor from - read_cursor from ->
     copied w from to len w' from' to' -> copy_state w' from' to' -> Q tt w' (from', to')) ->
  (forall e w', zlen (unread (hp w) from) < len \/ size (blob to) - write_cursor to < len ->
     unread (hp w') from = unread (hp w) from -> written (hp w') to = written (hp w) to ->
     step_ok w to w' to -> copy_state w' from to -> E e w' (from, to)) ->
  wp (s2n_stuffer_copy len) (w, (from, to)) Q E.
Proof.
  intros Hcs Hlen HQ HE. pose proof Hcs as [Hw Hf Ht Hsep Hcb]. pose proof (unread_len Hf) as Hul.
  apply wp_bind, wp_get_obj, wp_bind, wp_attempt. apply wp_copy_impl; [done..| | |].
  - intros w' from' to' Hle Hc. apply wp_ret, HQ; [done|done|].
    eapply copied_state; [done| |done]. unfold is_u32 in Hlen. lia.
  - intros Hlt. apply wp_bind, wp_zoom, wp_modify. simpl. apply wp_bind, wp_zoom, wp_modify, wp_fail. simpl.
    assert (Ef : set_read_cursor (read_cursor from) from = from) by (by destruct from).
    assert (Et : set_write_cursor (write_cursor to) to = to) by (by destruct to).
    rewrite Ef, Et. apply HE; [left; lia|done|done|apply step_ok_refl; [apply Hw|done]|done].
  - intros e w' to' Hle [Hfull Hk]. apply wp_bind, wp_zoom, wp_modify. simpl.
    apply wp_bind, wp_zoom, wp_modify, wp_fail. simpl.
    destruct (kept_all _ _ _ _ Hk Hcb) as [-> Hwt].
    destruct (framed_stuffer _ _ _ _ Hf Hsep (step_frame _ _ _ _ (kept_step _ _ _ _ Hk))) as [Hf' Hwf].
    assert (Ef : set_read_cursor (read_cursor from) (advanced len from) = from) by (by destruct from).
    assert (Et : set_write_cursor (write_cursor to) to = to) by (by destruct to).
    rewrite Ef, Et. apply HE; [by right|unfold unread; by rewrite Hwf|done|apply Hk|].
    by apply (copy_state_step w from to); [|apply Hk|..].
Qed.

Lemma wp_copy (w : world) from to len Q E :
  copy_state w from to -> is_u32 len ->
  (forall w' from' to', len <= write_cursor from - read_cursor from ->
     copied w from to len w' from' to' -> copy_state w' from' to' -> Q tt w' (from', to')) ->
  (forall e w', zlen (unread (hp w) from) < len \/ size (blob to) - write_cursor to < len ->
     unread (hp w') from = unread (hp w) from -> written (hp w') to = written (hp w) to ->
     copy_state w' from to -> E e w' (from, to)) ->
  wp (s2n_stuffer_copy len) (w, (from, to)) Q E.
Proof.
  intros Hcs Hlen HQ HE. apply wp_copy_step; [done|done|done|]. intros e w' ?? ? _ ?. by apply HE.
Qed.

(** Copying between stuffers is all or nothing: on success the next [len] unread bytes of
    [from] have been consumed and appended to [to]; on failure both stuffers
    have the cursors and contents they had, even though the read side had
    already advanced. *)
Theorem copy_correct (w : world) (from to : s2n_stuffer) (len : Z)
    (Hworld : world_ok w) (Hfrom : stuffer_ok (hp w) from) (Hto : stuffer_ok (hp w) to)
    (Hsep : separate (blob from) (blob to)) (Hlen : is_u32 len)
    (Hcb : s2n_mem_free_cb (mem w) <> UserImpl) :
  match s2n_stuffer_copy len (w, (from, to)) with
  | (Ok _, (w', (from', to'))) =>
      unread (hp w') from' = drop (Z.to_nat len) (unread (hp w) from) /\
      written (hp w') to' = written (hp w) to ++ take (Z.to_nat len) (unread (hp w) from) /\
      unread (hp w') to' = unread (hp w) to ++ take (Z.to_nat len) (unread (hp w) from)
  | (Err _, (w', (from', to'))) =>
      from' = from /\ to' = to /\
      unread (hp w') from = unread (hp w) from /\ written (hp w') to = written (hp w) to /\
      (zlen (unread (hp w) from) < len \/ size (blob to) - write_cursor to < len)
  | (UB, _) => False
  end.
Proof.
  assert (Hrun : wp (s2n_stuffer_copy len) (w, (from, to))
    (fun _ w' st => unread (hp w') (fst st) = drop (Z.to_nat len) (unread (hp w) from) /\
      written (hp w') (snd st) = written (hp w) to ++ take (Z.to_nat len) (unread (hp w) from) /\
      unread (hp w') (snd st) = unread (hp w) to ++ take (Z.to_nat len) (unread (hp w) from))
    (fun _ w' st => fst st = from /\ snd st = to /\
      unread (hp w') from = unread (hp w) from /\ written (hp w') to = written (hp w) to /\
      (zlen (unread (hp w) from) < len \/ size (blob to) - write_cursor to < len))).
  { apply wp_copy; [by split|done| |].
    - intros w' from' to' _ [_ Hu Ha] _. simpl. split_goal; [done|apply Ha|by apply unread_appended].
    - by intros. }
  unfold wp in Hrun. by destruct (s2n_stuffer_copy len (w, (from, to))) as [[[]|e|] [w' [from' to']]].
Qed.

End Theorems.

Lemma demo_source : source_ok demo_world demo_stuffer (LocalBuf [7; 8]) [7; 8].
Proof. apply source_local; [solve_bytes|unfold is_u32, zlen; simpl; lia]. Qed.

Lemma write_bytes_correct_witness :
  match @s2n_stuffer_write_bytes demo_platform (LocalBuf [7; 8]) 2 (demo_world, demo_stuffer) with
  | (Ok _, (w', s')) => written (hp w') s' = [10; 20; 30; 40; 7; 8] /\ read_cursor s' = 1 /\
      tainted s' = false /\ step_ok demo_world demo_stuffer w' s'
  | (Err _, (w', s')) => 8 - 4 < 2 /\ s' = demo_stuffer /\ written (hp w') demo_stuffer = [10; 20; 30; 40]
  | (UB, _) => False
  end.
Proof.
  apply (@write_bytes_correct demo_platform _ demo_world demo_stuffer (LocalBuf [7; 8]) [7; 8]).
  - exact demo_world_ok.
  - exact demo_stuffer_ok.
  - exact demo_source.
  - discriminate.
Defined.

Lemma resize_correct_witness :
  match @s2n_stuffer_resize demo_platform 2 (demo_world, demo_stuffer) with
  | (Ok _, (w', s')) => size (blob s') = 2 /\ read_cursor s' = 1 /\ write_cursor s' = 2 /\
      written (hp w') s' = [10; 20] /\ step_ok demo_world demo_stuffer w' s'
  | (Err _, (w', s')) => s' = demo_stuffer /\ written (hp w') demo_stuffer = [10; 20; 30; 40] /\
      step_ok demo_world demo_stuffer w' demo_stuffer
  | (UB, _) => False
  end.
Proof.
  apply (@resize_correct demo_platform _ demo_world demo_stuffer 2).
  - exact demo_world_ok.
  - exact demo_stuffer_ok.
  - unfold is_u32. lia.
  - discriminate.
Defined.

Lemma wipe_correct_witness :
  exists w' s', @s2n_stuffer_wipe demo_platform (demo_world, demo_stuffer) = (Ok tt, (w', s')) /\
    step_ok demo_world demo_stuffer w' s' /\
    s' = Stuffer (blob demo_stuffer) 0 0 0 false false false /\
    zslice (blob_bytes (hp w') (blob demo_stuffer)) 0 4 = [119; 119; 119; 119].
Proof.
  apply (@wipe_correct demo_platform demo_world demo_stuffer);
    [exact (proj1 demo_world_ok)|exact demo_stuffer_ok].
Defined.

Lemma shift_correct_witness :
  exists w' s', @s2n_stuffer_shift demo_platform (demo_world, demo_stuffer) = (Ok tt, (w', s')) /\
    step_ok demo_world demo_stuffer w' s' /\ read_cursor s' = 0 /\
    unread (hp w') s' = [20; 30; 40] /\ written (hp w') s' = [20; 30; 40].
Proof.
  apply (@shift_correct demo_platform _ demo_world demo_stuffer);
    [exact demo_world_ok|exact demo_stuffer_ok].
Defined.

Lemma erase_and_read_correct_witness :
  exists w' s', @s2n_stuffer_erase_and_read_bytes demo_platform LocalDst 2 (demo_world, demo_stuffer) =
      (Ok [20; 30], (w', s')) /\
    bytes_at (hp w') (Ptr 1 1) 2 = [0; 0].
Proof.
  pose proof (@erase_and_read_correct demo_platform demo_world demo_stuffer 2
    (proj1 demo_world_ok) demo_stuffer_ok ltac:(lia)) as Hc.
  eexists _, _. split; [vm_compute; reflexivity|]. apply Hc.
Defined.

Definition demo_world2 : world :=
  World {[1%positive := [10; 20; 30; 40; 0; 0; 0; 0]; 2%positive := [1; 2; 3]]} started_statics.
Definition demo_to : s2n_stuffer := Stuffer (Blob (Some (Ptr 2 0)) 3 0 false) 0 1 1 false false false.

Lemma copy_correct_witness :
  match @s2n_stuffer_copy demo_platform 2 (demo_world2, (demo_stuffer, demo_to)) with
  | (Ok _, (w', (from', to'))) => unread (hp w') from' = [40] /\
      written (hp w') to' = [1; 20; 30] /\ unread (hp w') to' = [1; 20; 30]
  | (Err _, (w', (from', to'))) => from' = demo_stuffer /\ to' = demo_to /\
      unread (hp w') demo_stuffer = [20; 30; 40] /\ written (hp w') demo_to = [1] /\
      (3 < 2 \/ 3 - 1 < 2)
  | (UB, _) => False
  end.
Proof.
  apply (@copy_correct demo_platform _ demo_world2 demo_stuffer demo_to 2).
  - split; [unfold demo_world2; solve_heap_ok|]. split; [done|]. simpl. unfold is_u32. lia.
  - split; simpl; try done; try lia.
    split; simpl; unfold is_u32; try done; try lia. intros p [= <-]. solve_valid_access.
  - split; simpl; try done; try lia.
    split; simpl; unfold is_u32; try done; try lia. intros p [= <-]. solve_valid_access.
  - intros k (p & [= <-] & <-) (q & [= <-] & ?). done.
  - unfold is_u32. lia.
  - discriminate.
Defined.

End StufferTheorems.
Export StufferTheorems.
