(* ===== verification/NetworkOrder.v ===== *)
(** * stuffer/s2n_stuffer_network_order.c: integers and length-prefixed vectors

    Big-endian integers of 1 to 8 bytes, and reservations: room left in a
    stuffer for the length of a vector that is filled in once the vector has
    been written.  The stuffer a reservation points to is the state of the
    command. *)
From S2P Require Import Prelude Errors CMem Platform Safety Blob Alloc Stuffer StufferInv StufferWrite StufferSpec.
Open Scope Z_scope.

Module NetworkOrder.

(** struct s2n_stuffer_reservation *)
Record s2n_stuffer_reservation := Reservation { rsv_cursor : Z; rsv_length : Z }.

Definition SIZEOF_UINT24 : Z := 3.

Section Definitions.
Context `{Platform}.

(** The loop of s2n_stuffer_write_network_order, from index [length - k] on. *)
Fixpoint network_order_loop (k : nat) (p : option ptr) (i input length : Z) : Cmd s2n_stuffer unit :=
  match k with
  | O => ret tt
  | S k' =>
      let shift := u8 ((length - i - 1) * 8) in
      store_byte p i (Z.land (Z.shiftr input shift) UINT8_MAX) ;;;
      network_order_loop k' p (i + 1) input length
  end.

Definition s2n_stuffer_write_network_order (input length : Z) : Cmd s2n_stuffer unit :=
  if length =? 0 then ret tt
  else
    ensure (length <=? 8) S2N_ERR_SAFETY ;;;
    s2n_stuffer_skip_write length ;;;
    s <-- get_obj ;;
    ensure_ref (data (blob s)) ;;;
    p <-- ptr_add (data (blob s)) (write_cursor s - length) ;;
    network_order_loop (Z.to_nat length) p 0 input length ;;;
    post_validate.

Definition s2n_stuffer_reservation_validate (r : s2n_stuffer_reservation) : Cmd s2n_stuffer unit :=
  s <-- get_obj ;;
  s2n_stuffer_validate s ;;;
  ensure (rsv_cursor r <=? UINT32_MAX - rsv_length r) S2N_ERR_SAFETY ;;;
  ensure (rsv_cursor r + rsv_length r <=? write_cursor s) S2N_ERR_SAFETY ;;;
  ensure (read_cursor s <=? rsv_cursor r) S2N_ERR_SAFETY.

Definition s2n_stuffer_reserve (length : Z) : Cmd s2n_stuffer s2n_stuffer_reservation :=
  pre_validate ;;;
  s <-- get_obj ;;
  let reservation := Reservation (write_cursor s) length in
  s2n_stuffer_skip_write (rsv_length reservation) ;;;
  s <-- get_obj ;;
  p <-- ptr_add (data (blob s)) (rsv_cursor reservation) ;;
  checked_memset p S2N_WIPE_PATTERN (rsv_length reservation) ;;;
  postcondition (s2n_stuffer_reservation_validate reservation) ;;;
  ret reservation.

Definition s2n_stuffer_read_uint8 : Cmd s2n_stuffer Z :=
  d <-- s2n_stuffer_read_bytes LocalDst 1 ;; ret (znth d 0).

Definition s2n_stuffer_write_uint8 (u : Z) : Cmd s2n_stuffer unit :=
  s2n_stuffer_write_bytes (LocalBuf [u]) 1.

Definition s2n_stuffer_reserve_uint8 : Cmd s2n_stuffer s2n_stuffer_reservation := s2n_stuffer_reserve 1.

Definition s2n_stuffer_read_uint16 : Cmd s2n_stuffer Z :=
  d <-- s2n_stuffer_read_bytes LocalDst 2 ;;
  let u := u16 (Z.shiftl (znth d 0) 8) in
  ret (Z.lor u (znth d 1)).

Definition s2n_stuffer_write_uint16 (u : Z) : Cmd s2n_stuffer unit := s2n_stuffer_write_network_order u 2.

Definition s2n_stuffer_reserve_uint16 : Cmd s2n_stuffer s2n_stuffer_reservation := s2n_stuffer_reserve 2.

Definition s2n_stuffer_read_uint24 : Cmd s2n_stuffer Z :=
  d <-- s2n_stuffer_read_bytes LocalDst SIZEOF_UINT24 ;;
  let u := u32 (Z.shiftl (znth d 0) 16) in
  let u := Z.lor u (Z.shiftl (znth d 1) 8) in
  ret (Z.lor u (znth d 2)).

Definition s2n_stuffer_write_uint24 (u : Z) : Cmd s2n_stuffer unit :=
  ensure (u <? Z.shiftl 1 24) S2N_ERR_INTEGER_OVERFLOW ;;;
  s2n_stuffer_write_network_order u SIZEOF_UINT24.

Definition s2n_stuffer_reserve_uint24 : Cmd s2n_stuffer s2n_stuffer_reservation :=
  s2n_stuffer_reserve SIZEOF_UINT24.

Definition s2n_stuffer_read_uint32 : Cmd s2n_stuffer Z :=
  d <-- s2n_stuffer_read_bytes LocalDst 4 ;;
  let u := u32 (Z.shiftl (znth d 0) 24) in
  let u := Z.lor u (Z.shiftl (znth d 1) 16) in
  let u := Z.lor u (Z.shiftl (znth d 2) 8) in
  ret (Z.lor u (znth d 3)).

Definition s2n_stuffer_write_uint32 (u : Z) : Cmd s2n_stuffer unit := s2n_stuffer_write_network_order u 4.

Definition s2n_stuffer_read_uint64 : Cmd s2n_stuffer Z :=
  d <-- s2n_stuffer_read_bytes LocalDst 8 ;;
  let u := u64 (Z.shiftl (znth d 0) 56) in
  let u := Z.lor u (u64 (Z.shiftl (znth d 1) 48)) in
  let u := Z.lor u (u64 (Z.shiftl (znth d 2) 40)) in
  let u := Z.lor u (u64 (Z.shiftl (znth d 3) 32)) in
  let u := Z.lor u (u64 (Z.shiftl (znth d 4) 24)) in
  let u := Z.lor u (u64 (Z.shiftl (znth d 5) 16)) in
  let u := Z.lor u (u64 (Z.shiftl (znth d 6) 8)) in
  ret (Z.lor u (znth d 7)).

Definition s2n_stuffer_write_uint64 (u : Z) : Cmd s2n_stuffer unit := s2n_stuffer_write_network_order u 8.

Definition length_matches_value_check {X} (value length : Z) : Cmd X unit :=
  ensure (length <=? 4) S2N_ERR_SIZE_MISMATCH ;;;
  if length <? 4 then
    let size_max := Z.shiftl 1 (length * 8) in
    ensure (value <? size_max) S2N_ERR_SIZE_MISMATCH
  else ret tt.

Definition s2n_stuffer_write_reservation_impl (r : s2n_stuffer_reservation) (u : Z) : Cmd s2n_stuffer unit :=
  modify (set_write_cursor (rsv_cursor r)) ;;;
  pre_validate ;;;
  length_matches_value_check u (rsv_length r) ;;;
  s2n_stuffer_write_network_order u (rsv_length r) ;;;
  post_validate.

Definition s2n_stuffer_write_reservation (r : s2n_stuffer_reservation) (u : Z) : Cmd s2n_stuffer unit :=
  s2n_stuffer_reservation_validate r ;;;
  s <-- get_obj ;;
  let old_write_cursor := write_cursor s in
  result <-- attempt (s2n_stuffer_write_reservation_impl r u) ;;
  modify (set_write_cursor old_write_cursor) ;;;
  guard_rc result.

Definition s2n_stuffer_get_vector_size (r : s2n_stuffer_reservation) : Cmd s2n_stuffer Z :=
  s2n_stuffer_reservation_validate r ;;;
  s <-- get_obj ;;
  ret (u32 (write_cursor s - u32 (rsv_cursor r + rsv_length r))).

Definition s2n_stuffer_write_vector_size (r : s2n_stuffer_reservation) : Cmd s2n_stuffer unit :=
  size <-- s2n_stuffer_get_vector_size r ;;
  s2n_stuffer_write_reservation r size.

End Definitions.

(** ** Big-endian byte strings *)

(** The [k] bytes of [v], most significant first. *)
Fixpoint be_bytes (k : nat) (v : Z) : list Z :=
  match k with
  | O => []
  | S k' => Z.land (Z.shiftr v (8 * Z.of_nat k')) 255 :: be_bytes k' v
  end.

(** The value of a big-endian byte string. *)
Fixpoint be_value (acc : Z) (bs : list Z) : Z :=
  match bs with
  | [] => acc
  | b :: bs' => be_value (acc * 256 + b) bs'
  end.

Lemma zlen_be_bytes k v : zlen (be_bytes k v) = Z.of_nat k.
Proof. induction k; [done|]. simpl. rewrite zlen_cons, IHk. lia. Qed.

Lemma land_255 v : Z.land v 255 = v mod 256.
Proof. change 255 with (Z.ones 8). by rewrite Z.land_ones. Qed.

Lemma be_bytes_is_bytes k v : is_bytes (be_bytes k v).
Proof.
  induction k; simpl; [constructor|]. apply Forall_cons_2; [|done].
  rewrite land_255. unfold is_u8. pose proof (Z.mod_pos_bound (Z.shiftr v (8 * Z.of_nat k)) 256). lia.
Qed.

Lemma be_bytes_1 u : is_u8 u -> be_bytes 1 u = [u].
Proof.
  unfold is_u8. intros. unfold be_bytes. change (8 * Z.of_nat 0) with 0.
  by rewrite Z.shiftr_0_r, land_255, Z.mod_small by lia.
Qed.

(** Decoding an encoding yields the value modulo the width. *)
Lemma be_value_bytes k v acc :
  be_value acc (be_bytes k v) = acc * 2 ^ (8 * Z.of_nat k) + v mod 2 ^ (8 * Z.of_nat k).
Proof.
  revert acc. induction k as [|k IH]; intros acc; simpl be_bytes.
  - simpl. rewrite Z.mod_1_r. lia.
  - simpl be_value. rewrite IH, land_255, Z.shiftr_div_pow2 by lia.
    set (m := 2 ^ (8 * Z.of_nat k)). assert (0 < m) by (apply Z.pow_pos_nonneg; lia).
    replace (2 ^ (8 * Z.of_nat (S k))) with (m * 256).
    + rewrite Z.rem_mul_r by lia. nia.
    + unfold m. replace (8 * Z.of_nat (S k)) with (8 * Z.of_nat k + 8) by lia.
      rewrite Z.pow_add_r by lia. done.
Qed.

Section Rules.
Context `{HP : Platform}.

Lemma network_order_loop_wp k p i input length (w : world) s Q E :
  length = i + Z.of_nat k -> 0 <= i -> length <= 8 ->
  valid_access (hp w) (Ptr (blk p) (off p + i)) (Z.of_nat k) ->
  Q tt (World (heap_with (hp w) (Ptr (blk p) (off p + i)) (be_bytes k input)) (mem w)) s ->
  wp (network_order_loop k (Some p) i input length) (w, s) Q E.
Proof.
  revert i w. induction k as [|k IH]; intros i w Hl Hi H8 Hv HQ.
  - apply wp_ret. simpl in HQ. rewrite heap_with_nil in HQ. by destruct w.
  - assert (H1 := valid_access_head _ _ _ Hv ltac:(lia)).
    assert (H2 := valid_access_tail _ _ _ Hv ltac:(lia)).
    replace (Z.of_nat (S k) - 1) with (Z.of_nat k) in H2 by lia.
    simpl in H2. rewrite <- Z.add_assoc in H2.
    apply wp_bind, wp_store_byte; [done|].
    replace (u8 ((length - i - 1) * 8)) with (8 * Z.of_nat k) by (rewrite u8_small; lia).
    unfold UINT8_MAX. change (2 ^ 8 - 1) with 255.
    assert (Hb : u8 (Z.land (Z.shiftr input (8 * Z.of_nat k)) 255) = Z.land (Z.shiftr input (8 * Z.of_nat k)) 255).
    { apply u8_id. rewrite land_255. unfold is_u8. pose proof (Z.mod_pos_bound (Z.shiftr input (8 * Z.of_nat k)) 256). lia. }
    rewrite Hb. apply IH; [lia|lia|done|by apply valid_access_heap_with|]. simpl. simpl in HQ.
    match goal with |- context [heap_with (heap_with ?h ?p [?b]) _ ?bs] =>
      pose proof (heap_with_cons h p b bs) as Hcons end.
    simpl in Hcons. rewrite <- Z.add_assoc in Hcons. rewrite Hcons; [done|].
    rewrite zlen_cons, zlen_be_bytes. by replace (1 + Z.of_nat k) with (Z.of_nat (S k)) by lia.
Qed.

Section Growing.
Context `{!BlobAllocator}.

Lemma wp_write_network_order (w : world) s input length Q E :
  world_ok w -> stuffer_ok (hp w) s -> 0 < length <= 8 ->
  (forall w1 s1 p, extended w s length w1 s1 -> data (blob s1) = Some p ->
     let bs := be_bytes (Z.to_nat length) input in
     let w' := World (heap_with (hp w1) (Ptr (blk p) (off p + write_cursor s)) bs) (mem w1) in
     appended w s bs w' s1 -> Q tt w' s1) ->
  (forall e w' s', full_err w s length w' s' -> E e w' s') ->
  wp (s2n_stuffer_write_network_order input length) (w, s) Q E.
Proof.
  intros Hw Hs Hl HQ HE. unfold s2n_stuffer_write_network_order.
  rewrite (proj2 (Z.eqb_neq length 0)) by lia. pose proof (ok_read _ _ Hs).
  apply wp_bind, wp_ensure; intros Hle; zbool; [|lia].
  apply wp_bind, wp_skip_write; [done|done|unfold is_u32; lia| |done]. intros w1 s1 Hext.
  pose proof (step_stuffer _ _ _ _ (ext_step _ _ _ _ _ Hext)) as Hs1. pose proof (ok_write _ _ Hs1).
  destruct (ext_shape _ _ _ _ _ Hext) as [b' Hsh].
  assert (Hwc : write_cursor s1 = write_cursor s + length) by (by rewrite Hsh).
  apply wp_bind, wp_get_obj. destruct (data_some Hs1 length) as [p Hp]; [lia..|].
  unfold ensure_ref. rewrite Hp. apply wp_bind, wp_ensure; [intros _|done].
  apply wp_bind, wp_ptr_add_some. replace (write_cursor s1 - length) with (write_cursor s) by lia.
  set (q := Ptr (blk p) (off p + write_cursor s)).
  assert (Eq : Ptr (blk q) (off q + 0) = q) by (unfold q; simpl; by rewrite Z.add_0_r).
  assert (Happ := extended_appended w s (be_bytes (Z.to_nat length) input) w1 s1 p Hs (be_bytes_is_bytes _ _)).
  rewrite zlen_be_bytes, Z2Nat.id in Happ by lia. specialize (Happ Hext Hp).
  apply wp_bind, network_order_loop_wp; rewrite ?Eq, ?Z2Nat.id by lia; [lia|lia|lia| |].
  - apply (stuffer_access Hs1); [done|lia..].
  - apply wp_post_validate; [apply Happ|]. by apply (HQ _ _ p).
Qed.

(** ** The integers of the wire format *)

Inductive width := W8 | W16 | W24 | W32 | W64.

Definition width_bytes (wd : width) : Z :=
  match wd with W8 => 1 | W16 => 2 | W24 => 3 | W32 => 4 | W64 => 8 end.

Definition write_uint (wd : width) (u : Z) : Cmd s2n_stuffer unit :=
  match wd with
  | W8 => s2n_stuffer_write_uint8 u
  | W16 => s2n_stuffer_write_uint16 u
  | W24 => s2n_stuffer_write_uint24 u
  | W32 => s2n_stuffer_write_uint32 u
  | W64 => s2n_stuffer_write_uint64 u
  end.

Definition read_uint (wd : width) : Cmd s2n_stuffer Z :=
  match wd with
  | W8 => s2n_stuffer_read_uint8
  | W16 => s2n_stuffer_read_uint16
  | W24 => s2n_stuffer_read_uint24
  | W32 => s2n_stuffer_read_uint32
  | W64 => s2n_stuffer_read_uint64
  end.

Definition in_width (wd : width) (u : Z) : Prop := 0 <= u < 2 ^ (8 * width_bytes wd).

Lemma wp_write_uint (w : world) s wd u Q E :
  world_ok w -> stuffer_ok (hp w) s -> in_width wd u ->
  (forall w' s', appended w s (be_bytes (Z.to_nat (width_bytes wd)) u) w' s' -> Q tt w' s') ->
  (forall e w' s', full_err w s (width_bytes wd) w' s' -> E e w' s') ->
  wp (write_uint wd u) (w, s) Q E.
Proof.
  intros Hw Hs Hu HQ HE. unfold in_width in Hu. destruct wd; cbn [width_bytes write_uint] in *.
  - change (Z.to_nat 1) with 1%nat in HQ. rewrite be_bytes_1 in HQ by done.
    apply (wp_write_bytes w s (LocalBuf [u]) [u]); try done.
    apply source_local; [|unfold is_u32, zlen; simpl; lia]. apply Forall_cons_2; [|constructor]. done.
  - apply wp_write_network_order; [done|done|lia| |done]. intros. by apply HQ.
  - apply wp_bind, wp_ensure; intros Hlt; zbool; [|change (Z.shiftl 1 24) with (2 ^ 24) in Hlt; lia].
    apply wp_write_network_order; [done|done|unfold SIZEOF_UINT24; lia| |done]. intros. by apply HQ.
  - apply wp_write_network_order; [done|done|lia| |done]. intros. by apply HQ.
  - apply wp_write_network_order; [done|done|lia| |done]. intros. by apply HQ.
Qed.

End Growing.

(** ** Reading integers *)

Lemma bits_high b n i : 0 <= b < 2 ^ n -> n <= i -> 0 <= n -> Z.testbit b i = false.
Proof.
  intros Hb Hi Hn. destruct (Z.eq_dec b 0) as [->|Hne]; [apply Z.bits_0|].
  apply Z.bits_above_log2; [lia|]. apply Z.lt_le_trans with n; [|done]. apply Z.log2_lt_pow2; lia.
Qed.

Lemma lor_add a n b : 0 <= n -> 0 <= b < 2 ^ n -> Z.lor (a * 2 ^ n) b = a * 2 ^ n + b.
Proof.
  intros Hn Hb. assert (Hd : Z.land (a * 2 ^ n) b = 0).
  { apply Z.bits_inj'. intros i Hi. rewrite Z.land_spec, Z.bits_0.
    destruct (Z.lt_ge_cases i n).
    - by rewrite Z.mul_pow2_bits_low.
    - by rewrite (bits_high b n), andb_false_r. }
  by rewrite Z.add_nocarry_lxor, Z.lxor_lor.
Qed.

(** One more byte in the least significant position. *)
Lemma lor_shifted a b n m :
  0 <= n -> m = n + 8 -> 0 <= b < 256 ->
  Z.lor (a * 2 ^ m) (Z.shiftl b n) = (a * 256 + b) * 2 ^ n.
Proof.
  intros Hn -> Hb. rewrite Z.shiftl_mul_pow2 by done.
  assert (0 < 2 ^ n) by (apply Z.pow_pos_nonneg; lia).
  assert (Hp : 2 ^ (n + 8) = 256 * 2 ^ n) by (rewrite Z.pow_add_r by lia; lia).
  rewrite lor_add; [|lia|]; rewrite Hp; nia.
Qed.

Lemma be_value_range bs acc n :
  is_bytes bs -> 0 <= acc < 2 ^ n -> 0 <= n -> 0 <= be_value acc bs < 2 ^ (n + 8 * zlen bs).
Proof.
  intros Hb. revert acc n. induction Hb as [|b bs Hb0 _ IH]; intros acc n Ha Hn; simpl be_value.
  - unfold zlen. simpl length. by replace (n + 8 * Z.of_nat 0) with n by lia.
  - rewrite zlen_cons. replace (n + 8 * (1 + zlen bs)) with ((n + 8) + 8 * zlen bs) by lia.
    apply IH; [|lia]. rewrite Z.pow_add_r by lia. unfold is_u8 in Hb0. lia.
Qed.

(** The shifts and ors of the readers compute the big-endian value. *)
Definition decode (wd : width) (d : list Z) : Z :=
  match wd with
  | W8 => znth d 0
  | W16 => Z.lor (u16 (Z.shiftl (znth d 0) 8)) (znth d 1)
  | W24 => Z.lor (Z.lor (u32 (Z.shiftl (znth d 0) 16)) (Z.shiftl (znth d 1) 8)) (znth d 2)
  | W32 => Z.lor (Z.lor (Z.lor (u32 (Z.shiftl (znth d 0) 24)) (Z.shiftl (znth d 1) 16))
             (Z.shiftl (znth d 2) 8)) (znth d 3)
  | W64 => Z.lor (Z.lor (Z.lor (Z.lor (Z.lor (Z.lor (Z.lor (u64 (Z.shiftl (znth d 0) 56))
             (u64 (Z.shiftl (znth d 1) 48))) (u64 (Z.shiftl (znth d 2) 40)))
             (u64 (Z.shiftl (znth d 3) 32))) (u64 (Z.shiftl (znth d 4) 24)))
             (u64 (Z.shiftl (znth d 5) 16))) (u64 (Z.shiftl (znth d 6) 8))) (znth d 7)
  end.

Lemma shiftl_byte b n k : is_u8 b -> 0 <= n -> n + 8 <= k -> Z.shiftl b n mod 2 ^ k = Z.shiftl b n.
Proof.
  unfold is_u8. intros Hb Hn Hk. rewrite Z.shiftl_mul_pow2 by done. apply Z.mod_small.
  assert (0 < 2 ^ n) by (apply Z.pow_pos_nonneg; lia).
  assert (2 ^ (n + 8) <= 2 ^ k) by (apply Z.pow_le_mono_r; lia).
  rewrite Z.pow_add_r in * by lia. nia.
Qed.

Lemma decode_correct wd d :
  is_bytes d -> zlen d = width_bytes wd -> decode wd d = be_value 0 d.
Proof.
  intros Hd Hlen.
  assert (Hn : length d = Z.to_nat (width_bytes wd)) by (unfold zlen in Hlen; lia).
  assert (Hr : forall i, is_u8 (znth d i)) by (intros; by apply znth_is_u8).
  assert (Hlast : forall a b, is_u8 b -> Z.lor (a * 2 ^ 8) b = a * 256 + b).
  { intros a b Hb. by rewrite lor_add. }
  unfold decode, u16, u32, u64. destruct wd; cbn [width_bytes] in Hn; simpl in Hn.
  all: rewrite ?shiftl_byte by (auto || lia).
  all: try rewrite (Z.shiftl_mul_pow2 (znth d 0)) by lia.
  all: repeat (rewrite lor_shifted by (apply Hr || lia)).
  all: rewrite ?Hlast by auto.
  all: repeat (destruct d as [|? d]; simpl in Hn; try discriminate Hn); reflexivity.
Qed.

Lemma wp_bind_read (w : world) s n (f : list Z -> Z) Q E :
  stuffer_ok (hp w) s -> 0 < n ->
  (n <= write_cursor s - read_cursor s -> Q (f (take (Z.to_nat n) (unread (hp w) s))) w (advanced n s)) ->
  (write_cursor s - read_cursor s < n -> E S2N_ERR_STUFFER_OUT_OF_DATA w s) ->
  wp (d <-- s2n_stuffer_read_bytes LocalDst n ;; ret (f d)) (w, s) Q E.
Proof.
  intros Hs Hn HQ HE. apply wp_bind, wp_read_bytes_local; [done|done| |done].
  intros Hle. apply wp_ret. auto.
Qed.

Lemma unread_is_bytes w s : heap_ok (hp w) -> is_bytes (unread (hp w) s).
Proof.
  intros Hh. unfold unread, written. apply Forall_drop. destruct (data (blob s)); [|constructor].
  by apply bytes_at_is_bytes.
Qed.

Lemma wp_read_uint (w : world) s wd Q E :
  heap_ok (hp w) -> stuffer_ok (hp w) s ->
  (width_bytes wd <= write_cursor s - read_cursor s ->
     Q (be_value 0 (take (Z.to_nat (width_bytes wd)) (unread (hp w) s))) w (advanced (width_bytes wd) s)) ->
  (write_cursor s - read_cursor s < width_bytes wd -> E S2N_ERR_STUFFER_OUT_OF_DATA w s) ->
  wp (read_uint wd) (w, s) Q E.
Proof.
  intros Hh Hs HQ HE. assert (Hw0 : 0 < width_bytes wd) by (by destruct wd).
  assert (Hd : wp (d <-- s2n_stuffer_read_bytes LocalDst (width_bytes wd) ;; ret (decode wd d)) (w, s) Q E).
  { apply wp_bind_read; [done|done| |done]. intros Hle. rewrite decode_correct; [auto| |].
    - by apply Forall_take, unread_is_bytes.
    - pose proof (unread_len Hs) as Hl. unfold zlen in *. rewrite length_take. lia. }
  destruct wd; exact Hd.
Qed.

Section Roundtrip.
Context `{!BlobAllocator}.

(** Writing an integer in network order appends exactly its big-endian bytes, for each of
    the widths 8, 16, 24, 32 and 64, and reading it back consumes those bytes
    and returns the same integer; the write can only fail for lack of room and
    then changes nothing. *)
Theorem uint_roundtrip (w : world) (s : s2n_stuffer) (wd : width) (u : Z)
    (Hworld : world_ok w) (Hstuffer : stuffer_ok (hp w) s) (Hempty : unread (hp w) s = [])
    (Hu : in_width wd u) (Hcb : s2n_mem_free_cb (mem w) <> UserImpl) :
  match (write_uint wd u ;;; read_uint wd) (w, s) with
  | (Ok v, (w', s')) => v = u /\ unread (hp w') s' = [] /\
      written (hp w') s' = written (hp w) s ++ be_bytes (Z.to_nat (width_bytes wd)) u
  | (Err _, (w', s')) => size (blob s) - write_cursor s < width_bytes wd /\ s' = s /\
      written (hp w') s = written (hp w) s
  | (UB, _) => False
  end.
Proof.
  change (wp (write_uint wd u ;;; read_uint wd) (w, s)
    (fun v w' s' => v = u /\ unread (hp w') s' = [] /\
      written (hp w') s' = written (hp w) s ++ be_bytes (Z.to_nat (width_bytes wd)) u)
    (fun _ w' s' => size (blob s) - write_cursor s < width_bytes wd /\ s' = s /\
      written (hp w') s = written (hp w) s)).
  assert (Hw0 : 0 < width_bytes wd) by (by destruct wd).
  apply wp_bind, wp_write_uint; [done..| |].
  2: { intros e w' s' [Hfull Hk]. split; [done|]. by apply Hk. }
  intros w' s' Happ. pose proof (app_step _ _ _ _ _ Happ) as Hst.
  pose proof (step_stuffer _ _ _ _ Hst) as Hs'. pose proof (unread_len Hs') as Hlen.
  rewrite (unread_appended _ _ _ _ _ Hstuffer Happ), Hempty in Hlen. simpl in Hlen.
  rewrite zlen_be_bytes, Z2Nat.id in Hlen by lia.
  apply wp_read_uint; [apply Hst|done| |lia]. intros Hle.
  rewrite unread_advanced by (done || lia).
  rewrite (unread_appended _ _ _ _ _ Hstuffer Happ), Hempty. simpl.
  assert (Hl : length (be_bytes (Z.to_nat (width_bytes wd)) u) = Z.to_nat (width_bytes wd)).
  { pose proof (zlen_be_bytes (Z.to_nat (width_bytes wd)) u). unfold zlen in *. lia. }
  rewrite take_ge, drop_ge by lia. split_goal; [|done|apply Happ].
  rewrite be_value_bytes, Z2Nat.id by lia. unfold in_width in Hu. rewrite Z.mod_small by done. lia.
Qed.

(** Reading an integer returns the big-endian value of the next bytes, which fits the
    width, and consumes exactly those bytes; with too few bytes it fails with
    S2N_ERR_STUFFER_OUT_OF_DATA and consumes nothing. *)
Theorem read_uint_correct (w : world) (s : s2n_stuffer) (wd : width)
    (Hworld : world_ok w) (Hstuffer : stuffer_ok (hp w) s) :
  let k := Z.to_nat (width_bytes wd) in
  match read_uint wd (w, s) with
  | (Ok v, st) => v = be_value 0 (take k (unread (hp w) s)) /\ in_width wd v /\
      width_bytes wd <= zlen (unread (hp w) s) /\
      st = (w, set_read_cursor (read_cursor s + width_bytes wd) s)
  | (Err e, st) => e = S2N_ERR_STUFFER_OUT_OF_DATA /\ zlen (unread (hp w) s) < width_bytes wd /\ st = (w, s)
  | (UB, _) => False
  end.
Proof.
  intros k. pose proof (unread_len Hstuffer) as Hlen. assert (Hw0 : 0 < width_bytes wd) by (by destruct wd).
  assert (Hrun : wp (read_uint wd) (w, s)
    (fun v w' s' => v = be_value 0 (take k (unread (hp w) s)) /\ in_width wd v /\
      width_bytes wd <= zlen (unread (hp w) s) /\
      (w', s') = (w, set_read_cursor (read_cursor s + width_bytes wd) s))
    (fun e w' s' => e = S2N_ERR_STUFFER_OUT_OF_DATA /\ zlen (unread (hp w) s) < width_bytes wd /\
      (w', s') = (w, s))).
  { apply wp_read_uint; [apply Hworld|done|..]; intros Hle; split_goal; try done; try lia.
    assert (Hb : is_bytes (take k (unread (hp w) s))) by (apply Forall_take, unread_is_bytes, Hworld).
    pose proof (be_value_range _ 0 0 Hb ltac:(lia) ltac:(lia)) as Hr. unfold in_width. simpl in Hr.
    replace (zlen (take k (unread (hp w) s))) with (width_bytes wd) in Hr; [done|].
    unfold k, zlen in *. rewrite length_take. lia. }
  unfold wp in Hrun. by destruct (read_uint wd (w, s)) as [[v|e|] [w' s']].
Qed.

(** ** Reservations and vectors *)

(** The reserved bytes lie among those written and not yet read. *)
Record reservation_ok (s : s2n_stuffer) (r : s2n_stuffer_reservation) : Prop := {
  ro_length : 0 < rsv_length r <= 4;
  ro_read : read_cursor s <= rsv_cursor r;
  ro_write : rsv_cursor r + rsv_length r <= write_cursor s;
}.

Lemma wp_reservation_validate (w : world) s r Q E :
  stuffer_ok (hp w) s -> reservation_ok s r -> Q tt w s ->
  wp (s2n_stuffer_reservation_validate r) (w, s) Q E.
Proof.
  intros Hs [? ? ?] HQ. pose proof (ok_write _ _ Hs). pose proof (ok_size32 Hs). unfold UINT32_MAX.
  apply wp_bind, wp_get_obj, wp_bind.
  apply (wp_run _ _ tt w s); [by apply stuffer_validate_ok|].
  do 2 (apply wp_bind, wp_ensure; intros ?; zbool; [|unfold UINT32_MAX in *; lia]).
  apply wp_ensure; intros ?; zbool; [done|lia].
Qed.

(** The bytes of a stuffer with [bs] written over those at [i]. *)
Lemma written_overwrite (w : world) s p i bs :
  stuffer_ok (hp w) s -> data (blob s) = Some p -> 0 <= i -> i + zlen bs <= write_cursor s ->
  written (heap_with (hp w) (Ptr (blk p) (off p + i)) bs) s = zsplice (written (hp w) s) i bs.
Proof.
  intros Hs Hp Hi Hle. pose proof (ok_write _ _ Hs). pose proof (zlen_nonneg bs).
  pose proof (stuffer_access Hs p i (zlen bs) Hp ltac:(lia) ltac:(lia) ltac:(lia)) as Hv.
  pose proof (stuffer_access Hs p 0 (write_cursor s) Hp ltac:(lia) ltac:(lia) ltac:(lia)) as Ha.
  unfold written. rewrite Hp. destruct p as [k o]. simpl in *. rewrite Z.add_0_r in Ha.
  set (n := write_cursor s) in *.
  assert (Hsplit : forall h, valid_access h (Ptr k o) n -> bytes_at h (Ptr k o) n =
     bytes_at h (Ptr k o) i ++ bytes_at h (Ptr k (o + i)) (zlen bs) ++
     bytes_at h (Ptr k (o + (i + zlen bs))) (n - (i + zlen bs))).
  { intros h Hh. replace n with (i + (zlen bs + (n - (i + zlen bs)))) at 1 by lia.
    rewrite bytes_at_app by (try lia; by replace (i + (zlen bs + (n - (i + zlen bs)))) with n by lia).
    f_equal. simpl. rewrite bytes_at_app; [simpl; by rewrite Z.add_assoc| |lia|lia].
    apply (valid_access_sub _ _ _ i _ Hh); lia. }
  assert (Hpre : valid_access (hp w) (Ptr k o) i).
  { pose proof (valid_access_sub _ _ _ 0 i Ha) as Hx. simpl in Hx. rewrite Z.add_0_r in Hx. apply Hx; lia. }
  assert (Hpost : valid_access (hp w) (Ptr k (o + (i + zlen bs))) (n - (i + zlen bs)))
    by (apply (valid_access_sub _ _ _ (i + zlen bs) _ Ha); lia).
  rewrite (Hsplit (heap_with _ _ _)) by (by apply valid_access_heap_with).
  rewrite bytes_at_heap_with_same by done.
  rewrite !bytes_at_heap_with_disjoint by (done || (simpl; lia)).
  pose proof (zlen_bytes_at _ _ _ Hpre) as L1. pose proof (zlen_bytes_at _ _ _ Hv) as L2.
  rewrite (Hsplit (hp w)) by done. unfold zsplice, zlen in *.
  rewrite take_app_length' by lia. rewrite app_assoc, (app_assoc _ _ (bytes_at (hp w) _ (n - _))).
  rewrite drop_app_length' by (rewrite length_app; lia). by rewrite <- app_assoc.
Qed.

(** Filling in a reservation overwrites the reserved bytes and nothing else. *)
Lemma wp_write_reservation (w : world) s r u Q E :
  world_ok w -> stuffer_ok (hp w) s -> reservation_ok s r -> is_u32 u ->
  (u < 2 ^ (8 * rsv_length r) -> forall w', step_ok w s w' s ->
     written (hp w') s =
       zsplice (written (hp w) s) (rsv_cursor r) (be_bytes (Z.to_nat (rsv_length r)) u) -> Q tt w' s) ->
  (2 ^ (8 * rsv_length r) <= u -> E S2N_ERR_SIZE_MISMATCH w s) ->
  wp (s2n_stuffer_write_reservation r u) (w, s) Q E.
Proof.
  intros Hw Hs Hr Hu HQ HE. pose proof Hr as [Hl Hrd Hwr]. pose proof (ok_read _ _ Hs).
  pose proof (ok_write _ _ Hs). unfold is_u32 in Hu.
  apply wp_bind, wp_reservation_validate; [done|done|].
  apply wp_bind, wp_get_obj. cbv zeta. apply wp_bind, wp_attempt.
  set (s0 := set_write_cursor (rsv_cursor r) s).
  assert (Hback : set_write_cursor (write_cursor s) s0 = s) by (by destruct s).
  assert (Hs0 : stuffer_ok (hp w) s0).
  { apply (stuffer_ok_cursors (hp w) s (read_cursor s) (rsv_cursor r) (high_water_mark s)); [done|lia..]. }
  apply wp_bind, wp_modify, wp_bind, wp_pre_validate; [done|].
  apply wp_bind, wp_bind, wp_ensure; intros Hle; zbool; [|lia].
  assert (Hpow : Z.shiftl 1 (rsv_length r * 8) = 2 ^ (8 * rsv_length r)).
  { rewrite Z.shiftl_mul_pow2, Z.mul_1_l by lia. f_equal. lia. }
  assert (Hmain : u < 2 ^ (8 * rsv_length r) ->
    wp (s2n_stuffer_write_network_order u (rsv_length r) ;;; post_validate) (w, s0)
       (fun _ w1 s1 => wp (modify (set_write_cursor (write_cursor s)) ;;; guard_rc (inl tt)) (w1, s1) Q E)
       (fun e w1 s1 => False)).
  { intros Hlt. apply wp_bind, wp_write_network_order; [done|done|lia| |].
    2: { intros e w' s' [Hfull _]. simpl in Hfull. lia. }
    intros w1 s1 p Hext Hp bs w' Happ. apply wp_post_validate; [apply Happ|].
    apply wp_bind, wp_modify, wp_ret.
    destruct (ext_fits _ _ _ _ _ Hext) as [-> Hb]; [simpl; lia|].
    destruct (ext_shape _ _ _ _ _ Hext) as [b' Hsh].
    assert (Hs1 : set_write_cursor (write_cursor s) s1 = s).
    { rewrite Hsh in Hb |- *. simpl in Hb. subst b'. destruct s. unfold s0, extended_by. simpl in *.
      unfold set_write_cursor. simpl. f_equal. lia. }
    rewrite Hs1. rewrite Hb in Hp. change (data (blob s0)) with (data (blob s)) in Hp.
    assert (Hlb : zlen bs = rsv_length r) by (unfold bs; rewrite zlen_be_bytes; lia).
    apply HQ; [done| |].
    - apply (step_ok_write w s s p); try done; [apply Hw|apply be_bytes_is_bytes|].
      rewrite Hlb. apply (stuffer_access Hs); [done|simpl; lia..].
    - apply written_overwrite; [done|done|simpl; lia|rewrite zlen_be_bytes; simpl; lia]. }
  assert (Hno : 2 ^ (8 * rsv_length r) <= u ->
    wp (modify (set_write_cursor (write_cursor s)) ;;; @guard_rc _ unit (inr S2N_ERR_SIZE_MISMATCH)) (w, s0) Q E).
  { intros Hge. apply wp_bind, wp_modify, wp_fail. rewrite Hback. auto. }
  destruct (Z.ltb_spec (rsv_length r) 4) as [Hlt4|Hge4]; rewrite ?Hpow.
  - apply wp_ensure; intros Hc; zbool; [|by apply Hno].
    eapply wp_mono; [by apply Hmain|by intros []|done].
  - apply wp_ret. eapply wp_mono; [apply Hmain|by intros []|done].
    replace (8 * rsv_length r) with 32 by lia. lia.
Qed.

(** Reserving appends placeholder bytes and returns where they are. *)
Lemma wp_reserve (w : world) s length Q E :
  world_ok w -> stuffer_ok (hp w) s -> 0 < length <= 4 ->
  (forall w' s', appended w s (repeat S2N_WIPE_PATTERN (Z.to_nat length)) w' s' ->
     reservation_ok s' (Reservation (write_cursor s) length) ->
     Q (Reservation (write_cursor s) length) w' s') ->
  (forall e w' s', full_err w s length w' s' -> E e w' s') ->
  wp (s2n_stuffer_reserve length) (w, s) Q E.
Proof.
  intros Hw Hs Hl HQ HE. pose proof (ok_read _ _ Hs).
  apply wp_bind, wp_pre_validate; [done|]. apply wp_bind, wp_get_obj. cbv zeta. simpl rsv_length.
  apply wp_bind, wp_skip_write; [done|done|unfold is_u32; lia| |done]. intros w1 s1 Hext.
  pose proof (step_stuffer _ _ _ _ (ext_step _ _ _ _ _ Hext)) as Hs1. pose proof (ok_write _ _ Hs1).
  destruct (ext_shape _ _ _ _ _ Hext) as [b' Hsh].
  assert (Hwc : write_cursor s1 = write_cursor s + length) by (by rewrite Hsh).
  assert (Hrc : read_cursor s1 = read_cursor s) by (by rewrite Hsh).
  apply wp_bind, wp_get_obj. simpl rsv_cursor. destruct (data_some Hs1 length) as [p Hp]; [lia..|].
  rewrite Hp. apply wp_bind, wp_ptr_add_some.
  set (bs := repeat S2N_WIPE_PATTERN (Z.to_nat length)).
  assert (Hlb : zlen bs = length) by (apply zlen_repeat; lia).
  rewrite <- Hlb in Hext.
  assert (Happ := extended_appended w s bs w1 s1 p Hs ltac:(apply is_bytes_repeat; unfold is_u8, S2N_WIPE_PATTERN; lia) Hext Hp).
  assert (Hr : reservation_ok s1 (Reservation (write_cursor s) length)) by (split; simpl; lia).
  apply wp_bind, wp_checked_memset; [lia|intros _|lia|intros _].
  - apply (stuffer_access Hs1); [done|lia..].
  - change (repeat (u8 S2N_WIPE_PATTERN) (Z.to_nat length)) with bs. apply wp_bind.
    unfold postcondition. destruct NDEBUG.
    + apply wp_ret, wp_ret. by apply HQ.
    + apply wp_reservation_validate; [apply Happ|done|]. apply wp_ret. by apply HQ.
Qed.

Lemma wp_write_vector_size (w : world) s r pre hole payload Q E :
  world_ok w -> stuffer_ok (hp w) s -> reservation_ok s r ->
  written (hp w) s = pre ++ hole ++ payload -> zlen pre = rsv_cursor r -> zlen hole = rsv_length r ->
  (zlen payload < 2 ^ (8 * rsv_length r) -> forall w', step_ok w s w' s ->
     written (hp w') s = pre ++ be_bytes (Z.to_nat (rsv_length r)) (zlen payload) ++ payload -> Q tt w' s) ->
  (2 ^ (8 * rsv_length r) <= zlen payload -> E S2N_ERR_SIZE_MISMATCH w s) ->
  wp (s2n_stuffer_write_vector_size r) (w, s) Q E.
Proof.
  intros Hw Hs Hr Hwritten Hpre Hhole HQ HE.
  pose proof (ok_write _ _ Hs). pose proof (ok_read _ _ Hs). pose proof (ok_size32 Hs).
  pose proof Hr as [Hl Hrd Hwr].
  assert (Hsz : write_cursor s - (rsv_cursor r + rsv_length r) = zlen payload).
  { rewrite <- (written_len Hs), Hwritten, !zlen_app. lia. }
  pose proof (zlen_nonneg payload).
  apply wp_bind, wp_bind, wp_reservation_validate; [done|done|]. apply wp_bind, wp_get_obj, wp_ret.
  rewrite (u32_small (rsv_cursor r + rsv_length r)), Hsz, u32_small by lia.
  apply wp_write_reservation; [done|done|done|unfold is_u32; lia| |done].
  intros Hlt w' Hst Hby. apply HQ; [done|done|]. rewrite Hby, Hwritten. unfold zsplice, zlen in *.
  rewrite take_app_length' by lia. do 2 f_equal.
  pose proof (zlen_be_bytes (Z.to_nat (rsv_length r)) (Z.of_nat (length payload))) as Hlb.
  rewrite app_assoc, drop_app_length'; [done|]. rewrite length_app. unfold zlen in Hlb. lia.
Qed.

(** Closing a length-prefixed vector: with a reservation of 1 to 4 bytes among the written
    bytes, s2n_stuffer_write_vector_size replaces the reserved bytes by the
    big-endian number of bytes written after them and changes nothing else; if
    that number does not fit it fails with S2N_ERR_SIZE_MISMATCH and the stuffer
    and its memory are exactly as before. *)
Theorem write_vector_size_correct (w : world) (s : s2n_stuffer) (r : s2n_stuffer_reservation)
    (pre hole payload : list Z)
    (Hworld : world_ok w) (Hstuffer : stuffer_ok (hp w) s) (Hrsv : reservation_ok s r)
    (Hwritten : written (hp w) s = pre ++ hole ++ payload)
    (Hpre : zlen pre = rsv_cursor r) (Hhole : zlen hole = rsv_length r) :
  match s2n_stuffer_write_vector_size r (w, s) with
  | (Ok _, (w', s')) =>
      s' = s /\ zlen payload < 2 ^ (8 * rsv_length r) /\ step_ok w s w' s /\
      written (hp w') s = pre ++ be_bytes (Z.to_nat (rsv_length r)) (zlen payload) ++ payload
  | (Err e, st) => e = S2N_ERR_SIZE_MISMATCH /\ 2 ^ (8 * rsv_length r) <= zlen payload /\ st = (w, s)
  | (UB, _) => False
  end.
Proof.
  assert (Hrun : wp (s2n_stuffer_write_vector_size r) (w, s)
    (fun _ w' s' => s' = s /\ zlen payload < 2 ^ (8 * rsv_length r) /\ step_ok w s w' s /\
      written (hp w') s = pre ++ be_bytes (Z.to_nat (rsv_length r)) (zlen payload) ++ payload)
    (fun e w' s' => e = S2N_ERR_SIZE_MISMATCH /\ 2 ^ (8 * rsv_length r) <= zlen payload /\ (w', s') = (w, s))).
  { by eapply wp_write_vector_size. }
  unfold wp in Hrun. by destruct (s2n_stuffer_write_vector_size r (w, s)) as [[v|e|] [w' s']].
Qed.

(** Reserving the length of a vector, writing its contents and closing it yields the
    length-prefixed vector of the wire format. *)
Theorem vector_encoding_correct (w : world) (s : s2n_stuffer) (length : Z) (payload : list Z)
    (Hworld : world_ok w) (Hstuffer : stuffer_ok (hp w) s) (Hlength : 0 < length <= 4)
    (Hpayload : is_bytes payload) (Hlen : zlen payload < 2 ^ (8 * length)) :
  match (r <-- s2n_stuffer_reserve length ;;
         s2n_stuffer_write_bytes (LocalBuf payload) (zlen payload) ;;;
         s2n_stuffer_write_vector_size r) (w, s) with
  | (Ok _, (w', s')) =>
      written (hp w') s' =
        written (hp w) s ++ be_bytes (Z.to_nat length) (zlen payload) ++ payload /\ step_ok w s w' s'
  | (Err _, (w', s')) => step_ok w s w' s'
  | (UB, _) => False
  end.
Proof.
  assert (Hrun : wp (r <-- s2n_stuffer_reserve length ;;
      s2n_stuffer_write_bytes (LocalBuf payload) (zlen payload) ;;;
      s2n_stuffer_write_vector_size r) (w, s)
    (fun _ w' s' => written (hp w') s' =
        written (hp w) s ++ be_bytes (Z.to_nat length) (zlen payload) ++ payload /\ step_ok w s w' s')
    (fun _ w' s' => step_ok w s w' s')).
  { apply wp_bind, wp_reserve; [done..| |].
    2: { intros e w' s' [_ Hk]. apply Hk. }
    intros w1 s1 Happ1 [Hr1 Hr2 Hr3]. simpl in *. pose proof (app_step _ _ _ _ _ Happ1) as Hst1.
    assert (H32 : is_u32 (zlen payload)).
    { pose proof (zlen_nonneg payload). assert (2 ^ (8 * length) <= 2 ^ 32) by (apply Z.pow_le_mono_r; lia).
      unfold is_u32. lia. }
    apply wp_bind, (wp_write_bytes w1 s1 (LocalBuf payload) payload);
      [by eapply step_world_ok|apply Hst1|by apply source_local|done| |].
    2: { intros e w' s' [_ Hk]. eapply step_ok_trans; [done|apply Hk]. }
    intros w2 s2 Happ2. pose proof (app_step _ _ _ _ _ Happ2) as Hst2.
    assert (Hst : step_ok w s w2 s2) by (by eapply step_ok_trans).
    destruct (app_shape _ _ _ _ _ Happ2) as [b2 Hsh2]. pose proof (zlen_nonneg payload).
    eapply (wp_write_vector_size w2 s2 _ (written (hp w) s) (repeat S2N_WIPE_PATTERN (Z.to_nat length)) payload);
      simpl; [by eapply step_world_ok|apply Hst2| | | | | |].
    - rewrite Hsh2. split; simpl; lia.
    - by rewrite (app_bytes _ _ _ _ _ Happ2), (app_bytes _ _ _ _ _ Happ1), <- app_assoc.
    - by apply written_len.
    - apply zlen_repeat. lia.
    - intros _ w' Hst3 Hby. split; [done|]. by eapply step_ok_trans.
    - lia. }
  unfold wp in Hrun. by destruct (bind _ _ (w, s)) as [[v|e|] [w' s']].
Qed.

End Roundtrip.

End Rules.

Lemma uint_roundtrip_witness :
  match (@write_uint demo_platform W16 770 ;;; @read_uint demo_platform W16)
          (demo_world, set_read_cursor 4 demo_stuffer) with
  | (Ok v, (w', s')) => v = 770 /\ unread (hp w') s' = [] /\
      written (hp w') s' = [10; 20; 30; 40; 3; 2]
  | (Err _, (w', s')) => 8 - 4 < 2 /\ s' = set_read_cursor 4 demo_stuffer /\
      written (hp w') (set_read_cursor 4 demo_stuffer) = [10; 20; 30; 40]
  | (UB, _) => False
  end.
Proof.
  apply (@uint_roundtrip demo_platform _ demo_world (set_read_cursor 4 demo_stuffer) W16 770).
  - exact demo_world_ok.
  - apply set_read_ok; [exact demo_stuffer_ok|simpl; lia].
  - vm_compute. reflexivity.
  - unfold in_width. simpl. lia.
  - discriminate.
Defined.

Lemma read_uint_correct_witness :
  @read_uint demo_platform W24 (demo_world, demo_stuffer) =
    (Ok (be_value 0 [20; 30; 40]), (demo_world, set_read_cursor 4 demo_stuffer)).
Proof.
  pose proof (@read_uint_correct demo_platform demo_world demo_stuffer W24 demo_world_ok demo_stuffer_ok) as Hc.
  cbv zeta in Hc. destruct (read_uint W24 _) as [[v|e|] st]; [|destruct Hc as (_ & Hlt & _)|done].
  - destruct Hc as (-> & _ & _ & ->). reflexivity.
  - exfalso. vm_compute in Hlt. discriminate Hlt.
Defined.

Lemma write_vector_size_correct_witness :
  match @s2n_stuffer_write_vector_size demo_platform (Reservation 1 2) (demo_world, demo_stuffer) with
  | (Ok _, (w', s')) => s' = demo_stuffer /\ 1 < 2 ^ 16 /\ step_ok demo_world demo_stuffer w' demo_stuffer /\
      written (hp w') demo_stuffer = [10; 0; 1; 40]
  | (Err e, st) => e = S2N_ERR_SIZE_MISMATCH /\ 2 ^ 16 <= 1 /\ st = (demo_world, demo_stuffer)
  | (UB, _) => False
  end.
Proof.
  apply (@write_vector_size_correct demo_platform _ demo_world demo_stuffer (Reservation 1 2)
    [10] [20; 30] [40]).
  - exact demo_world_ok.
  - exact demo_stuffer_ok.
  - split; simpl; lia.
  - vm_compute. reflexivity.
  - reflexivity.
  - reflexivity.
Defined.

Lemma vector_encoding_correct_witness :
  match (r <-- @s2n_stuffer_reserve demo_platform 1 ;;
         @s2n_stuffer_write_bytes demo_platform (LocalBuf [7; 8]) 2 ;;;
         @s2n_stuffer_write_vector_size demo_platform r) (demo_world, demo_stuffer) with
  | (Ok _, (w', s')) => written (hp w') s' = [10; 20; 30; 40; 2; 7; 8] /\
      step_ok demo_world demo_stuffer w' s'
  | (Err _, (w', s')) => step_ok demo_world demo_stuffer w' s'
  | (UB, _) => False
  end.
Proof.
  apply (@vector_encoding_correct demo_platform _ demo_world demo_stuffer 1 [7; 8]).
  - exact demo_world_ok.
  - exact demo_stuffer_ok.
  - lia.
  - solve_bytes.
  - unfold zlen. simpl. lia.
Defined.

End NetworkOrder.
Export NetworkOrder.
