(* ===== verification/StufferBuild.v ===== *)
(** * Building a message in fixed memory

    Exact results of the writes to a stuffer over [N] bytes at [d] that cannot
    grow, as long as there is room: the memory is that of the start with the
    bytes written so far at [d].  s2n_stuffer_writev_bytes is related to the
    concatenation of its buffers. *)
From S2P Require Import Prelude Errors CMem Safety Platform Blob Alloc Stuffer StufferInv StufferWrite StufferSpec NetworkOrder.
Open Scope Z_scope.

Module StufferBuild.

(** A write over a shorter one. *)
Lemma heap_with_twice h p a b : valid_access h p (zlen b) -> zlen a <= zlen b -> heap_with (heap_with h p a) p b = heap_with h p b.
Proof.
  intros (l & Hl & H0 & Hn & Hle) Hab. pose proof (zlen_nonneg a).
  rewrite (heap_with_lookup h p a l), (heap_with_lookup h p b l) by (done || lia).
  rewrite (heap_with_lookup _ p b (zsplice l (off p) a)); [|by rewrite lookup_insert_eq|done|rewrite zlen_zsplice; lia].
  rewrite insert_insert_eq. f_equal. unfold zsplice, zlen in *.
  rewrite take_app_length' by (rewrite length_take; lia). do 2 f_equal.
  rewrite drop_app_ge by (rewrite length_take; lia). rewrite length_take, drop_app_ge, drop_drop by lia. f_equal. lia.
Qed.

(** ** Room *)

Section Room.
Context `{HP : Platform} `{!BlobAllocator}.

Lemma wp_skip_write_fits (w : world) s n Q E :
  world_ok w -> stuffer_ok (hp w) s -> 0 <= n <= size (blob s) - write_cursor s ->
  Q tt w (extended_by (blob s) n s) -> wp (s2n_stuffer_skip_write n) (w, s) Q E.
Proof.
  intros Hw Hs Hn HQ. pose proof (ok_size32 Hs). pose proof (ok_read _ _ Hs).
  apply wp_skip_write; [done|done|unfold is_u32; lia| |].
  - intros w' s' [_ [b' ->] _ Hfit]. destruct (Hfit ltac:(lia)) as [-> Hb]. simpl in Hb. by subst b'.
  - intros e w' s' [Hroom _]. lia.
Qed.

Lemma extended_by_ok h s n :
  stuffer_ok h s -> 0 <= n <= size (blob s) - write_cursor s -> stuffer_ok h (extended_by (blob s) n s).
Proof. intros [Hb Ho Ha Hr Hw] Hn. split; simpl; try done; lia. Qed.

Lemma wp_raw_write_fits (w : world) s p n Q E :
  world_ok w -> stuffer_ok (hp w) s -> data (blob s) = Some p -> 0 <= n <= size (blob s) - write_cursor s ->
  Q (Some (Ptr (blk p) (off p + write_cursor s))) w (set_tainted true (extended_by (blob s) n s)) ->
  wp (s2n_stuffer_raw_write n) (w, s) Q E.
Proof.
  intros Hw Hs Hp Hn HQ. apply wp_bind, wp_skip_write_fits; [done..|]. apply wp_bind, wp_modify, wp_bind, wp_get_obj.
  simpl data. rewrite Hp. simpl is_null. cbv iota. apply wp_ptr_add_some. simpl write_cursor.
  by replace (write_cursor s + n - n) with (write_cursor s) by lia.
Qed.
End Room.

(** ** Gathering buffers *)

(** The bytes of a buffer that lies outside of block [k]. *)
Definition iov_is (h : heap) (k : positive) (v : iovec) (bs : list Z) : Prop :=
  buf_is h (iov_base v) (iov_len v) bs /\ is_bytes bs /\ iov_len v < 2 ^ 32 /\
  match iov_base v with HeapBuf (Some p) => blk p <> k | _ => True end.

Lemma iov_is_heap_with h q bs k v l :
  valid_access h q (zlen bs) -> blk q = k -> iov_is h k v l -> iov_is (heap_with h q bs) k v l.
Proof.
  intros Hq Hk ([Hlen Hb] & Hl & H32 & Hout). split; [|done]. split; [done|].
  destruct (iov_base v) as [[p|]|l']; [|done|done]. destruct Hb as [Hv <-].
  split; [by apply valid_access_heap_with|]. apply bytes_at_heap_with_disjoint; [done|done|]. left. congruence.
Qed.

Lemma iov_concat_bytes h k iov bss : Forall2 (iov_is h k) iov bss -> is_bytes (concat bss).
Proof. induction 1 as [|v bs iov bss [_ [Hb _]] _ IH]; simpl; [constructor|by apply Forall_app]. Qed.

Lemma wp_buf_add {X} h v k bs i w (x : X) Q E :
  iov_is h k v bs -> 0 <= i < iov_len v -> hp w = h ->
  (forall src, (forall n, 0 <= n <= iov_len v - i -> buf_is h src n (zslice bs i n)) -> Q src w x) ->
  wp (buf_add (iov_base v) i) (w, x) Q E.
Proof.
  intros ([Hlen Hb] & _ & _) Hi Hw HQ. destruct (iov_base v) as [[p|]|l]; simpl in *.
  - destruct Hb as [Hv <-]. apply wp_bind, wp_ptr_add_some, wp_ret, HQ. intros n Hn.
    assert (Hv' : valid_access h (Ptr (blk p) (off p + i)) n) by (eapply valid_access_sub; [done|lia..]). split.
    + rewrite zlen_zslice; lia.
    + split; [done|]. apply bytes_at_sub; [done|lia..].
  - lia.
  - destruct Hb as [Hle <-]. apply wp_ret, HQ. intros n Hn. split; [rewrite zlen_zslice; lia|]. split.
    + unfold zlen in *. rewrite length_drop. lia.
    + rewrite zslice_zslice by lia. unfold zslice. by rewrite drop_0, Z.add_0_l.
Qed.

Lemma zslice_app_skip {A} (a b : list A) i n : zlen a <= i -> zslice (a ++ b) i n = zslice b (i - zlen a) n.
Proof.
  intros Hi. unfold zslice, zlen in *. f_equal. rewrite drop_app_ge by lia. f_equal. lia.
Qed.

Lemma zslice_app_left {A} (a b : list A) i n : 0 <= i -> 0 <= n -> i + n <= zlen a -> zslice (a ++ b) i n = zslice a i n.
Proof.
  intros Hi Hn Hle. unfold zslice, zlen in *. rewrite drop_app_le by lia. rewrite take_app_le; [done|]. rewrite length_drop. lia.
Qed.

Lemma zslice_app_span {A} (a b : list A) i n : 0 <= i <= zlen a -> zlen a <= i + n ->
  zslice (a ++ b) i n = zslice a i (zlen a - i) ++ zslice b 0 (i + n - zlen a).
Proof.
  intros Hi Hle. unfold zslice, zlen in *. rewrite drop_app_le by lia. rewrite take_app, length_drop, drop_0. f_equal.
  - rewrite !take_ge; [done|rewrite length_drop; lia|rewrite length_drop; lia].
  - f_equal. lia.
Qed.

Section Gather.
Context (k : positive).

(** The loop copies the bytes from [skip] on. *)
Lemma wp_writev_loop iov bss (w : world) s q n skip Q E :
  Forall2 (iov_is (hp w) k) iov bss -> blk q = k -> valid_access (hp w) q n -> 0 <= skip -> n < 2 ^ 32 ->
  skip + n <= zlen (concat bss) ->
  Q tt (World (heap_with (hp w) q (zslice (concat bss) skip n)) (mem w)) s ->
  wp (writev_loop iov (Some q) n skip) (w, s) Q E.
Proof.
  revert bss w q n skip. induction iov as [|v iov IH]; intros bss w q n skip Hiov Hq Hv Hs H32 Hle HQ.
  - apply Forall2_nil_inv_l in Hiov as ->. assert (0 <= n) by (by destruct Hv as (l & _ & _ & ? & _)).
    simpl in *. change (zlen (@nil Z)) with 0 in Hle. assert (n = 0) as -> by lia. rewrite zslice_0, heap_with_nil in HQ.
    apply wp_ret. by destruct w.
  - apply Forall2_cons_inv_l in Hiov as (bs & bss' & Hbs & Hiov & ->). simpl concat in *. rewrite zlen_app in Hle.
    assert (Hn0 : 0 <= n) by (by destruct Hv as (l & _ & _ & ? & _)).
    pose proof Hbs as (Hb & Hbytes & Hl32 & Hout). destruct Hb as [Hlen Hb]. simpl writev_loop.
    destruct (Z.leb_spec (iov_len v) skip) as [Hskip|Hskip].
    { apply (IH bss'); [done|done|done|lia|done|lia|]. rewrite zslice_app_skip in HQ by lia. by rewrite Hlen in HQ. }
    pose proof (zlen_nonneg bs). unfold UINT32_MAX. change (2 ^ 32) with 4294967296 in *.
    apply wp_bind, wp_ensure; [intros _|intros Hz; zbool; lia]. rewrite (u32_small (iov_len v - skip)), u32_small by lia.
    set (take_n := Z.min n (iov_len v - skip)).
    apply wp_bind, wp_ensure; [intros _|]. 2: { destruct (iov_base v) as [[p|]|l]; simpl; [done| |done]. intros _. lia. }
    apply wp_bind, wp_ensure; [intros _|intros Hz; zbool; lia].
    apply wp_bind. eapply wp_buf_add; [exact Hbs|lia|done|]. intros src Hsrc. specialize (Hsrc take_n ltac:(lia)).
    assert (Hv1 : valid_access (hp w) q take_n) by (destruct Hv as (l & ? & ? & ? & ?); exists l; split_goal; [done|lia..]).
    assert (Hcopy : forall Q' E', Q' tt (World (heap_with (hp w) q (zslice bs skip take_n)) (mem w)) s ->
      wp (checked_memcpy (Some q) src take_n) (w, s) Q' E').
    { intros Q' E' HQ'. destruct (Z.eq_dec take_n 0) as [H0|H0]; [|by eapply wp_checked_memcpy].
      rewrite H0, zslice_0, heap_with_nil in HQ'. rewrite H0. apply wp_ret. by destruct w. }
    assert (Hzl : zlen (zslice bs skip take_n) = take_n) by (rewrite zlen_zslice; lia).
    apply wp_bind, Hcopy. destruct (Z.eqb_spec (n - take_n) 0) as [H0|H0].
    { apply wp_ret. replace take_n with n by lia. rewrite zslice_app_left in HQ by lia. done. }
    apply wp_bind, wp_ptr_add_some. rewrite zslice_app_span in HQ by lia.
    replace (zlen bs - skip) with take_n in HQ by lia.
    assert (Hall : valid_access (hp w) q (zlen (zslice bs skip take_n ++ zslice (concat bss') 0 (skip + n - zlen bs)))).
    { rewrite zlen_app, Hzl, zlen_zslice by lia. by replace (take_n + (skip + n - zlen bs)) with n by lia. }
    rewrite <- heap_with_app in HQ by done. rewrite Hzl in HQ.
    apply (IH bss'); simpl; [|done| |lia|lia|lia|].
    + eapply Forall2_impl; [exact Hiov|]. intros v' l'. apply iov_is_heap_with; [by rewrite Hzl|done].
    + apply valid_access_heap_with; [by rewrite Hzl|]. eapply valid_access_sub; [exact Hv|lia..].
    + by replace (n - take_n) with (skip + n - zlen bs) by lia.
Qed.
End Gather.

Section Writev.
Context `{HP : Platform} `{!BlobAllocator}.

Lemma wp_writev_fits iov bss (w : world) s p n offs Q E :
  world_ok w -> stuffer_ok (hp w) s -> data (blob s) = Some p -> Forall2 (iov_is (hp w) (blk p)) iov bss ->
  0 <= n <= size (blob s) - write_cursor s -> 0 <= offs -> offs + n <= zlen (concat bss) ->
  Q tt (World (heap_with (hp w) (Ptr (blk p) (off p + write_cursor s)) (zslice (concat bss) offs n)) (mem w))
    (set_tainted true (extended_by (blob s) n s)) ->
  wp (s2n_stuffer_writev_bytes iov offs n) (w, s) Q E.
Proof.
  intros Hw Hs Hp Hiov Hn Hoffs Hle HQ. pose proof (ok_size32 Hs). pose proof (ok_read _ _ Hs).
  apply wp_bind, wp_pre_validate; [done|].
  apply wp_bind, wp_attempt. eapply wp_raw_write_fits; [done..|].
  apply wp_bind, wp_ensure; [intros _|unfold S2N_MEM_IS_READABLE; simpl; intros Hz; by rewrite orb_true_r in Hz].
  eapply (wp_writev_loop (blk p)); [done|done| |done|lia|done|done]. apply (stuffer_access Hs); [done|lia..].
Qed.

(** Gathered writes copy the right bytes.  s2n_stuffer_writev_bytes, with
    buffers outside of the stuffer's memory, an offset and a length within the
    buffers, appends exactly the bytes [offs, offs + n) of the concatenation of
    the buffers, whatever way they are split (empty buffers, an offset that
    skips whole buffers, a length that ends inside one), and writes to no other
    memory, when the stuffer has room for them. *)
Theorem writev_bytes_correct (w : world) (s : s2n_stuffer) (p : ptr) (iov : list iovec) (bss : list (list Z)) (offs n : Z)
    (Hworld : world_ok w) (Hstuffer : stuffer_ok (hp w) s) (Hdata : data (blob s) = Some p)
    (Hiov : Forall2 (iov_is (hp w) (blk p)) iov bss) (Hoffs : 0 <= offs) (Hrange : offs + n <= zlen (concat bss))
    (Hroom : 0 <= n <= size (blob s) - write_cursor s) :
  exists w' s', s2n_stuffer_writev_bytes iov offs n (w, s) = (Ok tt, (w', s')) /\
    written (hp w') s' = written (hp w) s ++ zslice (concat bss) offs n /\
    read_cursor s' = read_cursor s /\ tainted s' = true /\ step_ok w s w' s' /\
    hp w' = heap_with (hp w) (Ptr (blk p) (off p + write_cursor s)) (zslice (concat bss) offs n).
Proof.
  eexists _, _. split; [apply wp_eq; eapply wp_writev_fits; done|].
  assert (Hbytes : is_bytes (zslice (concat bss) offs n)).
  { by eapply Forall_zslice, iov_concat_bytes. }
  assert (Hz : zlen (zslice (concat bss) offs n) = n) by (rewrite zlen_zslice; lia).
  assert (Hext : extended w s n w (extended_by (blob s) n s)).
  { split; [| by exists (blob s)| |done].
    - apply step_ok_cursors; [apply Hworld|by apply extended_by_ok|done].
    - pose proof (ok_read _ _ Hstuffer). pose proof (ok_write _ _ Hstuffer).
      unfold written. simpl. rewrite Hdata.
      assert (Hv : valid_access (hp w) p (write_cursor s + n)).
      { pose proof (stuffer_access Hstuffer p 0 (write_cursor s + n) Hdata ltac:(lia) ltac:(lia) ltac:(lia)) as Hv.
        destruct p. simpl in Hv. by rewrite Z.add_0_r in Hv. }
      rewrite bytes_at_app by (done || lia).
      assert (Hv1 : valid_access (hp w) p (write_cursor s)) by (destruct Hv as (l & ? & ? & ? & ?); exists l; split_goal; [done|lia..]).
      apply zlen_bytes_at in Hv1. rewrite take_app_le; [|unfold zlen in Hv1; lia]. apply take_ge. unfold zlen in Hv1. lia. }
  pose proof (extended_appended w s (zslice (concat bss) offs n) w (extended_by (blob s) n s) p Hstuffer Hbytes) as Happ. rewrite Hz in Happ.
  specialize (Happ Hext Hdata). destruct Happ as [Hst _ Hby _].
  split_goal; [exact Hby|done|done| |done].
  eapply step_ok_trans; [exact Hst|]. apply step_ok_cursors; [apply Hst| |done].
  pose proof (step_stuffer _ _ _ _ Hst) as []. split; done.
Qed.
End Writev.

(** ** The message so far *)

Section Build.
Context `{HP : Platform} `{!BlobAllocator} (m : mem_statics) (h : heap) (d : ptr) (N : Z).
Context (Hw : world_ok (World h m)) (Hv : valid_access h d N) (HN : N < 2 ^ 32).
Implicit Types (bs b : list Z) (t : bool).

Definition built bs : world := World (heap_with h d bs) m.
Definition building t bs : s2n_stuffer := Stuffer (Blob (Some d) N 0 false) 0 (zlen bs) (zlen bs) false false t.

Lemma fits_access n : 0 <= n <= N -> valid_access h d n.
Proof using Hv. intros Hn. destruct Hv as (l & ? & ? & ? & ?). exists l. split_goal; [done|lia..]. Qed.

Lemma built_ok bs : is_bytes bs -> world_ok (built bs).
Proof using Hw. intros Hb. destruct Hw as [Hh Hm]. split; [by apply heap_with_ok|done]. Qed.

Lemma building_blob_ok bs : zlen bs <= N -> blob_ok (heap_with h d bs) (Blob (Some d) N 0 false).
Proof using Hv HN.
  intros Hle. pose proof (zlen_nonneg bs). assert (0 <= N) by (by destruct Hv as (l & ? & ? & ? & ?)).
  split; simpl; unfold is_u32; try done; try lia. intros p [= <-]. rewrite Z.max_l by lia.
  apply valid_access_heap_with; [by apply fits_access|done].
Qed.

Lemma building_ok t bs : zlen bs <= N -> stuffer_ok (heap_with h d bs) (building t bs).
Proof using Hv HN.
  intros Hle. pose proof (zlen_nonneg bs). split; simpl; try done; try lia. by apply building_blob_ok.
Qed.

Lemma build_heap bs b : zlen (bs ++ b) <= N ->
  heap_with (heap_with h d bs) (Ptr (blk d) (off d + zlen bs)) b = heap_with h d (bs ++ b).
Proof using Hv. intros Hle. apply heap_with_app, fits_access. pose proof (zlen_nonneg (bs ++ b)). lia. Qed.

Lemma building_app t bs b : extended_by (blob (building t bs)) (zlen b) (building t bs) = building t (bs ++ b).
Proof using. unfold extended_by, building. simpl. pose proof (zlen_nonneg b). f_equal; rewrite zlen_app; lia. Qed.

Lemma build_bytes t bs b n : is_bytes bs -> n = zlen b -> zlen (bs ++ b) <= N ->
  s2n_stuffer_write_bytes (LocalBuf b) n (built bs, building t bs) = (Ok tt, (built (bs ++ b), building t (bs ++ b))).
Proof using Hv HN Hw H.
  intros Hbs -> Hle. pose proof (zlen_nonneg b). pose proof (zlen_nonneg bs). rewrite zlen_app in Hle.
  pose proof (built_ok bs Hbs) as Hwb. assert (Hsb : stuffer_ok (hp (built bs)) (building t bs)) by (apply building_ok; lia).
  assert (Hsb' : stuffer_ok (hp (built (bs ++ b))) (building t (bs ++ b))) by (apply building_ok; rewrite zlen_app; lia).
  apply wp_eq. unfold s2n_stuffer_write_bytes. destruct (Z.eqb_spec (zlen b) 0) as [e|Hne].
  { apply zlen_0_nil in e as ->. rewrite app_nil_r. by apply wp_ret. }
  apply wp_bind, wp_ensure; [intros _|unfold buf_readable; simpl; intros Hz; by rewrite ?orb_true_r in Hz].
  apply wp_bind, wp_pre_validate; [done|]. apply wp_bind, wp_skip_write_fits; [done|done|simpl; lia|].
  rewrite building_app. apply wp_bind, wp_get_obj. simpl data. apply wp_bind, wp_ptr_add_some.
  apply wp_bind, wp_ensure; [intros _|unfold S2N_MEM_IS_READABLE; simpl; intros Hz; by rewrite orb_true_r in Hz].
  simpl write_cursor. rewrite zlen_app. replace (zlen bs + zlen b - zlen b) with (zlen bs) by lia. simpl same_ptr. cbv iota.
  apply wp_bind, (wp_checked_memcpy _ _ _ b); [|done| |].
  - split; [done|]. split; [lia|]. apply zslice_full.
  - apply valid_access_heap_with; [apply fits_access; lia|]. eapply valid_access_sub; [exact Hv|lia..].
  - simpl. rewrite build_heap by (rewrite zlen_app; lia). by apply wp_post_validate.
Qed.

Lemma build_uint8 t bs u : is_bytes bs -> zlen bs + 1 <= N ->
  s2n_stuffer_write_uint8 u (built bs, building t bs) = (Ok tt, (built (bs ++ [u]), building t (bs ++ [u]))).
Proof using Hv HN Hw H. intros Hbs Hle. apply build_bytes; [done|done|]. by rewrite zlen_app. Qed.

Lemma build_uint16 t bs u : is_bytes bs -> zlen bs + 2 <= N ->
  s2n_stuffer_write_uint16 u (built bs, building t bs) = (Ok tt, (built (bs ++ be_bytes 2 u), building t (bs ++ be_bytes 2 u))).
Proof using Hv HN Hw H.
  intros Hbs Hle. pose proof (zlen_nonneg bs). pose proof (built_ok bs Hbs) as Hwb.
  assert (Hsb : stuffer_ok (hp (built bs)) (building t bs)) by (apply building_ok; lia).
  assert (Hlen : zlen (bs ++ be_bytes 2 u) = zlen bs + 2) by (by rewrite zlen_app, zlen_be_bytes).
  assert (Hsb' : stuffer_ok (hp (built (bs ++ be_bytes 2 u))) (building t (bs ++ be_bytes 2 u))) by (apply building_ok; lia).
  apply wp_eq. unfold s2n_stuffer_write_uint16, s2n_stuffer_write_network_order. change (2 =? 0) with false. cbv iota.
  apply wp_bind, wp_ensure; [intros _|done]. apply wp_bind, wp_skip_write_fits; [done|done|simpl; lia|].
  replace 2 with (zlen (be_bytes 2 u)) at 1 by apply zlen_be_bytes. rewrite building_app. apply wp_bind, wp_get_obj.
  simpl data. apply wp_bind, wp_ensure; [intros _|done]. apply wp_bind, wp_ptr_add_some.
  change (write_cursor (building t (bs ++ be_bytes 2 u))) with (zlen (bs ++ be_bytes 2 u)).
  rewrite Hlen. replace (zlen bs + 2 - 2) with (zlen bs) by lia.
  apply wp_bind, network_order_loop_wp; [done|lia|lia| |]; cbn [blk off hp mem built].
  - rewrite Z.add_0_r. apply valid_access_heap_with; [apply fits_access; lia|]. eapply valid_access_sub; [exact Hv|lia..].
  - rewrite Z.add_0_r. change (Z.to_nat 2) with 2%nat. rewrite build_heap by lia. by apply wp_post_validate.
Qed.

Lemma build_writev t bs iov bss n offs : is_bytes bs -> Forall2 (iov_is h (blk d)) iov bss ->
  0 <= n -> zlen bs + n <= N -> 0 <= offs -> offs + n <= zlen (concat bss) ->
  s2n_stuffer_writev_bytes iov offs n (built bs, building t bs) =
    (Ok tt, (built (bs ++ zslice (concat bss) offs n), building true (bs ++ zslice (concat bss) offs n))).
Proof using Hv HN Hw H.
  intros Hbs Hiov Hn Hle Hoffs Hrange. pose proof (zlen_nonneg bs).
  assert (Hz : zlen (zslice (concat bss) offs n) = n) by (rewrite zlen_zslice; lia).
  apply wp_eq. eapply wp_writev_fits; [by apply built_ok|apply building_ok; lia|done| |simpl; lia|done|done|].
  - simpl. eapply Forall2_impl; [exact Hiov|]. intros v l. apply iov_is_heap_with; [apply fits_access; lia|done].
  - pose proof (building_app t bs (zslice (concat bss) offs n)) as Happ. rewrite Hz in Happ. rewrite Happ.
    simpl. by rewrite build_heap by (rewrite zlen_app; lia).
Qed.
End Build.

(** Two buffers, one of them empty, from the second byte on. *)
Definition demo_iov : list iovec := [Iovec (HeapBuf (Some (Ptr 2 0))) 3; Iovec (HeapBuf None) 0; Iovec (LocalBuf [7; 8; 9]) 3].
Definition demo_iov_world : world :=
  World {[1%positive := [10; 20; 30; 40; 0; 0; 0; 0]; 2%positive := [1; 2; 3]]} started_statics.

Lemma demo_iov_world_ok : world_ok demo_iov_world.
Proof.
  split; [|split; [done|simpl; unfold is_u32; lia]]. intros k l Hl. simpl in Hl.
  apply lookup_insert_Some in Hl as [[_ <-]|[_ Hl]]; [solve_bytes|]. apply lookup_singleton_Some in Hl as [_ <-]. solve_bytes.
Qed.

Lemma demo_iov_stuffer : stuffer_ok (hp demo_iov_world) demo_stuffer.
Proof.
  split; simpl; try done; try lia.
  split; simpl; unfold is_u32; try done; try lia. intros p [= <-]. solve_valid_access.
Qed.

Lemma writev_bytes_correct_witness :
  exists w' s', @s2n_stuffer_writev_bytes demo_platform demo_iov 1 4 (demo_iov_world, demo_stuffer) = (Ok tt, (w', s')) /\
    written (hp w') s' = [10; 20; 30; 40] ++ [2; 3; 7; 8] /\
    read_cursor s' = 1 /\ tainted s' = true /\ step_ok demo_iov_world demo_stuffer w' s' /\
    hp w' = heap_with (hp demo_iov_world) (Ptr 1 4) [2; 3; 7; 8].
Proof.
  apply (@writev_bytes_correct demo_platform _ demo_iov_world demo_stuffer (Ptr 1 0) demo_iov [[1; 2; 3]; []; [7; 8; 9]] 1 4).
  - apply demo_iov_world_ok.
  - apply demo_iov_stuffer.
  - reflexivity.
  - repeat constructor; simpl; try done; try (exists [1; 2; 3]; vm_compute; intuition congruence); solve_bytes.
  - lia.
  - vm_compute. congruence.
  - vm_compute. intuition congruence.
Defined.
End StufferBuild.
Export StufferBuild.

(** * Writing and parsing formats

    A calculus for commands that write a message into a stuffer or parse one
    out of it.  [emits] says that a command appends given bytes and fails only
    when a stuffer of fixed size has no room; [parses] says that a command
    consumes given bytes and returns a value.  Both are closed under
    sequencing, so that an encoder and a decoder are followed byte by byte. *)
Module StufferWriters.

Lemma appended_trans w s bs w1 s1 bs' w2 s2 :
  appended w s bs w1 s1 -> appended w1 s1 bs' w2 s2 -> stuffer_ok (hp w) s -> appended w s (bs ++ bs') w2 s2.
Proof.
  intros [T1 [b1 S1] B1 F1] [T2 [b2 S2] B2 F2] Hs. pose proof (zlen_nonneg bs). pose proof (zlen_nonneg bs'). split.
  - by eapply step_ok_trans.
  - exists b2. rewrite S2, S1. unfold extended_by. simpl. rewrite zlen_app. f_equal; lia.
  - by rewrite B2, B1, <- app_assoc.
  - rewrite zlen_app. intros Hle. rewrite F2, F1; [done|lia|]. rewrite F1 by lia. rewrite S1. simpl. lia.
Qed.

(** The room left by a stuffer that cannot grow. *)
Definition room (s : s2n_stuffer) : Z := size (blob s) - write_cursor s.

Section Emits.
Context `{HP : Platform} {HPok : PlatformOk} {C : Type}.
Implicit Types (c : C) (w : world) (s : s2n_stuffer).

(** In any good state, [cmd] appends [bs] and leaves [c] alone; if it fails
    then [bs] did not fit and the stuffer is still valid. *)
Definition emits (c : C) (bs : list Z) (cmd : Cmd (C * s2n_stuffer) unit) : Prop :=
  forall w s, world_ok w -> stuffer_ok (hp w) s ->
  wp cmd (w, (c, s))
    (fun _ w' x => fst x = c /\ appended w s bs w' (snd x))
    (fun _ w' x => fst x = c /\ step_ok w s w' (snd x) /\ room s < zlen bs).

Lemma emits_ret c : emits c [] (ret tt).
Proof. intros w s Hw Hs. apply wp_ret. split; [done|]. apply appended_nil; [apply Hw|done]. Qed.

(** The second command may fail as well, after the first one succeeded. *)
Lemma emits_err_after w s bs w1 s1 bs' w2 s2 :
  appended w s bs w1 s1 -> step_ok w1 s1 w2 s2 -> room s1 < zlen bs' ->
  step_ok w s w2 s2 /\ room s < zlen (bs ++ bs').
Proof.
  intros [T1 [b1 S1] _ F1] T2 Hlt. split; [by eapply step_ok_trans|]. rewrite zlen_app. unfold room in *.
  pose proof (zlen_nonneg bs'). destruct (Z.le_gt_cases (zlen bs) (size (blob s) - write_cursor s)) as [Hle|?]; [|lia].
  rewrite (F1 Hle), S1 in Hlt. simpl in Hlt. lia.
Qed.

Lemma emits_seq c bs bs' cmd cmd' : emits c bs cmd -> emits c bs' cmd' -> emits c (bs ++ bs') (cmd ;;; cmd').
Proof.
  intros H1 H2 w s Hw Hs. eapply wp_bind_mono; [by apply H1| |].
  - intros [] w1 [c1 s1] [Hc Happ]. simpl in *. subst c1. pose proof (app_step _ _ _ _ _ Happ) as T.
    eapply wp_mono; [apply H2; [by eapply step_world_ok|apply T]| |].
    + intros _ w2 [c2 s2] [Hc2 Happ2]. split; [done|]. by eapply appended_trans.
    + intros e w2 [c2 s2] (Hc2 & T2 & Hr). split; [done|]. by eapply emits_err_after.
  - intros e w1 [c1 s1] (Hc & T & Hr). split_goal; try done. rewrite zlen_app. pose proof (zlen_nonneg bs'). simpl in *. lia.
Qed.

(** Reading the first component. *)
Lemma emits_get {A} c bs (g : Cmd C A) a (k : A -> Cmd (C * s2n_stuffer) unit) :
  (forall w, g (w, c) = (Ok a, (w, c))) -> emits c bs (k a) -> emits c bs (bind (zoom fst_lens g) k).
Proof.
  intros Hg Hk w s Hw Hs. apply wp_bind, wp_zoom. simpl.
  eapply wp_run; [apply Hg|]. by apply Hk.
Qed.

Lemma emits_uint c wd u : in_width wd u ->
  emits c (be_bytes (Z.to_nat (width_bytes wd)) u) (zoom snd_lens (write_uint wd u)).
Proof.
  intros Hu w s Hw Hs. apply wp_zoom, wp_write_uint; [done..| |].
  - intros w' s' Happ. done.
  - intros e w' s' [Hf Hk]. split_goal; [done|apply Hk|]. rewrite zlen_be_bytes, Z2Nat.id by (by destruct wd). done.
Qed.

Lemma emits_bytes c bs n : is_bytes bs -> is_u32 (zlen bs) -> n = zlen bs ->
  emits c bs (zoom snd_lens (s2n_stuffer_write_bytes (LocalBuf bs) n)).
Proof.
  intros Hb Hl -> w s Hw Hs. apply wp_zoom, (wp_write_bytes w s (LocalBuf bs) bs); [done|done|by apply source_local|done| |].
  - intros w' s' Happ. done.
  - intros e w' s' [Hf Hk]. split_goal; [done|apply Hk|done].
Qed.

(** A vector with its length before it. *)
Definition vector (length : Z) (payload : list Z) : list Z :=
  be_bytes (Z.to_nat length) (zlen payload) ++ payload.

Lemma emits_vector c length payload cmd : 0 < length <= 4 -> zlen payload < 2 ^ (8 * length) ->
  emits c payload cmd ->
  emits c (vector length payload)
    (r <-- zoom snd_lens (s2n_stuffer_reserve length) ;; cmd ;;; zoom snd_lens (s2n_stuffer_write_vector_size r)).
Proof.
  intros Hlen Hpay Hcmd w s Hw Hs.
  set (hole := repeat S2N_WIPE_PATTERN (Z.to_nat length)).
  assert (Hlh : zlen hole = length) by (apply zlen_repeat; lia).
  assert (Hlv : zlen (vector length payload) = length + zlen payload).
  { unfold vector. rewrite zlen_app, zlen_be_bytes. lia. }
  pose proof (zlen_nonneg payload).
  apply wp_bind, wp_zoom. cbn [lget snd_lens snd]. apply wp_reserve; [done..| |].
  2: { intros e w1 s1 [Hf Hk]. split_goal; [done|apply Hk|]. unfold room. lia. }
  intros w1 s1 Happ1 [Hr1 Hr2 Hr3]. cbn in Hr1, Hr2, Hr3. pose proof (app_step _ _ _ _ _ Happ1) as T1.
  eapply wp_bind_mono; [apply Hcmd; [by eapply step_world_ok|apply T1]| |].
  2: { intros e w2 [c2 s2] (Hc & T2 & Hr). split; [done|].
    destruct (emits_err_after _ _ _ _ _ _ _ _ Happ1 T2 Hr) as [T Hr']. split; [done|].
    fold hole in Hr'. rewrite zlen_app in Hr'. lia. }
  intros [] w2 [c2 s2] [Hc Happ2]. cbn in Hc, Happ2. subst c2. pose proof (app_step _ _ _ _ _ Happ2) as T2.
  pose proof (appended_trans _ _ _ _ _ _ _ _ Happ1 Happ2 Hs) as [T [b S] B F]. fold hole in S, B, F.
  destruct (app_shape _ _ _ _ _ Happ2) as [b2 S2].
  apply wp_zoom. cbn [lget snd_lens snd].
  eapply (wp_write_vector_size w2 s2 _ (written (hp w) s) hole payload); simpl.
  - by eapply step_world_ok.
  - apply T.
  - rewrite S2. split; simpl; lia.
  - exact B.
  - by apply written_len.
  - done.
  - intros _ w3 T3 B3. split; [done|]. split.
    + by eapply step_ok_trans.
    + exists b. rewrite S, Hlv, zlen_app. by rewrite Hlh.
    + done.
    + rewrite Hlv. intros Hle. apply F. rewrite zlen_app. lia.
  - lia.
Qed.
End Emits.

Section Parses.
Context `{HP : Platform} {HPok : PlatformOk} {C : Type}.
Implicit Types (c : C) (w : world) (s : s2n_stuffer).

(** With [bs] next in the stuffer, [cmd] consumes exactly [bs], returns [v] and
    changes the rest of the state from [c] to [c']. *)
Definition parses {A} (c : C) (bs : list Z) (v : A) (c' : C) (cmd : Cmd (C * s2n_stuffer) A) : Prop :=
  forall w s rest, world_ok w -> stuffer_ok (hp w) s -> unread (hp w) s = bs ++ rest ->
  cmd (w, (c, s)) = (Ok v, (w, (c', advanced (zlen bs) s))).

Lemma parses_pure {A} c (v : A) c' (cmd : Cmd C A) :
  (forall w, cmd (w, c) = (Ok v, (w, c'))) -> parses c [] v c' (zoom fst_lens cmd).
Proof.
  intros Hc w s rest Hw Hs Hu. unfold zoom. simpl. rewrite Hc. unfold zlen. simpl. by rewrite advanced_0.
Qed.

Lemma parses_ret {A} c (v : A) : parses c [] v c (ret v).
Proof. intros w s rest Hw Hs Hu. unfold zlen. simpl. by rewrite advanced_0. Qed.

Lemma parsed_ok w s bs rest :
  stuffer_ok (hp w) s -> unread (hp w) s = bs ++ rest ->
  stuffer_ok (hp w) (advanced (zlen bs) s) /\ unread (hp w) (advanced (zlen bs) s) = rest.
Proof.
  intros Hs Hu. pose proof (unread_len Hs) as Hl. rewrite Hu, zlen_app in Hl. pose proof (zlen_nonneg bs).
  pose proof (zlen_nonneg rest). split.
  - apply set_read_ok; [done|]. pose proof (ok_read _ _ Hs). lia.
  - rewrite unread_advanced by (done || lia). rewrite Hu. unfold zlen. by rewrite Nat2Z.id, drop_app_length.
Qed.

Lemma parses_bind {A B} c bs (a : A) c1 bs' (b : B) c2 cmd (k : A -> Cmd (C * s2n_stuffer) B) :
  parses c bs a c1 cmd -> parses c1 bs' b c2 (k a) -> parses c (bs ++ bs') b c2 (bind cmd k).
Proof.
  intros H1 H2 w s rest Hw Hs Hu. rewrite <- app_assoc in Hu.
  rewrite (run_bind _ _ _ _ _ (H1 _ _ _ Hw Hs Hu)).
  destruct (parsed_ok _ _ _ _ Hs Hu) as [Hs' Hu']. rewrite (H2 _ _ _ Hw Hs' Hu').
  by rewrite advanced_advanced, zlen_app.
Qed.

Lemma parses_uint c wd u : in_width wd u ->
  parses c (be_bytes (Z.to_nat (width_bytes wd)) u) u c (zoom snd_lens (read_uint wd)).
Proof.
  intros Hu w s rest Hw Hs Hun. pose proof (unread_len Hs) as Hl. rewrite Hun, zlen_app, zlen_be_bytes in Hl.
  assert (Hpos : 0 < width_bytes wd) by (by destruct wd). pose proof (zlen_nonneg rest).
  set (n := width_bytes wd) in *.
  assert (Hrun : read_uint wd (w, s) = (Ok u, (w, advanced n s))).
  { apply wp_eq. apply wp_read_uint; [apply Hw|done| |lia]. intros _. fold n.
    do 2 f_equal. symmetry. rewrite Hun, take_app_length'.
    - rewrite be_value_bytes, Z2Nat.id by lia. unfold in_width in Hu. rewrite Z.mod_small by done. lia.
    - pose proof (zlen_be_bytes (Z.to_nat n) u) as He. unfold zlen in He. lia. }
  unfold zoom. cbn [lget lset snd_lens snd fst]. rewrite Hrun. by rewrite zlen_be_bytes, Z2Nat.id by lia.
Qed.
End Parses.
End StufferWriters.
Export StufferWriters.
