(* ===== verification/StufferText.v ===== *)
(** * Text in stuffers: stuffer/s2n_stuffer_text.c

    Scanning for characters and strings, and splitting a stuffer into tokens and
    lines.  A C string is the list of its characters without the final NUL; the
    characters the library scans for are ASCII.  s2n_stuffer_printf is in
    [StufferPrintf]. *)
From S2P Require Import Prelude Errors CMem Platform Safety Blob Alloc Stuffer StufferInv StufferWrite StufferSpec StufferTheorems NetworkOrder.
Open Scope Z_scope.

Module StufferText.

Section Definitions.
Context `{Platform}.

Definition s2n_stuffer_peek_char : Cmd s2n_stuffer Z :=
  r <-- attempt s2n_stuffer_read_uint8 ;;
  match r with
  | inl _ => modify (fun s => set_read_cursor (u32 (read_cursor s - 1)) s)
  | inr _ => ret tt
  end ;;;
  post_validate ;;;
  guard_rc r.

Definition s2n_stuffer_read_expected_str (expected : list Z) : Cmd s2n_stuffer unit :=
  pre_validate ;;;
  let expected_length := zlen expected in
  if expected_length =? 0 then ret tt
  else
    s <-- get_obj ;;
    ensure (expected_length <=? s2n_stuffer_data_available s) S2N_ERR_STUFFER_OUT_OF_DATA ;;;
    actual <-- ptr_add (data (blob s)) (read_cursor s) ;;
    ensure_ref actual ;;;
    bs <-- load_buf (HeapBuf actual) expected_length ;;
    ensure (bool_decide (bs = expected)) S2N_ERR_STUFFER_NOT_FOUND ;;;
    modify (fun s => set_read_cursor (u32 (read_cursor s + expected_length)) s) ;;;
    post_validate.

Definition s2n_stuffer_peek_check_for_str (expected : list Z) : Cmd s2n_stuffer unit :=
  pre_validate ;;;
  s <-- get_obj ;;
  let orig_read_pos := read_cursor s in
  rc <-- attempt (s2n_stuffer_read_expected_str expected) ;;
  modify (set_read_cursor orig_read_pos) ;;;
  post_validate ;;;
  guard_rc rc.

(** [while (s2n_stuffer_data_available(s)) { if (go(data[read_cursor])) read_cursor += 1; else break; }];
    [fuel] bounds the iterations. *)
Fixpoint skip_loop (go : Z -> bool) (fuel : nat) : Cmd s2n_stuffer unit :=
  s <-- get_obj ;;
  if s2n_stuffer_data_available s =? 0 then ret tt
  else
    match fuel with
    | O => undefined
    | S fuel' =>
        c <-- load_byte (data (blob s)) (read_cursor s) ;;
        if go c then modify (set_read_cursor (u32 (read_cursor s + 1))) ;;; skip_loop go fuel' else ret tt
    end.

Definition is_whitespace (c : Z) : bool := (c =? 32) || (c =? 9) || (c =? 10) || (c =? 13).

(** Returns the number of characters skipped. *)
Definition s2n_stuffer_skip_whitespace : Cmd s2n_stuffer Z :=
  pre_validate ;;;
  s <-- get_obj ;;
  let initial_read_cursor := read_cursor s in
  skip_loop is_whitespace (Z.to_nat (s2n_stuffer_data_available s)) ;;;
  s <-- get_obj ;;
  let skipped := u32 (read_cursor s - initial_read_cursor) in
  post_validate ;;;
  ret skipped.

Definition s2n_stuffer_skip_to_char (target : Z) : Cmd s2n_stuffer unit :=
  pre_validate ;;;
  s <-- get_obj ;;
  skip_loop (fun c => negb (c =? target)) (Z.to_nat (s2n_stuffer_data_available s)) ;;;
  post_validate.

(** The loop of s2n_stuffer_skip_read_until; [true] if the target was found. *)
Fixpoint skip_until_loop (target : list Z) (fuel : nat) : Cmd s2n_stuffer bool :=
  s <-- get_obj ;;
  let len := zlen target in
  if len <=? s2n_stuffer_data_available s then
    match fuel with
    | O => undefined
    | S fuel' =>
        s2n_stuffer_skip_to_char (znth target 0) ;;;
        s2n_stuffer_skip_read len ;;;
        s <-- get_obj ;;
        actual <-- ptr_add (data (blob s)) (read_cursor s - len) ;;
        ensure_ref actual ;;;
        bs <-- load_buf (HeapBuf actual) len ;;
        if bool_decide (bs = target) then ret true
        else
          s2n_stuffer_rewind_read (u32 (len - 1)) ;;;
          skip_until_loop target fuel'
    end
  else ret false.

Definition s2n_stuffer_skip_read_until (target : list Z) : Cmd s2n_stuffer unit :=
  pre_validate ;;;
  if zlen target =? 0 then ret tt
  else
    s <-- get_obj ;;
    found <-- skip_until_loop target (Z.to_nat (s2n_stuffer_data_available s)) ;;
    if (found : bool) then ret tt else post_validate.

(** The loop of s2n_stuffer_skip_expected_char; returns the count. *)
Fixpoint expected_char_loop (expected max skip : Z) (fuel : nat) : Cmd s2n_stuffer Z :=
  s <-- get_obj ;;
  if (read_cursor s <? write_cursor s) && (skip <? max) then
    match fuel with
    | O => undefined
    | S fuel' =>
        c <-- load_byte (data (blob s)) (read_cursor s) ;;
        if c =? expected then
          modify (set_read_cursor (u32 (read_cursor s + 1))) ;;;
          expected_char_loop expected max (u32 (skip + 1)) fuel'
        else ret skip
    end
  else ret skip.

Definition s2n_stuffer_skip_expected_char (expected min max : Z) : Cmd s2n_stuffer Z :=
  pre_validate ;;;
  ensure (min <=? max) S2N_ERR_SAFETY ;;;
  s <-- get_obj ;;
  skip <-- expected_char_loop expected max 0 (Z.to_nat (s2n_stuffer_data_available s)) ;;
  ensure (min <=? skip) S2N_ERR_STUFFER_NOT_FOUND ;;;
  post_validate ;;;
  ret skip.

(** The loop of s2n_stuffer_read_token: the distance to the delimiter. *)
Fixpoint token_loop (delim token_size : Z) (fuel : nat) : Cmd s2n_stuffer Z :=
  s <-- get_obj ;;
  if u32 (read_cursor s + token_size) <? write_cursor s then
    match fuel with
    | O => undefined
    | S fuel' =>
        c <-- load_byte (data (blob s)) (u32 (read_cursor s + token_size)) ;;
        if c =? delim then ret token_size else token_loop delim (u32 (token_size + 1)) fuel'
    end
  else ret token_size.

(** State: [(stuffer, token)]. *)
Definition s2n_stuffer_read_token (delim : Z) : Cmd (s2n_stuffer * s2n_stuffer) unit :=
  zoom fst_lens pre_validate ;;;
  zoom snd_lens pre_validate ;;;
  st <-- get_obj ;;
  token_size <-- zoom fst_lens (token_loop delim 0 (Z.to_nat (s2n_stuffer_data_available (fst st)))) ;;
  s2n_stuffer_copy token_size ;;;
  st <-- get_obj ;;
  (if read_cursor (fst st) <? write_cursor (fst st)
   then zoom fst_lens (modify (fun s => set_read_cursor (u32 (read_cursor s + 1)) s)) else ret tt) ;;;
  zoom fst_lens post_validate ;;;
  zoom snd_lens post_validate.

Definition s2n_stuffer_read_line : Cmd (s2n_stuffer * s2n_stuffer) unit :=
  zoom fst_lens pre_validate ;;;
  zoom snd_lens pre_validate ;;;
  s2n_stuffer_read_token 10 ;;;
  st <-- get_obj ;;
  let token := snd st in
  (if 0 <? s2n_stuffer_data_available token then
     c <-- load_byte (data (blob token)) (u32 (write_cursor token - 1)) ;;
     if c =? 13 then zoom snd_lens (modify (set_write_cursor (u32 (write_cursor token - 1)))) else ret tt
   else ret tt) ;;;
  zoom fst_lens post_validate ;;;
  zoom snd_lens post_validate.

Definition s2n_stuffer_alloc_ro_from_string (str : list Z) : Cmd s2n_stuffer unit :=
  pre_validate ;;;
  let length := u32 (zlen str) in
  s2n_stuffer_alloc (u32 (length + 1)) ;;;
  s2n_stuffer_write_bytes (LocalBuf str) length.

Definition s2n_stuffer_init_ro_from_string (d : option ptr) (length : Z) : Cmd s2n_stuffer unit :=
  pre_validate ;;;
  ensure_ref d ;;;
  r <-- with_local zero_blob (s2n_blob_init d length) ;;
  s2n_stuffer_init (snd r) ;;;
  s2n_stuffer_skip_write length.

End Definitions.

(** ** What the loops compute *)

(** The length of the longest prefix of [l] that satisfies [go]. *)
Fixpoint span_len (go : Z -> bool) (l : list Z) : nat :=
  match l with
  | [] => 0%nat
  | c :: l' => if go c then S (span_len go l') else 0%nat
  end.

Lemma span_len_le go l : (span_len go l <= length l)%nat.
Proof. induction l as [|c l IH]; simpl; [lia|]. destruct (go c); lia. Qed.

Lemma span_len_prefix go l : Forall (fun c => go c = true) (take (span_len go l) l).
Proof. induction l as [|c l IH]; simpl; [constructor|]. destruct (go c) eqn:Hc; simpl; by constructor. Qed.

Lemma span_len_stop go l c : l !! span_len go l = Some c -> go c = false.
Proof.
  induction l as [|d l IH]; simpl; [done|]. destruct (go d) eqn:Hd; simpl; [apply IH|].
  by intros [= <-].
Qed.

Section Loops.
Context `{Platform}.

Lemma unread_empty h s : stuffer_ok h s -> (s2n_stuffer_data_available s =? 0) = bool_decide (unread h s = []).
Proof.
  intros Hs. pose proof (unread_len Hs) as Hl. rewrite (data_available_eq Hs), <- Hl.
  by destruct (unread h s).
Qed.

(** Reading [blob.data[read_cursor + i]]. *)
Lemma wp_load_unread {X} (w : world) (x : X) s (i : nat) c j Q E :
  stuffer_ok (hp w) s -> unread (hp w) s !! i = Some c -> j = read_cursor s + Z.of_nat i ->
  Q c w x -> wp (load_byte (data (blob s)) j) (w, x) Q E.
Proof.
  intros Hs Hc -> HQ. pose proof (unread_len Hs) as Hl. pose proof (lookup_lt_Some _ _ _ Hc) as Hlt.
  pose proof (ok_read _ _ Hs). pose proof (ok_write _ _ Hs). unfold zlen in Hl.
  destruct (data_some Hs 1) as [p Hp]; [lia..|]. rewrite Hp.
  assert (Hok : stuffer_ok (hp w) (advanced (Z.of_nat i) s)) by (apply advanced_ok; [done|lia]).
  apply wp_load_byte; [apply (stuffer_access Hs); [done|lia..]|].
  pose proof (bytes_at_cursor Hok p 1) as Hb. simpl in Hb. rewrite Hb by (done || lia).
  rewrite unread_advanced by (done || lia). rewrite Nat2Z.id.
  by rewrite (drop_S _ _ _ Hc).
Qed.

Lemma wp_skip_loop go (w : world) s fuel Q E :
  stuffer_ok (hp w) s -> (length (unread (hp w) s) <= fuel)%nat ->
  Q tt w (advanced (Z.of_nat (span_len go (unread (hp w) s))) s) ->
  wp (skip_loop go fuel) (w, s) Q E.
Proof.
  revert s. induction fuel as [|fuel IH]; intros s Hs Hf HQ; simpl; apply wp_bind, wp_get_obj;
    rewrite (unread_empty (hp w)) by done.
  - destruct (unread (hp w) s); simpl in *; [|lia]. apply wp_ret. by rewrite advanced_0 in HQ.
  - pose proof (unread_len Hs) as Hl. pose proof (ok_read _ _ Hs). pose proof (ok_write _ _ Hs). pose proof (ok_size32 Hs).
    destruct (unread (hp w) s) as [|c l] eqn:Hu; simpl in *.
    + apply wp_ret. by rewrite advanced_0 in HQ.
    + unfold zlen in Hl. simpl in Hl. apply wp_bind, (wp_load_unread _ _ s 0 c); [done|by rewrite Hu|lia|].
      destruct (go c); [|apply wp_ret; by rewrite advanced_0 in HQ].
      apply wp_bind, wp_modify. rewrite u32_small by lia. fold (advanced 1 s).
      assert (Hu1 : unread (hp w) (advanced 1 s) = l) by (rewrite unread_advanced, Hu by (done || lia); done).
      apply IH; [apply advanced_ok; [done|lia]|rewrite Hu1; lia|]. rewrite Hu1, advanced_advanced.
      by replace (1 + Z.of_nat (span_len go l)) with (Z.of_nat (S (span_len go l))) by lia.
Qed.

Lemma span_len_range go h s :
  stuffer_ok h s -> 0 <= Z.of_nat (span_len go (unread h s)) <= write_cursor s - read_cursor s.
Proof.
  intros Hs. pose proof (unread_len Hs) as Hl. pose proof (span_len_le go (unread h s)). unfold zlen in Hl. lia.
Qed.

Lemma wp_skip_to_char (w : world) s target Q E :
  stuffer_ok (hp w) s ->
  Q tt w (advanced (Z.of_nat (span_len (fun c => negb (c =? target)) (unread (hp w) s))) s) ->
  wp (s2n_stuffer_skip_to_char target) (w, s) Q E.
Proof.
  intros Hs HQ. apply wp_bind, wp_pre_validate; [done|]. apply wp_bind, wp_get_obj, wp_bind.
  apply wp_skip_loop; [done| |].
  - rewrite (data_available_eq Hs), <- (unread_len Hs). unfold zlen. lia.
  - apply wp_post_validate; [apply advanced_ok; [done|by apply span_len_range]|done].
Qed.

Lemma wp_token_loop delim (w : world) s t fuel Q E :
  stuffer_ok (hp w) s -> (t <= length (unread (hp w) s))%nat ->
  (length (unread (hp w) s) - t <= fuel)%nat ->
  Q (Z.of_nat (t + span_len (fun c => negb (c =? delim)) (drop t (unread (hp w) s)))) w s ->
  wp (token_loop delim (Z.of_nat t) fuel) (w, s) Q E.
Proof.
  intros Hs. pose proof (unread_len Hs) as Hl. pose proof (ok_read _ _ Hs). pose proof (ok_write _ _ Hs).
  pose proof (ok_size32 Hs). unfold zlen in Hl.
  revert t. induction fuel as [|fuel IH]; intros t Ht Hf HQ; simpl; apply wp_bind, wp_get_obj;
    rewrite (u32_small (read_cursor s + _)) by lia.
  - rewrite (proj2 (Z.ltb_ge _ _)) by lia. apply wp_ret. rewrite drop_ge in HQ by lia. simpl in HQ.
    by rewrite Nat.add_0_r in HQ.
  - destruct (Z.ltb_spec (read_cursor s + Z.of_nat t) (write_cursor s)) as [Hlt|Hge].
    + destruct (lookup_lt_is_Some_2 (unread (hp w) s) t) as [c Hc]; [lia|].
      apply wp_bind, (wp_load_unread _ _ s t c); [done|done|lia|].
      rewrite (drop_S _ _ _ Hc) in HQ. simpl in HQ. destruct (c =? delim); simpl in HQ.
      * apply wp_ret. by rewrite Nat.add_0_r in HQ.
      * rewrite u32_small by lia. replace (Z.of_nat t + 1) with (Z.of_nat (S t)) by lia.
        apply IH; [lia|lia|]. by rewrite Nat.add_succ_r in HQ.
    + apply wp_ret. rewrite drop_ge in HQ by lia. simpl in HQ. by rewrite Nat.add_0_r in HQ.
Qed.

End Loops.

(** ** Searching *)

Definition occurs_at (l : list Z) (i : nat) (t : list Z) : Prop := take (length t) (drop i l) = t.

Lemma occurs_len l i t : t <> [] -> occurs_at l i t -> (i + length t <= length l)%nat.
Proof.
  unfold occurs_at. intros Ht Ho. apply (f_equal length) in Ho. rewrite length_take, length_drop in Ho.
  assert (0 < length t)%nat by (destruct t; [done|simpl; lia]). lia.
Qed.

(** An occurrence starts at a character that is not skipped. *)
Lemma occurs_span l i c t : occurs_at l i (c :: t) -> (span_len (fun d => negb (d =? c)%Z) l <= i)%nat.
Proof.
  unfold occurs_at. revert i. induction l as [|d l IH]; intros i; simpl; [lia|].
  destruct (Z.eqb_spec d c) as [->|Hne]; simpl; [lia|]. destruct i as [|i]; simpl.
  - by intros [= ->].
  - intros Ho. apply IH in Ho. lia.
Qed.

Lemma occurs_drop k l i t : occurs_at (drop k l) i t <-> occurs_at l (k + i) t.
Proof. unfold occurs_at. by rewrite drop_drop. Qed.

(** [i] is where [t] occurs first. *)
Definition first_at (l : list Z) (i : nat) (t : list Z) : Prop :=
  occurs_at l i t /\ forall j, (j < i)%nat -> ~ occurs_at l j t.

Definition nowhere (l : list Z) (t : list Z) : Prop := forall i, ~ occurs_at l i t.

(** What a search that skips the first [k] characters shows of the whole. *)
Lemma first_at_drop k l i t :
  (forall j, (j < k)%nat -> ~ occurs_at l j t) -> first_at (drop k l) i t -> first_at l (k + i) t.
Proof.
  intros Hk [Ho Hf]. split; [by apply occurs_drop|]. intros j Hj. destruct (decide (j < k)%nat); [by apply Hk|].
  specialize (Hf (j - k)%nat). rewrite occurs_drop in Hf. replace (k + (j - k))%nat with j in Hf by lia.
  apply Hf. lia.
Qed.

Lemma nowhere_drop k l t :
  (forall j, (j < k)%nat -> ~ occurs_at l j t) -> nowhere (drop k l) t -> nowhere l t.
Proof.
  intros Hk Hn j. destruct (decide (j < k)%nat); [by apply Hk|]. specialize (Hn (j - k)%nat).
  rewrite occurs_drop in Hn. by replace (k + (j - k))%nat with j in Hn by lia.
Qed.

(** How a search may end: found, given up early, or failed. *)
Definition search_found (h : heap) (s : s2n_stuffer) (t : list Z) (s' : s2n_stuffer) : Prop :=
  exists i, first_at (unread h s) i t /\ (i + length t <= length (unread h s))%nat /\
    s' = advanced (Z.of_nat (i + length t)) s.

Definition search_end (h : heap) (s : s2n_stuffer) (t : list Z) (s' : s2n_stuffer) : Prop :=
  nowhere (unread h s) t /\ exists k, 0 <= k <= zlen (unread h s) /\ s' = advanced k s.

Lemma search_found_skip h s t k s' :
  stuffer_ok h s -> (k <= length (unread h s))%nat ->
  (forall j, (j < k)%nat -> ~ occurs_at (unread h s) j t) ->
  search_found h (advanced (Z.of_nat k) s) t s' -> search_found h s t s'.
Proof.
  intros Hs Hk Hj (i & Hf & Hl & ->). pose proof (unread_len Hs) as Hlen. unfold zlen in Hlen.
  rewrite unread_advanced, Nat2Z.id in * by (done || lia). rewrite length_drop in Hl.
  exists (k + i)%nat. split_goal; [by apply first_at_drop|lia|]. rewrite advanced_advanced. f_equal. lia.
Qed.

Lemma search_end_skip h s t k s' :
  stuffer_ok h s -> (k <= length (unread h s))%nat ->
  (forall j, (j < k)%nat -> ~ occurs_at (unread h s) j t) ->
  search_end h (advanced (Z.of_nat k) s) t s' -> search_end h s t s'.
Proof.
  intros Hs Hk Hj (Hn & i & Hi & ->). pose proof (unread_len Hs) as Hlen. unfold zlen in *.
  rewrite unread_advanced, Nat2Z.id in * by (done || lia). rewrite length_drop in Hi.
  split; [by apply (nowhere_drop k)|]. exists (Z.of_nat k + i). unfold zlen. split; [lia|]. by rewrite advanced_advanced.
Qed.

Section Search.
Context `{Platform}.

Lemma wp_rewind_advanced (w : world) s n Q E :
  stuffer_ok (hp w) s -> 0 <= n <= read_cursor s ->
  Q tt w (advanced (- n) s) -> wp (s2n_stuffer_rewind_read n) (w, s) Q E.
Proof. intros Hs Hn HQ. apply wp_rewind_read; [done|lia|done|lia]. Qed.

(** The result of the search loop from [s]. *)
Definition search_post (w : world) (s : s2n_stuffer) (t : list Z) (found : bool) (w' : world) (s' : s2n_stuffer) : Prop :=
  w' = w /\
  if found then search_found (hp w) s t s'
  else search_end (hp w) s t s' /\ zlen (unread (hp w) s') < zlen t.

Definition search_err (w : world) (s : s2n_stuffer) (t : list Z) (e : s2n_error) (w' : world) (s' : s2n_stuffer) : Prop :=
  w' = w /\ e = S2N_ERR_STUFFER_OUT_OF_DATA /\ search_end (hp w) s t s'.

Lemma search_post_short w s t :
  t <> [] -> zlen (unread (hp w) s) < zlen t -> search_post w s t false w s.
Proof.
  intros Ht Hlt. unfold zlen in *. split; [done|]. split; [|done]. split.
  - intros i Ho. apply occurs_len in Ho; [lia|done].
  - exists 0. rewrite advanced_0. unfold zlen. split; [lia|done].
Qed.

Lemma wp_skip_until_loop c t (w : world) s fuel :
  stuffer_ok (hp w) s -> is_u32 (zlen (c :: t)) -> (length (unread (hp w) s) <= fuel)%nat ->
  wp (skip_until_loop (c :: t) fuel) (w, s) (search_post w s (c :: t)) (search_err w s (c :: t)).
Proof.
  intros Hs Ht. revert s Hs. induction fuel as [|fuel IH]; intros s Hs Hf; cbn [skip_until_loop]; apply wp_bind, wp_get_obj;
    pose proof (unread_len Hs) as Hl; rewrite (data_available_eq Hs), <- Hl;
    (destruct (Z.leb_spec (zlen (c :: t)) (zlen (unread (hp w) s))) as [Hle|Hgt];
      [|apply wp_ret; by apply search_post_short]); [unfold zlen in Hle; simpl in Hle; lia|].
  pose proof (ok_read _ _ Hs). pose proof (ok_write _ _ Hs). pose proof (ok_size32 Hs).
  set (l := unread (hp w) s) in *. set (n := zlen (c :: t)) in *.
  assert (Hn : n = Z.of_nat (length (c :: t))) by done. assert (0 < n) by (rewrite Hn; simpl; lia).
  unfold is_u32, zlen in *.
  apply wp_bind, wp_skip_to_char; [done|]. change (znth (c :: t) 0) with c. fold l.
  set (m := span_len _ l). assert (Hm : (m <= length l)%nat) by apply span_len_le.
  assert (Hbefore : forall j, (j < m)%nat -> ~ occurs_at l j (c :: t)).
  { intros j Hj Ho. apply occurs_span in Ho. unfold m in Hj. lia. }
  assert (Hs1 : stuffer_ok (hp w) (advanced (Z.of_nat m) s)) by (apply advanced_ok; [done|lia]).
  apply wp_bind, wp_skip_read; [done|lia| |]; simpl write_cursor; simpl read_cursor; intros Hcmp.
  2:{ split; [done|]. split; [done|]. split; [|exists (Z.of_nat m); unfold zlen; fold l; split; [lia|done]].
      intros j Ho. pose proof (occurs_span _ _ _ _ Ho) as Hsp. fold l in Hsp. fold m in Hsp. apply occurs_len in Ho; [|done]. fold l in Ho. lia. }
  apply wp_bind, wp_get_obj. destruct (data_some Hs n) as [p Hp]; [lia..|].
  change (data (blob (advanced n (advanced (Z.of_nat m) s)))) with (data (blob s)). rewrite Hp.
  apply wp_bind, wp_ptr_add_some. apply wp_bind, wp_ensure; [intros _|done].
  simpl read_cursor. replace (read_cursor s + Z.of_nat m + n - n) with (read_cursor s + Z.of_nat m) by lia.
  assert (Hbytes : bytes_at (hp w) (Ptr (blk p) (off p + (read_cursor s + Z.of_nat m))) n = take (Z.to_nat n) (drop m l)).
  { pose proof (bytes_at_cursor Hs1 p n) as Hb. simpl in Hb. rewrite Hb by (done || lia).
    rewrite unread_advanced by (done || lia). by rewrite Nat2Z.id. }
  apply wp_bind, (wp_load_buf _ _ (take (Z.to_nat n) (drop m l))).
  { assert (Hv : valid_access (hp w) (Ptr (blk p) (off p + (read_cursor s + Z.of_nat m))) n)
      by (apply (stuffer_access Hs); [done|lia..]).
    split; [rewrite <- Hbytes; by apply zlen_bytes_at|done]. }
  { lia. }
  replace (Z.to_nat n) with (length (c :: t)) by lia. fold (occurs_at l m (c :: t)).
  case_bool_decide as Hocc.
  - apply wp_ret. split; [done|]. exists m. split_goal; [by split|fold l; lia|]. rewrite advanced_advanced. f_equal. lia.
  - apply wp_bind, wp_rewind_advanced; [rewrite advanced_advanced; apply advanced_ok; [done|lia]| |].
    { rewrite u32_small by lia. simpl. lia. }
    rewrite u32_small by lia. rewrite !advanced_advanced.
    replace (Z.of_nat m + (n + - (n - 1))) with (Z.of_nat (S m)) by lia.
    assert (Hm1 : (S m <= length l)%nat) by lia.
    assert (Hnone : forall j, (j < S m)%nat -> ~ occurs_at l j (c :: t)).
    { intros j Hj. destruct (decide (j = m)) as [->|]; [done|]. apply Hbefore. lia. }
    eapply wp_mono; [apply IH|..].
    + apply advanced_ok; [done|lia].
    + rewrite unread_advanced by (done || lia). rewrite Nat2Z.id, length_drop. fold l. lia.
    + intros [] w' s' [-> Hpost]; (split; [done|]); [by apply (search_found_skip _ _ _ (S m))|].
      destruct Hpost as [He Hz]. split; [by apply (search_end_skip _ _ _ (S m))|done].
    + intros e w' s' (-> & -> & He). split; [done|]. split; [done|by apply (search_end_skip _ _ _ (S m))].
Qed.

End Search.

(** ** Tokens and lines *)

(** [token] is what comes before the first [delim] of [l], or all of [l] when
    there is none; [rest] is what follows the delimiter. *)
Definition token_split (delim : Z) (l token rest : list Z) : Prop :=
  ~ (In delim token) /\ (l = token ++ delim :: rest \/ (l = token /\ rest = [])).

Lemma token_split_span delim l :
  let k := span_len (fun c => negb (c =? delim)) l in token_split delim l (take k l) (drop (S k) l).
Proof.
  intros k. split.
  - intros Hin. pose proof (span_len_prefix (fun c => negb (c =? delim)) l) as Hall.
    rewrite List.Forall_forall in Hall. apply Hall in Hin. by rewrite Z.eqb_refl in Hin.
  - destruct (l !! k) as [c|] eqn:Hc.
    + left. pose proof (span_len_stop _ _ _ Hc) as Hd. simpl in Hd. apply negb_false_iff, Z.eqb_eq in Hd. subst c.
      by rewrite <- (drop_S _ _ _ Hc), take_drop.
    + right. apply lookup_ge_None in Hc. by rewrite take_ge, drop_ge by lia.
Qed.

(** A line without its carriage return. *)
Definition without_cr (l : list Z) : list Z :=
  match last l with
  | Some c => if c =? 13 then removelast l else l
  | None => l
  end.

Lemma unread_shorter h s :
  stuffer_ok h s -> read_cursor s < write_cursor s ->
  stuffer_ok h (set_write_cursor (write_cursor s - 1) s) /\
  unread h (set_write_cursor (write_cursor s - 1) s) = removelast (unread h s).
Proof.
  intros Hs Hlt. pose proof (ok_read _ _ Hs). pose proof (ok_write _ _ Hs).
  assert (Hok : stuffer_ok h (set_write_cursor (write_cursor s - 1) s)) by (destruct s; apply stuffer_ok_cursors; simpl in *; [done|lia|lia]).
  split; [done|]. pose proof (unread_len Hs) as Hl. pose proof (unread_len Hok) as Hl'. simpl in Hl'.
  destruct (data_some Hs 1) as [p Hp]; [lia..|].
  pose proof (bytes_at_cursor Hs p (write_cursor s - 1 - read_cursor s) Hp ltac:(lia) ltac:(lia)) as Hb.
  pose proof (bytes_at_cursor Hok p (write_cursor s - 1 - read_cursor s) Hp ltac:(simpl; lia) ltac:(simpl; lia)) as Hb'.
  simpl in Hb'. rewrite Hb in Hb'. unfold zlen in *. rewrite (take_ge (unread h (set_write_cursor _ _))) in Hb' by lia.
  rewrite <- Hb', removelast_firstn_len. f_equal. lia.
Qed.

Section Tokens.
Context `{HP : Platform} `{!BlobAllocator}.

Lemma copy_state_advanced w from to n :
  copy_state w from to -> 0 <= n <= write_cursor from - read_cursor from -> copy_state w (advanced n from) to.
Proof. intros [] ?. split; try done. by apply advanced_ok. Qed.

Lemma wp_read_token delim (w : world) s t Q E :
  copy_state w s t ->
  (forall w' s' t' token, token_split delim (unread (hp w) s) token (unread (hp w') s') ->
     unread (hp w') t' = unread (hp w) t ++ token -> copy_state w' s' t' -> Q tt w' (s', t')) ->
  (forall e w' token rest, token_split delim (unread (hp w) s) token rest ->
     size (blob t) - write_cursor t < zlen token ->
     unread (hp w') s = unread (hp w) s -> written (hp w') t = written (hp w) t ->
     copy_state w' s t -> E e w' (s, t)) ->
  wp (s2n_stuffer_read_token delim) (w, (s, t)) Q E.
Proof.
  intros Hcs HQ HE. pose proof Hcs as [Hw Hs Ht Hsep Hcb]. pose proof (unread_len Hs) as Hl.
  pose proof (ok_read _ _ Hs). pose proof (ok_write _ _ Hs). pose proof (ok_size32 Hs).
  pose proof (token_split_span delim (unread (hp w) s)) as Hsplit. simpl in Hsplit.
  pose proof (span_len_le (fun c => negb (c =? delim)) (unread (hp w) s)) as Hk.
  apply wp_bind, wp_zoom, wp_pre_validate; [done|]. apply wp_bind, wp_zoom, wp_pre_validate; [done|].
  apply wp_bind, wp_get_obj, wp_bind, wp_zoom. cbn [lget lset fst snd fst_lens snd_lens].
  apply (wp_token_loop _ _ _ 0); [done|lia|rewrite (data_available_eq Hs), <- Hl; unfold zlen; lia|].
  rewrite drop_0, Nat.add_0_l. set (k := span_len _ _) in *. unfold zlen in Hl.
  apply wp_bind, wp_copy; [done|unfold is_u32; lia| |].
  - intros w' s' t' _ [-> Hu Ha] Hcs'. apply wp_bind, wp_get_obj. cbn [fst snd]. simpl read_cursor. simpl write_cursor.
    assert (Htok : unread (hp w') t' = unread (hp w) t ++ take k (unread (hp w) s)).
    { rewrite (unread_appended _ _ _ _ _ Ht Ha). by rewrite Nat2Z.id. }
    assert (Hfin : forall n, 0 <= n <= write_cursor s - read_cursor s - Z.of_nat k ->
        drop (Z.to_nat n) (unread (hp w') (advanced (Z.of_nat k) s)) = drop (S k) (unread (hp w) s) ->
        wp (zoom fst_lens post_validate ;;; zoom snd_lens post_validate)%cmd (w', (advanced n (advanced (Z.of_nat k) s), t')) Q E).
    { intros n Hn Hd. assert (Hcs2 := copy_state_advanced _ _ _ n Hcs' ltac:(simpl; lia)).
      apply wp_bind, wp_zoom, wp_post_validate; [apply Hcs2|]. apply wp_zoom, wp_post_validate; [apply Hcs2|].
      cbn [lget lset fst snd fst_lens snd_lens]. apply (HQ _ _ _ (take k (unread (hp w) s))); [|done|done].
      rewrite unread_advanced; [by rewrite Hd|apply Hcs'|simpl; lia]. }
    rewrite Nat2Z.id in Hu. destruct (Z.ltb_spec (read_cursor s + Z.of_nat k) (write_cursor s)) as [Hlt|Hge].
    + apply wp_bind, wp_zoom, wp_modify. cbn [lget lset fst snd fst_lens snd_lens]. simpl read_cursor.
      rewrite u32_small by lia. apply (Hfin 1); [lia|]. rewrite Hu, drop_drop. f_equal. lia.
    + apply wp_bind, wp_ret. rewrite <- (advanced_0 (advanced (Z.of_nat k) s)) at 1. apply (Hfin 0); [lia|].
      rewrite Hu, !drop_ge; [done|lia|rewrite length_drop; lia].
  - intros e w' Hcase Hus Hwt Hcs'. apply (HE _ _ (take k (unread (hp w) s)) (drop (S k) (unread (hp w) s))); [done| |done..].
    unfold zlen in *. rewrite length_take. lia.
Qed.

End Tokens.

(** ** Theorems *)

Section Theorems.
Context `{HP : Platform} `{!BlobAllocator}.

Lemma wp_skip_read_until (w : world) s target :
  stuffer_ok (hp w) s -> is_u32 (zlen target) ->
  wp (s2n_stuffer_skip_read_until target) (w, s)
    (fun _ w' s' => w' = w /\ (search_found (hp w) s target s' \/
       (search_end (hp w) s target s' /\ zlen (unread (hp w) s') < zlen target)))
    (search_err w s target).
Proof.
  intros Hs Htarget. apply wp_bind, wp_pre_validate; [done|]. destruct target as [|c t].
  - apply wp_ret. split; [done|]. left. exists 0%nat. split_goal; [split; [done|lia]|simpl; lia|by rewrite advanced_0].
  - rewrite (proj2 (Z.eqb_neq _ _)) by (unfold zlen; simpl; lia). apply wp_bind, wp_get_obj, wp_bind.
    pose proof (unread_len Hs) as Hl. eapply wp_mono; [apply wp_skip_until_loop; [done|done|]|..].
    + rewrite (data_available_eq Hs), <- Hl. unfold zlen. lia.
    + intros [] w' s' [-> Hpost]; [by apply wp_ret; eauto|]. pose proof Hpost as [[_ (k & Hk & ->)] _].
      apply wp_post_validate; [apply advanced_ok; [done|lia]|by eauto].
    + done.
Qed.

(** What is unread begins with [expected]. *)
Definition starts_with (l expected : list Z) : Prop := take (length expected) l = expected.

#[export] Instance starts_with_dec l expected : Decision (starts_with l expected) := decide (take _ l = _).

Lemma starts_with_app expected rest : starts_with (expected ++ rest) expected.
Proof. apply take_app_length. Qed.

Lemma wp_read_expected_str (w : world) s expected Q E :
  stuffer_ok (hp w) s ->
  (starts_with (unread (hp w) s) expected -> zlen expected <= write_cursor s - read_cursor s -> Q tt w (advanced (zlen expected) s)) ->
  (forall e, ~ starts_with (unread (hp w) s) expected -> E e w s) ->
  wp (s2n_stuffer_read_expected_str expected) (w, s) Q E.
Proof.
  intros Hs HQ HE. pose proof (unread_len Hs) as Hul. pose proof (ok_read _ _ Hs). pose proof (ok_write _ _ Hs). pose proof (ok_size32 Hs).
  apply wp_bind, wp_pre_validate; [done|]. cbv zeta. destruct (Z.eqb_spec (zlen expected) 0) as [Hz|Hz].
  { apply zlen_0_nil in Hz as ->. apply wp_ret. change (zlen []) with 0 in HQ. rewrite advanced_0 in HQ. apply HQ; [done|lia]. }
  pose proof (zlen_nonneg expected). apply wp_bind, wp_get_obj, wp_bind. rewrite (data_available_eq Hs).
  assert (Hlen : starts_with (unread (hp w) s) expected -> zlen expected <= write_cursor s - read_cursor s).
  { intros Hp. apply (f_equal length) in Hp. rewrite length_take in Hp. unfold zlen in *. lia. }
  apply wp_ensure; intros Hle; zbool; [|apply HE; intros Hp; specialize (Hlen Hp); lia].
  destruct (data_some Hs (zlen expected)) as [p Hp]; [lia..|]. rewrite Hp. apply wp_bind, wp_ptr_add_some.
  apply wp_bind, wp_ensure; [intros _|done].
  apply wp_bind, (wp_load_buf _ _ (take (length expected) (unread (hp w) s))).
  { assert (Hv : valid_access (hp w) (Ptr (blk p) (off p + read_cursor s)) (zlen expected))
      by (apply (stuffer_access Hs); [done|lia..]).
    pose proof (bytes_at_cursor Hs p (zlen expected)) as Hb. unfold zlen in Hb at 4. rewrite Nat2Z.id in Hb.
    split; [rewrite <- Hb by (done || lia); by apply zlen_bytes_at|]. split; [done|]. by rewrite Hb by (done || lia). }
  { lia. }
  apply wp_bind, wp_ensure; intros Hc; [|apply bool_decide_eq_false in Hc; by apply HE].
  apply bool_decide_eq_true in Hc. apply wp_bind, wp_modify. rewrite u32_small by lia.
  apply wp_post_validate; [apply (advanced_ok _ _ (zlen expected)); [done|lia]|by apply HQ].
Qed.

Lemma wp_peek_check_for_str (w : world) s expected Q E :
  stuffer_ok (hp w) s ->
  (starts_with (unread (hp w) s) expected -> Q tt w s) -> (forall e, ~ starts_with (unread (hp w) s) expected -> E e w s) ->
  wp (s2n_stuffer_peek_check_for_str expected) (w, s) Q E.
Proof.
  intros Hs HQ HE. apply wp_bind, wp_pre_validate; [done|]. apply wp_bind, wp_get_obj, wp_bind, wp_attempt.
  assert (He : forall n, set_read_cursor (read_cursor s) (advanced n s) = s) by (intros n; by destruct s).
  assert (He' : set_read_cursor (read_cursor s) s = s) by (by destruct s).
  apply wp_read_expected_str; [done|..].
  - intros Hp _. apply wp_bind, wp_modify. rewrite He. apply wp_bind, wp_post_validate; [done|]. apply wp_ret. auto.
  - intros e Hp. apply wp_bind, wp_modify. rewrite He'. apply wp_bind, wp_post_validate; [done|]. apply wp_fail. auto.
Qed.

Lemma wp_skip_whitespace (w : world) s Q E :
  stuffer_ok (hp w) s ->
  (forall n, Q n w (advanced (Z.of_nat (span_len is_whitespace (unread (hp w) s))) s)) ->
  wp s2n_stuffer_skip_whitespace (w, s) Q E.
Proof.
  intros Hs HQ. apply wp_bind, wp_pre_validate; [done|]. apply wp_bind, wp_get_obj, wp_bind, wp_skip_loop; [done| |].
  - rewrite (data_available_eq Hs), <- (unread_len Hs). unfold zlen. lia.
  - apply wp_bind, wp_get_obj, wp_bind, wp_post_validate; [apply advanced_ok; [done|by apply span_len_range]|]. by apply wp_ret.
Qed.

Lemma wp_expected_char_loop c max (w : world) s skip fuel Q E :
  stuffer_ok (hp w) s -> (length (unread (hp w) s) <= fuel)%nat -> 0 <= skip <= max -> max < 2 ^ 32 ->
  (let n := Z.min (max - skip) (Z.of_nat (span_len (fun d => d =? c) (unread (hp w) s))) in Q (skip + n) w (advanced n s)) ->
  wp (expected_char_loop c max skip fuel) (w, s) Q E.
Proof.
  intros Hs Hf Hskip Hmax. revert s skip Hs Hf Hskip. induction fuel as [|fuel IH]; intros s skip Hs Hf Hskip HQ; cbn [expected_char_loop];
    apply wp_bind, wp_get_obj; pose proof (unread_len Hs) as Hl; pose proof (ok_read _ _ Hs); pose proof (ok_write _ _ Hs);
    pose proof (ok_size32 Hs); destruct (unread (hp w) s) as [|d l] eqn:Hu; cbv zeta in HQ; simpl in HQ;
    destruct (Z.ltb_spec (read_cursor s) (write_cursor s)) as [Hc|Hc]; unfold zlen in Hl; simpl in Hl, Hf; try lia;
    try (rewrite Z.min_r, advanced_0, Z.add_0_r in HQ by lia; by apply wp_ret).
  destruct (Z.ltb_spec skip max) as [Hm|Hm]; simpl andb; cbv iota.
  2:{ apply wp_ret. rewrite Z.min_l in HQ by lia. replace (max - skip) with 0 in HQ by lia. by rewrite advanced_0, Z.add_0_r in HQ. }
  apply wp_bind, (wp_load_unread _ _ s 0 d); [done|by rewrite Hu|lia|].
  destruct (d =? c) eqn:Hd.
  - apply wp_bind, wp_modify. rewrite !u32_small by lia. change (set_read_cursor (read_cursor s + 1) s) with (advanced 1 s).
    assert (Hu1 : unread (hp w) (advanced 1 s) = l) by (rewrite unread_advanced, Hu by (done || lia); done).
    apply IH; rewrite ?Hu1; [apply advanced_ok; [done|lia]|lia|lia|]. cbv zeta. rewrite advanced_advanced.
    replace (Z.min (max - skip) (Z.of_nat (S (span_len (fun d => d =? c) l))))
      with (1 + Z.min (max - (skip + 1)) (Z.of_nat (span_len (fun d => d =? c) l))) in HQ by lia.
    by rewrite Z.add_assoc in HQ.
  - apply wp_ret. rewrite Z.min_r, advanced_0, Z.add_0_r in HQ by lia. done.
Qed.

Lemma wp_skip_expected_char c min max (w : world) s Q E :
  stuffer_ok (hp w) s -> 0 <= min <= max -> max < 2 ^ 32 ->
  (let n := Z.min max (Z.of_nat (span_len (fun d => d =? c) (unread (hp w) s))) in
   (min <= n -> Q n w (advanced n s)) /\ (n < min -> forall e, E e w (advanced n s))) ->
  wp (s2n_stuffer_skip_expected_char c min max) (w, s) Q E.
Proof.
  intros Hs Hmin Hmax HQ. apply wp_bind, wp_pre_validate; [done|]. apply wp_bind, wp_ensure; intros Hle; zbool; [|lia].
  apply wp_bind, wp_get_obj, wp_bind, wp_expected_char_loop; [done| |lia|done|].
  { rewrite (data_available_eq Hs), <- (unread_len Hs). unfold zlen. lia. }
  rewrite Z.sub_0_r. cbv zeta in HQ |- *. rewrite Z.add_0_l. destruct HQ as [HQ HE].
  pose proof (span_len_range (fun d => d =? c) _ _ Hs).
  apply wp_bind, wp_ensure; intros Hc; zbool; [|by apply HE].
  apply wp_bind, wp_post_validate; [apply advanced_ok; [done|lia]|]. apply wp_ret. auto.
Qed.

(** Searching for a string terminates without undefined behaviour and changes only
    the read cursor. When the string occurs among the unread bytes the call
    succeeds and stops right behind its first occurrence; when it does not
    occur the call either fails for lack of data or succeeds with fewer unread
    bytes left than the string has. *)
Theorem skip_read_until_correct (w : world) (s : s2n_stuffer) (target : list Z)
    (Hstuffer : stuffer_ok (hp w) s) (Htarget : is_u32 (zlen target)) :
  match s2n_stuffer_skip_read_until target (w, s) with
  | (Ok _, (w', s')) => w' = w /\
      (search_found (hp w) s target s' \/
       (search_end (hp w) s target s' /\ zlen (unread (hp w) s') < zlen target))
  | (Err e, (w', s')) => w' = w /\ e = S2N_ERR_STUFFER_OUT_OF_DATA /\ search_end (hp w) s target s'
  | (UB, _) => False
  end.
Proof.
  pose proof (wp_skip_read_until w s target Hstuffer Htarget) as Hrun.
  unfold wp in Hrun. by destruct (s2n_stuffer_skip_read_until target (w, s)) as [[[]|e|] [w' s']].
Qed.

(** Tokens are split at the delimiter: on success the characters before the first
    delimiter (all of them, when there is none) have been appended to the token
    and the delimiter is consumed with them; the call fails only when the token
    lacks the room, and then neither stuffer has changed. *)
Theorem read_token_correct (w : world) (s t : s2n_stuffer) (delim : Z) (Hstate : copy_state w s t) :
  match s2n_stuffer_read_token delim (w, (s, t)) with
  | (Ok _, (w', (s', t'))) => copy_state w' s' t' /\
      exists token, token_split delim (unread (hp w) s) token (unread (hp w') s') /\
        unread (hp w') t' = unread (hp w) t ++ token
  | (Err _, (w', (s', t'))) => s' = s /\ t' = t /\ unread (hp w') s = unread (hp w) s /\
      written (hp w') t = written (hp w) t /\
      exists token rest, token_split delim (unread (hp w) s) token rest /\ size (blob t) - write_cursor t < zlen token
  | (UB, _) => False
  end.
Proof.
  assert (Hrun : wp (s2n_stuffer_read_token delim) (w, (s, t))
    (fun _ w' st => copy_state w' (fst st) (snd st) /\
      exists token, token_split delim (unread (hp w) s) token (unread (hp w') (fst st)) /\
        unread (hp w') (snd st) = unread (hp w) t ++ token)
    (fun _ w' st => fst st = s /\ snd st = t /\ unread (hp w') s = unread (hp w) s /\
      written (hp w') t = written (hp w) t /\
      exists token rest, token_split delim (unread (hp w) s) token rest /\ size (blob t) - write_cursor t < zlen token)).
  { apply wp_read_token; [done| |]; [by eauto|]. intros e w' token rest ?????. split_goal; by eauto. }
  unfold wp in Hrun. by destruct (s2n_stuffer_read_token delim (w, (s, t))) as [[[]|e|] [w' [s' t']]].
Qed.

Lemma wp_snip_cr (w : world) s t Q E :
  copy_state w s t ->
  (forall t', unread (hp w) t' = without_cr (unread (hp w) t) -> copy_state w s t' -> Q tt w (s, t')) ->
  wp (if 0 <? s2n_stuffer_data_available t then
        c <-- load_byte (data (blob t)) (u32 (write_cursor t - 1)) ;;
        if c =? 13 then zoom snd_lens (modify (set_write_cursor (u32 (write_cursor t - 1)))) else ret tt
      else ret tt)%cmd (w, (s, t)) Q E.
Proof.
  intros Hcs HQ. pose proof (cs_to _ _ _ Hcs) as Ht. pose proof (unread_len Ht) as Hl.
  pose proof (ok_read _ _ Ht). pose proof (ok_write _ _ Ht). pose proof (ok_size32 Ht).
  rewrite (data_available_eq Ht), <- Hl. unfold without_cr in HQ. unfold zlen in *.
  destruct (Z.ltb_spec 0 (Z.of_nat (length (unread (hp w) t)))) as [Hpos|Hz].
  - assert (Hnth : last (unread (hp w) t) = unread (hp w) t !! pred (length (unread (hp w) t))) by apply last_lookup.
    destruct (lookup_lt_is_Some_2 (unread (hp w) t) (pred (length (unread (hp w) t)))) as [c Hc]; [lia|].
    rewrite u32_small by lia.
    apply wp_bind, (wp_load_unread _ _ t (pred (length (unread (hp w) t))) c); [done|exact Hc|lia|].
    destruct (unread_shorter _ _ Ht ltac:(lia)) as [Hok Hun].
    rewrite Hnth, Hc in HQ. destruct (c =? 13).
    + apply wp_zoom, wp_modify. cbn [lget lset fst snd snd_lens]. apply HQ; [done|]. by destruct Hcs; split.
    + by apply wp_ret, HQ.
  - apply wp_ret, HQ; [|done]. destruct (unread (hp w) t); [done|simpl in *; lia].
Qed.

(** Lines end with LF or CR LF: reading a line appends the characters before the
    first line feed to the token, less a final carriage return, and leaves the
    stuffer behind the line feed. *)
Theorem read_line_correct (w : world) (s t : s2n_stuffer) (Hstate : copy_state w s t) :
  match s2n_stuffer_read_line (w, (s, t)) with
  | (Ok _, (w', (s', t'))) => copy_state w' s' t' /\
      exists line, token_split 10 (unread (hp w) s) line (unread (hp w') s') /\
        unread (hp w') t' = without_cr (unread (hp w) t ++ line)
  | (Err _, (w', (s', t'))) => s' = s /\ t' = t /\ unread (hp w') s = unread (hp w) s /\
      written (hp w') t = written (hp w) t /\
      exists line rest, token_split 10 (unread (hp w) s) line rest /\ size (blob t) - write_cursor t < zlen line
  | (UB, _) => False
  end.
Proof.
  assert (Hrun : wp s2n_stuffer_read_line (w, (s, t))
    (fun _ w' st => copy_state w' (fst st) (snd st) /\
      exists line, token_split 10 (unread (hp w) s) line (unread (hp w') (fst st)) /\
        unread (hp w') (snd st) = without_cr (unread (hp w) t ++ line))
    (fun _ w' st => fst st = s /\ snd st = t /\ unread (hp w') s = unread (hp w) s /\
      written (hp w') t = written (hp w) t /\
      exists line rest, token_split 10 (unread (hp w) s) line rest /\ size (blob t) - write_cursor t < zlen line)).
  { apply wp_bind, wp_zoom, wp_pre_validate; [apply Hstate|]. apply wp_bind, wp_zoom, wp_pre_validate; [apply Hstate|].
    cbn [lget lset fst snd fst_lens snd_lens]. apply wp_bind, wp_read_token; [done| |].
    - intros w' s' t' line Hsplit Hu Hcs. apply wp_bind, wp_get_obj. cbn [snd]. apply wp_bind, wp_snip_cr; [done|].
      intros t1 Hu1 Hcs1. apply wp_bind, wp_zoom, wp_post_validate; [apply Hcs1|]. apply wp_zoom, wp_post_validate; [apply Hcs1|].
      cbn [lget lset fst snd fst_lens snd_lens]. split; [done|]. exists line. split; [done|]. by rewrite Hu1, Hu.
    - intros e w' token rest ?????. split_goal; by eauto. }
  unfold wp in Hrun. by destruct (s2n_stuffer_read_line (w, (s, t))) as [[[]|e|] [w' [s' t']]].
Qed.

End Theorems.

(** ** Witnesses: the text "ab CR LF cd" and an empty token of 8 bytes *)

Definition text_world : world :=
  World {[1%positive := [97; 98; 13; 10; 99; 100]; 2%positive := repeat 0 8]} started_statics.
Definition text_stuffer : s2n_stuffer := Stuffer (Blob (Some (Ptr 1 0)) 6 0 false) 0 6 6 false false false.
Definition text_token : s2n_stuffer := Stuffer (Blob (Some (Ptr 2 0)) 8 0 false) 0 0 0 false false false.

Lemma text_state : copy_state text_world text_stuffer text_token.
Proof.
  split.
  - split; [unfold text_world; solve_heap_ok|]. split; [done|]. simpl. unfold is_u32. lia.
  - split; simpl; try done; try lia.
    split; simpl; unfold is_u32; try done; try lia. intros p [= <-]. solve_valid_access.
  - split; simpl; try done; try lia.
    split; simpl; unfold is_u32; try done; try lia. intros p [= <-]. solve_valid_access.
  - intros k (p & [= <-] & <-) (q & [= <-] & ?). done.
  - discriminate.
Qed.

(** "cd" is found at the end of the text. *)
Lemma skip_read_until_correct_witness :
  @s2n_stuffer_skip_read_until demo_platform [99; 100] (text_world, text_stuffer) =
    (Ok tt, (text_world, set_read_cursor 6 text_stuffer)) /\
  search_found (hp text_world) text_stuffer [99; 100] (set_read_cursor 6 text_stuffer).
Proof.
  pose proof (@skip_read_until_correct demo_platform text_world text_stuffer [99; 100]
    (cs_from _ _ _ text_state) ltac:(unfold is_u32, zlen; simpl; lia)) as Hc.
  assert (Hrun : @s2n_stuffer_skip_read_until demo_platform [99; 100] (text_world, text_stuffer) =
    (Ok tt, (text_world, set_read_cursor 6 text_stuffer))) by (vm_compute; reflexivity).
  split; [exact Hrun|]. rewrite Hrun in Hc. destruct Hc as [_ [Hf|[[Hn _] _]]]; [exact Hf|].
  destruct (Hn 4%nat). reflexivity.
Defined.

Lemma read_token_correct_witness :
  exists w' s' t' token, @s2n_stuffer_read_token demo_platform 10 (text_world, (text_stuffer, text_token)) = (Ok tt, (w', (s', t'))) /\
    token_split 10 [97; 98; 13; 10; 99; 100] token (unread (hp w') s') /\ unread (hp w') t' = token.
Proof.
  pose proof (@read_token_correct demo_platform _ text_world text_stuffer text_token 10 text_state) as Hc.
  destruct (s2n_stuffer_read_token 10 (text_world, (text_stuffer, text_token))) as [[[]|e|] [w' [s' t']]] eqn:Hrun.
  - destruct Hc as (_ & token & Hs & Ht). exists w', s', t', token. split; [reflexivity|]. split; [exact Hs|exact Ht].
  - vm_compute in Hrun. discriminate Hrun.
  - destruct Hc.
Defined.

Lemma read_line_correct_witness :
  exists w' s' t' line, @s2n_stuffer_read_line demo_platform (text_world, (text_stuffer, text_token)) = (Ok tt, (w', (s', t'))) /\
    token_split 10 [97; 98; 13; 10; 99; 100] line (unread (hp w') s') /\ unread (hp w') t' = without_cr line.
Proof.
  pose proof (@read_line_correct demo_platform _ text_world text_stuffer text_token text_state) as Hc.
  destruct (s2n_stuffer_read_line (text_world, (text_stuffer, text_token))) as [[[]|e|] [w' [s' t']]] eqn:Hrun.
  - destruct Hc as (_ & line & Hs & Ht). exists w', s', t', line. split; [reflexivity|]. split; [exact Hs|exact Ht].
  - vm_compute in Hrun. discriminate Hrun.
  - destruct Hc.
Defined.

(** Whether a missing string is an error depends on where the search gives up. *)
Example until_missing_fails :
  fst (@s2n_stuffer_skip_read_until demo_platform [120; 121] (text_world, text_stuffer)) = Err S2N_ERR_STUFFER_OUT_OF_DATA.
Proof. vm_compute. reflexivity. Qed.

Example until_missing_succeeds :
  fst (@s2n_stuffer_skip_read_until demo_platform [99; 120] (text_world, text_stuffer)) = Ok tt.
Proof. vm_compute. reflexivity. Qed.

End StufferText.
Export StufferText.
