(* ===== verification/StufferHex.v ===== *)
(** * Hexadecimal text: stuffer/s2n_stuffer_hex.c

    Bytes and integers as pairs of hexadecimal digits.  A size_t is 64 bits wide;
    where the code computes in 32 bits, or passes a size_t to a parameter of 32
    bits, the value is truncated.  The array [hex_data] of the integer
    functions is local, its contents are passed by value. *)
From S2P Require Import Prelude Errors CMem Platform Safety Blob Alloc Stuffer StufferInv StufferWrite StufferSpec StufferTheorems NetworkOrder.
Open Scope Z_scope.

Module StufferHex.

(** '0'..'9' 'a'..'f' *)
Definition value_to_hex : list Z :=
  [48; 49; 50; 51; 52; 53; 54; 55; 56; 57; 97; 98; 99; 100; 101; 102].

(** Indexed by the character; entries the initialiser does not name are 0. *)
Definition hex_to_value : list Z :=
  repeat 0 48 ++ [0; 1; 2; 3; 4; 5; 6; 7; 8; 9] ++
  repeat 0 7 ++ [10; 11; 12; 13; 14; 15] ++
  repeat 0 26 ++ [10; 11; 12; 13; 14; 15].

Section Definitions.
Context `{Platform}.

Definition s2n_hex_digit {X} (half_byte : Z) : Cmd X Z :=
  ensure (half_byte <? zlen value_to_hex) S2N_ERR_BAD_HEX ;;;
  ret (znth value_to_hex half_byte).

Definition s2n_stuffer_hex_digit_from_char {X} (c : Z) : Cmd X Z :=
  ensure (c <? zlen hex_to_value) S2N_ERR_BAD_HEX ;;;
  (if znth hex_to_value c =? 0 then ensure (c =? 48) S2N_ERR_BAD_HEX else ret tt) ;;;
  ret (znth hex_to_value c).

(** The loop of s2n_stuffer_read_hex for the [k] bytes from index [i] on. *)
Fixpoint read_hex_loop {X} (in_ out : option ptr) (i : Z) (k : nat) : Cmd X unit :=
  match k with
  | O => ret tt
  | S k' =>
      c <-- load_byte in_ (i * 2) ;;
      hex_high <-- s2n_stuffer_hex_digit_from_char c ;;
      c <-- load_byte in_ (i * 2 + 1) ;;
      hex_low <-- s2n_stuffer_hex_digit_from_char c ;;
      store_byte out i (hex_high * 16 + hex_low) ;;;
      read_hex_loop in_ out (i + 1) k'
  end.

Definition s2n_stuffer_read_hex (bytes_out : s2n_blob) : Cmd s2n_stuffer unit :=
  pre_validate ;;;
  s2n_blob_validate bytes_out ;;;
  if size bytes_out =? 0 then ret tt
  else
    s <-- get_obj ;;
    let hex_size := u32 (size bytes_out * 2) in
    ensure (hex_size <=? s2n_stuffer_data_available s) S2N_ERR_BAD_HEX ;;;
    in_ <-- ptr_add (data (blob s)) (read_cursor s) ;;
    read_hex_loop in_ (data bytes_out) 0 (Z.to_nat (size bytes_out)) ;;;
    s2n_stuffer_skip_read hex_size.

Fixpoint write_hex_loop {X} (in_ out : option ptr) (i : Z) (k : nat) : Cmd X unit :=
  match k with
  | O => ret tt
  | S k' =>
      b <-- load_byte in_ i ;;
      store_byte out (i * 2) (znth value_to_hex (Z.shiftr b 4)) ;;;
      b <-- load_byte in_ i ;;
      store_byte out (i * 2 + 1) (znth value_to_hex (Z.land b 15)) ;;;
      write_hex_loop in_ out (i + 1) k'
  end.

Definition s2n_stuffer_write_hex (bytes_in : s2n_blob) : Cmd s2n_stuffer unit :=
  pre_validate ;;;
  s2n_blob_validate bytes_in ;;;
  let hex_size := size bytes_in * 2 in
  s2n_stuffer_reserve_space (u32 hex_size) ;;;
  s <-- get_obj ;;
  out <-- ptr_add (data (blob s)) (write_cursor s) ;;
  write_hex_loop (data bytes_in) out 0 (Z.to_nat (size bytes_in)) ;;;
  s2n_stuffer_skip_write (u32 hex_size).

(** [*u <<= 4; ...; *u += hex] over the characters. *)
Fixpoint read_digits {X} (cs : list Z) (u : Z) : Cmd X Z :=
  match cs with
  | [] => ret u
  | c :: cs' =>
      let u := u64 (Z.shiftl u 4) in
      hex <-- s2n_stuffer_hex_digit_from_char c ;;
      read_digits cs' (u64 (u + hex))
  end.

Definition s2n_stuffer_hex_read_n_bytes (n : Z) : Cmd s2n_stuffer Z :=
  ensure (n <=? 8) S2N_ERR_SAFETY ;;;
  r <-- attempt (s2n_stuffer_read_bytes LocalDst (n * 2)) ;;
  match r with
  | inl cs => read_digits cs 0
  | inr _ => fail S2N_ERR_BAD_HEX
  end.

Definition s2n_stuffer_read_uint16_hex : Cmd s2n_stuffer Z :=
  u <-- s2n_stuffer_hex_read_n_bytes 2 ;;
  ensure (u <=? 65535) S2N_ERR_SAFETY ;;;
  ret (u16 u).

Definition s2n_stuffer_read_uint8_hex : Cmd s2n_stuffer Z :=
  u <-- s2n_stuffer_hex_read_n_bytes 1 ;;
  ensure (u <=? UINT8_MAX) S2N_ERR_SAFETY ;;;
  ret (u8 u).

(** The last [k] characters, filled from the end; [acc] holds those behind. *)
Fixpoint write_digits (k : nat) (u : Z) (acc : list Z) : list Z :=
  match k with
  | O => acc
  | S k' => write_digits k' (Z.shiftr u 4) (znth value_to_hex (Z.land u 15) :: acc)
  end.

(** The validation of the blob over [hex_data] always succeeds. *)
Definition s2n_stuffer_hex_write_n_bytes (n u : Z) : Cmd s2n_stuffer unit :=
  ensure (n <=? 8) S2N_ERR_SAFETY ;;;
  let b := write_digits (Z.to_nat (n * 2)) u [] in
  pre_validate ;;;
  s2n_stuffer_write_bytes (LocalBuf b) (n * 2).

Definition s2n_stuffer_write_uint16_hex (u : Z) : Cmd s2n_stuffer unit := s2n_stuffer_hex_write_n_bytes 2 u.

Definition s2n_stuffer_write_uint8_hex (u : Z) : Cmd s2n_stuffer unit := s2n_stuffer_hex_write_n_bytes 1 u.

End Definitions.

(** ** Digits *)

(** The text of a byte string. *)
Definition hex_of (bs : list Z) : list Z :=
  flat_map (fun b => [znth value_to_hex (Z.shiftr b 4); znth value_to_hex (Z.land b 15)]) bs.

Lemma zlen_hex_of bs : zlen (hex_of bs) = 2 * zlen bs.
Proof. induction bs as [|b bs IH]; [done|]. simpl. rewrite !zlen_cons, IH. lia. Qed.

Lemma half_cases (P : Z -> Prop) : Forall P (seqZ 0 16) -> forall d, 0 <= d < 16 -> P d.
Proof. rewrite Forall_forall. intros HP d Hd. apply HP, elem_of_seqZ. lia. Qed.

Lemma value_to_hex_u8 d : 0 <= d < 16 -> is_u8 (znth value_to_hex d).
Proof. revert d. apply half_cases. repeat (constructor; [vm_compute; by split|]). constructor. Qed.

Lemma digit_roundtrip {X} d w (x : X) Q E :
  0 <= d < 16 -> Q d w x -> wp (s2n_stuffer_hex_digit_from_char (znth value_to_hex d)) (w, x) Q E.
Proof.
  intros Hd HQ. apply (wp_run _ _ d w x); [|done].
  clear HQ. revert d Hd. apply half_cases. repeat (constructor; [reflexivity|]). constructor.
Qed.

Lemma high_half b : is_u8 b -> 0 <= Z.shiftr b 4 < 16.
Proof. unfold is_u8. intros Hb. rewrite Z.shiftr_div_pow2 by lia. change (2 ^ 4) with 16. Z.to_euclidean_division_equations. lia. Qed.

Lemma low_half b : Z.land b 15 = b mod 16.
Proof. change 15 with (Z.ones 4). by rewrite Z.land_ones by lia. Qed.

Lemma halves b : Z.shiftr b 4 * 16 + Z.land b 15 = b.
Proof. rewrite low_half, Z.shiftr_div_pow2 by lia. change (2 ^ 4) with 16. Z.to_euclidean_division_equations. lia. Qed.

Lemma low_half_range b : 0 <= Z.land b 15 < 16.
Proof. rewrite low_half. apply Z.mod_pos_bound. lia. Qed.

Lemma hex_of_is_bytes bs : is_bytes bs -> is_bytes (hex_of bs).
Proof.
  induction 1 as [|b bs Hb _ IH]; simpl; [constructor|]. constructor; [by apply value_to_hex_u8, high_half|].
  constructor; [apply value_to_hex_u8, low_half_range|done].
Qed.

(** ** The loops *)

Section Loops.
Context {X : Type}.

Lemma wp_write_hex_loop p q (k : nat) i (w : world) (x : X) Q E :
  heap_ok (hp w) -> blk p <> blk q ->
  valid_access (hp w) (Ptr (blk p) (off p + i)) (Z.of_nat k) ->
  valid_access (hp w) (Ptr (blk q) (off q + i * 2)) (2 * Z.of_nat k) ->
  Q tt (World (heap_with (hp w) (Ptr (blk q) (off q + i * 2))
          (hex_of (bytes_at (hp w) (Ptr (blk p) (off p + i)) (Z.of_nat k)))) (mem w)) x ->
  wp (write_hex_loop (Some p) (Some q) i k) (w, x) Q E.
Proof.
  intros Hh Hne. revert i w Hh. induction k as [|k IH]; intros i w Hh Hp Hq HQ; simpl write_hex_loop.
  - apply wp_ret. simpl in HQ. rewrite bytes_at_0 in HQ. simpl in HQ. rewrite heap_with_nil in HQ. by destruct w.
  - rewrite Nat2Z.inj_succ in *.
    assert (Hp1 : valid_access (hp w) (Ptr (blk p) (off p + i)) 1)
      by (destruct Hp as (l & ? & ? & ? & ?); exists l; split_goal; [done|lia..]).
    assert (Hpk := valid_access_tail _ _ _ Hp ltac:(lia)). simpl in Hpk.
    rewrite (bytes_at_cons _ _ _ Hp) in HQ by lia. simpl blk in *. simpl off in *.
    set (b := znth (bytes_at (hp w) (Ptr (blk p) (off p + i)) 1) 0) in *.
    assert (Hb : is_u8 b) by (apply znth_is_u8; by apply bytes_at_is_bytes).
    pose proof (value_to_hex_u8 _ (high_half b Hb)) as Hhi. pose proof (value_to_hex_u8 _ (low_half_range b)) as Hlo.
    set (hi := znth value_to_hex (Z.shiftr b 4)) in *. set (lo := znth value_to_hex (Z.land b 15)) in *.
    assert (Hq2 : valid_access (hp w) (Ptr (blk q) (off q + i * 2)) 2)
      by (destruct Hq as (l & ? & ? & ? & ?); exists l; split_goal; [done|lia..]).
    assert (Hq0 : valid_access (hp w) (Ptr (blk q) (off q + i * 2)) (zlen [hi]))
      by (destruct Hq2 as (l & ? & ? & ? & ?); exists l; change (zlen [hi]) with 1; split_goal; [done|lia..]).
    assert (Hq1 := valid_access_tail _ _ _ Hq2 ltac:(lia)). simpl in Hq1.
    assert (Hqk : valid_access (hp w) (Ptr (blk q) (off q + (i + 1) * 2)) (2 * Z.of_nat k))
      by (destruct Hq as (l & ? & ? & ? & ?); exists l; simpl in *; split_goal; [done|lia..]).
    apply wp_bind, wp_load_byte; [done|]. fold b. fold hi.
    apply wp_bind, wp_store_byte; [done|]. rewrite (u8_small hi) by done.
    apply wp_bind, wp_load_byte; [by apply valid_access_heap_with|]. simpl hp.
    rewrite bytes_at_heap_with_disjoint by (done || by left). fold b. fold lo.
    apply wp_bind, wp_store_byte; simpl hp.
    { apply valid_access_heap_with; [done|]. by replace (off q + (i * 2 + 1)) with (off q + i * 2 + 1) by lia. }
    rewrite (u8_small lo) by done. replace (off q + (i * 2 + 1)) with (off q + i * 2 + 1) by lia.
    rewrite (heap_with_cons _ (Ptr (blk q) (off q + i * 2)) hi [lo]) by done. simpl mem.
    replace (off p + i + 1) with (off p + (i + 1)) in * by lia. rewrite Z.sub_1_r, Z.pred_succ in HQ, Hpk.
    assert (Hq2' : valid_access (hp w) (Ptr (blk q) (off q + i * 2)) (zlen [hi; lo])) by exact Hq2.
    apply IH; simpl hp; simpl mem.
    + apply heap_with_ok; [done|]. constructor; [done|]. constructor; [done|constructor].
    + by apply valid_access_heap_with.
    + by apply valid_access_heap_with.
    + rewrite bytes_at_heap_with_disjoint by (done || by left).
      replace (off q + (i + 1) * 2) with (off q + i * 2 + zlen [hi; lo]) by (change (zlen [hi; lo]) with 2; lia).
      rewrite (heap_with_app _ (Ptr (blk q) (off q + i * 2))); [exact HQ|].
      rewrite zlen_app, zlen_hex_of, zlen_bytes_at by done. change (zlen [hi; lo]) with 2.
      by replace (2 + 2 * Z.of_nat k) with (2 * Z.succ (Z.of_nat k)) by lia.
Qed.

Lemma wp_read_hex_loop p q bs i (w : world) (x : X) Q E :
  is_bytes bs -> blk p <> blk q ->
  valid_access (hp w) (Ptr (blk p) (off p + i * 2)) (2 * zlen bs) ->
  bytes_at (hp w) (Ptr (blk p) (off p + i * 2)) (2 * zlen bs) = hex_of bs ->
  valid_access (hp w) (Ptr (blk q) (off q + i)) (zlen bs) ->
  Q tt (World (heap_with (hp w) (Ptr (blk q) (off q + i)) bs) (mem w)) x ->
  wp (read_hex_loop (Some p) (Some q) i (length bs)) (w, x) Q E.
Proof.
  intros Hbs Hne. revert i w. induction Hbs as [|b bs Hb _ IH]; intros i w Hp Htext Hq HQ; simpl read_hex_loop.
  - apply wp_ret. rewrite heap_with_nil in HQ. by destruct w.
  - rewrite zlen_cons in *. pose proof (zlen_nonneg bs).
    assert (Hp2 := valid_access_tail _ _ _ Hp ltac:(lia)). cbn [blk off] in Hp2.
    rewrite (bytes_at_cons _ _ _ Hp) in Htext by lia. cbn [blk off] in Htext.
    rewrite (bytes_at_cons _ _ _ Hp2) in Htext by lia. cbn [blk off hex_of flat_map app] in Htext.
    injection Htext as Hhi Hlo Hrest.
    assert (Hp1 : valid_access (hp w) (Ptr (blk p) (off p + i * 2)) 1)
      by (destruct Hp as (l & ? & ? & ? & ?); exists l; split_goal; [done|lia..]).
    assert (Hp3 : valid_access (hp w) (Ptr (blk p) (off p + i * 2 + 1)) 1)
      by (destruct Hp as (l & ? & ? & ? & ?); exists l; simpl in *; split_goal; [done|lia..]).
    assert (Hpk : valid_access (hp w) (Ptr (blk p) (off p + (i + 1) * 2)) (2 * zlen bs))
      by (destruct Hp as (l & ? & ? & ? & ?); exists l; simpl in *; split_goal; [done|lia..]).
    assert (Hq1 : valid_access (hp w) (Ptr (blk q) (off q + i)) (zlen [b]))
      by (destruct Hq as (l & ? & ? & ? & ?); exists l; change (zlen [b]) with 1; split_goal; [done|lia..]).
    assert (Hqk := valid_access_tail _ _ _ Hq ltac:(lia)). simpl in Hqk.
    apply wp_bind, wp_load_byte; [done|]. rewrite Hhi.
    apply wp_bind, digit_roundtrip; [by apply high_half|].
    replace (off p + i * 2 + 1) with (off p + (i * 2 + 1)) in * by lia.
    apply wp_bind, wp_load_byte; [done|]. rewrite Hlo. apply wp_bind, digit_roundtrip; [apply low_half_range|].
    rewrite halves. apply wp_bind, wp_store_byte; [done|]. rewrite u8_small by done.
    replace (off q + i + 1) with (off q + (i + 1)) in Hqk by lia. replace (1 + zlen bs - 1) with (zlen bs) in Hqk by lia.
    replace (off p + (i * 2 + 1) + 1) with (off p + (i + 1) * 2) in Hrest by lia.
    replace (2 * (1 + zlen bs) - 1 - 1) with (2 * zlen bs) in Hrest by lia.
    apply IH; simpl hp; simpl mem.
    + by apply valid_access_heap_with.
    + rewrite bytes_at_heap_with_disjoint by (done || by left). exact Hrest.
    + by apply valid_access_heap_with.
    + pose proof (heap_with_cons (hp w) (Ptr (blk q) (off q + i)) b bs) as Hc. rewrite zlen_cons in Hc. simpl in Hc.
      replace (off q + i + 1) with (off q + (i + 1)) in Hc by lia. by rewrite Hc.
Qed.

End Loops.

(** A blob apart from a stuffer stays as it is, and apart, when the stuffer is used. *)
Lemma blob_framed w s w' s' b :
  blob_ok (hp w) b -> separate b (blob s) -> step_ok w s w' s' ->
  blob_ok (hp w') b /\ separate b (blob s') /\ blob_bytes (hp w') b = blob_bytes (hp w) b.
Proof.
  intros Hb Hsep Hst.
  assert (He : forall k, in_block b k -> hp w' !! k = hp w !! k)
    by (intros k; apply (framed_lookup (blob s)); [done|done|apply Hst]).
  split_goal.
  - apply (blob_ok_ext (hp w)); [|done]. intros k Hk. symmetry. auto.
  - intros k Hk Hk'. destruct (step_fresh _ _ _ _ Hst k Hk') as [Hin|Hnone]; [by apply (Hsep k)|].
    destruct Hk as (p & Hp & <-). destruct (ok_access _ _ Hb _ Hp) as (l & Hl & _). congruence.
  - unfold blob_bytes. destruct (data b) as [p|] eqn:Hp; [|done]. apply bytes_at_ext, He. by exists p.
Qed.

Section Rules.
Context `{HP : Platform} `{HA : !BlobAllocator}.

(** Reserving, filling the reserved bytes and then counting them as written is
    an append. *)
Lemma reserved_filled w s bs w1 s1 p Q E :
  world_ok w -> stuffer_ok (hp w) s -> is_bytes bs -> is_u32 (zlen bs) -> reserved w s (zlen bs) w1 s1 ->
  data (blob s1) = Some p ->
  (forall w' s', appended w s bs w' s' -> Q tt w' s') ->
  wp (s2n_stuffer_skip_write (zlen bs))
    (World (heap_with (hp w1) (Ptr (blk p) (off p + write_cursor s)) bs) (mem w1), s1) Q E.
Proof.
  intros Hw Hs Hbs Hlen Hr Hp HQ. pose proof (zlen_nonneg bs) as H. pose proof (ok_read _ _ Hs).
  pose proof (rsv_step _ _ _ _ _ Hr) as Hst. pose proof (step_stuffer _ _ _ _ Hst) as Hs1.
  assert (Hwc : write_cursor s1 = write_cursor s) by (by rewrite (rsv_shape _ _ _ _ _ Hr)).
  pose proof (rsv_room _ _ _ _ _ Hr) as Hroom.
  assert (Hv : valid_access (hp w1) (Ptr (blk p) (off p + write_cursor s)) (zlen bs))
    by (apply (stuffer_access Hs1); [done|lia..]).
  assert (Happ := extended_appended w s bs w1 _ p Hs Hbs (reserved_extended _ _ _ _ _ Hs H Hr) Hp).
  apply wp_skip_write.
  - split; [apply heap_with_ok; [apply Hst|done]|]. simpl. rewrite (step_mem _ _ _ _ Hst). apply Hw.
  - destruct Hs1 as [Hb ? ? ? ?]. split; try done. by apply blob_ok_heap_with.
  - done.
  - intros w' s' Hext. destruct (ext_fits _ _ _ _ _ Hext) as [-> Hb']; [simpl; lia|].
    destruct (ext_shape _ _ _ _ _ Hext) as [b' ->]. simpl in Hb'. subst b'. by apply HQ.
  - intros e w' s' [Hlt _]. lia.
Qed.

Lemma wp_write_hex w s b Q E :
  world_ok w -> stuffer_ok (hp w) s -> blob_ok (hp w) b -> separate b (blob s) -> size b < 2 ^ 31 ->
  (forall w' s', appended w s (hex_of (blob_bytes (hp w) b)) w' s' -> Q tt w' s') ->
  (forall e w' s', full_err w s (2 * size b) w' s' -> E e w' s') ->
  wp (s2n_stuffer_write_hex b) (w, s) Q E.
Proof.
  intros Hw Hs Hb Hsep Hsz HQ HE. pose proof (ok_size _ _ Hb) as H32. unfold is_u32 in H32.
  assert (Hlen : zlen (hex_of (blob_bytes (hp w) b)) = 2 * size b).
  { rewrite zlen_hex_of. unfold blob_bytes. destruct (data b) as [p|] eqn:Hp.
    - by rewrite zlen_bytes_at by (by apply blob_access_all).
    - destruct (ok_null _ _ Hb Hp) as [-> _]. done. }
  assert (Hbs : is_bytes (hex_of (blob_bytes (hp w) b))).
  { apply hex_of_is_bytes. unfold blob_bytes. destruct (data b); [apply bytes_at_is_bytes, Hw|constructor]. }
  apply wp_bind, wp_pre_validate; [done|]. apply wp_bind, wp_blob_validate; [done|].
  cbv zeta. rewrite u32_small by lia. replace (size b * 2) with (2 * size b) by lia.
  apply wp_bind, wp_reserve_space; [done|done|unfold is_u32; lia| |done]. intros w1 s1 Hr.
  pose proof (rsv_step _ _ _ _ _ Hr) as Hst. pose proof (step_stuffer _ _ _ _ Hst) as Hs1.
  destruct (blob_framed _ _ _ _ _ Hb Hsep Hst) as (Hb1 & Hsep1 & Hby). pose proof (ok_read _ _ Hs).
  assert (Hwc : write_cursor s1 = write_cursor s) by (by rewrite (rsv_shape _ _ _ _ _ Hr)).
  pose proof (rsv_room _ _ _ _ _ Hr) as Hroom. apply wp_bind, wp_get_obj. rewrite Hwc, <- Hlen in *.
  apply wp_bind, wp_at_offset; [done|lia|].
  destruct (Z.eqb_spec (size b) 0) as [Hz|Hnz].
  - rewrite Hz. apply wp_bind, wp_ret. assert (Hnil : hex_of (blob_bytes (hp w) b) = []) by (apply zlen_0_nil; lia). rewrite Hnil in *.
    destruct (rsv_fits _ _ _ _ _ Hr) as [-> ->]; [pose proof (ok_write _ _ Hs); simpl; lia|].
    apply wp_skip_write; [done|done|done| |].
    + intros w' s' Hext. destruct (ext_fits _ _ _ _ _ Hext) as [-> Hb']; [pose proof (ok_write _ _ Hs); lia|].
      destruct (ext_shape _ _ _ _ _ Hext) as [b' ->]. simpl in Hb'. subst b'.
      replace (extended_by (blob s) (zlen []) s) with s; [by apply HQ, appended_nil; [apply Hw|]|].
      pose proof (ok_write _ _ Hs). destruct s. unfold extended_by, zlen. simpl in *. f_equal; lia.
    + intros e w' s' Hf. by apply HE.
  - destruct (data b) as [p|] eqn:Hp; [|by destruct (ok_null _ _ Hb Hp)].
    destruct (data_some Hs1 1) as [q Hq]; [lia..|]. unfold at_offset. rewrite Hq.
    apply wp_bind, wp_write_hex_loop; cbn [blk off]; rewrite ?Z.mul_0_l, ?Z.add_0_r, ?Z2Nat.id by lia.
    + apply Hst.
    + intros Heq. apply (Hsep1 (blk p)); [by exists p|by exists q].
    + destruct p. by apply (blob_access_all _ b).
    + rewrite <- Hlen. apply (stuffer_access Hs1); [done|lia..].
    + unfold blob_bytes in *. rewrite Hp in *.
      replace (Ptr (blk p) (off p)) with p by (by destruct p). rewrite Hby. apply (reserved_filled w s); try done.
      unfold is_u32. lia.
Qed.

Lemma wp_read_hex w s b bs rest Q E :
  stuffer_ok (hp w) s -> blob_ok (hp w) b -> separate b (blob s) -> size b < 2 ^ 31 ->
  is_bytes bs -> zlen bs = size b -> unread (hp w) s = hex_of bs ++ rest ->
  (forall w', blob_bytes (hp w') b = bs -> frame b (hp w) (hp w') -> Q tt w' (advanced (2 * size b) s)) ->
  wp (s2n_stuffer_read_hex b) (w, s) Q E.
Proof.
  intros Hs Hb Hsep Hsz Hbs Hlen Hun HQ. pose proof (ok_size _ _ Hb) as H32. unfold is_u32 in H32.
  pose proof (unread_len Hs) as Hul. pose proof (zlen_nonneg rest). rewrite Hun, zlen_app, zlen_hex_of, Hlen in Hul.
  apply wp_bind, wp_pre_validate; [done|]. apply wp_bind, wp_blob_validate; [done|].
  destruct (Z.eqb_spec (size b) 0) as [Hz|Hnz].
  { rewrite Hz in *. apply zlen_0_nil in Hlen. subst bs. apply wp_ret. specialize (HQ w). change (2 * 0) with 0 in HQ.
    unfold advanced, set_read_cursor in HQ. rewrite Z.add_0_r in HQ. destruct s. apply HQ; [|apply frame_refl].
    unfold blob_bytes. destruct (data b); [|done]. rewrite Hz. apply bytes_at_0. }
  apply wp_bind, wp_get_obj. cbv zeta. rewrite (data_available_eq Hs), u32_small by lia.
  apply wp_bind, wp_ensure; intros Hle; zbool; [|lia].
  destruct (data b) as [q|] eqn:Hq; [|by destruct (ok_null _ _ Hb Hq)].
  pose proof (ok_read _ _ Hs). pose proof (ok_write _ _ Hs). destruct (data_some Hs 1) as [p Hp]; [lia..|].
  pose proof (blob_access_all _ _ _ Hb Hq) as Hv. rewrite <- Hlen in Hv.
  rewrite Hp. apply wp_bind, wp_ptr_add_some, wp_bind. replace (Z.to_nat (size b)) with (length bs) by (unfold zlen in Hlen; lia).
  assert (Hvp : valid_access (hp w) (Ptr (blk p) (off p + read_cursor s)) (2 * zlen bs))
    by (apply (stuffer_access Hs); [done|lia..]).
  apply wp_read_hex_loop; cbn [blk off]; rewrite ?Z.mul_0_l, ?Z.add_0_r; [done| |done| |by destruct q|].
  - intros Heq. apply (Hsep (blk q)); [by exists q|by exists p].
  - rewrite (bytes_at_cursor Hs) by (done || lia). rewrite Hun. apply take_app_length'.
    pose proof (zlen_hex_of bs) as Hh. unfold zlen in *. lia.
  - replace (Ptr (blk q) (off q)) with q by (by destruct q).
    assert (Hf : frame b (hp w) (heap_with (hp w) q bs)) by (by eapply frame_heap_with).
    destruct (framed_stuffer b _ _ s Hs (separate_sym _ _ Hsep) Hf) as [Hs' _].
    apply wp_skip_read; [done|lia|intros _|lia]. replace (size b * 2) with (2 * size b) by lia.
    apply HQ; [|done]. unfold blob_bytes. rewrite Hq. simpl. rewrite <- Hlen. by apply bytes_at_heap_with_same.
Qed.

(** ** Integers *)

Lemma length_write_digits k u acc : length (write_digits k u acc) = (k + length acc)%nat.
Proof. revert u acc. induction k as [|k IH]; intros u acc; simpl; [done|]. rewrite IH. simpl. lia. Qed.

Lemma write_digits_is_bytes k u acc : is_bytes acc -> is_bytes (write_digits k u acc).
Proof.
  revert u acc. induction k as [|k IH]; intros u acc Ha; simpl; [done|]. apply IH. constructor; [|done].
  apply value_to_hex_u8, low_half_range.
Qed.

(** [k] digits read after the value [v]. *)
Lemma wp_read_digits {X} k u acc v (w : world) (x : X) Q E :
  0 <= u ->
  wp (read_digits acc (u64 (v * 16 ^ Z.of_nat k + u mod 16 ^ Z.of_nat k))) (w, x) Q E ->
  wp (read_digits (write_digits k u acc) (u64 v)) (w, x) Q E.
Proof.
  revert u acc. induction k as [|k IH]; intros u acc Hu Hwp.
  - simpl write_digits. change (16 ^ Z.of_nat 0) with 1 in Hwp. by rewrite Z.mul_1_r, Z.mod_1_r, Z.add_0_r in Hwp.
  - simpl write_digits. apply IH; [by apply Z.shiftr_nonneg|]. simpl read_digits. apply wp_bind, digit_roundtrip; [apply low_half_range|].
    rewrite Z.shiftl_mul_pow2 by lia. change (2 ^ 4) with 16. rewrite low_half, Z.shiftr_div_pow2 by lia. change (2 ^ 4) with 16.
    assert (Hpow : 16 ^ Z.of_nat (S k) = 16 * 16 ^ Z.of_nat k) by (rewrite Nat2Z.inj_succ, Z.pow_succ_r by lia; done).
    rewrite Hpow in Hwp. assert (Hp0 : 0 < 16 ^ Z.of_nat k) by (apply Z.pow_pos_nonneg; lia).
    rewrite (Z.rem_mul_r u 16) in Hwp by lia. unfold u64 in *.
    rewrite Z.mul_mod_idemp_l, Z.add_mod_idemp_l by lia.
    replace ((v * 16 ^ Z.of_nat k + (u / 16) mod 16 ^ Z.of_nat k) * 16 + u mod 16)
      with (v * (16 * 16 ^ Z.of_nat k) + (u mod 16 + 16 * ((u / 16) mod 16 ^ Z.of_nat k))) by lia. done.
Qed.

Lemma wp_hex_write_n w s n u Q E :
  world_ok w -> stuffer_ok (hp w) s -> 0 <= n <= 8 ->
  (forall w' s', appended w s (write_digits (Z.to_nat (n * 2)) u []) w' s' -> Q tt w' s') ->
  (forall e w' s', full_err w s (n * 2) w' s' -> E e w' s') ->
  wp (s2n_stuffer_hex_write_n_bytes n u) (w, s) Q E.
Proof.
  intros Hw Hs Hn HQ HE. assert (Hl : zlen (write_digits (Z.to_nat (n * 2)) u []) = n * 2).
  { unfold zlen. rewrite length_write_digits. simpl. lia. }
  apply wp_bind, wp_ensure; intros Hc; zbool; [|lia]. cbv zeta.
  apply wp_bind, wp_pre_validate; [done|]. rewrite <- Hl in HE.
  apply (wp_write_bytes _ _ _ (write_digits (Z.to_nat (n * 2)) u [])); try done.
  apply source_local; [apply write_digits_is_bytes; constructor|unfold is_u32; lia].
Qed.

Lemma wp_hex_read_n w s n u rest Q E :
  stuffer_ok (hp w) s -> 0 < n <= 8 -> 0 <= u < 16 ^ (n * 2) ->
  unread (hp w) s = write_digits (Z.to_nat (n * 2)) u [] ++ rest ->
  Q u w (advanced (n * 2) s) -> wp (s2n_stuffer_hex_read_n_bytes n) (w, s) Q E.
Proof.
  intros Hs Hn Hu Hun HQ. pose proof (unread_len Hs) as Hl. pose proof (zlen_nonneg rest).
  assert (Hd : length (write_digits (Z.to_nat (n * 2)) u []) = Z.to_nat (n * 2)) by (rewrite length_write_digits; simpl; lia).
  rewrite Hun, zlen_app in Hl. unfold zlen in Hl at 1. rewrite Hd in Hl.
  apply wp_bind, wp_ensure; intros Hc; zbool; [|lia]. apply wp_bind, wp_attempt, wp_read_bytes_local; [done|lia| |lia].
  intros _. rewrite Hun, take_app_length' by lia. change 0 with (u64 0). apply wp_read_digits; [lia|].
  rewrite Z2Nat.id, Z.mul_0_l, Z.add_0_l, Z.mod_small by lia. simpl. apply wp_ret.
  assert (16 ^ (n * 2) <= 2 ^ 64).
  { change 16 with (2 ^ 4). rewrite <- Z.pow_mul_r by lia. apply Z.pow_le_mono_r; lia. }
  by rewrite u64_small by lia.
Qed.

(** A 16-bit integer written in hexadecimal is read back. *)
Theorem uint16_hex_roundtrip (w : world) (s : s2n_stuffer) (u : Z)
    (Hworld : world_ok w) (Hstuffer : stuffer_ok (hp w) s) (Hempty : unread (hp w) s = []) (Hu : 0 <= u < 2 ^ 16)
    (Hcb : s2n_mem_free_cb (mem w) <> UserImpl) :
  match (s2n_stuffer_write_uint16_hex u ;;; s2n_stuffer_read_uint16_hex) (w, s) with
  | (Ok v, (w', s')) => v = u /\ unread (hp w') s' = []
  | (Err _, (w', s')) => size (blob s) - write_cursor s < 4 /\ s' = s /\ written (hp w') s = written (hp w) s
  | (UB, _) => False
  end.
Proof.
  assert (Hrun : wp (s2n_stuffer_write_uint16_hex u ;;; s2n_stuffer_read_uint16_hex) (w, s)
    (fun v w' s' => v = u /\ unread (hp w') s' = [])
    (fun _ w' s' => size (blob s) - write_cursor s < 4 /\ s' = s /\ written (hp w') s = written (hp w) s)).
  { apply wp_bind, wp_hex_write_n; [done|done|lia| |intros e w' s' [Hfull Hk]; split; [done|by apply Hk]].
    intros w' s' Happ. pose proof (step_stuffer _ _ _ _ (app_step _ _ _ _ _ Happ)) as Hs'.
    pose proof (unread_appended _ _ _ _ _ Hstuffer Happ) as Hun. rewrite Hempty, app_nil_l in Hun.
    pose proof (unread_len Hs') as Hl. rewrite Hun in Hl. unfold zlen in Hl. rewrite length_write_digits in Hl. simpl in Hl.
    apply wp_bind, (wp_hex_read_n _ _ 2 u []); [done|lia|change (16 ^ (2 * 2)) with (2 ^ 16); lia|by rewrite app_nil_r|].
    apply wp_bind, wp_ensure; intros Hc; zbool; [|lia]. apply wp_ret. rewrite u16_small by lia. split; [done|].
    rewrite unread_advanced by (done || lia). rewrite Hun. apply drop_ge. rewrite length_write_digits. simpl. lia. }
  unfold wp in Hrun. by destruct (bind _ _ (w, s)) as [[v|e|] [w' s']].
Qed.

(** Hexadecimal text is a faithful encoding: writing a blob of less than 2^31 bytes
    as hexadecimal text appends two digits per byte, and reading that text into
    another blob gives the same bytes and consumes the text; the write fails
    only for lack of room and then nothing that was written has changed. *)
Theorem hex_roundtrip (w : world) (s : s2n_stuffer) (bytes_in bytes_out : s2n_blob)
    (Hworld : world_ok w) (Hstuffer : stuffer_ok (hp w) s) (Hempty : unread (hp w) s = [])
    (Hin : blob_ok (hp w) bytes_in) (Hout : blob_ok (hp w) bytes_out)
    (Hsepin : separate bytes_in (blob s)) (Hsepout : separate bytes_out (blob s))
    (Hsize : size bytes_in < 2 ^ 31) (Hsame : size bytes_out = size bytes_in)
    (Hcb : s2n_mem_free_cb (mem w) <> UserImpl) :
  match (s2n_stuffer_write_hex bytes_in ;;; s2n_stuffer_read_hex bytes_out) (w, s) with
  | (Ok _, (w', s')) => blob_bytes (hp w') bytes_out = blob_bytes (hp w) bytes_in /\
      unread (hp w') s' = [] /\ written (hp w') s' = written (hp w) s ++ hex_of (blob_bytes (hp w) bytes_in)
  | (Err _, (w', s')) => size (blob s) - write_cursor s < 2 * size bytes_in /\ s' = s /\
      written (hp w') s = written (hp w) s
  | (UB, _) => False
  end.
Proof.
  assert (Hrun : wp (s2n_stuffer_write_hex bytes_in ;;; s2n_stuffer_read_hex bytes_out) (w, s)
    (fun _ w' s' => blob_bytes (hp w') bytes_out = blob_bytes (hp w) bytes_in /\
      unread (hp w') s' = [] /\ written (hp w') s' = written (hp w) s ++ hex_of (blob_bytes (hp w) bytes_in))
    (fun _ w' s' => size (blob s) - write_cursor s < 2 * size bytes_in /\ s' = s /\
      written (hp w') s = written (hp w) s)).
  { apply wp_bind, wp_write_hex; [done..| |]; [|intros e w' s' [Hfull Hk]; split; [done|by apply Hk]].
    intros w1 s1 Happ. pose proof (app_step _ _ _ _ _ Happ) as Hst. pose proof (step_stuffer _ _ _ _ Hst) as Hs1.
    destruct (blob_framed _ _ _ _ _ Hout Hsepout Hst) as (Hout1 & Hsep1 & _).
    assert (Hlen : zlen (blob_bytes (hp w) bytes_in) = size bytes_in).
    { unfold blob_bytes. destruct (data bytes_in) as [p|] eqn:Hp; [by apply zlen_bytes_at, blob_access_all|].
      by destruct (ok_null _ _ Hin Hp) as [-> _]. }
    pose proof (unread_appended _ _ _ _ _ Hstuffer Happ) as Hun. rewrite Hempty, app_nil_l in Hun.
    pose proof (unread_len Hs1) as Hul. rewrite Hun, zlen_hex_of, Hlen in Hul. pose proof (ok_size _ _ Hin) as H32. unfold is_u32 in H32.
    apply (wp_read_hex _ _ _ (blob_bytes (hp w) bytes_in) []); [done|done|done|lia| |lia|by rewrite app_nil_r|].
    { unfold blob_bytes. destruct (data bytes_in); [apply bytes_at_is_bytes, Hworld|constructor]. }
    intros w2 Hby Hf. destruct (framed_stuffer _ _ _ _ Hs1 (separate_sym _ _ Hsep1) Hf) as [Hs2 Hwr].
    split_goal; [done| |].
    - rewrite unread_advanced by (done || lia). unfold unread in *. rewrite Hwr, Hun. apply drop_ge.
      pose proof (zlen_hex_of (blob_bytes (hp w) bytes_in)). unfold zlen in *. lia.
    - change (written (hp w2) (advanced _ s1)) with (written (hp w2) s1). rewrite Hwr. apply Happ. }
  unfold wp in Hrun. by destruct (bind _ _ (w, s)) as [[[]|e|] [w' s']].
Qed.

End Rules.

(** The bytes 0a ff 41 through a stuffer of 8 bytes. *)
Definition hex_world : world :=
  World {[1%positive := [10; 255; 65]; 2%positive := [0; 0; 0]; 3%positive := repeat 0 8]} started_statics.
Definition hex_in : s2n_blob := Blob (Some (Ptr 1 0)) 3 0 false.
Definition hex_out : s2n_blob := Blob (Some (Ptr 2 0)) 3 0 false.
Definition hex_stuffer : s2n_stuffer := Stuffer (Blob (Some (Ptr 3 0)) 8 0 false) 0 0 0 false false false.

Lemma hex_roundtrip_witness :
  exists w' s', (@s2n_stuffer_write_hex demo_platform hex_in ;;; @s2n_stuffer_read_hex demo_platform hex_out) (hex_world, hex_stuffer) =
      (Ok tt, (w', s')) /\
    blob_bytes (hp w') hex_out = [10; 255; 65] /\ written (hp w') s' = [48; 97; 102; 102; 52; 49].
Proof.
  assert (Hb : forall p n, valid_access (hp hex_world) p n -> 0 <= n < 2 ^ 32 -> blob_ok (hp hex_world) (Blob (Some p) n 0 false)).
  { intros p n Hv Hn. split; simpl; unfold is_u32; try done; try lia. intros q [= <-]. by rewrite Z.max_l by lia. }
  pose proof (@hex_roundtrip demo_platform _ hex_world hex_stuffer hex_in hex_out) as Hc.
  destruct ((s2n_stuffer_write_hex hex_in ;;; s2n_stuffer_read_hex hex_out) (hex_world, hex_stuffer))
    as [[[]|e|] [w' s']] eqn:Hrun.
  - exists w', s'. split; [reflexivity|]. destruct Hc as (Hby & _ & Hwr).
    + split; [unfold hex_world; solve_heap_ok|]. split; [done|]. simpl. unfold is_u32. lia.
    + split; simpl; try done; try lia. apply Hb; [solve_valid_access|lia].
    + vm_compute. reflexivity.
    + apply Hb; [solve_valid_access|lia].
    + apply Hb; [solve_valid_access|lia].
    + intros k (p & [= <-] & <-) (q & [= <-] & ?). done.
    + intros k (p & [= <-] & <-) (q & [= <-] & ?). done.
    + simpl. lia.
    + reflexivity.
    + discriminate.
    + split; [exact Hby|exact Hwr].
  - vm_compute in Hrun. discriminate Hrun.
  - vm_compute in Hrun. discriminate Hrun.
Defined.

End StufferHex.
Export StufferHex.
