(* ===== verification/StufferPrintf.v ===== *)
(** * Formatted output: s2n_stuffer_printf of stuffer/s2n_stuffer_text.c

    The C library's formatting, as far as the code uses it (the conversions %s,
    %i, %d and %%), and the functions that append formatted text to a stuffer.  A
    conversion without an argument of its type is undefined behaviour. *)
From Stdlib Require Import Ascii.
From stdpp Require Import strings.
From S2P Require Import Prelude Errors CMem Platform Safety Blob Alloc Stuffer StufferInv StufferWrite StufferSpec NetworkOrder.
Open Scope string_scope.
Open Scope Z_scope.

Module StufferPrintf.

(** ** vsnprintf *)

(** An argument after the format: a pointer to a C string or an [int]. *)
Inductive printf_arg := PrintStr (s : string) | PrintInt (n : Z).

Definition char_value (c : Ascii.ascii) : Z := Z.of_N (Ascii.N_of_ascii c).

Fixpoint string_bytes (s : string) : list Z :=
  match s with "" => [] | String c rest => char_value c :: string_bytes rest end.

(** The decimal digits of a number below [10 ^ fuel], most significant first. *)
Fixpoint digits (fuel : nat) (n : Z) (acc : list Z) : list Z :=
  match fuel with
  | O => acc
  | S f => let acc := (48 + n mod 10) :: acc in if n <? 10 then acc else digits f (n / 10) acc
  end.

(** %i of a 32-bit [int]. *)
Definition int_bytes (n : Z) : list Z :=
  let v := (n + 2 ^ 31) mod 2 ^ 32 - 2 ^ 31 in
  if v <? 0 then 45 :: digits 10 (- v) [] else digits 10 v [].

(** The text that a format and its arguments produce; arguments that are left
    over are ignored. *)
Fixpoint format_text (format : string) (args : list printf_arg) : option (list Z) :=
  match format with
  | "" => Some []
  | String c rest =>
      if negb (Ascii.eqb c "%") then cons (char_value c) <$> format_text rest args
      else
        match rest with
        | "" => None
        | String conversion rest =>
            if Ascii.eqb conversion "%" then cons (char_value "%") <$> format_text rest args
            else if Ascii.eqb conversion "s" then
              match args with
              | PrintStr s :: args' => app (string_bytes s) <$> format_text rest args'
              | _ => None
              end
            else if Ascii.eqb conversion "i" || Ascii.eqb conversion "d" then
              match args with
              | PrintInt n :: args' => app (int_bytes n) <$> format_text rest args'
              | _ => None
              end
            else None
        end
  end.

Definition INT_MAX : Z := 2 ^ 31 - 1.

(** The result of vsnprintf: the length of the text, or a negative number when
    an [int] cannot hold it. *)
Definition vsnprintf_length (text : list Z) : Z := if zlen text <=? INT_MAX then zlen text else -1.

(** ** stuffer/s2n_stuffer_text.c *)

Section Definitions.
Context `{Platform}.

Definition s2n_stuffer_vprintf (format : string) (vargs_in : list printf_arg) : Cmd s2n_stuffer unit :=
  pre_validate ;;;
  match format_text format vargs_in with
  | None => undefined
  | Some text =>
      let str_len := vsnprintf_length text in
      ensure (0 <=? str_len) S2N_ERR_SAFETY ;;;
      ensure (str_len <? INT_MAX) S2N_ERR_SAFETY ;;;
      let mem_size := str_len + 1 in
      s <-- get_obj ;;
      let previously_tainted := tainted s in
      r <-- attempt (s2n_stuffer_raw_write mem_size) ;;
      modify (set_tainted previously_tainted) ;;;
      str <-- guard_rc r ;;
      match str with
      | None => undefined
      | Some p =>
          store p (text ++ [0]) ;;;
          let written := vsnprintf_length text in
          if negb (written =? str_len) then
            s2n_stuffer_wipe_n mem_size ;;; fail S2N_ERR_SAFETY
          else
            s2n_stuffer_wipe_n 1 ;;;
            post_validate
      end
  end.

Definition s2n_stuffer_printf (format : string) (vargs : list printf_arg) : Cmd s2n_stuffer unit :=
  s2n_stuffer_vprintf format vargs.

Definition s2n_stuffer_write_char (c : Ascii.ascii) : Cmd s2n_stuffer unit :=
  s2n_stuffer_write_uint8 (char_value c).
End Definitions.

(** ** Facts *)

Close Scope string_scope.

Lemma char_value_byte c : is_u8 (char_value c).
Proof. unfold char_value, is_u8. pose proof (Ascii.N_ascii_bounded c). lia. Qed.

Lemma string_bytes_ok s : is_bytes (string_bytes s).
Proof. induction s as [|c s IH]; constructor; [apply char_value_byte|apply IH]. Qed.

Lemma digits_ok fuel n acc : 0 <= n -> is_bytes acc -> is_bytes (digits fuel n acc).
Proof.
  revert n acc. induction fuel as [|f IH]; intros n acc Hn Ha; simpl; [done|].
  pose proof (Z.mod_pos_bound n 10 ltac:(lia)).
  assert (is_bytes ((48 + n mod 10) :: acc)) by (constructor; [unfold is_u8; lia|done]).
  destruct (n <? 10); [done|]. apply IH; [|done]. by apply Z.div_pos.
Qed.

Lemma int_bytes_ok n : is_bytes (int_bytes n).
Proof.
  unfold int_bytes. pose proof (Z.mod_pos_bound (n + 2 ^ 31) (2 ^ 32) ltac:(lia)).
  destruct (Z.ltb_spec ((n + 2 ^ 31) mod 2 ^ 32 - 2 ^ 31) 0).
  - constructor; [unfold is_u8; lia|]. apply digits_ok; [lia|constructor].
  - apply digits_ok; [lia|constructor].
Qed.

Lemma is_bytes_app l k : is_bytes l -> is_bytes k -> is_bytes (l ++ k).
Proof. intros. by apply Forall_app. Qed.

(** The text consists of bytes. *)
Lemma format_text_ok n format args text :
  (String.length format <= n)%nat -> format_text format args = Some text -> is_bytes text.
Proof.
  revert format args text. induction n as [|n IH]; intros format args text Hlen He.
  { destruct format; [|simpl in Hlen; lia]. injection He as <-. constructor. }
  destruct format as [|c rest]; [injection He as <-; constructor|]. simpl in Hlen, He.
  assert (Happ : forall l r a, is_bytes l -> (String.length r <= n)%nat ->
    app l <$> format_text r a = Some text -> is_bytes text).
  { intros l r a Hl Hr Hm. apply fmap_Some in Hm as (t' & Hf & ->).
    apply is_bytes_app; [done|]. by apply (IH r a). }
  assert (Hone : forall ch, is_bytes [char_value ch]) by (intros ch; constructor; [apply char_value_byte|done]).
  destruct (Ascii.eqb c "%"); simpl in He; [|by apply (Happ _ rest args (Hone c) ltac:(lia))].
  destruct rest as [|d rest]; [done|]. simpl in Hlen.
  destruct (Ascii.eqb d "%"); [by apply (Happ _ rest args (Hone "%"%char) ltac:(lia))|].
  destruct (Ascii.eqb d "s").
  - destruct args as [|[s|k] a]; [done| |done].
    by apply (Happ _ rest a (string_bytes_ok s) ltac:(lia) He).
  - destruct (_ || _); [|done]. destruct args as [|[s|k] a]; [done..|].
    by apply (Happ _ rest a (int_bytes_ok k) ltac:(lia) He).
Qed.

Section Theorems.
Context `{HP : Platform} `{!BlobAllocator}.

(** The stuffer that [printf] leaves: the bytes with the final NUL appended, cut
    by one. *)
Lemma truncated_appended w s text w1 s1 h2 :
  stuffer_ok (hp w) s -> appended w s (text ++ [0]) w1 s1 ->
  h2 = fill (hp w1) (at_offset (write_cursor (truncated 1 s1)) s1) S2N_WIPE_PATTERN (Z.min 1 (write_cursor s1)) ->
  written h2 (truncated 1 s1) = written (hp w) s ++ text /\ read_cursor (truncated 1 s1) = read_cursor s /\
  tainted (truncated 1 s1) = tainted s.
Proof.
  intros Hs [Hst [b' ->] Hby _] ->. pose proof (step_stuffer _ _ _ _ Hst) as Hs1.
  pose proof (ok_read _ _ Hs). pose proof (ok_write _ _ Hs1) as Hw1.
  pose proof (zlen_nonneg text). assert (Hlen : zlen (text ++ [0]) = zlen text + 1) by (by rewrite zlen_app).
  simpl in Hw1. pose proof (truncated_ok _ _ 1 ltac:(lia) Hs1) as Ht.
  split; [|simpl; split; [lia|done]].
  rewrite fill_before; [|apply Hst|done|simpl; lia..|done|done|done].
  rewrite written_blob in Hby |- * by done. simpl in *.
  replace (write_cursor s + zlen (text ++ [0]) - Z.min 1 (write_cursor s + zlen (text ++ [0])))
    with (write_cursor s + zlen text) by lia.
  assert (Hpre : zslice (blob_bytes (hp w1) b') 0 (write_cursor s + zlen text) =
    take (Z.to_nat (write_cursor s + zlen text)) (zslice (blob_bytes (hp w1) b') 0 (write_cursor s + zlen (text ++ [0])))).
  { unfold zslice. rewrite !drop_0, take_take. f_equal. lia. }
  rewrite Hpre, Hby, app_assoc. rewrite take_app_le.
  - rewrite take_ge; [done|]. pose proof (written_len Hs). rewrite length_app. unfold zlen in *. lia.
  - pose proof (written_len Hs). rewrite length_app. unfold zlen in *. lia.
Qed.

Lemma wp_vprintf (w : world) s format args text Q E :
  world_ok w -> stuffer_ok (hp w) s -> format_text format args = Some text ->
  (forall w' s', step_ok w s w' s' -> written (hp w') s' = written (hp w) s ++ text ->
     read_cursor s' = read_cursor s -> tainted s' = tainted s -> Q tt w' s') ->
  (forall e w' s', step_ok w s w' s' ->
     (s2n_mem_free_cb (mem w) <> UserImpl -> s' = s /\ written (hp w') s = written (hp w) s) -> E e w' s') ->
  wp (s2n_stuffer_vprintf format args) (w, s) Q E.
Proof.
  intros Hw Hs Hf HQ HE. pose proof Hw as [Hh Hm]. pose proof (zlen_nonneg text).
  assert (Hbytes : is_bytes (text ++ [0])).
  { apply is_bytes_app; [by apply (format_text_ok _ format args text (le_n _))|].
    constructor; [unfold is_u8; lia|done]. }
  assert (Hkeep : forall e, E e w s) by (intros e; apply HE; auto with s2n).
  assert (Hlen : zlen (text ++ [0]) = zlen text + 1) by (by rewrite zlen_app).
  apply wp_bind, wp_pre_validate; [done|]. rewrite Hf. unfold vsnprintf_length.
  apply wp_bind, wp_ensure; intros He1; [|done]. apply wp_bind, wp_ensure; intros He2; [|done].
  destruct (Z.leb_spec (zlen text) INT_MAX); [|done]. unfold INT_MAX in *. zbool.
  apply wp_bind, wp_get_obj, wp_bind, wp_attempt. rewrite <- Hlen.
  apply wp_raw_write; [done|done|unfold is_u32; lia| |].
  - intros w1 s1 Hext. apply wp_bind, wp_modify.
    pose proof (step_stuffer _ _ _ _ (ext_step _ _ _ _ _ Hext)) as Hs1.
    destruct (ext_shape _ _ _ _ _ Hext) as [b' Hsh].
    assert (Htaint : set_tainted (tainted s) (set_tainted true s1) = s1) by (by rewrite Hsh).
    rewrite Htaint. pose proof (ok_read _ _ Hs).
    assert (Hroom : write_cursor s + zlen (text ++ [0]) <= size (blob s1))
      by (pose proof (ok_write _ _ Hs1) as Hw1; rewrite Hsh in Hw1 |- *; simpl in *; lia).
    destruct (data_some Hs1 1) as [p Hp]; [lia..|].
    apply wp_bind. unfold at_offset. rewrite Hp. apply wp_ret, wp_bind, wp_store.
    { apply (stuffer_access Hs1); [done|lia..]. }
    assert (Happ := extended_appended _ _ _ _ _ _ Hs Hbytes Hext Hp).
    rewrite Z.eqb_refl. simpl. apply wp_bind, wp_wipe_n; [apply Happ|apply Happ|lia|].
    intros h2 Hh2 Hst2. destruct (truncated_appended _ _ _ _ _ _ Hs Happ Hh2) as (? & ? & ?).
    assert (Hall : step_ok w s (World h2 (mem w1)) (truncated 1 s1))
      by (eapply step_ok_trans; [apply Happ|exact Hst2]).
    apply wp_post_validate; [apply Hall|by apply HQ].
  - intros e w' s' [_ Hk]. apply wp_bind, wp_modify, wp_bind. simpl. apply wp_fail.
    pose proof (kept_step _ _ _ _ Hk) as Hst. apply HE.
    + eapply step_ok_trans; [exact Hst|]. apply step_ok_cursors; [apply Hst|apply set_tainted_ok, Hst|done].
    + intros Hcb. destruct (kept_all _ _ _ _ Hk Hcb) as [-> Hwr]. split; [by destruct s|done].
Qed.

(** Formatted output appends exactly the text of the format to the stuffer, keeps
    the read cursor and the taint flag, and a call that fails changes nothing;
    the room for the terminator is given back. *)
Theorem printf_correct (w : world) (s : s2n_stuffer) (format : string) (args : list printf_arg) (text : list Z)
    (Hworld : world_ok w) (Hstuffer : stuffer_ok (hp w) s) (Hformat : format_text format args = Some text)
    (Hcb : s2n_mem_free_cb (mem w) <> UserImpl) :
  match s2n_stuffer_printf format args (w, s) with
  | (Ok _, (w', s')) =>
      written (hp w') s' = written (hp w) s ++ text /\ read_cursor s' = read_cursor s /\
      tainted s' = tainted s /\ step_ok w s w' s'
  | (Err _, (w', s')) => s' = s /\ written (hp w') s = written (hp w) s
  | (UB, _) => False
  end.
Proof.
  change (wp (s2n_stuffer_printf format args) (w, s)
    (fun _ w' s' => written (hp w') s' = written (hp w) s ++ text /\ read_cursor s' = read_cursor s /\
       tainted s' = tainted s /\ step_ok w s w' s')
    (fun _ w' s' => s' = s /\ written (hp w') s = written (hp w) s)).
  unfold s2n_stuffer_printf. eapply wp_vprintf; [done..| |].
  - intros w' s' ????. by split_goal.
  - intros e w' s' _ Hk. by apply Hk.
Qed.
End Theorems.

Example format_text_example :
  format_text "policy %s (#%i)" [PrintStr "a%b"; PrintInt (-12)] = Some (string_bytes "policy a%b (#-12)").
Proof. reflexivity. Qed.

Lemma printf_correct_witness :
  exists w' s', @s2n_stuffer_printf demo_platform "%i%%" [PrintInt 7] (demo_world, demo_stuffer) = (Ok tt, (w', s')) /\
    written (hp w') s' = written demo_heap demo_stuffer ++ [55; 37].
Proof.
  pose proof (@printf_correct demo_platform _ demo_world demo_stuffer "%i%%" [PrintInt 7] [55; 37]
    demo_world_ok demo_stuffer_ok eq_refl ltac:(discriminate)) as Hc.
  destruct (s2n_stuffer_printf "%i%%" [PrintInt 7] (demo_world, demo_stuffer)) as [[[]|e|] [w' s']] eqn:Hrun.
  - exists w', s'. split; [reflexivity|]. apply Hc.
  - vm_compute in Hrun. discriminate Hrun.
  - destruct Hc.
Defined.
End StufferPrintf.
Export StufferPrintf.
