(* ===== verification/StufferBase64.v ===== *)
(** * Base64 text: stuffer/s2n_stuffer_base64.c

    The conversion itself is done by the libcrypto, [EVP_EncodeBlock] and
    [EVP_DecodeBlock]: what they return and store is a parameter, and what
    their documentation promises is [Base64Ok], in terms of the encoding of RFC
    4648.  The sizes are computed in int: an overflow is undefined. *)
From S2P Require Import Prelude Errors CMem Platform Safety Blob Alloc Stuffer StufferInv StufferWrite StufferSpec StufferTheorems NetworkOrder StufferText StufferPrintf.
Open Scope Z_scope.

Module StufferBase64.

(** ** RFC 4648 *)

(** 'A'..'Z' 'a'..'z' '0'..'9' '+' '/' *)
Definition alphabet : list Z := seqZ 65 26 ++ seqZ 97 26 ++ seqZ 48 10 ++ [43; 47].
Definition pad_char : Z := 61.
Definition char6 (v : Z) : Z := znth alphabet v.

(** Three bytes are four digits of 6 bits; an incomplete group is filled with
    zero bits and padded. *)
Fixpoint base64_of (bs : list Z) : list Z :=
  match bs with
  | a :: b :: c :: bs' =>
      char6 (a / 4) :: char6 (a mod 4 * 16 + b / 16) :: char6 (b mod 16 * 4 + c / 64) :: char6 (c mod 64) :: base64_of bs'
  | [a; b] => [char6 (a / 4); char6 (a mod 4 * 16 + b / 16); char6 (b mod 16 * 4); pad_char]
  | [a] => [char6 (a / 4); char6 (a mod 4 * 16); pad_char; pad_char]
  | [] => []
  end.

(** The number of bytes that are missing from the last group. *)
Definition missing (bs : list Z) : Z := (- zlen bs) mod 3.

(** ** The libcrypto *)

Class Base64Env := {
  (** [EVP_DecodeBlock(t, f, n)] on the text at [f]: the result and what is stored at [t]. *)
  EVP_DecodeBlock : list Z -> Z * list Z;
  (** [EVP_EncodeBlock(t, f, n)] on the bytes at [f]. *)
  EVP_EncodeBlock : list Z -> Z * list Z;
}.

(** The documentation of EVP_EncodeInit(3): "for every 3 bytes of input provided 4 bytes
    of output data will be produced", padded, with a NUL behind that is not counted in the result; "for
    every 4 input bytes exactly 3 output bytes will be produced", padded with 0 bits. *)
Class Base64Ok `{Base64Env} : Prop := {
  encode_block bs : is_bytes bs -> EVP_EncodeBlock bs = (zlen (base64_of bs), base64_of bs ++ [0]);
  decode_block bs : is_bytes bs ->
    EVP_DecodeBlock (base64_of bs) = (zlen bs + missing bs, bs ++ repeat 0 (Z.to_nat (missing bs)));
  decode_stores text : is_bytes (snd (EVP_DecodeBlock text)) /\ zlen (snd (EVP_DecodeBlock text)) <= zlen text / 4 * 3;
}.

Section Definitions.
Context `{Platform} `{Base64Env}.

(** [out ^= ...] *)
Definition s2n_is_base64_char (c : Z) : bool :=
  let out := 0 in
  let out := Z.lxor out (Z.land (bool_to_Z (65 <=? c)) (bool_to_Z (c <=? 90))) in
  let out := Z.lxor out (Z.land (bool_to_Z (97 <=? c)) (bool_to_Z (c <=? 122))) in
  let out := Z.lxor out (Z.land (bool_to_Z (48 <=? c)) (bool_to_Z (c <=? 57))) in
  let out := Z.lxor out (bool_to_Z (c =? 43)) in
  let out := Z.lxor out (bool_to_Z (c =? 47)) in
  let out := Z.lxor out (bool_to_Z (c =? 61)) in
  out =? 1.

(** The value of an int expression; its overflow is undefined. *)
Definition int {X} (z : Z) : Cmd X Z := if (- 2 ^ 31 <=? z) && (z <? 2 ^ 31) then ret z else undefined.

(** The conversion of a uint32_t to int. *)
Definition int_of_u32 (z : Z) : Z := if z <? 2 ^ 31 then z else z - 2 ^ 32.

(** A call of one of the two functions on [n] bytes. *)
Definition evp_block {X} (f : list Z -> Z * list Z) (to from : option ptr) (n : Z) : Cmd X Z :=
  match to, from with
  | Some q, Some p =>
      if n <? 0 then undefined
      else
        bs <-- load p n ;;
        store q (snd (f bs)) ;;;
        ret (fst (f bs))
  | _, _ => undefined
  end.

(** State: [(stuffer, out)]. *)
Definition s2n_stuffer_read_base64 : Cmd (s2n_stuffer * s2n_stuffer) unit :=
  zoom fst_lens pre_validate ;;;
  zoom snd_lens pre_validate ;;;
  stuffer <-- zoom fst_lens get_obj ;;
  let base64_groups := s2n_stuffer_data_available stuffer / 4 in
  if base64_groups =? 0 then ret tt
  else
    base64_data_size <-- int (base64_groups * 4) ;;
    binary_output_size <-- int (base64_groups * 3) ;;
    let base64_data_offset := read_cursor stuffer in
    zoom fst_lens (s2n_stuffer_skip_read (u32 base64_data_size)) ;;;
    stuffer <-- zoom fst_lens get_obj ;;
    start_of_base64_data <-- ptr_add (data (blob stuffer)) base64_data_offset ;;
    out <-- zoom snd_lens get_obj ;;
    let binary_output_offset := write_cursor out in
    zoom snd_lens (s2n_stuffer_skip_write (u32 binary_output_size)) ;;;
    out <-- zoom snd_lens get_obj ;;
    start_of_binary_output <-- ptr_add (data (blob out)) binary_output_offset ;;
    res <-- evp_block EVP_DecodeBlock start_of_binary_output start_of_base64_data base64_data_size ;;
    ensure (res =? binary_output_size) S2N_ERR_INVALID_BASE64 ;;;
    stuffer <-- zoom fst_lens get_obj ;;
    ensure (2 <=? read_cursor stuffer) S2N_ERR_SAFETY ;;;
    c <-- load_byte (data (blob stuffer)) (read_cursor stuffer - 1) ;;
    (if c =? 61 then zoom snd_lens (modify (fun out => set_write_cursor (u32 (write_cursor out - 1)) out)) else ret tt) ;;;
    c <-- load_byte (data (blob stuffer)) (read_cursor stuffer - 2) ;;
    if c =? 61 then zoom snd_lens (modify (fun out => set_write_cursor (u32 (write_cursor out - 1)) out)) else ret tt.

(** State: [(stuffer, in)]. *)
Definition s2n_stuffer_write_base64 : Cmd (s2n_stuffer * s2n_stuffer) unit :=
  zoom fst_lens pre_validate ;;;
  zoom snd_lens pre_validate ;;;
  in_ <-- zoom snd_lens get_obj ;;
  let binary_data_size := int_of_u32 (s2n_stuffer_data_available in_) in
  if binary_data_size =? 0 then ret tt
  else
    let base64_groups := Z.quot binary_data_size 3 in
    base64_groups <-- (if negb (Z.rem binary_data_size 3 =? 0) then int (base64_groups + 1) else ret base64_groups) ;;
    base64_output_size <-- int (base64_groups * 4) ;;
    base64_output_size <-- int (base64_output_size + 1) ;;
    let binary_data_offset := read_cursor in_ in
    zoom snd_lens (s2n_stuffer_skip_read (u32 binary_data_size)) ;;;
    in_ <-- zoom snd_lens get_obj ;;
    start_of_binary_data <-- ptr_add (data (blob in_)) binary_data_offset ;;
    stuffer <-- zoom fst_lens get_obj ;;
    let base64_output_offset := write_cursor stuffer in
    zoom fst_lens (s2n_stuffer_skip_write (u32 base64_output_size)) ;;;
    stuffer <-- zoom fst_lens get_obj ;;
    start_of_base64_output <-- ptr_add (data (blob stuffer)) base64_output_offset ;;
    res <-- evp_block EVP_EncodeBlock start_of_base64_output start_of_binary_data binary_data_size ;;
    ensure (res =? base64_output_size - 1) S2N_ERR_INVALID_BASE64 ;;;
    zoom fst_lens (s2n_stuffer_wipe_n 1).
End Definitions.

(** ** Facts about the encoding *)

(** Bytes three by three. *)
Lemma triples_ind (P : list Z -> Prop) :
  P [] -> (forall a, P [a]) -> (forall a b, P [a; b]) -> (forall a b c bs, P bs -> P (a :: b :: c :: bs)) -> forall bs, P bs.
Proof.
  intros H0 H1 H2 H3 bs. cut (P bs /\ (forall a, P (a :: bs)) /\ (forall a b, P (a :: b :: bs))); [by intros [? _]|].
  induction bs as [|x bs (IH0 & IH1 & IH2)]; [done|]. split_goal; [apply IH1|intros a; apply IH2|intros a b; by apply H3].
Qed.

Lemma missing_cons3 a b c bs : missing (a :: b :: c :: bs) = missing bs.
Proof. unfold missing. rewrite !zlen_cons. replace (- (1 + (1 + (1 + zlen bs)))) with (- zlen bs + (-1) * 3) by lia. apply Z_mod_plus_full. Qed.

Lemma missing_range bs : 0 <= missing bs < 3.
Proof. apply Z.mod_pos_bound. lia. Qed.

Lemma whole_groups bs : (zlen bs + missing bs) mod 3 = 0.
Proof. unfold missing. rewrite Z.add_mod_idemp_r by lia. by replace (zlen bs + - zlen bs) with 0 by lia. Qed.

Lemma zlen_base64_of bs : zlen (base64_of bs) = (zlen bs + missing bs) / 3 * 4.
Proof.
  induction bs as [|a|a b|a b c bs IH] using triples_ind; [done..|]. cbn [base64_of]. rewrite missing_cons3, !zlen_cons, IH.
  replace (1 + (1 + (1 + zlen bs)) + missing bs) with (zlen bs + missing bs + 1 * 3) by lia. rewrite Z.div_add by lia. lia.
Qed.

Lemma base64_of_app as_ bs : zlen as_ mod 3 = 0 -> base64_of (as_ ++ bs) = base64_of as_ ++ base64_of bs.
Proof.
  induction as_ as [|a|a b|a b c as_ IH] using triples_ind; [done..|]. intros Hm. cbn [base64_of app]. rewrite IH; [done|].
  rewrite !zlen_cons in Hm. replace (1 + (1 + (1 + zlen as_))) with (zlen as_ + 1 * 3) in Hm by lia. by rewrite Z_mod_plus_full in Hm.
Qed.

(** The digits are characters of the alphabet, none of them the padding. *)
Lemma digit_cases (P : Z -> Prop) : Forall P (seqZ 0 64) -> forall d, 0 <= d < 64 -> P d.
Proof. rewrite Forall_forall. intros HP d Hd. apply HP, elem_of_seqZ. lia. Qed.

Lemma char6_ok d : 0 <= d < 64 -> is_u8 (char6 d) /\ char6 d <> pad_char /\ s2n_is_base64_char (char6 d) = true.
Proof. revert d. apply digit_cases. repeat (constructor; [vm_compute; repeat split; congruence|]). constructor. Qed.

(** The digits of a group. *)
Lemma group_digits a b c : is_u8 a -> is_u8 b -> is_u8 c ->
  0 <= a / 4 < 64 /\ 0 <= a mod 4 * 16 + b / 16 < 64 /\ 0 <= b mod 16 * 4 + c / 64 < 64 /\ 0 <= c mod 64 < 64 /\
  0 <= a mod 4 * 16 < 64 /\ 0 <= b mod 16 * 4 < 64.
Proof. unfold is_u8. intros. Z.to_euclidean_division_equations. lia. Qed.

(** Text consists of characters of the alphabet and padding. *)
Lemma base64_of_chars bs : is_bytes bs -> Forall (fun c => is_u8 c /\ s2n_is_base64_char c = true) (base64_of bs).
Proof.
  assert (Hp : is_u8 pad_char /\ s2n_is_base64_char pad_char = true) by (vm_compute; repeat split; congruence).
  assert (H0 : is_u8 0) by (unfold is_u8; lia).
  assert (Hc : forall d, 0 <= d < 64 -> is_u8 (char6 d) /\ s2n_is_base64_char (char6 d) = true).
  { intros d Hd. destruct (char6_ok d Hd) as (? & _ & ?). done. }
  induction bs as [|a|a b|a b c bs IH] using triples_ind; cbn [base64_of]; intros Hbs.
  - constructor.
  - apply Forall_cons_1 in Hbs as [Ha _]. pose proof (group_digits a 0 0 Ha H0 H0). repeat constructor; (apply Hc || apply Hp); lia.
  - apply Forall_cons_1 in Hbs as [Ha [Hb _]%Forall_cons_1]. pose proof (group_digits a b 0 Ha Hb H0).
    repeat constructor; (apply Hc || apply Hp); lia.
  - apply Forall_cons_1 in Hbs as [Ha [Hb [Hcc Hbs]%Forall_cons_1]%Forall_cons_1]. pose proof (group_digits a b c Ha Hb Hcc).
    repeat (constructor; [apply Hc; lia|]). by apply IH.
Qed.

(** How many of the last two characters are padding. *)
Definition padding (text : list Z) : Z :=
  bool_to_Z (znth text (zlen text - 1) =? 61) + bool_to_Z (znth text (zlen text - 2) =? 61).

Lemma padding_cons4 a b c d text : text <> [] -> 2 <= zlen text -> padding (a :: b :: c :: d :: text) = padding text.
Proof.
  intros _ Hl. unfold padding, znth. rewrite !zlen_cons.
  replace (Z.to_nat (1 + (1 + (1 + (1 + zlen text))) - 1)) with (4 + Z.to_nat (zlen text - 1))%nat by lia.
  by replace (Z.to_nat (1 + (1 + (1 + (1 + zlen text))) - 2)) with (4 + Z.to_nat (zlen text - 2))%nat by lia.
Qed.

Lemma padding_base64 bs : is_bytes bs -> bs <> [] -> padding (base64_of bs) = missing bs.
Proof.
  assert (H0 : is_u8 0) by (unfold is_u8; lia).
  assert (Hne : forall d, 0 <= d < 64 -> (char6 d =? 61) = false).
  { intros d Hd. apply Z.eqb_neq. by apply char6_ok. }
  induction bs as [|a|a b|a b c bs IH] using triples_ind; intros Hbs Hn; [done|..].
  - apply Forall_cons_1 in Hbs as [Ha _]. reflexivity.
  - apply Forall_cons_1 in Hbs as [Ha [Hb _]%Forall_cons_1]. pose proof (group_digits a b 0 Ha Hb H0).
    unfold padding. cbn [base64_of]. change (zlen [_; _; _; _]) with 4. unfold znth. cbn [Z.to_nat Pos.to_nat nth Z.sub Z.opp Z.add Pos.pred_double Z.pos_sub Pos.iter_op Nat.add].
    change (Z.to_nat (4 - 1)) with 3%nat. change (Z.to_nat (4 - 2)) with 2%nat. cbn [nth]. rewrite Hne by lia. reflexivity.
  - apply Forall_cons_1 in Hbs as [Ha [Hb [Hc Hbs]%Forall_cons_1]%Forall_cons_1]. pose proof (group_digits a b c Ha Hb Hc).
    rewrite missing_cons3. destruct bs as [|x bs].
    + unfold padding. cbn [base64_of]. change (zlen [_; _; _; _]) with 4. unfold znth.
      change (Z.to_nat (4 - 1)) with 3%nat. change (Z.to_nat (4 - 2)) with 2%nat. cbn [nth]. rewrite !Hne by lia. reflexivity.
    + cbn [base64_of]. rewrite <- IH by done. pose proof (zlen_base64_of (x :: bs)) as Hl. pose proof (missing_range (x :: bs)).
      pose proof (whole_groups (x :: bs)). pose proof (zlen_nonneg bs). rewrite zlen_cons in *.
      assert (4 <= zlen (base64_of (x :: bs))) by (rewrite Hl; Z.to_euclidean_division_equations; lia).
      apply padding_cons4; [|lia]. intros Hnil. rewrite Hnil in *. unfold zlen in *. simpl in *. lia.
Qed.

(** ** The functions *)

Section Rules.
Context `{HP : Platform} `{HB : !BlobAllocator} `{HE : Base64Env} `{HOK : !Base64Ok}.

Lemma wp_int {X} z (w : world) (x : X) Q E : - 2 ^ 31 <= z < 2 ^ 31 -> Q z w x -> wp (int z) (w, x) Q E.
Proof. intros Hz HQ. unfold int. rewrite (proj2 (Z.leb_le _ _)), (proj2 (Z.ltb_lt _ _)) by lia. done. Qed.

Lemma wp_evp_block {X} f q p n bs (w : world) (x : X) Q E :
  valid_access (hp w) p n -> bytes_at (hp w) p n = bs -> valid_access (hp w) q (zlen (snd (f bs))) ->
  Q (fst (f bs)) (World (heap_with (hp w) q (snd (f bs))) (mem w)) x ->
  wp (evp_block f (Some q) (Some p) n) (w, x) Q E.
Proof.
  intros Hp <- Hq HQ. unfold evp_block. destruct (Z.ltb_spec n 0) as [Hn|_]; [destruct Hp as (? & ? & ? & ? & ?); lia|].
  by apply wp_bind, wp_load, wp_bind, wp_store, wp_ret.
Qed.

(** The end of a stuffer that has just been extended. *)
Lemma extended_end w s n w1 s1 :
  stuffer_ok (hp w) s -> 0 < n -> extended w s n w1 s1 ->
  exists p, data (blob s1) = Some p /\ valid_access (hp w1) (Ptr (blk p) (off p + write_cursor s)) n.
Proof.
  intros Hs Hn Hext. pose proof (step_stuffer _ _ _ _ (ext_step _ _ _ _ _ Hext)) as Hs1. pose proof (ok_write _ _ Hs1).
  pose proof (ok_read _ _ Hs). destruct (ext_shape _ _ _ _ _ Hext) as [b' Hsh].
  assert (write_cursor s1 = write_cursor s + n) by (by rewrite Hsh).
  destruct (data_some Hs1 n) as [p Hp]; [lia..|]. exists p. split; [done|]. apply (stuffer_access Hs1); [done|lia..].
Qed.

(** Less than what a stuffer was extended by may be stored there. *)
Lemma extended_store w s n w1 s1 p bs :
  extended w s n w1 s1 -> is_bytes bs -> zlen bs <= n -> data (blob s1) = Some p ->
  valid_access (hp w1) (Ptr (blk p) (off p + write_cursor s)) n ->
  valid_access (hp w1) (Ptr (blk p) (off p + write_cursor s)) (zlen bs) /\
  step_ok w s (World (heap_with (hp w1) (Ptr (blk p) (off p + write_cursor s)) bs) (mem w1)) s1.
Proof.
  intros [Hst _ _ _] Hbs Hle Hp Hv. pose proof (zlen_nonneg bs).
  assert (Hv' : valid_access (hp w1) (Ptr (blk p) (off p + write_cursor s)) (zlen bs)).
  { destruct Hv as (l & ? & ? & ? & ?). exists l. split_goal; [done|lia..]. }
  split; [done|]. eapply step_ok_trans; [done|]. by eapply step_ok_write; try done; apply Hst.
Qed.

(** Fewer bytes count as written. *)
Lemma set_write_step w s s1 w1 k :
  step_ok w s w1 s1 -> read_cursor s1 <= k <= write_cursor s1 -> step_ok w s w1 (set_write_cursor k s1).
Proof.
  intros Hst Hk. pose proof (step_stuffer _ _ _ _ Hst) as Hs1. pose proof (ok_read _ _ Hs1). pose proof (ok_write _ _ Hs1).
  eapply step_ok_trans; [done|]. apply step_ok_cursors; [apply Hst| |done]. apply stuffer_ok_cursors; [done|lia..].
Qed.

Lemma written_set_write h s k :
  stuffer_ok h s -> read_cursor s <= k <= write_cursor s -> written h (set_write_cursor k s) = take (Z.to_nat k) (written h s).
Proof.
  intros Hs Hk. pose proof (ok_read _ _ Hs). pose proof (ok_write _ _ Hs). rewrite !written_blob; [|done|].
  - simpl. unfold zslice. rewrite !drop_0, take_take. f_equal. lia.
  - apply stuffer_ok_cursors; [done|lia..].
Qed.

(** The test of one of the last two characters. *)
Lemma wp_drop_padding (from to : s2n_stuffer) c (w : world) Q E :
  1 <= write_cursor to < 2 ^ 32 -> Q tt w (from, set_write_cursor (write_cursor to - bool_to_Z (c =? 61)) to) ->
  wp (if c =? 61 then zoom (snd_lens (X := s2n_stuffer)) (modify (fun out => set_write_cursor (u32 (write_cursor out - 1)) out)) else ret tt)
    (w, (from, to)) Q E.
Proof.
  intros Hto HQ. destruct (c =? 61); simpl in HQ.
  - apply wp_zoom, wp_modify. simpl. by rewrite u32_small by lia.
  - apply wp_ret. rewrite Z.sub_0_r in HQ. by destruct to.
Qed.

(** The text that is decoded, and how a call of s2n_stuffer_read_base64 ends. *)
Definition base64_text (w : world) (from : s2n_stuffer) : list Z :=
  take (Z.to_nat (zlen (unread (hp w) from) / 4 * 4)) (unread (hp w) from).

Record decoded (w : world) (from to : s2n_stuffer) (w' : world) (to' : s2n_stuffer) : Prop := {
  dec_result : fst (EVP_DecodeBlock (base64_text w from)) = zlen (base64_text w from) / 4 * 3;
  dec_step : step_ok w to w' to';
  dec_read : read_cursor to' = read_cursor to;
  dec_bytes : zlen (snd (EVP_DecodeBlock (base64_text w from))) = zlen (base64_text w from) / 4 * 3 ->
    written (hp w') to' = written (hp w) to ++
      take (Z.to_nat (zlen (base64_text w from) / 4 * 3 - padding (base64_text w from))) (snd (EVP_DecodeBlock (base64_text w from)));
  dec_fits : zlen (base64_text w from) / 4 * 3 <= size (blob to) - write_cursor to -> blob to' = blob to;
}.

Lemma wp_read_base64 (w : world) from to Q E :
  copy_state w from to -> zlen (unread (hp w) from) < 2 ^ 31 ->
  (zlen (unread (hp w) from) < 4 -> Q tt w (from, to)) ->
  (forall w' to', 4 <= zlen (unread (hp w) from) -> decoded w from to w' to' ->
     Q tt w' (advanced (zlen (base64_text w from)) from, to')) ->
  (forall e w' to', 4 <= zlen (unread (hp w) from) -> step_ok w to w' to' ->
     size (blob to) - write_cursor to < zlen (base64_text w from) / 4 * 3 \/
     fst (EVP_DecodeBlock (base64_text w from)) <> zlen (base64_text w from) / 4 * 3 ->
     E e w' (advanced (zlen (base64_text w from)) from, to')) ->
  wp s2n_stuffer_read_base64 (w, (from, to)) Q E.
Proof.
  intros Hcs Hmax HQ0 HQ HEr. pose proof Hcs as [Hw Hf Ht Hsep Hcb]. pose proof (unread_len Hf) as Hul.
  pose proof (ok_read _ _ Hf). pose proof (ok_write _ _ Hf). pose proof (ok_read _ _ Ht).
  apply wp_bind, wp_zoom, wp_pre_validate; [done|]. apply wp_bind, wp_zoom, wp_pre_validate; [done|].
  apply wp_bind, wp_zoom, wp_get_obj. cbv zeta. cbn [fst snd lset lget fst_lens snd_lens].
  rewrite (data_available_eq Hf), <- Hul. set (n := zlen (unread (hp w) from)) in *. set (g := n / 4).
  assert (Hg : n = 4 * g + n mod 4 /\ 0 <= n mod 4 < 4) by (unfold g; Z.to_euclidean_division_equations; lia).
  destruct (Z.eqb_spec g 0) as [Hg0|Hg0]; [apply wp_ret, HQ0; lia|]. assert (Hn4 : 4 <= n) by lia.
  assert (Htl : zlen (base64_text w from) = g * 4).
  { unfold base64_text. fold n. fold g. unfold zlen in n |- *. rewrite length_take. lia. }
  set (text := base64_text w from) in *. rewrite Htl in HQ, HEr. rewrite Z.div_mul in HEr by lia.
  apply wp_bind, wp_int; [lia|]. apply wp_bind, wp_int; [lia|]. rewrite !u32_small by lia.
  apply wp_bind, wp_zoom, wp_skip_read; [done|lia| |simpl; lia]. intros Hav.
  apply wp_bind, wp_zoom, wp_get_obj. cbn [fst snd lset lget fst_lens snd_lens].
  destruct (data_some Hf (g * 4)) as [p Hp]; [lia..|]. change (data (blob (advanced (g * 4) from))) with (data (blob from)). rewrite Hp.
  apply wp_bind, wp_ptr_add_some. apply wp_bind, wp_zoom, wp_get_obj. cbn [fst snd lset lget fst_lens snd_lens].
  apply wp_bind, wp_zoom, wp_skip_write; cbn [fst snd lset lget fst_lens snd_lens]; [done|done|unfold is_u32; lia| |].
  2:{ intros e w1 to1 [Hfull Hk]. apply HEr; [done|apply Hk|by left]. }
  intros w1 to1 Hext. destruct (extended_end _ _ (g * 3) _ _ Ht ltac:(lia) Hext) as (q & Hq & Hqv).
  destruct (framed_stuffer _ _ _ _ Hf Hsep (step_frame _ _ _ _ (ext_step _ _ _ _ _ Hext))) as [Hf1 Hwr1].
  apply wp_bind, wp_zoom, wp_get_obj. cbn [fst snd lset lget fst_lens snd_lens]. rewrite Hq. apply wp_bind, wp_ptr_add_some.
  destruct (decode_stores text) as [Hdb Hdl]. rewrite Htl, Z.div_mul in Hdl by lia.
  destruct (extended_store _ _ _ _ _ _ _ Hext Hdb Hdl Hq Hqv) as [Hst Hstep].
  assert (Hun1 : unread (hp w1) from = unread (hp w) from) by (unfold unread; by rewrite Hwr1).
  apply wp_bind, (wp_evp_block _ _ _ _ text); [apply (stuffer_access Hf1); [done|lia..]| |done|].
  { rewrite (bytes_at_cursor Hf1) by (done || lia). rewrite Hun1. done. }
  apply wp_bind, wp_ensure; intros Hres; zbool.
  2:{ apply HEr; [done|done|by right]. }
  set (w2 := World _ _) in *.
  apply wp_bind, wp_zoom, wp_get_obj. cbn [fst snd lset lget fst_lens snd_lens]. simpl read_cursor.
  apply wp_bind, wp_ensure; intros Hc; zbool; [|lia].
  destruct (framed_stuffer _ _ _ _ Hf Hsep (step_frame _ _ _ _ Hstep)) as [Hf2 Hwr2].
  assert (Hun2 : unread (hp w2) from = unread (hp w) from) by (unfold unread; by rewrite Hwr2).
  assert (Hnth : forall i, 0 <= i < g * 4 -> unread (hp w2) from !! Z.to_nat i = Some (znth text i)).
  { intros i Hi. rewrite Hun2. unfold text, base64_text. fold n. fold g. unfold znth.
    destruct (lookup_lt_is_Some_2 (unread (hp w) from) (Z.to_nat i)) as [c Hci]; [unfold n, zlen in *; lia|].
    rewrite Hci. f_equal. symmetry. apply nth_lookup_Some. by rewrite lookup_take_lt by lia. }
  change (data (blob (advanced (g * 4) from))) with (data (blob from)).
  pose proof (step_stuffer _ _ _ _ Hstep) as Ht2. pose proof (ok_size32 Ht2). pose proof (ok_write _ _ Ht2).
  destruct (ext_shape _ _ _ _ _ Hext) as [b' Hsh].
  assert (Hwc : write_cursor to1 = write_cursor to + g * 3) by (by rewrite Hsh).
  assert (Hrc : read_cursor to1 = read_cursor to) by (by rewrite Hsh).
  assert (Hbz : forall b, 0 <= bool_to_Z b <= 1) by (intros []; simpl; lia).
  apply wp_bind, (wp_load_unread _ _ from (Z.to_nat (g * 4 - 1)) (znth text (g * 4 - 1))); [done|apply Hnth; lia|lia|].
  apply wp_bind, wp_drop_padding; [lia|].
  apply wp_bind, (wp_load_unread _ _ from (Z.to_nat (g * 4 - 2)) (znth text (g * 4 - 2))); [done|apply Hnth; lia|lia|].
  pose proof (Hbz (znth text (g * 4 - 1) =? 61)). pose proof (Hbz (znth text (g * 4 - 2) =? 61)).
  apply wp_drop_padding; [simpl; lia|]. cbn [write_cursor set_write_cursor].
  change (set_write_cursor ?a (set_write_cursor ?b ?s)) with (set_write_cursor a s).
  assert (Hpad : write_cursor to1 - bool_to_Z (znth text (g * 4 - 1) =? 61) - bool_to_Z (znth text (g * 4 - 2) =? 61) =
    write_cursor to + (g * 3 - padding text)) by (unfold padding; rewrite Htl; lia).
  rewrite Hpad. assert (0 <= padding text <= 2) by (unfold padding; rewrite Htl; lia).
  apply HQ; [done|]. split; fold text; rewrite ?Htl, ?Z.div_mul by lia; [done| |done| |].
  - apply set_write_step; [done|lia].
  - intros Hfull. rewrite written_set_write by (done || lia).
    pose proof Hext as Hext'. rewrite <- Hfull in Hext'.
    pose proof (app_bytes _ _ _ _ _ (extended_appended _ _ _ _ _ _ Ht Hdb Hext' Hq)) as Hby.
    unfold w2. rewrite Hby, take_app. pose proof (written_len Ht) as Hwl. unfold zlen in Hwl.
    rewrite take_ge by lia. do 2 f_equal. lia.
  - intros Hroom. by apply (ext_fits _ _ _ _ _ Hext).
Qed.

(** The sizes of the text. *)
Lemma groups_of n : 0 <= n -> Z.quot n 3 + bool_to_Z (negb (Z.rem n 3 =? 0)) = (n + (- n) mod 3) / 3.
Proof.
  intros Hn. rewrite Z.quot_div_nonneg, Z.rem_mod_nonneg by lia.
  destruct (Z.eqb_spec (n mod 3) 0); simpl; Z.to_euclidean_division_equations; lia.
Qed.

Lemma wp_write_base64 (w : world) to from Q E :
  copy_state w from to -> zlen (unread (hp w) from) < 2 ^ 30 ->
  (forall w' to', step_ok w to w' to' -> read_cursor to' = read_cursor to ->
     written (hp w') to' = written (hp w) to ++ base64_of (unread (hp w) from) ->
     Q tt w' (to', advanced (zlen (unread (hp w) from)) from)) ->
  (forall e w' to', full_err w to (zlen (base64_of (unread (hp w) from)) + 1) w' to' ->
     E e w' (to', advanced (zlen (unread (hp w) from)) from)) ->
  wp s2n_stuffer_write_base64 (w, (to, from)) Q E.
Proof.
  intros [Hw Hf Ht Hsep Hcb] Hmax HQ HEr. pose proof (unread_len Hf) as Hul.
  pose proof (ok_read _ _ Hf). pose proof (ok_write _ _ Hf). pose proof (ok_read _ _ Ht). pose proof Hw as [Hh _].
  assert (Hub : is_bytes (unread (hp w) from)) by (by apply unread_is_bytes).
  apply wp_bind, wp_zoom, wp_pre_validate; [done|]. apply wp_bind, wp_zoom, wp_pre_validate; [done|].
  apply wp_bind, wp_zoom, wp_get_obj. cbv zeta. cbn [fst snd lset lget fst_lens snd_lens].
  rewrite (data_available_eq Hf), <- Hul. set (bs := unread (hp w) from) in *. pose proof (zlen_nonneg bs) as Hn0.
  pose proof (missing_range bs) as Hmr. pose proof (zlen_base64_of bs) as Htl. unfold missing in Htl, Hmr.
  set (n := zlen bs) in *. replace (int_of_u32 n) with n by (unfold int_of_u32; destruct (Z.ltb_spec n (2 ^ 31)); lia).
  destruct (Z.eqb_spec n 0) as [Hz|Hz].
  { apply zlen_0_nil in Hz. unfold n in *. rewrite Hz in *. change (zlen []) with 0 in HQ. rewrite advanced_0 in HQ.
    apply wp_ret, HQ; [by apply step_ok_refl|done|by rewrite app_nil_r]. }
  set (g := (n + (- n) mod 3) / 3) in *. assert (Hg : 1 <= g < 2 ^ 29) by (unfold g; Z.to_euclidean_division_equations; lia).
  pose proof (groups_of n Hn0) as Hgo. fold g in Hgo. apply wp_bind.
  apply (wp_mono _ _ (fun a w' st => a = g /\ w' = w /\ st = (to, from)) _ (fun _ _ _ => False) _); [| |done].
  { destruct (negb _); simpl in Hgo; [apply wp_int; [lia|done]|apply wp_ret; split; [lia|done]]. }
  intros ? ? ? (-> & -> & ->). apply wp_bind, wp_int; [lia|]. apply wp_bind, wp_int; [lia|]. rewrite !u32_small by lia.
  apply wp_bind, wp_zoom, wp_skip_read; [done|lia| |simpl; lia]. intros Hav.
  apply wp_bind, wp_zoom, wp_get_obj. cbn [fst snd lset lget fst_lens snd_lens].
  destruct (data_some Hf n) as [p Hp]; [lia..|]. change (data (blob (advanced n from))) with (data (blob from)). rewrite Hp.
  apply wp_bind, wp_ptr_add_some. apply wp_bind, wp_zoom, wp_get_obj. cbn [fst snd lset lget fst_lens snd_lens].
  rewrite <- Htl. pose proof (zlen_app (base64_of bs) [0]) as Hl0. change (zlen [0]) with 1 in Hl0. rewrite <- Hl0.
  apply wp_bind, wp_zoom, wp_skip_write; cbn [fst snd lset lget fst_lens snd_lens]; [done|done|unfold is_u32; lia| |].
  2:{ intros e w1 to1 Hfull. apply HEr. by rewrite <- Hl0. }
  intros w1 to1 Hext. destruct (extended_end _ _ (zlen (base64_of bs ++ [0])) _ _ Ht ltac:(lia) Hext) as (q & Hq & Hqv).
  destruct (framed_stuffer _ _ _ _ Hf Hsep (step_frame _ _ _ _ (ext_step _ _ _ _ _ Hext))) as [Hf1 Hwr1].
  apply wp_bind, wp_zoom, wp_get_obj. cbn [fst snd lset lget fst_lens snd_lens]. rewrite Hq. apply wp_bind, wp_ptr_add_some.
  assert (Htb : is_bytes (base64_of bs ++ [0])).
  { apply is_bytes_app; [|constructor; [unfold is_u8; lia|constructor]].
    eapply Forall_impl; [by apply base64_of_chars|]. by intros c [Hc _]. }
  pose proof (encode_block bs Hub) as Henc.
  apply wp_bind, (wp_evp_block _ _ _ _ bs); [apply (stuffer_access Hf1); [done|lia..]| |by rewrite Henc|].
  { rewrite (bytes_at_cursor Hf1) by (done || lia). unfold unread. rewrite Hwr1. apply take_ge. unfold n, zlen. fold bs. lia. }
  rewrite Henc. cbn [fst snd]. apply wp_bind, wp_ensure; intros Hres; zbool; [|lia].
  pose proof (extended_appended _ _ _ _ _ _ Ht Htb Hext Hq) as Happ. set (w2 := World _ _) in *.
  pose proof (app_step _ _ _ _ _ Happ) as Hst. apply wp_zoom, wp_wipe_n; [apply Hst|apply Hst|lia|].
  cbn [fst snd lset lget fst_lens snd_lens]. intros h3 Hh3 Hst3.
  destruct (truncated_appended _ _ _ _ _ _ Ht Happ Hh3) as (Hwr & Hrc & _).
  apply HQ; [by eapply step_ok_trans|done|done].
Qed.

(** A stuffer to which bytes were appended, [room] at the most in between. *)
Record grown (w : world) (to : s2n_stuffer) (bs : list Z) (room : Z) (w' : world) (to' : s2n_stuffer) : Prop := {
  gr_step : step_ok w to w' to';
  gr_read : read_cursor to' = read_cursor to;
  gr_bytes : written (hp w') to' = written (hp w) to ++ bs;
  gr_fits : room <= size (blob to) - write_cursor to -> blob to' = blob to;
}.

(** Reading the text of some bytes appends the bytes. *)
Lemma wp_read_base64_of (w : world) from to bs Q E :
  copy_state w from to -> is_bytes bs -> zlen bs < 2 ^ 30 -> unread (hp w) from = base64_of bs ->
  (forall w' to', grown w to bs (zlen bs + missing bs) w' to' -> Q tt w' (advanced (zlen (base64_of bs)) from, to')) ->
  (forall e w' to', step_ok w to w' to' -> size (blob to) - write_cursor to < zlen bs + missing bs ->
     E e w' (advanced (zlen (base64_of bs)) from, to')) ->
  wp s2n_stuffer_read_base64 (w, (from, to)) Q E.
Proof.
  intros Hcs Hbs Hmax Hun HQ HEr. pose proof (zlen_base64_of bs) as Htl. pose proof (missing_range bs). pose proof (whole_groups bs).
  pose proof (zlen_nonneg bs). set (m := zlen bs + missing bs) in *.
  assert (Hm : m = 3 * (m / 3)) by (Z.to_euclidean_division_equations; lia).
  assert (Htext : base64_text w from = base64_of bs).
  { unfold base64_text. rewrite Hun, Htl, Z.div_mul by lia. apply take_ge. unfold zlen in Htl. lia. }
  apply wp_read_base64; rewrite ?Hun; [done|lia|..].
  - intros Hlt. assert (Hnil : bs = []) by (apply zlen_0_nil; lia). subst bs. change (zlen (base64_of [])) with 0 in HQ.
    rewrite advanced_0 in HQ. apply HQ. split; [|done|by rewrite app_nil_r|done]. apply step_ok_refl; apply Hcs.
  - rewrite Htext. intros w' to' Hge [Hres Hst Hrc Hby Hfit]. rewrite Htext in *. apply HQ. fold m.
    split; [done|done| |rewrite Htl, Z.div_mul in Hfit by lia; intros Hroom; apply Hfit; lia].
    rewrite (decode_block bs Hbs) in Hby. cbn [fst snd] in Hby. rewrite Hby.
    + f_equal. rewrite padding_base64; [|done|intros ->; unfold zlen in Htl; simpl in Htl; change (zlen []) with 0 in Hge; simpl in Hge; lia].
      rewrite Htl, Z.div_mul by lia. replace (m / 3 * 3 - missing bs) with (zlen bs) by lia. unfold zlen. rewrite Nat2Z.id. apply take_app_length.
    + rewrite zlen_app, zlen_repeat, Htl, Z.div_mul by lia. lia.
  - rewrite Htext. intros e w' to' Hge Hst Hcause. rewrite (decode_block bs Hbs) in Hcause. cbn [fst] in Hcause.
    rewrite Htl, Z.div_mul in Hcause by lia. apply HEr; [done|]. lia.
Qed.

(** Base64 is a faithful encoding.  s2n_stuffer_write_base64 consumes its input and
    appends its text of RFC 4648, without the NUL of the libcrypto; reading
    that text appends exactly the bytes of the input and consumes the text.  Either call fails
    only when the stuffer it writes to lacks room. *)
Theorem base64_roundtrip (w : world) (in_ text out : s2n_stuffer)
    (Hin : copy_state w in_ text) (Hout : copy_state w out text) (Hempty : unread (hp w) text = [])
    (Hsize : zlen (unread (hp w) in_) < 2 ^ 30) :
  let bs := unread (hp w) in_ in
  match s2n_stuffer_write_base64 (w, (text, in_)) with
  | (Ok _, (w1, (text1, in1))) =>
      unread (hp w1) in1 = [] /\ unread (hp w1) text1 = base64_of bs /\ written (hp w1) out = written (hp w) out /\
      match s2n_stuffer_read_base64 (w1, (text1, out)) with
      | (Ok _, (w2, (text2, out2))) => unread (hp w2) text2 = [] /\ written (hp w2) out2 = written (hp w) out ++ bs
      | (Err _, _) => size (blob out) - write_cursor out < zlen bs + missing bs
      | (UB, _) => False
      end
  | (Err _, _) => size (blob text) - write_cursor text < zlen (base64_of bs) + 1
  | (UB, _) => False
  end.
Proof.
  intros bs. pose proof (cs_from _ _ _ Hin) as Hfin. pose proof (unread_len Hfin) as Hul. fold bs in Hul, Hsize.
  pose proof (zlen_nonneg bs). pose proof (ok_read _ _ Hfin).
  assert (Hbs : is_bytes bs) by (apply unread_is_bytes, Hin).
  assert (Hrun : wp s2n_stuffer_write_base64 (w, (text, in_))
    (fun _ w1 st => snd st = advanced (zlen bs) in_ /\ step_ok w text w1 (fst st) /\ unread (hp w1) (fst st) = base64_of bs)
    (fun _ _ _ => size (blob text) - write_cursor text < zlen (base64_of bs) + 1)).
  { apply wp_write_base64; [done|done| |by intros e w' to' [Hfull _]].
    intros w1 to1 Hst Hrc Hwr. cbn [fst snd]. split_goal; [done|done|]. unfold unread in *. rewrite Hrc, Hwr, drop_app_le, Hempty; [done|].
    pose proof (written_len (cs_to _ _ _ Hin)). pose proof (ok_read _ _ (cs_to _ _ _ Hin)). unfold zlen in *. lia. }
  unfold wp in Hrun. destruct (s2n_stuffer_write_base64 (w, (text, in_))) as [[[]|e|] [w1 [text1 in1]]]; [|done|done].
  cbn [fst snd] in Hrun. destruct Hrun as (-> & Hst & Hun1).
  pose proof (copy_state_step _ _ _ _ _ _ Hin Hst eq_refl ltac:(done)) as Hin1.
  pose proof (copy_state_step _ _ _ _ _ _ Hout Hst eq_refl ltac:(done)) as Hout1.
  destruct (framed_stuffer _ _ _ _ Hfin (cs_sep _ _ _ Hin) (step_frame _ _ _ _ Hst)) as [Hfin1 Hwin1].
  destruct (framed_stuffer _ _ _ _ (cs_from _ _ _ Hout) (cs_sep _ _ _ Hout) (step_frame _ _ _ _ Hst)) as [_ Hwout].
  assert (Hcs : copy_state w1 text1 out) by (destruct Hout1; split; auto using separate_sym).
  split_goal; [|done|done|].
  - rewrite unread_advanced by (done || lia). unfold unread in bs |- *. rewrite Hwin1. fold bs. apply drop_ge. unfold zlen. lia.
  - assert (Hrd : wp s2n_stuffer_read_base64 (w1, (text1, out))
      (fun _ w2 st => unread (hp w2) (fst st) = [] /\ written (hp w2) (snd st) = written (hp w) out ++ bs)
      (fun _ _ _ => size (blob out) - write_cursor out < zlen bs + missing bs)).
    { apply (wp_read_base64_of _ _ _ bs); [done|done|done|done| |done].
      intros w2 out2 [Hst2 _ Hwr2 _]. cbn [fst snd]. split; [|by rewrite Hwr2, Hwout].
      pose proof (cs_from _ _ _ Hcs) as Ht1. pose proof (unread_len Ht1) as Hul1. rewrite Hun1 in Hul1. pose proof (zlen_nonneg (base64_of bs)).
      destruct (framed_stuffer _ _ _ _ Ht1 (cs_sep _ _ _ Hcs) (step_frame _ _ _ _ Hst2)) as [Ht2 Hwt2].
      rewrite unread_advanced by (done || lia). unfold unread in Hun1 |- *. rewrite Hwt2, Hun1. apply drop_ge. unfold zlen. lia. }
    unfold wp in Hrd. by destruct (s2n_stuffer_read_base64 (w1, (text1, out))) as [[[]|e|] [w2 [text2 out2]]].
Qed.
End Rules.

(** ** A libcrypto that keeps the promise *)

(** The value of a character: its place in the alphabet; padding counts as zero bits. *)
Definition value6 (c : Z) : option Z :=
  if c =? pad_char then Some 0 else Z.of_nat ∘ fst <$> list_find (fun d => d = c) alphabet.

Fixpoint decode (text : list Z) : option (list Z) :=
  match text with
  | c0 :: c1 :: c2 :: c3 :: text' =>
      match value6 c0, value6 c1, value6 c2, value6 c3, decode text' with
      | Some v0, Some v1, Some v2, Some v3, Some bs =>
          Some (v0 * 4 + v1 / 16 :: v1 mod 16 * 16 + v2 / 4 :: v2 mod 4 * 64 + v3 :: bs)
      | _, _, _, _, _ => None
      end
  | [] => Some []
  | _ => None
  end.

Definition demo_base64 : Base64Env := {|
  EVP_DecodeBlock text := match decode text with Some bs => (zlen bs, bs) | None => (-1, []) end;
  EVP_EncodeBlock bs := (zlen (base64_of bs), base64_of bs ++ [0]);
|}.

Lemma value6_char6 d : 0 <= d < 64 -> value6 (char6 d) = Some d.
Proof. revert d. apply digit_cases. repeat (constructor; [reflexivity|]). constructor. Qed.

Lemma value6_range c v : value6 c = Some v -> 0 <= v < 64.
Proof.
  unfold value6. destruct (c =? pad_char); [intros [= <-]; lia|]. intros ([i x] & (Hi & _)%list_find_Some & ->)%fmap_Some.
  apply lookup_lt_Some in Hi. change (length alphabet) with 64%nat in Hi. simpl. lia.
Qed.

Lemma decode_stored text bs : decode text = Some bs -> is_bytes bs /\ zlen bs = zlen text / 4 * 3.
Proof.
  revert bs. induction text as [text IH] using (induction_ltof1 _ (@length Z)). unfold ltof in IH. intros bs Hd.
  destruct text as [|c0 [|c1 [|c2 [|c3 text']]]]; try discriminate Hd; [injection Hd as <-; split; [constructor|done]|]. cbn [decode] in Hd.
  destruct (value6 c0) as [v0|] eqn:H0; [|done]. destruct (value6 c1) as [v1|] eqn:H1; [|done].
  destruct (value6 c2) as [v2|] eqn:H2; [|done]. destruct (value6 c3) as [v3|] eqn:H3; [|done].
  destruct (decode text') as [bs'|] eqn:Hr; [|done]. injection Hd as <-.
  destruct (IH text' ltac:(simpl; lia) bs' Hr) as [Hb Hl]. apply value6_range in H0, H1, H2, H3. split.
  - unfold is_bytes, is_u8. repeat (constructor; [Z.to_euclidean_division_equations; lia|]). done.
  - rewrite !zlen_cons, Hl. replace (1 + (1 + (1 + (1 + zlen text')))) with (zlen text' + 1 * 4) by lia. rewrite Z.div_add by lia. lia.
Qed.

Lemma decode_base64 bs : is_bytes bs -> decode (base64_of bs) = Some (bs ++ repeat 0 (Z.to_nat (missing bs))).
Proof.
  assert (H0 : is_u8 0) by (unfold is_u8; lia). unfold is_bytes, is_u8 in *.
  induction bs as [|a|a b|a b c bs IH] using triples_ind; intros Hbs; [done|..]; cbn [base64_of decode].
  - apply Forall_cons_1 in Hbs as [Ha _]. pose proof (group_digits a 0 0 Ha H0 H0). rewrite !value6_char6 by lia.
    cbn [value6 Z.eqb Pos.eqb pad_char]. change (repeat 0 _) with [0; 0]. f_equal. simpl.
    repeat f_equal; Z.to_euclidean_division_equations; lia.
  - apply Forall_cons_1 in Hbs as [Ha [Hb _]%Forall_cons_1]. pose proof (group_digits a b 0 Ha Hb H0). rewrite !value6_char6 by lia.
    cbn [value6 Z.eqb Pos.eqb pad_char]. change (repeat 0 _) with [0]. f_equal. simpl.
    repeat f_equal; Z.to_euclidean_division_equations; lia.
  - apply Forall_cons_1 in Hbs as [Ha [Hb [Hc Hbs]%Forall_cons_1]%Forall_cons_1]. pose proof (group_digits a b c Ha Hb Hc).
    rewrite !value6_char6, IH by (done || lia). rewrite missing_cons3. cbn [app].
    repeat f_equal; Z.to_euclidean_division_equations; lia.
Qed.

#[export] Instance demo_base64_ok : @Base64Ok demo_base64.
Proof.
  split; simpl; [done| |].
  - intros bs Hbs. rewrite decode_base64 by done. pose proof (missing_range bs). by rewrite zlen_app, zlen_repeat by lia.
  - intros text. destruct (decode text) as [bs|] eqn:Hd; simpl.
    + apply decode_stored in Hd as [Hb Hl]. split; [done|lia].
    + split; [constructor|]. pose proof (zlen_nonneg text). change (zlen []) with 0. Z.to_euclidean_division_equations. lia.
Qed.

(** Four bytes through a stuffer of 16 bytes. *)
Definition base64_world : world :=
  World {[1%positive := [104; 101; 121; 33]; 2%positive := repeat 0 16; 3%positive := repeat 0 9]} started_statics.
Definition base64_in : s2n_stuffer := Stuffer (Blob (Some (Ptr 1 0)) 4 0 false) 0 4 4 false false false.
Definition base64_stuffer : s2n_stuffer := Stuffer (Blob (Some (Ptr 2 0)) 16 0 false) 0 0 0 false false false.
Definition base64_out : s2n_stuffer := Stuffer (Blob (Some (Ptr 3 0)) 9 0 false) 0 0 0 false false false.
Abbreviation base64_written := (@s2n_stuffer_write_base64 demo_platform demo_base64 (base64_world, (base64_stuffer, base64_in))).

(** "aGV5IQ==" *)
Example base64_demo :
  match base64_written with
  | (Ok _, (w1, (text1, _))) => unread (hp w1) text1 = [97; 71; 86; 53; 73; 81; 61; 61] /\
      match @s2n_stuffer_read_base64 demo_platform demo_base64 (w1, (text1, base64_out)) with
      | (Ok _, (w2, (_, out2))) => written (hp w2) out2 = [104; 101; 121; 33]
      | _ => False
      end
  | _ => False
  end.
Proof. vm_compute. done. Qed.

Lemma base64_states : copy_state base64_world base64_in base64_stuffer /\ copy_state base64_world base64_out base64_stuffer.
Proof.
  assert (Hw : world_ok base64_world).
  { split; [unfold base64_world; solve_heap_ok|]. split; [done|]. simpl. unfold is_u32. lia. }
  assert (Hb : forall p n, valid_access (hp base64_world) p n -> 0 <= n < 2 ^ 32 -> blob_ok (hp base64_world) (Blob (Some p) n 0 false)).
  { intros p n Hv Hn. split; simpl; unfold is_u32; try done; try lia. intros q [= <-]. by rewrite Z.max_l by lia. }
  assert (Hs : forall k n c l, hp base64_world !! k = Some l -> zlen l = n -> 0 <= c <= n -> n < 2 ^ 32 ->
    stuffer_ok (hp base64_world) (Stuffer (Blob (Some (Ptr k 0)) n 0 false) 0 c c false false false)).
  { intros k n c l Hl Hn Hc Hm. split; simpl; try done; try lia. apply Hb; [|lia]. exists l. simpl. split_goal; [done|lia..]. }
  split; split; try done; try (by eapply Hs; [reflexivity|reflexivity|lia|lia]);
    intros k (p & [= <-] & <-) (q & [= <-] & ?); done.
Qed.

Lemma base64_roundtrip_witness :
  match base64_written with
  | (Ok _, (w1, (text1, in1))) => unread (hp w1) text1 = base64_of [104; 101; 121; 33] /\
      match @s2n_stuffer_read_base64 demo_platform demo_base64 (w1, (text1, base64_out)) with
      | (Ok _, (w2, (_, out2))) => written (hp w2) out2 = [104; 101; 121; 33]
      | _ => False
      end
  | _ => False
  end.
Proof.
  destruct base64_states as [Hin Hout].
  pose proof (@base64_roundtrip demo_platform _ demo_base64 demo_base64_ok base64_world base64_in base64_stuffer base64_out Hin Hout
    ltac:(reflexivity) ltac:(vm_compute; reflexivity)) as Hc. cbv zeta in Hc.
  replace (unread (hp base64_world) base64_in) with [104; 101; 121; 33] in Hc by reflexivity.
  destruct base64_written as [[[]|e|] [w1 [text1 in1]]]; [|vm_compute in Hc; discriminate Hc|exact Hc].
  destruct Hc as (_ & Ht & _ & Hr). split; [exact Ht|].
  destruct (@s2n_stuffer_read_base64 demo_platform demo_base64 (w1, (text1, base64_out))) as [[[]|e|] [w2 [text2 out2]]];
    [|vm_compute in Hr; discriminate Hr|exact Hr].
  destruct Hr as [_ Hr]. exact Hr.
Defined.
End StufferBase64.
Export StufferBase64.
