(* ===== verification/StufferPem.v ===== *)
(** * PEM objects: stuffer/s2n_stuffer_pem.c

    The text between "-----BEGIN keyword-----" and "-----END keyword-----" is
    base64; other characters in it are skipped.  The buffer of 64 characters
    is an array on the stack: a block that lives for the duration of the call. *)
From Stdlib Require Import String.
From S2P Require Import Prelude Errors CMem Platform Safety Blob Alloc Stuffer StufferInv StufferWrite StufferSpec StufferTheorems NetworkOrder StufferText.
From S2P Require Import StufferPrintf StufferBase64.
Open Scope Z_scope.

Create HintDb pem.

Module StufferPem.

Definition S2N_PEM_DELIMITER_CHAR : Z := 45.
Definition S2N_PEM_DELIMITER_TOKEN : list Z := string_bytes "--".
Definition S2N_PEM_DELIMITER_MIN_COUNT : Z := 2.
Definition S2N_PEM_DELIMITER_MAX_COUNT : Z := 64.
Definition S2N_PEM_BEGIN_TOKEN : list Z := string_bytes "BEGIN ".
Definition S2N_PEM_END_TOKEN : list Z := string_bytes "END ".
Definition S2N_PEM_PKCS1_RSA_PRIVATE_KEY : list Z := string_bytes "RSA PRIVATE KEY".
Definition S2N_PEM_PKCS1_EC_PRIVATE_KEY : list Z := string_bytes "EC PRIVATE KEY".
Definition S2N_PEM_PKCS8_PRIVATE_KEY : list Z := string_bytes "PRIVATE KEY".
Definition S2N_PEM_DH_PARAMETERS : list Z := string_bytes "DH PARAMETERS".
Definition S2N_PEM_EC_PARAMETERS : list Z := string_bytes "EC PARAMETERS".
Definition S2N_PEM_CERTIFICATE : list Z := string_bytes "CERTIFICATE".
Definition S2N_PEM_CRL : list Z := string_bytes "X509 CRL".

(** The types of keys of the libcrypto. *)
Inductive evp_pkey_type := EVP_PKEY_RSA | EVP_PKEY_EC.

(** pem, asn1 and the stuffer over the local buffer. *)
Definition pem_state : Type := s2n_stuffer * s2n_stuffer * s2n_stuffer.
Definition pem_lens : lens pem_state s2n_stuffer := Lens (fun st => fst (fst st)) (fun s st => (s, snd (fst st), snd st)).
Definition base64_lens : lens pem_state s2n_stuffer := snd_lens.
(** [(&base64_stuffer, asn1)] *)
Definition decode_lens : lens pem_state (s2n_stuffer * s2n_stuffer) :=
  Lens (fun st => (snd st, snd (fst st))) (fun p st => (fst (fst st), snd p, fst p)).

Section Definitions.
Context `{Platform} `{Base64Env}.

(** [s2n_stack_blob(name, size, size)]: the array is gone when the function returns. *)
Definition with_stack_blob {X A} (n : Z) (c : s2n_blob -> Cmd X A) : Cmd X A := fun '(w, x) =>
  let k := fresh (dom (hp w)) in
  let '(r, (w', x')) :=
    (b <-- with_local zero_blob (s2n_blob_init (Some (Ptr k 0)) n) ;; c (snd b))
      (World (<[k := repeat 0 (Z.to_nat n)]> (hp w)) (mem w), x) in
  (r, (World (delete k (hp w')) (mem w'), x')).

Definition s2n_stuffer_pem_read_delimiter_chars : Cmd s2n_stuffer unit :=
  pem <-- get_obj ;;
  ensure (S2N_PEM_DELIMITER_MIN_COUNT <=? s2n_stuffer_data_available pem) S2N_ERR_INVALID_PEM ;;;
  s2n_stuffer_skip_read_until S2N_PEM_DELIMITER_TOKEN ;;;
  s2n_stuffer_rewind_read (zlen S2N_PEM_DELIMITER_TOKEN) ;;;
  s2n_stuffer_skip_expected_char S2N_PEM_DELIMITER_CHAR S2N_PEM_DELIMITER_MIN_COUNT S2N_PEM_DELIMITER_MAX_COUNT ;;;
  ret tt.

Definition s2n_stuffer_pem_read_encapsulation_line (encap_marker keyword : list Z) : Cmd s2n_stuffer unit :=
  s2n_stuffer_pem_read_delimiter_chars ;;;
  s2n_stuffer_read_expected_str encap_marker ;;;
  s2n_stuffer_read_expected_str keyword ;;;
  s2n_stuffer_skip_expected_char S2N_PEM_DELIMITER_CHAR S2N_PEM_DELIMITER_MIN_COUNT S2N_PEM_DELIMITER_MAX_COUNT ;;;
  (if bool_decide (take (length S2N_PEM_END_TOKEN) encap_marker = S2N_PEM_END_TOKEN) then
     r <-- attempt (s2n_stuffer_peek_check_for_str S2N_PEM_BEGIN_TOKEN) ;;
     match r with
     | inl _ => s2n_stuffer_rewind_read S2N_PEM_DELIMITER_MIN_COUNT
     | inr _ => ret tt
     end
   else ret tt) ;;;
  s2n_stuffer_skip_whitespace ;;;
  ret tt.

Definition s2n_stuffer_pem_read_begin (keyword : list Z) : Cmd s2n_stuffer unit :=
  s2n_stuffer_pem_read_encapsulation_line S2N_PEM_BEGIN_TOKEN keyword.

Definition s2n_stuffer_pem_read_end (keyword : list Z) : Cmd s2n_stuffer unit :=
  s2n_stuffer_pem_read_encapsulation_line S2N_PEM_END_TOKEN keyword.

(** A character that is not skipped. *)
Definition take_base64_char (c : Z) : Cmd pem_state unit :=
  base64_stuffer <-- zoom base64_lens get_obj ;;
  (if s2n_stuffer_space_remaining base64_stuffer =? 0 then
     zoom decode_lens s2n_stuffer_read_base64 ;;;
     zoom base64_lens s2n_stuffer_rewrite
   else ret tt) ;;;
  zoom base64_lens (s2n_stuffer_write_bytes (LocalBuf [c]) 1).

(** The loop; [fuel] bounds the characters that are left. *)
Fixpoint contents_loop (fuel : nat) : Cmd pem_state unit :=
  pem <-- zoom pem_lens get_obj ;;
  ensure (1 <=? s2n_stuffer_data_available pem) S2N_ERR_STUFFER_OUT_OF_DATA ;;;
  c <-- load_byte (data (blob pem)) (read_cursor pem) ;;
  if c =? S2N_PEM_DELIMITER_CHAR then ret tt
  else
    match fuel with
    | O => undefined
    | S fuel' =>
        zoom pem_lens (modify (set_read_cursor (u32 (read_cursor pem + 1)))) ;;;
        (if negb (s2n_is_base64_char c) then ret tt else take_base64_char c) ;;;
        contents_loop fuel'
    end.

Definition read_contents (base64_blob : s2n_blob) : Cmd pem_state unit :=
  zoom base64_lens (s2n_stuffer_init base64_blob) ;;;
  pem <-- zoom pem_lens get_obj ;;
  contents_loop (Z.to_nat (s2n_stuffer_data_available pem)) ;;;
  zoom decode_lens s2n_stuffer_read_base64.

(** State: [(pem, asn1)]. *)
Definition s2n_stuffer_pem_read_contents : Cmd (s2n_stuffer * s2n_stuffer) unit := fun '(w, x) =>
  let '(r, (w', x')) := with_stack_blob 64 read_contents (w, (x, zero_stuffer)) in (r, (w', fst x')).

Definition s2n_stuffer_data_from_pem (keyword : list Z) : Cmd (s2n_stuffer * s2n_stuffer) unit :=
  zoom fst_lens pre_validate ;;;
  zoom snd_lens pre_validate ;;;
  zoom fst_lens (s2n_stuffer_pem_read_begin keyword) ;;;
  s2n_stuffer_pem_read_contents ;;;
  zoom fst_lens (s2n_stuffer_pem_read_end keyword) ;;;
  zoom fst_lens post_validate ;;;
  zoom snd_lens post_validate.

(** [*type] is the result. *)
Definition s2n_stuffer_private_key_from_pem : Cmd (s2n_stuffer * s2n_stuffer) evp_pkey_type :=
  zoom fst_lens pre_validate ;;;
  zoom snd_lens pre_validate ;;;
  r <-- attempt (s2n_stuffer_data_from_pem S2N_PEM_PKCS1_RSA_PRIVATE_KEY) ;;
  match r with
  | inl _ => ret EVP_PKEY_RSA
  | inr _ =>
      zoom fst_lens s2n_stuffer_reread ;;;
      zoom snd_lens s2n_stuffer_reread ;;;
      r <-- attempt (s2n_stuffer_data_from_pem S2N_PEM_EC_PARAMETERS) ;;
      match r with
      | inl _ => ret tt
      | inr _ => zoom fst_lens s2n_stuffer_reread
      end ;;;
      zoom snd_lens s2n_stuffer_wipe ;;;
      r <-- attempt (s2n_stuffer_data_from_pem S2N_PEM_PKCS1_EC_PRIVATE_KEY) ;;
      match r with
      | inl _ => ret EVP_PKEY_EC
      | inr _ =>
          zoom fst_lens s2n_stuffer_reread ;;;
          zoom snd_lens s2n_stuffer_reread ;;;
          r <-- attempt (s2n_stuffer_data_from_pem S2N_PEM_PKCS8_PRIVATE_KEY) ;;
          match r with
          | inl _ => ret EVP_PKEY_RSA
          | inr _ => fail S2N_ERR_INVALID_PEM
          end
      end
  end.

(** The copy of the struct is local. *)
Definition s2n_stuffer_pem_has_certificate : Cmd s2n_stuffer bool :=
  pem <-- get_obj ;;
  r <-- try_local pem s2n_stuffer_pem_read_delimiter_chars ;;
  ret (match fst r with inl _ => true | inr _ => false end).

Definition s2n_stuffer_certificate_from_pem : Cmd (s2n_stuffer * s2n_stuffer) unit :=
  s2n_stuffer_data_from_pem S2N_PEM_CERTIFICATE.

Definition s2n_stuffer_crl_from_pem : Cmd (s2n_stuffer * s2n_stuffer) unit := s2n_stuffer_data_from_pem S2N_PEM_CRL.

Definition s2n_stuffer_dhparams_from_pem : Cmd (s2n_stuffer * s2n_stuffer) unit :=
  s2n_stuffer_data_from_pem S2N_PEM_DH_PARAMETERS.
End Definitions.

(** ** Commands that only move the read cursor *)

Definition moved (s s' : s2n_stuffer) : Prop := exists r, 0 <= r <= write_cursor s /\ s' = set_read_cursor r s.

Lemma moved_ok h s s' : stuffer_ok h s -> moved s s' -> stuffer_ok h s'.
Proof. intros Hs (r & Hr & ->). by apply set_read_ok. Qed.

Lemma moved_refl h s : stuffer_ok h s -> moved s s.
Proof. intros Hs. pose proof (ok_read _ _ Hs). exists (read_cursor s). split; [lia|by destruct s]. Qed.

Lemma moved_trans s1 s2 s3 : moved s1 s2 -> moved s2 s3 -> moved s1 s3.
Proof. intros (r & Hr & ->) (r' & Hr' & ->). by exists r'. Qed.

Lemma moved_advanced h s n : stuffer_ok h s -> 0 <= n <= zlen (unread h s) -> moved s (advanced n s).
Proof.
  intros Hs Hn. rewrite (unread_len Hs) in Hn. pose proof (ok_read _ _ Hs). exists (read_cursor s + n). split; [lia|done].
Qed.

Lemma moved_blob s s' : moved s s' -> blob s' = blob s.
Proof. by intros (r & _ & ->). Qed.

Lemma moved_written h s s' : moved s s' -> written h s' = written h s.
Proof. by intros (r & _ & ->). Qed.

#[local] Hint Resolve moved_refl moved_trans : core.

Definition moves {A} (c : Cmd s2n_stuffer A) : Prop := forall w s, stuffer_ok (hp w) s ->
  wp c (w, s) (fun _ w' s' => w' = w /\ moved s s') (fun _ w' s' => w' = w /\ moved s s').

Section Moves.
Context `{HP : Platform} `{HB : !BlobAllocator}.

Lemma moves_bind {A B} (c : Cmd s2n_stuffer A) (k : A -> Cmd s2n_stuffer B) : moves c -> (forall a, moves (k a)) -> moves (bind c k).
Proof.
  intros Hc Hk w s Hs. apply wp_bind. eapply wp_mono; [by apply Hc| |done].
  intros a w' s' [-> Hm]. eapply wp_mono; [apply Hk; by eapply moved_ok|..]; intros ? ? ? [-> ?]; eauto.
Qed.

Lemma moves_ret {A} (a : A) : moves (ret a).
Proof. intros w s Hs. apply wp_ret. eauto. Qed.

Lemma moves_get : moves get_obj.
Proof. intros w s Hs. apply wp_get_obj. eauto. Qed.

Lemma moves_ensure b e : moves (ensure b e).
Proof. intros w s Hs. apply wp_ensure; eauto. Qed.

Lemma moves_attempt {A} (c : Cmd s2n_stuffer A) : moves c -> moves (attempt c).
Proof. intros Hc w s Hs. apply wp_attempt. by apply Hc. Qed.

Lemma moves_skip_read_until target : is_u32 (zlen target) -> moves (s2n_stuffer_skip_read_until target).
Proof.
  intros Ht w s Hs. eapply wp_mono; [by apply wp_skip_read_until|..].
  - intros _ w' s' [-> [(i & _ & Hi & ->)|[(_ & k & Hk & ->) _]]]; (split; [done|]); apply (moved_advanced (hp w)); (done || unfold zlen; lia).
  - intros e w' s' (-> & _ & _ & k & Hk & ->). split; [done|]. by apply (moved_advanced (hp w)).
Qed.

Lemma moves_rewind n : 0 <= n -> moves (s2n_stuffer_rewind_read n).
Proof.
  intros Hn w s Hs. pose proof (ok_read _ _ Hs). apply wp_rewind_read; [done|done|intros Hle|intros _; by eauto].
  split; [done|]. exists (read_cursor s - n). split; [lia|done].
Qed.

Lemma moves_expected_str expected : moves (s2n_stuffer_read_expected_str expected).
Proof.
  intros w s Hs. apply wp_read_expected_str; [done| |by eauto]. intros _ Hl. split; [done|].
  pose proof (zlen_nonneg expected). apply (moved_advanced (hp w)); [done|rewrite (unread_len Hs); lia].
Qed.

Lemma moves_peek expected : moves (s2n_stuffer_peek_check_for_str expected).
Proof. intros w s Hs. apply wp_peek_check_for_str; eauto. Qed.

Lemma moves_whitespace : moves s2n_stuffer_skip_whitespace.
Proof.
  intros w s Hs. apply wp_skip_whitespace; [done|]. intros _. split; [done|].
  apply (moved_advanced (hp w)); [done|]. rewrite (unread_len Hs). by apply span_len_range.
Qed.

Lemma moves_expected_char c min max : 0 <= min <= max -> max < 2 ^ 32 -> moves (s2n_stuffer_skip_expected_char c min max).
Proof.
  intros Hm Hmax w s Hs. pose proof (span_len_range (fun d => d =? c) _ _ Hs) as Hr. rewrite <- (unread_len Hs) in Hr.
  apply wp_skip_expected_char; [done|done|done|]. cbv zeta.
  split; intros; (split; [done|]); apply (moved_advanced (hp w)); (done || lia).
Qed.

#[local] Hint Resolve moves_ret moves_get moves_ensure moves_attempt moves_expected_str moves_peek moves_whitespace : core.

Lemma moves_delimiter : moves s2n_stuffer_pem_read_delimiter_chars.
Proof.
  apply moves_bind; [auto|intros pem]. apply moves_bind; [auto|intros _].
  apply moves_bind; [by apply moves_skip_read_until|intros _]. apply moves_bind; [by apply moves_rewind|intros _].
  apply moves_bind; [by apply moves_expected_char|auto].
Qed.

Lemma moves_line marker keyword : moves (s2n_stuffer_pem_read_encapsulation_line marker keyword).
Proof.
  apply moves_bind; [apply moves_delimiter|intros _]. do 2 (apply moves_bind; [auto|intros _]).
  apply moves_bind; [by apply moves_expected_char|intros _]. apply moves_bind; [|intros _; apply moves_bind; auto].
  case_bool_decide; [|auto]. apply moves_bind; [auto|]. intros [|]; [by apply moves_rewind|auto].
Qed.
End Moves.

(** ** The lines of an object *)

Definition dashes (n : nat) : list Z := repeat S2N_PEM_DELIMITER_CHAR n.

(** As many dashes as one line takes. *)
Definition dash_run (n : nat) (l : list Z) : Prop := (2 <= n <= 64)%nat /\ (n = 64%nat \/ head l <> Some S2N_PEM_DELIMITER_CHAR).

(** What is left behind the line: the white space is skipped, and a BEGIN
    without a line break before it keeps two dashes. *)
Definition after_line (marker rest : list Z) : list Z :=
  if bool_decide (marker = S2N_PEM_END_TOKEN) && bool_decide (starts_with rest S2N_PEM_BEGIN_TOKEN) then dashes 2 ++ rest
  else drop (span_len is_whitespace rest) rest.

Lemma span_dashes n l : span_len (fun d => d =? S2N_PEM_DELIMITER_CHAR) (dashes n ++ l) = (n + span_len (fun d => (d =? S2N_PEM_DELIMITER_CHAR)%Z) l)%nat.
Proof. induction n as [|n IH]; [done|]. cbn [dashes repeat app span_len]. rewrite Z.eqb_refl. cbn [Nat.add]. f_equal. exact IH. Qed.

Lemma dash_run_len n l : dash_run n l ->
  Z.min 64 (Z.of_nat (span_len (fun d => d =? S2N_PEM_DELIMITER_CHAR) (dashes n ++ l))) = Z.of_nat n.
Proof.
  intros [Hn Hl]. rewrite span_dashes. destruct Hl as [->|Hl]; [lia|]. destruct l as [|c l]; simpl; [lia|].
  destruct (Z.eqb_spec c S2N_PEM_DELIMITER_CHAR) as [->|_]; [done|lia].
Qed.

Lemma length_dashes n : length (dashes n) = n.
Proof. apply repeat_length. Qed.

(** A prefix without the token hides no earlier occurrence. *)
Lemma first_at_token before l :
  first_at (before ++ S2N_PEM_DELIMITER_TOKEN) (length before) S2N_PEM_DELIMITER_TOKEN ->
  first_at (before ++ S2N_PEM_DELIMITER_TOKEN ++ l) (length before) S2N_PEM_DELIMITER_TOKEN.
Proof.
  intros [_ Hf]. unfold first_at, occurs_at in *. split.
  - by rewrite drop_app_length.
  - intros j Hj Ho. apply (Hf j Hj). rewrite app_assoc in Ho. rewrite drop_app_le in Ho by (rewrite length_app; simpl; lia).
    rewrite take_app_le in Ho; [done|]. rewrite length_drop, length_app. simpl. lia.
Qed.

Lemma first_at_unique l i j t : first_at l i t -> first_at l j t -> i = j.
Proof.
  intros [Hi Hi'] [Hj Hj']. destruct (Nat.lt_trichotomy i j) as [H|[H|H]]; [|done|]; exfalso; [by apply (Hj' i)|by apply (Hi' j)].
Qed.

Section Lines.
Context `{HP : Platform} `{HB : !BlobAllocator}.

(** The stuffer behind the first characters of what is unread. *)
Lemma unread_behind h s pre rest :
  stuffer_ok h s -> unread h s = pre ++ rest ->
  stuffer_ok h (advanced (zlen pre) s) /\ unread h (advanced (zlen pre) s) = rest /\ moved s (advanced (zlen pre) s).
Proof.
  intros Hs Hu. pose proof (unread_len Hs) as Hl. rewrite Hu, zlen_app in Hl. pose proof (zlen_nonneg pre). pose proof (zlen_nonneg rest).
  split_goal; [apply advanced_ok; [done|lia]| |apply (moved_advanced h); [done|rewrite Hu, zlen_app; lia]].
  rewrite unread_advanced by (done || lia). rewrite Hu. unfold zlen. rewrite Nat2Z.id. apply drop_app_length.
Qed.

Lemma wp_delimiter (w : world) s before n l Q E :
  stuffer_ok (hp w) s -> unread (hp w) s = before ++ dashes n ++ l -> dash_run n l ->
  first_at (before ++ S2N_PEM_DELIMITER_TOKEN) (length before) S2N_PEM_DELIMITER_TOKEN ->
  (forall s', moved s s' -> stuffer_ok (hp w) s' -> unread (hp w) s' = l -> Q tt w s') ->
  wp s2n_stuffer_pem_read_delimiter_chars (w, s) Q E.
Proof.
  intros Hs Hu Hrun Hfirst HQ. pose proof (unread_len Hs) as Hl. pose proof Hrun as [Hn _].
  assert (Hd : dashes n = S2N_PEM_DELIMITER_TOKEN ++ dashes (n - 2)).
  { unfold dashes. destruct n as [|[|n]]; [lia..|]. by rewrite Nat.sub_succ, Nat.sub_succ, Nat.sub_0_r. }
  assert (Hf : first_at (unread (hp w) s) (length before) S2N_PEM_DELIMITER_TOKEN).
  { rewrite Hu, Hd, <- app_assoc. by apply first_at_token. }
  destruct (unread_behind _ _ before _ Hs Hu) as (Hs1 & Hu1 & Hm1).
  apply wp_bind, wp_get_obj, wp_bind, wp_ensure; rewrite (data_available_eq Hs), <- Hl.
  2:{ intros Hc. apply Z.leb_gt in Hc. rewrite Hu, !zlen_app in Hc. pose proof (zlen_nonneg before). pose proof (zlen_nonneg l).
      unfold zlen in Hc at 2. rewrite length_dashes in Hc. unfold S2N_PEM_DELIMITER_MIN_COUNT in Hc. lia. }
  intros _. apply wp_bind. eapply wp_mono; [by apply wp_skip_read_until|..].
  2:{ intros e w' s' (_ & _ & Hno & _). by destruct (Hno (length before) (proj1 Hf)). }
  intros _ w' s' [-> [(i & Hi & Hil & ->)|[[Hno _] _]]]; [|by destruct (Hno (length before) (proj1 Hf))].
  rewrite (first_at_unique _ _ _ _ Hi Hf) in *. clear i Hi.
  assert (Hs2 : stuffer_ok (hp w) (advanced (Z.of_nat (length before + length S2N_PEM_DELIMITER_TOKEN)) s))
    by (apply advanced_ok; [done|unfold zlen in Hl; lia]).
  pose proof (ok_read _ _ Hs). apply wp_bind, wp_rewind_read; [done|done| |].
  2:{ simpl. unfold zlen. simpl. lia. }
  intros _. match goal with |- wp _ (_, ?x) _ _ => replace x with (advanced (zlen before) s) end.
  2:{ unfold advanced. simpl. unfold set_read_cursor, zlen. simpl. f_equal. lia. }
  apply wp_bind, wp_skip_expected_char; [done|done|done|]. cbv zeta. rewrite Hu1.
  change S2N_PEM_DELIMITER_MAX_COUNT with 64. rewrite dash_run_len by done.
  change S2N_PEM_DELIMITER_MIN_COUNT with 2. split; [|lia]. intros _. apply wp_ret.
  destruct (unread_behind _ _ _ _ Hs1 Hu1) as (Hs3 & Hu3 & Hm3). unfold zlen in Hs3, Hu3, Hm3. rewrite length_dashes in Hs3, Hu3, Hm3.
  apply HQ; [|done|done]. by eapply moved_trans.
Qed.

Lemma wp_line (w : world) s marker keyword before n1 n2 rest Q E :
  stuffer_ok (hp w) s -> marker = S2N_PEM_BEGIN_TOKEN \/ marker = S2N_PEM_END_TOKEN ->
  unread (hp w) s = before ++ dashes n1 ++ marker ++ keyword ++ dashes n2 ++ rest ->
  (2 <= n1 <= 64)%nat -> dash_run n2 rest ->
  first_at (before ++ S2N_PEM_DELIMITER_TOKEN) (length before) S2N_PEM_DELIMITER_TOKEN ->
  (forall s', moved s s' -> stuffer_ok (hp w) s' -> unread (hp w) s' = after_line marker rest -> Q tt w s') ->
  wp (s2n_stuffer_pem_read_encapsulation_line marker keyword) (w, s) Q E.
Proof.
  intros Hs Hmk Hu Hn1 Hrun Hfirst HQ. apply wp_bind, (wp_delimiter _ _ before n1 (marker ++ keyword ++ dashes n2 ++ rest)); [done|done| |done|].
  { split; [done|]. right. by destruct Hmk as [-> | ->]. }
  intros s1 Hm1 Hs1 Hu1. destruct (unread_behind _ _ _ _ Hs1 Hu1) as (Hs2 & Hu2 & Hm2).
  apply wp_bind, wp_read_expected_str; [done| |intros e Hno; by rewrite Hu1 in Hno; destruct Hno; apply starts_with_app].
  intros _ _. destruct (unread_behind _ _ _ _ Hs2 Hu2) as (Hs3 & Hu3 & Hm3).
  apply wp_bind, wp_read_expected_str; [done| |intros e Hno; by rewrite Hu2 in Hno; destruct Hno; apply starts_with_app].
  intros _ _. set (s3 := advanced (zlen keyword) _) in *. destruct (unread_behind _ _ _ _ Hs3 Hu3) as (Hs4 & Hu4 & Hm4).
  apply wp_bind, wp_skip_expected_char; [done|done|done|]. cbv zeta. rewrite Hu3.
  change S2N_PEM_DELIMITER_MAX_COUNT with 64. rewrite dash_run_len by done.
  pose proof Hrun as [Hn2 _]. change S2N_PEM_DELIMITER_MIN_COUNT with 2. split; [|lia]. intros _.
  unfold zlen in Hs4, Hu4, Hm4. rewrite length_dashes in Hs4, Hu4, Hm4. set (s4 := advanced (Z.of_nat n2) s3) in *.
  assert (Hm : moved s s4) by (by repeat (eapply moved_trans; [eassumption|])).
  assert (Hend : bool_decide (take (length S2N_PEM_END_TOKEN) marker = S2N_PEM_END_TOKEN) = bool_decide (marker = S2N_PEM_END_TOKEN))
    by (by destruct Hmk as [-> | ->]).
  assert (Hws : forall s5 l, stuffer_ok (hp w) s5 -> unread (hp w) s5 = l -> moved s s5 ->
    drop (span_len is_whitespace l) l = after_line marker rest -> wp (s2n_stuffer_skip_whitespace ;;; ret tt) (w, s5) Q E).
  { intros s5 l Hs5 Hu5 Hm5 Hal. apply wp_bind, wp_skip_whitespace; [done|]. intros _. apply wp_ret. rewrite Hu5.
    pose proof (unread_len Hs5) as Hl5. pose proof (span_len_range is_whitespace _ _ Hs5) as Hr5. rewrite Hu5 in Hr5, Hl5.
    apply HQ; [eapply moved_trans; [done|]; apply (moved_advanced (hp w)); [done|rewrite Hu5; lia]|apply advanced_ok; [done|lia]|].
    rewrite unread_advanced by (done || lia). by rewrite Hu5, Nat2Z.id. }
  rewrite Hend. apply wp_bind. unfold after_line in Hws. case_bool_decide as Hmark; cbn [andb] in Hws.
  2:{ apply wp_ret. by apply (Hws _ rest). }
  apply wp_bind, wp_attempt, wp_peek_check_for_str; [done|..]; rewrite Hu4.
  - intros Hb. rewrite bool_decide_eq_true_2 in Hws by done. pose proof (ok_read _ _ Hs3). pose proof (ok_read _ _ Hs4).
    assert (Hr4 : read_cursor s4 = read_cursor s3 + Z.of_nat n2) by done. change S2N_PEM_DELIMITER_MIN_COUNT with 2.
    apply wp_rewind_read; [done|done|intros _|lia]. apply (Hws _ (dashes 2 ++ rest)); [..|done].
    + apply set_read_ok; [done|lia].
    + change (set_read_cursor _ s4) with (set_read_cursor (read_cursor s3 + Z.of_nat n2 - 2) s3).
      replace (read_cursor s3 + Z.of_nat n2 - 2) with (read_cursor s3 + Z.of_nat (n2 - 2)) by lia.
      fold (advanced (Z.of_nat (n2 - 2)) s3). pose proof (unread_len Hs3) as Hl3. rewrite Hu3, zlen_app in Hl3.
      pose proof (zlen_nonneg rest). unfold zlen in Hl3 at 1. rewrite length_dashes in Hl3. rewrite unread_advanced by (done || lia).
      rewrite Hu3, Nat2Z.id. unfold dashes. replace n2 with ((n2 - 2) + 2)%nat at 2 by lia.
      rewrite repeat_app, <- app_assoc. apply drop_app_length'. by rewrite repeat_length.
    + eapply moved_trans; [exact Hm|]. exists (read_cursor s4 - 2). split; [lia|done].
  - intros e Hb. apply wp_ret. rewrite bool_decide_eq_false_2 in Hws by done. by apply (Hws _ rest).
Qed.
End Lines.

(** ** The contents *)

(** Three stuffers that share no memory; the last one is that of the local
    buffer, in block [k]. *)
Record pem_ok (k : positive) (w : world) (pem asn1 b64 : s2n_stuffer) : Prop := {
  pk_pem : copy_state w pem asn1;
  pk_b64 : copy_state w b64 asn1;
  pk_sep : separate (blob pem) (blob b64);
  pk_data : data (blob b64) = Some (Ptr k 0);
  pk_size : size (blob b64) = 64;
  pk_read : read_cursor b64 = 0;
}.

Lemma copy_state_sym w from to : copy_state w from to -> copy_state w to from.
Proof. intros [? ? ? Hsep ?]. split; try done. by apply separate_sym. Qed.

(** A step of the output leaves the others as they are. *)
Lemma pem_ok_asn1 k w pem asn1 b64 w' asn1' :
  pem_ok k w pem asn1 b64 -> step_ok w asn1 w' asn1' ->
  pem_ok k w' pem asn1' b64 /\ unread (hp w') pem = unread (hp w) pem /\ written (hp w') b64 = written (hp w) b64.
Proof.
  intros [Hp Hb Hsep Hd Hsz Hrc] Hst. split_goal.
  - split; try done; [by apply (copy_state_step w pem asn1)|by apply (copy_state_step w b64 asn1)].
  - unfold unread. by rewrite (proj2 (framed_stuffer _ _ _ _ (cs_from _ _ _ Hp) (cs_sep _ _ _ Hp) (step_frame _ _ _ _ Hst))).
  - apply (framed_stuffer _ _ _ _ (cs_from _ _ _ Hb) (cs_sep _ _ _ Hb) (step_frame _ _ _ _ Hst)).
Qed.

(** So does a step of the local buffer. *)
Lemma pem_ok_b64 k w pem asn1 b64 w' b64' :
  pem_ok k w pem asn1 b64 -> step_ok w b64 w' b64' -> blob b64' = blob b64 -> read_cursor b64' = 0 ->
  pem_ok k w' pem asn1 b64' /\ unread (hp w') pem = unread (hp w) pem /\ written (hp w') asn1 = written (hp w) asn1.
Proof.
  intros [Hp Hb Hsep Hd Hsz Hrc] Hst Hblob Hrc'. pose proof (copy_state_sym _ _ _ Hb) as Hb'.
  destruct (framed_stuffer _ _ _ _ (cs_from _ _ _ Hp) Hsep (step_frame _ _ _ _ Hst)) as [Hp' Hwp].
  destruct (framed_stuffer _ _ _ _ (cs_from _ _ _ Hb') (cs_sep _ _ _ Hb') (step_frame _ _ _ _ Hst)) as [Ha' Hwa].
  pose proof (copy_state_step _ _ _ _ _ _ Hb' Hst eq_refl ltac:(done)) as Hb2. split_goal; [|unfold unread; by rewrite Hwp|done].
  split; rewrite ?Hblob; try done.
  - destruct Hb2 as [? ? ? ? ?]. destruct Hp as [? ? ? ? ?]. by split.
  - by apply copy_state_sym.
Qed.

Lemma pem_ok_moved k w pem asn1 b64 pem' : pem_ok k w pem asn1 b64 -> moved pem pem' -> pem_ok k w pem' asn1 b64.
Proof.
  intros [[? ? ? ? ?] ? ? ? ? ?] Hm. pose proof (moved_blob _ _ Hm) as Hb. split; rewrite ?Hb; try done.
  split; rewrite ?Hb; try done. by apply (moved_ok _ pem).
Qed.

Section Contents.
Context `{HP : Platform} `{HB : !BlobAllocator} `{HE : Base64Env} `{HOK : !Base64Ok}.

(** The characters in the local buffer. *)
Lemma pending k w pem asn1 b64 : pem_ok k w pem asn1 b64 -> unread (hp w) b64 = written (hp w) b64 /\ zlen (written (hp w) b64) <= 64.
Proof.
  intros [_ Hb _ _ Hsz Hrc]. unfold unread. rewrite Hrc. split; [done|]. rewrite (written_len (cs_from _ _ _ Hb)).
  pose proof (ok_write _ _ (cs_from _ _ _ Hb)). lia.
Qed.

(** A character goes to the local buffer, which is decoded first when it is full. *)
Lemma wp_take_char k w pem asn1 b64 c Q E :
  pem_ok k w pem asn1 b64 -> is_u8 c ->
  (forall w' b64', zlen (written (hp w) b64) < 64 -> pem_ok k w' pem asn1 b64' -> unread (hp w') pem = unread (hp w) pem ->
     written (hp w') asn1 = written (hp w) asn1 -> written (hp w') b64' = written (hp w) b64 ++ [c] -> Q tt w' (pem, asn1, b64')) ->
  (zlen (written (hp w) b64) = 64 ->
   wp s2n_stuffer_read_base64 (w, (b64, asn1))
     (fun _ w1 st => exists asn1' n, st = (advanced n b64, asn1') /\ 0 <= n <= 64 /\ step_ok w asn1 w1 asn1' /\
        forall w' b64', pem_ok k w' pem asn1' b64' -> unread (hp w') pem = unread (hp w) pem ->
          written (hp w') asn1' = written (hp w1) asn1' -> written (hp w') b64' = [c] -> Q tt w' (pem, asn1', b64'))
     (fun e w1 st => E e w1 (pem, snd st, fst st))) ->
  wp (take_base64_char c) (w, (pem, asn1, b64)) Q E.
Proof.
  intros Hok Hc HQ1 HQ2. destruct (pending _ _ _ _ _ Hok) as [Hpu Hpl]. pose proof Hok as [Hp Hb Hsep Hd Hsz Hrc].
  pose proof (cs_from _ _ _ Hb) as Hbo. pose proof (written_len Hbo) as Hwl.
  assert (Hsrc : forall w' s', source_ok w' s' (LocalBuf [c]) [c]) by (intros; apply source_local; [by constructor; [|constructor]|done]).
  apply wp_bind, wp_zoom, wp_get_obj. cbn [lget lset base64_lens snd_lens fst snd]. rewrite (space_remaining_eq Hbo), Hsz, <- Hwl.
  apply wp_bind. destruct (Z.eqb_spec (64 - zlen (written (hp w) b64)) 0) as [Hfull|Hroom].
  - specialize (HQ2 ltac:(lia)). apply wp_bind, wp_zoom. cbn [lget lset decode_lens fst snd].
    eapply wp_mono; [exact HQ2| |done]. clear HQ1 HQ2. intros _ w1 st (asn1' & n & -> & Hn & Hst & HQ).
    cbn [lget lset fst snd decode_lens].
    destruct (pem_ok_asn1 _ _ _ _ _ _ _ Hok Hst) as (Hok1 & Hu1 & Hw1). pose proof (cs_from _ _ _ (pk_b64 _ _ _ _ _ Hok1)) as Hbo1.
    assert (Hadv : stuffer_ok (hp w1) (advanced n b64)) by (apply advanced_ok; [done|lia]).
    pose proof (cs_world _ _ _ (pk_b64 _ _ _ _ _ Hok1)) as Hwok1. set (b0 := set_read_cursor 0 (set_write_cursor 0 (advanced n b64))).
    pose proof (ok_write _ _ Hbo1).
    assert (Hb0 : stuffer_ok (hp w1) b0) by (apply (stuffer_ok_cursors _ b64); [done|simpl; lia|simpl; lia]).
    assert (Hst0 : step_ok w1 b64 w1 b0) by (apply step_ok_cursors; [apply Hwok1|done|done]).
    apply wp_zoom, wp_rewrite; [done|]. cbn [lget lset base64_lens snd_lens fst snd].
    intros s0 -> _. fold b0. apply wp_zoom.
    apply (wp_write_bytes _ _ _ [c]); [done|done|done|done| |].
    + intros w2 b2 Happ. cbn [lget lset base64_lens snd_lens fst snd]. pose proof (app_step _ _ _ _ _ Happ) as Hst2.
      destruct (app_shape _ _ _ _ _ Happ) as [b' Hsh]. assert (Hblob2 : blob b2 = blob b64).
      { rewrite (app_fits _ _ _ _ _ Happ); [done|]. simpl. rewrite Hsz. change (zlen [c]) with 1. lia. }
      destruct (pem_ok_b64 _ _ _ _ _ _ b2 Hok1 (step_ok_trans _ _ _ _ _ _ Hst0 Hst2) Hblob2) as (Hok2 & Hu2 & Hw2); [by rewrite Hsh|].
      apply HQ; [done|by rewrite Hu2|done|]. rewrite (app_bytes _ _ _ _ _ Happ). unfold written. simpl.
      rewrite Hd. by rewrite bytes_at_0.
    + intros e w2 b2 [Hf _]. exfalso. simpl in Hf. rewrite Hsz in Hf. change (zlen [c]) with 1 in Hf. lia.
  - apply wp_ret, wp_zoom. cbn [lget lset base64_lens snd_lens fst snd].
    apply (wp_write_bytes _ _ _ [c]); [apply Hb|done|done|done| |].
    + intros w2 b2 Happ. destruct (app_shape _ _ _ _ _ Happ) as [b' Hsh]. assert (Hblob2 : blob b2 = blob b64).
      { apply (app_fits _ _ _ _ _ Happ). rewrite Hsz, <- Hwl. change (zlen [c]) with 1. lia. }
      destruct (pem_ok_b64 _ _ _ _ _ _ b2 Hok (app_step _ _ _ _ _ Happ) Hblob2) as (Hok2 & Hu2 & Hw2); [by rewrite Hsh|].
      apply HQ1; [lia|done|done|done|apply Happ].
    + intros e w2 b2 [Hf _]. exfalso. rewrite Hsz, <- Hwl in Hf. change (zlen [c]) with 1 in Hf. lia.
Qed.

(** What the caller's stuffers need to survive the end of the local buffer. *)
Definition outer_ok (k : positive) (w : world) (pem asn1 : s2n_stuffer) : Prop :=
  copy_state w pem asn1 /\ ~ in_block (blob pem) k /\ ~ in_block (blob asn1) k.

Lemma pem_ok_outer k w pem asn1 b64 : pem_ok k w pem asn1 b64 -> outer_ok k w pem asn1.
Proof.
  intros [Hp Hb Hsep Hd _ _]. assert (Hk : in_block (blob b64) k) by (by exists (Ptr k 0)).
  unfold outer_ok. split_goal; [done| |]; intros Hin; [by apply (Hsep k)|by apply (cs_sep _ _ _ Hb k)].
Qed.

(** The head of the loop: the next character. *)
Lemma wp_contents_head fuel k w pem asn1 b64 Q E :
  pem_ok k w pem asn1 b64 -> (length (unread (hp w) pem) <= fuel)%nat ->
  (unread (hp w) pem = [] -> E S2N_ERR_STUFFER_OUT_OF_DATA w (pem, asn1, b64)) ->
  (forall l, unread (hp w) pem = S2N_PEM_DELIMITER_CHAR :: l -> Q tt w (pem, asn1, b64)) ->
  (forall c l fuel', unread (hp w) pem = c :: l -> c <> S2N_PEM_DELIMITER_CHAR -> is_u8 c -> fuel = S fuel' ->
     pem_ok k w (advanced 1 pem) asn1 b64 -> unread (hp w) (advanced 1 pem) = l -> moved pem (advanced 1 pem) ->
     wp ((if negb (s2n_is_base64_char c) then ret tt else take_base64_char c) ;;; contents_loop fuel')
       (w, (advanced 1 pem, asn1, b64)) Q E) ->
  wp (contents_loop fuel) (w, (pem, asn1, b64)) Q E.
Proof.
  intros Hok Hfuel HE0 HQ Hstep. pose proof (pk_pem _ _ _ _ _ Hok) as Hcs. pose proof (cs_from _ _ _ Hcs) as Hp.
  pose proof (unread_len Hp) as Hl. pose proof (ok_read _ _ Hp). pose proof (ok_write _ _ Hp). pose proof (ok_size32 Hp).
  pose proof (unread_is_bytes w pem (proj1 (cs_world _ _ _ Hcs))) as Hbytes.
  destruct fuel as [|fuel']; cbn [contents_loop]; apply wp_bind, wp_zoom, wp_get_obj; cbn [lget lset pem_lens fst snd];
    rewrite (data_available_eq Hp), <- Hl; destruct (unread (hp w) pem) as [|c l] eqn:Hu;
    (apply wp_bind, wp_ensure; intros Hc; [|try by apply HE0]);
    try (change (zlen []) with 0 in Hc; discriminate Hc);
    try (unfold zlen in Hc; simpl in Hc; apply Z.leb_gt in Hc; lia); simpl in Hfuel; [lia|].
  apply wp_bind, (wp_load_unread _ _ pem 0 c); [done|by rewrite Hu|lia|].
  destruct (Z.eqb_spec c S2N_PEM_DELIMITER_CHAR) as [->|Hne]; [apply wp_ret; by eapply HQ|].
  apply Forall_cons_1 in Hbytes as [Hb _]. destruct (unread_behind _ _ [c] l Hp Hu) as (Hs1 & Hu1 & Hm1). change (zlen [c]) with 1 in *.
  apply wp_bind, wp_zoom, wp_modify. cbn [lget lset pem_lens fst snd]. unfold zlen in Hl. simpl in Hl. rewrite u32_small by lia.
  apply (Hstep c l fuel'); try done. by apply (pem_ok_moved _ _ pem).
Qed.

(** Whatever the text, the loop ends and keeps to its memory. *)
Lemma contents_loop_safe fuel k w pem asn1 b64 :
  pem_ok k w pem asn1 b64 -> (length (unread (hp w) pem) <= fuel)%nat ->
  wp (contents_loop fuel) (w, (pem, asn1, b64))
    (fun _ w' st => exists pem' asn1' b64', st = (pem', asn1', b64') /\ pem_ok k w' pem' asn1' b64' /\ moved pem pem')
    (fun _ w' st => outer_ok k w' (fst (fst st)) (snd (fst st)) /\ moved pem (fst (fst st))).
Proof.
  revert w pem asn1 b64. induction fuel as [|fuel IH]; intros w pem asn1 b64 Hok Hfuel.
  - apply (wp_contents_head _ k); [done|done|..].
    + intros _. split; [by eapply pem_ok_outer|]. by apply (moved_refl (hp w)), Hok.
    + intros l Hu. rewrite Hu in Hfuel. simpl in Hfuel. lia.
    + done.
  - pose proof (moved_refl _ _ (cs_from _ _ _ (pk_pem _ _ _ _ _ Hok))) as Hrefl. apply (wp_contents_head _ k); [done|done|..].
    + intros _. split; [by eapply pem_ok_outer|done].
    + intros l _. by exists pem, asn1, b64.
    + intros c l fuel' Hu Hne Hc [= <-] Hok1 Hu1 Hm. rewrite Hu in Hfuel. simpl in Hfuel.
      assert (Hrest : forall w' asn1' b64', pem_ok k w' (advanced 1 pem) asn1' b64' -> unread (hp w') (advanced 1 pem) = l ->
        wp (contents_loop fuel) (w', (advanced 1 pem, asn1', b64'))
          (fun _ w' st => exists pem' asn1' b64', st = (pem', asn1', b64') /\ pem_ok k w' pem' asn1' b64' /\ moved pem pem')
          (fun _ w' st => outer_ok k w' (fst (fst st)) (snd (fst st)) /\ moved pem (fst (fst st)))).
      { intros w' asn1' b64' Hok' Hu'. eapply wp_mono; [apply IH; [exact Hok'|rewrite Hu'; lia]|..].
        - intros _ w2 st (pem2 & asn2 & b2 & -> & Hok2 & Hm2). exists pem2, asn2, b2. split_goal; [done|done|by apply (moved_trans _ (advanced 1 pem))].
        - intros e w2 st [Ho Hm2]. split; [done|by apply (moved_trans _ (advanced 1 pem))]. }
      apply wp_bind. destruct (negb _); [by apply wp_ret, Hrest|].
      destruct (pending _ _ _ _ _ Hok1) as [Hpu Hpl]. apply (wp_take_char k); [done|done| |].
      * intros w' b64' _ Hok' Hu' _ _. apply Hrest; [done|by rewrite Hu'].
      * intros Hfull. rewrite <- Hpu in Hfull. apply wp_read_base64; [apply Hok1|lia|lia| |].
        -- intros w1 asn1' _ Hd. exists asn1', (zlen (base64_text w b64)). pose proof (zlen_nonneg (base64_text w b64)).
           split_goal; [done|done| |apply Hd|].
           { unfold base64_text, zlen. rewrite length_take. unfold zlen in Hfull. lia. }
           intros w' b64' Hok' Hu' _ _. apply Hrest; [done|by rewrite Hu'].
        -- intros e w1 asn1' _ Hst _. simpl. split; [|done]. eapply pem_ok_outer. by apply (pem_ok_asn1 _ _ _ _ _ _ _ Hok1 Hst).
Qed.

(** What was added to a stuffer, with [room] bytes needed at the most, while
    other memory may have changed. *)
Record added (w : world) (to : s2n_stuffer) (bs : list Z) (room : Z) (w' : world) (to' : s2n_stuffer) : Prop := {
  ad_ok : stuffer_ok (hp w') to';
  ad_read : read_cursor to' = read_cursor to;
  ad_bytes : written (hp w') to' = written (hp w) to ++ bs;
  ad_fits : room <= size (blob to) - write_cursor to -> blob to' = blob to;
}.

Lemma grown_added w to bs room w' to' : grown w to bs room w' to' -> added w to bs room w' to'.
Proof. intros [Hst ? ? ?]. split; try done. apply Hst. Qed.

Lemma added_cursor w to bs room w' to' : stuffer_ok (hp w) to -> added w to bs room w' to' -> write_cursor to' = write_cursor to + zlen bs.
Proof.
  intros Ht Hg. rewrite <- (written_len (ad_ok _ _ _ _ _ _ Hg)), (ad_bytes _ _ _ _ _ _ Hg), zlen_app. by rewrite (written_len Ht).
Qed.

Lemma added_trans w to bs1 r1 w1 to1 bs2 r2 w2 to2 room :
  stuffer_ok (hp w) to -> added w to bs1 r1 w1 to1 -> added w1 to1 bs2 r2 w2 to2 -> r1 <= room -> zlen bs1 + r2 <= room ->
  added w to (bs1 ++ bs2) room w2 to2.
Proof.
  intros Ht Hg1 Hg2 H1 H2. pose proof (added_cursor _ _ _ _ _ _ Ht Hg1) as Hwc. destruct Hg1 as [? ? Hb1 Hf1], Hg2 as [? ? Hb2 Hf2]. split.
  - done.
  - congruence.
  - by rewrite Hb2, Hb1, app_assoc.
  - intros Hroom. specialize (Hf1 ltac:(lia)). rewrite Hf2; [done|]. rewrite Hf1. lia.
Qed.

Lemma added_nil w to room w' : stuffer_ok (hp w') to -> written (hp w') to = written (hp w) to -> added w to [] room w' to.
Proof. intros Ht Hwr. split; [done|done|by rewrite app_nil_r|done]. Qed.

(** The first 64 characters of a longer text are those of 48 bytes. *)
Lemma full_line rem pend more : is_bytes rem -> base64_of rem = pend ++ more -> zlen pend = 64 -> more <> [] ->
  zlen (take 48 rem) = 48 /\ pend = base64_of (take 48 rem) /\ more = base64_of (drop 48 rem).
Proof.
  intros Hb He Hp Hm. pose proof (zlen_base64_of rem) as Hl. rewrite He, zlen_app, Hp in Hl. pose proof (missing_range rem).
  pose proof (whole_groups rem). assert (0 < zlen more) by (destruct more; [done|unfold zlen; simpl; lia]).
  assert (H48 : zlen (take 48 rem) = 48).
  { assert (48 <= zlen rem) by (Z.to_euclidean_division_equations; lia). unfold zlen in *. rewrite length_take. lia. }
  split; [done|]. rewrite <- (take_drop 48 rem), base64_of_app in He by (by rewrite H48).
  apply app_inj_1 in He as [-> ->]; [done|].
  pose proof (zlen_base64_of (take 48 rem)) as Hl48. unfold missing in Hl48. rewrite H48 in Hl48.
  change (zlen (base64_of (take 48 rem)) = 64) in Hl48. unfold zlen in Hl48, Hp. lia.
Qed.

(** What is still to come from the text, given the characters in the buffer. *)
Definition base64_chars (l : list Z) : list Z := List.filter s2n_is_base64_char l.

Definition contents_post (k : positive) (w : world) (pem asn1 : s2n_stuffer) (rest rem : list Z) (w' : world) (st : pem_state) : Prop :=
  exists pem' asn1' b64' dec rem', st = (pem', asn1', b64') /\ pem_ok k w' pem' asn1' b64' /\ moved pem pem' /\
    unread (hp w') pem' = S2N_PEM_DELIMITER_CHAR :: rest /\ rem = dec ++ rem' /\ zlen dec mod 3 = 0 /\
    added w asn1 dec (zlen rem + missing rem) w' asn1' /\ written (hp w') b64' = base64_of rem'.

Definition contents_err (k : positive) (pem asn1 : s2n_stuffer) (rem : list Z) (w' : world) (st : pem_state) : Prop :=
  outer_ok k w' (fst (fst st)) (snd (fst st)) /\ moved pem (fst (fst st)) /\
  size (blob asn1) - write_cursor asn1 < zlen rem + missing rem.

Lemma missing_app as_ bs : zlen as_ mod 3 = 0 -> missing (as_ ++ bs) = missing bs.
Proof.
  intros Hm. unfold missing. rewrite zlen_app. replace (- (zlen as_ + zlen bs)) with (- zlen bs + - (zlen as_ / 3) * 3); [apply Z_mod_plus_full|].
  Z.to_euclidean_division_equations. lia.
Qed.

(** The loop from a state in which [dec] was decoded already. *)
Lemma contents_resume k w pem asn1 w1 pem1 asn1' st rest dec rem :
  stuffer_ok (hp w) asn1 -> moved pem pem1 -> added w asn1 dec (zlen dec) w1 asn1' -> zlen dec mod 3 = 0 ->
  forall w', contents_post k w1 pem1 asn1' rest rem w' st -> contents_post k w pem asn1 rest (dec ++ rem) w' st.
Proof.
  intros Ha Hm Hg Hdec w' (pem' & asn2 & b64' & dec' & rem' & -> & Hok & Hm' & Hu & -> & Hd & Hg' & Hb).
  exists pem', asn2, b64', (dec ++ dec'), rem'. pose proof (missing_range (dec' ++ rem')). pose proof (zlen_nonneg (dec' ++ rem')).
  rewrite missing_app, (zlen_app dec (dec' ++ rem')) by done.
  split_goal; [done|done|by apply (moved_trans _ pem1)|done|by rewrite app_assoc| | |done].
  - rewrite zlen_app, Z.add_mod, Hdec, Hd by lia. done.
  - eapply added_trans; [done|exact Hg|exact Hg'|lia|lia].
Qed.

Lemma contents_resume_err k w pem asn1 w1 pem1 asn1' st dec rem :
  stuffer_ok (hp w) asn1 -> moved pem pem1 -> added w asn1 dec (zlen dec) w1 asn1' -> zlen dec mod 3 = 0 ->
  forall w', contents_err k pem1 asn1' rem w' st -> contents_err k pem asn1 (dec ++ rem) w' st.
Proof.
  intros Ha Hm Hg Hdec w' (Ho & Hm' & Hroom). pose proof (added_cursor _ _ _ _ _ _ Ha Hg) as Hwc.
  unfold contents_err. split_goal; [done|by apply (moved_trans _ pem1)|]. rewrite missing_app, zlen_app by done. pose proof (missing_range rem). pose proof (zlen_nonneg rem).
  destruct (Z.le_gt_cases (zlen dec) (size (blob asn1) - write_cursor asn1)) as [Hle|Hgt]; [|lia].
  rewrite (ad_fits _ _ _ _ _ _ Hg Hle) in Hroom. lia.
Qed.

(** The loop decodes all full lines of the buffer. *)
Lemma wp_contents_loop body fuel k w pem asn1 b64 rest rem :
  pem_ok k w pem asn1 b64 -> unread (hp w) pem = body ++ S2N_PEM_DELIMITER_CHAR :: rest ->
  Forall (fun c => c <> S2N_PEM_DELIMITER_CHAR) body -> (length (unread (hp w) pem) <= fuel)%nat ->
  is_bytes rem -> base64_of rem = written (hp w) b64 ++ base64_chars body ->
  wp (contents_loop fuel) (w, (pem, asn1, b64)) (fun _ => contents_post k w pem asn1 rest rem) (fun _ => contents_err k pem asn1 rem).
Proof.
  intros Hok Hu Hbody. revert fuel w pem asn1 b64 rem Hok Hu.
  induction Hbody as [|c body Hne Hbody IH]; intros fuel w pem asn1 b64 rem Hok Hu Hfuel Hrem Htext; cbn [app] in Hu.
  all: pose proof (cs_from _ _ _ (pk_pem _ _ _ _ _ Hok)) as Hp; pose proof (cs_to _ _ _ (pk_pem _ _ _ _ _ Hok)) as Ha;
    pose proof (moved_refl _ _ Hp) as Hrefl.
  - apply (wp_contents_head _ k); [done|done|by rewrite Hu| |by intros c l fuel' Hu'; rewrite Hu in Hu'; injection Hu' as <- _].
    intros l _. exists pem, asn1, b64, [], rem. rewrite app_nil_r in Htext. split_goal; try done. by apply added_nil.
  - apply (wp_contents_head _ k); [done|done|by rewrite Hu|by intros l Hu'; rewrite Hu in Hu'; injection Hu' as -> _|].
    intros c' l fuel' Hu' _ Hc8 -> Hok1 Hu1 Hm1. rewrite Hu in Hu'. injection Hu' as <- <-. rewrite Hu in Hfuel. simpl in Hfuel.
    unfold base64_chars in Htext. cbn [List.filter] in Htext. fold (base64_chars body) in Htext. apply wp_bind.
    destruct (s2n_is_base64_char c); cbn [negb].
    2:{ apply wp_ret. eapply wp_mono; [apply (IH fuel' w (advanced 1 pem)); [exact Hok1|done|rewrite Hu1; lia|exact Hrem|exact Htext]|..].
        - intros a w' st. apply (contents_resume k w pem asn1 w (advanced 1 pem) asn1 st rest [] rem); [done|done|by apply added_nil|done].
        - intros a w' st. apply (contents_resume_err k w pem asn1 w (advanced 1 pem) asn1 st [] rem); [done|done|by apply added_nil|done]. }
    apply (wp_take_char k); [done|done| |].
    + intros w1 b1 _ Hok2 Hu2 Hw2 Hb2. rewrite Hu1 in Hu2. pose proof (cs_to _ _ _ (pk_pem _ _ _ _ _ Hok2)) as Ha2.
      eapply wp_mono; [apply (IH fuel' w1 (advanced 1 pem)); [exact Hok2|done|rewrite Hu2; lia|exact Hrem|by rewrite Hb2, <- app_assoc]|..].
      * intros a w' st. apply (contents_resume k w pem asn1 w1 (advanced 1 pem) asn1 st rest [] rem); [done|done|by apply added_nil|done].
      * intros a w' st. apply (contents_resume_err k w pem asn1 w1 (advanced 1 pem) asn1 st [] rem); [done|done|by apply added_nil|done].
    + intros Hfull. destruct (full_line _ _ _ Hrem Htext Hfull ltac:(done)) as (H48 & Hpend & Hmore).
      assert (Hmod : zlen (take 48 rem) mod 3 = 0) by (by rewrite H48).
      assert (Hmiss : missing (take 48 rem) = 0) by (unfold missing; by rewrite H48).
      apply (wp_read_base64_of _ _ _ (take 48 rem)); [apply Hok1|by apply Forall_take|lia|by rewrite (proj1 (pending _ _ _ _ _ Hok1))|..];
        rewrite Hmiss, Z.add_0_r.
      * intros w1 asn1' Hg. exists asn1', (zlen (base64_of (take 48 rem))). pose proof (gr_step _ _ _ _ _ _ Hg) as Hst.
        split_goal; [done|apply zlen_nonneg|rewrite <- Hpend; lia|done|]. intros w' b' Hok2 Hu2 Hw2 Hb2. rewrite Hu1 in Hu2.
        assert (Had : added w asn1 (take 48 rem) (zlen (take 48 rem)) w' asn1').
        { apply grown_added in Hg. destruct Hg as [_ Hr Hb Hf]. split; [apply Hok2|done|by rewrite Hw2|done]. }
        rewrite <- (take_drop 48 rem). eapply wp_mono;
          [apply (IH fuel' w' (advanced 1 pem) asn1' b' (drop 48 rem)); [exact Hok2|done|rewrite Hu2; lia|by apply Forall_drop|]|..].
        -- by rewrite Hb2, <- Hmore.
        -- intros a w2 st. by apply (contents_resume k w pem asn1 w' (advanced 1 pem) asn1').
        -- intros a w2 st. by apply (contents_resume_err k w pem asn1 w' (advanced 1 pem) asn1').
      * intros e w1 asn1' Hst Hroom. simpl. unfold contents_err. cbn [fst snd].
        split_goal; [eapply pem_ok_outer; by apply (pem_ok_asn1 _ _ _ _ _ _ _ Hok1 Hst)|done|].
        pose proof (missing_range rem). assert (48 <= zlen rem) by (unfold zlen in *; rewrite length_take in H48; lia). lia.
Qed.

(** ** The local buffer *)

Definition stack_blob (k : positive) (n : Z) : s2n_blob := Blob (Some (Ptr k 0)) n 0 false.
Definition with_stack (w : world) (k : positive) (n : Z) : world := World (<[k := repeat 0 (Z.to_nat n)]> (hp w)) (mem w).
Definition without_stack (w : world) (k : positive) : world := World (delete k (hp w)) (mem w).

Lemma stack_blob_ok w k n : 0 <= n < 2 ^ 32 -> blob_ok (hp (with_stack w k n)) (stack_blob k n).
Proof.
  intros Hn. split; simpl; unfold is_u32; try done; try lia. intros p [= <-]. rewrite Z.max_l by lia.
  exists (repeat 0 (Z.to_nat n)). simpl. rewrite lookup_insert_eq, zlen_repeat by lia. split_goal; [done|lia..].
Qed.

Lemma wp_with_stack_blob {X A} n (c : s2n_blob -> Cmd X A) (w : world) (x : X) Q E :
  0 <= n < 2 ^ 32 ->
  (forall k, hp w !! k = None ->
     wp (c (stack_blob k n)) (with_stack w k n, x) (fun a w' => Q a (without_stack w' k)) (fun e w' => E e (without_stack w' k))) ->
  wp (with_stack_blob n c) (w, x) Q E.
Proof.
  intros Hn Hc. unfold wp, with_stack_blob. set (k := fresh (dom (hp w))). specialize (Hc k (proj1 (not_elem_of_dom _ _) (is_fresh _))).
  assert (Hrun : wp (b <-- with_local zero_blob (s2n_blob_init (Some (Ptr k 0)) n) ;; c (snd b)) (with_stack w k n, x)
    (fun a w' => Q a (without_stack w' k)) (fun e w' => E e (without_stack w' k))).
  { apply wp_bind, wp_with_local, wp_bind, wp_ensure; [intros _|unfold S2N_MEM_IS_READABLE; simpl; by rewrite orb_true_r].
    apply wp_bind, (wp_run _ _ tt (with_stack w k n) (stack_blob k n)); [done|]. apply wp_bind, wp_get_obj, wp_blob_postcondition; [by apply stack_blob_ok|].
    exact Hc. }
  unfold wp in Hrun. fold (with_stack w k n).
  by destruct (bind _ _ (with_stack w k n, x)) as [[a|e|] [w' x']].
Qed.

Lemma copy_state_framed b w w' from to :
  copy_state w from to -> separate (blob from) b -> separate (blob to) b -> frame b (hp w) (hp w') -> heap_ok (hp w') -> mem w' = mem w ->
  copy_state w' from to /\ written (hp w') from = written (hp w) from /\ written (hp w') to = written (hp w) to.
Proof.
  intros [Hw Hf Ht Hsep Hcb] Hsf Hst Hfr Hh Hm. destruct (framed_stuffer _ _ _ _ Hf Hsf Hfr) as [Hf' Hwf].
  destruct (framed_stuffer _ _ _ _ Ht Hst Hfr) as [Ht' Hwt]. split_goal; [|done|done].
  split; try done; [|by rewrite Hm]. split; [done|]. rewrite Hm. apply Hw.
Qed.

Lemma stack_enter k w pem asn1 :
  copy_state w pem asn1 -> hp w !! k = None ->
  pem_ok k (with_stack w k 64) pem asn1 (Stuffer (stack_blob k 64) 0 0 0 false false false) /\
  unread (hp (with_stack w k 64)) pem = unread (hp w) pem /\ written (hp (with_stack w k 64)) asn1 = written (hp w) asn1.
Proof.
  intros Hcs Hk. destruct (copy_state_framed zero_blob w (with_stack w k 64) pem asn1 Hcs) as (Hcs' & Hwp & Hwa); [..|done|].
  - by intros ? _ (p & ? & _).
  - by intros ? _ (p & ? & _).
  - intros j l Hj _. simpl. rewrite lookup_insert_ne; [done|]. intros ->. congruence.
  - apply map_Forall_insert_2; [apply is_bytes_repeat; unfold is_u8; lia|apply Hcs].
  - assert (Hin : forall s, stuffer_ok (hp w) s -> separate (blob s) (stack_blob k 64)).
    { intros s Hs j (p & Hp & <-) (q & [= <-] & Hq). simpl in Hq. destruct (ok_access _ _ (ok_blob _ _ Hs) _ Hp) as (l & Hl & _). congruence. }
    split_goal; [|unfold unread; by rewrite Hwp|done]. split; try done; [|by apply Hin, Hcs].
    split; try apply Hcs'; [|apply separate_sym, Hin, Hcs]. pose proof (stack_blob_ok w k 64 ltac:(lia)). split; simpl; try done; lia.
Qed.

Lemma stack_leave k w pem asn1 :
  outer_ok k w pem asn1 -> copy_state (without_stack w k) pem asn1 /\
  unread (hp (without_stack w k)) pem = unread (hp w) pem /\ written (hp (without_stack w k)) asn1 = written (hp w) asn1.
Proof.
  intros (Hcs & Hp & Ha).
  destruct (copy_state_framed (stack_blob k 0) w (without_stack w k) pem asn1 Hcs) as (Hcs' & Hwp & Hwa); [..|done|].
  - by intros j Hj (q & [= <-] & <-).
  - by intros j Hj (q & [= <-] & <-).
  - apply frame_freed.
  - apply map_Forall_delete, Hcs.
  - split_goal; [done|unfold unread; by rewrite Hwp|done].
Qed.

(** The contents of an object. *)
Lemma wp_pem_contents w pem asn1 body rest der Q E :
  copy_state w pem asn1 -> unread (hp w) pem = body ++ S2N_PEM_DELIMITER_CHAR :: rest ->
  Forall (fun c => c <> S2N_PEM_DELIMITER_CHAR) body -> is_bytes der -> base64_chars body = base64_of der ->
  (forall w' pem' asn1', copy_state w' pem' asn1' -> moved pem pem' -> unread (hp w') pem' = S2N_PEM_DELIMITER_CHAR :: rest ->
     added w asn1 der (zlen der + missing der) w' asn1' -> Q tt w' (pem', asn1')) ->
  (forall e w' pem' asn1', copy_state w' pem' asn1' -> moved pem pem' ->
     size (blob asn1) - write_cursor asn1 < zlen der + missing der -> E e w' (pem', asn1')) ->
  wp s2n_stuffer_pem_read_contents (w, (pem, asn1)) Q E.
Proof.
  intros Hcs Hu Hbody Hder Hchars HQ HEr. pose proof (cs_to _ _ _ Hcs) as Ha.
  assert (Hrun : wp (with_stack_blob 64 read_contents) (w, ((pem, asn1), zero_stuffer))
    (fun a w' st => Q a w' (fst st)) (fun e w' st => E e w' (fst st))).
  2:{ unfold wp in Hrun |- *. unfold s2n_stuffer_pem_read_contents.
      by destruct (with_stack_blob 64 read_contents (w, ((pem, asn1), zero_stuffer))) as [[a|e|] [w' x']]. }
  apply wp_with_stack_blob; [lia|]. intros k Hk. destruct (stack_enter k w pem asn1 Hcs Hk) as (Hok & Hu1 & Hw1).
  apply wp_bind, wp_zoom, wp_init; [by apply stack_blob_ok|]. cbn [lget lset base64_lens snd_lens fst snd].
  apply wp_bind, wp_zoom, wp_get_obj. cbn [lget lset pem_lens fst snd]. set (b0 := Stuffer _ _ _ _ _ _ _) in *.
  pose proof (cs_from _ _ _ (pk_pem _ _ _ _ _ Hok)) as Hp1. pose proof (cs_to _ _ _ (pk_pem _ _ _ _ _ Hok)) as Ha1.
  rewrite (data_available_eq Hp1), <- (unread_len Hp1), Hu1, Hu. unfold zlen at 1. rewrite Nat2Z.id.
  apply wp_bind. eapply wp_mono; [apply (wp_contents_loop body _ k _ pem asn1 b0 rest der); [done|by rewrite Hu1|done|by rewrite Hu1, Hu|done|]|..].
  - rewrite Hchars. unfold written, b0. cbn [blob data stack_blob write_cursor]. by rewrite bytes_at_0.
  - intros a w2 st (pem2 & asn2 & b2 & dec & rem & -> & Hok2 & Hm2 & Hu2 & Hder2 & Hd3 & Had & Hb2).
    assert (Hrem : is_bytes rem) by (rewrite Hder2 in Hder; apply Forall_app in Hder; apply Hder).
    destruct (pending _ _ _ _ _ Hok2) as [Hpu Hpl]. rewrite Hb2 in Hpl. pose proof (missing_range rem). pose proof (whole_groups rem).
    assert (zlen rem < 2 ^ 30) by (rewrite zlen_base64_of in Hpl; Z.to_euclidean_division_equations; lia).
    pose proof (cs_to _ _ _ (pk_pem _ _ _ _ _ Hok2)) as Ha2. assert (Hmiss : missing der = missing rem) by (rewrite Hder2; by apply missing_app).
    assert (Hzl : zlen der = zlen dec + zlen rem) by (by rewrite Hder2, zlen_app). pose proof (zlen_nonneg rem). pose proof (zlen_nonneg dec).
    assert (Had0 : added w asn1 dec (zlen der + missing der) w2 asn2).
    { destruct Had as [? ? Hby ?]. split; try done. by rewrite Hby, Hw1. }
    apply wp_zoom. cbn [lget lset decode_lens fst snd]. apply (wp_read_base64_of _ _ _ rem); [apply Hok2|done|done|by rewrite Hpu|..].
    + intros w3 asn3 Hg. cbn [lget lset decode_lens fst snd].
      destruct (pem_ok_asn1 _ _ _ _ _ _ _ Hok2 (gr_step _ _ _ _ _ _ Hg)) as (Hok3 & Hu3 & _).
      destruct (stack_leave _ _ _ _ (pem_ok_outer _ _ _ _ _ Hok3)) as (Hcs4 & Hu4 & Hw4).
      apply HQ; [done|done|by rewrite Hu4, Hu3|].
      assert (Hall : added w asn1 (dec ++ rem) (zlen der + missing der) w3 asn3)
        by (eapply added_trans; [done|exact Had0|apply grown_added; exact Hg|lia|lia]).
      rewrite <- Hder2 in Hall. destruct Hall as [? ? Hby ?]. split; [apply Hcs4|done|by rewrite Hw4|done].
    + intros e w3 asn3 Hst Hroom. cbn [lget lset decode_lens fst snd].
      destruct (pem_ok_asn1 _ _ _ _ _ _ _ Hok2 Hst) as (Hok3 & _ & _).
      destruct (stack_leave _ _ _ _ (pem_ok_outer _ _ _ _ _ Hok3)) as (Hcs4 & _ & _). apply HEr; [done|done|].
      pose proof (added_cursor _ _ _ _ _ _ Ha Had0) as Hwc. destruct (Z.le_gt_cases (zlen der + missing der) (size (blob asn1) - write_cursor asn1)); [|lia].
      rewrite (ad_fits _ _ _ _ _ _ Had0) in Hroom by done. lia.
  - intros e w2 [[pem2 asn2] b2] (Ho & Hm2 & Hroom). destruct (stack_leave _ _ _ _ Ho) as (Hcs4 & _ & _). by apply HEr.
Qed.

(** Any text at all. *)
Lemma contents_safe w pem asn1 :
  copy_state w pem asn1 ->
  let post w' (st : s2n_stuffer * s2n_stuffer) := copy_state w' (fst st) (snd st) /\ moved pem (fst st) in
  wp s2n_stuffer_pem_read_contents (w, (pem, asn1)) (fun _ => post) (fun _ => post).
Proof.
  intros Hcs post.
  assert (Hrun : wp (with_stack_blob 64 read_contents) (w, ((pem, asn1), zero_stuffer))
    (fun a w' st => post w' (fst st)) (fun e w' st => post w' (fst st))).
  2:{ unfold wp in Hrun |- *. unfold s2n_stuffer_pem_read_contents.
      by destruct (with_stack_blob 64 read_contents (w, ((pem, asn1), zero_stuffer))) as [[a|e|] [w' x']]. }
  apply wp_with_stack_blob; [lia|]. intros k Hk. destruct (stack_enter k w pem asn1 Hcs Hk) as (Hok & Hu1 & Hw1).
  apply wp_bind, wp_zoom, wp_init; [by apply stack_blob_ok|]. cbn [lget lset base64_lens snd_lens fst snd].
  apply wp_bind, wp_zoom, wp_get_obj. cbn [lget lset pem_lens fst snd]. set (b0 := Stuffer _ _ _ _ _ _ _) in *.
  pose proof (cs_from _ _ _ (pk_pem _ _ _ _ _ Hok)) as Hp1. rewrite (data_available_eq Hp1), <- (unread_len Hp1). unfold zlen at 1. rewrite Nat2Z.id.
  assert (Hleave : forall w' pem' asn1', outer_ok k w' pem' asn1' -> moved pem pem' -> post (without_stack w' k) (pem', asn1')).
  { intros w' pem' asn1' Ho Hm. split; [|done]. by apply stack_leave. }
  apply wp_bind. eapply wp_mono; [by apply (contents_loop_safe _ k)|..].
  - intros a w2 st (pem2 & asn2 & b2 & -> & Hok2 & Hm2). destruct (pending _ _ _ _ _ Hok2) as [Hpu Hpl].
    assert (Hstep : forall w3 asn3, step_ok w2 asn2 w3 asn3 -> post (without_stack w3 k) (pem2, asn3)).
    { intros w3 asn3 Hst. apply Hleave; [|done]. eapply pem_ok_outer. by apply (pem_ok_asn1 _ _ _ _ _ _ _ Hok2 Hst). }
    apply wp_zoom. cbn [lget lset decode_lens fst snd]. apply wp_read_base64; rewrite ?Hpu; [apply Hok2|lia|..].
    + intros _. apply Hleave; [by eapply pem_ok_outer|done].
    + intros w3 asn3 _ Hd. apply Hstep, Hd.
    + intros e w3 asn3 _ Hst _. by apply Hstep.
  - intros e w2 [[pem2 asn2] b2] [Ho Hm2]. by apply Hleave.
Qed.
End Contents.

(** ** Objects *)

(** The text of an object: some lines before it, the two lines that enclose its
    body, and whatever follows. *)
Definition pem_text (before : list Z) (n1 : nat) (keyword : list Z) (n2 : nat) (body : list Z) (n3 n4 : nat) (rest : list Z) : list Z :=
  before ++ dashes n1 ++ S2N_PEM_BEGIN_TOKEN ++ keyword ++ dashes n2 ++ body ++
  dashes n3 ++ S2N_PEM_END_TOKEN ++ keyword ++ dashes n4 ++ rest.

Record pem_wf (before : list Z) (n1 n2 : nat) (body : list Z) (n3 n4 : nat) (rest : list Z) : Prop := {
  wf_before : first_at (before ++ S2N_PEM_DELIMITER_TOKEN) (length before) S2N_PEM_DELIMITER_TOKEN;
  wf_begin : (2 <= n1 <= 64)%nat /\ (2 <= n2 <= 64)%nat;
  wf_body : body <> [] /\ Forall (fun c => c <> S2N_PEM_DELIMITER_CHAR) body;
  wf_end : (2 <= n3 <= 64)%nat /\ dash_run n4 rest;
}.

(** White space is not part of the base64 text. *)
Lemma whitespace_skipped body l :
  head l = Some S2N_PEM_DELIMITER_CHAR ->
  exists body', drop (span_len is_whitespace (body ++ l)) (body ++ l) = body' ++ l /\ base64_chars body' = base64_chars body /\
    (forall P, Forall P body -> Forall P body').
Proof.
  intros Hl. induction body as [|c body IH]; simpl.
  - exists []. destruct l as [|d l]; [done|]. injection Hl as ->. done.
  - destruct (is_whitespace c) eqn:Hw.
    + destruct IH as (body' & Hd & Hb & HP). exists body'. split_goal; [done| |].
      * rewrite Hb. unfold base64_chars. cbn [List.filter]. replace (s2n_is_base64_char c) with false; [done|]. symmetry.
        unfold is_whitespace in Hw. apply orb_prop in Hw as [[[Hw|Hw]%orb_prop|Hw]%orb_prop|Hw]; apply Z.eqb_eq in Hw as ->; reflexivity.
      * intros P [_ HPb]%Forall_cons_1. auto.
    + exists (c :: body). done.
Qed.

Section Theorems.
Context `{HP : Platform} `{HB : !BlobAllocator} `{HE : Base64Env} `{HOK : !Base64Ok}.

Lemma copy_state_moved w pem asn1 pem' : copy_state w pem asn1 -> moved pem pem' -> copy_state w pem' asn1.
Proof.
  intros [? ? ? ? ?] Hm. split; rewrite ?(moved_blob _ _ Hm); try done. by apply (moved_ok _ pem).
Qed.

(** C20 A well-formed PEM object is read whatever surrounds and divides it.  When the unread
    text is any lines without "--", a BEGIN line with 2 to 64 dashes on either
    side, a body whose characters of the base64 alphabet are the text of some
    bytes, in lines of any length and with any other characters but dashes in between,
    and an END line, then the call appends exactly these bytes and
    stops behind the white space after the END line, or at two dashes of an END line that
    runs into the next BEGIN.  It fails only when the output has no room for
    the bytes in whole groups of three. *)
Theorem pem_object_parsed (w : world) (pem asn1 : s2n_stuffer) (keyword before : list Z) (n1 n2 : nat) (body : list Z)
    (n3 n4 : nat) (rest der : list Z)
    (Hstate : copy_state w pem asn1) (Htext : unread (hp w) pem = pem_text before n1 keyword n2 body n3 n4 rest)
    (Hwf : pem_wf before n1 n2 body n3 n4 rest) (Hder : is_bytes der) (Hbody : base64_chars body = base64_of der) :
  match s2n_stuffer_data_from_pem keyword (w, (pem, asn1)) with
  | (Ok _, (w', (pem', asn1'))) =>
      copy_state w' pem' asn1' /\ written (hp w') asn1' = written (hp w) asn1 ++ der /\
      unread (hp w') pem' = after_line S2N_PEM_END_TOKEN rest
  | (Err _, (w', (pem', asn1'))) =>
      copy_state w' pem' asn1' /\ size (blob asn1) - write_cursor asn1 < zlen der + missing der
  | (UB, _) => False
  end.
Proof.
  assert (Hrun : wp (s2n_stuffer_data_from_pem keyword) (w, (pem, asn1))
    (fun _ w' st => copy_state w' (fst st) (snd st) /\ written (hp w') (snd st) = written (hp w) asn1 ++ der /\
       unread (hp w') (fst st) = after_line S2N_PEM_END_TOKEN rest)
    (fun _ w' st => copy_state w' (fst st) (snd st) /\ size (blob asn1) - write_cursor asn1 < zlen der + missing der)).
  2:{ unfold wp in Hrun. by destruct (s2n_stuffer_data_from_pem keyword (w, (pem, asn1))) as [[[]|e|] [w' [pem' asn1']]]. }
  destruct Hwf as [Hbefore [Hn1 Hn2] [Hbne Hbd] [Hn3 Hn4]]. pose proof Hstate as [Hw Hp Ha _ _].
  apply wp_bind, wp_zoom, wp_pre_validate; [done|]. apply wp_bind, wp_zoom, wp_pre_validate; [done|].
  set (tail := dashes n3 ++ S2N_PEM_END_TOKEN ++ keyword ++ dashes n4 ++ rest).
  assert (Htail : exists t, tail = S2N_PEM_DELIMITER_CHAR :: t) by (unfold tail; destruct n3; [lia|by eexists]). destruct Htail as [t Ht].
  apply wp_bind, wp_zoom, (wp_line _ _ _ _ before n1 n2 (body ++ tail)); [done|by left|done|done| |done|].
  { split; [done|]. right. destruct body as [|c body]; [done|]. apply Forall_cons_1 in Hbd as [Hc _]. cbn. congruence. }
  cbn [fst snd lget lset fst_lens]. intros pem1 Hm1 Hp1 Hu1. unfold after_line in Hu1. rewrite bool_decide_eq_false_2 in Hu1 by done. cbn [andb] in Hu1.
  destruct (whitespace_skipped body tail) as (body' & Hd & Hchars & HP'); [by rewrite Ht|]. rewrite Hd, Ht in Hu1.
  pose proof (copy_state_moved _ _ _ _ Hstate Hm1) as Hcs1.
  apply wp_bind, (wp_pem_contents _ _ _ body' t der); [done|done|by apply HP'|done|by rewrite Hchars| |].
  2:{ intros e w2 pem2 asn2 Hcs2 _ Hroom. done. }
  intros w2 pem2 asn2 Hcs2 Hm2 Hu2 Had. rewrite <- Ht in Hu2. pose proof Hcs2 as [_ Hp2 Ha2 _ _].
  apply wp_bind, wp_zoom, (wp_line _ _ _ _ [] n3 n4 rest); cbn [fst snd lget lset fst_lens]; [done|by right|done|done|done|by split; [|intros j Hj; inversion Hj]|].
  intros pem3 Hm3 Hp3 Hu3. apply wp_bind, wp_zoom, wp_post_validate; [done|]. apply wp_zoom, wp_post_validate; [done|].
  cbn [fst snd lget lset fst_lens snd_lens]. split_goal; [by eapply copy_state_moved|by apply Had|done].
Qed.

(** Parsing is safe on every text. *)
Definition pem_safe {A} (c : Cmd (s2n_stuffer * s2n_stuffer) A) : Prop := forall w pem asn1, copy_state w pem asn1 ->
  wp c (w, (pem, asn1)) (fun _ w' st => copy_state w' (fst st) (snd st)) (fun _ w' st => copy_state w' (fst st) (snd st)).

Lemma pem_safe_bind {A B} (c : Cmd _ A) (f : A -> Cmd _ B) : pem_safe c -> (forall a, pem_safe (f a)) -> pem_safe (bind c f).
Proof.
  intros Hc Hf w pem asn1 Hcs. apply wp_bind. eapply wp_mono; [by apply Hc| |done]. intros a w' [pem' asn1'] Hcs'. by apply Hf.
Qed.

Lemma pem_safe_ret {A} (a : A) : pem_safe (ret a).
Proof. by intros w pem asn1 Hcs. Qed.

Lemma pem_safe_fail {A} e : pem_safe (fail (A := A) e).
Proof. by intros w pem asn1 Hcs. Qed.

Lemma pem_safe_attempt {A} (c : Cmd _ A) : pem_safe c -> pem_safe (attempt c).
Proof. intros Hc w pem asn1 Hcs. apply wp_attempt. by apply Hc. Qed.

Lemma pem_safe_pem {A} (c : Cmd s2n_stuffer A) : moves c -> pem_safe (zoom fst_lens c).
Proof.
  intros Hc w pem asn1 Hcs. apply wp_zoom. eapply wp_mono; [apply Hc, Hcs|..]; intros ? ? ? [-> Hm]; by eapply copy_state_moved.
Qed.

Lemma pem_safe_asn1 {A} (c : Cmd s2n_stuffer A) :
  (forall w s, world_ok w -> stuffer_ok (hp w) s -> wp c (w, s) (fun _ w' s' => step_ok w s w' s') (fun _ w' s' => step_ok w s w' s')) ->
  pem_safe (zoom snd_lens c).
Proof.
  intros Hc w pem asn1 Hcs. apply wp_zoom. eapply wp_mono; [apply Hc; apply Hcs|..]; intros ? ? ? Hst; by apply (copy_state_step w pem asn1).
Qed.

Lemma moves_reread : moves s2n_stuffer_reread.
Proof. intros w s Hs. apply wp_reread; [done|]. split; [done|]. exists 0. pose proof (ok_read _ _ Hs). split; [lia|done]. Qed.

Lemma moves_pre_validate : moves pre_validate.
Proof. intros w s Hs. apply wp_pre_validate; [done|]. split; [done|]. by eapply moved_refl. Qed.

Lemma moves_post_validate : moves post_validate.
Proof. intros w s Hs. apply wp_post_validate; [done|]. split; [done|]. by eapply moved_refl. Qed.

Lemma pem_safe_moves {A} (c : Cmd s2n_stuffer A) : moves c -> pem_safe (zoom snd_lens c).
Proof.
  intros Hc. apply pem_safe_asn1. intros w s Hw Hs. eapply wp_mono; [by apply Hc|..]; intros ? ? ? [-> Hm];
    (apply step_ok_cursors; [apply Hw|by eapply moved_ok|by apply moved_blob]).
Qed.

Lemma pem_safe_wipe : pem_safe (zoom snd_lens s2n_stuffer_wipe).
Proof. apply pem_safe_asn1. intros w s Hw Hs. apply wp_wipe; [apply Hw|done|]. by intros. Qed.

Lemma moves_begin keyword : moves (s2n_stuffer_pem_read_begin keyword).
Proof. apply moves_line. Qed.

Lemma moves_end keyword : moves (s2n_stuffer_pem_read_end keyword).
Proof. apply moves_line. Qed.

#[local] Hint Resolve pem_safe_ret pem_safe_fail pem_safe_pem pem_safe_moves pem_safe_wipe moves_pre_validate moves_post_validate moves_reread moves_begin moves_end : pem.

Lemma pem_safe_data keyword : pem_safe (s2n_stuffer_data_from_pem keyword).
Proof.
  do 3 (apply pem_safe_bind; [auto with pem|intros _]). apply pem_safe_bind; [|intros _; do 2 (apply pem_safe_bind; [auto with pem|intros _]); auto with pem].
  intros w pem asn1 Hcs. eapply wp_mono; [by apply contents_safe|..]; by intros ? ? ? [? _].
Qed.

Lemma pem_safe_private_key : pem_safe s2n_stuffer_private_key_from_pem.
Proof.
  do 2 (apply pem_safe_bind; [auto with pem|intros _]). apply pem_safe_bind; [apply pem_safe_attempt, pem_safe_data|intros [[]|e]; [auto with pem|]].
  do 2 (apply pem_safe_bind; [auto with pem|intros _]). apply pem_safe_bind; [apply pem_safe_attempt, pem_safe_data|intros r].
  apply pem_safe_bind; [destruct r; auto with pem|intros _]. apply pem_safe_bind; [auto with pem|intros _].
  apply pem_safe_bind; [apply pem_safe_attempt, pem_safe_data|intros [[]|e']; [auto with pem|]].
  do 2 (apply pem_safe_bind; [auto with pem|intros _]). apply pem_safe_bind; [apply pem_safe_attempt, pem_safe_data|intros [[]|e'']; auto with pem].
Qed.

(** C21 The parsers of PEM files are memory safe on arbitrary text.  Whatever bytes the
    file holds, reading a certificate, a list of revoked certificates, parameters or
    a private key terminates, has no undefined behaviour, and leaves two
    valid stuffers that share no memory, on success and on failure; asking
    whether there is a certificate changes nothing at all. *)
Theorem pem_memory_safe (w : world) (pem asn1 : s2n_stuffer) (Hstate : copy_state w pem asn1) :
  (forall keyword, match s2n_stuffer_data_from_pem keyword (w, (pem, asn1)) with
   | (UB, _) => False | (_, (w', (pem', asn1'))) => copy_state w' pem' asn1' end) /\
  (match s2n_stuffer_private_key_from_pem (w, (pem, asn1)) with
   | (UB, _) => False | (_, (w', (pem', asn1'))) => copy_state w' pem' asn1' end) /\
  exists b, s2n_stuffer_pem_has_certificate (w, pem) = (Ok b, (w, pem)).
Proof.
  split_goal.
  - intros keyword. pose proof (pem_safe_data keyword w pem asn1 Hstate) as Hrun. unfold wp in Hrun.
    by destruct (s2n_stuffer_data_from_pem keyword (w, (pem, asn1))) as [[[]|e|] [w' [pem' asn1']]].
  - pose proof (pem_safe_private_key w pem asn1 Hstate) as Hrun. unfold wp in Hrun.
    by destruct (s2n_stuffer_private_key_from_pem (w, (pem, asn1))) as [[t|e|] [w' [pem' asn1']]].
  - pose proof (moves_delimiter w pem (cs_from _ _ _ Hstate)) as Hrun.
    unfold s2n_stuffer_pem_has_certificate, bind, try_local, get_obj. unfold wp in Hrun.
    destruct (s2n_stuffer_pem_read_delimiter_chars (w, pem)) as [[[]|e|] [w' pem']]; [| |done]; destruct Hrun as [-> _]; by eexists.
Qed.
End Theorems.

(** ** A certificate of four bytes, behind a comment and on two lines *)

Definition demo_before : list Z := string_bytes "# a-b" ++ [10].
Definition demo_body : list Z := [10] ++ string_bytes "aGV5" ++ [10] ++ string_bytes "IQ==" ++ [10].
Definition demo_text : list Z := pem_text demo_before 5 S2N_PEM_CERTIFICATE 5 demo_body 5 5 [10].
Definition pem_world : world := World {[1%positive := demo_text; 2%positive := repeat 0 9]} started_statics.
Definition demo_pem : s2n_stuffer := Stuffer (Blob (Some (Ptr 1 0)) (zlen demo_text) 0 false) 0 (zlen demo_text) (zlen demo_text) false false false.
Definition demo_asn1 : s2n_stuffer := Stuffer (Blob (Some (Ptr 2 0)) 9 0 false) 0 0 0 false false false.

Lemma pem_demo_state : copy_state pem_world demo_pem demo_asn1.
Proof.
  split.
  - split; [unfold pem_world; apply map_Forall_insert_2; [|solve_heap_ok]; vm_compute; repeat (constructor; [by split|]); constructor|].
    split; [done|]. simpl. unfold is_u32. lia.
  - split; simpl; try done; try (vm_compute; done).
    split; simpl; unfold is_u32; try done; try (vm_compute; done). intros p [= <-]. exists demo_text. split_goal; vm_compute; congruence.
  - split; simpl; try done; try lia. split; simpl; unfold is_u32; try done; try lia. intros p [= <-]. solve_valid_access.
  - intros k (p & [= <-] & <-) (q & [= <-] & ?). done.
  - discriminate.
Qed.

Lemma pem_demo_wf : pem_wf demo_before 5 5 demo_body 5 5 [10].
Proof.
  split; [|lia| |split; [lia|split; [lia|by right]]].
  - split; [reflexivity|]. intros j Hj. do 6 (destruct j as [|j]; [vm_compute; discriminate|]). simpl in Hj. lia.
  - split; [done|]. vm_compute. repeat (constructor; [discriminate|]). constructor.
Qed.

Abbreviation demo_certificate := (@s2n_stuffer_data_from_pem demo_platform demo_base64 S2N_PEM_CERTIFICATE (pem_world, (demo_pem, demo_asn1))).

Lemma pem_object_parsed_witness :
  match demo_certificate with
  | (Ok _, (w', (pem', asn1'))) => written (hp w') asn1' = [104; 101; 121; 33] /\ unread (hp w') pem' = []
  | _ => False
  end.
Proof.
  pose proof (@pem_object_parsed demo_platform _ demo_base64 demo_base64_ok pem_world demo_pem demo_asn1 S2N_PEM_CERTIFICATE demo_before 5 5 demo_body 5 5 [10]
    [104; 101; 121; 33] pem_demo_state ltac:(vm_compute; reflexivity) pem_demo_wf ltac:(solve_bytes) ltac:(reflexivity)) as H.
  destruct demo_certificate as [[[]|e|] [w' [pem' asn1']]].
  - destruct H as (_ & Hwr & Hun). split; [exact Hwr|exact Hun].
  - destruct H as [_ H]. vm_compute in H. discriminate H.
  - exact H.
Defined.

(** A private key is not among the text, and nothing is lost by asking. *)
Lemma pem_memory_safe_witness :
  match @s2n_stuffer_private_key_from_pem demo_platform demo_base64 (pem_world, (demo_pem, demo_asn1)) with
  | (Err S2N_ERR_INVALID_PEM, (w', (pem', asn1'))) => copy_state w' pem' asn1'
  | _ => False
  end /\
  @s2n_stuffer_pem_has_certificate demo_platform (pem_world, demo_pem) = (Ok true, (pem_world, demo_pem)).
Proof.
  split; [|vm_compute; reflexivity].
  destruct (@pem_memory_safe demo_platform _ demo_base64 demo_base64_ok pem_world demo_pem demo_asn1 pem_demo_state) as (_ & H & _).
  destruct (@s2n_stuffer_private_key_from_pem demo_platform demo_base64 (pem_world, (demo_pem, demo_asn1))) as [r [w' [pem' asn1']]] eqn:Hrun.
  assert (Hr : r = Err S2N_ERR_INVALID_PEM) by (apply (f_equal fst) in Hrun; vm_compute in Hrun; congruence).
  rewrite Hr in H |- *. exact H.
Defined.
End StufferPem.
Export StufferPem.
