(* ===== verification/ErrorStrings.v ===== *)
(** * The names and descriptions of errors: error/s2n_errno.c

    The table ERR_ENTRIES, entry by entry, and the functions that look up an
    error code in it. *)
From stdpp Require Import strings.
From S2P Require Import Prelude Errors CMem Blob StufferPrintf.
Open Scope Z_scope.

Module ErrorStrings.

Definition ERR_ENTRIES_1 : list (s2n_error * string * string) :=
  [ (S2N_ERR_OK, "S2N_ERR_OK", "no error");
    (S2N_ERR_IO, "S2N_ERR_IO", "underlying I/O operation failed, check system errno");
    (S2N_ERR_CLOSED, "S2N_ERR_CLOSED", "connection is closed");
    (S2N_ERR_IO_BLOCKED, "S2N_ERR_IO_BLOCKED", "underlying I/O operation would block");
    (S2N_ERR_ASYNC_BLOCKED, "S2N_ERR_ASYNC_BLOCKED", "blocked on external async function invocation");
    (S2N_ERR_ALERT, "S2N_ERR_ALERT", "TLS alert received");
    (S2N_ERR_ENCRYPT, "S2N_ERR_ENCRYPT", "error encrypting data");
    (S2N_ERR_DECRYPT, "S2N_ERR_DECRYPT", "error decrypting data");
    (S2N_ERR_BAD_MESSAGE, "S2N_ERR_BAD_MESSAGE", "Bad message encountered");
    (S2N_ERR_KEY_INIT, "S2N_ERR_KEY_INIT", "error initializing encryption key");
    (S2N_ERR_KEY_DESTROY, "S2N_ERR_KEY_DESTROY", "error destroying encryption key");
    (S2N_ERR_DH_SERIALIZING, "S2N_ERR_DH_SERIALIZING", "error serializing Diffie-Hellman parameters");
    (S2N_ERR_DH_SHARED_SECRET, "S2N_ERR_DH_SHARED_SECRET", "error computing Diffie-Hellman shared secret");
    (S2N_ERR_DH_WRITING_PUBLIC_KEY, "S2N_ERR_DH_WRITING_PUBLIC_KEY", "error writing Diffie-Hellman public key");
    (S2N_ERR_DH_FAILED_SIGNING, "S2N_ERR_DH_FAILED_SIGNING", "error signing Diffie-Hellman values");
    (S2N_ERR_DH_COPYING_PARAMETERS, "S2N_ERR_DH_COPYING_PARAMETERS", "error copying Diffie-Hellman parameters");
    (S2N_ERR_DH_GENERATING_PARAMETERS, "S2N_ERR_DH_GENERATING_PARAMETERS", "error generating Diffie-Hellman parameters");
    (S2N_ERR_CIPHER_NOT_SUPPORTED, "S2N_ERR_CIPHER_NOT_SUPPORTED", "Cipher is not supported");
    (S2N_ERR_NO_APPLICATION_PROTOCOL, "S2N_ERR_NO_APPLICATION_PROTOCOL", "No supported application protocol to negotiate");
    (S2N_ERR_FALLBACK_DETECTED, "S2N_ERR_FALLBACK_DETECTED", "TLS fallback detected");
    (S2N_ERR_HASH_DIGEST_FAILED, "S2N_ERR_HASH_DIGEST_FAILED", "failed to create hash digest");
    (S2N_ERR_HASH_INIT_FAILED, "S2N_ERR_HASH_INIT_FAILED", "error initializing hash");
    (S2N_ERR_HASH_UPDATE_FAILED, "S2N_ERR_HASH_UPDATE_FAILED", "error updating hash");
    (S2N_ERR_HASH_COPY_FAILED, "S2N_ERR_HASH_COPY_FAILED", "error copying hash");
    (S2N_ERR_HASH_WIPE_FAILED, "S2N_ERR_HASH_WIPE_FAILED", "error wiping hash");
    (S2N_ERR_HASH_NOT_READY, "S2N_ERR_HASH_NOT_READY", "hash not in a valid state for the attempted operation");
    (S2N_ERR_ALLOW_MD5_FOR_FIPS_FAILED, "S2N_ERR_ALLOW_MD5_FOR_FIPS_FAILED", "error allowing MD5 to be used when in FIPS mode");
    (S2N_ERR_DECODE_CERTIFICATE, "S2N_ERR_DECODE_CERTIFICATE", "error decoding certificate");
    (S2N_ERR_DECODE_PRIVATE_KEY, "S2N_ERR_DECODE_PRIVATE_KEY", "error decoding private key");
    (S2N_ERR_INVALID_SIGNATURE_ALGORITHM, "S2N_ERR_INVALID_SIGNATURE_ALGORITHM", "Invalid signature algorithm");
    (S2N_ERR_INVALID_SIGNATURE_SCHEME, "S2N_ERR_INVALID_SIGNATURE_SCHEME", "Invalid signature scheme");
    (S2N_ERR_NO_VALID_SIGNATURE_SCHEME, "S2N_ERR_NO_VALID_SIGNATURE_SCHEME", "Unable to negotiate a supported signature scheme");
    (S2N_ERR_CBC_VERIFY, "S2N_ERR_CBC_VERIFY", "Failed CBC verification");
    (S2N_ERR_DH_COPYING_PUBLIC_KEY, "S2N_ERR_DH_COPYING_PUBLIC_KEY", "error copying Diffie-Hellman public key");
    (S2N_ERR_SIGN, "S2N_ERR_SIGN", "error signing data");
    (S2N_ERR_VERIFY_SIGNATURE, "S2N_ERR_VERIFY_SIGNATURE", "error verifying signature");
    (S2N_ERR_ECDHE_GEN_KEY, "S2N_ERR_ECDHE_GEN_KEY", "Failed to generate an ECDHE key");
    (S2N_ERR_ECDHE_SHARED_SECRET, "S2N_ERR_ECDHE_SHARED_SECRET", "Error computing ECDHE shared secret");
    (S2N_ERR_ECDHE_UNSUPPORTED_CURVE, "S2N_ERR_ECDHE_UNSUPPORTED_CURVE", "Unsupported EC curve was presented during an ECDHE handshake");
    (S2N_ERR_ECDHE_INVALID_PUBLIC_KEY, "S2N_ERR_ECDHE_INVALID_PUBLIC_KEY", "Failed to validate the peer's point on the elliptic curve");
    (S2N_ERR_ECDHE_INVALID_PUBLIC_KEY_FIPS, "S2N_ERR_ECDHE_INVALID_PUBLIC_KEY_FIPS", "Failed to validate the peer's point on the elliptic curve, per FIPS requirements");
    (S2N_ERR_ECDSA_UNSUPPORTED_CURVE, "S2N_ERR_ECDSA_UNSUPPORTED_CURVE", "Unsupported EC curve was presented during an ECDSA SignatureScheme handshake");
    (S2N_ERR_ECDHE_SERIALIZING, "S2N_ERR_ECDHE_SERIALIZING", "Error serializing ECDHE public");
    (S2N_ERR_KEM_UNSUPPORTED_PARAMS, "S2N_ERR_KEM_UNSUPPORTED_PARAMS", "Unsupported KEM params was presented during a handshake that uses a KEM");
    (S2N_ERR_SHUTDOWN_RECORD_TYPE, "S2N_ERR_SHUTDOWN_RECORD_TYPE", "Non alert record received during s2n_shutdown()");
    (S2N_ERR_SHUTDOWN_CLOSED, "S2N_ERR_SHUTDOWN_CLOSED", "Peer closed before sending their close_notify");
    (S2N_ERR_NON_EMPTY_RENEGOTIATION_INFO, "S2N_ERR_NON_EMPTY_RENEGOTIATION_INFO", "renegotiation_info should be empty");
    (S2N_ERR_RECORD_LIMIT, "S2N_ERR_RECORD_LIMIT", "TLS record limit reached");
    (S2N_ERR_CERT_UNTRUSTED, "S2N_ERR_CERT_UNTRUSTED", "Certificate is untrusted");
    (S2N_ERR_CERT_REVOKED, "S2N_ERR_CERT_REVOKED", "Certificate has been revoked by the CA");
    (S2N_ERR_CERT_NOT_YET_VALID, "S2N_ERR_CERT_NOT_YET_VALID", "Certificate is not yet valid");
    (S2N_ERR_CERT_EXPIRED, "S2N_ERR_CERT_EXPIRED", "Certificate has expired");
    (S2N_ERR_CERT_TYPE_UNSUPPORTED, "S2N_ERR_CERT_TYPE_UNSUPPORTED", "Certificate Type is unsupported");
    (S2N_ERR_CERT_INVALID, "S2N_ERR_CERT_INVALID", "Certificate is invalid");
    (S2N_ERR_CERT_MAX_CHAIN_DEPTH_EXCEEDED, "S2N_ERR_CERT_MAX_CHAIN_DEPTH_EXCEEDED", "The maximum certificate chain depth has been exceeded");
    (S2N_ERR_CERT_REJECTED, "S2N_ERR_CERT_REJECTED", "Certificate failed custom application validation");
    (S2N_ERR_SECURITY_POLICY_INCOMPATIBLE_CERT, "S2N_ERR_SECURITY_POLICY_INCOMPATIBLE_CERT", "Incompatibility found between loaded certificates and chosen security policy");
    (S2N_ERR_CRL_LOOKUP_FAILED, "S2N_ERR_CRL_LOOKUP_FAILED", "No CRL could be found for the corresponding certificate");
    (S2N_ERR_CRL_SIGNATURE, "S2N_ERR_CRL_SIGNATURE", "The signature of the CRL is invalid");
    (S2N_ERR_CRL_ISSUER, "S2N_ERR_CRL_ISSUER", "Unable to get the CRL issuer certificate");
    (S2N_ERR_CRL_UNHANDLED_CRITICAL_EXTENSION, "S2N_ERR_CRL_UNHANDLED_CRITICAL_EXTENSION", "Unhandled critical CRL extension");
    (S2N_ERR_CRL_INVALID_THIS_UPDATE, "S2N_ERR_CRL_INVALID_THIS_UPDATE", "The CRL contains an invalid thisUpdate field");
    (S2N_ERR_CRL_INVALID_NEXT_UPDATE, "S2N_ERR_CRL_INVALID_NEXT_UPDATE", "The CRL contains an invalid nextUpdate field");
    (S2N_ERR_CRL_NOT_YET_VALID, "S2N_ERR_CRL_NOT_YET_VALID", "The CRL is not yet valid");
    (S2N_ERR_CRL_EXPIRED, "S2N_ERR_CRL_EXPIRED", "The CRL has expired");
    (S2N_ERR_INVALID_MAX_FRAG_LEN, "S2N_ERR_INVALID_MAX_FRAG_LEN", "invalid Maximum Fragmentation Length encountered");
    (S2N_ERR_MAX_FRAG_LEN_MISMATCH, "S2N_ERR_MAX_FRAG_LEN_MISMATCH", "Negotiated Maximum Fragmentation Length from server does not match the requested length by client");
    (S2N_ERR_PROTOCOL_VERSION_UNSUPPORTED, "S2N_ERR_PROTOCOL_VERSION_UNSUPPORTED", "TLS protocol version is not supported by configuration");
    (S2N_ERR_BAD_KEY_SHARE, "S2N_ERR_BAD_KEY_SHARE", "Bad key share received");
    (S2N_ERR_CANCELLED, "S2N_ERR_CANCELLED", "handshake was cancelled");
    (S2N_ERR_PROTOCOL_DOWNGRADE_DETECTED, "S2N_ERR_PROTOCOL_DOWNGRADE_DETECTED", "Protocol downgrade detected by client");
    (S2N_ERR_MADVISE, "S2N_ERR_MADVISE", "error calling madvise");
    (S2N_ERR_ALLOC, "S2N_ERR_ALLOC", "error allocating memory");
    (S2N_ERR_MLOCK, "S2N_ERR_MLOCK", "error calling mlock (Did you run prlimit?)");
    (S2N_ERR_MUNLOCK, "S2N_ERR_MUNLOCK", "error calling munlock");
    (S2N_ERR_FSTAT, "S2N_ERR_FSTAT", "error calling fstat");
    (S2N_ERR_OPEN, "S2N_ERR_OPEN", "error calling open");
    (S2N_ERR_MMAP, "S2N_ERR_MMAP", "error calling mmap");
    (S2N_ERR_ATEXIT, "S2N_ERR_ATEXIT", "error calling atexit");
    (S2N_ERR_NOMEM, "S2N_ERR_NOMEM", "no memory");
    (S2N_ERR_NULL, "S2N_ERR_NULL", "NULL pointer encountered");
    (S2N_ERR_SAFETY, "S2N_ERR_SAFETY", "a safety check failed");
    (S2N_ERR_INITIALIZED, "S2N_ERR_INITIALIZED", "s2n is initialized");
    (S2N_ERR_NOT_INITIALIZED, "S2N_ERR_NOT_INITIALIZED", "s2n not initialized");
    (S2N_ERR_RANDOM_UNINITIALIZED, "S2N_ERR_RANDOM_UNINITIALIZED", "s2n entropy not initialized");
    (S2N_ERR_OPEN_RANDOM, "S2N_ERR_OPEN_RANDOM", "error opening urandom");
    (S2N_ERR_RESIZE_STATIC_STUFFER, "S2N_ERR_RESIZE_STATIC_STUFFER", "cannot resize a static stuffer");
    (S2N_ERR_RESIZE_TAINTED_STUFFER, "S2N_ERR_RESIZE_TAINTED_STUFFER", "cannot resize a tainted stuffer");
    (S2N_ERR_STUFFER_OUT_OF_DATA, "S2N_ERR_STUFFER_OUT_OF_DATA", "stuffer is out of data");
    (S2N_ERR_STUFFER_IS_FULL, "S2N_ERR_STUFFER_IS_FULL", "stuffer is full");
    (S2N_ERR_STUFFER_NOT_FOUND, "S2N_ERR_STUFFER_NOT_FOUND", "stuffer expected bytes were not found");
    (S2N_ERR_STUFFER_HAS_UNPROCESSED_DATA, "S2N_ERR_STUFFER_HAS_UNPROCESSED_DATA", "stuffer has unprocessed data");
    (S2N_ERR_HASH_INVALID_ALGORITHM, "S2N_ERR_HASH_INVALID_ALGORITHM", "invalid hash algorithm");
    (S2N_ERR_PRF_INVALID_ALGORITHM, "S2N_ERR_PRF_INVALID_ALGORITHM", "invalid prf hash algorithm");
    (S2N_ERR_PRF_INVALID_SEED, "S2N_ERR_PRF_INVALID_SEED", "invalid prf seeds provided");
    (S2N_ERR_PRF_DERIVE, "S2N_ERR_PRF_DERIVE", "error deriving a secret from the PRF");
    (S2N_ERR_P_HASH_INVALID_ALGORITHM, "S2N_ERR_P_HASH_INVALID_ALGORITHM", "invalid p_hash algorithm");
    (S2N_ERR_P_HASH_INIT_FAILED, "S2N_ERR_P_HASH_INIT_FAILED", "error initializing p_hash");
    (S2N_ERR_P_HASH_UPDATE_FAILED, "S2N_ERR_P_HASH_UPDATE_FAILED", "error updating p_hash");
    (S2N_ERR_P_HASH_FINAL_FAILED, "S2N_ERR_P_HASH_FINAL_FAILED", "error creating p_hash digest") ].

Definition ERR_ENTRIES_2 : list (s2n_error * string * string) :=
  [ (S2N_ERR_P_HASH_WIPE_FAILED, "S2N_ERR_P_HASH_WIPE_FAILED", "error wiping p_hash");
    (S2N_ERR_HMAC_INVALID_ALGORITHM, "S2N_ERR_HMAC_INVALID_ALGORITHM", "invalid HMAC algorithm");
    (S2N_ERR_HKDF_OUTPUT_SIZE, "S2N_ERR_HKDF_OUTPUT_SIZE", "invalid HKDF output size");
    (S2N_ERR_HKDF, "S2N_ERR_HKDF", "error generating HKDF output");
    (S2N_ERR_ALERT_PRESENT, "S2N_ERR_ALERT_PRESENT", "TLS alert is already pending");
    (S2N_ERR_HANDSHAKE_STATE, "S2N_ERR_HANDSHAKE_STATE", "Invalid handshake state encountered");
    (S2N_ERR_SHUTDOWN_PAUSED, "S2N_ERR_SHUTDOWN_PAUSED", "s2n_shutdown() called while paused");
    (S2N_ERR_SIZE_MISMATCH, "S2N_ERR_SIZE_MISMATCH", "size mismatch");
    (S2N_ERR_DRBG, "S2N_ERR_DRBG", "Error using Deterministic Random Bit Generator");
    (S2N_ERR_DRBG_REQUEST_SIZE, "S2N_ERR_DRBG_REQUEST_SIZE", "Request for too much entropy");
    (S2N_ERR_KEY_CHECK, "S2N_ERR_KEY_CHECK", "Invalid key");
    (S2N_ERR_CIPHER_TYPE, "S2N_ERR_CIPHER_TYPE", "Unknown cipher type used");
    (S2N_ERR_MAP_DUPLICATE, "S2N_ERR_MAP_DUPLICATE", "Duplicate map key inserted");
    (S2N_ERR_MAP_IMMUTABLE, "S2N_ERR_MAP_IMMUTABLE", "Attempt to update an immutable map");
    (S2N_ERR_MAP_MUTABLE, "S2N_ERR_MAP_MUTABLE", "Attempt to lookup a mutable map");
    (S2N_ERR_MAP_INVALID_MAP_SIZE, "S2N_ERR_MAP_INVALID_MAP_SIZE", "Attempt to create a map with 0 capacity");
    (S2N_ERR_INITIAL_HMAC, "S2N_ERR_INITIAL_HMAC", "error calling EVP_CIPHER_CTX_ctrl for composite cbc cipher");
    (S2N_ERR_INVALID_NONCE_TYPE, "S2N_ERR_INVALID_NONCE_TYPE", "Invalid AEAD nonce type");
    (S2N_ERR_UNIMPLEMENTED, "S2N_ERR_UNIMPLEMENTED", "Unimplemented feature");
    (S2N_ERR_HANDSHAKE_UNREACHABLE, "S2N_ERR_HANDSHAKE_UNREACHABLE", "Unreachable handshake state machine handler invoked");
    (S2N_ERR_READ, "S2N_ERR_READ", "error calling read");
    (S2N_ERR_WRITE, "S2N_ERR_WRITE", "error calling write");
    (S2N_ERR_BAD_FD, "S2N_ERR_BAD_FD", "Invalid file descriptor");
    (S2N_ERR_RDRAND_FAILED, "S2N_ERR_RDRAND_FAILED", "Error executing rdrand instruction");
    (S2N_ERR_FAILED_CACHE_RETRIEVAL, "S2N_ERR_FAILED_CACHE_RETRIEVAL", "Failed cache retrieval");
    (S2N_ERR_X509_TRUST_STORE, "S2N_ERR_X509_TRUST_STORE", "Error initializing trust store");
    (S2N_ERR_UNKNOWN_PROTOCOL_VERSION, "S2N_ERR_UNKNOWN_PROTOCOL_VERSION", "Error determining client protocol version");
    (S2N_ERR_NULL_CN_NAME, "S2N_ERR_NULL_CN_NAME", "Error parsing CN names");
    (S2N_ERR_NULL_SANS, "S2N_ERR_NULL_SANS", "Error parsing SANS");
    (S2N_ERR_CLIENT_HELLO_VERSION, "S2N_ERR_CLIENT_HELLO_VERSION", "Could not get client hello version");
    (S2N_ERR_CLIENT_PROTOCOL_VERSION, "S2N_ERR_CLIENT_PROTOCOL_VERSION", "Could not get client protocol version");
    (S2N_ERR_SERVER_PROTOCOL_VERSION, "S2N_ERR_SERVER_PROTOCOL_VERSION", "Could not get server protocol version");
    (S2N_ERR_ACTUAL_PROTOCOL_VERSION, "S2N_ERR_ACTUAL_PROTOCOL_VERSION", "Could not get actual protocol version");
    (S2N_ERR_POLLING_FROM_SOCKET, "S2N_ERR_POLLING_FROM_SOCKET", "Error polling from socket");
    (S2N_ERR_RECV_STUFFER_FROM_CONN, "S2N_ERR_RECV_STUFFER_FROM_CONN", "Error receiving stuffer from connection");
    (S2N_ERR_SEND_STUFFER_TO_CONN, "S2N_ERR_SEND_STUFFER_TO_CONN", "Error sending stuffer to connection");
    (S2N_ERR_PRECONDITION_VIOLATION, "S2N_ERR_PRECONDITION_VIOLATION", "Precondition violation");
    (S2N_ERR_POSTCONDITION_VIOLATION, "S2N_ERR_POSTCONDITION_VIOLATION", "Postcondition violation");
    (S2N_ERR_INTEGER_OVERFLOW, "S2N_ERR_INTEGER_OVERFLOW", "Integer overflow violation");
    (S2N_ERR_ARRAY_INDEX_OOB, "S2N_ERR_ARRAY_INDEX_OOB", "Array index out of bounds");
    (S2N_ERR_FREE_STATIC_BLOB, "S2N_ERR_FREE_STATIC_BLOB", "Cannot free a static blob");
    (S2N_ERR_RESIZE_STATIC_BLOB, "S2N_ERR_RESIZE_STATIC_BLOB", "Cannot resize a static blob");
    (S2N_ERR_RECORD_LENGTH_TOO_LARGE, "S2N_ERR_RECORD_LENGTH_TOO_LARGE", "Record length exceeds protocol version maximum");
    (S2N_ERR_SET_DUPLICATE_VALUE, "S2N_ERR_SET_DUPLICATE_VALUE", "Set already contains the provided value");
    (S2N_ERR_ASYNC_CALLBACK_FAILED, "S2N_ERR_ASYNC_CALLBACK_FAILED", "Callback associated with async private keys function has failed");
    (S2N_ERR_ASYNC_MORE_THAN_ONE, "S2N_ERR_ASYNC_MORE_THAN_ONE", "Only one asynchronous operation can be in-progress at the same time");
    (S2N_ERR_NO_ALERT, "S2N_ERR_NO_ALERT", "No Alert present");
    (S2N_ERR_SERVER_MODE, "S2N_ERR_SERVER_MODE", "Operation not allowed in server mode");
    (S2N_ERR_CLIENT_MODE, "S2N_ERR_CLIENT_MODE", "Operation not allowed in client mode");
    (S2N_ERR_CLIENT_MODE_DISABLED, "S2N_ERR_CLIENT_MODE_DISABLED", "client connections not allowed");
    (S2N_ERR_TOO_MANY_CERTIFICATES, "S2N_ERR_TOO_MANY_CERTIFICATES", "only 1 certificate is supported in client mode");
    (S2N_ERR_TOO_MANY_SIGNATURE_SCHEMES, "S2N_ERR_TOO_MANY_SIGNATURE_SCHEMES", "Max supported length of SignatureAlgorithms/SignatureSchemes list is 128");
    (S2N_ERR_CLIENT_AUTH_NOT_SUPPORTED_IN_FIPS_MODE, "S2N_ERR_CLIENT_AUTH_NOT_SUPPORTED_IN_FIPS_MODE", "Client Auth is not supported when in FIPS mode");
    (S2N_ERR_INVALID_BASE64, "S2N_ERR_INVALID_BASE64", "invalid base64 encountered");
    (S2N_ERR_INVALID_HEX, "S2N_ERR_INVALID_HEX", "invalid HEX encountered");
    (S2N_ERR_INVALID_PEM, "S2N_ERR_INVALID_PEM", "invalid PEM encountered");
    (S2N_ERR_DH_PARAMS_CREATE, "S2N_ERR_DH_PARAMS_CREATE", "error creating Diffie-Hellman parameters");
    (S2N_ERR_DH_TOO_SMALL, "S2N_ERR_DH_TOO_SMALL", "Diffie-Hellman parameters are too small");
    (S2N_ERR_DH_PARAMETER_CHECK, "S2N_ERR_DH_PARAMETER_CHECK", "Diffie-Hellman parameter check failed");
    (S2N_ERR_INVALID_PKCS3, "S2N_ERR_INVALID_PKCS3", "invalid PKCS3 encountered");
    (S2N_ERR_NO_CERTIFICATE_IN_PEM, "S2N_ERR_NO_CERTIFICATE_IN_PEM", "No certificate in PEM");
    (S2N_ERR_SERVER_NAME_TOO_LONG, "S2N_ERR_SERVER_NAME_TOO_LONG", "server name is too long");
    (S2N_ERR_NUM_DEFAULT_CERTIFICATES, "S2N_ERR_NUM_DEFAULT_CERTIFICATES", "exceeded max default certificates or provided no default");
    (S2N_ERR_MULTIPLE_DEFAULT_CERTIFICATES_PER_AUTH_TYPE, "S2N_ERR_MULTIPLE_DEFAULT_CERTIFICATES_PER_AUTH_TYPE", "setting multiple default certificates per auth type is not allowed");
    (S2N_ERR_INVALID_CIPHER_PREFERENCES, "S2N_ERR_INVALID_CIPHER_PREFERENCES", "Invalid Cipher Preferences version");
    (S2N_ERR_INVALID_APPLICATION_PROTOCOL, "S2N_ERR_INVALID_APPLICATION_PROTOCOL", "The supplied application protocol name is invalid");
    (S2N_ERR_KEY_MISMATCH, "S2N_ERR_KEY_MISMATCH", "public and private key do not match");
    (S2N_ERR_SEND_SIZE, "S2N_ERR_SEND_SIZE", "Retried s2n_send() size is invalid");
    (S2N_ERR_CORK_SET_ON_UNMANAGED, "S2N_ERR_CORK_SET_ON_UNMANAGED", "Attempt to set connection cork management on unmanaged IO");
    (S2N_ERR_UNRECOGNIZED_EXTENSION, "S2N_ERR_UNRECOGNIZED_EXTENSION", "TLS extension not recognized");
    (S2N_ERR_EXTENSION_NOT_RECEIVED, "S2N_ERR_EXTENSION_NOT_RECEIVED", "The TLS extension was not received");
    (S2N_ERR_INVALID_SCT_LIST, "S2N_ERR_INVALID_SCT_LIST", "SCT list is invalid");
    (S2N_ERR_INVALID_OCSP_RESPONSE, "S2N_ERR_INVALID_OCSP_RESPONSE", "OCSP response is invalid");
    (S2N_ERR_UPDATING_EXTENSION, "S2N_ERR_UPDATING_EXTENSION", "Updating extension data failed");
    (S2N_ERR_INVALID_SERIALIZED_SESSION_STATE, "S2N_ERR_INVALID_SERIALIZED_SESSION_STATE", "Serialized session state is not in valid format");
    (S2N_ERR_SERIALIZED_SESSION_STATE_TOO_LONG, "S2N_ERR_SERIALIZED_SESSION_STATE_TOO_LONG", "Serialized session state is too long");
    (S2N_ERR_SESSION_ID_TOO_LONG, "S2N_ERR_SESSION_ID_TOO_LONG", "Session id is too long");
    (S2N_ERR_CLIENT_AUTH_NOT_SUPPORTED_IN_SESSION_RESUMPTION_MODE, "S2N_ERR_CLIENT_AUTH_NOT_SUPPORTED_IN_SESSION_RESUMPTION_MODE", "Client Auth is not supported in session resumption mode");
    (S2N_ERR_INVALID_TICKET_KEY_LENGTH, "S2N_ERR_INVALID_TICKET_KEY_LENGTH", "Session ticket key length cannot be zero");
    (S2N_ERR_INVALID_TICKET_KEY_NAME_OR_NAME_LENGTH, "S2N_ERR_INVALID_TICKET_KEY_NAME_OR_NAME_LENGTH", "Session ticket key name should be unique and the name length cannot be zero");
    (S2N_ERR_TICKET_KEY_NOT_UNIQUE, "S2N_ERR_TICKET_KEY_NOT_UNIQUE", "Cannot add session ticket key because it was added before");
    (S2N_ERR_TICKET_KEY_LIMIT, "S2N_ERR_TICKET_KEY_LIMIT", "Limit reached for unexpired session ticket keys");
    (S2N_ERR_NO_TICKET_ENCRYPT_DECRYPT_KEY, "S2N_ERR_NO_TICKET_ENCRYPT_DECRYPT_KEY", "No key in encrypt-decrypt state is available to encrypt session ticket");
    (S2N_ERR_ENCRYPT_DECRYPT_KEY_SELECTION_FAILED, "S2N_ERR_ENCRYPT_DECRYPT_KEY_SELECTION_FAILED", "Failed to select a key from keys in encrypt-decrypt state");
    (S2N_ERR_KEY_USED_IN_SESSION_TICKET_NOT_FOUND, "S2N_ERR_KEY_USED_IN_SESSION_TICKET_NOT_FOUND", "Key used in already assigned session ticket not found for decryption");
    (S2N_ERR_SENDING_NST, "S2N_ERR_SENDING_NST", "Error in session ticket status encountered before sending NST");
    (S2N_ERR_INVALID_DYNAMIC_THRESHOLD, "S2N_ERR_INVALID_DYNAMIC_THRESHOLD", "invalid dynamic record threshold");
    (S2N_ERR_INVALID_ARGUMENT, "S2N_ERR_INVALID_ARGUMENT", "invalid argument provided into a function call");
    (S2N_ERR_NOT_IN_UNIT_TEST, "S2N_ERR_NOT_IN_UNIT_TEST", "Illegal configuration, can only be used during unit tests");
    (S2N_ERR_NOT_IN_TEST, "S2N_ERR_NOT_IN_TEST", "Illegal configuration, can only be used during unit or integration tests");
    (S2N_ERR_UNSUPPORTED_CPU, "S2N_ERR_UNSUPPORTED_CPU", "Unsupported CPU architecture");
    (S2N_ERR_SESSION_ID_TOO_SHORT, "S2N_ERR_SESSION_ID_TOO_SHORT", "Session id is too short");
    (S2N_ERR_CONNECTION_CACHING_DISALLOWED, "S2N_ERR_CONNECTION_CACHING_DISALLOWED", "This connection is not allowed to be cached");
    (S2N_ERR_SESSION_TICKET_NOT_SUPPORTED, "S2N_ERR_SESSION_TICKET_NOT_SUPPORTED", "Session ticket not supported for this connection");
    (S2N_ERR_OCSP_NOT_SUPPORTED, "S2N_ERR_OCSP_NOT_SUPPORTED", "OCSP stapling was requested, but is not supported");
    (S2N_ERR_INVALID_SIGNATURE_ALGORITHMS_PREFERENCES, "S2N_ERR_INVALID_SIGNATURE_ALGORITHMS_PREFERENCES", "Invalid signature algorithms preferences version");
    (S2N_ERR_RSA_PSS_NOT_SUPPORTED, "S2N_ERR_RSA_PSS_NOT_SUPPORTED", "RSA-PSS signing not supported by underlying libcrypto implementation");
    (S2N_ERR_MAX_INNER_PLAINTEXT_SIZE, "S2N_ERR_MAX_INNER_PLAINTEXT_SIZE", "Inner plaintext size exceeds limit");
    (S2N_ERR_INVALID_ECC_PREFERENCES, "S2N_ERR_INVALID_ECC_PREFERENCES", "Invalid ecc curves preferences version");
    (S2N_ERR_RECORD_STUFFER_SIZE, "S2N_ERR_RECORD_STUFFER_SIZE", "Record stuffer out of space") ].

Definition ERR_ENTRIES_3 : list (s2n_error * string * string) :=
  [ (S2N_ERR_FRAGMENT_LENGTH_TOO_SMALL, "S2N_ERR_FRAGMENT_LENGTH_TOO_SMALL", "Fragment length is too small");
    (S2N_ERR_FRAGMENT_LENGTH_TOO_LARGE, "S2N_ERR_FRAGMENT_LENGTH_TOO_LARGE", "Fragment length is too large");
    (S2N_ERR_RECORD_STUFFER_NEEDS_DRAINING, "S2N_ERR_RECORD_STUFFER_NEEDS_DRAINING", "Record stuffer needs to be drained first");
    (S2N_ERR_UNSUPPORTED_EXTENSION, "S2N_ERR_UNSUPPORTED_EXTENSION", "Illegal use of a known, supported extension");
    (S2N_ERR_MISSING_EXTENSION, "S2N_ERR_MISSING_EXTENSION", "Mandatory extension not received");
    (S2N_ERR_DUPLICATE_EXTENSION, "S2N_ERR_DUPLICATE_EXTENSION", "Extension block contains two or more extensions of the same type");
    (S2N_ERR_DEPRECATED_SECURITY_POLICY, "S2N_ERR_DEPRECATED_SECURITY_POLICY", "Deprecated security policy. Please choose a different security policy.");
    (S2N_ERR_INVALID_SECURITY_POLICY, "S2N_ERR_INVALID_SECURITY_POLICY", "Invalid security policy");
    (S2N_ERR_INVALID_KEM_PREFERENCES, "S2N_ERR_INVALID_KEM_PREFERENCES", "Invalid kem preferences version");
    (S2N_ERR_INVALID_PARSED_EXTENSIONS, "S2N_ERR_INVALID_PARSED_EXTENSIONS", "Invalid parsed extension data");
    (S2N_ERR_ASYNC_ALREADY_PERFORMED, "S2N_ERR_ASYNC_ALREADY_PERFORMED", "Async operation was already performed, cannot perform it again");
    (S2N_ERR_ASYNC_NOT_PERFORMED, "S2N_ERR_ASYNC_NOT_PERFORMED", "Async operation is not performed, cannot apply its result");
    (S2N_ERR_ASYNC_WRONG_CONNECTION, "S2N_ERR_ASYNC_WRONG_CONNECTION", "Async private key operation can only be consumed by connection which initiated it");
    (S2N_ERR_ASYNC_ALREADY_APPLIED, "S2N_ERR_ASYNC_ALREADY_APPLIED", "Async operation was already applied to connection, cannot apply it again");
    (S2N_ERR_INVALID_HELLO_RETRY, "S2N_ERR_INVALID_HELLO_RETRY", "Invalid hello retry request");
    (S2N_ERR_INVALID_STATE, "S2N_ERR_INVALID_STATE", "Invalid state, this is the result of invalid use of an API. Check the API documentation for the function that raised this error for more info");
    (S2N_ERR_UNSUPPORTED_WITH_QUIC, "S2N_ERR_UNSUPPORTED_WITH_QUIC", "Functionality not supported when running with QUIC support enabled");
    (S2N_ERR_PQ_CRYPTO, "S2N_ERR_PQ_CRYPTO", "An error occurred in a post-quantum crypto function");
    (S2N_ERR_DUPLICATE_PSK_IDENTITIES, "S2N_ERR_DUPLICATE_PSK_IDENTITIES", "The list of pre-shared keys provided contains duplicate psk identities");
    (S2N_ERR_OFFERED_PSKS_TOO_LONG, "S2N_ERR_OFFERED_PSKS_TOO_LONG", "The total pre-shared key data is too long to send over the wire");
    (S2N_ERR_INVALID_SESSION_TICKET, "S2N_ERR_INVALID_SESSION_TICKET", "Session ticket data is not valid");
    (S2N_ERR_ZERO_LIFETIME_TICKET, "S2N_ERR_ZERO_LIFETIME_TICKET", "Calculated session lifetime is zero");
    (S2N_ERR_REENTRANCY, "S2N_ERR_REENTRANCY", "Original execution must complete before method can be called again");
    (S2N_ERR_INVALID_CERT_STATE, "S2N_ERR_INVALID_CERT_STATE", "Certificate validation entered an invalid state and is not able to continue");
    (S2N_ERR_INVALID_EARLY_DATA_STATE, "S2N_ERR_INVALID_EARLY_DATA_STATE", "Early data in invalid state");
    (S2N_ERR_EARLY_DATA_NOT_ALLOWED, "S2N_ERR_EARLY_DATA_NOT_ALLOWED", "Early data is not allowed by the connection");
    (S2N_ERR_NO_CERT_FOUND, "S2N_ERR_NO_CERT_FOUND", "Certificate not found");
    (S2N_ERR_NO_PRIVATE_KEY, "S2N_ERR_NO_PRIVATE_KEY", "Certificate found, but no corresponding private key");
    (S2N_ERR_CERT_NOT_VALIDATED, "S2N_ERR_CERT_NOT_VALIDATED", "Certificate not validated");
    (S2N_ERR_MAX_EARLY_DATA_SIZE, "S2N_ERR_MAX_EARLY_DATA_SIZE", "Maximum early data bytes exceeded");
    (S2N_ERR_EARLY_DATA_BLOCKED, "S2N_ERR_EARLY_DATA_BLOCKED", "Blocked on early data");
    (S2N_ERR_PSK_MODE, "S2N_ERR_PSK_MODE", "Mixing resumption and external PSKs is not supported");
    (S2N_ERR_X509_EXTENSION_VALUE_NOT_FOUND, "S2N_ERR_X509_EXTENSION_VALUE_NOT_FOUND", "X509 extension value not found");
    (S2N_ERR_INVALID_X509_EXTENSION_TYPE, "S2N_ERR_INVALID_X509_EXTENSION_TYPE", "Invalid X509 extension type");
    (S2N_ERR_INSUFFICIENT_MEM_SIZE, "S2N_ERR_INSUFFICIENT_MEM_SIZE", "The provided buffer size is not large enough to contain the output data. Try increasing the allocation size.");
    (S2N_ERR_KEYING_MATERIAL_EXPIRED, "S2N_ERR_KEYING_MATERIAL_EXPIRED", "The lifetime of the connection keying material has exceeded the limit. Perform a new full handshake.");
    (S2N_ERR_EARLY_DATA_TRIAL_DECRYPT, "S2N_ERR_EARLY_DATA_TRIAL_DECRYPT", "Unable to decrypt rejected early data");
    (S2N_ERR_PKEY_CTX_INIT, "S2N_ERR_PKEY_CTX_INIT", "Unable to initialize the libcrypto pkey context");
    (S2N_ERR_FORK_DETECTION_INIT, "S2N_ERR_FORK_DETECTION_INIT", "Fork detection initialization failed");
    (S2N_ERR_RETRIEVE_FORK_GENERATION_NUMBER, "S2N_ERR_RETRIEVE_FORK_GENERATION_NUMBER", "Retrieving fork generation number failed");
    (S2N_ERR_SECRET_SCHEDULE_STATE, "S2N_ERR_SECRET_SCHEDULE_STATE", "Correct inputs to secret calculation not available");
    (S2N_ERR_LIBCRYPTO_VERSION_NUMBER_MISMATCH, "S2N_ERR_LIBCRYPTO_VERSION_NUMBER_MISMATCH", "The libcrypto major version number seen at compile-time is different from the major version number seen at run-time");
    (S2N_ERR_LIBCRYPTO_VERSION_NAME_MISMATCH, "S2N_ERR_LIBCRYPTO_VERSION_NAME_MISMATCH", "The libcrypto major version name seen at compile-time is different from the major version name seen at run-time");
    (S2N_ERR_OSSL_PROVIDER, "S2N_ERR_OSSL_PROVIDER", "Failed to load or unload an openssl provider");
    (S2N_ERR_CERT_OWNERSHIP, "S2N_ERR_CERT_OWNERSHIP", "The ownership of the certificate chain is incompatible with the operation");
    (S2N_ERR_INTERNAL_LIBCRYPTO_ERROR, "S2N_ERR_INTERNAL_LIBCRYPTO_ERROR", "An internal error has occurred in the libcrypto API");
    (S2N_ERR_NO_RENEGOTIATION, "S2N_ERR_NO_RENEGOTIATION", "Only secure, server-initiated renegotiation is supported");
    (S2N_ERR_APP_DATA_BLOCKED, "S2N_ERR_APP_DATA_BLOCKED", "Blocked on application data during handshake");
    (S2N_ERR_KTLS_MANAGED_IO, "S2N_ERR_KTLS_MANAGED_IO", "kTLS cannot be enabled while custom I/O is configured for the connection");
    (S2N_ERR_HANDSHAKE_NOT_COMPLETE, "S2N_ERR_HANDSHAKE_NOT_COMPLETE", "Operation is only allowed after the handshake is complete");
    (S2N_ERR_KTLS_UNSUPPORTED_PLATFORM, "S2N_ERR_KTLS_UNSUPPORTED_PLATFORM", "kTLS is unsupported on this platform");
    (S2N_ERR_KTLS_UNSUPPORTED_CONN, "S2N_ERR_KTLS_UNSUPPORTED_CONN", "kTLS is unsupported for this connection");
    (S2N_ERR_KTLS_ENABLE, "S2N_ERR_KTLS_ENABLE", "An error occurred when attempting to enable kTLS on socket. Ensure the 'tls' kernel module is enabled.");
    (S2N_ERR_KTLS_BAD_CMSG, "S2N_ERR_KTLS_BAD_CMSG", "Error handling cmsghdr.");
    (S2N_ERR_ATOMIC, "S2N_ERR_ATOMIC", "Atomic operations in this environment would require locking");
    (S2N_ERR_TEST_ASSERTION, "S2N_ERR_TEST_ASSERTION", "Test assertion failed");
    (S2N_ERR_KTLS_RENEG, "S2N_ERR_KTLS_RENEG", "kTLS does not support secure renegotiation");
    (S2N_ERR_KTLS_KEYUPDATE, "S2N_ERR_KTLS_KEYUPDATE", "Received KeyUpdate from peer, but kernel does not support updating tls keys");
    (S2N_ERR_KTLS_KEY_LIMIT, "S2N_ERR_KTLS_KEY_LIMIT", "Reached key encryption limit, but kernel does not support updating tls keys");
    (S2N_ERR_UNEXPECTED_CERT_REQUEST, "S2N_ERR_UNEXPECTED_CERT_REQUEST", "Client forbids mutual authentication, but server requested a cert");
    (S2N_ERR_MISSING_CERT_REQUEST, "S2N_ERR_MISSING_CERT_REQUEST", "Client requires mutual authentication, but server did not request a cert");
    (S2N_ERR_MISSING_CLIENT_CERT, "S2N_ERR_MISSING_CLIENT_CERT", "Server requires client certificate");
    (S2N_ERR_INVALID_SERIALIZED_CONNECTION, "S2N_ERR_INVALID_SERIALIZED_CONNECTION", "Serialized connection is invalid");
    (S2N_ERR_TOO_MANY_CAS, "S2N_ERR_TOO_MANY_CAS", "Too many certificate authorities in trust store");
    (S2N_ERR_BAD_HEX, "S2N_ERR_BAD_HEX", "Could not parse malformed hex string");
    (S2N_ERR_CONFIG_NULL_BEFORE_CH_CALLBACK, "S2N_ERR_CONFIG_NULL_BEFORE_CH_CALLBACK", "Config set to NULL before client hello callback. This should not be possible outside of tests.");
    (S2N_ERR_API_UNSUPPORTED_BY_LIBCRYPTO, "S2N_ERR_API_UNSUPPORTED_BY_LIBCRYPTO", "The invoked s2n-tls API is not supported by the libcrypto");
    (S2N_ERR_FIPS_MODE_UNSUPPORTED, "S2N_ERR_FIPS_MODE_UNSUPPORTED", "FIPS mode is not supported for the libcrypto") ].

(** ERR_ENTRIES: an error, its name and its description. *)
Definition ERR_ENTRIES : list (s2n_error * string * string) :=
  ERR_ENTRIES_1 ++ ERR_ENTRIES_2 ++ ERR_ENTRIES_3.

Close Scope string_scope.

Definition no_such_language : string := "Language is not supported for error translation".
Definition no_such_error : string := "Internal s2n error".

(** strcasecmp(a, b) == 0 in the C locale. *)
Fixpoint same_ignoring_case (a b : string) : bool :=
  match a, b with
  | EmptyString, EmptyString => true
  | String x a, String y b => (tolower (char_value x) =? tolower (char_value y)) && same_ignoring_case a b
  | _, _ => false
  end.

(** The switch over an int: the case with that value. *)
Definition err_case (error : Z) : option (s2n_error * string * string) :=
  List.find (fun entry => error_code (fst (fst entry)) =? error) ERR_ENTRIES.

(** [lang] is [None] for NULL. *)
Definition s2n_strerror (error : Z) (lang : option string) : string :=
  let lang := default "EN"%string lang in
  if negb (same_ignoring_case lang "EN") then no_such_language
  else match err_case error with Some entry => snd entry | None => no_such_error end.

Definition s2n_strerror_name (error : Z) : string :=
  match err_case error with Some entry => snd (fst entry) | None => no_such_error end.

(** The thread-local [_s2n_debug_info]. *)
Record s2n_debug_info := DebugInfo { debug_str : string; source : string }.
Definition no_debug_info : s2n_debug_info := DebugInfo "" "".

Definition s2n_strerror_debug (info : s2n_debug_info) (error : Z) (lang : option string) : string :=
  let lang := default "EN"%string lang in
  if negb (same_ignoring_case lang "EN") then no_such_language
  else if error =? error_code S2N_ERR_OK then s2n_strerror error (Some lang)
  else debug_str info.

Definition s2n_strerror_source (info : s2n_debug_info) (error : Z) : string :=
  if error =? error_code S2N_ERR_OK then s2n_strerror error (Some "EN"%string) else source info.

Definition s2n_debug_info_reset : Cmd s2n_debug_info unit := put_obj no_debug_info.

(** ** Every error has an entry of its own *)

Lemma entries_codes : NoDup (map (fun entry => error_code (fst (fst entry))) ERR_ENTRIES).
Proof. apply (bool_decide_unpack _). vm_compute. exact I. Qed.

Lemma entries_names : NoDup (no_such_error :: map (fun entry => snd (fst entry)) ERR_ENTRIES).
Proof. apply (bool_decide_unpack _). vm_compute. exact I. Qed.

Definition entry_of (e : s2n_error) : option (s2n_error * string * string) :=
  List.find (fun entry => bool_decide (fst (fst entry) = e)) ERR_ENTRIES.

Lemma entry_complete e : is_Some (entry_of e).
Proof. destruct e; vm_compute; eauto. Qed.

Lemma err_case_code e entry : In entry ERR_ENTRIES -> fst (fst entry) = e -> err_case (error_code e) = Some entry.
Proof.
  intros Hin <-. unfold err_case. pose proof entries_codes as Hnd. revert Hin Hnd. generalize ERR_ENTRIES as l.
  induction l as [|x l IH]; intros Hin Hnd; [done|]. simpl in *. apply NoDup_cons in Hnd as [Hni Hnd].
  destruct (Z.eqb_spec (error_code (fst (fst x))) (error_code (fst (fst entry)))) as [Heq|Hne].
  - destruct Hin as [->|Hin]; [done|]. exfalso. apply Hni. rewrite Heq.
    apply list_elem_of_In, in_map_iff. by exists entry.
  - destruct Hin as [->|Hin]; [done|]. by apply IH.
Qed.

Lemma err_case_error e : exists entry, In entry ERR_ENTRIES /\ fst (fst entry) = e /\ err_case (error_code e) = Some entry.
Proof.
  destruct (entry_complete e) as [entry He]. apply find_some in He as [Hin Heq]. decided.
  exists entry. split_goal; [done|done|]. by apply err_case_code.
Qed.

(** Every error of the enumeration has a name and a description: s2n_strerror_name gives
    two errors the same name only if they are the same error, and the words for
    an unknown error only to numbers that are no error; the description does not
    depend on how the language is capitalised, and a language other than EN is
    refused. *)
Theorem strerror_correct (e : s2n_error) (code : Z) :
  s2n_strerror_name (error_code e) <> no_such_error /\
  (s2n_strerror_name code = s2n_strerror_name (error_code e) -> code = error_code e) /\
  ((forall e', code <> error_code e') -> s2n_strerror_name code = no_such_error /\ s2n_strerror code None = no_such_error) /\
  s2n_strerror (error_code e) (Some "en"%string) = s2n_strerror (error_code e) None /\
  s2n_strerror code (Some "de"%string) = no_such_language.
Proof.
  destruct (err_case_error e) as (entry & Hin & He & Hc). pose proof entries_names as Hnd. apply NoDup_cons in Hnd as [Hno Hnd].
  assert (Hname : forall x, In x ERR_ENTRIES -> snd (fst x) <> no_such_error).
  { intros x Hx Heq. apply Hno. rewrite <- Heq. apply list_elem_of_In, in_map_iff. by exists x. }
  split_goal; [| | |done|done].
  - unfold s2n_strerror_name. rewrite Hc. by apply Hname.
  - unfold s2n_strerror_name. rewrite Hc. destruct (err_case code) as [x|] eqn:Hx; [|intros Heq; by destruct (Hname entry Hin)].
    intros Heq. apply find_some in Hx as [Hinx Hcode]. zbool. rewrite <- Hcode, <- He. do 3 f_equal.
    revert Hin Hinx Hnd Heq. generalize ERR_ENTRIES as l. clear. induction l as [|y l IH]; intros Hin Hinx Hnd Heq; [done|].
    simpl in *. apply NoDup_cons in Hnd as [Hni Hnd].
    assert (Hfresh : forall z, In z l -> snd (fst y) <> snd (fst z)).
    { intros z Hz Heqz. apply Hni. rewrite Heqz. apply list_elem_of_In, in_map_iff. by exists z. }
    destruct Hin as [->|Hin], Hinx as [->|Hinx]; [done| | |by apply IH].
    + by destruct (Hfresh x Hinx).
    + by destruct (Hfresh entry Hin).
  - intros Hcode. assert (Hnone : err_case code = None).
    { destruct (err_case code) as [x|] eqn:Hx; [|done]. apply find_some in Hx as [_ Hx]. zbool. by destruct (Hcode (fst (fst x))). }
    unfold s2n_strerror_name, s2n_strerror. by rewrite Hnone.
Qed.
End ErrorStrings.
Export ErrorStrings.
