(* ===== verification/Sequence.v ===== *)
(** * Record sequence numbers: crypto/s2n_sequence.c

    A sequence number is a big-endian byte string that is incremented in place
    for every record; it must never wrap. *)
From S2P Require Import Prelude Errors CMem Platform Safety Blob NetworkOrder.
Open Scope Z_scope.

Module Sequence.

Definition SEQUENCE_NUMBER_POWER : Z := 8.

(** The loop from index [j - 1] down to 0. *)
Fixpoint increment_loop {X} (p : option ptr) (j : nat) : Cmd X unit :=
  match j with
  | O => ret tt
  | S i =>
      b <-- load_byte p (Z.of_nat i) ;;
      store_byte p (Z.of_nat i) (b + 1) ;;;
      b <-- load_byte p (Z.of_nat i) ;;
      if negb (b =? 0) then ret tt
      else
        ensure (negb (Z.of_nat i =? 0)) S2N_ERR_RECORD_LIMIT ;;;
        increment_loop p i
  end.

Definition s2n_increment_sequence_number : Cmd s2n_blob unit :=
  b <-- get_obj ;; increment_loop (data b) (Z.to_nat (size b)).

(** A shift of a 64-bit integer by 64 or more is undefined. *)
Fixpoint to_uint64_loop {X} (p : option ptr) (i : nat) (shift output : Z) : Cmd X Z :=
  match i with
  | O => ret output
  | S i' =>
      b <-- load_byte p (Z.of_nat i') ;;
      if shift <? 64 then
        to_uint64_loop p i' (u8 (shift + SEQUENCE_NUMBER_POWER)) (u64 (output + u64 (Z.shiftl b shift)))
      else undefined
  end.

Definition s2n_sequence_number_to_uint64 : Cmd s2n_blob Z :=
  b <-- get_obj ;; to_uint64_loop (data b) (Z.to_nat (size b)) 0 0.

(** ** Values of byte strings *)

Lemma be_value_snoc acc bs b : be_value acc (bs ++ [b]) = be_value acc bs * 256 + b.
Proof. revert acc. induction bs as [|c bs IH]; intros acc; simpl; [done|apply IH]. Qed.

Lemma be_value_bound bs : is_bytes bs -> 0 <= be_value 0 bs < 2 ^ (8 * zlen bs).
Proof. intros Hb. pose proof (be_value_range bs 0 0 Hb) as Hr. rewrite Z.add_0_l in Hr. apply Hr; lia. Qed.

(** Overwriting the first part of what was written. *)
Lemma heap_with_prefix h p a a' b :
  valid_access h p (zlen (a ++ b)) -> zlen a' = zlen a ->
  heap_with (heap_with h p (a ++ b)) p a' = heap_with h p (a' ++ b).
Proof.
  intros (l & Hl & H0 & Hn & Hle) Ha. pose proof (zlen_nonneg b). rewrite zlen_app in *.
  rewrite (heap_with_lookup h p (a ++ b) l), (heap_with_lookup h p (a' ++ b) l)
    by (rewrite ?zlen_app; done || lia).
  rewrite (heap_with_lookup _ p a' (zsplice l (off p) (a ++ b)));
    [|by rewrite lookup_insert_eq|done|rewrite zlen_zsplice; rewrite ?zlen_app; lia].
  rewrite insert_insert_eq. f_equal. unfold zsplice, zlen in *.
  assert (Hlen : length a' = length a) by lia.
  rewrite take_app_length' by (rewrite length_take; lia). f_equal.
  rewrite <- (app_assoc a). rewrite <- app_assoc. f_equal.
  rewrite drop_app_ge by (rewrite length_take; lia). rewrite length_take, Hlen.
  rewrite drop_app_ge by lia.
  replace (Z.to_nat (off p) + length a - Z.to_nat (off p) `min` length l - length a)%nat with 0%nat by lia.
  by rewrite !length_app, Hlen.
Qed.

(** The last of [i + 1] bytes. *)
Lemma bytes_at_last h p (i : nat) :
  valid_access h p (Z.of_nat (S i)) ->
  bytes_at h p (Z.of_nat (S i)) =
    bytes_at h p (Z.of_nat i) ++ [znth (bytes_at h (Ptr (blk p) (off p + Z.of_nat i)) 1) 0].
Proof.
  intros Hv. replace (Z.of_nat (S i)) with (Z.of_nat i + 1) in * by lia. rewrite bytes_at_app by (done || lia). f_equal.
  assert (H1 : valid_access h (Ptr (blk p) (off p + Z.of_nat i)) 1) by (eapply valid_access_sub; [done|lia..]).
  rewrite (bytes_at_cons _ _ 1 H1) by lia. f_equal. apply bytes_at_0.
Qed.

Section Loops.
Context {X : Type}.

(** What the increment of [j] bytes at [p] leaves behind. *)
Definition incremented (w : world) (p : ptr) (j : nat) (v : Z) (w' : world) : Prop :=
  exists bs, zlen bs = Z.of_nat j /\ is_bytes bs /\ be_value 0 bs = v /\
    w' = World (heap_with (hp w) p bs) (mem w).

Lemma valid_access_init h p (i : nat) : valid_access h p (Z.of_nat (S i)) -> valid_access h p (Z.of_nat i).
Proof. intros (l & ? & ? & ? & ?). exists l. split_goal; [done|lia..]. Qed.

(** Writing the last byte is writing all of them. *)
Lemma heap_with_last h p (i : nat) b :
  valid_access h p (Z.of_nat (S i)) ->
  heap_with h (Ptr (blk p) (off p + Z.of_nat i)) [b] = heap_with h p (bytes_at h p (Z.of_nat i) ++ [b]).
Proof.
  intros Hv. pose proof (zlen_bytes_at _ _ _ (valid_access_init _ _ _ Hv)) as Hl.
  rewrite <- heap_with_app; rewrite ?zlen_app, Hl.
  - by rewrite heap_with_self by (by apply valid_access_init).
  - change (zlen [b]) with 1. by replace (Z.of_nat i + 1) with (Z.of_nat (S i)) by lia.
Qed.

(** An increment that carries over the last byte. *)
Lemma incremented_carry w p i v w' :
  valid_access (hp w) p (Z.of_nat (S i)) ->
  incremented (World (heap_with (hp w) (Ptr (blk p) (off p + Z.of_nat i)) [0]) (mem w)) p i v w' ->
  incremented w p (S i) (v * 256) w'.
Proof.
  intros Hv (bs & Hl & Hb & <- & ->). pose proof (zlen_bytes_at _ _ _ (valid_access_init _ _ _ Hv)) as Hi.
  exists (bs ++ [0]). rewrite zlen_app, be_value_snoc, Hl. change (zlen [0]) with 1.
  split_goal; [lia|apply Forall_app; split; [done|solve_bytes]|lia|].
  simpl. rewrite heap_with_last by done. rewrite heap_with_prefix; [done| |lia].
  rewrite zlen_app, Hi. change (zlen [0]) with 1. by replace (Z.of_nat i + 1) with (Z.of_nat (S i)) by lia.
Qed.

(** An increment of the last byte alone. *)
Lemma incremented_last w p i b :
  heap_ok (hp w) -> valid_access (hp w) p (Z.of_nat (S i)) -> is_u8 b ->
  incremented w p (S i) (be_value 0 (bytes_at (hp w) p (Z.of_nat i)) * 256 + b)
    (World (heap_with (hp w) (Ptr (blk p) (off p + Z.of_nat i)) [b]) (mem w)).
Proof.
  intros Hh Hv Hb. exists (bytes_at (hp w) p (Z.of_nat i) ++ [b]).
  rewrite zlen_app, be_value_snoc, zlen_bytes_at by (by apply valid_access_init). change (zlen [b]) with 1.
  split_goal; [lia|apply Forall_app; split; [by apply bytes_at_is_bytes|by constructor]|done|].
  by rewrite heap_with_last.
Qed.

Lemma wp_increment_loop p j (w : world) (x : X) v :
  heap_ok (hp w) -> (0 < j)%nat -> valid_access (hp w) p (Z.of_nat j) ->
  v = be_value 0 (bytes_at (hp w) p (Z.of_nat j)) ->
  wp (increment_loop (Some p) j) (w, x)
    (fun _ w' x' => x' = x /\ v + 1 < 2 ^ (8 * Z.of_nat j) /\ incremented w p j (v + 1) w')
    (fun e w' x' => e = S2N_ERR_RECORD_LIMIT /\ x' = x /\ v + 1 = 2 ^ (8 * Z.of_nat j) /\ incremented w p j 0 w').
Proof.
  revert w v. induction j as [|i IH]; intros w v Hh Hj Hv Hval; [lia|].
  pose proof (valid_access_init _ _ _ Hv) as Hi. pose proof (zlen_bytes_at _ _ _ Hi) as Hlen.
  set (q := Ptr (blk p) (off p + Z.of_nat i)). set (b := znth (bytes_at (hp w) q 1) 0).
  assert (Hq : valid_access (hp w) q 1) by (eapply valid_access_sub; [exact Hv|lia..]).
  assert (Hb : is_u8 b) by (apply znth_is_u8; by apply bytes_at_is_bytes). unfold is_u8 in Hb.
  rewrite bytes_at_last, be_value_snoc in Hval by done. fold q b in Hval.
  pose proof (be_value_bound (bytes_at (hp w) p (Z.of_nat i)) (bytes_at_is_bytes _ _ _ Hh)) as Hbound. rewrite Hlen in Hbound.
  assert (Hpow : 2 ^ (8 * Z.of_nat (S i)) = 2 ^ (8 * Z.of_nat i) * 256).
  { replace (8 * Z.of_nat (S i)) with (8 * Z.of_nat i + 8) by lia. rewrite Z.pow_add_r by lia. done. }
  simpl increment_loop. apply wp_bind, wp_load_byte; [done|]. fold q b. apply wp_bind, wp_store_byte; [done|].
  fold q. apply wp_bind, wp_load_byte; [by apply valid_access_heap_with|]. fold q. simpl hp.
  pose proof (bytes_at_heap_with_same (hp w) q [u8 (b + 1)] Hq) as Hsame. change (zlen [_]) with 1 in Hsame.
  rewrite Hsame. change (znth [u8 (b + 1)] 0) with (u8 (b + 1)).
  destruct (Z.eqb_spec (u8 (b + 1)) 0) as [Hz|Hnz]; simpl negb; cbv iota.
  - assert (Hb255 : b = 255) by (unfold u8 in Hz; destruct (Z.eq_dec b 255); [done|rewrite Z.mod_small in Hz; lia]).
    rewrite Hz in *. assert (Hcarry := incremented_carry w p i). fold q in Hcarry.
    apply wp_bind, wp_ensure; intros Hi0; zbool.
    + assert (Hpre : bytes_at (heap_with (hp w) q [0]) p (Z.of_nat i) = bytes_at (hp w) p (Z.of_nat i)).
      { apply bytes_at_heap_with_disjoint; [done|done|simpl; lia]. }
      eapply wp_mono; [apply (IH _ (be_value 0 (bytes_at (hp w) p (Z.of_nat i)))); [|lia| |by simpl; rewrite Hpre]|..].
      * apply heap_with_ok; [done|solve_bytes].
      * by apply valid_access_heap_with.
      * intros [] w' x' (-> & Hlt & Hinc). split_goal; [done|lia|]. apply (Hcarry _ _ Hv) in Hinc.
        by replace (v + 1) with ((be_value 0 (bytes_at (hp w) p (Z.of_nat i)) + 1) * 256) by lia.
      * intros e w' x' (-> & -> & Heq & Hinc). split_goal; [done|done|lia|]. by apply (Hcarry _ _ Hv) in Hinc.
    + assert (i = 0%nat) by lia. subst i. simpl in Hbound, Hpow. split_goal; [done|done|lia|].
      pose proof (incremented_last w p 0 0 Hh Hv ltac:(unfold is_u8; lia)) as Hinc. by rewrite bytes_at_0 in Hinc.
  - assert (Hb254 : b < 255) by (destruct (Z.eq_dec b 255) as [->|]; [by destruct Hnz|lia]).
    rewrite u8_small in * by lia. apply wp_ret. split_goal; [done|lia|].
    pose proof (incremented_last w p i (b + 1) Hh Hv ltac:(unfold is_u8; lia)) as Hinc.
    by replace (v + 1) with (be_value 0 (bytes_at (hp w) p (Z.of_nat i)) * 256 + (b + 1)) by lia.
Qed.

(** The value of the first [i] bytes, shifted, is added. *)
Lemma wp_to_uint64_loop p i shift output (w : world) (x : X) Q E :
  heap_ok (hp w) -> valid_access (hp w) p (Z.of_nat i) -> 0 <= shift -> shift + 8 * Z.of_nat i <= 64 ->
  0 <= output < 2 ^ shift ->
  Q (output + 2 ^ shift * be_value 0 (bytes_at (hp w) p (Z.of_nat i))) w x ->
  wp (to_uint64_loop (Some p) i shift output) (w, x) Q E.
Proof.
  revert shift output. induction i as [|i IH]; intros shift output Hh Hv Hs Hle Ho HQ; simpl to_uint64_loop.
  - apply wp_ret. rewrite bytes_at_0 in HQ. simpl in HQ. by rewrite Z.mul_0_r, Z.add_0_r in HQ.
  - assert (Hq : valid_access (hp w) (Ptr (blk p) (off p + Z.of_nat i)) 1) by (eapply valid_access_sub; [done|lia..]).
    apply wp_bind, wp_load_byte; [done|]. set (b := znth _ 0).
    assert (Hb : is_u8 b) by (apply znth_is_u8; by apply bytes_at_is_bytes). unfold is_u8 in Hb.
    rewrite bytes_at_last, be_value_snoc in HQ by done. fold b in HQ.
    rewrite (proj2 (Z.ltb_lt _ _)) by lia.
    assert (Hpow : 2 ^ (shift + 8) = 2 ^ shift * 256) by (rewrite Z.pow_add_r by lia; done).
    assert (H64 : 2 ^ (shift + 8) <= 2 ^ 64) by (apply Z.pow_le_mono_r; lia).
    assert (Hp0 : 0 < 2 ^ shift) by (apply Z.pow_pos_nonneg; lia).
    rewrite Z.shiftl_mul_pow2 by lia. unfold SEQUENCE_NUMBER_POWER.
    rewrite (u8_small (shift + 8)), (u64_small (b * 2 ^ shift)), u64_small by nia.
    apply IH; [done| |lia|lia|nia|].
    + destruct Hv as (l & ? & ? & ? & ?). exists l. split_goal; [done|lia..].
    + replace (output + b * 2 ^ shift + 2 ^ (shift + 8) * be_value 0 (bytes_at (hp w) p (Z.of_nat i)))
        with (output + 2 ^ shift * (be_value 0 (bytes_at (hp w) p (Z.of_nat i)) * 256 + b)) by nia. done.
Qed.

End Loops.

Lemma to_uint64_eq (w : world) b p :
  heap_ok (hp w) -> valid_access (hp w) p (size b) -> data b = Some p -> size b <= 8 ->
  s2n_sequence_number_to_uint64 (w, b) = (Ok (be_value 0 (bytes_at (hp w) p (size b))), (w, b)).
Proof.
  intros Hh Hv Hp Hle. assert (0 <= size b) by (by destruct Hv as (l & ? & ? & ? & ?)).
  apply wp_eq, wp_bind, wp_get_obj. rewrite Hp.
  assert (Hn : Z.of_nat (Z.to_nat (size b)) = size b) by lia.
  apply wp_to_uint64_loop; rewrite ?Hn; [done|done|lia|lia|lia|].
  change (2 ^ 0) with 1. by rewrite Z.mul_1_l.
Qed.

Lemma to_uint64_incremented (w w' : world) b p v :
  heap_ok (hp w) -> valid_access (hp w) p (size b) -> data b = Some p -> size b <= 8 ->
  incremented w p (Z.to_nat (size b)) v w' ->
  s2n_sequence_number_to_uint64 (w', b) = (Ok v, (w', b)) /\ frame b (hp w) (hp w').
Proof.
  intros Hh Hv Hp Hle (bs & Hl & Hb & <- & ->). assert (0 <= size b) by (by destruct Hv as (l & ? & ? & ? & ?)).
  rewrite Z2Nat.id in Hl by lia. rewrite <- Hl in Hv. split.
  - rewrite (to_uint64_eq _ b p); simpl; [|by apply heap_with_ok|rewrite <- Hl; by apply valid_access_heap_with|done|done].
    by rewrite <- Hl, bytes_at_heap_with_same.
  - by apply (frame_heap_with b p p).
Qed.

(** C38 Sequence numbers count: incrementing a sequence number of at most 8 bytes adds
    exactly one to the integer it stands for and touches no other memory; when
    it holds the largest value the increment fails with the record limit error
    (and the number has become zero), so that no value is used twice. *)
Theorem increment_sequence_correct (w : world) (b : s2n_blob)
    (Hheap : heap_ok (hp w)) (Hblob : blob_ok (hp w) b) (Hsize : 0 < size b <= 8) :
  exists v, s2n_sequence_number_to_uint64 (w, b) = (Ok v, (w, b)) /\ 0 <= v < 2 ^ (8 * size b) /\
  match s2n_increment_sequence_number (w, b) with
  | (Ok _, (w', b')) => b' = b /\ v + 1 < 2 ^ (8 * size b) /\
      s2n_sequence_number_to_uint64 (w', b) = (Ok (v + 1), (w', b)) /\ frame b (hp w) (hp w')
  | (Err e, (w', b')) => e = S2N_ERR_RECORD_LIMIT /\ b' = b /\ v + 1 = 2 ^ (8 * size b) /\
      s2n_sequence_number_to_uint64 (w', b) = (Ok 0, (w', b)) /\ frame b (hp w) (hp w')
  | (UB, _) => False
  end.
Proof.
  destruct (data b) as [p|] eqn:Hp; [|destruct (ok_null _ _ Hblob Hp); lia].
  pose proof (blob_access_all _ _ _ Hblob Hp) as Hv.
  exists (be_value 0 (bytes_at (hp w) p (size b))). split; [apply to_uint64_eq; [done|done|done|lia]|]. split.
  { pose proof (be_value_bound _ (bytes_at_is_bytes (hp w) p (size b) Hheap)) as Hr. by rewrite zlen_bytes_at in Hr. }
  assert (Hn : Z.of_nat (Z.to_nat (size b)) = size b) by lia.
  pose proof (wp_increment_loop p (Z.to_nat (size b)) w b _ Hheap ltac:(lia) ltac:(by rewrite Hn) eq_refl) as Hrun.
  rewrite Hn in Hrun. unfold wp in Hrun.
  assert (Hrw : s2n_increment_sequence_number (w, b) = increment_loop (Some p) (Z.to_nat (size b)) (w, b)).
  { unfold s2n_increment_sequence_number, bind, get_obj. by rewrite Hp. }
  rewrite Hrw. destruct (increment_loop _ _ _) as [[[]|e|] [w' b']]; [| |done].
  - destruct Hrun as (-> & Hlt & Hinc). destruct (to_uint64_incremented w w' b p _ Hheap Hv Hp ltac:(lia) Hinc). done.
  - destruct Hrun as (-> & -> & Heq & Hinc). destruct (to_uint64_incremented w w' b p _ Hheap Hv Hp ltac:(lia) Hinc). done.
Qed.

Definition sequence_world : world := World {[1%positive := [0; 0; 0; 0; 0; 0; 1; 255]]} started_statics.
Definition sequence_blob : s2n_blob := Blob (Some (Ptr 1 0)) 8 0 false.

Lemma increment_sequence_correct_witness :
  s2n_sequence_number_to_uint64 (sequence_world, sequence_blob) = (Ok 511, (sequence_world, sequence_blob)) /\
  exists w', s2n_increment_sequence_number (sequence_world, sequence_blob) = (Ok tt, (w', sequence_blob)) /\
    s2n_sequence_number_to_uint64 (w', sequence_blob) = (Ok 512, (w', sequence_blob)).
Proof.
  assert (Hb : blob_ok (hp sequence_world) sequence_blob).
  { split; simpl; unfold is_u32; try done; try lia. intros p [= <-]. solve_valid_access. }
  destruct (increment_sequence_correct sequence_world sequence_blob) as (v & Hv & Hr & Hrun).
  - unfold sequence_world. simpl. solve_heap_ok.
  - exact Hb.
  - simpl. lia.
  - assert (Ev : v = 511) by (vm_compute in Hv; congruence). subst v. split; [exact Hv|].
    destruct (s2n_increment_sequence_number (sequence_world, sequence_blob)) as [[[]|e|] [w' b']]; [| |done].
    + destruct Hrun as (-> & _ & Hn & _). exists w'. split; [reflexivity|exact Hn].
    + destruct Hrun as (_ & _ & Heq & _). vm_compute in Heq. discriminate Heq.
Defined.

End Sequence.
Export Sequence.
