(* ===== verification/HandshakeTables.v ===== *)
(** * The tables of tls/s2n_handshake_io.c

    The message types, the handshake-type flags, the two state machines (which
    record carries a message, who writes it and which handlers process it) and
    the two tables of message orders, transcribed entry by entry.  C zero-fills
    what an initializer leaves out: a missing table entry is CLIENT_HELLO and a
    missing state has no writer and NULL handlers. *)
From S2P Require Import Prelude.
From Stdlib Require Import String.
Open Scope Z_scope.

Module HandshakeTables.

(** ** Constants *)

(** Record content types (tls/s2n_tls_parameters.h). *)
Definition SSLv2_CLIENT_HELLO : Z := 1.
Definition TLS_CHANGE_CIPHER_SPEC : Z := 20.
Definition TLS_ALERT : Z := 21.
Definition TLS_HANDSHAKE : Z := 22.
Definition TLS_APPLICATION_DATA : Z := 23.

(** Handshake message types (tls/s2n_handshake.h). *)
Definition TLS_HELLO_REQUEST : Z := 0.
Definition TLS_CLIENT_HELLO : Z := 1.
Definition TLS_SERVER_HELLO : Z := 2.
Definition TLS_SERVER_NEW_SESSION_TICKET : Z := 4.
Definition TLS_END_OF_EARLY_DATA : Z := 5.
Definition TLS_ENCRYPTED_EXTENSIONS : Z := 8.
Definition TLS_CERTIFICATE : Z := 11.
Definition TLS_SERVER_KEY : Z := 12.
Definition TLS_CERT_REQ : Z := 13.
Definition TLS_SERVER_HELLO_DONE : Z := 14.
Definition TLS_CERT_VERIFY : Z := 15.
Definition TLS_CLIENT_KEY : Z := 16.
Definition TLS_FINISHED : Z := 20.
Definition TLS_SERVER_CERT_STATUS : Z := 22.
Definition TLS_SERVER_SESSION_LOOKUP : Z := 23.
Definition TLS_KEY_UPDATE : Z := 24.
Definition TLS_NPN : Z := 67.
Definition TLS_MESSAGE_HASH : Z := 254.

Definition S2N_HANDSHAKES_COUNT : Z := 256.
Definition S2N_MAX_HANDSHAKE_LENGTH : Z := 32.

(** s2n_handshake_type_flag, s2n_tls12_handshake_type_flag and
    s2n_tls13_handshake_type_flag (tls/s2n_handshake_type.h). *)
Definition INITIAL : Z := 0.
Definition NEGOTIATED : Z := 1.
Definition FULL_HANDSHAKE : Z := 2.
Definition CLIENT_AUTH : Z := 4.
Definition NO_CLIENT_CERT : Z := 8.
Definition TLS12_PERFECT_FORWARD_SECRECY : Z := 16.
Definition OCSP_STATUS : Z := 32.
Definition WITH_SESSION_TICKET : Z := 64.
Definition WITH_NPN : Z := 128.
Definition HELLO_RETRY_REQUEST : Z := 16.
Definition MIDDLEBOX_COMPAT : Z := 32.
Definition WITH_EARLY_DATA : Z := 64.
Definition EARLY_CLIENT_CCS : Z := 128.

(** message_type_t *)
Inductive message_type_t :=
| CLIENT_HELLO | SERVER_HELLO | SERVER_CERT | SERVER_NEW_SESSION_TICKET
| SERVER_CERT_STATUS | SERVER_KEY | SERVER_CERT_REQ | SERVER_HELLO_DONE
| CLIENT_CERT | CLIENT_KEY | CLIENT_CERT_VERIFY | CLIENT_CHANGE_CIPHER_SPEC
| CLIENT_NPN | CLIENT_FINISHED | SERVER_CHANGE_CIPHER_SPEC | SERVER_FINISHED
| ENCRYPTED_EXTENSIONS | SERVER_CERT_VERIFY | HELLO_RETRY_MSG | END_OF_EARLY_DATA
| APPLICATION_DATA
.

#[export] Instance message_type_eq_dec : EqDecision message_type_t.
Proof. solve_decision. Defined.

Definition msg_eqb (a b : message_type_t) : bool := bool_decide (a = b).

(** All message types, in the order of the enumeration. *)
Definition all_message_types : list message_type_t :=
  [CLIENT_HELLO; SERVER_HELLO; SERVER_CERT; SERVER_NEW_SESSION_TICKET; SERVER_CERT_STATUS; SERVER_KEY; SERVER_CERT_REQ;
   SERVER_HELLO_DONE; CLIENT_CERT; CLIENT_KEY; CLIENT_CERT_VERIFY; CLIENT_CHANGE_CIPHER_SPEC; CLIENT_NPN; CLIENT_FINISHED;
   SERVER_CHANGE_CIPHER_SPEC; SERVER_FINISHED; ENCRYPTED_EXTENSIONS; SERVER_CERT_VERIFY; HELLO_RETRY_MSG; END_OF_EARLY_DATA; APPLICATION_DATA].

(** The handler functions the state machines refer to. *)
Inductive handler :=
| s2n_establish_session | s2n_client_hello_send | s2n_server_hello_send
| s2n_server_hello_recv | s2n_server_nst_send | s2n_server_nst_recv
| s2n_server_cert_send | s2n_server_cert_recv | s2n_server_status_send
| s2n_server_status_recv | s2n_server_key_send | s2n_server_key_recv
| s2n_cert_req_send | s2n_cert_req_recv | s2n_server_done_send
| s2n_server_done_recv | s2n_client_cert_recv | s2n_client_cert_send
| s2n_client_key_recv | s2n_client_key_send | s2n_client_cert_verify_recv
| s2n_client_cert_verify_send | s2n_client_ccs_recv | s2n_ccs_send
| s2n_next_protocol_recv | s2n_next_protocol_send | s2n_client_finished_recv
| s2n_client_finished_send | s2n_server_ccs_recv | s2n_server_finished_send
| s2n_server_finished_recv | s2n_always_fail_send | s2n_always_fail_recv
| s2n_server_hello_retry_send | s2n_server_hello_retry_recv | s2n_encrypted_extensions_send
| s2n_encrypted_extensions_recv | s2n_tls13_cert_req_send | s2n_tls13_cert_req_recv
| s2n_tls13_cert_verify_send | s2n_tls13_cert_verify_recv | s2n_tls13_server_finished_send
| s2n_tls13_server_finished_recv | s2n_tls13_client_finished_recv | s2n_tls13_client_finished_send
| s2n_end_of_early_data_recv | s2n_end_of_early_data_send | s2n_basic_ccs_recv
.

#[export] Instance handler_eq_dec : EqDecision handler.
Proof. solve_decision. Defined.

(** The [char writer] of an action: 'C', 'S' or 'B'; [NoWriter] is the zero
    byte of an entry that was left out. *)
Inductive writer_t := WriterC | WriterS | WriterB | NoWriter.

#[export] Instance writer_eq_dec : EqDecision writer_t.
Proof. solve_decision. Defined.

Definition writer_eqb (a b : writer_t) : bool := bool_decide (a = b).

(** struct s2n_handshake_action; [handler[S2N_SERVER]] and [handler[S2N_CLIENT]]. *)
Record s2n_handshake_action := Action {
  record_type : Z;
  message_type : Z;
  writer : writer_t;
  server_handler : option handler;
  client_handler : option handler;
}.

(** An entry that was left out of a designated initializer. *)
Definition zero_action : s2n_handshake_action := Action 0 0 NoWriter None None.

(** ** The state machines *)

Definition state_machine (m : message_type_t) : s2n_handshake_action :=
  match m with
  | CLIENT_HELLO => Action TLS_HANDSHAKE TLS_CLIENT_HELLO WriterC (Some s2n_establish_session) (Some s2n_client_hello_send)
  | SERVER_HELLO => Action TLS_HANDSHAKE TLS_SERVER_HELLO WriterS (Some s2n_server_hello_send) (Some s2n_server_hello_recv)
  | SERVER_NEW_SESSION_TICKET => Action TLS_HANDSHAKE TLS_SERVER_NEW_SESSION_TICKET WriterS (Some s2n_server_nst_send) (Some s2n_server_nst_recv)
  | SERVER_CERT => Action TLS_HANDSHAKE TLS_CERTIFICATE WriterS (Some s2n_server_cert_send) (Some s2n_server_cert_recv)
  | SERVER_CERT_STATUS => Action TLS_HANDSHAKE TLS_SERVER_CERT_STATUS WriterS (Some s2n_server_status_send) (Some s2n_server_status_recv)
  | SERVER_KEY => Action TLS_HANDSHAKE TLS_SERVER_KEY WriterS (Some s2n_server_key_send) (Some s2n_server_key_recv)
  | SERVER_CERT_REQ => Action TLS_HANDSHAKE TLS_CERT_REQ WriterS (Some s2n_cert_req_send) (Some s2n_cert_req_recv)
  | SERVER_HELLO_DONE => Action TLS_HANDSHAKE TLS_SERVER_HELLO_DONE WriterS (Some s2n_server_done_send) (Some s2n_server_done_recv)
  | CLIENT_CERT => Action TLS_HANDSHAKE TLS_CERTIFICATE WriterC (Some s2n_client_cert_recv) (Some s2n_client_cert_send)
  | CLIENT_KEY => Action TLS_HANDSHAKE TLS_CLIENT_KEY WriterC (Some s2n_client_key_recv) (Some s2n_client_key_send)
  | CLIENT_CERT_VERIFY => Action TLS_HANDSHAKE TLS_CERT_VERIFY WriterC (Some s2n_client_cert_verify_recv) (Some s2n_client_cert_verify_send)
  | CLIENT_CHANGE_CIPHER_SPEC => Action TLS_CHANGE_CIPHER_SPEC 0 WriterC (Some s2n_client_ccs_recv) (Some s2n_ccs_send)
  | CLIENT_NPN => Action TLS_HANDSHAKE TLS_NPN WriterC (Some s2n_next_protocol_recv) (Some s2n_next_protocol_send)
  | CLIENT_FINISHED => Action TLS_HANDSHAKE TLS_FINISHED WriterC (Some s2n_client_finished_recv) (Some s2n_client_finished_send)
  | SERVER_CHANGE_CIPHER_SPEC => Action TLS_CHANGE_CIPHER_SPEC 0 WriterS (Some s2n_ccs_send) (Some s2n_server_ccs_recv)
  | SERVER_FINISHED => Action TLS_HANDSHAKE TLS_FINISHED WriterS (Some s2n_server_finished_send) (Some s2n_server_finished_recv)
  | APPLICATION_DATA => Action TLS_APPLICATION_DATA 0 WriterB (Some s2n_always_fail_send) (Some s2n_always_fail_recv)
  | _ => zero_action
  end.

Definition tls13_state_machine (m : message_type_t) : s2n_handshake_action :=
  match m with
  | CLIENT_HELLO => Action TLS_HANDSHAKE TLS_CLIENT_HELLO WriterC (Some s2n_establish_session) (Some s2n_client_hello_send)
  | SERVER_HELLO => Action TLS_HANDSHAKE TLS_SERVER_HELLO WriterS (Some s2n_server_hello_send) (Some s2n_server_hello_recv)
  | HELLO_RETRY_MSG => Action TLS_HANDSHAKE TLS_SERVER_HELLO WriterS (Some s2n_server_hello_retry_send) (Some s2n_server_hello_retry_recv)
  | ENCRYPTED_EXTENSIONS => Action TLS_HANDSHAKE TLS_ENCRYPTED_EXTENSIONS WriterS (Some s2n_encrypted_extensions_send) (Some s2n_encrypted_extensions_recv)
  | SERVER_CERT_REQ => Action TLS_HANDSHAKE TLS_CERT_REQ WriterS (Some s2n_tls13_cert_req_send) (Some s2n_tls13_cert_req_recv)
  | SERVER_CERT => Action TLS_HANDSHAKE TLS_CERTIFICATE WriterS (Some s2n_server_cert_send) (Some s2n_server_cert_recv)
  | SERVER_CERT_VERIFY => Action TLS_HANDSHAKE TLS_CERT_VERIFY WriterS (Some s2n_tls13_cert_verify_send) (Some s2n_tls13_cert_verify_recv)
  | SERVER_FINISHED => Action TLS_HANDSHAKE TLS_FINISHED WriterS (Some s2n_tls13_server_finished_send) (Some s2n_tls13_server_finished_recv)
  | CLIENT_CERT => Action TLS_HANDSHAKE TLS_CERTIFICATE WriterC (Some s2n_client_cert_recv) (Some s2n_client_cert_send)
  | CLIENT_CERT_VERIFY => Action TLS_HANDSHAKE TLS_CERT_VERIFY WriterC (Some s2n_tls13_cert_verify_recv) (Some s2n_tls13_cert_verify_send)
  | CLIENT_FINISHED => Action TLS_HANDSHAKE TLS_FINISHED WriterC (Some s2n_tls13_client_finished_recv) (Some s2n_tls13_client_finished_send)
  | END_OF_EARLY_DATA => Action TLS_HANDSHAKE TLS_END_OF_EARLY_DATA WriterC (Some s2n_end_of_early_data_recv) (Some s2n_end_of_early_data_send)
  | CLIENT_CHANGE_CIPHER_SPEC => Action TLS_CHANGE_CIPHER_SPEC 0 WriterC (Some s2n_basic_ccs_recv) (Some s2n_ccs_send)
  | SERVER_CHANGE_CIPHER_SPEC => Action TLS_CHANGE_CIPHER_SPEC 0 WriterS (Some s2n_ccs_send) (Some s2n_basic_ccs_recv)
  | APPLICATION_DATA => Action TLS_APPLICATION_DATA 0 WriterB (Some s2n_always_fail_send) (Some s2n_always_fail_recv)
  | _ => zero_action
  end.

Definition message_names (m : message_type_t) : string :=
  match m with
  | CLIENT_HELLO => "CLIENT_HELLO"
  | SERVER_HELLO => "SERVER_HELLO"
  | ENCRYPTED_EXTENSIONS => "ENCRYPTED_EXTENSIONS"
  | SERVER_NEW_SESSION_TICKET => "SERVER_NEW_SESSION_TICKET"
  | SERVER_CERT => "SERVER_CERT"
  | SERVER_CERT_STATUS => "SERVER_CERT_STATUS"
  | SERVER_CERT_VERIFY => "SERVER_CERT_VERIFY"
  | SERVER_KEY => "SERVER_KEY"
  | SERVER_CERT_REQ => "SERVER_CERT_REQ"
  | SERVER_HELLO_DONE => "SERVER_HELLO_DONE"
  | CLIENT_CERT => "CLIENT_CERT"
  | CLIENT_KEY => "CLIENT_KEY"
  | CLIENT_CERT_VERIFY => "CLIENT_CERT_VERIFY"
  | CLIENT_CHANGE_CIPHER_SPEC => "CLIENT_CHANGE_CIPHER_SPEC"
  | CLIENT_FINISHED => "CLIENT_FINISHED"
  | SERVER_CHANGE_CIPHER_SPEC => "SERVER_CHANGE_CIPHER_SPEC"
  | SERVER_FINISHED => "SERVER_FINISHED"
  | HELLO_RETRY_MSG => "HELLO_RETRY_MSG"
  | END_OF_EARLY_DATA => "END_OF_EARLY_DATA"
  | APPLICATION_DATA => "APPLICATION_DATA"
  | CLIENT_NPN => "CLIENT_NPN"
  end.

(** ** The message orders

    A table is the list of its initializers: an index and the messages. *)
Definition handshake_table : Type := list (Z * list message_type_t).

Abbreviation flags := (fold_right Z.lor 0).

(** Lines 141 to 274. *)
Definition handshakes_1 : handshake_table := [
  (flags [INITIAL],
    [CLIENT_HELLO; SERVER_HELLO]);
  (flags [NEGOTIATED],
    [CLIENT_HELLO; SERVER_HELLO; SERVER_CHANGE_CIPHER_SPEC; SERVER_FINISHED;
     CLIENT_CHANGE_CIPHER_SPEC; CLIENT_FINISHED; APPLICATION_DATA]);
  (flags [NEGOTIATED; WITH_NPN],
    [CLIENT_HELLO; SERVER_HELLO; SERVER_CHANGE_CIPHER_SPEC; SERVER_FINISHED;
     CLIENT_CHANGE_CIPHER_SPEC; CLIENT_NPN; CLIENT_FINISHED; APPLICATION_DATA]);
  (flags [NEGOTIATED; WITH_SESSION_TICKET],
    [CLIENT_HELLO; SERVER_HELLO; SERVER_NEW_SESSION_TICKET; SERVER_CHANGE_CIPHER_SPEC;
     SERVER_FINISHED; CLIENT_CHANGE_CIPHER_SPEC; CLIENT_FINISHED; APPLICATION_DATA]);
  (flags [NEGOTIATED; WITH_SESSION_TICKET; WITH_NPN],
    [CLIENT_HELLO; SERVER_HELLO; SERVER_NEW_SESSION_TICKET; SERVER_CHANGE_CIPHER_SPEC;
     SERVER_FINISHED; CLIENT_CHANGE_CIPHER_SPEC; CLIENT_NPN; CLIENT_FINISHED; APPLICATION_DATA]);
  (flags [NEGOTIATED; FULL_HANDSHAKE],
    [CLIENT_HELLO; SERVER_HELLO; SERVER_CERT; SERVER_HELLO_DONE; CLIENT_KEY;
     CLIENT_CHANGE_CIPHER_SPEC; CLIENT_FINISHED; SERVER_CHANGE_CIPHER_SPEC; SERVER_FINISHED;
     APPLICATION_DATA]);
  (flags [NEGOTIATED; FULL_HANDSHAKE; WITH_NPN],
    [CLIENT_HELLO; SERVER_HELLO; SERVER_CERT; SERVER_HELLO_DONE; CLIENT_KEY;
     CLIENT_CHANGE_CIPHER_SPEC; CLIENT_NPN; CLIENT_FINISHED; SERVER_CHANGE_CIPHER_SPEC;
     SERVER_FINISHED; APPLICATION_DATA]);
  (flags [NEGOTIATED; FULL_HANDSHAKE; WITH_SESSION_TICKET],
    [CLIENT_HELLO; SERVER_HELLO; SERVER_CERT; SERVER_HELLO_DONE; CLIENT_KEY;
     CLIENT_CHANGE_CIPHER_SPEC; CLIENT_FINISHED; SERVER_NEW_SESSION_TICKET;
     SERVER_CHANGE_CIPHER_SPEC; SERVER_FINISHED; APPLICATION_DATA]);
  (flags [NEGOTIATED; FULL_HANDSHAKE; WITH_SESSION_TICKET; WITH_NPN],
    [CLIENT_HELLO; SERVER_HELLO; SERVER_CERT; SERVER_HELLO_DONE; CLIENT_KEY;
     CLIENT_CHANGE_CIPHER_SPEC; CLIENT_NPN; CLIENT_FINISHED; SERVER_NEW_SESSION_TICKET;
     SERVER_CHANGE_CIPHER_SPEC; SERVER_FINISHED; APPLICATION_DATA]);
  (flags [NEGOTIATED; FULL_HANDSHAKE; TLS12_PERFECT_FORWARD_SECRECY],
    [CLIENT_HELLO; SERVER_HELLO; SERVER_CERT; SERVER_KEY; SERVER_HELLO_DONE; CLIENT_KEY;
     CLIENT_CHANGE_CIPHER_SPEC; CLIENT_FINISHED; SERVER_CHANGE_CIPHER_SPEC; SERVER_FINISHED;
     APPLICATION_DATA]);
  (flags [NEGOTIATED; FULL_HANDSHAKE; TLS12_PERFECT_FORWARD_SECRECY; WITH_NPN],
    [CLIENT_HELLO; SERVER_HELLO; SERVER_CERT; SERVER_KEY; SERVER_HELLO_DONE; CLIENT_KEY;
     CLIENT_CHANGE_CIPHER_SPEC; CLIENT_NPN; CLIENT_FINISHED; SERVER_CHANGE_CIPHER_SPEC;
     SERVER_FINISHED; APPLICATION_DATA]);
  (flags [NEGOTIATED; FULL_HANDSHAKE; TLS12_PERFECT_FORWARD_SECRECY; WITH_SESSION_TICKET],
    [CLIENT_HELLO; SERVER_HELLO; SERVER_CERT; SERVER_KEY; SERVER_HELLO_DONE; CLIENT_KEY;
     CLIENT_CHANGE_CIPHER_SPEC; CLIENT_FINISHED; SERVER_NEW_SESSION_TICKET;
     SERVER_CHANGE_CIPHER_SPEC; SERVER_FINISHED; APPLICATION_DATA]);
  (flags [NEGOTIATED; FULL_HANDSHAKE; TLS12_PERFECT_FORWARD_SECRECY; WITH_SESSION_TICKET; WITH_NPN],
    [CLIENT_HELLO; SERVER_HELLO; SERVER_CERT; SERVER_KEY; SERVER_HELLO_DONE; CLIENT_KEY;
     CLIENT_CHANGE_CIPHER_SPEC; CLIENT_NPN; CLIENT_FINISHED; SERVER_NEW_SESSION_TICKET;
     SERVER_CHANGE_CIPHER_SPEC; SERVER_FINISHED; APPLICATION_DATA]);
  (flags [NEGOTIATED; FULL_HANDSHAKE; OCSP_STATUS],
    [CLIENT_HELLO; SERVER_HELLO; SERVER_CERT; SERVER_CERT_STATUS; SERVER_HELLO_DONE; CLIENT_KEY;
     CLIENT_CHANGE_CIPHER_SPEC; CLIENT_FINISHED; SERVER_CHANGE_CIPHER_SPEC; SERVER_FINISHED;
     APPLICATION_DATA]);
  (flags [NEGOTIATED; FULL_HANDSHAKE; OCSP_STATUS; WITH_NPN],
    [CLIENT_HELLO; SERVER_HELLO; SERVER_CERT; SERVER_CERT_STATUS; SERVER_HELLO_DONE; CLIENT_KEY;
     CLIENT_CHANGE_CIPHER_SPEC; CLIENT_NPN; CLIENT_FINISHED; SERVER_CHANGE_CIPHER_SPEC;
     SERVER_FINISHED; APPLICATION_DATA]);
  (flags [NEGOTIATED; FULL_HANDSHAKE; OCSP_STATUS; WITH_SESSION_TICKET],
    [CLIENT_HELLO; SERVER_HELLO; SERVER_CERT; SERVER_CERT_STATUS; SERVER_HELLO_DONE; CLIENT_KEY;
     CLIENT_CHANGE_CIPHER_SPEC; CLIENT_FINISHED; SERVER_NEW_SESSION_TICKET;
     SERVER_CHANGE_CIPHER_SPEC; SERVER_FINISHED; APPLICATION_DATA]);
  (flags [NEGOTIATED; FULL_HANDSHAKE; OCSP_STATUS; WITH_SESSION_TICKET; WITH_NPN],
    [CLIENT_HELLO; SERVER_HELLO; SERVER_CERT; SERVER_CERT_STATUS; SERVER_HELLO_DONE; CLIENT_KEY;
     CLIENT_CHANGE_CIPHER_SPEC; CLIENT_NPN; CLIENT_FINISHED; SERVER_NEW_SESSION_TICKET;
     SERVER_CHANGE_CIPHER_SPEC; SERVER_FINISHED; APPLICATION_DATA]);
  (flags [NEGOTIATED; FULL_HANDSHAKE; TLS12_PERFECT_FORWARD_SECRECY; OCSP_STATUS],
    [CLIENT_HELLO; SERVER_HELLO; SERVER_CERT; SERVER_CERT_STATUS; SERVER_KEY; SERVER_HELLO_DONE;
     CLIENT_KEY; CLIENT_CHANGE_CIPHER_SPEC; CLIENT_FINISHED; SERVER_CHANGE_CIPHER_SPEC;
     SERVER_FINISHED; APPLICATION_DATA])
].

(** Lines 276 to 410. *)
Definition handshakes_2 : handshake_table := [
  (flags [NEGOTIATED; FULL_HANDSHAKE; TLS12_PERFECT_FORWARD_SECRECY; OCSP_STATUS; WITH_NPN],
    [CLIENT_HELLO; SERVER_HELLO; SERVER_CERT; SERVER_CERT_STATUS; SERVER_KEY; SERVER_HELLO_DONE;
     CLIENT_KEY; CLIENT_CHANGE_CIPHER_SPEC; CLIENT_NPN; CLIENT_FINISHED; SERVER_CHANGE_CIPHER_SPEC;
     SERVER_FINISHED; APPLICATION_DATA]);
  (flags [NEGOTIATED; FULL_HANDSHAKE; TLS12_PERFECT_FORWARD_SECRECY; OCSP_STATUS; WITH_SESSION_TICKET],
    [CLIENT_HELLO; SERVER_HELLO; SERVER_CERT; SERVER_CERT_STATUS; SERVER_KEY; SERVER_HELLO_DONE;
     CLIENT_KEY; CLIENT_CHANGE_CIPHER_SPEC; CLIENT_FINISHED; SERVER_NEW_SESSION_TICKET;
     SERVER_CHANGE_CIPHER_SPEC; SERVER_FINISHED; APPLICATION_DATA]);
  (flags [NEGOTIATED; FULL_HANDSHAKE; TLS12_PERFECT_FORWARD_SECRECY; OCSP_STATUS; WITH_SESSION_TICKET; WITH_NPN],
    [CLIENT_HELLO; SERVER_HELLO; SERVER_CERT; SERVER_CERT_STATUS; SERVER_KEY; SERVER_HELLO_DONE;
     CLIENT_KEY; CLIENT_CHANGE_CIPHER_SPEC; CLIENT_NPN; CLIENT_FINISHED; SERVER_NEW_SESSION_TICKET;
     SERVER_CHANGE_CIPHER_SPEC; SERVER_FINISHED; APPLICATION_DATA]);
  (flags [NEGOTIATED; FULL_HANDSHAKE; CLIENT_AUTH],
    [CLIENT_HELLO; SERVER_HELLO; SERVER_CERT; SERVER_CERT_REQ; SERVER_HELLO_DONE; CLIENT_CERT;
     CLIENT_KEY; CLIENT_CERT_VERIFY; CLIENT_CHANGE_CIPHER_SPEC; CLIENT_FINISHED;
     SERVER_CHANGE_CIPHER_SPEC; SERVER_FINISHED; APPLICATION_DATA]);
  (flags [NEGOTIATED; FULL_HANDSHAKE; CLIENT_AUTH; WITH_NPN],
    [CLIENT_HELLO; SERVER_HELLO; SERVER_CERT; SERVER_CERT_REQ; SERVER_HELLO_DONE; CLIENT_CERT;
     CLIENT_KEY; CLIENT_CERT_VERIFY; CLIENT_CHANGE_CIPHER_SPEC; CLIENT_NPN; CLIENT_FINISHED;
     SERVER_CHANGE_CIPHER_SPEC; SERVER_FINISHED; APPLICATION_DATA]);
  (flags [NEGOTIATED; FULL_HANDSHAKE; CLIENT_AUTH; NO_CLIENT_CERT],
    [CLIENT_HELLO; SERVER_HELLO; SERVER_CERT; SERVER_CERT_REQ; SERVER_HELLO_DONE; CLIENT_CERT;
     CLIENT_KEY; CLIENT_CHANGE_CIPHER_SPEC; CLIENT_FINISHED; SERVER_CHANGE_CIPHER_SPEC;
     SERVER_FINISHED; APPLICATION_DATA]);
  (flags [NEGOTIATED; FULL_HANDSHAKE; CLIENT_AUTH; NO_CLIENT_CERT; WITH_NPN],
    [CLIENT_HELLO; SERVER_HELLO; SERVER_CERT; SERVER_CERT_REQ; SERVER_HELLO_DONE; CLIENT_CERT;
     CLIENT_KEY; CLIENT_CHANGE_CIPHER_SPEC; CLIENT_NPN; CLIENT_FINISHED; SERVER_CHANGE_CIPHER_SPEC;
     SERVER_FINISHED; APPLICATION_DATA]);
  (flags [NEGOTIATED; FULL_HANDSHAKE; CLIENT_AUTH; WITH_SESSION_TICKET],
    [CLIENT_HELLO; SERVER_HELLO; SERVER_CERT; SERVER_CERT_REQ; SERVER_HELLO_DONE; CLIENT_CERT;
     CLIENT_KEY; CLIENT_CERT_VERIFY; CLIENT_CHANGE_CIPHER_SPEC; CLIENT_FINISHED;
     SERVER_NEW_SESSION_TICKET; SERVER_CHANGE_CIPHER_SPEC; SERVER_FINISHED; APPLICATION_DATA]);
  (flags [NEGOTIATED; FULL_HANDSHAKE; CLIENT_AUTH; WITH_SESSION_TICKET; WITH_NPN],
    [CLIENT_HELLO; SERVER_HELLO; SERVER_CERT; SERVER_CERT_REQ; SERVER_HELLO_DONE; CLIENT_CERT;
     CLIENT_KEY; CLIENT_CERT_VERIFY; CLIENT_CHANGE_CIPHER_SPEC; CLIENT_NPN; CLIENT_FINISHED;
     SERVER_NEW_SESSION_TICKET; SERVER_CHANGE_CIPHER_SPEC; SERVER_FINISHED; APPLICATION_DATA]);
  (flags [NEGOTIATED; FULL_HANDSHAKE; CLIENT_AUTH; NO_CLIENT_CERT; WITH_SESSION_TICKET],
    [CLIENT_HELLO; SERVER_HELLO; SERVER_CERT; SERVER_CERT_REQ; SERVER_HELLO_DONE; CLIENT_CERT;
     CLIENT_KEY; CLIENT_CHANGE_CIPHER_SPEC; CLIENT_FINISHED; SERVER_NEW_SESSION_TICKET;
     SERVER_CHANGE_CIPHER_SPEC; SERVER_FINISHED; APPLICATION_DATA]);
  (flags [NEGOTIATED; FULL_HANDSHAKE; CLIENT_AUTH; NO_CLIENT_CERT; WITH_SESSION_TICKET; WITH_NPN],
    [CLIENT_HELLO; SERVER_HELLO; SERVER_CERT; SERVER_CERT_REQ; SERVER_HELLO_DONE; CLIENT_CERT;
     CLIENT_KEY; CLIENT_CHANGE_CIPHER_SPEC; CLIENT_NPN; CLIENT_FINISHED; SERVER_NEW_SESSION_TICKET;
     SERVER_CHANGE_CIPHER_SPEC; SERVER_FINISHED; APPLICATION_DATA]);
  (flags [NEGOTIATED; FULL_HANDSHAKE; TLS12_PERFECT_FORWARD_SECRECY; CLIENT_AUTH],
    [CLIENT_HELLO; SERVER_HELLO; SERVER_CERT; SERVER_KEY; SERVER_CERT_REQ; SERVER_HELLO_DONE;
     CLIENT_CERT; CLIENT_KEY; CLIENT_CERT_VERIFY; CLIENT_CHANGE_CIPHER_SPEC; CLIENT_FINISHED;
     SERVER_CHANGE_CIPHER_SPEC; SERVER_FINISHED; APPLICATION_DATA]);
  (flags [NEGOTIATED; FULL_HANDSHAKE; TLS12_PERFECT_FORWARD_SECRECY; CLIENT_AUTH; WITH_NPN],
    [CLIENT_HELLO; SERVER_HELLO; SERVER_CERT; SERVER_KEY; SERVER_CERT_REQ; SERVER_HELLO_DONE;
     CLIENT_CERT; CLIENT_KEY; CLIENT_CERT_VERIFY; CLIENT_CHANGE_CIPHER_SPEC; CLIENT_NPN;
     CLIENT_FINISHED; SERVER_CHANGE_CIPHER_SPEC; SERVER_FINISHED; APPLICATION_DATA]);
  (flags [NEGOTIATED; FULL_HANDSHAKE; TLS12_PERFECT_FORWARD_SECRECY; CLIENT_AUTH; NO_CLIENT_CERT],
    [CLIENT_HELLO; SERVER_HELLO; SERVER_CERT; SERVER_KEY; SERVER_CERT_REQ; SERVER_HELLO_DONE;
     CLIENT_CERT; CLIENT_KEY; CLIENT_CHANGE_CIPHER_SPEC; CLIENT_FINISHED;
     SERVER_CHANGE_CIPHER_SPEC; SERVER_FINISHED; APPLICATION_DATA]);
  (flags [NEGOTIATED; FULL_HANDSHAKE; TLS12_PERFECT_FORWARD_SECRECY; CLIENT_AUTH; NO_CLIENT_CERT; WITH_NPN],
    [CLIENT_HELLO; SERVER_HELLO; SERVER_CERT; SERVER_KEY; SERVER_CERT_REQ; SERVER_HELLO_DONE;
     CLIENT_CERT; CLIENT_KEY; CLIENT_CHANGE_CIPHER_SPEC; CLIENT_NPN; CLIENT_FINISHED;
     SERVER_CHANGE_CIPHER_SPEC; SERVER_FINISHED; APPLICATION_DATA]);
  (flags [NEGOTIATED; FULL_HANDSHAKE; TLS12_PERFECT_FORWARD_SECRECY; CLIENT_AUTH; WITH_SESSION_TICKET],
    [CLIENT_HELLO; SERVER_HELLO; SERVER_CERT; SERVER_KEY; SERVER_CERT_REQ; SERVER_HELLO_DONE;
     CLIENT_CERT; CLIENT_KEY; CLIENT_CERT_VERIFY; CLIENT_CHANGE_CIPHER_SPEC; CLIENT_FINISHED;
     SERVER_NEW_SESSION_TICKET; SERVER_CHANGE_CIPHER_SPEC; SERVER_FINISHED; APPLICATION_DATA]);
  (flags [NEGOTIATED; FULL_HANDSHAKE; TLS12_PERFECT_FORWARD_SECRECY; CLIENT_AUTH; WITH_SESSION_TICKET; WITH_NPN],
    [CLIENT_HELLO; SERVER_HELLO; SERVER_CERT; SERVER_KEY; SERVER_CERT_REQ; SERVER_HELLO_DONE;
     CLIENT_CERT; CLIENT_KEY; CLIENT_CERT_VERIFY; CLIENT_CHANGE_CIPHER_SPEC; CLIENT_NPN;
     CLIENT_FINISHED; SERVER_NEW_SESSION_TICKET; SERVER_CHANGE_CIPHER_SPEC; SERVER_FINISHED;
     APPLICATION_DATA])
].

(** Lines 412 to 546. *)
Definition handshakes_3 : handshake_table := [
  (flags [NEGOTIATED; FULL_HANDSHAKE; TLS12_PERFECT_FORWARD_SECRECY; CLIENT_AUTH; NO_CLIENT_CERT; WITH_SESSION_TICKET],
    [CLIENT_HELLO; SERVER_HELLO; SERVER_CERT; SERVER_KEY; SERVER_CERT_REQ; SERVER_HELLO_DONE;
     CLIENT_CERT; CLIENT_KEY; CLIENT_CHANGE_CIPHER_SPEC; CLIENT_FINISHED;
     SERVER_NEW_SESSION_TICKET; SERVER_CHANGE_CIPHER_SPEC; SERVER_FINISHED; APPLICATION_DATA]);
  (flags [NEGOTIATED; FULL_HANDSHAKE; TLS12_PERFECT_FORWARD_SECRECY; CLIENT_AUTH; NO_CLIENT_CERT; WITH_SESSION_TICKET; WITH_NPN],
    [CLIENT_HELLO; SERVER_HELLO; SERVER_CERT; SERVER_KEY; SERVER_CERT_REQ; SERVER_HELLO_DONE;
     CLIENT_CERT; CLIENT_KEY; CLIENT_CHANGE_CIPHER_SPEC; CLIENT_NPN; CLIENT_FINISHED;
     SERVER_NEW_SESSION_TICKET; SERVER_CHANGE_CIPHER_SPEC; SERVER_FINISHED; APPLICATION_DATA]);
  (flags [NEGOTIATED; FULL_HANDSHAKE; OCSP_STATUS; CLIENT_AUTH],
    [CLIENT_HELLO; SERVER_HELLO; SERVER_CERT; SERVER_CERT_STATUS; SERVER_CERT_REQ;
     SERVER_HELLO_DONE; CLIENT_CERT; CLIENT_KEY; CLIENT_CERT_VERIFY; CLIENT_CHANGE_CIPHER_SPEC;
     CLIENT_FINISHED; SERVER_CHANGE_CIPHER_SPEC; SERVER_FINISHED; APPLICATION_DATA]);
  (flags [NEGOTIATED; FULL_HANDSHAKE; OCSP_STATUS; CLIENT_AUTH; WITH_NPN],
    [CLIENT_HELLO; SERVER_HELLO; SERVER_CERT; SERVER_CERT_STATUS; SERVER_CERT_REQ;
     SERVER_HELLO_DONE; CLIENT_CERT; CLIENT_KEY; CLIENT_CERT_VERIFY; CLIENT_CHANGE_CIPHER_SPEC;
     CLIENT_NPN; CLIENT_FINISHED; SERVER_CHANGE_CIPHER_SPEC; SERVER_FINISHED; APPLICATION_DATA]);
  (flags [NEGOTIATED; FULL_HANDSHAKE; OCSP_STATUS; CLIENT_AUTH; NO_CLIENT_CERT],
    [CLIENT_HELLO; SERVER_HELLO; SERVER_CERT; SERVER_CERT_STATUS; SERVER_CERT_REQ;
     SERVER_HELLO_DONE; CLIENT_CERT; CLIENT_KEY; CLIENT_CHANGE_CIPHER_SPEC; CLIENT_FINISHED;
     SERVER_CHANGE_CIPHER_SPEC; SERVER_FINISHED; APPLICATION_DATA]);
  (flags [NEGOTIATED; FULL_HANDSHAKE; OCSP_STATUS; CLIENT_AUTH; NO_CLIENT_CERT; WITH_NPN],
    [CLIENT_HELLO; SERVER_HELLO; SERVER_CERT; SERVER_CERT_STATUS; SERVER_CERT_REQ;
     SERVER_HELLO_DONE; CLIENT_CERT; CLIENT_KEY; CLIENT_CHANGE_CIPHER_SPEC; CLIENT_NPN;
     CLIENT_FINISHED; SERVER_CHANGE_CIPHER_SPEC; SERVER_FINISHED; APPLICATION_DATA]);
  (flags [NEGOTIATED; FULL_HANDSHAKE; OCSP_STATUS; CLIENT_AUTH; WITH_SESSION_TICKET],
    [CLIENT_HELLO; SERVER_HELLO; SERVER_CERT; SERVER_CERT_STATUS; SERVER_CERT_REQ;
     SERVER_HELLO_DONE; CLIENT_CERT; CLIENT_KEY; CLIENT_CERT_VERIFY; CLIENT_CHANGE_CIPHER_SPEC;
     CLIENT_FINISHED; SERVER_NEW_SESSION_TICKET; SERVER_CHANGE_CIPHER_SPEC; SERVER_FINISHED;
     APPLICATION_DATA]);
  (flags [NEGOTIATED; FULL_HANDSHAKE; OCSP_STATUS; CLIENT_AUTH; WITH_SESSION_TICKET; WITH_NPN],
    [CLIENT_HELLO; SERVER_HELLO; SERVER_CERT; SERVER_CERT_STATUS; SERVER_CERT_REQ;
     SERVER_HELLO_DONE; CLIENT_CERT; CLIENT_KEY; CLIENT_CERT_VERIFY; CLIENT_CHANGE_CIPHER_SPEC;
     CLIENT_NPN; CLIENT_FINISHED; SERVER_NEW_SESSION_TICKET; SERVER_CHANGE_CIPHER_SPEC;
     SERVER_FINISHED; APPLICATION_DATA]);
  (flags [NEGOTIATED; FULL_HANDSHAKE; OCSP_STATUS; CLIENT_AUTH; NO_CLIENT_CERT; WITH_SESSION_TICKET],
    [CLIENT_HELLO; SERVER_HELLO; SERVER_CERT; SERVER_CERT_STATUS; SERVER_CERT_REQ;
     SERVER_HELLO_DONE; CLIENT_CERT; CLIENT_KEY; CLIENT_CHANGE_CIPHER_SPEC; CLIENT_FINISHED;
     SERVER_NEW_SESSION_TICKET; SERVER_CHANGE_CIPHER_SPEC; SERVER_FINISHED; APPLICATION_DATA]);
  (flags [NEGOTIATED; FULL_HANDSHAKE; OCSP_STATUS; CLIENT_AUTH; NO_CLIENT_CERT; WITH_SESSION_TICKET; WITH_NPN],
    [CLIENT_HELLO; SERVER_HELLO; SERVER_CERT; SERVER_CERT_STATUS; SERVER_CERT_REQ;
     SERVER_HELLO_DONE; CLIENT_CERT; CLIENT_KEY; CLIENT_CHANGE_CIPHER_SPEC; CLIENT_NPN;
     CLIENT_FINISHED; SERVER_NEW_SESSION_TICKET; SERVER_CHANGE_CIPHER_SPEC; SERVER_FINISHED;
     APPLICATION_DATA]);
  (flags [NEGOTIATED; FULL_HANDSHAKE; TLS12_PERFECT_FORWARD_SECRECY; OCSP_STATUS; CLIENT_AUTH],
    [CLIENT_HELLO; SERVER_HELLO; SERVER_CERT; SERVER_CERT_STATUS; SERVER_KEY; SERVER_CERT_REQ;
     SERVER_HELLO_DONE; CLIENT_CERT; CLIENT_KEY; CLIENT_CERT_VERIFY; CLIENT_CHANGE_CIPHER_SPEC;
     CLIENT_FINISHED; SERVER_CHANGE_CIPHER_SPEC; SERVER_FINISHED; APPLICATION_DATA]);
  (flags [NEGOTIATED; FULL_HANDSHAKE; TLS12_PERFECT_FORWARD_SECRECY; OCSP_STATUS; CLIENT_AUTH; WITH_NPN],
    [CLIENT_HELLO; SERVER_HELLO; SERVER_CERT; SERVER_CERT_STATUS; SERVER_KEY; SERVER_CERT_REQ;
     SERVER_HELLO_DONE; CLIENT_CERT; CLIENT_KEY; CLIENT_CERT_VERIFY; CLIENT_CHANGE_CIPHER_SPEC;
     CLIENT_NPN; CLIENT_FINISHED; SERVER_CHANGE_CIPHER_SPEC; SERVER_FINISHED; APPLICATION_DATA]);
  (flags [NEGOTIATED; FULL_HANDSHAKE; TLS12_PERFECT_FORWARD_SECRECY; OCSP_STATUS; CLIENT_AUTH; NO_CLIENT_CERT],
    [CLIENT_HELLO; SERVER_HELLO; SERVER_CERT; SERVER_CERT_STATUS; SERVER_KEY; SERVER_CERT_REQ;
     SERVER_HELLO_DONE; CLIENT_CERT; CLIENT_KEY; CLIENT_CHANGE_CIPHER_SPEC; CLIENT_FINISHED;
     SERVER_CHANGE_CIPHER_SPEC; SERVER_FINISHED; APPLICATION_DATA]);
  (flags [NEGOTIATED; FULL_HANDSHAKE; TLS12_PERFECT_FORWARD_SECRECY; OCSP_STATUS; CLIENT_AUTH; NO_CLIENT_CERT; WITH_NPN],
    [CLIENT_HELLO; SERVER_HELLO; SERVER_CERT; SERVER_CERT_STATUS; SERVER_KEY; SERVER_CERT_REQ;
     SERVER_HELLO_DONE; CLIENT_CERT; CLIENT_KEY; CLIENT_CHANGE_CIPHER_SPEC; CLIENT_NPN;
     CLIENT_FINISHED; SERVER_CHANGE_CIPHER_SPEC; SERVER_FINISHED; APPLICATION_DATA]);
  (flags [NEGOTIATED; FULL_HANDSHAKE; TLS12_PERFECT_FORWARD_SECRECY; OCSP_STATUS; CLIENT_AUTH; WITH_SESSION_TICKET],
    [CLIENT_HELLO; SERVER_HELLO; SERVER_CERT; SERVER_CERT_STATUS; SERVER_KEY; SERVER_CERT_REQ;
     SERVER_HELLO_DONE; CLIENT_CERT; CLIENT_KEY; CLIENT_CERT_VERIFY; CLIENT_CHANGE_CIPHER_SPEC;
     CLIENT_FINISHED; SERVER_NEW_SESSION_TICKET; SERVER_CHANGE_CIPHER_SPEC; SERVER_FINISHED;
     APPLICATION_DATA]);
  (flags [NEGOTIATED; FULL_HANDSHAKE; TLS12_PERFECT_FORWARD_SECRECY; OCSP_STATUS; CLIENT_AUTH; WITH_SESSION_TICKET; WITH_NPN],
    [CLIENT_HELLO; SERVER_HELLO; SERVER_CERT; SERVER_CERT_STATUS; SERVER_KEY; SERVER_CERT_REQ;
     SERVER_HELLO_DONE; CLIENT_CERT; CLIENT_KEY; CLIENT_CERT_VERIFY; CLIENT_CHANGE_CIPHER_SPEC;
     CLIENT_NPN; CLIENT_FINISHED; SERVER_NEW_SESSION_TICKET; SERVER_CHANGE_CIPHER_SPEC;
     SERVER_FINISHED; APPLICATION_DATA]);
  (flags [NEGOTIATED; FULL_HANDSHAKE; TLS12_PERFECT_FORWARD_SECRECY; OCSP_STATUS; CLIENT_AUTH; NO_CLIENT_CERT; WITH_SESSION_TICKET],
    [CLIENT_HELLO; SERVER_HELLO; SERVER_CERT; SERVER_CERT_STATUS; SERVER_KEY; SERVER_CERT_REQ;
     SERVER_HELLO_DONE; CLIENT_CERT; CLIENT_KEY; CLIENT_CHANGE_CIPHER_SPEC; CLIENT_FINISHED;
     SERVER_NEW_SESSION_TICKET; SERVER_CHANGE_CIPHER_SPEC; SERVER_FINISHED; APPLICATION_DATA])
].

(** Lines 548 to 554. *)
Definition handshakes_4 : handshake_table := [
  (flags [NEGOTIATED; FULL_HANDSHAKE; TLS12_PERFECT_FORWARD_SECRECY; OCSP_STATUS; CLIENT_AUTH; NO_CLIENT_CERT; WITH_SESSION_TICKET; WITH_NPN],
    [CLIENT_HELLO; SERVER_HELLO; SERVER_CERT; SERVER_CERT_STATUS; SERVER_KEY; SERVER_CERT_REQ;
     SERVER_HELLO_DONE; CLIENT_CERT; CLIENT_KEY; CLIENT_CHANGE_CIPHER_SPEC; CLIENT_NPN;
     CLIENT_FINISHED; SERVER_NEW_SESSION_TICKET; SERVER_CHANGE_CIPHER_SPEC; SERVER_FINISHED;
     APPLICATION_DATA])
].

Definition handshakes : handshake_table := handshakes_1 ++ handshakes_2 ++ handshakes_3 ++ handshakes_4.

(** Lines 564 to 699. *)
Definition tls13_handshakes_1 : handshake_table := [
  (flags [INITIAL],
    [CLIENT_HELLO; SERVER_HELLO]);
  (flags [INITIAL; MIDDLEBOX_COMPAT; EARLY_CLIENT_CCS],
    [CLIENT_HELLO; CLIENT_CHANGE_CIPHER_SPEC; SERVER_HELLO]);
  (flags [INITIAL; HELLO_RETRY_REQUEST],
    [CLIENT_HELLO; HELLO_RETRY_MSG]);
  (flags [INITIAL; HELLO_RETRY_REQUEST; MIDDLEBOX_COMPAT; EARLY_CLIENT_CCS],
    [CLIENT_HELLO; CLIENT_CHANGE_CIPHER_SPEC; HELLO_RETRY_MSG]);
  (flags [NEGOTIATED],
    [CLIENT_HELLO; SERVER_HELLO; ENCRYPTED_EXTENSIONS; SERVER_FINISHED; CLIENT_FINISHED;
     APPLICATION_DATA]);
  (flags [NEGOTIATED; WITH_EARLY_DATA],
    [CLIENT_HELLO; SERVER_HELLO; ENCRYPTED_EXTENSIONS; SERVER_FINISHED; END_OF_EARLY_DATA;
     CLIENT_FINISHED; APPLICATION_DATA]);
  (flags [NEGOTIATED; MIDDLEBOX_COMPAT],
    [CLIENT_HELLO; SERVER_HELLO; SERVER_CHANGE_CIPHER_SPEC; ENCRYPTED_EXTENSIONS; SERVER_FINISHED;
     CLIENT_CHANGE_CIPHER_SPEC; CLIENT_FINISHED; APPLICATION_DATA]);
  (flags [NEGOTIATED; MIDDLEBOX_COMPAT; EARLY_CLIENT_CCS],
    [CLIENT_HELLO; CLIENT_CHANGE_CIPHER_SPEC; SERVER_HELLO; SERVER_CHANGE_CIPHER_SPEC;
     ENCRYPTED_EXTENSIONS; SERVER_FINISHED; CLIENT_FINISHED; APPLICATION_DATA]);
  (flags [NEGOTIATED; MIDDLEBOX_COMPAT; WITH_EARLY_DATA],
    [CLIENT_HELLO; SERVER_HELLO; SERVER_CHANGE_CIPHER_SPEC; ENCRYPTED_EXTENSIONS; SERVER_FINISHED;
     CLIENT_CHANGE_CIPHER_SPEC; END_OF_EARLY_DATA; CLIENT_FINISHED; APPLICATION_DATA]);
  (flags [NEGOTIATED; MIDDLEBOX_COMPAT; EARLY_CLIENT_CCS; WITH_EARLY_DATA],
    [CLIENT_HELLO; CLIENT_CHANGE_CIPHER_SPEC; SERVER_HELLO; SERVER_CHANGE_CIPHER_SPEC;
     ENCRYPTED_EXTENSIONS; SERVER_FINISHED; END_OF_EARLY_DATA; CLIENT_FINISHED; APPLICATION_DATA]);
  (flags [NEGOTIATED; HELLO_RETRY_REQUEST],
    [CLIENT_HELLO; HELLO_RETRY_MSG; CLIENT_HELLO; SERVER_HELLO; ENCRYPTED_EXTENSIONS;
     SERVER_FINISHED; CLIENT_FINISHED; APPLICATION_DATA]);
  (flags [NEGOTIATED; HELLO_RETRY_REQUEST; MIDDLEBOX_COMPAT],
    [CLIENT_HELLO; HELLO_RETRY_MSG; SERVER_CHANGE_CIPHER_SPEC; CLIENT_CHANGE_CIPHER_SPEC;
     CLIENT_HELLO; SERVER_HELLO; ENCRYPTED_EXTENSIONS; SERVER_FINISHED; CLIENT_FINISHED;
     APPLICATION_DATA]);
  (flags [NEGOTIATED; HELLO_RETRY_REQUEST; MIDDLEBOX_COMPAT; EARLY_CLIENT_CCS],
    [CLIENT_HELLO; CLIENT_CHANGE_CIPHER_SPEC; HELLO_RETRY_MSG; SERVER_CHANGE_CIPHER_SPEC;
     CLIENT_HELLO; SERVER_HELLO; ENCRYPTED_EXTENSIONS; SERVER_FINISHED; CLIENT_FINISHED;
     APPLICATION_DATA]);
  (flags [NEGOTIATED; FULL_HANDSHAKE],
    [CLIENT_HELLO; SERVER_HELLO; ENCRYPTED_EXTENSIONS; SERVER_CERT; SERVER_CERT_VERIFY;
     SERVER_FINISHED; CLIENT_FINISHED; APPLICATION_DATA]);
  (flags [NEGOTIATED; FULL_HANDSHAKE; MIDDLEBOX_COMPAT],
    [CLIENT_HELLO; SERVER_HELLO; SERVER_CHANGE_CIPHER_SPEC; ENCRYPTED_EXTENSIONS; SERVER_CERT;
     SERVER_CERT_VERIFY; SERVER_FINISHED; CLIENT_CHANGE_CIPHER_SPEC; CLIENT_FINISHED;
     APPLICATION_DATA]);
  (flags [NEGOTIATED; FULL_HANDSHAKE; MIDDLEBOX_COMPAT; EARLY_CLIENT_CCS],
    [CLIENT_HELLO; CLIENT_CHANGE_CIPHER_SPEC; SERVER_HELLO; SERVER_CHANGE_CIPHER_SPEC;
     ENCRYPTED_EXTENSIONS; SERVER_CERT; SERVER_CERT_VERIFY; SERVER_FINISHED; CLIENT_FINISHED;
     APPLICATION_DATA]);
  (flags [NEGOTIATED; FULL_HANDSHAKE; HELLO_RETRY_REQUEST],
    [CLIENT_HELLO; HELLO_RETRY_MSG; CLIENT_HELLO; SERVER_HELLO; ENCRYPTED_EXTENSIONS; SERVER_CERT;
     SERVER_CERT_VERIFY; SERVER_FINISHED; CLIENT_FINISHED; APPLICATION_DATA]);
  (flags [NEGOTIATED; FULL_HANDSHAKE; HELLO_RETRY_REQUEST; MIDDLEBOX_COMPAT],
    [CLIENT_HELLO; HELLO_RETRY_MSG; SERVER_CHANGE_CIPHER_SPEC; CLIENT_CHANGE_CIPHER_SPEC;
     CLIENT_HELLO; SERVER_HELLO; ENCRYPTED_EXTENSIONS; SERVER_CERT; SERVER_CERT_VERIFY;
     SERVER_FINISHED; CLIENT_FINISHED; APPLICATION_DATA]);
  (flags [NEGOTIATED; FULL_HANDSHAKE; HELLO_RETRY_REQUEST; MIDDLEBOX_COMPAT; EARLY_CLIENT_CCS],
    [CLIENT_HELLO; CLIENT_CHANGE_CIPHER_SPEC; HELLO_RETRY_MSG; SERVER_CHANGE_CIPHER_SPEC;
     CLIENT_HELLO; SERVER_HELLO; ENCRYPTED_EXTENSIONS; SERVER_CERT; SERVER_CERT_VERIFY;
     SERVER_FINISHED; CLIENT_FINISHED; APPLICATION_DATA])
].

(** Lines 701 to 795. *)
Definition tls13_handshakes_2 : handshake_table := [
  (flags [NEGOTIATED; FULL_HANDSHAKE; HELLO_RETRY_REQUEST; CLIENT_AUTH],
    [CLIENT_HELLO; HELLO_RETRY_MSG; CLIENT_HELLO; SERVER_HELLO; ENCRYPTED_EXTENSIONS;
     SERVER_CERT_REQ; SERVER_CERT; SERVER_CERT_VERIFY; SERVER_FINISHED; CLIENT_CERT;
     CLIENT_CERT_VERIFY; CLIENT_FINISHED; APPLICATION_DATA]);
  (flags [NEGOTIATED; FULL_HANDSHAKE; HELLO_RETRY_REQUEST; CLIENT_AUTH; MIDDLEBOX_COMPAT],
    [CLIENT_HELLO; HELLO_RETRY_MSG; SERVER_CHANGE_CIPHER_SPEC; CLIENT_CHANGE_CIPHER_SPEC;
     CLIENT_HELLO; SERVER_HELLO; ENCRYPTED_EXTENSIONS; SERVER_CERT_REQ; SERVER_CERT;
     SERVER_CERT_VERIFY; SERVER_FINISHED; CLIENT_CERT; CLIENT_CERT_VERIFY; CLIENT_FINISHED;
     APPLICATION_DATA]);
  (flags [NEGOTIATED; FULL_HANDSHAKE; HELLO_RETRY_REQUEST; CLIENT_AUTH; MIDDLEBOX_COMPAT; EARLY_CLIENT_CCS],
    [CLIENT_HELLO; CLIENT_CHANGE_CIPHER_SPEC; HELLO_RETRY_MSG; SERVER_CHANGE_CIPHER_SPEC;
     CLIENT_HELLO; SERVER_HELLO; ENCRYPTED_EXTENSIONS; SERVER_CERT_REQ; SERVER_CERT;
     SERVER_CERT_VERIFY; SERVER_FINISHED; CLIENT_CERT; CLIENT_CERT_VERIFY; CLIENT_FINISHED;
     APPLICATION_DATA]);
  (flags [NEGOTIATED; FULL_HANDSHAKE; HELLO_RETRY_REQUEST; CLIENT_AUTH; NO_CLIENT_CERT],
    [CLIENT_HELLO; HELLO_RETRY_MSG; CLIENT_HELLO; SERVER_HELLO; ENCRYPTED_EXTENSIONS;
     SERVER_CERT_REQ; SERVER_CERT; SERVER_CERT_VERIFY; SERVER_FINISHED; CLIENT_CERT;
     CLIENT_FINISHED; APPLICATION_DATA]);
  (flags [NEGOTIATED; FULL_HANDSHAKE; HELLO_RETRY_REQUEST; CLIENT_AUTH; NO_CLIENT_CERT; MIDDLEBOX_COMPAT],
    [CLIENT_HELLO; HELLO_RETRY_MSG; SERVER_CHANGE_CIPHER_SPEC; CLIENT_CHANGE_CIPHER_SPEC;
     CLIENT_HELLO; SERVER_HELLO; ENCRYPTED_EXTENSIONS; SERVER_CERT_REQ; SERVER_CERT;
     SERVER_CERT_VERIFY; SERVER_FINISHED; CLIENT_CERT; CLIENT_FINISHED; APPLICATION_DATA]);
  (flags [NEGOTIATED; FULL_HANDSHAKE; HELLO_RETRY_REQUEST; CLIENT_AUTH; NO_CLIENT_CERT; MIDDLEBOX_COMPAT; EARLY_CLIENT_CCS],
    [CLIENT_HELLO; CLIENT_CHANGE_CIPHER_SPEC; HELLO_RETRY_MSG; SERVER_CHANGE_CIPHER_SPEC;
     CLIENT_HELLO; SERVER_HELLO; ENCRYPTED_EXTENSIONS; SERVER_CERT_REQ; SERVER_CERT;
     SERVER_CERT_VERIFY; SERVER_FINISHED; CLIENT_CERT; CLIENT_FINISHED; APPLICATION_DATA]);
  (flags [NEGOTIATED; FULL_HANDSHAKE; CLIENT_AUTH],
    [CLIENT_HELLO; SERVER_HELLO; ENCRYPTED_EXTENSIONS; SERVER_CERT_REQ; SERVER_CERT;
     SERVER_CERT_VERIFY; SERVER_FINISHED; CLIENT_CERT; CLIENT_CERT_VERIFY; CLIENT_FINISHED;
     APPLICATION_DATA]);
  (flags [NEGOTIATED; FULL_HANDSHAKE; CLIENT_AUTH; MIDDLEBOX_COMPAT],
    [CLIENT_HELLO; SERVER_HELLO; SERVER_CHANGE_CIPHER_SPEC; ENCRYPTED_EXTENSIONS; SERVER_CERT_REQ;
     SERVER_CERT; SERVER_CERT_VERIFY; SERVER_FINISHED; CLIENT_CHANGE_CIPHER_SPEC; CLIENT_CERT;
     CLIENT_CERT_VERIFY; CLIENT_FINISHED; APPLICATION_DATA]);
  (flags [NEGOTIATED; FULL_HANDSHAKE; CLIENT_AUTH; MIDDLEBOX_COMPAT; EARLY_CLIENT_CCS],
    [CLIENT_HELLO; CLIENT_CHANGE_CIPHER_SPEC; SERVER_HELLO; SERVER_CHANGE_CIPHER_SPEC;
     ENCRYPTED_EXTENSIONS; SERVER_CERT_REQ; SERVER_CERT; SERVER_CERT_VERIFY; SERVER_FINISHED;
     CLIENT_CERT; CLIENT_CERT_VERIFY; CLIENT_FINISHED; APPLICATION_DATA]);
  (flags [NEGOTIATED; FULL_HANDSHAKE; CLIENT_AUTH; NO_CLIENT_CERT],
    [CLIENT_HELLO; SERVER_HELLO; ENCRYPTED_EXTENSIONS; SERVER_CERT_REQ; SERVER_CERT;
     SERVER_CERT_VERIFY; SERVER_FINISHED; CLIENT_CERT; CLIENT_FINISHED; APPLICATION_DATA]);
  (flags [NEGOTIATED; FULL_HANDSHAKE; CLIENT_AUTH; NO_CLIENT_CERT; MIDDLEBOX_COMPAT],
    [CLIENT_HELLO; SERVER_HELLO; SERVER_CHANGE_CIPHER_SPEC; ENCRYPTED_EXTENSIONS; SERVER_CERT_REQ;
     SERVER_CERT; SERVER_CERT_VERIFY; SERVER_FINISHED; CLIENT_CHANGE_CIPHER_SPEC; CLIENT_CERT;
     CLIENT_FINISHED; APPLICATION_DATA]);
  (flags [NEGOTIATED; FULL_HANDSHAKE; CLIENT_AUTH; NO_CLIENT_CERT; MIDDLEBOX_COMPAT; EARLY_CLIENT_CCS],
    [CLIENT_HELLO; CLIENT_CHANGE_CIPHER_SPEC; SERVER_HELLO; SERVER_CHANGE_CIPHER_SPEC;
     ENCRYPTED_EXTENSIONS; SERVER_CERT_REQ; SERVER_CERT; SERVER_CERT_VERIFY; SERVER_FINISHED;
     CLIENT_CERT; CLIENT_FINISHED; APPLICATION_DATA])
].

Definition tls13_handshakes : handshake_table := tls13_handshakes_1 ++ tls13_handshakes_2.

(** [table[t][i]] *)
Definition table_row (tb : handshake_table) (t : Z) : list message_type_t :=
  match find (fun e => fst e =? t) tb with Some (_, ms) => ms | None => [] end.

Definition table_entry (tb : handshake_table) (t i : Z) : message_type_t :=
  nth (Z.to_nat i) (table_row tb t) CLIENT_HELLO.

End HandshakeTables.
Export HandshakeTables.
