(* ===== verification/Connection.v ===== *)
(** * The connection, as the handshake sees it

    tls/s2n_handshake_type.c, the choice of state machine and handshake type in
    tls/s2n_handshake_io.c, and the connection fields they read and write.  A
    pointer field that is only tested for NULL is a boolean; buffers are the
    stuffers of [Stuffer]. *)
From S2P Require Import Prelude Errors CMem Platform Safety Blob Alloc Stuffer HandshakeTables.
Open Scope Z_scope.

Module Connection.

(** s2n_mode (api/s2n.h): S2N_SERVER = 0, S2N_CLIENT = 1. *)
Inductive s2n_mode := S2N_SERVER | S2N_CLIENT.

(** s2n_state_machine (tls/s2n_handshake.h) *)
Inductive s2n_state_machine := S2N_STATE_MACHINE_INITIAL | S2N_STATE_MACHINE_TLS12 | S2N_STATE_MACHINE_TLS13.

(** s2n_cert_auth_type (api/s2n.h) *)
Inductive s2n_cert_auth_type := S2N_CERT_AUTH_NONE | S2N_CERT_AUTH_REQUIRED | S2N_CERT_AUTH_OPTIONAL.

(** s2n_early_data_state (tls/s2n_early_data.h) *)
Inductive s2n_early_data_state :=
| S2N_UNKNOWN_EARLY_DATA_STATE | S2N_EARLY_DATA_REQUESTED | S2N_EARLY_DATA_NOT_REQUESTED
| S2N_EARLY_DATA_ACCEPTED | S2N_EARLY_DATA_REJECTED | S2N_END_OF_EARLY_DATA.

(** s2n_session_ticket_status (tls/s2n_connection.h) *)
Inductive s2n_session_ticket_status := S2N_NO_TICKET | S2N_DECRYPT_TICKET | S2N_NEW_TICKET.

#[export] Instance mode_eq_dec : EqDecision s2n_mode.
Proof. solve_decision. Defined.
#[export] Instance machine_eq_dec : EqDecision s2n_state_machine.
Proof. solve_decision. Defined.
#[export] Instance auth_eq_dec : EqDecision s2n_cert_auth_type.
Proof. solve_decision. Defined.
#[export] Instance early_data_eq_dec : EqDecision s2n_early_data_state.
Proof. solve_decision. Defined.
#[export] Instance ticket_status_eq_dec : EqDecision s2n_session_ticket_status.
Proof. solve_decision. Defined.

(** Protocol versions (api/s2n.h). *)
Definition S2N_UNKNOWN_PROTOCOL_VERSION : Z := 0.
Definition S2N_SSLv2 : Z := 20.
Definition S2N_TLS12 : Z := 33.
Definition S2N_TLS13 : Z := 34.

(** struct s2n_handshake: the fields that the modelled functions read or write. *)
Record s2n_handshake := Handshake {
  handshake_io : s2n_stuffer;  (* handshake.io *)
  handshake_type : Z;  (* uint32_t *)
  message_number : Z;  (* int *)
  end_of_messages : message_type_t;
  client_hello_received : bool;
  paused : bool;
  renegotiation : bool;
  active_machine : s2n_state_machine;  (* handshake.state_machine *)
}.

Definition set_handshake_io (v : s2n_stuffer) (x : s2n_handshake) : s2n_handshake :=
  Handshake v (handshake_type x) (message_number x) (end_of_messages x) (client_hello_received x) (paused x) (renegotiation x) (active_machine x).
Definition set_handshake_type (v : Z) (x : s2n_handshake) : s2n_handshake :=
  Handshake (handshake_io x) v (message_number x) (end_of_messages x) (client_hello_received x) (paused x) (renegotiation x) (active_machine x).
Definition set_message_number (v : Z) (x : s2n_handshake) : s2n_handshake :=
  Handshake (handshake_io x) (handshake_type x) v (end_of_messages x) (client_hello_received x) (paused x) (renegotiation x) (active_machine x).
Definition set_end_of_messages (v : message_type_t) (x : s2n_handshake) : s2n_handshake :=
  Handshake (handshake_io x) (handshake_type x) (message_number x) v (client_hello_received x) (paused x) (renegotiation x) (active_machine x).
Definition set_client_hello_received (v : bool) (x : s2n_handshake) : s2n_handshake :=
  Handshake (handshake_io x) (handshake_type x) (message_number x) (end_of_messages x) v (paused x) (renegotiation x) (active_machine x).
Definition set_paused (v : bool) (x : s2n_handshake) : s2n_handshake :=
  Handshake (handshake_io x) (handshake_type x) (message_number x) (end_of_messages x) (client_hello_received x) v (renegotiation x) (active_machine x).
Definition set_renegotiation (v : bool) (x : s2n_handshake) : s2n_handshake :=
  Handshake (handshake_io x) (handshake_type x) (message_number x) (end_of_messages x) (client_hello_received x) (paused x) v (active_machine x).
Definition set_active_machine (v : s2n_state_machine) (x : s2n_handshake) : s2n_handshake :=
  Handshake (handshake_io x) (handshake_type x) (message_number x) (end_of_messages x) (client_hello_received x) (paused x) (renegotiation x) v.

(** struct s2n_config: the fields that the modelled functions read. *)
Record s2n_config := Config {
  use_tickets : bool;
  use_session_cache : bool;
  config_auth_overridden : bool;  (* client_cert_auth_type_overridden *)
  config_auth_type : s2n_cert_auth_type;  (* client_cert_auth_type *)
  config_quic_enabled : bool;  (* quic_enabled *)
}.

Definition set_use_tickets (v : bool) (x : s2n_config) : s2n_config :=
  Config v (use_session_cache x) (config_auth_overridden x) (config_auth_type x) (config_quic_enabled x).
Definition set_use_session_cache (v : bool) (x : s2n_config) : s2n_config :=
  Config (use_tickets x) v (config_auth_overridden x) (config_auth_type x) (config_quic_enabled x).
Definition set_config_auth_overridden (v : bool) (x : s2n_config) : s2n_config :=
  Config (use_tickets x) (use_session_cache x) v (config_auth_type x) (config_quic_enabled x).
Definition set_config_auth_type (v : s2n_cert_auth_type) (x : s2n_config) : s2n_config :=
  Config (use_tickets x) (use_session_cache x) (config_auth_overridden x) v (config_quic_enabled x).
Definition set_config_quic_enabled (v : bool) (x : s2n_config) : s2n_config :=
  Config (use_tickets x) (use_session_cache x) (config_auth_overridden x) (config_auth_type x) v.

(** struct s2n_connection: the fields that the modelled functions read or write. *)
Record s2n_connection := Connection {
  mode : s2n_mode;
  handshake : s2n_handshake;
  config : s2n_config;  (* *config *)
  actual_protocol_version : Z;
  client_protocol_version : Z;
  server_protocol_version : Z;
  client_cert_auth_type_overridden : bool;
  client_cert_auth_type : s2n_cert_auth_type;
  chosen_psk : bool;  (* psk_params.chosen_psk != NULL *)
  early_data_state : s2n_early_data_state;
  early_data_expected : bool;
  quic_enabled : bool;
  npn_negotiated : bool;
  session_ticket_status : s2n_session_ticket_status;
  client_session_resumed : bool;
  session_id_len : Z;
  ems_negotiated : bool;
  ems_extension_recv : bool;  (* S2N_CBIT_TEST(extension_requests_received, ems) *)
  kex_is_ephemeral : bool;  (* secure->cipher_suite->key_exchange_alg->is_ephemeral *)
  status_type_ocsp : bool;  (* status_type == S2N_STATUS_REQUEST_OCSP *)
  chain_has_ocsp : bool;  (* our_chain_and_key has an OCSP response *)
  corked_io : bool;
  managed_send_io : bool;  (* managed_send_io and its send_io_context *)
  deserialized_conn : bool;
  client_hello_version : Z;
  negotiate_in_use : bool;
  read_closed : bool;
  write_closed : bool;
  in_stuffer : s2n_stuffer;  (* in *)
  out_stuffer : s2n_stuffer;  (* out *)
}.

Definition set_mode (v : s2n_mode) (x : s2n_connection) : s2n_connection :=
  Connection v (handshake x) (config x) (actual_protocol_version x) (client_protocol_version x) (server_protocol_version x) (client_cert_auth_type_overridden x) (client_cert_auth_type x) (chosen_psk x) (early_data_state x) (early_data_expected x) (quic_enabled x) (npn_negotiated x) (session_ticket_status x) (client_session_resumed x) (session_id_len x) (ems_negotiated x) (ems_extension_recv x) (kex_is_ephemeral x) (status_type_ocsp x) (chain_has_ocsp x) (corked_io x) (managed_send_io x) (deserialized_conn x) (client_hello_version x) (negotiate_in_use x) (read_closed x) (write_closed x) (in_stuffer x) (out_stuffer x).
Definition set_handshake (v : s2n_handshake) (x : s2n_connection) : s2n_connection :=
  Connection (mode x) v (config x) (actual_protocol_version x) (client_protocol_version x) (server_protocol_version x) (client_cert_auth_type_overridden x) (client_cert_auth_type x) (chosen_psk x) (early_data_state x) (early_data_expected x) (quic_enabled x) (npn_negotiated x) (session_ticket_status x) (client_session_resumed x) (session_id_len x) (ems_negotiated x) (ems_extension_recv x) (kex_is_ephemeral x) (status_type_ocsp x) (chain_has_ocsp x) (corked_io x) (managed_send_io x) (deserialized_conn x) (client_hello_version x) (negotiate_in_use x) (read_closed x) (write_closed x) (in_stuffer x) (out_stuffer x).
Definition set_config (v : s2n_config) (x : s2n_connection) : s2n_connection :=
  Connection (mode x) (handshake x) v (actual_protocol_version x) (client_protocol_version x) (server_protocol_version x) (client_cert_auth_type_overridden x) (client_cert_auth_type x) (chosen_psk x) (early_data_state x) (early_data_expected x) (quic_enabled x) (npn_negotiated x) (session_ticket_status x) (client_session_resumed x) (session_id_len x) (ems_negotiated x) (ems_extension_recv x) (kex_is_ephemeral x) (status_type_ocsp x) (chain_has_ocsp x) (corked_io x) (managed_send_io x) (deserialized_conn x) (client_hello_version x) (negotiate_in_use x) (read_closed x) (write_closed x) (in_stuffer x) (out_stuffer x).
Definition set_actual_protocol_version (v : Z) (x : s2n_connection) : s2n_connection :=
  Connection (mode x) (handshake x) (config x) v (client_protocol_version x) (server_protocol_version x) (client_cert_auth_type_overridden x) (client_cert_auth_type x) (chosen_psk x) (early_data_state x) (early_data_expected x) (quic_enabled x) (npn_negotiated x) (session_ticket_status x) (client_session_resumed x) (session_id_len x) (ems_negotiated x) (ems_extension_recv x) (kex_is_ephemeral x) (status_type_ocsp x) (chain_has_ocsp x) (corked_io x) (managed_send_io x) (deserialized_conn x) (client_hello_version x) (negotiate_in_use x) (read_closed x) (write_closed x) (in_stuffer x) (out_stuffer x).
Definition set_client_protocol_version (v : Z) (x : s2n_connection) : s2n_connection :=
  Connection (mode x) (handshake x) (config x) (actual_protocol_version x) v (server_protocol_version x) (client_cert_auth_type_overridden x) (client_cert_auth_type x) (chosen_psk x) (early_data_state x) (early_data_expected x) (quic_enabled x) (npn_negotiated x) (session_ticket_status x) (client_session_resumed x) (session_id_len x) (ems_negotiated x) (ems_extension_recv x) (kex_is_ephemeral x) (status_type_ocsp x) (chain_has_ocsp x) (corked_io x) (managed_send_io x) (deserialized_conn x) (client_hello_version x) (negotiate_in_use x) (read_closed x) (write_closed x) (in_stuffer x) (out_stuffer x).
Definition set_server_protocol_version (v : Z) (x : s2n_connection) : s2n_connection :=
  Connection (mode x) (handshake x) (config x) (actual_protocol_version x) (client_protocol_version x) v (client_cert_auth_type_overridden x) (client_cert_auth_type x) (chosen_psk x) (early_data_state x) (early_data_expected x) (quic_enabled x) (npn_negotiated x) (session_ticket_status x) (client_session_resumed x) (session_id_len x) (ems_negotiated x) (ems_extension_recv x) (kex_is_ephemeral x) (status_type_ocsp x) (chain_has_ocsp x) (corked_io x) (managed_send_io x) (deserialized_conn x) (client_hello_version x) (negotiate_in_use x) (read_closed x) (write_closed x) (in_stuffer x) (out_stuffer x).
Definition set_client_cert_auth_type_overridden (v : bool) (x : s2n_connection) : s2n_connection :=
  Connection (mode x) (handshake x) (config x) (actual_protocol_version x) (client_protocol_version x) (server_protocol_version x) v (client_cert_auth_type x) (chosen_psk x) (early_data_state x) (early_data_expected x) (quic_enabled x) (npn_negotiated x) (session_ticket_status x) (client_session_resumed x) (session_id_len x) (ems_negotiated x) (ems_extension_recv x) (kex_is_ephemeral x) (status_type_ocsp x) (chain_has_ocsp x) (corked_io x) (managed_send_io x) (deserialized_conn x) (client_hello_version x) (negotiate_in_use x) (read_closed x) (write_closed x) (in_stuffer x) (out_stuffer x).
Definition set_client_cert_auth_type (v : s2n_cert_auth_type) (x : s2n_connection) : s2n_connection :=
  Connection (mode x) (handshake x) (config x) (actual_protocol_version x) (client_protocol_version x) (server_protocol_version x) (client_cert_auth_type_overridden x) v (chosen_psk x) (early_data_state x) (early_data_expected x) (quic_enabled x) (npn_negotiated x) (session_ticket_status x) (client_session_resumed x) (session_id_len x) (ems_negotiated x) (ems_extension_recv x) (kex_is_ephemeral x) (status_type_ocsp x) (chain_has_ocsp x) (corked_io x) (managed_send_io x) (deserialized_conn x) (client_hello_version x) (negotiate_in_use x) (read_closed x) (write_closed x) (in_stuffer x) (out_stuffer x).
Definition set_chosen_psk (v : bool) (x : s2n_connection) : s2n_connection :=
  Connection (mode x) (handshake x) (config x) (actual_protocol_version x) (client_protocol_version x) (server_protocol_version x) (client_cert_auth_type_overridden x) (client_cert_auth_type x) v (early_data_state x) (early_data_expected x) (quic_enabled x) (npn_negotiated x) (session_ticket_status x) (client_session_resumed x) (session_id_len x) (ems_negotiated x) (ems_extension_recv x) (kex_is_ephemeral x) (status_type_ocsp x) (chain_has_ocsp x) (corked_io x) (managed_send_io x) (deserialized_conn x) (client_hello_version x) (negotiate_in_use x) (read_closed x) (write_closed x) (in_stuffer x) (out_stuffer x).
Definition set_early_data_state (v : s2n_early_data_state) (x : s2n_connection) : s2n_connection :=
  Connection (mode x) (handshake x) (config x) (actual_protocol_version x) (client_protocol_version x) (server_protocol_version x) (client_cert_auth_type_overridden x) (client_cert_auth_type x) (chosen_psk x) v (early_data_expected x) (quic_enabled x) (npn_negotiated x) (session_ticket_status x) (client_session_resumed x) (session_id_len x) (ems_negotiated x) (ems_extension_recv x) (kex_is_ephemeral x) (status_type_ocsp x) (chain_has_ocsp x) (corked_io x) (managed_send_io x) (deserialized_conn x) (client_hello_version x) (negotiate_in_use x) (read_closed x) (write_closed x) (in_stuffer x) (out_stuffer x).
Definition set_early_data_expected (v : bool) (x : s2n_connection) : s2n_connection :=
  Connection (mode x) (handshake x) (config x) (actual_protocol_version x) (client_protocol_version x) (server_protocol_version x) (client_cert_auth_type_overridden x) (client_cert_auth_type x) (chosen_psk x) (early_data_state x) v (quic_enabled x) (npn_negotiated x) (session_ticket_status x) (client_session_resumed x) (session_id_len x) (ems_negotiated x) (ems_extension_recv x) (kex_is_ephemeral x) (status_type_ocsp x) (chain_has_ocsp x) (corked_io x) (managed_send_io x) (deserialized_conn x) (client_hello_version x) (negotiate_in_use x) (read_closed x) (write_closed x) (in_stuffer x) (out_stuffer x).
Definition set_quic_enabled (v : bool) (x : s2n_connection) : s2n_connection :=
  Connection (mode x) (handshake x) (config x) (actual_protocol_version x) (client_protocol_version x) (server_protocol_version x) (client_cert_auth_type_overridden x) (client_cert_auth_type x) (chosen_psk x) (early_data_state x) (early_data_expected x) v (npn_negotiated x) (session_ticket_status x) (client_session_resumed x) (session_id_len x) (ems_negotiated x) (ems_extension_recv x) (kex_is_ephemeral x) (status_type_ocsp x) (chain_has_ocsp x) (corked_io x) (managed_send_io x) (deserialized_conn x) (client_hello_version x) (negotiate_in_use x) (read_closed x) (write_closed x) (in_stuffer x) (out_stuffer x).
Definition set_npn_negotiated (v : bool) (x : s2n_connection) : s2n_connection :=
  Connection (mode x) (handshake x) (config x) (actual_protocol_version x) (client_protocol_version x) (server_protocol_version x) (client_cert_auth_type_overridden x) (client_cert_auth_type x) (chosen_psk x) (early_data_state x) (early_data_expected x) (quic_enabled x) v (session_ticket_status x) (client_session_resumed x) (session_id_len x) (ems_negotiated x) (ems_extension_recv x) (kex_is_ephemeral x) (status_type_ocsp x) (chain_has_ocsp x) (corked_io x) (managed_send_io x) (deserialized_conn x) (client_hello_version x) (negotiate_in_use x) (read_closed x) (write_closed x) (in_stuffer x) (out_stuffer x).
Definition set_session_ticket_status (v : s2n_session_ticket_status) (x : s2n_connection) : s2n_connection :=
  Connection (mode x) (handshake x) (config x) (actual_protocol_version x) (client_protocol_version x) (server_protocol_version x) (client_cert_auth_type_overridden x) (client_cert_auth_type x) (chosen_psk x) (early_data_state x) (early_data_expected x) (quic_enabled x) (npn_negotiated x) v (client_session_resumed x) (session_id_len x) (ems_negotiated x) (ems_extension_recv x) (kex_is_ephemeral x) (status_type_ocsp x) (chain_has_ocsp x) (corked_io x) (managed_send_io x) (deserialized_conn x) (client_hello_version x) (negotiate_in_use x) (read_closed x) (write_closed x) (in_stuffer x) (out_stuffer x).
Definition set_client_session_resumed (v : bool) (x : s2n_connection) : s2n_connection :=
  Connection (mode x) (handshake x) (config x) (actual_protocol_version x) (client_protocol_version x) (server_protocol_version x) (client_cert_auth_type_overridden x) (client_cert_auth_type x) (chosen_psk x) (early_data_state x) (early_data_expected x) (quic_enabled x) (npn_negotiated x) (session_ticket_status x) v (session_id_len x) (ems_negotiated x) (ems_extension_recv x) (kex_is_ephemeral x) (status_type_ocsp x) (chain_has_ocsp x) (corked_io x) (managed_send_io x) (deserialized_conn x) (client_hello_version x) (negotiate_in_use x) (read_closed x) (write_closed x) (in_stuffer x) (out_stuffer x).
Definition set_session_id_len (v : Z) (x : s2n_connection) : s2n_connection :=
  Connection (mode x) (handshake x) (config x) (actual_protocol_version x) (client_protocol_version x) (server_protocol_version x) (client_cert_auth_type_overridden x) (client_cert_auth_type x) (chosen_psk x) (early_data_state x) (early_data_expected x) (quic_enabled x) (npn_negotiated x) (session_ticket_status x) (client_session_resumed x) v (ems_negotiated x) (ems_extension_recv x) (kex_is_ephemeral x) (status_type_ocsp x) (chain_has_ocsp x) (corked_io x) (managed_send_io x) (deserialized_conn x) (client_hello_version x) (negotiate_in_use x) (read_closed x) (write_closed x) (in_stuffer x) (out_stuffer x).
Definition set_ems_negotiated (v : bool) (x : s2n_connection) : s2n_connection :=
  Connection (mode x) (handshake x) (config x) (actual_protocol_version x) (client_protocol_version x) (server_protocol_version x) (client_cert_auth_type_overridden x) (client_cert_auth_type x) (chosen_psk x) (early_data_state x) (early_data_expected x) (quic_enabled x) (npn_negotiated x) (session_ticket_status x) (client_session_resumed x) (session_id_len x) v (ems_extension_recv x) (kex_is_ephemeral x) (status_type_ocsp x) (chain_has_ocsp x) (corked_io x) (managed_send_io x) (deserialized_conn x) (client_hello_version x) (negotiate_in_use x) (read_closed x) (write_closed x) (in_stuffer x) (out_stuffer x).
Definition set_ems_extension_recv (v : bool) (x : s2n_connection) : s2n_connection :=
  Connection (mode x) (handshake x) (config x) (actual_protocol_version x) (client_protocol_version x) (server_protocol_version x) (client_cert_auth_type_overridden x) (client_cert_auth_type x) (chosen_psk x) (early_data_state x) (early_data_expected x) (quic_enabled x) (npn_negotiated x) (session_ticket_status x) (client_session_resumed x) (session_id_len x) (ems_negotiated x) v (kex_is_ephemeral x) (status_type_ocsp x) (chain_has_ocsp x) (corked_io x) (managed_send_io x) (deserialized_conn x) (client_hello_version x) (negotiate_in_use x) (read_closed x) (write_closed x) (in_stuffer x) (out_stuffer x).
Definition set_kex_is_ephemeral (v : bool) (x : s2n_connection) : s2n_connection :=
  Connection (mode x) (handshake x) (config x) (actual_protocol_version x) (client_protocol_version x) (server_protocol_version x) (client_cert_auth_type_overridden x) (client_cert_auth_type x) (chosen_psk x) (early_data_state x) (early_data_expected x) (quic_enabled x) (npn_negotiated x) (session_ticket_status x) (client_session_resumed x) (session_id_len x) (ems_negotiated x) (ems_extension_recv x) v (status_type_ocsp x) (chain_has_ocsp x) (corked_io x) (managed_send_io x) (deserialized_conn x) (client_hello_version x) (negotiate_in_use x) (read_closed x) (write_closed x) (in_stuffer x) (out_stuffer x).
Definition set_status_type_ocsp (v : bool) (x : s2n_connection) : s2n_connection :=
  Connection (mode x) (handshake x) (config x) (actual_protocol_version x) (client_protocol_version x) (server_protocol_version x) (client_cert_auth_type_overridden x) (client_cert_auth_type x) (chosen_psk x) (early_data_state x) (early_data_expected x) (quic_enabled x) (npn_negotiated x) (session_ticket_status x) (client_session_resumed x) (session_id_len x) (ems_negotiated x) (ems_extension_recv x) (kex_is_ephemeral x) v (chain_has_ocsp x) (corked_io x) (managed_send_io x) (deserialized_conn x) (client_hello_version x) (negotiate_in_use x) (read_closed x) (write_closed x) (in_stuffer x) (out_stuffer x).
Definition set_chain_has_ocsp (v : bool) (x : s2n_connection) : s2n_connection :=
  Connection (mode x) (handshake x) (config x) (actual_protocol_version x) (client_protocol_version x) (server_protocol_version x) (client_cert_auth_type_overridden x) (client_cert_auth_type x) (chosen_psk x) (early_data_state x) (early_data_expected x) (quic_enabled x) (npn_negotiated x) (session_ticket_status x) (client_session_resumed x) (session_id_len x) (ems_negotiated x) (ems_extension_recv x) (kex_is_ephemeral x) (status_type_ocsp x) v (corked_io x) (managed_send_io x) (deserialized_conn x) (client_hello_version x) (negotiate_in_use x) (read_closed x) (write_closed x) (in_stuffer x) (out_stuffer x).
Definition set_corked_io (v : bool) (x : s2n_connection) : s2n_connection :=
  Connection (mode x) (handshake x) (config x) (actual_protocol_version x) (client_protocol_version x) (server_protocol_version x) (client_cert_auth_type_overridden x) (client_cert_auth_type x) (chosen_psk x) (early_data_state x) (early_data_expected x) (quic_enabled x) (npn_negotiated x) (session_ticket_status x) (client_session_resumed x) (session_id_len x) (ems_negotiated x) (ems_extension_recv x) (kex_is_ephemeral x) (status_type_ocsp x) (chain_has_ocsp x) v (managed_send_io x) (deserialized_conn x) (client_hello_version x) (negotiate_in_use x) (read_closed x) (write_closed x) (in_stuffer x) (out_stuffer x).
Definition set_managed_send_io (v : bool) (x : s2n_connection) : s2n_connection :=
  Connection (mode x) (handshake x) (config x) (actual_protocol_version x) (client_protocol_version x) (server_protocol_version x) (client_cert_auth_type_overridden x) (client_cert_auth_type x) (chosen_psk x) (early_data_state x) (early_data_expected x) (quic_enabled x) (npn_negotiated x) (session_ticket_status x) (client_session_resumed x) (session_id_len x) (ems_negotiated x) (ems_extension_recv x) (kex_is_ephemeral x) (status_type_ocsp x) (chain_has_ocsp x) (corked_io x) v (deserialized_conn x) (client_hello_version x) (negotiate_in_use x) (read_closed x) (write_closed x) (in_stuffer x) (out_stuffer x).
Definition set_deserialized_conn (v : bool) (x : s2n_connection) : s2n_connection :=
  Connection (mode x) (handshake x) (config x) (actual_protocol_version x) (client_protocol_version x) (server_protocol_version x) (client_cert_auth_type_overridden x) (client_cert_auth_type x) (chosen_psk x) (early_data_state x) (early_data_expected x) (quic_enabled x) (npn_negotiated x) (session_ticket_status x) (client_session_resumed x) (session_id_len x) (ems_negotiated x) (ems_extension_recv x) (kex_is_ephemeral x) (status_type_ocsp x) (chain_has_ocsp x) (corked_io x) (managed_send_io x) v (client_hello_version x) (negotiate_in_use x) (read_closed x) (write_closed x) (in_stuffer x) (out_stuffer x).
Definition set_client_hello_version (v : Z) (x : s2n_connection) : s2n_connection :=
  Connection (mode x) (handshake x) (config x) (actual_protocol_version x) (client_protocol_version x) (server_protocol_version x) (client_cert_auth_type_overridden x) (client_cert_auth_type x) (chosen_psk x) (early_data_state x) (early_data_expected x) (quic_enabled x) (npn_negotiated x) (session_ticket_status x) (client_session_resumed x) (session_id_len x) (ems_negotiated x) (ems_extension_recv x) (kex_is_ephemeral x) (status_type_ocsp x) (chain_has_ocsp x) (corked_io x) (managed_send_io x) (deserialized_conn x) v (negotiate_in_use x) (read_closed x) (write_closed x) (in_stuffer x) (out_stuffer x).
Definition set_negotiate_in_use (v : bool) (x : s2n_connection) : s2n_connection :=
  Connection (mode x) (handshake x) (config x) (actual_protocol_version x) (client_protocol_version x) (server_protocol_version x) (client_cert_auth_type_overridden x) (client_cert_auth_type x) (chosen_psk x) (early_data_state x) (early_data_expected x) (quic_enabled x) (npn_negotiated x) (session_ticket_status x) (client_session_resumed x) (session_id_len x) (ems_negotiated x) (ems_extension_recv x) (kex_is_ephemeral x) (status_type_ocsp x) (chain_has_ocsp x) (corked_io x) (managed_send_io x) (deserialized_conn x) (client_hello_version x) v (read_closed x) (write_closed x) (in_stuffer x) (out_stuffer x).
Definition set_read_closed (v : bool) (x : s2n_connection) : s2n_connection :=
  Connection (mode x) (handshake x) (config x) (actual_protocol_version x) (client_protocol_version x) (server_protocol_version x) (client_cert_auth_type_overridden x) (client_cert_auth_type x) (chosen_psk x) (early_data_state x) (early_data_expected x) (quic_enabled x) (npn_negotiated x) (session_ticket_status x) (client_session_resumed x) (session_id_len x) (ems_negotiated x) (ems_extension_recv x) (kex_is_ephemeral x) (status_type_ocsp x) (chain_has_ocsp x) (corked_io x) (managed_send_io x) (deserialized_conn x) (client_hello_version x) (negotiate_in_use x) v (write_closed x) (in_stuffer x) (out_stuffer x).
Definition set_write_closed (v : bool) (x : s2n_connection) : s2n_connection :=
  Connection (mode x) (handshake x) (config x) (actual_protocol_version x) (client_protocol_version x) (server_protocol_version x) (client_cert_auth_type_overridden x) (client_cert_auth_type x) (chosen_psk x) (early_data_state x) (early_data_expected x) (quic_enabled x) (npn_negotiated x) (session_ticket_status x) (client_session_resumed x) (session_id_len x) (ems_negotiated x) (ems_extension_recv x) (kex_is_ephemeral x) (status_type_ocsp x) (chain_has_ocsp x) (corked_io x) (managed_send_io x) (deserialized_conn x) (client_hello_version x) (negotiate_in_use x) (read_closed x) v (in_stuffer x) (out_stuffer x).
Definition set_in_stuffer (v : s2n_stuffer) (x : s2n_connection) : s2n_connection :=
  Connection (mode x) (handshake x) (config x) (actual_protocol_version x) (client_protocol_version x) (server_protocol_version x) (client_cert_auth_type_overridden x) (client_cert_auth_type x) (chosen_psk x) (early_data_state x) (early_data_expected x) (quic_enabled x) (npn_negotiated x) (session_ticket_status x) (client_session_resumed x) (session_id_len x) (ems_negotiated x) (ems_extension_recv x) (kex_is_ephemeral x) (status_type_ocsp x) (chain_has_ocsp x) (corked_io x) (managed_send_io x) (deserialized_conn x) (client_hello_version x) (negotiate_in_use x) (read_closed x) (write_closed x) v (out_stuffer x).
Definition set_out_stuffer (v : s2n_stuffer) (x : s2n_connection) : s2n_connection :=
  Connection (mode x) (handshake x) (config x) (actual_protocol_version x) (client_protocol_version x) (server_protocol_version x) (client_cert_auth_type_overridden x) (client_cert_auth_type x) (chosen_psk x) (early_data_state x) (early_data_expected x) (quic_enabled x) (npn_negotiated x) (session_ticket_status x) (client_session_resumed x) (session_id_len x) (ems_negotiated x) (ems_extension_recv x) (kex_is_ephemeral x) (status_type_ocsp x) (chain_has_ocsp x) (corked_io x) (managed_send_io x) (deserialized_conn x) (client_hello_version x) (negotiate_in_use x) (read_closed x) (write_closed x) (in_stuffer x) v.

(** [conn->handshake.f = v] *)
Definition upd_handshake (f : s2n_handshake -> s2n_handshake) (c : s2n_connection) : s2n_connection :=
  set_handshake (f (handshake c)) c.

Definition handshake_lens : lens s2n_connection s2n_handshake := Lens handshake set_handshake.
Definition handshake_io_lens : lens s2n_connection s2n_stuffer :=
  Lens (fun c => handshake_io (handshake c)) (fun io => upd_handshake (set_handshake_io io)).
Definition in_lens : lens s2n_connection s2n_stuffer := Lens in_stuffer set_in_stuffer.
Definition out_lens : lens s2n_connection s2n_stuffer := Lens out_stuffer set_out_stuffer.

Definition is_client (c : s2n_connection) : bool := bool_decide (mode c = S2N_CLIENT).

(** ** Queries *)

Definition s2n_connection_get_protocol_version (c : s2n_connection) : Z :=
  if negb (actual_protocol_version c =? S2N_UNKNOWN_PROTOCOL_VERSION) then actual_protocol_version c
  else if is_client c then client_protocol_version c
  else server_protocol_version c.

Definition s2n_connection_is_quic_enabled (c : s2n_connection) : bool :=
  quic_enabled c || config_quic_enabled (config c).

Definition s2n_is_middlebox_compat_enabled (c : s2n_connection) : bool :=
  (S2N_TLS13 <=? s2n_connection_get_protocol_version c) && negb (s2n_connection_is_quic_enabled c).

Definition s2n_connection_get_client_auth_type (c : s2n_connection) : s2n_cert_auth_type :=
  if client_cert_auth_type_overridden c then client_cert_auth_type c
  else if config_auth_overridden (config c) then config_auth_type (config c)
  else if is_client c then S2N_CERT_AUTH_OPTIONAL
  else S2N_CERT_AUTH_NONE.

Definition s2n_connection_is_client_auth_enabled (c : s2n_connection) : bool :=
  bool_decide (s2n_connection_get_client_auth_type c <> S2N_CERT_AUTH_NONE).

Definition s2n_allowed_to_cache_connection (c : s2n_connection) : bool :=
  if s2n_connection_is_client_auth_enabled c then false else use_session_cache (config c).

Definition s2n_server_can_send_ocsp (c : s2n_connection) : bool :=
  negb (is_client c) && status_type_ocsp c && chain_has_ocsp c.
Definition s2n_server_sent_ocsp (c : s2n_connection) : bool := is_client c && status_type_ocsp c.

(** ** Closing *)

Inductive s2n_io_status := S2N_IO_WRITABLE | S2N_IO_READABLE | S2N_IO_FULL_DUPLEX | S2N_IO_CLOSED.

Definition s2n_connection_check_io_status (c : s2n_connection) (status : s2n_io_status) : bool :=
  let full_duplex := negb (read_closed c) && negb (write_closed c) in
  if s2n_connection_get_protocol_version c <? S2N_TLS13 then
    match status with
    | S2N_IO_WRITABLE | S2N_IO_READABLE | S2N_IO_FULL_DUPLEX => full_duplex
    | S2N_IO_CLOSED => negb full_duplex
    end
  else
    match status with
    | S2N_IO_WRITABLE => negb (write_closed c)
    | S2N_IO_READABLE => negb (read_closed c)
    | S2N_IO_FULL_DUPLEX => full_duplex
    | S2N_IO_CLOSED => read_closed c && write_closed c
    end.

Definition s2n_connection_set_closed : Cmd s2n_connection unit :=
  modify (set_read_closed true) ;;;
  modify (set_write_closed true).

(** ** tls/s2n_handshake_io.c: the choice of state machine *)

Definition s2n_conn_choose_state_machine (protocol_version : Z) : Cmd s2n_connection unit :=
  ensure (negb (protocol_version =? S2N_UNKNOWN_PROTOCOL_VERSION)) S2N_ERR_SAFETY ;;;
  c <-- get_obj ;;
  if protocol_version =? S2N_TLS13 then
    ensure (bool_decide (active_machine (handshake c) <> S2N_STATE_MACHINE_TLS12)) S2N_ERR_SAFETY ;;;
    modify (upd_handshake (set_active_machine S2N_STATE_MACHINE_TLS13))
  else
    ensure (bool_decide (active_machine (handshake c) <> S2N_STATE_MACHINE_TLS13)) S2N_ERR_SAFETY ;;;
    modify (upd_handshake (set_active_machine S2N_STATE_MACHINE_TLS12)).

(** ** tls/s2n_handshake_type.c *)

Definition or_flag (flag : Z) (h : s2n_handshake) : s2n_handshake :=
  set_handshake_type (Z.lor (handshake_type h) flag) h.

Definition has_flag (flag : Z) (c : s2n_connection) : bool :=
  negb (Z.land (handshake_type (handshake c)) flag =? 0).

Definition s2n_handshake_type_set_flag (flag : Z) : Cmd s2n_connection unit :=
  modify (upd_handshake (or_flag flag)).

Definition s2n_handshake_type_check_flag (c : s2n_connection) (flag : Z) : bool := has_flag flag c.

Definition s2n_handshake_type_set_tls12_flag (flag : Z) : Cmd s2n_connection unit :=
  c <-- get_obj ;;
  ensure (s2n_connection_get_protocol_version c <? S2N_TLS13) S2N_ERR_HANDSHAKE_STATE ;;;
  modify (upd_handshake (or_flag flag)) ;;;
  s2n_conn_choose_state_machine S2N_TLS12.

Definition s2n_handshake_type_unset_tls12_flag (flag : Z) : Cmd s2n_connection unit :=
  c <-- get_obj ;;
  ensure (s2n_connection_get_protocol_version c <? S2N_TLS13) S2N_ERR_HANDSHAKE_STATE ;;;
  modify (upd_handshake (fun h => set_handshake_type (u32 (Z.land (handshake_type h) (Z.lnot flag))) h)).

Definition s2n_handshake_type_check_tls12_flag (c : s2n_connection) (flag : Z) : bool :=
  (s2n_connection_get_protocol_version c <? S2N_TLS13) && has_flag flag c.

Definition s2n_handshake_type_set_tls13_flag (flag : Z) : Cmd s2n_connection unit :=
  c <-- get_obj ;;
  ensure (S2N_TLS13 <=? s2n_connection_get_protocol_version c) S2N_ERR_HANDSHAKE_STATE ;;;
  modify (upd_handshake (or_flag flag)) ;;;
  s2n_conn_choose_state_machine S2N_TLS13.

Definition s2n_handshake_type_check_tls13_flag (c : s2n_connection) (flag : Z) : bool :=
  (S2N_TLS13 <=? s2n_connection_get_protocol_version c) && has_flag flag c.

Definition s2n_handshake_type_reset : Cmd s2n_connection unit :=
  modify (upd_handshake (set_handshake_type 0)).

(** The macros of tls/s2n_handshake_type.h. *)
Definition IS_NEGOTIATED (c : s2n_connection) : bool := s2n_handshake_type_check_flag c NEGOTIATED.
Definition IS_FULL_HANDSHAKE (c : s2n_connection) : bool := s2n_handshake_type_check_flag c FULL_HANDSHAKE.
Definition IS_RESUMPTION_HANDSHAKE (c : s2n_connection) : bool :=
  negb (IS_FULL_HANDSHAKE c) && IS_NEGOTIATED c.
Definition IS_CLIENT_AUTH_HANDSHAKE (c : s2n_connection) : bool := s2n_handshake_type_check_flag c CLIENT_AUTH.
Definition IS_CLIENT_AUTH_NO_CERT (c : s2n_connection) : bool :=
  IS_CLIENT_AUTH_HANDSHAKE c && s2n_handshake_type_check_flag c NO_CLIENT_CERT.
Definition IS_HELLO_RETRY_HANDSHAKE (c : s2n_connection) : bool :=
  s2n_handshake_type_check_tls13_flag c HELLO_RETRY_REQUEST.

Definition s2n_conn_set_handshake_no_client_cert : Cmd s2n_connection unit :=
  c <-- get_obj ;;
  ensure (bool_decide (s2n_connection_get_client_auth_type c = S2N_CERT_AUTH_OPTIONAL))
    S2N_ERR_MISSING_CLIENT_CERT ;;;
  s2n_handshake_type_set_flag NO_CLIENT_CERT.

(** ** tls/s2n_early_data.c: the state of early data *)

(** [valid_previous_states[next]]; the array has no entry for the unknown state
    (it is zero there). *)
Definition valid_previous_states (next : s2n_early_data_state) : s2n_early_data_state :=
  match next with
  | S2N_EARLY_DATA_REQUESTED => S2N_UNKNOWN_EARLY_DATA_STATE
  | S2N_EARLY_DATA_NOT_REQUESTED => S2N_UNKNOWN_EARLY_DATA_STATE
  | S2N_EARLY_DATA_REJECTED => S2N_EARLY_DATA_REQUESTED
  | S2N_EARLY_DATA_ACCEPTED => S2N_EARLY_DATA_REQUESTED
  | S2N_END_OF_EARLY_DATA => S2N_EARLY_DATA_ACCEPTED
  | S2N_UNKNOWN_EARLY_DATA_STATE => S2N_UNKNOWN_EARLY_DATA_STATE
  end.

Definition s2n_connection_set_early_data_state (next : s2n_early_data_state) : Cmd s2n_connection unit :=
  c <-- get_obj ;;
  if bool_decide (early_data_state c = next) then ret tt
  else
    ensure (bool_decide (next <> S2N_UNKNOWN_EARLY_DATA_STATE)) S2N_ERR_INVALID_EARLY_DATA_STATE ;;;
    ensure (bool_decide (early_data_state c = valid_previous_states next)) S2N_ERR_INVALID_EARLY_DATA_STATE ;;;
    modify (set_early_data_state next).

Definition s2n_connection_set_early_data_expected : Cmd s2n_connection unit :=
  modify (set_early_data_expected true).

Definition s2n_connection_set_end_of_early_data : Cmd s2n_connection unit :=
  modify (set_early_data_expected false).

Definition s2n_set_hello_retry_required : Cmd s2n_connection unit :=
  c <-- get_obj ;;
  ensure (S2N_TLS13 <=? actual_protocol_version c) S2N_ERR_INVALID_HELLO_RETRY ;;;
  s2n_handshake_type_set_tls13_flag HELLO_RETRY_REQUEST ;;;
  c <-- get_obj ;;
  if bool_decide (early_data_state c = S2N_EARLY_DATA_REQUESTED)
  then s2n_connection_set_early_data_state S2N_EARLY_DATA_REJECTED
  else ret tt.

(** tls/extensions/s2n_client_early_data_indication.c *)
Definition s2n_setup_middlebox_compat_for_early_data : Cmd s2n_connection unit :=
  c <-- get_obj ;;
  if s2n_is_middlebox_compat_enabled c then
    s2n_handshake_type_set_tls13_flag MIDDLEBOX_COMPAT ;;;
    s2n_handshake_type_set_tls13_flag EARLY_CLIENT_CCS
  else ret tt.

(** ** tls/s2n_handshake_io.c: the handshake type *)

(** What the handshake type depends on outside these files: the ticket and
    cache machinery of tls/s2n_resume.c and the random generator.  A resumption
    attempt reports success or an error and the ems_negotiated flag it leaves. *)
Class ResumeEnv := {
  resume_decrypt_session : s2n_connection -> (unit + s2n_error) * bool;
  resume_from_cache : s2n_connection -> (unit + s2n_error) * bool;
  encrypt_key_available : s2n_connection -> bool;
  public_random : s2n_connection -> unit + s2n_error;
}.

Section HandshakeType.
Context `{ResumeEnv}.

Definition call_resume (f : s2n_connection -> (unit + s2n_error) * bool) : Cmd s2n_connection (unit + s2n_error) :=
  c <-- get_obj ;;
  let '(r, ems) := f c in
  modify (set_ems_negotiated ems) ;;; ret r.

Definition s2n_generate_new_client_session_id : Cmd s2n_connection unit :=
  c <-- get_obj ;;
  if negb (is_client c) then
    guard_rc (public_random c) ;;;
    modify (set_session_id_len 32)
  else ret tt.

Definition s2n_validate_ems_status : Cmd s2n_connection unit :=
  c <-- get_obj ;;
  (if ems_negotiated c then ensure (ems_extension_recv c) S2N_ERR_MISSING_EXTENSION else ret tt) ;;;
  modify (fun c => set_ems_negotiated (ems_extension_recv c) c).

Definition s2n_conn_set_tls13_handshake_type : Cmd s2n_connection unit :=
  modify (upd_handshake (fun h => set_handshake_type
    (Z.land (handshake_type h) (Z.lor (Z.lor HELLO_RETRY_REQUEST MIDDLEBOX_COMPAT) EARLY_CLIENT_CCS)) h)) ;;;
  s2n_handshake_type_set_flag NEGOTIATED ;;;
  c <-- get_obj ;;
  (if negb (chosen_psk c) then s2n_handshake_type_set_flag FULL_HANDSHAKE else ret tt) ;;;
  c <-- get_obj ;;
  (if bool_decide (early_data_state c = S2N_EARLY_DATA_ACCEPTED)
   then modify (upd_handshake (or_flag WITH_EARLY_DATA)) else ret tt) ;;;
  c <-- get_obj ;;
  let client_cert_auth_type := s2n_connection_get_client_auth_type c in
  (if is_client c && bool_decide (client_cert_auth_type = S2N_CERT_AUTH_REQUIRED) && IS_FULL_HANDSHAKE c
   then s2n_handshake_type_set_flag CLIENT_AUTH
   else if negb (is_client c) && bool_decide (client_cert_auth_type <> S2N_CERT_AUTH_NONE) && IS_FULL_HANDSHAKE c
   then s2n_handshake_type_set_flag CLIENT_AUTH
   else ret tt) ;;;
  c <-- get_obj ;;
  if s2n_is_middlebox_compat_enabled c then s2n_handshake_type_set_tls13_flag MIDDLEBOX_COMPAT else ret tt.

(** From the label [skip_cache_lookup] on. *)
Definition skip_cache_lookup : Cmd s2n_connection unit :=
  c <-- get_obj ;;
  if is_client c && client_session_resumed c then ret tt
  else
    s2n_generate_new_client_session_id ;;;
    s2n_handshake_type_set_flag FULL_HANDSHAKE ;;;
    c <-- get_obj ;;
    (if kex_is_ephemeral c then s2n_handshake_type_set_tls12_flag TLS12_PERFECT_FORWARD_SECRECY else ret tt) ;;;
    c <-- get_obj ;;
    if s2n_server_can_send_ocsp c || s2n_server_sent_ocsp c
    then s2n_handshake_type_set_tls12_flag OCSP_STATUS else ret tt.

(** From the session cache lookup on. *)
Definition cache_lookup : Cmd s2n_connection unit :=
  c <-- get_obj ;;
  if (actual_protocol_version c <=? S2N_TLS12) && negb (is_client c) && s2n_allowed_to_cache_connection c then
    r <-- call_resume resume_from_cache ;;
    match r with
    | inl _ => ret tt
    | inr e =>
        if S2N_ERROR_IS_BLOCKING e then fail e
        else s2n_validate_ems_status ;;; skip_cache_lookup
    end
  else skip_cache_lookup.

Definition IS_TLS13_HANDSHAKE (c : s2n_connection) : bool :=
  bool_decide (active_machine (handshake c) = S2N_STATE_MACHINE_TLS13).

Definition s2n_conn_set_handshake_type : Cmd s2n_connection unit :=
  c <-- get_obj ;;
  s2n_conn_choose_state_machine (actual_protocol_version c) ;;;
  c <-- get_obj ;;
  if IS_TLS13_HANDSHAKE c then s2n_conn_set_tls13_handshake_type
  else
    s2n_handshake_type_reset ;;;
    s2n_handshake_type_set_flag NEGOTIATED ;;;
    c <-- get_obj ;;
    let client_cert_auth_type := s2n_connection_get_client_auth_type c in
    (if is_client c && bool_decide (client_cert_auth_type = S2N_CERT_AUTH_REQUIRED)
     then s2n_handshake_type_set_flag CLIENT_AUTH
     else if negb (is_client c) && bool_decide (client_cert_auth_type <> S2N_CERT_AUTH_NONE)
     then s2n_handshake_type_set_flag CLIENT_AUTH
     else ret tt) ;;;
    (if npn_negotiated c then s2n_handshake_type_set_tls12_flag WITH_NPN else ret tt) ;;;
    c <-- get_obj ;;
    if use_tickets (config c) && bool_decide (session_ticket_status c = S2N_DECRYPT_TICKET) then
      r <-- call_resume resume_decrypt_session ;;
      match r with
      | inl _ => ret tt
      | inr _ =>
          s2n_validate_ems_status ;;;
          c <-- get_obj ;;
          (if encrypt_key_available c then
             modify (set_session_ticket_status S2N_NEW_TICKET) ;;;
             s2n_handshake_type_set_tls12_flag WITH_SESSION_TICKET
           else ret tt) ;;;
          skip_cache_lookup
      end
    else
      (if use_tickets (config c) && bool_decide (session_ticket_status c = S2N_NEW_TICKET)
       then s2n_handshake_type_set_tls12_flag WITH_SESSION_TICKET else ret tt) ;;;
      cache_lookup.

End HandshakeType.

End Connection.
Export Connection.
