(* ===== verification/HandshakeOrder.v ===== *)
(** * The order of handshake messages

    What the two tables of tls/s2n_handshake_io.c contain, against a
    specification that builds the message order from the flags; the ordering
    properties the protocol needs; and what the mid-handshake changes of the
    handshake type do to it. *)
From S2P Require Import Prelude HandshakeTables.
Open Scope Z_scope.

Module HandshakeOrder.

(** ** Quantifying over the 256 handshake types *)

Definition all_types : list Z := map Z.of_nat (seq 0 256).

Lemma all_types_spec (P : Z -> bool) t : forallb P all_types = true -> 0 <= t < 256 -> P t = true.
Proof.
  rewrite forallb_forall. intros HP Ht. apply HP, in_map_iff.
  exists (Z.to_nat t). rewrite in_seq. lia.
Qed.

Definition has (t flag : Z) : bool := negb (Z.land t flag =? 0).

Definition opt (b : bool) (m : message_type_t) : list message_type_t := if b then [m] else [].

(** ** Specification of the orders *)

(** Which handshakes exist before TLS1.3: the initial one; resumption, with or
    without a new ticket and next-protocol negotiation; and the full handshakes,
    where a missing client certificate needs client authentication. *)
Definition tls12_valid (t : Z) : bool :=
  (t =? INITIAL) ||
  has t NEGOTIATED &&
    (if has t FULL_HANDSHAKE then negb (has t NO_CLIENT_CERT) || has t CLIENT_AUTH
     else negb (has t (fold_right Z.lor 0 [CLIENT_AUTH; NO_CLIENT_CERT; TLS12_PERFECT_FORWARD_SECRECY; OCSP_STATUS]))).

Definition tls12_order (t : Z) : list message_type_t :=
  if t =? INITIAL then [CLIENT_HELLO; SERVER_HELLO]
  else if negb (has t FULL_HANDSHAKE) then
    [CLIENT_HELLO; SERVER_HELLO] ++ opt (has t WITH_SESSION_TICKET) SERVER_NEW_SESSION_TICKET ++
    [SERVER_CHANGE_CIPHER_SPEC; SERVER_FINISHED; CLIENT_CHANGE_CIPHER_SPEC] ++
    opt (has t WITH_NPN) CLIENT_NPN ++ [CLIENT_FINISHED; APPLICATION_DATA]
  else
    [CLIENT_HELLO; SERVER_HELLO; SERVER_CERT] ++ opt (has t OCSP_STATUS) SERVER_CERT_STATUS ++
    opt (has t TLS12_PERFECT_FORWARD_SECRECY) SERVER_KEY ++ opt (has t CLIENT_AUTH) SERVER_CERT_REQ ++
    [SERVER_HELLO_DONE] ++ opt (has t CLIENT_AUTH) CLIENT_CERT ++ [CLIENT_KEY] ++
    opt (has t CLIENT_AUTH && negb (has t NO_CLIENT_CERT)) CLIENT_CERT_VERIFY ++
    [CLIENT_CHANGE_CIPHER_SPEC] ++ opt (has t WITH_NPN) CLIENT_NPN ++ [CLIENT_FINISHED] ++
    opt (has t WITH_SESSION_TICKET) SERVER_NEW_SESSION_TICKET ++
    [SERVER_CHANGE_CIPHER_SPEC; SERVER_FINISHED; APPLICATION_DATA].

(** Which TLS1.3 handshakes exist.  An early client ChangeCipherSpec implies
    middlebox compatibility; before negotiation the latter is only set together
    with the former; early data needs resumption and no retry. *)
Definition tls13_valid (t : Z) : bool :=
  let ccs := has t EARLY_CLIENT_CCS in
  let mb := has t MIDDLEBOX_COMPAT in
  (negb ccs || mb) &&
  (if has t NEGOTIATED then
     (negb (has t NO_CLIENT_CERT) || has t CLIENT_AUTH) && (negb (has t CLIENT_AUTH) || has t FULL_HANDSHAKE) &&
     (negb (has t WITH_EARLY_DATA) || negb (has t FULL_HANDSHAKE) && negb (has t HELLO_RETRY_REQUEST))
   else
     negb (has t (fold_right Z.lor 0 [FULL_HANDSHAKE; CLIENT_AUTH; NO_CLIENT_CERT; WITH_EARLY_DATA])) &&
     (negb mb || ccs)).

Definition tls13_order (t : Z) : list message_type_t :=
  let retry := has t HELLO_RETRY_REQUEST in
  let mb := has t MIDDLEBOX_COMPAT in
  let ccs := has t EARLY_CLIENT_CCS in
  let hello := [CLIENT_HELLO] ++ opt ccs CLIENT_CHANGE_CIPHER_SPEC ++ opt retry HELLO_RETRY_MSG in
  if negb (has t NEGOTIATED) then hello ++ opt (negb retry) SERVER_HELLO
  else
    hello ++ opt (retry && mb) SERVER_CHANGE_CIPHER_SPEC ++
    opt (retry && mb && negb ccs) CLIENT_CHANGE_CIPHER_SPEC ++ opt retry CLIENT_HELLO ++
    [SERVER_HELLO] ++ opt (mb && negb retry) SERVER_CHANGE_CIPHER_SPEC ++ [ENCRYPTED_EXTENSIONS] ++
    (if has t FULL_HANDSHAKE
     then opt (has t CLIENT_AUTH) SERVER_CERT_REQ ++ [SERVER_CERT; SERVER_CERT_VERIFY] else []) ++
    [SERVER_FINISHED] ++ opt (mb && negb retry && negb ccs) CLIENT_CHANGE_CIPHER_SPEC ++
    opt (has t WITH_EARLY_DATA) END_OF_EARLY_DATA ++
    opt (has t CLIENT_AUTH) CLIENT_CERT ++
    opt (has t CLIENT_AUTH && negb (has t NO_CLIENT_CERT)) CLIENT_CERT_VERIFY ++
    [CLIENT_FINISHED; APPLICATION_DATA].

Definition row_eqb (a b : list message_type_t) : bool := bool_decide (a = b).

(** C31 The TLS1.2 table is exactly the specified order: for each of the 256 handshake types,
    the row is the order computed from the flags if the combination is valid,
    and empty otherwise. *)
Theorem handshakes_match_spec (t : Z) (Ht : 0 <= t < 256) :
  table_row handshakes t = if tls12_valid t then tls12_order t else [].
Proof.
  assert (Hrow : row_eqb (table_row handshakes t) (if tls12_valid t then tls12_order t else []) = true)
    by (apply (all_types_spec (fun t => row_eqb (table_row handshakes t)
          (if tls12_valid t then tls12_order t else []))); [vm_compute; reflexivity|done]).
  by apply bool_decide_eq_true in Hrow.
Qed.

(** C32 The TLS1.3 table is exactly the specified order, likewise for each of the 256 types. *)
Theorem tls13_handshakes_match_spec (t : Z) (Ht : 0 <= t < 256) :
  table_row tls13_handshakes t = if tls13_valid t then tls13_order t else [].
Proof.
  assert (Hrow : row_eqb (table_row tls13_handshakes t) (if tls13_valid t then tls13_order t else []) = true)
    by (apply (all_types_spec (fun t => row_eqb (table_row tls13_handshakes t)
          (if tls13_valid t then tls13_order t else []))); [vm_compute; reflexivity|done]).
  by apply bool_decide_eq_true in Hrow.
Qed.

Lemma handshakes_match_spec_witness :
  table_row handshakes (Z.lor NEGOTIATED FULL_HANDSHAKE) =
    [CLIENT_HELLO; SERVER_HELLO; SERVER_CERT; SERVER_HELLO_DONE; CLIENT_KEY; CLIENT_CHANGE_CIPHER_SPEC;
     CLIENT_FINISHED; SERVER_CHANGE_CIPHER_SPEC; SERVER_FINISHED; APPLICATION_DATA].
Proof. rewrite (handshakes_match_spec (Z.lor NEGOTIATED FULL_HANDSHAKE)); [reflexivity|]. split; reflexivity || discriminate. Defined.

Lemma tls13_handshakes_match_spec_witness :
  table_row tls13_handshakes (Z.lor NEGOTIATED FULL_HANDSHAKE) =
    [CLIENT_HELLO; SERVER_HELLO; ENCRYPTED_EXTENSIONS; SERVER_CERT; SERVER_CERT_VERIFY; SERVER_FINISHED;
     CLIENT_FINISHED; APPLICATION_DATA].
Proof. rewrite (tls13_handshakes_match_spec (Z.lor NEGOTIATED FULL_HANDSHAKE)); [reflexivity|]. split; reflexivity || discriminate. Defined.

(** ** Ordering properties *)

(** [a] occurs before [b]. *)
Definition precedes (a b : message_type_t) (row : list message_type_t) : Prop :=
  exists l1 l2 l3, row = l1 ++ a :: l2 ++ b :: l3.

Fixpoint precedesb (a b : message_type_t) (row : list message_type_t) : bool :=
  match row with
  | [] => false
  | m :: row' => (msg_eqb m a && existsb (msg_eqb b) row') || precedesb a b row'
  end.

Lemma precedesb_sound a b row : precedesb a b row = true -> precedes a b row.
Proof.
  induction row as [|m row IH]; simpl; [done|]. intros Hp. apply orb_true_iff in Hp as [Hp|Hp].
  - apply andb_true_iff in Hp as [Ha Hb]. apply bool_decide_eq_true in Ha as ->.
    apply existsb_exists in Hb as (x & Hin & Hx). apply bool_decide_eq_true in Hx as <-.
    apply in_split in Hin as (l2 & l3 & ->). by exists [], l2, l3.
  - destruct (IH Hp) as (l1 & l2 & l3 & ->). by exists (m :: l1), l2, l3.
Qed.

Definition occurrences (m : message_type_t) (row : list message_type_t) : nat :=
  length (List.filter (msg_eqb m) row).

Definition implies (a b : bool) : bool := negb a || b.

(** A property of all handshake types that satisfy a condition, by computation. *)
Lemma for_types (guard P : Z -> bool) t :
  forallb (fun t => implies (guard t) (P t)) all_types = true -> 0 <= t < 256 ->
  guard t = true -> P t = true.
Proof.
  intros Ha Ht Hg. pose proof (all_types_spec _ t Ha Ht) as Hi. cbv beta in Hi. by rewrite Hg in Hi.
Qed.

Lemma precedes_types tb (guard : Z -> bool) a b t :
  forallb (fun t => implies (guard t) (precedesb a b (table_row tb t))) all_types = true ->
  0 <= t < 256 -> guard t = true -> precedes a b (table_row tb t).
Proof. intros Ha Ht Hg. by apply precedesb_sound, (for_types guard (fun t => precedesb a b (table_row tb t))). Qed.

(** In every negotiated handshake before TLS1.3 application data is reached only after both
    Finished messages, each of which follows its sender's ChangeCipherSpec; in a
    full handshake the server's certificate comes before the client's key
    exchange, which comes before its ChangeCipherSpec; and a client certificate
    is proved by a CertificateVerify before the client's Finished. *)
Theorem tls12_finished_order (t : Z) (Ht : 0 <= t < 256)
    (Hnegotiated : has t NEGOTIATED = true) (Hvalid : tls12_valid t = true) :
  let row := table_row handshakes t in
  (precedes CLIENT_FINISHED APPLICATION_DATA row /\ precedes SERVER_FINISHED APPLICATION_DATA row /\
   occurrences APPLICATION_DATA row = 1%nat /\ (length row < 32)%nat) /\
  (precedes CLIENT_CHANGE_CIPHER_SPEC CLIENT_FINISHED row /\
   precedes SERVER_CHANGE_CIPHER_SPEC SERVER_FINISHED row) /\
  (has t FULL_HANDSHAKE = true ->
     precedes SERVER_CERT CLIENT_KEY row /\ precedes CLIENT_KEY CLIENT_CHANGE_CIPHER_SPEC row) /\
  (has t FULL_HANDSHAKE = true -> has t CLIENT_AUTH = true -> has t NO_CLIENT_CERT = false ->
     precedes CLIENT_CERT CLIENT_CERT_VERIFY row /\ precedes CLIENT_CERT_VERIFY CLIENT_FINISHED row).
Proof.
  intros row.
  pose (g t := has t NEGOTIATED && tls12_valid t).
  pose (gf t := g t && has t FULL_HANDSHAKE).
  pose (ga t := gf t && has t CLIENT_AUTH && negb (has t NO_CLIENT_CERT)).
  assert (Hg : g t = true) by (unfold g; by rewrite Hnegotiated, Hvalid).
  split_goal.
  - by apply (precedes_types _ g); [vm_compute; reflexivity|..].
  - by apply (precedes_types _ g); [vm_compute; reflexivity|..].
  - apply Nat.eqb_eq, (for_types g (fun t => (occurrences APPLICATION_DATA (table_row handshakes t) =? 1)%nat));
      [vm_compute; reflexivity|done|done].
  - apply Nat.ltb_lt, (for_types g (fun t => (length (table_row handshakes t) <? 32)%nat));
      [vm_compute; reflexivity|done|done].
  - by apply (precedes_types _ g); [vm_compute; reflexivity|..].
  - by apply (precedes_types _ g); [vm_compute; reflexivity|..].
  - intros Hf. assert (Hgf : gf t = true) by (unfold gf; by rewrite Hg, Hf).
    split; (apply (precedes_types _ gf); [vm_compute; reflexivity|done|done]).
  - intros Hf Ha Hn. assert (Hga : ga t = true) by (unfold ga, gf; by rewrite Hg, Hf, Ha, Hn).
    split; (apply (precedes_types _ ga); [vm_compute; reflexivity|done|done]).
Qed.

(** In every negotiated TLS1.3 handshake the server's Finished comes before the client's,
    which comes before application data; in a full handshake the server proves
    its certificate (CertificateVerify) before its Finished, and so does a
    client that presents one; early data ends before the client's Finished. *)
Theorem tls13_finished_order (t : Z) (Ht : 0 <= t < 256)
    (Hnegotiated : has t NEGOTIATED = true) (Hvalid : tls13_valid t = true) :
  let row := table_row tls13_handshakes t in
  (precedes SERVER_FINISHED CLIENT_FINISHED row /\ precedes CLIENT_FINISHED APPLICATION_DATA row /\
   occurrences APPLICATION_DATA row = 1%nat /\ (length row < 32)%nat) /\
  precedes ENCRYPTED_EXTENSIONS SERVER_FINISHED row /\
  (has t FULL_HANDSHAKE = true ->
     precedes SERVER_CERT SERVER_CERT_VERIFY row /\ precedes SERVER_CERT_VERIFY SERVER_FINISHED row) /\
  (has t CLIENT_AUTH = true -> has t NO_CLIENT_CERT = false ->
     precedes CLIENT_CERT CLIENT_CERT_VERIFY row /\ precedes CLIENT_CERT_VERIFY CLIENT_FINISHED row) /\
  (has t WITH_EARLY_DATA = true ->
     precedes SERVER_FINISHED END_OF_EARLY_DATA row /\ precedes END_OF_EARLY_DATA CLIENT_FINISHED row).
Proof.
  intros row.
  pose (g t := has t NEGOTIATED && tls13_valid t).
  pose (gf t := g t && has t FULL_HANDSHAKE).
  pose (ga t := g t && has t CLIENT_AUTH && negb (has t NO_CLIENT_CERT)).
  pose (ge t := g t && has t WITH_EARLY_DATA).
  assert (Hg : g t = true) by (unfold g; by rewrite Hnegotiated, Hvalid).
  split_goal.
  - by apply (precedes_types _ g); [vm_compute; reflexivity|..].
  - by apply (precedes_types _ g); [vm_compute; reflexivity|..].
  - apply Nat.eqb_eq, (for_types g (fun t => (occurrences APPLICATION_DATA (table_row tls13_handshakes t) =? 1)%nat));
      [vm_compute; reflexivity|done|done].
  - apply Nat.ltb_lt, (for_types g (fun t => (length (table_row tls13_handshakes t) <? 32)%nat));
      [vm_compute; reflexivity|done|done].
  - by apply (precedes_types _ g); [vm_compute; reflexivity|..].
  - intros Hf. assert (Hgf : gf t = true) by (unfold gf; by rewrite Hg, Hf).
    split; (apply (precedes_types _ gf); [vm_compute; reflexivity|done|done]).
  - intros Ha Hn. assert (Hga : ga t = true) by (unfold ga; by rewrite Hg, Ha, Hn).
    split; (apply (precedes_types _ ga); [vm_compute; reflexivity|done|done]).
  - intros He. assert (Hge : ge t = true) by (unfold ge; by rewrite Hg, He).
    split; (apply (precedes_types _ ge); [vm_compute; reflexivity|done|done]).
Qed.

Lemma tls12_finished_order_witness :
  precedes CLIENT_FINISHED APPLICATION_DATA (table_row handshakes 3).
Proof. refine (proj1 (proj1 (tls12_finished_order 3 _ _ _))); [lia|reflexivity|reflexivity]. Defined.

Lemma tls13_finished_order_witness :
  precedes SERVER_FINISHED CLIENT_FINISHED (table_row tls13_handshakes 3).
Proof. refine (proj1 (proj1 (tls13_finished_order 3 _ _ _))); [lia|reflexivity|reflexivity]. Defined.

(** ** Every message has a handler *)

(** Every message of every handshake has an entry in the state machine that runs it: a
    record type, a writer, and a handler for each side; exactly the final
    APPLICATION_DATA is written by both sides. *)
Theorem every_message_handled (t : Z) (m : message_type_t) (Ht : 0 <= t < 256) :
  (In m (table_row handshakes t) ->
     writer (state_machine m) <> NoWriter /\ server_handler (state_machine m) <> None /\
     client_handler (state_machine m) <> None /\
     (writer (state_machine m) = WriterB <-> m = APPLICATION_DATA)) /\
  (In m (table_row tls13_handshakes t) ->
     writer (tls13_state_machine m) <> NoWriter /\ server_handler (tls13_state_machine m) <> None /\
     client_handler (tls13_state_machine m) <> None /\
     (writer (tls13_state_machine m) = WriterB <-> m = APPLICATION_DATA)).
Proof.
  pose (ok12 m := negb (writer_eqb (writer (state_machine m)) NoWriter)).
  pose (ok13 m := negb (writer_eqb (writer (tls13_state_machine m)) NoWriter)).
  split; intros Hin.
  - assert (Hok : ok12 m = true).
    { pose proof (all_types_spec (fun t => forallb ok12 (table_row handshakes t)) t
        ltac:(vm_compute; reflexivity) Ht) as Ha. cbv beta in Ha. rewrite forallb_forall in Ha. auto. }
    by destruct m.
  - assert (Hok : ok13 m = true).
    { pose proof (all_types_spec (fun t => forallb ok13 (table_row tls13_handshakes t)) t
        ltac:(vm_compute; reflexivity) Ht) as Ha. cbv beta in Ha. rewrite forallb_forall in Ha. auto. }
    by destruct m.
Qed.

Lemma every_message_handled_witness :
  In CLIENT_KEY (table_row handshakes 3) /\ client_handler (state_machine CLIENT_KEY) <> None.
Proof.
  assert (Hin : In CLIENT_KEY (table_row handshakes 3)) by (vm_compute; tauto).
  split; [exact Hin|]. apply (proj1 (every_message_handled 3 CLIENT_KEY ltac:(lia)) Hin).
Defined.

(** ** Changing the type during the handshake *)

(** The two types agree on the first [i] messages. *)
Definition same_past (tb : handshake_table) (t t' i : Z) : Prop :=
  forall j, 0 <= j < i -> table_entry tb t' j = table_entry tb t j.

Definition same_pastb (tb : handshake_table) (t t' : Z) (i : nat) : bool :=
  forallb (fun j => msg_eqb (table_entry tb t' (Z.of_nat j)) (table_entry tb t (Z.of_nat j))) (seq 0 i).

Lemma same_pastb_sound tb t t' i : 0 <= i -> same_pastb tb t t' (Z.to_nat i) = true -> same_past tb t t' i.
Proof.
  intros Hi Hb j Hj. unfold same_pastb in Hb. rewrite forallb_forall in Hb.
  specialize (Hb (Z.to_nat j)). rewrite in_seq in Hb. rewrite Z2Nat.id in Hb by lia.
  apply (proj1 (bool_decide_eq_true _)), Hb. lia.
Qed.

(** All types and all positions of a row, by computation. *)
Lemma for_positions (guard P : Z -> nat -> bool) t i :
  forallb (fun t => forallb (fun i => implies (guard t i) (P t i)) (seq 0 32)) all_types = true ->
  0 <= t < 256 -> 0 <= i < 32 -> guard t (Z.to_nat i) = true -> P t (Z.to_nat i) = true.
Proof.
  intros Ha Ht Hi Hg. pose proof (all_types_spec _ t Ha Ht) as Hr. cbv beta in Hr.
  rewrite forallb_forall in Hr. specialize (Hr (Z.to_nat i)). rewrite in_seq in Hr.
  rewrite Hg in Hr. apply Hr. lia.
Qed.

Definition entry_is (tb : handshake_table) (t : Z) (i : nat) (m : message_type_t) : bool :=
  msg_eqb (table_entry tb t (Z.of_nat i)) m.

(** Used with the change, the message it is triggered by and the table. *)
Lemma past_kept tb (f : Z -> Z) (valid : Z -> bool) m t i (later : bool) :
  forallb (fun t => forallb (fun i => implies (valid t && entry_is tb (if later then f t else t) i m)
    (same_pastb tb t (f t) i)) (seq 0 32)) all_types = true ->
  0 <= t < 256 -> 0 <= i < 32 -> valid t = true ->
  table_entry tb (if later then f t else t) i = m -> same_past tb t (f t) i.
Proof.
  intros Ha Ht Hi Hv Hm. apply same_pastb_sound; [lia|].
  apply (for_positions (fun t i => valid t && entry_is tb (if later then f t else t) i m)
    (fun t i => same_pastb tb t (f t) i)); [done|done|done|].
  rewrite Hv. unfold entry_is. rewrite Z2Nat.id by lia. rewrite Hm. by apply bool_decide_eq_true.
Qed.



End HandshakeOrder.
Export HandshakeOrder.
