(* ===== verification/HandshakeTypes.v ===== *)
(** * Which handshake types a connection can have

    s2n_conn_set_handshake_type assembles the type from what was negotiated;
    the tables have a row for some combinations only.  Here: which combinations
    it can produce, that they have a row, and the one that has none. *)
From S2P Require Import Prelude Errors CMem Platform Safety Blob Alloc Stuffer HandshakeTables HandshakeOrder Connection.
Open Scope Z_scope.

Module HandshakeTypes.

Definition flag_if (b : bool) (f : Z) : Z := if b then f else 0.

(** The types built by the code, as a function of what is on. *)
Definition tls12_type (auth npn ticket full pfs ocsp : bool) : Z :=
  fold_right Z.lor 0
    [NEGOTIATED; flag_if auth CLIENT_AUTH; flag_if npn WITH_NPN; flag_if ticket WITH_SESSION_TICKET;
     flag_if full FULL_HANDSHAKE; flag_if (full && pfs) TLS12_PERFECT_FORWARD_SECRECY;
     flag_if (full && ocsp) OCSP_STATUS].

Definition tls13_type (retry mb ccs full early auth : bool) : Z :=
  fold_right Z.lor 0
    [NEGOTIATED; flag_if retry HELLO_RETRY_REQUEST; flag_if mb MIDDLEBOX_COMPAT; flag_if ccs EARLY_CLIENT_CCS;
     flag_if full FULL_HANDSHAKE; flag_if early WITH_EARLY_DATA; flag_if auth CLIENT_AUTH].

(** Whether this connection expects the server to ask for a certificate. *)
Definition auth_expected (c : s2n_connection) : bool :=
  if is_client c then bool_decide (s2n_connection_get_client_auth_type c = S2N_CERT_AUTH_REQUIRED)
  else bool_decide (s2n_connection_get_client_auth_type c <> S2N_CERT_AUTH_NONE).

(** The fields that decide the type, unchanged while it is being assembled. *)
Record same_facts (c0 c : s2n_connection) : Prop := {
  sf_mode : mode c = mode c0;
  sf_config : config c = config c0;
  sf_version : actual_protocol_version c = actual_protocol_version c0;
  sf_over : client_cert_auth_type_overridden c = client_cert_auth_type_overridden c0;
  sf_auth : client_cert_auth_type c = client_cert_auth_type c0;
  sf_npn : npn_negotiated c = npn_negotiated c0;
  sf_resumed : client_session_resumed c = client_session_resumed c0;
  sf_psk : chosen_psk c = chosen_psk c0;
  sf_early : early_data_state c = early_data_state c0;
  sf_ticket : session_ticket_status c = session_ticket_status c0 \/
    session_ticket_status c0 = S2N_DECRYPT_TICKET;
}.

Lemma same_facts_refl c : same_facts c c.
Proof. split; auto. Qed.

Lemma same_facts_trans a b c : same_facts a b -> same_facts b c -> same_facts a c.
Proof. intros [? ? ? ? ? ? ? ? ? [?|?]] [? ? ? ? ? ? ? ? ? [?|?]]. all: split; try congruence; auto. all: try (left; congruence); right; congruence. Qed.

Lemma same_facts_handshake f c : same_facts c (upd_handshake f c).
Proof. split; auto. Qed.

Lemma same_client c0 c : same_facts c0 c -> is_client c = is_client c0.
Proof. intros Hf. unfold is_client. by rewrite (sf_mode _ _ Hf). Qed.

Lemma same_auth_type c0 c :
  same_facts c0 c -> s2n_connection_get_client_auth_type c = s2n_connection_get_client_auth_type c0.
Proof.
  intros Hf. unfold s2n_connection_get_client_auth_type. rewrite (same_client _ _ Hf).
  by rewrite (sf_over _ _ Hf), (sf_auth _ _ Hf), (sf_config _ _ Hf).
Qed.

(** Being in the middle of a pre-TLS1.3 assembly with type [t]. *)
Definition building12 (c0 : s2n_connection) (t : Z) (c : s2n_connection) : Prop :=
  same_facts c0 c /\ handshake_type (handshake c) = t /\
  active_machine (handshake c) = S2N_STATE_MACHINE_TLS12.

Definition tls12_version (c : s2n_connection) : Prop :=
  actual_protocol_version c <> 0 /\ actual_protocol_version c < 34.

Lemma protocol_version_known c :
  actual_protocol_version c <> 0 -> s2n_connection_get_protocol_version c = actual_protocol_version c.
Proof.
  intros Hv. unfold s2n_connection_get_protocol_version, S2N_UNKNOWN_PROTOCOL_VERSION.
  by rewrite (proj2 (Z.eqb_neq _ 0) Hv).
Qed.

Lemma wp_set_flag (w : world) c f Q E :
  Q tt w (upd_handshake (or_flag f) c) -> wp (s2n_handshake_type_set_flag f) (w, c) Q E.
Proof. done. Qed.

Lemma building12_or c0 t c f : building12 c0 t c -> building12 c0 (Z.lor t f) (upd_handshake (or_flag f) c).
Proof.
  intros (Hf & Ht & Hm). split; [|split].
  - eapply same_facts_trans; [done|apply same_facts_handshake].
  - simpl. by rewrite Ht.
  - done.
Qed.

Lemma wp_set_tls12_flag (w : world) c0 t c f Q E :
  tls12_version c0 -> building12 c0 t c ->
  (forall c', building12 c0 (Z.lor t f) c' -> Q tt w c') ->
  wp (s2n_handshake_type_set_tls12_flag f) (w, c) Q E.
Proof.
  intros [Hv0 Hv] Hb HQ. pose proof Hb as (Hf & Ht & Hm).
  assert (Ha : actual_protocol_version c = actual_protocol_version c0) by apply Hf.
  apply wp_bind, wp_get_obj. rewrite protocol_version_known by lia. rewrite Ha. unfold S2N_TLS13.
  apply wp_bind, wp_ensure; intros Hlt; zbool; [|lia].
  apply wp_bind, wp_modify. apply (building12_or _ _ _ f) in Hb. pose proof Hb as (Hf' & Ht' & Hm').
  apply wp_bind, wp_ensure; [intros _|done]. apply wp_bind, wp_get_obj.
  change (S2N_TLS12 =? S2N_TLS13) with false. cbv iota.
  apply wp_bind, wp_ensure; intros Hne; [|by rewrite Hm' in Hne].
  apply wp_modify, HQ. split; [|by split].
  eapply same_facts_trans; [exact Hf'|apply same_facts_handshake].
Qed.

(** A flag that is set only if a condition holds. *)
Lemma wp_flag_if (b : bool) (w : world) c0 t c f Q E :
  tls12_version c0 -> building12 c0 t c ->
  (forall c', building12 c0 (Z.lor t (flag_if b f)) c' -> Q tt w c') ->
  wp (if b then s2n_handshake_type_set_tls12_flag f else ret tt) (w, c) Q E.
Proof.
  intros Hv Hb HQ. destruct b; [by eapply wp_set_tls12_flag|]. apply wp_ret, HQ.
  simpl. by rewrite Z.lor_0_r.
Qed.

Section Theorems.
Context `{HR : ResumeEnv}.

(** From skip_cache_lookup on: a resumed client keeps the type, everybody else
    gets a full handshake. *)
Lemma wp_skip_cache_lookup (w : world) c0 t c Q :
  tls12_version c0 -> building12 c0 t c ->
  (is_client c0 = true -> client_session_resumed c0 = true -> Q tt w c) ->
  (forall pfs ocsp c', building12 c0 (Z.lor (Z.lor (Z.lor t FULL_HANDSHAKE)
      (flag_if pfs TLS12_PERFECT_FORWARD_SECRECY)) (flag_if ocsp OCSP_STATUS)) c' -> Q tt w c') ->
  wp skip_cache_lookup (w, c) Q (fun _ _ _ => True).
Proof.
  intros Hv Hb HR1 HR2. pose proof Hb as (Hf & _). apply wp_bind, wp_get_obj.
  rewrite (same_client _ _ Hf), (sf_resumed _ _ Hf).
  destruct (is_client c0 && client_session_resumed c0) eqn:Hc.
  { apply andb_true_iff in Hc as [? ?]. by apply wp_ret, HR1. }
  apply wp_bind. assert (Hgen : wp s2n_generate_new_client_session_id (w, c)
    (fun _ w' c' => w' = w /\ building12 c0 t c') (fun _ _ _ => True)).
  { apply wp_bind, wp_get_obj. destruct (is_client c); simpl; [by apply wp_ret|].
    apply wp_bind. destruct (public_random c); simpl; [|by apply wp_fail]. apply wp_ret, wp_modify.
    split; [done|]. destruct Hb as (Hf' & ? & ?). split; [|done].
    eapply same_facts_trans; [exact Hf'|split; auto]. }
  eapply wp_mono; [exact Hgen| |done]. intros [] w' c' [-> Hb']. apply wp_bind, wp_set_flag.
  apply (building12_or _ _ _ FULL_HANDSHAKE) in Hb'. apply wp_bind, wp_get_obj.
  apply wp_bind. eapply wp_flag_if; [done|exact Hb'|]. intros c2 Hb2. apply wp_bind, wp_get_obj.
  eapply wp_flag_if; [done|exact Hb2|]. intros c3 Hb3. by eapply HR2.
Qed.

(** The types s2n_conn_set_handshake_type can produce before TLS1.3. *)
Definition tls12_result (c0 c : s2n_connection) : Prop :=
  exists npn ticket full pfs ocsp,
    handshake_type (handshake c) = tls12_type (auth_expected c0) npn ticket full pfs ocsp /\
    active_machine (handshake c) = S2N_STATE_MACHINE_TLS12 /\
    (full = false ->
      (is_client c0 = true /\ client_session_resumed c0 = true) \/
      session_ticket_status c0 = S2N_DECRYPT_TICKET \/
      (is_client c0 = false /\ s2n_allowed_to_cache_connection c0 = true)).

Lemma tls12_result_intro c0 c t auth npn ticket full pfs ocsp :
  building12 c0 t c -> auth = auth_expected c0 -> t = tls12_type auth npn ticket full pfs ocsp ->
  (full = false ->
      (is_client c0 = true /\ client_session_resumed c0 = true) \/
      session_ticket_status c0 = S2N_DECRYPT_TICKET \/
      (is_client c0 = false /\ s2n_allowed_to_cache_connection c0 = true)) ->
  tls12_result c0 c.
Proof. intros (_ & Ht & Hm) -> -> Hfull. exists npn, ticket, full, pfs, ocsp. by rewrite Ht. Qed.

(** Client authentication is decided first. *)
Lemma wp_client_auth (w : world) c0 c Q E :
  tls12_version c0 -> building12 c0 NEGOTIATED c ->
  (forall c', building12 c0 (Z.lor NEGOTIATED (flag_if (auth_expected c0) CLIENT_AUTH)) c' -> Q tt w c') ->
  wp (if is_client c && bool_decide (s2n_connection_get_client_auth_type c = S2N_CERT_AUTH_REQUIRED)
      then s2n_handshake_type_set_flag CLIENT_AUTH
      else if negb (is_client c) && bool_decide (s2n_connection_get_client_auth_type c <> S2N_CERT_AUTH_NONE)
      then s2n_handshake_type_set_flag CLIENT_AUTH
      else ret tt) (w, c) Q E.
Proof.
  intros Hv Hb HQ. pose proof Hb as (Hf & _). rewrite (same_client _ _ Hf), (same_auth_type _ _ Hf).
  assert (Hset : auth_expected c0 = true -> wp (s2n_handshake_type_set_flag CLIENT_AUTH) (w, c) Q E).
  { intros Ha. apply wp_set_flag, HQ. rewrite Ha. by apply building12_or. }
  assert (Hskip : auth_expected c0 = false -> wp (ret tt) (w, c) Q E).
  { intros Ha. apply wp_ret, HQ. rewrite Ha. simpl. exact Hb. }
  unfold auth_expected in Hset, Hskip. destruct (is_client c0); simpl.
  - destruct (bool_decide (_ = S2N_CERT_AUTH_REQUIRED)); auto.
  - destruct (bool_decide (_ <> S2N_CERT_AUTH_NONE)); auto.
Qed.

Lemma wp_call_resume (w : world) c0 t c f Q E :
  building12 c0 t c ->
  (forall c' r, building12 c0 t c' -> Q r w c') -> wp (call_resume f) (w, c) Q E.
Proof.
  intros (Hf & Ht & Hm) HQ. apply wp_bind, wp_get_obj. destruct (f c) as [r ems].
  apply wp_bind, wp_modify, wp_ret, HQ. split; [|done].
  eapply same_facts_trans; [exact Hf|split; auto].
Qed.

Lemma wp_validate_ems (w : world) c0 t c Q :
  building12 c0 t c -> (forall c', building12 c0 t c' -> Q tt w c') ->
  wp s2n_validate_ems_status (w, c) Q (fun _ _ _ => True).
Proof.
  intros (Hf & Ht & Hm) HQ. apply wp_bind, wp_get_obj, wp_bind.
  assert (Hmod : wp (modify (fun c => set_ems_negotiated (ems_extension_recv c) c)) (w, c) Q (fun _ _ _ => True)).
  { apply wp_modify, HQ. split; [|done]. eapply same_facts_trans; [exact Hf|split; auto]. }
  destruct (ems_negotiated c); [|by apply wp_ret]. by apply wp_ensure.
Qed.

Lemma s2n_allowed_same c0 c :
  same_facts c0 c -> s2n_allowed_to_cache_connection c = s2n_allowed_to_cache_connection c0.
Proof.
  intros Hf. unfold s2n_allowed_to_cache_connection, s2n_connection_is_client_auth_enabled.
  by rewrite (same_auth_type _ _ Hf), (sf_config _ _ Hf).
Qed.

(** Full handshakes and resumed clients, from any partial type. *)
Lemma wp_skip_result (w : world) c0 c npn ticket t :
  tls12_version c0 -> building12 c0 t c ->
  t = tls12_type (auth_expected c0) npn ticket false false false ->
  wp skip_cache_lookup (w, c) (fun _ _ c' => tls12_result c0 c') (fun _ _ _ => True).
Proof.
  intros Hv Hb ->. eapply wp_skip_cache_lookup; [done|exact Hb| |].
  - intros ? ?. eapply (tls12_result_intro _ _ _ _ npn ticket false false false); [exact Hb|done|done|auto].
  - intros pfs ocsp c' Hb'. eapply (tls12_result_intro _ _ _ _ npn ticket true pfs ocsp); [exact Hb'|done| |done].
    by destruct (auth_expected c0), npn, ticket, pfs, ocsp.
Qed.

Lemma wp_cache_result (w : world) c0 c npn ticket t :
  tls12_version c0 -> building12 c0 t c ->
  t = tls12_type (auth_expected c0) npn ticket false false false ->
  wp cache_lookup (w, c) (fun _ _ c' => tls12_result c0 c') (fun _ _ _ => True).
Proof.
  intros Hv Hb Et. pose proof Hb as (Hf & _). apply wp_bind, wp_get_obj.
  destruct (_ && s2n_allowed_to_cache_connection c) eqn:Hc.
  2: { by eapply wp_skip_result. }
  apply andb_true_iff in Hc as [Hc Hal]. apply andb_true_iff in Hc as [_ Hcl].
  rewrite (same_client _ _ Hf) in Hcl. rewrite (s2n_allowed_same _ _ Hf) in Hal.
  apply wp_bind. eapply wp_call_resume; [exact Hb|]. intros c1 [[]|e] Hb1.
  - apply wp_ret. eapply (tls12_result_intro _ _ _ _ npn ticket false false false); [exact Hb1|done|done|].
    intros _. right. right. split; [by apply negb_true_iff|done].
  - destruct (S2N_ERROR_IS_BLOCKING e); [by apply wp_fail|]. apply wp_bind.
    eapply wp_validate_ems; [exact Hb1|]. intros c2 Hb2. by eapply wp_skip_result.
Qed.

Lemma wp_choose_state_machine12 (w : world) c Q E :
  tls12_version c -> active_machine (handshake c) <> S2N_STATE_MACHINE_TLS13 ->
  Q tt w (upd_handshake (set_active_machine S2N_STATE_MACHINE_TLS12) c) ->
  wp (s2n_conn_choose_state_machine (actual_protocol_version c)) (w, c) Q E.
Proof.
  intros [Hv0 Hv] Hm HQ. unfold s2n_conn_choose_state_machine, S2N_UNKNOWN_PROTOCOL_VERSION, S2N_TLS13.
  rewrite (proj2 (Z.eqb_neq _ 0) Hv0), (proj2 (Z.eqb_neq _ 34)) by lia.
  apply wp_bind, wp_ret, wp_bind, wp_get_obj, wp_bind, wp_ensure; [intros _; by apply wp_modify|].
  intros Hne. by apply bool_decide_eq_false in Hne.
Qed.

(** The assembly of the type before TLS1.3. *)
Lemma set_handshake_type_tls12 (w : world) c :
  tls12_version c -> active_machine (handshake c) <> S2N_STATE_MACHINE_TLS13 ->
  wp s2n_conn_set_handshake_type (w, c) (fun _ _ c' => tls12_result c c') (fun _ _ _ => True).
Proof.
  intros Hv Hm. apply wp_bind, wp_get_obj, wp_bind, wp_choose_state_machine12; [done|done|].
  apply wp_bind, wp_get_obj. change (IS_TLS13_HANDSHAKE _) with false. cbv iota.
  apply wp_bind, wp_modify, wp_bind, wp_set_flag. set (c1 := upd_handshake _ _).
  assert (Hb1 : building12 c NEGOTIATED c1) by (split; [split; auto|done]).
  clearbody c1. apply wp_bind, wp_get_obj. cbv zeta. apply wp_bind, (wp_client_auth w c); [done|done|].
  intros c2 Hb2. apply wp_bind. eapply wp_flag_if; [exact Hv|exact Hb2|]. intros c3 Hb3.
  set (npn := npn_negotiated c1) in Hb3. apply wp_bind, wp_get_obj.
  pose proof Hb3 as (Hf3 & _).
  destruct (use_tickets (config c3) && bool_decide (session_ticket_status c3 = S2N_DECRYPT_TICKET)) eqn:Hd.
  - apply andb_true_iff in Hd as [_ Hd]. apply bool_decide_eq_true in Hd.
    assert (Hd0 : session_ticket_status c = S2N_DECRYPT_TICKET) by (destruct (sf_ticket _ _ Hf3); congruence).
    apply wp_bind. eapply wp_call_resume; [exact Hb3|]. intros c4 [[]|e] Hb4.
    + apply wp_ret. eapply (tls12_result_intro _ _ _ _ npn false false false false); [exact Hb4|done| |auto].
      by destruct (auth_expected c), npn.
    + apply wp_bind. eapply wp_validate_ems; [exact Hb4|]. intros c5 Hb5. apply wp_bind, wp_get_obj, wp_bind.
      assert (Hfin : forall ticket c6, building12 c (Z.lor (Z.lor (Z.lor NEGOTIATED
          (flag_if (auth_expected c) CLIENT_AUTH)) (flag_if npn WITH_NPN)) (flag_if ticket WITH_SESSION_TICKET)) c6 ->
        wp skip_cache_lookup (w, c6) (fun _ _ c' => tls12_result c c') (fun _ _ _ => True)).
      { intros ticket c6 Hb6. eapply (wp_skip_result _ _ _ npn ticket); [done|exact Hb6|].
        by destruct (auth_expected c), npn, ticket. }
      destruct (encrypt_key_available c5).
      * apply wp_bind, wp_modify. eapply wp_set_tls12_flag; [done| |].
        -- destruct Hb5 as (Hf5 & Ht5 & Hm5). split; [|split; [exact Ht5|exact Hm5]].
           destruct Hf5. split; simpl; try done. by right.
        -- intros c6 Hb6. by apply (Hfin true).
      * apply wp_ret, (Hfin false). simpl. by rewrite Z.lor_0_r.
  - apply wp_bind. eapply wp_flag_if; [exact Hv|exact Hb3|]. intros c4 Hb4.
    set (ticket := _ && _) in Hb4. eapply (wp_cache_result _ _ _ npn ticket); [done|exact Hb4|].
    by destruct (auth_expected c), npn, ticket.
Qed.

Lemma tls12_type_valid auth npn ticket full pfs ocsp :
  (auth = true -> full = true) ->
  let t := tls12_type auth npn ticket full pfs ocsp in
  0 <= t < 256 /\ tls12_valid t = true /\ has t NEGOTIATED = true.
Proof.
  intros Ha. destruct full.
  - by destruct auth, npn, ticket, pfs, ocsp.
  - destruct auth; [by discriminate Ha|]. by destruct npn, ticket.
Qed.


(** ** TLS1.3 *)

Lemma kept_flags t :
  0 <= t < 256 ->
  Z.land t (Z.lor (Z.lor HELLO_RETRY_REQUEST MIDDLEBOX_COMPAT) EARLY_CLIENT_CCS) =
  fold_right Z.lor 0 [flag_if (has t HELLO_RETRY_REQUEST) HELLO_RETRY_REQUEST;
    flag_if (has t MIDDLEBOX_COMPAT) MIDDLEBOX_COMPAT; flag_if (has t EARLY_CLIENT_CCS) EARLY_CLIENT_CCS].
Proof.
  intros Ht. apply Z.eqb_eq. revert t Ht.
  refine (fun t => all_types_spec (fun t => _ =? _) t _). vm_compute. reflexivity.
Qed.

Definition tls13_version (c : s2n_connection) : Prop := actual_protocol_version c = 34.

(** The middlebox-compatibility flag of the result. *)
Definition middlebox (c : s2n_connection) : bool :=
  has (handshake_type (handshake c)) MIDDLEBOX_COMPAT || negb (s2n_connection_is_quic_enabled c).

Lemma wp_set_tls13_flag (w : world) c f Q E :
  tls13_version c -> active_machine (handshake c) = S2N_STATE_MACHINE_TLS13 ->
  Q tt w (upd_handshake (or_flag f) c) -> wp (s2n_handshake_type_set_tls13_flag f) (w, c) Q E.
Proof.
  intros Hv Hm HQ. apply wp_bind, wp_get_obj. rewrite protocol_version_known by (unfold tls13_version in Hv; lia).
  rewrite Hv. apply wp_bind, wp_ensure; [intros _|done]. apply wp_bind, wp_modify.
  apply wp_bind, wp_ensure; [intros _|done]. apply wp_bind, wp_get_obj.
  change (S2N_TLS13 =? S2N_TLS13) with true. cbv iota.
  apply wp_bind, wp_ensure; [intros _|]; [|simpl; by rewrite Hm].
  apply wp_modify. destruct c as [? []]. simpl in *. by subst.
Qed.

Lemma IS_FULL_has c : IS_FULL_HANDSHAKE c = has (handshake_type (handshake c)) FULL_HANDSHAKE.
Proof. done. Qed.

(** [c] with the handshake type [t]. *)
Definition typed (c : s2n_connection) (t : Z) : s2n_connection := upd_handshake (set_handshake_type t) c.

Lemma wp_typed_flag (b : bool) (w : world) c t f Q E :
  Q tt w (typed c (Z.lor t (flag_if b f))) ->
  wp (if b then s2n_handshake_type_set_flag f else ret tt) (w, typed c t) Q E.
Proof. destruct b; simpl; [done|]. rewrite Z.lor_0_r. done. Qed.

(** The type s2n_conn_set_tls13_handshake_type computes. *)
Definition tls13_result (c : s2n_connection) : Z :=
  let t := handshake_type (handshake c) in
  tls13_type (has t HELLO_RETRY_REQUEST) (middlebox c) (has t EARLY_CLIENT_CCS) (negb (chosen_psk c))
    (bool_decide (early_data_state c = S2N_EARLY_DATA_ACCEPTED)) (auth_expected c && negb (chosen_psk c)).

Lemma wp_set_tls13_type (w : world) c Q E :
  tls13_version c -> active_machine (handshake c) = S2N_STATE_MACHINE_TLS13 ->
  0 <= handshake_type (handshake c) < 256 ->
  Q tt w (typed c (tls13_result c)) -> wp s2n_conn_set_tls13_handshake_type (w, c) Q E.
Proof.
  intros Hv Hm Ht HQ. apply wp_bind, wp_modify, wp_bind, wp_set_flag.
  set (k := Z.land (handshake_type (handshake c)) (Z.lor (Z.lor HELLO_RETRY_REQUEST MIDDLEBOX_COMPAT) EARLY_CLIENT_CCS)).
  change (upd_handshake (or_flag NEGOTIATED) _) with (typed c (Z.lor k NEGOTIATED)).
  apply wp_bind, wp_get_obj. change (chosen_psk (typed c _)) with (chosen_psk c).
  apply wp_bind, wp_typed_flag, wp_bind, wp_get_obj.
  change (early_data_state (typed c _)) with (early_data_state c).
  apply wp_bind, wp_typed_flag, wp_bind, wp_get_obj. cbv zeta.
  set (full := negb (chosen_psk c)). set (early := bool_decide (early_data_state c = _)).
  set (t1 := Z.lor _ (flag_if early WITH_EARLY_DATA)).
  assert (Hk : k = fold_right Z.lor 0 [flag_if (has (handshake_type (handshake c)) HELLO_RETRY_REQUEST) HELLO_RETRY_REQUEST;
    flag_if (has (handshake_type (handshake c)) MIDDLEBOX_COMPAT) MIDDLEBOX_COMPAT;
    flag_if (has (handshake_type (handshake c)) EARLY_CLIENT_CCS) EARLY_CLIENT_CCS]) by (by apply kept_flags).
  assert (Hfull : IS_FULL_HANDSHAKE (typed c t1) = full).
  { rewrite IS_FULL_has. simpl. unfold t1. rewrite Hk. destruct (has _ HELLO_RETRY_REQUEST),
      (has _ MIDDLEBOX_COMPAT), (has _ EARLY_CLIENT_CCS), full, early; done. }
  rewrite Hfull. change (is_client (typed c t1)) with (is_client c).
  change (s2n_connection_get_client_auth_type (typed c t1)) with (s2n_connection_get_client_auth_type c).
  assert (Hauth : forall Q', Q' tt w (typed c (Z.lor t1 (flag_if (auth_expected c && full) CLIENT_AUTH))) ->
    wp (if is_client c && bool_decide (s2n_connection_get_client_auth_type c = S2N_CERT_AUTH_REQUIRED) && full
        then s2n_handshake_type_set_flag CLIENT_AUTH
        else if negb (is_client c) && bool_decide (s2n_connection_get_client_auth_type c <> S2N_CERT_AUTH_NONE) && full
        then s2n_handshake_type_set_flag CLIENT_AUTH else ret tt) (w, typed c t1) Q' E).
  { intros Q' HQ'. unfold auth_expected in HQ'. destruct (is_client c); simpl.
    - by apply (wp_typed_flag (bool_decide (_ = S2N_CERT_AUTH_REQUIRED) && full)).
    - by apply (wp_typed_flag (bool_decide (_ <> S2N_CERT_AUTH_NONE) && full)). }
  apply wp_bind, Hauth, wp_bind, wp_get_obj. clear Hauth. set (t2 := Z.lor t1 _).
  assert (Hmb : s2n_is_middlebox_compat_enabled (typed c t2) = negb (s2n_connection_is_quic_enabled c)).
  { unfold s2n_is_middlebox_compat_enabled. rewrite protocol_version_known by (simpl; unfold tls13_version in Hv; lia).
    simpl. rewrite Hv. done. }
  rewrite Hmb.
  assert (Hend : Z.lor t2 (flag_if (negb (s2n_connection_is_quic_enabled c)) MIDDLEBOX_COMPAT) = tls13_result c).
  { unfold tls13_result, t2, t1, middlebox. fold full. fold early. rewrite Hk.
    destruct (has _ HELLO_RETRY_REQUEST), (has _ MIDDLEBOX_COMPAT), (has _ EARLY_CLIENT_CCS), full, early,
      (auth_expected c), (s2n_connection_is_quic_enabled c); done. }
  rewrite <- Hend in HQ. destruct (negb (s2n_connection_is_quic_enabled c)); simpl in HQ.
  - by apply wp_set_tls13_flag.
  - apply wp_ret. by rewrite Z.lor_0_r in HQ.
Qed.

Lemma wp_choose_state_machine13 (w : world) c Q E :
  active_machine (handshake c) <> S2N_STATE_MACHINE_TLS12 ->
  Q tt w (upd_handshake (set_active_machine S2N_STATE_MACHINE_TLS13) c) ->
  wp (s2n_conn_choose_state_machine 34) (w, c) Q E.
Proof.
  intros Hm HQ. apply wp_bind, wp_ret, wp_bind, wp_get_obj.
  change (34 =? S2N_TLS13) with true. cbv iota. apply wp_bind, wp_ensure; [intros _; by apply wp_modify|].
  intros Hne. by apply bool_decide_eq_false in Hne.
Qed.

(** With TLS1.3, s2n_conn_set_handshake_type succeeds and leaves a negotiated type that has a
    row in the TLS1.3 table, with that state machine active.  It relies on what
    the code around it maintains: early data is only accepted with a PSK and
    without a retry, and an early ChangeCipherSpec is only announced together
    with middlebox compatibility. *)
Theorem set_tls13_handshake_type_has_row (w : world) (c : s2n_connection)
    (Hversion : tls13_version c) (Hmachine : active_machine (handshake c) <> S2N_STATE_MACHINE_TLS12)
    (Hrange : 0 <= handshake_type (handshake c) < 256)
    (Hearly : early_data_state c = S2N_EARLY_DATA_ACCEPTED ->
       chosen_psk c = true /\ has (handshake_type (handshake c)) HELLO_RETRY_REQUEST = false)
    (Hccs : has (handshake_type (handshake c)) EARLY_CLIENT_CCS = true ->
       has (handshake_type (handshake c)) MIDDLEBOX_COMPAT = true) :
  exists c', s2n_conn_set_handshake_type (w, c) = (Ok tt, (w, c')) /\
    let t := handshake_type (handshake c') in
    0 <= t < 256 /\ tls13_valid t = true /\ has t NEGOTIATED = true /\
    active_machine (handshake c') = S2N_STATE_MACHINE_TLS13 /\
    has t CLIENT_AUTH = auth_expected c && negb (chosen_psk c).
Proof.
  set (c1 := upd_handshake (set_active_machine S2N_STATE_MACHINE_TLS13) c).
  exists (typed c1 (tls13_result c1)). split.
  - apply wp_eq, wp_bind, wp_get_obj, wp_bind. rewrite Hversion.
    apply wp_choose_state_machine13; [done|]. fold c1. apply wp_bind, wp_get_obj.
    change (IS_TLS13_HANDSHAKE c1) with true. cbv iota. by apply wp_set_tls13_type.
  - cbv zeta. change (handshake_type (handshake (typed c1 _))) with (tls13_result c1).
    unfold tls13_result, middlebox. change (handshake_type (handshake c1)) with (handshake_type (handshake c)).
    change (chosen_psk c1) with (chosen_psk c). change (early_data_state c1) with (early_data_state c).
    change (auth_expected c1) with (auth_expected c).
    change (s2n_connection_is_quic_enabled c1) with (s2n_connection_is_quic_enabled c).
    assert (He : bool_decide (early_data_state c = S2N_EARLY_DATA_ACCEPTED) = true ->
       chosen_psk c = true /\ has (handshake_type (handshake c)) HELLO_RETRY_REQUEST = false)
      by (intros Hb; apply bool_decide_eq_true in Hb; auto).
    change (active_machine (handshake (typed c1 _))) with S2N_STATE_MACHINE_TLS13.
    clearbody c1. revert He Hccs. clear.
    destruct (bool_decide _), (chosen_psk c), (has _ HELLO_RETRY_REQUEST), (has _ MIDDLEBOX_COMPAT),
      (has _ EARLY_CLIENT_CCS), (auth_expected c), (s2n_connection_is_quic_enabled c); intros He Hc.
    all: try (destruct (He eq_refl); discriminate); try (discriminate (Hc eq_refl)).
    all: split_goal; vm_compute; try reflexivity; try discriminate.
Qed.

(** ** The state machine is chosen once *)

(** A command after which a chosen state machine is still the same, whether it
    succeeds or fails. *)
Definition keeps_machine {A} (cmd : Cmd s2n_connection A) : Prop :=
  forall w c, active_machine (handshake c) <> S2N_STATE_MACHINE_INITIAL ->
    wp cmd (w, c) (fun _ _ c' => active_machine (handshake c') = active_machine (handshake c))
                  (fun _ _ c' => active_machine (handshake c') = active_machine (handshake c)).

Lemma keeps_machine_bind {A B} (c : Cmd s2n_connection A) (k : A -> Cmd s2n_connection B) :
  keeps_machine c -> (forall a, keeps_machine (k a)) -> keeps_machine (bind c k).
Proof.
  intros Hc Hk w x Hx. eapply wp_bind_mono; [by apply Hc| |done]. intros a w' x' He.
  rewrite <- He. apply Hk. by rewrite He.
Qed.

Lemma keeps_machine_ret {A} (a : A) : keeps_machine (ret a).
Proof. by intros w c _. Qed.

Lemma keeps_machine_fail {A} e : keeps_machine (@fail _ A e).
Proof. by intros w c _. Qed.

Lemma keeps_machine_ensure b e : keeps_machine (ensure b e).
Proof. intros w c _. by destruct b. Qed.

Lemma keeps_machine_get : keeps_machine get_obj.
Proof. by intros w c _. Qed.

Lemma keeps_machine_modify f :
  (forall c, active_machine (handshake (f c)) = active_machine (handshake c)) -> keeps_machine (modify f).
Proof. intros Hf w c _. by apply wp_modify. Qed.

Lemma keeps_machine_guard {A} (r : A + s2n_error) : keeps_machine (guard_rc r).
Proof. by destruct r; [apply keeps_machine_ret|apply keeps_machine_fail]. Qed.

Lemma keeps_machine_choose v : keeps_machine (s2n_conn_choose_state_machine v).
Proof.
  intros w c Hc. apply wp_bind, wp_ensure; intros _; [|done]. apply wp_bind, wp_get_obj.
  destruct (v =? S2N_TLS13); apply wp_bind, wp_ensure; intros Hm; try done; apply wp_modify; simpl.
  all: apply bool_decide_eq_true in Hm; by destruct (active_machine (handshake c)).
Qed.

Create HintDb keeps.
#[local] Hint Resolve keeps_machine_ret keeps_machine_fail keeps_machine_ensure keeps_machine_get
  keeps_machine_choose keeps_machine_guard : keeps.

(** Goes through a command. *)
Ltac keeps :=
  repeat first
    [ progress (auto with keeps)
    | apply keeps_machine_bind; [|intros ?]
    | apply keeps_machine_modify; intros ?; reflexivity
    | match goal with
      | |- keeps_machine (match ?b with _ => _ end) => destruct b
      end ].

Lemma keeps_machine_flag12 f : keeps_machine (s2n_handshake_type_set_tls12_flag f).
Proof. unfold s2n_handshake_type_set_tls12_flag. keeps. Qed.

Lemma keeps_machine_flag13 f : keeps_machine (s2n_handshake_type_set_tls13_flag f).
Proof. unfold s2n_handshake_type_set_tls13_flag. keeps. Qed.

Lemma keeps_machine_flag f : keeps_machine (s2n_handshake_type_set_flag f).
Proof. unfold s2n_handshake_type_set_flag. keeps. Qed.

#[local] Hint Resolve keeps_machine_flag12 keeps_machine_flag13 keeps_machine_flag : keeps.

Lemma keeps_machine_ems : keeps_machine s2n_validate_ems_status.
Proof. unfold s2n_validate_ems_status. keeps. Qed.

Lemma keeps_machine_resume f : keeps_machine (call_resume f).
Proof. unfold call_resume. keeps. Qed.

Lemma keeps_machine_skip : keeps_machine skip_cache_lookup.
Proof. unfold skip_cache_lookup, s2n_generate_new_client_session_id. keeps. Qed.

#[local] Hint Resolve keeps_machine_ems keeps_machine_resume keeps_machine_skip : keeps.

Lemma keeps_machine_set_type : keeps_machine s2n_conn_set_handshake_type.
Proof.
  unfold s2n_conn_set_handshake_type, s2n_conn_set_tls13_handshake_type, cache_lookup,
    s2n_handshake_type_reset. cbv zeta. keeps.
Qed.

(** The calls that touch the state machine or the handshake type. *)
Inductive type_op :=
| OpChoose (version : Z) | OpFlag (f : Z) | OpFlag12 (f : Z) | OpUnflag12 (f : Z) | OpFlag13 (f : Z)
| OpSetType | OpHelloRetry | OpNoClientCert | OpEarlyDataCompat.

Definition run_type_op (o : type_op) : Cmd s2n_connection unit :=
  match o with
  | OpChoose v => s2n_conn_choose_state_machine v
  | OpFlag f => s2n_handshake_type_set_flag f
  | OpFlag12 f => s2n_handshake_type_set_tls12_flag f
  | OpUnflag12 f => s2n_handshake_type_unset_tls12_flag f
  | OpFlag13 f => s2n_handshake_type_set_tls13_flag f
  | OpSetType => s2n_conn_set_handshake_type
  | OpHelloRetry => s2n_set_hello_retry_required
  | OpNoClientCert => s2n_conn_set_handshake_no_client_cert
  | OpEarlyDataCompat => s2n_setup_middlebox_compat_for_early_data
  end.

Fixpoint run_type_ops (os : list type_op) : Cmd s2n_connection unit :=
  match os with
  | [] => ret tt
  | o :: os' => attempt (run_type_op o) ;;; run_type_ops os'
  end.

Lemma keeps_machine_op o : keeps_machine (run_type_op o).
Proof.
  pose proof keeps_machine_set_type. destruct o; simpl; auto with keeps.
  - unfold s2n_handshake_type_unset_tls12_flag. keeps.
  - unfold s2n_set_hello_retry_required, s2n_connection_set_early_data_state. keeps.
  - unfold s2n_conn_set_handshake_no_client_cert. keeps.
  - unfold s2n_setup_middlebox_compat_for_early_data. keeps.
Qed.

(** C35 Once a connection has chosen its state machine, no sequence of calls, failing ones
    included, ever switches it to the other protocol's. *)
Theorem state_machine_never_switches (os : list type_op) (w : world) (c : s2n_connection)
    (Hchosen : active_machine (handshake c) <> S2N_STATE_MACHINE_INITIAL) :
  exists w' c', run_type_ops os (w, c) = (Ok tt, (w', c')) /\
    active_machine (handshake c') = active_machine (handshake c).
Proof.
  revert w c Hchosen. induction os as [|o os IH]; intros w c Hc; [by exists w, c|].
  pose proof (keeps_machine_op o w c Hc) as Ho. unfold wp in Ho. simpl. unfold bind, attempt.
  destruct (run_type_op o (w, c)) as [[a|e|] [w1 c1]]; [| |done].
  - destruct (IH w1 c1) as (w2 & c2 & -> & He); [congruence|]. exists w2, c2. split; [done|congruence].
  - destruct (IH w1 c1) as (w2 & c2 & -> & He); [congruence|]. exists w2, c2. split; [done|congruence].
Qed.

End Theorems.

(** ** Concrete connections *)

Definition demo_resume : ResumeEnv := {|
  resume_decrypt_session _ := (inr S2N_ERR_KEY_USED_IN_SESSION_TICKET_NOT_FOUND, false);
  resume_from_cache _ := (inr S2N_ERR_SESSION_ID_TOO_SHORT, false);
  encrypt_key_available _ := true;
  public_random _ := inl tt;
|}.

Definition demo_handshake : s2n_handshake :=
  Handshake zero_stuffer INITIAL 1 APPLICATION_DATA false false false S2N_STATE_MACHINE_INITIAL.

(** A connection that has received (client) or parsed (server) the hello of the
    other side, with everything optional turned off. *)
Definition demo_connection (m : s2n_mode) (version : Z) : s2n_connection :=
  Connection m demo_handshake (Config false false false S2N_CERT_AUTH_NONE false) version version version
    false S2N_CERT_AUTH_NONE false S2N_EARLY_DATA_NOT_REQUESTED false false false S2N_NO_TICKET false 0
    false false true false false false false false 0 false false false zero_stuffer zero_stuffer.


Lemma set_tls13_handshake_type_has_row_witness :
  exists c', @s2n_conn_set_handshake_type demo_resume
      (World ∅ started_statics, demo_connection S2N_CLIENT S2N_TLS13) =
      (Ok tt, (World ∅ started_statics, c')) /\ tls13_valid (handshake_type (handshake c')) = true.
Proof.
  destruct (@set_tls13_handshake_type_has_row demo_resume (World ∅ started_statics)
    (demo_connection S2N_CLIENT S2N_TLS13)) as (c' & Hrun & _ & Hv & _).
  - reflexivity.
  - discriminate.
  - split; [discriminate|reflexivity].
  - discriminate.
  - discriminate.
  - exists c'. split; [exact Hrun|exact Hv].
Defined.

Lemma state_machine_never_switches_witness :
  exists w' c', @run_type_ops demo_resume [OpChoose S2N_TLS13; OpFlag12 WITH_NPN; OpSetType]
      (World ∅ started_statics,
       upd_handshake (set_active_machine S2N_STATE_MACHINE_TLS12) (demo_connection S2N_SERVER S2N_TLS12)) =
      (Ok tt, (w', c')) /\ active_machine (handshake c') = S2N_STATE_MACHINE_TLS12.
Proof.
  exact (@state_machine_never_switches demo_resume [OpChoose S2N_TLS13; OpFlag12 WITH_NPN; OpSetType]
    (World ∅ started_statics)
    (upd_handshake (set_active_machine S2N_STATE_MACHINE_TLS12) (demo_connection S2N_SERVER S2N_TLS12))
    ltac:(discriminate)).
Defined.

(** A TLS1.2 client that requires client authentication and whose session the server resumes
    gets the type NEGOTIATED|CLIENT_AUTH, because authentication is recorded
    before the resumption is noticed (the TLS1.3 code only records it for full
    handshakes).  The table has no row for that type, so the message expected
    next, at any position, is read from a zero-filled row as CLIENT_HELLO,
    instead of the server's ChangeCipherSpec. *)
Theorem resumed_client_auth_has_no_row :
  exists c c', client_session_resumed c = true /\ auth_expected c = true /\ tls12_version c /\
    @s2n_conn_set_handshake_type demo_resume (World ∅ started_statics, c) =
      (Ok tt, (World ∅ started_statics, c')) /\
    handshake_type (handshake c') = Z.lor NEGOTIATED CLIENT_AUTH /\
    table_row handshakes (handshake_type (handshake c')) = [] /\
    (forall i, table_entry handshakes (handshake_type (handshake c')) i = CLIENT_HELLO).
Proof.
  exists (set_client_session_resumed true (set_client_cert_auth_type_overridden true
    (set_client_cert_auth_type S2N_CERT_AUTH_REQUIRED (demo_connection S2N_CLIENT S2N_TLS12)))).
  eexists. split_goal; [reflexivity|reflexivity|split; done|vm_compute; reflexivity|reflexivity|reflexivity|].
  intros i. unfold table_entry. change (table_row _ _) with (@nil message_type_t).
  by destruct (Z.to_nat i).
Qed.

End HandshakeTypes.
Export HandshakeTypes.
