(* ===== verification/HandshakeMessage.v ===== *)
(** * Handshake messages on the wire

    The header functions of tls/s2n_handshake.c and the reassembly of messages
    from records in tls/s2n_handshake_io.c.  A handshake message is its type (1
    byte), the length of its body (3 bytes, big-endian) and the body; a record
    may hold several messages or a fragment of one. *)
From S2P Require Import Prelude Errors CMem Platform Safety Blob Alloc Stuffer StufferInv StufferWrite StufferSpec StufferTheorems NetworkOrder.
Open Scope Z_scope.

Module HandshakeMessage.

Definition TLS_HANDSHAKE_HEADER_LENGTH : Z := 4.
Definition S2N_MAXIMUM_HANDSHAKE_MESSAGE_LENGTH : Z := 64 * 1024.

Section Definitions.
Context `{Platform}.

Definition s2n_handshake_write_header (message_type : Z) : Cmd s2n_stuffer unit :=
  out <-- get_obj ;;
  ensure (s2n_stuffer_data_available out =? 0) S2N_ERR_HANDSHAKE_STATE ;;;
  s2n_stuffer_write_uint8 message_type ;;;
  s2n_stuffer_write_uint24 0.

Definition s2n_handshake_finish_header : Cmd s2n_stuffer unit :=
  out <-- get_obj ;;
  let length := s2n_stuffer_data_available out in
  ensure (negb (length <? TLS_HANDSHAKE_HEADER_LENGTH)) S2N_ERR_SIZE_MISMATCH ;;;
  let payload := u32 (length - TLS_HANDSHAKE_HEADER_LENGTH) in
  s2n_stuffer_rewrite ;;;
  s2n_stuffer_skip_write 1 ;;;
  s2n_stuffer_write_uint24 payload ;;;
  s2n_stuffer_skip_write payload.

(** Returns the message type and the length of the body. *)
Definition s2n_handshake_parse_header : Cmd s2n_stuffer (Z * Z) :=
  io <-- get_obj ;;
  ensure (TLS_HANDSHAKE_HEADER_LENGTH <=? s2n_stuffer_data_available io) S2N_ERR_SIZE_MISMATCH ;;;
  message_type <-- s2n_stuffer_read_uint8 ;;
  length <-- s2n_stuffer_read_uint24 ;;
  ret (message_type, length).

(** The end of s2n_read_full_handshake_message, once the header is complete. *)
Definition take_message_body : Cmd (s2n_stuffer * s2n_stuffer) (bool * Z) :=
  header <-- zoom snd_lens s2n_handshake_parse_header ;;
  let '(message_type, handshake_message_length) := header in
  ensure (negb (S2N_MAXIMUM_HANDSHAKE_MESSAGE_LENGTH <? handshake_message_length)) S2N_ERR_BAD_MESSAGE ;;;
  st <-- get_obj ;;
  let bytes_to_take := u32 (handshake_message_length - s2n_stuffer_data_available (snd st)) in
  let bytes_to_take := Z.min bytes_to_take (s2n_stuffer_data_available (fst st)) in
  s2n_stuffer_copy bytes_to_take ;;;
  st <-- get_obj ;;
  if s2n_stuffer_data_available (snd st) =? handshake_message_length then ret (false, message_type)
  else
    zoom snd_lens s2n_stuffer_reread ;;;
    ret (true, message_type).

(** State: [(conn->in, conn->handshake.io)].  The result says whether more data
    is needed (the C function returns 1), and the message type. *)
Definition s2n_read_full_handshake_message : Cmd (s2n_stuffer * s2n_stuffer) (bool * Z) :=
  st <-- get_obj ;;
  let current_handshake_data := s2n_stuffer_data_available (snd st) in
  let available := s2n_stuffer_data_available (fst st) in
  if current_handshake_data <? TLS_HANDSHAKE_HEADER_LENGTH then
    if available <? TLS_HANDSHAKE_HEADER_LENGTH - current_handshake_data then
      s2n_stuffer_copy available ;;;
      ret (true, 0)
    else
      s2n_stuffer_copy (TLS_HANDSHAKE_HEADER_LENGTH - current_handshake_data) ;;;
      take_message_body
  else take_message_body.

End Definitions.

Section Headers.
Context `{HP : Platform} `{!BlobAllocator}.

(** Moving the write cursor over bytes that are already there. *)
Lemma wp_skip_over (w : world) s n Q E :
  world_ok w -> stuffer_ok (hp w) s -> 0 <= n -> write_cursor s + n <= high_water_mark s ->
  Q tt w (set_write_cursor (write_cursor s + n) s) ->
  wp (s2n_stuffer_skip_write n) (w, s) Q E.
Proof.
  intros Hw Hs Hn Hle HQ. pose proof (ok_read _ _ Hs). pose proof (ok_write _ _ Hs). pose proof (ok_size32 Hs).
  apply wp_skip_write; [done|done|unfold is_u32; lia| |].
  - intros w' s' [Hst [b' Hsh] Hby Hfit]. destruct Hfit as [-> Hb]; [lia|].
    replace s' with (set_write_cursor (write_cursor s + n) s); [done|].
    rewrite Hsh in Hb |- *. simpl in Hb. subst b'. unfold extended_by, set_write_cursor. f_equal. lia.
  - intros e w' s' [Hfull _]. lia.
Qed.

(** Overwriting bytes that are already there with a 24-bit integer. *)
Lemma wp_write_uint24_over (w : world) s u Q E :
  world_ok w -> stuffer_ok (hp w) s -> 0 <= u < 2 ^ 24 -> write_cursor s + 3 <= high_water_mark s ->
  (forall p, data (blob s) = Some p ->
     let h := heap_with (hp w) (Ptr (blk p) (off p + write_cursor s)) (be_bytes 3 u) in
     heap_ok h -> stuffer_ok h (set_write_cursor (write_cursor s + 3) s) ->
     Q tt (World h (mem w)) (set_write_cursor (write_cursor s + 3) s)) ->
  wp (s2n_stuffer_write_uint24 u) (w, s) Q E.
Proof.
  intros Hw Hs Hu Hle HQ. pose proof (ok_read _ _ Hs). pose proof (ok_write _ _ Hs).
  apply wp_bind, wp_ensure; intros Hlt; zbool; [|change (Z.shiftl 1 24) with (2 ^ 24) in Hlt; lia].
  apply wp_write_network_order; [done|done|unfold SIZEOF_UINT24; lia| |].
  - intros w1 s1 p Hext Hp bs w' Happ. destruct (ext_fits _ _ _ _ _ Hext) as [-> Hb]; [unfold SIZEOF_UINT24; lia|].
    destruct (ext_shape _ _ _ _ _ Hext) as [b' Hsh].
    assert (Hs1 : s1 = set_write_cursor (write_cursor s + 3) s).
    { rewrite Hsh in Hb |- *. simpl in Hb. subst b'. unfold extended_by, set_write_cursor, SIZEOF_UINT24. f_equal. lia. }
    clear Hsh Hext. subst s1. apply HQ; [done|apply (step_heap _ _ _ _ (app_step _ _ _ _ _ Happ))|apply Happ].
  - intros e w' s' [Hfull _]. unfold SIZEOF_UINT24 in Hfull. lia.
Qed.

(** Finishing a handshake message fills in the length: a stuffer that holds a type byte, three
    placeholder bytes and a body of less than 2^24 bytes, none of it read yet,
    afterwards holds the same type and body with the length of the body in
    between, and its cursors are as before; it cannot fail. *)
Theorem finish_header_correct (w : world) (s : s2n_stuffer) (message_type : Z) (hole body : list Z)
    (Hworld : world_ok w) (Hstuffer : stuffer_ok (hp w) s) (Hread : read_cursor s = 0)
    (Hwritten : written (hp w) s = [message_type] ++ hole ++ body) (Hhole : zlen hole = 3)
    (Hbody : zlen body < 2 ^ 24) :
  exists w', s2n_handshake_finish_header (w, s) = (Ok tt, (w', s)) /\ step_ok w s w' s /\
    unread (hp w') s = [message_type] ++ be_bytes 3 (zlen body) ++ body.
Proof.
  pose proof (ok_write _ _ Hstuffer). pose proof (ok_size32 Hstuffer). pose proof (zlen_nonneg body).
  pose proof (written_len Hstuffer) as Hlen. rewrite Hwritten, !zlen_app, Hhole in Hlen.
  change (zlen [message_type]) with 1 in Hlen.
  destruct (data_some Hstuffer 1) as [p Hp]; [lia..|].
  set (q := Ptr (blk p) (off p + 1)). set (bs := be_bytes 3 (zlen body)).
  assert (Hlb : zlen bs = 3) by (unfold bs; by rewrite zlen_be_bytes).
  assert (Hv : valid_access (hp w) q (zlen bs)) by (rewrite Hlb; apply (stuffer_access Hstuffer); [done|lia..]).
  exists (World (heap_with (hp w) q bs) (mem w)). split; [|split].
  - apply wp_eq, wp_bind, wp_get_obj. cbv zeta. rewrite (data_available_eq Hstuffer), Hread, Z.sub_0_r.
    unfold TLS_HANDSHAKE_HEADER_LENGTH. apply wp_bind, wp_ensure; intros Hge; zbool; [|lia].
    rewrite u32_small by lia. replace (write_cursor s - 4) with (zlen body) by lia.
    apply wp_bind, wp_rewrite; [done|]. intros s0 Es0 Hs0.
    apply wp_bind, wp_skip_over; [done|done|lia|rewrite Es0; simpl; lia|].
    set (s1 := set_write_cursor (write_cursor s0 + 1) s0).
    assert (Hs1 : stuffer_ok (hp w) s1).
    { apply (stuffer_ok_cursors (hp w) s0 (read_cursor s0) (write_cursor s0 + 1) (high_water_mark s0)); [done|..];
        rewrite Es0; simpl; lia. }
    assert (Hw1 : write_cursor s1 = 1) by (unfold s1; rewrite Es0; done).
    assert (Hb1 : blob s1 = blob s) by (unfold s1; by rewrite Es0).
    assert (Hh1 : high_water_mark s1 = high_water_mark s) by (unfold s1; by rewrite Es0).
    apply wp_bind, wp_write_uint24_over; [done|done|lia|lia|].
    rewrite Hb1, Hw1. intros p' Hp'. rewrite Hp in Hp'. injection Hp' as <-. cbv zeta. intros Hh Hs2.
    apply wp_skip_over; [split; [exact Hh|apply Hworld]|exact Hs2|lia|change (1 + 3 + zlen body <= high_water_mark s1); lia|].
    f_equal. f_equal. unfold set_write_cursor, s1. rewrite Es0. destruct s; simpl in *. subst. f_equal. lia.
  - apply (step_ok_write w s s p); try done; [apply Hworld|apply be_bytes_is_bytes].
  - unfold unread. rewrite Hread. simpl hp. unfold q.
    rewrite (written_overwrite w s p 1 bs) by (done || lia). rewrite Hwritten. unfold zsplice.
    change (Z.to_nat 1) with 1%nat. simpl. f_equal. f_equal.
    rewrite drop_app_length'; [done|]. unfold zlen in *. lia.
Qed.

(** ** Parsing *)

(** The body length announced by a message that has its header. *)
Definition message_length (q : list Z) : Z := be_value 0 (zslice q 1 3).

Lemma wp_parse_header (w : world) s Q E :
  heap_ok (hp w) -> stuffer_ok (hp w) s -> 4 <= zlen (unread (hp w) s) ->
  Q (znth (unread (hp w) s) 0, message_length (unread (hp w) s)) w (advanced 4 s) ->
  wp s2n_handshake_parse_header (w, s) Q E.
Proof.
  intros Hh Hs Hlen HQ. pose proof (unread_len Hs) as Hl. pose proof (ok_read _ _ Hs).
  apply wp_bind, wp_get_obj. rewrite (data_available_eq Hs). unfold TLS_HANDSHAKE_HEADER_LENGTH.
  apply wp_bind, wp_ensure; intros Hle; zbool; [|lia].
  apply wp_bind, (wp_read_uint w s W8); [done|done| |simpl; lia]. intros _. simpl width_bytes.
  assert (Hs1 : stuffer_ok (hp w) (advanced 1 s)) by (apply advanced_ok; [done|lia]).
  apply wp_bind, (wp_read_uint w (advanced 1 s) W24); [done|done| |simpl; lia]. intros _. simpl width_bytes.
  rewrite unread_advanced by (done || lia).
  apply wp_ret. set (q := unread (hp w) s) in *.
  replace (advanced 3 (advanced 1 s)) with (advanced 4 s)
    by (unfold advanced, set_read_cursor; simpl; f_equal; lia).
  destruct q as [|b0 q]; [unfold zlen in Hlen; simpl in Hlen; lia|]. exact HQ.
Qed.

Lemma message_length_app q r : 4 <= zlen q -> message_length (q ++ r) = message_length q.
Proof.
  intros Hq. unfold message_length, zslice. f_equal. unfold zlen in Hq.
  rewrite drop_app_le by lia. apply take_app_le. rewrite length_drop. lia.
Qed.

Lemma message_length_nonneg q : is_bytes q -> 0 <= message_length q < 2 ^ 32.
Proof.
  intros Hq. assert (Hb : is_bytes (zslice q 1 3)) by (by apply Forall_zslice).
  pose proof (be_value_range _ 0 0 Hb ltac:(lia) ltac:(lia)) as Hr. unfold message_length.
  assert (Hl : zlen (zslice q 1 3) <= 3) by (unfold zslice, zlen; rewrite length_take; lia).
  assert (Hp : 2 ^ (0 + 8 * zlen (zslice q 1 3)) <= 2 ^ 24) by (apply Z.pow_le_mono_r; lia). lia.
Qed.

(** ** Reassembly *)

(** [q] is at most one message. *)
Definition at_most_one (q : list Z) : Prop := zlen q < 4 \/ zlen q <= 4 + message_length q.

(** What s2n_read_full_handshake_message is to do with the bytes [q] that are
    buffered or in the current record: keep an incomplete message for later, or
    hand out the first message and leave the rest. *)
Definition reassembled (q : list Z) (r : bool * Z) (rest buffered : list Z) (rc : Z) : Prop :=
  if fst r then (zlen q < 4 \/ zlen q < 4 + message_length q) /\ buffered = q /\ rest = [] /\ rc = 0
  else 4 + message_length q <= zlen q /\ snd r = znth q 0 /\
       buffered = zslice q 4 (message_length q) /\ rest = drop (Z.to_nat (4 + message_length q)) q.

(** The body of a message whose header is in the buffer. *)
Lemma wp_take_message_body (w : world) inp io q Q E :
  copy_state w inp io -> read_cursor io = 0 -> q = unread (hp w) io ++ unread (hp w) inp ->
  4 <= zlen (unread (hp w) io) -> zlen (unread (hp w) io) <= 4 + message_length q ->
  (forall r w' inp' io', reassembled q r (unread (hp w') inp') (unread (hp w') io') (read_cursor io') ->
     copy_state w' inp' io' -> Q r w' (inp', io')) ->
  (forall e w' inp' io', 65536 < message_length q \/
     size (blob io) - write_cursor io < zlen (unread (hp w) inp) -> copy_state w' inp' io' -> E e w' (inp', io')) ->
  wp take_message_body (w, (inp, io)) Q E.
Proof.
  intros Hcs Hrc Hq Hlen Hle HQ HE. pose proof Hcs as [Hw Hin Hio Hsep Hcb].
  pose proof (unread_len Hio) as Hlio. pose proof (unread_len Hin) as Hlin.
  pose proof (ok_read _ _ Hio). pose proof (ok_read _ _ Hin). pose proof (ok_write _ _ Hin).
  pose proof (ok_size32 Hin). pose proof (ok_write _ _ Hio). pose proof (ok_size32 Hio).
  set (b := unread (hp w) io) in *. set (a := unread (hp w) inp) in *.
  assert (Hml : message_length b = message_length q) by (rewrite Hq; by rewrite message_length_app).
  assert (Hqb : is_bytes q) by (rewrite Hq; apply Forall_app; split; apply unread_is_bytes, Hw).
  pose proof (message_length_nonneg q Hqb) as Hmr.
  apply wp_bind, wp_zoom, wp_parse_header; [apply Hw|done|done|]. simpl. fold b. rewrite Hml.
  unfold S2N_MAXIMUM_HANDSHAKE_MESSAGE_LENGTH.
  assert (Hio4 : stuffer_ok (hp w) (advanced 4 io)) by (apply advanced_ok; [done|lia]).
  assert (Hcs4 : copy_state w inp (advanced 4 io)) by (by split).
  apply wp_bind, wp_ensure; intros Hmax; zbool; [|apply HE; [left; lia|done]].
  apply wp_bind, wp_get_obj. cbn [fst snd]. rewrite (data_available_eq Hio4), (data_available_eq Hin).
  simpl write_cursor. simpl read_cursor. rewrite Hrc, Z.add_0_l.
  rewrite u32_small by lia. set (n := Z.min _ _).
  apply wp_bind, wp_copy; [done|unfold is_u32; lia| |].
  2: { intros e w' Hor _ _ Hcs'. apply HE; [|done]. right. simpl in Hor.
       fold a in Hor. destruct Hor; lia. }
  intros w' inp' io' _ [Hf Hu Ha] Hcs'. pose proof Hcs' as [Hw' Hin' Hio' Hsep' Hcb'].
  pose proof (unread_appended _ _ _ _ _ Hio4 Ha) as Hub. fold a in Hu, Hub.
  rewrite unread_advanced in Hub by (done || lia). fold b in Hub.
  destruct (app_shape _ _ _ _ _ Ha) as [bl Hsh].
  assert (Hwc : write_cursor io' = write_cursor io + n).
  { rewrite Hsh. simpl. fold a. unfold zlen. rewrite length_take. unfold zlen in Hlin. lia. }
  assert (Hrc' : read_cursor io' = 4) by (rewrite Hsh; simpl; lia).
  assert (Hqn : take (Z.to_nat (zlen b + n)) q = b ++ take (Z.to_nat n) a).
  { rewrite Hq. replace (Z.to_nat (zlen b + n)) with (length b + Z.to_nat n)%nat by (unfold zlen; lia).
    by rewrite take_app_add. }
  assert (Hqd : drop (Z.to_nat (zlen b + n)) q = drop (Z.to_nat n) a).
  { rewrite Hq. replace (Z.to_nat (zlen b + n)) with (length b + Z.to_nat n)%nat by (unfold zlen; lia).
    by rewrite drop_app_add. }
  assert (Hlq : zlen q = zlen b + zlen a) by (rewrite Hq; apply zlen_app).
  apply wp_bind, wp_get_obj. cbn [snd]. rewrite (data_available_eq Hio'), Hwc, Hrc'.
  destruct (Z.eqb_spec (write_cursor io + n - 4) (message_length q)) as [Hdone|Hmore].
  - apply wp_ret, HQ; [|done]. unfold reassembled. cbn [fst snd].
    split_goal; [lia| | |].
    + rewrite Hq. unfold znth. rewrite app_nth1; [done|]. unfold zlen in Hlen. lia.
    + rewrite Hub, <- drop_app_le by (unfold zlen in Hlen; lia). rewrite <- Hqn, skipn_firstn_comm.
      unfold zslice. f_equal. lia.
    + rewrite Hu, <- Hqd. f_equal. lia.
  - assert (Hn : n = zlen a) by lia. apply wp_bind, wp_zoom, wp_reread; [done|]. apply wp_ret, HQ.
    + unfold reassembled. cbn [fst snd lset snd_lens]. split_goal; [lia| | |done].
      * unfold unread. simpl. change (drop (Z.to_nat 0) ?l) with l.
        change (written (hp w') (set_read_cursor 0 io')) with (written (hp w') io').
        rewrite (app_bytes _ _ _ _ _ Ha). change (written (hp w) (advanced 4 io)) with (written (hp w) io).
        fold a. rewrite Hn, Hq, take_ge by (unfold zlen; lia). f_equal. unfold b, unread. by rewrite Hrc.
      * rewrite Hu, Hn. apply drop_ge. unfold zlen. lia.
    + split; try done. apply set_read_ok; [done|]. simpl. lia.
Qed.

Lemma wp_read_full_message (w : world) inp io q Q E :
  copy_state w inp io -> read_cursor io = 0 -> q = unread (hp w) io ++ unread (hp w) inp ->
  at_most_one (unread (hp w) io) ->
  (forall r w' inp' io', reassembled q r (unread (hp w') inp') (unread (hp w') io') (read_cursor io') ->
     copy_state w' inp' io' -> Q r w' (inp', io')) ->
  (forall e w' inp' io', (4 <= zlen q /\ 65536 < message_length q) \/
     size (blob io) - write_cursor io < zlen (unread (hp w) inp) -> copy_state w' inp' io' -> E e w' (inp', io')) ->
  wp s2n_read_full_handshake_message (w, (inp, io)) Q E.
Proof.
  intros Hcs Hrc Hq Hone HQ HE. pose proof Hcs as [Hw Hin Hio Hsep Hcb].
  pose proof (unread_len Hio) as Hlio. pose proof (unread_len Hin) as Hlin.
  pose proof (ok_read _ _ Hio). pose proof (ok_read _ _ Hin). pose proof (ok_write _ _ Hin).
  pose proof (ok_size32 Hin). pose proof (ok_write _ _ Hio). pose proof (ok_size32 Hio).
  set (b := unread (hp w) io) in *. set (a := unread (hp w) inp) in *.
  assert (Hlq : zlen q = zlen b + zlen a) by (rewrite Hq; apply zlen_app).
  apply wp_bind, wp_get_obj. cbn [fst snd]. cbv zeta.
  rewrite (data_available_eq Hio), (data_available_eq Hin), <- Hlio, <- Hlin.
  unfold TLS_HANDSHAKE_HEADER_LENGTH. destruct (Z.ltb_spec (zlen b) 4) as [Hshort|Hfull].
  - destruct (Z.ltb_spec (zlen a) (4 - zlen b)) as [Hfew|Hmany].
    + apply wp_bind, wp_copy; [done|unfold is_u32; lia| |].
      2: { intros e w' Hor _ _ Hcs'. apply HE; [|done]. right. fold a in Hor. destruct Hor; lia. }
      intros w' inp' io' _ [Hf Hu Ha] Hcs'. apply wp_ret, HQ; [|done].
      pose proof (unread_appended _ _ _ _ _ Hio Ha) as Hub. fold a in Hu, Hub. fold b in Hub.
      unfold reassembled. cbn [fst snd]. split_goal; [lia| | |].
      * rewrite Hub, Hq, take_ge by (unfold zlen; lia). done.
      * rewrite Hu. apply drop_ge. unfold zlen. lia.
      * destruct (app_shape _ _ _ _ _ Ha) as [bl ->]. done.
    + apply wp_bind, wp_copy; [done|unfold is_u32; lia| |].
      2: { intros e w' Hor _ _ Hcs'. apply HE; [|done]. right. fold a in Hor. destruct Hor; lia. }
      intros w' inp' io' _ [Hf Hu Ha] Hcs'.
      pose proof (unread_appended _ _ _ _ _ Hio Ha) as Hub. fold a in Hu, Hub. fold b in Hub.
      destruct (app_shape _ _ _ _ _ Ha) as [bl Hsh].
      assert (Hlt : zlen (take (Z.to_nat (4 - zlen b)) a) = 4 - zlen b) by (unfold zlen in *; rewrite length_take; lia).
      apply (wp_take_message_body w' inp' io' q); [done|by rewrite Hsh| | | |done|].
      * rewrite Hub, Hu, <- app_assoc, take_drop. done.
      * rewrite Hub, zlen_app, Hlt. lia.
      * rewrite Hub, zlen_app, Hlt. pose proof (message_length_nonneg q) as Hm.
        assert (Hqb : is_bytes q) by (rewrite Hq; apply Forall_app; split; apply unread_is_bytes, Hw). specialize (Hm Hqb). lia.
      * intros e w2 inp2 io2 Hor Hcs2. apply HE; [|done]. destruct Hor as [Hor|Hor]; [left; lia|right].
        destruct (Z.lt_ge_cases (size (blob io) - write_cursor io) (zlen a)) as [|Hfit]; [done|].
        rewrite (app_fits _ _ _ _ _ Ha) in Hor by (fold a; lia). rewrite Hu in Hor.
        rewrite Hsh in Hor. simpl in Hor. fold a in Hor. rewrite Hlt in Hor.
        unfold zlen in Hor at 2. rewrite length_drop in Hor. unfold zlen in *. lia.
  - apply (wp_take_message_body w inp io q); [done|done|done|done| |done|].
    + destruct Hone as [|Hone]; [lia|]. rewrite Hq, message_length_app by lia. exact Hone.
    + intros e w2 inp2 io2 Hor Hcs2. apply HE; [|done]. destruct Hor; [left; lia|by right].
Qed.

(** C30 Reassembly of handshake messages from records: with the bytes already buffered followed
    by those of the current record, the function either keeps all of them for
    later, exactly when they do not make up a whole message, or delivers the
    type and the body of the first message and leaves everything after it in the
    record, however the message was fragmented.  It fails only if the announced
    length is over 64 KiB or the buffer cannot take the bytes of the record. *)
Theorem read_full_message_correct (w : world) (inp io : s2n_stuffer)
    (Hstate : copy_state w inp io) (Hread : read_cursor io = 0) (Hone : at_most_one (unread (hp w) io)) :
  let q := unread (hp w) io ++ unread (hp w) inp in
  match s2n_read_full_handshake_message (w, (inp, io)) with
  | (Ok (true, _), (w', (inp', io'))) =>
      (zlen q < 4 \/ zlen q < 4 + message_length q) /\
      unread (hp w') io' = q /\ unread (hp w') inp' = [] /\ read_cursor io' = 0
  | (Ok (false, message_type), (w', (inp', io'))) =>
      4 + message_length q <= zlen q /\ message_type = znth q 0 /\
      unread (hp w') io' = zslice q 4 (message_length q) /\
      unread (hp w') inp' = drop (Z.to_nat (4 + message_length q)) q
  | (Err _, _) =>
      (4 <= zlen q /\ 65536 < message_length q) \/
      size (blob io) - write_cursor io < zlen (unread (hp w) inp)
  | (UB, _) => False
  end.
Proof.
  intros q.
  assert (Hrun : wp s2n_read_full_handshake_message (w, (inp, io))
    (fun r w' st => reassembled q r (unread (hp w') (fst st)) (unread (hp w') (snd st)) (read_cursor (snd st)))
    (fun _ _ _ => (4 <= zlen q /\ 65536 < message_length q) \/
      size (blob io) - write_cursor io < zlen (unread (hp w) inp))).
  { eapply wp_read_full_message; [done|done|reflexivity|done| |]; by intros. }
  unfold wp in Hrun.
  destruct (s2n_read_full_handshake_message (w, (inp, io))) as [[[[] ty]|e|] [w' [inp' io']]]; exact Hrun.
Qed.

End Headers.

Definition message_world : world :=
  World {[1%positive := [1; 0; 0; 2; 7; 8; 20; 0]; 2%positive := repeat 0 16]} started_statics.
Definition record_in : s2n_stuffer := Stuffer (Blob (Some (Ptr 1 0)) 8 0 false) 0 8 8 false false false.
Definition buffer_io : s2n_stuffer := Stuffer (Blob (Some (Ptr 2 0)) 16 0 false) 0 0 0 false false false.

Lemma message_world_ok : world_ok message_world.
Proof.
  split; [unfold message_world; simpl; solve_heap_ok|]. split; [done|]. simpl. unfold is_u32. lia.
Qed.

Lemma record_in_ok : stuffer_ok (hp message_world) record_in.
Proof.
  split; simpl; try done; try lia.
  split; simpl; unfold is_u32; try done; try lia. intros p [= <-]. solve_valid_access.
Qed.

Lemma buffer_io_ok : stuffer_ok (hp message_world) buffer_io.
Proof.
  split; simpl; try done; try lia.
  split; simpl; unfold is_u32; try done; try lia. intros p [= <-]. solve_valid_access.
Qed.

Lemma finish_header_correct_witness :
  exists w', @s2n_handshake_finish_header demo_platform (message_world, record_in) = (Ok tt, (w', record_in)) /\
    unread (hp w') record_in = [1; 0; 0; 4; 7; 8; 20; 0].
Proof.
  destruct (@finish_header_correct demo_platform _ message_world record_in 1 [0; 0; 2] [7; 8; 20; 0])
    as (w' & Hrun & _ & Hun).
  - exact message_world_ok.
  - exact record_in_ok.
  - reflexivity.
  - vm_compute. reflexivity.
  - reflexivity.
  - unfold zlen. simpl. lia.
  - exists w'. split; [exact Hrun|exact Hun].
Defined.

Lemma read_full_message_correct_witness :
  match @s2n_read_full_handshake_message demo_platform (message_world, (record_in, buffer_io)) with
  | (Ok (false, message_type), (w', (inp', io'))) =>
      message_type = 1 /\ unread (hp w') io' = [7; 8] /\ unread (hp w') inp' = [20; 0]
  | _ => False
  end.
Proof.
  assert (Hcs : copy_state message_world record_in buffer_io).
  { split; [exact message_world_ok|exact record_in_ok|exact buffer_io_ok| |discriminate].
    intros k (p & [= <-] & <-) (q & [= <-] & ?). done. }
  pose proof (@read_full_message_correct demo_platform _ message_world record_in buffer_io Hcs eq_refl
    ltac:(left; vm_compute; reflexivity)) as Hc. cbv zeta in Hc.
  change (unread (hp message_world) buffer_io ++ unread (hp message_world) record_in)
    with [1; 0; 0; 2; 7; 8; 20; 0] in Hc.
  destruct (s2n_read_full_handshake_message _) as [[[[] ty]|e|] [w' [inp' io']]]; [| | |done].
  - exfalso. destruct Hc as [[Hlt|Hlt] _]; vm_compute in Hlt; discriminate Hlt.
  - destruct Hc as (_ & -> & -> & ->). split; [reflexivity|split; reflexivity].
  - exfalso. destruct Hc as [[_ Hlt]|Hlt]; vm_compute in Hlt; discriminate Hlt.
Defined.

End HandshakeMessage.
Export HandshakeMessage.
