(* ===== verification/HandshakeIO.v ===== *)
(** * tls/s2n_handshake_io.c: driving the handshake

    The active message and state, the advance of the state machine, reading and
    writing handshake messages, and the negotiation loop.  The message handlers,
    the record layer, the key schedule, the transcript and the socket are other
    components: they are the operations of a [HandshakeEnv]. *)
From S2P Require Import Prelude Errors CMem Platform Safety Blob Alloc Stuffer NetworkOrder.
From S2P Require Import HandshakeTables HandshakeMessage Connection.
Open Scope Z_scope.

Module HandshakeIO.

(** ** The macros *)

Definition ACTIVE_STATE_MACHINE (c : s2n_connection) : message_type_t -> s2n_handshake_action :=
  if IS_TLS13_HANDSHAKE c then tls13_state_machine else state_machine.

Definition ACTIVE_HANDSHAKES (c : s2n_connection) : handshake_table :=
  if IS_TLS13_HANDSHAKE c then tls13_handshakes else handshakes.

(** The position is inside the arrays. *)
Definition position_in_table (c : s2n_connection) : bool :=
  (0 <=? handshake_type (handshake c)) && (handshake_type (handshake c) <? S2N_HANDSHAKES_COUNT) &&
  (0 <=? message_number (handshake c)) && (message_number (handshake c) <? S2N_MAX_HANDSHAKE_LENGTH).

Definition ACTIVE_MESSAGE (c : s2n_connection) : message_type_t :=
  table_entry (ACTIVE_HANDSHAKES c) (handshake_type (handshake c)) (message_number (handshake c)).

Definition ACTIVE_STATE (c : s2n_connection) : s2n_handshake_action := ACTIVE_STATE_MACHINE c (ACTIVE_MESSAGE c).

Definition CONNECTION_WRITER (c : s2n_connection) : writer_t := if is_client c then WriterC else WriterS.

(** Reading them in the code: an index out of bounds is undefined. *)
Definition active_message : Cmd s2n_connection message_type_t :=
  c <-- get_obj ;; if position_in_table c then ret (ACTIVE_MESSAGE c) else undefined.

Definition active_state : Cmd s2n_connection s2n_handshake_action :=
  m <-- active_message ;; c <-- get_obj ;; ret (ACTIVE_STATE_MACHINE c m).

Definition CCS_STATE (c : s2n_connection) : s2n_handshake_action :=
  if is_client c then ACTIVE_STATE_MACHINE c SERVER_CHANGE_CIPHER_SPEC
  else ACTIVE_STATE_MACHINE c CLIENT_CHANGE_CIPHER_SPEC.

Definition EXPECTED_RECORD_TYPE : Cmd s2n_connection Z := a <-- active_state ;; ret (record_type a).
Definition EXPECTED_MESSAGE_TYPE : Cmd s2n_connection Z := a <-- active_state ;; ret (message_type a).
Definition CONNECTION_IS_WRITER : Cmd s2n_connection bool :=
  a <-- active_state ;; c <-- get_obj ;; ret (writer_eqb (writer a) (CONNECTION_WRITER c)).

(** ** The other components *)

(** s2n_blocked_status (api/s2n.h) *)
Inductive s2n_blocked_status :=
| S2N_NOT_BLOCKED | S2N_BLOCKED_ON_READ | S2N_BLOCKED_ON_WRITE | S2N_BLOCKED_ON_APPLICATION_INPUT
| S2N_BLOCKED_ON_EARLY_DATA.

(** The state of a function that is also passed [s2n_blocked_status *blocked]. *)
Abbreviation blocked_conn := (s2n_connection * s2n_blocked_status)%type.

Class HandshakeEnv := {
  (** A message handler of another file. *)
  run_handler : handler -> Cmd s2n_connection unit;
  (** s2n_read_full_record: the record type and whether it is SSLv2. *)
  read_full_record : Cmd s2n_connection (Z * bool);
  record_wipe : Cmd s2n_connection unit;
  flush : Cmd blocked_conn unit;
  (** s2n_record_writev with one iovec: the content type, the base, the offset
      and the number of bytes to write; returns the number of bytes written. *)
  record_writev : Z -> option ptr -> Z -> Z -> Cmd s2n_connection Z;
  quic_write_handshake_message : Cmd s2n_connection unit;
  quic_read_handshake_message : Cmd s2n_connection Z;
  handshake_transcript_update : Cmd s2n_connection unit;
  update_sslv2_hashes : Cmd s2n_connection unit;
  tls13_secrets_update : Cmd s2n_connection unit;
  tls13_key_schedule_update : Cmd s2n_connection unit;
  tls13_secrets_clean : Cmd s2n_connection unit;
  post_handshake_send : Cmd blocked_conn unit;
  process_alert_fragment : Cmd s2n_connection unit;
  early_data_record_bytes : Z -> Cmd s2n_connection unit;
  early_data_validate_recv : Cmd s2n_connection unit;
  renegotiate_validate : Cmd s2n_connection unit;
  client_hello_request_validate : Cmd s2n_connection unit;
  (** The rest of s2n_connection_kill: choosing the delay, and waiting. *)
  connection_blinding_delay : Cmd s2n_connection unit;
  cache_delete : Cmd s2n_connection unit;
  dynamic_free_in_buffer : Cmd s2n_connection unit;
  dynamic_free_out_buffer : Cmd s2n_connection unit;
  socket_quickack : Cmd s2n_connection unit;
  socket_was_corked : s2n_connection -> bool;
  connection_is_managed_corked : s2n_connection -> bool;
  socket_write_cork : Cmd s2n_connection unit;
  socket_write_uncork : Cmd s2n_connection unit;
}.

Section Definitions.
Context `{Platform} `{HandshakeEnv}.

(** A call through a handler pointer; calling NULL is undefined. *)
Definition call_handler (h : option handler) : Cmd s2n_connection unit :=
  match h with
  | Some s2n_always_fail_send => fail S2N_ERR_HANDSHAKE_UNREACHABLE
  | Some s2n_always_fail_recv => fail S2N_ERR_HANDSHAKE_UNREACHABLE
  | Some h => run_handler h
  | None => undefined
  end.

(** [action.handler[conn->mode](conn)] *)
Definition call_action (a : s2n_handshake_action) : Cmd s2n_connection unit :=
  c <-- get_obj ;; call_handler (if is_client c then client_handler a else server_handler a).

Definition s2n_connection_kill : Cmd s2n_connection unit :=
  s2n_connection_set_closed ;;;
  connection_blinding_delay.

(** The errors that close a connection without delay. *)
Definition error_not_blinded (e : s2n_error) : bool :=
  existsb (error_eqb e) [S2N_ERR_CLOSED; S2N_ERR_CANCELLED; S2N_ERR_CIPHER_NOT_SUPPORTED;
    S2N_ERR_PROTOCOL_VERSION_UNSUPPORTED; S2N_ERR_CONFIG_NULL_BEFORE_CH_CALLBACK].

(** [e] is s2n_errno. *)
Definition s2n_connection_apply_error_blinding (e : s2n_error) : Cmd s2n_connection unit :=
  zoom in_lens s2n_stuffer_wipe ;;;
  let error_type := s2n_error_get_type (error_code e) in
  if error_type =? error_type_value S2N_ERR_T_OK then ret tt
  else if error_type =? error_type_value S2N_ERR_T_BLOCKED then ret tt
  else if error_not_blinded e then s2n_connection_set_closed
  else s2n_connection_kill.

(** WITH_ERROR_BLINDING(conn, GUARD(...)); s2n_errno is the last error. *)
Definition with_error_blinding (cmd : Cmd s2n_connection unit) : Cmd s2n_connection unit :=
  r <-- attempt cmd ;;
  match r with
  | inl _ => ret tt
  | inr e => s2n_connection_apply_error_blinding e ;;; fail e
  end.

Definition increment_message_number : Cmd s2n_connection unit :=
  modify (upd_handshake (fun h => set_message_number (message_number h + 1) h)).

Definition s2n_advance_message : Cmd s2n_connection unit :=
  a <-- active_state ;;
  let previous_writer := writer a in
  c <-- get_obj ;;
  let this_mode := CONNECTION_WRITER c in
  increment_message_number ;;;
  a <-- active_state ;;
  (if negb (writer_eqb (writer a) this_mode) && (record_type a =? TLS_CHANGE_CIPHER_SPEC) && IS_TLS13_HANDSHAKE c
   then increment_message_number else ret tt) ;;;
  socket_quickack ;;;
  c <-- get_obj ;;
  if negb (corked_io c) || socket_was_corked c then ret tt
  else
    a <-- active_state ;;
    (* the code also tests for a writer 'A', which no state has *)
    if writer_eqb (writer a) previous_writer then ret tt
    else if writer_eqb (writer a) this_mode then
      c <-- get_obj ;;
      if connection_is_managed_corked c then socket_write_cork else ret tt
    else
      c <-- get_obj ;;
      if connection_is_managed_corked c then socket_write_uncork else ret tt.

(** ** Writing *)

(** A call that is passed a local [s2n_blocked_status], ignored afterwards. *)
Definition with_blocked {A} (cmd : Cmd blocked_conn A) : Cmd s2n_connection A := fun '(w, c) =>
  let '(r, (w', st)) := cmd (w, (c, S2N_NOT_BLOCKED)) in (r, (w', fst st)).

(** A call on the connection from a function that has [blocked]. *)
Definition on_conn {A} (cmd : Cmd s2n_connection A) : Cmd blocked_conn A := zoom fst_lens cmd.

(** The loop of s2n_handshake_message_send; [fuel] bounds the iterations. *)
Fixpoint message_send_loop (fuel : nat) (content_type : Z) (base : option ptr) (size total_bytes_written : Z)
  : Cmd blocked_conn unit :=
  if total_bytes_written <? size then
    match fuel with
    | O => undefined
    | S fuel' =>
        bytes_written <-- on_conn (record_writev content_type base total_bytes_written
                                     (u32 (size - total_bytes_written))) ;;
        on_conn (zoom handshake_io_lens (s2n_stuffer_skip_read (u32 bytes_written))) ;;;
        flush ;;;
        message_send_loop fuel' content_type base size (u32 (total_bytes_written + bytes_written))
    end
  else ret tt.

Definition s2n_handshake_message_send (content_type : Z) : Cmd blocked_conn unit :=
  c <-- on_conn get_obj ;;
  let size := s2n_stuffer_data_available (handshake_io (handshake c)) in
  if size =? 0 then ret tt
  else if s2n_connection_is_quic_enabled c then
    on_conn quic_write_handshake_message ;;;
    flush
  else
    r <-- on_conn (zoom handshake_io_lens (attempt (s2n_stuffer_raw_read size))) ;;
    let iov_base := match r with inl p => p | inr _ => None end in
    ensure_ref iov_base ;;;
    on_conn (zoom handshake_io_lens (s2n_stuffer_rewind_read size)) ;;;
    message_send_loop (Z.to_nat size) content_type iov_base size 0.

Definition s2n_handshake_write_io : Cmd s2n_connection unit :=
  record_type <-- EXPECTED_RECORD_TYPE ;;
  c <-- get_obj ;;
  (if s2n_stuffer_is_wiped (handshake_io (handshake c)) then
     a <-- active_state ;;
     (if record_type =? TLS_HANDSHAKE
      then zoom handshake_io_lens (s2n_handshake_write_header (message_type a)) else ret tt) ;;;
     call_action a ;;;
     (if record_type =? TLS_HANDSHAKE
      then zoom handshake_io_lens s2n_handshake_finish_header else ret tt)
   else ret tt) ;;;
  with_blocked (s2n_handshake_message_send record_type) ;;;
  (if record_type =? TLS_HANDSHAKE then handshake_transcript_update else ret tt) ;;;
  zoom out_lens s2n_stuffer_wipe ;;;
  zoom handshake_io_lens s2n_stuffer_wipe ;;;
  tls13_secrets_update ;;;
  tls13_key_schedule_update ;;;
  s2n_advance_message.

(** ** Reading *)

(** The stuffers s2n_read_full_handshake_message works on. *)
Definition in_io_lens : lens s2n_connection (s2n_stuffer * s2n_stuffer) :=
  Lens (fun c => (in_stuffer c, handshake_io (handshake c)))
       (fun p c => set_in_stuffer (fst p) (upd_handshake (set_handshake_io (snd p)) c)).

Definition s2n_handshake_handle_sslv2 : Cmd s2n_connection unit :=
  m <-- active_message ;;
  ensure (msg_eqb m CLIENT_HELLO) S2N_ERR_BAD_MESSAGE ;;;
  update_sslv2_hashes ;;;
  c <-- get_obj ;;
  zoom in_io_lens (s2n_stuffer_copy (s2n_stuffer_data_available (in_stuffer c))) ;;;
  modify (set_client_hello_version S2N_SSLv2) ;;;
  a <-- active_state ;;
  r <-- attempt (call_action a) ;;
  zoom handshake_io_lens s2n_stuffer_wipe ;;;
  record_wipe ;;;
  with_error_blinding (guard_rc r) ;;;
  s2n_advance_message.

Definition s2n_try_delete_session_cache : Cmd s2n_connection unit :=
  c <-- get_obj ;;
  if s2n_allowed_to_cache_connection c then attempt cache_delete ;;; ret tt else ret tt.

Definition s2n_finish_read : Cmd s2n_connection unit :=
  handshake_transcript_update ;;;
  zoom handshake_io_lens s2n_stuffer_wipe ;;;
  tls13_secrets_update ;;;
  tls13_key_schedule_update ;;;
  s2n_advance_message.

Definition s2n_handshake_app_data_recv : Cmd s2n_connection unit :=
  c <-- get_obj ;;
  if early_data_expected c then
    early_data_validate_recv ;;; fail S2N_ERR_EARLY_DATA_BLOCKED
  else if renegotiation (handshake c) then
    renegotiate_validate ;;;
    m <-- active_message ;;
    ensure (msg_eqb m SERVER_HELLO) S2N_ERR_BAD_MESSAGE ;;;
    fail S2N_ERR_APP_DATA_BLOCKED
  else fail S2N_ERR_BAD_MESSAGE.

(** A client adapts the handshake type to the message it has received. *)
Definition client_adapt_type (msg : Z) : Cmd s2n_connection unit :=
  c <-- get_obj ;;
  if is_client c then
    let auth := s2n_connection_get_client_auth_type c in
    (if bool_decide (auth <> S2N_CERT_AUTH_REQUIRED) && (msg =? TLS_CERT_REQ) then
       ensure (bool_decide (auth = S2N_CERT_AUTH_OPTIONAL)) S2N_ERR_UNEXPECTED_CERT_REQUEST ;;;
       ensure (IS_FULL_HANDSHAKE c) S2N_ERR_HANDSHAKE_STATE ;;;
       s2n_handshake_type_set_flag CLIENT_AUTH
     else ret tt) ;;;
    expected <-- EXPECTED_MESSAGE_TYPE ;;
    if (expected =? TLS_SERVER_CERT_STATUS) && negb (msg =? TLS_SERVER_CERT_STATUS)
    then s2n_handshake_type_unset_tls12_flag OCSP_STATUS else ret tt
  else ret tt.

(** A complete message is checked against the active state and handled. *)
Definition dispatch_message (rec msg : Z) : Cmd s2n_connection unit :=
  expected <-- EXPECTED_MESSAGE_TYPE ;;
  (if expected =? TLS_CERT_REQ then ensure (msg =? TLS_CERT_REQ) S2N_ERR_MISSING_CERT_REQUEST else ret tt) ;;;
  expected_rec <-- EXPECTED_RECORD_TYPE ;;
  ensure (rec =? expected_rec) S2N_ERR_BAD_MESSAGE ;;;
  expected <-- EXPECTED_MESSAGE_TYPE ;;
  ensure (msg =? expected) S2N_ERR_BAD_MESSAGE ;;;
  w <-- CONNECTION_IS_WRITER ;;
  ensure (negb w) S2N_ERR_BAD_MESSAGE ;;;
  a <-- active_state ;;
  with_error_blinding (call_action a) ;;;
  s2n_finish_read.

(** The loop over the messages of a record; [fuel] bounds the iterations. *)
Fixpoint read_messages (fuel : nat) (rec : Z) : Cmd s2n_connection unit :=
  c <-- get_obj ;;
  if s2n_stuffer_data_available (in_stuffer c) =? 0 then record_wipe
  else
    match fuel with
    | O => undefined
    | S fuel' =>
        expected_rec <-- EXPECTED_RECORD_TYPE ;;
        ensure (negb (expected_rec =? TLS_APPLICATION_DATA)) S2N_ERR_BAD_MESSAGE ;;;
        r <-- zoom in_io_lens s2n_read_full_handshake_message ;;
        let '(more, msg) := r in
        if (more : bool) then record_wipe
        else
          client_adapt_type msg ;;;
          if msg =? TLS_HELLO_REQUEST then
            client_hello_request_validate ;;;
            zoom handshake_io_lens s2n_stuffer_wipe ;;;
            read_messages fuel' rec
          else
            dispatch_message rec msg ;;;
            read_messages fuel' rec
    end.

(** A ChangeCipherSpec record. *)
Definition read_ccs : Cmd s2n_connection unit :=
  c <-- get_obj ;;
  (if negb (IS_TLS13_HANDSHAKE c) || s2n_connection_is_quic_enabled c then
     expected_rec <-- EXPECTED_RECORD_TYPE ;;
     ensure (expected_rec =? TLS_CHANGE_CIPHER_SPEC) S2N_ERR_BAD_MESSAGE ;;;
     w <-- CONNECTION_IS_WRITER ;;
     ensure (negb w) S2N_ERR_BAD_MESSAGE
   else ret tt) ;;;
  c <-- get_obj ;;
  ensure (s2n_stuffer_data_available (in_stuffer c) =? 1) S2N_ERR_BAD_MESSAGE ;;;
  zoom in_io_lens (s2n_stuffer_copy (s2n_stuffer_data_available (in_stuffer c))) ;;;
  c <-- get_obj ;;
  call_action (CCS_STATE c) ;;;
  zoom handshake_io_lens s2n_stuffer_wipe ;;;
  record_wipe ;;;
  expected_rec <-- EXPECTED_RECORD_TYPE ;;
  w <-- CONNECTION_IS_WRITER ;;
  if (expected_rec =? TLS_CHANGE_CIPHER_SPEC) && negb w then s2n_advance_message else ret tt.

Definition s2n_handshake_read_io : Cmd s2n_connection unit :=
  c <-- get_obj ;;
  r <-- (if s2n_connection_is_quic_enabled c then
           quic_read_handshake_message ;;; ret (inl (TLS_HANDSHAKE, false))
         else attempt read_full_record) ;;
  match r with
  | inr e =>
      if error_eqb e S2N_ERR_EARLY_DATA_TRIAL_DECRYPT then
        zoom in_lens s2n_stuffer_reread ;;;
        c <-- get_obj ;;
        early_data_record_bytes (s2n_stuffer_data_available (in_stuffer c)) ;;;
        record_wipe
      else fail e
  | inl (rec, isSSLv2) =>
      (if isSSLv2 : bool then
         ensure (rec =? SSLv2_CLIENT_HELLO) S2N_ERR_BAD_MESSAGE ;;;
         s2n_handshake_handle_sslv2
       else ret tt) ;;;
      if rec =? TLS_APPLICATION_DATA then
        s2n_handshake_app_data_recv
      else if rec =? TLS_CHANGE_CIPHER_SPEC then read_ccs
      else if negb (rec =? TLS_HANDSHAKE) then
        (if rec =? TLS_ALERT then process_alert_fragment else ret tt) ;;;
        record_wipe
      else
        c <-- get_obj ;;
        ensure (negb (s2n_stuffer_data_available (in_stuffer c) =? 0)) S2N_ERR_BAD_MESSAGE ;;;
        read_messages (S (Z.to_nat (s2n_stuffer_data_available (in_stuffer c)))) rec
  end.

(** ** Negotiation *)

Definition s2n_handle_retry_state : Cmd s2n_connection unit :=
  a <-- active_state ;;
  r <-- attempt (call_action a) ;;
  match r with
  | inr e => if S2N_ERROR_IS_BLOCKING e then fail e else ret tt
  | inl _ => ret tt
  end ;;;
  modify (upd_handshake (set_paused false)) ;;;
  w <-- CONNECTION_IS_WRITER ;;
  (if (w : bool) then ret tt else record_wipe) ;;;
  w <-- CONNECTION_IS_WRITER ;;
  if (w : bool) then
    guard_rc r ;;;
    rec <-- EXPECTED_RECORD_TYPE ;;
    if rec =? TLS_HANDSHAKE then zoom handshake_io_lens s2n_handshake_finish_header else ret tt
  else
    c <-- get_obj ;;
    (match r with
     | inr _ => if negb (session_id_len c =? 0) then attempt s2n_try_delete_session_cache ;;; ret tt else ret tt
     | inl _ => ret tt
     end) ;;;
    with_error_blinding (guard_rc r) ;;;
    s2n_finish_read.

Definition s2n_handshake_is_complete : Cmd s2n_connection bool :=
  a <-- active_state ;;
  c <-- get_obj ;;
  ret (writer_eqb (writer a) WriterB || deserialized_conn c).

Definition set_blocked (b : s2n_blocked_status) : Cmd blocked_conn unit := modify (fun st => (fst st, b)).

(** What both branches do with a blocking error before returning it. *)
Definition note_blocked (e : s2n_error) : Cmd blocked_conn unit :=
  if error_eqb e S2N_ERR_ASYNC_BLOCKED then
    set_blocked S2N_BLOCKED_ON_APPLICATION_INPUT ;;;
    on_conn (modify (upd_handshake (set_paused true)))
  else if error_eqb e S2N_ERR_EARLY_DATA_BLOCKED then set_blocked S2N_BLOCKED_ON_EARLY_DATA
  else ret tt.

Definition negotiate_write : Cmd blocked_conn unit :=
  set_blocked S2N_BLOCKED_ON_WRITE ;;;
  r <-- on_conn (attempt s2n_handshake_write_io) ;;
  match r with
  | inl _ => ret tt
  | inr write_err =>
      if negb (S2N_ERROR_IS_BLOCKING write_err) then
        r <-- on_conn (attempt s2n_handshake_read_io) ;;
        match r with
        | inr read_err => if error_eqb read_err S2N_ERR_ALERT then fail read_err else fail write_err
        | inl _ => fail write_err
        end
      else note_blocked write_err ;;; fail write_err
  end.

Definition negotiate_read : Cmd blocked_conn unit :=
  set_blocked S2N_BLOCKED_ON_READ ;;;
  r <-- on_conn (attempt s2n_handshake_read_io) ;;
  match r with
  | inl _ => ret tt
  | inr read_err =>
      c <-- on_conn get_obj ;;
      (if negb (S2N_ERROR_IS_BLOCKING read_err) && negb (session_id_len c =? 0)
       then on_conn (attempt s2n_try_delete_session_cache) ;;; ret tt else ret tt) ;;;
      note_blocked read_err ;;;
      fail read_err
  end.

(** One iteration of the loop of s2n_negotiate_impl; [true] if the loop is over. *)
Definition negotiate_step : Cmd blocked_conn bool :=
  complete <-- on_conn s2n_handshake_is_complete ;;
  m <-- on_conn active_message ;;
  c <-- on_conn get_obj ;;
  if (complete : bool) || msg_eqb m (end_of_messages (handshake c)) then
    set_blocked S2N_NOT_BLOCKED ;;; ret true
  else
    flush ;;;
    c <-- on_conn get_obj ;;
    ensure (s2n_connection_check_io_status c S2N_IO_FULL_DUPLEX) S2N_ERR_CLOSED ;;;
    (if paused (handshake c) then
       set_blocked S2N_BLOCKED_ON_APPLICATION_INPUT ;;;
       on_conn s2n_handle_retry_state
     else ret tt) ;;;
    w <-- on_conn CONNECTION_IS_WRITER ;;
    (if (w : bool) then negotiate_write else negotiate_read) ;;;
    a <-- on_conn active_state ;;
    (if writer_eqb (writer a) WriterB then
       on_conn tls13_secrets_clean ;;;
       post_handshake_send ;;;
       on_conn (zoom handshake_io_lens (s2n_stuffer_resize 0))
     else ret tt) ;;;
    ret false.

(** At most [fuel] iterations; [false] if the loop is not over by then. *)
Fixpoint s2n_negotiate_impl (fuel : nat) : Cmd blocked_conn bool :=
  match fuel with
  | O => ret false
  | S fuel' =>
      over <-- negotiate_step ;;
      if (over : bool) then ret true else s2n_negotiate_impl fuel'
  end.

Definition s2n_negotiate (fuel : nat) : Cmd blocked_conn bool :=
  c <-- on_conn get_obj ;;
  ensure (negb (negotiate_in_use c)) S2N_ERR_REENTRANCY ;;;
  on_conn (modify (set_negotiate_in_use true)) ;;;
  result <-- attempt (s2n_negotiate_impl fuel) ;;
  on_conn dynamic_free_in_buffer ;;;
  on_conn dynamic_free_out_buffer ;;;
  on_conn (modify (set_negotiate_in_use false)) ;;;
  guard_rc result.

End Definitions.

End HandshakeIO.
Export HandshakeIO.
