(* ===== verification/HandshakeSafety.v ===== *)
(** * The handshake driver is safe

    The driver of tls/s2n_handshake_io.c indexes two tables with the handshake
    type and the message number and calls the function pointers it finds there,
    while it moves bytes between the connection's buffers.  This file
    states the invariant of the connection and the relations between the states
    before and after a call, with which [HandshakeDriver] states what the other
    components promise and the files after it show that the driver never leaves the
    tables, never calls a null handler, never touches memory it does not own,
    never goes back in the message order, and only stops at the end of it. *)
From S2P Require Import Prelude Errors CMem Platform Safety Blob Alloc Stuffer StufferInv StufferWrite StufferSpec StufferTheorems NetworkOrder.
From S2P Require Import HandshakeTables Connection HandshakeOrder HandshakeTypes HandshakeMessage HandshakeIO.
Open Scope Z_scope.

Module HandshakeSafety.

(** ** Facts about the positions of the two tables, by computation *)

Definition table_of (tls13 : bool) : handshake_table := if tls13 then tls13_handshakes else handshakes.
Definition machine_of (tls13 : bool) : message_type_t -> s2n_handshake_action :=
  if tls13 then tls13_state_machine else state_machine.

(** Message [i] of the order [t], as the given machine acts on it. *)
Definition action_at (tls13 : bool) (t i : Z) : s2n_handshake_action :=
  machine_of tls13 (table_entry (table_of tls13) t i).

Definition row_length (tls13 : bool) (t : Z) : Z := zlen (table_row (table_of tls13) t).

Definition all_positions (P : bool -> Z -> Z -> bool) : bool :=
  forallb (fun tls13 => forallb (fun t =>
    forallb (fun i => P tls13 t (Z.of_nat i)) (seq 0 (length (table_row (table_of tls13) t)))) all_types)
    [true; false].

Lemma all_positions_spec P tls13 t i :
  all_positions P = true -> 0 <= t < 256 -> 0 <= i < row_length tls13 t -> P tls13 t i = true.
Proof.
  unfold all_positions, row_length, zlen. rewrite forallb_forall. intros HP Ht Hi.
  specialize (HP tls13 ltac:(destruct tls13; simpl; auto)).
  pose proof (all_types_spec _ t HP Ht) as Hrow. cbv beta in Hrow. rewrite forallb_forall in Hrow.
  specialize (Hrow (Z.to_nat i)). rewrite in_seq, Z2Nat.id in Hrow by lia. apply Hrow. lia.
Qed.

(** What the driver needs to know of each position of each order. *)
Definition position_facts (tls13 : bool) (t i : Z) : bool :=
  let a := action_at tls13 t i in
  let n := row_length tls13 t in
  (n <=? S2N_MAX_HANDSHAKE_LENGTH) &&
  (* there is a handler for each side *)
  bool_decide (server_handler a <> None) && bool_decide (client_handler a <> None) &&
  (* the side that writes the message is not at the end of the order *)
  implies (writer_eqb (writer a) WriterC) (i + 1 <? n) &&
  implies (writer_eqb (writer a) WriterS && has t NEGOTIATED) (i + 1 <? n) &&
  (* neither is a ChangeCipherSpec *)
  implies (record_type a =? TLS_CHANGE_CIPHER_SPEC) (i + 1 <? n) &&
  (* the first message is the client's *)
  implies (i =? 0) (writer_eqb (writer a) WriterC && (record_type a =? TLS_HANDSHAKE)) &&
  (* the changes a client makes keep the position inside the order *)
  implies (has t FULL_HANDSHAKE) (i <? row_length tls13 (Z.lor t CLIENT_AUTH)) &&
  implies (message_type a =? TLS_SERVER_CERT_STATUS) (i <? row_length tls13 (u32 (Z.land t (Z.lnot OCSP_STATUS)))).

Lemma position_facts_hold tls13 t i :
  0 <= t < 256 -> 0 <= i < row_length tls13 t -> position_facts tls13 t i = true.
Proof. apply all_positions_spec. vm_compute. reflexivity. Qed.

(** ** The position of a connection *)

Definition tls13 (c : s2n_connection) : bool := IS_TLS13_HANDSHAKE c.
Definition order_length (c : s2n_connection) : Z := row_length (tls13 c) (handshake_type (handshake c)).

Record position_ok (c : s2n_connection) : Prop := {
  pos_type : 0 <= handshake_type (handshake c) < 256;
  pos_row : 0 <= message_number (handshake c) < order_length c;
  (* a server negotiates as soon as it has the client's hello *)
  pos_server : is_client c = false -> 0 < message_number (handshake c) ->
    has (handshake_type (handshake c)) NEGOTIATED = true;
}.

(** The current message has been dealt with and there is a next one. *)
Record ready (c : s2n_connection) : Prop := {
  ready_next : message_number (handshake c) + 1 < order_length c;
  ready_server : is_client c = false -> has (handshake_type (handshake c)) NEGOTIATED = true;
}.

Lemma ACTIVE_STATE_at c :
  ACTIVE_STATE c = action_at (tls13 c) (handshake_type (handshake c)) (message_number (handshake c)).
Proof. unfold ACTIVE_STATE, ACTIVE_STATE_MACHINE, ACTIVE_MESSAGE, ACTIVE_HANDSHAKES, action_at, tls13. by destruct (IS_TLS13_HANDSHAKE c). Qed.

Section Positions.
Context (c : s2n_connection) (Hc : position_ok c).

Lemma facts_here :
  position_facts (tls13 c) (handshake_type (handshake c)) (message_number (handshake c)) = true.
Proof using Hc. apply position_facts_hold; apply Hc. Qed.

Lemma facts_elim :
  let a := ACTIVE_STATE c in
  let t := handshake_type (handshake c) in
  let i := message_number (handshake c) in
  order_length c <= 32 /\ (server_handler a <> None /\ client_handler a <> None) /\
  (writer a = WriterC -> i + 1 < order_length c) /\
  (writer a = WriterS -> has t NEGOTIATED = true -> i + 1 < order_length c) /\
  (record_type a = TLS_CHANGE_CIPHER_SPEC -> i + 1 < order_length c) /\
  (i = 0 -> writer a = WriterC /\ record_type a = TLS_HANDSHAKE) /\
  (has t FULL_HANDSHAKE = true -> i < row_length (tls13 c) (Z.lor t CLIENT_AUTH)) /\
  (message_type a = TLS_SERVER_CERT_STATUS -> i < row_length (tls13 c) (u32 (Z.land t (Z.lnot OCSP_STATUS)))).
Proof using Hc.
  pose proof facts_here as Hf. unfold position_facts, implies in Hf. cbv zeta in *.
  rewrite <- ACTIVE_STATE_at in Hf. fold (order_length c) in Hf. unfold S2N_MAX_HANDSHAKE_LENGTH in Hf.
  unfold writer_eqb in Hf.
  rewrite !andb_true_iff, !orb_true_iff, !negb_true_iff, !andb_true_iff, !andb_false_iff, !bool_decide_eq_true,
    !bool_decide_eq_false, !Z.leb_le, !Z.ltb_lt, !Z.eqb_neq, !Z.eqb_eq in Hf.
  destruct Hf as ((((((((H1 & H2) & H3) & H4) & H5) & H6) & H7) & H8) & H9).
  split_goal; [done|done|done|..]; intuition congruence.
Qed.

Lemma position_in_table_ok : position_in_table c = true.
Proof using Hc.
  destruct facts_elim as [Hlen _]. pose proof (pos_row _ Hc) as Hr. pose proof (pos_type _ Hc).
  unfold position_in_table, S2N_HANDSHAKES_COUNT, S2N_MAX_HANDSHAKE_LENGTH.
  rewrite !andb_true_iff, !Z.leb_le, !Z.ltb_lt. lia.
Qed.

Lemma handlers_here :
  server_handler (ACTIVE_STATE c) <> None /\ client_handler (ACTIVE_STATE c) <> None.
Proof using Hc. apply facts_elim. Qed.

Lemma writer_ready : writer (ACTIVE_STATE c) = CONNECTION_WRITER c -> ready c.
Proof using Hc.
  destruct facts_elim as (_ & _ & Hcw & Hsw & _ & Hz & _). intros Hw. pose proof (pos_row _ Hc).
  pose proof (pos_server _ Hc) as Hs. unfold CONNECTION_WRITER in Hw. destruct (is_client c) eqn:Hcl.
  - split; [by apply Hcw|congruence].
  - assert (Hpos : 0 < message_number (handshake c)).
    { destruct (Z.eq_dec (message_number (handshake c)) 0) as [e|]; [|lia]. destruct (Hz e). congruence. }
    split; [by apply Hsw, Hs|auto].
Qed.

Lemma ccs_ready : record_type (ACTIVE_STATE c) = TLS_CHANGE_CIPHER_SPEC -> ready c.
Proof using Hc.
  destruct facts_elim as (_ & _ & _ & _ & Hccs & Hz & _). intros Hr. pose proof (pos_row _ Hc).
  assert (Hpos : 0 < message_number (handshake c)).
  { destruct (Z.eq_dec (message_number (handshake c)) 0) as [e|]; [|lia]. destruct (Hz e) as [_ Hh]. by rewrite Hr in Hh. }
  split; [auto|]. intros Hcl. by apply (pos_server _ Hc).
Qed.

(** Changes of the type that keep the position inside the order. *)
Lemma position_retyped t' :
  is_client c = true -> 0 <= t' < 256 -> message_number (handshake c) < row_length (tls13 c) t' ->
  position_ok (upd_handshake (set_handshake_type t') c).
Proof using Hc.
  intros Hcl Ht Hi. pose proof (pos_row _ Hc). split; [exact Ht|simpl; split; [lia|exact Hi]|].
  intros Hs. change (is_client c = false) in Hs. congruence.
Qed.

Lemma position_client_auth :
  is_client c = true -> IS_FULL_HANDSHAKE c = true -> position_ok (upd_handshake (or_flag CLIENT_AUTH) c).
Proof using Hc.
  intros Hcl Hfull. destruct facts_elim as (_ & _ & _ & _ & _ & _ & Hauth & _).
  apply position_retyped; [done| |by apply Hauth].
  pose proof (all_types_spec (fun t => (0 <=? Z.lor t CLIENT_AUTH) && (Z.lor t CLIENT_AUTH <? 256))
    _ ltac:(vm_compute; reflexivity) (pos_type _ Hc)) as Hr. cbv beta in Hr. zbool. lia.
Qed.

Lemma position_no_ocsp :
  is_client c = true -> message_type (ACTIVE_STATE c) = TLS_SERVER_CERT_STATUS ->
  position_ok (upd_handshake (fun h => set_handshake_type (u32 (Z.land (handshake_type h) (Z.lnot OCSP_STATUS))) h) c).
Proof using Hc.
  intros Hcl Hm. destruct facts_elim as (_ & _ & _ & _ & _ & _ & _ & Hocsp).
  apply position_retyped; [done| |by apply Hocsp].
  pose proof (all_types_spec (fun t => let t' := u32 (Z.land t (Z.lnot OCSP_STATUS)) in (0 <=? t') && (t' <? 256))
    _ ltac:(vm_compute; reflexivity) (pos_type _ Hc)) as Hr. cbv beta zeta in Hr. zbool. lia.
Qed.

(** Advancing by one message, and over a ChangeCipherSpec. *)
Definition at_next (c : s2n_connection) : s2n_connection :=
  upd_handshake (fun h => set_message_number (message_number h + 1) h) c.

Lemma position_next : ready c -> position_ok (at_next c).
Proof using Hc.
  intros [Hn Hs]. pose proof (pos_row _ Hc).
  split; [apply Hc|simpl; split; [lia|exact Hn]|intros Hcl _; by apply Hs].
Qed.
End Positions.

(** ** Commands that keep an invariant *)

(** From a state in [I], [cmd] has no undefined behaviour and ends in [I],
    related to the initial state by [R], whether it succeeds or fails. *)
Definition keeps {X A} (I : world -> X -> Prop) (R : X -> X -> Prop) (cmd : Cmd X A) : Prop :=
  forall w x, I w x -> wp cmd (w, x) (fun _ w' x' => I w' x' /\ R x x') (fun _ w' x' => I w' x' /\ R x x').

Section Keeps.
Context {X : Type} {I : world -> X -> Prop} {R : X -> X -> Prop} `{!PreOrder R}.

Lemma keeps_ret {A} (a : A) : keeps I R (ret a).
Proof using Type*. intros w x HI. by apply wp_ret. Qed.

Lemma keeps_fail {A} e : keeps I R (@fail _ A e).
Proof using Type*. intros w x HI. by apply wp_fail. Qed.

Lemma keeps_ensure b e : keeps I R (ensure b e).
Proof using Type*. destruct b; [apply keeps_ret|apply keeps_fail]. Qed.

Lemma keeps_guard {A} (r : A + s2n_error) : keeps I R (guard_rc r).
Proof using Type*. destruct r; [apply keeps_ret|apply keeps_fail]. Qed.

(** A step of [R] at the front of a command. *)
Lemma wp_related {A} (cmd : Cmd X A) w x x0 (Q : A -> world -> X -> Prop) (E : s2n_error -> world -> X -> Prop) :
  R x0 x ->
  wp cmd (w, x) (fun a w' x' => Q a w' x' /\ R x x') (fun e w' x' => E e w' x' /\ R x x') ->
  wp cmd (w, x) (fun a w' x' => Q a w' x' /\ R x0 x') (fun e w' x' => E e w' x' /\ R x0 x').
Proof using Type*.
  intros HR Hwp. eapply wp_mono; [exact Hwp| |]; intros ? ? ? [? ?]; (split; [done|by etrans]).
Qed.

Lemma keeps_bind {A B} (c : Cmd X A) (k : A -> Cmd X B) :
  keeps I R c -> (forall a, keeps I R (k a)) -> keeps I R (bind c k).
Proof using Type*.
  intros Hc Hk w x HI. apply wp_bind. eapply wp_mono; [by apply Hc| |done].
  intros a w' x' [HI' HR]. apply (wp_related _ w' x' x); [done|]. by apply Hk.
Qed.

(** The continuation of [get_obj] runs in the state it was given. *)
Lemma keeps_get {A} (k : X -> Cmd X A) :
  (forall w x, I w x -> wp (k x) (w, x) (fun _ w' x' => I w' x' /\ R x x') (fun _ w' x' => I w' x' /\ R x x')) ->
  keeps I R (bind get_obj k).
Proof using Type*. intros Hk w x HI. by apply wp_bind, wp_get_obj, Hk. Qed.

Lemma keeps_get_any {A} (k : X -> Cmd X A) : (forall x, keeps I R (k x)) -> keeps I R (bind get_obj k).
Proof using Type*. intros Hk. apply keeps_get. intros w x HI. by apply Hk. Qed.

Lemma keeps_modify f : (forall w x, I w x -> I w (f x) /\ R x (f x)) -> keeps I R (modify f).
Proof using Type*. intros Hf w x HI. by apply wp_modify, Hf. Qed.

Lemma keeps_attempt {A} (c : Cmd X A) : keeps I R c -> keeps I R (attempt c).
Proof using Type*. intros Hc w x HI. by apply wp_attempt, Hc. Qed.

Lemma keeps_if {A} (b : bool) (c1 c2 : Cmd X A) : keeps I R c1 -> keeps I R c2 -> keeps I R (if b then c1 else c2).
Proof using Type*. by destruct b. Qed.

Lemma keeps_weaken {A} (R' : X -> X -> Prop) (c : Cmd X A) :
  (forall x y, R' x y -> R x y) -> keeps I R' c -> keeps I R c.
Proof using Type*.
  intros Hsub Hc w x HI. eapply wp_mono; [by apply Hc| |]; intros ? ? ? [? ?]; auto.
Qed.
End Keeps.

(** The same on a state paired with [blocked]. *)
Definition on_fst {X Y} (I : world -> X -> Prop) : world -> X * Y -> Prop := fun w st => I w (fst st).
Definition rel_fst {X Y} (R : X -> X -> Prop) : X * Y -> X * Y -> Prop := fun a b => R (fst a) (fst b).

#[export] Instance rel_fst_preorder {X Y} (R : X -> X -> Prop) `{!PreOrder R} : PreOrder (@rel_fst X Y R).
Proof. split; [intros a; unfold rel_fst; reflexivity|]. intros a b d. unfold rel_fst. by etrans. Qed.

Lemma keeps_on_conn {A} I R (cmd : Cmd s2n_connection A) : keeps I R cmd -> keeps (on_fst I) (rel_fst R) (on_conn cmd).
Proof. intros Hc w [c b] HI. by apply wp_zoom, Hc. Qed.

Lemma keeps_with_blocked {A} I R (cmd : Cmd blocked_conn A) :
  keeps (on_fst I) (rel_fst R) cmd -> keeps I R (with_blocked cmd).
Proof.
  intros Hc w c HI. specialize (Hc w (c, S2N_NOT_BLOCKED) HI). unfold wp, with_blocked in *.
  by destruct (cmd _) as [[a|e|] [w' [c' b']]].
Qed.

Lemma keeps_set_blocked I R `{!PreOrder R} b : keeps (on_fst I) (rel_fst R) (set_blocked b).
Proof. intros w [c b'] HI. apply wp_modify. split; [exact HI|]. by unfold rel_fst. Qed.

(** ** The buffers of a connection *)

Record buffers_ok (w : world) (a b d : s2n_stuffer) : Prop := {
  buf_world : world_ok w;
  buf_cb : s2n_mem_free_cb (mem w) <> UserImpl;
  buf_1 : stuffer_ok (hp w) a;
  buf_2 : stuffer_ok (hp w) b;
  buf_3 : stuffer_ok (hp w) d;
  buf_12 : separate (blob a) (blob b);
  buf_13 : separate (blob a) (blob d);
  buf_23 : separate (blob b) (blob d);
}.

Lemma buffers_swap w a b d : buffers_ok w a b d -> buffers_ok w b a d.
Proof. intros []. split; try done. by apply separate_sym. Qed.

Lemma buffers_rotate w a b d : buffers_ok w a b d -> buffers_ok w d a b.
Proof. intros []. split; try done; by apply separate_sym. Qed.

(** A step of one stuffer leaves another one valid and separate. *)
Lemma step_other w a w' a' b :
  step_ok w a w' a' -> stuffer_ok (hp w) b -> separate (blob a) (blob b) ->
  stuffer_ok (hp w') b /\ separate (blob a') (blob b).
Proof.
  intros Hst Hb Hsep. split.
  - eapply framed_stuffer; [done|by apply separate_sym|apply Hst].
  - intros k Hk Hk'. destruct (step_fresh _ _ _ _ Hst k Hk) as [?|Hnone]; [by apply (Hsep k)|].
    destruct Hk' as (p & Hp & <-). destruct (ok_access _ _ (ok_blob _ _ Hb) _ Hp) as (l & Hl & _). congruence.
Qed.

Lemma buffers_step w a b d w' a' : buffers_ok w a b d -> step_ok w a w' a' -> buffers_ok w' a' b d.
Proof.
  intros [Hw Hcb Ha Hb Hd Hab Had Hbd] Hst.
  destruct (step_other _ _ _ _ _ Hst Hb Hab), (step_other _ _ _ _ _ Hst Hd Had).
  split; try done; [by eapply step_world_ok|by rewrite (step_mem _ _ _ _ Hst)|apply Hst].
Qed.

(** A change of the cursors. *)
Lemma buffers_cursors w a b d a' :
  buffers_ok w a b d -> stuffer_ok (hp w) a' -> blob a' = blob a -> buffers_ok w a' b d.
Proof.
  intros Hb Ha' e. eapply buffers_step; [done|]. apply step_ok_cursors; [apply Hb|done|done].
Qed.

Definition conn_buffers (w : world) (c : s2n_connection) : Prop :=
  buffers_ok w (in_stuffer c) (handshake_io (handshake c)) (out_stuffer c).

Record conn_ok (w : world) (c : s2n_connection) : Prop := {
  conn_bufs : conn_buffers w c;
  conn_pos : position_ok c;
}.

(** ** Relations between the states of a connection *)

(** The bytes of the current record that have not been consumed. *)
Definition record_left (c : s2n_connection) : Z := s2n_stuffer_data_available (in_stuffer c).

(** The position and what determines it are unchanged. *)
Record fixed_pos (c c' : s2n_connection) : Prop := {
  fx_mode : mode c' = mode c;
  fx_number : message_number (handshake c') = message_number (handshake c);
  fx_type : handshake_type (handshake c') = handshake_type (handshake c);
  fx_machine : active_machine (handshake c') = active_machine (handshake c);
}.

(** Besides, no bytes are added to the current record. *)
Record fixed (c c' : s2n_connection) : Prop := {
  fixed_fixed_pos : fixed_pos c c';
  fixed_left : record_left c' <= record_left c;
}.

Definition closed (c : s2n_connection) : Prop := read_closed c = true /\ write_closed c = true.

(** Besides, a closed connection stays closed. *)
Record fixed_shut (c c' : s2n_connection) : Prop := {
  shut_fixed : fixed c c';
  shut_closed : closed c -> closed c';
}.

(** The message buffer has nothing left to read. *)
Definition io_empty (c : s2n_connection) : Prop := s2n_stuffer_data_available (handshake_io (handshake c)) = 0.

(** Besides, an empty message buffer stays empty. *)
Record quiet (c c' : s2n_connection) : Prop := {
  quiet_fixed : fixed c c';
  quiet_empty : io_empty c -> io_empty c';
}.

(** The message number is unchanged; the handshake type may change. *)
Record stays (c c' : s2n_connection) : Prop := {
  st_mode : mode c' = mode c;
  st_number : message_number (handshake c') = message_number (handshake c);
  st_left : record_left c' <= record_left c;
}.

(** The handshake does not go back. *)
Record onward (c c' : s2n_connection) : Prop := {
  on_mode : mode c' = mode c;
  on_number : message_number (handshake c) <= message_number (handshake c');
}.

(** Nor does the record grow. *)
Record onward_in (c c' : s2n_connection) : Prop := {
  oi_onward : onward c c';
  oi_left : record_left c' <= record_left c;
}.

(** Nor does an empty message buffer fill. *)
Record onward_quiet (c c' : s2n_connection) : Prop := {
  oq_onward : onward_in c c';
  oq_empty : io_empty c -> io_empty c';
}.

#[export] Instance fixed_pos_preorder : PreOrder fixed_pos.
Proof. split; [by intros c; split|]. intros a b c [] []. split; congruence. Qed.
#[export] Instance fixed_preorder : PreOrder fixed.
Proof. split; [intros c; split; [done|lia]|]. intros a b c [? ?] [? ?]. split; [by etrans|lia]. Qed.
#[export] Instance fixed_shut_preorder : PreOrder fixed_shut.
Proof. split; [by intros c; split|]. intros a b c [? ?] [? ?]. split; [by etrans|auto]. Qed.
#[export] Instance stays_preorder : PreOrder stays.
Proof. split; [intros c; split; (done || lia)|]. intros a b c [] []. split; congruence || lia. Qed.
#[export] Instance onward_preorder : PreOrder onward.
Proof. split; [intros c; split; (done || lia)|]. intros a b c [] []. split; congruence || lia. Qed.
#[export] Instance onward_in_preorder : PreOrder onward_in.
Proof. split; [intros c; split; [done|lia]|]. intros a b c [? ?] [? ?]. split; [by etrans|lia]. Qed.

#[export] Instance quiet_preorder : PreOrder quiet.
Proof. split; [by intros c; split|]. intros a b c [? ?] [? ?]. split; [by etrans|auto]. Qed.
#[export] Instance onward_quiet_preorder : PreOrder onward_quiet.
Proof. split; [by intros c; split|]. intros a b c [? ?] [? ?]. split; [by etrans|auto]. Qed.

Lemma fixed_stays c c' : fixed c c' -> stays c c'.
Proof. intros [[] ?]. by split. Qed.
Lemma stays_onward_in c c' : stays c c' -> onward_in c c'.
Proof. intros []. split; [split; [done|lia]|done]. Qed.
Lemma fixed_onward_in c c' : fixed c c' -> onward_in c c'.
Proof. intros. by apply stays_onward_in, fixed_stays. Qed.
Lemma quiet_onward_quiet c c' : quiet c c' -> onward_quiet c c'.
Proof. intros [? ?]. split; [by apply fixed_onward_in|done]. Qed.
Lemma fixed_pos_onward c c' : fixed_pos c c' -> onward c c'.
Proof. intros []. split; [done|lia]. Qed.
Lemma fixed_is_fixed_pos c c' : fixed c c' -> fixed_pos c c'.
Proof. by intros []. Qed.

(** What the position depends on. *)
Lemma fixed_pos_ok c c' : fixed_pos c c' -> position_ok c -> position_ok c'.
Proof.
  intros [Hm Hn Ht Ha] [H1 H2 H3]. unfold order_length, tls13, IS_TLS13_HANDSHAKE, is_client in *.
  split; unfold order_length, tls13, IS_TLS13_HANDSHAKE, is_client; rewrite ?Hm, ?Hn, ?Ht, ?Ha; done.
Qed.

Lemma fixed_pos_ready c c' : fixed_pos c c' -> ready c -> ready c'.
Proof.
  intros [Hm Hn Ht Ha] [H1 H2]. unfold order_length, tls13, IS_TLS13_HANDSHAKE, is_client in *.
  split; unfold order_length, tls13, IS_TLS13_HANDSHAKE, is_client; rewrite ?Hm, ?Hn, ?Ht, ?Ha; done.
Qed.

Record conn_ready (w : world) (c : s2n_connection) : Prop := {
  cr_ok : conn_ok w c;
  cr_ready : ready c;
}.

Lemma keeps_ready {A} (cmd : Cmd s2n_connection A) : keeps conn_ok fixed cmd -> keeps conn_ready fixed cmd.
Proof.
  intros Hc w c [Hok Hr]. eapply wp_mono; [by apply Hc| |]; intros ? w' c' [Hok' Hf];
    (split; [split; [done|]|done]); by eapply fixed_pos_ready; [apply Hf|].
Qed.

End HandshakeSafety.
Export HandshakeSafety.
