(* ===== verification/HandshakeDriver.v ===== *)
(** * The driver against its environment

    The contract between the driver and the other components, and the proof that
    every function of the driver keeps the invariant of [HandshakeSafety]. *)
From S2P Require Import Prelude Errors CMem Platform Safety Blob Alloc Stuffer StufferInv StufferWrite StufferSpec StufferTheorems NetworkOrder.
From S2P Require Import HandshakeTables Connection HandshakeOrder HandshakeTypes HandshakeMessage HandshakeIO HandshakeSafety.
Open Scope Z_scope.

Module HandshakeDriver.

(** ** Stuffer commands, as used by the driver *)

Section Stuffers.
Context `{HP : Platform} `{!BlobAllocator}.

Lemma safe_bind {A B} (c : Cmd s2n_stuffer A) (k : A -> Cmd s2n_stuffer B) w s :
  safe c w s -> (forall a w' s', step_ok w s w' s' -> safe (k a) w' s') -> safe (bind c k) w s.
Proof.
  intros Hc Hk. apply wp_bind. eapply wp_mono; [exact Hc| |done]. intros a w' s' Hst.
  eapply wp_mono; [exact (Hk a _ _ Hst)| |]; intros ? w2 s2 Hst2; exact (step_ok_trans _ _ _ _ _ _ Hst Hst2).
Qed.

Lemma safe_undiscard {A} (c : Cmd s2n_stuffer A) w s : safe (discard c) w s -> safe c w s.
Proof. unfold safe, wp, discard, bind. by destruct (c (w, s)) as [[a|e|] [w' s']]. Qed.

Lemma safe_fail {A} e w s : world_ok w -> stuffer_ok (hp w) s -> safe (@fail _ A e) w s.
Proof. intros [Hh _] Hs. by apply wp_fail, step_ok_refl. Qed.

Lemma safe_ensure b e w s : world_ok w -> stuffer_ok (hp w) s -> safe (ensure b e) w s.
Proof. intros [Hh ?] Hs. destruct b; [by apply wp_ret, step_ok_refl|by apply wp_fail, step_ok_refl]. Qed.

Lemma safe_write_uint wd u w s :
  world_ok w -> stuffer_ok (hp w) s -> in_width wd u -> safe (write_uint wd u) w s.
Proof.
  intros Hw Hs Hu. apply wp_write_uint; [done..| |]; [intros w' s' Ha; apply Ha|intros e w' s' [_ Hk]; apply Hk].
Qed.

Lemma safe_write_uint24 u w s :
  world_ok w -> stuffer_ok (hp w) s -> 0 <= u -> safe (s2n_stuffer_write_uint24 u) w s.
Proof.
  intros Hw Hs Hu. destruct (Z.lt_ge_cases u (2 ^ 24)) as [Hlt|Hge]; [by apply (safe_write_uint W24)|].
  unfold s2n_stuffer_write_uint24. rewrite (proj2 (Z.ltb_ge u (Z.shiftl 1 24))) by (change (Z.shiftl 1 24) with (2 ^ 24); lia).
  by apply safe_fail.
Qed.

Lemma safe_write_header ty w s :
  world_ok w -> stuffer_ok (hp w) s -> is_u8 ty -> safe (s2n_handshake_write_header ty) w s.
Proof.
  intros Hw Hs Hty. apply wp_bind, wp_get_obj, safe_bind; [by apply safe_ensure|]. intros [] w1 s1 H1.
  assert (Hw1 : world_ok w1) by (by eapply step_world_ok). pose proof (step_stuffer _ _ _ _ H1) as Hs1.
  apply safe_bind; [by apply (safe_write_uint W8)|]. intros [] w2 s2 H2.
  apply safe_write_uint24; [by eapply step_world_ok|apply H2|lia].
Qed.

Lemma safe_finish_header w s : world_ok w -> stuffer_ok (hp w) s -> safe s2n_handshake_finish_header w s.
Proof.
  intros Hw Hs. apply wp_bind, wp_get_obj. cbv zeta. set (n := u32 _). assert (Hn : is_u32 n) by apply u32_range.
  apply safe_bind; [by apply safe_ensure|]. intros [] w1 s1 H1. assert (Hw1 : world_ok w1) by (by eapply step_world_ok).
  pose proof (step_stuffer _ _ _ _ H1) as Hs1.
  apply safe_bind; [by apply safe_undiscard, (safe_run_op OpRewrite)|]. intros [] w2 s2 H2.
  assert (Hw2 : world_ok w2) by (by eapply step_world_ok). pose proof (step_stuffer _ _ _ _ H2) as Hs2.
  apply safe_bind; [by apply safe_undiscard, (safe_run_op (OpSkipWrite 1))|]. intros [] w3 s3 H3.
  assert (Hw3 : world_ok w3) by (by eapply step_world_ok). pose proof (step_stuffer _ _ _ _ H3) as Hs3.
  apply safe_bind; [apply safe_write_uint24; [done|done|apply Hn]|]. intros [] w4 s4 H4.
  apply safe_undiscard, (safe_run_op (OpSkipWrite n)); [by eapply step_world_ok|apply H4|exact Hn].
Qed.

End Stuffers.

(** ** Commands on one buffer of the connection *)

Lemma set_io_fixed io c : fixed c (upd_handshake (set_handshake_io io) c).
Proof. split; [by split|apply Z.le_refl]. Qed.

Section Buffers.
Context `{HP : Platform} `{!BlobAllocator}.

Lemma conn_ok_io w c w' io :
  conn_ok w c -> step_ok w (handshake_io (handshake c)) w' io ->
  conn_ok w' (upd_handshake (set_handshake_io io) c).
Proof.
  intros [Hb Hp] Hst. split; [|eapply fixed_pos_ok; [apply set_io_fixed|done]].
  apply buffers_swap. eapply buffers_step; [apply buffers_swap, Hb|exact Hst].
Qed.

Lemma keeps_io {A} (cmd : Cmd s2n_stuffer A) :
  (forall w s, world_ok w -> stuffer_ok (hp w) s -> safe cmd w s) ->
  keeps conn_ok fixed (zoom handshake_io_lens cmd).
Proof.
  intros Hsafe w c Hc. apply wp_zoom. pose proof (conn_bufs _ _ Hc) as Hb.
  eapply wp_mono; [apply Hsafe; [apply Hb|apply Hb]| |]; intros ? w' s' Hst;
    (split; [by eapply conn_ok_io|apply set_io_fixed]).
Qed.

Lemma keeps_out {A} (cmd : Cmd s2n_stuffer A) :
  (forall w s, world_ok w -> stuffer_ok (hp w) s -> safe cmd w s) ->
  keeps conn_ok fixed (zoom out_lens cmd).
Proof.
  intros Hsafe w c Hc. apply wp_zoom. pose proof (conn_bufs _ _ Hc) as Hb. pose proof (buffers_rotate _ _ _ _ Hb) as Hr.
  assert (Hset : forall w' s', step_ok w (out_stuffer c) w' s' ->
    conn_ok w' (set_out_stuffer s' c) /\ fixed c (set_out_stuffer s' c)).
  { intros w' s' Hst. split; [split|split; [by split|apply Z.le_refl]].
    - apply buffers_rotate, buffers_rotate. eapply buffers_step; [exact Hr|exact Hst].
    - eapply fixed_pos_ok; [|apply Hc]. by split. }
  eapply wp_mono; [apply Hsafe; [apply Hb|apply Hr]| |]; intros ? w' s' Hst; by apply Hset.
Qed.

Lemma keeps_in_reread : keeps conn_ok fixed_pos (zoom in_lens s2n_stuffer_reread).
Proof.
  intros w c Hc. apply wp_zoom. pose proof (conn_bufs _ _ Hc) as Hb. apply wp_reread; [apply Hb|].
  split; [split|by split].
  - eapply buffers_cursors; [exact Hb| |done]. apply set_read_ok; [apply Hb|].
    pose proof (ok_read _ _ (buf_1 _ _ _ _ Hb)). simpl. lia.
  - eapply fixed_pos_ok; [|apply Hc]. by split.
Qed.

End Buffers.

(** ** Moving handshake data from the record to the message buffer *)

Section Moving.
Context `{HP : Platform} `{!BlobAllocator}.
Context (out : s2n_stuffer).

Definition pair_ok (w : world) (st : s2n_stuffer * s2n_stuffer) : Prop := buffers_ok w (fst st) (snd st) out.
Definition pair_left (st : s2n_stuffer * s2n_stuffer) : Z := s2n_stuffer_data_available (fst st).
Definition pair_rel (st st' : s2n_stuffer * s2n_stuffer) : Prop := pair_left st' <= pair_left st.

#[local] Instance pair_rel_preorder : PreOrder pair_rel.
Proof. split; [intros st; apply Z.le_refl|]. intros a b c. unfold pair_rel. lia. Qed.

Lemma buffers_copy_state w a b d : buffers_ok w a b d -> copy_state w a b.
Proof. intros []. by split. Qed.

Lemma wp_copy_pair w st len :
  pair_ok w st -> is_u32 len ->
  wp (s2n_stuffer_copy len) (w, st)
    (fun _ w' st' => pair_ok w' st' /\ pair_left st' = pair_left st - len)
    (fun _ w' st' => pair_ok w' st' /\ pair_rel st st').
Proof.
  intros Hb Hlen. destruct st as [a b]. unfold pair_ok, pair_left, pair_rel in *. simpl in *.
  pose proof (buf_1 _ _ _ _ Hb) as Ha. apply wp_copy_step; [by eapply buffers_copy_state|done| |].
  - intros w' a' b' Hle [-> _ Happ] Hcs. simpl.
    assert (Ha' : stuffer_ok (hp w') (advanced len a)) by apply Hcs. split.
    + apply (buffers_cursors w' a); [|done|reflexivity]. apply buffers_swap.
      eapply buffers_step; [apply buffers_swap, Hb|apply Happ].
    + rewrite (data_available_eq Ha'), (data_available_eq Ha). simpl. lia.
  - intros e w' _ _ _ Hst Hcs. simpl. split; [|unfold pair_left; simpl; lia].
    apply buffers_swap. eapply buffers_step; [apply buffers_swap, Hb|exact Hst].
Qed.

Lemma pair_left_nonneg st : 0 <= pair_left st < 2 ^ 32.
Proof. unfold pair_left, s2n_stuffer_data_available. apply u32_range. Qed.

Lemma keeps_copy_pair len : is_u32 len -> keeps pair_ok pair_rel (s2n_stuffer_copy len).
Proof.
  intros Hlen w st Hb. eapply wp_mono; [by apply wp_copy_pair| |done].
  intros [] w' st' [Hb' Hleft]. split; [done|]. unfold pair_rel, is_u32 in *. lia.
Qed.

Lemma keeps_pair_io {A} (cmd : Cmd s2n_stuffer A) :
  (forall w s, world_ok w -> stuffer_ok (hp w) s -> safe cmd w s) ->
  keeps pair_ok pair_rel (zoom snd_lens cmd).
Proof.
  intros Hsafe w [a b] Hb. apply wp_zoom. unfold pair_ok in *. simpl in *.
  assert (Hset : forall w' s', step_ok w b w' s' -> buffers_ok w' a s' out /\ pair_rel (a, b) (a, s')).
  { intros w' s' Hst. split; [|apply Z.le_refl]. apply buffers_swap. eapply buffers_step; [apply buffers_swap, Hb|done]. }
  eapply wp_mono; [apply Hsafe; [apply Hb|apply Hb]| |]; intros ? w' s' Hst; by apply Hset.
Qed.

Lemma safe_read_uint wd w s : world_ok w -> stuffer_ok (hp w) s -> safe (read_uint wd) w s.
Proof.
  intros [Hh ?] Hs. apply wp_read_uint; [done|done| |intros; by apply step_ok_refl].
  intros Hle. apply step_ok_read; [done|done|destruct wd; simpl; lia|done].
Qed.

Lemma safe_parse_header w s : world_ok w -> stuffer_ok (hp w) s -> safe s2n_handshake_parse_header w s.
Proof.
  intros Hw Hs. apply wp_bind, wp_get_obj, safe_bind; [by apply safe_ensure|]. intros [] w1 s1 H1.
  assert (Hw1 : world_ok w1) by (by eapply step_world_ok). pose proof (step_stuffer _ _ _ _ H1) as Hs1.
  apply safe_bind; [by apply (safe_read_uint W8)|]. intros ty w2 s2 H2.
  assert (Hw2 : world_ok w2) by (by eapply step_world_ok). pose proof (step_stuffer _ _ _ _ H2) as Hs2.
  apply safe_bind; [by apply (safe_read_uint W24)|]. intros n w3 s3 H3.
  apply wp_ret, step_ok_refl; [apply H3|apply H3].
Qed.

Lemma keeps_take_body : keeps pair_ok pair_rel take_message_body.
Proof.
  apply keeps_bind; [apply keeps_pair_io, safe_parse_header|]. intros [ty len].
  apply keeps_bind; [apply keeps_ensure|intros []]. apply keeps_get_any. intros st.
  apply keeps_bind.
  - apply keeps_copy_pair. pose proof (pair_left_nonneg st) as Hl. unfold pair_left in Hl.
    pose proof (u32_range (len - s2n_stuffer_data_available (snd st))) as Hr. unfold is_u32 in *. lia.
  - intros []. apply keeps_get_any. intros st'. apply keeps_if; [apply keeps_ret|].
    apply keeps_bind; [|intros []; apply keeps_ret].
    apply keeps_pair_io. intros. by apply safe_undiscard, (safe_run_op OpReread).
Qed.

Lemma keeps_read_full : keeps pair_ok pair_rel s2n_read_full_handshake_message.
Proof.
  apply keeps_get_any. intros st. pose proof (pair_left_nonneg st) as Hl. unfold pair_left in Hl.
  pose proof (u32_range (write_cursor (snd st) - read_cursor (snd st))) as Hr.
  fold (s2n_stuffer_data_available (snd st)) in Hr. unfold TLS_HANDSHAKE_HEADER_LENGTH, is_u32 in *.
  destruct (Z.ltb_spec (s2n_stuffer_data_available (snd st)) 4) as [Hlt|_]; [|apply keeps_take_body].
  apply keeps_if; (apply keeps_bind; [apply keeps_copy_pair; unfold is_u32; lia|intros []]).
  - apply keeps_ret.
  - apply keeps_take_body.
Qed.

(** A whole message found with an empty message buffer consumes some of the record. *)
Lemma wp_read_full_progress w st :
  pair_ok w st -> s2n_stuffer_data_available (snd st) = 0 ->
  wp s2n_read_full_handshake_message (w, st)
    (fun r w' st' => pair_ok w' st' /\ pair_rel st st' /\ (fst r = false -> pair_left st' < pair_left st))
    (fun _ w' st' => pair_ok w' st' /\ pair_rel st st').
Proof.
  intros Hb Hio. pose proof (pair_left_nonneg st) as Hl. apply wp_bind, wp_get_obj. rewrite Hio.
  cbv zeta. change (0 <? TLS_HANDSHAKE_HEADER_LENGTH) with true. change (TLS_HANDSHAKE_HEADER_LENGTH - 0) with 4.
  cbv iota. fold (pair_left st). destruct (Z.ltb_spec (pair_left st) 4) as [Hlt|Hge].
  - apply wp_bind. eapply wp_mono; [by apply wp_copy_pair| |done]. intros [] w' st' [Hb' Hleft].
    apply wp_ret. split; [done|]. split; [unfold pair_rel; lia|done].
  - apply wp_bind. eapply wp_mono; [apply wp_copy_pair; [done|unfold is_u32; lia]| |done]. intros [] w' st' [Hb' Hleft].
    eapply wp_mono; [by apply keeps_take_body| |]; unfold pair_rel; intros ? w2 st2 [Hb2 Hrel]; (split; [done|]); lia.
Qed.

End Moving.

(** ** What the other components promise to the driver *)

Definition active_handler (c : s2n_connection) : option handler :=
  if is_client c then client_handler (ACTIVE_STATE c) else server_handler (ACTIVE_STATE c).

(** A handler may change the handshake type but neither the message number nor
    the record being read; when it is the handler of the active message and
    succeeds, there is a next message, and a server has negotiated.  Everything
    else leaves the position alone, and only reading a record adds bytes to it;
    what runs between two messages leaves the message buffer empty.
    Writing a record makes progress. *)
Class HandshakeEnvOk `{HandshakeEnv} : Prop := {
  handler_ok h w c : conn_ok w c ->
    wp (run_handler h) (w, c)
       (fun _ w' c' => conn_ok w' c' /\ stays c c' /\ (active_handler c = Some h -> ready c'))
       (fun _ w' c' => conn_ok w' c' /\ stays c c');
  record_writev_ok ty base from n w c : conn_ok w c -> 0 < n < 2 ^ 32 ->
    wp (record_writev ty base from n) (w, c)
       (fun written w' c' => 0 < written <= n /\ conn_ok w' c' /\ fixed c c')
       (fun _ w' c' => conn_ok w' c' /\ fixed c c');
  read_full_record_ok : keeps conn_ok fixed_pos read_full_record;
  quic_read_ok : keeps conn_ok fixed_pos quic_read_handshake_message;
  quic_write_ok : keeps conn_ok fixed quic_write_handshake_message;
  record_wipe_ok : keeps conn_ok fixed record_wipe;
  flush_ok : keeps (on_fst conn_ok) (rel_fst fixed_shut) flush;
  transcript_update_ok : keeps conn_ok fixed handshake_transcript_update;
  sslv2_hashes_ok : keeps conn_ok fixed update_sslv2_hashes;
  secrets_update_ok : keeps conn_ok quiet tls13_secrets_update;
  key_schedule_update_ok : keeps conn_ok quiet tls13_key_schedule_update;
  secrets_clean_ok : keeps conn_ok fixed tls13_secrets_clean;
  post_handshake_send_ok : keeps (on_fst conn_ok) (rel_fst fixed) post_handshake_send;
  process_alert_ok : keeps conn_ok fixed process_alert_fragment;
  early_data_bytes_ok n : keeps conn_ok fixed (early_data_record_bytes n);
  early_data_recv_ok : keeps conn_ok fixed early_data_validate_recv;
  renegotiate_ok : keeps conn_ok fixed renegotiate_validate;
  hello_request_ok : keeps conn_ok fixed client_hello_request_validate;
  delay_ok : keeps conn_ok fixed_shut connection_blinding_delay;
  cache_delete_ok : keeps conn_ok fixed cache_delete;
  free_in_ok : keeps conn_ok fixed dynamic_free_in_buffer;
  free_out_ok : keeps conn_ok fixed dynamic_free_out_buffer;
  quickack_ok : keeps conn_ok quiet socket_quickack;
  cork_ok : keeps conn_ok quiet socket_write_cork;
  uncork_ok : keeps conn_ok quiet socket_write_uncork;
}.

Create HintDb driver.
#[export] Hint Resolve quic_write_ok record_wipe_ok transcript_update_ok sslv2_hashes_ok secrets_update_ok
  key_schedule_update_ok secrets_clean_ok process_alert_ok early_data_bytes_ok early_data_recv_ok
  renegotiate_ok hello_request_ok cache_delete_ok free_in_ok free_out_ok quickack_ok cork_ok
  uncork_ok : driver.

(** Neither success nor a blocking condition. *)
Definition fatal (e : s2n_error) : Prop := e <> S2N_ERR_OK /\ S2N_ERROR_IS_BLOCKING e = false.

Section Driver.
Context `{HP : Platform} `{!BlobAllocator} `{HE : HandshakeEnv} `{!HandshakeEnvOk}.

Lemma flush_fixed : keeps (on_fst conn_ok) (rel_fst fixed) flush.
Proof. apply (keeps_weaken (rel_fst fixed_shut)); [by intros c c' []|apply flush_ok]. Qed.

(** ** Closing a connection after an error *)

Lemma wp_wipe_in w c Q E :
  conn_ok w c -> (forall w' c', conn_ok w' c' -> fixed_shut c c' -> Q tt w' c') ->
  wp (zoom in_lens s2n_stuffer_wipe) (w, c) Q E.
Proof.
  intros Hc HQ. pose proof (conn_bufs _ _ Hc) as Hb. pose proof (unread_len (buf_1 _ _ _ _ Hb)) as Hl.
  apply wp_zoom, wp_wipe; [apply Hb|apply Hb|]. intros h' _ Hst.
  apply HQ; [|split; [|done]; split; [done|]].
  - split; [by eapply buffers_step|]. eapply fixed_pos_ok; [|apply Hc]. by split.
  - unfold record_left. rewrite (data_available_eq (buf_1 _ _ _ _ Hb)), <- Hl. apply zlen_nonneg.
Qed.

Lemma wp_set_closed w c Q E :
  conn_ok w c -> (forall c', conn_ok w c' -> fixed c c' -> closed c' -> Q tt w c') ->
  wp s2n_connection_set_closed (w, c) Q E.
Proof.
  intros Hc HQ. apply wp_bind, wp_modify, wp_modify. apply HQ; [|split; [done|apply Z.le_refl]|done].
  split; [apply Hc|]. eapply fixed_pos_ok; [|apply Hc]. by split.
Qed.

(** The connection is closed when the error is fatal, even if the delay fails. *)
Lemma wp_apply_blinding e w c :
  conn_ok w c ->
  wp (s2n_connection_apply_error_blinding e) (w, c)
    (fun _ w' c' => conn_ok w' c' /\ fixed c c' /\ (fatal e -> closed c'))
    (fun _ w' c' => conn_ok w' c' /\ fixed c c' /\ closed c').
Proof.
  intros Hc. apply wp_bind, wp_wipe_in; [done|]. intros w1 c1 Hc1 [Hf1 _]. cbv zeta.
  destruct (_ =? error_type_value S2N_ERR_T_OK) eqn:Hok.
  { apply wp_ret. split_goal; [done|done|]. intros [Hne _]. destruct Hne. by destruct e. }
  destruct (_ =? error_type_value S2N_ERR_T_BLOCKED) eqn:Hbl.
  { apply wp_ret. split_goal; [done|done|]. intros [_ Hb]. unfold S2N_ERROR_IS_BLOCKING in Hb. congruence. }
  destruct (error_not_blinded e); [|apply wp_bind]; (apply wp_set_closed; [done|]); intros c2 Hc2 Hf2 Hcl.
  - split_goal; [done|by etrans|done].
  - eapply wp_mono; [by apply delay_ok| |]; intros ? w3 c3 [Hc3 [Hf3 Hs3]];
      (split_goal; [done|by etrans; [etrans|]|auto]).
Qed.

Lemma blinding_ok e : keeps conn_ok fixed (s2n_connection_apply_error_blinding e).
Proof. intros w c Hc. eapply wp_mono; [by apply wp_apply_blinding| |]; by intros ? w' c' (? & ? & _). Qed.

(** ** The active message and its handler *)

Lemma wp_active_message w c Q E :
  position_ok c -> Q (ACTIVE_MESSAGE c) w c -> wp active_message (w, c) Q E.
Proof. intros Hc HQ. apply wp_bind, wp_get_obj. rewrite (position_in_table_ok c Hc). by apply wp_ret. Qed.

Lemma wp_active_state w c Q E : position_ok c -> Q (ACTIVE_STATE c) w c -> wp active_state (w, c) Q E.
Proof. intros Hc HQ. apply wp_bind, wp_active_message; [done|]. apply wp_bind, wp_get_obj. by apply wp_ret. Qed.

Lemma keeps_active_state R `{!PreOrder R} : keeps conn_ok R active_state.
Proof. intros w c Hc. by apply wp_active_state; [apply Hc|]. Qed.

Lemma keeps_active_message R `{!PreOrder R} : keeps conn_ok R active_message.
Proof. intros w c Hc. by apply wp_active_message; [apply Hc|]. Qed.

Lemma keeps_expected_record R `{!PreOrder R} : keeps conn_ok R EXPECTED_RECORD_TYPE.
Proof. apply keeps_bind; [by apply keeps_active_state|]. intros a. apply keeps_ret. Qed.

Lemma keeps_expected_message R `{!PreOrder R} : keeps conn_ok R EXPECTED_MESSAGE_TYPE.
Proof. apply keeps_bind; [by apply keeps_active_state|]. intros a. apply keeps_ret. Qed.

Lemma keeps_is_writer R `{!PreOrder R} : keeps conn_ok R CONNECTION_IS_WRITER.
Proof. apply keeps_bind; [by apply keeps_active_state|]. intros a. apply keeps_get_any. intros c. apply keeps_ret. Qed.

Lemma keeps_in_io {A} (cmd : Cmd (s2n_stuffer * s2n_stuffer) A) :
  (forall out, keeps (pair_ok out) pair_rel cmd) -> keeps conn_ok fixed (zoom in_io_lens cmd).
Proof.
  intros Hk w c Hc. apply wp_zoom.
  eapply wp_mono; [apply (Hk (out_stuffer c)), Hc| |]; intros ? w' [a b] [Hb Hrel];
    (split; [split; [exact Hb|eapply fixed_pos_ok; [|apply Hc]; by split]|split; [by split|exact Hrel]]).
Qed.

Lemma wp_call_active w c :
  conn_ok w c ->
  wp (call_action (ACTIVE_STATE c)) (w, c)
     (fun _ w' c' => conn_ready w' c' /\ stays c c') (fun _ w' c' => conn_ok w' c' /\ stays c c').
Proof.
  intros Hc. apply wp_bind, wp_get_obj. fold (active_handler c).
  assert (Hsome : active_handler c <> None).
  { unfold active_handler. destruct (handlers_here c (conn_pos _ _ Hc)). by destruct (is_client c). }
  destruct (active_handler c) as [h|] eqn:Hh; [|done].
  assert (Hrun : wp (run_handler h) (w, c)
     (fun _ w' c' => conn_ready w' c' /\ stays c c') (fun _ w' c' => conn_ok w' c' /\ stays c c')).
  { eapply wp_mono; [by apply handler_ok| |done]. intros [] w' c' (? & ? & Hr). split; [split; [done|by apply Hr]|done]. }
  unfold call_handler. destruct h; try exact Hrun; by apply wp_fail.
Qed.

Lemma keeps_handler h : keeps conn_ok stays (call_handler (Some h)).
Proof.
  assert (Hrun : keeps conn_ok stays (run_handler h)).
  { intros w c Hc. eapply wp_mono; [by apply handler_ok| |done]. by intros [] w' c' (? & ? & _). }
  unfold call_handler. destruct h; try exact Hrun; apply keeps_fail.
Qed.

Lemma keeps_call_ccs : keeps conn_ok stays (c <-- get_obj ;; call_action (CCS_STATE c)).
Proof.
  apply keeps_get_any. intros c. apply keeps_get_any. intros c'.
  assert (Hs : exists a b, server_handler (CCS_STATE c) = Some a /\ client_handler (CCS_STATE c) = Some b).
  { unfold CCS_STATE, ACTIVE_STATE_MACHINE. destruct (is_client c), (IS_TLS13_HANDSHAKE c); by repeat eexists. }
  destruct Hs as (a & b & -> & ->). destruct (is_client c'); apply keeps_handler.
Qed.

Lemma quiet_in_fixed {A} (cmd : Cmd s2n_connection A) : keeps conn_ok quiet cmd -> keeps conn_ok fixed cmd.
Proof. apply keeps_weaken. by intros ? ? []. Qed.

Lemma fixed_in_stays {A} (cmd : Cmd s2n_connection A) : keeps conn_ok fixed cmd -> keeps conn_ok stays cmd.
Proof. apply keeps_weaken, fixed_stays. Qed.

Lemma fixed_in_onward {A} (cmd : Cmd s2n_connection A) : keeps conn_ok fixed cmd -> keeps conn_ok onward_in cmd.
Proof. apply keeps_weaken, fixed_onward_in. Qed.

Lemma stays_in_onward {A} (cmd : Cmd s2n_connection A) : keeps conn_ok stays cmd -> keeps conn_ok onward_in cmd.
Proof. apply keeps_weaken, stays_onward_in. Qed.

Lemma onward_in_onward {A} (cmd : Cmd s2n_connection A) : keeps conn_ok onward_in cmd -> keeps conn_ok onward cmd.
Proof. apply keeps_weaken. by intros ? ? []. Qed.

Lemma wp_blinding cmd w c Q :
  wp cmd (w, c) Q (fun _ w' c' => conn_ok w' c' /\ stays c c') ->
  wp (with_error_blinding cmd) (w, c) Q (fun _ w' c' => conn_ok w' c' /\ stays c c').
Proof.
  intros Hc. apply wp_bind, wp_attempt. eapply wp_mono; [exact Hc|by intros [] w' c' HQ; apply wp_ret|].
  intros e w' c' [Hok Hst]. apply wp_bind.
  eapply wp_mono; [by apply blinding_ok| |]; intros ? w2 c2 [Hok2 Hf]; [apply wp_fail|];
    (split; [done|etrans; [done|by apply fixed_stays]]).
Qed.

(** ** Advancing *)

Lemma conn_ok_next w c : conn_ready w c -> conn_ok w (at_next c).
Proof. intros [[Hb Hp] Hr]. split; [exact Hb|by apply position_next]. Qed.

Lemma onward_next c : onward_quiet c (at_next c).
Proof. split; [|done]. split; [split; [done|simpl; lia]|apply Z.le_refl]. Qed.

Lemma keeps_uncorking this_mode previous_writer :
  keeps conn_ok quiet
    (socket_quickack ;;;
     c <-- get_obj ;;
     if negb (corked_io c) || socket_was_corked c then ret tt
     else
       a <-- active_state ;;
       if writer_eqb (writer a) previous_writer then ret tt
       else if writer_eqb (writer a) this_mode then
         c <-- get_obj ;;
         if connection_is_managed_corked c then socket_write_cork else ret tt
       else
         c <-- get_obj ;;
         if connection_is_managed_corked c then socket_write_uncork else ret tt).
Proof.
  apply keeps_bind; [auto with driver|intros []]. apply keeps_get_any. intros c.
  apply keeps_if; [apply keeps_ret|]. apply keeps_bind; [apply keeps_active_state, _|]. intros a.
  apply keeps_if; [apply keeps_ret|]. apply keeps_if; apply keeps_get_any; intros ?;
    (apply keeps_if; [auto with driver|apply keeps_ret]).
Qed.

Lemma wp_advance w c :
  conn_ready w c ->
  wp s2n_advance_message (w, c) (fun _ w' c' => conn_ok w' c' /\ onward_quiet c c') (fun _ w' c' => conn_ok w' c' /\ onward_quiet c c').
Proof.
  intros Hc. apply wp_bind, wp_active_state; [apply Hc|]. apply wp_bind, wp_get_obj, wp_bind, wp_modify.
  fold (at_next c). pose proof (conn_ok_next _ _ Hc) as Hn.
  apply wp_bind, wp_active_state; [apply Hn|].
  assert (Hrest : forall c1, conn_ok w c1 -> onward_quiet c c1 -> forall cmd, keeps conn_ok quiet cmd ->
    wp cmd (w, c1) (fun (_ : unit) w' c' => conn_ok w' c' /\ onward_quiet c c') (fun _ w' c' => conn_ok w' c' /\ onward_quiet c c')).
  { intros c1 Hc1 Ho cmd Hk. apply (wp_related (I := conn_ok) _ w c1 c); [done|]. apply (keeps_weaken quiet); [apply quiet_onward_quiet|done|done]. }
  destruct (negb _ && _ && _) eqn:Hskip; apply wp_bind.
  - apply wp_modify. zbool. fold (at_next (at_next c)).
    apply Hrest; [|by etrans; apply onward_next|apply keeps_uncorking].
    apply conn_ok_next. split; [done|]. by apply ccs_ready; [apply Hn|].
  - apply wp_ret. apply Hrest; [done|apply onward_next|apply keeps_uncorking].
Qed.

End Driver.

End HandshakeDriver.
Export HandshakeDriver.
