(* ===== verification/HandshakeNegotiation.v ===== *)
(** * Reading, writing and negotiating keep the handshake on its rails

    Each function of the driver, from s2n_handshake_write_io to
    s2n_negotiate_impl, keeps the invariant of [HandshakeSafety] when the other
    components keep the contract of [HandshakeDriver]. *)
From S2P Require Import Prelude Errors CMem Platform Safety Blob Alloc Stuffer StufferInv StufferWrite StufferSpec StufferTheorems NetworkOrder.
From S2P Require Import HandshakeTables Connection HandshakeOrder HandshakeTypes HandshakeMessage HandshakeIO HandshakeSafety HandshakeDriver.
Open Scope Z_scope.

Module HandshakeNegotiation.

Section Driver.
Context `{HP : Platform} `{!BlobAllocator} `{HE : HandshakeEnv} `{!HandshakeEnvOk}.

#[local] Hint Resolve quiet_in_fixed fixed_in_stays fixed_in_onward stays_in_onward onward_in_onward : driver.
#[local] Hint Extern 1 (PreOrder _) => apply _ : driver.

(** ** Sending a message *)

Lemma wp_message_send_loop fuel ty base size total w st :
  0 <= total <= size -> size < 2 ^ 32 -> size - total <= Z.of_nat fuel -> on_fst conn_ok w st ->
  wp (message_send_loop fuel ty base size total) (w, st)
    (fun _ w' st' => on_fst conn_ok w' st' /\ rel_fst fixed st st') (fun _ w' st' => on_fst conn_ok w' st' /\ rel_fst fixed st st').
Proof.
  revert total w st. induction fuel as [|fuel IH]; intros total w st Ht Hs Hf Hok; simpl.
  - rewrite (proj2 (Z.ltb_ge _ _)) by lia. by apply wp_ret.
  - destruct (Z.ltb_spec total size) as [Hlt|]; [|by apply wp_ret].
    rewrite u32_small by lia. destruct st as [c b]. apply wp_bind, wp_zoom.
    eapply wp_mono; [apply record_writev_ok; [exact Hok|lia]| |done]. intros n w1 c1 (Hn & Hok1 & Hf1).
    apply (wp_related (I := on_fst conn_ok) _ w1 (c1, b)); [exact Hf1|].
    assert (Hskip : keeps (on_fst conn_ok) (rel_fst (Y := s2n_blocked_status) fixed)
      (on_conn (zoom handshake_io_lens (s2n_stuffer_skip_read (u32 n))))).
    { apply keeps_on_conn, keeps_io. intros w' s' ? ?. apply safe_undiscard, (safe_run_op (OpSkipRead (u32 n))); [done..|apply u32_range]. }
    apply wp_bind. eapply wp_mono; [by apply Hskip| |done]. intros [] w2 st2 [Hok2 Hr2].
    apply (wp_related (I := on_fst conn_ok) _ w2 st2); [done|].
    apply wp_bind. eapply wp_mono; [by apply flush_fixed| |done]. intros [] w3 st3 [Hok3 Hr3].
    apply (wp_related (I := on_fst conn_ok) _ w3 st3); [done|].
    rewrite u32_small by lia. apply IH; [lia..|done].
Qed.

Lemma keeps_message_send ty : keeps (on_fst conn_ok) (rel_fst fixed) (s2n_handshake_message_send ty).
Proof.
  intros w [c b] Hok. apply wp_bind, wp_zoom, wp_get_obj. cbn [lget lset fst_lens fst snd].
  set (n := s2n_stuffer_data_available _). pose proof (u32_range (write_cursor (handshake_io (handshake c)) - read_cursor (handshake_io (handshake c)))) as Hn.
  change (is_u32 n) in Hn.
  revert w b Hok. assert (Hk : keeps (on_fst (Y := s2n_blocked_status) conn_ok) (rel_fst fixed)
    (if n =? 0 then ret tt
     else if s2n_connection_is_quic_enabled c then on_conn quic_write_handshake_message ;;; flush
     else
       r <-- on_conn (zoom handshake_io_lens (attempt (s2n_stuffer_raw_read n))) ;;
       ensure_ref match r with inl p => p | inr _ => None end ;;;
       on_conn (zoom handshake_io_lens (s2n_stuffer_rewind_read n)) ;;;
       message_send_loop (Z.to_nat n) ty match r with inl p => p | inr _ => None end n 0)).
  { apply keeps_if; [apply keeps_ret|]. apply keeps_if.
    - apply keeps_bind; [apply keeps_on_conn; auto with driver|intros []; apply flush_fixed].
    - apply keeps_bind.
      + apply keeps_on_conn, keeps_io. intros w s Hw Hs. apply wp_attempt.
        by apply safe_undiscard, (safe_run_op (OpRawRead n)).
      + intros r. apply keeps_bind; [apply keeps_ensure|intros []]. apply keeps_bind.
        * apply keeps_on_conn, keeps_io. intros w s Hw Hs. by apply safe_undiscard, (safe_run_op (OpRewindRead n)).
        * intros [] w st Hok. unfold is_u32 in Hn. apply wp_message_send_loop; [lia..|done]. }
  intros w b Hok. by apply Hk.
Qed.

(** ** Between the handler and the next message *)

(** From a connection whose message has been dealt with, [cmd] ends with the
    next one. *)
Definition completes (cmd : Cmd s2n_connection unit) : Prop :=
  forall w c, conn_ready w c ->
    wp cmd (w, c) (fun _ w' c' => conn_ok w' c' /\ onward_in c c') (fun _ w' c' => conn_ok w' c' /\ onward_in c c').

Lemma completes_bind {A} (cmd : Cmd s2n_connection A) k :
  keeps conn_ok fixed cmd -> completes k -> completes (cmd ;;; k).
Proof.
  intros Hc Hk w c Hr. apply wp_bind.
  eapply wp_mono; [by apply (keeps_ready cmd)| |]; intros ? w' c' [Hr' Hf];
    [|by split; [apply Hr'|apply fixed_onward_in]].
  apply (wp_related (I := conn_ok) _ w' c'); [by apply fixed_onward_in|]. by apply Hk.
Qed.

Lemma completes_advance : completes s2n_advance_message.
Proof.
  intros w c Hr. eapply wp_mono; [by apply wp_advance| |]; intros ? w' c' [? []]; done.
Qed.

Lemma keeps_wipe_io : keeps conn_ok fixed (zoom handshake_io_lens s2n_stuffer_wipe).
Proof. apply keeps_io. intros w s Hw Hs. by apply safe_undiscard, (safe_run_op OpWipe). Qed.

Lemma keeps_wipe_out : keeps conn_ok fixed (zoom out_lens s2n_stuffer_wipe).
Proof. apply keeps_out. intros w s Hw Hs. by apply safe_undiscard, (safe_run_op OpWipe). Qed.

Lemma wp_wipe_io w c Q E :
  conn_ok w c -> (forall w' c', conn_ok w' c' -> fixed c c' -> io_empty c' -> Q tt w' c') ->
  wp (zoom handshake_io_lens s2n_stuffer_wipe) (w, c) Q E.
Proof.
  intros Hc HQ. apply wp_zoom. pose proof (conn_bufs _ _ Hc) as Hb. apply wp_wipe; [apply Hb|apply Hb|].
  intros h' _ Hst. apply HQ; [by eapply conn_ok_io|apply set_io_fixed|done].
Qed.

(** After a handler has succeeded, the message buffer is emptied and the
    handshake advances. *)
Lemma wp_finish_read w c :
  conn_ready w c ->
  wp s2n_finish_read (w, c) (fun _ w' c' => (conn_ok w' c' /\ io_empty c') /\ onward_in c c')
    (fun _ w' c' => conn_ok w' c' /\ onward_in c c').
Proof.
  intros Hr. apply wp_bind. eapply wp_mono; [by apply (keeps_ready handshake_transcript_update); auto with driver| |];
    intros ? w1 c1 [Hr1 Hf1]; [|by split; [apply Hr1|apply fixed_onward_in]].
  apply (wp_related (I := conn_ok) _ w1 c1); [by apply fixed_onward_in|].
  apply wp_bind, wp_wipe_io; [apply Hr1|]. intros w2 c2 Hok2 Hf2 He2.
  apply (wp_related (I := conn_ok) _ w2 c2); [by apply fixed_onward_in|].
  assert (Hr2 : ready c2) by (eapply fixed_pos_ready; [apply Hf2|apply Hr1]).
  assert (Hq : forall cmd, keeps conn_ok quiet cmd -> forall (k : Cmd s2n_connection unit) w c, conn_ready w c -> io_empty c ->
    (forall w' c', conn_ready w' c' -> io_empty c' ->
      wp k (w', c') (fun _ w' c'' => (conn_ok w' c'' /\ io_empty c'') /\ onward_in c' c'') (fun _ w' c'' => conn_ok w' c'' /\ onward_in c' c'')) ->
    wp ((cmd : Cmd s2n_connection unit) ;;; k) (w, c) (fun _ w' c' => (conn_ok w' c' /\ io_empty c') /\ onward_in c c') (fun _ w' c' => conn_ok w' c' /\ onward_in c c')).
  { intros cmd Hk k w' c' [Hok Hrd] He Hkk. apply wp_bind.
    eapply wp_mono; [by apply Hk| |]; intros ? w3 c3 [Hok3 [Hf3 He3]]; [|by split; [|apply fixed_onward_in]].
    apply (wp_related (I := conn_ok) _ w3 c3); [by apply fixed_onward_in|]. apply Hkk; [|auto].
    split; [done|]. by eapply fixed_pos_ready; [apply Hf3|]. }
  apply Hq; [apply secrets_update_ok|by split|done|]. intros w3 c3 Hr3 He3.
  apply Hq; [apply key_schedule_update_ok|done|done|]. intros w4 c4 Hr4 He4.
  eapply wp_mono; [by apply wp_advance| |]; intros ? w5 c5 [Hok5 [Ho He5]]; auto.
Qed.

Lemma completes_finish_read : completes s2n_finish_read.
Proof.
  intros w c Hr. eapply wp_mono; [by apply wp_finish_read| |]; [by intros ? w' c' [[? ?] ?]|done].
Qed.

(** ** Writing *)

Lemma fixed_active c c' : fixed_pos c c' -> ACTIVE_STATE c' = ACTIVE_STATE c.
Proof. intros [Hm Hn Ht Ha]. rewrite !ACTIVE_STATE_at. unfold tls13, IS_TLS13_HANDSHAKE. by rewrite Hn, Ht, Ha. Qed.

Lemma message_type_u8 c : is_u8 (message_type (ACTIVE_STATE c)).
Proof.
  unfold ACTIVE_STATE, ACTIVE_STATE_MACHINE, is_u8. destruct (IS_TLS13_HANDSHAKE c), (ACTIVE_MESSAGE c);
    vm_compute; split; (discriminate || reflexivity).
Qed.

(** Filling the message buffer, once. *)
Lemma wp_produce_message w c rec :
  conn_ready w c ->
  wp (if s2n_stuffer_is_wiped (handshake_io (handshake c)) then
        a <-- active_state ;;
        (if rec =? TLS_HANDSHAKE
         then zoom handshake_io_lens (s2n_handshake_write_header (message_type a)) else ret tt) ;;;
        call_action a ;;;
        (if rec =? TLS_HANDSHAKE then zoom handshake_io_lens s2n_handshake_finish_header else ret tt)
      else ret tt) (w, c)
    (fun _ w' c' => conn_ready w' c' /\ onward_in c c') (fun _ w' c' => conn_ok w' c' /\ onward_in c c').
Proof.
  intros Hr. destruct (s2n_stuffer_is_wiped _); [|by apply wp_ret].
  apply wp_bind, wp_active_state; [apply Hr|]. apply wp_bind.
  assert (Hh : keeps conn_ok fixed (if rec =? TLS_HANDSHAKE
    then zoom handshake_io_lens (s2n_handshake_write_header (message_type (ACTIVE_STATE c))) else ret tt)).
  { apply keeps_if; [|apply keeps_ret]. apply keeps_io. intros w' s' ? ?. apply safe_write_header; [done..|apply message_type_u8]. }
  eapply wp_mono; [apply Hh, Hr| |by intros ? w' c' [? ?%fixed_onward_in]]. intros [] w1 c1 [Hok1 Hf1].
  rewrite <- (fixed_active c c1) by apply Hf1.
  apply wp_bind. eapply wp_mono; [by apply wp_call_active| |].
  2: { intros e w2 c2 [Hok2 Hst2]. split; [done|]. etrans; [by apply fixed_onward_in|by apply stays_onward_in]. }
  intros [] w2 c2 [Hr2 Hst2].
  assert (Ho : onward_in c c2) by (etrans; [by apply fixed_onward_in|by apply stays_onward_in]).
  assert (Hk : keeps conn_ok fixed (if rec =? TLS_HANDSHAKE then zoom handshake_io_lens s2n_handshake_finish_header else ret tt)).
  { apply keeps_if; [apply keeps_io, safe_finish_header|apply keeps_ret]. }
  eapply wp_mono; [by apply (keeps_ready _ Hk)| |]; intros ? w3 c3 [Hr3 Hf3];
    (split; [apply Hr3|etrans; [exact Ho|by apply fixed_onward_in]]).
Qed.

Lemma completes_write_io : completes s2n_handshake_write_io.
Proof.
  intros w c Hr. apply wp_bind, wp_bind, wp_active_state; [apply Hr|]. apply wp_ret.
  apply wp_bind, wp_get_obj, wp_bind.
  eapply wp_mono; [by apply wp_produce_message| |done]. intros [] w1 c1 [Hr1 Ho1].
  apply (wp_related (I := conn_ok) _ w1 c1); [done|]. revert w1 c1 Hr1 Ho1.
  assert (Hrest : completes (with_blocked (s2n_handshake_message_send (record_type (ACTIVE_STATE c))) ;;;
    (if record_type (ACTIVE_STATE c) =? TLS_HANDSHAKE then handshake_transcript_update else ret tt) ;;;
    zoom out_lens s2n_stuffer_wipe ;;;
    zoom handshake_io_lens s2n_stuffer_wipe ;;;
    tls13_secrets_update ;;;
    tls13_key_schedule_update ;;;
    s2n_advance_message)).
  { apply completes_bind; [apply keeps_with_blocked, keeps_message_send|].
    apply completes_bind; [apply keeps_if; [auto with driver|apply keeps_ret]|].
    apply completes_bind; [apply keeps_wipe_out|]. apply completes_bind; [apply keeps_wipe_io|].
    apply completes_bind; [auto with driver|]. apply completes_bind; [auto with driver|]. apply completes_advance. }
  intros w1 c1 Hr1 _. by apply Hrest.
Qed.

(** ** Reading *)

(** A change of the type that keeps the position. *)
Lemma conn_ok_retyped w c f :
  conn_ok w c -> position_ok (upd_handshake f c) -> handshake_io (f (handshake c)) = handshake_io (handshake c) ->
  conn_ok w (upd_handshake f c).
Proof. intros [Hb _] Hp Hio. split; [|done]. unfold conn_buffers in *. simpl. by rewrite Hio. Qed.

Lemma stays_retyped c f :
  message_number (f (handshake c)) = message_number (handshake c) -> stays c (upd_handshake f c).
Proof. intros Hn. split; [done|exact Hn|apply Z.le_refl]. Qed.

Lemma keeps_client_adapt msg : keeps conn_ok stays (client_adapt_type msg).
Proof.
  intros w c Hc. apply wp_bind, wp_get_obj. destruct (is_client c) eqn:Hcl; [|by apply wp_ret].
  cbv zeta. apply wp_bind.
  assert (Hrest : forall c1, conn_ok w c1 -> stays c c1 -> is_client c1 = true ->
    wp (expected <-- EXPECTED_MESSAGE_TYPE ;;
        if (expected =? TLS_SERVER_CERT_STATUS) && negb (msg =? TLS_SERVER_CERT_STATUS)
        then s2n_handshake_type_unset_tls12_flag OCSP_STATUS else ret tt) (w, c1)
      (fun _ w' c' => conn_ok w' c' /\ stays c c') (fun _ w' c' => conn_ok w' c' /\ stays c c')).
  { intros c1 Hc1 Hs1 Hcl1. apply wp_bind, wp_bind, wp_active_state; [apply Hc1|]. apply wp_ret.
    destruct (_ && _) eqn:Hocsp; [|by apply wp_ret]. zbool. apply wp_bind, wp_get_obj.
    apply wp_bind, wp_ensure; intros _; [|done]. apply wp_modify. split.
    - apply conn_ok_retyped; [done| |done]. apply position_no_ocsp; [apply Hc1|done|done].
    - etrans; [done|]. by apply stays_retyped. }
  destruct (_ && _); [|by apply wp_ret, Hrest].
  apply wp_bind, wp_ensure; intros _; [|done]. apply wp_bind, wp_ensure; intros Hfull; [|done].
  apply wp_modify, Hrest; [|by apply stays_retyped|done].
  apply conn_ok_retyped; [done| |done]. apply position_client_auth; [apply Hc|done|done].
Qed.

Lemma wp_dispatch w c rec msg :
  conn_ok w c ->
  wp (dispatch_message rec msg) (w, c) (fun _ w' c' => (conn_ok w' c' /\ io_empty c') /\ onward_in c c')
    (fun _ w' c' => conn_ok w' c' /\ onward_in c c').
Proof.
  intros Hc. pose proof (conn_pos _ _ Hc) as Hp.
  apply wp_bind, wp_bind, wp_active_state; [done|]. apply wp_ret.
  apply wp_bind. assert (Hpre : forall b e (Q : unit -> world -> s2n_connection -> Prop),
    Q tt w c -> wp (if b : bool then ensure e S2N_ERR_MISSING_CERT_REQUEST else ret tt) (w, c) Q
      (fun _ w' c' => conn_ok w' c' /\ onward_in c c')).
  { intros b e Q HQ. destruct b; [|by apply wp_ret]. by apply wp_ensure. }
  apply Hpre. apply wp_bind, wp_bind, wp_active_state; [done|]. apply wp_ret.
  apply wp_bind, wp_ensure; intros _; [|done].
  apply wp_bind, wp_bind, wp_active_state; [done|]. apply wp_ret.
  apply wp_bind, wp_ensure; intros _; [|done].
  apply wp_bind, wp_bind, wp_active_state; [done|]. apply wp_bind, wp_get_obj, wp_ret.
  apply wp_bind, wp_ensure; intros _; [|done].
  apply wp_bind, wp_active_state; [done|]. apply wp_bind.
  eapply wp_mono; [by apply wp_blinding, wp_call_active| |].
  - intros [] w1 c1 [Hr1 Hst1]. apply (wp_related (I := conn_ok) _ w1 c1); [by apply stays_onward_in|]. by apply wp_finish_read.
  - intros e w1 c1 [Hok1 Hst1]. split; [done|by apply stays_onward_in].
Qed.

(** Reading one message: if there is one, at least one byte fewer is left, unless
    the message was complete before. *)
Lemma wp_read_full_conn w c n :
  conn_ok w c -> record_left c < n \/ (io_empty c /\ record_left c <= n) ->
  wp (zoom in_io_lens s2n_read_full_handshake_message) (w, c)
    (fun r w' c' => conn_ok w' c' /\ fixed c c' /\ (fst r = false -> record_left c' < n))
    (fun _ w' c' => conn_ok w' c' /\ fixed c c').
Proof.
  intros Hc Hn. apply wp_zoom.
  assert (Hlift : forall (w' : world) st, pair_ok (out_stuffer c) w' st -> pair_rel (in_stuffer c, handshake_io (handshake c)) st ->
    conn_ok w' (lset in_io_lens st c) /\ fixed c (lset in_io_lens st c)).
  { intros w' [a b] Hb Hrel. split; [split; [exact Hb|eapply fixed_pos_ok; [|apply Hc]; by split]|split; [by split|exact Hrel]]. }
  destruct Hn as [Hlt|[He Hle]].
  - eapply wp_mono; [apply keeps_read_full, Hc| |]; intros r w' st [Hb Hrel]; [|by apply Hlift].
    destruct (Hlift w' st Hb Hrel) as [? Hfx]. split; [done|]. split; [done|]. intros _. destruct Hfx. lia.
  - eapply wp_mono; [apply (wp_read_full_progress (out_stuffer c)); [apply Hc|exact He]| |].
    + intros r w' [a b] (Hb & Hrel & Hprog). destruct (Hlift w' _ Hb Hrel) as [? Hfx]. split; [done|]. split; [done|].
      intros Hr. specialize (Hprog Hr). change (s2n_stuffer_data_available a < record_left c) in Hprog.
      change (s2n_stuffer_data_available a < n). lia.
    + intros e w' st [Hb Hrel]. by apply Hlift.
Qed.

(** Reading the messages of a record ends: every message but the first comes
    out of the record, so that one iteration per byte and one more is enough. *)
Lemma wp_read_messages fuel rec w c :
  conn_ok w c -> record_left c < Z.of_nat fuel \/ (io_empty c /\ record_left c <= Z.of_nat fuel) ->
  wp (read_messages fuel rec) (w, c)
    (fun _ w' c' => conn_ok w' c' /\ onward_in c c') (fun _ w' c' => conn_ok w' c' /\ onward_in c c').
Proof.
  revert w c. induction fuel as [|fuel IH]; intros w c Hc Hfuel; simpl; apply wp_bind, wp_get_obj; fold (record_left c);
    pose proof (u32_range (write_cursor (in_stuffer c) - read_cursor (in_stuffer c))) as Hleft;
    change (0 <= record_left c < 2 ^ 32) in Hleft;
    assert (Hwipe : keeps conn_ok onward_in record_wipe) by auto with driver;
    (destruct (Z.eqb_spec (record_left c) 0) as [Hz|Hnz]; [by apply Hwipe|]); [lia|].
  apply wp_bind, wp_bind, wp_active_state; [apply Hc|]. apply wp_ret.
  apply wp_bind, wp_ensure; intros _; [|done].
  apply wp_bind. eapply wp_mono; [by apply (wp_read_full_conn w c (Z.of_nat (S fuel)))| |by intros ? w' c' [? ?%fixed_onward_in]].
  intros [more msg] w1 c1 (Hc1 & Hf1 & Hp1). cbn [fst] in Hp1.
  apply (wp_related (I := conn_ok) _ w1 c1); [by apply fixed_onward_in|].
  destruct more; [by apply Hwipe|]. specialize (Hp1 eq_refl). apply wp_bind.
  eapply wp_mono; [by apply keeps_client_adapt| |by intros ? w' c' [? ?%stays_onward_in]].
  intros [] w2 c2 [Hc2 Hst2]. apply (wp_related (I := conn_ok) _ w2 c2); [by apply stays_onward_in|].
  assert (Hl2 : record_left c2 <= Z.of_nat fuel) by (destruct Hst2; lia).
  destruct (msg =? TLS_HELLO_REQUEST).
  - apply wp_bind. eapply wp_mono; [by apply hello_request_ok| |by intros ? w' c' [? ?%fixed_onward_in]].
    intros [] w3 c3 [Hc3 Hf3]. apply (wp_related (I := conn_ok) _ w3 c3); [by apply fixed_onward_in|].
    apply wp_bind, wp_wipe_io; [done|]. intros w4 c4 Hc4 Hf4 He4.
    apply (wp_related (I := conn_ok) _ w4 c4); [by apply fixed_onward_in|].
    apply IH; [done|right]. split; [done|]. destruct Hf3, Hf4. lia.
  - apply wp_bind. eapply wp_mono; [by apply wp_dispatch| |done]. intros [] w3 c3 [[Hc3 He3] Ho3].
    apply (wp_related (I := conn_ok) _ w3 c3); [done|]. apply IH; [done|right]. split; [done|]. destruct Ho3. lia.
Qed.

Lemma keeps_in_io_copy len : is_u32 len -> keeps conn_ok fixed (zoom in_io_lens (s2n_stuffer_copy len)).
Proof. intros Hl. apply keeps_in_io. intros out. by apply keeps_copy_pair. Qed.

Lemma available_u32 s : is_u32 (s2n_stuffer_data_available s).
Proof. apply u32_range. Qed.

Lemma fixed_version v c : fixed c (set_client_hello_version v c).
Proof. split; [by split|apply Z.le_refl]. Qed.

(** An error that is blinded and returned. *)
Lemma keeps_blinded_failure {A} e (k : Cmd s2n_connection A) :
  keeps conn_ok fixed (with_error_blinding (guard_rc (inr e)) ;;; k).
Proof.
  intros w c Hc. apply wp_bind, wp_bind, wp_attempt, wp_fail, wp_bind.
  eapply wp_mono; [by apply blinding_ok| |done]. intros [] w' c' Hc'. by apply wp_fail.
Qed.

Lemma keeps_handle_sslv2 : keeps conn_ok onward_in s2n_handshake_handle_sslv2.
Proof.
  apply keeps_bind; [apply keeps_active_message, _|intros m]. apply keeps_bind; [apply keeps_ensure|intros []].
  apply keeps_bind; [auto with driver|intros []]. apply keeps_get_any. intros c0.
  apply keeps_bind; [apply fixed_in_onward, keeps_in_io_copy, available_u32|intros []].
  apply keeps_bind; [|intros []].
  { apply fixed_in_onward, keeps_modify. intros w c [Hb Hp].
    split; [split; [exact Hb|eapply fixed_pos_ok; [apply fixed_version|done]]|apply fixed_version]. }
  intros w c Hc. apply wp_bind, wp_active_state; [apply Hc|]. apply wp_bind, wp_attempt.
  eapply wp_mono; [by apply wp_call_active| |].
  - intros [] w1 c1 [Hr1 Hst1]. apply (wp_related (I := conn_ok) _ w1 c1); [by apply stays_onward_in|].
    apply (completes_bind (zoom handshake_io_lens s2n_stuffer_wipe)); [apply keeps_wipe_io| |done].
    apply completes_bind; [auto with driver|]. apply completes_bind; [|apply completes_advance].
    apply (keeps_ret (I := conn_ok)).
  - intros e w1 c1 [Hok1 Hst1]. apply (wp_related (I := conn_ok) _ w1 c1); [by apply stays_onward_in|].
    apply fixed_in_onward; [|done].
    apply keeps_bind; [apply keeps_wipe_io|intros []]. apply keeps_bind; [auto with driver|intros []].
    apply keeps_blinded_failure.
Qed.

Lemma keeps_read_ccs : keeps conn_ok onward_in read_ccs.
Proof.
  apply keeps_get_any. intros c0. apply keeps_bind; [|intros []].
  { apply keeps_if; [|apply keeps_ret]. apply keeps_bind; [apply keeps_expected_record, _|intros rec].
    apply keeps_bind; [apply keeps_ensure|intros []]. apply keeps_bind; [apply keeps_is_writer, _|intros b]. apply keeps_ensure. }
  apply keeps_get_any. intros c1. apply keeps_bind; [apply keeps_ensure|intros []].
  apply keeps_bind; [apply fixed_in_onward, keeps_in_io_copy, available_u32|intros []].
  assert (Hccs : forall A (k : Cmd s2n_connection A), keeps conn_ok onward_in k ->
    keeps conn_ok onward_in (c <-- get_obj ;; call_action (CCS_STATE c) ;;; k)).
  { intros A k Hk w c Hc. pose proof (keeps_call_ccs w c Hc) as Hcall. apply wp_bind, wp_get_obj.
    apply wp_bind. eapply wp_mono; [exact Hcall| |by intros ? w' c' [? ?%stays_onward_in]].
    intros [] w' c' [Hc' Hst]. apply (wp_related (I := conn_ok) _ w' c'); [by apply stays_onward_in|by apply Hk]. }
  apply Hccs. apply keeps_bind; [apply fixed_in_onward, keeps_wipe_io|intros []].
  apply keeps_bind; [auto with driver|intros []].
  intros w c Hc. apply wp_bind, wp_bind, wp_active_state; [apply Hc|]. apply wp_ret.
  apply wp_bind, wp_bind, wp_active_state; [apply Hc|]. apply wp_bind, wp_get_obj, wp_ret.
  destruct (_ && _) eqn:Hexp; [|by apply wp_ret]. zbool. apply completes_advance. split; [done|].
  by apply ccs_ready; [apply Hc|].
Qed.

Lemma keeps_app_data_recv : keeps conn_ok fixed s2n_handshake_app_data_recv.
Proof.
  apply keeps_get_any. intros c. apply keeps_if; [|apply keeps_if; [|apply keeps_fail]].
  - apply keeps_bind; [auto with driver|intros []; apply keeps_fail].
  - apply keeps_bind; [auto with driver|intros []]. apply keeps_bind; [apply keeps_active_message, _|intros m].
    apply keeps_bind; [apply keeps_ensure|intros []; apply keeps_fail].
Qed.

(** A record, once it has been read. *)
Lemma keeps_process_record rec isSSLv2 :
  keeps conn_ok onward_in
    ((if isSSLv2 : bool then ensure (rec =? SSLv2_CLIENT_HELLO) S2N_ERR_BAD_MESSAGE ;;; s2n_handshake_handle_sslv2
      else ret tt) ;;;
     if rec =? TLS_APPLICATION_DATA then s2n_handshake_app_data_recv
     else if rec =? TLS_CHANGE_CIPHER_SPEC then read_ccs
     else if negb (rec =? TLS_HANDSHAKE) then
       (if rec =? TLS_ALERT then process_alert_fragment else ret tt) ;;; record_wipe
     else
       c <-- get_obj ;;
       ensure (negb (s2n_stuffer_data_available (in_stuffer c) =? 0)) S2N_ERR_BAD_MESSAGE ;;;
       read_messages (S (Z.to_nat (s2n_stuffer_data_available (in_stuffer c)))) rec).
Proof.
  apply keeps_bind; [|intros []].
  { apply keeps_if; [|apply keeps_ret]. apply keeps_bind; [apply keeps_ensure|intros []; apply keeps_handle_sslv2]. }
  apply keeps_if; [apply fixed_in_onward, keeps_app_data_recv|]. apply keeps_if; [apply keeps_read_ccs|].
  apply keeps_if.
  - apply keeps_bind; [apply keeps_if; [auto with driver|apply keeps_ret]|intros []; auto with driver].
  - intros w c Hc. apply wp_bind, wp_get_obj, wp_bind, wp_ensure; intros _; [|done].
    apply wp_read_messages; [done|left]. change (record_left c < Z.of_nat (S (Z.to_nat (record_left c)))). lia.
Qed.

Lemma fixed_pos_in_onward {A} (cmd : Cmd s2n_connection A) : keeps conn_ok fixed_pos cmd -> keeps conn_ok onward cmd.
Proof. apply keeps_weaken, fixed_pos_onward. Qed.

Lemma keeps_read_io : keeps conn_ok onward s2n_handshake_read_io.
Proof.
  apply keeps_get_any. intros c0. apply keeps_bind.
  - apply keeps_if.
    + apply keeps_bind; [apply fixed_pos_in_onward, quic_read_ok|intros ?; apply keeps_ret].
    + apply keeps_attempt, fixed_pos_in_onward, read_full_record_ok.
  - intros [[rec isSSLv2]|e]; [apply onward_in_onward, keeps_process_record|].
    apply keeps_if; [|apply keeps_fail].
    apply keeps_bind; [apply fixed_pos_in_onward, keeps_in_reread|intros []].
    apply keeps_get_any. intros c1. apply keeps_bind; [auto 6 with driver|intros []; auto 6 with driver].
Qed.

(** ** Resuming a paused handshake *)

Lemma completes_bind_value {A} (cmd : Cmd s2n_connection A) (k : A -> Cmd s2n_connection unit) :
  keeps conn_ok fixed cmd -> (forall a, completes (k a)) -> completes (bind cmd k).
Proof.
  intros Hc Hk w c Hr. apply wp_bind.
  eapply wp_mono; [by apply (keeps_ready cmd)| |]; intros ? w' c' [Hr' Hf];
    [|by split; [apply Hr'|apply fixed_onward_in]].
  apply (wp_related (I := conn_ok) _ w' c'); [by apply fixed_onward_in|]. by apply Hk.
Qed.

Lemma completes_keeps (cmd : Cmd s2n_connection unit) : keeps conn_ok onward_in cmd -> completes cmd.
Proof. intros Hk w c Hr. apply Hk, Hr. Qed.

Lemma keeps_set_paused b : keeps conn_ok fixed (modify (upd_handshake (set_paused b))).
Proof.
  apply keeps_modify. intros w c [Hb Hp].
  assert (Hf : fixed c (upd_handshake (set_paused b) c)) by (split; [by split|apply Z.le_refl]).
  split; [split; [exact Hb|eapply fixed_pos_ok; [apply Hf|done]]|done].
Qed.

Lemma keeps_finish_header_if : keeps conn_ok fixed
  (rec <-- EXPECTED_RECORD_TYPE ;; if rec =? TLS_HANDSHAKE then zoom handshake_io_lens s2n_handshake_finish_header else ret tt).
Proof.
  apply keeps_bind; [apply keeps_expected_record, _|intros rec].
  apply keeps_if; [apply keeps_io, safe_finish_header|apply keeps_ret].
Qed.

Lemma keeps_try_delete : keeps conn_ok fixed s2n_try_delete_session_cache.
Proof.
  apply keeps_get_any. intros c. apply keeps_if; [|apply keeps_ret].
  apply keeps_bind; [apply keeps_attempt; auto with driver|intros ?; apply keeps_ret].
Qed.

Lemma keeps_retry_state : keeps conn_ok onward_in s2n_handle_retry_state.
Proof.
  intros w c Hc. apply wp_bind, wp_active_state; [apply Hc|]. apply wp_bind, wp_attempt.
  eapply wp_mono; [by apply wp_call_active| |].
  - intros [] w1 c1 [Hr1 Hst1]. apply (wp_related (I := conn_ok) _ w1 c1); [by apply stays_onward_in|].
    refine (completes_bind _ _ (keeps_ret _) _ w1 c1 Hr1).
    apply completes_bind; [apply keeps_set_paused|]. apply completes_bind_value; [apply keeps_is_writer, _|intros b].
    apply completes_bind; [apply keeps_if; [apply keeps_ret|auto with driver]|].
    apply completes_bind_value; [apply keeps_is_writer, _|intros [|]].
    + apply completes_bind; [apply keeps_ret|]. apply completes_keeps, fixed_in_onward, keeps_finish_header_if.
    + apply completes_bind_value; [apply (keeps_get_any (fun c => ret c)); intros ?; apply keeps_ret|intros c2].
      apply completes_bind; [apply keeps_ret|]. apply completes_bind; [|apply completes_finish_read].
      apply (keeps_ret (I := conn_ok)).
  - intros e w1 c1 [Hok1 Hst1]. apply (wp_related (I := conn_ok) _ w1 c1); [by apply stays_onward_in|].
    apply fixed_in_onward; [|done]. apply keeps_bind; [apply keeps_if; [apply keeps_fail|apply keeps_ret]|intros []].
    apply keeps_bind; [apply keeps_set_paused|intros []]. apply keeps_bind; [apply keeps_is_writer, _|intros b].
    apply keeps_bind; [apply keeps_if; [apply keeps_ret|auto with driver]|intros []].
    apply keeps_bind; [apply keeps_is_writer, _|intros [|]].
    + apply keeps_bind; [apply keeps_fail|intros []]. apply keeps_finish_header_if.
    + apply keeps_get_any. intros c2. apply keeps_bind; [|intros []; apply keeps_blinded_failure].
      apply keeps_if; [|apply keeps_ret].
      apply keeps_bind; [apply keeps_attempt, keeps_try_delete|intros ?; apply keeps_ret].
Qed.

(** ** Negotiating *)

Lemma keeps_note_blocked e : keeps (on_fst conn_ok) (rel_fst fixed) (note_blocked e).
Proof.
  apply keeps_if; [|apply keeps_if; [by apply keeps_set_blocked, _|apply keeps_ret]].
  apply keeps_bind; [by apply keeps_set_blocked, _|intros []]. apply keeps_on_conn, keeps_set_paused.
Qed.

Lemma rel_fixed_onward {A} (cmd : Cmd blocked_conn A) :
  keeps (on_fst conn_ok) (rel_fst fixed) cmd -> keeps (on_fst conn_ok) (rel_fst onward) cmd.
Proof. apply keeps_weaken. intros x y Hf. by apply oi_onward, fixed_onward_in. Qed.

Lemma keeps_negotiate_read : keeps (on_fst conn_ok) (rel_fst onward) negotiate_read.
Proof.
  apply keeps_bind; [by apply keeps_set_blocked, _|intros []].
  apply keeps_bind; [apply keeps_on_conn, keeps_attempt, keeps_read_io|intros [[]|e]; [apply keeps_ret|]].
  apply rel_fixed_onward. apply keeps_bind; [apply keeps_on_conn, (keeps_get_any (fun c => ret c)); intros ?; apply keeps_ret|].
  intros c. apply keeps_bind; [|intros []].
  - apply keeps_if; [|apply keeps_ret].
    apply keeps_bind; [apply keeps_on_conn, keeps_attempt, keeps_try_delete|intros ?; apply keeps_ret].
  - apply keeps_bind; [apply keeps_note_blocked|intros []; apply keeps_fail].
Qed.

(** Writing, when it is this side's turn. *)
Lemma wp_negotiate_write w st :
  conn_ready w (fst st) ->
  wp negotiate_write (w, st) (fun _ w' st' => on_fst conn_ok w' st' /\ rel_fst onward st st')
    (fun _ w' st' => on_fst conn_ok w' st' /\ rel_fst onward st st').
Proof.
  intros Hr. destruct st as [c b]. apply wp_bind, wp_modify, wp_bind, wp_zoom, wp_attempt. cbn [fst] in *.
  eapply wp_mono; [by apply completes_write_io| |]; intros ? w1 c1 [Hok1 Ho1].
  - apply wp_ret. split; [exact Hok1|apply Ho1].
  - apply (wp_related (I := on_fst conn_ok) _ w1 (c1, S2N_BLOCKED_ON_WRITE)); [apply Ho1|].
    revert w1 c1 Hok1 Ho1. assert (Hk : keeps (on_fst conn_ok) (rel_fst onward)
      (if negb (S2N_ERROR_IS_BLOCKING e) then
         r <-- on_conn (attempt s2n_handshake_read_io) ;;
         match r with
         | inr read_err => if error_eqb read_err S2N_ERR_ALERT then @fail blocked_conn unit read_err else fail e
         | inl _ => fail e
         end
       else note_blocked e ;;; fail e)).
    { apply keeps_if.
      - apply keeps_bind; [apply keeps_on_conn, keeps_attempt, keeps_read_io|].
        intros [[]|e']; [apply keeps_fail|apply keeps_if; apply keeps_fail].
      - apply keeps_bind; [apply rel_fixed_onward, keeps_note_blocked|intros []; apply keeps_fail]. }
    intros w1 c1 Hok1 _. by apply Hk.
Qed.

(** The loop ends when the order is finished, when the connection was
    deserialized, or at the message it was told to stop at. *)
Definition negotiation_over (c : s2n_connection) : Prop :=
  writer (ACTIVE_STATE c) = WriterB \/ deserialized_conn c = true \/ ACTIVE_MESSAGE c = end_of_messages (handshake c).

Lemma keeps_after_message :
  keeps (on_fst conn_ok) (rel_fst onward)
    (a <-- on_conn active_state ;;
     if writer_eqb (writer a) WriterB then
       on_conn tls13_secrets_clean ;;; post_handshake_send ;;; on_conn (zoom handshake_io_lens (s2n_stuffer_resize 0))
     else ret tt).
Proof.
  apply rel_fixed_onward. apply keeps_bind; [apply keeps_on_conn, keeps_active_state, _|intros a].
  apply keeps_if; [|apply keeps_ret]. apply keeps_bind; [apply keeps_on_conn; auto with driver|intros []].
  apply keeps_bind; [apply post_handshake_send_ok|intros []]. apply keeps_on_conn, keeps_io.
  intros w s Hw Hs. by apply safe_undiscard, (safe_run_op (OpResize 0)).
Qed.

Lemma keeps_negotiate_turn :
  keeps (on_fst conn_ok) (rel_fst onward)
    (w <-- on_conn CONNECTION_IS_WRITER ;; if (w : bool) then negotiate_write else negotiate_read).
Proof.
  intros w [c b] Hok. apply wp_bind, wp_zoom, wp_bind, wp_active_state; [apply Hok|]. apply wp_bind, wp_get_obj, wp_ret.
  cbn [lget lset fst_lens fst snd].
  destruct (writer_eqb (writer (ACTIVE_STATE c)) (CONNECTION_WRITER c)) eqn:Hw.
  - apply wp_negotiate_write. split; [exact Hok|]. apply writer_ready; [apply Hok|by apply bool_decide_eq_true in Hw].
  - by apply keeps_negotiate_read.
Qed.

(** An iteration that is not the last. *)
Lemma wp_negotiate_iteration w st :
  on_fst conn_ok w st ->
  wp (flush ;;;
      c <-- on_conn get_obj ;;
      ensure (s2n_connection_check_io_status c S2N_IO_FULL_DUPLEX) S2N_ERR_CLOSED ;;;
      (if paused (handshake c) then
         set_blocked S2N_BLOCKED_ON_APPLICATION_INPUT ;;;
         on_conn s2n_handle_retry_state
       else ret tt) ;;;
      w <-- on_conn CONNECTION_IS_WRITER ;;
      (if (w : bool) then negotiate_write else negotiate_read) ;;;
      a <-- on_conn active_state ;;
      (if writer_eqb (writer a) WriterB then
         on_conn tls13_secrets_clean ;;;
         post_handshake_send ;;;
         on_conn (zoom handshake_io_lens (s2n_stuffer_resize 0))
       else ret tt) ;;;
      ret false) (w, st)
    (fun over w' st' => (on_fst conn_ok w' st' /\ over = false) /\ rel_fst onward st st')
    (fun _ w' st' => on_fst conn_ok w' st' /\ rel_fst onward st st').
Proof.
  intros Hok. apply wp_bind.
  eapply wp_mono; [by apply (rel_fixed_onward flush flush_fixed)| |done]. intros [] w1 st1 [Hok1 Hf1].
  apply (wp_related (I := on_fst conn_ok) _ w1 st1); [done|].
  destruct st1 as [c1 b1]. apply wp_bind, wp_zoom, wp_get_obj. cbn [lget lset fst_lens fst snd].
  apply wp_bind, wp_ensure; intros _; [|done]. apply wp_bind.
  assert (Hretry : keeps (on_fst conn_ok) (rel_fst onward)
    (if paused (handshake c1) then set_blocked S2N_BLOCKED_ON_APPLICATION_INPUT ;;; on_conn s2n_handle_retry_state else ret tt)).
  { apply keeps_if; [|apply keeps_ret]. apply keeps_bind; [by apply keeps_set_blocked, _|intros []].
    apply keeps_on_conn, onward_in_onward, keeps_retry_state. }
  eapply wp_mono; [by apply Hretry| |done]. intros [] w2 st2 [Hok2 Hr2].
  apply (wp_related (I := on_fst conn_ok) _ w2 st2); [done|]. apply wp_bind_assoc, wp_bind.
  eapply wp_mono; [by apply keeps_negotiate_turn| |done]. intros [] w3 st3 [Hok3 Hr3].
  apply (wp_related (I := on_fst conn_ok) _ w3 st3); [done|]. apply wp_bind_assoc, wp_bind.
  eapply wp_mono; [by apply keeps_after_message| |done]. intros [] w4 st4 [Hok4 Hr4].
  by apply wp_ret.
Qed.

Lemma wp_negotiate_step w st :
  on_fst conn_ok w st ->
  wp negotiate_step (w, st)
    (fun over w' st' => (on_fst conn_ok w' st' /\
       (over = true -> negotiation_over (fst st') /\ snd st' = S2N_NOT_BLOCKED)) /\ rel_fst onward st st')
    (fun _ w' st' => on_fst conn_ok w' st' /\ rel_fst onward st st').
Proof.
  intros Hok. destruct st as [c b]. pose proof (conn_pos _ _ Hok) as Hp. cbn [fst] in Hp.
  apply wp_bind, wp_zoom, wp_bind, wp_active_state; [done|]. apply wp_bind, wp_get_obj, wp_ret.
  apply wp_bind, wp_zoom, wp_active_message; [done|]. apply wp_bind, wp_zoom, wp_get_obj.
  cbn [lget lset fst_lens fst snd].
  destruct (_ || msg_eqb _ _) eqn:Hover.
  - apply wp_bind, wp_modify, wp_ret. split; [|by unfold rel_fst; simpl]. split; [exact Hok|]. intros _. split; [|done].
    rewrite !orb_true_iff in Hover. unfold negotiation_over. cbn [fst].
    destruct Hover as [[Hw|Hd]|Hm]; [left; by apply bool_decide_eq_true in Hw|by right; left|].
    right; right. by apply bool_decide_eq_true in Hm.
  - eapply wp_mono; [by apply (wp_negotiate_iteration w (c, b))| |done].
    intros over w' st' [[Hok' ->] Hr]. split; [split; [done|discriminate]|done].
Qed.

Lemma wp_negotiate_impl fuel w st :
  on_fst conn_ok w st ->
  wp (s2n_negotiate_impl fuel) (w, st)
    (fun over w' st' => (on_fst conn_ok w' st' /\
       (over = true -> negotiation_over (fst st') /\ snd st' = S2N_NOT_BLOCKED)) /\ rel_fst onward st st')
    (fun _ w' st' => on_fst conn_ok w' st' /\ rel_fst onward st st').
Proof.
  revert w st. induction fuel as [|fuel IH]; intros w st Hok; simpl.
  - apply wp_ret. split; [split; [done|discriminate]|]. by unfold rel_fst.
  - apply wp_bind. eapply wp_mono; [by apply wp_negotiate_step| |done].
    intros over w' st' [[Hok' Hover] Hr]. apply (wp_related (I := on_fst conn_ok) _ w' st'); [done|].
    destruct over; [|by apply IH]. apply wp_ret. split; [done|]. by unfold rel_fst.
Qed.

End Driver.

End HandshakeNegotiation.
Export HandshakeNegotiation.
