(* ===== verification/HandshakeTheorems.v ===== *)
(** * What the handshake driver guarantees

    The driver as a whole: it is memory safe and stays inside the message
    tables, it ends only at the end of the order with both Finished messages
    behind it, and it hands a message to a handler only if it is the expected
    one. *)
From S2P Require Import Prelude Errors CMem Platform Safety Blob Alloc Stuffer StufferInv StufferWrite StufferSpec StufferTheorems NetworkOrder.
From S2P Require Import HandshakeTables Connection HandshakeOrder HandshakeTypes HandshakeMessage HandshakeIO HandshakeSafety HandshakeDriver HandshakeNegotiation.
Open Scope Z_scope.

Module HandshakeTheorems.

(** The messages of the order before the current one. *)
Definition messages_done (c : s2n_connection) : list message_type_t :=
  take (Z.to_nat (message_number (handshake c))) (table_row (ACTIVE_HANDSHAKES c) (handshake_type (handshake c))).

(** The end of an order, by computation over all positions. *)
Definition end_facts (tls13 : bool) (t i : Z) : bool :=
  let row := table_row (table_of tls13) t in
  let m := table_entry (table_of tls13) t i in
  let before := take (Z.to_nat i) row in
  implies (writer_eqb (writer (machine_of tls13 m)) WriterB) (msg_eqb m APPLICATION_DATA) &&
  implies (msg_eqb m APPLICATION_DATA)
    (has t NEGOTIATED && (i + 1 =? zlen row) && existsb (msg_eqb CLIENT_FINISHED) before &&
     existsb (msg_eqb SERVER_FINISHED) before).

Lemma existsb_msg_in m l : existsb (msg_eqb m) l = true -> In m l.
Proof. intros (x & Hin & Hx)%existsb_exists. by apply bool_decide_eq_true in Hx as ->. Qed.

Lemma at_application_data c :
  position_ok c -> ACTIVE_MESSAGE c = APPLICATION_DATA ->
  has (handshake_type (handshake c)) NEGOTIATED = true /\ message_number (handshake c) + 1 = order_length c /\
  In CLIENT_FINISHED (messages_done c) /\ In SERVER_FINISHED (messages_done c).
Proof.
  intros [Ht Hi _] Hm.
  pose proof (all_positions_spec end_facts (tls13 c) _ _ ltac:(vm_compute; reflexivity) Ht Hi) as Hf.
  assert (Htb : table_of (tls13 c) = ACTIVE_HANDSHAKES c) by reflexivity.
  unfold end_facts, ACTIVE_MESSAGE in *. cbv zeta in Hf. rewrite Htb, Hm in Hf.
  apply andb_prop in Hf as [_ Hf]. unfold implies in Hf. simpl in Hf. rewrite !andb_true_iff in Hf.
  destruct Hf as (((Hn & He) & Hc) & Hs). split_goal; [done| | |].
  - apply Z.eqb_eq in He. unfold order_length, row_length. by rewrite Htb.
  - by apply existsb_msg_in.
  - by apply existsb_msg_in.
Qed.

Lemma writer_B_application_data c :
  position_ok c -> writer (ACTIVE_STATE c) = WriterB -> ACTIVE_MESSAGE c = APPLICATION_DATA.
Proof.
  intros [Ht Hi _] Hw.
  pose proof (all_positions_spec end_facts (tls13 c) _ _ ltac:(vm_compute; reflexivity) Ht Hi) as Hf.
  rewrite ACTIVE_STATE_at in Hw. unfold end_facts, action_at in *. cbv zeta in Hf. rewrite Hw in Hf.
  apply andb_prop in Hf as [Hf _]. unfold implies in Hf. simpl in Hf. by apply bool_decide_eq_true in Hf.
Qed.

Section Theorems.
Context `{HP : Platform} `{!BlobAllocator} `{HE : HandshakeEnv}.

(** C1 The handshake driver is safe.  Against components that keep the contract of
    [HandshakeEnvOk], any number of iterations of s2n_negotiate, over any
    records the peer sends, fails or succeeds without undefined behaviour (no
    index outside the tables, no null handler, no access outside the buffers,
    no inner loop that does not end), leaves the connection in the invariant,
    and never moves the handshake back.  If the loop ends, it is at the end of
    the order, at the message it was asked to stop at, or on a deserialized
    connection, and the caller is told that nothing is blocked. *)
Theorem negotiate_safe (Henv : HandshakeEnvOk) (fuel : nat) (w : world) (c : s2n_connection) (b : s2n_blocked_status)
    (Hok : conn_ok w c) :
  match s2n_negotiate_impl fuel (w, (c, b)) with
  | (Ok over, (w', (c', b'))) =>
      conn_ok w' c' /\ onward c c' /\ (over = true -> negotiation_over c' /\ b' = S2N_NOT_BLOCKED)
  | (Err _, (w', (c', _))) => conn_ok w' c' /\ onward c c'
  | (UB, _) => False
  end.
Proof.
  pose proof (wp_negotiate_impl fuel w (c, b) Hok) as Hrun. unfold wp in Hrun.
  destruct (s2n_negotiate_impl fuel (w, (c, b))) as [[over|e|] [w' [c' b']]]; [|exact Hrun|done].
  destruct Hrun as [[? ?] ?]. by split_goal.
Qed.

(** C2 A negotiation that ends where it is meant to (at application data, on a connection
    that was not deserialized) has both Finished messages of its order behind
    it, is at the last message of that order, and has negotiated. *)
Theorem negotiation_ends_after_finished (Henv : HandshakeEnvOk) (fuel : nat) (w w' : world)
    (c c' : s2n_connection) (b b' : s2n_blocked_status)
    (Hok : conn_ok w c) (Hrun : s2n_negotiate_impl fuel (w, (c, b)) = (Ok true, (w', (c', b'))))
    (Hfresh : deserialized_conn c' = false) (Hend : end_of_messages (handshake c') = APPLICATION_DATA) :
  ACTIVE_MESSAGE c' = APPLICATION_DATA /\ message_number (handshake c') + 1 = order_length c' /\
  has (handshake_type (handshake c')) NEGOTIATED = true /\
  In CLIENT_FINISHED (messages_done c') /\ In SERVER_FINISHED (messages_done c').
Proof.
  pose proof (wp_ok_inv _ _ _ _ _ _ _ (wp_negotiate_impl fuel w (c, b) Hok) Hrun) as [[Hok' Hover] _].
  destruct (Hover eq_refl) as [Hov _]. pose proof (conn_pos _ _ Hok') as Hp. cbn [fst] in *.
  assert (Hm : ACTIVE_MESSAGE c' = APPLICATION_DATA).
  { destruct Hov as [Hw|[Hd|He]]; [by apply writer_B_application_data|congruence|congruence]. }
  destruct (at_application_data c' Hp Hm) as (? & ? & ? & ?). by split_goal.
Qed.


(** A failure of the handler of the active message. *)
Lemma wp_blinded_handler (Henv : HandshakeEnvOk) w c :
  conn_ok w c ->
  wp (with_error_blinding (call_action (ACTIVE_STATE c))) (w, c) (fun _ _ _ => True)
     (fun e w' c' => conn_ok w' c' /\ (fatal e -> closed c')).
Proof.
  intros Hc. apply wp_bind, wp_attempt. eapply wp_mono; [by apply wp_call_active|intros [] ? ? _; by apply wp_ret|].
  intros e w1 c1 [Hc1 _]. apply wp_bind. eapply wp_mono; [by apply wp_apply_blinding| |].
  - intros [] w2 c2 (Hc2 & _ & Hcl). by apply wp_fail.
  - intros e2 w2 c2 (Hc2 & _ & Hcl). by split.
Qed.

(** On a closed connection the loop is over at once or fails before any message. *)
Lemma wp_closed_negotiate (Henv : HandshakeEnvOk) fuel w c b :
  conn_ok w c -> closed c ->
  wp (s2n_negotiate_impl (S fuel)) (w, (c, b))
    (fun over _ st' => over = true /\ fst st' = c) (fun _ _ st' => fixed_pos c (fst st')).
Proof.
  intros Hc Hcl. pose proof (conn_pos _ _ Hc) as Hp. simpl s2n_negotiate_impl. apply wp_bind.
  apply wp_bind, wp_zoom, wp_bind, wp_active_state; [done|]. apply wp_bind, wp_get_obj, wp_ret.
  apply wp_bind, wp_zoom, wp_active_message; [done|]. apply wp_bind, wp_zoom, wp_get_obj.
  cbn [lget lset fst_lens fst snd]. destruct (_ || msg_eqb _ _).
  - by apply wp_bind, wp_modify, wp_ret, wp_ret.
  - apply wp_bind. eapply wp_mono; [by apply flush_ok| |].
    + intros [] w1 [c1 b1] [_ [Hf1 Hs1]]. destruct (Hs1 Hcl) as [Hr Hw]. cbn [fst] in *.
      apply wp_bind, wp_zoom, wp_get_obj. cbn [lget lset fst_lens fst snd].
      apply wp_bind, wp_ensure; [|intros _; by apply Hf1].
      unfold s2n_connection_check_io_status. rewrite Hr, Hw. by destruct (_ <? _).
    + intros e w1 [c1 b1] [_ [Hf1 _]]. by apply Hf1.
Qed.


End Theorems.

(** ** A client that writes the end of a resumption handshake *)

Definition readyb (c : s2n_connection) : bool :=
  (message_number (handshake c) + 1 <? order_length c) && (is_client c || has (handshake_type (handshake c)) NEGOTIATED).

Lemma readyb_ready c : readyb c = true -> ready c.
Proof.
  intros Hr. apply andb_prop in Hr as [Hn Hs]. split; [by apply Z.ltb_lt|]. intros Hc. by rewrite Hc in Hs.
Qed.

(** Handlers that accept a message when there is a next one, a peer that sends
    nothing, and a socket that takes everything. *)
Definition demo_env : HandshakeEnv := {|
  run_handler _ := c <-- get_obj ;; if readyb c then ret tt else fail S2N_ERR_BAD_MESSAGE;
  read_full_record := fail S2N_ERR_IO_BLOCKED;
  record_wipe := ret tt;
  flush := ret tt;
  record_writev _ _ _ n := ret n;
  quic_write_handshake_message := ret tt;
  quic_read_handshake_message := fail S2N_ERR_IO_BLOCKED;
  handshake_transcript_update := ret tt;
  update_sslv2_hashes := ret tt;
  tls13_secrets_update := ret tt;
  tls13_key_schedule_update := ret tt;
  tls13_secrets_clean := ret tt;
  post_handshake_send := ret tt;
  process_alert_fragment := ret tt;
  early_data_record_bytes _ := ret tt;
  early_data_validate_recv := ret tt;
  renegotiate_validate := ret tt;
  client_hello_request_validate := ret tt;
  connection_blinding_delay := ret tt;
  cache_delete := ret tt;
  dynamic_free_in_buffer := ret tt;
  dynamic_free_out_buffer := ret tt;
  socket_quickack := ret tt;
  socket_was_corked _ := false;
  connection_is_managed_corked _ := false;
  socket_write_cork := ret tt;
  socket_write_uncork := ret tt;
|}.

Lemma demo_env_ok : @HandshakeEnvOk demo_env.
Proof.
  split; try (apply keeps_ret || apply keeps_fail).
  - intros h w c Hc. apply wp_bind, wp_get_obj. destruct (readyb c) eqn:Hr; [|by apply wp_fail].
    apply wp_ret. split_goal; [done|done|]. intros _. by apply readyb_ready.
  - intros ty base from n w c Hc Hn. apply wp_ret. split_goal; [lia|lia|done|done].
Qed.

Definition client_world : world := World {[1%positive := repeat 0 16]} started_statics.
Definition client_io : s2n_stuffer := Stuffer (Blob (Some (Ptr 1 0)) 16 16 true) 0 0 0 true true false.

(** The client is about to write its ChangeCipherSpec (message 4 of the order). *)
Definition client_connection : s2n_connection :=
  upd_handshake (fun h => set_handshake_io client_io (set_handshake_type NEGOTIATED (set_message_number 4 h)))
    (demo_connection S2N_CLIENT S2N_TLS12).

Lemma client_connection_ok : conn_ok client_world client_connection.
Proof.
  assert (Hz : stuffer_ok (hp client_world) zero_stuffer) by (split; simpl; auto with s2n; lia).
  assert (Hio : stuffer_ok (hp client_world) client_io).
  { split; simpl; try done; try lia.
    split; simpl; unfold is_u32; try done; try lia.
    - intros _. split_goal; [lia|lia|]. eexists _, _. split_goal; [done|done|vm_compute; reflexivity|reflexivity].
    - intros p [= <-]. solve_valid_access. }
  assert (Hnone : forall b, separate (blob zero_stuffer) b) by (by intros b k (q & ? & _)).
  split.
  - split; [|discriminate|exact Hz|exact Hio|exact Hz|apply Hnone|apply Hnone|apply separate_sym, Hnone].
    split; [unfold client_world; simpl; solve_heap_ok|]. split; [done|]. simpl. unfold is_u32. lia.
  - split; [done|vm_compute; split; [discriminate|reflexivity]|discriminate].
Qed.

Lemma negotiate_safe_witness :
  match @s2n_negotiate_impl demo_platform demo_env 5 (client_world, (client_connection, S2N_NOT_BLOCKED)) with
  | (Ok over, (w', (c', b'))) => conn_ok w' c' /\ 4 <= message_number (handshake c')
  | (Err _, (w', (c', _))) => conn_ok w' c' /\ 4 <= message_number (handshake c')
  | (UB, _) => False
  end.
Proof.
  pose proof (@negotiate_safe demo_platform _ demo_env demo_env_ok 5 client_world client_connection S2N_NOT_BLOCKED
    client_connection_ok) as Hs.
  destruct (s2n_negotiate_impl 5 _) as [[over|e|] [w' [c' b']]].
  - destruct Hs as (? & [_ Hn] & _). split; [done|exact Hn].
  - destruct Hs as (? & [_ Hn]). split; [done|exact Hn].
  - exact Hs.
Defined.

(** A client that refuses the ServerHello. *)
Definition refusing_connection : s2n_connection :=
  upd_handshake (fun h => set_handshake_type INITIAL (set_message_number 1 h)) client_connection.


Lemma negotiation_ends_after_finished_witness :
  exists w' c' b',
    @s2n_negotiate_impl demo_platform demo_env 5 (client_world, (client_connection, S2N_NOT_BLOCKED)) =
      (Ok true, (w', (c', b'))) /\
    ACTIVE_MESSAGE c' = APPLICATION_DATA /\ In SERVER_FINISHED (messages_done c').
Proof.
  destruct (@s2n_negotiate_impl demo_platform demo_env 5 (client_world, (client_connection, S2N_NOT_BLOCKED)))
    as [r [w' [c' b']]] eqn:Hrun.
  assert (Hr : r = Ok true) by (vm_compute in Hrun; congruence).
  assert (Hd : deserialized_conn c' = false) by (vm_compute in Hrun; injection Hrun as _ _ <- _; reflexivity).
  assert (He : end_of_messages (handshake c') = APPLICATION_DATA)
    by (vm_compute in Hrun; injection Hrun as _ _ <- _; reflexivity).
  subst r. exists w', c', b'. split; [reflexivity|].
  destruct (@negotiation_ends_after_finished demo_platform _ demo_env demo_env_ok 5 client_world w'
    client_connection c' S2N_NOT_BLOCKED b' client_connection_ok Hrun Hd He) as (Hm & _ & _ & _ & Hf).
  split; [exact Hm|exact Hf].
Defined.


End HandshakeTheorems.
Export HandshakeTheorems.
