(* ===== verification/HandshakeNames.v ===== *)
(** * Names of handshake types and messages

    s2n_connection_get_handshake_type_name and
    s2n_connection_get_last_message_name of tls/s2n_handshake_io.c.  The names of
    handshake types are built on demand in the static array
    handshake_type_str[256][142], which all connections share. *)
From S2P Require Import Prelude Errors CMem Platform.
From S2P Require Import HandshakeTables Connection HandshakeOrder HandshakeTypes HandshakeIO.
From Stdlib Require Import String Ascii.
Open Scope Z_scope.

Module HandshakeNames.

(** The characters of a string literal, without the final NUL. *)
Fixpoint chars (s : string) : list Z :=
  match s with
  | EmptyString => []
  | String a s' => Z.of_nat (nat_of_ascii a) :: chars s'
  end.

Definition MAX_HANDSHAKE_TYPE_LEN : Z := 142.

Definition tls12_handshake_type_names : list string :=
  ["NEGOTIATED|"; "FULL_HANDSHAKE|"; "CLIENT_AUTH|"; "NO_CLIENT_CERT|"; "TLS12_PERFECT_FORWARD_SECRECY|";
   "OCSP_STATUS|"; "WITH_SESSION_TICKET|"; "WITH_NPN|"]%string.

Definition tls13_handshake_type_names : list string :=
  ["NEGOTIATED|"; "FULL_HANDSHAKE|"; "CLIENT_AUTH|"; "NO_CLIENT_CERT|"; "HELLO_RETRY_REQUEST|";
   "MIDDLEBOX_COMPAT|"; "WITH_EARLY_DATA|"; "EARLY_CLIENT_CCS|"]%string.

(** handshake_type_str: the rows that have been written to; the others are zero. *)
Abbreviation name_cache := (gmap Z (list Z)).

Definition empty_row : list Z := repeat 0 (Z.to_nat MAX_HANDSHAKE_TYPE_LEN).
Definition cache_row (cache : name_cache) (t : Z) : list Z := default empty_row (cache !! t).

(** A write into a row at offset [o]; [None] if it is not inside the row. *)
Definition row_store (row : list Z) (o : Z) (bs : list Z) : option (list Z) :=
  if (0 <=? o) && (o + zlen bs <=? zlen row) then Some (zsplice row o bs) else None.

(** The string at the start of a row. *)
Fixpoint c_string (row : list Z) : list Z :=
  match row with
  | [] => []
  | b :: row' => if b =? 0 then [] else b :: c_string row'
  end.

(** The loop over the names from [i] on; [p] is the offset of the next character. *)
Fixpoint write_names (names : list string) (i t p remaining : Z) (row : list Z) : option (Z * list Z) :=
  match names with
  | [] => Some (p, row)
  | name :: names' =>
      if negb (Z.land t (Z.shiftl 1 i) =? 0) then
        let bytes_to_copy := Z.min remaining (zlen (chars name)) in
        row1 ← row_store row p (zslice (chars name) 0 bytes_to_copy);
        row2 ← row_store row1 (p + bytes_to_copy) [0];
        write_names names' (i + 1) t (p + bytes_to_copy) (remaining - bytes_to_copy) row2
      else write_names names' (i + 1) t p remaining row
  end.

(** The row for a type, built from an empty one. *)
Definition build_row (names : list string) (t : Z) (row : list Z) : option (list Z) :=
  '(p, row) ← write_names names 0 t 0 (zlen row) row;
  if negb (p =? 0) && (znth row (p - 1) =? 124) then row_store row (p - 1) [0] else Some row.

Section Definitions.
Context `{Platform}.

Definition s2n_handshake_validate {X} (h : s2n_handshake) : Cmd X unit :=
  debug_ensure (handshake_type h <? 256) S2N_ERR_SAFETY ;;;
  debug_ensure ((0 <=? message_number h) && (message_number h <? 32)) S2N_ERR_SAFETY.

(** The names that apply to the connection's protocol version. *)
Definition names_of (c : s2n_connection) : list string :=
  if s2n_connection_get_protocol_version c <? S2N_TLS13 then tls12_handshake_type_names
  else tls13_handshake_type_names.

(** State: handshake_type_str.  The result is the string that the returned
    pointer refers to. *)
Definition s2n_connection_get_handshake_type_name (c : s2n_connection) : Cmd name_cache (list Z) :=
  s2n_handshake_validate (handshake c) ;;;
  let handshake_type := handshake_type (handshake c) in
  if handshake_type =? INITIAL then ret (chars "INITIAL")
  else if (handshake_type <? 0) || (S2N_HANDSHAKES_COUNT <=? handshake_type) then undefined
  else
    cache <-- get_obj ;;
    let row := cache_row cache handshake_type in
    if negb (znth row 0 =? 0) then ret (c_string row)
    else
      match build_row (names_of c) handshake_type row with
      | Some row => put_obj (<[handshake_type := row]> cache) ;;; ret (c_string row)
      | None => undefined
      end.

(** Reads the connection only. *)
Definition s2n_connection_get_last_message_name : Cmd s2n_connection (list Z) :=
  c <-- get_obj ;;
  s2n_handshake_validate (handshake c) ;;;
  m <-- active_message ;;
  ret (chars (message_names m)).

End Definitions.

(** The truncation the code provides for would write the final NUL one byte past
    the row: it is only by the choice of 142 that it is never needed. *)
Lemma truncation_leaves_row :
  write_names (repeat "WITH_SESSION_TICKET|"%string 8) 0 255 0 MAX_HANDSHAKE_TYPE_LEN empty_row = None.
Proof. vm_compute. reflexivity. Qed.

(** ** The name of a type: the names of its flags, separated by bars *)

Fixpoint flag_names (names : list string) (i t : Z) : list string :=
  match names with
  | [] => []
  | name :: names' => if Z.testbit t i then name :: flag_names names' (i + 1) t else flag_names names' (i + 1) t
  end.

(** The names end in a bar; the last one is dropped. *)
Definition type_name (names : list string) (t : Z) : list Z :=
  if t =? INITIAL then chars "INITIAL" else removelast (List.concat (map chars (flag_names names 0 t))).

Definition build_ok (names : list string) (t : Z) : bool :=
  (t =? INITIAL) ||
  match build_row names t empty_row with
  | Some row => bool_decide (c_string row = type_name names t) && negb (znth row 0 =? 0) &&
                (zlen row =? MAX_HANDSHAKE_TYPE_LEN)
  | None => false
  end.

Lemma build_ok_12 t : 0 <= t < 256 -> build_ok tls12_handshake_type_names t = true.
Proof. apply all_types_spec. vm_compute. reflexivity. Qed.

Lemma build_ok_13 t : 0 <= t < 256 -> build_ok tls13_handshake_type_names t = true.
Proof. apply all_types_spec. vm_compute. reflexivity. Qed.

Lemma build_ok_names c t : 0 <= t < 256 -> build_ok (names_of c) t = true.
Proof. intros Ht. unfold names_of. destruct (_ <? _); [by apply build_ok_12|by apply build_ok_13]. Qed.

(** The table of a protocol is filled with that protocol's names. *)
Definition cache_ok (names : list string) (cache : name_cache) : Prop :=
  forall t row, cache !! t = Some row -> c_string row = type_name names t /\ znth row 0 <> 0.

Section Theorems.
Context `{HP : Platform}.

Lemma handshake_validate_ok {X} h (w : world) (x : X) :
  0 <= handshake_type h < 256 -> 0 <= message_number h < 32 -> s2n_handshake_validate h (w, x) = (Ok tt, (w, x)).
Proof.
  intros Ht Hm. unfold s2n_handshake_validate, debug_ensure, ensure, bind. destruct NDEBUG; [done|].
  rewrite (proj2 (Z.ltb_lt _ _)) by lia. simpl.
  rewrite (proj2 (Z.leb_le _ _)), (proj2 (Z.ltb_lt _ _)) by lia. done.
Qed.

(** The name of a handshake type: as long as handshake_type_str has only been filled by
    connections of the same protocol generation, the function returns the names
    of the flags of the type, separated by bars, for each of the 256 types; it
    never writes outside the type's own row (142 characters are enough, the
    truncation is never needed), changes no other row, and the array stays
    correct, so that all later calls return the right name too. *)
Theorem handshake_type_name_correct (w : world) (c : s2n_connection) (cache : name_cache)
    (Htype : 0 <= handshake_type (handshake c) < 256) (Hnumber : 0 <= message_number (handshake c) < 32)
    (Hcache : cache_ok (names_of c) cache) :
  exists cache', s2n_connection_get_handshake_type_name c (w, cache) =
      (Ok (type_name (names_of c) (handshake_type (handshake c))), (w, cache')) /\
    cache_ok (names_of c) cache' /\
    (forall t, t <> handshake_type (handshake c) -> cache' !! t = cache !! t).
Proof.
  unfold s2n_connection_get_handshake_type_name. set (t := handshake_type (handshake c)) in *.
  rewrite (run_bind _ _ _ _ _ (handshake_validate_ok _ w cache Htype Hnumber)). cbv zeta.
  destruct (Z.eqb_spec t INITIAL) as [Hi|Hi]; [exists cache; by rewrite Hi|].
  rewrite (proj2 (Z.ltb_ge _ _)), (proj2 (Z.leb_gt _ _)) by (unfold S2N_HANDSHAKES_COUNT; lia).
  change (false || false) with false. cbv iota. rewrite (run_bind (@get_obj name_cache) _ (w, cache) cache (w, cache)) by done.
  unfold cache_row.
  destruct (cache !! t) as [row|] eqn:Hrow.
  - change (default empty_row (Some row)) with row. destruct (Hcache t row Hrow) as [Hname Hnz]. rewrite (proj2 (Z.eqb_neq _ _) Hnz). simpl.
    exists cache. unfold ret. by rewrite Hname.
  - change (default empty_row None) with empty_row.
    pose proof (build_ok_names c t Htype) as Hb. unfold build_ok in Hb. rewrite (proj2 (Z.eqb_neq _ _) Hi) in Hb.
    change (znth empty_row 0 =? 0) with true. simpl negb. cbv iota.
    destruct (build_row (names_of c) t empty_row) as [row|]; [|done]. simpl in Hb. zbool.
    match goal with Hd : bool_decide _ = true |- _ => apply bool_decide_eq_true in Hd as Hname end.
    exists (<[t := row]> cache). unfold bind, put_obj, ret. rewrite Hname. split_goal; [done| |].
    + intros t' row'. destruct (decide (t' = t)) as [->|Hne].
      * rewrite lookup_insert_eq. by intros [= <-].
      * rewrite lookup_insert_ne by done. apply Hcache.
    + intros t' Hne. by rewrite lookup_insert_ne.
Qed.

(** The array is shared by the two protocol generations, whose flags have the same
    values: once the name of a TLS1.2 type has been asked for, a TLS1.3
    connection whose type has the same value gets the TLS1.2 name.  Here
    NEGOTIATED|FULL_HANDSHAKE|HELLO_RETRY_REQUEST is reported as
    NEGOTIATED|FULL_HANDSHAKE|TLS12_PERFECT_FORWARD_SECRECY. *)
Theorem type_names_are_mixed_up (w : world) :
  exists c12 c13 cache,
    s2n_connection_get_protocol_version c12 = S2N_TLS12 /\ s2n_connection_get_protocol_version c13 = S2N_TLS13 /\
    IS_HELLO_RETRY_HANDSHAKE c13 = true /\
    snd (s2n_connection_get_handshake_type_name c12 (w, ∅)) = (w, cache) /\
    fst (s2n_connection_get_handshake_type_name c13 (w, cache)) =
      Ok (chars "NEGOTIATED|FULL_HANDSHAKE|TLS12_PERFECT_FORWARD_SECRECY") /\
    fst (s2n_connection_get_handshake_type_name c13 (w, ∅)) =
      Ok (chars "NEGOTIATED|FULL_HANDSHAKE|HELLO_RETRY_REQUEST").
Proof.
  pose (c v := upd_handshake (set_handshake_type (fold_right Z.lor 0 [NEGOTIATED; FULL_HANDSHAKE; HELLO_RETRY_REQUEST]))
    (demo_connection S2N_SERVER v)).
  exists (c S2N_TLS12), (c S2N_TLS13). eexists. split_goal; [done|done|done|..].
  all: unfold s2n_connection_get_handshake_type_name.
  all: erewrite run_bind by (apply handshake_validate_ok; split; done).
  all: vm_compute; reflexivity.
Qed.

End Theorems.

Lemma handshake_type_name_correct_witness :
  exists cache', @s2n_connection_get_handshake_type_name demo_platform
      (upd_handshake (set_handshake_type 3) (demo_connection S2N_SERVER S2N_TLS13))
      (World ∅ started_statics, ∅) = (Ok (chars "NEGOTIATED|FULL_HANDSHAKE"), (World ∅ started_statics, cache')).
Proof.
  destruct (@handshake_type_name_correct demo_platform (World ∅ started_statics)
    (upd_handshake (set_handshake_type 3) (demo_connection S2N_SERVER S2N_TLS13)) ∅) as (cache' & Hrun & _).
  - simpl. lia.
  - simpl. lia.
  - intros t row Ht. by rewrite lookup_empty in Ht.
  - exists cache'. exact Hrun.
Defined.

End HandshakeNames.
Export HandshakeNames.
