(* ===== verification/Libcrypto.v ===== *)
(** * The libcrypto and the ciphers

    The libcrypto that s2n-tls is built against is not part of the repository.
    [Libcrypto] is what the code asks about it: the preprocessor symbols that
    its headers and the feature probes of the build define, its FIPS mode, the
    EVP functions that may return NULL, and the numbers (NIDs) it gives to its
    objects.  On top of it this file translates the feature functions of crypto/
    (s2n_pq.c, s2n_rsa_pss.c, s2n_fips.c, s2n_libcrypto.c, s2n_tls13.c) and the
    [s2n_cipher] objects with their availability. *)
From stdpp Require Import strings.
From S2P Require Import Prelude Errors CMem Connection.
Open Scope Z_scope.

(** The constructors of an [EVP_CIPHER] or [EVP_AEAD] that the code calls. *)
Inductive evp_cipher :=
| EVP_aead_aes_128_gcm | EVP_aes_128_gcm | EVP_aead_aes_256_gcm | EVP_aes_256_gcm
| EVP_des_ede3_cbc | EVP_aes_128_cbc | EVP_aes_256_cbc | EVP_rc4
| EVP_aes_128_cbc_hmac_sha1 | EVP_aes_256_cbc_hmac_sha1
| EVP_aes_128_cbc_hmac_sha256 | EVP_aes_256_cbc_hmac_sha256.

(** The object identifiers that the code names. *)
Inductive nid :=
| NID_undef | NID_md5_sha1
| NID_sha1WithRSAEncryption | NID_sha224WithRSAEncryption | NID_sha256WithRSAEncryption
| NID_sha384WithRSAEncryption | NID_sha512WithRSAEncryption
| NID_ecdsa_with_SHA1 | NID_ecdsa_with_SHA224 | NID_ecdsa_with_SHA256
| NID_ecdsa_with_SHA384 | NID_ecdsa_with_SHA512
| NID_rsassaPss | NID_rsaEncryption
| NID_X9_62_prime256v1 | NID_secp384r1 | NID_secp521r1 | NID_X25519
| NID_KYBER512_R3 | NID_KYBER768_R3 | NID_KYBER1024_R3 | NID_MLKEM768.

#[export] Instance nid_eq_dec : EqDecision nid.
Proof. solve_decision. Defined.

Class Libcrypto := {
  OPENSSL_VERSION_NUMBER : Z;
  OPENSSL_IS_BORINGSSL : bool;
  OPENSSL_IS_AWSLC : bool;
  LIBRESSL_VERSION_NUMBER : bool;  (* whether it is defined *)
  AWSLC_API_VERSION : option Z;
  (** Probed by the build. *)
  S2N_LIBCRYPTO_SUPPORTS_EVP_AEAD_TLS : bool;
  S2N_LIBCRYPTO_SUPPORTS_EVP_RC4 : bool;
  S2N_LIBCRYPTO_SUPPORTS_EVP_KEM : bool;
  S2N_LIBCRYPTO_SUPPORTS_MLKEM : bool;
  S2N_LIBCRYPTO_SUPPORTS_RSA_PSS_SIGNING : bool;
  (** [FIPS_mode() == 1] or [EVP_default_properties_is_fips_enabled(NULL)] when
      s2n_fips_init asked. *)
  fips_mode_enabled : bool;
  (** Whether the function returns a pointer other than NULL. *)
  evp_present : evp_cipher -> bool;
  (** The number of an identifier. *)
  nid_number : nid -> Z;
}.

(** Identifiers have numbers of their own, and [NID_undef] is 0 (obj_mac.h). *)
Class LibcryptoOk `{Libcrypto} : Prop := {
  nid_number_inj : Inj (=) (=) nid_number;
  nid_number_undef : nid_number NID_undef = 0;
}.

(** A static object of the program is told from others by its address.  The
    name of its C variable, which is unique, stands for the address, and two
    pointers are compared by it. *)
Class StaticObject (A : Type) := symbol : A -> string.
Definition same_object {A} `{StaticObject A} (a b : A) : bool := String.eqb (symbol a) (symbol b).

Module Crypto.
Import Connection.

Section Features.
Context `{Libcrypto}.

Definition S2N_OPENSSL_VERSION_AT_LEAST (major minor fix_ : Z) : bool :=
  Z.shiftl major 28 + Z.shiftl minor 20 + Z.shiftl fix_ 12 <=? OPENSSL_VERSION_NUMBER.

Definition EVP_APIS_SUPPORTED : bool :=
  S2N_OPENSSL_VERSION_AT_LEAST 1 1 0 && negb LIBRESSL_VERSION_NUMBER && negb OPENSSL_IS_BORINGSSL.

Definition s2n_is_evp_apis_supported : bool := EVP_APIS_SUPPORTED.

Definition s2n_libcrypto_supports_evp_kem : bool := S2N_LIBCRYPTO_SUPPORTS_EVP_KEM.
Definition s2n_pq_is_enabled : bool := s2n_libcrypto_supports_evp_kem.
Definition s2n_libcrypto_supports_mlkem : bool := S2N_LIBCRYPTO_SUPPORTS_MLKEM.

Definition RSA_PSS_CERTS_SUPPORTED : bool :=
  S2N_LIBCRYPTO_SUPPORTS_RSA_PSS_SIGNING && (0x1010104f <? OPENSSL_VERSION_NUMBER).
Definition s2n_is_rsa_pss_certs_supported : bool := RSA_PSS_CERTS_SUPPORTED.
Definition s2n_is_rsa_pss_signing_supported : bool := S2N_LIBCRYPTO_SUPPORTS_RSA_PSS_SIGNING.

Definition s2n_is_tls13_fully_supported : bool :=
  s2n_is_rsa_pss_signing_supported && s2n_is_rsa_pss_certs_supported.
Definition s2n_get_highest_fully_supported_tls_version : Z :=
  if s2n_is_tls13_fully_supported then S2N_TLS13 else S2N_TLS12.

Definition s2n_is_in_fips_mode : bool := fips_mode_enabled.
Definition s2n_libcrypto_is_boringssl : bool := OPENSSL_IS_BORINGSSL.
Definition s2n_libcrypto_is_libressl : bool := LIBRESSL_VERSION_NUMBER.
Definition s2n_libcrypto_is_awslc : bool := OPENSSL_IS_AWSLC.
Definition s2n_libcrypto_is_openssl : bool :=
  let is_other_libcrypto_variant :=
    s2n_libcrypto_is_boringssl || s2n_libcrypto_is_libressl || s2n_libcrypto_is_awslc in
  negb is_other_libcrypto_variant.
Definition s2n_libcrypto_is_openssl_fips : bool := s2n_libcrypto_is_openssl && s2n_is_in_fips_mode.

(** ** Availability of the ciphers *)

Definition s2n_aead_cipher_aes128_gcm_available : bool :=
  if S2N_LIBCRYPTO_SUPPORTS_EVP_AEAD_TLS then evp_present EVP_aead_aes_128_gcm
  else evp_present EVP_aes_128_gcm.
Definition s2n_aead_cipher_aes256_gcm_available : bool :=
  if S2N_LIBCRYPTO_SUPPORTS_EVP_AEAD_TLS then evp_present EVP_aead_aes_256_gcm
  else evp_present EVP_aes_256_gcm.

Definition S2N_CHACHA20_POLY1305_AVAILABLE_BSSL_AWSLC : bool := OPENSSL_IS_BORINGSSL || OPENSSL_IS_AWSLC.
Definition S2N_CHACHA20_POLY1305_AVAILABLE_OSSL : bool :=
  negb S2N_CHACHA20_POLY1305_AVAILABLE_BSSL_AWSLC &&
  (S2N_OPENSSL_VERSION_AT_LEAST 1 1 0 && negb LIBRESSL_VERSION_NUMBER).
Definition s2n_aead_chacha20_poly1305_available : bool :=
  if S2N_CHACHA20_POLY1305_AVAILABLE_OSSL || S2N_CHACHA20_POLY1305_AVAILABLE_BSSL_AWSLC
  then negb s2n_libcrypto_is_openssl_fips else false.

Definition s2n_cbc_cipher_3des_available : bool := evp_present EVP_des_ede3_cbc.
Definition s2n_cbc_cipher_aes128_available : bool := evp_present EVP_aes_128_cbc.
Definition s2n_cbc_cipher_aes256_available : bool := evp_present EVP_aes_256_cbc.

Definition awslc_api_at_most (n : Z) : bool :=
  match AWSLC_API_VERSION with Some v => v <=? n | None => false end.
Definition S2N_AES_SHA1_COMPOSITE_AVAILABLE : bool :=
  negb LIBRESSL_VERSION_NUMBER && negb OPENSSL_IS_BORINGSSL &&
  S2N_OPENSSL_VERSION_AT_LEAST 1 0 1 && negb (awslc_api_at_most 17).
Definition S2N_AES_SHA256_COMPOSITE_AVAILABLE : bool :=
  negb LIBRESSL_VERSION_NUMBER && negb OPENSSL_IS_BORINGSSL &&
  S2N_OPENSSL_VERSION_AT_LEAST 1 0 2 && negb (awslc_api_at_most 17).
Definition s2n_evp_aes_128_cbc_hmac_sha1 : bool :=
  if S2N_AES_SHA1_COMPOSITE_AVAILABLE then evp_present EVP_aes_128_cbc_hmac_sha1 else false.
Definition s2n_evp_aes_256_cbc_hmac_sha1 : bool :=
  if S2N_AES_SHA1_COMPOSITE_AVAILABLE then evp_present EVP_aes_256_cbc_hmac_sha1 else false.
Definition s2n_evp_aes_128_cbc_hmac_sha256 : bool :=
  if S2N_AES_SHA256_COMPOSITE_AVAILABLE then evp_present EVP_aes_128_cbc_hmac_sha256 else false.
Definition s2n_evp_aes_256_cbc_hmac_sha256 : bool :=
  if S2N_AES_SHA256_COMPOSITE_AVAILABLE then evp_present EVP_aes_256_cbc_hmac_sha256 else false.
Definition s2n_composite_cipher_aes128_sha_available : bool :=
  negb s2n_is_in_fips_mode && s2n_evp_aes_128_cbc_hmac_sha1.
Definition s2n_composite_cipher_aes256_sha_available : bool :=
  negb s2n_is_in_fips_mode && s2n_evp_aes_256_cbc_hmac_sha1.
Definition s2n_composite_cipher_aes128_sha256_available : bool :=
  negb s2n_is_in_fips_mode && s2n_evp_aes_128_cbc_hmac_sha256.
Definition s2n_composite_cipher_aes256_sha256_available : bool :=
  negb s2n_is_in_fips_mode && s2n_evp_aes_256_cbc_hmac_sha256.

Definition s2n_stream_cipher_null_available : bool := true.
Definition s2n_evp_rc4 : bool := if S2N_LIBCRYPTO_SUPPORTS_EVP_RC4 then evp_present EVP_rc4 else false.
Definition s2n_stream_cipher_rc4_available : bool :=
  if S2N_OPENSSL_VERSION_AT_LEAST 3 0 0 then false else s2n_evp_rc4.
End Features.

(** ** crypto/s2n_cipher.h *)

(** The [type] of a cipher with the member of the union [io] that goes with it. *)
Inductive cipher_io :=
| S2N_STREAM
| S2N_CBC (block_size record_iv_size : Z)
| S2N_AEAD (record_iv_size fixed_iv_size tag_size : Z)
| S2N_COMPOSITE (block_size record_iv_size mac_key_size : Z).

Record s2n_cipher := Cipher {
  cipher_symbol : string;
  io : cipher_io;
  key_material_size : Z;  (* uint8_t *)
  is_available : bool;  (* what the function returns *)
}.
#[export] Instance cipher_object : StaticObject s2n_cipher := cipher_symbol.

Definition S2N_TLS_GCM_FIXED_IV_LEN : Z := 4.
Definition S2N_TLS_GCM_EXPLICIT_IV_LEN : Z := 8.
Definition S2N_TLS_GCM_TAG_LEN : Z := 16.
Definition S2N_TLS_AES_128_GCM_KEY_LEN : Z := 16.
Definition S2N_TLS_AES_256_GCM_KEY_LEN : Z := 32.
Definition S2N_TLS13_RECORD_IV_LEN : Z := 0.
Definition S2N_TLS13_FIXED_IV_LEN : Z := 12.
Definition S2N_TLS_CHACHA20_POLY1305_FIXED_IV_LEN : Z := 12.
Definition S2N_TLS_CHACHA20_POLY1305_EXPLICIT_IV_LEN : Z := 0.
Definition S2N_TLS_CHACHA20_POLY1305_KEY_LEN : Z := 32.
Definition S2N_TLS_CHACHA20_POLY1305_TAG_LEN : Z := 16.
(** openssl/sha.h: the lengths of SHA-1 and SHA-256 digests. *)
Definition SHA_DIGEST_LENGTH : Z := 20.
Definition SHA256_DIGEST_LENGTH : Z := 32.

Section Ciphers.
Context `{Libcrypto}.

Definition s2n_null_cipher : s2n_cipher := {|
  cipher_symbol := "s2n_null_cipher";
  io := S2N_STREAM;
  key_material_size := 0;
  is_available := s2n_stream_cipher_null_available;
|}.

Definition s2n_rc4 : s2n_cipher := {|
  cipher_symbol := "s2n_rc4";
  io := S2N_STREAM;
  key_material_size := 16;
  is_available := s2n_stream_cipher_rc4_available;
|}.

Definition s2n_3des : s2n_cipher := {|
  cipher_symbol := "s2n_3des";
  io := S2N_CBC 8 8;
  key_material_size := 24;
  is_available := s2n_cbc_cipher_3des_available;
|}.

Definition s2n_aes128 : s2n_cipher := {|
  cipher_symbol := "s2n_aes128";
  io := S2N_CBC 16 16;
  key_material_size := 16;
  is_available := s2n_cbc_cipher_aes128_available;
|}.

Definition s2n_aes256 : s2n_cipher := {|
  cipher_symbol := "s2n_aes256";
  io := S2N_CBC 16 16;
  key_material_size := 32;
  is_available := s2n_cbc_cipher_aes256_available;
|}.

Definition s2n_aes128_sha : s2n_cipher := {|
  cipher_symbol := "s2n_aes128_sha";
  io := S2N_COMPOSITE 16 16 SHA_DIGEST_LENGTH;
  key_material_size := 16;
  is_available := s2n_composite_cipher_aes128_sha_available;
|}.

Definition s2n_aes256_sha : s2n_cipher := {|
  cipher_symbol := "s2n_aes256_sha";
  io := S2N_COMPOSITE 16 16 SHA_DIGEST_LENGTH;
  key_material_size := 32;
  is_available := s2n_composite_cipher_aes256_sha_available;
|}.

Definition s2n_aes128_sha256 : s2n_cipher := {|
  cipher_symbol := "s2n_aes128_sha256";
  io := S2N_COMPOSITE 16 16 SHA256_DIGEST_LENGTH;
  key_material_size := 16;
  is_available := s2n_composite_cipher_aes128_sha256_available;
|}.

Definition s2n_aes256_sha256 : s2n_cipher := {|
  cipher_symbol := "s2n_aes256_sha256";
  io := S2N_COMPOSITE 16 16 SHA256_DIGEST_LENGTH;
  key_material_size := 32;
  is_available := s2n_composite_cipher_aes256_sha256_available;
|}.

Definition s2n_aes128_gcm : s2n_cipher := {|
  cipher_symbol := "s2n_aes128_gcm";
  io := S2N_AEAD S2N_TLS_GCM_EXPLICIT_IV_LEN S2N_TLS_GCM_FIXED_IV_LEN S2N_TLS_GCM_TAG_LEN;
  key_material_size := S2N_TLS_AES_128_GCM_KEY_LEN;
  is_available := s2n_aead_cipher_aes128_gcm_available;
|}.

Definition s2n_aes256_gcm : s2n_cipher := {|
  cipher_symbol := "s2n_aes256_gcm";
  io := S2N_AEAD S2N_TLS_GCM_EXPLICIT_IV_LEN S2N_TLS_GCM_FIXED_IV_LEN S2N_TLS_GCM_TAG_LEN;
  key_material_size := S2N_TLS_AES_256_GCM_KEY_LEN;
  is_available := s2n_aead_cipher_aes256_gcm_available;
|}.

Definition s2n_tls13_aes128_gcm : s2n_cipher := {|
  cipher_symbol := "s2n_tls13_aes128_gcm";
  io := S2N_AEAD S2N_TLS13_RECORD_IV_LEN S2N_TLS13_FIXED_IV_LEN S2N_TLS_GCM_TAG_LEN;
  key_material_size := S2N_TLS_AES_128_GCM_KEY_LEN;
  is_available := s2n_aead_cipher_aes128_gcm_available;
|}.

Definition s2n_tls13_aes256_gcm : s2n_cipher := {|
  cipher_symbol := "s2n_tls13_aes256_gcm";
  io := S2N_AEAD S2N_TLS13_RECORD_IV_LEN S2N_TLS13_FIXED_IV_LEN S2N_TLS_GCM_TAG_LEN;
  key_material_size := S2N_TLS_AES_256_GCM_KEY_LEN;
  is_available := s2n_aead_cipher_aes256_gcm_available;
|}.

Definition s2n_chacha20_poly1305 : s2n_cipher := {|
  cipher_symbol := "s2n_chacha20_poly1305";
  io := S2N_AEAD S2N_TLS_CHACHA20_POLY1305_EXPLICIT_IV_LEN S2N_TLS_CHACHA20_POLY1305_FIXED_IV_LEN
    S2N_TLS_CHACHA20_POLY1305_TAG_LEN;
  key_material_size := S2N_TLS_CHACHA20_POLY1305_KEY_LEN;
  is_available := s2n_aead_chacha20_poly1305_available;
|}.
End Ciphers.

(** ** Algorithms and key types *)

(** crypto/s2n_hmac.h *)
Inductive s2n_hmac_algorithm :=
| S2N_HMAC_NONE | S2N_HMAC_MD5 | S2N_HMAC_SHA1 | S2N_HMAC_SHA224 | S2N_HMAC_SHA256
| S2N_HMAC_SHA384 | S2N_HMAC_SHA512 | S2N_HMAC_SSLv3_MD5 | S2N_HMAC_SSLv3_SHA1.

(** crypto/s2n_hash.h *)
Inductive s2n_hash_algorithm :=
| S2N_HASH_NONE | S2N_HASH_MD5 | S2N_HASH_SHA1 | S2N_HASH_SHA224 | S2N_HASH_SHA256
| S2N_HASH_SHA384 | S2N_HASH_SHA512 | S2N_HASH_MD5_SHA1.

(** crypto/s2n_signature.h *)
Inductive s2n_signature_algorithm :=
| S2N_SIGNATURE_ANONYMOUS | S2N_SIGNATURE_RSA | S2N_SIGNATURE_ECDSA
| S2N_SIGNATURE_RSA_PSS_RSAE | S2N_SIGNATURE_RSA_PSS_PSS.

(** crypto/s2n_pkey.h; the first three index the certificates by type. *)
Inductive s2n_pkey_type :=
| S2N_PKEY_TYPE_RSA | S2N_PKEY_TYPE_ECDSA | S2N_PKEY_TYPE_RSA_PSS
| S2N_PKEY_TYPE_SENTINEL | S2N_PKEY_TYPE_UNKNOWN.

(** tls/s2n_cipher_suites.h *)
Inductive s2n_authentication_method :=
| S2N_AUTHENTICATION_RSA | S2N_AUTHENTICATION_ECDSA | S2N_AUTHENTICATION_METHOD_SENTINEL.
Definition S2N_AUTHENTICATION_METHOD_TLS13 : s2n_authentication_method :=
  S2N_AUTHENTICATION_METHOD_SENTINEL.

#[export] Instance hmac_alg_eq_dec : EqDecision s2n_hmac_algorithm.
Proof. solve_decision. Defined.
#[export] Instance hash_alg_eq_dec : EqDecision s2n_hash_algorithm.
Proof. solve_decision. Defined.
#[export] Instance sig_alg_eq_dec : EqDecision s2n_signature_algorithm.
Proof. solve_decision. Defined.
#[export] Instance pkey_type_eq_dec : EqDecision s2n_pkey_type.
Proof. solve_decision. Defined.
#[export] Instance auth_method_eq_dec : EqDecision s2n_authentication_method.
Proof. solve_decision. Defined.

(** SSLv3 and the TLS versions that are not in [Connection] (api/s2n.h). *)
Definition S2N_SSLv3 : Z := 30.
Definition S2N_TLS10 : Z := 31.
Definition S2N_TLS11 : Z := 32.

(** An OpenSSL 1.1.1 that has everything. *)
Definition demo_libcrypto : Libcrypto := {|
  OPENSSL_VERSION_NUMBER := 0x1010117f;
  OPENSSL_IS_BORINGSSL := false;
  OPENSSL_IS_AWSLC := false;
  LIBRESSL_VERSION_NUMBER := false;
  AWSLC_API_VERSION := None;
  S2N_LIBCRYPTO_SUPPORTS_EVP_AEAD_TLS := false;
  S2N_LIBCRYPTO_SUPPORTS_EVP_RC4 := true;
  S2N_LIBCRYPTO_SUPPORTS_EVP_KEM := false;
  S2N_LIBCRYPTO_SUPPORTS_MLKEM := false;
  S2N_LIBCRYPTO_SUPPORTS_RSA_PSS_SIGNING := true;
  fips_mode_enabled := false;
  evp_present _ := true;
  nid_number n :=
    match n with
    | NID_undef => 0 | NID_md5_sha1 => 114
    | NID_sha1WithRSAEncryption => 65 | NID_sha224WithRSAEncryption => 671
    | NID_sha256WithRSAEncryption => 668 | NID_sha384WithRSAEncryption => 669
    | NID_sha512WithRSAEncryption => 670
    | NID_ecdsa_with_SHA1 => 416 | NID_ecdsa_with_SHA224 => 793 | NID_ecdsa_with_SHA256 => 794
    | NID_ecdsa_with_SHA384 => 795 | NID_ecdsa_with_SHA512 => 796
    | NID_rsassaPss => 912 | NID_rsaEncryption => 6
    | NID_X9_62_prime256v1 => 415 | NID_secp384r1 => 715 | NID_secp521r1 => 716 | NID_X25519 => 1034
    | NID_KYBER512_R3 => 972 | NID_KYBER768_R3 => 973 | NID_KYBER1024_R3 => 974 | NID_MLKEM768 => 985
    end;
|}.

#[export] Instance demo_libcrypto_ok : @LibcryptoOk demo_libcrypto.
Proof. split; [|done]. intros a b. destruct a, b; vm_compute; congruence. Qed.
End Crypto.
Export Crypto.
