(* ===== verification/Hash.v ===== *)
(** * crypto/s2n_hash.c: hash states

    A hash state wraps one or two digest contexts of libcrypto.  What libcrypto
    computes is a parameter: [Digests] has the digest functions and says which
    calls fail, [DigestsOk] is what its documentation promises.  Data is passed
    as lists of bytes, and a digest is returned as one. *)
From S2P Require Import Prelude Errors CMem Platform Safety Blob Alloc Libcrypto.
Open Scope Z_scope.

Module Hash.

(** EVP_MD_CTX: no algorithm set, data absorbed so far, or a digest taken. *)
Inductive evp_ctx :=
| CtxEmpty
| CtxOpen (md : s2n_hash_algorithm) (absorbed : list Z)
| CtxFinal (md : s2n_hash_algorithm).

Inductive evp_call := DigestInit | DigestUpdate | DigestFinal | MdCtxCopy | MdCtxReset | MdCtxNew.

Class Digests := {
  (** The digest of a message. *)
  md_digest : s2n_hash_algorithm -> list Z -> list Z;
  (** Whether s2n_evp_mds has the algorithm. *)
  evp_md : s2n_hash_algorithm -> bool;
  (** Whether a call fails; the world and the context say when. *)
  evp_fails : evp_call -> world -> evp_ctx -> bool;
  (** Probed by the build. *)
  S2N_LIBCRYPTO_SUPPORTS_EVP_MD5_SHA1_HASH : bool;
}.

(** openssl/md5.h and openssl/sha.h *)
Definition MD5_DIGEST_LENGTH : Z := 16.
Definition SHA224_DIGEST_LENGTH : Z := 28.
Definition SHA384_DIGEST_LENGTH : Z := 48.
Definition SHA512_DIGEST_LENGTH : Z := 64.

(** struct s2n_hash_state; hash_impl is always s2n_evp_hash. *)
Record s2n_hash_state := HashState {
  hash_alg : s2n_hash_algorithm;  (* alg *)
  is_ready_for_input : bool;
  currently_in_hash : Z;  (* uint64_t *)
  evp : option evp_ctx;  (* digest.high_level.evp.ctx *)
  evp_md5_secondary : option evp_ctx;  (* digest.high_level.evp_md5_secondary.ctx *)
}.

Definition set_ready (r : bool) (n : Z) (s : s2n_hash_state) : s2n_hash_state :=
  HashState (hash_alg s) r n (evp s) (evp_md5_secondary s).

Definition evp_lens : lens s2n_hash_state (option evp_ctx) :=
  Lens evp (fun c s => HashState (hash_alg s) (is_ready_for_input s) (currently_in_hash s) c (evp_md5_secondary s)).
Definition secondary_lens : lens s2n_hash_state (option evp_ctx) :=
  Lens evp_md5_secondary (fun c s => HashState (hash_alg s) (is_ready_for_input s) (currently_in_hash s) (evp s) c).

Definition s2n_hash_digest_size (alg : s2n_hash_algorithm) : Z :=
  match alg with
  | S2N_HASH_NONE => 0
  | S2N_HASH_MD5 => MD5_DIGEST_LENGTH
  | S2N_HASH_SHA1 => SHA_DIGEST_LENGTH
  | S2N_HASH_SHA224 => SHA224_DIGEST_LENGTH
  | S2N_HASH_SHA256 => SHA256_DIGEST_LENGTH
  | S2N_HASH_SHA384 => SHA384_DIGEST_LENGTH
  | S2N_HASH_SHA512 => SHA512_DIGEST_LENGTH
  | S2N_HASH_MD5_SHA1 => MD5_DIGEST_LENGTH + SHA_DIGEST_LENGTH
  end.

Definition s2n_hash_block_size (alg : s2n_hash_algorithm) : Z :=
  match alg with
  | S2N_HASH_NONE => 64
  | S2N_HASH_MD5 => 64
  | S2N_HASH_SHA1 => 64
  | S2N_HASH_SHA224 => 64
  | S2N_HASH_SHA256 => 64
  | S2N_HASH_SHA384 => 128
  | S2N_HASH_SHA512 => 128
  | S2N_HASH_MD5_SHA1 => 64
  end.

(** The algorithms of the type are all there are. *)
Definition s2n_hash_is_available (alg : s2n_hash_algorithm) : bool := true.

Section Definitions.
Context `{Digests}.

Definition s2n_hash_use_custom_md5_sha1 : bool := negb S2N_LIBCRYPTO_SUPPORTS_EVP_MD5_SHA1_HASH.

(** ** The calls of libcrypto, on a context pointer *)

Definition evp_attempt (call : evp_call) (e : s2n_error) : Cmd (option evp_ctx) unit :=
  w <-- get_world ;;
  c <-- get_obj ;;
  match c with
  | None => fail e
  | Some ctx => if evp_fails call w ctx then fail e else ret tt
  end.

(** Without an algorithm the call restarts the one that is set. *)
Definition EVP_DigestInit_ex (md : s2n_hash_algorithm) : Cmd (option evp_ctx) unit :=
  evp_attempt DigestInit S2N_ERR_HASH_INIT_FAILED ;;;
  c <-- get_obj ;;
  if evp_md md then put_obj (Some (CtxOpen md []))
  else match c with
       | Some (CtxOpen md' _) | Some (CtxFinal md') => put_obj (Some (CtxOpen md' []))
       | _ => fail S2N_ERR_HASH_INIT_FAILED
       end.

(** Data after the digest was taken is undefined. *)
Definition EVP_DigestUpdate (bs : list Z) : Cmd (option evp_ctx) unit :=
  evp_attempt DigestUpdate S2N_ERR_HASH_UPDATE_FAILED ;;;
  c <-- get_obj ;;
  match c with
  | Some (CtxOpen md m) => put_obj (Some (CtxOpen md (m ++ bs)))
  | _ => undefined
  end.

Definition EVP_DigestFinal_ex : Cmd (option evp_ctx) (list Z) :=
  evp_attempt DigestFinal S2N_ERR_HASH_DIGEST_FAILED ;;;
  c <-- get_obj ;;
  match c with
  | Some (CtxOpen md m) => put_obj (Some (CtxFinal md)) ;;; ret (md_digest md m)
  | _ => undefined
  end.

(** [EVP_MD_CTX_md(ctx) != NULL] *)
Definition ctx_md (c : option evp_ctx) : option s2n_hash_algorithm :=
  match c with Some (CtxOpen md _) | Some (CtxFinal md) => Some md | _ => None end.

(** EVP_MD_CTX_size: the size of the digest. *)
Definition EVP_MD_CTX_size (c : option evp_ctx) : Z :=
  match ctx_md c with Some md => zlen (md_digest md []) | None => 0 end.

(** The source must have an algorithm. *)
Definition EVP_MD_CTX_copy_ex (from : option evp_ctx) : Cmd (option evp_ctx) unit :=
  evp_attempt MdCtxCopy S2N_ERR_HASH_COPY_FAILED ;;;
  match from with
  | Some CtxEmpty | None => fail S2N_ERR_HASH_COPY_FAILED
  | Some c => put_obj (Some c)
  end.

Definition S2N_EVP_MD_CTX_RESET : Cmd (option evp_ctx) unit :=
  evp_attempt MdCtxReset S2N_ERR_HASH_WIPE_FAILED ;;; put_obj (Some CtxEmpty).

Definition S2N_EVP_MD_CTX_NEW : Cmd (option evp_ctx) unit :=
  w <-- get_world ;;
  put_obj (if evp_fails MdCtxNew w CtxEmpty then None else Some CtxEmpty).

Definition ensure_ref {X A} (p : option A) : Cmd X unit :=
  match p with Some _ => ret tt | None => fail S2N_ERR_NULL end.

(** ** The implementation on top of them *)

Definition s2n_evp_hash_new : Cmd s2n_hash_state unit :=
  zoom evp_lens S2N_EVP_MD_CTX_NEW ;;;
  s <-- get_obj ;;
  ensure_ref (evp s) ;;;
  (if s2n_hash_use_custom_md5_sha1 then
     zoom secondary_lens S2N_EVP_MD_CTX_NEW ;;;
     s <-- get_obj ;;
     ensure_ref (evp_md5_secondary s)
   else ret tt) ;;;
  modify (set_ready false 0).

Definition s2n_evp_hash_init (alg : s2n_hash_algorithm) : Cmd s2n_hash_state unit :=
  s <-- get_obj ;;
  ensure_ref (evp s) ;;;
  put_obj (HashState alg true 0 (evp s) (evp_md5_secondary s)) ;;;
  if bool_decide (alg = S2N_HASH_NONE) then ret tt
  else if bool_decide (alg = S2N_HASH_MD5_SHA1) && s2n_hash_use_custom_md5_sha1 then
    ensure_ref (evp_md5_secondary s) ;;;
    zoom evp_lens (EVP_DigestInit_ex S2N_HASH_SHA1) ;;;
    zoom secondary_lens (EVP_DigestInit_ex S2N_HASH_MD5)
  else
    ensure (evp_md alg) S2N_ERR_HASH_INVALID_ALGORITHM ;;;
    zoom evp_lens (EVP_DigestInit_ex alg).

Definition s2n_evp_hash_update (bs : list Z) : Cmd s2n_hash_state unit :=
  s <-- get_obj ;;
  ensure (is_ready_for_input s) S2N_ERR_HASH_NOT_READY ;;;
  ensure (zlen bs <=? UINT64_MAX - currently_in_hash s) S2N_ERR_INTEGER_OVERFLOW ;;;
  modify (set_ready true (currently_in_hash s + zlen bs)) ;;;
  if bool_decide (hash_alg s = S2N_HASH_NONE) then ret tt
  else
    ensure_ref (ctx_md (evp s)) ;;;
    zoom evp_lens (EVP_DigestUpdate bs) ;;;
    if bool_decide (hash_alg s = S2N_HASH_MD5_SHA1) && s2n_hash_use_custom_md5_sha1 then
      ensure_ref (ctx_md (evp_md5_secondary s)) ;;;
      zoom secondary_lens (EVP_DigestUpdate bs)
    else ret tt.

(** [size] is the space for the digest, which is the result. *)
Definition s2n_evp_hash_digest (size : Z) : Cmd s2n_hash_state (list Z) :=
  s <-- get_obj ;;
  ensure (is_ready_for_input s) S2N_ERR_HASH_NOT_READY ;;;
  modify (set_ready false 0) ;;;
  ensure (size =? s2n_hash_digest_size (hash_alg s)) S2N_ERR_SAFETY ;;;
  if bool_decide (hash_alg s = S2N_HASH_NONE) then ret []
  else
    ensure_ref (ctx_md (evp s)) ;;;
    if bool_decide (hash_alg s = S2N_HASH_MD5_SHA1) && s2n_hash_use_custom_md5_sha1 then
      ensure_ref (ctx_md (evp_md5_secondary s)) ;;;
      let sha1_digest_size := s2n_hash_digest_size S2N_HASH_SHA1 in
      ensure (EVP_MD_CTX_size (evp s) <=? sha1_digest_size) S2N_ERR_HASH_DIGEST_FAILED ;;;
      ensure (EVP_MD_CTX_size (evp_md5_secondary s) <=? size - sha1_digest_size) S2N_ERR_HASH_DIGEST_FAILED ;;;
      sha1 <-- zoom evp_lens EVP_DigestFinal_ex ;;
      md5 <-- zoom secondary_lens EVP_DigestFinal_ex ;;
      ret (md5 ++ sha1)
    else
      ensure (EVP_MD_CTX_size (evp s) <=? size) S2N_ERR_HASH_DIGEST_FAILED ;;;
      zoom evp_lens EVP_DigestFinal_ex.

Definition s2n_evp_hash_copy (from : s2n_hash_state) : Cmd s2n_hash_state unit :=
  modify (fun to => HashState (hash_alg from) (is_ready_for_input from) (currently_in_hash from) (evp to) (evp_md5_secondary to)) ;;;
  if bool_decide (hash_alg from = S2N_HASH_NONE) then ret tt
  else
    to <-- get_obj ;;
    ensure_ref (evp to) ;;;
    zoom evp_lens (EVP_MD_CTX_copy_ex (evp from)) ;;;
    if bool_decide (hash_alg from = S2N_HASH_MD5_SHA1) && s2n_hash_use_custom_md5_sha1 then
      ensure_ref (evp_md5_secondary to) ;;;
      zoom secondary_lens (EVP_MD_CTX_copy_ex (evp_md5_secondary from))
    else ret tt.

Definition s2n_evp_hash_reset : Cmd s2n_hash_state unit :=
  zoom evp_lens S2N_EVP_MD_CTX_RESET ;;;
  s <-- get_obj ;;
  (if bool_decide (hash_alg s = S2N_HASH_MD5_SHA1) && s2n_hash_use_custom_md5_sha1 then
     zoom secondary_lens S2N_EVP_MD_CTX_RESET
   else ret tt) ;;;
  s2n_evp_hash_init (hash_alg s).

Definition s2n_evp_hash_free : Cmd s2n_hash_state unit :=
  modify (fun s => HashState (hash_alg s) false (currently_in_hash s) None
                     (if s2n_hash_use_custom_md5_sha1 then None else evp_md5_secondary s)).

(** ** The functions of the interface *)

Definition s2n_hash_new : Cmd s2n_hash_state unit := s2n_evp_hash_new.

Definition s2n_hash_init (alg : s2n_hash_algorithm) : Cmd s2n_hash_state unit :=
  if s2n_hash_is_available alg then s2n_evp_hash_init alg else fail S2N_ERR_HASH_INVALID_ALGORITHM.

Definition s2n_hash_update (bs : list Z) : Cmd s2n_hash_state unit := s2n_evp_hash_update bs.

Definition s2n_hash_digest (size : Z) : Cmd s2n_hash_state (list Z) := s2n_evp_hash_digest size.

Definition s2n_hash_copy (from : s2n_hash_state) : Cmd s2n_hash_state unit := s2n_evp_hash_copy from.

Definition s2n_hash_reset : Cmd s2n_hash_state unit := s2n_evp_hash_reset.

Definition s2n_hash_free : Cmd s2n_hash_state unit := s2n_evp_hash_free.

Definition s2n_hash_is_ready_for_input (s : s2n_hash_state) : bool := is_ready_for_input s.

Definition s2n_hash_get_currently_in_hash_total : Cmd s2n_hash_state Z :=
  s <-- get_obj ;;
  ensure (is_ready_for_input s) S2N_ERR_HASH_NOT_READY ;;;
  ret (currently_in_hash s).

Definition s2n_hash_const_time_get_currently_in_hash_block : Cmd s2n_hash_state Z :=
  s <-- get_obj ;;
  ensure (is_ready_for_input s) S2N_ERR_HASH_NOT_READY ;;;
  ret (Z.land (currently_in_hash s) (s2n_hash_block_size (hash_alg s) - 1)).
End Definitions.

(** ** What libcrypto promises *)

Class DigestsOk `{Digests} : Prop := {
  md_length alg m : alg <> S2N_HASH_NONE -> zlen (md_digest alg m) = s2n_hash_digest_size alg;
  md_bytes alg m : is_bytes (md_digest alg m);
  md_md5_sha1 m : md_digest S2N_HASH_MD5_SHA1 m = md_digest S2N_HASH_MD5 m ++ md_digest S2N_HASH_SHA1 m;
  evp_md_present alg : alg <> S2N_HASH_NONE ->
    (alg = S2N_HASH_MD5_SHA1 -> S2N_LIBCRYPTO_SUPPORTS_EVP_MD5_SHA1_HASH = true) -> evp_md alg = true;
}.

Section Theory.
Context `{HD : Digests} `{HOK : !DigestsOk}.
Implicit Types (w : world) (s : s2n_hash_state) (m bs : list Z) (alg : s2n_hash_algorithm).

(** The hash of a message; S2N_HASH_NONE hashes to nothing. *)
Definition hash_of alg m : list Z := if bool_decide (alg = S2N_HASH_NONE) then [] else md_digest alg m.

Lemma hash_of_length alg m : zlen (hash_of alg m) = s2n_hash_digest_size alg.
Proof. unfold hash_of. case_bool_decide; [by subst|by apply md_length]. Qed.

Lemma hash_of_bytes alg m : is_bytes (hash_of alg m).
Proof. unfold hash_of. case_bool_decide; [constructor|apply md_bytes]. Qed.

(** The contexts that a state uses for an algorithm. *)
Definition two_contexts alg : bool := bool_decide (alg = S2N_HASH_MD5_SHA1) && s2n_hash_use_custom_md5_sha1.
Definition main_md alg : s2n_hash_algorithm := if two_contexts alg then S2N_HASH_SHA1 else alg.

Definition hash_alloc s : Prop :=
  is_Some (evp s) /\ (s2n_hash_use_custom_md5_sha1 = true -> is_Some (evp_md5_secondary s)).

(** A state that has absorbed [m], and one whose digest was taken. *)
Record hash_open alg m s : Prop := {
  ho_alloc : hash_alloc s;
  ho_alg : hash_alg s = alg;
  ho_ready : is_ready_for_input s = true;
  ho_count : currently_in_hash s = zlen m;
  ho_main : alg <> S2N_HASH_NONE -> evp s = Some (CtxOpen (main_md alg) m);
  ho_secondary : two_contexts alg = true -> evp_md5_secondary s = Some (CtxOpen S2N_HASH_MD5 m);
}.

Record hash_closed alg s : Prop := {
  hc_alloc : hash_alloc s;
  hc_alg : hash_alg s = alg;
  hc_ready : is_ready_for_input s = false;
}.

(** An error that libcrypto caused. *)
Definition libcrypto_error (e : s2n_error) : bool :=
  existsb (error_eqb e) [S2N_ERR_HASH_INIT_FAILED; S2N_ERR_HASH_UPDATE_FAILED; S2N_ERR_HASH_DIGEST_FAILED;
    S2N_ERR_HASH_COPY_FAILED; S2N_ERR_HASH_WIPE_FAILED].
Definition hash_failure w (e : s2n_error) : Prop :=
  libcrypto_error e = true /\ exists call c, evp_fails call w c = true.

Lemma two_contexts_custom alg : two_contexts alg = true -> s2n_hash_use_custom_md5_sha1 = true.
Proof. unfold two_contexts. destruct s2n_hash_use_custom_md5_sha1; [done|]. by rewrite andb_false_r. Qed.

Lemma main_md_none alg : alg <> S2N_HASH_NONE -> main_md alg <> S2N_HASH_NONE.
Proof. unfold main_md. by destruct (two_contexts alg). Qed.

Lemma main_md_present alg : alg <> S2N_HASH_NONE -> evp_md (main_md alg) = true.
Proof.
  intros Hn. apply evp_md_present; [by apply main_md_none|]. unfold main_md, two_contexts, s2n_hash_use_custom_md5_sha1.
  destruct S2N_LIBCRYPTO_SUPPORTS_EVP_MD5_SHA1_HASH; [done|]. case_bool_decide; simpl; [done|by intros ->].
Qed.

(** ** The calls of libcrypto *)

Lemma wp_evp_attempt w call e c Q E :
  libcrypto_error e = true -> (evp_fails call w c = false -> Q tt w (Some c)) ->
  (hash_failure w e -> E e w (Some c)) -> wp (evp_attempt call e) (w, Some c) Q E.
Proof.
  intros He HQ HE. apply wp_bind, wp_get_world, wp_bind, wp_get_obj. destruct (evp_fails call w c) eqn:Hf.
  - apply wp_fail, HE. split; [done|]. by exists call, c.
  - by apply wp_ret, HQ.
Qed.

Lemma wp_digest_init w md c Q E :
  evp_md md = true -> Q tt w (Some (CtxOpen md [])) -> (forall e, hash_failure w e -> E e w (Some c)) ->
  wp (EVP_DigestInit_ex md) (w, Some c) Q E.
Proof.
  intros Hmd HQ HE. apply wp_bind, wp_evp_attempt; [done| |by apply HE]. intros _.
  apply wp_bind, wp_get_obj. rewrite Hmd. by apply wp_put_obj.
Qed.

Lemma wp_digest_update w md m bs Q E :
  Q tt w (Some (CtxOpen md (m ++ bs))) -> (forall e, hash_failure w e -> E e w (Some (CtxOpen md m))) ->
  wp (EVP_DigestUpdate bs) (w, Some (CtxOpen md m)) Q E.
Proof.
  intros HQ HE. apply wp_bind, wp_evp_attempt; [done| |by apply HE]. intros _. by apply wp_bind, wp_get_obj, wp_put_obj.
Qed.

Lemma wp_digest_final w md m Q E :
  Q (md_digest md m) w (Some (CtxFinal md)) -> (forall e, hash_failure w e -> E e w (Some (CtxOpen md m))) ->
  wp EVP_DigestFinal_ex (w, Some (CtxOpen md m)) Q E.
Proof.
  intros HQ HE. apply wp_bind, wp_evp_attempt; [done| |by apply HE]. intros _.
  by apply wp_bind, wp_get_obj, wp_bind, wp_put_obj, wp_ret.
Qed.

Lemma wp_ctx_copy w md m c Q E :
  Q tt w (Some (CtxOpen md m)) -> (forall e, hash_failure w e -> E e w (Some c)) ->
  wp (EVP_MD_CTX_copy_ex (Some (CtxOpen md m))) (w, Some c) Q E.
Proof. intros HQ HE. apply wp_bind, wp_evp_attempt; [done| |by apply HE]. intros _. by apply wp_put_obj. Qed.

Lemma wp_ctx_reset w c Q E :
  Q tt w (Some CtxEmpty) -> (forall e, hash_failure w e -> E e w (Some c)) -> wp S2N_EVP_MD_CTX_RESET (w, Some c) Q E.
Proof. intros HQ HE. apply wp_bind, wp_evp_attempt; [done| |by apply HE]. intros _. by apply wp_put_obj. Qed.

(** ** The functions of the file *)

Ltac solve_hash :=
  split; simpl; try done;
  repeat match goal with
  | H : hash_alloc _ |- _ => destruct H
  | |- hash_alloc _ => split; simpl; by eauto
  | |- is_Some _ => by eauto
  | |- _ = zlen (_ ++ _) => by rewrite zlen_app
  | |- _ -> _ => intros ?
  | H : two_contexts ?a = _ |- context [main_md ?a] => unfold main_md; rewrite H
  | H : two_contexts ?a = false, H' : two_contexts ?a = true |- _ => by rewrite H in H'
  | H : two_contexts ?a = true, Hn : ?a = S2N_HASH_NONE |- _ => by rewrite Hn in H
  | _ => progress subst
  | _ => done
  end.

Lemma wp_hash_init w s alg Q E :
  hash_alloc s -> (forall s', hash_open alg [] s' -> Q tt w s') ->
  (forall e s', hash_failure w e -> hash_alloc s' -> E e w s') -> wp (s2n_hash_init alg) (w, s) Q E.
Proof.
  intros [[c Hc] Hsec] HQ HE. apply wp_bind, wp_get_obj. rewrite Hc. apply wp_bind, wp_ret, wp_bind, wp_put_obj.
  case_bool_decide as Hn; [|fold (two_contexts alg); pose proof (main_md_present alg Hn) as Hmd; unfold main_md in Hmd;
    destruct (two_contexts alg) eqn:Ht].
  - apply wp_ret, HQ. solve_hash.
  - destruct (Hsec (two_contexts_custom _ Ht)) as [c2 Hc2]. rewrite Hc2.
    apply wp_bind, wp_ret, wp_bind, wp_zoom, wp_digest_init; [done| |].
    2: { intros e He. apply HE; [done|]. solve_hash. }
    apply wp_zoom, wp_digest_init; [by apply evp_md_present| |].
    + apply HQ. solve_hash.
    + intros e He. apply HE; [done|]. solve_hash.
  - rewrite Hmd. apply wp_bind, wp_ret, wp_zoom, wp_digest_init; [done| |].
    + apply HQ. solve_hash.
    + intros e He. apply HE; [done|]. solve_hash.
Qed.

Lemma wp_hash_update w s alg m bs Q E :
  hash_open alg m s -> zlen m + zlen bs < 2 ^ 64 ->
  (forall s', hash_open alg (m ++ bs) s' -> Q tt w s') ->
  (forall e s', hash_failure w e -> hash_alloc s' -> E e w s') -> wp (s2n_hash_update bs) (w, s) Q E.
Proof.
  intros [Hal Halg Hr Hcnt Hmain Hsec] Hlen HQ HE. apply wp_bind, wp_get_obj. rewrite Hr, Halg, Hcnt.
  apply wp_bind, wp_ensure; [intros _|done]. unfold UINT64_MAX.
  apply wp_bind, wp_ensure; [intros _|intros Hz; zbool; lia]. apply wp_bind, wp_modify.
  case_bool_decide as Hn; [|fold (two_contexts alg); specialize (Hmain Hn); rewrite Hmain].
  - apply wp_ret, HQ. solve_hash.
  - apply wp_bind, wp_ret, wp_bind, wp_zoom. simpl. rewrite ?Hmain.
    apply wp_digest_update; [|intros e He; apply HE; [done|solve_hash]].
    destruct (two_contexts alg) eqn:Ht.
    + rewrite (Hsec eq_refl). apply wp_bind, wp_ret, wp_zoom. simpl. rewrite ?(Hsec eq_refl).
      apply wp_digest_update; [|intros e He; apply HE; [done|solve_hash]].
      apply HQ. solve_hash.
    + apply wp_ret, HQ. solve_hash.
Qed.

Lemma wp_hash_digest w s alg m n Q E :
  hash_open alg m s -> n = s2n_hash_digest_size alg ->
  (forall s', hash_closed alg s' -> Q (hash_of alg m) w s') ->
  (forall e s', hash_failure w e -> hash_alloc s' -> E e w s') -> wp (s2n_hash_digest n) (w, s) Q E.
Proof.
  intros [Hal Halg Hr Hcnt Hmain Hsec] -> HQ HE. unfold hash_of in HQ. apply wp_bind, wp_get_obj. rewrite Hr, Halg.
  apply wp_bind, wp_ensure; [intros _|done]. apply wp_bind, wp_modify, wp_bind, wp_ensure; [intros _|by rewrite Z.eqb_refl].
  case_bool_decide as Hn; [by apply wp_ret, HQ|]. fold (two_contexts alg). specialize (Hmain Hn). rewrite Hmain.
  apply wp_bind, wp_ret. pose proof (main_md_none _ Hn) as Hmn. unfold EVP_MD_CTX_size. simpl ctx_md. cbv beta iota.
  rewrite md_length by done. unfold main_md in *. destruct (two_contexts alg) eqn:Ht.
  - rewrite (Hsec eq_refl). assert (alg = S2N_HASH_MD5_SHA1) as -> by (unfold two_contexts in Ht; by case_bool_decide).
    apply wp_bind, wp_ret, wp_bind, wp_ensure; [intros _|intros Hz; zbool; lia]. simpl ctx_md. cbv beta iota.
    rewrite md_length by done. apply wp_bind, wp_ensure; [intros _|done].
    apply wp_bind, wp_zoom. simpl. rewrite ?Hmain. apply wp_digest_final.
    2: { intros e He. apply HE; [done|]. solve_hash. }
    apply wp_bind, wp_zoom. simpl. rewrite ?(Hsec eq_refl). apply wp_digest_final.
    + apply wp_ret. rewrite <- md_md5_sha1. apply HQ. solve_hash.
    + intros e He. apply HE; [done|]. solve_hash.
  - apply wp_bind, wp_ensure; [intros _|intros Hz; zbool; lia]. apply wp_zoom. simpl. rewrite ?Hmain. apply wp_digest_final.
    + apply HQ. solve_hash.
    + intros e He. apply HE; [done|]. solve_hash.
Qed.

(** A copy is independent of its source. *)
Lemma wp_hash_copy w from to alg m Q E :
  hash_alloc to -> hash_open alg m from ->
  (forall to', hash_open alg m to' -> Q tt w to') ->
  (forall e s', hash_failure w e -> hash_alloc s' -> E e w s') -> wp (s2n_hash_copy from) (w, to) Q E.
Proof.
  intros [[c Hc] Hsec2] [Hal Halg Hr Hcnt Hmain Hsec] HQ HE. apply wp_bind, wp_modify. rewrite Halg, Hr, Hcnt.
  case_bool_decide as Hn; [|fold (two_contexts alg); specialize (Hmain Hn)].
  - apply wp_ret, HQ. solve_hash.
  - apply wp_bind, wp_get_obj. simpl. rewrite Hc. apply wp_bind, wp_ret, wp_bind, wp_zoom. simpl. rewrite ?Hc, Hmain.
    apply wp_ctx_copy; [|intros e He; apply HE; [done|solve_hash]]. destruct (two_contexts alg) eqn:Ht.
    + destruct (Hsec2 (two_contexts_custom _ Ht)) as [c2 Hc2]. rewrite Hc2, (Hsec eq_refl).
      apply wp_bind, wp_ret, wp_zoom. simpl. rewrite ?Hc2. apply wp_ctx_copy.
      * apply HQ. solve_hash.
      * intros e He. apply HE; [done|]. solve_hash.
    + apply wp_ret, HQ. solve_hash.
Qed.

Lemma wp_hash_reset w s Q E :
  hash_alloc s -> (forall s', hash_open (hash_alg s) [] s' -> Q tt w s') ->
  (forall e s', hash_failure w e -> hash_alloc s' -> E e w s') -> wp s2n_hash_reset (w, s) Q E.
Proof.
  intros [[c Hc] Hsec] HQ HE. apply wp_bind, wp_zoom. simpl. rewrite Hc.
  apply wp_ctx_reset; [|intros e He; apply HE; [done|solve_hash]].
  apply wp_bind, wp_get_obj. simpl. fold (two_contexts (hash_alg s)). destruct (two_contexts (hash_alg s)) eqn:Ht.
  - destruct (Hsec (two_contexts_custom _ Ht)) as [c2 Hc2]. apply wp_bind, wp_zoom. simpl. rewrite ?Hc2.
    apply wp_ctx_reset; [|intros e He; apply HE; [done|solve_hash]].
    apply wp_hash_init; [solve_hash|done|done].
  - apply wp_bind, wp_ret, wp_hash_init; [solve_hash|done|done].
Qed.

(** The fast way to reduce the count modulo the block size. *)
Lemma block_position n alg : 0 <= n -> Z.land n (s2n_hash_block_size alg - 1) = n mod s2n_hash_block_size alg.
Proof.
  intros Hn. assert (exists k, 0 <= k /\ s2n_hash_block_size alg = 2 ^ k) as (k & Hk & ->).
  { destruct alg; (by exists 6) || (by exists 7). }
  rewrite Z.sub_1_r, <- Z.ones_equiv. by rewrite Z.land_ones.
Qed.
End Theory.
End Hash.
Export Hash.
