(* ===== verification/Hmac.v ===== *)
(** * crypto/s2n_hmac.c: message authentication codes

    HMAC and the MAC of SSLv3 on top of the hash states of [Hash].  A state
    keeps the hashes of the two padded keys, so that it can be reset without
    the key, and counts the bytes in the current hash block for the
    verification of CBC records. *)
From S2P Require Import Prelude Errors CMem Platform Safety Blob Alloc Libcrypto Hash.
Open Scope Z_scope.

Module Hmac.

(** struct s2n_hmac_state *)
Record s2n_hmac_state := HmacState {
  mac_alg : s2n_hmac_algorithm;  (* alg *)
  hash_block_size : Z;  (* uint16_t *)
  currently_in_hash_block : Z;  (* uint32_t *)
  xor_pad_size : Z;  (* uint16_t *)
  digest_size : Z;  (* uint8_t *)
  inner : s2n_hash_state;
  inner_just_key : s2n_hash_state;
  outer : s2n_hash_state;
  outer_just_key : s2n_hash_state;
  xor_pad : list Z;  (* uint8_t[128] *)
  digest_pad : list Z;  (* uint8_t[SHA512_DIGEST_LENGTH] *)
}.

Definition SIZEOF_XOR_PAD : Z := 128.
Definition SIZEOF_DIGEST_PAD : Z := SHA512_DIGEST_LENGTH.

Definition set_block (n : Z) (s : s2n_hmac_state) : s2n_hmac_state :=
  HmacState (mac_alg s) (hash_block_size s) n (xor_pad_size s) (digest_size s) (inner s) (inner_just_key s) (outer s)
    (outer_just_key s) (xor_pad s) (digest_pad s).
Definition set_xor_pad (p : list Z) (s : s2n_hmac_state) : s2n_hmac_state :=
  HmacState (mac_alg s) (hash_block_size s) (currently_in_hash_block s) (xor_pad_size s) (digest_size s) (inner s)
    (inner_just_key s) (outer s) (outer_just_key s) p (digest_pad s).
Definition set_digest_pad (p : list Z) (s : s2n_hmac_state) : s2n_hmac_state :=
  HmacState (mac_alg s) (hash_block_size s) (currently_in_hash_block s) (xor_pad_size s) (digest_size s) (inner s)
    (inner_just_key s) (outer s) (outer_just_key s) (xor_pad s) p.

Definition inner_lens : lens s2n_hmac_state s2n_hash_state :=
  Lens inner (fun h s => HmacState (mac_alg s) (hash_block_size s) (currently_in_hash_block s) (xor_pad_size s) (digest_size s)
    h (inner_just_key s) (outer s) (outer_just_key s) (xor_pad s) (digest_pad s)).
Definition inner_just_key_lens : lens s2n_hmac_state s2n_hash_state :=
  Lens inner_just_key (fun h s => HmacState (mac_alg s) (hash_block_size s) (currently_in_hash_block s) (xor_pad_size s)
    (digest_size s) (inner s) h (outer s) (outer_just_key s) (xor_pad s) (digest_pad s)).
Definition outer_lens : lens s2n_hmac_state s2n_hash_state :=
  Lens outer (fun h s => HmacState (mac_alg s) (hash_block_size s) (currently_in_hash_block s) (xor_pad_size s) (digest_size s)
    (inner s) (inner_just_key s) h (outer_just_key s) (xor_pad s) (digest_pad s)).
Definition outer_just_key_lens : lens s2n_hmac_state s2n_hash_state :=
  Lens outer_just_key (fun h s => HmacState (mac_alg s) (hash_block_size s) (currently_in_hash_block s) (xor_pad_size s)
    (digest_size s) (inner s) (inner_just_key s) (outer s) h (xor_pad s) (digest_pad s)).

(** The start of an array is overwritten. *)
Definition overwrite (bs pad : list Z) : list Z := bs ++ drop (length bs) pad.

(** ** The tables of algorithms *)

Definition s2n_hash_hmac_alg {X} (alg : s2n_hash_algorithm) : Cmd X s2n_hmac_algorithm :=
  match alg with
  | S2N_HASH_NONE => ret S2N_HMAC_NONE
  | S2N_HASH_MD5 => ret S2N_HMAC_MD5
  | S2N_HASH_SHA1 => ret S2N_HMAC_SHA1
  | S2N_HASH_SHA224 => ret S2N_HMAC_SHA224
  | S2N_HASH_SHA256 => ret S2N_HMAC_SHA256
  | S2N_HASH_SHA384 => ret S2N_HMAC_SHA384
  | S2N_HASH_SHA512 => ret S2N_HMAC_SHA512
  | S2N_HASH_MD5_SHA1 => fail S2N_ERR_HASH_INVALID_ALGORITHM
  end.

Definition s2n_hmac_hash_alg (alg : s2n_hmac_algorithm) : s2n_hash_algorithm :=
  match alg with
  | S2N_HMAC_NONE => S2N_HASH_NONE
  | S2N_HMAC_MD5 => S2N_HASH_MD5
  | S2N_HMAC_SHA1 => S2N_HASH_SHA1
  | S2N_HMAC_SHA224 => S2N_HASH_SHA224
  | S2N_HMAC_SHA256 => S2N_HASH_SHA256
  | S2N_HMAC_SHA384 => S2N_HASH_SHA384
  | S2N_HMAC_SHA512 => S2N_HASH_SHA512
  | S2N_HMAC_SSLv3_MD5 => S2N_HASH_MD5
  | S2N_HMAC_SSLv3_SHA1 => S2N_HASH_SHA1
  end.

Definition s2n_hmac_digest_size (alg : s2n_hmac_algorithm) : Z := s2n_hash_digest_size (s2n_hmac_hash_alg alg).

Definition s2n_hmac_xor_pad_size (alg : s2n_hmac_algorithm) : Z :=
  match alg with
  | S2N_HMAC_NONE => 64
  | S2N_HMAC_MD5 => 64
  | S2N_HMAC_SHA1 => 64
  | S2N_HMAC_SHA224 => 64
  | S2N_HMAC_SHA256 => 64
  | S2N_HMAC_SHA384 => 128
  | S2N_HMAC_SHA512 => 128
  | S2N_HMAC_SSLv3_MD5 => 48
  | S2N_HMAC_SSLv3_SHA1 => 40
  end.

Definition s2n_hmac_hash_block_size (alg : s2n_hmac_algorithm) : Z :=
  match alg with
  | S2N_HMAC_NONE => 64
  | S2N_HMAC_MD5 => 64
  | S2N_HMAC_SHA1 => 64
  | S2N_HMAC_SHA224 => 64
  | S2N_HMAC_SHA256 => 64
  | S2N_HMAC_SHA384 => 128
  | S2N_HMAC_SHA512 => 128
  | S2N_HMAC_SSLv3_MD5 => 64
  | S2N_HMAC_SSLv3_SHA1 => 64
  end.

(** EVP_md5(), EVP_sha1() and so on are the algorithms of libcrypto. *)
Definition s2n_hmac_md_from_alg {X} (alg : s2n_hmac_algorithm) : Cmd X s2n_hash_algorithm :=
  match alg with
  | S2N_HMAC_SSLv3_MD5 | S2N_HMAC_MD5 => ret S2N_HASH_MD5
  | S2N_HMAC_SSLv3_SHA1 | S2N_HMAC_SHA1 => ret S2N_HASH_SHA1
  | S2N_HMAC_SHA224 => ret S2N_HASH_SHA224
  | S2N_HMAC_SHA256 => ret S2N_HASH_SHA256
  | S2N_HMAC_SHA384 => ret S2N_HASH_SHA384
  | S2N_HMAC_SHA512 => ret S2N_HASH_SHA512
  | S2N_HMAC_NONE => fail S2N_ERR_P_HASH_INVALID_ALGORITHM
  end.

(** [alg == S2N_HMAC_SSLv3_SHA1 || alg == S2N_HMAC_SSLv3_MD5] *)
Definition is_sslv3_mac (alg : s2n_hmac_algorithm) : bool :=
  bool_decide (alg = S2N_HMAC_SSLv3_SHA1) || bool_decide (alg = S2N_HMAC_SSLv3_MD5).

Definition HIGHEST_32_BIT : Z := 4294949760.

Section Definitions.
Context `{Digests}.

Definition s2n_hmac_new : Cmd s2n_hmac_state unit :=
  zoom inner_lens s2n_hash_new ;;;
  zoom inner_just_key_lens s2n_hash_new ;;;
  zoom outer_lens s2n_hash_new ;;;
  zoom outer_just_key_lens s2n_hash_new.

Definition s2n_hmac_reset : Cmd s2n_hmac_state unit :=
  s <-- get_obj ;;
  ensure (negb (hash_block_size s =? 0)) S2N_ERR_PRECONDITION_VIOLATION ;;;
  zoom inner_lens (s2n_hash_copy (inner_just_key s)) ;;;
  bytes_in_hash <-- zoom inner_lens s2n_hash_get_currently_in_hash_total ;;
  let bytes_in_hash := bytes_in_hash mod hash_block_size s in
  ensure (bytes_in_hash <=? UINT32_MAX) S2N_ERR_INTEGER_OVERFLOW ;;;
  modify (set_block bytes_in_hash).

(** A loop over the first [xor_pad_size] bytes of the pad. *)
Definition map_pad (f : Z -> Z) : Cmd s2n_hmac_state unit :=
  modify (fun s => set_xor_pad (overwrite (map f (take (Z.to_nat (xor_pad_size s)) (xor_pad s))) (xor_pad s)) s).

Definition pad_bytes (s : s2n_hmac_state) : list Z := take (Z.to_nat (xor_pad_size s)) (xor_pad s).

Definition s2n_sslv3_mac_init (key : list Z) : Cmd s2n_hmac_state unit :=
  map_pad (fun _ => 0x36) ;;;
  s <-- get_obj ;;
  zoom inner_just_key_lens (s2n_hash_update key) ;;;
  zoom inner_just_key_lens (s2n_hash_update (pad_bytes s)) ;;;
  map_pad (fun _ => 0x5c) ;;;
  s <-- get_obj ;;
  zoom outer_just_key_lens (s2n_hash_update key) ;;;
  zoom outer_just_key_lens (s2n_hash_update (pad_bytes s)).

Definition s2n_tls_hmac_init (key : list Z) : Cmd s2n_hmac_state unit :=
  modify (set_xor_pad (repeat 0 (Z.to_nat SIZEOF_XOR_PAD))) ;;;
  s <-- get_obj ;;
  (if xor_pad_size s <? zlen key then
     zoom outer_lens (s2n_hash_update key) ;;;
     d <-- zoom outer_lens (s2n_hash_digest (digest_size s)) ;;
     modify (fun s => set_digest_pad (overwrite d (digest_pad s)) s) ;;;
     modify (fun s => set_xor_pad (overwrite (take (Z.to_nat (digest_size s)) (digest_pad s)) (xor_pad s)) s)
   else modify (fun s => set_xor_pad (overwrite key (xor_pad s)) s)) ;;;
  map_pad (fun b => Z.lxor b 0x36) ;;;
  s <-- get_obj ;;
  zoom inner_just_key_lens (s2n_hash_update (pad_bytes s)) ;;;
  map_pad (fun b => Z.lxor b 0x6a) ;;;
  s <-- get_obj ;;
  zoom outer_just_key_lens (s2n_hash_update (pad_bytes s)).

Definition s2n_hmac_init (alg : s2n_hmac_algorithm) (key : list Z) : Cmd s2n_hmac_state unit :=
  modify (fun s => HmacState alg (s2n_hmac_hash_block_size alg) 0 (s2n_hmac_xor_pad_size alg) (s2n_hmac_digest_size alg)
    (inner s) (inner_just_key s) (outer s) (outer_just_key s) (xor_pad s) (digest_pad s)) ;;;
  s <-- get_obj ;;
  ensure (xor_pad_size s <=? SIZEOF_XOR_PAD) S2N_ERR_SAFETY ;;;
  ensure (digest_size s <=? SIZEOF_DIGEST_PAD) S2N_ERR_SAFETY ;;;
  ensure (hash_block_size s <=? SIZEOF_XOR_PAD) S2N_ERR_SAFETY ;;;
  let hash_alg := s2n_hmac_hash_alg alg in
  zoom inner_lens (s2n_hash_init hash_alg) ;;;
  zoom inner_just_key_lens (s2n_hash_init hash_alg) ;;;
  zoom outer_lens (s2n_hash_init hash_alg) ;;;
  zoom outer_just_key_lens (s2n_hash_init hash_alg) ;;;
  (if is_sslv3_mac alg then s2n_sslv3_mac_init key else s2n_tls_hmac_init key) ;;;
  modify (set_xor_pad (repeat 0 (Z.to_nat SIZEOF_XOR_PAD))) ;;;
  s2n_hmac_reset.

Definition s2n_hmac_update (bs : list Z) : Cmd s2n_hmac_state unit :=
  s <-- get_obj ;;
  ensure (negb (hash_block_size s =? 0)) S2N_ERR_PRECONDITION_VIOLATION ;;;
  ensure (zlen bs <=? UINT32_MAX - HIGHEST_32_BIT) S2N_ERR_INTEGER_OVERFLOW ;;;
  let value := u32 (HIGHEST_32_BIT + zlen bs) mod hash_block_size s in
  sum <-- s2n_add_overflow (currently_in_hash_block s) value ;;
  modify (set_block (sum mod hash_block_size s)) ;;;
  zoom inner_lens (s2n_hash_update bs).

Definition s2n_hmac_digest (size : Z) : Cmd s2n_hmac_state (list Z) :=
  s <-- get_obj ;;
  d <-- zoom inner_lens (s2n_hash_digest (digest_size s)) ;;
  modify (fun s => set_digest_pad (overwrite d (digest_pad s)) s) ;;;
  zoom outer_lens (s2n_hash_copy (outer_just_key s)) ;;;
  s <-- get_obj ;;
  zoom outer_lens (s2n_hash_update (take (Z.to_nat (digest_size s)) (digest_pad s))) ;;;
  zoom outer_lens (s2n_hash_digest size).

Definition s2n_hmac_digest_two_compression_rounds (size : Z) : Cmd s2n_hmac_state (list Z) :=
  out <-- s2n_hmac_digest size ;;
  s <-- get_obj ;;
  let space_left := if hash_block_size s =? 128 then 17 else 9 in
  if hash_block_size s - space_left <? currently_in_hash_block s then ret out
  else
    zoom inner_lens s2n_hash_reset ;;;
    zoom inner_lens (s2n_hash_update (take (Z.to_nat (hash_block_size s)) (xor_pad s))) ;;;
    ret out.

Definition s2n_hmac_free : Cmd s2n_hmac_state unit :=
  zoom inner_lens s2n_hash_free ;;;
  zoom inner_just_key_lens s2n_hash_free ;;;
  zoom outer_lens s2n_hash_free ;;;
  zoom outer_just_key_lens s2n_hash_free.

(** Equal bytes: success. *)
Definition s2n_hmac_digest_verify {X} (a b : buffer) (len : Z) : Cmd X unit :=
  eq <-- s2n_constant_time_equals a b len ;;
  if eq then ret tt else fail S2N_ERR_OK.

(** The state of the command is [to]. *)
Definition s2n_hmac_copy (from : s2n_hmac_state) : Cmd s2n_hmac_state unit :=
  modify (fun to => HmacState (mac_alg from) (hash_block_size from) (currently_in_hash_block from) (xor_pad_size from)
    (digest_size from) (inner to) (inner_just_key to) (outer to) (outer_just_key to) (xor_pad to) (digest_pad to)) ;;;
  zoom inner_lens (s2n_hash_copy (inner from)) ;;;
  zoom inner_just_key_lens (s2n_hash_copy (inner_just_key from)) ;;;
  zoom outer_lens (s2n_hash_copy (outer from)) ;;;
  zoom outer_just_key_lens (s2n_hash_copy (outer_just_key from)) ;;;
  modify (set_xor_pad (xor_pad from)) ;;;
  modify (set_digest_pad (digest_pad from)).
End Definitions.
End Hmac.
Export Hmac.
