(* ===== verification/HmacTheorems.v ===== *)
(** * HMAC states compute HMAC

    [hmac] is RFC 2104 (and the MAC of SSLv3, RFC 6101 5.2.3.1) as a function of
    the key and the message.  A state of crypto/s2n_hmac.c refines a machine
    that remembers the message; the machine is driven by sequences of calls. *)
From S2P Require Import Prelude Errors CMem Platform Safety Blob Alloc Libcrypto Hash Hmac.
Open Scope Z_scope.

Module HmacTheorems.

(** ** The specification *)

Section Spec.
Context `{HD : Digests}.
Implicit Types (alg : s2n_hmac_algorithm) (key m : list Z).

Definition xor_with (c : Z) (bs : list Z) : list Z := map (fun b => Z.lxor b c) bs.

(** A key that is too long is hashed; then it is padded with zeros. *)
Definition block_key alg key : list Z :=
  let k := if s2n_hmac_xor_pad_size alg <? zlen key then hash_of (s2n_hmac_hash_alg alg) key else key in
  k ++ repeat 0 (Z.to_nat (s2n_hmac_xor_pad_size alg - zlen k)).

Definition inner_key alg key : list Z :=
  if is_sslv3_mac alg then key ++ repeat 0x36 (Z.to_nat (s2n_hmac_xor_pad_size alg)) else xor_with 0x36 (block_key alg key).
Definition outer_key alg key : list Z :=
  if is_sslv3_mac alg then key ++ repeat 0x5c (Z.to_nat (s2n_hmac_xor_pad_size alg)) else xor_with 0x5c (block_key alg key).

Definition hmac alg key m : list Z :=
  let H := hash_of (s2n_hmac_hash_alg alg) in H (outer_key alg key ++ H (inner_key alg key ++ m)).
End Spec.

(** The calls, and a machine that remembers the message; after a digest it has
    none until it is reset. *)
Inductive mac_op := MacUpdate (bs : list Z) | MacDigest | MacReset | MacDigestReset.

Section Machine.
Context `{HD : Digests}.

Definition MAX_UPDATE : Z := UINT32_MAX - HIGHEST_32_BIT.

Inductive mac_step (alg : s2n_hmac_algorithm) (key : list Z) :
    option (list Z) -> mac_op -> list Z + s2n_error -> option (list Z) -> Prop :=
| mac_update m bs : zlen bs <= MAX_UPDATE -> mac_step alg key (Some m) (MacUpdate bs) (inl []) (Some (m ++ bs))
| mac_update_spent bs : zlen bs <= MAX_UPDATE -> mac_step alg key None (MacUpdate bs) (inr S2N_ERR_HASH_NOT_READY) None
| mac_update_large o bs : MAX_UPDATE < zlen bs -> mac_step alg key o (MacUpdate bs) (inr S2N_ERR_INTEGER_OVERFLOW) o
| mac_digest m : mac_step alg key (Some m) MacDigest (inl (hmac alg key m)) None
| mac_digest_spent : mac_step alg key None MacDigest (inr S2N_ERR_HASH_NOT_READY) None
| mac_reset o : mac_step alg key o MacReset (inl []) (Some [])
| mac_digest_reset m : mac_step alg key (Some m) MacDigestReset (inl (hmac alg key m)) (Some [])
| mac_digest_reset_spent : mac_step alg key None MacDigestReset (inr S2N_ERR_HASH_NOT_READY) None.

Inductive mac_run (alg : s2n_hmac_algorithm) (key : list Z) :
    option (list Z) -> list mac_op -> list (list Z + s2n_error) -> option (list Z) -> Prop :=
| mac_run_nil o : mac_run alg key o [] [] o
| mac_run_cons o op r o' ops rs o'' :
    mac_step alg key o op r o' -> mac_run alg key o' ops rs o'' -> mac_run alg key o (op :: ops) (r :: rs) o''.

(** The same calls on a state; the padded digest of CBC verification is always
    followed by a reset. *)
Definition run_mac_op (op : mac_op) : Cmd s2n_hmac_state (list Z) :=
  s <-- get_obj ;;
  match op with
  | MacUpdate bs => s2n_hmac_update bs ;;; ret []
  | MacDigest => s2n_hmac_digest (digest_size s)
  | MacReset => s2n_hmac_reset ;;; ret []
  | MacDigestReset => d <-- s2n_hmac_digest_two_compression_rounds (digest_size s) ;; s2n_hmac_reset ;;; ret d
  end.

(** A client gives up when libcrypto fails. *)
Fixpoint run_mac_ops (ops : list mac_op) : Cmd s2n_hmac_state (list (list Z + s2n_error) * option s2n_error) :=
  match ops with
  | [] => ret ([], None)
  | op :: ops =>
      r <-- attempt (run_mac_op op) ;;
      match r with
      | inr e => if libcrypto_error e then ret ([], Some e)
                 else rest <-- run_mac_ops ops ;; ret (r :: fst rest, snd rest)
      | inl _ => rest <-- run_mac_ops ops ;; ret (r :: fst rest, snd rest)
      end
  end.
End Machine.

Section Theorems.
Context `{HD : Digests} `{HOK : !DigestsOk}.
Implicit Types (alg : s2n_hmac_algorithm) (key m bs : list Z) (s : s2n_hmac_state) (w : world).

Abbreviation H_ alg := (s2n_hmac_hash_alg alg).

(** A state whose key is set. *)
Record keyed alg key s : Prop := {
  ky_alg : mac_alg s = alg;
  ky_block : hash_block_size s = s2n_hmac_hash_block_size alg;
  ky_count : 0 <= currently_in_hash_block s < s2n_hmac_hash_block_size alg;
  ky_pad_size : xor_pad_size s = s2n_hmac_xor_pad_size alg;
  ky_digest : digest_size s = s2n_hmac_digest_size alg;
  ky_inner : hash_alloc (inner s);
  ky_inner_alg : hash_alg (inner s) = H_ alg;
  ky_outer : hash_alloc (outer s);
  ky_inner_key : hash_open (H_ alg) (inner_key alg key) (inner_just_key s);
  ky_outer_key : hash_open (H_ alg) (outer_key alg key) (outer_just_key s);
  ky_xor_pad : zlen (xor_pad s) = SIZEOF_XOR_PAD;
}.

(** A state that stands for the message [o] of the machine.  The count of bytes
    in the current block is exact. *)
Definition mac_is alg key (o : option (list Z)) s : Prop :=
  keyed alg key s /\
  match o with
  | Some m => hash_open (H_ alg) (inner_key alg key ++ m) (inner s) /\
      currently_in_hash_block s = zlen (inner_key alg key ++ m) mod s2n_hmac_hash_block_size alg
  | None => is_ready_for_input (inner s) = false
  end.

Definition hmac_alloc s : Prop :=
  hash_alloc (inner s) /\ hash_alloc (inner_just_key s) /\ hash_alloc (outer s) /\ hash_alloc (outer_just_key s) /\
  zlen (xor_pad s) = SIZEOF_XOR_PAD.

Lemma block_size_pos alg : 0 < s2n_hmac_hash_block_size alg <= 128.
Proof. destruct alg; simpl; lia. Qed.

(** No algorithm of an HMAC needs two contexts or more than 64 bytes. *)
Lemma digest_size_range alg : 0 <= s2n_hmac_digest_size alg <= 64.
Proof. unfold s2n_hmac_digest_size. destruct alg; vm_compute; intuition congruence. Qed.

Lemma highest_mod alg n : 0 <= n -> (HIGHEST_32_BIT + n) mod s2n_hmac_hash_block_size alg = n mod s2n_hmac_hash_block_size alg.
Proof.
  intros Hn. rewrite Z.add_mod by (destruct alg; done).
  replace (HIGHEST_32_BIT mod s2n_hmac_hash_block_size alg) with 0 by (destruct alg; reflexivity).
  rewrite Z.add_0_l. apply Z.mod_mod. by destruct alg.
Qed.

Lemma hash_of_open ha m h : hash_open ha m h -> hash_alg h = ha.
Proof. by intros []. Qed.

Lemma hash_open_alloc ha m h : hash_open ha m h -> hash_alloc h.
Proof. by intros []. Qed.

Hint Resolve hash_open_alloc hc_alloc : core.

Lemma wp_hmac_reset w s alg key Q E :
  keyed alg key s -> (forall s', mac_is alg key (Some []) s' -> Q tt w s') ->
  (forall e s', hash_failure w e -> E e w s') -> wp s2n_hmac_reset (w, s) Q E.
Proof.
  intros Hk HQ HE. pose proof Hk as [Ha Hb Hc Hp Hd Hi Hia Ho Hik Hok Hx]. pose proof (block_size_pos alg).
  apply wp_bind, wp_get_obj, wp_bind, wp_ensure; [intros _|intros Hz; zbool; lia].
  apply wp_bind, wp_zoom, (wp_hash_copy _ _ _ (H_ alg) (inner_key alg key)); [done|done| |by intros; apply HE].
  intros h Hh. simpl. apply wp_bind, wp_zoom. simpl. apply wp_bind, wp_get_obj. rewrite (ho_ready _ _ _ Hh).
  apply wp_bind, wp_ensure; [intros _|done]. apply wp_ret. simpl. rewrite (ho_count _ _ _ Hh), Hb.
  pose proof (Z.mod_pos_bound (zlen (inner_key alg key)) (s2n_hmac_hash_block_size alg) ltac:(lia)) as Hm.
  apply wp_bind, wp_ensure; [intros _|intros Hz; zbool; unfold UINT32_MAX in Hz; lia].
  apply wp_modify, HQ. simpl. split.
  - split; simpl; try done; eauto using hash_of_open.
  - simpl. by rewrite app_nil_r.
Qed.

Lemma wp_add_overflow {X} a b w (x : X) Q E :
  0 <= a -> 0 <= b -> a + b <= UINT32_MAX -> Q (a + b) w x -> wp (s2n_add_overflow a b) (w, x) Q E.
Proof.
  intros Ha Hb Hab HQ. unfold UINT32_MAX in Hab. unfold s2n_add_overflow. rewrite u64_small by lia.
  apply wp_bind, wp_ensure; [intros _|intros Hz; zbool; unfold UINT32_MAX in Hz; lia]. apply wp_ret. by rewrite u32_small by lia.
Qed.

(** A hash state that is spent refuses both calls. *)
Lemma wp_update_spent w h bs Q E :
  is_ready_for_input h = false -> E S2N_ERR_HASH_NOT_READY w h -> wp (s2n_hash_update bs) (w, h) Q E.
Proof. intros Hr HE. apply wp_bind, wp_get_obj, wp_bind, wp_ensure; [by rewrite Hr|done]. Qed.

Lemma wp_digest_spent w h n Q E :
  is_ready_for_input h = false -> E S2N_ERR_HASH_NOT_READY w h -> wp (s2n_hash_digest n) (w, h) Q E.
Proof. intros Hr HE. apply wp_bind, wp_get_obj, wp_bind, wp_ensure; [by rewrite Hr|done]. Qed.

Lemma wp_hmac_update w s alg key o bs Q E :
  mac_is alg key o s -> zlen (inner_key alg key) + zlen (default [] o) + zlen bs < 2 ^ 64 ->
  (forall r s' o', mac_step alg key o (MacUpdate bs) r o' -> mac_is alg key o' s' ->
     match r with inl _ => Q tt w s' | inr e => libcrypto_error e = false -> E e w s' end) ->
  (forall e s', hash_failure w e -> E e w s') -> wp (s2n_hmac_update bs) (w, s) Q E.
Proof.
  intros Hs Hlen HQ HE. pose proof Hs as [[Ha Hb Hc Hp Hd Hi Hia Ho Hik Hok Hx] Hm]. pose proof (block_size_pos alg).
  pose proof (zlen_nonneg bs). apply wp_bind, wp_get_obj, wp_bind, wp_ensure; [intros _|intros Hz; zbool; lia].
  apply wp_bind, wp_ensure; intros Hsz; zbool.
  2: { by eapply (HQ (inr _)); [apply mac_update_large|..]. }
  rewrite Hb, u32_small by (unfold UINT32_MAX, HIGHEST_32_BIT in *; lia). rewrite highest_mod by done.
  pose proof (Z.mod_pos_bound (zlen bs) (s2n_hmac_hash_block_size alg) ltac:(lia)) as Hv.
  apply wp_bind, wp_add_overflow; [lia|lia|unfold UINT32_MAX; lia|]. apply wp_bind, wp_modify, wp_zoom. simpl.
  pose proof (Z.mod_pos_bound (currently_in_hash_block s + zlen bs mod s2n_hmac_hash_block_size alg)
    (s2n_hmac_hash_block_size alg) ltac:(lia)) as Hv'.
  destruct o as [m|].
  - destruct Hm as [Hin Hcnt]. apply (wp_hash_update _ _ (H_ alg) (inner_key alg key ++ m)); [done|rewrite zlen_app; simpl in Hlen; lia| |by intros; apply HE].
    intros h Hh. eapply (HQ (inl [])); [by apply mac_update|]. rewrite <- app_assoc in Hh. split.
    + split; simpl; try done; eauto using hash_of_open.
    + simpl. split; [done|]. rewrite Hcnt, !zlen_app, <- Z.add_mod by lia. f_equal. lia.
  - apply wp_update_spent; [done|]. eapply (HQ (inr _)); [by apply mac_update_spent| |done].
    split; [|done]. by split.
Qed.

Lemma wp_hmac_update_ok w s alg key m bs Q E :
  mac_is alg key (Some m) s -> zlen bs <= MAX_UPDATE -> zlen (inner_key alg key) + zlen m + zlen bs < 2 ^ 64 ->
  (forall s', mac_is alg key (Some (m ++ bs)) s' -> Q tt w s') ->
  (forall e s', hash_failure w e -> E e w s') -> wp (s2n_hmac_update bs) (w, s) Q E.
Proof.
  intros Hs Hle Hlen HQ HE. apply (wp_hmac_update _ _ alg key (Some m)); [done|done| |done].
  intros r s' o' Hst Hs'. inversion Hst; subst; [by apply HQ|lia].
Qed.

(** An update that is too large changes nothing. *)
Lemma wp_hmac_update_large w s alg key bs Q E :
  keyed alg key s -> MAX_UPDATE < zlen bs -> E S2N_ERR_INTEGER_OVERFLOW w s -> wp (s2n_hmac_update bs) (w, s) Q E.
Proof.
  intros Hk Hgt HE. apply wp_bind, wp_get_obj, wp_bind, wp_ensure.
  2: { intros Hz; zbool; rewrite (ky_block _ _ _ Hk) in Hz. by destruct alg. }
  intros _. apply wp_bind, wp_ensure; intros Hz; zbool; unfold MAX_UPDATE in Hgt; [lia|done].
Qed.

Lemma keyed_alloc alg key s : keyed alg key s -> hmac_alloc s.
Proof. intros []. unfold hmac_alloc. split_goal; eauto. Qed.

Lemma take_overwrite bs pad : take (length bs) (overwrite bs pad) = bs.
Proof. apply take_app_length. Qed.

Lemma wp_hmac_digest w s alg key m n Q E :
  mac_is alg key (Some m) s -> n = s2n_hmac_digest_size alg -> zlen (outer_key alg key) < 2 ^ 63 ->
  (forall s', mac_is alg key None s' -> currently_in_hash_block s' = currently_in_hash_block s ->
     xor_pad s' = xor_pad s -> Q (hmac alg key m) w s') ->
  (forall e s', hash_failure w e -> E e w s') -> wp (s2n_hmac_digest n) (w, s) Q E.
Proof.
  intros [[Ha Hb Hc Hp Hd Hi Hia Ho Hik Hok Hx] [Hin Hcnt]] -> Hlen HQ HE. pose proof (digest_size_range alg) as Hds.
  apply wp_bind, wp_get_obj. rewrite Hd.
  apply wp_bind, wp_zoom, (wp_hash_digest _ _ (H_ alg) (inner_key alg key ++ m)); [done|done| |by intros; apply HE].
  intros h Hh. simpl. apply wp_bind, wp_modify. simpl.
  set (d := hash_of (H_ alg) (inner_key alg key ++ m)).
  assert (Hdl : zlen d = s2n_hmac_digest_size alg) by apply hash_of_length.
  apply wp_bind, wp_zoom. simpl. apply (wp_hash_copy _ _ _ (H_ alg) (outer_key alg key)); [done|done| |by intros; apply HE].
  intros o Hout. simpl. apply wp_bind, wp_get_obj. simpl. rewrite Hd, <- Hdl. unfold zlen at 1. rewrite Nat2Z.id, take_overwrite.
  apply wp_bind, wp_zoom. simpl.
  apply (wp_hash_update _ _ (H_ alg) (outer_key alg key)); [done|lia| |by intros; apply HE]. intros o2 Ho2. simpl.
  apply wp_zoom. simpl. apply (wp_hash_digest _ _ (H_ alg) (outer_key alg key ++ d)); [done|done| |by intros; apply HE].
  intros o3 Ho3. simpl. apply HQ; [|done|done]. split; simpl.
  - split; simpl; try done; [apply Hh|apply Hh|apply Ho3].
  - apply Hh.
Qed.

Lemma wp_hmac_digest_spent w s alg key n Q E :
  mac_is alg key None s -> (forall s', mac_is alg key None s' -> E S2N_ERR_HASH_NOT_READY w s') ->
  wp (s2n_hmac_digest n) (w, s) Q E.
Proof.
  intros Hs HE. pose proof Hs as [Hk Hr]. apply wp_bind, wp_get_obj, wp_bind, wp_zoom, wp_digest_spent; [done|].
  apply HE. simpl. by destruct s.
Qed.

(** The padded digest is the digest; the extra round changes only the inner
    state, which a reset restores. *)
Lemma wp_two_rounds w s alg key m n Q E :
  mac_is alg key (Some m) s -> n = s2n_hmac_digest_size alg -> zlen (outer_key alg key) < 2 ^ 63 ->
  (forall s', keyed alg key s' -> Q (hmac alg key m) w s') ->
  (forall e s', hash_failure w e -> E e w s') -> wp (s2n_hmac_digest_two_compression_rounds n) (w, s) Q E.
Proof.
  intros Hs Hn Hlen HQ HE. pose proof (block_size_pos alg).
  apply wp_bind, (wp_hmac_digest _ _ alg key m); [done|done|done| |done].
  intros s' [Hk Hr] _ Hx'. pose proof Hk as [Ha Hb Hc Hp Hd Hi Hia Ho Hik Hok Hx]. apply wp_bind, wp_get_obj.
  cbv zeta. match goal with |- wp (if ?b then _ else _) _ _ _ => destruct b end; [by apply wp_ret, HQ|].
  apply wp_bind, wp_zoom, wp_hash_reset; [done| |by intros; apply HE]. intros h Hh. simpl in Hh. rewrite Hia in Hh. simpl.
  apply wp_bind, wp_zoom. simpl. apply (wp_hash_update _ _ (H_ alg) []); [done| | |by intros; apply HE].
  - rewrite Hb. unfold zlen. rewrite length_take. simpl. lia.
  - intros h2 Hh2. simpl. apply wp_ret, HQ. split; simpl; try done; eauto using hash_of_open.
Qed.

(** ** Setting the key *)

Lemma map_const {A B} (c : B) (l : list A) : map (fun _ => c) l = repeat c (length l).
Proof. induction l as [|x l IH]; simpl; congruence. Qed.

Lemma pad_bytes_length s alg :
  xor_pad_size s = s2n_hmac_xor_pad_size alg -> zlen (xor_pad s) = SIZEOF_XOR_PAD ->
  length (take (Z.to_nat (xor_pad_size s)) (xor_pad s)) = Z.to_nat (s2n_hmac_xor_pad_size alg).
Proof. intros -> Hx. rewrite length_take, Nat.min_l; [done|]. unfold zlen, SIZEOF_XOR_PAD in Hx. destruct alg; simpl s2n_hmac_xor_pad_size; lia. Qed.

Lemma zlen_overwrite bs pad : zlen bs <= zlen pad -> zlen (overwrite bs pad) = zlen pad.
Proof. unfold zlen, overwrite. rewrite length_app, length_drop. lia. Qed.

(** A loop over the pad. *)
Lemma wp_map_pad w s alg f Q E :
  xor_pad_size s = s2n_hmac_xor_pad_size alg -> zlen (xor_pad s) = SIZEOF_XOR_PAD ->
  (forall p, zlen p = SIZEOF_XOR_PAD -> take (Z.to_nat (xor_pad_size s)) p = map f (pad_bytes s) -> Q tt w (set_xor_pad p s)) ->
  wp (map_pad f) (w, s) Q E.
Proof.
  intros Hp Hx HQ. pose proof (pad_bytes_length s alg Hp Hx) as Hl. apply wp_modify, HQ.
  - rewrite zlen_overwrite; [done|]. rewrite Hx. unfold zlen. rewrite length_map, Hl. destruct alg; done.
  - replace (Z.to_nat (xor_pad_size s)) with (length (map f (take (Z.to_nat (xor_pad_size s)) (xor_pad s)))) at 1.
    + apply take_overwrite.
    + rewrite length_map, Hl. by rewrite Hp.
Qed.

(** The parts of a state that the key set-up starts from. *)
Record starting alg ik ok s : Prop := {
  st_alg : mac_alg s = alg;
  st_block : hash_block_size s = s2n_hmac_hash_block_size alg;
  st_pad_size : xor_pad_size s = s2n_hmac_xor_pad_size alg;
  st_digest : digest_size s = s2n_hmac_digest_size alg;
  st_count : currently_in_hash_block s = 0;
  st_inner : hash_open (H_ alg) [] (inner s);
  st_outer : hash_alloc (outer s);
  st_inner_key : hash_open (H_ alg) ik (inner_just_key s);
  st_outer_key : hash_open (H_ alg) ok (outer_just_key s);
  st_xor_pad : zlen (xor_pad s) = SIZEOF_XOR_PAD;
}.

Lemma wp_sslv3_mac_init w s alg key Q E :
  starting alg [] [] s -> is_sslv3_mac alg = true -> zlen key < 2 ^ 32 ->
  (forall s', starting alg (inner_key alg key) (outer_key alg key) s' -> Q tt w s') ->
  (forall e s', hash_failure w e -> E e w s') -> wp (s2n_sslv3_mac_init key) (w, s) Q E.
Proof.
  intros [Ha Hb Hp Hd Hc Hi Ho Hik Hok Hx] Hssl Hkey HQ HE. unfold inner_key, outer_key in HQ. rewrite Hssl in HQ.
  pose proof (pad_bytes_length s alg Hp Hx) as Hl.
  assert (Hsmall : s2n_hmac_xor_pad_size alg <= 128) by (by destruct alg).
  apply wp_bind, (wp_map_pad _ _ alg); [done|done|]. intros p1 Hp1 Ht1. simpl. apply wp_bind, wp_get_obj.
  unfold pad_bytes in Ht1 at 1. rewrite map_const, Hl in Ht1. unfold pad_bytes at 1. simpl. rewrite Ht1.
  apply wp_bind, wp_zoom. simpl. apply (wp_hash_update _ _ (H_ alg) []); [done|unfold zlen at 1; simpl; lia| |by intros; apply HE].
  intros h1 Hh1. simpl. apply wp_bind, wp_zoom. simpl.
  apply (wp_hash_update _ _ (H_ alg) key); [done|rewrite zlen_repeat by (destruct alg; done); lia| |by intros; apply HE].
  intros h2 Hh2. simpl.
  apply wp_bind, (wp_map_pad _ _ alg); [done|done|]. intros p2 Hp2 Ht2. simpl. apply wp_bind, wp_get_obj.
  unfold pad_bytes in Ht2. simpl in Ht2. rewrite Ht1, map_const, repeat_length in Ht2. unfold pad_bytes. simpl. rewrite Ht2.
  apply wp_bind, wp_zoom. simpl. apply (wp_hash_update _ _ (H_ alg) []); [done|unfold zlen at 1; simpl; lia| |by intros; apply HE].
  intros h3 Hh3. simpl. apply wp_zoom. simpl.
  apply (wp_hash_update _ _ (H_ alg) key); [done|rewrite zlen_repeat by (destruct alg; done); lia| |by intros; apply HE].
  intros h4 Hh4. simpl. apply HQ. by split.
Qed.

Lemma xor_with_twice a b bs : xor_with b (xor_with a bs) = xor_with (Z.lxor a b) bs.
Proof. unfold xor_with. rewrite map_map. apply map_ext. intros c. apply Z.lxor_assoc. Qed.

Lemma drop_repeat {A} (x : A) n k : drop n (repeat x k) = repeat x (k - n).
Proof. revert n. induction k as [|k IH]; intros [|n]; simpl; auto. Qed.

Lemma take_repeat {A} (x : A) n k : take n (repeat x k) = repeat x (Nat.min n k).
Proof. revert n. induction k as [|k IH]; intros [|n]; simpl; [done..|]. by rewrite IH. Qed.

Lemma take_padded k n : zlen k <= n -> n <= SIZEOF_XOR_PAD ->
  take (Z.to_nat n) (overwrite k (repeat 0 (Z.to_nat SIZEOF_XOR_PAD))) = k ++ repeat 0 (Z.to_nat (n - zlen k)).
Proof.
  intros Hk Hn. unfold overwrite, zlen, SIZEOF_XOR_PAD in *. rewrite take_app_ge by lia. f_equal.
  rewrite drop_repeat, take_repeat. f_equal. lia.
Qed.

(** The pad is the key, hashed if it is long. *)
Lemma wp_tls_key_pad w s alg key Q E :
  starting alg [] [] s -> hash_open (H_ alg) [] (outer s) -> is_sslv3_mac alg = false -> zlen key < 2 ^ 32 ->
  (forall s', starting alg [] [] s' -> pad_bytes s' = block_key alg key -> Q tt w s') ->
  (forall e s', hash_failure w e -> E e w s') ->
  wp (modify (set_xor_pad (repeat 0 (Z.to_nat SIZEOF_XOR_PAD))) ;;;
      s <-- get_obj ;;
      if xor_pad_size s <? zlen key then
        zoom outer_lens (s2n_hash_update key) ;;;
        d <-- zoom outer_lens (s2n_hash_digest (digest_size s)) ;;
        modify (fun s => set_digest_pad (overwrite d (digest_pad s)) s) ;;;
        modify (fun s => set_xor_pad (overwrite (take (Z.to_nat (digest_size s)) (digest_pad s)) (xor_pad s)) s)
      else modify (fun s => set_xor_pad (overwrite key (xor_pad s)) s)) (w, s) Q E.
Proof.
  intros [Ha Hb Hp Hd Hc Hi Ho Hik Hok Hx] Hout Hssl Hkey HQ HE. pose proof (digest_size_range alg) as Hds.
  assert (Hps : s2n_hmac_digest_size alg <= s2n_hmac_xor_pad_size alg <= SIZEOF_XOR_PAD) by (by destruct alg).
  assert (Hrep : zlen (repeat 0 (Z.to_nat SIZEOF_XOR_PAD)) = SIZEOF_XOR_PAD) by done.
  remember (repeat 0 (Z.to_nat SIZEOF_XOR_PAD)) as z eqn:Hz0.
  apply wp_bind, wp_modify, wp_bind, wp_get_obj. simpl. rewrite Hp.
  unfold block_key in HQ. destruct (Z.ltb_spec (s2n_hmac_xor_pad_size alg) (zlen key)) as [Hlong|Hshort].
  - apply wp_bind, wp_zoom. simpl. apply (wp_hash_update _ _ (H_ alg) []); [done|unfold zlen at 1; simpl; lia| |by intros; apply HE].
    intros h1 Hh1. simpl. apply wp_bind, wp_zoom. simpl. rewrite Hd.
    apply (wp_hash_digest _ _ (H_ alg) key); [done|done| |by intros; apply HE]. intros h2 Hh2. simpl.
    apply wp_bind, wp_modify, wp_modify. simpl. rewrite ?Hd. set (d := hash_of (H_ alg) key) in *.
    assert (Hdl : zlen d = s2n_hmac_digest_size alg) by apply hash_of_length.
    rewrite <- Hdl. unfold zlen at 1. rewrite Nat2Z.id, take_overwrite. apply HQ.
    + split; simpl; try done; [apply Hh2|]. rewrite zlen_overwrite; [done|]. rewrite Hrep. lia.
    + unfold pad_bytes. simpl. rewrite Hp, Hz0. apply take_padded; lia.
  - apply wp_modify. simpl. apply HQ.
    + split; simpl; try done. rewrite zlen_overwrite; [done|]. rewrite Hrep. lia.
    + unfold pad_bytes. simpl. rewrite Hp, Hz0. apply take_padded; lia.
Qed.

Lemma wp_bind_assoc_two {X A B C D} (c : Cmd X A) (d : A -> Cmd X B) (k : A -> B -> Cmd X C) (k' : C -> Cmd X D) st Q E :
  wp (z <-- (x <-- c ;; y <-- d x ;; k x y) ;; k' z) st Q E -> wp (x <-- c ;; y <-- d x ;; z <-- k x y ;; k' z) st Q E.
Proof.
  unfold wp, bind. destruct (c st) as [[x|e|] st1]; [|done..]. by destruct (d x st1) as [[y|e|] st2].
Qed.

Lemma wp_tls_hmac_init w s alg key Q E :
  starting alg [] [] s -> hash_open (H_ alg) [] (outer s) -> is_sslv3_mac alg = false -> zlen key < 2 ^ 32 ->
  (forall s', starting alg (inner_key alg key) (outer_key alg key) s' -> Q tt w s') ->
  (forall e s', hash_failure w e -> E e w s') -> wp (s2n_tls_hmac_init key) (w, s) Q E.
Proof.
  intros Hst Hout Hssl Hkey HQ HE. unfold inner_key, outer_key in HQ. rewrite Hssl in HQ.
  apply wp_bind_assoc_two, wp_bind, (wp_tls_key_pad _ _ alg key); [done..| |done].
  intros s1 [Ha Hb Hp Hd Hc Hi Ho Hik Hok Hx] Hpad.
  assert (Hbl : zlen (block_key alg key) < 2 ^ 32).
  { rewrite <- Hpad. unfold pad_bytes, zlen. rewrite (pad_bytes_length s1 alg) by done. by destruct alg. }
  assert (Hxl : forall c, zlen (xor_with c (block_key alg key)) = zlen (block_key alg key)).
  { intros c. unfold zlen, xor_with. by rewrite length_map. }
  apply wp_bind, (wp_map_pad _ _ alg); [done|done|]. rewrite Hpad. intros p1 Hp1 Ht1.
  change (map _ (block_key alg key)) with (xor_with 0x36 (block_key alg key)) in Ht1. apply wp_bind, wp_get_obj. unfold pad_bytes at 1. simpl xor_pad_size. simpl xor_pad. rewrite Ht1.
  apply wp_bind, wp_zoom. simpl.
  apply (wp_hash_update _ _ (H_ alg) []); [done|rewrite Hxl; unfold zlen at 1; simpl; lia| |by intros; apply HE].
  intros h1 Hh1. simpl. apply wp_bind, (wp_map_pad _ _ alg); [done|done|]. intros p2 Hp2 Ht2.
  unfold pad_bytes in Ht2. simpl in Ht2. rewrite Ht1 in Ht2. apply wp_bind, wp_get_obj. unfold pad_bytes. simpl. rewrite Ht2.
  change (map _ (xor_with 0x36 (block_key alg key))) with (xor_with 0x6a (xor_with 0x36 (block_key alg key))).
  rewrite xor_with_twice. change (Z.lxor 0x36 0x6a) with 0x5c.
  apply wp_zoom. simpl.
  apply (wp_hash_update _ _ (H_ alg) []); [done|rewrite Hxl; unfold zlen at 1; simpl; lia| |by intros; apply HE].
  intros h2 Hh2. simpl. apply HQ. by split.
Qed.

Lemma wp_hmac_init w s alg key Q E :
  hmac_alloc s -> zlen key < 2 ^ 32 -> (forall s', mac_is alg key (Some []) s' -> Q tt w s') ->
  (forall e s', hash_failure w e -> E e w s') -> wp (s2n_hmac_init alg key) (w, s) Q E.
Proof.
  intros (Hi & Hik & Ho & Hok & Hx) Hkey HQ HE. pose proof (block_size_pos alg). pose proof (digest_size_range alg).
  apply wp_bind, wp_modify, wp_bind, wp_get_obj. simpl.
  apply wp_bind, wp_ensure; [intros _|intros Hz; by destruct alg].
  apply wp_bind, wp_ensure; [intros _|intros Hz; zbool; unfold SIZEOF_DIGEST_PAD, SHA512_DIGEST_LENGTH in Hz; lia].
  apply wp_bind, wp_ensure; [intros _|intros Hz; zbool; unfold SIZEOF_XOR_PAD in Hz; lia].
  apply wp_bind, wp_zoom, wp_hash_init; [done| |by intros; apply HE]. intros h1 Hh1. simpl.
  apply wp_bind, wp_zoom, wp_hash_init; [done| |by intros; apply HE]. intros h2 Hh2. simpl.
  apply wp_bind, wp_zoom, wp_hash_init; [done| |by intros; apply HE]. intros h3 Hh3. simpl.
  apply wp_bind, wp_zoom, wp_hash_init; [done| |by intros; apply HE]. intros h4 Hh4. simpl.
  set (s1 := HmacState _ _ _ _ _ _ _ _ _ _ _).
  assert (Hst : starting alg [] [] s1) by (split; simpl; eauto).
  assert (Hcont : forall s', starting alg (inner_key alg key) (outer_key alg key) s' ->
    wp (modify (set_xor_pad (repeat 0 (Z.to_nat SIZEOF_XOR_PAD))) ;;; s2n_hmac_reset) (w, s') Q E).
  { intros s' [Ha Hb Hp Hd Hc Hi' Ho' Hik' Hok' Hx']. apply wp_bind, wp_modify, (wp_hmac_reset _ _ alg key); [|done|done].
    split; simpl; eauto using hash_of_open. rewrite Hc. lia. }
  apply wp_bind. destruct (is_sslv3_mac alg) eqn:Hssl.
  - by apply (wp_sslv3_mac_init _ _ alg).
  - by apply (wp_tls_hmac_init _ _ alg).
Qed.

(** ** Sequences of calls *)

Lemma zlen_block_key alg key : is_sslv3_mac alg = false -> zlen (block_key alg key) = s2n_hmac_xor_pad_size alg.
Proof.
  intros Hssl. unfold block_key.
  set (k := if s2n_hmac_xor_pad_size alg <? zlen key then hash_of (H_ alg) key else key).
  assert (zlen k <= s2n_hmac_xor_pad_size alg) as Hk.
  { unfold k. destruct (Z.ltb_spec (s2n_hmac_xor_pad_size alg) (zlen key)); [|done]. rewrite hash_of_length. by destruct alg. }
  rewrite zlen_app, zlen_repeat by lia. lia.
Qed.

Lemma key_lengths alg key : zlen key < 2 ^ 32 ->
  zlen (inner_key alg key) <= 2 ^ 32 + 128 /\ zlen (outer_key alg key) <= 2 ^ 32 + 128.
Proof.
  intros Hk. assert (0 <= s2n_hmac_xor_pad_size alg <= 128) as Hp by (by destruct alg). unfold inner_key, outer_key.
  destruct (is_sslv3_mac alg) eqn:Hssl; [rewrite !zlen_app, !zlen_repeat by lia; lia|].
  unfold xor_with, zlen. rewrite !length_map. fold (zlen (block_key alg key)). rewrite zlen_block_key by done. lia.
Qed.

Definition step_done w alg key o op (r : list Z + s2n_error) w' s' : Prop :=
  w' = w /\
  ((exists o', mac_step alg key o op r o' /\ mac_is alg key o' s' /\ (forall e, r = inr e -> libcrypto_error e = false)) \/
   exists e, r = inr e /\ hash_failure w e).

Lemma step_done_ok w alg key o op r s' o' : mac_step alg key o op r o' -> mac_is alg key o' s' ->
  (forall e, r = inr e -> libcrypto_error e = false) -> step_done w alg key o op r w s'.
Proof. intros. split; [done|]. left. by exists o'. Qed.

Lemma mac_op_refines w s alg key o op :
  mac_is alg key o s -> zlen key < 2 ^ 32 ->
  (forall bs, op = MacUpdate bs -> zlen bs <= MAX_UPDATE -> zlen (default [] o) < 2 ^ 60) ->
  wp (attempt (run_mac_op op)) (w, s) (step_done w alg key o op) (fun _ _ _ => False).
Proof.
  intros Hs Hkey Hlen. destruct (key_lengths alg key Hkey) as [Hil Hol]. pose proof (zlen_nonneg (default [] o)).
  apply wp_attempt, wp_bind, wp_get_obj. pose proof Hs as [Hk Hm]. rewrite (ky_digest _ _ _ Hk).
  assert (HE : forall e s', hash_failure w e -> step_done w alg key o op (inr e) w s').
  { intros e s' He. split; [done|]. right. by exists e. }
  destruct op as [bs| | |].
  - apply wp_bind. destruct (Z.le_gt_cases (zlen bs) MAX_UPDATE) as [Hle|Hgt].
    + specialize (Hlen bs eq_refl Hle). unfold MAX_UPDATE, UINT32_MAX, HIGHEST_32_BIT in Hle.
      apply (wp_hmac_update _ _ alg key o); [done|lia| |done]. intros r s' o' Hst Hs'. inversion Hst; subst; try (unfold MAX_UPDATE, UINT32_MAX, HIGHEST_32_BIT in *; lia).
      * apply wp_ret. by eapply step_done_ok.
      * intros _. eapply step_done_ok; [done|done|by intros ? [= <-]].
    + apply wp_bind, wp_get_obj, wp_bind, wp_ensure; [intros _|intros Hz; zbool; rewrite (ky_block _ _ _ Hk) in Hz; by destruct alg].
      apply wp_bind, wp_ensure; intros Hz; zbool; unfold MAX_UPDATE in Hgt; [lia|].
      eapply step_done_ok; [by apply mac_update_large|done|by intros ? [= <-]].
  - destruct o as [m|].
    + apply (wp_hmac_digest _ _ alg key m); [done|done|lia| |done]. intros s' Hs' _ _.
      eapply step_done_ok; [constructor|done|done].
    + apply (wp_hmac_digest_spent _ _ alg key); [done|]. intros s' Hs'.
      eapply step_done_ok; [constructor|done|by intros ? [= <-]].
  - apply wp_bind, (wp_hmac_reset _ _ alg key); [done| |done]. intros s' Hs'. apply wp_ret.
    eapply step_done_ok; [constructor|done|done].
  - apply wp_bind. destruct o as [m|].
    + apply (wp_two_rounds _ _ alg key m); [done|done|lia| |done]. intros s1 Hk1.
      apply wp_bind, (wp_hmac_reset _ _ alg key); [done| |done]. intros s' Hs'. apply wp_ret.
      eapply step_done_ok; [constructor|done|done].
    + apply wp_bind, (wp_hmac_digest_spent _ _ alg key); [done|]. intros s' Hs'.
      eapply step_done_ok; [constructor|done|by intros ? [= <-]].
Qed.

Lemma mac_step_length alg key o op r o' : mac_step alg key o op r o' ->
  zlen (default [] o') <= zlen (default [] o) + MAX_UPDATE.
Proof.
  assert (0 <= MAX_UPDATE) as Hmax by done. destruct 1; simpl; try (unfold zlen; simpl; lia); rewrite ?zlen_app; try lia.
Qed.

Lemma run_mac_ops_refines ops : forall w s alg key o,
  mac_is alg key o s -> zlen key < 2 ^ 32 -> zlen (default [] o) + zlen ops * MAX_UPDATE < 2 ^ 60 ->
  wp (run_mac_ops ops) (w, s)
    (fun '(rs, err) w' s' => w' = w /\ exists o', mac_run alg key o (take (length rs) ops) rs o' /\
       match err with None => length rs = length ops /\ mac_is alg key o' s' | Some e => hash_failure w e end)
    (fun _ _ _ => False).
Proof.
  induction ops as [|op ops IH]; intros w s alg key o Hs Hkey Hlen.
  { apply wp_ret. split; [done|]. exists o. split_goal; [constructor|done|done]. }
  rewrite zlen_cons in Hlen. pose proof (zlen_nonneg ops). assert (0 <= MAX_UPDATE) as Hmax by done.
  assert (0 <= zlen ops * MAX_UPDATE) by (by apply Z.mul_nonneg_nonneg).
  apply wp_bind. eapply wp_mono; [apply (mac_op_refines w s alg key o op); [done|done|intros; lia]| |done].
  simpl. intros r w1 s1 [-> [(o1 & Hst & Hs1 & Hr)|(e & -> & He)]].
  - assert (Hgo : wp (rest <-- run_mac_ops ops ;; ret (r :: fst rest, snd rest)) (w, s1)
      (fun '(rs, err) w' s' => w' = w /\ exists o', mac_run alg key o (take (length rs) (op :: ops)) rs o' /\
         match err with None => length rs = length (op :: ops) /\ mac_is alg key o' s' | Some e => hash_failure w e end)
      (fun _ _ _ => False)).
    { pose proof (mac_step_length _ _ _ _ _ _ Hst). apply wp_bind.
      eapply wp_mono; [apply (IH w s1 alg key o1); [done|done|lia]| |done]. simpl.
      intros [rs err] w2 s2 (-> & o2 & Hrun & Hend). apply wp_ret. split; [done|]. exists o2. split; [by econstructor|].
      destruct err; [done|]. destruct Hend as [Hl ?]. simpl. by rewrite Hl. }
    destruct r as [d|e]; [done|]. by rewrite (Hr e eq_refl).
  - rewrite (proj1 He). apply wp_ret. split; [done|]. exists o. split; [constructor|done].
Qed.

(** C24 An HMAC state computes HMAC.  Once the key is set, every sequence of calls
    gives the results of a machine that remembers the message: updates append,
    a digest is the HMAC of RFC 2104 (for the SSLv3 algorithms, their MAC) of
    the message under the key, however the message was split and whether or not
    the digest was padded to two compression rounds; after a digest the state
    refuses calls until a reset, which empties the message and keeps the key.
    An update of more than 17535 bytes is refused.  The only other failures are
    those of libcrypto. *)
Theorem hmac_correct (w : world) (s : s2n_hmac_state) (alg : s2n_hmac_algorithm) (key : list Z) (ops : list mac_op)
    (Halloc : hmac_alloc s) (Hkey : zlen key < 2 ^ 32) (Hops : zlen ops <= 2 ^ 40) :
  match (s2n_hmac_init alg key ;;; run_mac_ops ops) (w, s) with
  | (Ok (rs, err), (w', s')) =>
      w' = w /\ (exists o, mac_run alg key (Some []) (take (length rs) ops) rs o) /\
      match err with None => length rs = length ops | Some e => hash_failure w e end
  | (Err e, (w', _)) => w' = w /\ hash_failure w e
  | (UB, _) => False
  end.
Proof.
  assert (Hrun : wp (s2n_hmac_init alg key ;;; run_mac_ops ops) (w, s)
    (fun '(rs, err) w' s' => w' = w /\ exists o', mac_run alg key (Some []) (take (length rs) ops) rs o' /\
       match err with None => length rs = length ops /\ mac_is alg key o' s' | Some e => hash_failure w e end)
    (fun e w' _ => w' = w /\ hash_failure w e)).
  { apply wp_bind, (wp_hmac_init _ _ alg key); [done|done| |done]. intros s1 Hs1.
    eapply wp_mono; [apply (run_mac_ops_refines ops w s1 alg key (Some [])); [done|done|]|done|done].
    unfold zlen at 1, MAX_UPDATE, UINT32_MAX, HIGHEST_32_BIT. simpl. lia. }
  unfold wp in Hrun. destruct (bind _ _ _) as [[[rs err]|e|] [w' s']]; [|done|done].
  destruct Hrun as (-> & o & Hmr & Hend). split_goal; [done|by exists o|]. by destruct err; [|destruct Hend].
Qed.
End Theorems.

(** A libcrypto whose digests repeat a checksum of the message. *)
Definition checksum (n : Z) (m : list Z) : list Z := repeat (u8 (fold_right (fun b acc => 3 * acc + b + 1) n m)) (Z.to_nat n).
Definition demo_digests : Digests := {|
  md_digest alg m := match alg with
    | S2N_HASH_MD5_SHA1 => checksum MD5_DIGEST_LENGTH m ++ checksum SHA_DIGEST_LENGTH m
    | _ => checksum (s2n_hash_digest_size alg) m
    end;
  evp_md _ := true;
  evp_fails _ _ _ := false;
  S2N_LIBCRYPTO_SUPPORTS_EVP_MD5_SHA1_HASH := false;
|}.

#[export] Instance demo_digests_ok : @DigestsOk demo_digests.
Proof.
  assert (Hb : forall n m, is_bytes (checksum n m)) by (intros; apply is_bytes_repeat, u8_range).
  assert (Hl : forall n m, 0 <= n -> zlen (checksum n m) = n) by (intros; by apply zlen_repeat).
  split; [|intros [] m; try apply Hb; apply Forall_app_2; apply Hb|done|done].
  intros [] m Hn; try done; try (by apply Hl); cbv [md_digest demo_digests]; rewrite zlen_app, !Hl; done.
Qed.

(** A new state: contexts without an algorithm. *)
Definition new_hash : s2n_hash_state := HashState S2N_HASH_NONE false 0 (Some CtxEmpty) (Some CtxEmpty).
Definition new_hmac : s2n_hmac_state :=
  HmacState S2N_HMAC_NONE 0 0 0 0 new_hash new_hash new_hash new_hash (repeat 0 128) (repeat 0 64).

Lemma new_hmac_alloc `{Digests} : hmac_alloc new_hmac.
Proof. unfold hmac_alloc, hash_alloc. simpl. split_goal; eauto. Qed.

Definition demo_mac_ops : list mac_op := [MacUpdate [1; 2]; MacUpdate [3]; MacDigestReset; MacUpdate [1; 2; 3]; MacDigest; MacDigest].

Lemma hmac_correct_witness :
  match (@s2n_hmac_init demo_digests S2N_HMAC_SHA256 [7; 8; 9] ;;; @run_mac_ops demo_digests demo_mac_ops)
          (World ∅ started_statics, new_hmac) with
  | (Ok (rs, err), (w', s')) =>
      w' = World ∅ started_statics /\
      (exists o, @mac_run demo_digests S2N_HMAC_SHA256 [7; 8; 9] (Some []) (take (length rs) demo_mac_ops) rs o) /\
      match err with None => length rs = length demo_mac_ops | Some e => @hash_failure demo_digests (World ∅ started_statics) e end
  | (Err e, (w', _)) => w' = World ∅ started_statics /\ @hash_failure demo_digests (World ∅ started_statics) e
  | (UB, _) => False
  end.
Proof.
  apply (@hmac_correct demo_digests _ (World ∅ started_statics) new_hmac S2N_HMAC_SHA256 [7; 8; 9] demo_mac_ops).
  - apply new_hmac_alloc.
  - vm_compute. reflexivity.
  - vm_compute. congruence.
Defined.

Example demo_mac_run :
  match (@s2n_hmac_init demo_digests S2N_HMAC_SHA256 [7; 8; 9] ;;; @run_mac_ops demo_digests demo_mac_ops)
          (World ∅ started_statics, new_hmac) with
  | (Ok (rs, None), _) =>
      let d := @hmac demo_digests S2N_HMAC_SHA256 [7; 8; 9] [1; 2; 3] in
      rs = [inl []; inl []; inl d; inl []; inl d; inr S2N_ERR_HASH_NOT_READY]
  | _ => False
  end.
Proof. vm_compute. reflexivity. Qed.
End HmacTheorems.
Export HmacTheorems.
