(* ===== verification/Hkdf.v ===== *)
(** * crypto/s2n_hkdf.c: key derivation

    HKDF (RFC 5869) on HMAC states, and the labels of TLS 1.3 (RFC 8446 7.1).
    In FIPS mode libcrypto derives the keys if it can; then the calls are
    parameters.  Of the two ways to call libcrypto, the one of
    S2N_LIBCRYPTO_SUPPORTS_HKDF is modelled. *)
From S2P Require Import Prelude Errors CMem Platform Safety Blob Alloc NetworkOrder Libcrypto Hash Hmac HmacTheorems.
Open Scope Z_scope.

Module Hkdf.

Definition MAX_DIGEST_SIZE : Z := 64.
Definition MAX_HKDF_ROUNDS : Z := 255.
Definition S2N_MAX_HKDF_EXPAND_LABEL_LENGTH : Z := 249.

Class HkdfEnv := {
  (** Which byte of a uint32_t comes first in memory. *)
  little_endian : bool;
  (** openssl/hkdf.h; a failure is [None]. *)
  S2N_LIBCRYPTO_SUPPORTS_HKDF : bool;
  HKDF_extract : s2n_hash_algorithm -> list Z -> list Z -> option (list Z);  (* secret, salt *)
  HKDF_expand : Z -> s2n_hash_algorithm -> list Z -> list Z -> option (list Z);  (* out_len, prk, info *)
  HKDF : Z -> s2n_hash_algorithm -> list Z -> list Z -> list Z -> option (list Z);  (* out_len, secret, salt, info *)
}.

Section Definitions.
Context `{Libcrypto} `{Digests} `{HkdfEnv}.

(** The first byte of the memory of a uint32_t. *)
Definition first_byte (n : Z) : Z := if little_endian then u8 n else u8 (Z.shiftr n 24).

(** The blob for the key is given by its size; the result is the key. *)
Definition s2n_custom_hkdf_extract (alg : s2n_hmac_algorithm) (salt key : list Z) (prk_size : Z) : Cmd s2n_hmac_state (list Z) :=
  let hmac_size := s2n_hmac_digest_size alg in
  ensure (hmac_size <=? prk_size) S2N_ERR_HKDF_OUTPUT_SIZE ;;;
  s2n_hmac_init alg salt ;;;
  s2n_hmac_update key ;;;
  prk <-- s2n_hmac_digest hmac_size ;;
  s2n_hmac_reset ;;;
  ret prk.

(** The rounds from [curr_round] on; [out] is what is written so far. *)
Fixpoint expand_loop (n : nat) (alg : s2n_hmac_algorithm) (prk info : list Z) (size curr_round done_len : Z)
    (prev out : list Z) : Cmd s2n_hmac_state (list Z) :=
  match n with
  | O => ret out
  | S n' =>
      let hash_len := s2n_hmac_digest_size alg in
      s2n_hmac_init alg prk ;;;
      (if negb (curr_round =? 1) then s2n_hmac_update prev else ret tt) ;;;
      s2n_hmac_update info ;;;
      s2n_hmac_update [first_byte curr_round] ;;;
      prev <-- s2n_hmac_digest hash_len ;;
      let cat_len := if size <? u32 (done_len + hash_len) then u32 (size - done_len) else hash_len in
      s2n_hmac_reset ;;;
      expand_loop n' alg prk info size (u32 (curr_round + 1)) (u32 (done_len + cat_len)) prev
        (out ++ take (Z.to_nat cat_len) prev)
  end.

Definition s2n_custom_hkdf_expand (alg : s2n_hmac_algorithm) (prk info : list Z) (size : Z) : Cmd s2n_hmac_state (list Z) :=
  let hash_len := s2n_hmac_digest_size alg in
  ensure (0 <? hash_len) S2N_ERR_SAFETY ;;;
  let total_rounds := size / hash_len in
  let total_rounds := if negb (size mod hash_len =? 0) then u32 (total_rounds + 1) else total_rounds in
  ensure (0 <? total_rounds) S2N_ERR_HKDF_OUTPUT_SIZE ;;;
  ensure (total_rounds <=? MAX_HKDF_ROUNDS) S2N_ERR_HKDF_OUTPUT_SIZE ;;;
  expand_loop (Z.to_nat total_rounds) alg prk info size 1 0 (repeat 0 (Z.to_nat MAX_DIGEST_SIZE)) [].

Definition s2n_custom_hkdf (alg : s2n_hmac_algorithm) (salt key info : list Z) (size : Z) : Cmd s2n_hmac_state (list Z) :=
  prk <-- s2n_custom_hkdf_extract alg salt key MAX_DIGEST_SIZE ;;
  s2n_custom_hkdf_expand alg prk info size.

Definition guard_ossl {X A} (r : option A) (e : s2n_error) : Cmd X A := match r with Some a => ret a | None => fail e end.

Definition s2n_libcrypto_hkdf_extract (alg : s2n_hmac_algorithm) (salt key : list Z) (prk_size : Z) : Cmd s2n_hmac_state (list Z) :=
  if S2N_LIBCRYPTO_SUPPORTS_HKDF then
    digest <-- s2n_hmac_md_from_alg alg ;;
    let hmac_size := s2n_hmac_digest_size alg in
    ensure (hmac_size <=? prk_size) S2N_ERR_HKDF_OUTPUT_SIZE ;;;
    prk <-- guard_ossl (HKDF_extract digest key salt) S2N_ERR_HKDF ;;
    ensure (zlen prk <=? prk_size) S2N_ERR_SAFETY ;;;
    ret prk
  else fail S2N_ERR_UNIMPLEMENTED.

Definition s2n_libcrypto_hkdf_expand (alg : s2n_hmac_algorithm) (prk info : list Z) (size : Z) : Cmd s2n_hmac_state (list Z) :=
  if S2N_LIBCRYPTO_SUPPORTS_HKDF then
    ensure (0 <? size) S2N_ERR_HKDF_OUTPUT_SIZE ;;;
    digest <-- s2n_hmac_md_from_alg alg ;;
    guard_ossl (HKDF_expand size digest prk info) S2N_ERR_HKDF
  else fail S2N_ERR_UNIMPLEMENTED.

Definition s2n_libcrypto_hkdf (alg : s2n_hmac_algorithm) (salt key info : list Z) (size : Z) : Cmd s2n_hmac_state (list Z) :=
  if S2N_LIBCRYPTO_SUPPORTS_HKDF then
    ensure (0 <? size) S2N_ERR_HKDF_OUTPUT_SIZE ;;;
    digest <-- s2n_hmac_md_from_alg alg ;;
    guard_ossl (HKDF size digest key salt info) S2N_ERR_HKDF
  else fail S2N_ERR_UNIMPLEMENTED.

Definition s2n_libcrypto_supports_hkdf : bool := S2N_LIBCRYPTO_SUPPORTS_HKDF.

(** Whether the implementation is s2n_libcrypto_hkdf_impl. *)
Definition s2n_get_hkdf_implementation : bool := s2n_is_in_fips_mode && s2n_libcrypto_supports_hkdf.

Definition s2n_hkdf_extract (alg : s2n_hmac_algorithm) (salt key : list Z) (prk_size : Z) : Cmd s2n_hmac_state (list Z) :=
  if s2n_get_hkdf_implementation then s2n_libcrypto_hkdf_extract alg salt key prk_size
  else s2n_custom_hkdf_extract alg salt key prk_size.

Definition s2n_hkdf_expand (alg : s2n_hmac_algorithm) (prk info : list Z) (size : Z) : Cmd s2n_hmac_state (list Z) :=
  if s2n_get_hkdf_implementation then s2n_libcrypto_hkdf_expand alg prk info size
  else s2n_custom_hkdf_expand alg prk info size.

Definition s2n_hkdf (alg : s2n_hmac_algorithm) (salt key info : list Z) (size : Z) : Cmd s2n_hmac_state (list Z) :=
  if s2n_get_hkdf_implementation then s2n_libcrypto_hkdf alg salt key info size
  else s2n_custom_hkdf alg salt key info size.

(** A stuffer over an array of the function, as the bytes written to it. *)
Definition local_write {X} (capacity : Z) (written bs : list Z) : Cmd X (list Z) :=
  ensure (zlen written + zlen bs <=? capacity) S2N_ERR_STUFFER_IS_FULL ;;;
  ret (written ++ bs).

(** tls13 and a space *)
Definition tls13_prefix : list Z := [116; 108; 115; 49; 51; 32].

Definition s2n_hkdf_expand_label (alg : s2n_hmac_algorithm) (secret label context : list Z) (size : Z) : Cmd s2n_hmac_state (list Z) :=
  let capacity := 2 + 256 + 256 in
  ensure (zlen label <=? S2N_MAX_HKDF_EXPAND_LABEL_LENGTH) S2N_ERR_SAFETY ;;;
  hkdf_label <-- local_write capacity [] (be_bytes 2 (u16 size)) ;;
  hkdf_label <-- local_write capacity hkdf_label [u8 (zlen label + 6)] ;;
  hkdf_label <-- local_write capacity hkdf_label tls13_prefix ;;
  hkdf_label <-- local_write capacity hkdf_label label ;;
  hkdf_label <-- local_write capacity hkdf_label [u8 (zlen context)] ;;
  hkdf_label <-- local_write capacity hkdf_label context ;;
  s2n_hkdf_expand alg secret hkdf_label size.
End Definitions.
End Hkdf.
Export Hkdf.
