(* ===== verification/HkdfTheorems.v ===== *)
(** * Key derivation computes HKDF

    [hkdf_extract] and [hkdf_expand] are RFC 5869, [hkdf_label] is the structure
    HkdfLabel of RFC 8446 7.1. *)
From S2P Require Import Prelude Errors CMem Platform Safety Blob Alloc NetworkOrder Libcrypto Hash Hmac HmacTheorems Hkdf.
Open Scope Z_scope.

Module HkdfTheorems.

Section Spec.
Context `{HD : Digests}.
Implicit Types (alg : s2n_hmac_algorithm) (prk info : list Z).

Definition hkdf_extract alg (salt key : list Z) : list Z := hmac alg salt key.

(** The blocks T(1), T(2), ... where [count i] is the byte that ends the input
    of block [i]; in RFC 5869 it is [i]. *)
Fixpoint hkdf_block (count : nat -> Z) alg prk info (i : nat) : list Z :=
  match i with
  | O => []
  | S i' => hmac alg prk (hkdf_block count alg prk info i' ++ info ++ [count i])
  end.

Definition hkdf_blocks (count : nat -> Z) alg prk info (n : nat) : list Z :=
  concat (map (hkdf_block count alg prk info) (seq 1 n)).

(** The number of blocks for [size] bytes. *)
Definition hkdf_rounds alg (size : Z) : nat := Z.to_nat ((size + s2n_hmac_digest_size alg - 1) / s2n_hmac_digest_size alg).

Definition hkdf_expand alg prk info (size : Z) : list Z :=
  take (Z.to_nat size) (hkdf_blocks Z.of_nat alg prk info (hkdf_rounds alg size)).

Definition hkdf_label (size : Z) (label context : list Z) : list Z :=
  be_bytes 2 size ++ [zlen tls13_prefix + zlen label] ++ tls13_prefix ++ label ++ [zlen context] ++ context.
End Spec.

(** What libcrypto promises for HKDF (openssl/hkdf.h refers to RFC 5869). *)
Class HkdfOk `{Digests} `{HkdfEnv} : Prop := {
  HKDF_extract_ok alg md key salt prk : (forall w (x : unit), s2n_hmac_md_from_alg alg (w, x) = (Ok md, (w, x))) ->
    is_sslv3_mac alg = false -> HKDF_extract md key salt = Some prk -> prk = hkdf_extract alg salt key;
  HKDF_expand_ok alg md n prk info out : (forall w (x : unit), s2n_hmac_md_from_alg alg (w, x) = (Ok md, (w, x))) ->
    is_sslv3_mac alg = false -> HKDF_expand n md prk info = Some out ->
    n <= 255 * s2n_hmac_digest_size alg /\ out = hkdf_expand alg prk info n;
  HKDF_ok alg md n key salt info out : (forall w (x : unit), s2n_hmac_md_from_alg alg (w, x) = (Ok md, (w, x))) ->
    is_sslv3_mac alg = false -> HKDF n md key salt info = Some out ->
    n <= 255 * s2n_hmac_digest_size alg /\ out = hkdf_expand alg (hkdf_extract alg salt key) info n;
}.

Section Theorems.
Context `{HL : Libcrypto} `{HD : Digests} `{HOK : !DigestsOk} `{HE : HkdfEnv} `{HHK : !HkdfOk}.
Implicit Types (alg : s2n_hmac_algorithm) (prk info salt key : list Z) (w : world) (s : s2n_hmac_state).

Lemma hmac_length alg key m : zlen (hmac alg key m) = s2n_hmac_digest_size alg.
Proof. apply hash_of_length. Qed.

Lemma hkdf_blocks_snoc count alg prk info n :
  hkdf_blocks count alg prk info (S n) = hkdf_blocks count alg prk info n ++ hkdf_block count alg prk info (S n).
Proof. unfold hkdf_blocks. rewrite seq_S, map_app, concat_app. simpl. by rewrite app_nil_r. Qed.

Lemma zlen_hkdf_blocks count alg prk info n :
  zlen (hkdf_blocks count alg prk info n) = Z.of_nat n * s2n_hmac_digest_size alg.
Proof.
  induction n as [|n IH]; [done|]. rewrite hkdf_blocks_snoc, zlen_app, IH. simpl hkdf_block. rewrite hmac_length. lia.
Qed.

(** ** Extraction *)

Lemma wp_custom_extract w s alg salt key n Q E :
  hmac_alloc s -> zlen salt < 2 ^ 32 -> zlen key <= MAX_UPDATE -> s2n_hmac_digest_size alg <= n ->
  (forall s', hmac_alloc s' -> Q (hkdf_extract alg salt key) w s') ->
  (forall e s', hash_failure w e -> E e w s') ->
  wp (s2n_custom_hkdf_extract alg salt key n) (w, s) Q E.
Proof.
  intros Hs Hsalt Hkey Hn HQ HE'. destruct (key_lengths alg salt Hsalt) as [Hil Hol].
  assert (Hmax : zlen key <= 17535) by apply Hkey. pose proof (zlen_nonneg key).
  apply wp_bind, wp_ensure; [intros _|intros Hz; zbool; lia].
  apply wp_bind, (wp_hmac_init _ _ alg salt); [done|done| |done]. intros s1 Hs1.
  apply wp_bind, (wp_hmac_update_ok _ _ alg salt []); [done|done|unfold zlen at 2; simpl; lia| |done]. intros s2 Hs2.
  apply wp_bind, (wp_hmac_digest _ _ alg salt key); [done|done|lia| |done]. intros s3 Hs3 _ _.
  apply wp_bind, (wp_hmac_reset _ _ alg salt); [apply Hs3| |done]. intros s4 Hs4.
  apply wp_ret, HQ. eapply keyed_alloc, Hs4.
Qed.

(** ** Expansion *)

Definition round_byte (i : nat) : Z := first_byte (Z.of_nat i).

Lemma wp_expand_loop alg prk info size n : forall w s (i : nat) Q E,
  hmac_alloc s -> zlen prk < 2 ^ 32 -> zlen info <= MAX_UPDATE ->
  (i + n <= 255)%nat -> 0 < s2n_hmac_digest_size alg ->
  Z.of_nat i * s2n_hmac_digest_size alg <= size ->
  Z.of_nat (i + n) * s2n_hmac_digest_size alg < size + s2n_hmac_digest_size alg ->
  (forall s', hmac_alloc s' -> Q (take (Z.to_nat size) (hkdf_blocks round_byte alg prk info (i + n))) w s') ->
  (forall e s', hash_failure w e -> E e w s') ->
  forall prev, (i <> 0%nat -> prev = hkdf_block round_byte alg prk info i) ->
  wp (expand_loop n alg prk info size (Z.of_nat i + 1) (Z.of_nat i * s2n_hmac_digest_size alg) prev
        (hkdf_blocks round_byte alg prk info i)) (w, s) Q E.
Proof.
  induction n as [|n IH]; intros w s i Q E Hs Hprk Hinfo Hn Hhl Hle Hlt HQ HE' prev Hprev.
  { apply wp_ret. rewrite Nat.add_0_r in *. replace (hkdf_blocks _ _ _ _ i) with (take (Z.to_nat size) (hkdf_blocks round_byte alg prk info i)).
    - by apply HQ.
    - apply firstn_all2. pose proof (zlen_hkdf_blocks round_byte alg prk info i) as Hl. unfold zlen in Hl. lia. }
  destruct (key_lengths alg prk Hprk) as [Hil Hol]. pose proof (digest_size_range alg) as Hds.
  assert (Hmax : zlen info <= 17535) by apply Hinfo. pose proof (zlen_nonneg info).
  set (hl := s2n_hmac_digest_size alg) in *. set (T := hkdf_block round_byte alg prk info) in *.
  assert (Hfirst : wp (if negb (Z.of_nat i + 1 =? 1) then s2n_hmac_update prev else ret tt)
            = wp (X := s2n_hmac_state) (if negb (Z.of_nat i + 1 =? 1) then s2n_hmac_update (T i) else ret tt)).
  { destruct (Z.eqb_spec (Z.of_nat i + 1) 1) as [He|He]; [done|]. simpl. rewrite Hprev; [done|lia]. }
  apply wp_bind, (wp_hmac_init _ _ alg prk); [done|done| |done]. intros s1 Hs1.
  assert (HT : zlen (T i) <= 64).
  { unfold T. destruct i; [vm_compute; congruence|]. simpl. rewrite hmac_length. apply Hds. }
  apply wp_bind. rewrite Hfirst.
  assert (Hround : forall s2, mac_is alg prk (Some (T i)) s2 ->
    wp (s2n_hmac_update info ;;; s2n_hmac_update [first_byte (Z.of_nat i + 1)] ;;;
        prev <-- s2n_hmac_digest hl ;;
        (let cat_len := if size <? u32 (Z.of_nat i * hl + hl) then u32 (size - Z.of_nat i * hl) else hl in
         s2n_hmac_reset ;;;
         expand_loop n alg prk info size (u32 (Z.of_nat i + 1 + 1)) (u32 (Z.of_nat i * hl + cat_len)) prev
           (hkdf_blocks round_byte alg prk info i ++ take (Z.to_nat cat_len) prev))) (w, s2) Q E).
  { intros s2 Hs2.
    apply wp_bind, (wp_hmac_update_ok _ _ alg prk (T i)); [done|done|lia| |done]. intros s3 Hs3.
    apply wp_bind, (wp_hmac_update_ok _ _ alg prk (T i ++ info)); [done|done|rewrite zlen_app; unfold zlen at 4; simpl; lia| |done].
    intros s4 Hs4. rewrite <- app_assoc in Hs4.
    apply wp_bind, (wp_hmac_digest _ _ alg prk (T i ++ info ++ [first_byte (Z.of_nat i + 1)])); [done|done|lia| |done].
    intros s5 Hs5 _ _. cbv zeta. apply wp_bind, (wp_hmac_reset _ _ alg prk); [apply Hs5| |done]. intros s6 Hs6.
    assert (HTS : hmac alg prk (T i ++ info ++ [first_byte (Z.of_nat i + 1)]) = T (S i)).
    { unfold T. simpl. unfold round_byte. do 5 f_equal. lia. }
    rewrite HTS. assert (HlS : zlen (T (S i)) = hl) by apply hmac_length.
    assert (Hi255 : Z.of_nat i * hl <= 255 * 64) by nia.
    rewrite (u32_small (Z.of_nat i * hl + hl)) by nia.
    destruct (Z.ltb_spec size (Z.of_nat i * hl + hl)) as [Hlast|Hmore].
    - assert (n = 0%nat) as -> by nia. apply wp_ret. rewrite u32_small by nia.
      replace (_ ++ _) with (take (Z.to_nat size) (hkdf_blocks round_byte alg prk info (i + 1))); [by eapply HQ, keyed_alloc, Hs6|].
      rewrite Nat.add_1_r, hkdf_blocks_snoc. pose proof (zlen_hkdf_blocks round_byte alg prk info i) as Hl.
      fold hl in Hl. unfold zlen in Hl. rewrite take_app_ge by lia. do 2 f_equal. lia.
    - rewrite !u32_small by nia. replace (Z.of_nat i * hl + hl) with (Z.of_nat (S i) * hl) by lia.
      replace (Z.of_nat i + 1 + 1) with (Z.of_nat (S i) + 1) by lia.
      replace (take (Z.to_nat hl) (T (S i))) with (T (S i)) by (symmetry; apply firstn_all2; unfold zlen in HlS; lia).
      unfold T at 2. rewrite <- hkdf_blocks_snoc. replace (i + S n)%nat with (S i + n)%nat in * by lia.
      apply IH; try done; try lia; eapply keyed_alloc, Hs6. }
  destruct (Z.eqb_spec (Z.of_nat i + 1) 1) as [He|He]; simpl negb.
  - apply wp_ret, Hround. replace i with 0%nat by lia. apply Hs1.
  - apply (wp_hmac_update_ok _ _ alg prk []); [done|unfold MAX_UPDATE, UINT32_MAX, HIGHEST_32_BIT; lia|unfold zlen at 2; simpl; lia| |done].
    intros s2 Hs2. by apply Hround.
Qed.

(** The sizes that can be derived. *)
Definition hkdf_size alg (size : Z) : bool := (0 <? size) && (size <=? 255 * s2n_hmac_digest_size alg).

Lemma round_up alg size : 0 < s2n_hmac_digest_size alg -> 0 <= size <= UINT32_MAX ->
  let hl := s2n_hmac_digest_size alg in
  (if negb (size mod hl =? 0) then u32 (size / hl + 1) else size / hl) = Z.of_nat (hkdf_rounds alg size) /\
  (hkdf_size alg size = true <-> 0 < Z.of_nat (hkdf_rounds alg size) <= 255) /\
  Z.of_nat (hkdf_rounds alg size) * hl < size + hl.
Proof.
  intros Hhl Hsize hl. fold hl in Hhl. unfold hkdf_rounds, hkdf_size, UINT32_MAX in *. fold hl.
  pose proof (Z.div_mod size hl ltac:(lia)) as Hdm. pose proof (Z.mod_pos_bound size hl Hhl) as Hmod.
  assert (Hq : 0 <= size / hl <= size) by (split; [apply Z.div_pos; lia|apply Z.div_le_upper_bound; nia]).
  assert (Hhl64 : hl <= 64) by apply digest_size_range.
  rewrite Bool.andb_true_iff, Z.ltb_lt, Z.leb_le.
  destruct (Z.eqb_spec (size mod hl) 0) as [Hz|Hz]; simpl negb; cbv iota.
  - assert (He : (size + hl - 1) / hl = size / hl) by (symmetry; apply (Z.div_unique _ _ _ (hl - 1)); lia).
    rewrite He, Z2Nat.id by lia. split_goal; [done|split; nia|nia].
  - assert (He : (size + hl - 1) / hl = size / hl + 1)
      by (symmetry; apply (Z.div_unique _ _ _ (size mod hl - 1)); lia).
    assert (size / hl + 1 <= size) by (apply Z.lt_pred_le; destruct (Z.eq_dec hl 1) as [Hone|Hone]; [rewrite Hone in *; rewrite Z.mod_1_r in Hz; lia|nia]).
    rewrite He, u32_small, Z2Nat.id by lia. split_goal; [done|split; nia|nia].
Qed.

Lemma wp_custom_expand w s alg prk info size Q E :
  hmac_alloc s -> zlen prk < 2 ^ 32 -> zlen info <= MAX_UPDATE -> 0 < s2n_hmac_digest_size alg -> 0 <= size <= UINT32_MAX ->
  (forall s', hmac_alloc s' -> hkdf_size alg size = true ->
     Q (take (Z.to_nat size) (hkdf_blocks round_byte alg prk info (hkdf_rounds alg size))) w s') ->
  (forall e s', hash_failure w e -> E e w s') ->
  (hkdf_size alg size = false -> E S2N_ERR_HKDF_OUTPUT_SIZE w s) ->
  wp (s2n_custom_hkdf_expand alg prk info size) (w, s) Q E.
Proof.
  intros Hs Hprk Hinfo Hhl Hsize HQ HE' Hbad. destruct (round_up alg size Hhl Hsize) as (Hr & Hok & Hlt).
  unfold s2n_custom_hkdf_expand. apply wp_bind, wp_ensure; [intros _|intros Hz; zbool; lia]. cbv zeta. rewrite Hr.
  assert (Hno : ~ (0 < Z.of_nat (hkdf_rounds alg size) <= 255) -> hkdf_size alg size = false).
  { intros Hn. destruct (hkdf_size alg size); [|done]. by destruct Hn; apply Hok. }
  apply wp_bind, wp_ensure; [intros H1|intros H1; zbool; apply Hbad, Hno; lia].
  apply wp_bind, wp_ensure; intros H2; unfold MAX_HKDF_ROUNDS in H2; zbool; [|apply Hbad, Hno; lia].
  rewrite Nat2Z.id. apply (wp_expand_loop alg prk info size _ w s 0%nat); try done; try lia.
  intros s' Hs'. apply HQ; [done|]. apply Hok. lia.
Qed.

(** ** Whichever implementation is chosen *)

(** How a derivation may fail: the size, or libcrypto. *)
Definition hkdf_failure w alg (size : Z) (e : s2n_error) : Prop :=
  (e = S2N_ERR_HKDF_OUTPUT_SIZE /\ hkdf_size alg size = false) \/ hash_failure w e \/
  (s2n_get_hkdf_implementation = true /\ e = S2N_ERR_HKDF).

Definition tls_mac alg : bool := negb (is_sslv3_mac alg) && negb (bool_decide (alg = S2N_HMAC_NONE)).

Lemma tls_mac_md alg : tls_mac alg = true ->
  is_sslv3_mac alg = false /\ 0 < s2n_hmac_digest_size alg /\
  exists md, forall X w (x : X), s2n_hmac_md_from_alg alg (w, x) = (Ok md, (w, x)).
Proof. by destruct alg; try discriminate; intros _; split_goal; eauto. Qed.

Lemma wp_guard_ossl {X A} (r : option A) e w (x : X) Q E :
  (forall a, r = Some a -> Q a w x) -> E e w x -> wp (guard_ossl r e) (w, x) Q E.
Proof. intros HQ HE'. destruct r; [by apply wp_ret, HQ|by apply wp_fail]. Qed.

Lemma blocks_little_endian alg prk info n : little_endian = true -> (n <= 255)%nat ->
  hkdf_blocks round_byte alg prk info n = hkdf_blocks Z.of_nat alg prk info n.
Proof.
  intros Hle. assert (Hblock : forall i, (i <= 255)%nat -> hkdf_block round_byte alg prk info i = hkdf_block Z.of_nat alg prk info i).
  { induction i as [|i IH]; intros Hi; [done|]. simpl. rewrite IH by lia. unfold round_byte, first_byte.
    rewrite Hle, u8_small by lia. done. }
  induction n as [|n IH]; intros Hn; [done|]. rewrite !hkdf_blocks_snoc, IH, Hblock by lia. done.
Qed.

Lemma wp_hkdf_expand w s alg prk info size Q E :
  hmac_alloc s -> little_endian = true -> tls_mac alg = true -> zlen prk < 2 ^ 32 -> zlen info <= MAX_UPDATE ->
  0 <= size <= UINT32_MAX ->
  (forall s', hmac_alloc s' -> hkdf_size alg size = true -> Q (hkdf_expand alg prk info size) w s') ->
  (forall e s', hkdf_failure w alg size e -> E e w s') -> wp (s2n_hkdf_expand alg prk info size) (w, s) Q E.
Proof.
  intros Hs Hle Hmac Hprk Hinfo Hsize HQ HE'. destruct (tls_mac_md alg Hmac) as (Hssl & Hhl & md & Hmd).
  unfold s2n_hkdf_expand. destruct s2n_get_hkdf_implementation eqn:Himpl.
  - assert (S2N_LIBCRYPTO_SUPPORTS_HKDF = true) as Hsup by (by apply andb_prop in Himpl as [_ ?]).
    unfold s2n_libcrypto_hkdf_expand. rewrite Hsup.
    apply wp_bind, wp_ensure; intros Hz; zbool.
    + apply wp_bind. unfold wp at 1. rewrite Hmd. apply wp_guard_ossl.
      * intros out Hout. destruct (HKDF_expand_ok alg md size prk info out) as [Hn ->]; [by intros; apply Hmd|done..|].
        apply HQ; [done|]. unfold hkdf_size. apply andb_true_iff. rewrite Z.ltb_lt, Z.leb_le. lia.
      * apply HE'. right. by right.
    + apply HE'. left. split; [done|]. unfold hkdf_size. by rewrite (proj2 (Z.ltb_ge 0 size)).
  - apply wp_custom_expand; try done.
    + intros s' Hs' Hok. destruct (round_up alg size Hhl Hsize) as (_ & Hok' & _). rewrite blocks_little_endian; [by apply HQ|done|].
      apply Hok' in Hok. lia.
    + intros e s' He. apply HE'. right. by left.
    + intros Hbad. apply HE'. by left.
Qed.

Lemma wp_hkdf_extract w s alg salt key n Q E :
  hmac_alloc s -> tls_mac alg = true -> zlen salt < 2 ^ 32 -> zlen key <= MAX_UPDATE -> s2n_hmac_digest_size alg <= n ->
  (forall s', hmac_alloc s' -> Q (hkdf_extract alg salt key) w s') ->
  (forall e s', (hash_failure w e \/ (s2n_get_hkdf_implementation = true /\ e = S2N_ERR_HKDF)) -> E e w s') ->
  wp (s2n_hkdf_extract alg salt key n) (w, s) Q E.
Proof.
  intros Hs Hmac Hsalt Hkey Hn HQ HE'. destruct (tls_mac_md alg Hmac) as (Hssl & Hhl & md & Hmd).
  unfold s2n_hkdf_extract. destruct s2n_get_hkdf_implementation eqn:Himpl.
  - assert (S2N_LIBCRYPTO_SUPPORTS_HKDF = true) as Hsup by (by apply andb_prop in Himpl as [_ ?]).
    unfold s2n_libcrypto_hkdf_extract. rewrite Hsup. apply wp_bind. unfold wp at 1. rewrite Hmd.
    apply wp_bind, wp_ensure; [intros _|intros Hz; zbool; lia]. apply wp_bind, wp_guard_ossl; [|apply HE'; by right].
    intros prk Hprk. apply (HKDF_extract_ok alg) in Hprk; [|by intros; apply Hmd|done]. subst prk.
    apply wp_bind, wp_ensure; [intros _|intros Hz; zbool; unfold hkdf_extract in Hz; rewrite hmac_length in Hz; lia].
    by apply wp_ret, HQ.
  - apply wp_custom_extract; try done. intros e s' He. apply HE'. by left.
Qed.

Lemma hkdf_expand_length alg prk info size : hkdf_size alg size = true -> zlen (hkdf_expand alg prk info size) = size.
Proof.
  intros Hok. unfold hkdf_size in Hok. zbool. pose proof (digest_size_range alg) as Hhl.
  unfold hkdf_expand, zlen. rewrite length_take.
  pose proof (zlen_hkdf_blocks Z.of_nat alg prk info (hkdf_rounds alg size)) as Hl. unfold zlen in Hl.
  unfold hkdf_rounds in Hl at 2. set (hl := s2n_hmac_digest_size alg) in *.
  pose proof (Z.div_mod (size + hl - 1) hl ltac:(lia)). pose proof (Z.mod_pos_bound (size + hl - 1) hl ltac:(lia)).
  rewrite Z2Nat.id in Hl by (apply Z.div_pos; lia). nia.
Qed.

Lemma wp_hkdf w s alg salt key info size Q E :
  hmac_alloc s -> little_endian = true -> tls_mac alg = true -> zlen salt < 2 ^ 32 -> zlen key <= MAX_UPDATE ->
  zlen info <= MAX_UPDATE -> 0 <= size <= UINT32_MAX ->
  (forall s', hmac_alloc s' -> hkdf_size alg size = true -> Q (hkdf_expand alg (hkdf_extract alg salt key) info size) w s') ->
  (forall e s', hkdf_failure w alg size e -> E e w s') -> wp (s2n_hkdf alg salt key info size) (w, s) Q E.
Proof.
  intros Hs Hle Hmac Hsalt Hkey Hinfo Hsize HQ HE'. destruct (tls_mac_md alg Hmac) as (Hssl & Hhl & md & Hmd).
  unfold s2n_hkdf. destruct s2n_get_hkdf_implementation eqn:Himpl.
  - assert (S2N_LIBCRYPTO_SUPPORTS_HKDF = true) as Hsup by (by apply andb_prop in Himpl as [_ ?]).
    unfold s2n_libcrypto_hkdf. rewrite Hsup. apply wp_bind, wp_ensure; intros Hz; zbool.
    + apply wp_bind. unfold wp at 1. rewrite Hmd. apply wp_guard_ossl.
      * intros out Hout. destruct (HKDF_ok alg md size key salt info out) as [Hn ->]; [by intros; apply Hmd|done..|].
        apply HQ; [done|]. unfold hkdf_size. apply andb_true_iff. rewrite Z.ltb_lt, Z.leb_le. lia.
      * apply HE'. right. by right.
    + apply HE'. left. split; [done|]. unfold hkdf_size. by rewrite (proj2 (Z.ltb_ge 0 size)).
  - pose proof (digest_size_range alg). apply wp_bind, wp_custom_extract; try done; [unfold MAX_DIGEST_SIZE; lia| |].
    + intros s1 Hs1. assert (zlen (hkdf_extract alg salt key) < 2 ^ 32) as Hl by (unfold hkdf_extract; rewrite hmac_length; lia).
      pose proof (wp_hkdf_expand w s1 alg (hkdf_extract alg salt key) info size Q E Hs1 Hle Hmac Hl Hinfo Hsize HQ HE') as Hexp.
      unfold s2n_hkdf_expand in Hexp. by rewrite Himpl in Hexp.
    + intros e s' He. apply HE'. right. by left.
Qed.


(** ** Labels *)

Lemma wp_local_write {X} capacity written bs w (x : X) Q E :
  zlen written + zlen bs <= capacity -> Q (written ++ bs) w x -> wp (local_write capacity written bs) (w, x) Q E.
Proof. intros Hc HQ. apply wp_bind, wp_ensure; [intros _; by apply wp_ret|intros Hz; zbool; lia]. Qed.

(** The label does not fit, or the expansion fails. *)
Definition label_failure w alg (label : list Z) (size : Z) (e : s2n_error) : Prop :=
  e = S2N_ERR_SAFETY /\ S2N_MAX_HKDF_EXPAND_LABEL_LENGTH < zlen label \/ hkdf_failure w alg size e.

Lemma wp_expand_label w s alg secret label context size Q E :
  hmac_alloc s -> little_endian = true -> tls_mac alg = true -> zlen secret < 2 ^ 32 -> zlen context <= 255 -> 0 <= size <= 65535 ->
  (forall s', hmac_alloc s' -> zlen label <= S2N_MAX_HKDF_EXPAND_LABEL_LENGTH -> hkdf_size alg size = true ->
     Q (hkdf_expand alg secret (hkdf_label size label context) size) w s') ->
  (forall e s', label_failure w alg label size e -> E e w s') ->
  wp (s2n_hkdf_expand_label alg secret label context size) (w, s) Q E.
Proof.
  intros Halloc Hle Hmac Hsecret Hcontext Hsize HQ HE'.
  apply wp_bind, wp_ensure; intros Hlabel; zbool; [|by apply HE'; left]. unfold S2N_MAX_HKDF_EXPAND_LABEL_LENGTH in *.
  pose proof (zlen_nonneg label). pose proof (zlen_nonneg context). assert (Hbe : zlen (be_bytes 2 (u16 size)) = 2) by done.
  assert (H1 : forall b : Z, zlen [b] = 1) by done. assert (Hpre : zlen tls13_prefix = 6) by done.
  do 6 (apply wp_bind, wp_local_write; [rewrite ?zlen_app, ?Hbe, ?H1, ?Hpre; change (zlen (@nil Z)) with 0; lia|]).
  assert (Hl : ([] ++ be_bytes 2 (u16 size)) ++ [u8 (zlen label + 6)] = be_bytes 2 size ++ [zlen tls13_prefix + zlen label]).
  { rewrite u16_small, u8_small, Hpre by lia. by rewrite Z.add_comm. }
  rewrite Hl, u8_small, <- !app_assoc by lia. fold (hkdf_label size label context).
  apply wp_hkdf_expand; try done.
  - unfold hkdf_label. rewrite !zlen_app, !H1, Hpre. change (zlen (be_bytes 2 size)) with 2.
    unfold MAX_UPDATE, UINT32_MAX, HIGHEST_32_BIT. lia.
  - unfold UINT32_MAX. lia.
  - intros s' Hs' Hok. by apply HQ.
  - intros e s' He. apply HE'. by right.
Qed.

(** Labels are expanded as RFC 8446 says.  On a little-endian machine, for a
    context of at most 255 bytes and a size of two bytes, s2n_hkdf_expand_label
    is HKDF-Expand of the secret with the structure HkdfLabel; a label that does
    not fit with its prefix in 255 bytes is refused. *)
Theorem expand_label_correct (w : world) (s : s2n_hmac_state) (alg : s2n_hmac_algorithm) (secret label context : list Z) (size : Z)
    (Halloc : hmac_alloc s) (Hle : little_endian = true) (Hmac : tls_mac alg = true)
    (Hsecret : zlen secret < 2 ^ 32) (Hcontext : zlen context <= 255) (Hsize : 0 <= size <= 65535) :
  match s2n_hkdf_expand_label alg secret label context size (w, s) with
  | (Ok out, (w', s')) => w' = w /\ hmac_alloc s' /\ zlen label <= S2N_MAX_HKDF_EXPAND_LABEL_LENGTH /\
      hkdf_size alg size = true /\ zlen out = size /\ out = hkdf_expand alg secret (hkdf_label size label context) size
  | (Err e, (w', _)) => w' = w /\
      (e = S2N_ERR_SAFETY /\ S2N_MAX_HKDF_EXPAND_LABEL_LENGTH < zlen label \/ hkdf_failure w alg size e)
  | (UB, _) => False
  end.
Proof.
  assert (Hrun : wp (s2n_hkdf_expand_label alg secret label context size) (w, s)
    (fun out w' s' => w' = w /\ hmac_alloc s' /\ zlen label <= S2N_MAX_HKDF_EXPAND_LABEL_LENGTH /\
      hkdf_size alg size = true /\ zlen out = size /\ out = hkdf_expand alg secret (hkdf_label size label context) size)
    (fun e w' _ => w' = w /\ label_failure w alg label size e)).
  { apply wp_expand_label; try done. intros s' Hs' Hl Hok. split_goal; try done. by apply hkdf_expand_length. }
  unfold wp in Hrun. by destruct (s2n_hkdf_expand_label _ _ _ _ _ _) as [[out|e|] [w' s']].
Qed.
End Theorems.

(** A libcrypto whose derivations are those of RFC 5869. *)
Definition mac_of (md : s2n_hash_algorithm) : s2n_hmac_algorithm :=
  match md with
  | S2N_HASH_MD5 => S2N_HMAC_MD5 | S2N_HASH_SHA1 => S2N_HMAC_SHA1 | S2N_HASH_SHA224 => S2N_HMAC_SHA224
  | S2N_HASH_SHA256 => S2N_HMAC_SHA256 | S2N_HASH_SHA384 => S2N_HMAC_SHA384 | S2N_HASH_SHA512 => S2N_HMAC_SHA512
  | _ => S2N_HMAC_NONE
  end.

Definition demo_hkdf : HkdfEnv :=
  let within (md : s2n_hash_algorithm) n out := if n <=? 255 * s2n_hmac_digest_size (mac_of md) then Some out else None in {|
  little_endian := true;
  S2N_LIBCRYPTO_SUPPORTS_HKDF := true;
  HKDF_extract md key salt := Some (@hkdf_extract demo_digests (mac_of md) salt key);
  HKDF_expand n md prk info := within md n (@hkdf_expand demo_digests (mac_of md) prk info n);
  HKDF n md key salt info :=
    within md n (@hkdf_expand demo_digests (mac_of md) (@hkdf_extract demo_digests (mac_of md) salt key) info n);
|}.

Lemma mac_of_md alg md : (forall w (x : unit), s2n_hmac_md_from_alg alg (w, x) = (Ok md, (w, x))) ->
  is_sslv3_mac alg = false -> mac_of md = alg.
Proof. intros Hmd Hssl. specialize (Hmd (World ∅ started_statics) tt). by destruct alg; try discriminate; injection Hmd as <-. Qed.

#[export] Instance demo_hkdf_ok : @HkdfOk demo_digests demo_hkdf.
Proof.
  split; intros alg md; intros; unfold HKDF_extract, HKDF_expand, HKDF, demo_hkdf in *; rewrite (mac_of_md alg md) in * by done.
  - congruence.
  - case_match; [|done]. zbool. split; congruence.
  - case_match; [|done]. zbool. split; congruence.
Qed.


Lemma expand_label_correct_witness :
  match @s2n_hkdf_expand_label demo_libcrypto demo_digests demo_hkdf S2N_HMAC_SHA256 [1] [107; 101; 121] [] 16
          (World ∅ started_statics, new_hmac) with
  | (Ok out, (w', s')) => w' = World ∅ started_statics /\ @hmac_alloc demo_digests s' /\
      zlen [107; 101; 121] <= S2N_MAX_HKDF_EXPAND_LABEL_LENGTH /\ hkdf_size S2N_HMAC_SHA256 16 = true /\ zlen out = 16 /\
      out = @hkdf_expand demo_digests S2N_HMAC_SHA256 [1] (hkdf_label 16 [107; 101; 121] []) 16
  | (Err e, (w', _)) => w' = World ∅ started_statics /\
      (e = S2N_ERR_SAFETY /\ S2N_MAX_HKDF_EXPAND_LABEL_LENGTH < zlen [107; 101; 121] \/
       @hkdf_failure demo_libcrypto demo_digests demo_hkdf (World ∅ started_statics) S2N_HMAC_SHA256 16 e)
  | (UB, _) => False
  end.
Proof.
  apply (@expand_label_correct demo_libcrypto demo_digests _ demo_hkdf _ (World ∅ started_statics) new_hmac S2N_HMAC_SHA256 [1]).
  - apply new_hmac_alloc.
  - reflexivity.
  - reflexivity.
  - vm_compute. reflexivity.
  - vm_compute. congruence.
  - split; vm_compute; congruence.
Defined.

(** On a big-endian machine the byte that ends the input of a block is zero, so
    that what is derived is not HKDF. *)
Definition big_endian_hkdf : HkdfEnv := {|
  little_endian := false; S2N_LIBCRYPTO_SUPPORTS_HKDF := false;
  HKDF_extract _ _ _ := None; HKDF_expand _ _ _ _ := None; HKDF _ _ _ _ _ := None;
|}.

Example big_endian_expand :
  match @s2n_custom_hkdf_expand demo_digests big_endian_hkdf S2N_HMAC_SHA256 [1] [2] 32 (World ∅ started_statics, new_hmac) with
  | (Ok out, _) => out = @hmac demo_digests S2N_HMAC_SHA256 [1] [2; 0] /\ out <> @hkdf_expand demo_digests S2N_HMAC_SHA256 [1] [2] 32
  | _ => False
  end.
Proof. vm_compute. split; [reflexivity|congruence]. Qed.
End HkdfTheorems.
Export HkdfTheorems.
