(* ===== verification/Ciphers.v ===== *)
(** * crypto/s2n_cipher.c and the ciphers: session keys, encryption and decryption

    A session key holds the contexts of libcrypto; what libcrypto does with them
    is a parameter.  AES-GCM and ChaCha20-Poly1305 are modelled as they are built
    for a libcrypto with the EVP_AEAD interface (S2N_LIBCRYPTO_SUPPORTS_EVP_AEAD_TLS;
    AWS-LC and BoringSSL).  Blobs [in] and [out] are memory, keys and IVs are the
    bytes of arrays. *)
From stdpp Require Import strings.
From S2P Require Import Prelude Errors CMem Platform Safety Blob NetworkOrder Libcrypto.
Open Scope Z_scope.

Module Ciphers.

(** The constructors of an EVP_AEAD. *)
Inductive evp_aead :=
| EVP_aead_aes_128_gcm_tls12 | EVP_aead_aes_256_gcm_tls12 | EVP_aead_aes_128_gcm_tls13 | EVP_aead_aes_256_gcm_tls13
| EVP_aead_chacha20_poly1305.

(** Every function returns the context it leaves; where the C function returns
    0, the result is [false] or [None]. *)
Class CipherEnv := {
  cipher_ctx : Type;  (* EVP_CIPHER_CTX *)
  EVP_CIPHER_CTX_new : option cipher_ctx;
  EVP_CIPHER_CTX_init : cipher_ctx -> bool * cipher_ctx;
  EVP_CIPHER_CTX_cleanup : cipher_ctx -> cipher_ctx;
  EVP_CIPHER_CTX_set_padding : Z -> cipher_ctx -> cipher_ctx;
  (** With a cipher (which may be NULL) and a key, or with an IV. *)
  EVP_EncryptInit_key : option evp_cipher -> list Z -> cipher_ctx -> bool * cipher_ctx;
  EVP_DecryptInit_key : option evp_cipher -> list Z -> cipher_ctx -> bool * cipher_ctx;
  EVP_EncryptInit_iv : list Z -> cipher_ctx -> bool * cipher_ctx;
  EVP_DecryptInit_iv : list Z -> cipher_ctx -> bool * cipher_ctx;
  EVP_EncryptUpdate : list Z -> cipher_ctx -> option (list Z) * cipher_ctx;
  EVP_DecryptUpdate : list Z -> cipher_ctx -> option (list Z) * cipher_ctx;
  (** EVP_CIPHER_CTX_ctrl *)
  EVP_CTRL_AEAD_TLS1_AAD : list Z -> cipher_ctx -> Z * cipher_ctx;
  EVP_CTRL_AEAD_SET_MAC_KEY : list Z -> cipher_ctx -> cipher_ctx;

  aead_ctx : Type;  (* EVP_AEAD_CTX *)
  OPENSSL_malloc_aead : bool;  (* whether OPENSSL_malloc(sizeof(EVP_AEAD_CTX)) succeeds *)
  EVP_AEAD_CTX_zero : aead_ctx;
  EVP_AEAD_CTX_cleanup : aead_ctx -> aead_ctx;
  EVP_AEAD_CTX_init : evp_aead -> list Z -> Z -> aead_ctx -> bool * aead_ctx;  (* key, tag length *)
  EVP_AEAD_CTX_seal : list Z -> list Z -> list Z -> aead_ctx -> option (list Z) * aead_ctx;  (* nonce, in, ad *)
  EVP_AEAD_CTX_open : list Z -> list Z -> list Z -> aead_ctx -> option (list Z) * aead_ctx;  (* nonce, in, ad *)
}.

Definition S2N_TLS_GCM_IV_LEN : Z := S2N_TLS_GCM_FIXED_IV_LEN + S2N_TLS_GCM_EXPLICIT_IV_LEN.
Definition S2N_TLS_CHACHA20_POLY1305_IV_LEN : Z := 12.
Definition S2N_TLS12_AAD_LEN : Z := 13.

(** A pointer to a context; it dangles after the context was freed. *)
Inductive ctx_ptr (A : Type) := CtxNull | CtxLive (c : A) | CtxFreed.
Arguments CtxNull {A}.
Arguments CtxLive {A} c.
Arguments CtxFreed {A}.
Definition ctx_is_null {A} (c : ctx_ptr A) : bool := match c with CtxNull => true | _ => false end.

Section Definitions.
Context `{Libcrypto} `{CipherEnv}.

Record s2n_session_key := SessionKey {
  evp_cipher_ctx : ctx_ptr cipher_ctx;
  evp_aead_ctx : ctx_ptr aead_ctx;
}.
Definition no_session_key : s2n_session_key := SessionKey CtxNull CtxNull.

(** A call on a context; libcrypto dereferences the pointer. *)
Definition on_evp {A} (f : cipher_ctx -> A * cipher_ctx) : Cmd s2n_session_key A :=
  k <-- get_obj ;;
  match evp_cipher_ctx k with
  | CtxLive c => put_obj (SessionKey (CtxLive (snd (f c))) (evp_aead_ctx k)) ;;; ret (fst (f c))
  | _ => undefined
  end.
Definition on_aead {A} (f : aead_ctx -> A * aead_ctx) : Cmd s2n_session_key A :=
  k <-- get_obj ;;
  match evp_aead_ctx k with
  | CtxLive c => put_obj (SessionKey (evp_cipher_ctx k) (CtxLive (snd (f c)))) ;;; ret (fst (f c))
  | _ => undefined
  end.
Definition guard_some {X A} (r : option A) (e : s2n_error) : Cmd X A :=
  match r with Some a => ret a | None => fail e end.

(** ** crypto/s2n_cipher.c *)

(** When the second allocation fails the first context is freed, but the pointer
    to it stays, and s2n_errno is not set. *)
Definition s2n_session_key_alloc : Cmd s2n_session_key unit :=
  k <-- get_obj ;;
  ensure (ctx_is_null (evp_cipher_ctx k)) S2N_ERR_SAFETY ;;;
  c <-- guard_some EVP_CIPHER_CTX_new S2N_ERR_NULL ;;
  put_obj (SessionKey (CtxLive c) (evp_aead_ctx k)) ;;;
  ensure (ctx_is_null (evp_aead_ctx k)) S2N_ERR_SAFETY ;;;
  if OPENSSL_malloc_aead then put_obj (SessionKey (CtxLive c) (CtxLive EVP_AEAD_CTX_zero))
  else put_obj (SessionKey CtxFreed CtxNull) ;;; fail S2N_ERR_OK.

(** A context can be freed once. *)
Definition free_ctx {X A} (c : ctx_ptr A) : Cmd X unit :=
  match c with CtxFreed => undefined | _ => ret tt end.

Definition s2n_session_key_free : Cmd s2n_session_key unit :=
  k <-- get_obj ;;
  free_ctx (evp_cipher_ctx k) ;;;
  put_obj (SessionKey CtxNull (evp_aead_ctx k)) ;;;
  free_ctx (evp_aead_ctx k) ;;;
  put_obj no_session_key.

(** ** crypto/s2n_stream_cipher_null.c *)

Definition s2n_stream_cipher_null_endecrypt (in_ out : s2n_blob) : Cmd s2n_session_key unit :=
  ensure (size in_ <=? size out) S2N_ERR_SIZE_MISMATCH ;;;
  if negb (bool_decide (data in_ = data out)) then checked_memcpy (data out) (HeapBuf (data in_)) (size out) else ret tt.

(** ** crypto/s2n_stream_cipher_rc4.c *)

(** What [EVP_EncryptUpdate] reads and writes: [in->size] bytes, and what it returns. *)
Definition evp_update (update : list Z -> cipher_ctx -> option (list Z) * cipher_ctx) (in_ out : s2n_blob) (e : s2n_error)
    : Cmd s2n_session_key Z :=
  bs <-- load_buf (HeapBuf (data in_)) (size in_) ;;
  r <-- on_evp (update bs) ;;
  bs <-- guard_some r e ;;
  (match data out with Some p => store p bs | None => if zlen bs =? 0 then ret tt else undefined end) ;;;
  ret (zlen bs).

Definition s2n_stream_cipher_rc4_encrypt (in_ out : s2n_blob) : Cmd s2n_session_key unit :=
  ensure (size in_ <=? size out) S2N_ERR_SAFETY ;;;
  len <-- evp_update EVP_EncryptUpdate in_ out S2N_ERR_ENCRYPT ;;
  ensure (len =? size in_) S2N_ERR_DECRYPT.

Definition s2n_stream_cipher_rc4_decrypt (in_ out : s2n_blob) : Cmd s2n_session_key unit :=
  ensure (size in_ <=? size out) S2N_ERR_SAFETY ;;;
  len <-- evp_update EVP_DecryptUpdate in_ out S2N_ERR_DECRYPT ;;
  ensure (len =? size in_) S2N_ERR_DECRYPT.

Definition evp_if (present : bool) (c : evp_cipher) : option evp_cipher := if present then Some c else None.

(** [EVP_EncryptInit_ex] with a key of the right size. *)
Definition init_key (init : option evp_cipher -> list Z -> cipher_ctx -> bool * cipher_ctx) (c : option evp_cipher) (key : list Z)
    : Cmd s2n_session_key unit :=
  ok <-- on_evp (init c key) ;;
  ensure ok S2N_ERR_KEY_INIT.

Definition s2n_stream_cipher_rc4_set_encryption_key (key : list Z) : Cmd s2n_session_key unit :=
  ensure (zlen key =? 16) S2N_ERR_SAFETY ;;; init_key EVP_EncryptInit_key (evp_if s2n_evp_rc4 EVP_rc4) key.
Definition s2n_stream_cipher_rc4_set_decryption_key (key : list Z) : Cmd s2n_session_key unit :=
  ensure (zlen key =? 16) S2N_ERR_SAFETY ;;; init_key EVP_DecryptInit_key (evp_if s2n_evp_rc4 EVP_rc4) key.

(** Elsewhere the function has no result. *)
Definition RESULT_EVP_CTX_INIT : Cmd s2n_session_key unit :=
  ok <-- on_evp EVP_CIPHER_CTX_init ;;
  if S2N_OPENSSL_VERSION_AT_LEAST 1 1 0 && negb OPENSSL_IS_BORINGSSL && negb OPENSSL_IS_AWSLC && negb LIBRESSL_VERSION_NUMBER
  then ensure ok S2N_ERR_DRBG else ret tt.
Definition s2n_stream_cipher_rc4_init : Cmd s2n_session_key unit := RESULT_EVP_CTX_INIT.
Definition s2n_stream_cipher_rc4_destroy_key : Cmd s2n_session_key unit := on_evp (fun c => (tt, EVP_CIPHER_CTX_cleanup c)).

(** ** crypto/s2n_cbc_cipher_aes.c and crypto/s2n_cbc_cipher_3des.c *)

Definition s2n_cbc_cipher_aes_encrypt (iv : list Z) (in_ out : s2n_blob) : Cmd s2n_session_key unit :=
  ensure (size in_ <=? size out) S2N_ERR_SAFETY ;;;
  ok <-- on_evp (EVP_EncryptInit_iv iv) ;;
  ensure ok S2N_ERR_KEY_INIT ;;;
  len <-- evp_update EVP_EncryptUpdate in_ out S2N_ERR_ENCRYPT ;;
  ensure (len =? size in_) S2N_ERR_ENCRYPT.

Definition s2n_cbc_cipher_aes_decrypt (iv : list Z) (in_ out : s2n_blob) : Cmd s2n_session_key unit :=
  ensure (size in_ <=? size out) S2N_ERR_SAFETY ;;;
  ok <-- on_evp (EVP_DecryptInit_iv iv) ;;
  ensure ok S2N_ERR_KEY_INIT ;;;
  evp_update EVP_DecryptUpdate in_ out S2N_ERR_DECRYPT ;;;
  ret tt.

(** Without padding. *)
Definition init_cbc_key (init : option evp_cipher -> list Z -> cipher_ctx -> bool * cipher_ctx) (c : evp_cipher) (n : Z) (key : list Z)
    : Cmd s2n_session_key unit :=
  ensure (zlen key =? n) S2N_ERR_SAFETY ;;;
  on_evp (fun c => (tt, EVP_CIPHER_CTX_set_padding 0 c)) ;;;
  init_key init (evp_if (evp_present c) c) key.

Definition s2n_cbc_cipher_aes128_set_decryption_key := init_cbc_key EVP_DecryptInit_key EVP_aes_128_cbc 16.
Definition s2n_cbc_cipher_aes128_set_encryption_key := init_cbc_key EVP_EncryptInit_key EVP_aes_128_cbc 16.
Definition s2n_cbc_cipher_aes256_set_decryption_key := init_cbc_key EVP_DecryptInit_key EVP_aes_256_cbc 32.
Definition s2n_cbc_cipher_aes256_set_encryption_key := init_cbc_key EVP_EncryptInit_key EVP_aes_256_cbc 32.
Definition s2n_cbc_cipher_aes_init : Cmd s2n_session_key unit := RESULT_EVP_CTX_INIT.
Definition s2n_cbc_cipher_aes_destroy_key : Cmd s2n_session_key unit := on_evp (fun c => (tt, EVP_CIPHER_CTX_cleanup c)).

Definition s2n_cbc_cipher_3des_encrypt (iv : list Z) (in_ out : s2n_blob) : Cmd s2n_session_key unit :=
  ensure (size in_ <=? size out) S2N_ERR_SAFETY ;;;
  ok <-- on_evp (EVP_EncryptInit_iv iv) ;;
  ensure ok S2N_ERR_KEY_INIT ;;;
  len <-- evp_update EVP_EncryptUpdate in_ out S2N_ERR_ENCRYPT ;;
  ensure (len =? size in_) S2N_ERR_ENCRYPT.

Definition s2n_cbc_cipher_3des_decrypt (iv : list Z) (in_ out : s2n_blob) : Cmd s2n_session_key unit :=
  ensure (size in_ <=? size out) S2N_ERR_SAFETY ;;;
  ok <-- on_evp (EVP_DecryptInit_iv iv) ;;
  ensure ok S2N_ERR_KEY_INIT ;;;
  evp_update EVP_DecryptUpdate in_ out S2N_ERR_DECRYPT ;;;
  ret tt.

Definition s2n_cbc_cipher_3des_set_decryption_key := init_cbc_key EVP_DecryptInit_key EVP_des_ede3_cbc 24.
Definition s2n_cbc_cipher_3des_set_encryption_key := init_cbc_key EVP_EncryptInit_key EVP_des_ede3_cbc 24.
Definition s2n_cbc_cipher_3des_init : Cmd s2n_session_key unit := RESULT_EVP_CTX_INIT.
Definition s2n_cbc_cipher_3des_destroy_key : Cmd s2n_session_key unit := on_evp (fun c => (tt, EVP_CIPHER_CTX_cleanup c)).

(** ** crypto/s2n_composite_cipher_aes_sha.c *)

(** The number of bytes that the MAC, the padding and its length take. *)
Definition s2n_composite_cipher_aes_sha_initial_hmac (sequence_number : list Z) (content_type protocol_version payload_and_eiv_len : Z)
    : Cmd s2n_session_key Z :=
  if OPENSSL_IS_BORINGSSL || awslc_api_at_most 17 then fail S2N_ERR_UNIMPLEMENTED
  else
    let ctrl_buf := sequence_number ++ [content_type; u8 (protocol_version / 10); u8 (protocol_version mod 10)]
                      ++ be_bytes 2 payload_and_eiv_len in
    ctrl_ret <-- on_evp (EVP_CTRL_AEAD_TLS1_AAD ctrl_buf) ;;
    ensure (negb (ctrl_ret <=? 0)) S2N_ERR_INITIAL_HMAC ;;;
    ret ctrl_ret.

Definition s2n_composite_cipher_aes_sha_encrypt (iv : list Z) (in_ out : s2n_blob) : Cmd s2n_session_key unit :=
  ensure (size out =? size in_) S2N_ERR_SAFETY ;;;
  ok <-- on_evp (EVP_EncryptInit_iv iv) ;;
  ensure ok S2N_ERR_KEY_INIT ;;;
  len <-- evp_update EVP_EncryptUpdate in_ out S2N_ERR_ENCRYPT ;;
  ensure (len =? size in_) S2N_ERR_ENCRYPT.

Definition s2n_composite_cipher_aes_sha_decrypt (iv : list Z) (in_ out : s2n_blob) : Cmd s2n_session_key unit :=
  ensure (size out =? size in_) S2N_ERR_SAFETY ;;;
  ok <-- on_evp (EVP_DecryptInit_iv iv) ;;
  ensure ok S2N_ERR_KEY_INIT ;;;
  evp_update EVP_DecryptUpdate in_ out S2N_ERR_DECRYPT ;;;
  ret tt.

Definition s2n_composite_cipher_aes_sha_set_mac_write_key (mac_key : list Z) : Cmd s2n_session_key unit :=
  ensure (zlen mac_key =? SHA_DIGEST_LENGTH) S2N_ERR_SAFETY ;;;
  on_evp (fun c => (tt, EVP_CTRL_AEAD_SET_MAC_KEY mac_key c)).
Definition s2n_composite_cipher_aes_sha256_set_mac_write_key (mac_key : list Z) : Cmd s2n_session_key unit :=
  ensure (zlen mac_key =? SHA256_DIGEST_LENGTH) S2N_ERR_SAFETY ;;;
  on_evp (fun c => (tt, EVP_CTRL_AEAD_SET_MAC_KEY mac_key c)).

(** The result of the initialisation is ignored. *)
Definition init_comp_key (init : option evp_cipher -> list Z -> cipher_ctx -> bool * cipher_ctx) (c : option evp_cipher) (n : Z) (key : list Z)
    : Cmd s2n_session_key unit :=
  ensure (zlen key =? n) S2N_ERR_SAFETY ;;;
  on_evp (fun c => (tt, EVP_CIPHER_CTX_set_padding 0 c)) ;;;
  on_evp (init c key) ;;;
  ret tt.

Definition s2n_composite_cipher_aes128_sha_set_encryption_key :=
  init_comp_key EVP_EncryptInit_key (evp_if s2n_evp_aes_128_cbc_hmac_sha1 EVP_aes_128_cbc_hmac_sha1) 16.
Definition s2n_composite_cipher_aes128_sha_set_decryption_key :=
  init_comp_key EVP_DecryptInit_key (evp_if s2n_evp_aes_128_cbc_hmac_sha1 EVP_aes_128_cbc_hmac_sha1) 16.
Definition s2n_composite_cipher_aes256_sha_set_encryption_key :=
  init_comp_key EVP_EncryptInit_key (evp_if s2n_evp_aes_256_cbc_hmac_sha1 EVP_aes_256_cbc_hmac_sha1) 32.
Definition s2n_composite_cipher_aes256_sha_set_decryption_key :=
  init_comp_key EVP_DecryptInit_key (evp_if s2n_evp_aes_256_cbc_hmac_sha1 EVP_aes_256_cbc_hmac_sha1) 32.
Definition s2n_composite_cipher_aes128_sha256_set_encryption_key :=
  init_comp_key EVP_EncryptInit_key (evp_if s2n_evp_aes_128_cbc_hmac_sha256 EVP_aes_128_cbc_hmac_sha256) 16.
Definition s2n_composite_cipher_aes128_sha256_set_decryption_key :=
  init_comp_key EVP_DecryptInit_key (evp_if s2n_evp_aes_128_cbc_hmac_sha256 EVP_aes_128_cbc_hmac_sha256) 16.
Definition s2n_composite_cipher_aes256_sha256_set_encryption_key :=
  init_comp_key EVP_EncryptInit_key (evp_if s2n_evp_aes_256_cbc_hmac_sha256 EVP_aes_256_cbc_hmac_sha256) 32.
Definition s2n_composite_cipher_aes256_sha256_set_decryption_key :=
  init_comp_key EVP_DecryptInit_key (evp_if s2n_evp_aes_256_cbc_hmac_sha256 EVP_aes_256_cbc_hmac_sha256) 32.
Definition s2n_composite_cipher_aes_sha_init : Cmd s2n_session_key unit := RESULT_EVP_CTX_INIT.
Definition s2n_composite_cipher_aes_sha_destroy_key : Cmd s2n_session_key unit := on_evp (fun c => (tt, EVP_CIPHER_CTX_cleanup c)).

(** ** crypto/s2n_aead_cipher_aes_gcm.c *)

Definition s2n_aead_cipher_aes_gcm_encrypt (iv aad : list Z) (in_ out : s2n_blob) : Cmd s2n_session_key unit :=
  ensure (S2N_TLS_GCM_TAG_LEN <=? size in_) S2N_ERR_SAFETY ;;;
  ensure (size in_ <=? size out) S2N_ERR_SAFETY ;;;
  ensure (zlen iv =? S2N_TLS_GCM_IV_LEN) S2N_ERR_SAFETY ;;;
  let in_len := size in_ - S2N_TLS_GCM_TAG_LEN in
  bs <-- load_buf (HeapBuf (data in_)) in_len ;;
  r <-- on_aead (EVP_AEAD_CTX_seal iv bs aad) ;;
  sealed <-- guard_some r S2N_ERR_ENCRYPT ;;
  (match data out with Some p => store p sealed | None => undefined end) ;;;
  ensure (negb (negb (in_len + S2N_TLS_GCM_TAG_LEN =? zlen sealed))) S2N_ERR_ENCRYPT.

Definition s2n_aead_cipher_aes_gcm_decrypt (iv aad : list Z) (in_ out : s2n_blob) : Cmd s2n_session_key unit :=
  ensure (S2N_TLS_GCM_TAG_LEN <=? size in_) S2N_ERR_SAFETY ;;;
  ensure (size in_ - S2N_TLS_GCM_TAG_LEN <=? size out) S2N_ERR_SAFETY ;;;
  ensure (zlen iv =? S2N_TLS_GCM_IV_LEN) S2N_ERR_SAFETY ;;;
  bs <-- load_buf (HeapBuf (data in_)) (size in_) ;;
  r <-- on_aead (EVP_AEAD_CTX_open iv bs aad) ;;
  opened <-- guard_some r S2N_ERR_DECRYPT ;;
  (match data out with Some p => store p opened | None => undefined end) ;;;
  ensure (negb (negb (size in_ - S2N_TLS_GCM_TAG_LEN =? zlen opened))) S2N_ERR_ENCRYPT.

Definition init_aead_key (a : evp_aead) (n tag_len : Z) (key : list Z) : Cmd s2n_session_key unit :=
  ensure (zlen key =? n) S2N_ERR_SAFETY ;;;
  ok <-- on_aead (EVP_AEAD_CTX_init a key tag_len) ;;
  ensure ok S2N_ERR_KEY_INIT.

Definition s2n_aead_cipher_aes128_gcm_set_encryption_key :=
  init_aead_key EVP_aead_aes_128_gcm_tls12 S2N_TLS_AES_128_GCM_KEY_LEN S2N_TLS_GCM_TAG_LEN.
Definition s2n_aead_cipher_aes256_gcm_set_encryption_key :=
  init_aead_key EVP_aead_aes_256_gcm_tls12 S2N_TLS_AES_256_GCM_KEY_LEN S2N_TLS_GCM_TAG_LEN.
Definition s2n_aead_cipher_aes128_gcm_set_decryption_key :=
  init_aead_key EVP_aead_aes_128_gcm_tls12 S2N_TLS_AES_128_GCM_KEY_LEN S2N_TLS_GCM_TAG_LEN.
Definition s2n_aead_cipher_aes256_gcm_set_decryption_key :=
  init_aead_key EVP_aead_aes_256_gcm_tls12 S2N_TLS_AES_256_GCM_KEY_LEN S2N_TLS_GCM_TAG_LEN.
Definition s2n_aead_cipher_aes128_gcm_set_encryption_key_tls13 :=
  init_aead_key EVP_aead_aes_128_gcm_tls13 S2N_TLS_AES_128_GCM_KEY_LEN S2N_TLS_GCM_TAG_LEN.
Definition s2n_aead_cipher_aes256_gcm_set_encryption_key_tls13 :=
  init_aead_key EVP_aead_aes_256_gcm_tls13 S2N_TLS_AES_256_GCM_KEY_LEN S2N_TLS_GCM_TAG_LEN.
Definition s2n_aead_cipher_aes128_gcm_set_decryption_key_tls13 :=
  init_aead_key EVP_aead_aes_128_gcm_tls13 S2N_TLS_AES_128_GCM_KEY_LEN S2N_TLS_GCM_TAG_LEN.
Definition s2n_aead_cipher_aes256_gcm_set_decryption_key_tls13 :=
  init_aead_key EVP_aead_aes_256_gcm_tls13 S2N_TLS_AES_256_GCM_KEY_LEN S2N_TLS_GCM_TAG_LEN.
Definition s2n_aead_cipher_aes_gcm_init : Cmd s2n_session_key unit := on_aead (fun _ => (tt, EVP_AEAD_CTX_zero)).
Definition s2n_aead_cipher_aes_gcm_destroy_key : Cmd s2n_session_key unit := on_aead (fun c => (tt, EVP_AEAD_CTX_cleanup c)).

(** ** crypto/s2n_aead_cipher_chacha20_poly1305.c *)

Definition s2n_aead_chacha20_poly1305_encrypt (iv aad : list Z) (in_ out : s2n_blob) : Cmd s2n_session_key unit :=
  ensure (S2N_TLS_CHACHA20_POLY1305_TAG_LEN <=? size in_) S2N_ERR_SAFETY ;;;
  ensure (size in_ <=? size out) S2N_ERR_SAFETY ;;;
  ensure (zlen iv =? S2N_TLS_CHACHA20_POLY1305_IV_LEN) S2N_ERR_SAFETY ;;;
  let in_len := size in_ - S2N_TLS_CHACHA20_POLY1305_TAG_LEN in
  bs <-- load_buf (HeapBuf (data in_)) in_len ;;
  r <-- on_aead (EVP_AEAD_CTX_seal iv bs aad) ;;
  sealed <-- guard_some r S2N_ERR_ENCRYPT ;;
  (match data out with Some p => store p sealed | None => undefined end) ;;;
  ensure (negb (negb (in_len + S2N_TLS_CHACHA20_POLY1305_TAG_LEN =? zlen sealed))) S2N_ERR_ENCRYPT.

Definition s2n_aead_chacha20_poly1305_decrypt (iv aad : list Z) (in_ out : s2n_blob) : Cmd s2n_session_key unit :=
  ensure (S2N_TLS_CHACHA20_POLY1305_TAG_LEN <=? size in_) S2N_ERR_SAFETY ;;;
  ensure (size in_ - S2N_TLS_CHACHA20_POLY1305_TAG_LEN <=? size out) S2N_ERR_SAFETY ;;;
  ensure (zlen iv =? S2N_TLS_CHACHA20_POLY1305_IV_LEN) S2N_ERR_SAFETY ;;;
  bs <-- load_buf (HeapBuf (data in_)) (size in_) ;;
  r <-- on_aead (EVP_AEAD_CTX_open iv bs aad) ;;
  opened <-- guard_some r S2N_ERR_DECRYPT ;;
  (match data out with Some p => store p opened | None => undefined end) ;;;
  ensure (negb (negb (size in_ - S2N_TLS_CHACHA20_POLY1305_TAG_LEN =? zlen opened))) S2N_ERR_ENCRYPT.

Definition s2n_aead_chacha20_poly1305_set_encryption_key :=
  init_aead_key EVP_aead_chacha20_poly1305 S2N_TLS_CHACHA20_POLY1305_KEY_LEN S2N_TLS_CHACHA20_POLY1305_TAG_LEN.
Definition s2n_aead_chacha20_poly1305_set_decryption_key :=
  init_aead_key EVP_aead_chacha20_poly1305 S2N_TLS_CHACHA20_POLY1305_KEY_LEN S2N_TLS_CHACHA20_POLY1305_TAG_LEN.
Definition s2n_aead_chacha20_poly1305_init : Cmd s2n_session_key unit := on_aead (fun _ => (tt, EVP_AEAD_CTX_zero)).
Definition s2n_aead_chacha20_poly1305_destroy_key : Cmd s2n_session_key unit := on_aead (fun c => (tt, EVP_AEAD_CTX_cleanup c)).

(** ** The function pointers of the cipher objects *)

Definition is_cipher (c d : s2n_cipher) : bool := same_object c d.

Definition stream_encrypt (c : s2n_cipher) (in_ out : s2n_blob) : Cmd s2n_session_key unit :=
  if is_cipher c s2n_rc4 then s2n_stream_cipher_rc4_encrypt in_ out else s2n_stream_cipher_null_endecrypt in_ out.
Definition stream_decrypt (c : s2n_cipher) (in_ out : s2n_blob) : Cmd s2n_session_key unit :=
  if is_cipher c s2n_rc4 then s2n_stream_cipher_rc4_decrypt in_ out else s2n_stream_cipher_null_endecrypt in_ out.
Definition cbc_encrypt (c : s2n_cipher) (iv : list Z) (in_ out : s2n_blob) : Cmd s2n_session_key unit :=
  if is_cipher c s2n_3des then s2n_cbc_cipher_3des_encrypt iv in_ out else s2n_cbc_cipher_aes_encrypt iv in_ out.
Definition cbc_decrypt (c : s2n_cipher) (iv : list Z) (in_ out : s2n_blob) : Cmd s2n_session_key unit :=
  if is_cipher c s2n_3des then s2n_cbc_cipher_3des_decrypt iv in_ out else s2n_cbc_cipher_aes_decrypt iv in_ out.
Definition aead_encrypt (c : s2n_cipher) (iv aad : list Z) (in_ out : s2n_blob) : Cmd s2n_session_key unit :=
  if is_cipher c s2n_chacha20_poly1305 then s2n_aead_chacha20_poly1305_encrypt iv aad in_ out
  else s2n_aead_cipher_aes_gcm_encrypt iv aad in_ out.
Definition aead_decrypt (c : s2n_cipher) (iv aad : list Z) (in_ out : s2n_blob) : Cmd s2n_session_key unit :=
  if is_cipher c s2n_chacha20_poly1305 then s2n_aead_chacha20_poly1305_decrypt iv aad in_ out
  else s2n_aead_cipher_aes_gcm_decrypt iv aad in_ out.
Definition comp_encrypt (c : s2n_cipher) := s2n_composite_cipher_aes_sha_encrypt.
Definition comp_decrypt (c : s2n_cipher) := s2n_composite_cipher_aes_sha_decrypt.
Definition comp_initial_hmac (c : s2n_cipher) := s2n_composite_cipher_aes_sha_initial_hmac.
End Definitions.
End Ciphers.
Export Ciphers.
