(* ===== verification/CipherSuites.v ===== *)
(** * Cipher suites: the data of tls/s2n_cipher_suites.c and tls/s2n_kex.c

    The record algorithms, the key exchanges and the cipher suites, one
    definition for each C object, and the lists of suites that the file keeps.
    Of a suite, [available], [record_alg] and [sslv3_cipher_suite] change while
    the program runs; they are the [suite_state] of [CipherSelection].  The other
    fields are constant and are here. *)
From stdpp Require Import strings.
From S2P Require Import Prelude Errors CMem Connection Libcrypto.
Open Scope string_scope.
Open Scope Z_scope.

Module CipherSuites.

(** ** tls/s2n_tls_parameters.h: the values on the wire *)

Definition S2N_TLS_CIPHER_SUITE_LEN : Z := 2.
Definition S2N_SSLv2_CIPHER_SUITE_LEN : Z := 3.
Definition TLS_NULL_WITH_NULL_NULL : list Z := [0x00; 0x00].
Definition TLS_RSA_WITH_AES_256_CBC_SHA256 : list Z := [0x00; 0x3D].
Definition TLS_RSA_WITH_AES_256_CBC_SHA : list Z := [0x00; 0x35].
Definition TLS_RSA_WITH_AES_128_CBC_SHA256 : list Z := [0x00; 0x3C].
Definition TLS_RSA_WITH_AES_128_CBC_SHA : list Z := [0x00; 0x2F].
Definition TLS_RSA_WITH_3DES_EDE_CBC_SHA : list Z := [0x00; 0x0A].
Definition TLS_RSA_WITH_RC4_128_MD5 : list Z := [0x00; 0x04].
Definition TLS_RSA_WITH_RC4_128_SHA : list Z := [0x00; 0x05].
Definition TLS_DHE_RSA_WITH_AES_128_CBC_SHA : list Z := [0x00; 0x33].
Definition TLS_DHE_RSA_WITH_AES_128_CBC_SHA256 : list Z := [0x00; 0x67].
Definition TLS_DHE_RSA_WITH_AES_256_CBC_SHA : list Z := [0x00; 0x39].
Definition TLS_DHE_RSA_WITH_AES_256_CBC_SHA256 : list Z := [0x00; 0x6B].
Definition TLS_DHE_RSA_WITH_3DES_EDE_CBC_SHA : list Z := [0x00; 0x16].
Definition TLS_ECDHE_ECDSA_WITH_AES_128_CBC_SHA : list Z := [0xC0; 0x09].
Definition TLS_ECDHE_ECDSA_WITH_AES_128_CBC_SHA256 : list Z := [0xC0; 0x23].
Definition TLS_ECDHE_ECDSA_WITH_AES_256_CBC_SHA : list Z := [0xC0; 0x0A].
Definition TLS_ECDHE_ECDSA_WITH_AES_256_CBC_SHA384 : list Z := [0xC0; 0x24].
Definition TLS_ECDHE_RSA_WITH_RC4_128_SHA : list Z := [0xC0; 0x11].
Definition TLS_ECDHE_RSA_WITH_AES_128_CBC_SHA : list Z := [0xC0; 0x13].
Definition TLS_ECDHE_RSA_WITH_AES_128_CBC_SHA256 : list Z := [0xC0; 0x27].
Definition TLS_ECDHE_RSA_WITH_AES_256_CBC_SHA : list Z := [0xC0; 0x14].
Definition TLS_ECDHE_RSA_WITH_AES_256_CBC_SHA384 : list Z := [0xC0; 0x28].
Definition TLS_ECDHE_RSA_WITH_3DES_EDE_CBC_SHA : list Z := [0xC0; 0x12].
Definition TLS_RSA_WITH_AES_128_GCM_SHA256 : list Z := [0x00; 0x9C].
Definition TLS_RSA_WITH_AES_256_GCM_SHA384 : list Z := [0x00; 0x9D].
Definition TLS_DHE_RSA_WITH_AES_128_GCM_SHA256 : list Z := [0x00; 0x9E].
Definition TLS_DHE_RSA_WITH_AES_256_GCM_SHA384 : list Z := [0x00; 0x9F].
Definition TLS_ECDHE_ECDSA_WITH_AES_128_GCM_SHA256 : list Z := [0xC0; 0x2B].
Definition TLS_ECDHE_ECDSA_WITH_AES_256_GCM_SHA384 : list Z := [0xC0; 0x2C].
Definition TLS_ECDHE_RSA_WITH_AES_128_GCM_SHA256 : list Z := [0xC0; 0x2F].
Definition TLS_ECDHE_RSA_WITH_AES_256_GCM_SHA384 : list Z := [0xC0; 0x30].
Definition TLS_ECDHE_RSA_WITH_CHACHA20_POLY1305_SHA256 : list Z := [0xCC; 0xA8].
Definition TLS_ECDHE_ECDSA_WITH_CHACHA20_POLY1305_SHA256 : list Z := [0xCC; 0xA9].
Definition TLS_DHE_RSA_WITH_CHACHA20_POLY1305_SHA256 : list Z := [0xCC; 0xAA].
Definition TLS_ECDHE_KYBER_RSA_WITH_AES_256_GCM_SHA384 : list Z := [0xFF; 0x0C].
Definition TLS_FALLBACK_SCSV : list Z := [0x56; 0x00].
Definition TLS_EMPTY_RENEGOTIATION_INFO_SCSV : list Z := [0x00; 0xff].
Definition TLS_AES_128_GCM_SHA256 : list Z := [0x13; 0x01].
Definition TLS_AES_256_GCM_SHA384 : list Z := [0x13; 0x02].
Definition TLS_CHACHA20_POLY1305_SHA256 : list Z := [0x13; 0x03].
Definition TLS_AES_128_CCM_SHA256 : list Z := [0x13; 0x04].
Definition TLS_AES_128_CCM_8_SHA256 : list Z := [0x13; 0x05].

(** ** Record algorithms *)

Definition S2N_TLS12_AES_GCM_AEAD_NONCE : Z := 1.
Definition S2N_TLS12_CHACHA_POLY_AEAD_NONCE : Z := 2.
Definition S2N_TLS13_RECORD_AEAD_NONCE : Z := 4.
Definition S2N_TLS13_AES_GCM_MAXIMUM_RECORD_NUMBER : Z := 23726565.

Record s2n_record_algorithm := RecordAlgorithm {
  record_alg_symbol : string;
  cipher : s2n_cipher;  (* *cipher *)
  hmac_alg : s2n_hmac_algorithm;
  flags : Z;  (* uint32_t *)
  encryption_limit : Z;  (* uint64_t *)
}.
#[export] Instance record_alg_object : StaticObject s2n_record_algorithm := record_alg_symbol.

(** ** Key exchanges (tls/s2n_kex.h) *)

(** The objects of type [struct s2n_kex].  [s2n_kex_kem] is the one that C calls
    s2n_kem, like the struct of a KEM. *)
Inductive s2n_kex :=
| s2n_kex_kem | s2n_rsa | s2n_dhe | s2n_ecdhe | s2n_hybrid_ecdhe_kem | s2n_tls13_kex.

#[export] Instance kex_eq_dec : EqDecision s2n_kex.
Proof. solve_decision. Defined.

(** The functions that their members point to. *)
Inductive kex_method :=
| s2n_check_tls13 | s2n_check_rsa_key | s2n_check_dhe | s2n_check_ecdhe | s2n_check_kem
| s2n_check_hybrid_ecdhe_kem | s2n_configure_kem | s2n_kex_configure_noop
| s2n_kex_server_key_recv_read_data_unimplemented | s2n_kex_server_key_recv_parse_data_unimplemented
| s2n_kex_io_unimplemented | s2n_kex_prf_unimplemented
| s2n_kem_server_key_recv_read_data | s2n_kem_server_key_recv_parse_data | s2n_kem_server_key_send
| s2n_kem_client_key_recv | s2n_kem_client_key_send
| s2n_rsa_client_key_recv | s2n_rsa_client_key_send
| s2n_dhe_server_key_recv_read_data | s2n_dhe_server_key_recv_parse_data | s2n_dhe_server_key_send
| s2n_dhe_client_key_recv | s2n_dhe_client_key_send
| s2n_ecdhe_server_key_recv_read_data | s2n_ecdhe_server_key_recv_parse_data | s2n_ecdhe_server_key_send
| s2n_ecdhe_client_key_recv | s2n_ecdhe_client_key_send
| s2n_hybrid_server_key_recv_read_data | s2n_hybrid_server_key_recv_parse_data | s2n_hybrid_server_key_send
| s2n_hybrid_client_key_recv | s2n_hybrid_client_key_send
| s2n_prf_calculate_master_secret | s2n_prf_hybrid_master_secret.

#[export] Instance kex_method_eq_dec : EqDecision kex_method.
Proof. solve_decision. Defined.

(** The members of [struct s2n_kex]; entries of [hybrid] that are NULL are left out. *)
Record kex_members := KexMembers {
  is_ephemeral : bool;
  hybrid : list s2n_kex;
  connection_supported : kex_method;
  configure_connection : kex_method;
  server_key_recv_read_data : kex_method;
  server_key_recv_parse_data : kex_method;
  server_key_send : kex_method;
  client_key_recv : kex_method;
  client_key_send : kex_method;
  prf : kex_method;
}.

Definition s2n_kem_members : kex_members := {|
  is_ephemeral := true;
  hybrid := [];
  connection_supported := s2n_check_kem;
  configure_connection := s2n_configure_kem;
  server_key_recv_read_data := s2n_kem_server_key_recv_read_data;
  server_key_recv_parse_data := s2n_kem_server_key_recv_parse_data;
  server_key_send := s2n_kem_server_key_send;
  client_key_recv := s2n_kem_client_key_recv;
  client_key_send := s2n_kem_client_key_send;
  prf := s2n_kex_prf_unimplemented;
|}.

Definition s2n_rsa_members : kex_members := {|
  is_ephemeral := false;
  hybrid := [];
  connection_supported := s2n_check_rsa_key;
  configure_connection := s2n_kex_configure_noop;
  server_key_recv_read_data := s2n_kex_server_key_recv_read_data_unimplemented;
  server_key_recv_parse_data := s2n_kex_server_key_recv_parse_data_unimplemented;
  server_key_send := s2n_kex_io_unimplemented;
  client_key_recv := s2n_rsa_client_key_recv;
  client_key_send := s2n_rsa_client_key_send;
  prf := s2n_prf_calculate_master_secret;
|}.

Definition s2n_dhe_members : kex_members := {|
  is_ephemeral := true;
  hybrid := [];
  connection_supported := s2n_check_dhe;
  configure_connection := s2n_kex_configure_noop;
  server_key_recv_read_data := s2n_dhe_server_key_recv_read_data;
  server_key_recv_parse_data := s2n_dhe_server_key_recv_parse_data;
  server_key_send := s2n_dhe_server_key_send;
  client_key_recv := s2n_dhe_client_key_recv;
  client_key_send := s2n_dhe_client_key_send;
  prf := s2n_prf_calculate_master_secret;
|}.

Definition s2n_ecdhe_members : kex_members := {|
  is_ephemeral := true;
  hybrid := [];
  connection_supported := s2n_check_ecdhe;
  configure_connection := s2n_kex_configure_noop;
  server_key_recv_read_data := s2n_ecdhe_server_key_recv_read_data;
  server_key_recv_parse_data := s2n_ecdhe_server_key_recv_parse_data;
  server_key_send := s2n_ecdhe_server_key_send;
  client_key_recv := s2n_ecdhe_client_key_recv;
  client_key_send := s2n_ecdhe_client_key_send;
  prf := s2n_prf_calculate_master_secret;
|}.

Definition s2n_hybrid_ecdhe_kem_members : kex_members := {|
  is_ephemeral := true;
  hybrid := [s2n_ecdhe; s2n_kex_kem];
  connection_supported := s2n_check_hybrid_ecdhe_kem;
  configure_connection := s2n_configure_kem;
  server_key_recv_read_data := s2n_hybrid_server_key_recv_read_data;
  server_key_recv_parse_data := s2n_hybrid_server_key_recv_parse_data;
  server_key_send := s2n_hybrid_server_key_send;
  client_key_recv := s2n_hybrid_client_key_recv;
  client_key_send := s2n_hybrid_client_key_send;
  prf := s2n_prf_hybrid_master_secret;
|}.

Definition s2n_tls13_kex_members : kex_members := {|
  is_ephemeral := true;
  hybrid := [];
  connection_supported := s2n_check_tls13;
  configure_connection := s2n_kex_configure_noop;
  server_key_recv_read_data := s2n_kex_server_key_recv_read_data_unimplemented;
  server_key_recv_parse_data := s2n_kex_server_key_recv_parse_data_unimplemented;
  server_key_send := s2n_kex_io_unimplemented;
  client_key_recv := s2n_kex_io_unimplemented;
  client_key_send := s2n_kex_io_unimplemented;
  prf := s2n_kex_prf_unimplemented;
|}.

(** The dereference of a pointer to a key exchange. *)
Definition kex_deref (k : s2n_kex) : kex_members :=
  match k with
  | s2n_kex_kem => s2n_kem_members
  | s2n_rsa => s2n_rsa_members
  | s2n_dhe => s2n_dhe_members
  | s2n_ecdhe => s2n_ecdhe_members
  | s2n_hybrid_ecdhe_kem => s2n_hybrid_ecdhe_kem_members
  | s2n_tls13_kex => s2n_tls13_kex_members
  end.

(** The key exchange pointers of the code are never NULL. *)
Definition s2n_kex_includes (kex query : s2n_kex) : bool :=
  bool_decide (kex = query) || bool_decide (query ∈ hybrid (kex_deref kex)).

(** ** Cipher suites *)

Record s2n_cipher_suite := CipherSuite {
  suite_symbol : string;
  suite_name : string;
  iana_name : string;
  iana_value : list Z;  (* uint8_t[2] *)
  key_exchange_alg : s2n_kex;
  auth_method : s2n_authentication_method;
  all_record_algs : list s2n_record_algorithm;  (* with num_record_algs *)
  sslv3_record_alg : option s2n_record_algorithm;
  prf_alg : s2n_hmac_algorithm;
  minimum_required_tls_version : Z;  (* uint8_t *)
}.
#[export] Instance suite_object : StaticObject s2n_cipher_suite := suite_symbol.

Section Suites.
Context `{Libcrypto}.

Definition s2n_record_alg_null : s2n_record_algorithm := {|
  record_alg_symbol := "s2n_record_alg_null";
  cipher := s2n_null_cipher;
  hmac_alg := S2N_HMAC_NONE;
  flags := 0;
  encryption_limit := UINT64_MAX;
|}.

Definition s2n_record_alg_rc4_md5 : s2n_record_algorithm := {|
  record_alg_symbol := "s2n_record_alg_rc4_md5";
  cipher := s2n_rc4;
  hmac_alg := S2N_HMAC_MD5;
  flags := 0;
  encryption_limit := UINT64_MAX;
|}.

Definition s2n_record_alg_rc4_sslv3_md5 : s2n_record_algorithm := {|
  record_alg_symbol := "s2n_record_alg_rc4_sslv3_md5";
  cipher := s2n_rc4;
  hmac_alg := S2N_HMAC_SSLv3_MD5;
  flags := 0;
  encryption_limit := UINT64_MAX;
|}.

Definition s2n_record_alg_rc4_sha : s2n_record_algorithm := {|
  record_alg_symbol := "s2n_record_alg_rc4_sha";
  cipher := s2n_rc4;
  hmac_alg := S2N_HMAC_SHA1;
  flags := 0;
  encryption_limit := UINT64_MAX;
|}.

Definition s2n_record_alg_rc4_sslv3_sha : s2n_record_algorithm := {|
  record_alg_symbol := "s2n_record_alg_rc4_sslv3_sha";
  cipher := s2n_rc4;
  hmac_alg := S2N_HMAC_SSLv3_SHA1;
  flags := 0;
  encryption_limit := UINT64_MAX;
|}.

Definition s2n_record_alg_3des_sha : s2n_record_algorithm := {|
  record_alg_symbol := "s2n_record_alg_3des_sha";
  cipher := s2n_3des;
  hmac_alg := S2N_HMAC_SHA1;
  flags := 0;
  encryption_limit := UINT64_MAX;
|}.

Definition s2n_record_alg_3des_sslv3_sha : s2n_record_algorithm := {|
  record_alg_symbol := "s2n_record_alg_3des_sslv3_sha";
  cipher := s2n_3des;
  hmac_alg := S2N_HMAC_SSLv3_SHA1;
  flags := 0;
  encryption_limit := UINT64_MAX;
|}.

Definition s2n_record_alg_aes128_sha : s2n_record_algorithm := {|
  record_alg_symbol := "s2n_record_alg_aes128_sha";
  cipher := s2n_aes128;
  hmac_alg := S2N_HMAC_SHA1;
  flags := 0;
  encryption_limit := UINT64_MAX;
|}.

Definition s2n_record_alg_aes128_sslv3_sha : s2n_record_algorithm := {|
  record_alg_symbol := "s2n_record_alg_aes128_sslv3_sha";
  cipher := s2n_aes128;
  hmac_alg := S2N_HMAC_SSLv3_SHA1;
  flags := 0;
  encryption_limit := UINT64_MAX;
|}.

Definition s2n_record_alg_aes128_sha_composite : s2n_record_algorithm := {|
  record_alg_symbol := "s2n_record_alg_aes128_sha_composite";
  cipher := s2n_aes128_sha;
  hmac_alg := S2N_HMAC_NONE;
  flags := 0;
  encryption_limit := UINT64_MAX;
|}.

Definition s2n_record_alg_aes128_sha256 : s2n_record_algorithm := {|
  record_alg_symbol := "s2n_record_alg_aes128_sha256";
  cipher := s2n_aes128;
  hmac_alg := S2N_HMAC_SHA256;
  flags := 0;
  encryption_limit := UINT64_MAX;
|}.

Definition s2n_record_alg_aes128_sha256_composite : s2n_record_algorithm := {|
  record_alg_symbol := "s2n_record_alg_aes128_sha256_composite";
  cipher := s2n_aes128_sha256;
  hmac_alg := S2N_HMAC_NONE;
  flags := 0;
  encryption_limit := UINT64_MAX;
|}.

Definition s2n_record_alg_aes256_sha : s2n_record_algorithm := {|
  record_alg_symbol := "s2n_record_alg_aes256_sha";
  cipher := s2n_aes256;
  hmac_alg := S2N_HMAC_SHA1;
  flags := 0;
  encryption_limit := UINT64_MAX;
|}.

Definition s2n_record_alg_aes256_sslv3_sha : s2n_record_algorithm := {|
  record_alg_symbol := "s2n_record_alg_aes256_sslv3_sha";
  cipher := s2n_aes256;
  hmac_alg := S2N_HMAC_SSLv3_SHA1;
  flags := 0;
  encryption_limit := UINT64_MAX;
|}.

Definition s2n_record_alg_aes256_sha_composite : s2n_record_algorithm := {|
  record_alg_symbol := "s2n_record_alg_aes256_sha_composite";
  cipher := s2n_aes256_sha;
  hmac_alg := S2N_HMAC_NONE;
  flags := 0;
  encryption_limit := UINT64_MAX;
|}.

Definition s2n_record_alg_aes256_sha256 : s2n_record_algorithm := {|
  record_alg_symbol := "s2n_record_alg_aes256_sha256";
  cipher := s2n_aes256;
  hmac_alg := S2N_HMAC_SHA256;
  flags := 0;
  encryption_limit := UINT64_MAX;
|}.

Definition s2n_record_alg_aes256_sha256_composite : s2n_record_algorithm := {|
  record_alg_symbol := "s2n_record_alg_aes256_sha256_composite";
  cipher := s2n_aes256_sha256;
  hmac_alg := S2N_HMAC_NONE;
  flags := 0;
  encryption_limit := UINT64_MAX;
|}.

Definition s2n_record_alg_aes256_sha384 : s2n_record_algorithm := {|
  record_alg_symbol := "s2n_record_alg_aes256_sha384";
  cipher := s2n_aes256;
  hmac_alg := S2N_HMAC_SHA384;
  flags := 0;
  encryption_limit := UINT64_MAX;
|}.

Definition s2n_record_alg_aes128_gcm : s2n_record_algorithm := {|
  record_alg_symbol := "s2n_record_alg_aes128_gcm";
  cipher := s2n_aes128_gcm;
  hmac_alg := S2N_HMAC_NONE;
  flags := S2N_TLS12_AES_GCM_AEAD_NONCE;
  encryption_limit := UINT64_MAX;
|}.

Definition s2n_record_alg_aes256_gcm : s2n_record_algorithm := {|
  record_alg_symbol := "s2n_record_alg_aes256_gcm";
  cipher := s2n_aes256_gcm;
  hmac_alg := S2N_HMAC_NONE;
  flags := S2N_TLS12_AES_GCM_AEAD_NONCE;
  encryption_limit := UINT64_MAX;
|}.

Definition s2n_record_alg_chacha20_poly1305 : s2n_record_algorithm := {|
  record_alg_symbol := "s2n_record_alg_chacha20_poly1305";
  cipher := s2n_chacha20_poly1305;
  hmac_alg := S2N_HMAC_NONE;
  flags := S2N_TLS12_CHACHA_POLY_AEAD_NONCE;
  encryption_limit := UINT64_MAX;
|}.

Definition s2n_tls13_record_alg_aes128_gcm : s2n_record_algorithm := {|
  record_alg_symbol := "s2n_tls13_record_alg_aes128_gcm";
  cipher := s2n_tls13_aes128_gcm;
  hmac_alg := S2N_HMAC_NONE;
  flags := S2N_TLS13_RECORD_AEAD_NONCE;
  encryption_limit := S2N_TLS13_AES_GCM_MAXIMUM_RECORD_NUMBER;
|}.

Definition s2n_tls13_record_alg_aes256_gcm : s2n_record_algorithm := {|
  record_alg_symbol := "s2n_tls13_record_alg_aes256_gcm";
  cipher := s2n_tls13_aes256_gcm;
  hmac_alg := S2N_HMAC_NONE;
  flags := S2N_TLS13_RECORD_AEAD_NONCE;
  encryption_limit := S2N_TLS13_AES_GCM_MAXIMUM_RECORD_NUMBER;
|}.

Definition s2n_tls13_record_alg_chacha20_poly1305 : s2n_record_algorithm := {|
  record_alg_symbol := "s2n_tls13_record_alg_chacha20_poly1305";
  cipher := s2n_chacha20_poly1305;
  hmac_alg := S2N_HMAC_NONE;
  flags := S2N_TLS13_RECORD_AEAD_NONCE;
  encryption_limit := UINT64_MAX;
|}.

Definition s2n_null_cipher_suite : s2n_cipher_suite := {|
  suite_symbol := "s2n_null_cipher_suite";
  suite_name := "TLS_NULL_WITH_NULL_NULL";
  iana_name := "TLS_NULL_WITH_NULL_NULL";
  iana_value := TLS_NULL_WITH_NULL_NULL;
  key_exchange_alg := s2n_rsa;
  auth_method := S2N_AUTHENTICATION_RSA;
  all_record_algs := [];
  sslv3_record_alg := None;
  prf_alg := S2N_HMAC_NONE;
  minimum_required_tls_version := 0;
|}.

Definition s2n_rsa_with_rc4_128_md5 : s2n_cipher_suite := {|
  suite_symbol := "s2n_rsa_with_rc4_128_md5";
  suite_name := "RC4-MD5";
  iana_name := "TLS_RSA_WITH_RC4_128_MD5";
  iana_value := TLS_RSA_WITH_RC4_128_MD5;
  key_exchange_alg := s2n_rsa;
  auth_method := S2N_AUTHENTICATION_RSA;
  all_record_algs := [s2n_record_alg_rc4_md5];
  sslv3_record_alg := Some s2n_record_alg_rc4_sslv3_md5;
  prf_alg := S2N_HMAC_SHA256;
  minimum_required_tls_version := S2N_SSLv3;
|}.

Definition s2n_rsa_with_rc4_128_sha : s2n_cipher_suite := {|
  suite_symbol := "s2n_rsa_with_rc4_128_sha";
  suite_name := "RC4-SHA";
  iana_name := "TLS_RSA_WITH_RC4_128_SHA";
  iana_value := TLS_RSA_WITH_RC4_128_SHA;
  key_exchange_alg := s2n_rsa;
  auth_method := S2N_AUTHENTICATION_RSA;
  all_record_algs := [s2n_record_alg_rc4_sha];
  sslv3_record_alg := Some s2n_record_alg_rc4_sslv3_sha;
  prf_alg := S2N_HMAC_SHA256;
  minimum_required_tls_version := S2N_SSLv3;
|}.

Definition s2n_rsa_with_3des_ede_cbc_sha : s2n_cipher_suite := {|
  suite_symbol := "s2n_rsa_with_3des_ede_cbc_sha";
  suite_name := "DES-CBC3-SHA";
  iana_name := "TLS_RSA_WITH_3DES_EDE_CBC_SHA";
  iana_value := TLS_RSA_WITH_3DES_EDE_CBC_SHA;
  key_exchange_alg := s2n_rsa;
  auth_method := S2N_AUTHENTICATION_RSA;
  all_record_algs := [s2n_record_alg_3des_sha];
  sslv3_record_alg := Some s2n_record_alg_3des_sslv3_sha;
  prf_alg := S2N_HMAC_SHA256;
  minimum_required_tls_version := S2N_SSLv3;
|}.

Definition s2n_dhe_rsa_with_3des_ede_cbc_sha : s2n_cipher_suite := {|
  suite_symbol := "s2n_dhe_rsa_with_3des_ede_cbc_sha";
  suite_name := "DHE-RSA-DES-CBC3-SHA";
  iana_name := "TLS_DHE_RSA_WITH_3DES_EDE_CBC_SHA";
  iana_value := TLS_DHE_RSA_WITH_3DES_EDE_CBC_SHA;
  key_exchange_alg := s2n_dhe;
  auth_method := S2N_AUTHENTICATION_RSA;
  all_record_algs := [s2n_record_alg_3des_sha];
  sslv3_record_alg := Some s2n_record_alg_3des_sslv3_sha;
  prf_alg := S2N_HMAC_SHA256;
  minimum_required_tls_version := S2N_SSLv3;
|}.

Definition s2n_rsa_with_aes_128_cbc_sha : s2n_cipher_suite := {|
  suite_symbol := "s2n_rsa_with_aes_128_cbc_sha";
  suite_name := "AES128-SHA";
  iana_name := "TLS_RSA_WITH_AES_128_CBC_SHA";
  iana_value := TLS_RSA_WITH_AES_128_CBC_SHA;
  key_exchange_alg := s2n_rsa;
  auth_method := S2N_AUTHENTICATION_RSA;
  all_record_algs := [s2n_record_alg_aes128_sha_composite; s2n_record_alg_aes128_sha];
  sslv3_record_alg := Some s2n_record_alg_aes128_sslv3_sha;
  prf_alg := S2N_HMAC_SHA256;
  minimum_required_tls_version := S2N_SSLv3;
|}.

Definition s2n_dhe_rsa_with_aes_128_cbc_sha : s2n_cipher_suite := {|
  suite_symbol := "s2n_dhe_rsa_with_aes_128_cbc_sha";
  suite_name := "DHE-RSA-AES128-SHA";
  iana_name := "TLS_DHE_RSA_WITH_AES_128_CBC_SHA";
  iana_value := TLS_DHE_RSA_WITH_AES_128_CBC_SHA;
  key_exchange_alg := s2n_dhe;
  auth_method := S2N_AUTHENTICATION_RSA;
  all_record_algs := [s2n_record_alg_aes128_sha_composite; s2n_record_alg_aes128_sha];
  sslv3_record_alg := Some s2n_record_alg_aes128_sslv3_sha;
  prf_alg := S2N_HMAC_SHA256;
  minimum_required_tls_version := S2N_SSLv3;
|}.

Definition s2n_rsa_with_aes_256_cbc_sha : s2n_cipher_suite := {|
  suite_symbol := "s2n_rsa_with_aes_256_cbc_sha";
  suite_name := "AES256-SHA";
  iana_name := "TLS_RSA_WITH_AES_256_CBC_SHA";
  iana_value := TLS_RSA_WITH_AES_256_CBC_SHA;
  key_exchange_alg := s2n_rsa;
  auth_method := S2N_AUTHENTICATION_RSA;
  all_record_algs := [s2n_record_alg_aes256_sha_composite; s2n_record_alg_aes256_sha];
  sslv3_record_alg := Some s2n_record_alg_aes256_sslv3_sha;
  prf_alg := S2N_HMAC_SHA256;
  minimum_required_tls_version := S2N_SSLv3;
|}.

Definition s2n_dhe_rsa_with_aes_256_cbc_sha : s2n_cipher_suite := {|
  suite_symbol := "s2n_dhe_rsa_with_aes_256_cbc_sha";
  suite_name := "DHE-RSA-AES256-SHA";
  iana_name := "TLS_DHE_RSA_WITH_AES_256_CBC_SHA";
  iana_value := TLS_DHE_RSA_WITH_AES_256_CBC_SHA;
  key_exchange_alg := s2n_dhe;
  auth_method := S2N_AUTHENTICATION_RSA;
  all_record_algs := [s2n_record_alg_aes256_sha_composite; s2n_record_alg_aes256_sha];
  sslv3_record_alg := Some s2n_record_alg_aes256_sslv3_sha;
  prf_alg := S2N_HMAC_SHA256;
  minimum_required_tls_version := S2N_SSLv3;
|}.

Definition s2n_rsa_with_aes_128_cbc_sha256 : s2n_cipher_suite := {|
  suite_symbol := "s2n_rsa_with_aes_128_cbc_sha256";
  suite_name := "AES128-SHA256";
  iana_name := "TLS_RSA_WITH_AES_128_CBC_SHA256";
  iana_value := TLS_RSA_WITH_AES_128_CBC_SHA256;
  key_exchange_alg := s2n_rsa;
  auth_method := S2N_AUTHENTICATION_RSA;
  all_record_algs := [s2n_record_alg_aes128_sha256_composite; s2n_record_alg_aes128_sha256];
  sslv3_record_alg := None;
  prf_alg := S2N_HMAC_SHA256;
  minimum_required_tls_version := S2N_TLS12;
|}.

Definition s2n_rsa_with_aes_256_cbc_sha256 : s2n_cipher_suite := {|
  suite_symbol := "s2n_rsa_with_aes_256_cbc_sha256";
  suite_name := "AES256-SHA256";
  iana_name := "TLS_RSA_WITH_AES_256_CBC_SHA256";
  iana_value := TLS_RSA_WITH_AES_256_CBC_SHA256;
  key_exchange_alg := s2n_rsa;
  auth_method := S2N_AUTHENTICATION_RSA;
  all_record_algs := [s2n_record_alg_aes256_sha256_composite; s2n_record_alg_aes256_sha256];
  sslv3_record_alg := None;
  prf_alg := S2N_HMAC_SHA256;
  minimum_required_tls_version := S2N_TLS12;
|}.

Definition s2n_dhe_rsa_with_aes_128_cbc_sha256 : s2n_cipher_suite := {|
  suite_symbol := "s2n_dhe_rsa_with_aes_128_cbc_sha256";
  suite_name := "DHE-RSA-AES128-SHA256";
  iana_name := "TLS_DHE_RSA_WITH_AES_128_CBC_SHA256";
  iana_value := TLS_DHE_RSA_WITH_AES_128_CBC_SHA256;
  key_exchange_alg := s2n_dhe;
  auth_method := S2N_AUTHENTICATION_RSA;
  all_record_algs := [s2n_record_alg_aes128_sha256_composite; s2n_record_alg_aes128_sha256];
  sslv3_record_alg := None;
  prf_alg := S2N_HMAC_SHA256;
  minimum_required_tls_version := S2N_TLS12;
|}.

Definition s2n_dhe_rsa_with_aes_256_cbc_sha256 : s2n_cipher_suite := {|
  suite_symbol := "s2n_dhe_rsa_with_aes_256_cbc_sha256";
  suite_name := "DHE-RSA-AES256-SHA256";
  iana_name := "TLS_DHE_RSA_WITH_AES_256_CBC_SHA256";
  iana_value := TLS_DHE_RSA_WITH_AES_256_CBC_SHA256;
  key_exchange_alg := s2n_dhe;
  auth_method := S2N_AUTHENTICATION_RSA;
  all_record_algs := [s2n_record_alg_aes256_sha256_composite; s2n_record_alg_aes256_sha256];
  sslv3_record_alg := None;
  prf_alg := S2N_HMAC_SHA256;
  minimum_required_tls_version := S2N_TLS12;
|}.

Definition s2n_rsa_with_aes_128_gcm_sha256 : s2n_cipher_suite := {|
  suite_symbol := "s2n_rsa_with_aes_128_gcm_sha256";
  suite_name := "AES128-GCM-SHA256";
  iana_name := "TLS_RSA_WITH_AES_128_GCM_SHA256";
  iana_value := TLS_RSA_WITH_AES_128_GCM_SHA256;
  key_exchange_alg := s2n_rsa;
  auth_method := S2N_AUTHENTICATION_RSA;
  all_record_algs := [s2n_record_alg_aes128_gcm];
  sslv3_record_alg := None;
  prf_alg := S2N_HMAC_SHA256;
  minimum_required_tls_version := S2N_TLS12;
|}.

Definition s2n_rsa_with_aes_256_gcm_sha384 : s2n_cipher_suite := {|
  suite_symbol := "s2n_rsa_with_aes_256_gcm_sha384";
  suite_name := "AES256-GCM-SHA384";
  iana_name := "TLS_RSA_WITH_AES_256_GCM_SHA384";
  iana_value := TLS_RSA_WITH_AES_256_GCM_SHA384;
  key_exchange_alg := s2n_rsa;
  auth_method := S2N_AUTHENTICATION_RSA;
  all_record_algs := [s2n_record_alg_aes256_gcm];
  sslv3_record_alg := None;
  prf_alg := S2N_HMAC_SHA384;
  minimum_required_tls_version := S2N_TLS12;
|}.

Definition s2n_dhe_rsa_with_aes_128_gcm_sha256 : s2n_cipher_suite := {|
  suite_symbol := "s2n_dhe_rsa_with_aes_128_gcm_sha256";
  suite_name := "DHE-RSA-AES128-GCM-SHA256";
  iana_name := "TLS_DHE_RSA_WITH_AES_128_GCM_SHA256";
  iana_value := TLS_DHE_RSA_WITH_AES_128_GCM_SHA256;
  key_exchange_alg := s2n_dhe;
  auth_method := S2N_AUTHENTICATION_RSA;
  all_record_algs := [s2n_record_alg_aes128_gcm];
  sslv3_record_alg := None;
  prf_alg := S2N_HMAC_SHA256;
  minimum_required_tls_version := S2N_TLS12;
|}.

Definition s2n_dhe_rsa_with_aes_256_gcm_sha384 : s2n_cipher_suite := {|
  suite_symbol := "s2n_dhe_rsa_with_aes_256_gcm_sha384";
  suite_name := "DHE-RSA-AES256-GCM-SHA384";
  iana_name := "TLS_DHE_RSA_WITH_AES_256_GCM_SHA384";
  iana_value := TLS_DHE_RSA_WITH_AES_256_GCM_SHA384;
  key_exchange_alg := s2n_dhe;
  auth_method := S2N_AUTHENTICATION_RSA;
  all_record_algs := [s2n_record_alg_aes256_gcm];
  sslv3_record_alg := None;
  prf_alg := S2N_HMAC_SHA384;
  minimum_required_tls_version := S2N_TLS12;
|}.

Definition s2n_ecdhe_ecdsa_with_aes_128_cbc_sha : s2n_cipher_suite := {|
  suite_symbol := "s2n_ecdhe_ecdsa_with_aes_128_cbc_sha";
  suite_name := "ECDHE-ECDSA-AES128-SHA";
  iana_name := "TLS_ECDHE_ECDSA_WITH_AES_128_CBC_SHA";
  iana_value := TLS_ECDHE_ECDSA_WITH_AES_128_CBC_SHA;
  key_exchange_alg := s2n_ecdhe;
  auth_method := S2N_AUTHENTICATION_ECDSA;
  all_record_algs := [s2n_record_alg_aes128_sha_composite; s2n_record_alg_aes128_sha];
  sslv3_record_alg := Some s2n_record_alg_aes128_sslv3_sha;
  prf_alg := S2N_HMAC_SHA256;
  minimum_required_tls_version := S2N_SSLv3;
|}.

Definition s2n_ecdhe_ecdsa_with_aes_256_cbc_sha : s2n_cipher_suite := {|
  suite_symbol := "s2n_ecdhe_ecdsa_with_aes_256_cbc_sha";
  suite_name := "ECDHE-ECDSA-AES256-SHA";
  iana_name := "TLS_ECDHE_ECDSA_WITH_AES_256_CBC_SHA";
  iana_value := TLS_ECDHE_ECDSA_WITH_AES_256_CBC_SHA;
  key_exchange_alg := s2n_ecdhe;
  auth_method := S2N_AUTHENTICATION_ECDSA;
  all_record_algs := [s2n_record_alg_aes256_sha_composite; s2n_record_alg_aes256_sha];
  sslv3_record_alg := Some s2n_record_alg_aes256_sslv3_sha;
  prf_alg := S2N_HMAC_SHA256;
  minimum_required_tls_version := S2N_SSLv3;
|}.

Definition s2n_ecdhe_rsa_with_rc4_128_sha : s2n_cipher_suite := {|
  suite_symbol := "s2n_ecdhe_rsa_with_rc4_128_sha";
  suite_name := "ECDHE-RSA-RC4-SHA";
  iana_name := "TLS_ECDHE_RSA_WITH_RC4_128_SHA";
  iana_value := TLS_ECDHE_RSA_WITH_RC4_128_SHA;
  key_exchange_alg := s2n_ecdhe;
  auth_method := S2N_AUTHENTICATION_RSA;
  all_record_algs := [s2n_record_alg_rc4_sha];
  sslv3_record_alg := Some s2n_record_alg_rc4_sslv3_sha;
  prf_alg := S2N_HMAC_SHA256;
  minimum_required_tls_version := S2N_SSLv3;
|}.

Definition s2n_ecdhe_rsa_with_3des_ede_cbc_sha : s2n_cipher_suite := {|
  suite_symbol := "s2n_ecdhe_rsa_with_3des_ede_cbc_sha";
  suite_name := "ECDHE-RSA-DES-CBC3-SHA";
  iana_name := "TLS_ECDHE_RSA_WITH_3DES_EDE_CBC_SHA";
  iana_value := TLS_ECDHE_RSA_WITH_3DES_EDE_CBC_SHA;
  key_exchange_alg := s2n_ecdhe;
  auth_method := S2N_AUTHENTICATION_RSA;
  all_record_algs := [s2n_record_alg_3des_sha];
  sslv3_record_alg := Some s2n_record_alg_3des_sslv3_sha;
  prf_alg := S2N_HMAC_SHA256;
  minimum_required_tls_version := S2N_SSLv3;
|}.

Definition s2n_ecdhe_rsa_with_aes_128_cbc_sha : s2n_cipher_suite := {|
  suite_symbol := "s2n_ecdhe_rsa_with_aes_128_cbc_sha";
  suite_name := "ECDHE-RSA-AES128-SHA";
  iana_name := "TLS_ECDHE_RSA_WITH_AES_128_CBC_SHA";
  iana_value := TLS_ECDHE_RSA_WITH_AES_128_CBC_SHA;
  key_exchange_alg := s2n_ecdhe;
  auth_method := S2N_AUTHENTICATION_RSA;
  all_record_algs := [s2n_record_alg_aes128_sha_composite; s2n_record_alg_aes128_sha];
  sslv3_record_alg := Some s2n_record_alg_aes128_sslv3_sha;
  prf_alg := S2N_HMAC_SHA256;
  minimum_required_tls_version := S2N_SSLv3;
|}.

Definition s2n_ecdhe_rsa_with_aes_256_cbc_sha : s2n_cipher_suite := {|
  suite_symbol := "s2n_ecdhe_rsa_with_aes_256_cbc_sha";
  suite_name := "ECDHE-RSA-AES256-SHA";
  iana_name := "TLS_ECDHE_RSA_WITH_AES_256_CBC_SHA";
  iana_value := TLS_ECDHE_RSA_WITH_AES_256_CBC_SHA;
  key_exchange_alg := s2n_ecdhe;
  auth_method := S2N_AUTHENTICATION_RSA;
  all_record_algs := [s2n_record_alg_aes256_sha_composite; s2n_record_alg_aes256_sha];
  sslv3_record_alg := Some s2n_record_alg_aes256_sslv3_sha;
  prf_alg := S2N_HMAC_SHA256;
  minimum_required_tls_version := S2N_SSLv3;
|}.

Definition s2n_ecdhe_ecdsa_with_aes_128_cbc_sha256 : s2n_cipher_suite := {|
  suite_symbol := "s2n_ecdhe_ecdsa_with_aes_128_cbc_sha256";
  suite_name := "ECDHE-ECDSA-AES128-SHA256";
  iana_name := "TLS_ECDHE_ECDSA_WITH_AES_128_CBC_SHA256";
  iana_value := TLS_ECDHE_ECDSA_WITH_AES_128_CBC_SHA256;
  key_exchange_alg := s2n_ecdhe;
  auth_method := S2N_AUTHENTICATION_ECDSA;
  all_record_algs := [s2n_record_alg_aes128_sha256_composite; s2n_record_alg_aes128_sha256];
  sslv3_record_alg := None;
  prf_alg := S2N_HMAC_SHA256;
  minimum_required_tls_version := S2N_TLS12;
|}.

Definition s2n_ecdhe_ecdsa_with_aes_256_cbc_sha384 : s2n_cipher_suite := {|
  suite_symbol := "s2n_ecdhe_ecdsa_with_aes_256_cbc_sha384";
  suite_name := "ECDHE-ECDSA-AES256-SHA384";
  iana_name := "TLS_ECDHE_ECDSA_WITH_AES_256_CBC_SHA384";
  iana_value := TLS_ECDHE_ECDSA_WITH_AES_256_CBC_SHA384;
  key_exchange_alg := s2n_ecdhe;
  auth_method := S2N_AUTHENTICATION_ECDSA;
  all_record_algs := [s2n_record_alg_aes256_sha384];
  sslv3_record_alg := None;
  prf_alg := S2N_HMAC_SHA384;
  minimum_required_tls_version := S2N_TLS12;
|}.

Definition s2n_ecdhe_rsa_with_aes_128_cbc_sha256 : s2n_cipher_suite := {|
  suite_symbol := "s2n_ecdhe_rsa_with_aes_128_cbc_sha256";
  suite_name := "ECDHE-RSA-AES128-SHA256";
  iana_name := "TLS_ECDHE_RSA_WITH_AES_128_CBC_SHA256";
  iana_value := TLS_ECDHE_RSA_WITH_AES_128_CBC_SHA256;
  key_exchange_alg := s2n_ecdhe;
  auth_method := S2N_AUTHENTICATION_RSA;
  all_record_algs := [s2n_record_alg_aes128_sha256_composite; s2n_record_alg_aes128_sha256];
  sslv3_record_alg := None;
  prf_alg := S2N_HMAC_SHA256;
  minimum_required_tls_version := S2N_TLS12;
|}.

Definition s2n_ecdhe_rsa_with_aes_256_cbc_sha384 : s2n_cipher_suite := {|
  suite_symbol := "s2n_ecdhe_rsa_with_aes_256_cbc_sha384";
  suite_name := "ECDHE-RSA-AES256-SHA384";
  iana_name := "TLS_ECDHE_RSA_WITH_AES_256_CBC_SHA384";
  iana_value := TLS_ECDHE_RSA_WITH_AES_256_CBC_SHA384;
  key_exchange_alg := s2n_ecdhe;
  auth_method := S2N_AUTHENTICATION_RSA;
  all_record_algs := [s2n_record_alg_aes256_sha384];
  sslv3_record_alg := None;
  prf_alg := S2N_HMAC_SHA384;
  minimum_required_tls_version := S2N_TLS12;
|}.

Definition s2n_ecdhe_ecdsa_with_aes_128_gcm_sha256 : s2n_cipher_suite := {|
  suite_symbol := "s2n_ecdhe_ecdsa_with_aes_128_gcm_sha256";
  suite_name := "ECDHE-ECDSA-AES128-GCM-SHA256";
  iana_name := "TLS_ECDHE_ECDSA_WITH_AES_128_GCM_SHA256";
  iana_value := TLS_ECDHE_ECDSA_WITH_AES_128_GCM_SHA256;
  key_exchange_alg := s2n_ecdhe;
  auth_method := S2N_AUTHENTICATION_ECDSA;
  all_record_algs := [s2n_record_alg_aes128_gcm];
  sslv3_record_alg := None;
  prf_alg := S2N_HMAC_SHA256;
  minimum_required_tls_version := S2N_TLS12;
|}.

Definition s2n_ecdhe_ecdsa_with_aes_256_gcm_sha384 : s2n_cipher_suite := {|
  suite_symbol := "s2n_ecdhe_ecdsa_with_aes_256_gcm_sha384";
  suite_name := "ECDHE-ECDSA-AES256-GCM-SHA384";
  iana_name := "TLS_ECDHE_ECDSA_WITH_AES_256_GCM_SHA384";
  iana_value := TLS_ECDHE_ECDSA_WITH_AES_256_GCM_SHA384;
  key_exchange_alg := s2n_ecdhe;
  auth_method := S2N_AUTHENTICATION_ECDSA;
  all_record_algs := [s2n_record_alg_aes256_gcm];
  sslv3_record_alg := None;
  prf_alg := S2N_HMAC_SHA384;
  minimum_required_tls_version := S2N_TLS12;
|}.

Definition s2n_ecdhe_rsa_with_aes_128_gcm_sha256 : s2n_cipher_suite := {|
  suite_symbol := "s2n_ecdhe_rsa_with_aes_128_gcm_sha256";
  suite_name := "ECDHE-RSA-AES128-GCM-SHA256";
  iana_name := "TLS_ECDHE_RSA_WITH_AES_128_GCM_SHA256";
  iana_value := TLS_ECDHE_RSA_WITH_AES_128_GCM_SHA256;
  key_exchange_alg := s2n_ecdhe;
  auth_method := S2N_AUTHENTICATION_RSA;
  all_record_algs := [s2n_record_alg_aes128_gcm];
  sslv3_record_alg := None;
  prf_alg := S2N_HMAC_SHA256;
  minimum_required_tls_version := S2N_TLS12;
|}.

Definition s2n_ecdhe_rsa_with_aes_256_gcm_sha384 : s2n_cipher_suite := {|
  suite_symbol := "s2n_ecdhe_rsa_with_aes_256_gcm_sha384";
  suite_name := "ECDHE-RSA-AES256-GCM-SHA384";
  iana_name := "TLS_ECDHE_RSA_WITH_AES_256_GCM_SHA384";
  iana_value := TLS_ECDHE_RSA_WITH_AES_256_GCM_SHA384;
  key_exchange_alg := s2n_ecdhe;
  auth_method := S2N_AUTHENTICATION_RSA;
  all_record_algs := [s2n_record_alg_aes256_gcm];
  sslv3_record_alg := None;
  prf_alg := S2N_HMAC_SHA384;
  minimum_required_tls_version := S2N_TLS12;
|}.

Definition s2n_ecdhe_rsa_with_chacha20_poly1305_sha256 : s2n_cipher_suite := {|
  suite_symbol := "s2n_ecdhe_rsa_with_chacha20_poly1305_sha256";
  suite_name := "ECDHE-RSA-CHACHA20-POLY1305";
  iana_name := "TLS_ECDHE_RSA_WITH_CHACHA20_POLY1305_SHA256";
  iana_value := TLS_ECDHE_RSA_WITH_CHACHA20_POLY1305_SHA256;
  key_exchange_alg := s2n_ecdhe;
  auth_method := S2N_AUTHENTICATION_RSA;
  all_record_algs := [s2n_record_alg_chacha20_poly1305];
  sslv3_record_alg := None;
  prf_alg := S2N_HMAC_SHA256;
  minimum_required_tls_version := S2N_TLS12;
|}.

Definition s2n_ecdhe_ecdsa_with_chacha20_poly1305_sha256 : s2n_cipher_suite := {|
  suite_symbol := "s2n_ecdhe_ecdsa_with_chacha20_poly1305_sha256";
  suite_name := "ECDHE-ECDSA-CHACHA20-POLY1305";
  iana_name := "TLS_ECDHE_ECDSA_WITH_CHACHA20_POLY1305_SHA256";
  iana_value := TLS_ECDHE_ECDSA_WITH_CHACHA20_POLY1305_SHA256;
  key_exchange_alg := s2n_ecdhe;
  auth_method := S2N_AUTHENTICATION_ECDSA;
  all_record_algs := [s2n_record_alg_chacha20_poly1305];
  sslv3_record_alg := None;
  prf_alg := S2N_HMAC_SHA256;
  minimum_required_tls_version := S2N_TLS12;
|}.

Definition s2n_dhe_rsa_with_chacha20_poly1305_sha256 : s2n_cipher_suite := {|
  suite_symbol := "s2n_dhe_rsa_with_chacha20_poly1305_sha256";
  suite_name := "DHE-RSA-CHACHA20-POLY1305";
  iana_name := "TLS_DHE_RSA_WITH_CHACHA20_POLY1305_SHA256";
  iana_value := TLS_DHE_RSA_WITH_CHACHA20_POLY1305_SHA256;
  key_exchange_alg := s2n_dhe;
  auth_method := S2N_AUTHENTICATION_RSA;
  all_record_algs := [s2n_record_alg_chacha20_poly1305];
  sslv3_record_alg := None;
  prf_alg := S2N_HMAC_SHA256;
  minimum_required_tls_version := S2N_TLS12;
|}.

Definition s2n_tls13_aes_128_gcm_sha256 : s2n_cipher_suite := {|
  suite_symbol := "s2n_tls13_aes_128_gcm_sha256";
  suite_name := "TLS_AES_128_GCM_SHA256";
  iana_name := "TLS_AES_128_GCM_SHA256";
  iana_value := TLS_AES_128_GCM_SHA256;
  key_exchange_alg := s2n_tls13_kex;
  auth_method := S2N_AUTHENTICATION_METHOD_TLS13;
  all_record_algs := [s2n_tls13_record_alg_aes128_gcm];
  sslv3_record_alg := None;
  prf_alg := S2N_HMAC_SHA256;
  minimum_required_tls_version := S2N_TLS13;
|}.

Definition s2n_tls13_aes_256_gcm_sha384 : s2n_cipher_suite := {|
  suite_symbol := "s2n_tls13_aes_256_gcm_sha384";
  suite_name := "TLS_AES_256_GCM_SHA384";
  iana_name := "TLS_AES_256_GCM_SHA384";
  iana_value := TLS_AES_256_GCM_SHA384;
  key_exchange_alg := s2n_tls13_kex;
  auth_method := S2N_AUTHENTICATION_METHOD_TLS13;
  all_record_algs := [s2n_tls13_record_alg_aes256_gcm];
  sslv3_record_alg := None;
  prf_alg := S2N_HMAC_SHA384;
  minimum_required_tls_version := S2N_TLS13;
|}.

Definition s2n_tls13_chacha20_poly1305_sha256 : s2n_cipher_suite := {|
  suite_symbol := "s2n_tls13_chacha20_poly1305_sha256";
  suite_name := "TLS_CHACHA20_POLY1305_SHA256";
  iana_name := "TLS_CHACHA20_POLY1305_SHA256";
  iana_value := TLS_CHACHA20_POLY1305_SHA256;
  key_exchange_alg := s2n_tls13_kex;
  auth_method := S2N_AUTHENTICATION_METHOD_TLS13;
  all_record_algs := [s2n_tls13_record_alg_chacha20_poly1305];
  sslv3_record_alg := None;
  prf_alg := S2N_HMAC_SHA256;
  minimum_required_tls_version := S2N_TLS13;
|}.

(** ** tls/s2n_cipher_preferences.h *)

(** The array [suites] with its [count]. *)
Record s2n_cipher_preferences := CipherPreferences {
  suites : list s2n_cipher_suite;
  allow_chacha20_boosting : bool;
}.

Definition s2n_all_cipher_suites : list s2n_cipher_suite :=
  [ s2n_rsa_with_rc4_128_md5;
    s2n_rsa_with_rc4_128_sha;
    s2n_rsa_with_3des_ede_cbc_sha;
    s2n_dhe_rsa_with_3des_ede_cbc_sha;
    s2n_rsa_with_aes_128_cbc_sha;
    s2n_dhe_rsa_with_aes_128_cbc_sha;
    s2n_rsa_with_aes_256_cbc_sha;
    s2n_dhe_rsa_with_aes_256_cbc_sha;
    s2n_rsa_with_aes_128_cbc_sha256;
    s2n_rsa_with_aes_256_cbc_sha256;
    s2n_dhe_rsa_with_aes_128_cbc_sha256;
    s2n_dhe_rsa_with_aes_256_cbc_sha256;
    s2n_rsa_with_aes_128_gcm_sha256;
    s2n_rsa_with_aes_256_gcm_sha384;
    s2n_dhe_rsa_with_aes_128_gcm_sha256;
    s2n_dhe_rsa_with_aes_256_gcm_sha384;
    s2n_tls13_aes_128_gcm_sha256;
    s2n_tls13_aes_256_gcm_sha384;
    s2n_tls13_chacha20_poly1305_sha256;
    s2n_ecdhe_ecdsa_with_aes_128_cbc_sha;
    s2n_ecdhe_ecdsa_with_aes_256_cbc_sha;
    s2n_ecdhe_rsa_with_rc4_128_sha;
    s2n_ecdhe_rsa_with_3des_ede_cbc_sha;
    s2n_ecdhe_rsa_with_aes_128_cbc_sha;
    s2n_ecdhe_rsa_with_aes_256_cbc_sha;
    s2n_ecdhe_ecdsa_with_aes_128_cbc_sha256;
    s2n_ecdhe_ecdsa_with_aes_256_cbc_sha384;
    s2n_ecdhe_rsa_with_aes_128_cbc_sha256;
    s2n_ecdhe_rsa_with_aes_256_cbc_sha384;
    s2n_ecdhe_ecdsa_with_aes_128_gcm_sha256;
    s2n_ecdhe_ecdsa_with_aes_256_gcm_sha384;
    s2n_ecdhe_rsa_with_aes_128_gcm_sha256;
    s2n_ecdhe_rsa_with_aes_256_gcm_sha384;
    s2n_ecdhe_rsa_with_chacha20_poly1305_sha256;
    s2n_ecdhe_ecdsa_with_chacha20_poly1305_sha256;
    s2n_dhe_rsa_with_chacha20_poly1305_sha256 ].

Definition cipher_preferences_test_all : s2n_cipher_preferences := {|
  suites := s2n_all_cipher_suites;
  allow_chacha20_boosting := false;
|}.

Definition s2n_all_tls12_cipher_suites : list s2n_cipher_suite :=
  [ s2n_rsa_with_rc4_128_md5;
    s2n_rsa_with_rc4_128_sha;
    s2n_rsa_with_3des_ede_cbc_sha;
    s2n_dhe_rsa_with_3des_ede_cbc_sha;
    s2n_rsa_with_aes_128_cbc_sha;
    s2n_dhe_rsa_with_aes_128_cbc_sha;
    s2n_rsa_with_aes_256_cbc_sha;
    s2n_dhe_rsa_with_aes_256_cbc_sha;
    s2n_rsa_with_aes_128_cbc_sha256;
    s2n_rsa_with_aes_256_cbc_sha256;
    s2n_dhe_rsa_with_aes_128_cbc_sha256;
    s2n_dhe_rsa_with_aes_256_cbc_sha256;
    s2n_rsa_with_aes_128_gcm_sha256;
    s2n_rsa_with_aes_256_gcm_sha384;
    s2n_dhe_rsa_with_aes_128_gcm_sha256;
    s2n_dhe_rsa_with_aes_256_gcm_sha384;
    s2n_ecdhe_ecdsa_with_aes_128_cbc_sha;
    s2n_ecdhe_ecdsa_with_aes_256_cbc_sha;
    s2n_ecdhe_rsa_with_rc4_128_sha;
    s2n_ecdhe_rsa_with_3des_ede_cbc_sha;
    s2n_ecdhe_rsa_with_aes_128_cbc_sha;
    s2n_ecdhe_rsa_with_aes_256_cbc_sha;
    s2n_ecdhe_ecdsa_with_aes_128_cbc_sha256;
    s2n_ecdhe_ecdsa_with_aes_256_cbc_sha384;
    s2n_ecdhe_rsa_with_aes_128_cbc_sha256;
    s2n_ecdhe_rsa_with_aes_256_cbc_sha384;
    s2n_ecdhe_ecdsa_with_aes_128_gcm_sha256;
    s2n_ecdhe_ecdsa_with_aes_256_gcm_sha384;
    s2n_ecdhe_rsa_with_aes_128_gcm_sha256;
    s2n_ecdhe_rsa_with_aes_256_gcm_sha384;
    s2n_ecdhe_rsa_with_chacha20_poly1305_sha256;
    s2n_ecdhe_ecdsa_with_chacha20_poly1305_sha256;
    s2n_dhe_rsa_with_chacha20_poly1305_sha256 ].

Definition cipher_preferences_test_all_tls12 : s2n_cipher_preferences := {|
  suites := s2n_all_tls12_cipher_suites;
  allow_chacha20_boosting := false;
|}.

Definition s2n_all_fips_cipher_suites : list s2n_cipher_suite :=
  [ s2n_dhe_rsa_with_aes_128_cbc_sha;
    s2n_dhe_rsa_with_aes_256_cbc_sha;
    s2n_dhe_rsa_with_aes_128_cbc_sha256;
    s2n_dhe_rsa_with_aes_256_cbc_sha256;
    s2n_dhe_rsa_with_aes_128_gcm_sha256;
    s2n_dhe_rsa_with_aes_256_gcm_sha384;
    s2n_tls13_aes_128_gcm_sha256;
    s2n_tls13_aes_256_gcm_sha384;
    s2n_ecdhe_ecdsa_with_aes_128_cbc_sha;
    s2n_ecdhe_ecdsa_with_aes_256_cbc_sha;
    s2n_ecdhe_rsa_with_aes_128_cbc_sha;
    s2n_ecdhe_rsa_with_aes_256_cbc_sha;
    s2n_ecdhe_ecdsa_with_aes_128_cbc_sha256;
    s2n_ecdhe_ecdsa_with_aes_256_cbc_sha384;
    s2n_ecdhe_rsa_with_aes_128_cbc_sha256;
    s2n_ecdhe_rsa_with_aes_256_cbc_sha384;
    s2n_ecdhe_ecdsa_with_aes_128_gcm_sha256;
    s2n_ecdhe_ecdsa_with_aes_256_gcm_sha384;
    s2n_ecdhe_rsa_with_aes_128_gcm_sha256;
    s2n_ecdhe_rsa_with_aes_256_gcm_sha384 ].

Definition cipher_preferences_test_all_fips : s2n_cipher_preferences := {|
  suites := s2n_all_fips_cipher_suites;
  allow_chacha20_boosting := false;
|}.

Definition s2n_all_ecdsa_cipher_suites : list s2n_cipher_suite :=
  [ s2n_ecdhe_ecdsa_with_aes_128_cbc_sha;
    s2n_ecdhe_ecdsa_with_aes_256_cbc_sha;
    s2n_ecdhe_ecdsa_with_aes_128_cbc_sha256;
    s2n_ecdhe_ecdsa_with_aes_256_cbc_sha384;
    s2n_ecdhe_ecdsa_with_aes_128_gcm_sha256;
    s2n_ecdhe_ecdsa_with_aes_256_gcm_sha384;
    s2n_ecdhe_ecdsa_with_chacha20_poly1305_sha256 ].

Definition cipher_preferences_test_all_ecdsa : s2n_cipher_preferences := {|
  suites := s2n_all_ecdsa_cipher_suites;
  allow_chacha20_boosting := false;
|}.

Definition s2n_all_rsa_kex_cipher_suites : list s2n_cipher_suite :=
  [ s2n_rsa_with_aes_128_cbc_sha;
    s2n_rsa_with_rc4_128_md5;
    s2n_rsa_with_rc4_128_sha;
    s2n_rsa_with_3des_ede_cbc_sha;
    s2n_rsa_with_aes_128_cbc_sha;
    s2n_rsa_with_aes_256_cbc_sha;
    s2n_rsa_with_aes_128_cbc_sha256;
    s2n_rsa_with_aes_256_cbc_sha256;
    s2n_rsa_with_aes_128_gcm_sha256;
    s2n_rsa_with_aes_256_gcm_sha384 ].

Definition cipher_preferences_test_all_rsa_kex : s2n_cipher_preferences := {|
  suites := s2n_all_rsa_kex_cipher_suites;
  allow_chacha20_boosting := false;
|}.

Definition s2n_ecdsa_priority_cipher_suites : list s2n_cipher_suite :=
  [ s2n_ecdhe_ecdsa_with_aes_128_cbc_sha;
    s2n_ecdhe_ecdsa_with_aes_256_cbc_sha;
    s2n_ecdhe_ecdsa_with_aes_128_cbc_sha256;
    s2n_ecdhe_ecdsa_with_aes_256_cbc_sha384;
    s2n_ecdhe_ecdsa_with_aes_128_gcm_sha256;
    s2n_ecdhe_ecdsa_with_aes_256_gcm_sha384;
    s2n_ecdhe_ecdsa_with_chacha20_poly1305_sha256;
    s2n_rsa_with_rc4_128_md5;
    s2n_rsa_with_rc4_128_sha;
    s2n_rsa_with_3des_ede_cbc_sha;
    s2n_dhe_rsa_with_3des_ede_cbc_sha;
    s2n_rsa_with_aes_128_cbc_sha;
    s2n_dhe_rsa_with_aes_128_cbc_sha;
    s2n_rsa_with_aes_256_cbc_sha;
    s2n_dhe_rsa_with_aes_256_cbc_sha;
    s2n_rsa_with_aes_128_cbc_sha256;
    s2n_rsa_with_aes_256_cbc_sha256;
    s2n_dhe_rsa_with_aes_128_cbc_sha256;
    s2n_dhe_rsa_with_aes_256_cbc_sha256;
    s2n_rsa_with_aes_128_gcm_sha256;
    s2n_rsa_with_aes_256_gcm_sha384;
    s2n_dhe_rsa_with_aes_128_gcm_sha256;
    s2n_dhe_rsa_with_aes_256_gcm_sha384;
    s2n_ecdhe_rsa_with_rc4_128_sha;
    s2n_ecdhe_rsa_with_3des_ede_cbc_sha;
    s2n_ecdhe_rsa_with_aes_128_cbc_sha;
    s2n_ecdhe_rsa_with_aes_256_cbc_sha;
    s2n_ecdhe_rsa_with_aes_128_cbc_sha256;
    s2n_ecdhe_rsa_with_aes_256_cbc_sha384;
    s2n_ecdhe_rsa_with_aes_128_gcm_sha256;
    s2n_ecdhe_rsa_with_aes_256_gcm_sha384;
    s2n_ecdhe_rsa_with_chacha20_poly1305_sha256;
    s2n_dhe_rsa_with_chacha20_poly1305_sha256 ].

Definition cipher_preferences_test_ecdsa_priority : s2n_cipher_preferences := {|
  suites := s2n_ecdsa_priority_cipher_suites;
  allow_chacha20_boosting := false;
|}.

Definition s2n_all_tls13_cipher_suites : list s2n_cipher_suite :=
  [ s2n_tls13_aes_128_gcm_sha256;
    s2n_tls13_aes_256_gcm_sha384;
    s2n_tls13_chacha20_poly1305_sha256 ].

Definition cipher_preferences_test_all_tls13 : s2n_cipher_preferences := {|
  suites := s2n_all_tls13_cipher_suites;
  allow_chacha20_boosting := false;
|}.

Definition s2n_cipher_suite_requires_ecc_extension (c : s2n_cipher_suite) : bool :=
  if S2N_TLS13 <=? minimum_required_tls_version c then true
  else if s2n_kex_includes (key_exchange_alg c) s2n_ecdhe then true
  else false.

Definition s2n_cipher_suite_requires_pq_extension (c : s2n_cipher_suite) : bool :=
  if s2n_kex_includes (key_exchange_alg c) s2n_kex_kem then true else false.

Definition s2n_is_valid_tls13_cipher (version : list Z) : bool :=
  (znth version 0 =? 0x13) && (0x01 <=? znth version 1) && (znth version 1 <=? 0x05).
End Suites.
End CipherSuites.
Export CipherSuites.
