(* ===== verification/RecordState.v ===== *)
(** * The connection, as the record layer sees it

    The crypto parameters of a connection (tls/s2n_crypto.h, tls/s2n_crypto.c)
    and the fields that the record layer adds to those of [Connection].  A
    connection has two sets of parameters, [initial] and [secure]; the pointers
    [client] and [server] refer to one of them each. *)
From S2P Require Import Prelude Errors CMem Platform Safety Blob Alloc Stuffer Connection Libcrypto Hash Hmac Ciphers CipherSuites Sequence.
Open Scope Z_scope.

Module RecordState.

Definition S2N_TLS_SEQUENCE_NUM_LEN : Z := 8.
Definition S2N_TLS_MAX_IV_LEN : Z := 16.

(** The status of the input record (tls/s2n_connection.h). *)
Inductive s2n_record_status := ENCRYPTED | PLAINTEXT.
#[export] Instance record_status_eq_dec : EqDecision s2n_record_status.
Proof. solve_decision. Defined.

(** An array that is a member of a struct, lent to a function by its address. *)
Definition lend {X A} (l : lens X (list Z)) (c : ptr -> Cmd X A) : Cmd X A := fun '(w, x) =>
  let k := fresh (dom (hp w)) in
  let '(r, (w', x')) := c (Ptr k 0) (World (<[k := lget l x]> (hp w)) (mem w), x) in
  (r, (World (delete k (hp w')) (mem w'), lset l (default [] (hp w' !! k)) x')).

(** The size of struct s2n_crypto_parameters, which depends on the platform. *)
Class ParamsLayout := sizeof_crypto_parameters : Z.

Section Definitions.
Context `{Platform} `{Libcrypto} `{Digests} `{CipherEnv} `{ParamsLayout}.

(** The members client_key, client_record_mac, ... or server_key, ... *)
Record crypto_side := CryptoSide {
  session_key : s2n_session_key;
  record_mac : s2n_hmac_state;
  implicit_iv : list Z;  (* uint8_t[S2N_TLS_MAX_IV_LEN] *)
  sequence_number : list Z;  (* uint8_t[S2N_TLS_SEQUENCE_NUM_LEN] *)
}.
Definition session_key_lens : lens crypto_side s2n_session_key :=
  Lens session_key (fun v x => CryptoSide v (record_mac x) (implicit_iv x) (sequence_number x)).
Definition record_mac_lens : lens crypto_side s2n_hmac_state :=
  Lens record_mac (fun v x => CryptoSide (session_key x) v (implicit_iv x) (sequence_number x)).
Definition implicit_iv_lens : lens crypto_side (list Z) :=
  Lens implicit_iv (fun v x => CryptoSide (session_key x) (record_mac x) v (sequence_number x)).
Definition sequence_number_lens : lens crypto_side (list Z) :=
  Lens sequence_number (fun v x => CryptoSide (session_key x) (record_mac x) (implicit_iv x) v).

Record s2n_crypto_parameters := CryptoParameters {
  params_mem : option ptr;  (* the memory of the struct *)
  params_alg : option s2n_record_algorithm;  (* *cipher_suite->record_alg, if there is a suite *)
  client_side : crypto_side;
  server_side : crypto_side;
}.

Definition side_lens (m : s2n_mode) : lens s2n_crypto_parameters crypto_side :=
  match m with
  | S2N_CLIENT => Lens client_side (fun v x => CryptoParameters (params_mem x) (params_alg x) v (server_side x))
  | S2N_SERVER => Lens server_side (fun v x => CryptoParameters (params_mem x) (params_alg x) (client_side x) v)
  end.

(** Which of the two sets a pointer refers to. *)
Inductive params_ref := InitialParams | SecureParams.
#[export] Instance params_ref_eq_dec : EqDecision params_ref.
Proof. solve_decision. Defined.

Record record_conn := RecordConn {
  rbase : s2n_connection;  (* the fields of [Connection] *)
  header_in : s2n_stuffer;
  buffer_in : s2n_stuffer;
  in_status : s2n_record_status;
  initial : option s2n_crypto_parameters;
  secure : option s2n_crypto_parameters;
  conn_client : params_ref;  (* client *)
  conn_server : params_ref;  (* server *)
  record_version_recorded : bool;  (* client_hello.record_version_recorded *)
  legacy_record_version : Z;  (* client_hello.legacy_record_version *)
  actual_protocol_version_established : bool;
  max_outgoing_fragment_length : Z;  (* uint16_t *)
  send_buffer_size_override : Z;  (* config->send_buffer_size_override *)
  ipv6 : bool;
  multirecord_send : bool;
  ktls_send_enabled : bool;
}.

Definition set_rbase (v : s2n_connection) (x : record_conn) : record_conn :=
  RecordConn v (header_in x) (buffer_in x) (in_status x) (initial x) (secure x) (conn_client x) (conn_server x) (record_version_recorded x) (legacy_record_version x) (actual_protocol_version_established x) (max_outgoing_fragment_length x) (send_buffer_size_override x) (ipv6 x) (multirecord_send x) (ktls_send_enabled x).
Definition set_header_in (v : s2n_stuffer) (x : record_conn) : record_conn :=
  RecordConn (rbase x) v (buffer_in x) (in_status x) (initial x) (secure x) (conn_client x) (conn_server x) (record_version_recorded x) (legacy_record_version x) (actual_protocol_version_established x) (max_outgoing_fragment_length x) (send_buffer_size_override x) (ipv6 x) (multirecord_send x) (ktls_send_enabled x).
Definition set_buffer_in (v : s2n_stuffer) (x : record_conn) : record_conn :=
  RecordConn (rbase x) (header_in x) v (in_status x) (initial x) (secure x) (conn_client x) (conn_server x) (record_version_recorded x) (legacy_record_version x) (actual_protocol_version_established x) (max_outgoing_fragment_length x) (send_buffer_size_override x) (ipv6 x) (multirecord_send x) (ktls_send_enabled x).
Definition set_in_status (v : s2n_record_status) (x : record_conn) : record_conn :=
  RecordConn (rbase x) (header_in x) (buffer_in x) v (initial x) (secure x) (conn_client x) (conn_server x) (record_version_recorded x) (legacy_record_version x) (actual_protocol_version_established x) (max_outgoing_fragment_length x) (send_buffer_size_override x) (ipv6 x) (multirecord_send x) (ktls_send_enabled x).
Definition set_initial (v : option s2n_crypto_parameters) (x : record_conn) : record_conn :=
  RecordConn (rbase x) (header_in x) (buffer_in x) (in_status x) v (secure x) (conn_client x) (conn_server x) (record_version_recorded x) (legacy_record_version x) (actual_protocol_version_established x) (max_outgoing_fragment_length x) (send_buffer_size_override x) (ipv6 x) (multirecord_send x) (ktls_send_enabled x).
Definition set_secure (v : option s2n_crypto_parameters) (x : record_conn) : record_conn :=
  RecordConn (rbase x) (header_in x) (buffer_in x) (in_status x) (initial x) v (conn_client x) (conn_server x) (record_version_recorded x) (legacy_record_version x) (actual_protocol_version_established x) (max_outgoing_fragment_length x) (send_buffer_size_override x) (ipv6 x) (multirecord_send x) (ktls_send_enabled x).
Definition set_conn_client (v : params_ref) (x : record_conn) : record_conn :=
  RecordConn (rbase x) (header_in x) (buffer_in x) (in_status x) (initial x) (secure x) v (conn_server x) (record_version_recorded x) (legacy_record_version x) (actual_protocol_version_established x) (max_outgoing_fragment_length x) (send_buffer_size_override x) (ipv6 x) (multirecord_send x) (ktls_send_enabled x).
Definition set_conn_server (v : params_ref) (x : record_conn) : record_conn :=
  RecordConn (rbase x) (header_in x) (buffer_in x) (in_status x) (initial x) (secure x) (conn_client x) v (record_version_recorded x) (legacy_record_version x) (actual_protocol_version_established x) (max_outgoing_fragment_length x) (send_buffer_size_override x) (ipv6 x) (multirecord_send x) (ktls_send_enabled x).
Definition set_record_version_recorded (v : bool) (x : record_conn) : record_conn :=
  RecordConn (rbase x) (header_in x) (buffer_in x) (in_status x) (initial x) (secure x) (conn_client x) (conn_server x) v (legacy_record_version x) (actual_protocol_version_established x) (max_outgoing_fragment_length x) (send_buffer_size_override x) (ipv6 x) (multirecord_send x) (ktls_send_enabled x).
Definition set_legacy_record_version (v : Z) (x : record_conn) : record_conn :=
  RecordConn (rbase x) (header_in x) (buffer_in x) (in_status x) (initial x) (secure x) (conn_client x) (conn_server x) (record_version_recorded x) v (actual_protocol_version_established x) (max_outgoing_fragment_length x) (send_buffer_size_override x) (ipv6 x) (multirecord_send x) (ktls_send_enabled x).
Definition set_actual_protocol_version_established (v : bool) (x : record_conn) : record_conn :=
  RecordConn (rbase x) (header_in x) (buffer_in x) (in_status x) (initial x) (secure x) (conn_client x) (conn_server x) (record_version_recorded x) (legacy_record_version x) v (max_outgoing_fragment_length x) (send_buffer_size_override x) (ipv6 x) (multirecord_send x) (ktls_send_enabled x).
Definition set_max_outgoing_fragment_length (v : Z) (x : record_conn) : record_conn :=
  RecordConn (rbase x) (header_in x) (buffer_in x) (in_status x) (initial x) (secure x) (conn_client x) (conn_server x) (record_version_recorded x) (legacy_record_version x) (actual_protocol_version_established x) v (send_buffer_size_override x) (ipv6 x) (multirecord_send x) (ktls_send_enabled x).
Definition set_send_buffer_size_override (v : Z) (x : record_conn) : record_conn :=
  RecordConn (rbase x) (header_in x) (buffer_in x) (in_status x) (initial x) (secure x) (conn_client x) (conn_server x) (record_version_recorded x) (legacy_record_version x) (actual_protocol_version_established x) (max_outgoing_fragment_length x) v (ipv6 x) (multirecord_send x) (ktls_send_enabled x).
Definition set_ipv6 (v : bool) (x : record_conn) : record_conn :=
  RecordConn (rbase x) (header_in x) (buffer_in x) (in_status x) (initial x) (secure x) (conn_client x) (conn_server x) (record_version_recorded x) (legacy_record_version x) (actual_protocol_version_established x) (max_outgoing_fragment_length x) (send_buffer_size_override x) v (multirecord_send x) (ktls_send_enabled x).
Definition set_multirecord_send (v : bool) (x : record_conn) : record_conn :=
  RecordConn (rbase x) (header_in x) (buffer_in x) (in_status x) (initial x) (secure x) (conn_client x) (conn_server x) (record_version_recorded x) (legacy_record_version x) (actual_protocol_version_established x) (max_outgoing_fragment_length x) (send_buffer_size_override x) (ipv6 x) v (ktls_send_enabled x).
Definition set_ktls_send_enabled (v : bool) (x : record_conn) : record_conn :=
  RecordConn (rbase x) (header_in x) (buffer_in x) (in_status x) (initial x) (secure x) (conn_client x) (conn_server x) (record_version_recorded x) (legacy_record_version x) (actual_protocol_version_established x) (max_outgoing_fragment_length x) (send_buffer_size_override x) (ipv6 x) (multirecord_send x) v.

Definition in_lens : lens record_conn s2n_stuffer :=
  Lens (fun x => in_stuffer (rbase x)) (fun v x => set_rbase (set_in_stuffer v (rbase x)) x).
Definition out_lens : lens record_conn s2n_stuffer :=
  Lens (fun x => out_stuffer (rbase x)) (fun v x => set_rbase (set_out_stuffer v (rbase x)) x).
Definition header_in_lens : lens record_conn s2n_stuffer := Lens header_in set_header_in.
Definition buffer_in_lens : lens record_conn s2n_stuffer := Lens buffer_in set_buffer_in.

Definition params_lens (r : params_ref) : lens record_conn (option s2n_crypto_parameters) :=
  match r with InitialParams => Lens initial set_initial | SecureParams => Lens secure set_secure end.

(** The parameters behind a pointer; they must exist. *)
Definition get_params (r : params_ref) : Cmd record_conn s2n_crypto_parameters :=
  c <-- get_obj ;;
  match lget (params_lens r) c with Some p => ret p | None => undefined end.

Definition on_params {A} (r : params_ref) (c : Cmd s2n_crypto_parameters A) : Cmd record_conn A := fun '(w, x) =>
  match lget (params_lens r) x with
  | None => (UB, (w, x))
  | Some p => let '(a, (w', p')) := c (w, p) in (a, (w', lset (params_lens r) (Some p') x))
  end.

(** One side of them. *)
Definition on_side {A} (r : params_ref) (m : s2n_mode) (c : Cmd crypto_side A) : Cmd record_conn A :=
  on_params r (zoom (side_lens m) c).

Definition params_is_null (r : params_ref) (c : record_conn) : bool :=
  match lget (params_lens r) c with None => true | Some _ => false end.

(** The sequence number of a side, incremented in place. *)
Definition increment_sequence : Cmd crypto_side unit :=
  lend sequence_number_lens (fun p =>
    with_local (Blob (Some p) S2N_TLS_SEQUENCE_NUM_LEN 0 false) s2n_increment_sequence_number ;;; ret tt).
Definition zero_sequence : Cmd crypto_side unit :=
  lend sequence_number_lens (fun p => with_local (Blob (Some p) S2N_TLS_SEQUENCE_NUM_LEN 0 false) s2n_blob_zero ;;; ret tt).

(** ** tls/s2n_crypto.c *)

(** The destroy_key member of the cipher objects; every object has one. *)
Definition destroy_key (c : s2n_cipher) : Cmd s2n_session_key unit :=
  match io c with
  | S2N_STREAM => if is_cipher c s2n_rc4 then s2n_stream_cipher_rc4_destroy_key else ret tt
  | S2N_CBC _ _ => if is_cipher c s2n_3des then s2n_cbc_cipher_3des_destroy_key else s2n_cbc_cipher_aes_destroy_key
  | S2N_AEAD _ _ _ =>
      if is_cipher c s2n_chacha20_poly1305 then s2n_aead_chacha20_poly1305_destroy_key else s2n_aead_cipher_aes_gcm_destroy_key
  | S2N_COMPOSITE _ _ _ => s2n_composite_cipher_aes_sha_destroy_key
  end.

(** The copies of the MAC states and of the keys share their contexts with the
    originals. *)
Definition s2n_crypto_parameters_wipe : Cmd s2n_crypto_parameters unit :=
  p <-- get_obj ;;
  client_state <-- with_local (record_mac (client_side p)) (s2n_hmac_init S2N_HMAC_NONE []) ;;
  server_state <-- with_local (record_mac (server_side p)) (s2n_hmac_init S2N_HMAC_NONE []) ;;
  (match params_alg p with
   | None => ret tt
   | Some alg =>
       zoom (side_lens S2N_CLIENT) (zoom session_key_lens (destroy_key (cipher alg))) ;;;
       zoom (side_lens S2N_SERVER) (zoom session_key_lens (destroy_key (cipher alg)))
   end) ;;;
  q <-- get_obj ;;
  let zero_iv := repeat 0 (Z.to_nat S2N_TLS_MAX_IV_LEN) in
  let zero_seq := repeat 0 (Z.to_nat S2N_TLS_SEQUENCE_NUM_LEN) in
  put_obj (CryptoParameters (params_mem q) (Some s2n_record_alg_null)
    (CryptoSide (session_key (client_side q)) (snd client_state) zero_iv zero_seq)
    (CryptoSide (session_key (server_side q)) (snd server_state) zero_iv zero_seq)).

(** All bytes of the struct are zero. *)
Definition zero_hash_state : s2n_hash_state := HashState S2N_HASH_NONE false 0 None None.
Definition zero_hmac_state : s2n_hmac_state :=
  HmacState S2N_HMAC_NONE 0 0 0 0 zero_hash_state zero_hash_state zero_hash_state zero_hash_state
    (repeat 0 (Z.to_nat SIZEOF_XOR_PAD)) (repeat 0 (Z.to_nat SIZEOF_DIGEST_PAD)).
Definition zero_side : crypto_side :=
  CryptoSide no_session_key zero_hmac_state (repeat 0 (Z.to_nat S2N_TLS_MAX_IV_LEN)) (repeat 0 (Z.to_nat S2N_TLS_SEQUENCE_NUM_LEN)).

Definition s2n_crypto_parameters_free : Cmd s2n_crypto_parameters unit :=
  zoom (side_lens S2N_CLIENT) (zoom record_mac_lens s2n_hmac_free) ;;;
  zoom (side_lens S2N_SERVER) (zoom record_mac_lens s2n_hmac_free) ;;;
  zoom (side_lens S2N_CLIENT) (zoom session_key_lens s2n_session_key_free) ;;;
  zoom (side_lens S2N_SERVER) (zoom session_key_lens s2n_session_key_free) ;;;
  p <-- get_obj ;;
  with_local (params_mem p) (s2n_free_object sizeof_crypto_parameters) ;;;
  ret tt.

(** The part of s2n_crypto_parameters_new after the allocation of the struct. *)
Definition params_setup : Cmd s2n_crypto_parameters unit :=
  zoom (side_lens S2N_CLIENT) (zoom record_mac_lens s2n_hmac_new) ;;;
  zoom (side_lens S2N_SERVER) (zoom record_mac_lens s2n_hmac_new) ;;;
  zoom (side_lens S2N_CLIENT) (zoom session_key_lens s2n_session_key_alloc) ;;;
  zoom (side_lens S2N_SERVER) (zoom session_key_lens s2n_session_key_alloc) ;;;
  s2n_crypto_parameters_wipe.

(** The state is [*new_params]; on failure what was allocated is freed. *)
Definition s2n_crypto_parameters_new : Cmd (option s2n_crypto_parameters) unit :=
  old <-- get_obj ;;
  ensure (match old with None => true | Some _ => false end) S2N_ERR_SAFETY ;;;
  m <-- try_local zero_blob (s2n_alloc sizeof_crypto_parameters ;;; s2n_blob_zero) ;;
  match fst m with
  | inr e => try_local (snd m) s2n_free ;;; fail e
  | inl _ =>
      r <-- try_local (CryptoParameters (data (snd m)) None zero_side zero_side) params_setup ;;
      match fst r with
      | inr e => try_local (snd r) s2n_crypto_parameters_free ;;; fail e
      | inl _ => put_obj (Some (snd r))
      end
  end.

Definition s2n_crypto_parameters_switch : Cmd record_conn unit :=
  c <-- get_obj ;;
  ensure (negb (params_is_null SecureParams c)) S2N_ERR_NULL ;;;
  ensure (negb (params_is_null InitialParams c)) S2N_ERR_NULL ;;;
  if bool_decide (mode (rbase c) = S2N_CLIENT) && bool_decide (conn_client c = InitialParams) then
    on_side SecureParams S2N_CLIENT zero_sequence ;;;
    modify (set_conn_client SecureParams)
  else if bool_decide (mode (rbase c) = S2N_SERVER) && bool_decide (conn_server c = InitialParams) then
    on_side SecureParams S2N_SERVER zero_sequence ;;;
    modify (set_conn_server SecureParams)
  else ret tt.
End Definitions.
End RecordState.
Export RecordState.
