(* ===== verification/RecordRead.v ===== *)
(** * Reading records

    tls/s2n_record_read.c with the files of the four kinds of ciphers
    (s2n_record_read_aead.c, _cbc.c, _composite.c, _stream.c), the associated
    data of tls/s2n_aead.c and the check of CBC records of tls/s2n_cbc.c.  The
    pointers to the IV, the MAC state, the sequence number and the key of one
    direction are given by the parameters [r] and the side [m] they belong to. *)
From S2P Require Import Prelude Errors CMem Platform Safety Blob Alloc Stuffer NetworkOrder HandshakeTables Connection.
From S2P Require Import Libcrypto Hash Hmac HmacTheorems Hkdf Ciphers CipherSuites RecordState.
Open Scope Z_scope.

Module RecordRead.

Definition S2N_TLS_PROTOCOL_VERSION_LEN : Z := 2.
Definition S2N_TLS_CONTENT_TYPE_LENGTH : Z := 1.
Definition S2N_TLS_RECORD_HEADER_LENGTH : Z := S2N_TLS_CONTENT_TYPE_LENGTH + S2N_TLS_PROTOCOL_VERSION_LEN + 2.
Definition S2N_TLS_SSLV2_HEADER_FLAG_UINT16 : Z := Z.shiftl 0x80 8.
Definition S2N_TLS_MAX_AAD_LEN : Z := S2N_TLS12_AAD_LEN.
Definition S2N_TLS13_AAD_LEN : Z := 5.
Definition S2N_MAXIMUM_INNER_PLAINTEXT_LENGTH : Z := Z.shiftl 1 14 + 1.
Definition S2N_MAX_DIGEST_LEN : Z := SHA512_DIGEST_LENGTH.

(** ** tls/s2n_aead.c: the associated data, in a blob of [ad_size] bytes *)

Definition s2n_aead_aad_init {X} (actual_protocol_version : Z) (sequence_number : list Z) (content_type record_length ad_size : Z)
    : Cmd X (list Z) :=
  ensure (S2N_TLS_MAX_AAD_LEN <=? ad_size) S2N_ERR_SAFETY ;;;
  let data := take (Z.to_nat S2N_TLS_SEQUENCE_NUM_LEN) sequence_number
    ++ [content_type; actual_protocol_version / 10; actual_protocol_version mod 10;
        Z.shiftr record_length 8; Z.land record_length 255] in
  ensure (zlen data <=? ad_size) S2N_ERR_SAFETY ;;;
  ret (data ++ repeat 0 (Z.to_nat (ad_size - zlen data))).

Definition s2n_tls13_aead_aad_init {X} (record_length tag_length ad_size : Z) : Cmd X (list Z) :=
  ensure (0 <? tag_length) S2N_ERR_SAFETY ;;;
  ensure (S2N_TLS13_AAD_LEN <=? ad_size) S2N_ERR_SAFETY ;;;
  let length := u16 (record_length + tag_length) in
  ensure (length <=? Z.shiftl 1 14 + 256) S2N_ERR_RECORD_LIMIT ;;;
  let data := [TLS_APPLICATION_DATA; 3; 3; Z.shiftr length 8; Z.land length 255] in
  ensure (zlen data <=? ad_size) S2N_ERR_SAFETY ;;;
  ret (data ++ repeat 0 (Z.to_nat (ad_size - zlen data))).

(** ** The IV of an AEAD record *)

(** [aad_iv[i] = aad_iv[i] ^ implicit_iv[i]] for the indices from [i] on. *)
Fixpoint xor_loop {X} (n : nat) (i : Z) (implicit_iv aad_iv : list Z) : Cmd X (list Z) :=
  match n with
  | O => ret aad_iv
  | S n' =>
      if (i <? zlen aad_iv) && (i <? zlen implicit_iv) then
        xor_loop n' (i + 1) implicit_iv (<[Z.to_nat i := Z.lxor (znth aad_iv i) (znth implicit_iv i)]> aad_iv)
      else undefined
  end.

(** The nonce when the sequence number is not in the record: the stuffer over
    the 16 bytes of [aad_iv] has 4 zeros and the sequence number, and the array
    is then combined with the implicit IV. *)
Definition implicit_nonce {X} (fixed_iv_size : Z) (implicit_iv sequence_number : list Z) : Cmd X (list Z) :=
  iv <-- local_write S2N_TLS_MAX_IV_LEN [] [0; 0; 0; 0] ;;
  iv <-- local_write S2N_TLS_MAX_IV_LEN iv sequence_number ;;
  aad_iv <-- xor_loop (Z.to_nat fixed_iv_size) 0 implicit_iv (iv ++ repeat 0 (Z.to_nat (S2N_TLS_MAX_IV_LEN - zlen iv))) ;;
  ret (take (length iv) aad_iv).

Definition has_flag (alg : s2n_record_algorithm) (f : Z) : bool := negb (Z.land (flags alg) f =? 0).

(** ** tls/s2n_cbc.c *)

(** The loop over the [n] bytes of the padding from index [j] on. *)
Fixpoint padding_loop {X} (n : nat) (data : option ptr) (i j cutoff padding_length mismatches : Z) : Cmd X Z :=
  match n with
  | O => ret mismatches
  | S n' =>
      let mask := if cutoff <=? i then 0xff else 0 in
      b <-- load_byte data j ;;
      padding_loop n' data (i + 1) (j + 1) cutoff padding_length (Z.lor mismatches (Z.land (Z.lxor b padding_length) mask))
  end.

Section Definitions.
Context `{HP : Platform} `{HL : Libcrypto} `{HD : Digests} `{HC : CipherEnv}.

Definition s2n_verify_cbc (actual_protocol_version : Z) (decrypted : s2n_blob) : Cmd s2n_hmac_state unit :=
  hmac <-- get_obj ;;
  let mac_digest_size := s2n_hmac_digest_size (mac_alg hmac) in
  ensure (mac_digest_size <? size decrypted) S2N_ERR_SAFETY ;;;
  let payload_and_padding_size := size decrypted - mac_digest_size in
  padding_length <-- load_byte (data decrypted) (size decrypted - 1) ;;
  let payload_length := Z.max (payload_and_padding_size - padding_length - 1) 0 in
  payload <-- load_buf (HeapBuf (data decrypted)) payload_length ;;
  s2n_hmac_update payload ;;;
  hmac <-- get_obj ;;
  let currently_in_hash_block := currently_in_hash_block hmac in
  ensure (mac_digest_size <=? S2N_MAX_DIGEST_LEN) S2N_ERR_SAFETY ;;;
  check_digest <-- s2n_hmac_digest_two_compression_rounds mac_digest_size ;;
  p <-- ptr_add (data decrypted) payload_length ;;
  eq <-- s2n_constant_time_equals (HeapBuf p) (LocalBuf check_digest) mac_digest_size ;;
  let mismatches := if eq then 0 else 1 in
  s2n_hmac_reset ;;;
  block <-- load_buf (HeapBuf (data decrypted)) currently_in_hash_block ;;
  s2n_hmac_update block ;;;
  p <-- ptr_add (data decrypted) (payload_length + mac_digest_size) ;;
  rest <-- load_buf (HeapBuf p) (size decrypted - payload_length - mac_digest_size - 1) ;;
  s2n_hmac_update rest ;;;
  if actual_protocol_version =? S2N_SSLv3 then ensure (mismatches =? 0) S2N_ERR_OK
  else
    let check := Z.min 255 (payload_and_padding_size - 1) in
    ensure (padding_length <=? check) S2N_ERR_SAFETY ;;;
    let cutoff := check - padding_length in
    mismatches <-- padding_loop (Z.to_nat check) (data decrypted) 0 (size decrypted - 1 - check) cutoff padding_length mismatches ;;
    ensure (mismatches =? 0) S2N_ERR_CBC_VERIFY.

(** ** tls/s2n_record_read.c: headers *)

(** The record type, the version of the client and the length of the rest. *)
Definition s2n_sslv2_record_header_parse : Cmd record_conn (Z * Z * Z) :=
  zoom header_in_lens (
    s <-- get_obj ;;
    ensure (S2N_TLS_RECORD_HEADER_LENGTH <=? s2n_stuffer_data_available s) S2N_ERR_BAD_MESSAGE ;;;
    fragment_length <-- s2n_stuffer_read_uint16 ;;
    ensure (negb (Z.land fragment_length S2N_TLS_SSLV2_HEADER_FLAG_UINT16 =? 0)) S2N_ERR_BAD_MESSAGE ;;;
    let fragment_length := Z.lxor fragment_length S2N_TLS_SSLV2_HEADER_FLAG_UINT16 in
    s <-- get_obj ;;
    ensure (s2n_stuffer_data_available s <=? fragment_length) S2N_ERR_BAD_MESSAGE ;;;
    let fragment_length := fragment_length - s2n_stuffer_data_available s in
    record_type <-- s2n_stuffer_read_uint8 ;;
    protocol_version <-- s2n_stuffer_read_bytes LocalDst S2N_TLS_PROTOCOL_VERSION_LEN ;;
    let client_protocol_version := u8 (znth protocol_version 0 * 10 + znth protocol_version 1) in
    s2n_stuffer_reread ;;;
    ret (record_type, client_protocol_version, fragment_length)).

(** The content type and the length of the fragment. *)
Definition s2n_record_header_parse : Cmd record_conn (Z * Z) :=
  c <-- get_obj ;;
  ensure (negb (s2n_stuffer_data_available (header_in c) <? S2N_TLS_RECORD_HEADER_LENGTH)) S2N_ERR_BAD_MESSAGE ;;;
  content_type <-- zoom header_in_lens s2n_stuffer_read_uint8 ;;
  protocol_version <-- zoom header_in_lens (s2n_stuffer_read_bytes LocalDst S2N_TLS_PROTOCOL_VERSION_LEN) ;;
  let version := u8 (znth protocol_version 0 * 10 + znth protocol_version 1) in
  c <-- get_obj ;;
  (if negb (record_version_recorded c) then
     modify (set_legacy_record_version version) ;;;
     modify (set_record_version_recorded true)
   else ret tt) ;;;
  ensure (negb (actual_protocol_version_established c && negb (Z.min (actual_protocol_version (rbase c)) S2N_TLS12 =? version)))
    S2N_ERR_BAD_MESSAGE ;;;
  fragment_length <-- zoom header_in_lens s2n_stuffer_read_uint16 ;;
  zoom header_in_lens s2n_stuffer_reread ;;;
  ret (content_type, fragment_length).

Definition s2n_is_tls13_plaintext_content (c : record_conn) (content_type : Z) : bool :=
  (actual_protocol_version (rbase c) =? S2N_TLS13) && ((content_type =? TLS_ALERT) || (content_type =? TLS_CHANGE_CIPHER_SPEC)).

(** A raw read as an argument: NULL when it fails. *)
Definition raw_read_ptr (l : lens record_conn s2n_stuffer) (n : Z) : Cmd record_conn (option ptr) :=
  r <-- attempt (zoom l (s2n_stuffer_raw_read n)) ;;
  ret (match r with inl p => p | inr _ => None end).

(** The stuffers are put back for reading the plaintext, after the IV if there is one to skip. *)
Definition align_stuffers (skip : option Z) (payload_length : Z) : Cmd record_conn unit :=
  zoom in_lens s2n_stuffer_reread ;;;
  zoom header_in_lens s2n_stuffer_reread ;;;
  (match skip with Some n => zoom in_lens (s2n_stuffer_skip_read n) | None => ret tt end) ;;;
  c <-- get_obj ;;
  zoom in_lens (s2n_stuffer_wipe_n (u32 (s2n_stuffer_data_available (in_stuffer (rbase c)) - payload_length))) ;;;
  modify (set_in_status PLAINTEXT).

(** ** tls/s2n_record_read_aead.c *)

Definition s2n_record_parse_aead (alg : s2n_record_algorithm) (record_iv_size fixed_iv_size tag_size : Z)
    (content_type encrypted_length : Z) (r : params_ref) (m : s2n_mode) : Cmd record_conn unit :=
  let is_tls13_record := has_flag alg S2N_TLS13_RECORD_AEAD_NONCE in
  let ad_size := if is_tls13_record then S2N_TLS13_AAD_LEN else S2N_TLS_MAX_AAD_LEN in
  p <-- raw_read_ptr in_lens encrypted_length ;;
  en <-- with_local zero_blob (s2n_blob_init p encrypted_length) ;;
  let en := snd en in
  ensure_ref (data en) ;;;
  ensure (record_iv_size <=? size en) S2N_ERR_SAFETY ;;;
  side <-- on_side r m get_obj ;;
  iv <-- (if has_flag alg S2N_TLS12_AES_GCM_AEAD_NONCE then
            iv <-- local_write S2N_TLS_MAX_IV_LEN [] (take (Z.to_nat fixed_iv_size) (implicit_iv side)) ;;
            explicit_iv <-- load_buf (HeapBuf (data en)) record_iv_size ;;
            local_write S2N_TLS_MAX_IV_LEN iv explicit_iv
          else if has_flag alg S2N_TLS12_CHACHA_POLY_AEAD_NONCE || is_tls13_record then
            implicit_nonce fixed_iv_size (implicit_iv side) (sequence_number side)
          else fail S2N_ERR_INVALID_NONCE_TYPE) ;;
  ensure (record_iv_size + tag_size <=? encrypted_length) S2N_ERR_SAFETY ;;;
  let payload_length := encrypted_length - record_iv_size - tag_size in
  c <-- get_obj ;;
  aad <-- (if is_tls13_record then s2n_tls13_aead_aad_init payload_length tag_size ad_size
           else s2n_aead_aad_init (actual_protocol_version (rbase c)) (sequence_number side) content_type payload_length ad_size) ;;
  d <-- ptr_add (data en) record_iv_size ;;
  let en := Blob d (size en - record_iv_size) (allocated en) (growable en) in
  ensure (negb (size en =? 0)) S2N_ERR_SAFETY ;;;
  on_side r m (zoom session_key_lens (aead_decrypt (cipher alg) iv aad en en)) ;;;
  on_side r m increment_sequence ;;;
  align_stuffers (if S2N_TLS12 <=? actual_protocol_version (rbase c) then Some record_iv_size else None) payload_length.

(** ** tls/s2n_record_read_stream.c, _cbc.c and _composite.c *)

(** The header with the length of the payload goes into the MAC. *)
Definition mac_header (header : option ptr) (payload_length : Z) (r : params_ref) (m : s2n_mode) : Cmd record_conn unit :=
  store_byte header 3 (Z.shiftr payload_length 8) ;;;
  store_byte header 4 (Z.land payload_length 0xff) ;;;
  on_side r m (zoom record_mac_lens s2n_hmac_reset) ;;;
  side <-- on_side r m get_obj ;;
  on_side r m (zoom record_mac_lens (s2n_hmac_update (take (Z.to_nat S2N_TLS_SEQUENCE_NUM_LEN) (sequence_number side)))) ;;;
  c <-- get_obj ;;
  if actual_protocol_version (rbase c) =? S2N_SSLv3 then
    bs <-- load_buf (HeapBuf header) 1 ;;
    on_side r m (zoom record_mac_lens (s2n_hmac_update bs)) ;;;
    h <-- ptr_add header 3 ;;
    bs <-- load_buf (HeapBuf h) 2 ;;
    on_side r m (zoom record_mac_lens (s2n_hmac_update bs))
  else
    bs <-- load_buf (HeapBuf header) S2N_TLS_RECORD_HEADER_LENGTH ;;
    on_side r m (zoom record_mac_lens (s2n_hmac_update bs)).

Definition s2n_record_parse_stream (alg : s2n_record_algorithm) (encrypted_length : Z) (r : params_ref) (m : s2n_mode) : Cmd record_conn unit :=
  header <-- raw_read_ptr header_in_lens S2N_TLS_RECORD_HEADER_LENGTH ;;
  ensure_ref header ;;;
  d <-- raw_read_ptr in_lens encrypted_length ;;
  let en := Blob d encrypted_length 0 false in
  ensure_ref d ;;;
  side <-- on_side r m get_obj ;;
  let mac_digest_size := s2n_hmac_digest_size (mac_alg (record_mac side)) in
  ensure (mac_digest_size <=? encrypted_length) S2N_ERR_SAFETY ;;;
  let payload_length := encrypted_length - mac_digest_size in
  on_side r m (zoom session_key_lens (stream_decrypt (cipher alg) en en)) ;;;
  mac_header header payload_length r m ;;;
  on_side r m increment_sequence ;;;
  payload <-- load_buf (HeapBuf d) payload_length ;;
  on_side r m (zoom record_mac_lens (s2n_hmac_update payload)) ;;;
  ensure (mac_digest_size <=? S2N_MAX_DIGEST_LEN) S2N_ERR_SAFETY ;;;
  check_digest <-- on_side r m (zoom record_mac_lens (s2n_hmac_digest mac_digest_size)) ;;
  p <-- ptr_add d payload_length ;;
  v <-- attempt (s2n_hmac_digest_verify (HeapBuf p) (LocalBuf check_digest) mac_digest_size) ;;
  (match v with inl _ => ret tt | inr _ => fail S2N_ERR_BAD_MESSAGE end) ;;;
  align_stuffers None payload_length.

(** [POSIX_GUARD(s2n_stuffer_read(&conn->in, &iv))] fills the implicit IV. *)
Definition read_explicit_iv (n : Z) (r : params_ref) (m : s2n_mode) : Cmd record_conn unit :=
  bs <-- zoom in_lens (s2n_stuffer_read_bytes LocalDst n) ;;
  on_side r m (modify (fun side => lset implicit_iv_lens (bs ++ drop (Z.to_nat n) (implicit_iv side)) side)).

Definition s2n_record_parse_cbc (alg : s2n_record_algorithm) (record_iv_size : Z) (encrypted_length : Z) (r : params_ref) (m : s2n_mode)
    : Cmd record_conn unit :=
  header <-- raw_read_ptr header_in_lens S2N_TLS_RECORD_HEADER_LENGTH ;;
  ensure_ref header ;;;
  ensure (record_iv_size <=? S2N_TLS_MAX_IV_LEN) S2N_ERR_SAFETY ;;;
  c <-- get_obj ;;
  let version := actual_protocol_version (rbase c) in
  encrypted_length <--
    (if S2N_TLS10 <? version then
       read_explicit_iv record_iv_size r m ;;;
       ensure (record_iv_size <=? encrypted_length) S2N_ERR_SAFETY ;;;
       ret (encrypted_length - record_iv_size)
     else ret encrypted_length) ;;
  d <-- raw_read_ptr in_lens encrypted_length ;;
  let en := Blob d encrypted_length 0 false in
  ensure_ref d ;;;
  side <-- on_side r m get_obj ;;
  let mac_digest_size := s2n_hmac_digest_size (mac_alg (record_mac side)) in
  ensure (mac_digest_size <=? encrypted_length) S2N_ERR_SAFETY ;;;
  let payload_length := encrypted_length - mac_digest_size in
  ensure (negb (size en =? 0)) S2N_ERR_SAFETY ;;;
  (if record_iv_size =? 0 then undefined else ret tt) ;;;
  ensure (size en mod record_iv_size =? 0) S2N_ERR_SAFETY ;;;
  ivpad <-- (if version <? S2N_TLS11 then
               p <-- ptr_add d (size en - record_iv_size) ;; checked_memcpy_out p record_iv_size
             else ret []) ;;
  side <-- on_side r m get_obj ;;
  on_side r m (zoom session_key_lens (cbc_decrypt (cipher alg) (take (Z.to_nat record_iv_size) (implicit_iv side)) en en)) ;;;
  (if version <? S2N_TLS11 then
     on_side r m (modify (fun side => lset implicit_iv_lens (ivpad ++ drop (Z.to_nat record_iv_size) (implicit_iv side)) side))
   else ret tt) ;;;
  ensure (0 <? size en) S2N_ERR_SAFETY ;;;
  padding_length <-- load_byte d (size en - 1) ;;
  out <-- s2n_sub_overflow payload_length (padding_length + 1) ;;
  let payload_length := u16 out in
  mac_header header payload_length r m ;;;
  on_side r m increment_sequence ;;;
  v <-- attempt (on_side r m (zoom record_mac_lens (s2n_verify_cbc version en))) ;;
  (match v with inl _ => ret tt | inr _ => fail S2N_ERR_BAD_MESSAGE end) ;;;
  align_stuffers (if S2N_TLS10 <? version then Some record_iv_size else None) payload_length.

Definition s2n_record_parse_composite (alg : s2n_record_algorithm) (record_iv_size : Z) (content_type encrypted_length : Z)
    (r : params_ref) (m : s2n_mode) : Cmd record_conn unit :=
  header <-- raw_read_ptr header_in_lens S2N_TLS_RECORD_HEADER_LENGTH ;;
  ensure_ref header ;;;
  d <-- raw_read_ptr in_lens encrypted_length ;;
  let en := Blob d encrypted_length 0 false in
  ensure_ref d ;;;
  side <-- on_side r m get_obj ;;
  let mac_digest_size := s2n_hmac_digest_size (mac_alg (record_mac side)) in
  ensure (mac_digest_size <=? encrypted_length) S2N_ERR_SAFETY ;;;
  let payload_length := encrypted_length - mac_digest_size in
  c <-- get_obj ;;
  let version := actual_protocol_version (rbase c) in
  mac_size <-- on_side r m (zoom session_key_lens (comp_initial_hmac (cipher alg) (sequence_number side) content_type version payload_length)) ;;
  ensure (mac_size <=? payload_length) S2N_ERR_SAFETY ;;;
  let payload_length := payload_length - mac_size in
  payload_length <-- (if S2N_TLS10 <? version then out <-- s2n_sub_overflow payload_length record_iv_size ;; ret (u16 out)
                      else ret payload_length) ;;
  ensure (negb (size en =? 0)) S2N_ERR_SAFETY ;;;
  (if record_iv_size =? 0 then undefined else ret tt) ;;;
  ensure (size en mod record_iv_size =? 0) S2N_ERR_SAFETY ;;;
  p <-- ptr_add d (size en - record_iv_size) ;;
  ivpad <-- checked_memcpy_out p record_iv_size ;;
  on_side r m (zoom session_key_lens (comp_decrypt (cipher alg) (take (Z.to_nat record_iv_size) (implicit_iv side)) en en)) ;;;
  on_side r m (modify (fun side => lset implicit_iv_lens (ivpad ++ drop (Z.to_nat record_iv_size) (implicit_iv side)) side)) ;;;
  ensure (0 <? size en) S2N_ERR_SAFETY ;;;
  padding_length <-- load_byte d (size en - 1) ;;
  out <-- s2n_sub_overflow payload_length (padding_length + 1) ;;
  let payload_length := u16 out in
  on_side r m increment_sequence ;;;
  align_stuffers (if S2N_TLS10 <? version then Some record_iv_size else None) payload_length.

(** ** tls/s2n_record_read.c: records *)

Definition s2n_record_parse : Cmd record_conn unit :=
  h <-- s2n_record_header_parse ;;
  let '(content_type, encrypted_length) := h in
  c <-- get_obj ;;
  let current_client_crypto := conn_client c in
  let current_server_crypto := conn_server c in
  (if s2n_is_tls13_plaintext_content c content_type then
     ensure (negb (params_is_null InitialParams c)) S2N_ERR_NULL ;;;
     modify (set_conn_client InitialParams) ;;;
     modify (set_conn_server InitialParams)
   else ret tt) ;;;
  c <-- get_obj ;;
  let '(r, m) := if bool_decide (mode (rbase c) = S2N_CLIENT) then (conn_server c, S2N_SERVER) else (conn_client c, S2N_CLIENT) in
  p <-- get_params r ;;
  (if s2n_is_tls13_plaintext_content c content_type then
     modify (set_conn_client current_client_crypto) ;;;
     modify (set_conn_server current_server_crypto)
   else ret tt) ;;;
  match params_alg p with
  | None => undefined
  | Some alg =>
      (if is_cipher (cipher alg) s2n_null_cipher then ensure (negb (content_type =? TLS_APPLICATION_DATA)) S2N_ERR_DECRYPT else ret tt) ;;;
      match io (cipher alg) with
      | S2N_AEAD record_iv_size fixed_iv_size tag_size =>
          s2n_record_parse_aead alg record_iv_size fixed_iv_size tag_size content_type encrypted_length r m
      | S2N_CBC block_size record_iv_size => s2n_record_parse_cbc alg record_iv_size encrypted_length r m
      | S2N_COMPOSITE block_size record_iv_size mac_key_size =>
          s2n_record_parse_composite alg record_iv_size content_type encrypted_length r m
      | S2N_STREAM => s2n_record_parse_stream alg encrypted_length r m
      end
  end.

(** The loop that removes the padding; [n] bounds the number of bytes. *)
Fixpoint record_type_loop (n : nat) (record_type : Z) : Cmd s2n_stuffer Z :=
  if negb (record_type =? 0) then ret record_type
  else
    match n with
    | O => undefined
    | S n' =>
        s2n_stuffer_rewind_read 1 ;;;
        record_type <-- s2n_stuffer_read_uint8 ;;
        s2n_stuffer_wipe_n 1 ;;;
        record_type_loop n' record_type
    end.

Definition s2n_tls13_parse_record_type : Cmd s2n_stuffer Z :=
  s <-- get_obj ;;
  let bytes_left := s2n_stuffer_data_available s in
  ensure (negb (S2N_MAXIMUM_INNER_PLAINTEXT_LENGTH + 16 <? bytes_left)) S2N_ERR_MAX_INNER_PLAINTEXT_SIZE ;;;
  s2n_stuffer_skip_read bytes_left ;;;
  record_type <-- record_type_loop (S (Z.to_nat (write_cursor s))) 0 ;;
  s2n_stuffer_reread ;;;
  s <-- get_obj ;;
  ensure (negb (S2N_MAXIMUM_INNER_PLAINTEXT_LENGTH - 1 <? s2n_stuffer_data_available s)) S2N_ERR_MAX_INNER_PLAINTEXT_SIZE ;;;
  ret record_type.

Definition s2n_record_wipe : Cmd record_conn unit :=
  zoom header_in_lens s2n_stuffer_wipe ;;;
  zoom in_lens s2n_stuffer_wipe ;;;
  modify (set_in_status ENCRYPTED) ;;;
  zoom in_lens s2n_stuffer_free ;;;
  modify (fun c => set_buffer_in (set_tainted false (buffer_in c)) c) ;;;
  c <-- get_obj ;;
  if s2n_stuffer_is_consumed (buffer_in c) then zoom buffer_in_lens s2n_stuffer_rewrite else ret tt.
End Definitions.
End RecordRead.
Export RecordRead.
