(* ===== verification/RecordWrite.v ===== *)
(** * Writing records: tls/s2n_record_write.c

    The sizes of records and the protection of one record.  The random bytes of
    the explicit IVs and the kernel's TLS are parameters. *)
From S2P Require Import Prelude Errors CMem Platform Safety Blob Alloc Stuffer NetworkOrder HandshakeTables Connection.
From S2P Require Import Libcrypto Hash Hmac HmacTheorems Hkdf Ciphers CipherSuites RecordState RecordRead.
Open Scope Z_scope.

Module RecordWrite.

Definition S2N_TLS_MAXIMUM_FRAGMENT_LENGTH : Z := Z.shiftl 1 14.
Definition S2N_TLS12_ENCRYPTION_OVERHEAD_SIZE : Z := 1024.
Definition S2N_TLS12_MAX_RECORD_LEN_FOR (frag : Z) : Z := frag + S2N_TLS12_ENCRYPTION_OVERHEAD_SIZE + S2N_TLS_RECORD_HEADER_LENGTH.
Definition S2N_TLS13_ENCRYPTION_OVERHEAD_SIZE : Z := 255.
Definition S2N_TLS13_MAX_RECORD_LEN_FOR (frag : Z) : Z :=
  frag + S2N_TLS_CONTENT_TYPE_LENGTH + S2N_TLS13_ENCRYPTION_OVERHEAD_SIZE + S2N_TLS_RECORD_HEADER_LENGTH.
Definition S2N_TLS13_MAXIMUM_RECORD_LENGTH : Z := S2N_TLS13_MAX_RECORD_LEN_FOR S2N_TLS_MAXIMUM_FRAGMENT_LENGTH.
Definition S2N_TLS_MAX_RECORD_LEN_FOR (frag : Z) : Z := S2N_TLS12_MAX_RECORD_LEN_FOR frag.
Definition S2N_TLS_MAXIMUM_RECORD_LENGTH : Z := S2N_TLS_MAX_RECORD_LEN_FOR S2N_TLS_MAXIMUM_FRAGMENT_LENGTH.
Definition ETH_MTU : Z := 1500.
Definition IP_V4_HEADER_LENGTH : Z := 20.
Definition IP_V6_HEADER_LENGTH : Z := 40.
Definition TCP_HEADER_LENGTH : Z := 20.
Definition TCP_OPTIONS_LENGTH : Z := 40.

Class RecordEnv `{Digests} `{CipherEnv} := {
  (** s2n_get_public_random_data: the bytes for a blob of the given size. *)
  s2n_get_public_random_data : Z -> Cmd record_conn (list Z);
  (** s2n_ktls_record_writev *)
  s2n_ktls_record_writev : Z -> list iovec -> Z -> Z -> Cmd record_conn Z;
}.

Section Definitions.
Context `{HP : Platform} `{HL : Libcrypto} `{HD : Digests} `{HC : CipherEnv} `{HR : !RecordEnv}.

(** The parameters this endpoint writes with, and its side of them. *)
Definition write_side (c : record_conn) : params_ref * s2n_mode :=
  if bool_decide (mode (rbase c) = S2N_CLIENT) then (conn_client c, S2N_CLIENT) else (conn_server c, S2N_SERVER).
Definition get_alg (r : params_ref) : Cmd record_conn s2n_record_algorithm :=
  p <-- get_params r ;;
  match params_alg p with Some alg => ret alg | None => undefined end.

Definition RECORD_TYPE (is_tls13_record : bool) (content_type : Z) : Z :=
  if is_tls13_record then TLS_APPLICATION_DATA else content_type.

(** A uint8_t is enough for the overhead of every cipher. *)
Definition record_overhead (alg : s2n_record_algorithm) (version : Z) : Z :=
  let extra := s2n_hmac_digest_size (hmac_alg alg) in
  match io (cipher alg) with
  | S2N_CBC _ record_iv_size =>
      let extra := u8 (extra + 1) in if S2N_TLS10 <? version then u8 (extra + record_iv_size) else extra
  | S2N_AEAD record_iv_size _ tag_size => u8 (u8 (extra + tag_size) + record_iv_size)
  | S2N_COMPOSITE _ record_iv_size _ => if S2N_TLS10 <? version then u8 (extra + record_iv_size) else extra
  | S2N_STREAM => extra
  end.
Definition s2n_tls_record_overhead : Cmd record_conn Z :=
  c <-- get_obj ;;
  alg <-- get_alg (fst (write_side c)) ;;
  ret (record_overhead alg (actual_protocol_version (rbase c))).

Definition s2n_record_max_write_size (max_fragment_size : Z) : Cmd record_conn Z :=
  c <-- get_obj ;;
  ret (u16 (if negb (IS_NEGOTIATED (rbase c)) then S2N_TLS_MAX_RECORD_LEN_FOR max_fragment_size
            else if actual_protocol_version (rbase c) <? S2N_TLS13 then S2N_TLS12_MAX_RECORD_LEN_FOR max_fragment_size
            else S2N_TLS13_MAX_RECORD_LEN_FOR max_fragment_size)).

Definition s2n_record_max_write_payload_size : Cmd record_conn Z :=
  c <-- get_obj ;;
  ensure (0 <? max_outgoing_fragment_length c) S2N_ERR_FRAGMENT_LENGTH_TOO_SMALL ;;;
  let max_fragment_size := Z.min (max_outgoing_fragment_length c) S2N_TLS_MAXIMUM_FRAGMENT_LENGTH in
  let send_buffer_override := send_buffer_size_override c in
  if negb (send_buffer_override =? 0) then
    max_record_size <-- s2n_record_max_write_size max_fragment_size ;;
    if send_buffer_override <? max_record_size then
      let overhead := u64 (max_record_size - max_fragment_size) in
      ensure (overhead <? send_buffer_override) S2N_ERR_SAFETY ;;;
      ret (u16 (send_buffer_override - overhead))
    else ret max_fragment_size
  else ret max_fragment_size.

Definition s2n_record_min_write_payload_size : Cmd record_conn Z :=
  c <-- get_obj ;;
  let min_outgoing_fragment_length :=
    u16 (ETH_MTU - (if ipv6 c then IP_V6_HEADER_LENGTH else IP_V4_HEADER_LENGTH) - TCP_HEADER_LENGTH - TCP_OPTIONS_LENGTH
         - S2N_TLS_RECORD_HEADER_LENGTH) in
  ensure (min_outgoing_fragment_length <=? S2N_TLS_MAXIMUM_FRAGMENT_LENGTH) S2N_ERR_FRAGMENT_LENGTH_TOO_LARGE ;;;
  let size := min_outgoing_fragment_length in
  alg <-- get_alg (fst (write_side c)) ;;
  size <-- match io (cipher alg) with
           | S2N_CBC block_size _ => if block_size =? 0 then undefined else ret (u16 (size - size mod block_size))
           | S2N_COMPOSITE block_size _ mac_key_size =>
               if block_size =? 0 then undefined else ret (u16 (u16 (u16 (size - size mod block_size) - mac_key_size) - 1))
           | _ => ret size
           end ;;
  size <-- (if S2N_TLS13 <=? actual_protocol_version (rbase c) then
              ensure (S2N_TLS_CONTENT_TYPE_LENGTH <? size) S2N_ERR_FRAGMENT_LENGTH_TOO_SMALL ;;;
              ret (size - S2N_TLS_CONTENT_TYPE_LENGTH)
            else ret size) ;;
  overhead <-- s2n_tls_record_overhead ;;
  ensure (overhead <? size) S2N_ERR_FRAGMENT_LENGTH_TOO_SMALL ;;;
  let size := size - overhead in
  ensure (0 <? size) S2N_ERR_FRAGMENT_LENGTH_TOO_SMALL ;;;
  ensure (size <=? ETH_MTU) S2N_ERR_FRAGMENT_LENGTH_TOO_LARGE ;;;
  ret size.

(** The version of the record header; the state is the stuffer. *)
Definition record_version (c : record_conn) (record_type : Z) : Z :=
  let v := actual_protocol_version (rbase c) in
  let v := if (server_protocol_version (rbase c) =? S2N_UNKNOWN_PROTOCOL_VERSION) && (record_type =? TLS_HANDSHAKE)
           then Z.min v S2N_TLS10 else v in
  let v := Z.min v S2N_TLS12 in
  if v =? S2N_UNKNOWN_PROTOCOL_VERSION then S2N_TLS10 else v.
Definition s2n_record_write_protocol_version (c : record_conn) (record_type : Z) : Cmd s2n_stuffer unit :=
  let v := record_version c record_type in
  s2n_stuffer_write_bytes (LocalBuf [v / 10; v mod 10]) S2N_TLS_PROTOCOL_VERSION_LEN.

(** The last block of the ciphertext becomes the next IV. *)
Definition next_iv (en : s2n_blob) (block_size : Z) : Cmd crypto_side unit :=
  ensure (block_size <=? size en) S2N_ERR_SAFETY ;;;
  p <-- ptr_add (data en) (size en - block_size) ;;
  bs <-- checked_memcpy_out p block_size ;;
  modify (fun side => lset implicit_iv_lens (bs ++ drop (Z.to_nat block_size) (implicit_iv side)) side).

Definition s2n_record_encrypt (alg : s2n_record_algorithm) (version : Z) (iv aad : list Z) (en : s2n_blob) (block_size : Z)
    : Cmd crypto_side unit :=
  ensure_ref (data en) ;;;
  match io (cipher alg) with
  | S2N_STREAM => zoom session_key_lens (stream_encrypt (cipher alg) en en)
  | S2N_CBC _ _ =>
      zoom session_key_lens (cbc_encrypt (cipher alg) iv en en) ;;;
      if version <? S2N_TLS11 then next_iv en block_size else ret tt
  | S2N_AEAD _ _ _ => zoom session_key_lens (aead_encrypt (cipher alg) iv aad en en)
  | S2N_COMPOSITE _ _ _ =>
      zoom session_key_lens (comp_encrypt (cipher alg) iv en en) ;;;
      next_iv en block_size
  end.

(** The connection with the stuffer of the record. *)
Abbreviation with_record := (Cmd (record_conn * s2n_stuffer)).
Definition conn_lens : lens (record_conn * s2n_stuffer) record_conn := fst_lens.
Definition record_lens : lens (record_conn * s2n_stuffer) s2n_stuffer := snd_lens.

(** The number of bytes written. *)
Definition s2n_record_write_mac (header plaintext : s2n_blob) : with_record Z :=
  c <-- zoom conn_lens get_obj ;;
  ensure (negb (params_is_null (conn_server c) c)) S2N_ERR_NULL ;;;
  ensure (negb (params_is_null (conn_client c) c)) S2N_ERR_NULL ;;;
  let '(r, m) := write_side c in
  let on_mac {A} (k : Cmd s2n_hmac_state A) := zoom conn_lens (on_side r m (zoom record_mac_lens k)) in
  p <-- zoom conn_lens (get_params r) ;;
  match params_alg p with
  | None => fail S2N_ERR_NULL
  | Some alg =>
      if bool_decide (hmac_alg alg = S2N_HMAC_NONE) then ret 0
      else
        on_mac (s2n_hmac_update (take (Z.to_nat S2N_TLS_SEQUENCE_NUM_LEN) (sequence_number (lget (side_lens m) p)))) ;;;
        type_byte <-- load_buf (HeapBuf (data header)) 1 ;;
        on_mac (s2n_hmac_update type_byte) ;;;
        h <-- ptr_add (data header) 1 ;;
        version_bytes <-- load_buf (HeapBuf h) S2N_TLS_PROTOCOL_VERSION_LEN ;;
        (if S2N_SSLv3 <? actual_protocol_version (rbase c) then on_mac (s2n_hmac_update version_bytes) else ret tt) ;;;
        on_mac (s2n_hmac_update (be_bytes 2 (u16 (size plaintext)))) ;;;
        bs <-- load_buf (HeapBuf (data plaintext)) (size plaintext) ;;
        on_mac (s2n_hmac_update bs) ;;;
        mac <-- on_mac get_obj ;;
        let mac_digest_size := s2n_hmac_digest_size (mac_alg mac) in
        d <-- attempt (zoom record_lens (s2n_stuffer_raw_write mac_digest_size)) ;;
        match d with
        | inl (Some q) =>
            digest <-- on_mac (s2n_hmac_digest mac_digest_size) ;;
            store q digest ;;;
            on_mac s2n_hmac_reset ;;;
            ret mac_digest_size
        | _ => fail S2N_ERR_NULL
        end
  end.

(** The IV and the associated data of an AEAD record; with a partially explicit
    nonce the sequence number goes into the record. *)
Definition aead_iv_aad (alg : s2n_record_algorithm) (fixed_iv_size tag_size content_type data_bytes_to_take : Z)
    (r : params_ref) (m : s2n_mode) : with_record (list Z * list Z) :=
  let is_tls13_record := has_flag alg S2N_TLS13_RECORD_AEAD_NONCE in
  let ad_size := if is_tls13_record then S2N_TLS13_AAD_LEN else S2N_TLS_MAX_AAD_LEN in
  c <-- zoom conn_lens get_obj ;;
  side <-- zoom conn_lens (on_side r m get_obj) ;;
  iv <-- (if has_flag alg S2N_TLS12_AES_GCM_AEAD_NONCE then
            zoom record_lens (s2n_stuffer_write_bytes (LocalBuf (sequence_number side)) S2N_TLS_SEQUENCE_NUM_LEN) ;;;
            iv <-- local_write S2N_TLS_MAX_IV_LEN [] (take (Z.to_nat fixed_iv_size) (implicit_iv side)) ;;
            local_write S2N_TLS_MAX_IV_LEN iv (sequence_number side)
          else if has_flag alg S2N_TLS12_CHACHA_POLY_AEAD_NONCE || is_tls13_record then
            implicit_nonce fixed_iv_size (implicit_iv side) (sequence_number side)
          else fail S2N_ERR_INVALID_NONCE_TYPE) ;;
  aad <-- (if is_tls13_record then s2n_tls13_aead_aad_init (u16 (data_bytes_to_take + S2N_TLS_CONTENT_TYPE_LENGTH)) tag_size ad_size
           else s2n_aead_aad_init (actual_protocol_version (rbase c)) (sequence_number side) content_type data_bytes_to_take ad_size) ;;
  ret (iv, aad).

(** The IV of a CBC record: random from TLS1.1 on, and in the record (for a
    composite cipher with a block of its own). *)
Definition cbc_iv (composite : bool) (block_size : Z) (r : params_ref) (m : s2n_mode) : with_record (list Z * list Z) :=
  c <-- zoom conn_lens get_obj ;;
  (if S2N_TLS10 <? actual_protocol_version (rbase c) then
     bs <-- zoom conn_lens (s2n_get_public_random_data block_size) ;;
     zoom conn_lens (on_side r m (modify (fun side => lset implicit_iv_lens (bs ++ drop (Z.to_nat block_size) (implicit_iv side)) side))) ;;;
     if composite then
       explicit_iv_placeholder <-- zoom conn_lens (s2n_get_public_random_data block_size) ;;
       zoom record_lens (s2n_stuffer_write_bytes (LocalBuf explicit_iv_placeholder) block_size)
     else zoom record_lens (s2n_stuffer_write_bytes (LocalBuf bs) block_size)
   else ret tt) ;;;
  side <-- zoom conn_lens (on_side r m get_obj) ;;
  ret (take (Z.to_nat block_size) (implicit_iv side), []).

(** The padding of [n] more bytes. *)
Fixpoint padding_write_loop (n : nat) (padding : Z) : Cmd s2n_stuffer unit :=
  match n with
  | O => ret tt
  | S n' => s2n_stuffer_write_uint8 padding ;;; padding_write_loop n' padding
  end.

(** Where the encryption starts in the record, and how many bytes it covers. *)
Definition skip_to_encrypt (alg : s2n_record_algorithm) (version block_size padding extra data_bytes_to_take mac_digest_size : Z)
    : Cmd s2n_stuffer Z :=
  let encrypted_length := u16 (data_bytes_to_take + mac_digest_size) in
  match io (cipher alg) with
  | S2N_AEAD record_iv_size _ tag_size =>
      s2n_stuffer_skip_write record_iv_size ;;;
      let encrypted_length := u16 (encrypted_length + tag_size) in
      ret (if has_flag alg S2N_TLS13_RECORD_AEAD_NONCE then u16 (encrypted_length + S2N_TLS_CONTENT_TYPE_LENGTH) else encrypted_length)
  | S2N_CBC _ _ =>
      (if S2N_TLS10 <? version then s2n_stuffer_skip_write block_size else ret tt) ;;;
      ret (u16 (encrypted_length + (padding + 1)))
  | S2N_COMPOSITE _ _ _ => ret (u16 (encrypted_length + extra))
  | S2N_STREAM => ret encrypted_length
  end.

(** The record of [data_bytes_to_take] bytes, in the stuffer of the record. *)
Definition write_record (alg : s2n_record_algorithm) (content_type : Z) (iov : list iovec) (offs data_bytes_to_take : Z)
    (extra padding block_size : Z) (r : params_ref) (m : s2n_mode) : with_record unit :=
  c <-- zoom conn_lens get_obj ;;
  let version := actual_protocol_version (rbase c) in
  let is_tls13_record := has_flag alg S2N_TLS13_RECORD_AEAD_NONCE in
  rec <-- zoom record_lens get_obj ;;
  let record_blob := blob rec in
  let record_type := RECORD_TYPE is_tls13_record content_type in
  zoom record_lens (s2n_stuffer_write_uint8 record_type) ;;;
  zoom record_lens (s2n_record_write_protocol_version c record_type) ;;;
  extra <-- match io (cipher alg) with
            | S2N_COMPOSITE _ _ _ =>
                let payload_and_eiv_len := if S2N_TLS10 <? version then u16 (data_bytes_to_take + block_size) else data_bytes_to_take in
                side <-- zoom conn_lens (on_side r m get_obj) ;;
                pad_and_mac_len <-- zoom conn_lens (on_side r m (zoom session_key_lens
                  (comp_initial_hmac (cipher alg) (sequence_number side) content_type version payload_and_eiv_len))) ;;
                ret (u16 (extra + pad_and_mac_len))
            | _ => ret extra
            end ;;
  let extra := if is_tls13_record then u16 (extra + S2N_TLS_CONTENT_TYPE_LENGTH) else extra in
  let actual_fragment_length := u16 (data_bytes_to_take + padding + extra) in
  let max_record_length := if is_tls13_record then S2N_TLS13_MAXIMUM_RECORD_LENGTH else S2N_TLS_MAXIMUM_RECORD_LENGTH in
  ensure (negb (max_record_length <? actual_fragment_length + S2N_TLS_RECORD_HEADER_LENGTH)) S2N_ERR_RECORD_LENGTH_TOO_LARGE ;;;
  zoom record_lens (s2n_stuffer_write_uint16 actual_fragment_length) ;;;
  iv_aad <-- match io (cipher alg) with
             | S2N_AEAD _ fixed_iv_size tag_size => aead_iv_aad alg fixed_iv_size tag_size content_type data_bytes_to_take r m
             | S2N_CBC _ _ => cbc_iv false block_size r m
             | S2N_COMPOSITE _ _ _ => cbc_iv true block_size r m
             | S2N_STREAM => ret ([], [])
             end ;;
  zoom record_lens (s2n_stuffer_writev_bytes iov offs data_bytes_to_take) ;;;
  rec <-- zoom record_lens get_obj ;;
  orig_write_ptr <-- ptr_add (data (blob rec)) (write_cursor rec - data_bytes_to_take) ;;
  header_blob <-- with_local zero_blob (s2n_blob_slice record_blob 0 S2N_TLS_RECORD_HEADER_LENGTH) ;;
  plaintext_blob <-- with_local zero_blob (s2n_blob_init orig_write_ptr data_bytes_to_take) ;;
  mac_digest_size <-- s2n_record_write_mac (snd header_blob) (snd plaintext_blob) ;;
  zoom conn_lens (on_side r m increment_sequence) ;;;
  (if is_tls13_record then zoom record_lens (s2n_stuffer_write_uint8 content_type) else ret tt) ;;;
  (match io (cipher alg) with
   | S2N_CBC _ _ => zoom record_lens (padding_write_loop (S (Z.to_nat padding)) padding)
   | _ => ret tt
   end) ;;;
  zoom record_lens s2n_stuffer_rewrite ;;;
  zoom record_lens (s2n_stuffer_skip_write S2N_TLS_RECORD_HEADER_LENGTH) ;;;
  encrypted_length <-- zoom record_lens (skip_to_encrypt alg version block_size padding extra data_bytes_to_take mac_digest_size) ;;
  rec <-- zoom record_lens get_obj ;;
  ensure (negb (s2n_stuffer_space_remaining rec <? encrypted_length)) S2N_ERR_RECORD_STUFFER_SIZE ;;;
  d <-- attempt (zoom record_lens (s2n_stuffer_raw_write encrypted_length)) ;;
  let en := Blob (match d with inl p => p | inr _ => None end) encrypted_length 0 false in
  zoom conn_lens (on_side r m (s2n_record_encrypt alg version (fst iv_aad) (snd iv_aad) en block_size)).

(** The record is built in the free memory of [conn->out]. *)
Definition in_out_stuffer (k : with_record unit) : Cmd record_conn unit :=
  c <-- get_obj ;;
  let out := out_stuffer (rbase c) in
  d <-- ptr_add (data (blob out)) (write_cursor out) ;;
  b <-- with_local zero_blob (s2n_blob_init d (s2n_stuffer_space_remaining out)) ;;
  rec <-- with_local zero_stuffer (s2n_stuffer_init (snd b)) ;;
  p <-- (fun '(w, c) => let '(o, (w', (c', s'))) := k (w, (c, snd rec)) in
         (match o with Ok _ => Ok s' | Err e => Err e | UB => UB end, (w', c'))) ;;
  zoom out_lens (s2n_stuffer_skip_write (s2n_stuffer_data_available p)).

Definition is_tls13_ccs (c : record_conn) (content_type : Z) : bool :=
  (actual_protocol_version (rbase c) =? S2N_TLS13) && (content_type =? TLS_CHANGE_CIPHER_SPEC).

Definition s2n_stuffer_is_freed (s : s2n_stuffer) : bool := is_null (data (blob s)).

(** The number of bytes taken from the input. *)
Definition s2n_record_writev (content_type : Z) (iov : list iovec) (offs to_write : Z) : Cmd record_conn Z :=
  c0 <-- get_obj ;;
  if ktls_send_enabled c0 then s2n_ktls_record_writev content_type iov offs to_write
  else
    (if is_tls13_ccs c0 content_type then
       ensure (negb (params_is_null InitialParams c0)) S2N_ERR_NULL ;;;
       modify (set_conn_client InitialParams) ;;;
       modify (set_conn_server InitialParams)
     else ret tt) ;;;
    c <-- get_obj ;;
    let '(r, m) := write_side c in
    alg <-- get_alg r ;;
    (if is_cipher (cipher alg) s2n_null_cipher then ensure (negb (content_type =? TLS_APPLICATION_DATA)) S2N_ERR_ENCRYPT else ret tt) ;;;
    (if negb (multirecord_send c) then
       ensure (s2n_stuffer_data_available (out_stuffer (rbase c)) =? 0) S2N_ERR_RECORD_STUFFER_NEEDS_DRAINING
     else ret tt) ;;;
    max_write_payload_size <-- s2n_record_max_write_payload_size ;;
    let data_bytes_to_take := u16 (Z.min to_write max_write_payload_size) in
    extra <-- s2n_tls_record_overhead ;;
    let block_size := match io (cipher alg) with S2N_CBC block_size _ | S2N_COMPOSITE block_size _ _ => block_size | _ => 0 end in
    padding <-- match io (cipher alg) with
                | S2N_CBC _ _ =>
                    if block_size =? 0 then undefined
                    else
                      let over := (data_bytes_to_take + extra) mod block_size in
                      ret (if negb (over =? 0) then u8 (block_size - over) else 0)
                | _ => ret 0
                end ;;
    (if s2n_stuffer_is_freed (out_stuffer (rbase c)) then
       max_wire_record_size <-- s2n_record_max_write_size max_write_payload_size ;;
       zoom out_lens (s2n_stuffer_growable_alloc (Z.max (send_buffer_size_override c) max_wire_record_size))
     else ret tt) ;;;
    in_out_stuffer (write_record alg content_type iov offs data_bytes_to_take extra padding block_size r m) ;;;
    (if is_tls13_ccs c content_type then
       modify (set_conn_client (conn_client c0)) ;;;
       modify (set_conn_server (conn_server c0))
     else ret tt) ;;;
    ret data_bytes_to_take.

Definition s2n_record_write (content_type : Z) (in_ : s2n_blob) : Cmd record_conn unit :=
  written <-- s2n_record_writev content_type [Iovec (HeapBuf (data in_)) (size in_)] 0 (size in_) ;;
  ensure (written =? size in_) S2N_ERR_FRAGMENT_LENGTH_TOO_LARGE.
End Definitions.
End RecordWrite.
Export RecordWrite.
