(* ===== verification/RecordCbc.v ===== *)
(** * The check of CBC records

    [cbc_ok] says what a CBC record must look like after decryption: data, MAC,
    padding, length of the padding.  s2n_verify_cbc (tls/s2n_cbc.c) decides it
    without branching on the padding. *)
From S2P Require Import Prelude Errors CMem Platform Safety Blob Alloc Connection Libcrypto Hash Hmac HmacTheorems Ciphers RecordState RecordRead.
Open Scope Z_scope.

Module RecordCbc.

Section Spec.
Context `{HD : Digests}.

(** A record [D] whose MAC covers [m] (the sequence number and the header)
    before the data.  SSLv3 does not fix the bytes of the padding. *)
Definition cbc_ok (version : Z) (alg : s2n_hmac_algorithm) (key m D : list Z) : bool :=
  let mac := s2n_hmac_digest_size alg in
  let padding := znth D (zlen D - 1) in
  let payload := Z.max (zlen D - mac - 1 - padding) 0 in
  (mac <? zlen D) &&
  bool_decide (zslice D payload mac = hmac alg key (m ++ zslice D 0 payload)) &&
  ((version =? S2N_SSLv3) ||
   (padding <=? zlen D - mac - 1) && forallb (Z.eqb padding) (zslice D (zlen D - 1 - padding) padding)).

(** The MAC state stands after the sequence number and the header. *)
Definition at_header (alg : s2n_hmac_algorithm) (key m : list Z) : Prop :=
  if is_sslv3_mac alg then zlen key = s2n_hmac_digest_size alg /\ zlen m = 11 else zlen m = 13.
End Spec.

Section Theorems.
Context `{HP : Platform} `{HL : Libcrypto} `{HD : Digests} `{HOK : !DigestsOk} `{HC : CipherEnv}.
Implicit Types (alg : s2n_hmac_algorithm) (key m D : list Z).

Lemma wp_load_at {X} q n w (x : X) Q E :
  valid_access (hp w) q n -> Q (bytes_at (hp w) q n) w x -> wp (load_buf (HeapBuf (Some q)) n) (w, x) Q E.
Proof. intros Hv HQ. simpl. by apply wp_load. Qed.

Section Record.
Context (w : world) (p : ptr) (n : Z) (Hheap : heap_ok (hp w)) (Hv : valid_access (hp w) p n).
Abbreviation D := (bytes_at (hp w) p n).

Lemma record_len : zlen D = n.
Proof using Hv. destruct Hv as (l & _ & _ & Hn & _). by apply zlen_bytes_at. Qed.

Lemma wp_record_byte {X} i (x : X) Q E :
  0 <= i < n -> Q (znth D i) w x -> wp (load_byte (Some p) i) (w, x) Q E.
Proof using Hv.
  intros Hi HQ. assert (valid_access (hp w) (Ptr (blk p) (off p + i)) 1) as Hv1 by (eapply valid_access_sub; [done|lia..]).
  apply wp_load_byte; [done|]. rewrite (bytes_at_sub _ _ n) by (done || lia). rewrite znth_zslice by lia. by rewrite Z.add_0_r.
Qed.

Lemma wp_record_part {X} i k (x : X) Q E :
  0 <= i -> 0 <= k -> i + k <= n -> Q (zslice D i k) w x ->
  wp (load_buf (HeapBuf (Some (Ptr (blk p) (off p + i)))) k) (w, x) Q E.
Proof using Hv.
  intros Hi Hk Hle HQ. apply wp_load_at; [eapply valid_access_sub; [done|lia..]|]. by rewrite (bytes_at_sub _ _ n) by (done || lia).
Qed.

Lemma wp_record_head {X} k (x : X) Q E :
  0 <= k <= n -> Q (zslice D 0 k) w x -> wp (load_buf (HeapBuf (Some p)) k) (w, x) Q E.
Proof using Hv.
  intros Hk HQ. pose proof (wp_record_part 0 k x Q E) as Hp. rewrite Z.add_0_r in Hp.
  replace (Ptr (blk p) (off p)) with p in Hp by (by destruct p). apply Hp; (done || lia).
Qed.

Lemma padding_loop_wp {X} k : forall i j cutoff padding mis (x : X) Q E,
  0 <= j -> j + Z.of_nat k <= n -> is_u8 padding ->
  (forall mis', (mis' = 0 <-> mis = 0 /\ forall t, 0 <= t < Z.of_nat k -> cutoff <= i + t -> znth D (j + t) = padding) -> Q mis' w x) ->
  wp (padding_loop k (Some p) i j cutoff padding mis) (w, x) Q E.
Proof using Hheap Hv.
  induction k as [|k IH]; intros i j cutoff padding mis x Q E Hj Hle Hp HQ.
  { apply wp_ret, HQ. split; [intros ->; split; [done|lia]|by intros [? _]]. }
  apply wp_bind, wp_record_byte; [lia|]. apply IH; [lia|lia|done|]. intros mis' Hmis. apply HQ. rewrite Hmis, Z.lor_eq_0_iff.
  assert (Hb : is_u8 (znth D j)) by (apply znth_is_u8, bytes_at_is_bytes; done). unfold is_u8 in *.
  assert (Hx : Z.land (Z.lxor (znth D j) padding) (if cutoff <=? i then 0xff else 0) = 0 <-> (cutoff <= i -> znth D j = padding)).
  { destruct (Z.leb_spec cutoff i) as [Hc|Hc]; [|rewrite Z.land_0_r; split; [lia|done]].
    change 0xff with (Z.ones 8). rewrite Z.land_ones by lia.
    assert (Hr : is_u8 (Z.lxor (znth D j) padding)) by (by apply is_u8_lxor). unfold is_u8 in Hr.
    rewrite Z.mod_small by (change (2 ^ 8) with 256; lia). rewrite Z.lxor_eq_0_iff. split; [done|]. intros H. by apply H. }
  rewrite Hx. split.
  - intros [[-> H0] Ht]. split; [done|]. intros t Htk Hc. destruct (Z.eq_dec t 0) as [->|Hne].
    + rewrite Z.add_0_r in *. by apply H0.
    + specialize (Ht (t - 1)). replace (j + 1 + (t - 1)) with (j + t) in Ht by lia. apply Ht; lia.
  - intros [-> Ht]. split_goal; [done| |].
    + intros Hc. specialize (Ht 0). rewrite !Z.add_0_r in Ht. apply Ht; lia.
    + intros t Htk Hc. replace (j + 1 + t) with (j + (t + 1)) by lia. apply Ht; lia.
Qed.

Lemma forallb_padding padding : 0 <= padding <= n - 1 ->
  forallb (Z.eqb padding) (zslice D (n - 1 - padding) padding) = true <->
  forall t, 0 <= t < padding -> znth D (n - 1 - padding + t) = padding.
Proof using Hv.
  intros Hp. pose proof record_len as Hl. rewrite forallb_forall. split.
  - intros Hall t Ht. rewrite <- (znth_zslice D (n - 1 - padding) padding) by lia. symmetry. apply Z.eqb_eq, Hall.
    unfold znth. apply nth_In. pose proof (zlen_zslice D (n - 1 - padding) padding ltac:(lia) ltac:(lia) ltac:(lia)) as Hz. unfold zlen in Hz. lia.
  - intros Hall b Hb. apply (In_nth _ _ 0) in Hb as (t & Ht & <-).
    pose proof (zlen_zslice D (n - 1 - padding) padding ltac:(lia) ltac:(lia) ltac:(lia)) as Hz. unfold zlen in Hz.
    apply Z.eqb_eq. rewrite <- (Hall (Z.of_nat t)) at 1 by lia. rewrite <- (znth_zslice D (n - 1 - padding) padding) by lia.
    unfold znth. by rewrite Nat2Z.id.
Qed.

(** The second MAC reads as many bytes as are in the current block; these are
    always in the record. *)
Lemma block_in_record alg key m k (s : s2n_hmac_state) :
  mac_is alg key (Some (m ++ zslice D 0 k)) s -> at_header alg key m -> 0 < s2n_hmac_digest_size alg -> 0 <= k ->
  k <= n - s2n_hmac_digest_size alg - 1 ->
  0 <= currently_in_hash_block s <= n.
Proof using Hv HOK.
  intros [_ [_ Hcnt]] Hm Hmac Hk Hle. pose proof (block_size_pos alg) as Hb.
  pose proof record_len as Hl. assert (Hslice : zlen (zslice D 0 k) = k) by (apply zlen_zslice; lia).
  rewrite !zlen_app, Hslice in Hcnt. rewrite Hcnt. pose proof (Z.mod_pos_bound (zlen (inner_key alg key) + (zlen m + k)) _ (proj1 Hb)).
  split; [lia|]. unfold at_header, inner_key in *. destruct (is_sslv3_mac alg) eqn:Hssl.
  - destruct Hm as [Hkey Hm]. rewrite zlen_app, Hkey, zlen_repeat by (by destruct alg). pose proof (zlen_nonneg m).
    assert (Hmod : forall a b, 0 <= b -> (64 + a + b) mod 64 <= a + b \/ a < 0).
    { intros a b Hb0. destruct (Z.le_gt_cases 0 a); [left|by right]. replace (64 + a + b) with ((a + b) + 1 * 64) by lia.
      rewrite Z.mod_add by lia. apply Z.mod_le; lia. }
    destruct alg; try discriminate Hssl; cbv [s2n_hmac_digest_size s2n_hash_digest_size s2n_hmac_hash_alg s2n_hmac_xor_pad_size s2n_hmac_hash_block_size MD5_DIGEST_LENGTH SHA_DIGEST_LENGTH] in *.
    + specialize (Hmod (zlen m) k Hk). replace (16 + 48 + (zlen m + k)) with (64 + zlen m + k) by lia. lia.
    + replace (20 + 40 + (zlen m + k)) with (60 + zlen m + k) by lia. 
      replace (60 + zlen m + k) with ((zlen m + k - 4) + 1 * 64) by lia. rewrite Z.mod_add by lia.
      pose proof (Z.mod_le (zlen m + k - 4) 64 ltac:(lia) ltac:(lia)). lia.
  - assert (Hx : zlen (xor_with 0x36 (block_key alg key)) = s2n_hmac_xor_pad_size alg).
    { unfold xor_with, zlen. rewrite length_map. fold (zlen (block_key alg key)). by apply zlen_block_key. }
    rewrite Hx. pose proof (zlen_nonneg m). assert (Hpad : s2n_hmac_xor_pad_size alg = s2n_hmac_hash_block_size alg \/ s2n_hmac_digest_size alg = 0).
    { by destruct alg; try discriminate Hssl; vm_compute; auto. }
    destruct Hpad as [Hpad|?]; [|lia]. rewrite Hpad.
    replace (s2n_hmac_hash_block_size alg + (zlen m + k)) with ((zlen m + k) + 1 * s2n_hmac_hash_block_size alg) by lia.
    rewrite Z.mod_add by lia. pose proof (Z.mod_le (zlen m + k) (s2n_hmac_hash_block_size alg) ltac:(lia) ltac:(lia)).
    assert (16 <= s2n_hmac_digest_size alg) by (destruct alg; vm_compute in Hmac |- *; congruence). lia.
Qed.

Lemma wp_mac_equals {X} k mac d (x : X) Q E :
  0 <= k -> 0 < mac -> k + mac <= n -> zlen d = mac -> is_bytes d ->
  Q (bool_decide (zslice D k mac = d)) w x ->
  wp (s2n_constant_time_equals (HeapBuf (Some (Ptr (blk p) (off p + k)))) (LocalBuf d) mac) (w, x) Q E.
Proof using Hheap Hv.
  intros Hk Hmac Hle Hd Hb HQ.
  assert (Hvk : valid_access (hp w) (Ptr (blk p) (off p + k)) mac) by (eapply valid_access_sub; [done|lia..]).
  eapply wp_run; [apply (constant_time_equals_eq _ _ _ (Some (zslice D k mac)) (Some d)); [done|..]|done].
  - rewrite <- (bytes_at_sub _ _ n) by (done || lia). unfold operand, buf_is.
    split_goal; [by apply zlen_bytes_at|done|done|by apply bytes_at_is_bytes|done].
  - unfold operand, buf_is. split_goal; [done|lia|rewrite <- Hd; apply zslice_full|done|done].
Qed.

Lemma wp_verify_cbc version alg key m al g s Q E :
  mac_is alg key (Some m) s -> at_header alg key m -> 0 < s2n_hmac_digest_size alg -> zlen key < 2 ^ 32 -> n <= MAX_UPDATE ->
  (forall s', keyed alg key s' -> cbc_ok version alg key m D = true -> Q tt w s') ->
  (forall e s', cbc_ok version alg key m D = false \/ hash_failure w e -> E e w s') ->
  wp (s2n_verify_cbc version (Blob (Some p) n al g)) (w, s) Q E.
Proof using Hheap Hv HOK.
  intros Hs Hm Hmac Hkey Hn HQ HE. destruct (key_lengths alg key Hkey) as [Hil Hol]. pose proof (digest_size_range alg) as Hds.
  pose proof record_len as Hl. pose proof (ky_alg _ _ _ (proj1 Hs)) as Halg.
  assert (Hml : zlen m <= 13) by (unfold at_header in Hm; destruct (is_sslv3_mac alg); lia). pose proof (zlen_nonneg m).
  change MAX_UPDATE with 17535 in Hn.
  assert (HH : forall e s', hash_failure w e -> E e w s') by (intros; apply HE; by right).
  unfold cbc_ok in HQ, HE. rewrite Hl in HQ, HE. set (mac := s2n_hmac_digest_size alg) in *.
  apply wp_bind, wp_get_obj. rewrite Halg. fold mac. cbn [size data].
  apply wp_bind, wp_ensure; intros Hsz; [|apply HE; left; by rewrite Hsz]. zbool.
  rewrite (proj2 (Z.ltb_lt mac n)) in HQ, HE by done.
  apply wp_bind, wp_record_byte; [lia|]. set (padding := znth D (n - 1)) in *.
  assert (Hpad : 0 <= padding < 256) by (apply znth_is_u8, bytes_at_is_bytes; done).
  replace (Z.max (n - mac - padding - 1) 0) with (Z.max (n - mac - 1 - padding) 0) by lia.
  set (k := Z.max (n - mac - 1 - padding) 0) in *.
  assert (Hk : 0 <= k <= n - mac - 1) by lia. assert (Hsl : zlen (zslice D 0 k) = k) by (apply zlen_zslice; lia).
  apply wp_bind, wp_record_head; [lia|].
  apply wp_bind, (wp_hmac_update_ok _ _ alg key m); [done|rewrite Hsl; change MAX_UPDATE with 17535; lia|lia| |done]. intros s1 Hs1.
  apply wp_bind, wp_get_obj. pose proof (block_in_record alg key m k s1 Hs1 Hm Hmac ltac:(lia) ltac:(lia)) as Hblock.
  set (cur := currently_in_hash_block s1) in *.
  apply wp_bind, wp_ensure; [intros _|intros Hz; change S2N_MAX_DIGEST_LEN with 64 in Hz; zbool; lia].
  apply wp_bind, (wp_two_rounds _ _ alg key (m ++ zslice D 0 k)); [done|done|lia| |done]. intros s2 Hs2.
  apply wp_bind, wp_ptr_add_some. apply wp_bind, wp_mac_equals; [lia|done|lia|apply hash_of_length|apply hash_of_bytes|].
  set (eq := bool_decide (zslice D k mac = hmac alg key (m ++ zslice D 0 k))) in *.
  apply wp_bind, (wp_hmac_reset _ _ alg key); [done| |done]. intros s3 Hs3.
  apply wp_bind, wp_record_head; [lia|].
  assert (Hcl : zlen (zslice D 0 cur) = cur) by (apply zlen_zslice; lia).
  apply wp_bind, (wp_hmac_update_ok _ _ alg key []); [done|change MAX_UPDATE with 17535; lia|change (zlen (@nil Z)) with 0; lia| |done]. intros s4 Hs4.
  apply wp_bind, wp_ptr_add_some, wp_bind, wp_record_part; [lia|lia|lia|].
  assert (Hrl : zlen (zslice D (k + mac) (n - k - mac - 1)) = n - k - mac - 1) by (apply zlen_zslice; lia).
  apply wp_bind, (wp_hmac_update_ok _ _ alg key ([] ++ zslice D 0 cur)); [done|change MAX_UPDATE with 17535; lia|simpl; lia| |done].
  intros s5 Hs5. assert (Hk5 : keyed alg key s5) by apply Hs5.
  destruct (version =? S2N_SSLv3) eqn:Hver.
  { apply wp_ensure; intros Hz; zbool; [apply HQ; [done|]|apply HE; left]; destruct eq; (done || lia). }
  change (orb false ?b) with b in HQ, HE.
  apply wp_bind, wp_ensure; intros Hchk; zbool.
  2: { apply HE. left. rewrite (proj2 (Z.leb_gt padding (n - mac - 1))) by lia. by rewrite andb_false_r. }
  rewrite (proj2 (Z.leb_le padding (n - mac - 1))) in HQ, HE by lia.
  apply wp_bind, padding_loop_wp; [lia|rewrite Z2Nat.id by lia; lia|done|]. intros mis Hmis. rewrite Z2Nat.id in Hmis by lia.
  assert (Hiff : mis = 0 <-> eq && (true && forallb (Z.eqb padding) (zslice D (n - 1 - padding) padding)) = true).
  { rewrite Hmis, andb_true_iff, andb_true_l, forallb_padding by lia. clear Hmis.
    assert ((if eq then 0 else 1) = 0 <-> eq = true) as -> by (destruct eq; (done || lia)). apply and_iff_compat_l. split.
    - intros Hall t Ht. specialize (Hall (Z.min 255 (n - mac - 1) - padding + t)).
      replace (n - 1 - Z.min 255 (n - mac - 1) + (Z.min 255 (n - mac - 1) - padding + t)) with (n - 1 - padding + t) in Hall by lia.
      apply Hall; lia.
    - intros Hall t Ht Hc. specialize (Hall (t - (Z.min 255 (n - mac - 1) - padding))).
      replace (n - 1 - padding + (t - (Z.min 255 (n - mac - 1) - padding))) with (n - 1 - Z.min 255 (n - mac - 1) + t) in Hall by lia.
      apply Hall. lia. }
  apply wp_ensure; intros Hz; zbool.
  - apply HQ; [done|]. by apply Hiff.
  - apply HE. left. apply Bool.not_true_iff_false. by rewrite <- Hiff.
Qed.
End Record.

(** C14 The check of CBC records is right.  With a MAC state that stands after
    the sequence number and the header, s2n_verify_cbc accepts a record exactly
    when it is longer than the MAC and the length of the padding, its MAC is the
    HMAC of the header and the data, and (after SSLv3) all bytes of the padding
    are its length.  The check reads nothing outside of the record, although the
    second MAC that hides the length of the data reads as many bytes as the
    first left in its block, and it leaves the state ready for a reset.  The
    only other failures are those of libcrypto. *)
Theorem verify_cbc_correct (w : world) (p : ptr) (n al : Z) (g : bool) (version : Z) (alg : s2n_hmac_algorithm) (key m : list Z)
    (s : s2n_hmac_state) (Hheap : heap_ok (hp w)) (Hrecord : valid_access (hp w) p n) (Hsize : n <= MAX_UPDATE)
    (Hstate : mac_is alg key (Some m) s) (Hheader : at_header alg key m) (Halg : 0 < s2n_hmac_digest_size alg)
    (Hkey : zlen key < 2 ^ 32) :
  match s2n_verify_cbc version (Blob (Some p) n al g) (w, s) with
  | (Ok _, (w', s')) => w' = w /\ keyed alg key s' /\ cbc_ok version alg key m (bytes_at (hp w) p n) = true
  | (Err e, (w', _)) => w' = w /\ (cbc_ok version alg key m (bytes_at (hp w) p n) = false \/ hash_failure w e)
  | (UB, _) => False
  end.
Proof.
  assert (Hrun : wp (s2n_verify_cbc version (Blob (Some p) n al g)) (w, s)
    (fun _ w' s' => w' = w /\ keyed alg key s' /\ cbc_ok version alg key m (bytes_at (hp w) p n) = true)
    (fun e w' _ => w' = w /\ (cbc_ok version alg key m (bytes_at (hp w) p n) = false \/ hash_failure w e))).
  { by apply (wp_verify_cbc w p n Hheap Hrecord version alg key m). }
  unfold wp in Hrun. by destruct (s2n_verify_cbc _ _ _) as [[[]|e|] [w' s']].
Qed.

(** The state after a key and a header, when libcrypto does not fail. *)
Lemma mac_after (w : world) s alg key m : hmac_alloc s -> (forall e, ~ hash_failure w e) -> zlen key < 2 ^ 32 -> zlen m <= MAX_UPDATE ->
  mac_is alg key (Some m) (snd (snd ((s2n_hmac_init alg key ;;; s2n_hmac_update m) (w, s)))).
Proof.
  intros Hs Hno Hkey Hm. destruct (key_lengths alg key Hkey) as [Hil _].
  assert (Hrun : wp (s2n_hmac_init alg key ;;; s2n_hmac_update m) (w, s) (fun _ _ s => mac_is alg key (Some m) s) (fun _ _ _ => False)).
  { apply wp_bind, wp_hmac_init; [done|done| |intros e s' He; by apply Hno in He].
    intros s1 Hs1. apply (wp_hmac_update_ok _ _ alg key []); [done|done| |done|intros e s' He; by apply Hno in He].
    change (zlen (@nil Z)) with 0. change MAX_UPDATE with 17535 in Hm. lia. }
  unfold wp in Hrun. by destruct (bind _ _ _) as [[[]|e|] [w' s']].
Qed.
End Theorems.

(** A record of two bytes with a MAC of SHA-1 and padding to 32 bytes, after
    the sequence number 5 and the header of TLS1.2. *)
Definition demo_key : list Z := [1; 2; 3].
Definition demo_header : list Z := [0; 0; 0; 0; 0; 0; 0; 5; 23; 3; 3; 0; 2].
Definition demo_record : list Z :=
  [10; 20] ++ @hmac demo_digests S2N_HMAC_SHA1 demo_key (demo_header ++ [10; 20]) ++ repeat 9 10.
Definition demo_record_world : world := World {[1%positive := demo_record]} started_statics.
Definition demo_mac_state : s2n_hmac_state :=
  snd (snd ((@s2n_hmac_init demo_digests S2N_HMAC_SHA1 demo_key ;;; @s2n_hmac_update demo_digests demo_header) (demo_record_world, new_hmac))).

Lemma demo_mac_ready : @mac_is demo_digests S2N_HMAC_SHA1 demo_key (Some demo_header) demo_mac_state.
Proof.
  apply (@mac_after demo_digests _); [apply new_hmac_alloc| |vm_compute; reflexivity|vm_compute; congruence].
  intros e (_ & call & c & Hf). discriminate Hf.
Qed.

Lemma verify_cbc_correct_witness :
  match @s2n_verify_cbc demo_digests S2N_TLS12 (Blob (Some (Ptr 1 0)) 32 0 false) (demo_record_world, demo_mac_state) with
  | (Ok _, (w', s')) => w' = demo_record_world /\ @keyed demo_digests S2N_HMAC_SHA1 demo_key s' /\
      @cbc_ok demo_digests S2N_TLS12 S2N_HMAC_SHA1 demo_key demo_header (bytes_at (hp demo_record_world) (Ptr 1 0) 32) = true
  | (Err e, (w', _)) => w' = demo_record_world /\
      (@cbc_ok demo_digests S2N_TLS12 S2N_HMAC_SHA1 demo_key demo_header (bytes_at (hp demo_record_world) (Ptr 1 0) 32) = false \/
       @hash_failure demo_digests demo_record_world e)
  | (UB, _) => False
  end.
Proof.
  apply (@verify_cbc_correct demo_digests _ demo_record_world (Ptr 1 0) 32 0 false S2N_TLS12 S2N_HMAC_SHA1 demo_key demo_header demo_mac_state).
  - apply map_Forall_singleton. vm_compute. repeat constructor; congruence.
  - exists demo_record. vm_compute. intuition congruence.
  - vm_compute. congruence.
  - apply demo_mac_ready.
  - vm_compute. reflexivity.
  - vm_compute. reflexivity.
  - vm_compute. reflexivity.
Defined.

Example demo_record_accepted :
  fst (@s2n_verify_cbc demo_digests S2N_TLS12 (Blob (Some (Ptr 1 0)) 32 0 false) (demo_record_world, demo_mac_state)) = Ok tt.
Proof. vm_compute. reflexivity. Qed.
End RecordCbc.
