(* ===== verification/RecordSizes.v ===== *)
(** * The sizes of records

    How long the fragment of a record is, as the RFCs say it (5246 6.2.3, 8446
    5.2), and what follows for the sizes that tls/s2n_record_write.c chooses:
    the payload of a record for one packet, and the buffer for any record. *)
From S2P Require Import Prelude Errors CMem Platform Safety Blob Stuffer Connection Libcrypto Hash Hmac Ciphers CipherSuites RecordState RecordRead RecordWrite.
Open Scope Z_scope.

Module RecordSizes.

(** [n] bytes, rounded up to whole blocks. *)
Definition blocks (block n : Z) : Z := (n + block - 1) / block * block.

Section Spec.
Context `{HL : Libcrypto} `{HC : CipherEnv}.

(** The record algorithms of tls/s2n_cipher_suites.c. *)
Definition record_algs : list s2n_record_algorithm :=
  [s2n_record_alg_null; s2n_record_alg_rc4_md5; s2n_record_alg_rc4_sslv3_md5; s2n_record_alg_rc4_sha;
   s2n_record_alg_rc4_sslv3_sha; s2n_record_alg_3des_sha; s2n_record_alg_3des_sslv3_sha; s2n_record_alg_aes128_sha;
   s2n_record_alg_aes128_sslv3_sha; s2n_record_alg_aes128_sha_composite; s2n_record_alg_aes128_sha256;
   s2n_record_alg_aes128_sha256_composite; s2n_record_alg_aes256_sha; s2n_record_alg_aes256_sslv3_sha;
   s2n_record_alg_aes256_sha_composite; s2n_record_alg_aes256_sha256; s2n_record_alg_aes256_sha256_composite;
   s2n_record_alg_aes256_sha384; s2n_record_alg_aes128_gcm; s2n_record_alg_aes256_gcm; s2n_record_alg_chacha20_poly1305;
   s2n_tls13_record_alg_aes128_gcm; s2n_tls13_record_alg_aes256_gcm; s2n_tls13_record_alg_chacha20_poly1305].

(** The fragment for [n] bytes of data: an explicit IV, the data, the MAC or
    the tag, the padding with its length, the content type in TLS1.3. *)
Definition fragment_length (alg : s2n_record_algorithm) (version n : Z) : Z :=
  let mac := s2n_hmac_digest_size (hmac_alg alg) in
  let iv n := if S2N_TLS10 <? version then n else 0 in
  match io (cipher alg) with
  | S2N_STREAM => n + mac
  | S2N_CBC block record_iv => iv record_iv + blocks block (n + mac + 1)
  | S2N_COMPOSITE block record_iv mac_key => iv record_iv + blocks block (n + mac_key + 1)
  | S2N_AEAD record_iv _ tag => record_iv + n + (if has_flag alg S2N_TLS13_RECORD_AEAD_NONCE then 1 else 0) + tag
  end.

(** The data of a TCP segment in one packet. *)
Definition segment (c : record_conn) : Z :=
  ETH_MTU - (if ipv6 c then IP_V6_HEADER_LENGTH else IP_V4_HEADER_LENGTH) - TCP_HEADER_LENGTH - TCP_OPTIONS_LENGTH.

(** The algorithms of TLS1.3 are those with its nonces. *)
Definition alg_of_version (alg : s2n_record_algorithm) (version : Z) : bool :=
  Bool.eqb (version =? S2N_TLS13) (has_flag alg S2N_TLS13_RECORD_AEAD_NONCE).
End Spec.

Section Theorems.
Context `{HL : Libcrypto} `{HD : Digests} `{HC : CipherEnv}.

Lemma blocks_eq block k n : 0 < block -> k * block <= n + block - 1 < (k + 1) * block -> blocks block n = k * block.
Proof. intros Hb Hk. unfold blocks. f_equal. symmetry. apply (Z.div_unique _ _ _ (n + block - 1 - k * block)); lia. Qed.

(** The payload of a small record, as computed from the size of a segment. *)
Definition aligned (alg : s2n_record_algorithm) (size : Z) : Z :=
  match io (cipher alg) with
  | S2N_CBC block_size _ => size - size mod block_size
  | S2N_COMPOSITE block_size _ mac_key_size => size - size mod block_size - mac_key_size - 1
  | _ => size
  end.
Definition min_payload (alg : s2n_record_algorithm) (version seg : Z) : Z :=
  let size := aligned alg (seg - S2N_TLS_RECORD_HEADER_LENGTH) in
  (if S2N_TLS13 <=? version then size - 1 else size) - record_overhead alg version.

Definition versions : list Z := [S2N_UNKNOWN_PROTOCOL_VERSION; S2N_SSLv2; S2N_SSLv3; S2N_TLS10; S2N_TLS11; S2N_TLS12; S2N_TLS13].

(** What the code computes step by step, for both kinds of packets. *)
Definition min_payload_guards (seg : Z) (alg : s2n_record_algorithm) (version : Z) : bool :=
  let size := seg - S2N_TLS_RECORD_HEADER_LENGTH in
  match io (cipher alg) with
  | S2N_CBC block_size _ => (0 <? block_size) && (block_size <? size)
  | S2N_COMPOSITE block_size _ mac_key_size => (0 <? block_size) && (0 <=? mac_key_size) && (block_size + mac_key_size + 1 <? size)
  | _ => true
  end && (0 <=? record_overhead alg version) && (0 <? min_payload alg version seg).

Definition fits (seg : Z) (alg : s2n_record_algorithm) (version n : Z) : bool :=
  S2N_TLS_RECORD_HEADER_LENGTH + fragment_length alg version n <=? seg.

Definition largest_for (seg : Z) (alg : s2n_record_algorithm) (version : Z) : bool :=
  let n := min_payload alg version seg in
  negb (alg_of_version alg version) ||
  (min_payload_guards seg alg version && fits seg alg version n && negb (fits seg alg version (n + 1))).

Lemma largest_checked seg : seg = 1420 \/ seg = 1400 -> forallb (fun alg => forallb (largest_for seg alg) versions) record_algs = true.
Proof. intros [-> | ->]; vm_compute; reflexivity. Qed.

(** A longer payload does not make a shorter record. *)
Lemma fragment_length_mono alg version n k :
  match io (cipher alg) with S2N_CBC block _ | S2N_COMPOSITE block _ _ => 0 < block | _ => True end ->
  n <= k -> fragment_length alg version n <= fragment_length alg version k.
Proof.
  assert (Hb : forall block a b, 0 < block -> a <= b -> blocks block a <= blocks block b).
  { intros block a b Hb Hab. unfold blocks. apply Z.mul_le_mono_nonneg_r; [lia|]. apply Z.div_le_mono; lia. }
  intros Hpos Hnk. unfold fragment_length. destruct (io (cipher alg)); try lia; apply Z.add_le_mono_l, Hb; (done || lia).
Qed.

Lemma min_payload_run (w : world) (c : record_conn) p alg :
  lget (params_lens (fst (write_side c))) c = Some p -> params_alg p = Some alg ->
  min_payload_guards (segment c) alg (actual_protocol_version (rbase c)) = true ->
  s2n_record_min_write_payload_size (w, c) = (Ok (min_payload alg (actual_protocol_version (rbase c)) (segment c)), (w, c)).
Proof.
  intros Hp Halg Hg. assert (Hseg : segment c = 1420 \/ segment c = 1400).
  { unfold segment. destruct (ipv6 c); [right|left]; reflexivity. }
  set (version := actual_protocol_version (rbase c)) in *. set (seg := segment c) in *.
  assert (Hget : get_alg (fst (write_side c)) (w, c) = (Ok alg, (w, c))).
  { apply wp_eq, wp_bind, wp_bind, wp_get_obj. rewrite Hp. apply wp_ret. rewrite Halg. by apply wp_ret. }
  assert (Hmin : u16 (ETH_MTU - (if ipv6 c then IP_V6_HEADER_LENGTH else IP_V4_HEADER_LENGTH) - TCP_HEADER_LENGTH
    - TCP_OPTIONS_LENGTH - S2N_TLS_RECORD_HEADER_LENGTH) = seg - 5).
  { unfold seg, segment. by destruct (ipv6 c). }
  apply wp_eq, wp_bind, wp_get_obj. rewrite Hmin.
  apply wp_bind, wp_ensure; [intros _|intros Hz; change S2N_TLS_MAXIMUM_FRAGMENT_LENGTH with 16384 in Hz; zbool; lia].
  apply wp_bind. eapply wp_run; [apply Hget|]. unfold min_payload_guards in Hg.
  apply andb_prop in Hg as [Hg Hpos]. apply andb_prop in Hg as [Hio Hover]. unfold min_payload in Hpos |- *. zbool.
  change S2N_TLS_RECORD_HEADER_LENGTH with 5 in *.
  set (size := aligned alg (seg - 5)) in *.
  assert (Hsize : size <= seg - 5) .
  { unfold size, aligned. destruct (io (cipher alg)); zbool; try lia;
      [pose proof (Z.mod_pos_bound (seg - 5) block_size ltac:(lia))|pose proof (Z.mod_pos_bound (seg - 5) block_size ltac:(lia))]; lia. }
  apply wp_bind. assert (Hio' : wp (match io (cipher alg) with
    | S2N_CBC block_size _ => if block_size =? 0 then undefined else ret (u16 (seg - 5 - (seg - 5) mod block_size))
    | S2N_COMPOSITE block_size _ mac_key_size =>
        if block_size =? 0 then undefined
        else ret (u16 (u16 (u16 (seg - 5 - (seg - 5) mod block_size) - mac_key_size) - 1))
    | _ => ret (seg - 5) end) (w, c) (fun n w' c' => n = size /\ w' = w /\ c' = c) (fun _ _ _ => False)).
  { unfold size, aligned in Hsize |- *. destruct (io (cipher alg)) as [|b i|i f t|b i k]; try (by apply wp_ret); zbool;
      pose proof (Z.mod_pos_bound (seg - 5) b ltac:(lia)).
    - rewrite (proj2 (Z.eqb_neq b 0)) by lia. apply wp_ret. by rewrite u16_small by lia.
    - rewrite (proj2 (Z.eqb_neq b 0)) by lia. apply wp_ret.
      rewrite (u16_small (seg - 5 - _)), (u16_small (seg - 5 - _ - _)), u16_small by lia. split_goal; [lia|done|done]. }
  eapply wp_mono; [apply Hio'| |done]. intros n w' c' (-> & -> & ->). apply wp_bind.
  assert (Hrest : forall n, n = (if S2N_TLS13 <=? version then size - 1 else size) ->
    wp (overhead <-- s2n_tls_record_overhead ;;
        ensure (overhead <? n) S2N_ERR_FRAGMENT_LENGTH_TOO_SMALL ;;;
        (let size := n - overhead in
         ensure (0 <? size) S2N_ERR_FRAGMENT_LENGTH_TOO_SMALL ;;;
         ensure (size <=? ETH_MTU) S2N_ERR_FRAGMENT_LENGTH_TOO_LARGE ;;; ret size)) (w, c)
      (fun a w' c' => (Ok (n - record_overhead alg version), (w, c)) = (Ok a, (w', c'))) (fun _ _ _ => False)).
  { intros n Hn. apply wp_bind, wp_bind, wp_get_obj, wp_bind. eapply wp_run; [apply Hget|]. apply wp_ret.
    fold version. rewrite <- Hn in Hpos.
    apply wp_bind, wp_ensure; [intros _|intros Hz; zbool; lia]. cbv zeta.
    apply wp_bind, wp_ensure; [intros _|intros Hz; zbool; lia].
    apply wp_bind, wp_ensure; [intros _; by apply wp_ret|intros Hz; unfold ETH_MTU in Hz; zbool; subst n; destruct (S2N_TLS13 <=? version); lia]. }
  fold version. destruct (S2N_TLS13 <=? version) eqn:Hv.
  - apply wp_bind, wp_ensure; [intros _; apply wp_ret|intros Hz; change S2N_TLS_CONTENT_TYPE_LENGTH with 1 in Hz; zbool; lia].
    by apply Hrest.
  - by apply wp_ret, Hrest.
Qed.

(** The guards of the computation hold, and the result is the largest that fits. *)
Lemma min_payload_facts (c : record_conn) alg version :
  In alg record_algs -> In version versions -> alg_of_version alg version = true ->
  let n := min_payload alg version (segment c) in
  min_payload_guards (segment c) alg version = true /\ 0 < n /\
  fits (segment c) alg version n = true /\ fits (segment c) alg version (n + 1) = false.
Proof.
  cbv zeta. intros Hin Hversion Hmatch. assert (Hseg : segment c = 1420 \/ segment c = 1400) by (unfold segment; destruct (ipv6 c); [right|left]; reflexivity).
  pose proof (largest_checked _ Hseg) as Hall. rewrite forallb_forall in Hall. specialize (Hall _ Hin).
  rewrite forallb_forall in Hall. specialize (Hall _ Hversion). unfold largest_for in Hall. rewrite Hmatch in Hall. simpl in Hall.
  apply andb_prop in Hall as [Hall Hnot]. apply andb_prop in Hall as [Hg Hfits]. split_goal; [done| |done|by apply negb_true_iff].
  unfold min_payload_guards in Hg. apply andb_prop in Hg as [_ Hpos]. by zbool.
Qed.

(** C16 The payload of a small record is the largest for one packet: for every
    record algorithm, in every protocol version it is used with,
    s2n_record_min_write_payload_size returns a number of bytes whose record
    (header, explicit IV, data, MAC or tag, padding) fits in the data of a TCP
    segment in one Ethernet frame, and no larger number does. *)
Theorem min_payload_largest (w : world) (c : record_conn) (p : s2n_crypto_parameters) (alg : s2n_record_algorithm)
    (Hparams : lget (params_lens (fst (write_side c))) c = Some p) (Halg : params_alg p = Some alg)
    (Hin : In alg record_algs) (Hversion : In (actual_protocol_version (rbase c)) versions)
    (Hmatch : alg_of_version alg (actual_protocol_version (rbase c)) = true) :
  exists n, s2n_record_min_write_payload_size (w, c) = (Ok n, (w, c)) /\ 0 < n /\
    S2N_TLS_RECORD_HEADER_LENGTH + fragment_length alg (actual_protocol_version (rbase c)) n <= segment c /\
    forall k, n < k -> segment c < S2N_TLS_RECORD_HEADER_LENGTH + fragment_length alg (actual_protocol_version (rbase c)) k.
Proof.
  destruct (min_payload_facts c alg _ Hin Hversion Hmatch) as (Hg & Hpos & Hfits & Hnot).
  eexists. split; [by eapply min_payload_run|]. unfold min_payload_guards in Hg. apply andb_prop in Hg as [Hg _].
  apply andb_prop in Hg as [Hio _]. unfold fits in *. zbool. split_goal; [done|done|]. intros k Hk.
  eapply Z.lt_le_trans; [apply Hnot|]. apply Z.add_le_mono_l, fragment_length_mono; [|lia].
  destruct (io (cipher alg)); zbool; (done || lia).
Qed.

(** ** The buffer for a record *)

(** What a record adds to its data at most. *)
Definition expansion (alg : s2n_record_algorithm) : Z :=
  let mac := s2n_hmac_digest_size (hmac_alg alg) in
  match io (cipher alg) with
  | S2N_STREAM => mac
  | S2N_CBC block record_iv => record_iv + mac + block
  | S2N_COMPOSITE block record_iv mac_key => record_iv + mac_key + block
  | S2N_AEAD record_iv _ tag => record_iv + 1 + tag
  end.

Lemma expansion_checked : forallb (fun alg => expansion alg <=? S2N_TLS13_ENCRYPTION_OVERHEAD_SIZE) record_algs = true.
Proof. vm_compute. reflexivity. Qed.

Lemma fragment_expansion alg version n :
  match io (cipher alg) with S2N_CBC block i | S2N_COMPOSITE block i _ => 0 < block /\ 0 <= i | _ => True end ->
  fragment_length alg version n <= n + expansion alg.
Proof.
  assert (Hb : forall block m, 0 < block -> blocks block m <= m + block - 1).
  { intros block m Hb. unfold blocks. pose proof (Z.div_mod (m + block - 1) block ltac:(lia)).
    pose proof (Z.mod_pos_bound (m + block - 1) block Hb). nia. }
  intros Hpos. unfold fragment_length, expansion. destruct (io (cipher alg)) as [|b i|i f t|b i k]; [lia|..].
  - specialize (Hb b (n + s2n_hmac_digest_size (hmac_alg alg) + 1)). destruct (S2N_TLS10 <? version); lia.
  - destruct (has_flag _ _); lia.
  - specialize (Hb b (n + k + 1)). destruct (S2N_TLS10 <? version); lia.
Qed.

Lemma algs_blocks : forallb (fun alg => match io (cipher alg) with
  | S2N_CBC block i | S2N_COMPOSITE block i _ => (0 <? block) && (0 <=? i) | _ => true end) record_algs = true.
Proof. vm_compute. reflexivity. Qed.

(** The room for the protection of a record. *)
Definition wire_overhead (c : record_conn) : Z :=
  S2N_TLS_RECORD_HEADER_LENGTH +
  (if IS_NEGOTIATED (rbase c) && negb (actual_protocol_version (rbase c) <? S2N_TLS13)
   then S2N_TLS_CONTENT_TYPE_LENGTH + S2N_TLS13_ENCRYPTION_OVERHEAD_SIZE else S2N_TLS12_ENCRYPTION_OVERHEAD_SIZE).

Lemma wire_overhead_range c : 261 <= wire_overhead c <= 1029.
Proof. unfold wire_overhead. destruct (_ && _); vm_compute; intuition congruence. Qed.

Lemma max_write_size_run (w : world) (c : record_conn) n :
  0 <= n <= S2N_TLS_MAXIMUM_FRAGMENT_LENGTH -> s2n_record_max_write_size n (w, c) = (Ok (n + wire_overhead c), (w, c)).
Proof.
  change S2N_TLS_MAXIMUM_FRAGMENT_LENGTH with 16384. intros Hn. apply wp_eq, wp_bind, wp_get_obj, wp_ret. do 2 f_equal.
  unfold wire_overhead, S2N_TLS_MAX_RECORD_LEN_FOR, S2N_TLS12_MAX_RECORD_LEN_FOR, S2N_TLS13_MAX_RECORD_LEN_FOR.
  change S2N_TLS_RECORD_HEADER_LENGTH with 5. change S2N_TLS_CONTENT_TYPE_LENGTH with 1.
  unfold S2N_TLS12_ENCRYPTION_OVERHEAD_SIZE, S2N_TLS13_ENCRYPTION_OVERHEAD_SIZE.
  destruct (IS_NEGOTIATED (rbase c)), (actual_protocol_version (rbase c) <? S2N_TLS13); simpl; rewrite u16_small; lia.
Qed.

Lemma wp_max_write_payload (w : world) (c : record_conn) :
  0 < max_outgoing_fragment_length c < 2 ^ 16 -> 0 <= send_buffer_size_override c < 2 ^ 32 ->
  wp s2n_record_max_write_payload_size (w, c)
    (fun n w' c' => w' = w /\ c' = c /\ 0 < n <= Z.min (max_outgoing_fragment_length c) S2N_TLS_MAXIMUM_FRAGMENT_LENGTH /\
       (send_buffer_size_override c <> 0 -> n + wire_overhead c <= send_buffer_size_override c))
    (fun e w' c' => w' = w /\ c' = c /\ e = S2N_ERR_SAFETY /\ 0 < send_buffer_size_override c <= wire_overhead c).
Proof.
  pose proof (wire_overhead_range c) as Hwire. change (2 ^ 16) with 65536. change (2 ^ 32) with 4294967296. intros Hmax Hoverride.
  change S2N_TLS_MAXIMUM_FRAGMENT_LENGTH with 16384.
  apply wp_bind, wp_get_obj, wp_bind, wp_ensure; [intros _|intros Hz; zbool; lia]. cbv zeta.
  change S2N_TLS_MAXIMUM_FRAGMENT_LENGTH with 16384.
  destruct (Z.eqb_spec (send_buffer_size_override c) 0) as [Ho|Ho]; simpl negb; cbv iota; [apply wp_ret; split_goal; (done || lia)|].
  apply wp_bind. eapply wp_run; [apply max_write_size_run; change S2N_TLS_MAXIMUM_FRAGMENT_LENGTH with 16384; lia|].
  destruct (Z.ltb_spec (send_buffer_size_override c) (Z.min (max_outgoing_fragment_length c) 16384 + wire_overhead c)) as [Hlt|Hge];
    [|apply wp_ret; split_goal; (done || lia)].
  rewrite u64_small by lia. apply wp_bind, wp_ensure; intros Hz; zbool; [|split_goal; (done || lia)].
  apply wp_ret. rewrite u16_small by lia. split_goal; (done || lia).
Qed.

(** The buffer is large enough for every record.  The largest payload that
    s2n_record_max_write_payload_size allows is at least one byte and at most
    the fragment length of the connection and 2^14; the record of any payload
    up to it fits, with every record algorithm, in the size that
    s2n_record_max_write_size computes for the buffer; and that size is at most
    the size that the application has chosen, if it has.  The call fails only
    when the chosen size has no room for the protection of a record. *)
Theorem record_buffer_fits (w : world) (c : record_conn)
    (Hmax : 0 < max_outgoing_fragment_length c < 2 ^ 16) (Hoverride : 0 <= send_buffer_size_override c < 2 ^ 32) :
  match s2n_record_max_write_payload_size (w, c) with
  | (Ok n, s) => s = (w, c) /\ 0 < n <= Z.min (max_outgoing_fragment_length c) S2N_TLS_MAXIMUM_FRAGMENT_LENGTH /\
      exists size, s2n_record_max_write_size n (w, c) = (Ok size, (w, c)) /\
        (send_buffer_size_override c <> 0 -> size <= send_buffer_size_override c) /\
        forall alg version k, In alg record_algs -> k <= n -> S2N_TLS_RECORD_HEADER_LENGTH + fragment_length alg version k <= size
  | (Err e, s) => s = (w, c) /\ e = S2N_ERR_SAFETY /\ 0 < send_buffer_size_override c <= wire_overhead c
  | (UB, _) => False
  end.
Proof.
  pose proof (wire_overhead_range c) as Hwire. change (2 ^ 16) with 65536 in Hmax. change (2 ^ 32) with 4294967296 in Hoverride.
  assert (Halgs : forall n alg version k, In alg record_algs -> k <= n ->
    S2N_TLS_RECORD_HEADER_LENGTH + fragment_length alg version k <= n + wire_overhead c).
  { intros n alg version k Hin Hk. pose proof expansion_checked as He. rewrite forallb_forall in He. specialize (He _ Hin).
    pose proof algs_blocks as Hb. rewrite forallb_forall in Hb. specialize (Hb _ Hin).
    change S2N_TLS13_ENCRYPTION_OVERHEAD_SIZE with 255 in He. change S2N_TLS_RECORD_HEADER_LENGTH with 5. zbool.
    pose proof (fragment_expansion alg version k) as Hf. destruct (io (cipher alg)); zbool; specialize (Hf ltac:(done || lia)); lia. }
  pose proof (wp_max_write_payload w c Hmax Hoverride) as Hrun.
  unfold wp in Hrun. destruct (s2n_record_max_write_payload_size (w, c)) as [[n|e|] [w' c']]; [| |done].
  - destruct Hrun as (-> & -> & Hn & Hov). split_goal; [done|lia|lia|]. exists (n + wire_overhead c). split_goal.
    + apply max_write_size_run. lia.
    + done.
    + by apply Halgs.
  - by destruct Hrun as (-> & -> & ? & ?).
Qed.
End Theorems.
End RecordSizes.
Export RecordSizes.
