(* ===== verification/RecordAead.v ===== *)
(** * AEAD records: what the record layer must produce

    The nonces and the associated data of AEAD records as the RFCs define them
    (5288, 7905, 8446), the documented behaviour of the AEAD functions of
    libcrypto, and the exact results of the steps of tls/s2n_record_write.c and
    tls/s2n_record_read_aead.c that compute nonces, associated data, sequence
    numbers and ciphertexts. *)
From S2P Require Import Prelude Errors CMem Platform Safety Blob Alloc Stuffer NetworkOrder HandshakeTables Connection Sequence.
From S2P Require Import Libcrypto Hash Hmac HmacTheorems Hkdf Ciphers CipherSuites RecordState RecordRead RecordWrite.
Open Scope Z_scope.

Module RecordAead.

#[local] Arguments be_bytes : simpl never.

(** ** The specification *)

(** How the nonce of a record is made: GCM in TLS1.2 puts a part of it into the
    record, the others combine the sequence number with the whole IV. *)
Inductive nonce_kind := PartlyExplicit | Implicit12 | Implicit13.

Section Spec.
Context `{HL : Libcrypto}.

Definition aead_algs : list (s2n_record_algorithm * nonce_kind) :=
  [(s2n_record_alg_aes128_gcm, PartlyExplicit); (s2n_record_alg_aes256_gcm, PartlyExplicit);
   (s2n_record_alg_chacha20_poly1305, Implicit12);
   (s2n_tls13_record_alg_aes128_gcm, Implicit13); (s2n_tls13_record_alg_aes256_gcm, Implicit13);
   (s2n_tls13_record_alg_chacha20_poly1305, Implicit13)].
End Spec.

Definition TAG : Z := 16.
Definition explicit_len (k : nonce_kind) : Z := match k with PartlyExplicit => 8 | _ => 0 end.
Definition fixed_len (k : nonce_kind) : Z := match k with PartlyExplicit => 4 | _ => 12 end.

(** The bytes of two lists, combined. *)
Definition xor_bytes (a b : list Z) : list Z := zip_with Z.lxor a b.

(** The nonce of record number [n]. *)
Definition nonce (k : nonce_kind) (iv : list Z) (n : Z) : list Z :=
  match k with
  | PartlyExplicit => zslice iv 0 4 ++ be_bytes 8 n
  | _ => xor_bytes ([0; 0; 0; 0] ++ be_bytes 8 n) (zslice iv 0 12)
  end.

(** The part of it that is in the record. *)
Definition explicit_nonce (k : nonce_kind) (n : Z) : list Z := match k with PartlyExplicit => be_bytes 8 n | _ => [] end.

(** What is encrypted: TLS1.3 hides the content type. *)
Definition inner (k : nonce_kind) (content_type : Z) (data : list Z) : list Z :=
  match k with Implicit13 => data ++ [content_type] | _ => data end.
Definition outer_type (k : nonce_kind) (content_type : Z) : Z :=
  match k with Implicit13 => TLS_APPLICATION_DATA | _ => content_type end.

(** The associated data for [len] bytes to encrypt. *)
Definition associated_data (k : nonce_kind) (version n content_type len : Z) : list Z :=
  match k with
  | Implicit13 => [TLS_APPLICATION_DATA; 3; 3] ++ be_bytes 2 (len + TAG)
  | _ => be_bytes 8 n ++ [content_type; version / 10; version mod 10] ++ be_bytes 2 len
  end.

(** Two records of one connection never have the same nonce. *)
Lemma zip_with_lxor_inj a b c : length a = length c -> length b = length c -> xor_bytes a c = xor_bytes b c -> a = b.
Proof.
  revert b c. induction a as [|x a IH]; intros [|y b] [|z c] Ha Hb He; simpl in *; try done.
  injection He as Hx He. f_equal; [|apply (IH b c); [lia|lia|done]].
  apply (f_equal (fun v => Z.lxor v z)) in Hx. by rewrite !Z.lxor_assoc, !Z.lxor_nilpotent, !Z.lxor_0_r in Hx.
Qed.

Lemma be_bytes_inj k n n' : 0 <= n < 2 ^ (8 * Z.of_nat k) -> 0 <= n' < 2 ^ (8 * Z.of_nat k) -> be_bytes k n = be_bytes k n' -> n = n'.
Proof.
  intros Hn Hn' He. apply (f_equal (be_value 0)) in He. rewrite !be_value_bytes, !Z.mod_small in He by done. lia.
Qed.

Lemma length_be_bytes k n : length (be_bytes k n) = k.
Proof. pose proof (zlen_be_bytes k n). unfold zlen in *. lia. Qed.

Lemma counter_length (iv : list Z) n : zlen iv = S2N_TLS_MAX_IV_LEN -> length ([0; 0; 0; 0] ++ be_bytes 8 n) = length (zslice iv 0 12).
Proof.
  intros Hiv. rewrite length_app, length_be_bytes. unfold zslice, zlen, S2N_TLS_MAX_IV_LEN in *.
  rewrite length_take, length_drop. cbn [length]. lia.
Qed.

Lemma nonce_inj k iv n n' : zlen iv = S2N_TLS_MAX_IV_LEN -> 0 <= n < 2 ^ 64 -> 0 <= n' < 2 ^ 64 -> nonce k iv n = nonce k iv n' -> n = n'.
Proof.
  intros Hiv Hn Hn' He. apply (be_bytes_inj 8); [done|done|]. destruct k; unfold nonce in He.
  1: by apply app_inv_head in He.
  all: apply zip_with_lxor_inj in He; [by apply (app_inv_head [0; 0; 0; 0])|by apply counter_length..].
Qed.

(** ** The AEAD functions of libcrypto (openssl/aead.h) *)

Class AeadOk `{CipherEnv} := {
  (** The context has this key. *)
  aead_is : list Z -> aead_ctx -> Prop;
  (** Key, nonce, plaintext and associated data give ciphertext and tag. *)
  aead_enc : list Z -> list Z -> list Z -> list Z -> list Z;
  aead_enc_length key nonce p ad : zlen (aead_enc key nonce p ad) = zlen p + TAG;
  aead_enc_bytes key nonce p ad : is_bytes p -> is_bytes (aead_enc key nonce p ad);
  aead_enc_inj key nonce p p' ad : aead_enc key nonce p ad = aead_enc key nonce p' ad -> p = p';
  (** A seal may fail. *)
  aead_seal_ok key nonce p ad k : aead_is key k ->
    aead_is key (snd (EVP_AEAD_CTX_seal nonce p ad k)) /\
    (fst (EVP_AEAD_CTX_seal nonce p ad k) = None \/ fst (EVP_AEAD_CTX_seal nonce p ad k) = Some (aead_enc key nonce p ad));
  (** An open succeeds exactly on what a seal returns. *)
  aead_open_ok key nonce c ad k : aead_is key k -> is_bytes c ->
    aead_is key (snd (EVP_AEAD_CTX_open nonce c ad k)) /\
    match fst (EVP_AEAD_CTX_open nonce c ad k) with
    | Some p => is_bytes p /\ c = aead_enc key nonce p ad
    | None => forall p, is_bytes p -> c <> aead_enc key nonce p ad
    end;
}.

(** ** Sides *)

Section Sides.
Context `{HP : Platform} `{HL : Libcrypto} `{HD : Digests} `{HC : CipherEnv}.

Lemma side_get_set m (s : crypto_side) p : lget (side_lens m) (lset (side_lens m) s p) = s.
Proof. by destruct m. Qed.
Lemma side_set_set m (s s' : crypto_side) p : lset (side_lens m) s (lset (side_lens m) s' p) = lset (side_lens m) s p.
Proof. by destruct m. Qed.
Lemma side_set_get m p : lset (side_lens m) (lget (side_lens m) p) p = p.
Proof. by destruct m, p. Qed.
Lemma side_alg m s p : params_alg (lset (side_lens m) s p) = params_alg p.
Proof. by destruct m. Qed.
Lemma params_get_set r p (c : record_conn) : lget (params_lens r) (lset (params_lens r) p c) = p.
Proof. by destruct r. Qed.
Lemma params_set_set r p p' (c : record_conn) : lset (params_lens r) p (lset (params_lens r) p' c) = lset (params_lens r) p c.
Proof. by destruct r. Qed.
Lemma params_set_get r (c : record_conn) : lset (params_lens r) (lget (params_lens r) c) c = c.
Proof. by destruct r, c. Qed.

(** The connection with another side. *)
Definition with_side (r : params_ref) (m : s2n_mode) (p : s2n_crypto_parameters) (s : crypto_side) (c : record_conn) : record_conn :=
  lset (params_lens r) (Some (lset (side_lens m) s p)) c.

Lemma wp_on_side {A} r m (k : Cmd crypto_side A) w (c : record_conn) p Q E :
  lget (params_lens r) c = Some p ->
  wp k (w, lget (side_lens m) p) (fun a w' s => Q a w' (with_side r m p s c)) (fun e w' s => E e w' (with_side r m p s c)) ->
  wp (on_side r m k) (w, c) Q E.
Proof.
  intros Hp Hk. unfold wp, on_side, on_params in *. rewrite Hp. unfold zoom.
  by destruct (k (w, lget (side_lens m) p)) as [[a|e|] [w' s']].
Qed.

Lemma with_side_same r m p (c : record_conn) : lget (params_lens r) c = Some p -> with_side r m p (lget (side_lens m) p) c = c.
Proof. intros Hp. unfold with_side. rewrite side_set_get, <- Hp. apply params_set_get. Qed.
Lemma with_side_params r m p s (c : record_conn) : lget (params_lens r) (with_side r m p s c) = Some (lset (side_lens m) s p).
Proof. apply params_get_set. Qed.
Lemma with_side_twice r m p s s' (c : record_conn) :
  with_side r m (lset (side_lens m) s p) s' (with_side r m p s c) = with_side r m p s' c.
Proof. unfold with_side. by rewrite params_set_set, side_set_set. Qed.
Lemma with_side_rbase r m p s (c : record_conn) : rbase (with_side r m p s c) = rbase c.
Proof. by destruct r. Qed.
Lemma with_side_null r m p s (c : record_conn) r' : lget (params_lens r) c = Some p ->
  params_is_null r' (with_side r m p s c) = params_is_null r' c.
Proof. intros Hp. unfold params_is_null in *. destruct r, r'; simpl in *; by rewrite ?Hp. Qed.

Lemma wp_side_get r m w (c : record_conn) p Q E :
  lget (params_lens r) c = Some p -> Q (lget (side_lens m) p) w c -> wp (on_side r m get_obj) (w, c) Q E.
Proof. intros Hp HQ. apply (wp_on_side _ _ _ _ _ p); [done|]. apply wp_get_obj. by rewrite with_side_same. Qed.

(** ** Sequence numbers of a side *)

Lemma be_bytes_value bs : is_bytes bs -> be_bytes (length bs) (be_value 0 bs) = bs.
Proof.
  intros Hb. assert (Hlen : forall a b, length a = length b -> is_bytes a -> is_bytes b -> be_value 0 a = be_value 0 b -> a = b).
  { clear. intros a. induction a as [|x a IH] using rev_ind; intros b Hl Ha Hb He; destruct b as [|y b _] using rev_ind.
    - done.
    - rewrite length_app in Hl. simpl in Hl. lia.
    - rewrite length_app in Hl. simpl in Hl. lia.
    - rewrite !be_value_snoc in He. rewrite !length_app in Hl. simpl in Hl.
      apply Forall_app in Ha as [Ha Hx]. apply Forall_app in Hb as [Hb Hy].
      apply Forall_cons_1 in Hx as [Hx _]. apply Forall_cons_1 in Hy as [Hy _]. unfold is_u8 in Hx, Hy. assert (x = y) as -> by lia. f_equal. apply IH; [lia|done|done|lia]. }
  apply Hlen; [|apply be_bytes_is_bytes|done|].
  - pose proof (zlen_be_bytes (length bs) (be_value 0 bs)). unfold zlen in *. lia.
  - rewrite be_value_bytes. pose proof (be_value_bound bs Hb) as Hr. unfold zlen in Hr. rewrite Z.mod_small by done. lia.
Qed.

Definition with_seq (n : Z) (s : crypto_side) : crypto_side := lset sequence_number_lens (be_bytes 8 n) s.

(** The record number goes up by one, unless it is the last one. *)
Lemma wp_increment_sequence (w : world) s n Q E :
  heap_ok (hp w) -> sequence_number s = be_bytes 8 n -> 0 <= n < 2 ^ 64 ->
  (n + 1 < 2 ^ 64 -> Q tt w (with_seq (n + 1) s)) ->
  (n + 1 = 2 ^ 64 -> E S2N_ERR_RECORD_LIMIT w (with_seq 0 s)) ->
  wp increment_sequence (w, s) Q E.
Proof.
  intros Hh Hseq Hn HQ HE. set (k := fresh (dom (hp w))).
  assert (Hk : hp w !! k = None) by (apply not_elem_of_dom, is_fresh).
  pose proof (wp_increment_loop (X := s2n_blob) (Ptr k 0) 8 (World (<[k := be_bytes 8 n]> (hp w)) (mem w))
    (Blob (Some (Ptr k 0)) 8 0 false) n) as Hrun.
  assert (Hv : valid_access (<[k := be_bytes 8 n]> (hp w)) (Ptr k 0) 8).
  { exists (be_bytes 8 n). simpl. rewrite lookup_insert_eq, zlen_be_bytes. split_goal; [done|lia..]. }
  assert (Hb : bytes_at (<[k := be_bytes 8 n]> (hp w)) (Ptr k 0) 8 = be_bytes 8 n).
  { rewrite (bytes_at_lookup _ _ _ (be_bytes 8 n)); [done|apply lookup_insert_eq|done|done]. }
  assert (Hheap : forall bs, zlen bs = 8 -> delete k (heap_with (<[k := be_bytes 8 n]> (hp w)) (Ptr k 0) bs) = hp w /\
    heap_with (<[k := be_bytes 8 n]> (hp w)) (Ptr k 0) bs !! k = Some bs).
  { intros bs Hbs. rewrite (heap_with_lookup _ _ _ (be_bytes 8 n)); [|apply lookup_insert_eq|done|rewrite zlen_be_bytes; simpl; lia].
    simpl. rewrite insert_insert_eq, lookup_insert_eq. split; [by rewrite delete_insert_id|]. f_equal. unfold zsplice. simpl.
    rewrite drop_ge; [by rewrite app_nil_r|]. unfold zlen in Hbs. pose proof (zlen_be_bytes 8 n) as Hl. unfold zlen in Hl. lia. }
  assert (Hval : forall bs v, zlen bs = 8 -> is_bytes bs -> be_value 0 bs = v -> bs = be_bytes 8 v).
  { intros bs v Hl Hbs <-. pose proof (be_bytes_value bs Hbs) as He. by replace (length bs) with 8%nat in He by (unfold zlen in Hl; lia). }
  specialize (Hrun ltac:(simpl; apply map_Forall_insert_2; [apply be_bytes_is_bytes|done]) ltac:(lia) Hv).
  change (Z.of_nat 8) with 8 in Hrun. simpl hp in Hrun. rewrite Hb, be_value_bytes, Z.mod_small in Hrun by done. specialize (Hrun ltac:(lia)).
  unfold increment_sequence, lend, wp. fold k. simpl lget. rewrite Hseq. unfold bind at 1, with_local, s2n_increment_sequence_number.
  unfold bind at 1. cbn [get_obj data size]. change S2N_TLS_SEQUENCE_NUM_LEN with 8. change (Z.to_nat 8) with 8%nat.
  unfold wp in Hrun. change (8 * Z.of_nat 8) with 64 in Hrun.
  destruct (increment_loop _ 8 _) as [[[]|e|] [w' b']]; [| |done].
  - destruct Hrun as (_ & Hlt & bs & Hl & Hbs & Hv' & ->). destruct (Hheap bs Hl) as [Hd Hlk]. simpl. rewrite Hd, Hlk. simpl.
    rewrite (Hval _ _ Hl Hbs Hv'). specialize (HQ Hlt). by destruct w.
  - destruct Hrun as (-> & _ & Heq & bs & Hl & Hbs & Hv' & ->). destruct (Hheap bs Hl) as [Hd Hlk]. simpl. rewrite Hd, Hlk. simpl.
    rewrite (Hval _ _ Hl Hbs Hv'). specialize (HE Heq). by destruct w.
Qed.
End Sides.
(** ** Nonces and associated data *)

Lemma implicit_nonce_eq {X} (iv : list Z) n (s : world * X) : zlen iv = S2N_TLS_MAX_IV_LEN ->
  implicit_nonce 12 iv (be_bytes 8 n) s = (Ok (xor_bytes ([0; 0; 0; 0] ++ be_bytes 8 n) (zslice iv 0 12)), s).
Proof.
  intros Hiv. unfold zlen, S2N_TLS_MAX_IV_LEN in Hiv. pose proof (length_be_bytes 8 n) as Hl.
  set (seq := be_bytes 8 n) in *. clearbody seq. do 9 (destruct seq as [|? seq]; try discriminate Hl).
  do 17 (destruct iv as [|? iv]; try (simpl in Hiv; lia)). reflexivity.
Qed.

Lemma be_bytes_2 u : 0 <= u < 2 ^ 16 -> be_bytes 2 u = [Z.shiftr u 8; Z.land u 255].
Proof.
  intros Hu. unfold be_bytes. change (8 * Z.of_nat 1) with 8. change (8 * Z.of_nat 0) with 0. rewrite Z.shiftr_0_r.
  f_equal. rewrite land_255. apply Z.mod_small. rewrite Z.shiftr_div_pow2 by lia. change (2 ^ 16) with 65536 in Hu. change (2 ^ 8) with 256.
  pose proof (Z.div_mod u 256). pose proof (Z.mod_pos_bound u 256). lia.
Qed.

Lemma aead_aad_init_eq {X} version n content_type len (s : world * X) : 0 <= len < 2 ^ 16 ->
  s2n_aead_aad_init version (be_bytes 8 n) content_type len S2N_TLS_MAX_AAD_LEN s =
    (Ok (be_bytes 8 n ++ [content_type; version / 10; version mod 10] ++ be_bytes 2 len), s).
Proof.
  intros Hlen. rewrite be_bytes_2 by done. unfold s2n_aead_aad_init. rewrite run_ensure. change (S2N_TLS_MAX_AAD_LEN <=? S2N_TLS_MAX_AAD_LEN) with true.
  cbv iota zeta. rewrite take_ge by (rewrite length_be_bytes; unfold S2N_TLS_SEQUENCE_NUM_LEN; lia).
  assert (Hz : forall l, zlen l = 5 -> zlen (be_bytes 8 n ++ l) = 13) by (intros l Hl; rewrite zlen_app, zlen_be_bytes, Hl; done).
  rewrite run_ensure, Hz by done. change (13 <=? S2N_TLS_MAX_AAD_LEN) with true. cbv iota. unfold ret.
  change (Z.to_nat (S2N_TLS_MAX_AAD_LEN - 13)) with 0%nat. cbn [repeat]. by rewrite app_nil_r.
Qed.

Lemma tls13_aad_init_eq {X} len (s : world * X) : 0 <= len -> len + TAG <= 2 ^ 14 + 256 ->
  s2n_tls13_aead_aad_init len TAG S2N_TLS13_AAD_LEN s = (Ok ([TLS_APPLICATION_DATA; 3; 3] ++ be_bytes 2 (len + TAG)), s).
Proof.
  intros H0 Hlen. unfold TAG in *. change (2 ^ 14 + 256) with 16640 in Hlen.
  rewrite be_bytes_2 by (change (2 ^ 16) with 65536; lia). unfold s2n_tls13_aead_aad_init. rewrite run_ensure.
  change (0 <? 16) with true. cbv iota. rewrite run_ensure. change (S2N_TLS13_AAD_LEN <=? S2N_TLS13_AAD_LEN) with true. cbv iota zeta.
  rewrite run_ensure, u16_small by lia. change (Z.shiftl 1 14 + 256) with 16640. rewrite (proj2 (Z.leb_le _ _) Hlen). cbv iota.
  by rewrite run_ensure.
Qed.

(** ** Encryption in place *)

Section Crypt.
Context `{HP : Platform} `{HL : Libcrypto} `{HC : CipherEnv} `{HA : !AeadOk}.
Implicit Types (key iv aad : list Z).

(** A session key with the context of an AEAD key. *)
Definition aead_key (key : list Z) (k : s2n_session_key) : Prop := exists a, evp_aead_ctx k = CtxLive a /\ aead_is key a.

Lemma wp_on_aead {A} key (f : aead_ctx -> A * aead_ctx) w k Q E :
  aead_key key k ->
  (forall a, aead_is key a -> Q (fst (f a)) w (SessionKey (evp_cipher_ctx k) (CtxLive (snd (f a))))) -> wp (on_aead f) (w, k) Q E.
Proof. intros (a & Ha & Hk) HQ. apply wp_bind, wp_get_obj. rewrite Ha. by apply (HQ a Hk). Qed.

Lemma wp_aead_encrypt (w : world) k c key iv aad q n Q E :
  zlen iv = 12 -> 0 <= n -> valid_access (hp w) q (n + TAG) -> aead_key key k ->
  (forall k', aead_key key k' -> Q tt (World (heap_with (hp w) q (aead_enc key iv (bytes_at (hp w) q n) aad)) (mem w)) k') ->
  (forall k', aead_key key k' -> E S2N_ERR_ENCRYPT w k') ->
  wp (aead_encrypt c iv aad (Blob (Some q) (n + TAG) 0 false) (Blob (Some q) (n + TAG) 0 false)) (w, k) Q E.
Proof.
  intros Hiv Hn Hv Hk HQ HE. unfold TAG in *.
  assert (Hv1 : valid_access (hp w) q n) by (destruct Hv as (l & ? & ? & ? & ?); exists l; split_goal; [done|lia..]).
  assert (Hrun : wp (s2n_aead_cipher_aes_gcm_encrypt iv aad (Blob (Some q) (n + 16) 0 false) (Blob (Some q) (n + 16) 0 false)) (w, k) Q E).
  { unfold s2n_aead_cipher_aes_gcm_encrypt, S2N_TLS_GCM_TAG_LEN. cbn [size data].
    do 2 (apply wp_bind, wp_ensure; [intros _|intros Hz; zbool; lia]).
    apply wp_bind, wp_ensure; [intros _|by rewrite Hiv]. replace (n + 16 - 16) with n by lia.
    apply wp_bind. simpl load_buf. apply wp_load; [done|]. apply wp_bind. eapply wp_on_aead; [done|]. intros a Ha.
    destruct (aead_seal_ok key iv (bytes_at (hp w) q n) aad a Ha) as [Ha' [-> | ->]].
    - apply wp_bind, wp_fail, HE. by eexists.
    - apply wp_bind, wp_ret, wp_bind, wp_store; [rewrite aead_enc_length, zlen_bytes_at; done|].
      apply wp_ensure; [intros _; apply HQ; by eexists|]. rewrite aead_enc_length, zlen_bytes_at, Z.eqb_refl by done. done. }
  unfold aead_encrypt. destruct (is_cipher c s2n_chacha20_poly1305); exact Hrun.
Qed.

Lemma wp_aead_decrypt (w : world) k c key iv aad q n Q E :
  heap_ok (hp w) -> zlen iv = 12 -> 0 <= n -> valid_access (hp w) q (n + TAG) -> aead_key key k ->
  (forall k' p, aead_key key k' -> is_bytes p -> bytes_at (hp w) q (n + TAG) = aead_enc key iv p aad ->
     Q tt (World (heap_with (hp w) q p) (mem w)) k') ->
  (forall k', aead_key key k' -> (forall p, is_bytes p -> bytes_at (hp w) q (n + TAG) <> aead_enc key iv p aad) -> E S2N_ERR_DECRYPT w k') ->
  wp (aead_decrypt c iv aad (Blob (Some q) (n + TAG) 0 false) (Blob (Some q) (n + TAG) 0 false)) (w, k) Q E.
Proof.
  intros Hh Hiv Hn Hv Hk HQ HE. pose proof (zlen_bytes_at _ _ _ Hv) as Hlen.
  assert (Hrun : wp (s2n_aead_cipher_aes_gcm_decrypt iv aad (Blob (Some q) (n + TAG) 0 false) (Blob (Some q) (n + TAG) 0 false)) (w, k) Q E).
  { unfold s2n_aead_cipher_aes_gcm_decrypt, S2N_TLS_GCM_TAG_LEN. cbn [size data]. unfold TAG in *.
    do 2 (apply wp_bind, wp_ensure; [intros _|intros Hz; zbool; lia]).
    apply wp_bind, wp_ensure; [intros _|by rewrite Hiv].
    apply wp_bind. simpl load_buf. apply wp_load; [done|]. apply wp_bind. eapply wp_on_aead; [done|]. intros a Ha.
    destruct (aead_open_ok key iv (bytes_at (hp w) q (n + 16)) aad a Ha (bytes_at_is_bytes _ _ _ Hh)) as [Ha' Ho].
    destruct (fst (EVP_AEAD_CTX_open iv _ aad a)) as [p|].
    - destruct Ho as [Hp Hc]. rewrite Hc, aead_enc_length in Hlen. unfold TAG in Hlen. apply wp_bind, wp_ret, wp_bind, wp_store.
      { destruct Hv as (l & ? & ? & ? & ?). exists l. split_goal; [done|lia..]. }
      apply wp_ensure; [intros _; apply HQ; [by eexists|done|done]|]. intros Hz. apply negb_false_iff, negb_true_iff, Z.eqb_neq in Hz. lia.
    - apply wp_bind, wp_fail, HE; [by eexists|done]. }
  unfold aead_decrypt. destruct (is_cipher c s2n_chacha20_poly1305); exact Hrun.
Qed.
End Crypt.
End RecordAead.
Export RecordAead.
