(* ===== verification/RecordDemo.v ===== *)
(** * A concrete record layer

    A libcrypto whose AEAD appends a checksum, and a connection of TLS1.3 with
    keys, to evaluate the record layer on. *)
From S2P Require Import Prelude Errors CMem Platform Safety Blob Stuffer StufferInv NetworkOrder HandshakeTables Connection HandshakeTypes.
From S2P Require Import Libcrypto Hash Hmac HmacTheorems Ciphers CipherSuites RecordState RecordRead RecordWrite RecordSizes RecordAead.
Open Scope Z_scope.

Module RecordDemo.

(** The tag is a checksum of everything. *)
Definition demo_tag (key nonce p ad : list Z) : list Z :=
  be_bytes 16 (fold_right (fun b acc => 257 * acc + b + 1) 0 (key ++ nonce ++ p ++ ad)).
Definition demo_enc (key nonce p ad : list Z) : list Z := p ++ demo_tag key nonce p ad.

Definition demo_ciphers : CipherEnv := {|
  cipher_ctx := unit;
  EVP_CIPHER_CTX_new := Some tt;
  EVP_CIPHER_CTX_init c := (true, c);
  EVP_CIPHER_CTX_cleanup c := c;
  EVP_CIPHER_CTX_set_padding _ c := c;
  EVP_EncryptInit_key _ _ c := (true, c);
  EVP_DecryptInit_key _ _ c := (true, c);
  EVP_EncryptInit_iv _ c := (true, c);
  EVP_DecryptInit_iv _ c := (true, c);
  EVP_EncryptUpdate p c := (Some p, c);
  EVP_DecryptUpdate p c := (Some p, c);
  EVP_CTRL_AEAD_TLS1_AAD _ c := (32, c);
  EVP_CTRL_AEAD_SET_MAC_KEY _ c := c;
  aead_ctx := list Z;
  OPENSSL_malloc_aead := true;
  EVP_AEAD_CTX_zero := [];
  EVP_AEAD_CTX_cleanup _ := [];
  EVP_AEAD_CTX_init _ key _ _ := (true, key);
  EVP_AEAD_CTX_seal nonce p ad key := (Some (demo_enc key nonce p ad), key);
  EVP_AEAD_CTX_open nonce c ad key :=
    let p := take (length c - 16) c in
    (if bool_decide (c = demo_enc key nonce p ad) then Some p else None, key);
|}.

#[export] Instance demo_aead_ok : @AeadOk demo_ciphers.
Proof.
  unshelve eapply (@Build_AeadOk demo_ciphers (fun key k => k = key) demo_enc).
  - intros key nonce p ad. unfold demo_enc, demo_tag. by rewrite zlen_app, zlen_be_bytes.
  - intros key nonce p ad Hp. apply Forall_app. split; [done|apply be_bytes_is_bytes].
  - intros key nonce p p' ad He. unfold demo_enc in He. apply (app_inj_2 _ _ _ _) in He; [apply He|]. unfold demo_tag. by rewrite !length_be_bytes.
  - intros key nonce p ad k ->. simpl. by auto.
  - intros key nonce c ad k -> Hc. simpl. split; [done|]. destruct (bool_decide_reflect (c = demo_enc key nonce (take (length c - 16) c) ad)) as [He|Hne].
    + split; [by apply Forall_take|done].
    + intros p Hp ->. apply Hne. unfold demo_enc at 1. f_equal.
      assert (Ht : take (length (demo_enc key nonce p ad) - 16) (demo_enc key nonce p ad) = p).
      { unfold demo_enc at 2. apply take_app_length'. unfold demo_enc. rewrite length_app. unfold demo_tag. rewrite length_be_bytes. lia. }
      by rewrite Ht.
Defined.

Definition demo_record_env : @RecordEnv demo_digests demo_ciphers := {|
  s2n_get_public_random_data n := ret (repeat 7 (Z.to_nat n));
  s2n_ktls_record_writev _ _ _ n := ret n;
|}.

Definition demo_aead_key : list Z := repeat 5 16.
Definition demo_iv : list Z := [1; 2; 3; 4; 5; 6; 7; 8; 9; 10; 11; 12; 0; 0; 0; 0].
Definition demo_side (n : Z) : @crypto_side demo_ciphers :=
  @CryptoSide demo_ciphers (@SessionKey demo_ciphers (CtxLive tt) (CtxLive demo_aead_key)) new_hmac demo_iv (be_bytes 8 n).
Definition demo_crypto (alg : s2n_record_algorithm) (n : Z) : @s2n_crypto_parameters demo_ciphers :=
  @CryptoParameters demo_ciphers None (Some alg) (demo_side n) (demo_side n).

(** A connection with one set of parameters for both directions. *)
Definition demo_conn (m : s2n_mode) (version : Z) (alg : s2n_record_algorithm) (n : Z) (header_in in_ out : s2n_stuffer)
    : @record_conn demo_ciphers :=
  @RecordConn demo_ciphers (set_in_stuffer in_ (set_out_stuffer out (demo_connection m version))) header_in zero_stuffer ENCRYPTED
    None (Some (demo_crypto alg n)) SecureParams SecureParams false 0 true 8192 0 false false false.

(** ** The sizes of records *)

Definition demo_alg : s2n_record_algorithm := @s2n_tls13_record_alg_aes128_gcm demo_libcrypto.
Definition demo_writer : @record_conn demo_ciphers := demo_conn S2N_CLIENT S2N_TLS13 demo_alg 7 zero_stuffer zero_stuffer zero_stuffer.

Lemma min_payload_largest_witness :
  exists n, @s2n_record_min_write_payload_size demo_ciphers (demo_world, demo_writer) = (Ok n, (demo_world, demo_writer)) /\ 0 < n.
Proof.
  destruct (@min_payload_largest demo_libcrypto demo_ciphers demo_world demo_writer (demo_crypto demo_alg 7) demo_alg) as (n & Hn & H0 & _); [reflexivity|reflexivity| | |reflexivity|by exists n].
  - do 21 right. left. reflexivity.
  - do 6 right. left. reflexivity.
Defined.

Lemma record_buffer_fits_witness :
  match @s2n_record_max_write_payload_size demo_ciphers (demo_world, demo_writer) with
  | (Ok n, s) => s = (demo_world, demo_writer)
  | (Err e, s) => s = (demo_world, demo_writer)
  | (UB, _) => False
  end.
Proof.
  pose proof (@record_buffer_fits demo_libcrypto demo_ciphers demo_world demo_writer) as H.
  specialize (H ltac:(vm_compute; intuition congruence) ltac:(vm_compute; intuition congruence)).
  destruct (s2n_record_max_write_payload_size _) as [[n|e|] s]; [apply H|apply H|destruct H].
Defined.
End RecordDemo.
Export RecordDemo.
