(* ===== verification/RecordAeadWrite.v ===== *)
(** * Writing AEAD records

    s2n_record_writev with an AEAD cipher produces exactly the record of the
    RFCs, for the next record number. *)
From S2P Require Import Prelude Errors CMem Platform Safety Blob Alloc Stuffer StufferInv StufferWrite StufferSpec NetworkOrder StufferBuild HandshakeTables Connection Sequence.
From S2P Require Import Libcrypto Hash Hmac HmacTheorems Hkdf Ciphers CipherSuites RecordState RecordRead RecordWrite RecordSizes RecordAead RecordDemo.
Open Scope Z_scope.

Module RecordAeadWrite.

#[local] Arguments be_bytes : simpl never.

Section Write.
Context `{HP : Platform} `{HB : !BlobAllocator} `{HL : Libcrypto} `{HD : Digests} `{HC : CipherEnv} `{HA : !AeadOk} `{HR : !RecordEnv}.

(** A side with the key, the IV and the record number of an AEAD cipher. *)
Record aead_side (key iv : list Z) (n : Z) (s : crypto_side) : Prop := {
  side_key : aead_key key (session_key s);
  side_iv : implicit_iv s = iv;
  side_iv_len : zlen iv = S2N_TLS_MAX_IV_LEN;
  side_iv_bytes : is_bytes iv;
  side_seq : sequence_number s = be_bytes 8 n;
  side_range : 0 <= n < 2 ^ 64;
}.

(** The parameters that protect records with the AEAD algorithm [alg]. *)
Record aead_params (c : record_conn) (r : params_ref) (m : s2n_mode) (p : s2n_crypto_parameters)
    (alg : s2n_record_algorithm) (k : nonce_kind) (key iv : list Z) (n : Z) : Prop := {
  params_at : lget (params_lens r) c = Some p;
  params_with : params_alg p = Some alg;
  params_kind : In (alg, k) aead_algs;
  params_side : aead_side key iv n (lget (side_lens m) p);
}.

Lemma aead_alg_facts alg k : In (alg, k) aead_algs ->
  io (cipher alg) = S2N_AEAD (explicit_len k) (fixed_len k) TAG /\ hmac_alg alg = S2N_HMAC_NONE /\
  has_flag alg S2N_TLS13_RECORD_AEAD_NONCE = match k with Implicit13 => true | _ => false end /\
  has_flag alg S2N_TLS12_AES_GCM_AEAD_NONCE = match k with PartlyExplicit => true | _ => false end /\
  has_flag alg S2N_TLS12_CHACHA_POLY_AEAD_NONCE || has_flag alg S2N_TLS13_RECORD_AEAD_NONCE =
    match k with PartlyExplicit => false | _ => true end /\
  is_cipher (cipher alg) s2n_null_cipher = false.
Proof. intros Hin. repeat (destruct Hin as [[= <- <-]|Hin]; [split_goal; reflexivity|]). destruct Hin. Qed.

Lemma inner_length k content_type data : zlen (inner k content_type data) = zlen data + match k with Implicit13 => 1 | _ => 0 end.
Proof. destruct k; simpl; rewrite ?zlen_app; change (zlen [content_type]) with 1; lia. Qed.

Lemma zlen_explicit k n : zlen (explicit_nonce k n) = explicit_len k.
Proof. destruct k; [apply zlen_be_bytes|done|done]. Qed.

(** The record. *)
Definition record_header (k : nonce_kind) (version content_type len : Z) : list Z :=
  [outer_type k content_type; version / 10; version mod 10] ++ be_bytes 2 (explicit_len k + len + TAG).
Definition aead_record (k : nonce_kind) (version header_version content_type n : Z) (key iv data : list Z) : list Z :=
  let i := inner k content_type data in
  record_header k header_version content_type (zlen i) ++ explicit_nonce k n
    ++ aead_enc key (nonce k iv n) i (associated_data k version n content_type (zlen i)).
(** ** One record in fixed memory *)

Section OneRecord.
Context (ms : mem_statics) (h : heap) (d : ptr) (N : Z) (Hw : world_ok (World h ms)) (Hv : valid_access h d N) (HN : N < 2 ^ 32).
Context (c : record_conn) (r : params_ref) (m : s2n_mode) (p : s2n_crypto_parameters).
Context (alg : s2n_record_algorithm) (k : nonce_kind) (key iv : list Z) (n : Z) (Hp : aead_params c r m p alg k key iv n).
Context (content_type offs len : Z) (iov : list iovec) (bss : list (list Z)) (Hiov : Forall2 (iov_is h (blk d)) iov bss).
Context (Htype : is_u8 content_type) (Hversion : is_u8 (actual_protocol_version (rbase c))).
Context (Hoffs : 0 <= offs) (Hlen : 0 <= len <= S2N_TLS_MAXIMUM_FRAGMENT_LENGTH) (Hrange : offs + len <= zlen (concat bss)).
Context (Hclient : params_is_null (conn_client c) c = false) (Hserver : params_is_null (conn_server c) c = false).
Context (Hmine : write_side c = (r, m)).
Abbreviation version := (actual_protocol_version (rbase c)).
Abbreviation payload := (zslice (concat bss) offs len).
Abbreviation i := (inner k content_type payload).
Abbreviation built := (built ms h d).
Abbreviation building := (building d N).
Abbreviation side := (lget (side_lens m) p).

Lemma iov_bytes : is_bytes payload.
Proof.
  by eapply Forall_zslice, iov_concat_bytes.
Qed.

Lemma record_version_range t : 0 <= record_version c t <= S2N_TLS12.
Proof.
  unfold record_version, is_u8, S2N_TLS10, S2N_TLS12, S2N_UNKNOWN_PROTOCOL_VERSION in *.
  destruct (_ && _); zcase; lia.
Qed.

Lemma header_bytes t l : is_u8 t -> is_bytes ([t; record_version c t / 10; record_version c t mod 10] ++ be_bytes 2 l).
Proof.
  intros Ht. pose proof (record_version_range t) as Hr. unfold S2N_TLS12 in Hr. apply Forall_app. split; [|apply be_bytes_is_bytes].
  pose proof (Z.div_mod (record_version c t) 10). pose proof (Z.mod_pos_bound (record_version c t) 10).
  unfold is_u8 in *. repeat constructor; lia.
Qed.

(** The nonce and the associated data; a partly explicit nonce goes into the record. *)
Lemma wp_aead_iv_aad bs Q E :
  is_bytes bs -> zlen bs + explicit_len k <= N ->
  Q (nonce k iv n, associated_data k version n content_type (zlen i)) (built (bs ++ explicit_nonce k n))
    (c, building false (bs ++ explicit_nonce k n)) ->
  wp (aead_iv_aad alg (fixed_len k) TAG content_type len r m) (built bs, (c, building false bs)) Q E.
Proof.
  intros Hbs Hroom HQ. destruct Hp as [Hat Hwith Hin Hside]. destruct Hside as [Hkey Hiv Hivl Hivb Hseq Hn].
  destruct (aead_alg_facts alg k Hin) as (Hio & Hmac & H13 & Hgcm & Himp & _).
  change S2N_TLS_MAXIMUM_FRAGMENT_LENGTH with 16384 in Hlen.
  assert (Hpl : zlen payload = len) by (rewrite zlen_zslice; lia). pose proof (inner_length k content_type payload) as Hil. rewrite Hpl in Hil.
  apply wp_bind, wp_zoom, wp_get_obj, wp_bind, wp_zoom. eapply wp_side_get; [exact Hat|]. rewrite Hgcm, Himp, H13, Hseq, Hiv.
  apply wp_bind. destruct k; cbn [explicit_nonce fixed_len] in *.
  - apply wp_bind, wp_zoom. eapply wp_run; [apply (build_bytes ms h d N Hw Hv HN); [done|by rewrite zlen_be_bytes|rewrite zlen_app, zlen_be_bytes; done]|].
    assert (Ht : take (Z.to_nat 4) iv = zslice iv 0 4) by done. assert (Hl4 : zlen (zslice iv 0 4) = 4) by (apply zlen_zslice; rewrite ?Hivl; unfold S2N_TLS_MAX_IV_LEN; lia).
    rewrite Ht. apply wp_bind, wp_bind, wp_ensure; [intros _|by rewrite Hl4]. apply wp_ret. cbn [app].
    apply wp_bind, wp_ensure; [intros _|by rewrite Hl4, zlen_be_bytes]. apply wp_ret, wp_bind.
    eapply wp_run; [apply aead_aad_init_eq; change (2 ^ 16) with 65536; lia|]. apply wp_ret. rewrite Hil, Z.add_0_r in HQ. exact HQ.
  - eapply wp_run; [by apply implicit_nonce_eq|]. apply wp_bind.
    eapply wp_run; [apply aead_aad_init_eq; change (2 ^ 16) with 65536; lia|]. apply wp_ret. rewrite app_nil_r in HQ. rewrite Hil, Z.add_0_r in HQ. exact HQ.
  - eapply wp_run; [by apply implicit_nonce_eq|]. apply wp_bind. unfold S2N_TLS_CONTENT_TYPE_LENGTH. rewrite u16_small by lia.
    eapply wp_run; [apply tls13_aad_init_eq; unfold TAG; lia|]. apply wp_ret. rewrite app_nil_r in HQ. rewrite Hil in HQ. exact HQ.
Qed.
Abbreviation header_version := (record_version c (outer_type k content_type)).
Abbreviation record := (aead_record k version header_version content_type n key iv payload).

Lemma record_type_eq : RECORD_TYPE (has_flag alg S2N_TLS13_RECORD_AEAD_NONCE) content_type = outer_type k content_type.
Proof. destruct (aead_alg_facts alg k (params_kind _ _ _ _ _ _ _ _ _ Hp)) as (_ & _ & -> & _). by destruct k. Qed.

Lemma outer_type_u8 : is_u8 (outer_type k content_type).
Proof. destruct k; [done|done|]. unfold outer_type, is_u8, TLS_APPLICATION_DATA. lia. Qed.

Lemma payload_length : zlen payload = len.
Proof. rewrite zlen_zslice; lia. Qed.

Lemma record_overhead_eq : record_overhead alg version = TAG + explicit_len k.
Proof.
  destruct (aead_alg_facts alg k (params_kind _ _ _ _ _ _ _ _ _ Hp)) as (Hio & Hmac & _).
  unfold record_overhead. rewrite Hio, Hmac. by destruct k.
Qed.

(** The last steps: the cursor goes to where the encryption starts. *)
Definition encrypt_at (bs : list Z) (t : bool) : s2n_stuffer :=
  Stuffer (Blob (Some d) N 0 false) 0 (S2N_TLS_RECORD_HEADER_LENGTH + explicit_len k) (zlen bs) false false t.

Lemma encrypt_at_ok bs t : S2N_TLS_RECORD_HEADER_LENGTH + explicit_len k <= zlen bs -> zlen bs <= N -> stuffer_ok (hp (built bs)) (encrypt_at bs t).
Proof.
  intros Hl Hle. assert (Hex : 0 <= explicit_len k) by (by destruct k). change S2N_TLS_RECORD_HEADER_LENGTH with 5 in *.
  split; simpl; try done; change S2N_TLS_RECORD_HEADER_LENGTH with 5; [by apply (building_blob_ok h d N Hv HN)|lia..].
Qed.

Lemma wp_skip_to_encrypt bs t extra (c' : record_conn) (K : Z -> Cmd (record_conn * s2n_stuffer) unit) Q E :
  is_bytes bs -> zlen bs = S2N_TLS_RECORD_HEADER_LENGTH + explicit_len k + zlen i -> zlen bs + TAG <= N ->
  wp (K (zlen i + TAG)) (built bs, (c', encrypt_at bs t)) Q E ->
  wp (zoom record_lens s2n_stuffer_rewrite ;;; zoom record_lens (s2n_stuffer_skip_write S2N_TLS_RECORD_HEADER_LENGTH) ;;;
      bind (zoom record_lens (skip_to_encrypt alg version 0 0 extra len 0)) K) (built bs, (c', building t bs)) Q E.
Proof.
  intros Hbs Hl Hroom HQ. destruct (aead_alg_facts alg k (params_kind _ _ _ _ _ _ _ _ _ Hp)) as (Hio & _ & H13 & _).
  pose proof (inner_length k content_type payload) as Hil. rewrite payload_length in Hil.
  change S2N_TLS_MAXIMUM_FRAGMENT_LENGTH with 16384 in Hlen. unfold TAG in *. change S2N_TLS_RECORD_HEADER_LENGTH with 5 in *.
  assert (Hex : 0 <= explicit_len k) by (by destruct k). pose proof (zlen_nonneg i). pose proof (zlen_nonneg bs).
  pose proof (built_ok ms h d Hw bs Hbs) as Hwb. pose proof (building_blob_ok h d N Hv HN bs ltac:(lia)) as Hblob.
  unfold encrypt_at in HQ. apply wp_bind, wp_zoom, wp_rewrite; [apply (building_ok h d N Hv HN); lia|]. intros s' -> Hs'.
  set (st j := Stuffer (Blob (Some d) N 0 false) 0 j (zlen bs) false false t).
  assert (Hst : forall j, 0 <= j <= zlen bs -> stuffer_ok (hp (built bs)) (st j)).
  { intros j Hj. split; simpl; try done; lia. }
  assert (Hext : forall j e, 0 <= e -> j + e <= zlen bs -> extended_by (blob (st j)) e (st j) = st (j + e)).
  { intros j e He Hj. unfold extended_by, st. simpl. f_equal. lia. }
  cbn [lget lset record_lens snd_lens fst snd]. change (set_read_cursor 0 (set_write_cursor 0 (building t bs))) with (st 0).
  apply wp_bind, wp_zoom. cbn [lget lset record_lens snd_lens fst snd].
  apply wp_skip_write_fits; [done|apply Hst; lia|simpl; lia|]. rewrite Hext by lia.
  apply wp_bind, wp_zoom. cbn [lget lset record_lens snd_lens fst snd].
  unfold skip_to_encrypt. rewrite Hio. apply wp_bind, wp_skip_write_fits; [done|apply Hst; lia|simpl; lia|]. rewrite Hext by lia.
  apply wp_ret. rewrite Z.add_0_l. rewrite H13, Hil in *. unfold S2N_TLS_CONTENT_TYPE_LENGTH, TAG.
  rewrite Z.add_0_r, (u16_small len), (u16_small (len + 16)) by lia.
  destruct k; rewrite ?u16_small by lia; [by rewrite Z.add_0_r in HQ|by rewrite Z.add_0_r in HQ|].
  by replace (len + 16 + 1) with (len + 1 + 16) by lia.
Qed.
(** The side after a record. *)
Definition next_side (k' : s2n_session_key) (s : crypto_side) : crypto_side := lset session_key_lens k' (with_seq (n + 1) s).

(** The plaintext of the record, before the encryption. *)
Abbreviation plain_record := (record_header k header_version content_type (zlen i) ++ explicit_nonce k n ++ i).

Lemma plain_record_facts : is_bytes plain_record /\ zlen plain_record = S2N_TLS_RECORD_HEADER_LENGTH + explicit_len k + zlen i.
Proof.
  split.
  - apply Forall_app. split; [apply (header_bytes _ _ outer_type_u8)|]. apply Forall_app. split.
    + destruct k; [apply be_bytes_is_bytes|constructor|constructor].
    + pose proof iov_bytes. destruct k; [done|done|]. apply Forall_app. split; [done|by constructor].
  - unfold record_header. rewrite !zlen_app, zlen_explicit, zlen_be_bytes. change S2N_TLS_RECORD_HEADER_LENGTH with 5.
    unfold zlen at 1. cbn [length]. lia.
Qed.

(** The start of the record: everything before the encryption. *)
Lemma wp_encrypt_record bs kk (c' : record_conn) p' Q E :
  bs = plain_record -> zlen bs + TAG <= N -> lget (params_lens r) c' = Some p' -> session_key (lget (side_lens m) p') = kk ->
  aead_key key kk ->
  (forall k', aead_key key k' -> Q tt (built record) (with_side r m p' (lset session_key_lens k' (lget (side_lens m) p')) c')) ->
  (forall k', aead_key key k' -> E S2N_ERR_ENCRYPT (built bs) (with_side r m p' (lset session_key_lens k' (lget (side_lens m) p')) c')) ->
  wp (on_side r m (s2n_record_encrypt alg version (nonce k iv n) (associated_data k version n content_type (zlen i))
        (Blob (Some (Ptr (blk d) (off d + (S2N_TLS_RECORD_HEADER_LENGTH + explicit_len k)))) (zlen i + TAG) 0 false) 0)) (built bs, c') Q E.
Proof.
  intros Ebs Hroom Hc' Hkk Hkey HQ HE. destruct (aead_alg_facts alg k (params_kind _ _ _ _ _ _ _ _ _ Hp)) as (Hio & _).
  destruct plain_record_facts as [Hbs Hl]. pose proof (zlen_nonneg i). rewrite <- Ebs in Hbs, Hl.
  assert (Hex : 0 <= explicit_len k) by (by destruct k). change S2N_TLS_RECORD_HEADER_LENGTH with 5 in *.
  set (q := Ptr (blk d) (off d + (5 + explicit_len k))).
  assert (Hq : valid_access (hp (built bs)) q (zlen i + TAG)).
  { apply valid_access_heap_with; [apply (fits_access h d N Hv); unfold TAG in *; pose proof (zlen_nonneg bs); lia|].
    eapply valid_access_sub; [exact Hv|unfold TAG in *; lia..]. }
  apply (wp_on_side _ _ _ _ _ p'); [done|]. unfold s2n_record_encrypt. rewrite Hio.
  apply wp_bind, wp_ret. apply wp_zoom.
  cbn [lget session_key_lens]. rewrite Hkk.
  assert (Hhead : forall a b : list Z, zlen a = 5 + explicit_len k -> zlen (a ++ b) <= N ->
    heap_with h d (a ++ b) = heap_with (heap_with h d a) q b).
  { intros a b Ha Hab. unfold q. rewrite <- Ha, (build_heap h d N Hv); done. }
  assert (Hhl : zlen (record_header k header_version content_type (zlen i) ++ explicit_nonce k n) = 5 + explicit_len k).
  { rewrite zlen_app, zlen_explicit. unfold record_header. rewrite zlen_app, zlen_be_bytes. unfold zlen at 1. cbn [length]. lia. }
  assert (Hi : bytes_at (hp (built bs)) q (zlen i) = i).
  { cbn [hp built]. rewrite Ebs, app_assoc, Hhead; [|done|rewrite <- app_assoc, <- Ebs; unfold TAG in *; lia].
    apply bytes_at_heap_with_same, valid_access_heap_with; [apply (fits_access h d N Hv); rewrite Hhl; unfold TAG in *; lia|].
    eapply valid_access_sub; [exact Hv|unfold TAG in *; lia..]. }
  apply (wp_aead_encrypt _ _ _ key); [| done|exact Hq|done| |].
  - destruct Hp as [_ _ _ [_ _ Hivl _ _ _]]. unfold S2N_TLS_MAX_IV_LEN in Hivl. destruct k; unfold nonce.
    1: rewrite zlen_app, zlen_be_bytes, zlen_zslice; lia.
    all: unfold xor_bytes, zlen; rewrite length_zip_with_l_eq by (by apply counter_length); rewrite length_app, length_be_bytes; done.
  - intros k' Hk'. rewrite Hi. replace (World _ _) with (built record); [by apply HQ|]. unfold StufferBuild.built. f_equal.
    cbn [hp mem]. rewrite Ebs. unfold aead_record. rewrite !app_assoc, (Hhead _ _ Hhl), (Hhead _ _ Hhl).
    + symmetry. apply heap_with_twice; [|rewrite aead_enc_length; unfold TAG; lia].
      rewrite aead_enc_length. apply valid_access_heap_with; [apply (fits_access h d N Hv); rewrite Hhl; unfold TAG in *; lia|].
      eapply valid_access_sub; [exact Hv|unfold TAG in *; lia..].
    + rewrite zlen_app, Hhl. unfold TAG in *. lia.
    + rewrite zlen_app, Hhl, aead_enc_length. unfold TAG in *. lia.
  - intros k' Hk'. by apply HE.
Qed.
Lemma wp_blob_at bs a l (x : record_conn * s2n_stuffer) Q E :
  zlen bs <= N -> 0 <= a -> 0 <= l -> a + l <= N -> Q (tt, Blob (Some (Ptr (blk d) (off d + a))) l 0 false) (built bs) x ->
  wp (with_local zero_blob (s2n_blob_init (Some (Ptr (blk d) (off d + a))) l)) (built bs, x) Q E.
Proof.
  intros Hbs Ha Hl Hle HQ. change (2 ^ 32) with 4294967296 in HN. apply wp_with_local, wp_bind, wp_ensure; [intros _|].
  2: { unfold S2N_MEM_IS_READABLE. simpl. by rewrite orb_true_r. }
  apply wp_bind. apply (wp_run _ _ tt (built bs) (Blob (Some (Ptr (blk d) (off d + a))) l 0 false)); [done|].
  apply wp_bind, wp_get_obj, wp_blob_postcondition; [|done]. split; simpl; unfold is_u32; try done; try (change (2 ^ 32) with 4294967296; lia).
  intros q [= <-]. rewrite Z.max_l by lia. apply valid_access_heap_with; [apply (fits_access h d N Hv); pose proof (zlen_nonneg bs); lia|].
  eapply valid_access_sub; [exact Hv|lia..].
Qed.

(** AEAD records have no MAC. *)
Lemma wp_no_mac bs t hb pb Q E :
  Q 0 (built bs) (c, building t bs) -> wp (s2n_record_write_mac hb pb) (built bs, (c, building t bs)) Q E.
Proof.
  intros HQ. destruct Hp as [Hat Hwith Hin _]. destruct (aead_alg_facts alg k Hin) as (_ & Hmac & _).
  apply wp_bind, wp_zoom, wp_get_obj. cbn [lget conn_lens fst_lens fst snd lset]. rewrite Hserver, Hclient, Hmine.
  do 2 (apply wp_bind, wp_ret). apply wp_bind, wp_zoom, wp_bind, wp_get_obj. cbn [lget conn_lens fst_lens fst]. rewrite Hat. apply wp_ret. cbn [lset conn_lens fst_lens fst snd].
  rewrite Hwith, Hmac, bool_decide_true by done. by apply wp_ret.
Qed.

Lemma wp_write_record Q E :
  zlen record <= N ->
  (n + 1 < 2 ^ 64 -> forall k', aead_key key k' -> Q tt (built record) (with_side r m p (next_side k' side) c, building true record)) ->
  (forall e bs s' st, is_bytes bs -> zlen bs <= N ->
     (e = S2N_ERR_RECORD_LIMIT /\ n + 1 = 2 ^ 64 /\ s' = with_seq 0 side \/
      e = S2N_ERR_ENCRYPT /\ n + 1 < 2 ^ 64 /\ exists k', aead_key key k' /\ s' = next_side k' side) ->
     E e (built bs) (with_side r m p s' c, st)) ->
  wp (write_record alg content_type iov offs len (record_overhead alg version) 0 0 r m) (built [], (c, building false [])) Q E.
Proof.
  intros Hroom HQ HE. destruct Hp as [Hat Hwith Hin Hside]. destruct (aead_alg_facts alg k Hin) as (Hio & _ & H13 & _).
  destruct plain_record_facts as [Hbs Hl]. pose proof Hside as [Hkey _ _ _ Hseq Hn].
  pose proof (inner_length k content_type payload) as Hil. rewrite payload_length in Hil.
  assert (Hrl : zlen record = zlen plain_record + TAG).
  { unfold aead_record. rewrite !zlen_app, aead_enc_length. lia. }
  rewrite Hrl, Hl in Hroom. unfold TAG in Hroom. change S2N_TLS_RECORD_HEADER_LENGTH with 5 in *.
  pose proof Hlen as Hlen'. change S2N_TLS_MAXIMUM_FRAGMENT_LENGTH with 16384 in Hlen'.
  assert (Hex : 0 <= explicit_len k <= 8) by (by destruct k). pose proof (zlen_nonneg i).
  pose proof (outer_type_u8) as Ht. pose proof (header_bytes _ (explicit_len k + zlen i + TAG) Ht) as Hhb.
  apply Forall_app in Hhb as [Hhb3 Hhb2]. pose proof (Forall_cons_1 _ _ _ Hhb3) as [_ Hvb].
  (* the header *)
  apply wp_bind, wp_zoom, wp_get_obj. apply wp_bind, wp_zoom, wp_get_obj. cbn [lget lset conn_lens record_lens fst_lens snd_lens fst snd].
  rewrite record_type_eq. apply wp_bind, wp_zoom. cbn [lget lset record_lens snd_lens fst snd].
  eapply wp_run; [apply (build_uint8 ms h d N Hw Hv HN false []); [constructor|change (zlen (@nil Z)) with 0; lia]|]. cbn [app].
  apply wp_bind, wp_zoom. cbn [lget lset record_lens snd_lens fst snd].
  eapply wp_run; [apply (build_bytes ms h d N Hw Hv HN); [constructor; [exact Ht|constructor]|done|unfold zlen; simpl; lia]|]. cbn [app].
  rewrite Hio. apply wp_bind, wp_ret. rewrite record_overhead_eq, H13.
  assert (Hextra : (if match k with Implicit13 => true | _ => false end then u16 (TAG + explicit_len k + S2N_TLS_CONTENT_TYPE_LENGTH)
    else TAG + explicit_len k) = explicit_len k + zlen i + TAG - len).
  { unfold TAG, S2N_TLS_CONTENT_TYPE_LENGTH in *. destruct k; rewrite ?u16_small; lia. }
  rewrite Hextra. replace (len + 0 + (explicit_len k + zlen i + TAG - len)) with (explicit_len k + zlen i + TAG) by lia.
  assert (Hfrag : u16 (explicit_len k + zlen i + TAG) = explicit_len k + zlen i + TAG) by (apply u16_small; unfold TAG; destruct k; lia).
  rewrite Hfrag. apply wp_bind, wp_ensure; [intros _|].
  2: { change S2N_TLS13_MAXIMUM_RECORD_LENGTH with 16645. change S2N_TLS_MAXIMUM_RECORD_LENGTH with 17413.
       change S2N_TLS_RECORD_HEADER_LENGTH with 5. unfold TAG. intros Hz. destruct k; zbool; lia. }
  apply wp_bind, wp_zoom. cbn [lget lset record_lens snd_lens fst snd].
  eapply wp_run; [apply (build_uint16 ms h d N Hw Hv HN); [done|unfold zlen; simpl; lia]|]. cbn [app].
  fold (record_header k header_version content_type (zlen i)).
  change (outer_type k content_type :: header_version / 10 :: header_version mod 10 :: be_bytes 2 (explicit_len k + zlen i + TAG))
    with (record_header k header_version content_type (zlen i)).
  set (hdr := record_header k header_version content_type (zlen i)) in *.
  assert (Hhdr : is_bytes hdr) by (by apply Forall_app).
  assert (Hhl : zlen hdr = 5) by (unfold hdr, record_header; rewrite zlen_app, zlen_be_bytes; done).
  (* the nonce and the payload *)
  apply wp_bind, (wp_aead_iv_aad hdr); [done|lia|]. cbn [fst snd].
  assert (Heb : is_bytes (hdr ++ explicit_nonce k n)).
  { apply Forall_app. split; [done|]. destruct k; [apply be_bytes_is_bytes|constructor|constructor]. }
  assert (Hel : zlen (hdr ++ explicit_nonce k n) = 5 + explicit_len k) by (by rewrite zlen_app, zlen_explicit, Hhl).
  apply wp_bind, wp_zoom. cbn [lget lset record_lens snd_lens fst snd].
  eapply wp_run; [apply (build_writev ms h d N Hw Hv HN false _ iov bss len offs Heb Hiov); [lia|destruct k; lia|done|done]|]. cbn [fst snd].
  set (hp' := (hdr ++ explicit_nonce k n) ++ payload).
  assert (Hpb : is_bytes hp') by (apply Forall_app; split; [done|apply iov_bytes]).
  assert (Hpl : zlen hp' = 5 + explicit_len k + len) by (unfold hp'; rewrite zlen_app, Hel, payload_length; done).
  apply wp_bind, wp_zoom, wp_get_obj. cbn [lget lset record_lens snd_lens fst snd].
  change (write_cursor (building true hp')) with (zlen hp'). apply wp_bind, wp_ptr_add_some. rewrite Hpl.
  apply wp_bind, wp_with_local, wp_blob_slice; [apply (building_blob_ok h d N Hv HN); destruct k; lia|by split; simpl; unfold is_u32; try done; try lia|unfold is_u32; lia|unfold is_u32; change S2N_TLS_RECORD_HEADER_LENGTH with 5; lia| |].
  2: { intros Hz. exfalso. change (N < 5) in Hz. lia. }
  intros _. apply wp_bind, wp_blob_at; [destruct k; lia|lia|lia|destruct k; lia|].
  apply wp_bind, wp_no_mac.
  (* the record number *)
  apply wp_bind, wp_zoom. cbn [lget lset conn_lens fst_lens fst snd].
  apply (wp_on_side _ _ _ _ _ p); [done|]. eapply wp_increment_sequence; [apply (built_ok ms h d Hw _ Hpb)|exact Hseq|done| |].
  2: { intros Hlim. apply HE; [done|destruct k; lia|]. left. done. }
  intros Hlim. set (c1 := with_side r m p (with_seq (n + 1) side) c).
  (* the inner content type *)
  apply wp_bind. apply (wp_mono _ _ (fun _ w' x => w' = built plain_record /\ x = (c1, building true plain_record)) _ (fun _ _ _ => False)); [| |done].
  { assert (Hplain : plain_record = hp' ++ match k with Implicit13 => [content_type] | _ => [] end).
    { unfold hp'. rewrite <- !app_assoc. do 2 f_equal. destruct k; simpl; by rewrite ?app_nil_r. }
    destruct k; [apply wp_ret; by rewrite Hplain, app_nil_r|apply wp_ret; by rewrite Hplain, app_nil_r|].
    apply wp_zoom. cbn [lget lset record_lens snd_lens fst snd]. rewrite Hplain.
    eapply wp_run; [apply (build_uint8 ms h d N Hw Hv HN); [done|lia]|]. done. }
  intros [] w' x [-> ->]. apply wp_bind, wp_ret.
  apply wp_skip_to_encrypt; [done|exact Hl|fold hdr; rewrite Hl; unfold TAG; lia|].
  (* the encryption *)
  fold hdr. assert (Hst : stuffer_ok (hp (built (hdr ++ explicit_nonce k n ++ i))) (encrypt_at (hdr ++ explicit_nonce k n ++ i) true)).
  { apply encrypt_at_ok; rewrite ?Hl; unfold TAG; change S2N_TLS_RECORD_HEADER_LENGTH with 5; lia. }
  apply wp_bind, wp_zoom, wp_get_obj. cbn [lget lset record_lens snd_lens fst snd].
  rewrite (space_remaining_eq Hst). apply wp_bind, wp_ensure; [intros _|].
  2: { simpl size. simpl write_cursor. change S2N_TLS_RECORD_HEADER_LENGTH with 5. unfold TAG. intros Hz. zbool. lia. }
  apply wp_bind, wp_attempt, wp_zoom. cbn [lget lset record_lens snd_lens fst snd].
  eapply wp_raw_write_fits; [apply (built_ok ms h d Hw _ Hbs)|exact Hst|done|simpl; change S2N_TLS_RECORD_HEADER_LENGTH with 5; unfold TAG; lia|].
  assert (Hend : set_tainted true (extended_by (blob (encrypt_at (hdr ++ explicit_nonce k n ++ i) true)) (zlen i + TAG)
    (encrypt_at (hdr ++ explicit_nonce k n ++ i) true)) = building true record).
  { unfold StufferBuild.building. rewrite Hrl. fold hdr. unfold extended_by, encrypt_at, set_tainted.
    cbn [blob read_cursor write_cursor high_water_mark alloced st_growable]. rewrite Hl.
    change S2N_TLS_RECORD_HEADER_LENGTH with 5. unfold TAG. f_equal; lia. }
  rewrite Hend. apply wp_zoom. cbn [lget lset conn_lens fst_lens fst snd write_cursor encrypt_at].
  pose proof (with_side_params r m p (with_seq (n + 1) side) c) as Hc1.
  assert (Htwice : forall k', with_side r m (lset (side_lens m) (with_seq (n + 1) side) p)
    (lset session_key_lens k' (lget (side_lens m) (lset (side_lens m) (with_seq (n + 1) side) p))) c1 = with_side r m p (next_side k' side) c).
  { intros k'. unfold c1. by rewrite with_side_twice, side_get_set. }
  eapply (wp_encrypt_record _ _ _ _ _ _ eq_refl); [fold hdr; rewrite Hl; unfold TAG; lia|exact Hc1|done|by rewrite side_get_set| |].
  - intros k' Hk'. rewrite Htwice. by apply HQ.
  - intros k' Hk'. rewrite Htwice. apply HE; [done|fold hdr; lia|]. right. split; [done|]. split; [done|]. by exists k'.
Qed.
End OneRecord.
(** ** s2n_record_writev *)

Section Writev.
Context (c : record_conn) (r : params_ref) (m : s2n_mode) (p : s2n_crypto_parameters).
Context (alg : s2n_record_algorithm) (k : nonce_kind) (key iv : list Z) (n : Z) (Hp : aead_params c r m p alg k key iv n).
Context (content_type offs len : Z) (bss : list (list Z)).
Context (Htype : is_u8 content_type) (Hversion : is_u8 (actual_protocol_version (rbase c))).
Context (Hoffs : 0 <= offs) (Hlen : 0 <= len <= S2N_TLS_MAXIMUM_FRAGMENT_LENGTH) (Hrange : offs + len <= zlen (concat bss)).
Context (Hclient : params_is_null (conn_client c) c = false) (Hserver : params_is_null (conn_server c) c = false).
Context (Hmine : write_side c = (r, m)).
Abbreviation version := (actual_protocol_version (rbase c)).
Abbreviation payload := (zslice (concat bss) offs len).
Abbreviation out := (out_stuffer (rbase c)).
Abbreviation side := (lget (side_lens m) p).

Definition record_of : list Z :=
  aead_record k version (record_version c (outer_type k content_type)) content_type n key iv payload.

(** What the sides and the output are after a record, and after a failure. *)
Definition sent (w : world) (w' : world) (c' : record_conn) : Prop :=
  n + 1 < 2 ^ 64 /\ (exists k' out', aead_key key k' /\ c' = lset out_lens out' (with_side r m p (next_side n k' side) c)) /\
  world_ok w' /\ stuffer_ok (hp w') (out_stuffer (rbase c')) /\
  written (hp w') (out_stuffer (rbase c')) = written (hp w) out ++ record_of.
Definition not_sent (w : world) (e : s2n_error) (w' : world) (c' : record_conn) : Prop :=
  (exists s', (e = S2N_ERR_RECORD_LIMIT /\ n + 1 = 2 ^ 64 /\ s' = with_seq 0 side \/
               e = S2N_ERR_ENCRYPT /\ n + 1 < 2 ^ 64 /\ exists k', aead_key key k' /\ s' = next_side n k' side) /\
     c' = with_side r m p s' c) /\
  world_ok w' /\ stuffer_ok (hp w') out /\ written (hp w') out = written (hp w) out.

(** What is left of the output as it was: with the memory that it had, or, when
    it was freed, with room for a record of [limit] bytes. *)
Definition out_after (limit : Z) (w w' : world) (c' : record_conn) : Prop :=
  let out' := out_stuffer (rbase c') in
  step_ok w out w' out' /\ read_cursor out' = read_cursor out /\
  (data (blob out) <> None -> blob out' = blob out) /\
  (data (blob out) = None -> limit + wire_overhead c <= size (blob out')).

Lemma wp_in_out_stuffer (w : world) (q : ptr) iov Q E :
  world_ok w -> stuffer_ok (hp w) out -> data (blob out) = Some q -> Forall2 (iov_is (hp w) (blk q)) iov bss ->
  zlen record_of <= size (blob out) - write_cursor out ->
  (forall w' c', sent w w' c' -> (forall limit, out_after limit w w' c') -> Q tt w' c') ->
  (forall e w' c', not_sent w e w' c' -> E e w' c') ->
  wp (in_out_stuffer (write_record alg content_type iov offs len (record_overhead alg version) 0 0 r m)) (w, c) Q E.
Proof.
  intros Hw Hs Hq Hiov Hroom HQ HE. pose proof (ok_size32 Hs) as H32. pose proof (ok_read _ _ Hs). pose proof (ok_write _ _ Hs).
  pose proof (zlen_nonneg record_of).
  set (d := Ptr (blk q) (off q + write_cursor out)). set (N := size (blob out) - write_cursor out) in *.
  assert (Hv : valid_access (hp w) d N) by (apply (stuffer_access Hs); [done|unfold N; lia..]).
  assert (Hb : blob_ok (hp w) (Blob (Some d) N 0 false)).
  { split; simpl; unfold is_u32; try done; try lia. intros q' [= <-]. by rewrite Z.max_l by lia. }
  apply wp_bind, wp_get_obj. cbv zeta. rewrite Hq. apply wp_bind, wp_ptr_add_some. fold d. rewrite (space_remaining_eq Hs). fold N.
  apply wp_bind, wp_with_local, wp_bind, wp_ensure; [intros _|unfold S2N_MEM_IS_READABLE; simpl; by rewrite orb_true_r].
  apply wp_bind. apply (wp_run _ _ tt w (Blob (Some d) N 0 false)); [done|].
  apply wp_bind, wp_get_obj, wp_blob_postcondition; [done|]. apply wp_bind, wp_with_local, wp_init; [done|].
  destruct w as [h ms]. cbn [hp mem fst snd] in *.
  assert (Hbefore : forall bs, zlen bs <= N -> stuffer_ok (heap_with h d bs) out /\ written (heap_with h d bs) out = written h out).
  { intros bs Hle. assert (Hvb : valid_access h d (zlen bs)) by (destruct Hv as (l & ? & ? & ? & ?); exists l; split_goal; [done|pose proof (zlen_nonneg bs); lia..]).
    split; [destruct Hs as [Hsb ? ? ? ?]; split; try done; by apply blob_ok_heap_with|].
    unfold written. rewrite Hq. apply bytes_at_heap_with_disjoint; [done| |right; left; simpl; lia].
    pose proof (stuffer_access Hs q 0 (write_cursor out) Hq ltac:(lia) ltac:(lia) ltac:(lia)) as Ha. destruct q. simpl in Ha. by rewrite Z.add_0_r in Ha. }
  apply wp_bind. assert (Hrun : wp (write_record alg content_type iov offs len (record_overhead alg version) 0 0 r m)
    (World h ms, (c, Stuffer (Blob (Some d) N 0 false) 0 0 0 false false false))
    (fun _ w' x => n + 1 < 2 ^ 64 /\ exists k', aead_key key k' /\ w' = built ms h d record_of /\
       x = (with_side r m p (next_side n k' side) c, building d N true record_of))
    (fun e w' x => not_sent (World h ms) e w' (fst x))).
  { pose proof (heap_with_nil h d) as Hnil. rewrite <- Hnil at 1.
    apply (wp_write_record ms h d N Hw Hv ltac:(lia) c r m p alg k key iv n Hp content_type offs len iov bss Hiov Htype Hversion
             Hoffs Hlen Hrange Hclient Hserver Hmine); [done| |].
    - intros Hlim k' Hk'. split; [done|]. by exists k'.
    - intros e bs s' st Hbs Hle Hcase. destruct (Hbefore bs Hle) as [? ?]. split; [by exists s'|]. split; [by apply built_ok|done]. }
  unfold wp in Hrun |- * at 1. destruct (write_record _ _ _ _ _ _ _ _ _ _ _) as [[[]|e|] [w' [c' s']]]; [| |done].
  2: { by apply HE. }
  destruct Hrun as (Hlim & k' & Hk' & -> & [= -> ->]). apply wp_zoom. cbn [lget out_lens]. rewrite with_side_rbase.
  assert (Hav : s2n_stuffer_data_available (building d N true record_of) = zlen record_of).
  { unfold s2n_stuffer_data_available, building. simpl. rewrite Z.sub_0_r. apply u32_small. lia. }
  rewrite Hav. destruct (Hbefore record_of Hroom) as [Hs' Hby].
  assert (Hrb : is_bytes record_of).
  { unfold record_of, aead_record. apply Forall_app. split; [apply (header_bytes c Hversion); by eapply outer_type_u8|]. apply Forall_app. split.
    - destruct k; [apply be_bytes_is_bytes|constructor|constructor].
    - apply aead_enc_bytes. assert (is_bytes payload) by (by eapply Forall_zslice, iov_concat_bytes).
      destruct k; [done|done|]. apply Forall_app. split; [done|by constructor]. }
  apply wp_skip_write_fits; [by apply built_ok|exact Hs'|unfold N in Hroom; lia|]. apply HQ.
  2: { intros limit. unfold out_after. cbv zeta. simpl out_stuffer. split; [|by rewrite Hq]. split; simpl.
    - done.
    - apply heap_with_ok; [apply Hw|done].
    - apply extended_by_ok; [exact Hs'|unfold N in Hroom; lia].
    - intros x l Hx Hno. rewrite heap_with_ne; [done|by apply (fits_access h d N Hv)|]. intros ->. apply Hno. by exists q.
    - intros x Hx. by left. }
  split; [done|]. split; [exists k'; by eexists|]. split; [by apply built_ok|]. simpl out_stuffer. split; [apply extended_by_ok; [exact Hs'|unfold N in Hroom; lia]|].
  unfold written in Hby |- *. simpl. rewrite Hq in Hby |- *. rewrite bytes_at_app; [|apply valid_access_heap_with|lia|lia].
  - rewrite Hby. f_equal. apply bytes_at_heap_with_same. by apply (fits_access h d N Hv).
  - by apply (fits_access h d N Hv).
  - pose proof (stuffer_access Hs q 0 (write_cursor out + zlen record_of) Hq ltac:(lia) ltac:(lia) ltac:(unfold N in Hroom; lia)) as Ha.
    destruct q. simpl in Ha. by rewrite Z.add_0_r in Ha.
Qed.
End Writev.
(** The bytes of a buffer outside of the memory of a stuffer. *)
Definition iov_outside (h : heap) (s : s2n_stuffer) (v : iovec) (bs : list Z) : Prop :=
  buf_is h (iov_base v) (iov_len v) bs /\ is_bytes bs /\ iov_len v < 2 ^ 32 /\
  match iov_base v with HeapBuf (Some p) => ~ in_block (blob s) (blk p) | _ => True end.

Lemma iov_outside_is h s q iov bss : data (blob s) = Some q -> Forall2 (iov_outside h s) iov bss -> Forall2 (iov_is h (blk q)) iov bss.
Proof.
  intros Hq Hiov. eapply Forall2_impl; [exact Hiov|]. intros v bs (Hb & Hbs & H32 & Ho).
  split; [done|split; [done|split; [done|]]]. destruct (iov_base v) as [[p|]|]; try done. intros He. apply Ho. by exists q.
Qed.

(** After an allocation: the new memory is nobody else's. *)
Lemma iov_outside_fresh w s w' s' q iov bss :
  step_ok w s w' s' -> data (blob s) = None -> data (blob s') = Some q ->
  Forall2 (iov_outside (hp w) s) iov bss -> Forall2 (iov_is (hp w') (blk q)) iov bss.
Proof.
  intros [_ _ _ Hf Hfr] Hn Hq Hiov. eapply Forall2_impl; [exact Hiov|]. intros v bs ([Hl Hb] & Hbs & H32 & _).
  assert (Hno : forall k, ~ in_block (blob s) k) by (intros k (x & Hx & _); congruence).
  assert (Hnew : hp w !! blk q = None) by (destruct (Hfr (blk q)) as [Hx|Hx]; [by exists q|by apply Hno in Hx|done]).
  split; [split; [done|]|split; [done|split; [done|]]].
  - destruct (iov_base v) as [[x|]|]; try done. destruct Hb as [(l & Hx & ?) <-]. pose proof (Hf _ _ Hx (Hno _)) as Hx'. split.
    + by exists l.
    + apply bytes_at_ext. congruence.
  - destruct (iov_base v) as [[x|]|]; try done. destruct Hb as [(l & Hx & _) _]. intros He. congruence.
Qed.

Lemma record_of_length content_type n key iv (c : record_conn) k offs len bss :
  0 <= offs -> 0 <= len -> offs + len <= zlen (concat bss) ->
  zlen (record_of c k key iv n content_type offs len bss) =
    S2N_TLS_RECORD_HEADER_LENGTH + explicit_len k + len + match k with Implicit13 => 1 | _ => 0 end + TAG.
Proof.
  intros Ho Hl Hr. unfold record_of, aead_record, record_header. rewrite !zlen_app, aead_enc_length, zlen_explicit, zlen_be_bytes, inner_length.
  rewrite zlen_zslice by lia. change S2N_TLS_RECORD_HEADER_LENGTH with 5. unfold zlen at 1. cbn [length]. lia.
Qed.

(** The part of s2n_record_writev after the checks. *)
Definition writev_rest (content_type : Z) (iov : list iovec) (offs to_write : Z) (alg : s2n_record_algorithm)
    (r : params_ref) (m : s2n_mode) (c : record_conn) (max_write_payload_size : Z) : Cmd record_conn Z :=
  let len := u16 (Z.min to_write max_write_payload_size) in
  extra <-- s2n_tls_record_overhead ;;
  (if s2n_stuffer_is_freed (out_stuffer (rbase c)) then
     max_wire_record_size <-- s2n_record_max_write_size max_write_payload_size ;;
     zoom out_lens (s2n_stuffer_growable_alloc (Z.max (send_buffer_size_override c) max_wire_record_size))
   else ret tt) ;;;
  in_out_stuffer (write_record alg content_type iov offs len extra 0 0 r m) ;;;
  ret len.

Lemma wp_writev_start (w : world) (c : record_conn) r m p alg k key iv n content_type offs to_write iov Q E :
  aead_params c r m p alg k key iv n -> write_side c = (r, m) -> ktls_send_enabled c = false -> is_tls13_ccs c content_type = false ->
  stuffer_ok (hp w) (out_stuffer (rbase c)) -> (multirecord_send c = true \/ unread (hp w) (out_stuffer (rbase c)) = []) ->
  wp (limit <-- s2n_record_max_write_payload_size ;; writev_rest content_type iov offs to_write alg r m c limit) (w, c) Q E ->
  wp (s2n_record_writev content_type iov offs to_write) (w, c) Q E.
Proof.
  intros Hparams Hmine Hktls Hccs Hout Hdrained HQ.
  destruct (aead_alg_facts alg k (params_kind _ _ _ _ _ _ _ _ _ Hparams)) as (Hio & _ & _ & _ & _ & Hnull).
  destruct Hparams as [Hat Hwith Hin Hside].
  apply wp_bind, wp_get_obj. rewrite Hktls, Hccs. apply wp_bind, wp_ret, wp_bind, wp_get_obj. rewrite Hmine, Hccs.
  assert (Hget : get_alg r (w, c) = (Ok alg, (w, c))).
  { apply wp_eq, wp_bind, wp_bind, wp_get_obj. rewrite Hat. apply wp_ret. rewrite Hwith. by apply wp_ret. }
  apply wp_bind. eapply wp_run; [exact Hget|]. rewrite Hnull. apply wp_bind, wp_ret, wp_bind.
  eapply (wp_run _ _ tt w c).
  { destruct (multirecord_send c) eqn:Em; [done|]. destruct Hdrained as [?|Hu]; [done|]. simpl negb. cbv iota.
    pose proof (unread_len Hout) as Hl. rewrite Hu in Hl. rewrite (data_available_eq Hout), <- Hl. done. }
  rewrite Hio. unfold wp in HQ |- *. unfold bind in HQ |- * at 1.
  destruct (s2n_record_max_write_payload_size (w, c)) as [[limit|e|] [w1 c1]]; [|done|done].
  unfold writev_rest in HQ. unfold bind in HQ |- * at 1. destruct (s2n_tls_record_overhead (w1, c1)) as [[extra|e|] [w2 c2]]; [|done|done].
  exact HQ.
Qed.

Lemma read_cursor_freed {h : heap} {s : s2n_stuffer} : stuffer_ok h s -> data (blob s) = None -> read_cursor s = 0.
Proof.
  intros Hok Hnull. pose proof (ok_read _ _ Hok). pose proof (ok_write _ _ Hok). destruct (ok_null _ _ (ok_blob _ _ Hok) Hnull). lia.
Qed.

Lemma wp_writev_rest (w : world) (c : record_conn) r m p alg k key iv n content_type offs to_write limit iov bss Q E :
  world_ok w -> stuffer_ok (hp w) (out_stuffer (rbase c)) -> aead_params c r m p alg k key iv n -> write_side c = (r, m) ->
  params_is_null (conn_client c) c = false -> params_is_null (conn_server c) c = false ->
  is_u8 content_type -> is_u8 (actual_protocol_version (rbase c)) ->
  Forall2 (iov_outside (hp w) (out_stuffer (rbase c))) iov bss ->
  0 <= offs -> 0 <= to_write -> offs + to_write <= zlen (concat bss) ->
  0 < limit <= S2N_TLS_MAXIMUM_FRAGMENT_LENGTH -> 0 <= send_buffer_size_override c < 2 ^ 32 ->
  (data (blob (out_stuffer (rbase c))) <> None ->
     S2N_TLS_RECORD_HEADER_LENGTH + explicit_len k + Z.min to_write S2N_TLS_MAXIMUM_FRAGMENT_LENGTH + 1 + TAG <=
     size (blob (out_stuffer (rbase c))) - write_cursor (out_stuffer (rbase c))) ->
  (forall w' c', sent c r m p k key iv n content_type offs (Z.min to_write limit) bss w w' c' -> out_after c limit w w' c' ->
     Q (Z.min to_write limit) w' c') ->
  (forall e w' c', data (blob (out_stuffer (rbase c))) = None \/ not_sent c r m p key n w e w' c' -> E e w' c') ->
  wp (writev_rest content_type iov offs to_write alg r m c limit) (w, c) Q E.
Proof.
  intros Hw Hout Hp Hmine Hclient Hserver Htype Hversion Hiov Hoffs Hwrite Hrange Hlimit Hover Hroom HQ HE.
  change (2 ^ 32) with 4294967296 in Hover.
  set (len := Z.min to_write limit) in *. set (out := out_stuffer (rbase c)) in *.
  assert (Hlen : 0 <= len <= S2N_TLS_MAXIMUM_FRAGMENT_LENGTH) by lia.
  pose proof Hlen as Hlen'. change S2N_TLS_MAXIMUM_FRAGMENT_LENGTH with 16384 in Hroom, Hlen'.
  assert (Hrec := record_of_length content_type n key iv c k offs len bss Hoffs ltac:(lia) ltac:(lia)).
  unfold writev_rest. fold len. rewrite u16_small by lia.
  assert (Hget : s2n_tls_record_overhead (w, c) = (Ok (record_overhead alg (actual_protocol_version (rbase c))), (w, c))).
  { apply wp_eq, wp_bind, wp_get_obj, wp_bind. rewrite Hmine. cbn [fst]. apply wp_bind, wp_bind, wp_get_obj.
    rewrite (params_at _ _ _ _ _ _ _ _ _ Hp). apply wp_ret. rewrite (params_with _ _ _ _ _ _ _ _ _ Hp). by apply wp_ret, wp_ret. }
  apply wp_bind. eapply wp_run; [exact Hget|]. fold out. unfold s2n_stuffer_is_freed.
  destruct (data (blob out)) as [q|] eqn:Hq; cbn [is_null].
  - apply wp_bind, wp_ret, wp_bind.
    eapply (wp_in_out_stuffer c r m p alg k key iv n Hp content_type offs len bss Htype Hversion Hoffs Hlen ltac:(lia) Hclient Hserver Hmine w q);
      [done|done|done|by eapply iov_outside_is| | |].
    + rewrite Hrec. fold out. unfold len. destruct k; unfold TAG in *; specialize (Hroom ltac:(done)); lia.
    + intros w' c' Hs Ha. apply wp_ret. by apply HQ.
    + intros e w' c' Hs. apply HE. by right.
  - apply wp_bind, wp_bind. eapply wp_run; [by apply max_write_size_run; lia|]. pose proof (wire_overhead_range c) as Hwire.
    set (size := Z.max (send_buffer_size_override c) (limit + wire_overhead c)).
    change S2N_TLS_MAXIMUM_FRAGMENT_LENGTH with 16384 in Hlimit.
    apply wp_zoom, wp_stuffer_growable_alloc; [done|unfold is_u32; lia| |intros e w' s' _; apply HE; by left].
    intros w1 s1 (Hs1 & Hsz & Hst). specialize (Hst out). pose proof (step_stuffer _ _ _ _ Hst) as Hok1.
    assert (Hex : 0 <= explicit_len k <= 8) by (by destruct k). change S2N_TLS_RECORD_HEADER_LENGTH with 5 in *. unfold TAG in *.
    destruct (data_some Hok1 1 ltac:(lia)) as [q Hq1]; [rewrite Hsz; unfold size; lia|].
    set (c1 := lset out_lens s1 c).
    assert (Hp1 : aead_params c1 r m p alg k key iv n).
    { destruct Hp as [Hat Hwith Hin Hside]. split; try done. by destruct r. }
    assert (Hcomm : forall s o, lset out_lens o (with_side r m p s c1) = lset out_lens o (with_side r m p s c)) by (by intros s o; destruct r).
    assert (Hnull : forall r', params_is_null r' c1 = params_is_null r' c) by (by intros r'; destruct r').
    assert (Hwc1 : write_cursor s1 = 0) by (by rewrite Hs1).
    apply wp_bind. eapply (wp_in_out_stuffer c1 r m p alg k key iv n Hp1 content_type offs len bss Htype Hversion Hoffs Hlen ltac:(lia));
      [by rewrite Hnull|by rewrite Hnull|exact Hmine|by eapply step_world_ok|exact Hok1|exact Hq1| | | |].
    + eapply iov_outside_fresh; [exact Hst|done|exact Hq1|exact Hiov].
    + change (record_of c1) with (record_of c). change (out_stuffer (rbase c1)) with s1. rewrite Hrec, Hsz, Hwc1. unfold size. destruct k; lia.
    + intros w' c' (Hlim & (k' & out' & Hk' & ->) & Hw' & Hok' & Hby) Ha. apply wp_ret, HQ.
      2: { destruct (Ha limit) as (Hst' & Hr' & Hb' & _). unfold out_after. cbv zeta. split; [by eapply step_ok_trans|].
        fold out. rewrite Hq. split; [|split; [done|intros _]].
        - rewrite Hr'. change (read_cursor s1 = read_cursor out). by rewrite Hs1, (read_cursor_freed Hout Hq).
        - change (data (blob s1) <> None -> blob (out_stuffer (rbase (lset out_lens out' (with_side r m p (next_side n k' (lget (side_lens m) p)) c1)))) = blob s1) in Hb'.
          rewrite Hb' by congruence. rewrite Hsz. unfold size. change (wire_overhead c1) with (wire_overhead c). lia. }
      split; [done|].
      split; [exists k', out'; split; [done|by rewrite Hcomm]|]. split; [done|]. split; [done|].
      change (record_of c1) with (record_of c) in Hby. rewrite Hby. f_equal. change (out_stuffer (rbase c1)) with s1.
      unfold written. fold out. rewrite Hq1, Hq, Hwc1. apply bytes_at_0.
    + intros e w' c' _. apply HE. by left.
Qed.

(** A connection that is ready to write with an AEAD cipher. *)
Record aead_writer (w : world) (c : record_conn) (r : params_ref) (m : s2n_mode) (p : s2n_crypto_parameters)
    (alg : s2n_record_algorithm) (k : nonce_kind) (key iv : list Z) (n : Z) : Prop := {
  writer_world : world_ok w;
  writer_out : stuffer_ok (hp w) (out_stuffer (rbase c));
  writer_params : aead_params c r m p alg k key iv n;
  writer_side : write_side c = (r, m);
  writer_client : params_is_null (conn_client c) c = false;
  writer_server : params_is_null (conn_server c) c = false;
  writer_version : is_u8 (actual_protocol_version (rbase c));
  writer_ktls : ktls_send_enabled c = false;
  writer_drained : multirecord_send c = true \/ unread (hp w) (out_stuffer (rbase c)) = [];
  writer_max : 0 < max_outgoing_fragment_length c < 2 ^ 16;
  writer_override : 0 <= send_buffer_size_override c < 2 ^ 32;
}.

(** The bytes [offs, offs + to_write) of the buffers are to be written, and an
    output that was not freed has room for a record of them. *)
Record write_request (w : world) (c : record_conn) (k : nonce_kind) (content_type : Z) (iov : list iovec) (offs to_write : Z)
    (bss : list (list Z)) : Prop := {
  request_type : is_u8 content_type;
  request_ccs : is_tls13_ccs c content_type = false;
  request_iov : Forall2 (iov_outside (hp w) (out_stuffer (rbase c))) iov bss;
  request_offs : 0 <= offs;
  request_size : 0 <= to_write;
  request_range : offs + to_write <= zlen (concat bss);
  request_room : data (blob (out_stuffer (rbase c))) <> None ->
    S2N_TLS_RECORD_HEADER_LENGTH + explicit_len k + Z.min to_write S2N_TLS_MAXIMUM_FRAGMENT_LENGTH + 1 + TAG <=
    size (blob (out_stuffer (rbase c))) - write_cursor (out_stuffer (rbase c));
}.

Lemma wp_aead_writev (w : world) (c : record_conn) r m p alg k key iv n content_type iov offs to_write bss :
  aead_writer w c r m p alg k key iv n -> write_request w c k content_type iov offs to_write bss ->
  wp (s2n_record_writev content_type iov offs to_write) (w, c)
    (fun taken w' c' => exists limit, s2n_record_max_write_payload_size (w, c) = (Ok limit, (w, c)) /\
       taken = Z.min to_write limit /\ 0 <= taken <= S2N_TLS_MAXIMUM_FRAGMENT_LENGTH /\
       sent c r m p k key iv n content_type offs taken bss w w' c' /\ out_after c limit w w' c')
    (fun e w' c' => s2n_record_max_write_payload_size (w, c) = (Err e, (w, c)) /\ w' = w /\ c' = c \/
       exists limit, s2n_record_max_write_payload_size (w, c) = (Ok limit, (w, c)) /\
       (data (blob (out_stuffer (rbase c))) = None \/ not_sent c r m p key n w e w' c')).
Proof.
  intros [Hworld Hout Hparams Hmine Hclient Hserver Hversion Hktls Hdrained Hmax Hoverride] [Htype Hccs Hiov Hoffs Hwrite Hrange Hroom].
  pose proof (wp_max_write_payload w c Hmax Hoverride) as Hlimit. unfold wp in Hlimit.
  apply wp_writev_start with (p := p) (alg := alg) (k := k) (key := key) (iv := iv) (n := n) (r := r) (m := m); [done..|].
  destruct (s2n_record_max_write_payload_size (w, c)) as [[limit|e0|] [w0 c0]] eqn:Elimit; [| |done].
  2: { destruct Hlimit as (-> & -> & _). apply wp_bind. unfold wp. rewrite Elimit. by left. }
  destruct Hlimit as (-> & -> & Hlim & _). apply wp_bind. eapply wp_run; [exact Elimit|].
  apply (wp_writev_rest w c r m p alg k key iv n content_type offs to_write limit iov bss); try done; [lia| |].
  - intros w' c' Hs Ha. exists limit. split; [done|]. split; [done|]. split; [lia|done].
  - intros e w' c' Hcase. right. by exists limit.
Qed.

End Write.
(** Two bytes of application data in TLS1.3, record number 7. *)
Definition demo_data : list iovec := [Iovec (LocalBuf [104]) 1; Iovec (LocalBuf [105]) 1].
Abbreviation demo_write := (@s2n_record_writev demo_platform demo_libcrypto demo_digests demo_ciphers demo_record_env
  TLS_APPLICATION_DATA demo_data 0 2 (demo_world, demo_writer)).

Lemma demo_params_ok (m m' : s2n_mode) (header_in in_ out : s2n_stuffer) :
  @aead_params demo_libcrypto demo_ciphers demo_aead_ok (demo_conn m S2N_TLS13 demo_alg 7 header_in in_ out) SecureParams m'
    (demo_crypto demo_alg 7) demo_alg Implicit13 demo_aead_key demo_iv 7.
Proof.
  split; [done|done|do 3 right; by left|]. destruct m'; (split; [by eexists|done|done|solve_bytes|done|lia]).
Qed.

Lemma demo_writer_ready :
  @aead_writer demo_libcrypto demo_ciphers demo_aead_ok demo_world demo_writer SecureParams S2N_CLIENT (demo_crypto demo_alg 7) demo_alg Implicit13
    demo_aead_key demo_iv 7.
Proof.
  split; try reflexivity; simpl; unfold is_u8, S2N_TLS13; try lia; [apply demo_world_ok|split; simpl; auto with s2n; lia| |by right].
  apply (demo_params_ok S2N_CLIENT S2N_CLIENT zero_stuffer zero_stuffer zero_stuffer).
Qed.

Lemma demo_request : write_request demo_world demo_writer Implicit13 TLS_APPLICATION_DATA demo_data 0 2 [[104]; [105]].
Proof.
  split; [unfold is_u8, TLS_APPLICATION_DATA; lia|reflexivity| |lia|lia|unfold zlen; simpl; lia|intros Hd; by destruct Hd].
  repeat constructor; simpl; try done; solve_bytes.
Qed.


Example demo_written : fst demo_write = Ok 2.
Proof. vm_compute. reflexivity. Qed.
End RecordAeadWrite.
Export RecordAeadWrite.
