(* ===== verification/RecordInner.v ===== *)
(** * The inner content type of TLS1.3

    s2n_tls13_parse_record_type (tls/s2n_record_read.c) removes the padding of
    zeros and takes the last other byte as the content type. *)
From S2P Require Import Prelude Errors CMem Platform Safety Blob Alloc Stuffer StufferInv StufferWrite StufferSpec NetworkOrder StufferBuild.
From S2P Require Import HandshakeTables Connection Libcrypto Hash Hmac Ciphers CipherSuites RecordState RecordRead.
Open Scope Z_scope.

Module RecordInner.

(** The content and the content type in a TLSInnerPlaintext (RFC 8446 5.2). *)
Fixpoint split_rev (l : list Z) : option (list Z * Z) :=
  match l with
  | [] => None
  | b :: l => if b =? 0 then split_rev l else Some (rev l, b)
  end.
Definition split_inner (l : list Z) : option (list Z * Z) := split_rev (rev l).

Lemma split_inner_snoc l b : split_inner (l ++ [b]) = if b =? 0 then split_inner l else Some (l, b).
Proof. unfold split_inner. rewrite rev_app_distr. simpl. by rewrite rev_involutive. Qed.

Lemma split_inner_padded content t n : t <> 0 -> split_inner (content ++ [t] ++ repeat 0 n) = Some (content, t).
Proof.
  intros Ht. induction n as [|n IH].
  - rewrite app_nil_r, split_inner_snoc. by rewrite (proj2 (Z.eqb_neq _ _) Ht).
  - replace (repeat 0 (S n)) with (repeat 0 n ++ [0]) by (symmetry; apply repeat_cons). by rewrite !app_assoc, split_inner_snoc, <- app_assoc.
Qed.

Section Inner.
Context `{HP : Platform} `{HB : !BlobAllocator}.

(** Wiping the end leaves the rest. *)
Lemma wp_wipe_end (w : world) s k Q E :
  heap_ok (hp w) -> stuffer_ok (hp w) s -> 0 <= k <= write_cursor s ->
  (forall w' s', step_ok w s w' s' -> s' = truncated k s -> written (hp w') s' = take (Z.to_nat (write_cursor s - k)) (written (hp w) s) -> Q tt w' s') ->
  wp (s2n_stuffer_wipe_n k) (w, s) Q E.
Proof.
  intros Hh Hs Hk HQ. apply wp_wipe_n; [done|done|lia|]. intros h' Hh' Hst. apply HQ; [done|done|].
  pose proof (ok_write _ _ Hs). unfold truncated in Hh'. rewrite (Z.min_l k) in Hh' by lia. cbn [write_cursor] in Hh'. unfold written, truncated. cbn [blob write_cursor hp]. rewrite (Z.min_l k) by lia.
  unfold fill, at_offset in Hh'. cbn [blob] in Hh'. destruct (data (blob s)) as [q|] eqn:Hq; [|by rewrite take_nil].
  assert (Hv : forall j, 0 <= j <= write_cursor s -> valid_access (hp w) q j).
  { intros j Hj. pose proof (stuffer_access Hs q 0 j Hq ltac:(lia) ltac:(lia) ltac:(lia)) as Ha. destruct q. simpl in Ha. by rewrite Z.add_0_r in Ha. }
  rewrite Hh', bytes_at_heap_with_disjoint; [| |apply Hv; lia|simpl; lia].
  2: { rewrite zlen_repeat by lia. apply (stuffer_access Hs); [done|lia..]. }
  pose proof (bytes_at_sub _ q _ 0 (write_cursor s - k) (Hv (write_cursor s) ltac:(lia)) ltac:(lia) ltac:(lia) ltac:(lia)) as Hsub.
  rewrite Z.add_0_r in Hsub. destruct q. simpl in Hsub. rewrite Hsub. unfold zslice. by rewrite drop_0.
Qed.

(** The loop, at the end of the data [l]. *)
Lemma wp_record_type_loop l : forall (w : world) s (n : nat) Q E,
  world_ok w -> stuffer_ok (hp w) s -> written (hp w) s = l -> read_cursor s = write_cursor s -> (length l < n)%nat ->
  (forall content t w' s', split_inner l = Some (content, t) -> written (hp w') s' = content -> step_ok w s w' s' -> Q t w' s') ->
  (split_inner l = None -> forall w' s', step_ok w s w' s' -> E S2N_ERR_STUFFER_OUT_OF_DATA w' s') ->
  wp (record_type_loop n 0) (w, s) Q E.
Proof.
  induction l as [|b l IH] using rev_ind; intros w s n Q E Hw Hs Hl Hrc Hn HQ HE; (destruct n as [|n]; [simpl in Hn; lia|]);
    pose proof (written_len Hs) as Hlen; rewrite Hl in Hlen; pose proof (ok_read _ _ Hs); pose proof Hw as [Hh _]; simpl record_type_loop.
  - change (zlen (@nil Z)) with 0 in Hlen. apply wp_bind, wp_rewind_read; [done|lia|lia|]. intros _. apply HE; [done|]. by apply step_ok_refl.
  - rewrite zlen_app in Hlen. change (zlen [b]) with 1 in Hlen. pose proof (zlen_nonneg l). rewrite length_app in Hn. simpl in Hn.
    apply wp_bind, wp_rewind_read; [done|lia| |lia]. intros _.
    set (s1 := set_read_cursor (read_cursor s - 1) s). assert (Hs1 : stuffer_ok (hp w) s1) by (apply set_read_ok; [done|lia]).
    assert (Hu1 : unread (hp w) s1 = [b]).
    { unfold unread. change (written (hp w) s1) with (written (hp w) s). rewrite Hl. cbn [read_cursor s1 set_read_cursor].
      rewrite drop_app_length'; [done|]. unfold zlen in *. lia. }
    apply wp_bind, wp_bind, wp_read_bytes_local; [done|lia| |simpl; lia]. intros _. rewrite Hu1. apply wp_ret.
    change (znth (take (Z.to_nat 1) [b]) 0) with b.
    assert (E1 : advanced 1 s1 = s) by (unfold advanced, s1, set_read_cursor; destruct s; simpl; f_equal; lia). rewrite E1.
    apply wp_bind, wp_wipe_end; [done|done|lia|]. intros w' s' Hst Hs' Hwr. rewrite Hl in Hwr.
    replace (Z.to_nat (write_cursor s - 1)) with (length l) in Hwr by (unfold zlen in *; lia). rewrite take_app_length in Hwr.
    rewrite split_inner_snoc in HQ, HE. destruct (Z.eqb_spec b 0) as [-> |Hb].
    + apply IH; [by eapply step_world_ok|apply Hst|done| |lia| |].
      * rewrite Hs'. unfold truncated. simpl. lia.
      * intros content t w2 s2 Hsp Hw2 Hst2. eapply HQ; [done|done|by eapply step_ok_trans].
      * intros Hsp w2 s2 Hst2. eapply HE; [done|by eapply step_ok_trans].
    + destruct n as [|n]; simpl; rewrite (proj2 (Z.eqb_neq _ _) Hb); apply wp_ret; by eapply HQ.
Qed.

Lemma wp_parse_record_type (w : world) (s : s2n_stuffer) : world_ok w -> stuffer_ok (hp w) s ->
  wp s2n_tls13_parse_record_type (w, s)
    (fun t w' s' => exists content, split_inner (written (hp w) s) = Some (content, t) /\
      unread (hp w') s' = content /\ zlen content <= 2 ^ 14 /\ zlen (unread (hp w) s) <= 2 ^ 14 + 17 /\ step_ok w s w' s')
    (fun e w' s' => (2 ^ 14 + 17 < zlen (unread (hp w) s) \/ split_inner (written (hp w) s) = None \/
      exists content t, split_inner (written (hp w) s) = Some (content, t) /\ 2 ^ 14 < zlen content) /\ step_ok w s w' s').
Proof.
  intros Hworld Hstuffer. pose proof Hworld as [Hh _]. pose proof (ok_read _ _ Hstuffer). pose proof (written_len Hstuffer) as Hwl.
  rewrite (unread_len Hstuffer). change (2 ^ 14 + 17) with 16401. change (2 ^ 14) with 16384.
  apply wp_bind, wp_get_obj. rewrite (data_available_eq Hstuffer). change (S2N_MAXIMUM_INNER_PLAINTEXT_LENGTH + 16) with 16401.
  apply wp_bind, wp_ensure; intros Hz; zbool; [|split; [by left|by apply step_ok_refl]].
  apply wp_bind, wp_skip_read; [done|lia| |lia]. intros _. set (s1 := advanced (write_cursor s - read_cursor s) s).
  assert (Hs1 : stuffer_ok (hp w) s1) by (apply advanced_ok; [done|lia]).
  assert (Hst1 : step_ok w s w s1) by (by apply step_ok_cursors).
  apply wp_bind. eapply (wp_record_type_loop (written (hp w) s)); [done|done|done|simpl; lia|unfold zlen in Hwl; lia| |].
  - intros content t w2 s2 Hsp Hw2 Hst2. pose proof (step_stuffer _ _ _ _ Hst2) as Hs2.
    apply wp_bind, wp_reread; [done|]. pose proof (written_len Hs2) as Hl2. rewrite Hw2 in Hl2. pose proof (ok_read _ _ Hs2).
    assert (Hs3 : stuffer_ok (hp w2) (set_read_cursor 0 s2)) by (apply set_read_ok; [done|lia]).
    assert (Hst3 : step_ok w s w2 (set_read_cursor 0 s2)).
    { eapply step_ok_trans; [exact Hst1|]. eapply step_ok_trans; [exact Hst2|]. apply step_ok_cursors; [apply Hst2|done|done]. }
    apply wp_bind, wp_get_obj. rewrite (data_available_eq Hs3). simpl. rewrite Z.sub_0_r.
    apply wp_bind, wp_ensure; intros Hz2; change (S2N_MAXIMUM_INNER_PLAINTEXT_LENGTH - 1) with 16384 in Hz2; zbool.
    + apply wp_ret. exists content. split_goal; [done| |lia|lia|done]. unfold unread. simpl. rewrite drop_0. exact Hw2.
    + split; [|done]. right. right. exists content, t. split; [done|lia].
  - intros Hsp w2 s2 Hst2. split; [right; by left|]. by eapply step_ok_trans.
Qed.

(** C15 The content type of TLS1.3 is found behind any padding.  On decrypted bytes,
    s2n_tls13_parse_record_type returns the last byte that is not zero and
    leaves exactly the bytes before it to read; it fails when all bytes are
    zero, when more than 2^14 + 17 bytes are there or when more than 2^14 bytes
    of content are left.  The loop over the padding always ends. *)
Theorem parse_record_type_correct (w : world) (s : s2n_stuffer) (Hworld : world_ok w) (Hstuffer : stuffer_ok (hp w) s) :
  match s2n_tls13_parse_record_type (w, s) with
  | (Ok t, (w', s')) => exists content, split_inner (written (hp w) s) = Some (content, t) /\
      unread (hp w') s' = content /\ zlen content <= 2 ^ 14 /\ zlen (unread (hp w) s) <= 2 ^ 14 + 17 /\ step_ok w s w' s'
  | (Err e, (w', s')) => (2 ^ 14 + 17 < zlen (unread (hp w) s) \/ split_inner (written (hp w) s) = None \/
      exists content t, split_inner (written (hp w) s) = Some (content, t) /\ 2 ^ 14 < zlen content) /\ step_ok w s w' s'
  | (UB, _) => False
  end.
Proof.
  pose proof (wp_parse_record_type w s Hworld Hstuffer) as Hrun.
  unfold wp in Hrun. by destruct (s2n_tls13_parse_record_type (w, s)) as [[t|e|] [w' s']].
Qed.
End Inner.

(** Two bytes of application data, padded with three zeros. *)
Definition demo_inner_world : world := World {[1%positive := [104; 105; 23; 0; 0; 0]]} started_statics.
Definition demo_inner : s2n_stuffer := Stuffer (Blob (Some (Ptr 1 0)) 6 0 false) 0 6 6 false false false.

Lemma parse_record_type_correct_witness :
  exists w' s', @s2n_tls13_parse_record_type demo_platform (demo_inner_world, demo_inner) = (Ok 23, (w', s')) /\ unread (hp w') s' = [104; 105].
Proof.
  assert (Hw : world_ok demo_inner_world).
  { split; [apply map_Forall_singleton; solve_bytes|]. split; [done|]. simpl. unfold is_u32. lia. }
  assert (Hs : stuffer_ok (hp demo_inner_world) demo_inner).
  { split; simpl; try done; try lia. split; simpl; unfold is_u32; try done; try lia. intros p [= <-]. solve_valid_access. }
  pose proof (@parse_record_type_correct demo_platform demo_inner_world demo_inner Hw Hs) as H.
  destruct (s2n_tls13_parse_record_type (demo_inner_world, demo_inner)) as [[t|e|] [w' s']].
  - destruct H as (content & Hsp & Hu & _). exists w', s'. injection Hsp as <- <-. by rewrite Hu.
  - destruct H as [[Hlt|[Hn|(content & t & Hsp & Hlt)]] _].
    + by vm_compute in Hlt.
    + discriminate Hn.
    + injection Hsp as <- <-. by vm_compute in Hlt.
  - destruct H.
Defined.
End RecordInner.
Export RecordInner.
