(* ===== verification/RecordAeadRead.v ===== *)
(** * Reading AEAD records

    s2n_record_parse with an AEAD cipher accepts exactly the records that are
    the protection of some data with the key and the next record number, and
    leaves that data; together with [RecordAeadWrite], what is written is read
    back.  s2n_tls13_parse_record_type finds the content type of TLS1.3. *)
From S2P Require Import Prelude Errors CMem Platform Safety Blob Alloc Stuffer StufferInv StufferWrite StufferSpec NetworkOrder StufferBuild HandshakeTables Connection Sequence.
From S2P Require Import Libcrypto Hash Hmac HmacTheorems Hkdf Ciphers CipherSuites RecordState RecordRead RecordWrite RecordSizes RecordAead RecordDemo RecordAeadWrite.
Open Scope Z_scope.

Module RecordAeadRead.

#[local] Arguments be_bytes : simpl never.

Lemma reread_advanced n s : read_cursor s = 0 -> set_read_cursor 0 (advanced n s) = s.
Proof. intros Hr. destruct s. unfold set_read_cursor, advanced. simpl in *. by subst. Qed.

Section Read.
Context `{HP : Platform} `{HB : !BlobAllocator} `{HL : Libcrypto} `{HD : Digests} `{HC : CipherEnv} `{HA : !AeadOk}.

(** ** The header *)

Definition header_version (a b : Z) : Z := u8 (a * 10 + b).

(** The connection after the first header: the version is recorded once. *)
Definition noted (v : Z) (c : record_conn) : record_conn :=
  if negb (record_version_recorded c) then set_record_version_recorded true (set_legacy_record_version v c) else c.

Lemma header_step (w : world) (c : record_conn) t a b L n :
  stuffer_ok (hp w) (header_in c) -> read_cursor (header_in c) = 0 ->
  unread (hp w) (header_in c) = [t; a; b] ++ be_bytes 2 L -> 0 <= n <= 5 ->
  stuffer_ok (hp w) (advanced n (header_in c)) /\
  unread (hp w) (advanced n (header_in c)) = drop (Z.to_nat n) ([t; a; b] ++ be_bytes 2 L).
Proof.
  intros Hs Hr Hu Hn. pose proof (unread_len Hs) as Hlen. rewrite Hu, zlen_app, zlen_be_bytes in Hlen. change (zlen [t; a; b]) with 3 in Hlen.
  split; [apply advanced_ok; [done|lia]|]. by rewrite unread_advanced, Hu by (done || lia).
Qed.

Lemma wp_header_parse (w : world) (c : record_conn) t a b L Q E :
  stuffer_ok (hp w) (header_in c) -> read_cursor (header_in c) = 0 ->
  unread (hp w) (header_in c) = [t; a; b] ++ be_bytes 2 L -> 0 <= L < 2 ^ 16 ->
  ((actual_protocol_version_established c = true -> Z.min (actual_protocol_version (rbase c)) S2N_TLS12 = header_version a b) ->
     Q (t, L) w (noted (header_version a b) c)) ->
  (forall c', actual_protocol_version_established c = true -> Z.min (actual_protocol_version (rbase c)) S2N_TLS12 <> header_version a b ->
     E S2N_ERR_BAD_MESSAGE w c') ->
  wp s2n_record_header_parse (w, c) Q E.
Proof.
  intros Hs Hr Hu HL16 HQ HE. pose proof (unread_len Hs) as Hlen. rewrite Hu, zlen_app, zlen_be_bytes in Hlen. change (zlen [t; a; b]) with 3 in Hlen.
  pose proof (ok_read _ _ Hs). change (Z.of_nat 2) with 2 in Hlen. change (2 ^ 16) with 65536 in HL16.
  apply wp_bind, wp_get_obj, wp_bind, wp_ensure.
  2: { rewrite (data_available_eq Hs). change S2N_TLS_RECORD_HEADER_LENGTH with 5. intros Hz. zbool. lia. }
  intros _. apply wp_bind, wp_zoom, wp_bind, wp_read_bytes_local; [done|lia| |cbn [lget header_in_lens]; lia]. intros _. apply wp_ret.
  cbn [lget lset header_in_lens]. rewrite Hu. change (znth (take (Z.to_nat 1) ([t; a; b] ++ be_bytes 2 L)) 0) with t.
  destruct (header_step w c t a b L 1 Hs Hr Hu ltac:(lia)) as [Hs1 Hu1]. destruct (header_step w c t a b L 3 Hs Hr Hu ltac:(lia)) as [Hs3 Hu3].
  destruct (header_step w c t a b L 5 Hs Hr Hu ltac:(lia)) as [Hs5 _].
  apply wp_bind, wp_zoom. cbn [lget header_in_lens header_in set_header_in].
  apply wp_read_bytes_local; [exact Hs1|done| |simpl; change S2N_TLS_PROTOCOL_VERSION_LEN with 2; lia]. intros _. rewrite Hu1, advanced_advanced.
  cbn [lset header_in_lens]. change S2N_TLS_PROTOCOL_VERSION_LEN with 2. change (1 + 2) with 3.
  change (znth (take (Z.to_nat 2) (drop (Z.to_nat 1) ([t; a; b] ++ be_bytes 2 L))) 0) with a.
  change (znth (take (Z.to_nat 2) (drop (Z.to_nat 1) ([t; a; b] ++ be_bytes 2 L))) 1) with b.
  apply wp_bind, wp_get_obj. fold (header_version a b).
  set (c3 := set_header_in (advanced 3 (header_in c)) (set_header_in (advanced 1 (header_in c)) c)).
  apply wp_bind. apply (wp_run _ _ tt w (noted (header_version a b) c3)).
  { unfold noted. simpl. by destruct (record_version_recorded c). }
  apply wp_bind, wp_ensure.
  2: { change (actual_protocol_version_established c3) with (actual_protocol_version_established c). change (rbase c3) with (rbase c).
       intros Hz. apply negb_false_iff, andb_prop in Hz as [He Hz]. apply negb_true_iff, Z.eqb_neq in Hz. by apply HE. }
  intros Hok. apply wp_bind, wp_zoom.
  assert (Hh3 : header_in (noted (header_version a b) c3) = advanced 3 (header_in c)) by (unfold noted; simpl; by destruct (record_version_recorded c)).
  cbn [lget header_in_lens]. rewrite Hh3. apply wp_bind, wp_read_bytes_local; [exact Hs3|lia| |simpl; lia]. intros _. rewrite Hu3, advanced_advanced.
  apply wp_ret. cbn [lset header_in_lens]. change (3 + 2) with 5.
  apply wp_bind, wp_zoom, wp_reread; [exact Hs5|]. cbn [lget lset header_in_lens header_in set_header_in].
  rewrite reread_advanced by done. apply wp_ret.
  replace (Z.lor _ _) with L.
  2: { change (take (Z.to_nat 2) (drop (Z.to_nat 3) ([t; a; b] ++ be_bytes 2 L))) with (be_bytes 2 L).
       change (L = decode W16 (be_bytes 2 L)). rewrite decode_correct by (apply be_bytes_is_bytes || apply zlen_be_bytes).
       rewrite be_value_bytes. change (8 * Z.of_nat 2) with 16. rewrite Z.mod_small; [lia|]. change (2 ^ 16) with 65536. lia. }
  replace (set_header_in (header_in c) _) with (noted (header_version a b) c).
  - apply HQ. intros He. unfold c3 in Hok. simpl in Hok. rewrite He in Hok. simpl in Hok. apply negb_true_iff, negb_false_iff, Z.eqb_eq in Hok. done.
  - unfold noted. simpl. destruct c. simpl. by destruct record_version_recorded0.
Qed.
(** ** The fragment *)

(** The nonce that the reader uses: the explicit part comes from the record. *)
Definition read_nonce (k : nonce_kind) (iv frag : list Z) (n : Z) : list Z :=
  match k with PartlyExplicit => zslice iv 0 4 ++ zslice frag 0 8 | _ => nonce k iv n end.

(** [frag] is the protection of [i] as record number [n]. *)
Definition protects (k : nonce_kind) (version n content_type : Z) (key iv frag i : list Z) : Prop :=
  is_bytes i /\ zlen frag = explicit_len k + zlen i + TAG /\
  zslice frag (explicit_len k) (zlen i + TAG) =
    aead_enc key (read_nonce k iv frag n) i (associated_data k version n content_type (zlen i)).

Section Fragment.
Context (w : world) (c : record_conn) (r : params_ref) (m : s2n_mode) (p : s2n_crypto_parameters).
Context (alg : s2n_record_algorithm) (k : nonce_kind) (key iv : list Z) (n : Z) (Hp : aead_params c r m p alg k key iv n).
Context (content_type : Z) (frag : list Z) (q : ptr).
Context (Hw : world_ok w) (Hin : stuffer_ok (hp w) (in_stuffer (rbase c))) (Hhdr : stuffer_ok (hp w) (header_in c)).
Context (Hq : data (blob (in_stuffer (rbase c))) = Some q) (Hr : read_cursor (in_stuffer (rbase c)) = 0).
Context (Hu : unread (hp w) (in_stuffer (rbase c)) = frag) (H16 : zlen frag < 2 ^ 16) (Hhr : read_cursor (header_in c) = 0).
Context (Hversion : S2N_TLS12 <= actual_protocol_version (rbase c)).
Abbreviation version := (actual_protocol_version (rbase c)).
Abbreviation in_ := (in_stuffer (rbase c)).
Abbreviation side := (lget (side_lens m) p).
Abbreviation L := (zlen frag).

Lemma frag_at j : 0 <= j <= L -> valid_access (hp w) q L /\ bytes_at (hp w) q L = frag /\ write_cursor in_ = L.
Proof.
  intros _. pose proof (unread_len Hin) as Hl. rewrite Hu, Hr in Hl. pose proof (ok_write _ _ Hin). pose proof (zlen_nonneg frag).
  assert (Hv : valid_access (hp w) q L).
  { pose proof (stuffer_access Hin q 0 L Hq ltac:(lia) ltac:(lia) ltac:(lia)) as Ha. destruct q. simpl in Ha. by rewrite Z.add_0_r in Ha. }
  split; [done|]. split; [|lia]. unfold unread, written in Hu. rewrite Hq, Hr, drop_0 in Hu. by replace L with (write_cursor in_) by lia.
Qed.

Definition rejected : Prop :=
  (forall i, ~ protects k version n content_type key iv frag i) \/ n + 1 = 2 ^ 64 \/ k = Implicit13 /\ 2 ^ 14 + 256 < L.

(** The nonce that is computed; [frag] is long enough. *)
Lemma wp_read_nonce (x : record_conn) d Q E :
  explicit_len k <= L -> d = Some q -> Q (read_nonce k iv frag n) w x ->
  wp (if has_flag alg S2N_TLS12_AES_GCM_AEAD_NONCE then
        iv <-- local_write S2N_TLS_MAX_IV_LEN [] (take (Z.to_nat (fixed_len k)) (implicit_iv side)) ;;
        explicit_iv <-- load_buf (HeapBuf d) (explicit_len k) ;;
        local_write S2N_TLS_MAX_IV_LEN iv explicit_iv
      else if has_flag alg S2N_TLS12_CHACHA_POLY_AEAD_NONCE || has_flag alg S2N_TLS13_RECORD_AEAD_NONCE then
        implicit_nonce (fixed_len k) (implicit_iv side) (sequence_number side)
      else fail S2N_ERR_INVALID_NONCE_TYPE) (w, x) Q E.
Proof.
  intros Hle -> HQ. destruct Hp as [Hat Hwith Hin' [Hkey Hiv Hivl Hivb Hseq Hn]].
  destruct (aead_alg_facts alg k Hin') as (_ & _ & _ & Hgcm & Himp & _). rewrite Hgcm, Himp, Hseq, Hiv.
  destruct (frag_at 0) as (Hv & Hby & _); [pose proof (zlen_nonneg frag); lia|]. unfold S2N_TLS_MAX_IV_LEN in Hivl.
  destruct k; cbn [explicit_len fixed_len] in *.
  - assert (Ht : take (Z.to_nat 4) iv = zslice iv 0 4) by done. rewrite Ht. assert (Hl4 : zlen (zslice iv 0 4) = 4) by (apply zlen_zslice; lia).
    apply wp_bind, wp_bind, wp_ensure; [intros _|by rewrite Hl4]. apply wp_ret. apply wp_bind. simpl load_buf.
    assert (Hv8 : valid_access (hp w) q 8) by (destruct Hv as (l & ? & ? & ? & ?); exists l; split_goal; [done|lia..]).
    apply wp_load; [done|]. pose proof (zlen_bytes_at _ _ _ Hv8) as Hl8.
    cbn [app]. apply wp_bind, wp_ensure; [intros _|by rewrite Hl4, Hl8]. apply wp_ret.
    pose proof (bytes_at_sub _ q L 0 8 Hv ltac:(lia) ltac:(lia) ltac:(lia)) as Hsub. rewrite Z.add_0_r, Hby in Hsub. destruct q. simpl in Hsub. by rewrite Hsub.
  - eapply wp_run; [by apply implicit_nonce_eq|]. exact HQ.
  - eapply wp_run; [by apply implicit_nonce_eq|]. exact HQ.
Qed.

(** The associated data, for [j] bytes to decrypt. *)
Lemma wp_read_aad (x : record_conn) j Q E :
  0 <= j -> explicit_len k + j + TAG = L ->
  (k = Implicit13 -> j + TAG <= 2 ^ 14 + 256 -> Q (associated_data k version n content_type j) w x) ->
  (k <> Implicit13 -> Q (associated_data k version n content_type j) w x) ->
  (k = Implicit13 -> 2 ^ 14 + 256 < j + TAG -> E S2N_ERR_RECORD_LIMIT w x) ->
  wp (if has_flag alg S2N_TLS13_RECORD_AEAD_NONCE then s2n_tls13_aead_aad_init j TAG (if has_flag alg S2N_TLS13_RECORD_AEAD_NONCE then S2N_TLS13_AAD_LEN else S2N_TLS_MAX_AAD_LEN)
      else s2n_aead_aad_init version (sequence_number side) content_type j (if has_flag alg S2N_TLS13_RECORD_AEAD_NONCE then S2N_TLS13_AAD_LEN else S2N_TLS_MAX_AAD_LEN))
    (w, x) Q E.
Proof.
  intros Hj Hl HQ13 HQ HE. destruct Hp as [Hat Hwith Hin' [Hkey Hiv Hivl Hivb Hseq Hn]].
  destruct (aead_alg_facts alg k Hin') as (_ & _ & H13 & _). rewrite H13, Hseq. change (2 ^ 16) with 65536 in H16.
  assert (Hex : 0 <= explicit_len k) by (by destruct k). unfold TAG in *. destruct k.
  - eapply wp_run; [apply aead_aad_init_eq; change (2 ^ 16) with 65536; lia|]. by apply HQ.
  - eapply wp_run; [apply aead_aad_init_eq; change (2 ^ 16) with 65536; lia|]. by apply HQ.
  - destruct (Z.le_gt_cases (j + 16) (2 ^ 14 + 256)) as [Hle|Hgt].
    + eapply wp_run; [apply tls13_aad_init_eq; [done|exact Hle]|]. by apply HQ13.
    + apply wp_bind, wp_ret, wp_bind, wp_ret. cbv zeta. rewrite u16_small by (simpl in Hl; lia).
      apply wp_bind, wp_ensure; intros Hz; [change (Z.shiftl 1 14 + 256) with (2 ^ 14 + 256) in Hz; zbool; lia|]. apply HE; [done|lia].
Qed.
(** The connection after the record was read: the plaintext is what is left to read. *)
Definition opened (s' : s2n_stuffer) (side' : crypto_side) : record_conn :=
  set_in_status PLAINTEXT (lset in_lens s' (with_side r m p side' c)).

(** The stuffers are aligned to the [j] bytes of plaintext [i]. *)
Lemma wp_align i (w1 : world) side' Q E :
  world_ok w1 -> mem w1 = mem w -> hp w1 = heap_with (hp w) (Ptr (blk q) (off q + explicit_len k)) i ->
  explicit_len k + zlen i + TAG = L -> is_bytes i ->
  (forall w' s', world_ok w' -> stuffer_ok (hp w') s' -> unread (hp w') s' = i -> read_cursor s' = explicit_len k -> stuffer_ok (hp w') (header_in c) -> Q tt w' (opened s' side')) ->
  wp (align_stuffers (Some (explicit_len k)) (zlen i)) (w1, lset in_lens (set_tainted true (advanced L in_)) (with_side r m p side' c)) Q E.
Proof.
  intros Hw1 Hmem Hhp Hl Hib HQ. pose proof (zlen_nonneg i). assert (Hex : 0 <= explicit_len k) by (by destruct k). unfold TAG in *.
  destruct (frag_at 0) as (Hv & _ & Hwc); [lia|].
  assert (Hv1 : valid_access (hp w) (Ptr (blk q) (off q + explicit_len k)) (zlen i)) by (eapply valid_access_sub; [exact Hv|lia..]).
  assert (Hkeep : forall s, stuffer_ok (hp w) s -> stuffer_ok (hp w1) s).
  { intros s [Hb ? ? ? ?]. split; try done. rewrite Hhp. by apply blob_ok_heap_with. }
  pose proof (ok_write _ _ Hin) as Hwr.
  set (st rc wc := Stuffer (blob in_) rc wc (high_water_mark in_) (alloced in_) (st_growable in_) true).
  assert (Hst : forall rc wc, 0 <= rc <= wc -> wc <= L -> stuffer_ok (hp w1) (st rc wc)).
  { intros rc wc Hrc Hwc'. apply Hkeep, stuffer_ok_cursors; [done|done|lia]. }
  assert (E1 : set_tainted true (advanced L in_) = st L L).
  { unfold set_tainted, advanced, st, set_read_cursor. simpl. f_equal; lia. }
  rewrite E1. set (c1 := with_side r m p side' c).
  apply wp_bind, wp_zoom, wp_reread; [apply Hst; lia|]. cbn [lget lset in_lens].
  change (lset in_lens (set_read_cursor 0 (st L L)) (lset in_lens (st L L) c1)) with (lset in_lens (st 0 L) c1).
  change (set_rbase _ _) with (lset in_lens (st 0 L) c1).
  assert (Hh1 : header_in (lset in_lens (st 0 L) c1) = header_in c) by (unfold c1, with_side; by destruct r).
  apply wp_bind, wp_zoom. cbn [lget header_in_lens]. rewrite Hh1. apply wp_reread; [by apply Hkeep|].
  replace (lset header_in_lens (set_read_cursor 0 (header_in c)) (lset in_lens (st 0 L) c1)) with (lset in_lens (st 0 L) c1).
  2: { rewrite <- Hh1. destruct (lset in_lens (st 0 L) c1) as [? hin]. simpl in Hh1 |- *. subst hin. f_equal.
       unfold set_read_cursor. rewrite <- Hhr at 1. by destruct (header_in c). }
  apply wp_bind, wp_zoom, wp_skip_read; [apply Hst; lia|lia| |simpl; lia]. intros _.
  change (lset in_lens (advanced (explicit_len k) (lget in_lens (lset in_lens (st 0 L) c1))) (lset in_lens (st 0 L) c1))
    with (lset in_lens (st (0 + explicit_len k) L) c1). rewrite Z.add_0_l.
  apply wp_bind, wp_get_obj. change (in_stuffer (rbase (lset in_lens (st (explicit_len k) L) c1))) with (st (explicit_len k) L).
  rewrite (data_available_eq (Hst (explicit_len k) L ltac:(lia) ltac:(lia))). cbn [write_cursor read_cursor st].
  rewrite u32_small by (change (2 ^ 16) with 65536 in H16; lia). replace (L - explicit_len k - zlen i) with 16 by lia.
  apply wp_bind, wp_zoom, wp_wipe_n; [apply Hw1|apply Hst; lia|lia|]. intros h' Hh' Hstep. apply wp_modify.
  change (lget in_lens (lset in_lens (st (explicit_len k) L) c1)) with (st (explicit_len k) L) in Hh', Hstep |- *.
  assert (Et : truncated 16 (st (explicit_len k) L) = st (explicit_len k) (explicit_len k + zlen i)).
  { unfold truncated, st. simpl. f_equal; lia. }
  rewrite Et in Hh', Hstep |- *. cbn [write_cursor st] in Hh'. rewrite Z.min_l in Hh' by lia.
  unfold fill, at_offset in Hh'. cbn [blob st] in Hh'. rewrite Hq in Hh'. rename Hh' into Hfill.
  assert (Hend : valid_access (hp w1) (Ptr (blk q) (off q + (explicit_len k + zlen i))) 16).
  { rewrite Hhp. apply valid_access_heap_with; [done|]. eapply valid_access_sub; [exact Hv|lia..]. }
  replace (L - 16) with (explicit_len k + zlen i) in Hfill by lia.
  apply (HQ (World h' (mem w1)) (st (explicit_len k) (explicit_len k + zlen i))).
  - eapply step_world_ok; [exact Hw1|exact Hstep].
  - apply Hstep.
  - unfold unread, written. cbn [read_cursor write_cursor blob st hp]. rewrite Hq, Hfill.
    assert (Hvq : forall b, 0 <= b <= L -> valid_access (hp w1) q b).
    { intros b Hb. rewrite Hhp. apply valid_access_heap_with; [done|]. destruct Hv as (l & ? & ? & ? & ?). exists l. split_goal; [done|lia..]. }
    rewrite bytes_at_heap_with_disjoint; [|by rewrite zlen_repeat by lia|apply Hvq; lia|simpl; lia].
    rewrite bytes_at_app by (try apply Hvq; lia). rewrite drop_app_length'.
    2: { pose proof (zlen_bytes_at _ _ _ (Hvq (explicit_len k) ltac:(lia))) as Hz. unfold zlen in Hz. lia. }
    rewrite Hhp. by apply bytes_at_heap_with_same.
  - done.
  - simpl hp. rewrite Hfill. pose proof (Hkeep _ Hhdr) as [Hb ? ? ? ?]. split; try done. apply blob_ok_heap_with; [by rewrite zlen_repeat by lia|done].
Qed.
Lemma read_nonce_length : explicit_len k + TAG <= L -> zlen (read_nonce k iv frag n) = 12.
Proof.
  intros Hle. destruct Hp as [_ _ _ [_ _ Hivl _ _ _]]. unfold S2N_TLS_MAX_IV_LEN in Hivl. unfold TAG in Hle. destruct k; unfold read_nonce, nonce.
  1: simpl in Hle; rewrite zlen_app, !zlen_zslice; lia.
  all: unfold xor_bytes, zlen; rewrite length_zip_with_l_eq by (by apply counter_length); rewrite length_app, length_be_bytes; done.
Qed.

Lemma protects_short i : protects k version n content_type key iv frag i -> explicit_len k + TAG <= L.
Proof. intros (_ & Hl & _). pose proof (zlen_nonneg i). lia. Qed.

Lemma wp_parse_aead Q E :
  (forall i w' s' k', protects k version n content_type key iv frag i -> n + 1 < 2 ^ 64 -> aead_key key k' ->
     (k = Implicit13 -> L <= 2 ^ 14 + 256) -> world_ok w' -> stuffer_ok (hp w') s' -> unread (hp w') s' = i ->
     read_cursor s' = explicit_len k -> stuffer_ok (hp w') (header_in c) -> Q tt w' (opened s' (next_side n k' side))) ->
  (forall e w' c', rejected -> E e w' c') ->
  wp (s2n_record_parse_aead alg (explicit_len k) (fixed_len k) TAG content_type L r m) (w, c) Q E.
Proof.
  intros HQ HE. destruct Hp as [Hat Hwith Hin' Hside] eqn:Ep. pose proof Hside as [Hkey Hiv Hivl Hivb Hseq Hn].
  destruct (frag_at 0) as (Hv & Hby & Hwc); [pose proof (zlen_nonneg frag); lia|].
  pose proof (zlen_nonneg frag). assert (Hex : 0 <= explicit_len k) by (by destruct k). pose proof (ok_size32 Hin) as H32. pose proof (ok_write _ _ Hin) as Hwr.
  set (in1 := set_tainted true (advanced L in_)). set (c1 := lset in_lens in1 c).
  (* the fragment *)
  apply wp_bind, wp_bind, wp_attempt, wp_zoom, wp_raw_read; [exact Hin|lia| |].
  2: { cbn [lget in_lens]. rewrite Hwc, Hr. lia. }
  intros _. apply wp_ret. cbn [lget in_lens]. fold in1 c1.
  assert (Hd : at_offset (read_cursor in_) in_ = Some q) by (unfold at_offset; rewrite Hq, Hr, Z.add_0_r; by destruct q). rewrite Hd.
  apply wp_bind, wp_with_local, wp_bind, wp_ensure; [intros _|unfold S2N_MEM_IS_READABLE; simpl; by rewrite orb_true_r].
  apply wp_bind. apply (wp_run _ _ tt w (Blob (Some q) L 0 false)); [done|].
  apply wp_bind, wp_get_obj, wp_blob_postcondition.
  { change (2 ^ 16) with 65536 in H16. split; simpl; unfold is_u32; try done; try lia. intros q' [= <-]. by rewrite Z.max_l by lia. }
  cbn [snd data size allocated growable]. apply wp_bind, wp_ret. apply wp_bind, wp_ensure; intros Hshort; zbool.
  2: { apply HE. left. intros i Hi. apply protects_short in Hi. unfold TAG in Hi. lia. }
  assert (Hat1 : lget (params_lens r) c1 = Some p) by (by unfold c1; destruct r).
  apply wp_bind. eapply wp_side_get; [exact Hat1|]. apply wp_bind, wp_read_nonce; [done|done|].
  apply wp_bind, wp_ensure; intros Htag; zbool.
  2: { apply HE. left. intros i Hi. apply protects_short in Hi. lia. }
  apply wp_bind, wp_get_obj. set (j := L - explicit_len k - TAG).
  change (actual_protocol_version (rbase c1)) with version. rewrite (proj2 (Z.leb_le _ _) Hversion).
  set (nonce' := read_nonce k iv frag n). set (aad := associated_data k version n content_type j).
  (* decryption, record number, stuffers *)
  assert (Hrest : (k = Implicit13 -> j + TAG <= 2 ^ 14 + 256) ->
    wp (d <-- ptr_add (Some q) (explicit_len k) ;;
        (let en := Blob d (L - explicit_len k) 0 false in
         ensure (negb (size en =? 0)) S2N_ERR_SAFETY ;;;
         on_side r m (zoom session_key_lens (aead_decrypt (cipher alg) nonce' aad en en)) ;;;
         on_side r m increment_sequence ;;;
         align_stuffers (Some (explicit_len k)) j)) (w, c1) Q E).
  { intros Hok. apply wp_bind, wp_ptr_add_some. cbv zeta. cbn [size].
    apply wp_bind, wp_ensure; [intros _|intros Hz; apply negb_false_iff, Z.eqb_eq in Hz; unfold TAG in Htag; lia].
    apply wp_bind, (wp_on_side _ _ _ _ _ p); [done|]. apply wp_zoom. cbn [lget session_key_lens].
    replace (L - explicit_len k) with (j + TAG) by (unfold j; lia).
    assert (Hv1 : valid_access (hp w) (Ptr (blk q) (off q + explicit_len k)) (j + TAG)) by (eapply valid_access_sub; [exact Hv|unfold j, TAG in *; lia..]).
    assert (Hslice : bytes_at (hp w) (Ptr (blk q) (off q + explicit_len k)) (j + TAG) = zslice frag (explicit_len k) (j + TAG)).
    { rewrite <- Hby. apply bytes_at_sub; [done|unfold j, TAG in *; lia..]. }
    apply (wp_aead_decrypt _ _ _ key); [apply Hw|by apply read_nonce_length|unfold j; lia|done|done| |].
    2: { intros k' Hk' Hno. apply HE. left. intros i Hi. pose proof Hi as (Hib & Hil & Henc).
         assert (Hj : zlen i = j) by (unfold j; lia). apply (Hno i Hib). rewrite Hslice. unfold aad. by rewrite <- Hj. }
    intros k' i Hk' Hib Henc. assert (Hil : zlen i = j).
    { pose proof (zlen_bytes_at _ _ _ Hv1) as Hz. rewrite Henc, aead_enc_length in Hz. lia. }
    assert (Hprot : protects k version n content_type key iv frag i).
    { split; [done|]. split; [unfold j in Hil; lia|]. rewrite Hil. by rewrite Hslice in Henc. }
    set (w1 := World (heap_with (hp w) (Ptr (blk q) (off q + explicit_len k)) i) (mem w)).
    assert (Hw1 : world_ok w1) by (destruct Hw as [Hh Hm]; split; [by apply heap_with_ok|done]).
    pose proof (with_side_params r m p (lset session_key_lens k' side) c1) as Hat2.
    apply wp_bind, (wp_on_side _ _ _ _ _ _ _ _ Hat2). rewrite side_get_set.
    eapply wp_increment_sequence; [apply Hw1|exact Hseq|done| |].
    2: { intros Hlim. apply HE. right. by left. }
    intros Hlim. rewrite with_side_twice.
    replace (with_side r m p (with_seq (n + 1) (lset session_key_lens k' side)) c1)
      with (lset in_lens in1 (with_side r m p (next_side n k' side) c)) by (unfold c1; by destruct r).
    rewrite <- Hil. apply (wp_align i w1); [done|done|done|unfold j in Hil; lia|done|].
    intros w' s' Hw' Hs' Hu' Hrc Hh'. apply (HQ i w' s' k'); [done|done|done| |done|done|done|done|done].
    intros Hk. specialize (Hok Hk). unfold j in Hok. rewrite Hk in Hok. cbn [explicit_len] in Hok. lia. }
  apply wp_bind. apply wp_read_aad; [unfold j; lia|unfold j; lia| | |].
  - intros Hk Hle. by apply Hrest.
  - intros Hk. apply Hrest. intros Hk'. by destruct (Hk Hk').
  - intros Hk Hgt. apply HE. right. right. split; [done|]. unfold j in Hgt. rewrite Hk in Hgt. cbn [explicit_len] in Hgt. lia.
Qed.
End Fragment.
(** ** s2n_record_parse *)

(** The parameters this endpoint reads with, and the side of the peer. *)
Definition read_side (c : record_conn) : params_ref * s2n_mode :=
  if bool_decide (mode (rbase c) = S2N_CLIENT) then (conn_server c, S2N_SERVER) else (conn_client c, S2N_CLIENT).

(** A record of [frag] with the header [t; a; b] is in the input. *)
Record input (w : world) (c : record_conn) (t a b : Z) (frag : list Z) : Prop := {
  input_in : stuffer_ok (hp w) (in_stuffer (rbase c));
  input_header : stuffer_ok (hp w) (header_in c);
  input_in_start : read_cursor (in_stuffer (rbase c)) = 0;
  input_header_start : read_cursor (header_in c) = 0;
  input_header_bytes : unread (hp w) (header_in c) = [t; a; b] ++ be_bytes 2 (zlen frag);
  input_bytes : unread (hp w) (in_stuffer (rbase c)) = frag;
  input_memory : data (blob (in_stuffer (rbase c))) <> None;
  input_length : zlen frag < 2 ^ 16;
}.

Lemma noted_same v (c : record_conn) :
  rbase (noted v c) = rbase c /\ header_in (noted v c) = header_in c /\ (forall r, lget (params_lens r) (noted v c) = lget (params_lens r) c) /\
  conn_client (noted v c) = conn_client c /\ conn_server (noted v c) = conn_server c.
Proof. unfold noted. by destruct (record_version_recorded c); split_goal; try done; intros []. Qed.

Lemma next_side_ok key iv n k' (s : crypto_side) : n + 1 < 2 ^ 64 -> aead_key key k' -> aead_side key iv n s -> aead_side key iv (n + 1) (next_side n k' s).
Proof. intros Hlim Hk [Hkey Hiv Hivl Hivb Hseq Hn]. split; [done|done|done|done|done|lia]. Qed.

(** The versions do not match, once the version is established. *)
Definition wrong_version (c : record_conn) (a b : Z) : Prop :=
  actual_protocol_version_established c = true /\ Z.min (actual_protocol_version (rbase c)) S2N_TLS12 <> header_version a b.

Lemma wp_record_parse (w : world) (c : record_conn) r m p alg k key iv n t a b frag Q E :
  world_ok w -> input w c t a b frag -> aead_params c r m p alg k key iv n -> read_side c = (r, m) ->
  s2n_is_tls13_plaintext_content c t = false -> S2N_TLS12 <= actual_protocol_version (rbase c) ->
  (forall i w' s' k', protects k (actual_protocol_version (rbase c)) n t key iv frag i -> ~ wrong_version c a b -> n + 1 < 2 ^ 64 -> aead_key key k' ->
     (k = Implicit13 -> zlen frag <= 2 ^ 14 + 256) -> world_ok w' -> stuffer_ok (hp w') s' -> unread (hp w') s' = i ->
     read_cursor s' = explicit_len k -> Q tt w' (opened (noted (header_version a b) c) r m p s' (next_side n k' (lget (side_lens m) p)))) ->
  (forall e w' c', wrong_version c a b \/ rejected c k key iv n t frag -> E e w' c') ->
  wp s2n_record_parse (w, c) Q E.
Proof.
  intros Hw [Hin Hhdr Hr Hhr Hhb Hu Hmem H16] Hp Hside Hplain Hversion HQ HE.
  destruct (data (blob (in_stuffer (rbase c)))) as [q|] eqn:Hq; [|done]. pose proof (zlen_nonneg frag).
  apply wp_bind. eapply wp_header_parse; [exact Hhdr|exact Hhr|exact Hhb|lia| |].
  2: { intros c' He Hne. apply HE. by left. }
  intros Hver. set (c1 := noted (header_version a b) c). destruct (noted_same (header_version a b) c) as (Hb & Hh & Hl & Hcc & Hcs). fold c1 in Hb, Hh, Hl, Hcc, Hcs.
  assert (Hplain1 : s2n_is_tls13_plaintext_content c1 t = false) by (unfold s2n_is_tls13_plaintext_content in *; by rewrite Hb).
  apply wp_bind, wp_get_obj. rewrite Hplain1. apply wp_bind, wp_ret, wp_bind, wp_get_obj. unfold read_side in Hside. rewrite Hb, Hcc, Hcs, Hside.
  destruct Hp as [Hat Hwith Hkind Hs]. destruct (aead_alg_facts alg k Hkind) as (Hio & _ & _ & _ & _ & Hnull).
  apply wp_bind, wp_bind, wp_get_obj. rewrite Hl, Hat. apply wp_ret. rewrite Hplain1. apply wp_bind, wp_ret. rewrite Hwith, Hnull. apply wp_bind, wp_ret.
  rewrite Hio. eapply (wp_parse_aead w c1 r m p alg k key iv n); rewrite ?Hb, ?Hh; [split; rewrite ?Hl; done|done|done|done|exact Hq|done|done|done|done|done| |].
  - intros i w' s' k' Hi Hlim Hk' H13 Hw' Hs' Hu' Hrc _. apply (HQ i); try done. intros [He Hne]. by apply Hne, Hver.
  - intros e w' c' Hrej. apply HE. right. unfold rejected in *. by rewrite ?Hb in Hrej.
Qed.

Lemma opened_params (c : record_conn) r m p alg k key iv n k' s' v : n + 1 < 2 ^ 64 -> aead_key key k' -> aead_params c r m p alg k key iv n ->
  aead_params (opened (noted v c) r m p s' (next_side n k' (lget (side_lens m) p))) r m
    (lset (side_lens m) (next_side n k' (lget (side_lens m) p)) p) alg k key iv (n + 1).
Proof.
  intros Hlim Hk' [Hat Hwith Hkind Hs]. split; [unfold opened, with_side; by destruct r|by rewrite side_alg|done|].
  rewrite side_get_set. by apply next_side_ok.
Qed.

(** C5 AEAD records are accepted only when they are authentic.  With a record in the
    input, and the peer's AEAD key, IV and record number, s2n_record_parse
    succeeds exactly when the version in the header is the negotiated one (once
    it is established), the length is within the limit, the record number is not
    the last one, and the fragment is the encryption under the key, with the
    nonce of this record number (or the one in the record, for GCM in TLS1.2)
    and the associated data of this record, of some plaintext; that plaintext,
    and nothing else, is then left to read, and the record number goes up by
    one.  No record makes the code access memory outside of its buffers. *)
Theorem aead_record_read (w : world) (c : record_conn) (r : params_ref) (m : s2n_mode) (p : s2n_crypto_parameters)
    (alg : s2n_record_algorithm) (k : nonce_kind) (key iv : list Z) (n t a b : Z) (frag : list Z)
    (Hworld : world_ok w) (Hinput : input w c t a b frag) (Hparams : aead_params c r m p alg k key iv n) (Hside : read_side c = (r, m))
    (Hplain : s2n_is_tls13_plaintext_content c t = false) (Hversion : S2N_TLS12 <= actual_protocol_version (rbase c)) :
  match s2n_record_parse (w, c) with
  | (Ok _, (w', c')) =>
      ~ wrong_version c a b /\ (k = Implicit13 -> zlen frag <= 2 ^ 14 + 256) /\
      protects k (actual_protocol_version (rbase c)) n t key iv frag (unread (hp w') (in_stuffer (rbase c'))) /\
      in_status c' = PLAINTEXT /\ world_ok w' /\ stuffer_ok (hp w') (in_stuffer (rbase c')) /\
      exists p', aead_params c' r m p' alg k key iv (n + 1)
  | (Err e, (w', c')) =>
      wrong_version c a b \/ (forall i, ~ protects k (actual_protocol_version (rbase c)) n t key iv frag i) \/
      n + 1 = 2 ^ 64 \/ k = Implicit13 /\ 2 ^ 14 + 256 < zlen frag
  | (UB, _) => False
  end.
Proof.
  assert (Hrun : wp s2n_record_parse (w, c)
    (fun _ w' c' => ~ wrong_version c a b /\ (k = Implicit13 -> zlen frag <= 2 ^ 14 + 256) /\
      protects k (actual_protocol_version (rbase c)) n t key iv frag (unread (hp w') (in_stuffer (rbase c'))) /\
      in_status c' = PLAINTEXT /\ world_ok w' /\ stuffer_ok (hp w') (in_stuffer (rbase c')) /\
      exists p', aead_params c' r m p' alg k key iv (n + 1))
    (fun e w' c' => wrong_version c a b \/ rejected c k key iv n t frag)).
  { eapply wp_record_parse; [done..| |done]. intros i w' s' k' Hi Hver Hlim Hk' H13 Hw' Hs' Hu' _.
    split_goal; [done|done|by rewrite <- Hu' in Hi|done|done|done|]. eexists. by apply opened_params. }
  unfold wp in Hrun. by destruct (s2n_record_parse (w, c)) as [[[]|e|] [w' c']].
Qed.
End Read.

(** ** The record of [RecordAeadWrite], read by the server *)

Definition demo_frag : list Z := demo_enc demo_aead_key [1; 2; 3; 4; 5; 6; 7; 8; 9; 10; 11; 11] [104; 105; 23] [23; 3; 3; 0; 19].
Definition demo_input_world : world := World {[1%positive := [23; 3; 3; 0; 19]; 2%positive := demo_frag]} started_statics.
Definition demo_reader : @record_conn demo_ciphers :=
  demo_conn S2N_SERVER S2N_TLS13 demo_alg 7 (Stuffer (Blob (Some (Ptr 1 0)) 5 0 false) 0 5 5 false false false)
    (Stuffer (Blob (Some (Ptr 2 0)) 19 0 false) 0 19 19 false false false) zero_stuffer.

Lemma demo_input_world_ok : world_ok demo_input_world.
Proof.
  split; [|split; [done|simpl; unfold is_u32; lia]]. intros k l Hl. simpl in Hl.
  apply lookup_insert_Some in Hl as [[_ <-]|[_ Hl]]; [solve_bytes|]. apply lookup_singleton_Some in Hl as [_ <-].
  apply Forall_app. split; [solve_bytes|apply be_bytes_is_bytes].
Qed.

Lemma demo_input : input demo_input_world demo_reader 23 3 3 demo_frag.
Proof.
  assert (Hblob : forall q n, valid_access (hp demo_input_world) q n -> n < 100 -> blob_ok (hp demo_input_world) (Blob (Some q) n 0 false)).
  { intros q n Hv Hn. assert (0 <= n) by (by destruct Hv as (l & ? & ? & ? & ?)).
    split; simpl; unfold is_u32; try done; try lia. intros q' [= <-]. by rewrite Z.max_l by lia. }
  split; try reflexivity; [| |done].
  - split; simpl; try done; try lia. apply Hblob; [|lia]. exists demo_frag. split_goal; [reflexivity|simpl; lia|lia|]. vm_compute. congruence.
  - split; simpl; try done; try lia. apply Hblob; [|lia]. exists [23; 3; 3; 0; 19]. split_goal; [reflexivity|simpl; lia|lia|]. vm_compute. congruence.
Qed.

Lemma aead_record_read_witness :
  match @s2n_record_parse demo_platform demo_libcrypto demo_digests demo_ciphers (demo_input_world, demo_reader) with
  | (Ok _, (w', c')) => in_status c' = PLAINTEXT
  | (Err e, (w', c')) => True
  | (UB, _) => False
  end.
Proof.
  pose proof (@aead_record_read demo_platform demo_libcrypto demo_digests demo_ciphers demo_aead_ok demo_input_world demo_reader
    SecureParams S2N_CLIENT (demo_crypto demo_alg 7) demo_alg Implicit13 demo_aead_key demo_iv 7 23 3 3 demo_frag
    demo_input_world_ok demo_input (demo_params_ok _ _ _ _ _) eq_refl eq_refl ltac:(simpl; unfold S2N_TLS12, S2N_TLS13; lia)) as H.
  destruct (s2n_record_parse (demo_input_world, demo_reader)) as [[u|e|] [w' c']]; [apply H|exact I|destruct H].
Defined.

Example demo_read :
  fst (@s2n_record_parse demo_platform demo_libcrypto demo_digests demo_ciphers (demo_input_world, demo_reader)) = Ok tt.
Proof. vm_compute. reflexivity. Qed.
End RecordAeadRead.
Export RecordAeadRead.
