(* ===== verification/RecordRoundtrip.v ===== *)
(** * Records, end to end

    What one endpoint writes with s2n_record_writev the other one reads with
    s2n_record_parse (and s2n_tls13_parse_record_type). *)
From S2P Require Import Prelude Errors CMem Platform Safety Blob Alloc Stuffer StufferInv StufferWrite NetworkOrder StufferBuild HandshakeTables Connection.
From S2P Require Import Libcrypto Hash Hmac HmacTheorems Ciphers CipherSuites RecordState RecordRead RecordWrite RecordSizes RecordAead RecordDemo RecordAeadWrite RecordInner RecordAeadRead.
Open Scope Z_scope.

Module RecordRoundtrip.

#[local] Arguments be_bytes : simpl never.

Section Roundtrip.
Context `{HP : Platform} `{HB : !BlobAllocator} `{HL : Libcrypto} `{HD : Digests} `{HC : CipherEnv} `{HA : !AeadOk} `{HR : !RecordEnv}.

(** The record, cut after the header. *)
Lemma record_parts k version hv ct n key iv data t a b frag :
  is_bytes data -> is_u8 ct -> aead_record k version hv ct n key iv data = [t; a; b] ++ be_bytes 2 (zlen frag) ++ frag ->
  t = outer_type k ct /\ a = hv / 10 /\ b = hv mod 10 /\ protects k version n ct key iv frag (inner k ct data).
Proof.
  intros Hd Hct He. unfold aead_record, record_header in He. rewrite <- app_assoc in He.
  apply app_inj_1 in He as [Hhead He]; [|done]. injection Hhead as Ht Ha Hb. apply app_inj_1 in He as [_ He]; [|by rewrite !length_be_bytes].
  set (i := inner k ct data) in *. set (enc := aead_enc _ _ _ _) in He.
  assert (Hi : is_bytes i) by (unfold i; destruct k; [done|done|]; apply Forall_app; split; [done|by constructor]).
  assert (Hlen : zlen enc = zlen i + TAG) by apply aead_enc_length. pose proof (zlen_nonneg i).
  assert (Hslice : zslice frag (explicit_len k) (zlen i + TAG) = enc).
  { rewrite <- He, <- Hlen, <- (zlen_explicit k n). unfold zslice, zlen. rewrite !Nat2Z.id, drop_app_length. by apply take_ge. }
  assert (Hnonce : read_nonce k iv frag n = nonce k iv n).
  { destruct k; [|done..]. unfold read_nonce, nonce. f_equal. rewrite <- He. cbn [explicit_nonce]. unfold zslice. rewrite drop_0.
    apply take_app_length'. by rewrite length_be_bytes. }
  split; [done|]. split; [done|]. split; [done|]. split; [done|]. split; [|by rewrite Hslice, Hnonce].
  rewrite <- He, zlen_app, zlen_explicit, Hlen. lia.
Qed.

(** A fragment is the protection of one plaintext only. *)
Lemma protects_unique k version n ct key iv frag i i' :
  protects k version n ct key iv frag i -> protects k version n ct key iv frag i' -> i = i'.
Proof.
  intros (_ & Hl & He) (_ & Hl' & He'). assert (Hii : zlen i = zlen i') by lia. rewrite Hii, He' in He. symmetry in He. by apply aead_enc_inj in He.
Qed.

(** Once the versions are known, the header has that of TLS1.2. *)
Lemma record_version_known (c : record_conn) t :
  server_protocol_version (rbase c) <> S2N_UNKNOWN_PROTOCOL_VERSION -> S2N_TLS12 <= actual_protocol_version (rbase c) -> record_version c t = S2N_TLS12.
Proof.
  intros Hk Hv. unfold record_version. rewrite (proj2 (Z.eqb_neq _ _) Hk). simpl andb. cbv iota. by rewrite Z.min_r by done.
Qed.

(** The content type behind the data. *)
Lemma parse_inner (w : world) s content_type data :
  world_ok w -> stuffer_ok (hp w) s -> read_cursor s = 0 -> unread (hp w) s = data ++ [content_type] -> content_type <> 0 -> zlen data <= 2 ^ 14 ->
  exists w4 s4, s2n_tls13_parse_record_type (w, s) = (Ok content_type, (w4, s4)) /\ unread (hp w4) s4 = data.
Proof.
  intros Hw Hs Hr Hu Ht Hl. pose proof (wp_parse_record_type w s Hw Hs) as Hrun. unfold wp in Hrun.
  assert (Hwr : written (hp w) s = data ++ [content_type]) by (unfold unread in Hu; by rewrite Hr, drop_0 in Hu).
  assert (Hsp : split_inner (written (hp w) s) = Some (data, content_type)) by (rewrite Hwr, split_inner_snoc; by rewrite (proj2 (Z.eqb_neq _ _) Ht)).
  rewrite Hsp, Hu, zlen_app in Hrun. change (zlen [content_type]) with 1 in Hrun.
  destruct (s2n_tls13_parse_record_type (w, s)) as [[t|e|] [w4 s4]]; [| |done].
  - destruct Hrun as (content & [= <- <-] & Hc & _). by exists w4, s4.
  - destruct Hrun as [[?|[?|(content & t & [= <- <-] & ?)]] _]; [lia|done|lia].
Qed.

Lemma sent_params (c : record_conn) r m p alg k key iv n k' out' : n + 1 < 2 ^ 64 -> aead_key key k' -> aead_params c r m p alg k key iv n ->
  aead_params (lset out_lens out' (with_side r m p (next_side n k' (lget (side_lens m) p)) c)) r m
    (lset (side_lens m) (next_side n k' (lget (side_lens m) p)) p) alg k key iv (n + 1).
Proof.
  intros Hlim Hk' [Hat Hwith Hkind Hs]. split; [unfold with_side; by destruct r|by rewrite side_alg|done|]. rewrite side_get_set. by apply next_side_ok.
Qed.

End Roundtrip.

End RecordRoundtrip.
Export RecordRoundtrip.
