(* ===== verification/IoState.v ===== *)
(** * The connection, as sending and receiving see it

    The fields of struct s2n_connection (tls/s2n_connection.h) that alerts, key
    updates, early data, s2n_send, s2n_recv and s2n_shutdown add to those of
    [RecordState], grouped by use.  The application's I/O callbacks, its clock
    and the C library's errno are an environment whose state is threaded through
    the calls.  The module [EarlyDataIo] at the end is the accounting of early
    data (tls/s2n_early_data_io.c, tls/s2n_early_data.c). *)
From S2P Require Import Prelude Errors CMem Safety Platform Blob Alloc Stuffer HandshakeTables Connection HandshakeIO Libcrypto Hash Hmac.
From S2P Require Import Hkdf Ciphers CipherSuites RecordState RecordRead RecordWrite.
Open Scope Z_scope.

Module IoState.

Inductive s2n_alert_behavior := S2N_ALERT_FAIL_ON_WARNINGS | S2N_ALERT_IGNORE_WARNINGS.
#[export] Instance alert_behavior_eq_dec : EqDecision s2n_alert_behavior.
Proof. solve_decision. Defined.
Inductive s2n_psk_type := S2N_PSK_TYPE_RESUMPTION | S2N_PSK_TYPE_EXTERNAL.
#[export] Instance psk_type_eq_dec : EqDecision s2n_psk_type.
Proof. solve_decision. Defined.

(** The values of errno that the code distinguishes; 0 is [NoErrno]. *)
Inductive errno_t := NoErrno | EINTR | EWOULDBLOCK | EAGAIN | EPIPE | OtherErrno.
#[export] Instance errno_eq_dec : EqDecision errno_t.
Proof. solve_decision. Defined.

(** The application's callbacks and what is around the process.  A callback
    returns a negative number with an errno, or a number of bytes. *)
Class IoEnv := {
  env : Type;
  env_send : list Z -> env -> (Z + errno_t) * env;  (* conn->send *)
  env_recv : Z -> env -> (list Z + errno_t) * env;  (* conn->recv: the bytes it stored *)
  interrupts : nat;  (* no callback is interrupted more often in a row *)
  monotonic_clock : env -> option Z * env;  (* config->monotonic_clock *)
  s2n_public_random : Z -> env -> (Z + s2n_error) * env;  (* below the bound *)
  config_cache_delete : env -> env;  (* config->cache_delete *)
}.

(** Alerts. *)
Record alert_fields := AlertFields {
  alert_in : s2n_stuffer;
  alert_in_data : ptr;  (* uint8_t[2], the memory of alert_in *)
  writer_alert_out : Z;  (* uint8_t *)
  reader_alert_out : Z;  (* uint8_t *)
  reader_warning_out : Z;  (* uint8_t *)
  alert_sent : bool;
  error_alert_received : bool;
  close_notify_received : bool;
  alert_behavior : s2n_alert_behavior;  (* config->alert_behavior *)
}.
Definition set_alert_in (v : s2n_stuffer) (x : alert_fields) : alert_fields := AlertFields v (alert_in_data x) (writer_alert_out x) (reader_alert_out x) (reader_warning_out x) (alert_sent x) (error_alert_received x) (close_notify_received x) (alert_behavior x).
Definition set_alert_in_data (v : ptr) (x : alert_fields) : alert_fields := AlertFields (alert_in x) v (writer_alert_out x) (reader_alert_out x) (reader_warning_out x) (alert_sent x) (error_alert_received x) (close_notify_received x) (alert_behavior x).
Definition set_writer_alert_out (v : Z) (x : alert_fields) : alert_fields := AlertFields (alert_in x) (alert_in_data x) v (reader_alert_out x) (reader_warning_out x) (alert_sent x) (error_alert_received x) (close_notify_received x) (alert_behavior x).
Definition set_reader_alert_out (v : Z) (x : alert_fields) : alert_fields := AlertFields (alert_in x) (alert_in_data x) (writer_alert_out x) v (reader_warning_out x) (alert_sent x) (error_alert_received x) (close_notify_received x) (alert_behavior x).
Definition set_reader_warning_out (v : Z) (x : alert_fields) : alert_fields := AlertFields (alert_in x) (alert_in_data x) (writer_alert_out x) (reader_alert_out x) v (alert_sent x) (error_alert_received x) (close_notify_received x) (alert_behavior x).
Definition set_alert_sent (v : bool) (x : alert_fields) : alert_fields := AlertFields (alert_in x) (alert_in_data x) (writer_alert_out x) (reader_alert_out x) (reader_warning_out x) v (error_alert_received x) (close_notify_received x) (alert_behavior x).
Definition set_error_alert_received (v : bool) (x : alert_fields) : alert_fields := AlertFields (alert_in x) (alert_in_data x) (writer_alert_out x) (reader_alert_out x) (reader_warning_out x) (alert_sent x) v (close_notify_received x) (alert_behavior x).
Definition set_close_notify_received (v : bool) (x : alert_fields) : alert_fields := AlertFields (alert_in x) (alert_in_data x) (writer_alert_out x) (reader_alert_out x) (reader_warning_out x) (alert_sent x) (error_alert_received x) v (alert_behavior x).
Definition set_alert_behavior (v : s2n_alert_behavior) (x : alert_fields) : alert_fields := AlertFields (alert_in x) (alert_in_data x) (writer_alert_out x) (reader_alert_out x) (reader_warning_out x) (alert_sent x) (error_alert_received x) (close_notify_received x) v.

(** Sending. *)
Record tx_fields := TxFields {
  send_set : bool;  (* send != NULL *)
  write_fd_broken : bool;
  wire_bytes_out : Z;  (* uint64_t *)
  current_user_data_consumed : Z;  (* ssize_t *)
  active_application_bytes_consumed : Z;  (* uint64_t *)
  dynamic_record_resize_threshold : Z;  (* uint32_t *)
  dynamic_record_timeout_threshold : Z;  (* uint16_t *)
  last_write_elapsed : Z;  (* uint64_t *)
  send_in_use : bool;
  dynamic_buffers : bool;
  delay : Z;  (* uint64_t *)
  write_timer : Z;  (* write_timer.time *)
  custom_blinding_set : bool;  (* config->custom_blinding_set *)
  max_blinding : Z;  (* config->max_blinding, uint32_t *)
}.
Definition set_send_set (v : bool) (x : tx_fields) : tx_fields := TxFields v (write_fd_broken x) (wire_bytes_out x) (current_user_data_consumed x) (active_application_bytes_consumed x) (dynamic_record_resize_threshold x) (dynamic_record_timeout_threshold x) (last_write_elapsed x) (send_in_use x) (dynamic_buffers x) (delay x) (write_timer x) (custom_blinding_set x) (max_blinding x).
Definition set_write_fd_broken (v : bool) (x : tx_fields) : tx_fields := TxFields (send_set x) v (wire_bytes_out x) (current_user_data_consumed x) (active_application_bytes_consumed x) (dynamic_record_resize_threshold x) (dynamic_record_timeout_threshold x) (last_write_elapsed x) (send_in_use x) (dynamic_buffers x) (delay x) (write_timer x) (custom_blinding_set x) (max_blinding x).
Definition set_wire_bytes_out (v : Z) (x : tx_fields) : tx_fields := TxFields (send_set x) (write_fd_broken x) v (current_user_data_consumed x) (active_application_bytes_consumed x) (dynamic_record_resize_threshold x) (dynamic_record_timeout_threshold x) (last_write_elapsed x) (send_in_use x) (dynamic_buffers x) (delay x) (write_timer x) (custom_blinding_set x) (max_blinding x).
Definition set_current_user_data_consumed (v : Z) (x : tx_fields) : tx_fields := TxFields (send_set x) (write_fd_broken x) (wire_bytes_out x) v (active_application_bytes_consumed x) (dynamic_record_resize_threshold x) (dynamic_record_timeout_threshold x) (last_write_elapsed x) (send_in_use x) (dynamic_buffers x) (delay x) (write_timer x) (custom_blinding_set x) (max_blinding x).
Definition set_active_application_bytes_consumed (v : Z) (x : tx_fields) : tx_fields := TxFields (send_set x) (write_fd_broken x) (wire_bytes_out x) (current_user_data_consumed x) v (dynamic_record_resize_threshold x) (dynamic_record_timeout_threshold x) (last_write_elapsed x) (send_in_use x) (dynamic_buffers x) (delay x) (write_timer x) (custom_blinding_set x) (max_blinding x).
Definition set_dynamic_record_resize_threshold (v : Z) (x : tx_fields) : tx_fields := TxFields (send_set x) (write_fd_broken x) (wire_bytes_out x) (current_user_data_consumed x) (active_application_bytes_consumed x) v (dynamic_record_timeout_threshold x) (last_write_elapsed x) (send_in_use x) (dynamic_buffers x) (delay x) (write_timer x) (custom_blinding_set x) (max_blinding x).
Definition set_dynamic_record_timeout_threshold (v : Z) (x : tx_fields) : tx_fields := TxFields (send_set x) (write_fd_broken x) (wire_bytes_out x) (current_user_data_consumed x) (active_application_bytes_consumed x) (dynamic_record_resize_threshold x) v (last_write_elapsed x) (send_in_use x) (dynamic_buffers x) (delay x) (write_timer x) (custom_blinding_set x) (max_blinding x).
Definition set_last_write_elapsed (v : Z) (x : tx_fields) : tx_fields := TxFields (send_set x) (write_fd_broken x) (wire_bytes_out x) (current_user_data_consumed x) (active_application_bytes_consumed x) (dynamic_record_resize_threshold x) (dynamic_record_timeout_threshold x) v (send_in_use x) (dynamic_buffers x) (delay x) (write_timer x) (custom_blinding_set x) (max_blinding x).
Definition set_send_in_use (v : bool) (x : tx_fields) : tx_fields := TxFields (send_set x) (write_fd_broken x) (wire_bytes_out x) (current_user_data_consumed x) (active_application_bytes_consumed x) (dynamic_record_resize_threshold x) (dynamic_record_timeout_threshold x) (last_write_elapsed x) v (dynamic_buffers x) (delay x) (write_timer x) (custom_blinding_set x) (max_blinding x).
Definition set_dynamic_buffers (v : bool) (x : tx_fields) : tx_fields := TxFields (send_set x) (write_fd_broken x) (wire_bytes_out x) (current_user_data_consumed x) (active_application_bytes_consumed x) (dynamic_record_resize_threshold x) (dynamic_record_timeout_threshold x) (last_write_elapsed x) (send_in_use x) v (delay x) (write_timer x) (custom_blinding_set x) (max_blinding x).
Definition set_delay (v : Z) (x : tx_fields) : tx_fields := TxFields (send_set x) (write_fd_broken x) (wire_bytes_out x) (current_user_data_consumed x) (active_application_bytes_consumed x) (dynamic_record_resize_threshold x) (dynamic_record_timeout_threshold x) (last_write_elapsed x) (send_in_use x) (dynamic_buffers x) v (write_timer x) (custom_blinding_set x) (max_blinding x).
Definition set_write_timer (v : Z) (x : tx_fields) : tx_fields := TxFields (send_set x) (write_fd_broken x) (wire_bytes_out x) (current_user_data_consumed x) (active_application_bytes_consumed x) (dynamic_record_resize_threshold x) (dynamic_record_timeout_threshold x) (last_write_elapsed x) (send_in_use x) (dynamic_buffers x) (delay x) v (custom_blinding_set x) (max_blinding x).
Definition set_custom_blinding_set (v : bool) (x : tx_fields) : tx_fields := TxFields (send_set x) (write_fd_broken x) (wire_bytes_out x) (current_user_data_consumed x) (active_application_bytes_consumed x) (dynamic_record_resize_threshold x) (dynamic_record_timeout_threshold x) (last_write_elapsed x) (send_in_use x) (dynamic_buffers x) (delay x) (write_timer x) v (max_blinding x).
Definition set_max_blinding (v : Z) (x : tx_fields) : tx_fields := TxFields (send_set x) (write_fd_broken x) (wire_bytes_out x) (current_user_data_consumed x) (active_application_bytes_consumed x) (dynamic_record_resize_threshold x) (dynamic_record_timeout_threshold x) (last_write_elapsed x) (send_in_use x) (dynamic_buffers x) (delay x) (write_timer x) (custom_blinding_set x) v.

(** Receiving. *)
Record rx_fields := RxFields {
  recv_set : bool;  (* recv != NULL *)
  wire_bytes_in : Z;  (* uint64_t *)
  recv_buffering : bool;
  ktls_recv_enabled : bool;
  recv_in_use : bool;
  recv_multi_record : bool;  (* config->recv_multi_record *)
  post_handshake_in : s2n_stuffer;  (* post_handshake.in *)
  post_handshake_header_in : ptr;  (* post_handshake.header_in, 4 bytes *)
}.
Definition set_recv_set (v : bool) (x : rx_fields) : rx_fields := RxFields v (wire_bytes_in x) (recv_buffering x) (ktls_recv_enabled x) (recv_in_use x) (recv_multi_record x) (post_handshake_in x) (post_handshake_header_in x).
Definition set_wire_bytes_in (v : Z) (x : rx_fields) : rx_fields := RxFields (recv_set x) v (recv_buffering x) (ktls_recv_enabled x) (recv_in_use x) (recv_multi_record x) (post_handshake_in x) (post_handshake_header_in x).
Definition set_recv_buffering (v : bool) (x : rx_fields) : rx_fields := RxFields (recv_set x) (wire_bytes_in x) v (ktls_recv_enabled x) (recv_in_use x) (recv_multi_record x) (post_handshake_in x) (post_handshake_header_in x).
Definition set_ktls_recv_enabled (v : bool) (x : rx_fields) : rx_fields := RxFields (recv_set x) (wire_bytes_in x) (recv_buffering x) v (recv_in_use x) (recv_multi_record x) (post_handshake_in x) (post_handshake_header_in x).
Definition set_recv_in_use (v : bool) (x : rx_fields) : rx_fields := RxFields (recv_set x) (wire_bytes_in x) (recv_buffering x) (ktls_recv_enabled x) v (recv_multi_record x) (post_handshake_in x) (post_handshake_header_in x).
Definition set_recv_multi_record (v : bool) (x : rx_fields) : rx_fields := RxFields (recv_set x) (wire_bytes_in x) (recv_buffering x) (ktls_recv_enabled x) (recv_in_use x) v (post_handshake_in x) (post_handshake_header_in x).
Definition set_post_handshake_in (v : s2n_stuffer) (x : rx_fields) : rx_fields := RxFields (recv_set x) (wire_bytes_in x) (recv_buffering x) (ktls_recv_enabled x) (recv_in_use x) (recv_multi_record x) v (post_handshake_header_in x).
Definition set_post_handshake_header_in (v : ptr) (x : rx_fields) : rx_fields := RxFields (recv_set x) (wire_bytes_in x) (recv_buffering x) (ktls_recv_enabled x) (recv_in_use x) (recv_multi_record x) (post_handshake_in x) v.

(** The amount of early data. *)
Record early_fields := EarlyFields {
  early_data_bytes : Z;  (* uint64_t *)
  server_max_early_data_size_overridden : bool;
  server_max_early_data_size : Z;  (* uint32_t *)
  config_max_early_data_size : Z;  (* config->server_max_early_data_size *)
  first_psk : option (s2n_psk_type * Z);  (* the first of psk_params.psk_list: its type and early_data_config.max_early_data_size *)
}.
Definition set_early_data_bytes (v : Z) (x : early_fields) : early_fields := EarlyFields v (server_max_early_data_size_overridden x) (server_max_early_data_size x) (config_max_early_data_size x) (first_psk x).
Definition set_server_max_early_data_size_overridden (v : bool) (x : early_fields) : early_fields := EarlyFields (early_data_bytes x) v (server_max_early_data_size x) (config_max_early_data_size x) (first_psk x).
Definition set_server_max_early_data_size (v : Z) (x : early_fields) : early_fields := EarlyFields (early_data_bytes x) (server_max_early_data_size_overridden x) v (config_max_early_data_size x) (first_psk x).
Definition set_config_max_early_data_size (v : Z) (x : early_fields) : early_fields := EarlyFields (early_data_bytes x) (server_max_early_data_size_overridden x) (server_max_early_data_size x) v (first_psk x).
Definition set_first_psk (v : option (s2n_psk_type * Z)) (x : early_fields) : early_fields := EarlyFields (early_data_bytes x) (server_max_early_data_size_overridden x) (server_max_early_data_size x) (config_max_early_data_size x) v.

(** Key updates. *)
Record update_fields := UpdateFields {
  key_update_pending : bool;
  client_app_secret : list Z;  (* secrets.version.tls13.client_app_secret *)
  server_app_secret : list Z;  (* secrets.version.tls13.server_app_secret *)
  send_key_updated : Z;  (* uint8_t *)
  recv_key_updated : Z;  (* uint8_t *)
  secure_prf_alg : s2n_hmac_algorithm;  (* secure->cipher_suite->prf_alg *)
}.
Definition set_key_update_pending (v : bool) (x : update_fields) : update_fields := UpdateFields v (client_app_secret x) (server_app_secret x) (send_key_updated x) (recv_key_updated x) (secure_prf_alg x).
Definition set_client_app_secret (v : list Z) (x : update_fields) : update_fields := UpdateFields (key_update_pending x) v (server_app_secret x) (send_key_updated x) (recv_key_updated x) (secure_prf_alg x).
Definition set_server_app_secret (v : list Z) (x : update_fields) : update_fields := UpdateFields (key_update_pending x) (client_app_secret x) v (send_key_updated x) (recv_key_updated x) (secure_prf_alg x).
Definition set_send_key_updated (v : Z) (x : update_fields) : update_fields := UpdateFields (key_update_pending x) (client_app_secret x) (server_app_secret x) v (recv_key_updated x) (secure_prf_alg x).
Definition set_recv_key_updated (v : Z) (x : update_fields) : update_fields := UpdateFields (key_update_pending x) (client_app_secret x) (server_app_secret x) (send_key_updated x) v (secure_prf_alg x).
Definition set_secure_prf_alg (v : s2n_hmac_algorithm) (x : update_fields) : update_fields := UpdateFields (key_update_pending x) (client_app_secret x) (server_app_secret x) (send_key_updated x) (recv_key_updated x) v.

(** Session tickets. *)
Record ticket_counts := TicketCounts {
  tickets_to_send : Z;  (* uint16_t *)
  tickets_sent : Z;  (* uint16_t *)
  psk_dhe_ke : bool;  (* psk_params.psk_ke_mode == S2N_PSK_DHE_KE *)
}.
Definition set_tickets_to_send (v : Z) (x : ticket_counts) : ticket_counts := TicketCounts v (tickets_sent x) (psk_dhe_ke x).
Definition set_tickets_sent (v : Z) (x : ticket_counts) : ticket_counts := TicketCounts (tickets_to_send x) v (psk_dhe_ke x).
Definition set_psk_dhe_ke (v : bool) (x : ticket_counts) : ticket_counts := TicketCounts (tickets_to_send x) (tickets_sent x) v.

Section Definitions.
Context `{Libcrypto} `{Digests} `{CipherEnv} `{IoEnv}.

(** The connection. *)
Record io_conn := IoConn {
  record_of_conn : record_conn;  (* the fields of [RecordState] *)
  alerts : alert_fields;
  tx : tx_fields;
  rx : rx_fields;
  early : early_fields;
  update : update_fields;
  tickets : ticket_counts;
  blocked : s2n_blocked_status;  (* *blocked of the call *)
  errno : errno_t;  (* errno of the C library *)
  outside : env;  (* the peer, the clock and the rest of the environment *)
}.
Definition set_record_of_conn (v : record_conn) (x : io_conn) : io_conn := IoConn v (alerts x) (tx x) (rx x) (early x) (update x) (tickets x) (blocked x) (errno x) (outside x).
Definition set_alerts (v : alert_fields) (x : io_conn) : io_conn := IoConn (record_of_conn x) v (tx x) (rx x) (early x) (update x) (tickets x) (blocked x) (errno x) (outside x).
Definition set_tx (v : tx_fields) (x : io_conn) : io_conn := IoConn (record_of_conn x) (alerts x) v (rx x) (early x) (update x) (tickets x) (blocked x) (errno x) (outside x).
Definition set_rx (v : rx_fields) (x : io_conn) : io_conn := IoConn (record_of_conn x) (alerts x) (tx x) v (early x) (update x) (tickets x) (blocked x) (errno x) (outside x).
Definition set_early (v : early_fields) (x : io_conn) : io_conn := IoConn (record_of_conn x) (alerts x) (tx x) (rx x) v (update x) (tickets x) (blocked x) (errno x) (outside x).
Definition set_update (v : update_fields) (x : io_conn) : io_conn := IoConn (record_of_conn x) (alerts x) (tx x) (rx x) (early x) v (tickets x) (blocked x) (errno x) (outside x).
Definition set_tickets (v : ticket_counts) (x : io_conn) : io_conn := IoConn (record_of_conn x) (alerts x) (tx x) (rx x) (early x) (update x) v (blocked x) (errno x) (outside x).
Definition set_blocked (v : s2n_blocked_status) (x : io_conn) : io_conn := IoConn (record_of_conn x) (alerts x) (tx x) (rx x) (early x) (update x) (tickets x) v (errno x) (outside x).
Definition set_errno (v : errno_t) (x : io_conn) : io_conn := IoConn (record_of_conn x) (alerts x) (tx x) (rx x) (early x) (update x) (tickets x) (blocked x) v (outside x).
Definition set_outside (v : env) (x : io_conn) : io_conn := IoConn (record_of_conn x) (alerts x) (tx x) (rx x) (early x) (update x) (tickets x) (blocked x) (errno x) v.

Definition rec_lens : lens io_conn record_conn := Lens record_of_conn set_record_of_conn.
Definition base_lens : lens io_conn s2n_connection :=
  Lens (fun x => rbase (record_of_conn x)) (fun v x => set_record_of_conn (set_rbase v (record_of_conn x)) x).
Definition base (c : io_conn) : s2n_connection := rbase (record_of_conn c).
Definition alerts_lens : lens io_conn alert_fields := Lens alerts set_alerts.
Definition tx_lens : lens io_conn tx_fields := Lens tx set_tx.
Definition rx_lens : lens io_conn rx_fields := Lens rx set_rx.
Definition early_lens : lens io_conn early_fields := Lens early set_early.
Definition update_lens : lens io_conn update_fields := Lens update set_update.
Definition alert_in_lens : lens io_conn s2n_stuffer :=
  Lens (fun x => alert_in (alerts x)) (fun v x => set_alerts (set_alert_in v (alerts x)) x).
Definition post_handshake_lens : lens io_conn s2n_stuffer :=
  Lens (fun x => post_handshake_in (rx x)) (fun v x => set_rx (set_post_handshake_in v (rx x)) x).
Definition conn_in_lens : lens io_conn s2n_stuffer :=
  Lens (fun x => in_stuffer (base x)) (fun v x => lset base_lens (set_in_stuffer v (base x)) x).
Definition conn_out_lens : lens io_conn s2n_stuffer :=
  Lens (fun x => out_stuffer (base x)) (fun v x => lset base_lens (set_out_stuffer v (base x)) x).
Definition conn_header_in_lens : lens io_conn s2n_stuffer :=
  Lens (fun x => header_in (record_of_conn x)) (fun v x => set_record_of_conn (set_header_in v (record_of_conn x)) x).
Definition conn_buffer_in_lens : lens io_conn s2n_stuffer :=
  Lens (fun x => buffer_in (record_of_conn x)) (fun v x => set_record_of_conn (set_buffer_in v (record_of_conn x)) x).
Definition conn_handshake_io_lens : lens io_conn s2n_stuffer :=
  Lens (fun x => handshake_io (handshake (base x))) (fun v x => lset base_lens (upd_handshake (set_handshake_io v) (base x)) x).

Definition on_base {A} (c : Cmd s2n_connection A) : Cmd io_conn A := zoom base_lens c.
Definition on_record {A} (c : Cmd record_conn A) : Cmd io_conn A := zoom rec_lens c.
Definition upd_tx (f : tx_fields -> tx_fields) (c : io_conn) : io_conn := set_tx (f (tx c)) c.
Definition upd_rx (f : rx_fields -> rx_fields) (c : io_conn) : io_conn := set_rx (f (rx c)) c.
Definition upd_alerts (f : alert_fields -> alert_fields) (c : io_conn) : io_conn := set_alerts (f (alerts c)) c.
Definition upd_early (f : early_fields -> early_fields) (c : io_conn) : io_conn := set_early (f (early c)) c.
Definition upd_update (f : update_fields -> update_fields) (c : io_conn) : io_conn := set_update (f (update c)) c.

(** A call of the environment. *)
Definition on_env {A} (f : env -> A * env) : Cmd io_conn A := fun '(w, c) =>
  let '(a, e) := f (outside c) in (Ok a, (w, set_outside e c)).
End Definitions.
End IoState.
Export IoState.

(** * tls/s2n_early_data.c and tls/s2n_early_data_io.c: the amount of early data

    How much early data a connection may still send or receive, and the checks
    that s2n_send and s2n_recv make. *)
Module EarlyDataIo.

Section Definitions.
Context `{HP : Platform} `{HL : Libcrypto} `{HD : Digests} `{HC : CipherEnv} `{HI : IoEnv}.

(** ** tls/s2n_early_data.c *)

Definition s2n_config_set_server_max_early_data_size (max_early_data_size : Z) : Cmd io_conn unit :=
  modify (upd_early (set_config_max_early_data_size max_early_data_size)).

Definition s2n_connection_set_server_max_early_data_size (max_early_data_size : Z) : Cmd io_conn unit :=
  modify (upd_early (set_server_max_early_data_size max_early_data_size)) ;;;
  modify (upd_early (set_server_max_early_data_size_overridden true)).

Definition s2n_early_data_get_server_max_size (c : io_conn) : Z :=
  if server_max_early_data_size_overridden (early c) then server_max_early_data_size (early c)
  else config_max_early_data_size (early c).

Definition s2n_connection_get_max_early_data_size (c : io_conn) : Z :=
  let server_max_early_data_size := s2n_early_data_get_server_max_size c in
  match first_psk (early c) with
  | None => if bool_decide (mode (base c) = S2N_SERVER) && negb (IS_NEGOTIATED (base c)) then server_max_early_data_size else 0
  | Some (type, max_early_data_size) =>
      if bool_decide (mode (base c) = S2N_SERVER) && bool_decide (type = S2N_PSK_TYPE_RESUMPTION)
      then Z.min max_early_data_size server_max_early_data_size
      else max_early_data_size
  end.

(** The number of bytes that are still allowed, or the error of the call. *)
Definition s2n_get_remaining_early_data_bytes (c : io_conn) : Z + s2n_error :=
  let max_early_data_size := s2n_connection_get_max_early_data_size c in
  if early_data_bytes (early c) <=? max_early_data_size then inl (u32 (max_early_data_size - early_data_bytes (early c)))
  else inr S2N_ERR_MAX_EARLY_DATA_SIZE.

Definition s2n_connection_get_remaining_early_data_size (c : io_conn) : Z + s2n_error :=
  match early_data_state (base c) with
  | S2N_EARLY_DATA_NOT_REQUESTED | S2N_EARLY_DATA_REJECTED | S2N_END_OF_EARLY_DATA => inl 0
  | S2N_UNKNOWN_EARLY_DATA_STATE | S2N_EARLY_DATA_REQUESTED | S2N_EARLY_DATA_ACCEPTED => s2n_get_remaining_early_data_bytes c
  end.

(** ** tls/s2n_early_data_io.c *)

Definition s2n_end_of_early_data_send : Cmd io_conn unit :=
  c <-- get_obj ;;
  if early_data_expected (base c) then
    zoom conn_handshake_io_lens s2n_stuffer_wipe ;;;
    fail S2N_ERR_EARLY_DATA_BLOCKED
  else on_base (s2n_connection_set_early_data_state S2N_END_OF_EARLY_DATA).

Definition s2n_end_of_early_data_recv : Cmd io_conn unit :=
  c <-- get_obj ;;
  ensure (negb (s2n_connection_is_quic_enabled (base c))) S2N_ERR_BAD_MESSAGE ;;;
  on_base (s2n_connection_set_early_data_state S2N_END_OF_EARLY_DATA).

(** The message type is read only when the other conditions hold. *)
Definition s2n_early_data_is_trial_decryption_allowed (record_type : Z) : Cmd io_conn bool :=
  c <-- get_obj ;;
  if bool_decide (early_data_state (base c) = S2N_EARLY_DATA_REJECTED) && (record_type =? TLS_APPLICATION_DATA)
     && bool_decide (mode (base c) = S2N_SERVER)
  then m <-- on_base active_message ;; ret (bool_decide (m <> APPLICATION_DATA))
  else ret false.

Definition s2n_is_early_data_io : Cmd io_conn bool :=
  m <-- on_base active_message ;;
  c <-- get_obj ;;
  ret (bool_decide (m <> APPLICATION_DATA) &&
       (early_data_expected (base c)
        || (bool_decide (mode (base c) = S2N_CLIENT) && bool_decide (early_data_state (base c) = S2N_EARLY_DATA_REQUESTED))
        || bool_decide (early_data_state (base c) = S2N_EARLY_DATA_ACCEPTED)
        || bool_decide (early_data_state (base c) = S2N_END_OF_EARLY_DATA))).

Definition s2n_early_data_record_bytes (data_len : Z) : Cmd io_conn unit :=
  if data_len <? 0 then ret tt
  else
    early_io <-- s2n_is_early_data_io ;;
    if negb early_io then ret tt
    else
      c <-- get_obj ;;
      if UINT64_MAX - early_data_bytes (early c) <? data_len then
        modify (upd_early (set_early_data_bytes UINT64_MAX)) ;;;
        fail S2N_ERR_INTEGER_OVERFLOW
      else
        modify (upd_early (fun x => set_early_data_bytes (early_data_bytes x + data_len) x)) ;;;
        c <-- get_obj ;;
        ensure (early_data_bytes (early c) <=? s2n_connection_get_max_early_data_size c) S2N_ERR_MAX_EARLY_DATA_SIZE.

(** The parameter is a uint32_t. *)
Definition s2n_early_data_validate_send (bytes_to_send : Z) : Cmd io_conn unit :=
  early_io <-- s2n_is_early_data_io ;;
  if negb early_io then ret tt
  else
    c <-- get_obj ;;
    ensure (early_data_expected (base c)) S2N_ERR_EARLY_DATA_NOT_ALLOWED ;;;
    ensure (bool_decide (mode (base c) = S2N_CLIENT)) S2N_ERR_EARLY_DATA_NOT_ALLOWED ;;;
    ensure (bool_decide (early_data_state (base c) = S2N_EARLY_DATA_REQUESTED)
            || bool_decide (early_data_state (base c) = S2N_EARLY_DATA_ACCEPTED)) S2N_ERR_EARLY_DATA_NOT_ALLOWED ;;;
    allowed_early_data_size <-- guard_rc (s2n_connection_get_remaining_early_data_size c) ;;
    ensure (bytes_to_send <=? allowed_early_data_size) S2N_ERR_MAX_EARLY_DATA_SIZE.

Definition s2n_early_data_validate_recv : Cmd io_conn unit :=
  early_io <-- s2n_is_early_data_io ;;
  if negb early_io then ret tt
  else
    c <-- get_obj ;;
    ensure (early_data_expected (base c)) S2N_ERR_EARLY_DATA_NOT_ALLOWED ;;;
    ensure (bool_decide (mode (base c) = S2N_SERVER)) S2N_ERR_EARLY_DATA_NOT_ALLOWED ;;;
    ensure (bool_decide (early_data_state (base c) = S2N_EARLY_DATA_ACCEPTED)) S2N_ERR_EARLY_DATA_NOT_ALLOWED ;;;
    m <-- on_base active_message ;;
    ensure (bool_decide (m = END_OF_EARLY_DATA)) S2N_ERR_EARLY_DATA_NOT_ALLOWED.

Definition s2n_early_data_can_continue (c : io_conn) : bool :=
  match s2n_connection_get_remaining_early_data_size c with
  | inl remaining_early_data_size => 0 <? remaining_early_data_size
  | inr _ => false
  end.
End Definitions.
End EarlyDataIo.
Export EarlyDataIo.
