(* ===== verification/Alerts.v ===== *)
(** * tls/s2n_alerts.c: alerts

    The alert for an error, the alerts that arrive, possibly in fragments, and
    the alerts that are queued and written. *)
From S2P Require Import Prelude Errors CMem Safety Platform Blob Alloc Stuffer HandshakeTables Connection HandshakeIO Libcrypto Hash Hmac.
From S2P Require Import Ciphers CipherSuites RecordState RecordRead RecordWrite IoState.
Open Scope Z_scope.

Module Alerts.

Definition S2N_TLS_ALERT_LEVEL_WARNING : Z := 1.
Definition S2N_TLS_ALERT_LEVEL_FATAL : Z := 2.
Definition S2N_TLS_ALERT_CLOSE_NOTIFY : Z := 0.
Definition S2N_TLS_ALERT_UNEXPECTED_MESSAGE : Z := 10.
Definition S2N_TLS_ALERT_BAD_RECORD_MAC : Z := 20.
Definition S2N_TLS_ALERT_RECORD_OVERFLOW : Z := 22.
Definition S2N_TLS_ALERT_HANDSHAKE_FAILURE : Z := 40.
Definition S2N_TLS_ALERT_BAD_CERTIFICATE : Z := 42.
Definition S2N_TLS_ALERT_UNSUPPORTED_CERTIFICATE : Z := 43.
Definition S2N_TLS_ALERT_CERTIFICATE_REVOKED : Z := 44.
Definition S2N_TLS_ALERT_CERTIFICATE_EXPIRED : Z := 45.
Definition S2N_TLS_ALERT_CERTIFICATE_UNKNOWN : Z := 46.
Definition S2N_TLS_ALERT_ILLEGAL_PARAMETER : Z := 47.
Definition S2N_TLS_ALERT_UNKNOWN_CA : Z := 48.
Definition S2N_TLS_ALERT_ACCESS_DENIED : Z := 49.
Definition S2N_TLS_ALERT_DECODE_ERROR : Z := 50.
Definition S2N_TLS_ALERT_DECRYPT_ERROR : Z := 51.
Definition S2N_TLS_ALERT_PROTOCOL_VERSION : Z := 70.
Definition S2N_TLS_ALERT_INSUFFICIENT_SECURITY : Z := 71.
Definition S2N_TLS_ALERT_INTERNAL_ERROR : Z := 80.
Definition S2N_TLS_ALERT_INAPPROPRIATE_FALLBACK : Z := 86.
Definition S2N_TLS_ALERT_USER_CANCELED : Z := 90.
Definition S2N_TLS_ALERT_NO_RENEGOTIATION : Z := 100.
Definition S2N_TLS_ALERT_MISSING_EXTENSION : Z := 109.
Definition S2N_TLS_ALERT_UNSUPPORTED_EXTENSION : Z := 110.
Definition S2N_TLS_ALERT_UNRECOGNIZED_NAME : Z := 112.
Definition S2N_TLS_ALERT_BAD_CERTIFICATE_STATUS_RESPONSE : Z := 113.
Definition S2N_TLS_ALERT_UNKNOWN_PSK_IDENTITY : Z := 115.
Definition S2N_TLS_ALERT_CERTIFICATE_REQUIRED : Z := 116.
Definition S2N_TLS_ALERT_NO_APPLICATION_PROTOCOL : Z := 120.

(** The alert for an error of the protocol; [inr] is the error of the call. *)
Definition s2n_translate_protocol_error_to_alert (e : s2n_error) : Z + s2n_error :=
  match e with
  | S2N_ERR_MISSING_EXTENSION => inl S2N_TLS_ALERT_MISSING_EXTENSION
  | S2N_ERR_NO_VALID_SIGNATURE_SCHEME => inl S2N_TLS_ALERT_HANDSHAKE_FAILURE
  | S2N_ERR_MISSING_CLIENT_CERT => inl S2N_TLS_ALERT_CERTIFICATE_REQUIRED
  | S2N_ERR_BAD_MESSAGE => inl S2N_TLS_ALERT_UNEXPECTED_MESSAGE
  | S2N_ERR_UNEXPECTED_CERT_REQUEST => inl S2N_TLS_ALERT_UNEXPECTED_MESSAGE
  | S2N_ERR_MISSING_CERT_REQUEST => inl S2N_TLS_ALERT_UNEXPECTED_MESSAGE
  | S2N_ERR_NO_RENEGOTIATION => inl S2N_TLS_ALERT_HANDSHAKE_FAILURE
  | S2N_ERR_KTLS_KEYUPDATE => inl S2N_TLS_ALERT_UNEXPECTED_MESSAGE
  | S2N_ERR_CERT_UNTRUSTED => inl S2N_TLS_ALERT_CERTIFICATE_UNKNOWN
  | S2N_ERR_CERT_REVOKED => inl S2N_TLS_ALERT_CERTIFICATE_REVOKED
  | S2N_ERR_CERT_NOT_YET_VALID => inl S2N_TLS_ALERT_CERTIFICATE_EXPIRED
  | S2N_ERR_CERT_EXPIRED => inl S2N_TLS_ALERT_CERTIFICATE_EXPIRED
  | S2N_ERR_CERT_TYPE_UNSUPPORTED => inl S2N_TLS_ALERT_UNSUPPORTED_CERTIFICATE
  | S2N_ERR_CERT_REJECTED => inl S2N_TLS_ALERT_ACCESS_DENIED
  | S2N_ERR_CERT_MAX_CHAIN_DEPTH_EXCEEDED => inl S2N_TLS_ALERT_BAD_CERTIFICATE
  | S2N_ERR_CERT_INVALID => inl S2N_TLS_ALERT_BAD_CERTIFICATE
  | S2N_ERR_DECODE_CERTIFICATE => inl S2N_TLS_ALERT_BAD_CERTIFICATE
  | S2N_ERR_ENCRYPT | S2N_ERR_DECRYPT | S2N_ERR_KEY_INIT
  | S2N_ERR_KEY_DESTROY | S2N_ERR_DH_SERIALIZING | S2N_ERR_DH_SHARED_SECRET
  | S2N_ERR_DH_WRITING_PUBLIC_KEY | S2N_ERR_DH_FAILED_SIGNING | S2N_ERR_DH_COPYING_PARAMETERS
  | S2N_ERR_DH_GENERATING_PARAMETERS | S2N_ERR_CIPHER_NOT_SUPPORTED | S2N_ERR_NO_APPLICATION_PROTOCOL
  | S2N_ERR_FALLBACK_DETECTED | S2N_ERR_HASH_DIGEST_FAILED | S2N_ERR_HASH_INIT_FAILED
  | S2N_ERR_HASH_UPDATE_FAILED | S2N_ERR_HASH_COPY_FAILED | S2N_ERR_HASH_WIPE_FAILED
  | S2N_ERR_HASH_NOT_READY | S2N_ERR_ALLOW_MD5_FOR_FIPS_FAILED | S2N_ERR_DECODE_PRIVATE_KEY
  | S2N_ERR_INVALID_HELLO_RETRY | S2N_ERR_INVALID_SIGNATURE_ALGORITHM | S2N_ERR_INVALID_SIGNATURE_SCHEME
  | S2N_ERR_CBC_VERIFY | S2N_ERR_DH_COPYING_PUBLIC_KEY | S2N_ERR_SIGN
  | S2N_ERR_VERIFY_SIGNATURE | S2N_ERR_ECDHE_GEN_KEY | S2N_ERR_ECDHE_SHARED_SECRET
  | S2N_ERR_ECDHE_UNSUPPORTED_CURVE | S2N_ERR_ECDHE_INVALID_PUBLIC_KEY | S2N_ERR_ECDHE_INVALID_PUBLIC_KEY_FIPS
  | S2N_ERR_ECDSA_UNSUPPORTED_CURVE | S2N_ERR_ECDHE_SERIALIZING | S2N_ERR_KEM_UNSUPPORTED_PARAMS
  | S2N_ERR_SHUTDOWN_RECORD_TYPE | S2N_ERR_SHUTDOWN_CLOSED | S2N_ERR_NON_EMPTY_RENEGOTIATION_INFO
  | S2N_ERR_RECORD_LIMIT | S2N_ERR_CRL_LOOKUP_FAILED | S2N_ERR_CRL_SIGNATURE
  | S2N_ERR_CRL_ISSUER | S2N_ERR_CRL_UNHANDLED_CRITICAL_EXTENSION | S2N_ERR_CRL_INVALID_THIS_UPDATE
  | S2N_ERR_CRL_INVALID_NEXT_UPDATE | S2N_ERR_CRL_NOT_YET_VALID | S2N_ERR_CRL_EXPIRED
  | S2N_ERR_INVALID_MAX_FRAG_LEN | S2N_ERR_MAX_FRAG_LEN_MISMATCH | S2N_ERR_PROTOCOL_VERSION_UNSUPPORTED
  | S2N_ERR_BAD_KEY_SHARE | S2N_ERR_CANCELLED | S2N_ERR_PROTOCOL_DOWNGRADE_DETECTED
  | S2N_ERR_MAX_INNER_PLAINTEXT_SIZE | S2N_ERR_RECORD_STUFFER_SIZE | S2N_ERR_FRAGMENT_LENGTH_TOO_LARGE
  | S2N_ERR_FRAGMENT_LENGTH_TOO_SMALL | S2N_ERR_RECORD_STUFFER_NEEDS_DRAINING | S2N_ERR_UNSUPPORTED_EXTENSION
  | S2N_ERR_DUPLICATE_EXTENSION | S2N_ERR_MAX_EARLY_DATA_SIZE | S2N_ERR_EARLY_DATA_TRIAL_DECRYPT => inr S2N_ERR_NO_ALERT
  | _ => inr S2N_ERR_UNIMPLEMENTED
  end.

(** The error is given by its number in the code. *)
Definition s2n_error_get_alert (e : s2n_error) : Z + s2n_error :=
  let error_type := s2n_error_get_type (error_code e) in
  if existsb (Z.eqb error_type)
       (map error_type_value [S2N_ERR_T_OK; S2N_ERR_T_CLOSED; S2N_ERR_T_BLOCKED; S2N_ERR_T_USAGE; S2N_ERR_T_ALERT])
  then inr S2N_ERR_NO_ALERT
  else if error_type =? error_type_value S2N_ERR_T_PROTO then s2n_translate_protocol_error_to_alert e
  else inl S2N_TLS_ALERT_INTERNAL_ERROR.

Section Definitions.
Context `{HP : Platform} `{HL : Libcrypto} `{HD : Digests} `{HC : CipherEnv} `{HR : !RecordEnv} `{HI : IoEnv}.

Definition s2n_alerts_supported (c : io_conn) : bool := negb (s2n_connection_is_quic_enabled (base c)).

Definition s2n_process_as_warning (c : io_conn) (level type : Z) : bool :=
  if s2n_connection_get_protocol_version (base c) <? S2N_TLS13 then
    (level =? S2N_TLS_ALERT_LEVEL_WARNING) && bool_decide (alert_behavior (alerts c) = S2N_ALERT_IGNORE_WARNINGS)
  else type =? S2N_TLS_ALERT_USER_CANCELED.

(** [conn->in] and [conn->alert_in], for a copy from one to the other. *)
Definition in_alert_lens : lens io_conn (s2n_stuffer * s2n_stuffer) :=
  Lens (fun x => (in_stuffer (base x), alert_in (alerts x)))
       (fun p x => lset alert_in_lens (snd p) (lset conn_in_lens (fst p) x)).

(** What is done with a complete alert; the result says whether to go on. *)
Definition handle_alert : Cmd io_conn bool :=
  c <-- get_obj ;;
  level <-- load_byte (Some (alert_in_data (alerts c))) 0 ;;
  type <-- load_byte (Some (alert_in_data (alerts c))) 1 ;;
  if type =? S2N_TLS_ALERT_CLOSE_NOTIFY then
    on_base (modify (set_read_closed true)) ;;;
    modify (upd_alerts (set_close_notify_received true)) ;;;
    ret false
  else if s2n_process_as_warning c level type then
    zoom alert_in_lens s2n_stuffer_wipe ;;;
    ret false
  else
    (if s2n_allowed_to_cache_connection (base c) && negb (session_id_len (base c) =? 0)
     then on_env (fun e => (tt, config_cache_delete e)) else ret tt) ;;;
    on_base s2n_connection_set_closed ;;;
    modify (upd_alerts (set_error_alert_received true)) ;;;
    fail S2N_ERR_ALERT.

(** The loop over the record; every iteration consumes a byte of it. *)
Fixpoint alert_loop (fuel : nat) : Cmd io_conn unit :=
  c <-- get_obj ;;
  let available := s2n_stuffer_data_available (in_stuffer (base c)) in
  if available =? 0 then ret tt
  else
    match fuel with
    | O => undefined
    | S fuel' =>
        let bytes_required := if s2n_stuffer_data_available (alert_in (alerts c)) =? 1 then 1 else 2 in
        zoom in_alert_lens (s2n_stuffer_copy (Z.min bytes_required available)) ;;;
        c <-- get_obj ;;
        if s2n_stuffer_data_available (alert_in (alerts c)) =? 2 then
          continue <-- handle_alert ;;
          if continue then alert_loop fuel' else ret tt
        else alert_loop fuel'
    end.

Definition s2n_process_alert_fragment : Cmd io_conn unit :=
  c <-- get_obj ;;
  ensure (negb (s2n_stuffer_data_available (in_stuffer (base c)) =? 0)) S2N_ERR_BAD_MESSAGE ;;;
  ensure (negb (s2n_stuffer_data_available (alert_in (alerts c)) =? 2)) S2N_ERR_ALERT_PRESENT ;;;
  ensure (s2n_alerts_supported c) S2N_ERR_BAD_MESSAGE ;;;
  alert_loop (Z.to_nat (s2n_stuffer_data_available (in_stuffer (base c)))).

Definition s2n_queue_reader_alert (code : Z) : Cmd io_conn unit :=
  c <-- get_obj ;;
  if reader_alert_out (alerts c) =? 0 then modify (upd_alerts (set_reader_alert_out code)) else ret tt.

Definition s2n_queue_reader_unsupported_protocol_version_alert : Cmd io_conn unit :=
  s2n_queue_reader_alert S2N_TLS_ALERT_PROTOCOL_VERSION.

Definition s2n_queue_reader_handshake_failure_alert : Cmd io_conn unit :=
  s2n_queue_reader_alert S2N_TLS_ALERT_HANDSHAKE_FAILURE.

Definition s2n_queue_reader_no_renegotiation_alert : Cmd io_conn unit :=
  c <-- get_obj ;;
  if s2n_connection_get_protocol_version (base c) =? S2N_SSLv3 then
    s2n_queue_reader_handshake_failure_alert ;;;
    fail S2N_ERR_BAD_MESSAGE
  else if reader_warning_out (alerts c) =? 0 then modify (upd_alerts (set_reader_warning_out S2N_TLS_ALERT_NO_RENEGOTIATION))
  else ret tt.

(** s2n_record_write of an array of the calling function. *)
Definition record_write_local (content_type : Z) (bs : list Z) : Cmd io_conn unit :=
  written <-- on_record (s2n_record_writev content_type [Iovec (LocalBuf bs) (zlen bs)] 0 (zlen bs)) ;;
  ensure (written =? zlen bs) S2N_ERR_FRAGMENT_LENGTH_TOO_LARGE.

(** Level and code of the alert that closes the connection. *)
Definition closing_alert (a : alert_fields) : Z * Z :=
  if negb (writer_alert_out a =? 0) then (S2N_TLS_ALERT_LEVEL_FATAL, writer_alert_out a)
  else if negb (reader_alert_out a =? 0) then (S2N_TLS_ALERT_LEVEL_FATAL, reader_alert_out a)
  else (S2N_TLS_ALERT_LEVEL_WARNING, S2N_TLS_ALERT_CLOSE_NOTIFY).

Definition s2n_alerts_write_error_or_close_notify : Cmd io_conn unit :=
  c <-- get_obj ;;
  if negb (s2n_alerts_supported c) then ret tt
  else
    let '(level, code) := closing_alert (alerts c) in
    record_write_local TLS_ALERT [level; code] ;;;
    modify (upd_alerts (set_alert_sent true)).

Definition s2n_alerts_write_warning : Cmd io_conn unit :=
  c <-- get_obj ;;
  if negb (s2n_alerts_supported c) then ret tt
  else record_write_local TLS_ALERT [S2N_TLS_ALERT_LEVEL_WARNING; reader_warning_out (alerts c)].
End Definitions.

(** The descriptions of alerts that RFC 8446 6 and RFC 5246 7.2 define. *)
Definition alert_descriptions : list Z :=
  [S2N_TLS_ALERT_CLOSE_NOTIFY; S2N_TLS_ALERT_UNEXPECTED_MESSAGE; S2N_TLS_ALERT_BAD_RECORD_MAC;
   S2N_TLS_ALERT_RECORD_OVERFLOW; S2N_TLS_ALERT_HANDSHAKE_FAILURE; S2N_TLS_ALERT_BAD_CERTIFICATE;
   S2N_TLS_ALERT_UNSUPPORTED_CERTIFICATE; S2N_TLS_ALERT_CERTIFICATE_REVOKED;
   S2N_TLS_ALERT_CERTIFICATE_EXPIRED; S2N_TLS_ALERT_CERTIFICATE_UNKNOWN; S2N_TLS_ALERT_ILLEGAL_PARAMETER;
   S2N_TLS_ALERT_UNKNOWN_CA; S2N_TLS_ALERT_ACCESS_DENIED; S2N_TLS_ALERT_DECODE_ERROR;
   S2N_TLS_ALERT_DECRYPT_ERROR; S2N_TLS_ALERT_PROTOCOL_VERSION; S2N_TLS_ALERT_INSUFFICIENT_SECURITY;
   S2N_TLS_ALERT_INTERNAL_ERROR; S2N_TLS_ALERT_INAPPROPRIATE_FALLBACK; S2N_TLS_ALERT_USER_CANCELED;
   S2N_TLS_ALERT_NO_RENEGOTIATION; S2N_TLS_ALERT_MISSING_EXTENSION; S2N_TLS_ALERT_UNSUPPORTED_EXTENSION;
   S2N_TLS_ALERT_UNRECOGNIZED_NAME; S2N_TLS_ALERT_BAD_CERTIFICATE_STATUS_RESPONSE;
   S2N_TLS_ALERT_UNKNOWN_PSK_IDENTITY; S2N_TLS_ALERT_CERTIFICATE_REQUIRED;
   S2N_TLS_ALERT_NO_APPLICATION_PROTOCOL].

(** C40 The table of alerts covers the errors.  For every error of the library, asking
    for its alert gives what its class calls for: none for success, for a closed or blocked
    connection, for a usage error and for an alert of the peer; internal_error for a failure of
    the system or of the library; and for an error of the protocol a description that the RFCs
    define, or the answer that there is none.  In no case is an error missing from the table. *)
Theorem error_alert_total (e : s2n_error) :
  let class := s2n_error_get_type (error_code e) in
  match s2n_error_get_alert e with
  | inl a => In a alert_descriptions /\
             (class = error_type_value S2N_ERR_T_PROTO \/
              (class = error_type_value S2N_ERR_T_IO \/ class = error_type_value S2N_ERR_T_INTERNAL) /\ a = S2N_TLS_ALERT_INTERNAL_ERROR)
  | inr e' => e' = S2N_ERR_NO_ALERT /\ class <> error_type_value S2N_ERR_T_IO /\ class <> error_type_value S2N_ERR_T_INTERNAL
  end.
Proof. destruct e; vm_compute; intuition congruence. Qed.
End Alerts.
Export Alerts.

(** * Input and output: utils/s2n_io.c and s2n_flush

    The functions of tls/s2n_connection.c that call the application's send and
    recv, and s2n_flush of tls/s2n_send.c. *)
Module Flush.
Section Definitions.
Context `{HP : Platform} `{HL : Libcrypto} `{HD : Digests} `{HC : CipherEnv} `{HR : !RecordEnv} `{HI : IoEnv}.

(** ** utils/s2n_io.c *)

(** S2N_IO_RETRY_EINTR: the call is repeated while it is interrupted. *)
Fixpoint retry_eintr {A} (fuel : nat) (f : env -> (A + errno_t) * env) : Cmd io_conn (option A) :=
  modify (set_errno NoErrno) ;;;
  r <-- on_env f ;;
  match r with
  | inl a => ret (Some a)
  | inr EINTR => match fuel with O => undefined | S fuel' => retry_eintr fuel' f end
  | inr e => modify (set_errno e) ;;; ret None
  end.

(** The argument is the result of the call, [None] if it is negative. *)
Definition s2n_io_check_write_result {A} (result : option A) : Cmd io_conn A :=
  c <-- get_obj ;;
  match result with
  | Some n => ret n
  | None => if bool_decide (errno c = EWOULDBLOCK) || bool_decide (errno c = EAGAIN) then fail S2N_ERR_IO_BLOCKED else fail S2N_ERR_IO
  end.

Definition s2n_io_check_read_result (result : option Z) : Cmd io_conn Z :=
  n <-- s2n_io_check_write_result result ;;
  ensure (negb (n =? 0)) S2N_ERR_CLOSED ;;;
  ret n.

(** The result of a call as the caller sees it: [None] after a failure. *)
Definition result_of {A} (cmd : Cmd io_conn A) : Cmd io_conn (option A) :=
  r <-- attempt cmd ;; ret (match r with inl a => Some a | inr _ => None end).

(** ** tls/s2n_connection.c *)

(** The stuffer is the one at [l]; the callback stores its bytes behind the
    write cursor. *)
Definition s2n_connection_recv_stuffer (l : lens io_conn s2n_stuffer) (len : Z) : Cmd io_conn Z :=
  c <-- get_obj ;;
  ensure (recv_set (rx c)) S2N_ERR_NULL ;;;
  zoom l (s2n_stuffer_reserve_space len) ;;;
  c <-- get_obj ;;
  let s := lget l c in
  p <-- ptr_add (data (blob s)) (write_cursor s) ;;
  r <-- retry_eintr interrupts (env_recv len) ;;
  match r with
  | None => fail S2N_ERR_RECV_STUFFER_FROM_CONN
  | Some bs =>
      (match p with Some q => store q bs | None => if zlen bs =? 0 then ret tt else undefined end) ;;;
      zoom l (s2n_stuffer_skip_write (zlen bs)) ;;;
      ret (zlen bs)
  end.

Definition s2n_connection_send_stuffer (l : lens io_conn s2n_stuffer) (len : Z) : Cmd io_conn Z :=
  c <-- get_obj ;;
  ensure (send_set (tx c)) S2N_ERR_NULL ;;;
  ensure (negb (write_fd_broken (tx c))) S2N_ERR_SEND_STUFFER_TO_CONN ;;;
  let s := lget l c in
  ensure (negb (s2n_stuffer_data_available s <? len)) S2N_ERR_STUFFER_OUT_OF_DATA ;;;
  p <-- ptr_add (data (blob s)) (read_cursor s) ;;
  bs <-- load_buf (HeapBuf p) len ;;
  r <-- retry_eintr interrupts (env_send bs) ;;
  match r with
  | None =>
      c <-- get_obj ;;
      (if bool_decide (errno c = EPIPE) then modify (upd_tx (set_write_fd_broken true)) else ret tt) ;;;
      fail S2N_ERR_SEND_STUFFER_TO_CONN
  | Some n => zoom l (s2n_stuffer_skip_read (u32 n)) ;;; ret n
  end.

(** ** tls/s2n_send.c: flushing *)

(** The loop; every call of the callback takes at least a byte. *)
Fixpoint flush_loop (fuel : nat) : Cmd io_conn unit :=
  c <-- get_obj ;;
  let available := s2n_stuffer_data_available (out_stuffer (base c)) in
  if available =? 0 then ret tt
  else
    match fuel with
    | O => undefined
    | S fuel' =>
        modify (set_errno NoErrno) ;;;
        w <-- result_of (s2n_connection_send_stuffer conn_out_lens available) ;;
        w <-- s2n_io_check_write_result w ;;
        modify (upd_tx (fun x => set_wire_bytes_out (u64 (wire_bytes_out x + w)) x)) ;;;
        flush_loop fuel'
    end.

(** The function calls itself after a warning, when none is left. *)
Fixpoint flush_calls (calls : nat) : Cmd io_conn unit :=
  match calls with
  | O => undefined
  | S calls' =>
      modify (set_blocked S2N_BLOCKED_ON_WRITE) ;;;
      c <-- get_obj ;;
      flush_loop (Z.to_nat (s2n_stuffer_data_available (out_stuffer (base c)))) ;;;
      zoom conn_out_lens s2n_stuffer_rewrite ;;;
      c <-- get_obj ;;
      (if negb (reader_warning_out (alerts c) =? 0) then
         s2n_alerts_write_warning ;;;
         modify (upd_alerts (set_reader_warning_out 0)) ;;;
         flush_calls calls'
       else ret tt) ;;;
      modify (set_blocked S2N_NOT_BLOCKED)
  end.
Definition s2n_flush : Cmd io_conn unit := flush_calls 2.
End Definitions.
End Flush.
Export Flush.
