(* ===== verification/FlushTheorems.v ===== *)
(** * Flushing delivers the output

    What the environment promises ([EnvOk]), the wp rules for calls of it, and
    s2n_flush: it hands the bytes of the output to the peer, in order and each
    of them once, and stops early only when the transport does not take them. *)
From S2P Require Import Prelude Errors CMem Platform Safety Blob Alloc Stuffer StufferInv StufferSpec NetworkOrder HandshakeTables Connection HandshakeIO.
From S2P Require Import Libcrypto Hash Hmac HmacTheorems Ciphers CipherSuites RecordState RecordRead RecordWrite RecordDemo IoState Alerts.
Open Scope Z_scope.

Module FlushTheorems.

(** A call is interrupted at most [n] times in a row. *)
Fixpoint settles `{IoEnv} {A} (n : nat) (f : env -> (A + errno_t) * env) (e : env) : Prop :=
  match f e with
  | (inr EINTR, e') => match n with O => False | S n' => settles n' f e' end
  | _ => True
  end.

(** The application's callbacks.  [delivered] is all that [send] has taken: at
    least a byte per successful call, nothing when it fails; the other calls do
    not send. *)
Class EnvOk `{HI : IoEnv} := {
  delivered : env -> list Z;
  env_send_ok : forall bs e, bs <> [] ->
    match env_send bs e with
    | (inl n, e') => 0 < n <= zlen bs /\ delivered e' = delivered e ++ take (Z.to_nat n) bs
    | (inr _, e') => delivered e' = delivered e
    end;
  env_send_settles : forall bs e, settles interrupts (env_send bs) e;
  env_recv_quiet : forall n e, delivered (snd (env_recv n e)) = delivered e;
  env_recv_settles : forall n e, settles interrupts (env_recv n) e;
  env_recv_fits : forall n e bs, 0 <= n -> fst (env_recv n e) = inl bs -> zlen bs <= n /\ is_bytes bs;
  env_clock_quiet : forall e, delivered (snd (monotonic_clock e)) = delivered e;
}.

Section Theorems.
Context `{HP : Platform} `{HL : Libcrypto} `{HD : Digests} `{HC : CipherEnv} `{HR : !RecordEnv} `{HI : IoEnv} `{HO : !EnvOk}.

(** ** What flushing changes *)

Definition io_after (out : s2n_stuffer) (broken : bool) (bytes : Z) (b : s2n_blocked_status) (err : errno_t) (e : env) (c : io_conn) : io_conn :=
  set_outside e (set_errno err (set_blocked b
    (set_tx (set_write_fd_broken broken (set_wire_bytes_out bytes (tx c))) (lset conn_out_lens out c)))).
Definition io_frame (c c' : io_conn) : Prop :=
  c' = io_after (out_stuffer (base c')) (write_fd_broken (tx c')) (wire_bytes_out (tx c')) (blocked c') (errno c') (outside c') c.

Lemma io_frame_refl c : io_frame c c.
Proof. destruct c as [[[]] ? [] ? ? ? ? ? ? ?]. reflexivity. Qed.
Lemma io_frame_after c out broken bytes b err e : io_frame c (io_after out broken bytes b err e c).
Proof. reflexivity. Qed.
Lemma io_frame_out c out err e b : io_frame c (set_outside e (set_errno err (set_blocked b (lset conn_out_lens out c)))).
Proof. destruct c as [[[]] ? [] ? ? ? ? ? ? ?]. reflexivity. Qed.
Lemma io_frame_env c err e b : io_frame c (set_outside e (set_errno err (set_blocked b c))).
Proof. destruct c as [[[]] ? [] ? ? ? ? ? ? ?]. reflexivity. Qed.
Lemma io_frame_tx c broken bytes : io_frame c (set_tx (set_write_fd_broken broken (set_wire_bytes_out bytes (tx c))) c).
Proof. destruct c as [[[]] ? [] ? ? ? ? ? ? ?]. reflexivity. Qed.
Lemma io_frame_trans c1 c2 c3 : io_frame c1 c2 -> io_frame c2 c3 -> io_frame c1 c3.
Proof. unfold io_frame. intros H12 H23. rewrite H23 at 1. rewrite H12 at 1. reflexivity. Qed.

(** ** Calls of the environment *)

Lemma wp_on_env {A} (f : env -> A * env) w c Q E : Q (fst (f (outside c))) w (set_outside (snd (f (outside c))) c) -> wp (on_env f) (w, c) Q E.
Proof. unfold wp, on_env. by destruct (f (outside c)). Qed.

Ltac none_case HN Hf := match type of Hf with _ ?e0 = (inr ?y, ?e) => exact (HN y e0 e ltac:(done) ltac:(done) Hf ltac:(done)) end.

(** A call that is repeated until it is not interrupted; [inv] holds of what every
    call does to the environment. *)
Lemma wp_retry {A} n (f : env -> (A + errno_t) * env) w c (inv : env -> Prop) Q E :
  settles n f (outside c) -> inv (outside c) ->
  (forall e x e', inv e -> f e = (inr x, e') -> inv e') ->
  (forall e a e' err, inv e -> f e = (inl a, e') -> Q (Some a) w (set_outside e' (set_errno err c))) ->
  (forall x e e', inv e -> inv e' -> f e = (inr x, e') -> x <> EINTR -> Q None w (set_outside e' (set_errno x c))) ->
  wp (retry_eintr n f) (w, c) Q E.
Proof.
  intros Hset Hinv Hkeep HQ HN. revert c Hset Hinv HQ HN. induction n as [|n IH]; intros c Hset Hinv HQ HN; simpl in *.
  - apply wp_bind, wp_modify, wp_bind, wp_on_env. simpl in *.
    destruct (f (outside c)) as [[a|x] e'] eqn:Hf; simpl in *; [apply wp_ret; by eapply (HQ (outside c))|].
    pose proof (Hkeep _ _ _ Hinv Hf). destruct x; try done; apply wp_bind, wp_modify, wp_ret; none_case HN Hf.
  - apply wp_bind, wp_modify, wp_bind, wp_on_env. simpl in *.
    destruct (f (outside c)) as [[a|x] e'] eqn:Hf; simpl in *; [apply wp_ret; by eapply (HQ (outside c))|].
    pose proof (Hkeep _ _ _ Hinv Hf). destruct x; try (apply wp_bind, wp_modify, wp_ret; none_case HN Hf). apply IH; [done|done| |].
    + intros e a e2 err He Hfe. by eapply (HQ e a e2 err).
    + intros x e1 e2 He1 He Hfe Hx. by apply (HN x e1 e2).
Qed.

(** ** Sending a part of the output *)

(** There is no transport, it is broken, or some call of it fails. *)
Definition transport_refuses (c : io_conn) : Prop :=
  send_set (tx c) = false \/ write_fd_broken (tx c) = true \/ exists bs e x e', bs <> [] /\ env_send bs e = (inr x, e').

Lemma unread_null h s : data (blob s) = None -> unread h s = [].
Proof. intros Hn. unfold unread, written. rewrite Hn. apply drop_nil. Qed.

Lemma wp_send_out w c Q E :
  let s := out_stuffer (base c) in
  stuffer_ok (hp w) s -> unread (hp w) s <> [] ->
  (forall n c', 0 < n <= zlen (unread (hp w) s) -> io_frame c c' -> out_stuffer (base c') = advanced n s -> blocked c' = blocked c ->
     write_fd_broken (tx c') = write_fd_broken (tx c) ->
     delivered (outside c') = delivered (outside c) ++ take (Z.to_nat n) (unread (hp w) s) -> Q n w c') ->
  (forall e c', transport_refuses c -> io_frame c c' -> out_stuffer (base c') = s -> blocked c' = blocked c -> delivered (outside c') = delivered (outside c) -> E e w c') ->
  wp (s2n_connection_send_stuffer conn_out_lens (s2n_stuffer_data_available s)) (w, c) Q E.
Proof.
  cbv zeta. intros Hs Hne HQ HE. set (s := out_stuffer (base c)) in *.
  pose proof (unread_len Hs) as Hlen. pose proof (ok_read _ _ Hs) as Hr. pose proof (ok_write _ _ Hs) as Hw. pose proof (ok_size32 Hs) as H32.
  assert (Hfail : forall e, transport_refuses c -> E e w c) by (intros e He; apply HE; [done|apply io_frame_refl|done..]).
  assert (Hpos : 0 < write_cursor s - read_cursor s).
  { rewrite <- Hlen. pose proof (zlen_nonneg (unread (hp w) s)). assert (zlen (unread (hp w) s) <> 0); [|lia]. intros Hz. apply Hne. by apply nil_length_inv, Nat2Z.inj. }
  rewrite (data_available_eq Hs). apply wp_bind, wp_get_obj. apply wp_bind, wp_ensure; [intros _|intros Hz; apply Hfail; by left].
  apply wp_bind, wp_ensure; [intros _|intros Hz; zbool; apply Hfail; right; by left]. cbv zeta. change (lget conn_out_lens c) with s.
  apply wp_bind, wp_ensure; [intros _|intros Hz; rewrite (data_available_eq Hs) in Hz; zbool; lia].
  destruct (data (blob s)) as [p|] eqn:Hp; [|by rewrite unread_null in Hne].
  apply wp_bind, wp_ptr_add_some. apply wp_bind. cbn [load_buf]. apply wp_load; [apply (stuffer_access Hs); [done|lia..]|].
  rewrite (bytes_at_cursor Hs) by (done || lia). rewrite take_ge by (unfold zlen in Hlen; lia).
  apply wp_bind. set (bs := unread (hp w) s) in *.
  apply (wp_retry _ _ _ _ (fun e => delivered e = delivered (outside c))); [apply env_send_settles|done| | |].
  - intros e x e' He Hf. pose proof (env_send_ok bs e Hne) as H. rewrite Hf in H. congruence.
  - intros e n e' err He Hf. pose proof (env_send_ok bs e Hne) as H. rewrite Hf in H. destruct H as [Hn Hd].
    apply wp_bind, wp_zoom. change (lget conn_out_lens _) with s. rewrite u32_small by lia. apply wp_skip_read; [done|lia| |lia].
    intros _. apply wp_ret. apply HQ; [done|exact (io_frame_out c (advanced n s) err e' (blocked c))|done|done|done|]. simpl. rewrite <- He. exact Hd.
  - intros x e0 e' _ He Hf0 _. assert (Hno : transport_refuses c) by (right; right; by exists bs, e0, x, e').
    apply wp_bind, wp_get_obj. cbn [errno set_errno set_outside]. apply wp_bind.
    pose proof (io_frame_env c x e' (blocked c)) as Hf. destruct (bool_decide _); [apply wp_modify|apply wp_ret]; apply wp_fail, HE; try done.
    eapply io_frame_trans; [exact Hf|]. destruct c as [[[]] ? [] ? ? ? ? ? ? ?]. reflexivity.
Qed.

(** ** The loop *)

(** The states that differ by a part of the output, which was sent. *)
Definition partly_sent (w : world) (c c' : io_conn) (k : Z) : Prop :=
  let s := out_stuffer (base c) in
  io_frame c c' /\ 0 <= k <= zlen (unread (hp w) s) /\ out_stuffer (base c') = advanced k s /\ blocked c' = blocked c /\
  delivered (outside c') = delivered (outside c) ++ take (Z.to_nat k) (unread (hp w) s).

Ltac split_sent := unfold partly_sent; cbv zeta; split_goal.

Lemma partly_sent_refl w c : partly_sent w c c 0.
Proof.
  split_sent; [apply io_frame_refl|done|apply zlen_nonneg|by rewrite advanced_0|done|]. by rewrite app_nil_r.
Qed.

Lemma partly_sent_trans w c1 c2 c3 j k : stuffer_ok (hp w) (out_stuffer (base c1)) ->
  partly_sent w c1 c2 j -> partly_sent w c2 c3 k -> partly_sent w c1 c3 (j + k).
Proof.
  intros Hs (F1 & K1 & O1 & B1 & D1) (F2 & K2 & O2 & B2 & D2). pose proof (unread_len Hs) as Hlen.
  rewrite O1, unread_advanced in K2, D2 by (done || lia). unfold zlen in *. rewrite length_drop in K2.
  split_sent; [by eapply io_frame_trans|lia|unfold zlen; lia| |congruence|].
  - by rewrite O2, O1, advanced_advanced.
  - rewrite D2, D1, <- app_assoc. f_equal. rewrite Z2Nat.inj_add by lia. apply take_take_drop.
Qed.

Lemma partly_sent_errno w c c' k b : partly_sent w (set_errno b c) c' k -> partly_sent w c c' k.
Proof.
  intros (F & K & O & B & D). split_sent; [|apply K|apply K|done..]. eapply io_frame_trans; [|exact F].
  destruct c as [[[]] ? [] ? ? ? ? ? ? ?]. reflexivity.
Qed.

Definition io_error (e : s2n_error) : Prop := e = S2N_ERR_IO_BLOCKED \/ e = S2N_ERR_IO.

Lemma wp_check_write {A} (r : option A) w c Q E :
  (forall a, r = Some a -> Q a w c) -> (forall e, r = None -> io_error e -> E e w c) -> wp (s2n_io_check_write_result r) (w, c) Q E.
Proof.
  intros HQ HE. apply wp_bind, wp_get_obj. destruct r as [a|]; [by apply wp_ret, HQ|].
  destruct (_ || _); apply wp_fail, HE; try done; [by left|by right].
Qed.

Lemma wp_result_of {A} (cmd : Cmd io_conn A) s Q E :
  wp cmd s (fun a => Q (Some a)) (fun _ => Q None) -> wp (result_of cmd) s Q E.
Proof. intros H. apply wp_bind, wp_attempt. eapply wp_mono; [exact H|..]; by intros; apply wp_ret. Qed.

Lemma wp_flush_loop fuel w c Q E : let s := out_stuffer (base c) in
  stuffer_ok (hp w) s -> zlen (unread (hp w) s) <= Z.of_nat fuel ->
  (forall c', partly_sent w c c' (zlen (unread (hp w) s)) -> write_fd_broken (tx c') = write_fd_broken (tx c) -> Q tt w c') ->
  (forall e c' k, io_error e -> transport_refuses c -> partly_sent w c c' k -> E e w c') ->
  wp (flush_loop fuel) (w, c) Q E.
Proof.
  cbv zeta. revert c. induction fuel as [|fuel IH]; intros c Hs Hfuel HQ HE; simpl.
  all: pose proof (unread_len Hs) as Hlen; apply wp_bind, wp_get_obj; rewrite (data_available_eq Hs).
  all: destruct (Z.eqb_spec (write_cursor (out_stuffer (base c)) - read_cursor (out_stuffer (base c))) 0) as [Hz|Hz];
    [apply wp_ret, HQ; [rewrite Hlen, Hz; apply partly_sent_refl|done]|].
  - pose proof (ok_read _ _ Hs). lia.
  - assert (Hne : unread (hp w) (out_stuffer (base c)) <> []) by (intros He; rewrite He in Hlen; by rewrite <- Hlen in Hz).
    apply wp_bind, wp_modify. rewrite <- (data_available_eq Hs). apply wp_bind, wp_result_of.
    apply (wp_send_out w (set_errno NoErrno c)); [done|done| |].
    + intros n c' Hn Hf Ho Hb Hbr Hd. change (out_stuffer (base (set_errno NoErrno c))) with (out_stuffer (base c)) in Hn, Ho, Hd. assert (Hp : partly_sent w c c' n).
      { apply (partly_sent_errno _ _ _ _ NoErrno). split_sent; [done|lia|apply Hn|done|done|done]. }
      apply wp_bind, wp_check_write; [|done]. intros ? [= <-]. apply wp_bind, wp_modify.
      assert (Hp' : partly_sent w c (upd_tx (fun x => set_wire_bytes_out (u64 (wire_bytes_out x + n)) x) c') n).
      { destruct Hp as (F & K & O & B & D). split_sent; [|apply K|apply K|done..]. eapply io_frame_trans; [exact F|].
        clear. destruct c' as [[[]] ? [] ? ? ? ? ? ? ?]. reflexivity. }
      assert (Hlen' : zlen (unread (hp w) (advanced n (out_stuffer (base c)))) = zlen (unread (hp w) (out_stuffer (base c))) - n).
      { rewrite unread_advanced by (done || lia). unfold zlen in *. rewrite length_drop. lia. }
      apply IH.
      * change (stuffer_ok (hp w) (out_stuffer (base c'))). rewrite Ho. apply advanced_ok; [done|lia].
      * change (zlen (unread (hp w) (out_stuffer (base c'))) <= Z.of_nat fuel). rewrite Ho, Hlen'. lia.
      * intros c2 H2 Hbr2. apply HQ; [|by rewrite Hbr2]. replace (zlen (unread (hp w) (out_stuffer (base c)))) with (n + zlen (unread (hp w) (advanced n (out_stuffer (base c))))) by lia.
        eapply partly_sent_trans; [done|exact Hp'|]. rewrite <- Ho. exact H2.
      * intros e c2 k He Hno H2. eapply (HE e c2 (n + k)); [done| |by eapply partly_sent_trans].
        unfold transport_refuses in *. assert (Hset : send_set (tx c') = send_set (tx c)) by (rewrite Hf; reflexivity).
        simpl in Hno. by rewrite Hset, Hbr in Hno.
    + intros e c' Hno Hf Ho Hb Hd. apply wp_bind, wp_check_write; [done|]. intros e' _ He'. apply (HE e' c' 0); [done|done|].
      apply (partly_sent_errno _ _ _ _ NoErrno). split_sent; [done|done|apply zlen_nonneg|by rewrite advanced_0|done|]. by rewrite app_nil_r.
Qed.

(** ** Flushing *)

(** Everything was sent, and the output is empty. *)
Definition flushed (w : world) (c c' : io_conn) : Prop :=
  let s := out_stuffer (base c) in
  io_frame c c' /\ out_stuffer (base c') = set_read_cursor 0 (set_write_cursor 0 s) /\ blocked c' = S2N_NOT_BLOCKED /\
  delivered (outside c') = delivered (outside c) ++ unread (hp w) s.
(** The first [k] bytes of the output were sent. *)
Definition flush_failed (w : world) (c : io_conn) (e : s2n_error) (c' : io_conn) (k : Z) : Prop :=
  io_error e /\ transport_refuses c /\ partly_sent w (set_blocked S2N_BLOCKED_ON_WRITE c) c' k.

Lemma wp_flush w c Q E : stuffer_ok (hp w) (out_stuffer (base c)) -> reader_warning_out (alerts c) = 0 ->
  (forall c', flushed w c c' -> Q tt w c') ->
  (forall e c' k, flush_failed w c e c' k -> E e w c') ->
  wp s2n_flush (w, c) Q E.
Proof.
  intros Hs Hwarn HQ HE. unfold s2n_flush, flush_calls. apply wp_bind, wp_modify, wp_bind, wp_get_obj.
  change (out_stuffer (base (set_blocked S2N_BLOCKED_ON_WRITE c))) with (out_stuffer (base c)).
  rewrite (data_available_eq Hs). pose proof (ok_read _ _ Hs). pose proof (unread_len Hs) as Hlen.
  apply wp_bind. apply wp_flush_loop; [done| | |].
  { change (zlen (unread (hp w) (out_stuffer (base c))) <= Z.of_nat (Z.to_nat (write_cursor (out_stuffer (base c)) - read_cursor (out_stuffer (base c))))). lia. }
  - intros c1 (F & _ & O & B & D) _. unfold io_frame in F. assert (Hs1 : stuffer_ok (hp w) (out_stuffer (base c1))).
    { rewrite O. apply advanced_ok; [done|]. change (out_stuffer (base (set_blocked S2N_BLOCKED_ON_WRITE c))) with (out_stuffer (base c)). lia. }
    apply wp_bind, wp_zoom, wp_rewrite; [done|]. intros s' -> _. apply wp_bind, wp_get_obj.
    assert (Ha : alerts (lset conn_out_lens (set_read_cursor 0 (set_write_cursor 0 (lget conn_out_lens c1))) c1) = alerts c).
    { change (alerts c1 = alerts c). rewrite F. reflexivity. }
    rewrite Ha, Hwarn. cbn [Z.eqb negb]. apply wp_bind, wp_ret, wp_modify, HQ. unfold flushed. cbv zeta. split_goal.
    + eapply io_frame_trans; [exact (io_frame_env c (errno c) (outside c) S2N_BLOCKED_ON_WRITE)|].
      eapply io_frame_trans; [exact F|]. exact (io_frame_out c1 _ (errno c1) (outside c1) S2N_NOT_BLOCKED).
    + simpl. change (lget conn_out_lens c1) with (out_stuffer (base c1)). rewrite O. reflexivity.
    + reflexivity.
    + change (delivered (outside c1) = delivered (outside c) ++ unread (hp w) (out_stuffer (base c))). rewrite D.
      change (out_stuffer (base (set_blocked S2N_BLOCKED_ON_WRITE c))) with (out_stuffer (base c)).
      rewrite take_ge by (unfold zlen; lia). reflexivity.
  - intros e c' k He Hno Hp. by apply (HE e c' k).
Qed.
End Theorems.

(** ** A transport that takes three bytes at a time *)

(** What was delivered, how much room there is, and what can be read. *)
Definition demo_transport : IoEnv := {|
  env := list Z * nat * list Z;
  env_send bs e :=
    let '(sent, room, pending) := e in
    let n := Nat.min (Nat.min 3 room) (length bs) in
    match n with
    | O => (inr EWOULDBLOCK, e)
    | _ => (inl (Z.of_nat n), (sent ++ take n bs, (room - n)%nat, pending))
    end;
  env_recv n e :=
    let '(sent, room, pending) := e in
    (inl (map (fun b => b mod 256) (take (Z.to_nat n) pending)), (sent, room, drop (Z.to_nat n) pending));
  interrupts := 0;
  monotonic_clock e := (Some 0, e);
  s2n_public_random _ e := (inl 0, e);
  config_cache_delete e := e;
|}.

Lemma demo_send_cases bs sent room pending (e := (sent, room, pending)) (n := Nat.min (Nat.min 3 room) (length bs)) :
  @env_send demo_transport bs e =
    (if decide (n = O) then (inr EWOULDBLOCK, e) else (inl (Z.of_nat n), (sent ++ take n bs, (room - n)%nat, pending))).
Proof. subst e n. simpl. destruct (_ `min` _)%nat; done. Qed.

#[export] Instance demo_transport_ok : @EnvOk demo_transport.
Proof.
  unshelve eapply (@Build_EnvOk demo_transport (fun e => fst (fst e))).
  - intros bs [[sent room] pending] Hne. rewrite demo_send_cases. destruct (decide _) as [|Hn]; [done|]. simpl fst.
    unfold zlen. rewrite Nat2Z.id. split; [lia|done].
  - intros bs [[sent room] pending].
    change (match @env_send demo_transport bs (sent, room, pending) with (inr EINTR, _) => False | _ => True end).
    rewrite demo_send_cases. by destruct (decide _).
  - by intros n [[sent room] pending].
  - by intros n [[sent room] pending].
  - intros n [[sent room] pending] bs Hn [= <-]. unfold zlen. rewrite length_map, length_take. split; [lia|].
    apply Forall_map, Forall_forall. intros b _. unfold is_u8. pose proof (Z.mod_pos_bound b 256). lia.
  - done.
Defined.

Definition demo_io_conn (m : s2n_mode) (version : Z) (alg : s2n_record_algorithm) (n : Z) (out : s2n_stuffer) (room : nat)
    : @io_conn demo_ciphers demo_transport :=
  @IoConn demo_ciphers demo_transport (demo_conn m version alg n zero_stuffer zero_stuffer out)
    (AlertFields zero_stuffer (Ptr 3 0) 0 0 0 false false false S2N_ALERT_FAIL_ON_WARNINGS)
    (TxFields true false 0 0 0 0 0 0 false false 0 0 false 30)
    (RxFields true 0 false false false false zero_stuffer (Ptr 4 0))
    (EarlyFields 0 false 0 0 None)
    (UpdateFields false (repeat 6 48) (repeat 6 48) 0 0 S2N_HMAC_SHA256) (TicketCounts 0 0 true)
    S2N_NOT_BLOCKED NoErrno ([1; 2], room, []).
Abbreviation demo_flush out room := (@s2n_flush demo_platform demo_libcrypto demo_digests demo_ciphers demo_record_env demo_transport
  (demo_world, demo_io_conn S2N_CLIENT S2N_TLS13 demo_alg 7 out room)).


(** The transport with room for two bytes blocks, and the third stays. *)
Example demo_flush_blocked :
  match demo_flush demo_stuffer 2 with
  | (Err e, (w', c')) => e = S2N_ERR_IO_BLOCKED /\ unread (hp w') (out_stuffer (base c')) = [40]
  | _ => False
  end.
Proof. vm_compute. done. Qed.
End FlushTheorems.
Export FlushTheorems.
