(* ===== verification/KeyUpdate.v ===== *)
(** * Key updates: tls/s2n_key_update.c

    With s2n_update_application_traffic_keys of tls/s2n_tls13_handshake.c.  The
    module [Tls13Keys] is crypto/s2n_tls13_keys.c. *)
From stdpp Require Import strings.
From S2P Require Import Prelude Errors CMem Safety Platform Blob Alloc Stuffer NetworkOrder Sequence HandshakeTables Connection HandshakeIO Libcrypto.
From S2P Require Import Hash Hmac HmacTheorems Hkdf Ciphers CipherSuites RecordState RecordRead RecordWrite IoState Alerts.
Open Scope Z_scope.

(** * crypto/s2n_tls13_keys.c: the keys of TLS 1.3

    The labels of RFC 8446 7.1 and the derivations from a secret, and the
    functions of the cipher objects that install a key.  Blobs for results are
    given by their sizes, and the results are returned. *)
Module Tls13Keys.

Definition S2N_TLS13_SECRET_MAX_LEN : Z := SHA384_DIGEST_LENGTH.

(** S2N_BLOB_LABEL: the characters of a string. *)
Definition label (s : string) : list Z := map (fun a => Z.of_N (Ascii.N_of_ascii a)) (String.list_ascii_of_string s).

Definition s2n_tls13_label_derived_secret := label "derived".
Definition s2n_tls13_label_external_psk_binder_key := label "ext binder".
Definition s2n_tls13_label_resumption_psk_binder_key := label "res binder".
Definition s2n_tls13_label_client_early_traffic_secret := label "c e traffic".
Definition s2n_tls13_label_early_exporter_master_secret := label "e exp master".
Definition s2n_tls13_label_client_handshake_traffic_secret := label "c hs traffic".
Definition s2n_tls13_label_server_handshake_traffic_secret := label "s hs traffic".
Definition s2n_tls13_label_client_application_traffic_secret := label "c ap traffic".
Definition s2n_tls13_label_server_application_traffic_secret := label "s ap traffic".
Definition s2n_tls13_label_exporter_master_secret := label "exp master".
Definition s2n_tls13_label_resumption_master_secret := label "res master".
Definition s2n_tls13_label_session_ticket_secret := label "resumption".
Definition s2n_tls13_label_traffic_secret_key := label "key".
Definition s2n_tls13_label_traffic_secret_iv := label "iv".
Definition s2n_tls13_label_exporter := label "exporter".
Definition s2n_tls13_label_finished := label "finished".
Definition s2n_tls13_label_application_traffic_secret_update := label "traffic upd".

Section Definitions.
Context `{HP : Platform} `{HL : Libcrypto} `{HD : Digests} `{HE : HkdfEnv}.

(** The two blobs are the first [keys_size] bytes of the arrays. *)
Record s2n_tls13_keys := Keys {
  hmac_algorithm : s2n_hmac_algorithm;
  hash_algorithm : s2n_hash_algorithm;
  keys_size : Z;  (* size, uint8_t *)
  extract_secret_bytes : list Z;
  derive_secret_bytes : list Z;
  keys_hmac : s2n_hmac_state;  (* hmac *)
}.
Definition keys_hmac_lens : lens s2n_tls13_keys s2n_hmac_state :=
  Lens keys_hmac (fun v x => Keys (hmac_algorithm x) (hash_algorithm x) (keys_size x) (extract_secret_bytes x) (derive_secret_bytes x) v).

Definition s2n_tls13_keys_init (alg : s2n_hmac_algorithm) : Cmd s2n_tls13_keys unit :=
  modify (fun x => Keys alg (s2n_hmac_hash_alg alg) (s2n_hash_digest_size (s2n_hmac_hash_alg alg))
                     (extract_secret_bytes x) (derive_secret_bytes x) (keys_hmac x)) ;;;
  zoom keys_hmac_lens s2n_hmac_new.

Definition s2n_tls13_keys_free : Cmd s2n_tls13_keys unit := zoom keys_hmac_lens s2n_hmac_free.

(** A call of s2n_hkdf_expand_label with the HMAC state and the algorithm of the keys. *)
Definition keys_expand_label (secret label context : list Z) (size : Z) : Cmd s2n_tls13_keys (list Z) :=
  k <-- get_obj ;;
  zoom keys_hmac_lens (s2n_hkdf_expand_label (hmac_algorithm k) secret label context size).

(** The key and the IV. *)
Definition s2n_tls13_derive_traffic_keys (secret : list Z) (key_size iv_size : Z) : Cmd s2n_tls13_keys (list Z * list Z) :=
  key <-- keys_expand_label secret s2n_tls13_label_traffic_secret_key [] key_size ;;
  iv <-- keys_expand_label secret s2n_tls13_label_traffic_secret_iv [] iv_size ;;
  ret (key, iv).

Definition s2n_tls13_derive_finished_key (secret_key : list Z) (size : Z) : Cmd s2n_tls13_keys (list Z) :=
  keys_expand_label secret_key s2n_tls13_label_finished [] size.

(** The state of the transcript is given with the keys. *)
Definition s2n_tls13_calculate_finished_mac (finished_key : list Z) (verify_size : Z) : Cmd (s2n_tls13_keys * s2n_hash_state) (list Z) :=
  k <-- zoom fst_lens get_obj ;;
  ensure (keys_size k <=? S2N_TLS13_SECRET_MAX_LEN) S2N_ERR_SAFETY ;;;
  transcript_hash <-- zoom snd_lens (s2n_hash_digest (keys_size k)) ;;
  zoom fst_lens (zoom keys_hmac_lens (s2n_hkdf_extract (hmac_algorithm k) finished_key transcript_hash verify_size)).

Definition s2n_tls13_update_application_traffic_secret (old_secret : list Z) (size : Z) : Cmd s2n_tls13_keys (list Z) :=
  keys_expand_label old_secret s2n_tls13_label_application_traffic_secret_update [] size.

Definition s2n_tls13_derive_session_ticket_secret (resumption_secret ticket_nonce : list Z) (size : Z) : Cmd s2n_tls13_keys (list Z) :=
  keys_expand_label resumption_secret s2n_tls13_label_session_ticket_secret ticket_nonce size.

(** [s2n_tls13_connection_keys]: keys for the algorithm, freed at the end of the
    calling function whatever its result. *)
Definition zero_keys (s : s2n_hmac_state) : s2n_tls13_keys :=
  Keys S2N_HMAC_NONE S2N_HASH_NONE 0 (repeat 0 (Z.to_nat S2N_TLS13_SECRET_MAX_LEN)) (repeat 0 (Z.to_nat S2N_TLS13_SECRET_MAX_LEN)) s.
End Definitions.

(** ** Installing keys *)

Section Ciphers.
Context `{HL : Libcrypto} `{HC : CipherEnv}.

(** The members set_encryption_key and set_decryption_key of the cipher objects. *)
Definition key_setters : list (s2n_cipher * ((list Z -> Cmd s2n_session_key unit) * (list Z -> Cmd s2n_session_key unit))) :=
  [(s2n_null_cipher, (fun _ => ret tt, fun _ => ret tt));
   (s2n_rc4, (s2n_stream_cipher_rc4_set_encryption_key, s2n_stream_cipher_rc4_set_decryption_key));
   (s2n_3des, (s2n_cbc_cipher_3des_set_encryption_key, s2n_cbc_cipher_3des_set_decryption_key));
   (s2n_aes128, (s2n_cbc_cipher_aes128_set_encryption_key, s2n_cbc_cipher_aes128_set_decryption_key));
   (s2n_aes256, (s2n_cbc_cipher_aes256_set_encryption_key, s2n_cbc_cipher_aes256_set_decryption_key));
   (s2n_aes128_sha, (s2n_composite_cipher_aes128_sha_set_encryption_key, s2n_composite_cipher_aes128_sha_set_decryption_key));
   (s2n_aes256_sha, (s2n_composite_cipher_aes256_sha_set_encryption_key, s2n_composite_cipher_aes256_sha_set_decryption_key));
   (s2n_aes128_sha256, (s2n_composite_cipher_aes128_sha256_set_encryption_key, s2n_composite_cipher_aes128_sha256_set_decryption_key));
   (s2n_aes256_sha256, (s2n_composite_cipher_aes256_sha256_set_encryption_key, s2n_composite_cipher_aes256_sha256_set_decryption_key));
   (s2n_aes128_gcm, (s2n_aead_cipher_aes128_gcm_set_encryption_key, s2n_aead_cipher_aes128_gcm_set_decryption_key));
   (s2n_aes256_gcm, (s2n_aead_cipher_aes256_gcm_set_encryption_key, s2n_aead_cipher_aes256_gcm_set_decryption_key));
   (s2n_tls13_aes128_gcm, (s2n_aead_cipher_aes128_gcm_set_encryption_key_tls13, s2n_aead_cipher_aes128_gcm_set_decryption_key_tls13));
   (s2n_tls13_aes256_gcm, (s2n_aead_cipher_aes256_gcm_set_encryption_key_tls13, s2n_aead_cipher_aes256_gcm_set_decryption_key_tls13));
   (s2n_chacha20_poly1305, (s2n_aead_chacha20_poly1305_set_encryption_key, s2n_aead_chacha20_poly1305_set_decryption_key))].

Definition key_setter (c : s2n_cipher) := find (fun x => is_cipher c (fst x)) key_setters.
Definition set_encryption_key (c : s2n_cipher) (key : list Z) : Cmd s2n_session_key unit :=
  match key_setter c with Some x => fst (snd x) key | None => undefined end.
Definition set_decryption_key (c : s2n_cipher) (key : list Z) : Cmd s2n_session_key unit :=
  match key_setter c with Some x => snd (snd x) key | None => undefined end.
End Ciphers.
End Tls13Keys.
Export Tls13Keys.

Module KeyUpdate.

Definition S2N_KEY_UPDATE_MESSAGE_SIZE : Z := 5.
Definition S2N_KEY_UPDATE_LENGTH : Z := 1.
Definition S2N_KEY_UPDATE_NOT_REQUESTED : Z := 0.
Definition S2N_KEY_UPDATE_REQUESTED : Z := 1.
Inductive keyupdate_status := SENDING | RECEIVING.
#[export] Instance keyupdate_status_eq_dec : EqDecision keyupdate_status.
Proof. solve_decision. Defined.

Section Definitions.
Context `{HP : Platform} `{HL : Libcrypto} `{HD : Digests} `{HE : HkdfEnv} `{HC : CipherEnv} `{HR : !RecordEnv} `{HI : IoEnv}.

(** ** tls/s2n_tls13_handshake.c *)

(** The application traffic secret of a side. *)
Definition app_secret_lens (m : s2n_mode) : lens io_conn (list Z) :=
  match m with
  | S2N_CLIENT => Lens (fun c => client_app_secret (update c)) (fun v c => upd_update (set_client_app_secret v) c)
  | S2N_SERVER => Lens (fun c => server_app_secret (update c)) (fun v c => upd_update (set_server_app_secret v) c)
  end.

Definition on_secure_side {A} (m : s2n_mode) (cmd : Cmd crypto_side A) : Cmd io_conn A := on_record (on_side SecureParams m cmd).

Definition s2n_zero_sequence_number (m : s2n_mode) : Cmd io_conn unit :=
  c <-- get_obj ;;
  ensure (negb (params_is_null SecureParams (record_of_conn c))) S2N_ERR_NULL ;;;
  on_secure_side m zero_sequence.

(** *count = MIN(UINT8_MAX, *count + 1) *)
Definition count_update (status : keyupdate_status) (u : update_fields) : update_fields :=
  match status with
  | RECEIVING => set_recv_key_updated (Z.min 255 (recv_key_updated u + 1)) u
  | SENDING => set_send_key_updated (Z.min 255 (send_key_updated u + 1)) u
  end.

(** The IV is derived in its place; then the key is set, the count goes up, the
    sequence number starts again and the secret is saved. *)
Definition install_keys (m : s2n_mode) (status : keyupdate_status) (c : s2n_cipher) (app_secret_update app_key app_iv : list Z) : Cmd io_conn unit :=
  on_secure_side m (modify (fun s => lset implicit_iv_lens (overwrite app_iv (implicit_iv s)) s)) ;;;
  on_secure_side m (zoom session_key_lens
    (match status with
     | RECEIVING => set_decryption_key c app_key
     | SENDING => set_encryption_key c app_key
     end)) ;;;
  modify (upd_update (count_update status)) ;;;
  s2n_zero_sequence_number m ;;;
  modify (fun c => lset (app_secret_lens m) (overwrite app_secret_update (lget (app_secret_lens m) c)) c).

(** The body of the function, with the keys; they are a local struct. *)
Definition update_traffic_keys (m : s2n_mode) (status : keyupdate_status) : Cmd (io_conn * s2n_tls13_keys) unit :=
  c <-- zoom fst_lens get_obj ;;
  k <-- zoom snd_lens get_obj ;;
  let old_app_secret := take (Z.to_nat (keys_size k)) (lget (app_secret_lens m) c) in
  ensure (keys_size k <=? S2N_TLS13_SECRET_MAX_LEN) S2N_ERR_SAFETY ;;;
  app_secret_update <-- zoom snd_lens (s2n_tls13_update_application_traffic_secret old_app_secret (keys_size k)) ;;
  alg <-- zoom fst_lens (on_record (get_alg SecureParams)) ;;
  let key_size := key_material_size (cipher alg) in
  ensure (key_size <=? S2N_TLS13_SECRET_MAX_LEN) S2N_ERR_SAFETY ;;;
  key_iv <-- zoom snd_lens (s2n_tls13_derive_traffic_keys app_secret_update key_size S2N_TLS13_FIXED_IV_LEN) ;;
  let '(app_key, app_iv) := key_iv in
  zoom fst_lens (install_keys m status (cipher alg) app_secret_update app_key app_iv).

(** [s2n_tls13_connection_keys]: the keys are freed at the end whatever the
    result; a failure of that only changes s2n_errno. *)
Definition with_connection_keys {A} (cmd : Cmd (io_conn * s2n_tls13_keys) A) : Cmd io_conn A := fun '(w, c) =>
  let '(r, (w1, (c1, k1))) :=
    (c <-- zoom fst_lens get_obj ;;
     zoom fst_lens (on_record (get_params SecureParams)) ;;;
     zoom snd_lens (s2n_tls13_keys_init (secure_prf_alg (update c))) ;;;
     cmd) (w, (c, zero_keys zero_hmac_state)) in
  match r with
  | UB => (UB, (w1, c1))
  | _ =>
      match s2n_tls13_keys_free (w1, k1), r with
      | (UB, (w2, _)), _ => (UB, (w2, c1))
      | (Err e, (w2, _)), Err _ => (Err e, (w2, c1))
      | (_, (w2, _)), _ => (r, (w2, c1))
      end
  end.

Definition s2n_update_application_traffic_keys (m : s2n_mode) (status : keyupdate_status) : Cmd io_conn unit :=
  c <-- get_obj ;;
  ensure (negb (params_is_null SecureParams (record_of_conn c))) S2N_ERR_NULL ;;;
  ensure (S2N_TLS13 <=? actual_protocol_version (base c)) S2N_ERR_SAFETY ;;;
  with_connection_keys (update_traffic_keys m status).

(** ** tls/s2n_key_update.c *)

(** The message is in the stuffer of the state. *)
Definition s2n_key_update_recv : Cmd (io_conn * s2n_stuffer) unit :=
  c <-- zoom fst_lens get_obj ;;
  ensure (S2N_TLS13 <=? actual_protocol_version (base c)) S2N_ERR_BAD_MESSAGE ;;;
  ensure (negb (s2n_connection_is_quic_enabled (base c))) S2N_ERR_BAD_MESSAGE ;;;
  ensure (negb (ktls_recv_enabled (rx c))) S2N_ERR_KTLS_KEYUPDATE ;;;
  key_update_request <-- zoom snd_lens s2n_stuffer_read_uint8 ;;
  (if key_update_request =? S2N_KEY_UPDATE_REQUESTED then
     ensure (negb (ktls_send_enabled (record_of_conn c))) S2N_ERR_KTLS_KEYUPDATE ;;;
     zoom fst_lens (modify (upd_update (set_key_update_pending true)))
   else ensure (key_update_request =? S2N_KEY_UPDATE_NOT_REQUESTED) S2N_ERR_BAD_MESSAGE) ;;;
  zoom fst_lens (s2n_update_application_traffic_keys
    (if bool_decide (mode (base c) = S2N_CLIENT) then S2N_SERVER else S2N_CLIENT) RECEIVING).

(** The bytes of the message; key_update_request_val changes in tests only. *)
Definition s2n_key_update_write : list Z :=
  [TLS_KEY_UPDATE] ++ be_bytes 3 S2N_KEY_UPDATE_LENGTH ++ [S2N_KEY_UPDATE_NOT_REQUESTED].

(** The sequence number is the array at its address. *)
Definition s2n_check_record_limit (m : s2n_mode) : Cmd io_conn unit :=
  c <-- get_obj ;;
  ensure (negb (params_is_null SecureParams (record_of_conn c))) S2N_ERR_NULL ;;;
  p <-- on_record (get_params SecureParams) ;;
  (match params_alg p with
   | None => fail S2N_ERR_NULL
   | Some alg =>
       next_seq_num <-- on_secure_side m (lend sequence_number_lens (fun q =>
         n <-- with_local (Blob (Some q) S2N_TLS_SEQUENCE_NUM_LEN 0 false) s2n_sequence_number_to_uint64 ;; ret (fst n))) ;;
       if encryption_limit alg <=? next_seq_num then modify (upd_update (set_key_update_pending true)) else ret tt
   end).

Definition s2n_key_update_send : Cmd io_conn unit :=
  c <-- get_obj ;;
  ensure (negb (params_is_null SecureParams (record_of_conn c))) S2N_ERR_NULL ;;;
  ensure (S2N_TLS13 <=? actual_protocol_version (base c)) S2N_ERR_SAFETY ;;;
  s2n_check_record_limit (mode (base c)) ;;;
  c <-- get_obj ;;
  if key_update_pending (update c) then
    ensure (negb (ktls_send_enabled (record_of_conn c))) S2N_ERR_KTLS_KEY_LIMIT ;;;
    s2n_flush ;;;
    record_write_local TLS_HANDSHAKE s2n_key_update_write ;;;
    s2n_update_application_traffic_keys (mode (base c)) SENDING ;;;
    modify (upd_update (set_key_update_pending false)) ;;;
    s2n_flush
  else ret tt.

Definition s2n_connection_request_key_update (peer_request : Z) : Cmd io_conn unit :=
  ensure (peer_request =? S2N_KEY_UPDATE_NOT_REQUESTED) S2N_ERR_INVALID_ARGUMENT ;;;
  modify (upd_update (set_key_update_pending true)).
End Definitions.
End KeyUpdate.
Export KeyUpdate.
