(* ===== verification/KeyUpdateTheorems.v ===== *)
(** * Key updates derive the keys of RFC 8446

    s2n_update_application_traffic_keys computes the next generation of secrets
    and keys of RFC 8446 7.2 and 7.3. *)
From S2P Require Import Prelude Errors CMem Safety Platform Blob Alloc Stuffer StufferInv NetworkOrder HandshakeTables Connection HandshakeIO Libcrypto.
From S2P Require Import Hash Hmac HmacTheorems Hkdf HkdfTheorems Ciphers CipherSuites RecordState RecordRead RecordWrite RecordAead RecordDemo IoState Alerts FlushTheorems KeyUpdate.
Open Scope Z_scope.

Module KeyUpdateTheorems.

(** EVP_AEAD_CTX_init sets the key, or reports a failure. *)
Class AeadInitOk `{HC : CipherEnv} `{HA : !AeadOk} : Prop :=
  aead_init_ok a key tag_len k : fst (EVP_AEAD_CTX_init a key tag_len k) = true -> aead_is key (snd (EVP_AEAD_CTX_init a key tag_len k)).

Section Theorems.
Context `{HP : Platform} `{HL : Libcrypto} `{HD : Digests} `{HOK : !DigestsOk} `{HE : HkdfEnv} `{HHK : !HkdfOk}.
Context `{HC : CipherEnv} `{HA : !AeadOk} `{HN : !AeadInitOk} `{HR : !RecordEnv} `{HI : IoEnv}.
Implicit Types (w : world) (c : io_conn) (m : s2n_mode) (k : s2n_tls13_keys) (prf : s2n_hmac_algorithm) (secret key iv : list Z).

(** ** RFC 8446 7.1 to 7.3 *)

Definition expand_label prf secret (name : list Z) (size : Z) : list Z := hkdf_expand prf secret (hkdf_label size name []) size.
Definition next_secret prf secret : list Z :=
  expand_label prf secret s2n_tls13_label_application_traffic_secret_update (s2n_hmac_digest_size prf).
Definition traffic_key prf secret (size : Z) : list Z := expand_label prf secret s2n_tls13_label_traffic_secret_key size.
Definition traffic_iv prf secret : list Z := expand_label prf secret s2n_tls13_label_traffic_secret_iv S2N_TLS13_FIXED_IV_LEN.

(** ** Contexts *)

Lemma wp_hash_new w (s : s2n_hash_state) Q E :
  (forall s', hash_alloc s' -> Q tt w s') -> (forall s', E S2N_ERR_NULL w s') -> wp s2n_hash_new (w, s) Q E.
Proof.
  intros HQ HE'. unfold s2n_hash_new, s2n_evp_hash_new. apply wp_bind, wp_zoom, wp_bind, wp_get_world, wp_put_obj.
  apply wp_bind, wp_get_obj, wp_bind. simpl. destruct (evp_fails MdCtxNew w CtxEmpty); simpl.
  { apply wp_fail, HE'. }
  apply wp_ret. unfold hash_alloc in HQ. apply wp_bind. destruct s2n_hash_use_custom_md5_sha1.
  - apply wp_bind, wp_zoom, wp_bind, wp_get_world, wp_put_obj, wp_bind, wp_get_obj. simpl.
    destruct (evp_fails MdCtxNew w CtxEmpty); simpl; [apply wp_fail, HE'|].
    apply wp_ret, wp_modify, HQ. simpl. by eauto.
  - apply wp_ret, wp_modify, HQ. simpl. by eauto.
Qed.

Lemma wp_hmac_new w (s : s2n_hmac_state) Q E :
  zlen (xor_pad s) = SIZEOF_XOR_PAD -> (forall s', hmac_alloc s' -> Q tt w s') -> (forall s', E S2N_ERR_NULL w s') -> wp s2n_hmac_new (w, s) Q E.
Proof.
  intros Hpad HQ HE'. unfold s2n_hmac_new.
  apply wp_bind, wp_zoom, wp_hash_new; [intros h1 H1|by intros; apply HE'].
  apply wp_bind, wp_zoom, wp_hash_new; [intros h2 H2|by intros; apply HE'].
  apply wp_bind, wp_zoom, wp_hash_new; [intros h3 H3|by intros; apply HE'].
  apply wp_zoom, wp_hash_new; [intros h4 H4|by intros; apply HE']. apply HQ. unfold hmac_alloc. by destruct s.
Qed.

Lemma keys_free_ok w k : exists k', s2n_tls13_keys_free (w, k) = (Ok tt, (w, k')).
Proof. by eexists. Qed.

(** ** The keys of a connection *)

Record keys_of prf k : Prop := {
  ko_alloc : hmac_alloc (keys_hmac k);
  ko_alg : hmac_algorithm k = prf;
  ko_size : keys_size k = s2n_hmac_digest_size prf;
}.

Lemma wp_with_connection_keys {A} (cmd : Cmd (io_conn * s2n_tls13_keys) A) w c p Q E :
  lget (params_lens SecureParams) (record_of_conn c) = Some p ->
  (forall k, keys_of (secure_prf_alg (update c)) k ->
     wp cmd (w, (c, k)) (fun a w' x => Q a w' (fst x)) (fun e w' x => E e w' (fst x))) ->
  E S2N_ERR_NULL w c -> wp (with_connection_keys cmd) (w, c) Q E.
Proof.
  intros Hp Hcmd HE'.
  assert (Hrun : wp (c <-- zoom fst_lens get_obj ;; zoom fst_lens (on_record (get_params SecureParams)) ;;;
     zoom snd_lens (s2n_tls13_keys_init (secure_prf_alg (update c))) ;;; cmd) (w, (c, zero_keys zero_hmac_state))
     (fun a w' x => Q a w' (fst x)) (fun e w' x => E e w' (fst x))).
  { apply wp_bind, wp_zoom, wp_get_obj, wp_bind, wp_zoom, wp_zoom. apply wp_bind, wp_get_obj. simpl in *. rewrite Hp. apply wp_ret.
    apply wp_bind, wp_zoom, wp_bind, wp_modify, wp_zoom, wp_hmac_new; [done| |]; simpl.
    - intros s' Hs'. destruct c as [rc ? ? ? ? ? ? ? ? ?]. apply Hcmd. by split.
    - intros s'. by destruct c. }
  unfold wp, with_connection_keys in *. destruct ((_ <-- _ ;; _) _) as [[a|e|] [w1 [c1 k1]]]; [| |done];
    by destruct (keys_free_ok w1 k1) as [k' ->].
Qed.

Definition derivation_failure w (e : s2n_error) : Prop := hash_failure w e \/ (s2n_get_hkdf_implementation = true /\ e = S2N_ERR_HKDF).

Lemma wp_keys_expand_label w k prf secret name size Q E :
  keys_of prf k -> little_endian = true -> tls_mac prf = true -> zlen secret < 2 ^ 32 ->
  zlen name <= S2N_MAX_HKDF_EXPAND_LABEL_LENGTH -> size <= 65535 -> hkdf_size prf size = true ->
  (forall k', keys_of prf k' -> Q (expand_label prf secret name size) w k') ->
  (forall e k', derivation_failure w e -> E e w k') ->
  wp (keys_expand_label secret name [] size) (w, k) Q E.
Proof.
  intros [Hal Halg Hsz] Hle Hmac Hsec Hname Hsize Hok HQ HE'. apply wp_bind, wp_get_obj. rewrite Halg.
  pose proof Hok as Hr. unfold hkdf_size in Hr. zbool.
  apply wp_zoom, wp_expand_label; [done|done|done|done|done|lia| |].
  - intros s' Hs' _ _. apply HQ. by split.
  - intros e s' [(_ & Hlong)|[(_ & Hbad)|He]]; [lia|congruence|]. by apply HE'.
Qed.
(** ** Sides of the secure parameters *)

Lemma wp_lend {X A} (l : lens X (list Z)) (cmd : ptr -> Cmd X A) w x Q E :
  (forall b, hp w !! b = None ->
     wp (cmd (Ptr b 0)) (World (<[b := lget l x]> (hp w)) (mem w), x)
       (fun a w' x' => Q a (World (delete b (hp w')) (mem w')) (lset l (default [] (hp w' !! b)) x'))
       (fun e w' x' => E e (World (delete b (hp w')) (mem w')) (lset l (default [] (hp w' !! b)) x'))) ->
  wp (lend l cmd) (w, x) Q E.
Proof.
  intros Hc. specialize (Hc (fresh (dom (hp w))) ltac:(apply not_elem_of_dom, is_fresh)). unfold wp, lend in *.
  by destruct (cmd _ _) as [[a|e|] [w' x']].
Qed.

Lemma wp_zero_sequence w (s : crypto_side) Q E :
  zlen (sequence_number s) = 8 -> Q tt w (with_seq 0 s) -> wp zero_sequence (w, s) Q E.
Proof.
  intros Hlen HQ. apply wp_lend. intros b Hb. cbn [lget sequence_number_lens].
  assert (Hv : valid_access (<[b := sequence_number s]> (hp w)) (Ptr b 0) 8).
  { exists (sequence_number s). simpl. rewrite lookup_insert_eq. split_goal; [done|lia..]. }
  apply wp_bind, wp_with_local, wp_blob_zero.
  - split; simpl; unfold is_u32; try done; try lia. intros q [= <-]. apply Hv.
  - apply wp_ret. simpl. unfold zeroed. simpl. change S2N_TLS_SEQUENCE_NUM_LEN with 8.
    rewrite (heap_with_lookup _ _ _ (sequence_number s)); [|apply lookup_insert_eq|done|unfold zlen in *; simpl; lia].
    simpl. rewrite insert_insert_eq, lookup_insert_eq, delete_insert_id by done. simpl. unfold zsplice. simpl.
    rewrite drop_ge by (unfold zlen in Hlen; lia). by destruct w.
Qed.

Lemma wp_on_secure_side {A} m (cmd : Cmd crypto_side A) w c p Q E :
  lget (params_lens SecureParams) (record_of_conn c) = Some p ->
  wp cmd (w, lget (side_lens m) p)
    (fun a w' s => Q a w' (set_record_of_conn (with_side SecureParams m p s (record_of_conn c)) c))
    (fun e w' s => E e w' (set_record_of_conn (with_side SecureParams m p s (record_of_conn c)) c)) ->
  wp (on_secure_side m cmd) (w, c) Q E.
Proof. intros Hp Hc. apply wp_zoom. by apply (wp_on_side _ _ _ _ _ p). Qed.

(** ** Installing a key *)

(** The ciphers of TLS 1.3 with the size of their keys. *)
Definition tls13_cipher (a : s2n_cipher) : Prop :=
  a = s2n_tls13_aes128_gcm \/ a = s2n_tls13_aes256_gcm \/ a = s2n_chacha20_poly1305.

Definition set_key (status : keyupdate_status) (a : s2n_cipher) key : Cmd s2n_session_key unit :=
  match status with RECEIVING => set_decryption_key a key | SENDING => set_encryption_key a key end.

Lemma wp_init_aead_key w e (a : evp_aead) n tag_len key ctx Q E :
  zlen key = n -> (forall ctx', aead_is key ctx' -> Q tt w (SessionKey e (CtxLive ctx'))) ->
  (forall ctx', E S2N_ERR_KEY_INIT w (SessionKey e (CtxLive ctx'))) ->
  wp (init_aead_key a n tag_len key) (w, SessionKey e (CtxLive ctx)) Q E.
Proof.
  intros Hn HQ HE'. apply wp_bind, wp_ensure; [intros _|intros Hz; zbool; lia].
  apply wp_bind, wp_bind, wp_get_obj, wp_bind, wp_put_obj, wp_ret, wp_ensure; [|by intros _; apply HE'].
  intros Hi. apply HQ. by apply (aead_init_ok a key tag_len ctx).
Qed.
Lemma set_key_aead status a : tls13_cipher a ->
  exists e tag_len, forall key, set_key status a key = init_aead_key e (key_material_size a) tag_len key.
Proof. intros [->|[->| ->]]; destruct status; by do 2 eexists. Qed.

Lemma tls13_cipher_key a prf : tls13_cipher a -> prf = S2N_HMAC_SHA256 \/ prf = S2N_HMAC_SHA384 ->
  key_material_size a <= S2N_TLS13_SECRET_MAX_LEN /\ hkdf_size prf (key_material_size a) = true.
Proof. intros [->|[->| ->]] [-> | ->]; vm_compute; intuition congruence. Qed.

(** ** The update *)

(** What the function needs of the connection: the secure parameters of TLS 1.3
    with a live key of the side, and the arrays of the struct. *)
Record update_ready c m p (alg : s2n_record_algorithm) e ctx : Prop := {
  ur_version : S2N_TLS13 <= actual_protocol_version (base c);
  ur_params : lget (params_lens SecureParams) (record_of_conn c) = Some p;
  ur_alg : params_alg p = Some alg;
  ur_cipher : tls13_cipher (cipher alg);
  ur_key : session_key (lget (side_lens m) p) = SessionKey e (CtxLive ctx);
  ur_sequence : zlen (sequence_number (lget (side_lens m) p)) = 8;
  ur_prf : secure_prf_alg (update c) = S2N_HMAC_SHA256 \/ secure_prf_alg (update c) = S2N_HMAC_SHA384;
}.

(** The side, and the connection, after an update to the secret [new]. *)
Definition updated_side prf new e ctx (s : crypto_side) : crypto_side :=
  CryptoSide (SessionKey e (CtxLive ctx)) (record_mac s) (overwrite (traffic_iv prf new) (implicit_iv s)) (be_bytes 8 0).
Definition updated m status p (s : crypto_side) new c : io_conn :=
  lset (app_secret_lens m) (overwrite new (lget (app_secret_lens m) c))
    (upd_update (count_update status) (set_record_of_conn (with_side SecureParams m p s (record_of_conn c)) c)).
(** The secret of a side: the first bytes of its array. *)
Definition current_secret m c : list Z :=
  take (Z.to_nat (s2n_hmac_digest_size (secure_prf_alg (update c)))) (lget (app_secret_lens m) c).

(** Only calls of libcrypto fail. *)
Definition update_failure w (e : s2n_error) : Prop := e = S2N_ERR_NULL \/ derivation_failure w e \/ e = S2N_ERR_KEY_INIT.

(** After a failure at most the key and the IV of the side have changed. *)
Definition update_unfinished m p c c' : Prop :=
  exists s, c' = set_record_of_conn (with_side SecureParams m p s (record_of_conn c)) c /\
    sequence_number s = sequence_number (lget (side_lens m) p) /\ record_mac s = record_mac (lget (side_lens m) p).

Lemma unfinished_same m p c : lget (params_lens SecureParams) (record_of_conn c) = Some p -> update_unfinished m p c c.
Proof. intros Hp. exists (lget (side_lens m) p). rewrite with_side_same by done. by destruct c. Qed.

Lemma wp_install_keys w c m status p alg e ctx key new prf Q E :
  update_ready c m p alg e ctx -> zlen key = key_material_size (cipher alg) ->
  (forall ctx', aead_is key ctx' -> Q tt w (updated m status p (updated_side prf new e ctx' (lget (side_lens m) p)) new c)) ->
  (forall er c', update_failure w er -> update_unfinished m p c c' -> E er w c') ->
  wp (install_keys m status (cipher alg) new key (traffic_iv prf new)) (w, c) Q E.
Proof.
  intros [Hv Hp Ha Hci Hk Hs Hprf] Hlen HQ HE'.
  destruct (set_key_aead status _ Hci) as (a & tag_len & Hset). specialize (Hset key). unfold set_key in Hset.
  unfold install_keys. rewrite Hset. destruct (lget (side_lens m) p) as [sk mac iv seq] eqn:Hside. simpl in Hk, Hs. subst sk.
  apply wp_bind, (wp_on_secure_side _ _ _ _ p); [done|]. apply wp_modify. rewrite Hside.
  apply wp_bind, (wp_on_secure_side _ _ _ _ (lset (side_lens m) (CryptoSide (SessionKey e (CtxLive ctx)) mac (overwrite (traffic_iv prf new) iv) seq) p));
    [apply with_side_params|].
  rewrite side_get_set. apply wp_zoom, wp_init_aead_key; [done| |]; cbn [record_of_conn set_record_of_conn lset session_key_lens].
  2: { intros ctx'. apply HE'; [by right; right|]. eexists. rewrite with_side_twice, Hside. split; [by destruct c|done]. }
  intros ctx' Hctx. rewrite with_side_twice. apply wp_bind, wp_modify, wp_bind, wp_bind, wp_get_obj, wp_bind, wp_ensure; [intros _|].
  2: { unfold params_is_null. simpl record_of_conn. by rewrite with_side_params. }
  apply (wp_on_secure_side _ _ _ _ (lset (side_lens m) (CryptoSide (SessionKey e (CtxLive ctx')) mac (overwrite (traffic_iv prf new) iv) seq) p));
    [apply with_side_params|].
  rewrite side_get_set. apply wp_zero_sequence; [done|]. apply wp_modify.
  specialize (HQ ctx' Hctx). unfold updated, updated_side in HQ. cbn [record_of_conn set_record_of_conn upd_update set_update].
  rewrite with_side_twice. by destruct c, m, status.
Qed.

Lemma wp_update_traffic_keys w c k m status p alg e ctx Q E
    (prf := secure_prf_alg (update c)) (new := next_secret prf (current_secret m c)) :
  update_ready c m p alg e ctx -> keys_of prf k -> little_endian = true ->
  (forall ctx' k', aead_is (traffic_key prf new (key_material_size (cipher alg))) ctx' ->
     Q tt w (updated m status p (updated_side prf new e ctx' (lget (side_lens m) p)) new c, k')) ->
  (forall er c' k', update_failure w er -> update_unfinished m p c c' -> E er w (c', k')) ->
  wp (update_traffic_keys m status) (w, (c, k)) Q E.
Proof.
  intros [Hv Hp Ha Hci Hk Hs Hprf] Hko Hle HQ HE'. fold prf in Hprf.
  assert (Hmac : tls_mac prf = true) by (by destruct Hprf as [-> | ->]).
  assert (Hds : hkdf_size prf (s2n_hmac_digest_size prf) = true /\ s2n_hmac_digest_size prf <= S2N_TLS13_SECRET_MAX_LEN /\
    hkdf_size prf S2N_TLS13_FIXED_IV_LEN = true) by (destruct Hprf as [-> | ->]; vm_compute; intuition congruence).
  destruct Hds as (Hds & Hmax & Hiv). destruct (tls13_cipher_key _ _ Hci Hprf) as [Hkmax Hks].
  pose proof (unfinished_same m p c Hp) as Hsame.
  apply wp_bind, wp_zoom, wp_get_obj, wp_bind, wp_zoom, wp_get_obj. cbv beta. cbn [lget lset fst_lens snd_lens fst snd]. rewrite (ko_size _ _ Hko).
  apply wp_bind, wp_ensure; [intros _|intros Hz; zbool; lia].
  apply wp_bind, wp_zoom. eapply wp_keys_expand_label; [exact Hko|done|done| | | |done| |].
  { unfold zlen. rewrite length_take. pose proof (digest_size_range prf). lia. }
  { vm_compute. congruence. }
  { pose proof (digest_size_range prf). lia. }
  2: { intros er k' He. apply HE'; [by right; left|done]. }
  intros k1 Hk1. change (expand_label prf _ s2n_tls13_label_application_traffic_secret_update _) with new.
  apply wp_bind, wp_zoom, wp_zoom, wp_bind, wp_bind, wp_get_obj. cbn [lget lset fst_lens snd_lens fst snd rec_lens] in *. rewrite Hp. apply wp_ret. rewrite Ha. apply wp_ret.
  assert (Hid : set_record_of_conn (record_of_conn c) c = c) by (by destruct c). rewrite Hid.
  apply wp_bind, wp_ensure; [intros _|intros Hz; zbool; lia].
  assert (Hnew : zlen new < 2 ^ 32).
  { unfold new, next_secret, expand_label. rewrite hkdf_expand_length by done. pose proof (digest_size_range prf). lia. }
  apply wp_bind, wp_zoom, wp_bind. eapply wp_keys_expand_label; [exact Hk1|done|done|done|vm_compute; congruence| |done| |].
  { unfold S2N_TLS13_SECRET_MAX_LEN, SHA384_DIGEST_LENGTH in Hkmax. lia. }
  2: { intros er k' He. apply HE'; [by right; left|done]. }
  intros k2 Hk2. fold (traffic_key prf new (key_material_size (cipher alg))). set (key := traffic_key prf new _).
  apply wp_bind. eapply wp_keys_expand_label; [exact Hk2|done|done|done|vm_compute; congruence|vm_compute; congruence|done| |].
  2: { intros er k' He. apply HE'; [by right; left|done]. }
  intros k3 Hk3. fold (traffic_iv prf new). apply wp_ret. cbn [lget lset fst_lens snd_lens fst snd].
  apply wp_zoom. eapply wp_install_keys; [by split|by apply hkdf_expand_length| |].
  - intros ctx' Hctx. by apply HQ.
  - intros er c' He Hu. by apply HE'.
Qed.
Lemma updated_secret m status p s prf new c :
  secure_prf_alg (update c) = prf -> zlen new = s2n_hmac_digest_size prf -> current_secret m (updated m status p s new c) = new.
Proof.
  intros Hprf Hlen. unfold current_secret.
  assert (Hu : secure_prf_alg (update (updated m status p s new c)) = prf) by (by destruct m, status).
  assert (Hs : lget (app_secret_lens m) (updated m status p s new c) = overwrite new (lget (app_secret_lens m) c)) by (by destruct m, c).
  rewrite Hu, Hs, <- Hlen. unfold overwrite, zlen. rewrite Nat2Z.id. apply take_app_length.
Qed.

(** C10 A key update derives the next keys of RFC 8446.  On a little-endian machine
    and with a cipher of TLS 1.3, s2n_update_application_traffic_keys replaces the
    secret of the side by HKDF-Expand-Label(secret, "traffic upd", "", Hash.length),
    installs the key that HKDF-Expand-Label derives from the new secret with the
    label "key" and the IV with the label "iv", starts the sequence number again
    from zero and counts the update; the other direction and all other fields stay
    as they are.  It fails only when libcrypto does, and then the secret and
    the sequence number have not changed, so no record number is used twice with
    the old key. *)
Theorem traffic_keys_updated (w : world) (c : io_conn) (m : s2n_mode) (status : keyupdate_status) (p : s2n_crypto_parameters)
    (alg : s2n_record_algorithm) (e : ctx_ptr cipher_ctx) (ctx : aead_ctx)
    (Hready : update_ready c m p alg e ctx) (Hle : little_endian = true) :
  let prf := secure_prf_alg (update c) in
  let new := next_secret prf (current_secret m c) in
  match s2n_update_application_traffic_keys m status (w, c) with
  | (Ok _, (w', c')) =>
      w' = w /\ current_secret m c' = new /\
      exists ctx', aead_is (traffic_key prf new (key_material_size (cipher alg))) ctx' /\
        c' = updated m status p (updated_side prf new e ctx' (lget (side_lens m) p)) new c
  | (Err er, (w', c')) => w' = w /\ update_failure w er /\ update_unfinished m p c c'
  | (UB, _) => False
  end.
Proof.
  intros prf new.
  assert (Hlen : zlen new = s2n_hmac_digest_size prf).
  { apply hkdf_expand_length. destruct (ur_prf _ _ _ _ _ _ Hready) as [H|H]; subst prf; rewrite H; reflexivity. }
  assert (Hrun : wp (s2n_update_application_traffic_keys m status) (w, c)
    (fun _ w' c' => w' = w /\ current_secret m c' = new /\
       exists ctx', aead_is (traffic_key prf new (key_material_size (cipher alg))) ctx' /\
         c' = updated m status p (updated_side prf new e ctx' (lget (side_lens m) p)) new c)
    (fun er w' c' => w' = w /\ update_failure w er /\ update_unfinished m p c c')).
  { pose proof Hready as [Hv Hp Ha Hci Hk Hs Hprf]. pose proof (unfinished_same m p c Hp) as Hsame.
    apply wp_bind, wp_get_obj, wp_bind, wp_ensure; [intros _|unfold params_is_null; by rewrite Hp].
    apply wp_bind, wp_ensure; [intros _|intros Hz; zbool; lia].
    apply (wp_with_connection_keys _ _ _ p); [done| |by split_goal; [|left|]].
    intros k Hko. eapply wp_update_traffic_keys; [exact Hready|done|done| |].
    - intros ctx' k' Hctx. split_goal; [done|by apply updated_secret with prf|]. by exists ctx'.
    - intros er c' k' He Hu. done. }
  unfold wp in Hrun. by destruct (s2n_update_application_traffic_keys m status (w, c)) as [[[]|er|] [w' c']].
Qed.
End Theorems.
(** ** A client updates its sending key *)

#[export] Instance demo_aead_init_ok : @AeadInitOk demo_ciphers demo_aead_ok.
Proof. done. Qed.

Definition demo_updater : @io_conn demo_ciphers demo_transport := demo_io_conn S2N_CLIENT S2N_TLS13 demo_alg 7 zero_stuffer 100.
Abbreviation demo_update := (@s2n_update_application_traffic_keys demo_platform demo_libcrypto demo_digests demo_hkdf demo_ciphers demo_transport
  S2N_CLIENT SENDING (demo_world, demo_updater)).

Lemma demo_update_ready : @update_ready demo_libcrypto demo_ciphers demo_transport demo_updater S2N_CLIENT (demo_crypto demo_alg 7) demo_alg
  (CtxLive tt) demo_aead_key.
Proof. split; try reflexivity; first [by left|vm_compute; intuition congruence]. Qed.

Lemma traffic_keys_updated_witness :
  match demo_update with
  | (Ok _, (w', c')) => w' = demo_world /\
      @current_secret demo_ciphers demo_transport S2N_CLIENT c' = @next_secret demo_digests S2N_HMAC_SHA256 (repeat 6 32)
  | (Err _, (w', _)) => w' = demo_world
  | (UB, _) => False
  end.
Proof.
  pose proof (@traffic_keys_updated demo_platform demo_libcrypto demo_digests _ demo_hkdf _ demo_ciphers demo_aead_ok _ demo_transport
    demo_world demo_updater S2N_CLIENT SENDING (demo_crypto demo_alg 7) demo_alg (CtxLive tt) demo_aead_key demo_update_ready ltac:(reflexivity)) as H.
  destruct demo_update as [[[]|er|] [w' c']]; [|apply H|destruct H].
  destruct H as (Hw & Hs & _). split; [exact Hw|exact Hs].
Defined.

Example demo_updated :
  match demo_update with
  | (Ok _, (_, c')) => send_key_updated (update c') = 1 /\ client_app_secret (update c') <> repeat 6 48 /\
      server_app_secret (update c') = repeat 6 48 /\
      option_map (fun p => (sequence_number (client_side p), sequence_number (server_side p))) (secure (record_of_conn c'))
        = Some (be_bytes 8 0, be_bytes 8 7)
  | _ => False
  end.
Proof. vm_compute. intuition congruence. Qed.
End KeyUpdateTheorems.
