(* ===== verification/Send.v ===== *)
(** * tls/s2n_send.c: sending application data

    With the sending half of tls/s2n_post_handshake.c, the timers of
    utils/s2n_timer.c and the functions of tls/s2n_connection.c that both call. *)
From S2P Require Import Prelude Errors CMem Platform Safety Blob Alloc Stuffer HandshakeTables Connection HandshakeIO.
From S2P Require Import Libcrypto Hash Hmac Hkdf Ciphers CipherSuites RecordState RecordRead RecordWrite.
From S2P Require Import IoState Alerts KeyUpdate.
Open Scope Z_scope.

Module Send.

Definition SIZE_MAX : Z := 2 ^ 64 - 1.
Definition SSIZE_MAX : Z := 2 ^ 63 - 1.
Definition S2N_TLS13_MAX_FIXED_NEW_SESSION_TICKET_SIZE : Z := 112.

(** What the application hands over: the buffers, the offset into them. *)
Section TotalSize.

(** The loop of s2n_sendv_with_offset_total_size: the sum and what is left of
    the offset. *)
Fixpoint total_size_loop {X} (bufs : list iovec) (offs total_size : Z) : Cmd X (Z * Z) :=
  match bufs with
  | [] => ret (offs, total_size)
  | v :: rest =>
      let offs_consumed := if 0 <? offs then Z.min offs (iov_len v) else 0 in
      let iov_len := iov_len v - offs_consumed in
      ensure (total_size + iov_len <=? SIZE_MAX) S2N_ERR_INVALID_ARGUMENT ;;;
      total_size_loop rest (offs - offs_consumed) (total_size + iov_len)
  end.

Definition s2n_sendv_with_offset_total_size {X} (bufs : list iovec) (offs : Z) : Cmd X Z :=
  r <-- total_size_loop bufs offs 0 ;;
  let '(offs, total_size) := r in
  ensure (offs =? 0) S2N_ERR_INVALID_ARGUMENT ;;;
  ensure (total_size <=? SSIZE_MAX) S2N_ERR_INVALID_ARGUMENT ;;;
  ret total_size.
End TotalSize.

(** The parts that other files implement. *)
Class SendEnv `{Digests} `{CipherEnv} `{IoEnv} := {
  (** s2n_ktls_sendv_with_offset *)
  s2n_ktls_sendv_with_offset : list iovec -> Z -> Cmd io_conn Z;
  (** s2n_tls13_server_nst_write: a NewSessionTicket message in the output *)
  s2n_tls13_server_nst_write : Cmd io_conn unit;
  (** s2n_psk_validate_keying_material *)
  s2n_psk_validate_keying_material : Cmd io_conn unit;
  (** s2n_connection_get_session_state_size *)
  s2n_connection_get_session_state_size : Cmd io_conn Z;
  (** s2n_quic_write_handshake_message *)
  s2n_quic_write_handshake_message : Cmd io_conn unit;
}.

Section Definitions.
Context `{HP : Platform} `{HL : Libcrypto} `{HD : Digests} `{HE : HkdfEnv} `{HC : CipherEnv} `{HR : !RecordEnv} `{HI : IoEnv} `{HS : !SendEnv}.

(** ** utils/s2n_timer.c *)

Definition s2n_timer_start : Cmd io_conn unit :=
  t <-- on_env monotonic_clock ;;
  match t with
  | Some time => modify (upd_tx (set_write_timer time))
  | None => fail S2N_ERR_CANCELLED
  end.

Definition s2n_timer_elapsed : Cmd io_conn Z :=
  t <-- on_env monotonic_clock ;;
  c <-- get_obj ;;
  match t with
  | Some current_time => ret (u64 (current_time - write_timer (tx c)))
  | None => fail S2N_ERR_CANCELLED
  end.

(** ** tls/s2n_post_handshake.c and tls/s2n_handshake_io.c *)

(** The loop of s2n_handshake_message_send. *)
Fixpoint post_message_loop (fuel : nat) (content_type : Z) (base : option ptr) (size total_bytes_written : Z) : Cmd io_conn unit :=
  if total_bytes_written <? size then
    match fuel with
    | O => undefined
    | S fuel' =>
        bytes_written <-- on_record (s2n_record_writev content_type [Iovec (HeapBuf base) size] total_bytes_written
                                       (u32 (size - total_bytes_written))) ;;
        zoom conn_handshake_io_lens (s2n_stuffer_skip_read (u32 bytes_written)) ;;;
        s2n_flush ;;;
        post_message_loop fuel' content_type base size (u32 (total_bytes_written + bytes_written))
    end
  else ret tt.

(** s2n_handshake_message_send *)
Definition post_handshake_message_send (content_type : Z) : Cmd io_conn unit :=
  c <-- get_obj ;;
  let size := s2n_stuffer_data_available (handshake_io (handshake (base c))) in
  if size =? 0 then ret tt
  else if s2n_connection_is_quic_enabled (base c) then
    s2n_quic_write_handshake_message ;;;
    s2n_flush
  else
    r <-- attempt (zoom conn_handshake_io_lens (s2n_stuffer_raw_read size)) ;;
    let iov_base := match r with inl p => p | inr _ => None end in
    ensure_ref iov_base ;;;
    zoom conn_handshake_io_lens (s2n_stuffer_rewind_read size) ;;;
    post_message_loop (Z.to_nat size) content_type iov_base size 0.

Definition s2n_post_handshake_write_records : Cmd io_conn unit :=
  c <-- get_obj ;;
  (if negb (s2n_stuffer_data_available (handshake_io (handshake (base c))) =? 0) then s2n_flush else ret tt) ;;;
  post_handshake_message_send TLS_HANDSHAKE ;;;
  zoom conn_handshake_io_lens s2n_stuffer_wipe.

(** ** tls/s2n_server_new_session_ticket.c *)

(** Every message adds one to the tickets that were sent. *)
Fixpoint nst_loop (fuel : nat) : Cmd io_conn unit :=
  c <-- get_obj ;;
  if 0 <? tickets_to_send (tickets c) - tickets_sent (tickets c) then
    match fuel with
    | O => undefined
    | S fuel' =>
        r <-- attempt s2n_tls13_server_nst_write ;;
        match r with
        | inr _ => ret tt
        | inl _ =>
            s2n_post_handshake_write_records ;;;
            nst_loop fuel'
        end
    end
  else ret tt.

Definition s2n_tls13_server_nst_send : Cmd io_conn unit :=
  c <-- get_obj ;;
  ensure (S2N_TLS13 <=? actual_protocol_version (base c)) S2N_ERR_SAFETY ;;;
  if bool_decide (mode (base c) <> S2N_SERVER) || negb (use_tickets (config (base c))) then ret tt
  else if quic_enabled (base c) && negb (psk_dhe_ke (tickets c)) then ret tt
  else if tickets_to_send (tickets c) =? tickets_sent (tickets c) then zoom conn_handshake_io_lens (s2n_stuffer_resize 0)
  else
    valid <-- attempt s2n_psk_validate_keying_material ;;
    match valid with
    | inr _ => modify (fun c => set_tickets (set_tickets_to_send (tickets_sent (tickets c)) (tickets c)) c)
    | inl _ =>
        ensure (tickets_sent (tickets c) <=? tickets_to_send (tickets c)) S2N_ERR_INTEGER_OVERFLOW ;;;
        session_state_size <-- s2n_connection_get_session_state_size ;;
        let maximum_nst_size := session_state_size + S2N_TLS13_MAX_FIXED_NEW_SESSION_TICKET_SIZE in
        c <-- get_obj ;;
        (if s2n_stuffer_space_remaining (handshake_io (handshake (base c))) <? maximum_nst_size
         then zoom conn_handshake_io_lens (s2n_stuffer_resize (u32 maximum_nst_size)) else ret tt) ;;;
        nst_loop (Z.to_nat (tickets_to_send (tickets c) - tickets_sent (tickets c)))
    end.

Definition s2n_post_handshake_send : Cmd io_conn unit :=
  c <-- get_obj ;;
  if actual_protocol_version (base c) <? S2N_TLS13 then ret tt
  else
    s2n_post_handshake_write_records ;;;
    s2n_key_update_send ;;;
    s2n_tls13_server_nst_send ;;;
    zoom conn_handshake_io_lens (s2n_stuffer_resize 0).

(** ** tls/s2n_send.c *)

(** A call whose failure only means that the buffer is flushed. *)
Definition s2n_should_flush (total_message_size : Z) : Cmd io_conn bool :=
  c <-- get_obj ;;
  if negb (multirecord_send (record_of_conn c)) then ret true
  else
    let remaining_payload_size := total_message_size - current_user_data_consumed (tx c) in
    if remaining_payload_size <=? 0 then ret true
    else
      max_payload_size <-- result_of (on_record s2n_record_max_write_payload_size) ;;
      match max_payload_size with
      | None => ret true
      | Some max_payload_size =>
          max_write_size <-- result_of (on_record (s2n_record_max_write_size (Z.min max_payload_size remaining_payload_size))) ;;
          match max_write_size with
          | None => ret true
          | Some max_write_size =>
              let out := out_stuffer (base c) in
              ret ((s2n_stuffer_space_remaining out <? max_write_size) && negb (s2n_stuffer_is_freed out))
          end
      end.

(** The size of the next record. *)
Definition next_write_size (max_payload_size total_size : Z) (cbcHackUsed : bool) : Cmd io_conn (Z * bool) :=
  c <-- get_obj ;;
  let to_write := Z.min (total_size - current_user_data_consumed (tx c)) max_payload_size in
  to_write <-- (if active_application_bytes_consumed (tx c) <? dynamic_record_resize_threshold (tx c) then
                  min_payload_size <-- on_record s2n_record_min_write_payload_size ;;
                  ret (Z.min min_payload_size to_write)
                else ret to_write) ;;
  if actual_protocol_version (base c) <? S2N_TLS11 then
    alg <-- on_record (get_alg (fst (write_side (record_of_conn c)))) ;;
    if (match io (cipher alg) with S2N_CBC _ _ => true | _ => false end) && negb (bool_decide (mode (base c) = S2N_SERVER))
       && (1 <? to_write) && negb cbcHackUsed
    then ret (1, true) else ret (to_write, cbcHackUsed)
  else ret (to_write, cbcHackUsed).

Definition consume (n : Z) (t : tx_fields) : tx_fields :=
  set_active_application_bytes_consumed (u64 (active_application_bytes_consumed t + n))
    (set_current_user_data_consumed (current_user_data_consumed t + n) t).

(** The loop over the records.  The result is the number of bytes that are
    acknowledged when the loop ends early; every record takes a byte at least. *)
Fixpoint send_loop (fuel : nat) (bufs : list iovec) (offs total_size max_payload_size user_data_sent : Z) (cbcHackUsed : bool)
    : Cmd io_conn (option Z) :=
  c <-- get_obj ;;
  if total_size - current_user_data_consumed (tx c) =? 0 then ret None
  else
    match fuel with
    | O => undefined
    | S fuel' =>
        w <-- next_write_size max_payload_size total_size cbcHackUsed ;;
        let '(to_write, cbcHackUsed) := w in
        s2n_post_handshake_send ;;;
        c <-- get_obj ;;
        written_to_record <-- on_record (s2n_record_writev TLS_APPLICATION_DATA bufs (current_user_data_consumed (tx c) + offs) to_write) ;;
        modify (upd_tx (consume written_to_record)) ;;;
        should_flush <-- s2n_should_flush total_size ;;
        if should_flush then
          r <-- attempt s2n_flush ;;
          match r with
          | inr e =>
              if bool_decide (e = S2N_ERR_IO_BLOCKED) && (0 <? user_data_sent) then
                modify (upd_tx (fun t => set_current_user_data_consumed (current_user_data_consumed t - user_data_sent) t)) ;;;
                ret (Some user_data_sent)
              else fail e
          | inl _ =>
              c <-- get_obj ;;
              send_loop fuel' bufs offs total_size max_payload_size (current_user_data_consumed (tx c)) cbcHackUsed
          end
        else send_loop fuel' bufs offs total_size max_payload_size user_data_sent cbcHackUsed
    end.

(** Small records again after a pause. *)
Definition reset_record_size : Cmd io_conn unit :=
  c <-- get_obj ;;
  if 0 <? dynamic_record_timeout_threshold (tx c) then
    elapsed <-- s2n_timer_elapsed ;;
    (if dynamic_record_timeout_threshold (tx c) * 1000000000 <? u64 (elapsed - last_write_elapsed (tx c))
     then modify (upd_tx (set_active_application_bytes_consumed 0)) else ret tt) ;;;
    modify (upd_tx (set_last_write_elapsed elapsed))
  else ret tt.

Definition s2n_sendv_with_offset_impl (bufs : list iovec) (offs : Z) : Cmd io_conn Z :=
  c <-- get_obj ;;
  ensure (s2n_connection_check_io_status (base c) S2N_IO_WRITABLE) S2N_ERR_CLOSED ;;;
  ensure (negb (s2n_connection_is_quic_enabled (base c))) S2N_ERR_UNSUPPORTED_WITH_QUIC ;;;
  s2n_flush ;;;
  if ktls_send_enabled (record_of_conn c) then s2n_ktls_sendv_with_offset bufs offs
  else
    c <-- get_obj ;;
    let user_data_sent := current_user_data_consumed (tx c) in
    modify (set_blocked S2N_BLOCKED_ON_WRITE) ;;;
    max_payload_size <-- on_record s2n_record_max_write_payload_size ;;
    total_size <-- s2n_sendv_with_offset_total_size bufs offs ;;
    ensure (user_data_sent <=? total_size) S2N_ERR_SEND_SIZE ;;;
    s2n_early_data_validate_send (u32 total_size) ;;;
    reset_record_size ;;;
    r <-- send_loop (Z.to_nat (total_size - user_data_sent)) bufs offs total_size max_payload_size user_data_sent false ;;
    match r with
    | Some sent => ret sent
    | None =>
        modify (upd_tx (set_current_user_data_consumed 0)) ;;;
        modify (set_blocked S2N_NOT_BLOCKED) ;;;
        ret total_size
    end.

Definition s2n_connection_dynamic_free_out_buffer : Cmd io_conn unit :=
  c <-- get_obj ;;
  if dynamic_buffers (tx c) && s2n_stuffer_is_consumed (out_stuffer (base c)) then
    zoom conn_out_lens s2n_stuffer_free_without_wipe ;;;
    zoom conn_out_lens (s2n_stuffer_growable_alloc 0)
  else ret tt.

(** A failure of the call is passed on after the buffer was released. *)
Definition s2n_sendv_with_offset (bufs : list iovec) (offs : Z) : Cmd io_conn Z :=
  c <-- get_obj ;;
  ensure (negb (send_in_use (tx c))) S2N_ERR_REENTRANCY ;;;
  modify (upd_tx (set_send_in_use true)) ;;;
  result <-- attempt (s2n_sendv_with_offset_impl bufs offs) ;;
  s2n_early_data_record_bytes (match result with inl n => n | inr _ => -1 end) ;;;
  s2n_connection_dynamic_free_out_buffer ;;;
  modify (upd_tx (set_send_in_use false)) ;;;
  guard_rc result.

Definition s2n_sendv (bufs : list iovec) : Cmd io_conn Z := s2n_sendv_with_offset bufs 0.
(** The size is converted to a size_t. *)
Definition s2n_send (buf : buffer) (size : Z) : Cmd io_conn Z := s2n_sendv_with_offset [Iovec buf (u64 size)] 0.
End Definitions.
End Send.
Export Send.
