(* ===== verification/SendTheorems.v ===== *)
(** * What s2n_send sends

    The stream of records that s2n_sendv_with_offset_impl produces when the
    write side has an AEAD cipher and there is nothing to send after the
    handshake but data. *)
From S2P Require Import Prelude Errors CMem Platform Safety Blob Alloc Stuffer StufferInv StufferWrite StufferSpec NetworkOrder HandshakeTables Connection HandshakeIO Sequence.
From S2P Require Import Libcrypto Hash Hmac HmacTheorems Hkdf HkdfTheorems Ciphers CipherSuites RecordState RecordRead RecordWrite RecordSizes RecordAead RecordDemo RecordAeadWrite RecordRoundtrip.
From S2P Require Import IoState Alerts FlushTheorems KeyUpdate Send.
Open Scope Z_scope.

Module SendTheorems.

#[local] Arguments be_bytes : simpl never.

Section Theorems.
Context `{HP : Platform} `{HB : !BlobAllocator} `{HL : Libcrypto} `{HD : Digests} `{HK : HkdfEnv} `{HC : CipherEnv} `{HA : !AeadOk}.
Context `{HR : !RecordEnv} `{HI : IoEnv} `{HO : !EnvOk} `{HS : !SendEnv}.

(** The parameters, the side of them and the algorithm that records are written
    with, and what the application sends. *)
Context (r : params_ref) (m : s2n_mode) (alg : s2n_record_algorithm) (k : nonce_kind) (key iv : list Z).
Context (bufs : list iovec) (bss : list (list Z)) (offs limit : Z).
Abbreviation D := (concat bss).
Abbreviation out c := (out_stuffer (base c)).
Abbreviation version c := (actual_protocol_version (base c)).

(** ** What sending changes *)

(** The output and the parameters of the write side may differ. *)
Definition rec_frame (c c' : record_conn) : Prop := exists o p, c' = lset out_lens o (lset (params_lens r) (Some p) c).
Definition send_frame (c c' : io_conn) : Prop :=
  rec_frame (record_of_conn c) (record_of_conn c') /\ alerts c' = alerts c /\ update c' = update c /\ tickets c' = tickets c.

Lemma rec_frame_trans c1 c2 c3 : rec_frame c1 c2 -> rec_frame c2 c3 -> rec_frame c1 c3.
Proof. intros (o & p & ->) (o' & p' & ->). exists o', p'. by destruct r. Qed.
Lemma send_frame_trans c1 c2 c3 : send_frame c1 c2 -> send_frame c2 c3 -> send_frame c1 c3.
Proof. intros (R1 & A1 & U1 & T1) (R2 & A2 & U2 & T2). unfold send_frame. split_goal; [by eapply rec_frame_trans|congruence..]. Qed.
Lemma io_frame_send c c' p : lget (params_lens r) (record_of_conn c) = Some p -> io_frame c c' -> send_frame c c'.
Proof.
  intros Hp F. unfold io_frame in F. rewrite F. unfold send_frame. split_goal; [|done..]. exists (out c'), p.
  rewrite <- Hp, params_set_get. by destruct c.
Qed.
Lemma rec_frame_null c c' p r' : lget (params_lens r) c = Some p -> rec_frame c c' -> params_is_null r' c' = params_is_null r' c.
Proof. intros Hp (o & p' & ->). unfold params_is_null. destruct r, r'; simpl in *; by rewrite ?Hp. Qed.

Ltac split_frame := unfold send_frame; split_goal.

(** ** Nothing but data *)

(** The handshake's stuffer, freed. *)
Definition idle : s2n_stuffer := Stuffer (Blob None 0 0 false) 0 0 0 true true false.

Lemma idle_valid {X} (s : world * X) : s2n_stuffer_validate idle s = (Ok tt, s).
Proof. destruct s. unfold s2n_stuffer_validate, s2n_blob_validate, debug_ensure. unfold bind. by destruct NDEBUG. Qed.
Lemma idle_wipe w : s2n_stuffer_wipe (w, idle) = (Ok tt, (w, idle)).
Proof.
  apply wp_eq, wp_bind, wp_bind, wp_get_obj. eapply wp_run; [apply idle_valid|]. apply wp_bind, wp_get_obj, wp_bind, wp_ret.
  do 4 apply wp_bind, wp_modify. apply wp_bind, wp_get_obj. unfold postcondition. destruct NDEBUG; [by apply wp_ret|].
  eapply wp_run; [apply idle_valid|done].
Qed.
Lemma idle_resize w : s2n_stuffer_resize 0 (w, idle) = (Ok tt, (w, idle)).
Proof.
  apply wp_eq, wp_bind, wp_bind, wp_get_obj. eapply wp_run; [apply idle_valid|]. apply wp_bind, wp_get_obj.
  apply wp_bind, wp_ensure; [intros _|done]. apply wp_bind, wp_ensure; [intros _|done]. by apply wp_ret.
Qed.

(** A TLS1.3 connection has no post-handshake message to send. *)
Record quiet (c : io_conn) : Prop := {
  quiet_io : handshake_io (handshake (base c)) = idle;
  quiet_params : r = SecureParams;
  quiet_side : m = mode (base c);
  quiet_update : key_update_pending (update c) = false;
  quiet_tickets : mode (base c) = S2N_CLIENT \/ use_tickets (config (base c)) = false \/ tickets_to_send (tickets c) = tickets_sent (tickets c);
}.

Lemma handshake_io_same (c : io_conn) : lset conn_handshake_io_lens (lget conn_handshake_io_lens c) c = c.
Proof. destruct c as [rc]. destruct rc as [b]. destruct b as [md h]. by destruct h. Qed.
Lemma wp_handshake_io (cmd : Cmd s2n_stuffer unit) w c Q E :
  cmd (w, handshake_io (handshake (base c))) = (Ok tt, (w, handshake_io (handshake (base c)))) -> Q tt w c ->
  wp (zoom conn_handshake_io_lens cmd) (w, c) Q E.
Proof. intros Hrun HQ. apply wp_zoom. eapply wp_run; [exact Hrun|]. exact (eq_ind_r (fun x => Q tt w x) HQ (handshake_io_same c)). Qed.

(** A call that only reads the state of the record layer. *)
Lemma wp_reads {A} (cmd : Cmd record_conn A) a w c Q E :
  cmd (w, record_of_conn c) = (Ok a, (w, record_of_conn c)) -> Q a w c -> wp (on_record cmd) (w, c) Q E.
Proof. intros Hrun HQ. apply wp_zoom. eapply wp_run; [exact Hrun|]. by destruct c. Qed.

(** The sequence number is read in memory that is gone afterwards. *)
Lemma read_sequence (w : world) (s : crypto_side) n :
  world_ok w -> sequence_number s = be_bytes 8 n -> 0 <= n < 2 ^ 64 ->
  lend sequence_number_lens (fun q => x <-- with_local (Blob (Some q) S2N_TLS_SEQUENCE_NUM_LEN 0 false) s2n_sequence_number_to_uint64 ;; ret (fst x)) (w, s)
    = (Ok n, (w, s)).
Proof.
  intros Hw Hseq Hn. unfold lend. simpl lget. rewrite Hseq. set (q := fresh (dom (hp w))).
  assert (Hq : hp w !! q = None) by (apply not_elem_of_dom, is_fresh).
  assert (Hv : valid_access (<[q := be_bytes 8 n]> (hp w)) (Ptr q 0) 8).
  { exists (be_bytes 8 n). simpl. rewrite lookup_insert_eq, zlen_be_bytes. split_goal; [done|lia..]. }
  pose proof (to_uint64_eq (World (<[q := be_bytes 8 n]> (hp w)) (mem w)) (Blob (Some (Ptr q 0)) 8 0 false) (Ptr q 0)) as Hrun.
  unfold bind, with_local. change S2N_TLS_SEQUENCE_NUM_LEN with 8. rewrite Hrun; [|simpl|exact Hv|done|done].
  - assert (Hb : bytes_at (<[q := be_bytes 8 n]> (hp w)) (Ptr q 0) 8 = be_bytes 8 n).
    { rewrite (bytes_at_lookup _ _ _ (be_bytes 8 n)); [done|apply lookup_insert_eq|done|done]. }
    simpl hp. simpl size. rewrite Hb. cbn [ret fst hp mem]. rewrite lookup_insert_eq, delete_insert_id by done.
    cbn [default lset sequence_number_lens]. rewrite be_value_bytes, Z.mod_small by done.
    destruct w, s. simpl in Hseq |- *. by rewrite Hseq.
  - apply map_Forall_insert_2; [apply be_bytes_is_bytes|apply Hw].
Qed.

Lemma wp_quiet w c n Q E : world_ok w -> quiet c -> S2N_TLS13 <= version c ->
  (exists p, aead_params (record_of_conn c) r m p alg k key iv n) -> n < encryption_limit alg ->
  Q tt w c -> wp s2n_post_handshake_send (w, c) Q E.
Proof.
  intros Hw [Hio Hr Hm Hup Htk] Hv [p Hp] Hn HQ. destruct Hp as [Hat Hwith _ Hside]. destruct Hside as [_ _ _ _ Hseq Hrange].
  assert (Hav : s2n_stuffer_data_available (handshake_io (handshake (base c))) = 0) by (by rewrite Hio).
  apply wp_bind, wp_get_obj. rewrite (proj2 (Z.ltb_ge _ _) Hv). apply wp_bind, wp_bind, wp_get_obj. rewrite Hav. apply wp_bind, wp_ret.
  apply wp_bind, wp_bind, wp_get_obj. rewrite Hav. apply wp_ret. apply wp_handshake_io; [rewrite Hio; apply idle_wipe|].
  assert (Hnull : params_is_null SecureParams (record_of_conn c) = false).
  { unfold params_is_null. rewrite <- Hr. by rewrite Hat. }
  apply wp_bind, wp_bind, wp_get_obj. rewrite Hnull. apply wp_bind, wp_ensure; [intros _|done].
  apply wp_bind, wp_ensure; [intros _|intros Hz; zbool; lia].
  apply wp_bind, wp_bind, wp_get_obj. rewrite Hnull. apply wp_bind, wp_ensure; [intros _|done].
  apply wp_bind. apply (wp_reads _ p); [by apply wp_eq, wp_bind, wp_get_obj; rewrite <- Hr, Hat; apply wp_ret|]. rewrite Hwith.
  apply wp_bind. apply (wp_reads _ n).
  { rewrite <- Hr, <- Hm. apply wp_eq. eapply wp_on_side; [exact Hat|]. eapply wp_run; [by apply read_sequence|]. by rewrite with_side_same. }
  rewrite (proj2 (Z.leb_gt _ _) Hn). apply wp_ret.
  apply wp_bind, wp_get_obj. rewrite Hup. apply wp_ret. apply wp_bind, wp_bind, wp_get_obj.
  apply wp_bind, wp_ensure; [intros _|intros Hz; zbool; lia].
  assert (Hres : forall Q', Q' tt w c -> wp (zoom conn_handshake_io_lens (s2n_stuffer_resize 0)) (w, c) Q' E).
  { intros Q' HQ'. apply wp_handshake_io; [rewrite Hio; apply idle_resize|done]. }
  destruct (bool_decide_reflect (mode (base c) <> S2N_SERVER)) as [Hserver|Hserver]; simpl orb; [by apply wp_ret, Hres|].
  destruct (use_tickets (config (base c))) eqn:Hut; simpl negb; cbv iota; [|by apply wp_ret, Hres].
  destruct (quic_enabled (base c) && _); [by apply wp_ret, Hres|].
  destruct Htk as [Hc'|[Hc'|Hc']]; [destruct Hserver; by rewrite Hc'|done|]. rewrite Hc', Z.eqb_refl. by apply Hres, Hres.
Qed.

(** ** The invariant of the loop *)

(** What does not change while data is sent. *)
Record settings (c : io_conn) : Prop := {
  set_kind : In (alg, k) aead_algs;
  set_side : write_side (record_of_conn c) = (r, m);
  set_client : params_is_null (conn_client (record_of_conn c)) (record_of_conn c) = false;
  set_server : params_is_null (conn_server (record_of_conn c)) (record_of_conn c) = false;
  set_version : In (version c) versions;
  set_match : alg_of_version alg (version c) = true;
  set_ktls : ktls_send_enabled (record_of_conn c) = false;
  set_max : 0 < max_outgoing_fragment_length (record_of_conn c) < 2 ^ 16;
  set_override : 0 <= send_buffer_size_override (record_of_conn c) < 2 ^ 32;
  set_limit : forall w, s2n_record_max_write_payload_size (w, record_of_conn c) = (Ok limit, (w, record_of_conn c));
  set_warning : reader_warning_out (alerts c) = 0;
}.

(** No message of the handshake or after it comes between the data. *)
Record undisturbed (c : io_conn) : Prop := {
  und_position : position_in_table (base c) = true;
  und_quiet : S2N_TLS13 <= version c -> quiet c;
}.

(** What holds before every record. *)
Record ready (w : world) (c : io_conn) (n : Z) : Prop := {
  ready_world : world_ok w;
  ready_out : stuffer_ok (hp w) (out c);
  ready_params : exists p, aead_params (record_of_conn c) r m p alg k key iv n;
  ready_iov : Forall2 (iov_outside (hp w) (out c)) bufs bss;
  ready_room : data (blob (out c)) <> None -> limit + wire_overhead (record_of_conn c) <= size (blob (out c));
}.
Definition drained (w : world) (c : io_conn) : Prop := multirecord_send (record_of_conn c) = true \/ unread (hp w) (out c) = [].
(** The output has room for a record of [n] bytes. *)
Definition room (c : io_conn) (n : Z) : Prop :=
  data (blob (out c)) <> None -> Z.min n limit + wire_overhead (record_of_conn c) <= size (blob (out c)) - write_cursor (out c).

Lemma payload_size_ext c c' w limit' :
  max_outgoing_fragment_length c' = max_outgoing_fragment_length c -> send_buffer_size_override c' = send_buffer_size_override c ->
  IS_NEGOTIATED (rbase c') = IS_NEGOTIATED (rbase c) -> actual_protocol_version (rbase c') = actual_protocol_version (rbase c) ->
  s2n_record_max_write_payload_size (w, c) = (Ok limit', (w, c)) -> s2n_record_max_write_payload_size (w, c') = (Ok limit', (w, c')).
Proof.
  intros H1 H2 H3 H4 Hrun.
  unfold s2n_record_max_write_payload_size, s2n_record_max_write_size, bind, get_obj, ensure, ret in *. rewrite H1, H2.
  destruct (0 <? _); [|done]. destruct (negb _); cbn beta iota in *; [|by simplify_eq]. rewrite H3, H4.
  destruct (_ <? _); [|by simplify_eq]. destruct (_ <? _); by simplify_eq.
Qed.

Lemma settings_frame c c' : settings c -> send_frame c c' -> settings c'.
Proof.
  intros [Hk Hs Hcl Hsv Hv Hmt Hkt Hm Ho Hl Hw] (F & A & U & T).
  assert (Hp : exists p, lget (params_lens r) (record_of_conn c) = Some p).
  { unfold params_is_null in *. pose proof Hs as Hs'. unfold write_side in Hs'. destruct (bool_decide _); injection Hs' as Hr _.
    - rewrite Hr in Hcl. destruct (lget (params_lens r) (record_of_conn c)) as [p|]; [by exists p|done].
    - rewrite Hr in Hsv. destruct (lget (params_lens r) (record_of_conn c)) as [p|]; [by exists p|done]. }
  destruct Hp as [p Hp]. pose proof (fun r' => rec_frame_null _ _ _ r' Hp F) as Hnull. pose proof F as (o & p' & E).
  assert (Hbase : base c' = set_out_stuffer o (base c)) by (unfold base; rewrite E; by destruct r).
  split; rewrite ?Hbase, ?A, ?Hnull; try done.
  1: rewrite E; by destruct r. 1-2: rewrite E at 1; destruct r; done.
  1-3: rewrite E; by destruct r.
  intros w. eapply payload_size_ext; [..|apply Hl]; rewrite E; by destruct r.
Qed.

Lemma undisturbed_frame c c' : undisturbed c -> send_frame c c' -> undisturbed c'.
Proof.
  intros [Hpos Hq] ((o & p & E) & A & U & T).
  assert (Hbase : base c' = set_out_stuffer o (base c)) by (unfold base; rewrite E; by destruct r).
  split; rewrite Hbase; [done|]. intros Hv13. destruct (Hq Hv13). by split; rewrite ?Hbase, ?U, ?T.
Qed.

Lemma limit_range c : settings c -> 0 < limit <= S2N_TLS_MAXIMUM_FRAGMENT_LENGTH.
Proof.
  intros Hs. set (w := World ∅ initial_statics).
  pose proof (wp_ok_inv _ _ _ _ _ _ _ (wp_max_write_payload w (record_of_conn c) (set_max _ Hs) (set_override _ Hs)) (set_limit _ Hs w)) as (_ & _ & Hr & _).
  lia.
Qed.

(** ** The size of the next record *)

Lemma wp_next_size w c n total hack Q E : settings c -> ready w c n -> current_user_data_consumed (tx c) < total ->
  (forall to_write, 0 < to_write <= Z.min (total - current_user_data_consumed (tx c)) limit -> Q (to_write, hack) w c) ->
  wp (next_write_size limit total hack) (w, c) Q E.
Proof.
  intros Hs Hr Hlt HQ. pose proof (limit_range _ Hs) as Hlim. destruct (ready_params _ _ _ Hr) as [p [Hat Hwith Hin _]].
  assert (Hget : get_alg (fst (write_side (record_of_conn c))) (w, record_of_conn c) = (Ok alg, (w, record_of_conn c))).
  { rewrite (set_side _ Hs). cbn [fst]. apply wp_eq, wp_bind, wp_bind, wp_get_obj. rewrite Hat. apply wp_ret. rewrite Hwith. by apply wp_ret. }
  assert (Hrest : forall to_write, 0 < to_write <= Z.min (total - current_user_data_consumed (tx c)) limit ->
    wp (if version c <? S2N_TLS11 then
          alg <-- on_record (get_alg (fst (write_side (record_of_conn c)))) ;;
          if (match io (cipher alg) with S2N_CBC _ _ => true | _ => false end) && negb (bool_decide (mode (base c) = S2N_SERVER))
             && (1 <? to_write) && negb hack
          then ret (1, true) else ret (to_write, hack)
        else ret (to_write, hack)) (w, c) Q E).
  { intros to_write Hw. destruct (_ <? _); [|by apply wp_ret, HQ]. apply wp_bind. apply (wp_reads _ alg); [done|].
    destruct (aead_alg_facts _ _ Hin) as (-> & _). by apply wp_ret, HQ. }
  apply wp_bind, wp_get_obj. cbv zeta. apply wp_bind. destruct (active_application_bytes_consumed (tx c) <? _); [|by apply wp_ret, Hrest; lia].
  assert (Halg : In alg record_algs). { clear -Hin. repeat (destruct Hin as [[= <- _]|Hin]; [simpl; tauto|]). destruct Hin. }
  destruct (min_payload_facts (record_of_conn c) alg (version c) Halg (set_version _ Hs) (set_match _ Hs)) as (Hg & Hpos & _).
  apply wp_bind. eapply wp_reads; [eapply min_payload_run; [rewrite (set_side _ Hs); exact Hat|exact Hwith|exact Hg]|].
  apply wp_ret, Hrest. unfold base in *. lia.
Qed.

(** ** When the output is flushed *)

Lemma wp_should_flush w c total Q E : settings c -> stuffer_ok (hp w) (out c) ->
  Q true w c ->
  (multirecord_send (record_of_conn c) = true -> current_user_data_consumed (tx c) < total ->
   room c (total - current_user_data_consumed (tx c)) -> Q false w c) ->
  wp (s2n_should_flush total) (w, c) Q E.
Proof.
  intros Hs Hok HT HF. pose proof (limit_range _ Hs) as Hlim. apply wp_bind, wp_get_obj.
  destruct (multirecord_send (record_of_conn c)) eqn:Hm; simpl negb; cbv iota; [|by apply wp_ret]. cbv zeta.
  destruct (Z.leb_spec (total - current_user_data_consumed (tx c)) 0) as [Hle|Hgt]; [by apply wp_ret|].
  apply wp_bind, wp_result_of. apply (wp_reads _ limit); [apply (set_limit _ Hs)|].
  apply wp_bind, wp_result_of. eapply wp_reads; [apply max_write_size_run; lia|].
  apply wp_ret. rewrite (space_remaining_eq Hok). unfold s2n_stuffer_is_freed.
  destruct (Z.ltb_spec (size (blob (out c)) - write_cursor (out c)) (Z.min limit (total - current_user_data_consumed (tx c)) + wire_overhead (record_of_conn c)))
    as [Hfull|Hfits]; simpl andb.
  - destruct (data (blob (out c))) eqn:Hd; [done|]. apply HF; [done|lia|]. unfold room. by rewrite Hd.
  - apply HF; [done|lia|]. intros _. lia.
Qed.

(** ** One record *)

(** The record of [f] with number [n]. *)
Definition typed_record (ct : Z) (c : io_conn) (n : Z) (f : list Z) : list Z :=
  aead_record k (version c) (record_version (record_of_conn c) (outer_type k ct)) ct n key iv f.
Abbreviation app_record := (typed_record TLS_APPLICATION_DATA).

Lemma typed_record_frame ct c c' n f : send_frame c c' -> typed_record ct c' n f = typed_record ct c n f.
Proof. intros ((o & p & E) & _). unfold typed_record, base. rewrite E. by destruct r. Qed.

(** Buffers that are not in the memory of a stuffer stay so. *)
Lemma iov_outside_step w s w' s' : step_ok w s w' s' -> Forall2 (iov_outside (hp w) s) bufs bss -> Forall2 (iov_outside (hp w') s') bufs bss.
Proof.
  intros [_ _ _ Hf Hfr] Hiov. eapply Forall2_impl; [exact Hiov|]. intros v bs ([Hl Hb] & Hbs & H32 & Ho).
  split; [split; [done|]|split; [done|split; [done|]]].
  - destruct (iov_base v) as [[x|]|]; try done. destruct Hb as [(l & Hx & ?) <-]. pose proof (Hf _ _ Hx Ho) as Hx'. split.
    + by exists l.
    + apply bytes_at_ext. congruence.
  - destruct (iov_base v) as [[x|]|]; try done. destruct Hb as [(l & Hx & _) _]. intros Hin.
    destruct (Hfr _ Hin) as [?|Hn]; [by apply Ho|congruence].
Qed.

Lemma unread_extended h s h' s' bs : stuffer_ok h s -> read_cursor s' = read_cursor s -> written h' s' = written h s ++ bs ->
  unread h' s' = unread h s ++ bs.
Proof.
  intros Hok Hr Hw. unfold unread. rewrite Hr, Hw, drop_app_le; [done|]. pose proof (written_len Hok) as Hl. pose proof (ok_read _ _ Hok).
  unfold zlen in Hl. lia.
Qed.

Lemma wp_send_record ct w c n u len Q E :
  is_u8 ct -> ct <> TLS_CHANGE_CIPHER_SPEC -> settings c -> ready w c n -> drained w c -> room c len -> 0 < len <= limit -> 0 <= u -> 0 <= offs -> offs + u + len <= zlen D ->
  (forall w' c', ready w' c' (n + 1) -> send_frame c c' -> tx c' = tx c -> outside c' = outside c ->
     unread (hp w') (out c') = unread (hp w) (out c) ++ typed_record ct c n (zslice D (offs + u) len) -> Q len w' c') ->
  (forall e w' c', data (blob (out c)) = None \/
     tx c' = tx c /\ alerts c' = alerts c /\ outside c' = outside c /\ unread (hp w') (out c') = unread (hp w) (out c) -> E e w' c') ->
  wp (on_record (s2n_record_writev ct bufs (u + offs) len)) (w, c) Q E.
Proof.
  intros Hct Hccs Hs [Hw Hok [p Hp] Hiov Hrm] Hdr Hroom Hlen Hu Ho Hrange HQ HE. pose proof (limit_range _ Hs) as Hlim.
  pose proof (wire_overhead_range (record_of_conn c)) as Hwo. destruct Hs as [Hk Hside Hcl Hsv Hv Hmt Hkt Hm Hov Hl Hwn].
  change S2N_TLS_MAXIMUM_FRAGMENT_LENGTH with 16384 in Hlim.
  assert (Hwriter : aead_writer w (record_of_conn c) r m p alg k key iv n).
  { split; try done. unfold base in Hv. unfold is_u8. clear -Hv. repeat (destruct Hv as [Hv|Hv]; [rewrite <- Hv; vm_compute; intuition congruence|]). destruct Hv. }
  assert (Hreq : write_request w (record_of_conn c) k ct bufs (u + offs) len bss).
  { split; try done; try lia; [unfold is_tls13_ccs; by rewrite (proj2 (Z.eqb_neq _ _) Hccs), andb_false_r|].
    intros Hd. specialize (Hroom Hd). change S2N_TLS_RECORD_HEADER_LENGTH with 5. change S2N_TLS_MAXIMUM_FRAGMENT_LENGTH with 16384.
    change TAG with 16. unfold base in Hroom. destruct k; simpl explicit_len; lia. }
  apply wp_zoom. change (lget rec_lens c) with (record_of_conn c).
  eapply wp_mono; [apply (wp_aead_writev w (record_of_conn c) r m p alg k key iv n ct bufs (u + offs) len bss Hwriter Hreq)|..].
  - intros taken w' c' (limit' & Hl' & Ht & _ & (Hn & (k' & o' & Hk' & Hc') & Hw' & Hok' & Hby) & (Hst & Hrc & Hsame & Hnew)).
    rewrite Hl in Hl'. injection Hl' as <-. rewrite Z.min_l in Ht by lia. subst taken.
    assert (Hfr : rec_frame (record_of_conn c) c') by (rewrite Hc'; by eexists _, _).
    apply HQ; [|by split_frame|done|done|].
    + split; [done|done| |by eapply iov_outside_step|].
      * eexists. change (record_of_conn (lset rec_lens c' c)) with c'. rewrite Hc'. by apply sent_params.
      * change (base (lset rec_lens c' c)) with (rbase c'). change (record_of_conn (lset rec_lens c' c)) with c'.
        intros Hd. assert (Hwire : wire_overhead c' = wire_overhead (record_of_conn c)) by (rewrite Hc'; by destruct r).
        rewrite Hwire. destruct (data (blob (out c))) as [q|] eqn:Hq'.
        -- rewrite Hsame by (unfold base in Hq'; congruence). by apply Hrm.
        -- by apply Hnew.
    + change (base (lset rec_lens c' c)) with (rbase c'). apply unread_extended; [done|done|].
      rewrite Hby. unfold record_of, typed_record. by rewrite (Z.add_comm offs u).
  - intros e w' c' [(Hbad & _)|(limit' & Hl' & [Hd|Hno])]; [by rewrite Hl in Hbad|apply HE; by left|].
    apply HE. right. destruct Hno as ((s' & _ & Hc') & _ & _ & Hby). do 3 (split; [done|]).
    change (base (lset rec_lens c' c)) with (rbase c'). rewrite Hc', with_side_rbase. unfold unread. by rewrite Hby.
Qed.

(** ** The stream *)

(** What the peer gets: the bytes that were handed over, then those that wait in
    the output. *)
Definition wire (w : world) (c : io_conn) : list Z := delivered (outside c) ++ unread (hp w) (out c).

Abbreviation consumed c := (current_user_data_consumed (tx c)).

Lemma wp_flush_sending w c n Q E : settings c -> ready w c n ->
  (forall c', ready w c' n -> send_frame c c' -> consumed c' = consumed c -> unread (hp w) (out c') = [] -> (forall l, room c' l) ->
     delivered (outside c') = wire w c -> blob (out c') = blob (out c) -> Q tt w c') ->
  (forall e c', send_frame c c' -> consumed c' = consumed c -> wire w c' = wire w c -> delivered (outside c) `prefix_of` delivered (outside c') ->
     E e w c') ->
  wp s2n_flush (w, c) Q E.
Proof.
  intros Hs [Hw Hok [p Hp] Hiov Hrm] HQ HEr. pose proof (limit_range _ Hs). pose proof (wire_overhead_range (record_of_conn c)).
  pose proof (params_at _ _ _ _ _ _ _ _ _ Hp) as Hat.
  apply wp_flush; [done|apply (set_warning _ Hs)|..].
  - intros c' (F & O & _ & Hdel). pose proof (io_frame_send _ _ _ Hat F) as Hf.
    assert (Hst : step_ok w (out c) w (out c')).
    { rewrite O. apply step_ok_cursors; [apply Hw| |done]. destruct Hok as [? ? ? ? ?]. split; simpl; try done; lia. }
    assert (Hwire : wire_overhead (record_of_conn c') = wire_overhead (record_of_conn c)) by (rewrite F; done).
    apply HQ; [|done|by rewrite F| | |done|by rewrite O].
    + split; [done|by apply step_stuffer in Hst| |by eapply iov_outside_step|].
      * exists p. destruct Hp as [? ? ? ?]. split; try done. rewrite F. by destruct r.
      * rewrite Hwire, O. simpl. by apply Hrm.
    + rewrite O. unfold unread. simpl. unfold written. simpl. destruct (data _); [apply bytes_at_0|done].
    + intros l Hd. rewrite Hwire, O in *. simpl in *. specialize (Hrm Hd). lia.
  - intros e c' kk (_ & _ & F & K & O & _ & Hdel).
    change (out (set_blocked S2N_BLOCKED_ON_WRITE c)) with (out c) in K, O, Hdel. change (outside (set_blocked S2N_BLOCKED_ON_WRITE c)) with (outside c) in Hdel.
    assert (Hf : io_frame c c') by (eapply io_frame_trans; [|exact F]; exact (io_frame_env c (errno c) (outside c) S2N_BLOCKED_ON_WRITE)).
    apply HEr; [by eapply io_frame_send|by rewrite Hf| |by rewrite Hdel; apply prefix_app_r].
    pose proof (unread_len Hok). unfold wire. rewrite Hdel, O, unread_advanced, <- app_assoc, take_drop by (done || lia). done.
Qed.

Fixpoint records (c : io_conn) (n : Z) (frags : list (list Z)) : list Z :=
  match frags with
  | [] => []
  | f :: frags' => app_record c n f ++ records c (n + 1) frags'
  end.

Lemma records_snoc c n frags f : records c n (frags ++ [f]) = records c n frags ++ app_record c (n + zlen frags) f.
Proof.
  revert n. induction frags as [|g frags IH]; intros n; cbn [records app].
  - change (zlen []) with 0. by rewrite Z.add_0_r, app_nil_r.
  - rewrite IH, <- app_assoc. by replace (n + 1 + zlen frags) with (n + zlen (g :: frags)) by (unfold zlen; cbn [length]; lia).
Qed.

(** ** The loop *)

Section Loop.
Context (w0 : world) (c0 : io_conn) (n0 total : Z) (Hset : settings c0) (Hund : undisturbed c0) (Hoffs : 0 <= offs) (Htotal : offs + total <= zlen D).
Abbreviation U := (consumed c0).
Context (HU : 0 <= U <= total).

(** The records so far: those with the first [s] bytes were handed over. *)
Definition streamed (w : world) (c : io_conn) (u s : Z) : Prop :=
  exists fa fb, concat fa = zslice D (offs + U) (s - U) /\ concat fb = zslice D (offs + s) (u - s) /\
    wire w c = wire w0 c0 ++ records c0 n0 (fa ++ fb) /\ wire w0 c0 ++ records c0 n0 fa `prefix_of` delivered (outside c).

(** The state before a record has number [n], and [u] bytes are in records. *)
Record loop_inv (w : world) (c : io_conn) (n s : Z) (fa fb : list (list Z)) : Prop := {
  inv_frame : send_frame c0 c;
  inv_ready : ready w c n;
  inv_count : n = n0 + zlen (fa ++ fb);
  inv_range : U <= s <= consumed c /\ consumed c <= total;
  inv_limit : S2N_TLS13 <= version c0 -> n + (total - consumed c) <= encryption_limit alg;
  inv_sent : concat fa = zslice D (offs + U) (s - U);
  inv_rest : concat fb = zslice D (offs + s) (consumed c - s);
  inv_wire : wire w c = wire w0 c0 ++ records c0 n0 (fa ++ fb);
  inv_delivered : wire w0 c0 ++ records c0 n0 fa `prefix_of` delivered (outside c);
  inv_null : data (blob (out c)) = None -> data (blob (out c0)) = None;
}.

Lemma inv_streamed w c n s fa fb : loop_inv w c n s fa fb -> streamed w c (consumed c) s.
Proof. intros [_ _ _ _ _ Ha Hb Hw Hd _]. by exists fa, fb. Qed.

(** The outcome of the loop. *)
Definition loop_ok (result : option Z) (w : world) (c : io_conn) : Prop :=
  match result with
  | None => streamed w c total total /\ unread (hp w) (out c) = []
  | Some s => U <= s < total /\ 0 < s /\ 0 < consumed c /\ streamed w c (consumed c + s) s
  end.
Definition loop_failed (w : world) (c : io_conn) : Prop := data (blob (out c0)) = None \/ exists s, U <= s <= consumed c /\ streamed w c (consumed c) s.

Lemma version_frame c : send_frame c0 c -> version c = version c0.
Proof. intros ((o & p & E) & _). unfold base. rewrite E. by destruct r. Qed.

(** One more record. *)
Lemma inv_record w c n s fa fb len w' c' : loop_inv w c n s fa fb -> 0 < len <= total - consumed c ->
  ready w' c' (n + 1) -> send_frame c c' -> tx c' = tx c -> outside c' = outside c ->
  unread (hp w') (out c') = unread (hp w) (out c) ++ app_record c n (zslice D (offs + consumed c) len) ->
  loop_inv w' (upd_tx (consume len) c') (n + 1) s fa (fb ++ [zslice D (offs + consumed c) len]).
Proof.
  intros [Hf Hr Hn Hrange Hlim Ha Hb Hwire Hd Hnull] Hlen Hr' Hf' Htx Hout Hu. set (f := zslice D (offs + consumed c) len) in *.
  assert (Hc : consumed (upd_tx (consume len) c') = consumed c + len) by (simpl; by rewrite Htx).
  pose proof (limit_range _ Hset) as Hl. pose proof (wire_overhead_range (record_of_conn c')).
  split; rewrite ?Hc; try done.
  - by eapply send_frame_trans.
  - by destruct Hr'.
  - rewrite Hn, !zlen_app. change (zlen [f]) with 1. lia.
  - lia.
  - intros Hv. specialize (Hlim Hv). lia.
  - rewrite concat_app, Hb. simpl. rewrite app_nil_r. unfold f.
    pose proof (zslice_app_range D (offs + s) (consumed c - s) len ltac:(lia) ltac:(lia) ltac:(lia)) as Happ.
    replace (offs + s + (consumed c - s)) with (offs + consumed c) in Happ by lia. rewrite <- Happ. by f_equal; lia.
  - unfold wire in *. simpl. change (out (upd_tx (consume len) c')) with (out c'). rewrite Hu, Hout, app_assoc, Hwire, <- app_assoc.
    f_equal. rewrite app_assoc, records_snoc, <- Hn. f_equal. by apply typed_record_frame.
  - simpl. by rewrite Hout.
  - intros Hd'. exfalso. change (data (blob (out c')) = None) in Hd'. pose proof (ready_out _ _ _ Hr') as Hok'.
    pose proof (unread_null (hp w') _ Hd') as Hempty. rewrite Hu in Hempty. apply app_nil in Hempty as [_ Hrec].
    unfold app_record, aead_record, record_header in Hrec. done.
Qed.

(** After everything was handed over. *)
Lemma inv_flushed w c n s fa fb c' : loop_inv w c n s fa fb -> ready w c' n -> send_frame c c' -> consumed c' = consumed c ->
  unread (hp w) (out c') = [] -> delivered (outside c') = wire w c -> blob (out c') = blob (out c) ->
  loop_inv w c' n (consumed c') (fa ++ fb) [].
Proof.
  intros [Hf Hr Hn Hrange Hlim Ha Hb Hwire Hd Hnull] Hr' Hf' Hc Hu Hdel Hbl.
  split; rewrite ?Hc, ?Hbl, ?app_nil_r; try done.
  - by eapply send_frame_trans.
  - lia.
  - rewrite concat_app, Ha, Hb. pose proof (zslice_app_range D (offs + U) (s - U) (consumed c - s) ltac:(lia) ltac:(lia) ltac:(lia)) as Happ.
    replace (offs + U + (s - U)) with (offs + s) in Happ by lia. rewrite <- Happ. f_equal. lia.
  - by rewrite Z.sub_diag, zslice_0.
  - unfold wire. rewrite Hu, app_nil_r. by rewrite Hdel.
  - by rewrite Hdel, Hwire.
Qed.

Lemma room_mono c a b : a <= b -> room c b -> room c a.
Proof. intros Hab Hr Hd. specialize (Hr Hd). lia. Qed.

Lemma inv_failed w c n s fa fb c' : loop_inv w c n s fa fb -> consumed c' = consumed c -> wire w c' = wire w c ->
  delivered (outside c) `prefix_of` delivered (outside c') -> streamed w c' (consumed c) s.
Proof.
  intros [_ _ _ _ _ Ha Hb Hw Hd _] Hc Hwire Hpre. exists fa, fb. split_goal; [done|done|congruence|by etrans].
Qed.

Lemma wp_send_loop fuel w c n s fa fb hack Q E :
  loop_inv w c n s fa fb -> drained w c -> room c (total - consumed c) -> (consumed c = total -> s = total /\ unread (hp w) (out c) = []) ->
  total - consumed c <= Z.of_nat fuel ->
  (forall result w' c', loop_ok result w' c' -> Q result w' c') ->
  (forall e w' c', loop_failed w' c' -> E e w' c') ->
  wp (send_loop fuel bufs offs total limit s hack) (w, c) Q E.
Proof.
  revert w c n s fa fb hack. induction fuel as [|fuel IH]; intros w c n s fa fb hack Hinv Hdr Hroom Hend Hfuel HQ HEr; cbn [send_loop].
  all: pose proof (inv_range _ _ _ _ _ _ Hinv) as Hrange; apply wp_bind, wp_get_obj.
  all: destruct (Z.eqb_spec (total - consumed c) 0) as [Hz|Hz];
    [apply wp_ret, HQ; assert (Hc : consumed c = total) by lia; destruct (Hend Hc) as [-> Hu]; pose proof (inv_streamed _ _ _ _ _ _ Hinv) as Hst; by rewrite Hc in Hst|].
  1: lia.
  pose proof (settings_frame _ _ Hset (inv_frame _ _ _ _ _ _ Hinv)) as Hs. pose proof (inv_ready _ _ _ _ _ _ Hinv) as Hr.
  apply wp_bind. eapply wp_next_size; [done|exact Hr|lia|]. intros to_write Hw. apply wp_bind.
  assert (Hquiet : forall Q', Q' tt w c -> wp s2n_post_handshake_send (w, c) Q' E).
  { intros Q' HQ'. destruct (Z.ltb_spec (version c) S2N_TLS13) as [Hlt|Hge].
    - apply wp_bind, wp_get_obj. rewrite (proj2 (Z.ltb_lt _ _) Hlt). by apply wp_ret.
    - eapply (wp_quiet w c n); [apply Hr|by apply (undisturbed_frame _ _ Hund (inv_frame _ _ _ _ _ _ Hinv))|done|apply Hr| |done].
      rewrite (version_frame _ (inv_frame _ _ _ _ _ _ Hinv)) in Hge. pose proof (inv_limit _ _ _ _ _ _ Hinv Hge). lia. }
  apply Hquiet. apply wp_bind, wp_get_obj, wp_bind.
  apply (wp_send_record TLS_APPLICATION_DATA w c n); [done|done|done|done|done|by eapply room_mono; [|exact Hroom]; lia|lia|lia|done|lia| |].
  2: { intros e w' c' [Hd|(Htx & _ & Hout & Hu)]; apply HEr; [left; by apply (inv_null _ _ _ _ _ _ Hinv)|right].
    exists s. rewrite Htx. split; [lia|]. destruct (inv_streamed _ _ _ _ _ _ Hinv) as (ga & gb & ? & ? & Hwr & ?).
    exists ga, gb. unfold wire in *. rewrite Hout, Hu. by split_goal. }
  intros w' c' Hr' Hf' Htx Hout Hu. apply wp_bind, wp_modify.
  pose proof (inv_record w c n s fa fb to_write w' c' Hinv ltac:(lia) Hr' Hf' Htx Hout Hu) as Hinv'.
  set (c1 := upd_tx (consume to_write) c') in *. set (fb' := fb ++ [_]) in *.
  assert (Hc1 : consumed c1 = consumed c + to_write) by (simpl; by rewrite Htx).
  pose proof (settings_frame _ _ Hset (inv_frame _ _ _ _ _ _ Hinv')) as Hs1.
  apply wp_bind, wp_should_flush; [done|apply Hinv'| |].
  - apply wp_bind, wp_attempt. eapply wp_flush_sending; [done|apply Hinv'|..].
    + intros c2 Hr2 Hf2 Hc2 Hu2 Hroom2 Hdel2 Hbl2. apply wp_bind, wp_get_obj.
      pose proof (inv_flushed _ _ _ _ _ _ _ Hinv' Hr2 Hf2 Hc2 Hu2 Hdel2 Hbl2) as Hinv2.
      eapply (IH w' c2 _ _ _ _ hack Hinv2); [by right|apply Hroom2|done|rewrite Hc2, Hc1; lia|done|done].
    + intros e c2 Hf2 Hc2 Hw2 Hp2. pose proof (inv_failed _ _ _ _ _ _ _ Hinv' Hc2 Hw2 Hp2) as Hst.
      destruct (bool_decide (e = S2N_ERR_IO_BLOCKED) && (0 <? s)) eqn:Hb.
      * zbool. apply wp_bind, wp_modify, wp_ret, HQ. simpl. rewrite Hc2, Hc1. split; [lia|]. split; [lia|]. split; [lia|].
        rewrite <- Hc1. by replace (consumed c1 - s + s) with (consumed c1) by lia.
      * apply wp_fail, HEr. right. exists s. rewrite Hc2. split; [lia|done].
  - intros Hm Hlt Hroom1. apply (IH w' c1 _ _ _ _ hack Hinv'); [by left|done|lia|rewrite Hc1; lia|done|done].
Qed.
End Loop.

(** ** The call *)

Lemma wp_total_size {X} (w : world) (x : X) Q E : Forall2 (fun v bs => iov_len v = zlen bs) bufs bss -> 0 <= offs ->
  (offs <= zlen D -> zlen D - offs <= SSIZE_MAX -> Q (zlen D - offs) w x) -> (forall e, E e w x) ->
  wp (s2n_sendv_with_offset_total_size bufs offs) (w, x) Q E.
Proof.
  intros Hlens Ho HQ HEr.
  assert (Hloop : forall o t, 0 <= o -> 0 <= t ->
    wp (total_size_loop bufs o t) (w, x)
      (fun res w' x' => w' = w /\ x' = x /\ fst res = Z.max 0 (o - zlen D) /\ snd res = t + Z.max 0 (zlen D - o))
      (fun _ w' x' => w' = w /\ x' = x)).
  { clear HQ. induction Hlens as [|v bs vs bss' Hv _ IH]; intros o t Ho' Ht; cbn [total_size_loop concat].
    - apply wp_ret. change (zlen (@nil Z)) with 0. simpl. split_goal; (done || lia).
    - rewrite zlen_app. pose proof (zlen_nonneg bs). pose proof (zlen_nonneg (concat bss')).
      apply wp_bind, wp_ensure; [intros _|by auto]. cbv zeta. rewrite Hv. destruct (Z.ltb_spec 0 o).
      + eapply wp_mono; [apply IH; lia| |done]. intros [a b] w' x' (-> & -> & Ha & Hb). simpl in *. split_goal; (done || lia).
      + eapply wp_mono; [apply IH; lia| |done]. intros [a b] w' x' (-> & -> & Ha & Hb). simpl in *. split_goal; (done || lia). }
  apply wp_bind. eapply wp_mono; [apply (Hloop offs 0); lia| |by intros e w' x' (-> & ->)].
  intros [a b] w' x' (-> & -> & Ha & Hb). simpl in Ha, Hb. pose proof (zlen_nonneg D).
  apply wp_bind, wp_ensure; [intros Hz|done]. zbool. apply wp_bind, wp_ensure; [intros Hs|done]. zbool.
  apply wp_ret. replace b with (zlen D - offs) in * by lia. apply HQ; lia.
Qed.

(** Calls that only fail or change nothing but the clock and the times. *)
Lemma wp_validate_send n w c Q E : position_in_table (base c) = true -> Q tt w c -> (forall e, E e w c) ->
  wp (s2n_early_data_validate_send n) (w, c) Q E.
Proof.
  intros Hpos HQ HEr. assert (Hmsg : active_message (w, base c) = (Ok (ACTIVE_MESSAGE (base c)), (w, base c))).
  { apply wp_eq, wp_bind, wp_get_obj. rewrite Hpos. by apply wp_ret. }
  apply wp_bind, wp_bind. unfold on_base. apply wp_zoom. eapply wp_run; [exact Hmsg|].
  assert (Hc : lset base_lens (base c) c = c) by (destruct c as [rc]; by destruct rc). rewrite Hc.
  apply wp_bind, wp_get_obj, wp_ret. destruct (negb _); [by apply wp_ret|]. apply wp_bind, wp_get_obj.
  do 3 (apply wp_bind, wp_ensure; [intros _|by intros _]). apply wp_bind. unfold guard_rc.
  destruct (s2n_connection_get_remaining_early_data_size c); [apply wp_ret|by apply wp_fail].
  apply wp_ensure; [done|by intros _].
Qed.

(** The parts that sending depends on are the same. *)
Definition same_sending (c c' : io_conn) : Prop :=
  record_of_conn c' = record_of_conn c /\ alerts c' = alerts c /\ update c' = update c /\ tickets c' = tickets c /\
  consumed c' = consumed c /\ delivered (outside c') = delivered (outside c).

Lemma wp_reset_record_size w c Q E : (forall c', same_sending c c' -> Q tt w c') -> (forall e c', same_sending c c' -> E e w c') ->
  wp reset_record_size (w, c) Q E.
Proof.
  intros HQ HEr. apply wp_bind, wp_get_obj. destruct (0 <? _); [|apply wp_ret, HQ; by unfold same_sending].
  apply wp_bind, wp_bind, wp_on_env, wp_bind, wp_get_obj. pose proof (env_clock_quiet (outside c)) as Hclock.
  assert (Hsame : same_sending c (set_outside (snd (monotonic_clock (outside c))) c)) by (unfold same_sending; by split_goal).
  destruct (fst (monotonic_clock (outside c))); [apply wp_ret|apply wp_fail; by apply HEr].
  apply wp_bind. destruct (_ <? _); [apply wp_modify|apply wp_ret]; apply wp_modify, HQ; unfold same_sending; by split_goal.
Qed.

Lemma same_sending_settings c c' : same_sending c c' -> settings c -> settings c'.
Proof.
  intros (R & A & U & T & _ & _) [Hk Hs Hcl Hsv Hv Hmt Hkt Hm Ho Hl Hw]. split; unfold base in *; by rewrite ?R, ?A.
Qed.
Lemma same_sending_undisturbed c c' : same_sending c c' -> undisturbed c -> undisturbed c'.
Proof.
  intros (R & A & U & T & _ & _) [Hpos Hq]. split; unfold base in *; rewrite R; [done|].
  intros Hv13. destruct (Hq Hv13). split; unfold base in *; by rewrite ?R, ?U, ?T.
Qed.
Lemma same_sending_ready w c c' n : same_sending c c' -> ready w c n -> ready w c' n.
Proof. intros (R & _) [Hw Hok Hp Hiov Hrm]. split; unfold base in *; by rewrite ?R. Qed.
Lemma same_sending_room c c' l : same_sending c c' -> room c l -> room c' l.
Proof. intros (R & _) Hr. unfold room, base in *. by rewrite R. Qed.
Lemma same_sending_records c c' n frags : same_sending c c' -> records c' n frags = records c n frags.
Proof.
  intros (R & _). revert n. induction frags as [|f fs IH]; intros n; cbn [records]; [done|]. rewrite IH. unfold typed_record, base. by rewrite R.
Qed.
Lemma send_frame_records c c' n frags : send_frame c c' -> records c' n frags = records c n frags.
Proof. intros F. revert n. induction frags as [|f fs IH]; intros n; cbn [records]; [done|]. by rewrite IH, (typed_record_frame _ c c'). Qed.

(** What is in the stream after a call; [sent] bytes are acknowledged. *)
Definition acknowledged (w : world) (c : io_conn) (n sent : Z) (w' : world) (c' : io_conn) : Prop :=
  exists fa fb, concat fa = zslice D (offs + consumed c) (sent - consumed c) /\ concat fb = zslice D (offs + sent) (consumed c') /\
    wire w' c' = wire w c ++ records c n (fa ++ fb) /\ wire w c ++ records c n fa `prefix_of` delivered (outside c').
Definition unacknowledged (w : world) (c : io_conn) (n : Z) (w' : world) (c' : io_conn) : Prop :=
  data (blob (out c)) = None \/
  exists frags, wire w' c' = wire w c ++ records c n frags /\ consumed c <= consumed c' /\
    concat frags = zslice D (offs + consumed c) (consumed c' - consumed c).

Lemma nothing_sent w c n c' : wire w c' = wire w c -> consumed c' = consumed c -> unacknowledged w c n w c'.
Proof. intros Hw Hc. right. exists []. rewrite app_nil_r, Hc, Z.sub_diag, zslice_0. split_goal; (done || lia). Qed.

Lemma wp_send_impl w c n Q E : settings c -> undisturbed c -> ready w c n -> 0 <= offs -> 0 <= consumed c ->
  (S2N_TLS13 <= version c -> n + (zlen D - offs) <= encryption_limit alg) ->
  (forall sent w' c', consumed c <= sent <= zlen D - offs -> acknowledged w c n sent w' c' ->
     (sent = zlen D - offs -> consumed c' = 0 /\ unread (hp w') (out c') = []) -> Q sent w' c') ->
  (forall e w' c', unacknowledged w c n w' c' -> E e w' c') ->
  wp (s2n_sendv_with_offset_impl bufs offs) (w, c) Q E.
Proof.
  intros Hs Hun Hr Ho Hc0 Hlim HQ HEr. apply wp_bind, wp_get_obj.
  apply wp_bind, wp_ensure; [intros _|intros _; by apply HEr, nothing_sent].
  apply wp_bind, wp_ensure; [intros _|intros _; by apply HEr, nothing_sent].
  apply wp_bind. eapply wp_flush_sending; [done|exact Hr| |intros e c' _ Hc Hw _; by apply HEr, nothing_sent].
  intros c1 Hr1 F1 C1 U1 Room1 D1 B1. rewrite (set_ktls _ Hs). apply wp_bind, wp_get_obj, wp_bind, wp_modify.
  set (c2 := set_blocked S2N_BLOCKED_ON_WRITE c1). assert (S2 : same_sending c1 c2) by (unfold same_sending; by split_goal).
  assert (W1 : wire w c1 = wire w c) by (unfold wire at 1; by rewrite U1, app_nil_r).
  assert (Hnone : forall e c', same_sending c1 c' -> E e w c').
  { intros e c' (R & _ & _ & _ & C & Dl). apply HEr, nothing_sent; [|congruence]. rewrite <- W1. unfold wire, base. by rewrite R, Dl. }
  pose proof (settings_frame _ _ Hs F1) as Hs1. pose proof (undisturbed_frame _ _ Hun F1) as Hun1. apply wp_bind. apply (wp_reads _ limit); [apply (set_limit _ Hs1)|].
  apply wp_bind, wp_total_size; [|done| |by intros e; apply Hnone].
  { eapply Forall2_impl; [apply (ready_iov _ _ _ Hr)|]. by intros v bs ([Hl _] & _). }
  intros Hle _. apply wp_bind, wp_ensure; [intros Hsz; zbool|by intros _; apply Hnone]. rewrite C1 in Hsz.
  apply wp_bind, wp_validate_send; [apply (und_position _ Hun1)| |by intros e; apply Hnone].
  apply wp_bind, wp_reset_record_size; [|by intros e c' S; apply Hnone].
  intros c3 S3. assert (S : same_sending c1 c3).
  { destruct S2 as (A1 & A2 & A3 & A4 & A5 & A6), S3 as (A7 & A8 & A9 & A10 & A11 & A12). unfold same_sending. split_goal; congruence. }
  pose proof S as (R3 & _ & _ & _ & C3 & D3). rewrite C1 in C3.
  assert (W3 : wire w c3 = wire w c) by (unfold wire, base; rewrite R3, D3; exact W1).
  assert (Hrec : forall frags, records c3 n frags = records c n frags).
  { intros frags. by rewrite (same_sending_records _ _ _ _ S), (send_frame_records _ _ _ _ F1). }
  assert (V3 : version c3 = version c) by (unfold base at 1; rewrite R3; apply (version_frame c c1 F1)).
  assert (Hinv : loop_inv w c3 n (zlen D - offs) w c3 n (consumed c1) [] []).
  { split; rewrite ?C3, ?C1, ?Z.sub_diag, ?zslice_0; try done.
    - destruct (ready_params _ _ _ Hr1) as [p Hp]. pose proof (params_at _ _ _ _ _ _ _ _ _ Hp) as Hat. rewrite <- R3 in Hat.
      split_frame; [|done..]. exists (out c3), p. rewrite <- Hat, params_set_get. unfold base. destruct (record_of_conn c3) as [b]. by destruct b.
    - by eapply same_sending_ready.
    - unfold zlen; simpl; lia.
    - rewrite V3. intros Hv. specialize (Hlim Hv). lia.
    - by rewrite app_nil_r.
    - rewrite app_nil_r, W3, D3, D1. done. }
  pose proof (same_sending_settings _ _ S Hs1) as Hs3. pose proof (same_sending_undisturbed _ _ S Hun1) as Hun3.
  apply wp_bind. rewrite C1. eapply wp_send_loop; [exact Hs3|exact Hun3|done|lia|rewrite C3; lia|rewrite <- C1; exact Hinv| | | | | |].
  - right. unfold base. rewrite R3. exact U1.
  - eapply same_sending_room; [exact S|apply Room1].
  - intros He. rewrite <- He. split; [done|]. unfold base. by rewrite R3.
  - rewrite C3. lia.
  - intros [sent|] w' c' Hok.
    + destruct Hok as (Hrange & Hs0 & Hpos & fa & fb & Ha & Hb & Hw' & Hp'). rewrite C3 in *. rewrite W3, Hrec in Hw', Hp'.
      apply wp_ret, HQ; [lia| |lia]. exists fa, fb. split_goal; [done| |done|done]. rewrite Hb. f_equal. lia.
    + destruct Hok as ((fa & fb & Ha & Hb & Hw' & Hp') & Hu). rewrite C3 in *. rewrite W3, Hrec in Hw', Hp'. rewrite Z.sub_diag in Hb.
      apply wp_bind, wp_modify, wp_bind, wp_modify, wp_ret, HQ; [lia| |by intros _]. by exists fa, fb.
  - intros e w' c' [Hd|(sent & Hrange & fa & fb & Ha & Hb & Hw' & _)]; apply HEr.
    + left. unfold base in Hd. rewrite R3 in Hd. rewrite <- B1. exact Hd.
    + right. exists (fa ++ fb). rewrite C3 in *. rewrite W3, Hrec in Hw'. split_goal; [done|lia|].
      rewrite concat_app, Ha, Hb. pose proof (zslice_app_range D (offs + consumed c) (sent - consumed c) (consumed c' - sent) ltac:(lia) ltac:(lia) ltac:(lia)) as Happ.
      replace (offs + consumed c + (sent - consumed c)) with (offs + sent) in Happ by lia. rewrite <- Happ. f_equal. lia.
Qed.

End Theorems.

(** ** Two bytes over a transport that takes three bytes at a time *)

Definition demo_send_env : @SendEnv demo_digests demo_ciphers demo_transport := {|
  s2n_ktls_sendv_with_offset _ _ := fail S2N_ERR_UNIMPLEMENTED;
  s2n_tls13_server_nst_write := fail S2N_ERR_UNIMPLEMENTED;
  s2n_psk_validate_keying_material := ret tt;
  s2n_connection_get_session_state_size := ret 0;
  s2n_quic_write_handshake_message := ret tt;
|}.
Definition demo_sender : @io_conn demo_ciphers demo_transport :=
  lset conn_handshake_io_lens idle (demo_io_conn S2N_CLIENT S2N_TLS13 demo_alg 7 zero_stuffer 100).
Abbreviation demo_send := (@s2n_sendv_with_offset_impl demo_platform demo_libcrypto demo_digests demo_hkdf demo_ciphers demo_record_env
  demo_transport demo_send_env demo_data 0 (demo_world, demo_sender)).
Example demo_sent :
  match demo_send with
  | (Ok n, (_, c')) => n = 2 /\ outside c' = ([1; 2] ++ [23; 3; 3; 0; 19] ++
      demo_enc demo_aead_key [1; 2; 3; 4; 5; 6; 7; 8; 9; 10; 11; 11] [104; 105; 23] [23; 3; 3; 0; 19], 76%nat, [])
  | _ => False
  end.
Proof. vm_compute. done. Qed.

Lemma demo_settings : @settings demo_libcrypto demo_ciphers demo_transport SecureParams S2N_CLIENT demo_alg Implicit13 8192 demo_sender.
Proof.
  split; try reflexivity; vm_compute; intuition congruence.
Qed.
Lemma demo_undisturbed : @undisturbed demo_ciphers demo_transport SecureParams S2N_CLIENT demo_sender.
Proof. split; [reflexivity|]. intros _. split; try reflexivity. by left. Qed.

Lemma demo_ready : @ready demo_libcrypto demo_ciphers demo_aead_ok demo_transport SecureParams S2N_CLIENT demo_alg Implicit13 demo_aead_key demo_iv
  demo_data [[104]; [105]] 8192 demo_world demo_sender 7.
Proof.
  pose proof demo_writer_ready as [Hw Hok _ _ _ _ _ _ _ _ _]. split; [done|done| |apply (request_iov _ _ _ _ _ _ _ _ demo_request)|done].
  exists (demo_crypto demo_alg 7).
  destruct (demo_params_ok S2N_CLIENT S2N_CLIENT zero_stuffer zero_stuffer zero_stuffer) as [_ Hwith Hin Hside]. by split.
Qed.

End SendTheorems.
Export SendTheorems.
