(* ===== verification/Recv.v ===== *)
(** * tls/s2n_recv.c: receiving

    Reading records from the peer's bytes, post-handshake messages
    (tls/s2n_post_handshake.c), the reaction to errors (tls/s2n_connection.c) and
    s2n_recv; the module [Shutdown] is tls/s2n_shutdown.c. *)
From S2P Require Import Prelude Errors CMem Safety Platform Blob Alloc Stuffer NetworkOrder HandshakeTables Connection HandshakeMessage HandshakeIO Libcrypto.
From S2P Require Import Hash Hmac Hkdf Ciphers CipherSuites RecordState RecordRead RecordWrite IoState Alerts KeyUpdate Send.
Open Scope Z_scope.

Module Recv.

Definition S2N_LARGE_FRAGMENT_LENGTH : Z := S2N_TLS_MAXIMUM_FRAGMENT_LENGTH.
Definition S2N_TLS_SSLV2_HEADER_FLAG : Z := 0x80.
Definition S2N_DEFAULT_BLINDING_MAX : Z := 30.
Definition S2N_DEFAULT_BLINDING_MIN : Z := 10.
Definition ONE_S : Z := 1000000000.

(** The parts that other files implement; the message is in the stuffer. *)
Class RecvEnv `{Digests} `{CipherEnv} `{IoEnv} := {
  s2n_ktls_read_full_record : Cmd io_conn Z;
  s2n_tls13_server_nst_recv : Cmd (io_conn * s2n_stuffer) unit;
  s2n_client_hello_request_recv : Cmd io_conn unit;
}.

Section Definitions.
Context `{HP : Platform} `{HL : Libcrypto} `{HD : Digests} `{HE : HkdfEnv} `{HC : CipherEnv} `{HR : !RecordEnv} `{HI : IoEnv} `{HV : !RecvEnv}.

(** ** tls/s2n_connection.c: errors

    The functions of [HandshakeIO] of the same purpose, with the delay. *)

Definition s2n_connection_calculate_blinding (c : io_conn) : Z * Z :=
  if custom_blinding_set (tx c) then
    let max := max_blinding (tx c) * ONE_S in (Z.quot max 3, max)
  else (S2N_DEFAULT_BLINDING_MIN * ONE_S, S2N_DEFAULT_BLINDING_MAX * ONE_S).

(** s2n_connection_kill; built-in blinding also sleeps for the delay. *)
Definition connection_kill : Cmd io_conn unit :=
  on_base s2n_connection_set_closed ;;;
  c <-- get_obj ;;
  let '(min, max) := s2n_connection_calculate_blinding c in
  if max =? 0 then ret tt
  else
    r <-- on_env (s2n_public_random (max - min)) ;;
    rand_delay <-- guard_rc r ;;
    modify (upd_tx (set_delay (u64 (min + rand_delay)))) ;;;
    s2n_timer_start.

(** s2n_connection_apply_error_blinding *)
Definition apply_error_blinding (e : s2n_error) : Cmd io_conn unit :=
  zoom conn_in_lens s2n_stuffer_wipe ;;;
  let error_type := s2n_error_get_type (error_code e) in
  if error_type =? error_type_value S2N_ERR_T_OK then ret tt
  else if error_type =? error_type_value S2N_ERR_T_BLOCKED then ret tt
  else if error_not_blinded e then on_base s2n_connection_set_closed
  else connection_kill.

(** WITH_ERROR_BLINDING; s2n_errno is the last error. *)
Definition blinding_errors {A} (cmd : Cmd io_conn A) : Cmd io_conn A :=
  r <-- attempt cmd ;;
  match r with
  | inl a => ret a
  | inr e => apply_error_blinding e ;;; fail e
  end.

(** ** Records *)

Definition s2n_recv_in_init (written total : Z) : Cmd io_conn unit :=
  ensure (written <=? total) S2N_ERR_SAFETY ;;;
  let remaining := total - written in
  c <-- get_obj ;;
  ensure (remaining <=? s2n_stuffer_space_remaining (buffer_in (record_of_conn c))) S2N_ERR_SAFETY ;;;
  r <-- result_of (zoom conn_buffer_in_lens (s2n_stuffer_raw_read written)) ;;
  let data := match r with Some p => p | None => None end in
  ensure_ref data ;;;
  zoom conn_in_lens s2n_stuffer_free ;;;
  zoom conn_in_lens (zoom blob_lens (s2n_blob_init data total)) ;;;
  zoom conn_in_lens (s2n_stuffer_skip_write written).

(** The loop that reads at least [length] bytes; every call of the callback
    stores a byte at least. *)
Fixpoint s2n_read_in_bytes (fuel : nat) (l : lens io_conn s2n_stuffer) (length : Z) : Cmd io_conn unit :=
  c <-- get_obj ;;
  let available := s2n_stuffer_data_available (lget l c) in
  if available <? length then
    match fuel with
    | O => undefined
    | S fuel' =>
        let remaining := length - available in
        let remaining := if recv_buffering (rx c) then Z.max remaining (s2n_stuffer_space_remaining (lget l c)) else remaining in
        modify (set_errno NoErrno) ;;;
        r <-- result_of (s2n_connection_recv_stuffer l remaining) ;;
        (if bool_decide (r = Some 0) then on_base (modify (set_read_closed true)) else ret tt) ;;;
        n <-- s2n_io_check_read_result r ;;
        modify (upd_rx (fun x => set_wire_bytes_in (u64 (wire_bytes_in x + n)) x)) ;;;
        s2n_read_in_bytes fuel' l length
    end
  else ret tt.

Definition s2n_recv_buffer_in (min_size : Z) : Cmd io_conn unit :=
  zoom conn_buffer_in_lens (s2n_stuffer_resize_if_empty S2N_LARGE_FRAGMENT_LENGTH) ;;;
  c <-- get_obj ;;
  let buffer_in_available := s2n_stuffer_data_available (buffer_in (record_of_conn c)) in
  if buffer_in_available <? min_size then
    let remaining := min_size - buffer_in_available in
    (if s2n_stuffer_space_remaining (buffer_in (record_of_conn c)) <? remaining
     then zoom conn_buffer_in_lens s2n_stuffer_shift else ret tt) ;;;
    s2n_read_in_bytes (Z.to_nat min_size) conn_buffer_in_lens min_size
  else ret tt.

(** [conn->buffer_in] and [conn->header_in], for a copy from one to the other. *)
Definition buffer_header_lens : lens io_conn (s2n_stuffer * s2n_stuffer) :=
  Lens (fun x => (buffer_in (record_of_conn x), header_in (record_of_conn x)))
       (fun p x => lset conn_header_in_lens (snd p) (lset conn_buffer_in_lens (fst p) x)).

(** What is missing of the header. *)
Definition read_header : Cmd io_conn unit :=
  zoom conn_header_in_lens s2n_stuffer_reread ;;;
  c <-- get_obj ;;
  let header_available := s2n_stuffer_data_available (header_in (record_of_conn c)) in
  if header_available <? S2N_TLS_RECORD_HEADER_LENGTH then
    let header_remaining := S2N_TLS_RECORD_HEADER_LENGTH - header_available in
    r <-- attempt (s2n_recv_buffer_in header_remaining) ;;
    c <-- get_obj ;;
    let header_read := Z.min header_remaining (s2n_stuffer_data_available (buffer_in (record_of_conn c))) in
    zoom buffer_header_lens (s2n_stuffer_copy header_read) ;;;
    guard_rc r
  else ret tt.

(** What is missing of the fragment. *)
Definition read_fragment (fragment_length : Z) : Cmd io_conn unit :=
  c <-- get_obj ;;
  let fragment_available := s2n_stuffer_data_available (in_stuffer (base c)) in
  if (fragment_available <? fragment_length) || (fragment_length =? 0) then
    zoom conn_buffer_in_lens (s2n_stuffer_rewind_read fragment_available) ;;;
    r <-- attempt (s2n_recv_buffer_in fragment_length) ;;
    c <-- get_obj ;;
    let fragment_read := Z.min fragment_length (s2n_stuffer_data_available (buffer_in (record_of_conn c))) in
    s2n_recv_in_init fragment_read fragment_length ;;;
    guard_rc r
  else ret tt.

(** The record type and whether the record is one of SSLv2. *)
Definition s2n_read_full_record : Cmd io_conn (Z * bool) :=
  c <-- get_obj ;;
  if ktls_recv_enabled (rx c) then t <-- s2n_ktls_read_full_record ;; ret (t, false)
  else if bool_decide (in_status (record_of_conn c) = PLAINTEXT) then ret (TLS_APPLICATION_DATA, false)
  else
    read_header ;;;
    c <-- get_obj ;;
    first <-- load_byte (data (blob (header_in (record_of_conn c)))) 0 ;;
    if negb (Z.land first S2N_TLS_SSLV2_HEADER_FLAG =? 0) then
      h <-- blinding_errors (on_record s2n_sslv2_record_header_parse) ;;
      let '(record_type, client_protocol_version, fragment_length) := h in
      on_base (modify (set_client_protocol_version client_protocol_version)) ;;;
      read_fragment fragment_length ;;;
      ret (record_type, true)
    else
      h <-- blinding_errors (on_record s2n_record_header_parse) ;;
      let '(record_type, fragment_length) := h in
      read_fragment fragment_length ;;;
      trial <-- s2n_early_data_is_trial_decryption_allowed record_type ;;
      (if trial then
         r <-- attempt (on_record s2n_record_parse) ;;
         match r with inl _ => ret tt | inr _ => fail S2N_ERR_EARLY_DATA_TRIAL_DECRYPT end
       else blinding_errors (on_record s2n_record_parse)) ;;;
      c <-- get_obj ;;
      if (actual_protocol_version (base c) =? S2N_TLS13) && (record_type =? TLS_APPLICATION_DATA) then
        record_type <-- zoom conn_in_lens s2n_tls13_parse_record_type ;; ret (record_type, false)
      else ret (record_type, false).

(** ** tls/s2n_post_handshake.c: receiving *)

Definition s2n_post_handshake_process (message_type : Z) : Cmd (io_conn * s2n_stuffer) unit :=
  if message_type =? TLS_KEY_UPDATE then s2n_key_update_recv
  else if message_type =? TLS_SERVER_NEW_SESSION_TICKET then s2n_tls13_server_nst_recv
  else if message_type =? TLS_HELLO_REQUEST then zoom fst_lens s2n_client_hello_request_recv
  else fail S2N_ERR_BAD_MESSAGE.

(** A call on the connection with the message in a stuffer of the connection. *)
Definition with_message {A} (l : lens io_conn s2n_stuffer) (cmd : Cmd (io_conn * s2n_stuffer) A) : Cmd io_conn A := fun '(w, c) =>
  let '(r, (w', (c', s'))) := cmd (w, (c, lget l c)) in (r, (w', lset l s' c')).

(** [conn->in] and [conn->post_handshake.in]. *)
Definition in_message_lens : lens io_conn (s2n_stuffer * s2n_stuffer) :=
  Lens (fun x => (in_stuffer (base x), post_handshake_in (rx x)))
       (fun p x => lset post_handshake_lens (snd p) (lset conn_in_lens (fst p) x)).

(** Copies up to [wanted] bytes of the message. *)
Definition copy_message (wanted : Z) : Cmd io_conn unit :=
  c <-- get_obj ;;
  let available := s2n_stuffer_data_available (post_handshake_in (rx c)) in
  if available <? wanted then
    let to_read := Z.min (wanted - available) (s2n_stuffer_data_available (in_stuffer (base c))) in
    zoom in_message_lens (s2n_stuffer_copy to_read)
  else ret tt.

(** The message is not fragmented: it is processed where it is. *)
Definition process_in_place (message_type message_len : Z) : Cmd io_conn unit :=
  r <-- result_of (zoom conn_in_lens (s2n_stuffer_raw_read message_len)) ;;
  let p := match r with Some p => p | None => None end in
  b <-- with_local zero_blob (s2n_blob_init p message_len) ;;
  s <-- with_local zero_stuffer (s2n_stuffer_init (snd b) ;;; s2n_stuffer_skip_write message_len) ;;
  (fun '(w, c) => let '(r, (w', (c', _))) := s2n_post_handshake_process message_type (w, (c, snd s)) in (r, (w', c'))).

(** Room for a fragmented message. *)
Definition enlarge_message (message_len : Z) : Cmd io_conn unit :=
  c <-- get_obj ;;
  if s2n_stuffer_space_remaining (post_handshake_in (rx c)) <? message_len then
    ensure (bool_decide (mode (base c) = S2N_CLIENT)) S2N_ERR_BAD_MESSAGE ;;;
    let total_size := message_len + TLS_HANDSHAKE_HEADER_LENGTH in
    if alloced (post_handshake_in (rx c)) then zoom post_handshake_lens (s2n_stuffer_resize total_size)
    else
      zoom post_handshake_lens (s2n_stuffer_growable_alloc total_size) ;;;
      zoom post_handshake_lens (s2n_stuffer_write_bytes (HeapBuf (Some (post_handshake_header_in (rx c)))) TLS_HANDSHAKE_HEADER_LENGTH) ;;;
      zoom post_handshake_lens (s2n_stuffer_skip_read TLS_HANDSHAKE_HEADER_LENGTH)
  else ret tt.

Definition s2n_post_handshake_message_recv : Cmd io_conn unit :=
  zoom post_handshake_lens s2n_stuffer_reread ;;;
  c <-- get_obj ;;
  (if s2n_stuffer_is_freed (post_handshake_in (rx c)) then
     b <-- with_local zero_blob (s2n_blob_init (Some (post_handshake_header_in (rx c))) TLS_HANDSHAKE_HEADER_LENGTH) ;;
     zoom post_handshake_lens (s2n_stuffer_init (snd b))
   else ret tt) ;;;
  copy_message TLS_HANDSHAKE_HEADER_LENGTH ;;;
  c <-- get_obj ;;
  ensure (TLS_HANDSHAKE_HEADER_LENGTH <=? s2n_stuffer_data_available (post_handshake_in (rx c))) S2N_ERR_IO_BLOCKED ;;;
  h <-- zoom post_handshake_lens s2n_handshake_parse_header ;;
  let '(message_type, message_len) := h in
  c <-- get_obj ;;
  ensure ((message_len =? 0) || negb (s2n_stuffer_data_available (in_stuffer (base c)) =? 0)) S2N_ERR_IO_BLOCKED ;;;
  ensure (message_len <=? S2N_MAXIMUM_HANDSHAKE_MESSAGE_LENGTH) S2N_ERR_BAD_MESSAGE ;;;
  if (s2n_stuffer_data_available (post_handshake_in (rx c)) =? 0) && (message_len <=? s2n_stuffer_data_available (in_stuffer (base c)))
  then process_in_place message_type message_len
  else
    enlarge_message message_len ;;;
    copy_message message_len ;;;
    c <-- get_obj ;;
    ensure (s2n_stuffer_data_available (post_handshake_in (rx c)) =? message_len) S2N_ERR_IO_BLOCKED ;;;
    with_message post_handshake_lens (s2n_post_handshake_process message_type).

(** The loop; every message takes a byte of the record at least. *)
Fixpoint post_handshake_loop (fuel : nat) : Cmd io_conn unit :=
  c <-- get_obj ;;
  if s2n_stuffer_data_available (in_stuffer (base c)) =? 0 then ret tt
  else
    match fuel with
    | O => undefined
    | S fuel' =>
        s2n_post_handshake_message_recv ;;;
        zoom post_handshake_lens s2n_stuffer_wipe ;;;
        post_handshake_loop fuel'
    end.
Definition s2n_post_handshake_recv : Cmd io_conn unit :=
  c <-- get_obj ;; post_handshake_loop (Z.to_nat (s2n_stuffer_data_available (in_stuffer (base c)))).

(** ** s2n_recv *)

(** A record that is not application data. *)
Definition process_other_record (record_type : Z) : Cmd io_conn unit :=
  (if record_type =? TLS_ALERT then s2n_process_alert_fragment
   else if record_type =? TLS_HANDSHAKE then
     r <-- attempt s2n_post_handshake_recv ;;
     match r with
     | inr e => if bool_decide (e = S2N_ERR_IO_BLOCKED) then ret tt else blinding_errors (fail e)
     | inl _ => ret tt
     end
   else ret tt) ;;;
  on_record s2n_record_wipe.

(** Handshake messages are not interleaved with other records. *)
Definition release_post_handshake (record_type : Z) : Cmd io_conn unit :=
  c <-- get_obj ;;
  if negb (record_type =? TLS_HANDSHAKE) then
    ensure (s2n_stuffer_is_wiped (post_handshake_in (rx c))) S2N_ERR_BAD_MESSAGE ;;;
    if negb (s2n_stuffer_is_freed (post_handshake_in (rx c))) then zoom post_handshake_lens s2n_stuffer_free else ret tt
  else ret tt.

(** What an iteration of the loop does: it ends it, or it goes on with the
    bytes read so far. *)
Inductive recv_step := RecvBreak (bytes_read : Z) | RecvContinue (bytes_read : Z).

(** One iteration; [buf] is the application's buffer, of [size] bytes. *)
Definition recv_iteration (buf : option ptr) (size bytes_read : Z) : Cmd io_conn recv_step :=
  r <-- attempt s2n_read_full_record ;;
  match r with
  | inr e =>
      if negb (bytes_read =? 0) && (bool_decide (e = S2N_ERR_CLOSED) || bool_decide (e = S2N_ERR_IO_BLOCKED)) then ret (RecvBreak bytes_read)
      else
        c <-- get_obj ;;
        (if negb (bool_decide (e = S2N_ERR_IO_BLOCKED)) && s2n_allowed_to_cache_connection (base c) && negb (session_id_len (base c) =? 0)
         then on_env (fun e => (tt, config_cache_delete e)) else ret tt) ;;;
        fail e
  | inl (record_type, isSSLv2) =>
      ensure (negb isSSLv2) S2N_ERR_BAD_MESSAGE ;;;
      release_post_handshake record_type ;;;
      if negb (record_type =? TLS_APPLICATION_DATA) then
        process_other_record record_type ;;;
        ret (RecvContinue bytes_read)
      else
        c <-- get_obj ;;
        let out_size := Z.min (size - bytes_read) (s2n_stuffer_data_available (in_stuffer (base c))) in
        p <-- ptr_add buf bytes_read ;;
        zoom conn_in_lens (s2n_stuffer_erase_and_read (Blob p (u32 out_size) 0 false)) ;;;
        c <-- get_obj ;;
        (if s2n_stuffer_data_available (in_stuffer (base c)) =? 0 then on_record s2n_record_wipe else ret tt) ;;;
        let bytes_read := bytes_read + u32 out_size in
        ret (if negb (bytes_read =? 0) && negb (recv_multi_record (rx c)) then RecvBreak bytes_read else RecvContinue bytes_read)
  end.

(** At most [fuel] iterations; [None] if the loop is not over by then: the peer
    can send records that are not application data without end. *)
Fixpoint recv_records (fuel : nat) (buf : option ptr) (size bytes_read : Z) : Cmd io_conn (option Z) :=
  match fuel with
  | O => ret None
  | S fuel' =>
      c <-- get_obj ;;
      if (size - bytes_read =? 0) || negb (s2n_connection_check_io_status (base c) S2N_IO_READABLE) then ret (Some bytes_read)
      else
        s <-- recv_iteration buf size bytes_read ;;
        match s with
        | RecvBreak n => ret (Some n)
        | RecvContinue n => recv_records fuel' buf size n
        end
  end.

Definition s2n_recv_impl (fuel : nat) (buf : option ptr) (size : Z) : Cmd io_conn (option Z) :=
  ensure (0 <=? size) S2N_ERR_SAFETY ;;;
  modify (set_blocked S2N_BLOCKED_ON_READ) ;;;
  c <-- get_obj ;;
  if negb (s2n_connection_check_io_status (base c) S2N_IO_READABLE) then
    ensure (close_notify_received (alerts c)) S2N_ERR_CLOSED ;;;
    modify (set_blocked S2N_NOT_BLOCKED) ;;;
    ret (Some 0)
  else
    ensure (negb (s2n_connection_is_quic_enabled (base c))) S2N_ERR_UNSUPPORTED_WITH_QUIC ;;;
    s2n_early_data_validate_recv ;;;
    r <-- recv_records fuel buf size 0 ;;
    match r with
    | None => ret None
    | Some bytes_read =>
        c <-- get_obj ;;
        (if s2n_stuffer_data_available (in_stuffer (base c)) =? 0 then modify (set_blocked S2N_NOT_BLOCKED) else ret tt) ;;;
        ret (Some bytes_read)
    end.

Definition s2n_connection_dynamic_free_in_buffer : Cmd io_conn unit :=
  c <-- get_obj ;;
  if dynamic_buffers (tx c) && s2n_stuffer_is_consumed (buffer_in (record_of_conn c)) then
    zoom conn_buffer_in_lens s2n_stuffer_free_without_wipe ;;;
    zoom conn_buffer_in_lens (s2n_stuffer_growable_alloc 0)
  else ret tt.

(** [None] only if [fuel] iterations do not suffice. *)
Definition s2n_recv (fuel : nat) (buf : option ptr) (size : Z) : Cmd io_conn (option Z) :=
  c <-- get_obj ;;
  ensure (negb (recv_in_use (rx c))) S2N_ERR_REENTRANCY ;;;
  modify (upd_rx (set_recv_in_use true)) ;;;
  result <-- attempt (s2n_recv_impl fuel buf size) ;;
  match result with
  | inl None => ret None
  | _ =>
      s2n_early_data_record_bytes (match result with inl (Some n) => n | _ => -1 end) ;;;
      s2n_connection_dynamic_free_in_buffer ;;;
      modify (upd_rx (set_recv_in_use false)) ;;;
      guard_rc result
  end.

Definition s2n_peek (c : io_conn) : Z :=
  if bool_decide (in_status (record_of_conn c) = PLAINTEXT) then s2n_stuffer_data_available (in_stuffer (base c)) else 0.

Definition s2n_peek_buffered (c : io_conn) : Z := s2n_stuffer_data_available (buffer_in (record_of_conn c)).
End Definitions.
End Recv.
Export Recv.

(** * tls/s2n_shutdown.c: closing a connection *)
Module Shutdown.
Section Definitions.
Context `{HP : Platform} `{HL : Libcrypto} `{HD : Digests} `{HE : HkdfEnv} `{HC : CipherEnv} `{HR : !RecordEnv} `{HI : IoEnv} `{HV : !RecvEnv}.

Definition s2n_shutdown_expect_close_notify : Cmd io_conn bool :=
  c <-- get_obj ;;
  if error_alert_received (alerts c) then ret false
  else if negb (writer_alert_out (alerts c) =? 0) || negb (reader_alert_out (alerts c) =? 0) then ret false
  else
    complete <-- on_base s2n_handshake_is_complete ;;
    if negb complete then ret false
    else if quic_enabled (base c) then ret false
    else if negb (delay (tx c) =? 0) then ret false
    else ret true.

Definition s2n_shutdown_send : Cmd io_conn unit :=
  modify (set_blocked S2N_NOT_BLOCKED) ;;;
  c <-- get_obj ;;
  if negb (send_set (tx c)) && negb (recv_set (rx c)) then ret tt
  else
    on_base (modify (set_write_closed true)) ;;;
    s2n_flush ;;;
    c <-- get_obj ;;
    if error_alert_received (alerts c) then ret tt
    else if alert_sent (alerts c) then ret tt
    else
      elapsed <-- s2n_timer_elapsed ;;
      c <-- get_obj ;;
      ensure (negb (elapsed <? delay (tx c))) S2N_ERR_SHUTDOWN_PAUSED ;;;
      s2n_alerts_write_error_or_close_notify ;;;
      s2n_flush.

(** The loop that waits for the peer's close_notify, at most [fuel] records;
    [false] if it is not over by then. *)
Fixpoint wait_close_notify (fuel : nat) : Cmd io_conn bool :=
  c <-- get_obj ;;
  if close_notify_received (alerts c) then ret true
  else
    match fuel with
    | O => ret false
    | S fuel' =>
        r <-- s2n_read_full_record ;;
        let '(record_type, isSSLv2) := r in
        ensure (negb isSSLv2) S2N_ERR_BAD_MESSAGE ;;;
        (if record_type =? TLS_ALERT then s2n_process_alert_fragment else ret tt) ;;;
        on_record s2n_record_wipe ;;;
        wait_close_notify fuel'
    end.

Definition s2n_shutdown (fuel : nat) : Cmd io_conn bool :=
  modify (set_blocked S2N_NOT_BLOCKED) ;;;
  s2n_shutdown_send ;;;
  expected <-- s2n_shutdown_expect_close_notify ;;
  if negb expected then
    on_base s2n_connection_set_closed ;;;
    modify (set_blocked S2N_NOT_BLOCKED) ;;;
    ret true
  else
    modify (set_blocked S2N_BLOCKED_ON_READ) ;;;
    over <-- wait_close_notify fuel ;;
    (if over then modify (set_blocked S2N_NOT_BLOCKED) else ret tt) ;;;
    ret over.
End Definitions.
End Shutdown.
Export Shutdown.
