(* ===== verification/IoTheorems.v ===== *)
(** * Alerts and shutdown

    What the functions of [Alerts] and of tls/s2n_shutdown.c guarantee. *)
From S2P Require Import Prelude Errors CMem Platform Safety Blob Alloc Stuffer StufferInv StufferWrite StufferSpec StufferTheorems NetworkOrder HandshakeTables Connection HandshakeIO Sequence.
From S2P Require Import Libcrypto Hash Hmac HmacTheorems Hkdf HkdfTheorems Ciphers CipherSuites RecordState RecordRead RecordWrite RecordAead RecordDemo RecordAeadWrite.
From S2P Require Import IoState Alerts FlushTheorems KeyUpdate Send SendTheorems Recv.
Open Scope Z_scope.

Module IoTheorems.

(** ** Alerts *)

Section AlertTheorems.
Context `{HP : Platform} `{HB : !BlobAllocator} `{HL : Libcrypto} `{HD : Digests} `{HC : CipherEnv} `{HI : IoEnv}.

(** Which alerts are only warnings: RFC 8446 6 leaves none but user_canceled. *)
Definition only_a_warning (c : io_conn) (level type : Z) : bool :=
  if S2N_TLS13 <=? s2n_connection_get_protocol_version (base c) then type =? S2N_TLS_ALERT_USER_CANCELED
  else (level =? S2N_TLS_ALERT_LEVEL_WARNING) && bool_decide (alert_behavior (alerts c) = S2N_ALERT_IGNORE_WARNINGS).

(** read_closed, write_closed, close_notify_received, error_alert_received *)
Definition closing (c : io_conn) : bool * bool * bool * bool :=
  (read_closed (base c), write_closed (base c), close_notify_received (alerts c), error_alert_received (alerts c)).

(** The result, the flags and the bytes that wait for the rest of an alert, given
    all bytes of alerts since the last complete one. *)
Definition alert_meaning (c : io_conn) (bs : list Z) : outcome unit * (bool * bool * bool * bool) * list Z :=
  match bs with
  | level :: type :: _ =>
      if type =? S2N_TLS_ALERT_CLOSE_NOTIFY then (Ok tt, (true, write_closed (base c), true, error_alert_received (alerts c)), [level; type])
      else if only_a_warning c level type then (Ok tt, closing c, [])
      else (Err S2N_ERR_ALERT, (true, true, close_notify_received (alerts c), true), [level; type])
  | _ => (Ok tt, closing c, bs)
  end.

Record alert_state (w : world) (c : io_conn) : Prop := {
  alert_copy : copy_state w (in_stuffer (base c)) (alert_in (alerts c));
  alert_memory : blob (alert_in (alerts c)) = Blob (Some (alert_in_data (alerts c))) 2 0 false;
  alert_start : read_cursor (alert_in (alerts c)) = 0;
}.

Lemma alert_bytes (w : world) (c : io_conn) level type : alert_state w c -> written (hp w) (alert_in (alerts c)) = [level; type] ->
  let q := alert_in_data (alerts c) in
  valid_access (hp w) (Ptr (blk q) (off q + 0)) 1 /\ bytes_at (hp w) (Ptr (blk q) (off q + 0)) 1 = [level] /\
  valid_access (hp w) (Ptr (blk q) (off q + 1)) 1 /\ bytes_at (hp w) (Ptr (blk q) (off q + 1)) 1 = [type].
Proof.
  intros [Hcs Hmem _] Hw q. pose proof (cs_to _ _ _ Hcs) as Hok. pose proof (written_len Hok) as Hl. rewrite Hw in Hl. change (zlen [level; type]) with 2 in Hl.
  assert (Hq : data (blob (alert_in (alerts c))) = Some q) by (by rewrite Hmem).
  pose proof (stuffer_access Hok q) as Hacc. rewrite Hmem in Hacc. simpl in Hacc.
  pose proof (Hacc 0 1 eq_refl ltac:(lia) ltac:(lia) ltac:(lia)) as H0. pose proof (Hacc 1 1 eq_refl ltac:(lia) ltac:(lia) ltac:(lia)) as H1.
  pose proof (Hacc 0 2 eq_refl ltac:(lia) ltac:(lia) ltac:(lia)) as H2.
  assert (Hb : bytes_at (hp w) (Ptr (blk q) (off q + 0)) 1 ++ bytes_at (hp w) (Ptr (blk q) (off q + 1)) 1 = [level; type]).
  { assert (Eq : Ptr (blk q) (off q + 0) = q) by (rewrite Z.add_0_r; by destruct q). rewrite Eq in *.
    transitivity (bytes_at (hp w) q (1 + 1)); [symmetry; apply bytes_at_app; (done || lia)|]. rewrite <- Hw. unfold written. by rewrite Hq, <- Hl. }
  pose proof (zlen_bytes_at _ _ _ H0) as L0. pose proof (zlen_bytes_at _ _ _ H1) as L1.
  destruct (bytes_at _ (Ptr (blk q) (off q + 0)) 1) as [|x [|]]; [done| |unfold zlen in L0; simpl in L0; lia].
  destruct (bytes_at _ (Ptr (blk q) (off q + 1)) 1) as [|y [|]]; [done| |unfold zlen in L1; simpl in L1; lia].
  injection Hb as -> ->. done.
Qed.

Lemma process_as_warning_eq c level type : s2n_process_as_warning c level type = only_a_warning c level type.
Proof. unfold s2n_process_as_warning, only_a_warning. destruct (Z.ltb_spec (s2n_connection_get_protocol_version (base c)) S2N_TLS13), (Z.leb_spec S2N_TLS13 (s2n_connection_get_protocol_version (base c))); (done || lia). Qed.

Lemma wp_handle_alert (w : world) (c : io_conn) level type rest :
  alert_state w c -> written (hp w) (alert_in (alerts c)) = [level; type] ->
  wp handle_alert (w, c)
    (fun continue w' c' => continue = false /\ alert_meaning c (level :: type :: rest) = (Ok tt, closing c', unread (hp w') (alert_in (alerts c'))))
    (fun e w' c' => alert_meaning c (level :: type :: rest) = (Err e, closing c', unread (hp w') (alert_in (alerts c')))).
Proof.
  intros Hst Hw. destruct (alert_bytes w c level type Hst Hw) as (V0 & B0 & V1 & B1). destruct Hst as [Hcs Hmem Hrc].
  assert (Hu : unread (hp w) (alert_in (alerts c)) = [level; type]) by (unfold unread; by rewrite Hrc, Hw).
  apply wp_bind, wp_get_obj. apply wp_bind, wp_load_byte; [done|]. rewrite B0. apply wp_bind, wp_load_byte; [done|]. rewrite B1.
  change (znth [level] 0) with level. change (znth [type] 0) with type. cbn [alert_meaning].
  destruct (type =? S2N_TLS_ALERT_CLOSE_NOTIFY).
  - apply wp_bind. unfold on_base. apply wp_zoom, wp_modify, wp_bind, wp_modify, wp_ret. split; [done|]. unfold closing. simpl. by rewrite Hu.
  - rewrite process_as_warning_eq. destruct (only_a_warning c level type).
    + apply wp_bind, wp_zoom, wp_wipe; [apply Hcs|apply Hcs|]. intros h' _ _. apply wp_ret. split; [done|].
      f_equal. unfold unread, written. simpl. destruct (data _); [by rewrite bytes_at_0|done].
    + apply wp_bind. assert (Hrest : forall e, wp (on_base s2n_connection_set_closed ;;; modify (upd_alerts (set_error_alert_received true)) ;;; @fail _ bool S2N_ERR_ALERT)
        (w, set_outside e c) (fun _ _ _ => False)
        (fun e w' c' => (Err S2N_ERR_ALERT, (true, true, close_notify_received (alerts c), true), [level; type]) =
           (@Err unit e, closing c', unread (hp w') (alert_in (alerts c'))))).
      { intros e. apply wp_bind. unfold on_base. apply wp_zoom, wp_bind, wp_modify, wp_modify, wp_bind, wp_modify, wp_fail. unfold closing. simpl. by rewrite Hu. }
      destruct (_ && _); [apply wp_on_env|apply wp_ret].
      * eapply wp_mono; [apply Hrest|by intros ??? []|done].
      * assert (Hc : set_outside (outside c) c = c) by (by destruct c). specialize (Hrest (outside c)). rewrite Hc in Hrest.
        eapply wp_mono; [exact Hrest|by intros ??? []|done].
Qed.

(** Taking [n] bytes of the record, which fit. *)
Lemma wp_take_alert (w : world) (c : io_conn) n Q E : alert_state w c ->
  0 <= n <= zlen (unread (hp w) (in_stuffer (base c))) -> n + zlen (unread (hp w) (alert_in (alerts c))) <= 2 ->
  (forall w' c', alert_state w' c' -> closing c' = closing c -> (forall bs, alert_meaning c' bs = alert_meaning c bs) ->
     unread (hp w') (in_stuffer (base c')) = drop (Z.to_nat n) (unread (hp w) (in_stuffer (base c))) ->
     unread (hp w') (alert_in (alerts c')) = unread (hp w) (alert_in (alerts c)) ++ take (Z.to_nat n) (unread (hp w) (in_stuffer (base c))) -> Q tt w' c') ->
  wp (zoom in_alert_lens (s2n_stuffer_copy n)) (w, c) Q E.
Proof.
  intros [Hcs Hmem Hrc] Hn Hfit HQ. pose proof (cs_from _ _ _ Hcs) as Hf. pose proof (cs_to _ _ _ Hcs) as Ht.
  pose proof (unread_len Hf). pose proof (unread_len Ht). pose proof (ok_size32 Hf). pose proof (ok_read _ _ Hf). pose proof (ok_write _ _ Hf).
  pose proof (ok_read _ _ Ht). assert (Hsz : size (blob (alert_in (alerts c))) = 2) by (by rewrite Hmem).
  change (2 ^ 32) with 4294967296 in *. apply wp_zoom. change (lget in_alert_lens c) with (in_stuffer (base c), alert_in (alerts c)).
  apply wp_copy; [done|unfold is_u32; lia| |intros e w' [?|?]; lia].
  intros w' f' t' Hle [-> Hu Happ] Hcs'. set (bs := take _ _) in *.
  assert (Hbs : zlen bs = n) by (unfold bs, zlen in *; rewrite length_take; lia).
  destruct (app_shape _ _ _ _ _ Happ) as [b' Hsh]. pose proof (app_fits _ _ _ _ _ Happ ltac:(lia)) as Hbl.
  apply HQ; simpl.
  - split; simpl; [done|by rewrite Hbl|by rewrite Hsh].
  - done.
  - intros [|? [|? ?]]; try done.
  - done.
  - by apply unread_appended.
Qed.

Lemma wp_alert_loop fuel (w : world) (c : io_conn) : alert_state w c ->
  let all := unread (hp w) (alert_in (alerts c)) ++ unread (hp w) (in_stuffer (base c)) in
  zlen (unread (hp w) (alert_in (alerts c))) < 2 -> zlen (unread (hp w) (in_stuffer (base c))) <= Z.of_nat fuel ->
  wp (alert_loop fuel) (w, c)
    (fun _ w' c' => alert_meaning c all = (Ok tt, closing c', unread (hp w') (alert_in (alerts c'))))
    (fun e w' c' => alert_meaning c all = (Err e, closing c', unread (hp w') (alert_in (alerts c')))).
Proof.
  cbv zeta. revert w c. induction fuel as [|fuel IH]; intros w c Hst Hpend Hfuel; cbn [alert_loop].
  all: pose proof Hst as [Hcs Hmem Hrc]; pose proof (cs_from _ _ _ Hcs) as Hf; pose proof (cs_to _ _ _ Hcs) as Ht.
  all: pose proof (unread_len Hf) as Lf; pose proof (unread_len Ht) as Lt; apply wp_bind, wp_get_obj; rewrite (data_available_eq Hf), <- Lf.
  all: pose proof (zlen_nonneg (unread (hp w) (alert_in (alerts c)))); pose proof (zlen_nonneg (unread (hp w) (in_stuffer (base c)))).
  all: destruct (Z.eqb_spec (zlen (unread (hp w) (in_stuffer (base c)))) 0) as [Hz|Hz].
  1, 3: apply zlen_0_nil in Hz; rewrite Hz, app_nil_r; apply wp_ret;
    destruct (unread (hp w) (alert_in (alerts c))) as [|? [|? ?]]; [done|done|unfold zlen in Hpend; simpl in Hpend; lia].
  1: lia.
  rewrite (data_available_eq Ht), <- Lt. set (p := unread (hp w) (alert_in (alerts c))) in *. set (bs := unread (hp w) (in_stuffer (base c))) in *.
  set (n := Z.min (if zlen p =? 1 then 1 else 2) (zlen bs)).
  assert (Hn : 0 < n /\ n <= zlen bs /\ n + zlen p <= 2 /\ (n + zlen p < 2 -> n = zlen bs)).
  { unfold n. destruct (Z.eqb_spec (zlen p) 1); lia. }
  apply wp_bind, wp_take_alert; [done|fold bs; lia|fold p; lia|]. fold p bs. intros w' c' Hst' Hcl Hmean Hbs' Hp'.
  apply wp_bind, wp_get_obj. pose proof (cs_to _ _ _ (alert_copy _ _ Hst')) as Ht'.
  rewrite (data_available_eq Ht'), <- (unread_len Ht'), Hp'.
  assert (Hlen : zlen (p ++ take (Z.to_nat n) bs) = zlen p + n) by (rewrite zlen_app; unfold zlen in *; rewrite length_take; lia).
  rewrite Hlen. assert (Hall : p ++ bs = (p ++ take (Z.to_nat n) bs) ++ drop (Z.to_nat n) bs) by (by rewrite <- app_assoc, take_drop).
  destruct (Z.eqb_spec (zlen p + n) 2) as [H2|H2].
  - rewrite H2 in Hlen. destruct (p ++ take (Z.to_nat n) bs) as [|level [|type [|? ?]]] eqn:Epair; try (unfold zlen in Hlen; simpl in Hlen; lia).
    rewrite Hall. cbn [app]. apply wp_bind. eapply wp_mono; [apply (wp_handle_alert w' c' level type (drop (Z.to_nat n) bs) Hst')|..].
    + rewrite <- Hp'. unfold unread. by rewrite (alert_start _ _ Hst').
    + intros b w2 c2 [-> Hm]. apply wp_ret. by rewrite <- Hmean.
    + intros e w2 c2 Hm. by rewrite <- Hmean.
  - eapply wp_mono; [apply (IH w' c' Hst'); [rewrite Hp', Hlen; lia|rewrite Hbs'; unfold zlen in *; rewrite length_drop; lia]|..].
    + intros u w2 c2 Hm. rewrite <- Hm, Hp', Hbs', <- Hall. by rewrite Hmean.
    + intros e w2 c2 Hm. rewrite <- Hm, Hp', Hbs', <- Hall. by rewrite Hmean.
Qed.

End AlertTheorems.

(** The second byte of a close_notify alert. *)
Definition demo_alert_heap : heap := {[1%positive := [0]; 2%positive := [1; 0]]}.
Definition demo_alert_world : world := World demo_alert_heap started_statics.
Definition demo_alert_conn : @io_conn demo_ciphers demo_transport :=
  lset in_alert_lens (Stuffer (Blob (Some (Ptr 1 0)) 1 0 false) 0 1 1 false false false, Stuffer (Blob (Some (Ptr 2 0)) 2 0 false) 0 1 1 false false false)
    (upd_alerts (set_alert_in_data (Ptr 2 0)) (demo_io_conn S2N_SERVER S2N_TLS12 demo_alg 7 zero_stuffer 100)).
Abbreviation demo_alert := (@s2n_process_alert_fragment demo_platform demo_ciphers demo_transport (demo_alert_world, demo_alert_conn)).

Lemma demo_alert_state : alert_state demo_alert_world demo_alert_conn.
Proof.
  split; [split|done|done].
  - split; [unfold demo_alert_world; solve_heap_ok|]. split; [done|]. simpl. unfold is_u32. lia.
  - split; simpl; try done; try lia. split; simpl; unfold is_u32; try done; try lia. intros p [= <-]. solve_valid_access.
  - split; simpl; try done; try lia. split; simpl; unfold is_u32; try done; try lia. intros p [= <-]. solve_valid_access.
  - intros k (p & [= <-] & <-) (q & [= <-] & ?). done.
  - discriminate.
Qed.

(** ** Shutdown *)

Section ShutdownTheorems.
Context `{HP : Platform} `{HB : !BlobAllocator} `{HL : Libcrypto} `{HD : Digests} `{HK : HkdfEnv} `{HC : CipherEnv} `{HA : !AeadOk}.
Context `{HR : !RecordEnv} `{HI : IoEnv} `{HO : !EnvOk}.
Context (r : params_ref) (m : s2n_mode) (alg : s2n_record_algorithm) (k : nonce_kind) (key iv : list Z) (limit : Z).
Abbreviation out c := (out_stuffer (base c)).
Abbreviation settings := (settings r m alg k limit).
Abbreviation ready := (ready r m alg k key iv).

(** The connection with the direction of writing closed. *)
Definition no_writing (c : io_conn) : io_conn := lset base_lens (set_write_closed true (base c)) c.

Lemma no_writing_settings c : settings c -> settings (no_writing c).
Proof.
  intros [Hk Hs Hcl Hsv Hv Hmt Hkt Hm Ho Hl Hw]. 
  assert (Hnull : forall r', params_is_null r' (record_of_conn (no_writing c)) = params_is_null r' (record_of_conn c)) by (by intros []).
  split; rewrite ?Hnull; try done. intros w. eapply payload_size_ext; [..|apply Hl]; done.
Qed.

Lemma no_writing_ready w c n : ready [] [] limit w c n -> ready [] [] limit w (no_writing c) n.
Proof. intros [Hw Hok [p [? ? ? ?]] Hiov Hrm]. split; try done. exists p. split; try done. by destruct r. Qed.

(** An alert is an array of the calling function. *)
Definition alert_iov (bs : list Z) : list iovec := [Iovec (LocalBuf bs) (zlen bs)].
Lemma ready_alert w c n bs : ready [] [] limit w c n -> is_bytes bs -> zlen bs < 2 ^ 32 -> ready (alert_iov bs) [bs] limit w c n.
Proof.
  intros [Hw Hok Hp _ Hrm] Hb Hl. split; try done. constructor; [|constructor]. unfold iov_outside, buf_is. simpl. split_goal; try done. apply zslice_full.
Qed.
Lemma ready_none w c n bufs bss : ready bufs bss limit w c n -> ready [] [] limit w c n.
Proof. intros [Hw Hok Hp _ Hrm]. by split. Qed.
(** The alert that closes the connection, as a record with number [n]. *)
Definition closing_bytes (c : io_conn) : list Z := [fst (closing_alert (alerts c)); snd (closing_alert (alerts c))].
Definition closing_record (c : io_conn) (n : Z) : list Z := typed_record k key iv TLS_ALERT c n (closing_bytes c).
(** An alert was sent or received, or alerts are not used. *)
Definition silent (c : io_conn) : bool :=
  error_alert_received (alerts c) || alert_sent (alerts c) || s2n_connection_is_quic_enabled (base c).
Definition alert_codes_ok (c : io_conn) : Prop := is_u8 (writer_alert_out (alerts c)) /\ is_u8 (reader_alert_out (alerts c)).

Lemma closing_bytes_ok c : alert_codes_ok c -> is_bytes (closing_bytes c).
Proof.
  intros [Hw Hr]. unfold closing_bytes, closing_alert. destruct (negb _); [|destruct (negb _)]; simpl; repeat apply Forall_cons_2; try done; constructor.
Qed.

Lemma wp_write_alert w c n Q E :
  settings c -> ready [] [] limit w c n -> drained w c -> room limit c 2 -> 2 <= limit -> alert_codes_ok c ->
  (forall w' c', ready [] [] limit w' c' (n + 1) -> send_frame r c c' -> outside c' = outside c ->
     unread (hp w') (out c') = unread (hp w) (out c) ++ closing_record c n -> Q tt w' (upd_alerts (set_alert_sent true) c')) ->
  (forall e w' c', data (blob (out c)) = None \/ outside c' = outside c /\ unread (hp w') (out c') = unread (hp w) (out c) /\
     alert_sent (alerts c') = alert_sent (alerts c) -> E e w' c') ->
  s2n_connection_is_quic_enabled (base c) = false ->
  wp s2n_alerts_write_error_or_close_notify (w, c) Q E.
Proof.
  intros Hs Hr Hdr Hroom Hlim Hcodes HQ HE Hquic. apply wp_bind, wp_get_obj. unfold s2n_alerts_supported. rewrite Hquic. simpl negb. cbv iota.
  destruct (closing_alert (alerts c)) as [level code] eqn:Hca.
  assert (Hbytes : closing_bytes c = [level; code]) by (unfold closing_bytes; by rewrite Hca).
  pose proof (closing_bytes_ok _ Hcodes) as Hb. rewrite Hbytes in Hb.
  apply wp_bind, wp_bind. change (zlen [level; code]) with 2.
  eapply (wp_send_record r m alg k key iv (alert_iov [level; code]) [[level; code]] 0 limit TLS_ALERT w c n 0 2);
    [done|done|done|by apply ready_alert|done|done|lia|done|done|done| |].
  - intros w' c' Hr' F Htx Hout Hu. apply wp_ensure; [intros _|done]. apply wp_modify. apply HQ; [by eapply ready_none|done|done|].
    rewrite Hu. unfold closing_record. by rewrite Hbytes.
  - intros e w' c' [Hd|(_ & Ha & Hout & Hu)]; apply HE; [by left|right]. by rewrite Ha.
Qed.
(** The alert follows what was to be sent before it, and everything is handed over. *)
Definition closed_ok (w : world) (c : io_conn) (n : Z) (w' : world) (c' : io_conn) : Prop :=
  write_closed (base c') = true /\ unread (hp w') (out c') = [] /\
  delivered (outside c') = wire w c ++ (if silent c then [] else closing_record c n) /\
  alert_sent (alerts c') = alert_sent (alerts c) || negb (silent c).

(** Either nothing is added to the stream, or the alert and that is remembered. *)
Definition closed_failed (w : world) (c : io_conn) (n : Z) (w' : world) (c' : io_conn) : Prop :=
  data (blob (out c)) = None \/
  wire w' c' = wire w c /\ alert_sent (alerts c') = alert_sent (alerts c) \/
  silent c = false /\ wire w' c' = wire w c ++ closing_record c n /\ alert_sent (alerts c') = true.

Lemma send_frame_base c c' : send_frame r c c' -> exists o, base c' = set_out_stuffer o (base c).
Proof. intros ((o & p & E) & _). exists o. unfold base. rewrite E. by destruct r. Qed.
Lemma send_frame_quiet c c' : send_frame r c c' ->
  write_closed (base c') = write_closed (base c) /\ s2n_connection_is_quic_enabled (base c') = s2n_connection_is_quic_enabled (base c) /\ alerts c' = alerts c.
Proof. intros F. pose proof F as (_ & A & _). by destruct (send_frame_base _ _ F) as [o ->]. Qed.

(** The flush before anything else, and the one after the alert. *)
Lemma wp_final_flush w c w1 c1 n1 n Q E : settings c1 -> ready [] [] limit w1 c1 n1 ->
  write_closed (base c1) = true -> wire w1 c1 = wire w c ++ (if silent c then [] else closing_record c n) ->
  alert_sent (alerts c1) = alert_sent (alerts c) || negb (silent c) ->
  (forall c', closed_ok w c n w1 c' -> Q tt w1 c') -> (forall e c', closed_failed w c n w1 c' -> E e w1 c') ->
  wp s2n_flush (w1, c1) Q E.
Proof.
  intros Hs Hr Hwc Hwire Hsent HQ HE. eapply wp_flush_sending; [exact Hs|exact Hr| |].
  - intros c' _ F _ Hu _ Hd _. destruct (send_frame_quiet _ _ F) as (W & _ & A). apply HQ. unfold closed_ok.
    rewrite W, A, Hd, Hwire. by split_goal.
  - intros e c' F _ Hw _. destruct (send_frame_quiet _ _ F) as (_ & _ & A). apply HE. right. rewrite Hw, Hwire, A, Hsent.
    destruct (silent c); [left|right]; simpl; by rewrite ?app_nil_r, ?orb_false_r, ?orb_true_r.
Qed.

Lemma wp_closing_alert w c c1 n Q E : settings c1 -> ready [] [] limit w c1 n -> 2 <= limit -> alert_codes_ok c ->
  unread (hp w) (out c1) = [] -> room limit c1 2 -> blob (out c1) = blob (out c) -> delivered (outside c1) = wire w c ->
  write_closed (base c1) = true -> alerts c1 = alerts c ->
  s2n_connection_is_quic_enabled (base c1) = s2n_connection_is_quic_enabled (base c) -> closing_record c1 n = closing_record c n ->
  error_alert_received (alerts c) = false -> alert_sent (alerts c) = false ->
  (forall w' c', closed_ok w c n w' c' -> Q tt w' c') -> (forall e w' c', closed_failed w c n w' c' -> E e w' c') ->
  wp (s2n_alerts_write_error_or_close_notify ;;; s2n_flush) (w, c1) Q E.
Proof.
  intros Hs Hr Hlim Hcodes Hu Hroom Hb Hd Hwc A K Hrec Her Has HQ HE.
  assert (Hw1 : wire w c1 = wire w c) by (unfold wire at 1; by rewrite Hd, Hu, app_nil_r).
  apply wp_bind. destruct (s2n_connection_is_quic_enabled (base c1)) eqn:Hq.
  - assert (Hsil : silent c = true) by (unfold silent; by rewrite <- K, orb_true_r).
    apply wp_bind, wp_get_obj. unfold s2n_alerts_supported. rewrite Hq. apply wp_ret.
    eapply (wp_final_flush w c w c1 n n); [done|done|done|by rewrite Hsil, app_nil_r|by rewrite A, Has, Hsil|by auto..].
  - assert (Hsil : silent c = false) by (unfold silent; by rewrite Her, Has, <- K).
    eapply wp_write_alert; [exact Hs|exact Hr|by right|done|done|by unfold alert_codes_ok; rewrite A| | |done].
    + intros w' c' Hr' F Hout Hu'. destruct (send_frame_quiet _ _ F) as (W & _ & _).
      eapply (wp_final_flush w c w' _ (n + 1) n); [| | | | |by auto..].
      * pose proof (settings_frame _ _ _ _ _ _ _ Hs F) as []. by split.
      * destruct Hr'. by split.
      * by rewrite <- Hwc, <- W.
      * rewrite Hsil. unfold wire at 1. simpl. change (out (upd_alerts _ c')) with (out c'). by rewrite Hout, Hu', Hu, Hd, Hrec.
      * by rewrite Hsil, Has.
    + intros e w' c' [Hnull|(Hout & Hu' & Ha)]; apply HE; [left; by rewrite <- Hb|right; left].
      rewrite Ha, A. split; [|done]. unfold wire at 1. by rewrite Hout, Hu', Hu, Hd, app_nil_r.
Qed.

Lemma wp_shutdown_send w c n Q E : settings c -> ready [] [] limit w c n -> 2 <= limit -> alert_codes_ok c ->
  (send_set (tx c) = false -> recv_set (rx c) = false -> Q tt w (set_blocked S2N_NOT_BLOCKED c)) ->
  (forall w' c', closed_ok w c n w' c' -> Q tt w' c') -> (forall e w' c', closed_failed w c n w' c' -> E e w' c') ->
  wp s2n_shutdown_send (w, c) Q E.
Proof.
  intros Hs Hr Hlim Hcodes HN HQ HE. apply wp_bind, wp_modify, wp_bind, wp_get_obj. set (c0 := set_blocked S2N_NOT_BLOCKED c).
  destruct (negb (send_set (tx c0)) && negb (recv_set (rx c0))) eqn:Hnone.
  { zbool. by apply wp_ret, HN. }
  apply wp_bind. unfold on_base. apply wp_zoom, wp_modify. change (lset base_lens _ c0) with (no_writing c0).
  assert (Hs0 : settings (no_writing c0)) by (apply no_writing_settings; destruct Hs; by split).
  assert (Hr0 : ready [] [] limit w (no_writing c0) n) by (apply no_writing_ready; destruct Hr; by split).
  apply wp_bind. eapply wp_flush_sending; [exact Hs0|exact Hr0| |].
  2: { intros e c1 F _ Hw _. destruct (send_frame_quiet _ _ F) as (_ & _ & A). apply HE. right. left. by rewrite Hw, A. }
  intros c1 Hr1 F1 _ Hu1 Hroom1 Hd1 Hb1. destruct (send_frame_quiet _ _ F1) as (W1 & K1 & A1). pose proof (settings_frame _ _ _ _ _ _ _ Hs0 F1) as Hs1.
  assert (Hsilent : silent c1 = silent c) by (unfold silent; by rewrite A1, K1).
  assert (Hdone : silent c = true -> closed_ok w c n w c1).
  { intros Hsil. unfold closed_ok. rewrite W1, A1, Hsil, app_nil_r. simpl. rewrite orb_false_r. by split_goal. }
  apply wp_bind, wp_get_obj. rewrite A1. destruct (error_alert_received (alerts c)) eqn:Her; simpl alerts; rewrite Her.
  { apply wp_ret, HQ, Hdone. unfold silent. by rewrite Her. }
  destruct (alert_sent (alerts c)) eqn:Has.
  { apply wp_ret, HQ, Hdone. unfold silent. by rewrite Has, orb_true_r. }
  apply wp_bind, wp_bind, wp_on_env, wp_bind, wp_get_obj. pose proof (env_clock_quiet (outside c1)) as Hclock.
  set (c2 := set_outside _ c1). assert (Hnot : forall e, E e w c2).
  { intros e. apply HE. right. left. split; [|change (alerts c2) with (alerts c1); by rewrite A1]. unfold wire at 1.
    change (out c2) with (out c1). simpl outside. by rewrite Hu1, Hclock, Hd1, app_nil_r. }
  destruct (fst (monotonic_clock (outside c1))); [apply wp_ret|by apply wp_fail].
  apply wp_bind, wp_get_obj, wp_bind, wp_ensure; [intros _|by intros _].
  apply (wp_closing_alert w c c2 n); try done.
  - destruct Hs1. by split.
  - destruct Hr1. by split.
  - apply Hroom1.
  - exact (eq_trans Hclock Hd1).
  - unfold closing_record. assert (Hby : closing_bytes c2 = closing_bytes c) by (unfold closing_bytes; simpl alerts; by rewrite A1).
    rewrite Hby. exact (typed_record_frame r k key iv TLS_ALERT _ _ n (closing_bytes c) F1).
Qed.

End ShutdownTheorems.
Abbreviation demo_shutdown := (@s2n_shutdown_send demo_platform demo_libcrypto demo_digests demo_ciphers demo_record_env demo_transport
  (demo_world, demo_sender)).
Example demo_closed :
  match demo_shutdown with
  | (Ok _, (_, c')) => alert_sent (alerts c') = true /\ outside c' = ([1; 2] ++ [23; 3; 3; 0; 19] ++
      demo_enc demo_aead_key [1; 2; 3; 4; 5; 6; 7; 8; 9; 10; 11; 11] [1; 0; 21] [23; 3; 3; 0; 19], 76%nat, [])
  | _ => False
  end.
Proof. vm_compute. done. Qed.

End IoTheorems.
Export IoTheorems.
