(* ===== verification/Prf.v ===== *)
(** * The transcript hashes, the PRF and the keys of TLS 1.2 and before

    tls/s2n_handshake_hashes.c, tls/s2n_handshake_transcript.c, the functions on
    hashes of tls/s2n_handshake.c, crypto/s2n_prf_libcrypto.c and tls/s2n_prf.c.
    Blobs that are read are lists of bytes.  The blob that a pseudorandom
    function writes is part of the state, because the code XORs into it. *)
From stdpp Require Import strings.
From S2P Require Import Prelude Errors CMem Safety Platform Blob Alloc Stuffer NetworkOrder HandshakeTables Connection HandshakeMessage HandshakeIO Libcrypto.
From S2P Require Import Hash Hmac HmacTheorems Hkdf Ciphers CipherSuites RecordState RecordRead RecordWrite IoState Alerts KeyUpdate.
Open Scope Z_scope.

Module Prf.

(** tls/s2n_crypto_constants.h, tls/s2n_prf.h and tls/s2n_handshake_transcript.c *)
Definition S2N_TLS_SECRET_LEN : Z := 48.
Definition S2N_TLS_RANDOM_DATA_LEN : Z := 32.
Definition S2N_TLS_FINISHED_LEN : Z := 12.
Definition S2N_MAX_KEY_BLOCK_LEN : Z := 160.
Definition MESSAGE_HASH_HEADER_LENGTH : Z := 4.

(** What libcrypto computes in FIPS mode.  A call is given the memory for its
    result, and returns whether it succeeds and what is in the memory then.
    The sizes of the two structs depend on the platform. *)
Class PrfEnv := {
  CRYPTO_tls1_prf : s2n_hash_algorithm -> list Z -> list Z -> list Z -> list Z -> list Z -> bool * list Z;  (* digest, out, secret, label, seed1, seed2 *)
  EVP_KDF_fetch : bool -> bool;  (* "TLS1-PRF", with the properties "-fips" or "" *)
  EVP_KDF_CTX_new : bool;
  EVP_KDF_derive : bool -> s2n_hash_algorithm -> list Z -> list (list Z) -> list Z -> bool * list Z;  (* properties, digest, secret, seeds, out *)
  sizeof_handshake_hashes : Z;
  sizeof_prf_working_space : Z;
}.

Section Definitions.
Context `{HP : Platform} `{HL : Libcrypto} `{HD : Digests} `{HE : HkdfEnv} `{HC : CipherEnv} `{HF : PrfEnv}.

(** ** tls/s2n_handshake_hashes.c *)

Record s2n_handshake_hashes := HandshakeHashes {
  hashes_mem : option ptr;  (* the memory of the struct *)
  md5 : s2n_hash_state;
  sha1 : s2n_hash_state;
  sha224 : s2n_hash_state;
  sha256 : s2n_hash_state;
  sha384 : s2n_hash_state;
  sha512 : s2n_hash_state;
  md5_sha1 : s2n_hash_state;
  transcript_hash_digest : list Z;  (* uint8_t[S2N_TLS13_SECRET_MAX_LEN] *)
  hash_workspace : s2n_hash_state;
}.
Definition md5_lens : lens s2n_handshake_hashes s2n_hash_state := Lens md5 (fun v x => HandshakeHashes (hashes_mem x) v (sha1 x) (sha224 x) (sha256 x) (sha384 x) (sha512 x) (md5_sha1 x) (transcript_hash_digest x) (hash_workspace x)).
Definition sha1_lens : lens s2n_handshake_hashes s2n_hash_state := Lens sha1 (fun v x => HandshakeHashes (hashes_mem x) (md5 x) v (sha224 x) (sha256 x) (sha384 x) (sha512 x) (md5_sha1 x) (transcript_hash_digest x) (hash_workspace x)).
Definition sha224_lens : lens s2n_handshake_hashes s2n_hash_state := Lens sha224 (fun v x => HandshakeHashes (hashes_mem x) (md5 x) (sha1 x) v (sha256 x) (sha384 x) (sha512 x) (md5_sha1 x) (transcript_hash_digest x) (hash_workspace x)).
Definition sha256_lens : lens s2n_handshake_hashes s2n_hash_state := Lens sha256 (fun v x => HandshakeHashes (hashes_mem x) (md5 x) (sha1 x) (sha224 x) v (sha384 x) (sha512 x) (md5_sha1 x) (transcript_hash_digest x) (hash_workspace x)).
Definition sha384_lens : lens s2n_handshake_hashes s2n_hash_state := Lens sha384 (fun v x => HandshakeHashes (hashes_mem x) (md5 x) (sha1 x) (sha224 x) (sha256 x) v (sha512 x) (md5_sha1 x) (transcript_hash_digest x) (hash_workspace x)).
Definition sha512_lens : lens s2n_handshake_hashes s2n_hash_state := Lens sha512 (fun v x => HandshakeHashes (hashes_mem x) (md5 x) (sha1 x) (sha224 x) (sha256 x) (sha384 x) v (md5_sha1 x) (transcript_hash_digest x) (hash_workspace x)).
Definition md5_sha1_lens : lens s2n_handshake_hashes s2n_hash_state := Lens md5_sha1 (fun v x => HandshakeHashes (hashes_mem x) (md5 x) (sha1 x) (sha224 x) (sha256 x) (sha384 x) (sha512 x) v (transcript_hash_digest x) (hash_workspace x)).
Definition hash_workspace_lens : lens s2n_handshake_hashes s2n_hash_state := Lens hash_workspace (fun v x => HandshakeHashes (hashes_mem x) (md5 x) (sha1 x) (sha224 x) (sha256 x) (sha384 x) (sha512 x) (md5_sha1 x) (transcript_hash_digest x) v).

(** A call on each of the states, in the order of the code. *)
Definition on_each_hash (c : s2n_hash_algorithm -> Cmd s2n_hash_state unit) : Cmd s2n_handshake_hashes unit :=
  zoom md5_lens (c S2N_HASH_MD5) ;;;
  zoom sha1_lens (c S2N_HASH_SHA1) ;;;
  zoom sha224_lens (c S2N_HASH_SHA224) ;;;
  zoom sha256_lens (c S2N_HASH_SHA256) ;;;
  zoom sha384_lens (c S2N_HASH_SHA384) ;;;
  zoom sha512_lens (c S2N_HASH_SHA512) ;;;
  zoom md5_sha1_lens (c S2N_HASH_MD5_SHA1) ;;;
  zoom hash_workspace_lens (c S2N_HASH_NONE).

Definition s2n_handshake_hashes_new_hashes : Cmd s2n_handshake_hashes unit := on_each_hash (fun _ => s2n_hash_new).
Definition s2n_handshake_hashes_reset_hashes : Cmd s2n_handshake_hashes unit := on_each_hash (fun _ => s2n_hash_reset).
Definition s2n_handshake_hashes_free_hashes : Cmd s2n_handshake_hashes unit := on_each_hash (fun _ => s2n_hash_free).
Definition s2n_handshake_hashes_init_hashes : Cmd s2n_handshake_hashes unit := on_each_hash s2n_hash_init.

(** A struct behind a pointer that is not NULL. *)
Definition on_object {X A} (c : Cmd X A) : Cmd (option X) A := fun '(w, o) =>
  match o with
  | None => (UB, (w, None))
  | Some x => let '(r, (w', x')) := c (w, x) in (r, (w', Some x'))
  end.

(** All bytes of the struct are zero. *)
Definition zero_handshake_hashes (p : option ptr) : s2n_handshake_hashes :=
  HandshakeHashes p zero_hash_state zero_hash_state zero_hash_state zero_hash_state zero_hash_state zero_hash_state zero_hash_state
    (repeat 0 (Z.to_nat S2N_TLS13_SECRET_MAX_LEN)) zero_hash_state.

(** Memory for a struct; what was allocated is freed if a call fails. *)
Definition new_object {X} (n : Z) : Cmd X (option ptr) :=
  m <-- try_local zero_blob (s2n_realloc n ;;; s2n_blob_zero) ;;
  match fst m with
  | inr e => try_local (snd m) s2n_free ;;; fail e
  | inl _ => ret (data (snd m))
  end.

(** The state is [*hashes].  If the second part fails, the struct stays with the caller. *)
Definition s2n_handshake_hashes_new : Cmd (option s2n_handshake_hashes) unit :=
  old <-- get_obj ;;
  ensure (match old with None => true | Some _ => false end) S2N_ERR_SAFETY ;;;
  p <-- new_object sizeof_handshake_hashes ;;
  put_obj (Some (zero_handshake_hashes p)) ;;;
  on_object s2n_handshake_hashes_new_hashes ;;;
  on_object s2n_handshake_hashes_init_hashes.

Definition s2n_handshake_hashes_wipe : Cmd (option s2n_handshake_hashes) unit :=
  h <-- get_obj ;;
  ensure_ref h ;;;
  on_object s2n_handshake_hashes_reset_hashes.

(** The free of the struct changes the pointer to NULL before it can fail. *)
Definition s2n_handshake_hashes_free : Cmd (option s2n_handshake_hashes) unit :=
  h <-- get_obj ;;
  match h with
  | None => ret tt
  | Some _ =>
      on_object s2n_handshake_hashes_free_hashes ;;;
      h <-- get_obj ;;
      r <-- try_local (h ≫= hashes_mem) (s2n_free_object sizeof_handshake_hashes) ;;
      (if is_null (snd r) then put_obj None else ret tt) ;;;
      guard_rc (fst r)
  end.

(** ** The connection *)

(** struct s2n_prf_working_space *)
Record s2n_prf_working_space := WorkingSpace {
  space_mem : option ptr;  (* the memory of the struct *)
  p_hash : s2n_hmac_state;  (* p_hash.s2n_hmac *)
  digest0 : list Z;  (* uint8_t[S2N_MAX_DIGEST_LEN] *)
  digest1 : list Z;  (* uint8_t[S2N_MAX_DIGEST_LEN] *)
}.
Definition p_hash_lens : lens s2n_prf_working_space s2n_hmac_state :=
  Lens p_hash (fun v x => WorkingSpace (space_mem x) v (digest0 x) (digest1 x)).
Definition set_digest0 (v : list Z) (x : s2n_prf_working_space) : s2n_prf_working_space := WorkingSpace (space_mem x) (p_hash x) v (digest1 x).
Definition set_digest1 (v : list Z) (x : s2n_prf_working_space) : s2n_prf_working_space := WorkingSpace (space_mem x) (p_hash x) (digest0 x) v.

(** The fields of struct s2n_connection that the functions of this file use.
    The cipher suite of the secure parameters is there if its record algorithm
    is; a connection has only its PRF algorithm and whether it is available. *)
Record prf_conn := PrfConn {
  prf_record : record_conn;  (* the fields of [RecordState] *)
  prf_space : option s2n_prf_working_space;
  hashes : option s2n_handshake_hashes;  (* handshake.hashes *)
  required_hash_algs : s2n_hash_algorithm -> bool;  (* handshake.required_hash_algs *)
  suite_prf_alg : s2n_hmac_algorithm;  (* secure->cipher_suite->prf_alg *)
  suite_available : bool;  (* secure->cipher_suite->available *)
  client_random : list Z;  (* handshake_params, uint8_t[32] *)
  server_random : list Z;  (* handshake_params, uint8_t[32] *)
  master_secret : list Z;  (* secrets.version.tls12, uint8_t[48] *)
  client_finished : list Z;  (* handshake, uint8_t[48] *)
  server_finished : list Z;  (* handshake, uint8_t[48] *)
  finished_len : Z;  (* handshake, uint8_t *)
  client_key_exchange_message : list Z;  (* kex_params *)
}.
Definition set_prf_record (v : record_conn) (x : prf_conn) : prf_conn := PrfConn v (prf_space x) (hashes x) (required_hash_algs x) (suite_prf_alg x) (suite_available x) (client_random x) (server_random x) (master_secret x) (client_finished x) (server_finished x) (finished_len x) (client_key_exchange_message x).
Definition set_prf_space (v : option s2n_prf_working_space) (x : prf_conn) : prf_conn := PrfConn (prf_record x) v (hashes x) (required_hash_algs x) (suite_prf_alg x) (suite_available x) (client_random x) (server_random x) (master_secret x) (client_finished x) (server_finished x) (finished_len x) (client_key_exchange_message x).
Definition set_hashes (v : option s2n_handshake_hashes) (x : prf_conn) : prf_conn := PrfConn (prf_record x) (prf_space x) v (required_hash_algs x) (suite_prf_alg x) (suite_available x) (client_random x) (server_random x) (master_secret x) (client_finished x) (server_finished x) (finished_len x) (client_key_exchange_message x).
Definition set_required_hash_algs (v : s2n_hash_algorithm -> bool) (x : prf_conn) : prf_conn := PrfConn (prf_record x) (prf_space x) (hashes x) v (suite_prf_alg x) (suite_available x) (client_random x) (server_random x) (master_secret x) (client_finished x) (server_finished x) (finished_len x) (client_key_exchange_message x).
Definition set_master_secret (v : list Z) (x : prf_conn) : prf_conn := PrfConn (prf_record x) (prf_space x) (hashes x) (required_hash_algs x) (suite_prf_alg x) (suite_available x) (client_random x) (server_random x) v (client_finished x) (server_finished x) (finished_len x) (client_key_exchange_message x).
Definition set_client_finished (v : list Z) (x : prf_conn) : prf_conn := PrfConn (prf_record x) (prf_space x) (hashes x) (required_hash_algs x) (suite_prf_alg x) (suite_available x) (client_random x) (server_random x) (master_secret x) v (server_finished x) (finished_len x) (client_key_exchange_message x).
Definition set_server_finished (v : list Z) (x : prf_conn) : prf_conn := PrfConn (prf_record x) (prf_space x) (hashes x) (required_hash_algs x) (suite_prf_alg x) (suite_available x) (client_random x) (server_random x) (master_secret x) (client_finished x) v (finished_len x) (client_key_exchange_message x).
Definition set_finished_len (v : Z) (x : prf_conn) : prf_conn := PrfConn (prf_record x) (prf_space x) (hashes x) (required_hash_algs x) (suite_prf_alg x) (suite_available x) (client_random x) (server_random x) (master_secret x) (client_finished x) (server_finished x) v (client_key_exchange_message x).

Definition prf_record_lens : lens prf_conn record_conn := Lens prf_record set_prf_record.
Definition hashes_lens : lens prf_conn (option s2n_handshake_hashes) := Lens hashes set_hashes.
Definition prf_space_lens : lens prf_conn (option s2n_prf_working_space) := Lens prf_space set_prf_space.
Definition master_secret_lens : lens prf_conn (list Z) := Lens master_secret set_master_secret.
Definition finished_lens (m : s2n_mode) : lens prf_conn (list Z) :=
  match m with S2N_CLIENT => Lens client_finished set_client_finished | S2N_SERVER => Lens server_finished set_server_finished end.
Definition conn_base_lens : lens prf_conn s2n_connection :=
  Lens (fun c => rbase (prf_record c)) (fun v c => set_prf_record (set_rbase v (prf_record c)) c).
Definition io_lens : lens s2n_connection s2n_stuffer :=
  Lens (fun c => handshake_io (handshake c)) (fun v c => set_handshake (set_handshake_io v (handshake c)) c).
Definition version (c : prf_conn) : Z := actual_protocol_version (rbase (prf_record c)).

(** [POSIX_ENSURE_REF(conn->handshake.hashes)] and a call on them. *)
Definition on_hashes {A} (cmd : Cmd s2n_handshake_hashes A) : Cmd prf_conn A :=
  c <-- get_obj ;;
  ensure_ref (hashes c) ;;;
  zoom hashes_lens (on_object cmd).

(** [POSIX_ENSURE_REF(conn->secure)], and down to the cipher. *)
Definition ensure_secure : Cmd prf_conn unit :=
  c <-- get_obj ;;
  ensure (negb (params_is_null SecureParams (prf_record c))) S2N_ERR_NULL.
Definition secure_alg : Cmd prf_conn s2n_record_algorithm :=
  ensure_secure ;;;
  p <-- zoom prf_record_lens (get_params SecureParams) ;;
  match params_alg p with Some a => ret a | None => fail S2N_ERR_NULL end.

(** ** The hashes of tls/s2n_handshake.c *)

Definition hash_lens (alg : s2n_hash_algorithm) : option (lens s2n_handshake_hashes s2n_hash_state) :=
  match alg with
  | S2N_HASH_MD5 => Some md5_lens
  | S2N_HASH_SHA1 => Some sha1_lens
  | S2N_HASH_SHA224 => Some sha224_lens
  | S2N_HASH_SHA256 => Some sha256_lens
  | S2N_HASH_SHA384 => Some sha384_lens
  | S2N_HASH_SHA512 => Some sha512_lens
  | S2N_HASH_MD5_SHA1 => Some md5_sha1_lens
  | S2N_HASH_NONE => None
  end.

(** A pointer to a state is the field that it points to. *)
Definition s2n_handshake_get_hash_state_ptr (alg : s2n_hash_algorithm) : Cmd prf_conn (lens s2n_handshake_hashes s2n_hash_state) :=
  c <-- get_obj ;;
  ensure_ref (hashes c) ;;;
  match hash_lens alg with Some l => ret l | None => fail S2N_ERR_HASH_INVALID_ALGORITHM end.

Definition s2n_handshake_reset_hash_state (alg : s2n_hash_algorithm) : Cmd prf_conn unit :=
  l <-- s2n_handshake_get_hash_state_ptr alg ;;
  on_hashes (zoom l s2n_hash_reset).

(** The copy goes to the workspace, as in all calls. *)
Definition s2n_handshake_copy_hash_state (alg : s2n_hash_algorithm) : Cmd prf_conn unit :=
  l <-- s2n_handshake_get_hash_state_ptr alg ;;
  on_hashes (h <-- get_obj ;; zoom hash_workspace_lens (s2n_hash_copy (lget l h))).

Definition s2n_handshake_require_all_hashes : Cmd prf_conn unit := modify (set_required_hash_algs (fun _ => true)).

Definition s2n_handshake_require_hash (alg : s2n_hash_algorithm) : Cmd prf_conn unit :=
  modify (fun c => set_required_hash_algs (fun a => bool_decide (a = alg) || required_hash_algs c a) c).

Definition s2n_handshake_is_hash_required (c : prf_conn) (alg : s2n_hash_algorithm) : bool := required_hash_algs c alg.

(** The number of an element of the enumeration message_type_t. *)
Definition message_number_of (m : message_type_t) : nat :=
  match list_find (fun x => x = m) all_message_types with Some (i, _) => i | None => O end.

Definition s2n_conn_update_required_handshake_hashes : Cmd prf_conn unit :=
  ensure_secure ;;;
  modify (set_required_hash_algs (fun _ => false)) ;;;
  handshake_message <-- zoom conn_base_lens active_message ;;
  let client_cert_verify_done := (message_number_of CLIENT_CERT_VERIFY <=? message_number_of handshake_message)%nat in
  c <-- get_obj ;;
  if bool_decide (s2n_connection_get_client_auth_type (rbase (prf_record c)) <> S2N_CERT_AUTH_NONE) && negb client_cert_verify_done then
    s2n_handshake_require_all_hashes
  else if (version c =? S2N_SSLv3) || (version c =? S2N_TLS10) || (version c =? S2N_TLS11) then
    s2n_handshake_require_hash S2N_HASH_MD5 ;;;
    s2n_handshake_require_hash S2N_HASH_SHA1
  else if (version c =? S2N_TLS12) || (version c =? S2N_TLS13) then
    s2n_handshake_require_hash (s2n_hmac_hash_alg (suite_prf_alg c))
  else ret tt.

Definition s2n_handshake_set_finished_len (len : Z) : Cmd prf_conn unit :=
  ensure (0 <? len) S2N_ERR_SAFETY ;;;
  ensure (len <=? S2N_TLS_SECRET_LEN) S2N_ERR_SAFETY ;;;
  modify (fun c => if finished_len c =? 0 then set_finished_len len c else c) ;;;
  c <-- get_obj ;;
  ensure (finished_len c =? len) S2N_ERR_SAFETY.

(** ** tls/s2n_handshake_transcript.c *)

Definition update_if (required : bool) (l : lens s2n_handshake_hashes s2n_hash_state) (bs : list Z) : Cmd s2n_handshake_hashes unit :=
  if required then zoom l (s2n_hash_update bs) else ret tt.

Definition s2n_conn_update_handshake_hashes (bs : list Z) : Cmd prf_conn unit :=
  c <-- get_obj ;;
  let required := s2n_handshake_is_hash_required c in
  on_hashes (
    update_if (required S2N_HASH_MD5) md5_lens bs ;;;
    update_if (required S2N_HASH_SHA1) sha1_lens bs ;;;
    update_if (required S2N_HASH_MD5 && required S2N_HASH_SHA1) md5_sha1_lens bs ;;;
    update_if (required S2N_HASH_SHA224) sha224_lens bs ;;;
    update_if (required S2N_HASH_SHA256) sha256_lens bs ;;;
    update_if (required S2N_HASH_SHA384) sha384_lens bs ;;;
    update_if (required S2N_HASH_SHA512) sha512_lens bs).

(** The message is the contents of handshake.io, read again from the start
    through a copy of the stuffer.  A NULL pointer from the read is an error of
    its own. *)
Definition s2n_handshake_transcript_update : Cmd prf_conn unit :=
  c <-- get_obj ;;
  message <-- with_local (handshake_io (handshake (rbase (prf_record c)))) s2n_stuffer_reread ;;
  let len := s2n_stuffer_data_available (snd message) in
  bytes <-- try_local (snd message) (s2n_stuffer_raw_read len) ;;
  match fst bytes with
  | inl (Some p) =>
      data <-- with_local zero_blob (s2n_blob_init (Some p) len) ;;
      bs <-- load p len ;;
      s2n_conn_update_handshake_hashes bs
  | inl None | inr _ => fail S2N_ERR_NULL
  end.

(** The body, with the keys of s2n_tls13_connection_keys. *)
Definition recreate_transcript : Cmd (prf_conn * s2n_tls13_keys) unit :=
  k <-- zoom snd_lens get_obj ;;
  let hash_digest_length := keys_size k in
  let msghdr := [TLS_MESSAGE_HASH; 0; 0; hash_digest_length] in
  zoom fst_lens (
    s2n_handshake_copy_hash_state (hash_algorithm k) ;;;
    client_hello1_digest_out <-- on_hashes (zoom hash_workspace_lens (s2n_hash_digest hash_digest_length)) ;;
    s2n_handshake_reset_hash_state (hash_algorithm k) ;;;
    s2n_conn_update_handshake_hashes msghdr ;;;
    s2n_conn_update_handshake_hashes client_hello1_digest_out).

(** The keys are freed at the end whatever the result. *)
Definition s2n_server_hello_retry_recreate_transcript : Cmd prf_conn unit := fun '(w, c) =>
  let '(r, (w1, (c1, k1))) :=
    (ensure_ref (hashes c) ;;;
     zoom fst_lens (zoom prf_record_lens (get_params SecureParams)) ;;;
     zoom snd_lens (s2n_tls13_keys_init (suite_prf_alg c)) ;;;
     recreate_transcript) (w, (c, zero_keys zero_hmac_state)) in
  match r with
  | UB => (UB, (w1, c1))
  | _ => (try_local k1 s2n_tls13_keys_free ;;; (fun s => (r, s))) (w1, c1)
  end.

(** ** tls/s2n_prf.c: P_hash *)

(** struct s2n_p_hash_hmac; s2n_internal_p_hash_hmac is the only object of the type. *)
Definition s2n_hmac_p_hash_new : Cmd s2n_prf_working_space unit :=
  zoom p_hash_lens s2n_hmac_new ;;;
  zoom p_hash_lens (s2n_hmac_init S2N_HMAC_NONE []).
Definition s2n_hmac_p_hash_init (alg : s2n_hmac_algorithm) (secret : list Z) : Cmd s2n_prf_working_space unit :=
  zoom p_hash_lens (s2n_hmac_init alg secret).
Definition s2n_hmac_p_hash_update (bs : list Z) : Cmd s2n_prf_working_space unit := zoom p_hash_lens (s2n_hmac_update bs).
Definition s2n_hmac_p_hash_digest (size : Z) : Cmd s2n_prf_working_space (list Z) := zoom p_hash_lens (s2n_hmac_digest size).
Definition s2n_hmac_p_hash_reset : Cmd s2n_prf_working_space unit :=
  ws <-- get_obj ;;
  if negb (hash_block_size (p_hash ws) =? 0) then zoom p_hash_lens s2n_hmac_reset else ret tt.
Definition s2n_hmac_p_hash_cleanup : Cmd s2n_prf_working_space unit := s2n_hmac_p_hash_reset.
Definition s2n_hmac_p_hash_free : Cmd s2n_prf_working_space unit := zoom p_hash_lens s2n_hmac_free.

(** The first bytes of digest0, as an argument and as the place of a result. *)
Definition update_digest0 (digest_size : Z) : Cmd s2n_prf_working_space unit :=
  ws <-- get_obj ;;
  s2n_hmac_p_hash_update (take (Z.to_nat digest_size) (digest0 ws)).
Definition final_digest0 (digest_size : Z) : Cmd s2n_prf_working_space unit :=
  d <-- s2n_hmac_p_hash_digest digest_size ;;
  modify (fun ws => set_digest0 (overwrite d (digest0 ws)) ws).

(** Seeds: the third is used only with the second. *)
Definition update_seeds (label seed_a : list Z) (seed_b seed_c : option (list Z)) : Cmd s2n_prf_working_space unit :=
  s2n_hmac_p_hash_update label ;;;
  s2n_hmac_p_hash_update seed_a ;;;
  match seed_b with
  | None => ret tt
  | Some b =>
      s2n_hmac_p_hash_update b ;;;
      match seed_c with None => ret tt | Some c => s2n_hmac_p_hash_update c end
  end.

(** [out] with [bs] XORed into the bytes from [pos] on. *)
Definition xor_at (pos : Z) (bs out : list Z) : list Z :=
  zsplice out pos (zip_with Z.lxor (drop (Z.to_nat pos) out) bs).

(** The while loop; [pos] bytes of [out] are done. *)
Fixpoint p_hash_loop (fuel : nat) (digest_size : Z) (label seed_a : list Z) (seed_b seed_c : option (list Z)) (pos : Z)
    : Cmd (s2n_prf_working_space * list Z) unit :=
  out <-- zoom snd_lens get_obj ;;
  let outputlen := zlen out - pos in
  if outputlen =? 0 then ret tt
  else match fuel with
  | O => undefined
  | S fuel' =>
      zoom fst_lens (
        s2n_hmac_p_hash_reset ;;;
        update_digest0 digest_size ;;;
        update_seeds label seed_a seed_b seed_c ;;;
        d <-- s2n_hmac_p_hash_digest digest_size ;;
        modify (fun ws => set_digest1 (overwrite d (digest1 ws)) ws)) ;;;
      let bytes_to_xor := Z.min outputlen digest_size in
      modify (fun '(ws, out) => (ws, xor_at pos (take (Z.to_nat bytes_to_xor) (digest1 ws)) out)) ;;;
      zoom fst_lens (
        s2n_hmac_p_hash_reset ;;;
        update_digest0 digest_size ;;;
        final_digest0 digest_size) ;;;
      p_hash_loop fuel' digest_size label seed_a seed_b seed_c (pos + bytes_to_xor)
  end.

(** Every iteration writes a byte, so that the size of [out] is enough fuel; an
    algorithm without a digest would loop forever. *)
Definition s2n_p_hash (alg : s2n_hmac_algorithm) (secret label seed_a : list Z) (seed_b seed_c : option (list Z))
    : Cmd (s2n_prf_working_space * list Z) unit :=
  let digest_size := s2n_hmac_digest_size alg in
  zoom fst_lens (
    s2n_hmac_p_hash_init alg secret ;;;
    update_seeds label seed_a seed_b seed_c ;;;
    final_digest0 digest_size) ;;;
  out <-- zoom snd_lens get_obj ;;
  p_hash_loop (length out) digest_size label seed_a seed_b seed_c 0 ;;;
  zoom fst_lens s2n_hmac_p_hash_cleanup.

(** ** The working space *)

Definition s2n_prf_new : Cmd prf_conn unit :=
  c <-- get_obj ;;
  ensure (match prf_space c with None => true | Some _ => false end) S2N_ERR_SAFETY ;;;
  p <-- new_object sizeof_prf_working_space ;;
  let zero_digest := repeat 0 (Z.to_nat S2N_MAX_DIGEST_LEN) in
  modify (set_prf_space (Some (WorkingSpace p zero_hmac_state zero_digest zero_digest))) ;;;
  zoom prf_space_lens (on_object s2n_hmac_p_hash_new).

Definition s2n_prf_wipe : Cmd prf_conn unit :=
  c <-- get_obj ;;
  ensure_ref (prf_space c) ;;;
  zoom prf_space_lens (on_object s2n_hmac_p_hash_reset).

Definition s2n_prf_free : Cmd prf_conn unit :=
  c <-- get_obj ;;
  match prf_space c with
  | None => ret tt
  | Some _ =>
      zoom prf_space_lens (on_object s2n_hmac_p_hash_free) ;;;
      c <-- get_obj ;;
      r <-- try_local (prf_space c ≫= space_mem) (s2n_free_object sizeof_prf_working_space) ;;
      (if is_null (snd r) then modify (set_prf_space None) else ret tt) ;;;
      guard_rc (fst r)
  end.

(** ** The pseudorandom functions *)

(** The hash of one iteration for SSLv3: 'A', 'BB', ... and the arguments. *)
Definition sslv3_round (A iteration : Z) (secret seed_a : list Z) (seed_b seed_c : option (list Z)) : Cmd s2n_hash_state (list Z) :=
  s2n_hash_reset ;;;
  s2n_hash_init S2N_HASH_SHA1 ;;;
  Nat.iter (Z.to_nat iteration) (fun c => s2n_hash_update [A] ;;; c) (ret tt) ;;;
  s2n_hash_update secret ;;;
  s2n_hash_update seed_a ;;;
  (match seed_b with
   | None => ret tt
   | Some b =>
       s2n_hash_update b ;;;
       match seed_c with None => ret tt | Some c => s2n_hash_update c end
   end) ;;;
  sha_digest <-- s2n_hash_digest SHA_DIGEST_LENGTH ;;
  s2n_hash_reset ;;;
  s2n_hash_init S2N_HASH_MD5 ;;;
  s2n_hash_update secret ;;;
  s2n_hash_update sha_digest ;;;
  s2n_hash_digest MD5_DIGEST_LENGTH.

Fixpoint prf_sslv3_loop (fuel : nat) (A iteration : Z) (secret seed_a : list Z) (seed_b seed_c : option (list Z)) (pos : Z)
    : Cmd (s2n_hash_state * list Z) unit :=
  out <-- zoom snd_lens get_obj ;;
  let outputlen := zlen out - pos in
  if outputlen =? 0 then ret tt
  else match fuel with
  | O => undefined
  | S fuel' =>
      md5_digest <-- zoom fst_lens (sslv3_round A iteration secret seed_a seed_b seed_c) ;;
      let bytes_to_copy := Z.min outputlen MD5_DIGEST_LENGTH in
      modify (fun '(h, out) => (h, zsplice out pos (take (Z.to_nat bytes_to_copy) md5_digest))) ;;;
      prf_sslv3_loop fuel' (u8 (A + 1)) (u8 (iteration + 1)) secret seed_a seed_b seed_c (pos + bytes_to_copy)
  end.

(** A call on the hashes or the working space of the connection and on [out]. *)
Definition on_field {X Y B A} (l : lens X Y) (c : Cmd (Y * B) A) : Cmd (X * B) A := fun '(w, (x, b)) =>
  let '(r, (w', (y, b'))) := c (w, (lget l x, b)) in (r, (w', (lset l y x, b'))).
Definition on_object_with {X B A} (c : Cmd (X * B) A) : Cmd (option X * B) A := fun '(w, (o, b)) =>
  match o with
  | None => (UB, (w, (None, b)))
  | Some x => let '(r, (w', (x', b'))) := c (w, (x, b)) in (r, (w', (Some x', b')))
  end.

Definition s2n_prf_sslv3 (secret seed_a : list Z) (seed_b seed_c : option (list Z)) : Cmd (prf_conn * list Z) unit :=
  st <-- get_obj ;;
  ensure_ref (hashes (fst st)) ;;;
  on_field hashes_lens (on_object_with (on_field hash_workspace_lens (
    prf_sslv3_loop (length (snd st)) 65 1 secret seed_a seed_b seed_c 0))).

Definition on_prf_space {A} (c : Cmd (s2n_prf_working_space * list Z) A) : Cmd (prf_conn * list Z) A :=
  on_field prf_space_lens (on_object_with c).

Definition s2n_prf_custom (secret label seed_a : list Z) (seed_b seed_c : option (list Z)) : Cmd (prf_conn * list Z) unit :=
  zoom snd_lens (modify (map (fun _ => 0))) ;;;
  c <-- zoom fst_lens get_obj ;;
  if version c =? S2N_TLS12 then on_prf_space (s2n_p_hash (suite_prf_alg c) secret label seed_a seed_b seed_c)
  else
    let half := u32 (zlen secret + 1) / 2 in
    on_prf_space (s2n_p_hash S2N_HMAC_MD5 (take (Z.to_nat half) secret) label seed_a seed_b seed_c) ;;;
    on_prf_space (s2n_p_hash S2N_HMAC_SHA1 (take (Z.to_nat half) (drop (Z.to_nat (zlen secret - half)) secret)) label seed_a seed_b seed_c).

(** ** crypto/s2n_prf_libcrypto.c *)

(** Two seeds in one, in memory that is freed at the end whatever the result. *)
Definition concat_seeds {X} (b c : list Z) : Cmd X (list Z) :=
  r <-- try_local zero_stuffer (
    s2n_stuffer_alloc (u32 (zlen b + zlen c)) ;;;
    s2n_stuffer_write_bytes (LocalBuf b) (zlen b) ;;;
    s2n_stuffer_write_bytes (LocalBuf c) (zlen c) ;;;
    s <-- get_obj ;;
    p <-- s2n_stuffer_raw_read (s2n_stuffer_data_available s) ;;
    match p with Some q => load q (s2n_stuffer_data_available s) | None => fail S2N_ERR_NULL end) ;;
  try_local (snd r) s2n_stuffer_free ;;;
  guard_rc (fst r).

(** The result of a call of libcrypto that wrote to [out]. *)
Definition derive (f : list Z -> bool * list Z) : Cmd (list Z) unit :=
  out <-- get_obj ;;
  put_obj (snd (f out)) ;;;
  ensure (fst (f out)) S2N_ERR_PRF_DERIVE.

Definition prf_awslc (secret label seed_a : list Z) (seed_b seed_c : option (list Z)) : Cmd (prf_conn * list Z) unit :=
  c <-- zoom fst_lens get_obj ;;
  digest <-- (if version c <? S2N_TLS12 then ret S2N_HASH_MD5_SHA1 else s2n_hmac_md_from_alg (suite_prf_alg c)) ;;
  seed2 <-- (match seed_b, seed_c with
             | None, _ => ret []
             | Some b, None => ret b
             | Some b, Some c => concat_seeds b c
             end) ;;
  zoom snd_lens (derive (fun out => CRYPTO_tls1_prf digest out secret label seed_a seed2)).

(** The sizes of the blobs are added as uint32_t. *)
Definition prf_openssl3 (secret label seed_a : list Z) (seed_b seed_c : option (list Z)) : Cmd (prf_conn * list Z) unit :=
  c <-- zoom fst_lens get_obj ;;
  let seed_b := default [] seed_b in
  let seed_c := default [] seed_c in
  ensure (u32 (zlen label + zlen seed_a + zlen seed_b + zlen seed_c) <=? 1024) S2N_ERR_PRF_INVALID_SEED ;;;
  let not_fips := negb (version c =? S2N_TLS12) in
  digest <-- (if version c =? S2N_TLS12 then
                zoom fst_lens secure_alg ;;;
                s2n_hmac_md_from_alg (suite_prf_alg c)
              else ret S2N_HASH_MD5_SHA1) ;;
  ensure (EVP_KDF_fetch not_fips) S2N_ERR_PRF_INVALID_ALGORITHM ;;;
  ensure EVP_KDF_CTX_new S2N_ERR_NULL ;;;
  zoom snd_lens (derive (EVP_KDF_derive not_fips digest secret [label; seed_a; seed_b; seed_c])).

(** One of three functions, by the libcrypto of the build. *)
Definition s2n_prf_libcrypto (secret label seed_a : list Z) (seed_b seed_c : option (list Z)) : Cmd (prf_conn * list Z) unit :=
  if OPENSSL_IS_AWSLC then prf_awslc secret label seed_a seed_b seed_c
  else if S2N_OPENSSL_VERSION_AT_LEAST 3 0 0 then prf_openssl3 secret label seed_a seed_b seed_c
  else fail S2N_ERR_FIPS_MODE_UNSUPPORTED.

(** ** s2n_prf *)

Definition s2n_prf (secret label : list Z) (seed_a seed_b seed_c : option (list Z)) : Cmd (prf_conn * list Z) unit :=
  zoom fst_lens secure_alg ;;;
  c <-- zoom fst_lens get_obj ;;
  ensure_ref (prf_space c) ;;;
  match seed_a with
  | None => fail S2N_ERR_PRF_INVALID_SEED
  | Some seed_a =>
      ensure (match seed_c, seed_b with Some _, None => false | _, _ => true end) S2N_ERR_PRF_INVALID_SEED ;;;
      if version c =? S2N_SSLv3 then s2n_prf_sslv3 secret seed_a seed_b seed_c
      else if s2n_is_in_fips_mode then s2n_prf_libcrypto secret label seed_a seed_b seed_c
      else s2n_prf_custom secret label seed_a seed_b seed_c
  end.

(** The blob [out] is the first [n] bytes of an array of the connection. *)
Definition prf_into {A} (l : lens prf_conn (list Z)) (n : Z) (c : Cmd (prf_conn * list Z) A) : Cmd prf_conn A := fun '(w, x) =>
  let '(r, (w', (x', out))) := c (w, (x, take (Z.to_nat n) (lget l x))) in
  (r, (w', lset l (overwrite out (lget l x')) x')).

(** ** The master secret *)

Definition s2n_prf_tls_master_secret (premaster_secret : list Z) : Cmd prf_conn unit :=
  c <-- get_obj ;;
  prf_into master_secret_lens S2N_TLS_SECRET_LEN
    (s2n_prf premaster_secret (label "master secret") (Some (client_random c)) (Some (server_random c)) None).

Definition s2n_prf_hybrid_master_secret (premaster_secret : list Z) : Cmd prf_conn unit :=
  c <-- get_obj ;;
  prf_into master_secret_lens S2N_TLS_SECRET_LEN
    (s2n_prf premaster_secret (label "hybrid master secret") (Some (client_random c)) (Some (server_random c))
       (Some (client_key_exchange_message c))).

Definition s2n_prf_tls_extended_master_secret (premaster_secret session_hash : list Z) (sha1_hash : option (list Z)) : Cmd prf_conn unit :=
  prf_into master_secret_lens S2N_TLS_SECRET_LEN
    (s2n_prf premaster_secret (label "extended master secret") (Some session_hash) sha1_hash None).

(** The blob for the result is an array of S2N_MAX_DIGEST_LEN bytes. *)
Definition s2n_prf_get_digest_for_ems (message : list Z) (alg : s2n_hash_algorithm) : Cmd prf_conn (list Z) :=
  c <-- get_obj ;;
  ensure_ref (hashes c) ;;;
  s2n_handshake_copy_hash_state alg ;;;
  on_hashes (zoom hash_workspace_lens (s2n_hash_update message)) ;;;
  let digest_size := s2n_hash_digest_size alg in
  ensure (digest_size <=? S2N_MAX_DIGEST_LEN) S2N_ERR_SAFETY ;;;
  on_hashes (zoom hash_workspace_lens (s2n_hash_digest digest_size)).

Definition s2n_prf_calculate_master_secret (premaster_secret : list Z) : Cmd prf_conn unit :=
  ensure_secure ;;;
  message <-- zoom conn_base_lens active_message ;;
  ensure (bool_decide (message = CLIENT_KEY)) S2N_ERR_SAFETY ;;;
  c <-- get_obj ;;
  if negb (ems_negotiated (rbase (prf_record c))) then s2n_prf_tls_master_secret premaster_secret
  else
    (if bool_decide (mode (rbase (prf_record c)) = S2N_CLIENT) then zoom conn_base_lens (zoom io_lens s2n_handshake_finish_header) else ret tt) ;;;
    io <-- zoom conn_base_lens (zoom io_lens get_obj) ;;
    client_key_message <-- with_local io s2n_stuffer_reread ;;
    let client_key_message_size := s2n_stuffer_data_available (snd client_key_message) in
    client_key_blob <-- with_local zero_blob (s2n_blob_init (data (blob (snd client_key_message))) client_key_message_size) ;;
    client_key <-- load_buf (HeapBuf (data (snd client_key_blob))) (size (snd client_key_blob)) ;;
    if version c <? S2N_TLS12 then
      digest <-- s2n_prf_get_digest_for_ems client_key S2N_HASH_MD5 ;;
      sha1_digest <-- s2n_prf_get_digest_for_ems client_key S2N_HASH_SHA1 ;;
      s2n_prf_tls_extended_master_secret premaster_secret digest (Some sha1_digest)
    else
      digest <-- s2n_prf_get_digest_for_ems client_key (s2n_hmac_hash_alg (suite_prf_alg c)) ;;
      s2n_prf_tls_extended_master_secret premaster_secret digest None.

(** ** The finished messages *)

(** One of the two digests for SSLv3, at [pos] of [out]; [pad] bytes of the pads are used. *)
Definition sslv3_finished_digest (m : s2n_mode) (prefix : list Z) (src : s2n_handshake_hashes -> s2n_hash_state) (pad pos size : Z)
    : Cmd prf_conn unit :=
  c <-- get_obj ;;
  let store d := modify (fun c => lset (finished_lens m) (zsplice (lget (finished_lens m) c) pos d) c) in
  let on_workspace {A} (cmd : Cmd s2n_hash_state A) := on_hashes (zoom hash_workspace_lens cmd) in
  on_hashes (h <-- get_obj ;; zoom hash_workspace_lens (s2n_hash_copy (src h))) ;;;
  on_workspace (s2n_hash_update prefix) ;;;
  on_workspace (s2n_hash_update (master_secret c)) ;;;
  on_workspace (s2n_hash_update (repeat 0x36 (Z.to_nat pad))) ;;;
  d <-- on_workspace (s2n_hash_digest size) ;;
  store d ;;;
  on_workspace s2n_hash_reset ;;;
  on_workspace (s2n_hash_update (master_secret c)) ;;;
  on_workspace (s2n_hash_update (repeat 0x5c (Z.to_nat pad))) ;;;
  c <-- get_obj ;;
  on_workspace (s2n_hash_update (take (Z.to_nat size) (drop (Z.to_nat pos) (lget (finished_lens m) c)))) ;;;
  d <-- on_workspace (s2n_hash_digest size) ;;
  store d ;;;
  on_workspace s2n_hash_reset.

Definition s2n_prf_sslv3_finished (m : s2n_mode) (prefix : list Z) : Cmd prf_conn unit :=
  c <-- get_obj ;;
  ensure_ref (hashes c) ;;;
  s2n_handshake_set_finished_len (MD5_DIGEST_LENGTH + SHA_DIGEST_LENGTH) ;;;
  sslv3_finished_digest m prefix md5 48 0 MD5_DIGEST_LENGTH ;;;
  sslv3_finished_digest m prefix sha1 40 MD5_DIGEST_LENGTH SHA_DIGEST_LENGTH.

Definition s2n_prf_sslv3_client_finished : Cmd prf_conn unit := s2n_prf_sslv3_finished S2N_CLIENT [0x43; 0x4c; 0x4e; 0x54].
Definition s2n_prf_sslv3_server_finished : Cmd prf_conn unit := s2n_prf_sslv3_finished S2N_SERVER [0x53; 0x52; 0x56; 0x52].

(** The digest of the transcript so far, by way of the workspace. *)
Definition transcript_digest (src : s2n_handshake_hashes -> s2n_hash_state) (size : Z) : Cmd prf_conn (list Z) :=
  on_hashes (
    h <-- get_obj ;;
    zoom hash_workspace_lens (s2n_hash_copy (src h)) ;;;
    zoom hash_workspace_lens (s2n_hash_digest size)).

(** s2n_prf_client_finished and s2n_prf_server_finished differ in the label and in the array. *)
Definition prf_finished (m : s2n_mode) (name : list Z) (sslv3 : Cmd prf_conn unit) : Cmd prf_conn unit :=
  ensure_secure ;;;
  c <-- get_obj ;;
  ensure_ref (hashes c) ;;;
  if version c =? S2N_SSLv3 then sslv3
  else
    s2n_handshake_set_finished_len S2N_TLS_FINISHED_LEN ;;;
    if version c =? S2N_TLS12 then
      sha <-- (match suite_prf_alg c with
               | S2N_HMAC_SHA256 => transcript_digest sha256 SHA256_DIGEST_LENGTH
               | S2N_HMAC_SHA384 => transcript_digest sha384 SHA384_DIGEST_LENGTH
               | _ => fail S2N_ERR_PRF_INVALID_ALGORITHM
               end) ;;
      prf_into (finished_lens m) S2N_TLS_FINISHED_LEN (s2n_prf (master_secret c) name (Some sha) None None)
    else
      md5 <-- transcript_digest md5 MD5_DIGEST_LENGTH ;;
      sha <-- transcript_digest sha1 SHA_DIGEST_LENGTH ;;
      prf_into (finished_lens m) S2N_TLS_FINISHED_LEN (s2n_prf (master_secret c) name (Some md5) (Some sha) None).

Definition s2n_prf_client_finished : Cmd prf_conn unit :=
  prf_finished S2N_CLIENT (label "client finished") s2n_prf_sslv3_client_finished.
Definition s2n_prf_server_finished : Cmd prf_conn unit :=
  prf_finished S2N_SERVER (label "server finished") s2n_prf_sslv3_server_finished.

(** ** The keys of the connection *)

(** A blob into the key block: where it starts, and its size. *)
Definition key_slice : Type := Z * Z.

Record s2n_key_material := KeyMaterial {
  key_block : list Z;  (* uint8_t[S2N_MAX_KEY_BLOCK_LEN] *)
  client_mac : key_slice;
  server_mac : key_slice;
  client_key : key_slice;
  server_key : key_slice;
  client_iv : key_slice;
  server_iv : key_slice;
}.
Definition zero_key_material : s2n_key_material :=
  KeyMaterial (repeat 0 (Z.to_nat S2N_MAX_KEY_BLOCK_LEN)) (0, 0) (0, 0) (0, 0) (0, 0) (0, 0) (0, 0).
Definition slice_bytes (k : s2n_key_material) (s : key_slice) : list Z := take (Z.to_nat (snd s)) (drop (Z.to_nat (fst s)) (key_block k)).

(** s2n_stuffer_raw_read on the key block, and the check of its result; the state is the cursor. *)
Definition take_slice (n : Z) : Cmd Z key_slice :=
  cursor <-- get_obj ;;
  ensure (n <=? S2N_MAX_KEY_BLOCK_LEN - cursor) S2N_ERR_NULL ;;;
  put_obj (cursor + n) ;;;
  ret (cursor, n).

(** Only AEAD ciphers have implicit IVs for TLS >= 1.1. *)
Definition implicit_iv_size (v : Z) (i : cipher_io) : Z :=
  match i with
  | S2N_AEAD _ fixed_iv_size _ => fixed_iv_size
  | S2N_CBC block_size _ => if v <=? S2N_TLS10 then block_size else 0
  | S2N_COMPOSITE block_size _ _ => if v <=? S2N_TLS10 then block_size else 0
  | S2N_STREAM => 0
  end.

Definition key_mac_size (alg : s2n_record_algorithm) : Z :=
  match io (cipher alg) with
  | S2N_COMPOSITE _ _ mac_key_size => mac_key_size
  | _ => s2n_hmac_digest_size (hmac_alg alg)
  end.

Definition s2n_key_material_init : Cmd (prf_conn * s2n_key_material) unit :=
  alg <-- zoom fst_lens secure_alg ;;
  c <-- zoom fst_lens get_obj ;;
  let mac_size := key_mac_size alg in
  let key_size := key_material_size (cipher alg) in
  let iv_size := implicit_iv_size (version c) (io (cipher alg)) in
  slices <-- with_local 0 (
    cm <-- take_slice mac_size ;;
    sm <-- take_slice mac_size ;;
    ck <-- take_slice key_size ;;
    sk <-- take_slice key_size ;;
    ci <-- take_slice iv_size ;;
    si <-- take_slice iv_size ;;
    ret (cm, sm, ck, sk, ci, si)) ;;
  let '(cm, sm, ck, sk, ci, si) := fst slices in
  zoom snd_lens (modify (fun k => KeyMaterial (key_block k) cm sm ck sk ci si)).

Definition s2n_prf_generate_key_material : Cmd (prf_conn * s2n_key_material) unit :=
  c <-- zoom fst_lens get_obj ;;
  s2n_key_material_init ;;;
  fun '(w, (c', k)) =>
    let '(r, (w', (c'', out))) :=
      s2n_prf (master_secret c) (label "key expansion") (Some (server_random c)) (Some (client_random c)) None (w, (c', key_block k)) in
    (r, (w', (c'', KeyMaterial out (client_mac k) (server_mac k) (client_key k) (server_key k) (client_iv k) (server_iv k)))).

(** The init member of the cipher objects. *)
Definition cipher_init (c : s2n_cipher) : Cmd s2n_session_key unit :=
  match io c with
  | S2N_STREAM => if is_cipher c s2n_rc4 then s2n_stream_cipher_rc4_init else ret tt
  | S2N_CBC _ _ => if is_cipher c s2n_3des then s2n_cbc_cipher_3des_init else s2n_cbc_cipher_aes_init
  | S2N_AEAD _ _ _ => if is_cipher c s2n_chacha20_poly1305 then s2n_aead_chacha20_poly1305_init else s2n_aead_cipher_aes_gcm_init
  | S2N_COMPOSITE _ _ _ => s2n_composite_cipher_aes_sha_init
  end.

(** The member io.comp.set_mac_write_key. *)
Definition set_mac_write_key (c : s2n_cipher) : list Z -> Cmd s2n_session_key unit :=
  if is_cipher c s2n_aes128_sha256 || is_cipher c s2n_aes256_sha256 then s2n_composite_cipher_aes_sha256_set_mac_write_key
  else s2n_composite_cipher_aes_sha_set_mac_write_key.

Definition on_secure {A} (m : s2n_mode) (cmd : Cmd crypto_side A) : Cmd prf_conn A := zoom prf_record_lens (on_side SecureParams m cmd).

(** A side encrypts with its own key and decrypts with the other. *)
Definition make_key (m : s2n_mode) (key : list Z) : Cmd prf_conn unit :=
  alg <-- secure_alg ;;
  c <-- get_obj ;;
  on_secure m (zoom session_key_lens
    (if bool_decide (mode (rbase (prf_record c)) = m) then set_encryption_key (cipher alg) key else set_decryption_key (cipher alg) key)).
Definition s2n_prf_make_client_key (k : s2n_key_material) : Cmd prf_conn unit := make_key S2N_CLIENT (slice_bytes k (client_key k)).
Definition s2n_prf_make_server_key (k : s2n_key_material) : Cmd prf_conn unit := make_key S2N_SERVER (slice_bytes k (server_key k)).

(** The MAC state of a side, with its key. *)
Definition seed_mac (m : s2n_mode) (alg : s2n_record_algorithm) (key : list Z) : Cmd prf_conn unit :=
  on_secure m (zoom record_mac_lens s2n_hmac_reset) ;;;
  on_secure m (zoom record_mac_lens (s2n_hmac_init (hmac_alg alg) key)).

(** The part of the function after the key material is there. *)
Definition install_key_material (alg : s2n_record_algorithm) (k : s2n_key_material) : Cmd prf_conn unit :=
  c <-- get_obj ;;
  ensure (suite_available c) S2N_ERR_PRF_INVALID_ALGORITHM ;;;
  on_secure S2N_CLIENT (zoom session_key_lens (cipher_init (cipher alg))) ;;;
  on_secure S2N_SERVER (zoom session_key_lens (cipher_init (cipher alg))) ;;;
  seed_mac S2N_CLIENT alg (slice_bytes k (client_mac k)) ;;;
  seed_mac S2N_SERVER alg (slice_bytes k (server_mac k)) ;;;
  s2n_prf_make_client_key k ;;;
  s2n_prf_make_server_key k ;;;
  (match io (cipher alg) with
   | S2N_COMPOSITE _ _ _ =>
       on_secure S2N_CLIENT (zoom session_key_lens (set_mac_write_key (cipher alg) (slice_bytes k (client_mac k)))) ;;;
       on_secure S2N_SERVER (zoom session_key_lens (set_mac_write_key (cipher alg) (slice_bytes k (server_mac k))))
   | _ => ret tt
   end) ;;;
  ensure (snd (client_iv k) =? snd (server_iv k)) S2N_ERR_SAFETY ;;;
  ensure (snd (client_iv k) <=? S2N_TLS_MAX_IV_LEN) S2N_ERR_SAFETY ;;;
  on_secure S2N_CLIENT (modify (fun s => lset implicit_iv_lens (overwrite (slice_bytes k (client_iv k)) (implicit_iv s)) s)) ;;;
  on_secure S2N_SERVER (modify (fun s => lset implicit_iv_lens (overwrite (slice_bytes k (server_iv k)) (implicit_iv s)) s)).

Definition s2n_prf_key_expansion : Cmd prf_conn unit :=
  alg <-- secure_alg ;;
  k <-- (fun '(w, c) =>
    let '(r, (w', (c', k))) := s2n_prf_generate_key_material (w, (c, zero_key_material)) in
    (match r with Ok _ => Ok k | Err e => Err e | UB => UB end, (w', c'))) ;;
  install_key_material alg k.
End Definitions.
End Prf.
Export Prf.
