(* ===== verification/PrfTheorems.v ===== *)
(** * The PRF computes the functions of the RFCs

    s2n_prf is the PRF of RFC 5246 5 (TLS 1.2), of RFC 2246 5 (TLS 1.0 and 1.1)
    or the key derivation of RFC 6101 6.2.2 (SSLv3), and the finished messages
    and the keys of a connection are computed with it. *)
From stdpp Require Import strings.
From S2P Require Import Prelude Errors CMem Safety Platform Blob Alloc Stuffer StufferInv NetworkOrder HandshakeTables Connection HandshakeTypes HandshakeMessage HandshakeIO Libcrypto.
From S2P Require Import Hash Hmac HmacTheorems Hkdf Ciphers CipherSuites RecordState RecordRead RecordWrite RecordSizes RecordAead RecordDemo IoState Alerts KeyUpdate KeyUpdateTheorems Prf.
Open Scope list_scope.
Open Scope Z_scope.

Module PrfTheorems.

Section Theorems.
Context `{HP : Platform} `{HL : Libcrypto} `{HD : Digests} `{HOK : !DigestsOk} `{HE : HkdfEnv} `{HC : CipherEnv} `{HF : PrfEnv}.
Implicit Types (w : world) (alg : s2n_hmac_algorithm) (secret seed name m out d : list Z) (ws : s2n_prf_working_space) (c : prf_conn).

(** ** The functions of the RFCs *)

(** RFC 5246 5: A(0) = seed and A(i) = HMAC_hash(secret, A(i-1)); P_hash is
    HMAC_hash(secret, A(1) + seed) + HMAC_hash(secret, A(2) + seed) + ... *)
Definition A_ alg secret seed (i : nat) : list Z := Nat.iter i (hmac alg secret) seed.
Definition p_block alg secret seed (i : nat) : list Z := hmac alg secret (A_ alg secret seed i ++ seed).
Definition P_hash alg secret seed (n : nat) : list Z := take n (mjoin (map (p_block alg secret seed) (seq 1 n))).

(** RFC 2246 5: S1 and S2 are the halves of the secret; they share a byte if its size is odd. *)
Definition half secret : nat := Nat.div (length secret + 1) 2.
Definition PRF10 secret name seed (n : nat) : list Z :=
  zip_with Z.lxor (P_hash S2N_HMAC_MD5 (take (half secret) secret) (name ++ seed) n)
                  (P_hash S2N_HMAC_SHA1 (drop (length secret - half secret) secret) (name ++ seed) n).

(** RFC 6101 6.2.2: MD5(secret + SHA('A' + secret + seed)) + MD5(secret + SHA('BB' + secret + seed)) + ... *)
Definition sslv3_block secret seed (i : nat) : list Z :=
  hash_of S2N_HASH_MD5 (secret ++ hash_of S2N_HASH_SHA1 (repeat (65 + Z.of_nat i) (S i) ++ secret ++ seed)).
Definition PRF_sslv3 secret seed (n : nat) : list Z := take n (mjoin (map (sslv3_block secret seed) (seq 0 n))).

Definition PRF (v : Z) alg secret name seed (n : nat) : list Z :=
  if v =? S2N_SSLv3 then PRF_sslv3 secret seed n
  else if v =? S2N_TLS12 then P_hash alg secret (name ++ seed) n
  else PRF10 secret name seed n.

(** The seeds of a call. *)
Definition seeds (a : list Z) (b c : option (list Z)) : list Z := a ++ default [] b ++ default [] c.
Definition seeds_valid (a b c : option (list Z)) : bool :=
  match a with None => false | Some _ => match c, b with Some _, None => false | _, _ => true end end.
Definition seed_sizes (a : list Z) (b c : option (list Z)) : Prop :=
  zlen a <= MAX_UPDATE /\ zlen (default [] b) <= MAX_UPDATE /\ zlen (default [] c) <= MAX_UPDATE.

(** ** Lists *)

Lemma zip_xor_split (d tl rest : list Z) : forall n, n = Nat.min (length tl) (length d) ->
  zip_with Z.lxor tl (take n d) ++ zip_with Z.lxor (drop n tl) rest = zip_with Z.lxor tl (d ++ rest).
Proof. revert tl. induction d as [|x d IH]; intros [|y tl] [|n] Hn; simpl in *; try done. f_equal. apply IH. lia. Qed.

Lemma xor_at_step (out d rest : list Z) (pos n : nat) :
  (pos <= length out)%nat -> n = Nat.min (length out - pos) (length d) ->
  let out1 := xor_at (Z.of_nat pos) (take n d) out in
  length out1 = length out /\
  take (pos + n) out1 ++ zip_with Z.lxor (drop (pos + n) out1) rest = take pos out ++ zip_with Z.lxor (drop pos out) (d ++ rest).
Proof.
  intros Hpos Hn. unfold xor_at, zsplice. rewrite Nat2Z.id. rewrite <- (take_drop pos out) in Hn |- *.
  set (pre := take pos out) in *. set (tl := drop pos out) in *. clearbody tl.
  assert (Hpre : length pre = pos) by (unfold pre; rewrite length_take; lia). clearbody pre. subst pos.
  rewrite length_app, Nat.add_comm, Nat.add_sub in Hn. rewrite !drop_app_length, !take_app_length.
  assert (Hz : length (zip_with Z.lxor tl (take n d)) = n) by (rewrite length_zip_with, length_take; lia).
  rewrite Hz, drop_app_add. split; [rewrite !length_app, Hz, length_drop; lia|].
  rewrite (app_assoc pre), take_app_length' by (rewrite length_app, Hz; done).
  rewrite drop_app_length' by (rewrite length_app, Hz; done). rewrite <- app_assoc. f_equal.
  by apply zip_xor_split.
Qed.

(** ** P_hash *)

(** A working space whose contexts exist, and one whose HMAC state has a message. *)
Record space_ok ws : Prop := {
  so_hmac : hmac_alloc (p_hash ws);
  so_digest0 : zlen (digest0 ws) = S2N_MAX_DIGEST_LEN;
  so_digest1 : zlen (digest1 ws) = S2N_MAX_DIGEST_LEN;
}.
Record space_has alg secret (o : option (list Z)) ws : Prop := {
  sh_mac : mac_is alg secret o (p_hash ws);
  sh_digest0 : zlen (digest0 ws) = S2N_MAX_DIGEST_LEN;
  sh_digest1 : zlen (digest1 ws) = S2N_MAX_DIGEST_LEN;
}.

Lemma space_has_ok alg secret o ws : space_has alg secret o ws -> space_ok ws.
Proof. intros [[Hk _] ? ?]. split; [by eapply keyed_alloc|done..]. Qed.

Lemma wp_space_update w ws alg secret m bs Q E :
  space_has alg secret (Some m) ws -> zlen secret < 2 ^ 32 -> zlen m <= 2 ^ 32 -> zlen bs <= MAX_UPDATE ->
  (forall ws', space_has alg secret (Some (m ++ bs)) ws' -> digest0 ws' = digest0 ws -> Q tt w ws') ->
  (forall e ws', hash_failure w e -> E e w ws') -> wp (s2n_hmac_p_hash_update bs) (w, ws) Q E.
Proof.
  intros [Hm H0 H1] Hs Hl Hbs HQ HE'. destruct (key_lengths alg secret Hs) as [Hik _]. assert (MAX_UPDATE = 17535) by done.
  apply wp_zoom, (wp_hmac_update_ok _ _ alg secret m); [done|done|lia| |by intros; apply HE'].
  intros s' Hs'. by apply HQ.
Qed.

Lemma wp_update_seeds w ws alg secret m name a b t Q E :
  space_has alg secret (Some m) ws -> zlen secret < 2 ^ 32 -> zlen m <= 2 ^ 16 -> zlen name <= MAX_UPDATE -> seed_sizes a b t ->
  (b = None -> t = None) ->
  (forall ws', space_has alg secret (Some (m ++ name ++ seeds a b t)) ws' -> digest0 ws' = digest0 ws -> Q tt w ws') ->
  (forall e ws', hash_failure w e -> E e w ws') -> wp (update_seeds name a b t) (w, ws) Q E.
Proof.
  intros Hs Hsec Hm Hn (Ha & Hb & Hc) Hbc HQ HE'. unfold seeds in HQ. assert (Hmax : MAX_UPDATE = 17535) by done.
  apply wp_bind, (wp_space_update _ _ alg secret m); [done|done|lia|done| |done]. intros ws1 H1 E1.
  apply wp_bind, (wp_space_update _ _ alg secret (m ++ name)); [done|done|rewrite zlen_app; lia|done| |done]. intros ws2 H2 E2.
  destruct b as [b|]; simpl in *.
  2: { rewrite (Hbc eq_refl) in HQ. apply wp_ret. rewrite !app_nil_r, app_assoc in HQ. apply HQ; [done|congruence]. }
  apply wp_bind, (wp_space_update _ _ alg secret ((m ++ name) ++ a)); [done|done|rewrite !zlen_app; lia|done| |done]. intros ws3 H3 E3.
  destruct t as [t|]; simpl in *.
  - apply (wp_space_update _ _ alg secret (((m ++ name) ++ a) ++ b)); [done|done|rewrite !zlen_app; lia|done| |done].
    intros ws4 H4 E4. rewrite <- !app_assoc in H4. apply HQ; [done|congruence].
  - apply wp_ret. rewrite <- !app_assoc in H3. rewrite app_nil_r in HQ. apply HQ; [done|congruence].
Qed.

Lemma wp_space_reset w ws alg secret Q E :
  keyed alg secret (p_hash ws) -> zlen (digest0 ws) = S2N_MAX_DIGEST_LEN -> zlen (digest1 ws) = S2N_MAX_DIGEST_LEN ->
  (forall ws', space_has alg secret (Some []) ws' -> digest0 ws' = digest0 ws -> Q tt w ws') ->
  (forall e ws', hash_failure w e -> E e w ws') -> wp s2n_hmac_p_hash_reset (w, ws) Q E.
Proof.
  intros Hk H0 H1 HQ HE'. apply wp_bind, wp_get_obj. rewrite (ky_block _ _ _ Hk). pose proof (block_size_pos alg).
  destruct (Z.eqb_spec (s2n_hmac_hash_block_size alg) 0); [lia|]. simpl.
  apply wp_zoom, (wp_hmac_reset _ _ alg secret); [done| |by intros; apply HE']. intros s' Hs'. by apply HQ.
Qed.

(** The digest of the message; the space keeps its digests. *)
Lemma wp_space_digest w ws alg secret m Q E :
  space_has alg secret (Some m) ws -> zlen secret < 2 ^ 32 ->
  (forall ws', space_has alg secret None ws' -> digest0 ws' = digest0 ws -> Q (hmac alg secret m) w ws') ->
  (forall e ws', hash_failure w e -> E e w ws') -> wp (s2n_hmac_p_hash_digest (s2n_hmac_digest_size alg)) (w, ws) Q E.
Proof.
  intros [Hm H0 H1] Hs HQ HE'. destruct (key_lengths alg secret Hs) as [_ Hok].
  apply wp_zoom, (wp_hmac_digest _ _ alg secret m); [done|done|lia| |by intros; apply HE']. intros s' Hs' _ _. by apply HQ.
Qed.

Lemma hmac_bytes_length alg secret m : length (hmac alg secret m) = Z.to_nat (s2n_hmac_digest_size alg).
Proof.
  assert (zlen (hmac alg secret m) = s2n_hmac_digest_size alg) as Hz by apply hash_of_length. unfold zlen in Hz. lia.
Qed.

Lemma overwrite_digest alg d old : length d = Z.to_nat (s2n_hmac_digest_size alg) -> zlen old = S2N_MAX_DIGEST_LEN ->
  zlen (overwrite d old) = S2N_MAX_DIGEST_LEN /\ take (Z.to_nat (s2n_hmac_digest_size alg)) (overwrite d old) = d.
Proof.
  intros Hd Ho. pose proof (digest_size_range alg). split.
  - rewrite zlen_overwrite; [done|]. rewrite Ho. unfold zlen. rewrite Hd. change S2N_MAX_DIGEST_LEN with 64. lia.
  - rewrite <- Hd. apply take_overwrite.
Qed.

(** A digest into digest0. *)
Lemma wp_final_digest0 w ws alg secret m Q E :
  space_has alg secret (Some m) ws -> zlen secret < 2 ^ 32 ->
  (forall ws', space_has alg secret None ws' -> take (Z.to_nat (s2n_hmac_digest_size alg)) (digest0 ws') = hmac alg secret m -> Q tt w ws') ->
  (forall e ws', hash_failure w e -> E e w ws') -> wp (final_digest0 (s2n_hmac_digest_size alg)) (w, ws) Q E.
Proof.
  intros Hs Hsec HQ HE'. apply wp_bind, (wp_space_digest _ _ alg secret m); [done|done| |done].
  intros ws' [Hm H0 H1] _. apply wp_modify.
  destruct (overwrite_digest alg (hmac alg secret m) (digest0 ws') (hmac_bytes_length _ _ _) H0). by apply HQ.
Qed.

Lemma A_length alg secret seed i : length (A_ alg secret seed (S i)) = Z.to_nat (s2n_hmac_digest_size alg).
Proof. apply hmac_bytes_length. Qed.

(** One iteration: a block of the output, and the next A. *)
Lemma wp_p_hash_block w ws alg secret name a b t i Q E :
  keyed alg secret (p_hash ws) -> zlen (digest0 ws) = S2N_MAX_DIGEST_LEN -> zlen (digest1 ws) = S2N_MAX_DIGEST_LEN ->
  zlen secret < 2 ^ 32 -> zlen name <= MAX_UPDATE -> seed_sizes a b t -> (b = None -> t = None) ->
  take (Z.to_nat (s2n_hmac_digest_size alg)) (digest0 ws) = A_ alg secret (name ++ seeds a b t) (S i) ->
  (forall ws', space_has alg secret None ws' -> digest0 ws' = digest0 ws ->
     take (Z.to_nat (s2n_hmac_digest_size alg)) (digest1 ws') = p_block alg secret (name ++ seeds a b t) (S i) -> Q tt w ws') ->
  (forall e ws', hash_failure w e -> E e w ws') ->
  wp (s2n_hmac_p_hash_reset ;;;
      update_digest0 (s2n_hmac_digest_size alg) ;;;
      update_seeds name a b t ;;;
      d <-- s2n_hmac_p_hash_digest (s2n_hmac_digest_size alg) ;;
      modify (fun ws => set_digest1 (overwrite d (digest1 ws)) ws)) (w, ws) Q E.
Proof.
  intros Hk H0 H1 Hsec Hn Hsz Hbt HA HQ HE'. pose proof (digest_size_range alg) as Hds. assert (MAX_UPDATE = 17535) by done.
  assert (HAl : zlen (A_ alg secret (name ++ seeds a b t) (S i)) <= 64) by (unfold zlen; rewrite A_length; lia).
  apply wp_bind, (wp_space_reset _ _ alg secret); [done..| |done]. intros ws1 Hs1 E1.
  apply wp_bind, wp_bind, wp_get_obj. rewrite E1, HA.
  apply (wp_space_update _ _ alg secret []); [done|done|unfold zlen; simpl; lia|lia| |done]. intros ws2 Hs2 E2. simpl in Hs2.
  apply wp_bind, (wp_update_seeds _ _ alg secret (A_ alg secret (name ++ seeds a b t) (S i))); [done|done|lia|done|done|done| |done].
  intros ws3 Hs3 E3. apply wp_bind, (wp_space_digest _ _ alg secret (A_ alg secret (name ++ seeds a b t) (S i) ++ name ++ seeds a b t)); [done|done| |done].
  intros ws4 [Hm4 H40 H41] E4. apply wp_modify.
  destruct (overwrite_digest alg (p_block alg secret (name ++ seeds a b t) (S i)) (digest1 ws4) (hmac_bytes_length _ _ _) H41).
  apply HQ; [by split|simpl; congruence|done].
Qed.

(** A(i + 1) from A(i). *)
Lemma wp_p_hash_next w ws alg secret seed i Q E :
  keyed alg secret (p_hash ws) -> zlen (digest0 ws) = S2N_MAX_DIGEST_LEN -> zlen (digest1 ws) = S2N_MAX_DIGEST_LEN ->
  zlen secret < 2 ^ 32 -> take (Z.to_nat (s2n_hmac_digest_size alg)) (digest0 ws) = A_ alg secret seed (S i) ->
  (forall ws', space_has alg secret None ws' ->
     take (Z.to_nat (s2n_hmac_digest_size alg)) (digest0 ws') = A_ alg secret seed (S (S i)) -> Q tt w ws') ->
  (forall e ws', hash_failure w e -> E e w ws') ->
  wp (s2n_hmac_p_hash_reset ;;; update_digest0 (s2n_hmac_digest_size alg) ;;; final_digest0 (s2n_hmac_digest_size alg)) (w, ws) Q E.
Proof.
  intros Hk H0 H1 Hsec HA HQ HE'. pose proof (digest_size_range alg) as Hds. assert (MAX_UPDATE = 17535) by done.
  assert (HAl : zlen (A_ alg secret seed (S i)) <= 64) by (unfold zlen; rewrite A_length; lia).
  apply wp_bind, (wp_space_reset _ _ alg secret); [done..| |done]. intros ws1 Hs1 E1.
  apply wp_bind, wp_bind, wp_get_obj. rewrite E1, HA.
  apply (wp_space_update _ _ alg secret []); [done|done|unfold zlen; simpl; lia|lia| |done]. intros ws2 Hs2 E2. simpl in Hs2.
  apply (wp_final_digest0 _ _ alg secret (A_ alg secret seed (S i))); [done|done| |done]. intros ws3 Hs3 HA3. by apply HQ.
Qed.

Lemma wp_p_hash_loop fuel : forall w ws out alg secret name a b t i (pos : nat) Q E,
  keyed alg secret (p_hash ws) -> zlen (digest0 ws) = S2N_MAX_DIGEST_LEN -> zlen (digest1 ws) = S2N_MAX_DIGEST_LEN ->
  zlen secret < 2 ^ 32 -> zlen name <= MAX_UPDATE -> seed_sizes a b t -> (b = None -> t = None) -> 0 < s2n_hmac_digest_size alg ->
  take (Z.to_nat (s2n_hmac_digest_size alg)) (digest0 ws) = A_ alg secret (name ++ seeds a b t) (S i) ->
  (pos <= length out)%nat -> (length out - pos <= fuel)%nat ->
  (forall ws', keyed alg secret (p_hash ws') -> zlen (digest0 ws') = S2N_MAX_DIGEST_LEN -> zlen (digest1 ws') = S2N_MAX_DIGEST_LEN ->
     Q tt w (ws', take pos out ++ zip_with Z.lxor (drop pos out) (mjoin (map (p_block alg secret (name ++ seeds a b t)) (seq (S i) fuel))))) ->
  (forall e x, hash_failure w e -> E e w x) ->
  wp (p_hash_loop fuel (s2n_hmac_digest_size alg) name a b t (Z.of_nat pos)) (w, (ws, out)) Q E.
Proof.
  induction fuel as [|fuel IH]; intros w ws out alg secret name a b t i pos Q E Hk H0 H1 Hsec Hn Hsz Hbt Hds HA Hpos Hfuel HQ HE'.
  all: apply wp_bind, wp_zoom, wp_get_obj; simpl lget; change (zlen out) with (Z.of_nat (length out)); cbv zeta.
  all: destruct (Z.eqb_spec (Z.of_nat (length out) - Z.of_nat pos) 0) as [Hz|Hz];
    [apply wp_ret; specialize (HQ ws Hk H0 H1); by rewrite drop_ge, take_ge, app_nil_r in HQ by lia|].
  { lia. }
  apply wp_bind, wp_zoom, (wp_p_hash_block _ _ alg secret name a b t i); [done..| |by intros; apply HE'].
  intros ws1 [[Hk1 Hm1] H10 H11] E1 Hd1. simpl. apply wp_bind, wp_modify.
  set (n := Nat.min (length out - pos) (Z.to_nat (s2n_hmac_digest_size alg))).
  assert (Hmin : Z.min (Z.of_nat (length out) - Z.of_nat pos) (s2n_hmac_digest_size alg) = Z.of_nat n) by (unfold n; lia).
  rewrite Hmin, Nat2Z.id. set (bl := p_block alg secret (name ++ seeds a b t) (S i)) in *.
  assert (Hbl : length bl = Z.to_nat (s2n_hmac_digest_size alg)) by apply hmac_bytes_length.
  assert (Htk : take n (digest1 ws1) = take n bl) by (rewrite <- Hd1, take_take; f_equal; lia). rewrite Htk.
  destruct (xor_at_step out bl (mjoin (map (p_block alg secret (name ++ seeds a b t)) (seq (S (S i)) fuel))) pos n) as [Hlen Hstep];
    [done|unfold n; by rewrite Hbl|]. set (out1 := xor_at _ _ _) in *.
  apply wp_bind, wp_zoom, (wp_p_hash_next _ _ alg secret (name ++ seeds a b t) i); [done|done|done|done|rewrite <- HA; by f_equal| |by intros; apply HE'].
  intros ws2 [[Hk2 Hm2] H20 H21] HA2. simpl. rewrite <- Nat2Z.inj_add.
  apply (IH _ _ _ _ secret _ _ _ _ (S i)); try done; try lia.
  intros ws' Hk' H0' H1'. specialize (HQ ws' Hk' H0' H1'). simpl in HQ. fold bl in HQ. rewrite <- Hstep in HQ. done.
Qed.

Lemma mjoin_blocks {A} (f : nat -> list A) (n : nat) : (forall i, (1 <= length (f i))%nat) -> forall i, (n <= length (mjoin (map f (seq i n))))%nat.
Proof.
  intros Hf. induction n as [|n IH]; intros i; [simpl; lia|]. simpl. rewrite length_app. specialize (Hf i). specialize (IH (S i)). lia.
Qed.

Lemma zip_with_take_r (l r : list Z) : zip_with Z.lxor l (take (length l) r) = zip_with Z.lxor l r.
Proof. revert r. induction l as [|x l IH]; intros [|y r]; simpl; try done. by rewrite IH. Qed.

Lemma wp_p_hash w ws out alg secret name a b t Q E :
  space_ok ws -> zlen secret < 2 ^ 32 -> zlen name <= MAX_UPDATE -> seed_sizes a b t -> (b = None -> t = None) -> 0 < s2n_hmac_digest_size alg ->
  (forall ws', space_ok ws' -> Q tt w (ws', zip_with Z.lxor out (P_hash alg secret (name ++ seeds a b t) (length out)))) ->
  (forall e x, hash_failure w e -> E e w x) ->
  wp (s2n_p_hash alg secret name a b t) (w, (ws, out)) Q E.
Proof.
  intros [Hal H0 H1] Hsec Hn Hsz Hbt Hds HQ HE'. apply wp_bind, wp_zoom. simpl lget.
  apply wp_bind, wp_zoom, (wp_hmac_init _ _ alg secret); [done|done| |by intros; apply HE']. intros s1 Hs1. simpl.
  apply wp_bind, (wp_update_seeds _ _ alg secret []); [by split|done|unfold zlen; simpl; lia|done|done|done| |by intros; apply HE'].
  intros ws2 Hs2 _. apply (wp_final_digest0 _ _ alg secret (name ++ seeds a b t)); [done|done| |by intros; apply HE'].
  intros ws3 [[Hk3 Hm3] H30 H31] HA. simpl. apply wp_bind, wp_zoom, wp_get_obj. simpl.
  apply wp_bind, (wp_p_hash_loop _ _ _ _ _ secret _ _ _ _ 0 0); [done..|lia|lia| |done].
  intros ws4 Hk4 H40 H41. simpl. apply wp_zoom, (wp_space_reset _ _ alg secret); [done..| |by intros; apply HE'].
  intros ws5 Hs5 _. simpl. rewrite <- zip_with_take_r. apply HQ. by eapply space_has_ok.
Qed.

(** ** The key derivation of SSLv3 *)

Lemma hash_closed_alloc ha (h : s2n_hash_state) : hash_closed ha h -> hash_alloc h.
Proof. by intros []. Qed.
Hint Resolve hash_open_alloc hash_closed_alloc : core.

Lemma wp_repeat_update n w (h : s2n_hash_state) ha m x Q E :
  hash_open ha m h -> zlen m + Z.of_nat n < 2 ^ 32 -> (forall h', hash_open ha (m ++ repeat x n) h' -> Q tt w h') ->
  (forall e h', hash_failure w e -> hash_alloc h' -> E e w h') ->
  wp (Nat.iter n (fun cmd => s2n_hash_update [x] ;;; cmd) (ret tt)) (w, h) Q E.
Proof.
  revert h m. induction n as [|n IH]; intros h m Hh Hl HQ HE'; simpl.
  - apply wp_ret, HQ. simpl. by rewrite app_nil_r.
  - apply wp_bind, (wp_hash_update _ _ ha m); [done|unfold zlen in *; simpl; lia| |done]. intros h1 Hh1.
    apply (IH h1 (m ++ [x])); [done|rewrite zlen_app; unfold zlen in *; simpl; lia| |done]. intros h2 Hh2. apply HQ. by rewrite <- app_assoc in Hh2.
Qed.

Lemma wp_sslv3_round w (h : s2n_hash_state) secret a b t i Q E :
  hash_alloc h -> zlen secret < 2 ^ 32 -> seed_sizes a b t -> (b = None -> t = None) -> (i < 26)%nat ->
  (forall h', hash_alloc h' -> Q (sslv3_block secret (seeds a b t) i) w h') ->
  (forall e h', hash_failure w e -> hash_alloc h' -> E e w h') ->
  wp (sslv3_round (65 + Z.of_nat i) (1 + Z.of_nat i) secret a b t) (w, h) Q E.
Proof.
  intros Hal Hsec (Ha & Hb & Ht) Hbt Hi HQ HE'. assert (MAX_UPDATE = 17535) by done.
  apply wp_bind, wp_hash_reset; [done| |done]. intros h1 Hh1.
  apply wp_bind, (wp_hash_init _ _ S2N_HASH_SHA1); [by eauto| |done]. intros h2 Hh2.
  replace (Z.to_nat (1 + Z.of_nat i)) with (S i) by lia. set (x := repeat (65 + Z.of_nat i) (S i)).
  assert (Hx : zlen x = Z.of_nat (S i)) by (unfold zlen, x; by rewrite repeat_length).
  apply wp_bind, (wp_repeat_update _ _ _ S2N_HASH_SHA1 []); [done|unfold zlen; cbn; lia| |done]. intros h3 Hh3.
  change ([] ++ repeat (65 + Z.of_nat i) (S i)) with x in Hh3.
  apply wp_bind, (wp_hash_update _ _ S2N_HASH_SHA1 x); [done|lia| |done]. intros h4 Hh4.
  apply wp_bind, (wp_hash_update _ _ S2N_HASH_SHA1 (x ++ secret)); [done|rewrite zlen_app; lia| |done]. intros h5 Hh5.
  apply wp_bind. set (K := fun (u : ()) w' h' => _).
  assert (Hrest : forall h', hash_open S2N_HASH_SHA1 (x ++ secret ++ seeds a b t) h' -> K tt w h').
  { intros h6 Hh6. apply wp_bind, (wp_hash_digest _ _ S2N_HASH_SHA1 (x ++ secret ++ seeds a b t)); [done|done| |done]. intros h7 Hh7.
    set (d := hash_of S2N_HASH_SHA1 _). assert (Hd : zlen d = 20) by apply hash_of_length.
    apply wp_bind, wp_hash_reset; [by eauto| |done]. intros h8 Hh8.
    apply wp_bind, (wp_hash_init _ _ S2N_HASH_MD5); [by eauto| |done]. intros h9 Hh9.
    apply wp_bind, (wp_hash_update _ _ S2N_HASH_MD5 []); [done|unfold zlen at 1; simpl; lia| |done]. intros h10 Hh10.
    apply wp_bind, (wp_hash_update _ _ S2N_HASH_MD5 secret); [done|lia| |done]. intros h11 Hh11.
    apply (wp_hash_digest _ _ S2N_HASH_MD5 (secret ++ d)); [done|done| |done]. intros h12 Hh12. apply HQ. by eauto. }
  unfold seeds in Hrest. rewrite <- app_assoc in Hh5. destruct b as [b|]; simpl in *.
  2: { rewrite (Hbt eq_refl) in Hrest. apply wp_ret, Hrest. simpl. by rewrite app_nil_r. }
  apply wp_bind, (wp_hash_update _ _ S2N_HASH_SHA1 (x ++ secret ++ a)); [done|rewrite !zlen_app; lia| |done]. intros h6 Hh6.
  destruct t as [t|]; simpl in *.
  - apply (wp_hash_update _ _ S2N_HASH_SHA1 ((x ++ secret ++ a) ++ b)); [done|rewrite !zlen_app; lia| |done]. intros h7 Hh7.
    apply Hrest. by rewrite <- !app_assoc in Hh7.
  - apply wp_ret, Hrest. rewrite app_nil_r. by rewrite <- !app_assoc in Hh6.
Qed.

Lemma splice_step (out d rest : list Z) (pos n : nat) :
  (pos <= length out)%nat -> n = Nat.min (length out - pos) (length d) ->
  let out1 := zsplice out (Z.of_nat pos) (take n d) in
  length out1 = length out /\
  take (pos + n) out1 ++ take (length out1 - (pos + n)) rest = take pos out ++ take (length out - pos) (d ++ rest).
Proof.
  intros Hpos Hn. unfold zsplice. rewrite Nat2Z.id. simpl.
  assert (Htd : length (take n d) = n) by (rewrite length_take; lia). rewrite Htd.
  assert (Hl : length (take pos out ++ take n d ++ drop (pos + n) out) = length out)
    by (rewrite !length_app, Htd, length_take, length_drop; lia).
  split; [done|]. rewrite Hl, app_assoc, take_app_length' by (rewrite length_app, Htd, length_take; lia).
  rewrite <- app_assoc. f_equal. rewrite take_app. f_equal.
  - destruct (decide (length d <= length out - pos)%nat); [rewrite !take_ge by lia; done|f_equal; lia].
  - destruct (decide (length d <= length out - pos)%nat); [f_equal; lia|].
    replace (length out - (pos + n))%nat with 0%nat by lia. by replace (length out - pos - length d)%nat with 0%nat by lia.
Qed.

Lemma wp_sslv3_loop fuel : forall w (h : s2n_hash_state) out secret a b t i (pos : nat) Q E,
  hash_alloc h -> zlen secret < 2 ^ 32 -> seed_sizes a b t -> (b = None -> t = None) ->
  (pos = 16 * i \/ pos = length out)%nat -> (length out <= 416)%nat -> (pos <= length out)%nat -> (length out - pos <= fuel)%nat ->
  (forall h', hash_alloc h' ->
     Q tt w (h', take pos out ++ take (length out - pos) (mjoin (map (sslv3_block secret (seeds a b t)) (seq i fuel))))) ->
  (forall e x, hash_failure w e -> hash_alloc (fst x) -> E e w x) ->
  wp (prf_sslv3_loop fuel (65 + Z.of_nat i) (1 + Z.of_nat i) secret a b t (Z.of_nat pos)) (w, (h, out)) Q E.
Proof.
  induction fuel as [|fuel IH]; intros w h out secret a b t i pos Q E Hal Hsec Hsz Hbt Hi Hmax Hpos Hfuel HQ HE'.
  all: apply wp_bind, wp_zoom, wp_get_obj; simpl lget; change (zlen out) with (Z.of_nat (length out)); cbv zeta.
  all: destruct (Z.eqb_spec (Z.of_nat (length out) - Z.of_nat pos) 0) as [Hz|Hz];
    [apply wp_ret; specialize (HQ h Hal); replace (length out - pos)%nat with 0%nat in HQ by lia; by rewrite take_ge, take_0, app_nil_r in HQ by lia|].
  { lia. }
  rewrite !u8_small by lia. apply wp_bind, wp_zoom, (wp_sslv3_round _ _ secret a b t i); [done|done|done|done|lia| |by intros; apply HE'].
  intros h1 Hh1. simpl. apply wp_bind, wp_modify. set (bl := sslv3_block secret (seeds a b t) i).
  assert (Hbl : length bl = 16%nat) by (assert (zlen bl = 16) as Hb by apply hash_of_length; unfold zlen in Hb; lia).
  set (n := Nat.min (length out - pos) 16).
  assert (Hmin : Z.min (Z.of_nat (length out) - Z.of_nat pos) MD5_DIGEST_LENGTH = Z.of_nat n) by (unfold n, MD5_DIGEST_LENGTH; lia).
  rewrite Hmin, Nat2Z.id, <- Nat2Z.inj_add.
  destruct (splice_step out bl (mjoin (map (sslv3_block secret (seeds a b t)) (seq (S i) fuel))) pos n) as [Hlen Hstep];
    [done|unfold n; by rewrite Hbl|]. set (out1 := zsplice _ _ _) in *.
  replace (65 + Z.of_nat i + 1) with (65 + Z.of_nat (S i)) by lia. replace (1 + Z.of_nat i + 1) with (1 + Z.of_nat (S i)) by lia.
  apply IH; try done; try lia. intros h2 Hh2. specialize (HQ h2 Hh2). simpl in HQ. fold bl in HQ. by rewrite <- Hstep in HQ.
Qed.

(** ** The PRF of a connection *)

(** A connection that can derive secrets: it has secure parameters with a suite,
    and its working space and hashes are allocated. *)
Record prf_ready c : Prop := {
  pr_secure : exists p ra, secure (prf_record c) = Some p /\ params_alg p = Some ra;
  pr_space : exists ws, prf_space c = Some ws /\ space_ok ws;
  pr_hashes : exists h, hashes c = Some h /\ hash_alloc (hash_workspace h);
  pr_version : S2N_SSLv3 <= version c <= S2N_TLS12;
  pr_alg : version c = S2N_TLS12 -> suite_prf_alg c <> S2N_HMAC_NONE;
}.

(** The working space and the hash workspace are scratch. *)
Definition scratch ws (hw : s2n_hash_state) c : prf_conn :=
  set_prf_space (Some ws) (set_hashes (lset hash_workspace_lens hw <$> hashes c) c).

Lemma scratch_ready c ws hw : prf_ready c -> space_ok ws -> hash_alloc hw -> prf_ready (scratch ws hw c).
Proof.
  intros [Hs Hw (h & Hh & _) Hv Ha] Hws Hhw. split; simpl; [done|by exists ws| |done|done]. rewrite Hh. by eexists.
Qed.

Lemma scratch_self c ws h : prf_space c = Some ws -> hashes c = Some h -> scratch ws (hash_workspace h) c = c.
Proof. intros Hw Hh. destruct c. simpl in *. subst. unfold scratch, set_prf_space, set_hashes. simpl. by destruct h. Qed.

Lemma scratch_scratch c ws hw ws' hw' : scratch ws' hw' (scratch ws hw c) = scratch ws' hw' c.
Proof. unfold scratch, set_prf_space, set_hashes. simpl. destruct c as [? ? [h|] ? ? ? ? ? ? ? ? ? ?]; done. Qed.

Lemma wp_on_field {X Y B A} (l : lens X Y) (cmd : Cmd (Y * B) A) w (x : X) (b : B) Q E :
  wp cmd (w, (lget l x, b)) (fun a w' yb => Q a w' (lset l (fst yb) x, snd yb)) (fun e w' yb => E e w' (lset l (fst yb) x, snd yb)) ->
  wp (on_field l cmd) (w, (x, b)) Q E.
Proof. unfold wp, on_field. by destruct (cmd _) as [[a|e|] [w' [y b']]]. Qed.

Lemma wp_on_object_with {X B A} (cmd : Cmd (X * B) A) w (x : X) (b : B) Q E :
  wp cmd (w, (x, b)) (fun a w' xb => Q a w' (Some (fst xb), snd xb)) (fun e w' xb => E e w' (Some (fst xb), snd xb)) ->
  wp (on_object_with cmd) (w, (Some x, b)) Q E.
Proof. unfold wp, on_object_with. by destruct (cmd _) as [[a|e|] [w' [y b']]]. Qed.

Lemma wp_secure_alg w c p ra Q E :
  secure (prf_record c) = Some p -> params_alg p = Some ra -> Q ra w c -> wp secure_alg (w, c) Q E.
Proof.
  intros Hp Ha HQ. apply wp_bind, wp_bind, wp_get_obj, wp_ensure; [intros _|unfold params_is_null; simpl; by rewrite Hp].
  apply wp_bind, wp_zoom, wp_bind, wp_get_obj. simpl. rewrite Hp. apply wp_ret. simpl. rewrite Ha. apply wp_ret. by destruct c.
Qed.

Lemma wp_on_space_p_hash w c h ws out alg secret name a b t Q E :
  prf_space c = Some ws -> space_ok ws -> hashes c = Some h ->
  zlen secret < 2 ^ 32 -> zlen name <= MAX_UPDATE -> seed_sizes a b t -> (b = None -> t = None) -> alg <> S2N_HMAC_NONE ->
  (forall ws', space_ok ws' ->
     Q tt w (scratch ws' (hash_workspace h) c, zip_with Z.lxor out (P_hash alg secret (name ++ seeds a b t) (length out)))) ->
  (forall e x, hash_failure w e -> E e w x) ->
  wp (on_prf_space (s2n_p_hash alg secret name a b t)) (w, (c, out)) Q E.
Proof.
  intros Hs Hok Hh Hsec Hn Hsz Hbt Halg HQ HE'. apply wp_on_field. simpl. rewrite Hs. apply wp_on_object_with.
  apply wp_p_hash; try done; [by destruct alg| |by intros; apply HE'].
  intros ws' Hws'. specialize (HQ ws' Hws'). destruct c. simpl in *. subst. unfold scratch, set_prf_space, set_hashes in *. simpl in *. by destruct h.
Qed.

Lemma P_hash_length alg secret seed n : alg <> S2N_HMAC_NONE -> length (P_hash alg secret seed n) = n.
Proof.
  intros Ha. unfold P_hash. rewrite length_take. assert (n <= length (mjoin (map (p_block alg secret seed) (seq 1 n))))%nat; [|lia].
  apply mjoin_blocks. intros i. unfold p_block. rewrite hmac_bytes_length. destruct alg; done || (apply Nat.leb_le; reflexivity).
Qed.

Lemma zip_zero out (l : list Z) : length l = length out -> zip_with Z.lxor (map (fun _ => 0) out) l = l.
Proof. revert l. induction out as [|x out IH]; intros [|y l]; simpl; try done. intros [= Hl]. by rewrite IH. Qed.

Lemma wp_prf_custom w c out secret name a b t Q E :
  prf_ready c -> version c <> S2N_SSLv3 -> zlen secret < 2 ^ 31 -> zlen name <= MAX_UPDATE -> seed_sizes a b t -> (b = None -> t = None) ->
  (forall ws hw, prf_ready (scratch ws hw c) ->
     Q tt w (scratch ws hw c, PRF (version c) (suite_prf_alg c) secret name (seeds a b t) (length out))) ->
  (forall e x, hash_failure w e -> E e w x) ->
  wp (s2n_prf_custom secret name a b t) (w, (c, out)) Q E.
Proof.
  intros Hr Hv Hsec Hn Hsz Hbt HQ HE'. pose proof Hr as [_ (ws & Hws & Hwok) (h & Hh & Hhok) _ Halg].
  apply wp_bind, wp_zoom, wp_modify, wp_bind, wp_zoom, wp_get_obj. simpl. unfold PRF in HQ.
  assert ((version c =? S2N_SSLv3) = false) as Hv3 by (by apply Z.eqb_neq). rewrite Hv3 in HQ.
  destruct (Z.eqb_spec (version c) S2N_TLS12) as [Hv12|Hv12].
  - specialize (Halg Hv12). apply (wp_on_space_p_hash _ _ h ws); try done; [lia|]. intros ws' Hws'.
    rewrite length_map, zip_zero by (by apply P_hash_length). apply HQ. by apply scratch_ready.
  - set (len := zlen secret) in *. assert (Hhalf : Z.to_nat (u32 (len + 1) / 2) = half secret).
    { pose proof (zlen_nonneg secret). unfold half. rewrite u32_small by lia. unfold len, zlen.
      rewrite Z2Nat.inj_div by lia. f_equal. lia. }
    assert (Hle : (half secret <= length secret)%nat) by (unfold half; pose proof (Nat.div_mod_eq (length secret + 1) 2); lia).
    rewrite Hhalf. assert (Hd : Z.to_nat (len - u32 (len + 1) / 2) = (length secret - half secret)%nat).
    { rewrite Z2Nat.inj_sub, Hhalf; [unfold len, zlen; lia|]. apply Z.div_pos; [apply u32_range|lia]. }
    rewrite Hd. rewrite (take_ge (drop _ _)) by (rewrite length_drop; lia).
    apply wp_bind, (wp_on_space_p_hash _ _ h ws); try done; [unfold zlen in *; rewrite length_take; lia|]. intros ws' Hws'.
    assert (Hr' : prf_ready (scratch ws' (hash_workspace h) c)) by (by apply scratch_ready).
    apply (wp_on_space_p_hash _ _ h ws'); try done; [simpl; rewrite Hh; by destruct h|unfold zlen in *; rewrite length_drop; lia|].
    intros ws2 Hws2. rewrite scratch_scratch, length_map, zip_zero by (by apply P_hash_length).
    rewrite P_hash_length by done. apply HQ. by apply scratch_ready.
Qed.

Lemma wp_prf_sslv3 w c out secret a b t Q E :
  prf_ready c -> zlen secret < 2 ^ 32 -> seed_sizes a b t -> (b = None -> t = None) -> zlen out <= 416 ->
  (forall ws hw, prf_ready (scratch ws hw c) -> Q tt w (scratch ws hw c, PRF_sslv3 secret (seeds a b t) (length out))) ->
  (forall e x, hash_failure w e -> E e w x) ->
  wp (s2n_prf_sslv3 secret a b t) (w, (c, out)) Q E.
Proof.
  intros Hr Hsec Hsz Hbt Hlen HQ HE'. pose proof Hr as [_ (ws & Hws & Hwok) (h & Hh & Hhok) _ Halg].
  apply wp_bind, wp_get_obj. simpl. rewrite Hh. apply wp_bind, wp_ret. apply wp_on_field. simpl. rewrite Hh.
  apply wp_on_object_with, wp_on_field. apply (wp_sslv3_loop _ _ _ _ _ _ _ _ 0 0); try done; try (unfold zlen in *; lia); [|by intros; apply HE'].
  intros h' Hh'. simpl. specialize (HQ ws h' (scratch_ready _ _ _ Hr Hwok Hh')). unfold PRF_sslv3 in HQ. rewrite Nat.sub_0_r.
  destruct c. simpl in *. subst. unfold scratch, set_prf_space, set_hashes in *. simpl in *. done.
Qed.

Lemma wp_prf w c out secret name a b t Q E :
  prf_ready c -> s2n_is_in_fips_mode = false -> zlen secret < 2 ^ 31 -> zlen name <= MAX_UPDATE -> seed_sizes a b t -> zlen out <= 416 ->
  (b = None -> t = None) ->
  (forall ws hw, prf_ready (scratch ws hw c) ->
     Q tt w (scratch ws hw c, PRF (version c) (suite_prf_alg c) secret name (seeds a b t) (length out))) ->
  (forall e x, hash_failure w e -> E e w x) ->
  wp (s2n_prf secret name (Some a) b t) (w, (c, out)) Q E.
Proof.
  intros Hr Hfips Hsec Hn Hsz Hlen Hbt HQ HE'. pose proof Hr as [(p & ra & Hp & Ha) (ws & Hws & Hwok) _ _ _].
  apply wp_bind, wp_zoom, (wp_secure_alg _ _ p ra); [done|done|]. apply wp_bind, wp_zoom, wp_get_obj. simpl. rewrite Hws.
  apply wp_bind, wp_ret. apply wp_bind, wp_ensure; [intros _|destruct t, b; try done; by specialize (Hbt eq_refl)].
  destruct (Z.eqb_spec (version c) S2N_SSLv3) as [Hv|Hv].
  - apply wp_prf_sslv3; try done; [lia|]. unfold PRF in HQ. by rewrite (proj2 (Z.eqb_eq _ _) Hv) in HQ.
  - rewrite Hfips. by apply wp_prf_custom.
Qed.

(** C11 The pseudorandom function is the one of the protocol version.  On a
    connection whose working space and hashes are allocated, outside FIPS mode,
    s2n_prf fills the whole of [out], whatever was in it, with the first bytes
    of P_hash of RFC 5246 under the suite's algorithm for TLS 1.2, of the XOR of
    P_MD5 and P_SHA-1 under the two halves of the secret (RFC 2246) for TLS 1.0
    and 1.1, or of the derivation of RFC 6101 for SSLv3, on the label and the
    concatenation of the seeds; nothing else of the connection changes but its
    two scratch states.  Without the first seed, or with the third but not the
    second, it fails with S2N_ERR_PRF_INVALID_SEED and changes nothing.  All
    other failures are those of libcrypto: the loops end. *)
Theorem prf_correct w c out secret name (a b t : option (list Z))
    (Hready : prf_ready c) (Hfips : s2n_is_in_fips_mode = false) (Hsecret : zlen secret < 2 ^ 31) (Hname : zlen name <= MAX_UPDATE)
    (Hseeds : seed_sizes (default [] a) b t) (Hout : zlen out <= 416) :
  match s2n_prf secret name a b t (w, (c, out)) with
  | (Ok _, (w', (c', out'))) =>
      w' = w /\ seeds_valid a b t = true /\
      out' = PRF (version c) (suite_prf_alg c) secret name (seeds (default [] a) b t) (length out) /\
      exists ws hw, c' = scratch ws hw c /\ prf_ready c'
  | (Err e, (w', x)) => w' = w /\ if seeds_valid a b t then hash_failure w e else e = S2N_ERR_PRF_INVALID_SEED /\ x = (c, out)
  | (UB, _) => False
  end.
Proof.
  assert (Hrun : wp (s2n_prf secret name a b t) (w, (c, out))
    (fun _ w' '(c', out') => w' = w /\ seeds_valid a b t = true /\
       out' = PRF (version c) (suite_prf_alg c) secret name (seeds (default [] a) b t) (length out) /\
       exists ws hw, c' = scratch ws hw c /\ prf_ready c')
    (fun e w' x => w' = w /\ if seeds_valid a b t then hash_failure w e else e = S2N_ERR_PRF_INVALID_SEED /\ x = (c, out))).
  { destruct (seeds_valid a b t) eqn:Hvalid.
    - destruct a as [a|]; [|done]. apply wp_prf; try done; [by destruct b, t|].
      intros ws hw Hr. split_goal; try done. by exists ws, hw.
    - pose proof Hready as [(p & ra & Hp & Ha) (ws & Hws & Hwok) _ _ _].
      apply wp_bind, wp_zoom, (wp_secure_alg _ _ p ra); [done|done|]. apply wp_bind, wp_zoom, wp_get_obj. simpl. rewrite Hws.
      apply wp_bind, wp_ret. destruct a as [a|]; [|apply wp_fail; done].
      apply wp_bind, wp_ensure; intros Hz; [by destruct b, t|done]. }
  unfold wp in Hrun. by destruct (s2n_prf _ _ _ _ _ _) as [[u|e|] [w' [c' out']]].
Qed.

(** ** The transcript *)

(** The hashes that an update feeds: MD5 and SHA-1 together if both are required. *)
Definition wanted (required : s2n_hash_algorithm -> bool) (ha : s2n_hash_algorithm) : bool :=
  match ha with S2N_HASH_MD5_SHA1 => required S2N_HASH_MD5 && required S2N_HASH_SHA1 | _ => required ha end.

(** The states of the required hashes have absorbed the messages [m]. *)
Record transcript_is (required : s2n_hash_algorithm -> bool) m (h : s2n_handshake_hashes) : Prop := {
  ti_open ha l : hash_lens ha = Some l -> wanted required ha = true -> hash_open ha m (lget l h);
  ti_work : hash_alloc (hash_workspace h);
}.

Lemma wp_on_hashes {A} (cmd : Cmd s2n_handshake_hashes A) w c h Q E :
  hashes c = Some h ->
  wp cmd (w, h) (fun a w' h' => Q a w' (set_hashes (Some h') c)) (fun e w' h' => E e w' (set_hashes (Some h') c)) ->
  wp (on_hashes cmd) (w, c) Q E.
Proof.
  intros Hh Hcmd. apply wp_bind, wp_get_obj. rewrite Hh. apply wp_bind, wp_ret, wp_zoom. simpl. rewrite Hh.
  unfold wp, on_object in *. by destruct (cmd (w, h)) as [[a|e|] [w' h']].
Qed.

Lemma wp_update_if (required : bool) l w (h : s2n_handshake_hashes) ha m bs Q E :
  (required = true -> hash_open ha m (lget l h)) -> zlen m + zlen bs < 2 ^ 64 ->
  (forall x, (required = true -> hash_open ha (m ++ bs) x) -> (required = false -> x = lget l h) -> Q tt w (lset l x h)) ->
  (lset l (lget l h) h = h) -> (forall e h', hash_failure w e -> E e w h') -> wp (update_if required l bs) (w, h) Q E.
Proof.
  intros Ho Hl HQ Hid HE'. unfold update_if. destruct required.
  - apply wp_zoom, (wp_hash_update _ _ ha m); [by apply Ho|done| |by intros; apply HE']. intros x Hx. by apply HQ.
  - apply wp_ret. specialize (HQ (lget l h)). rewrite Hid in HQ. by apply HQ.
Qed.

Lemma wp_update_transcript w c h m bs Q E :
  hashes c = Some h -> transcript_is (required_hash_algs c) m h -> zlen m + zlen bs < 2 ^ 64 ->
  (forall h', transcript_is (required_hash_algs c) (m ++ bs) h' -> Q tt w (set_hashes (Some h') c)) ->
  (forall e x, hash_failure w e -> E e w x) -> wp (s2n_conn_update_handshake_hashes bs) (w, c) Q E.
Proof.
  intros Hh [Ho Hw] Hl HQ HE'. apply wp_bind, wp_get_obj. unfold s2n_handshake_is_hash_required. set (req := required_hash_algs c) in *.
  apply (wp_on_hashes _ _ _ h); [done|]. destruct h as [mem m5 s1 s224 s256 s384 s512 m5s1 td hw].
  pose proof (Ho S2N_HASH_MD5 _ eq_refl) as O1. pose proof (Ho S2N_HASH_SHA1 _ eq_refl) as O2.
  pose proof (Ho S2N_HASH_MD5_SHA1 _ eq_refl) as O3. pose proof (Ho S2N_HASH_SHA224 _ eq_refl) as O4.
  pose proof (Ho S2N_HASH_SHA256 _ eq_refl) as O5. pose proof (Ho S2N_HASH_SHA384 _ eq_refl) as O6.
  pose proof (Ho S2N_HASH_SHA512 _ eq_refl) as O7. simpl in *.
  apply wp_bind, (wp_update_if _ _ _ _ S2N_HASH_MD5 m); [done|done| |done|by intros; apply HE']. intros x1 X1 _. simpl.
  apply wp_bind, (wp_update_if _ _ _ _ S2N_HASH_SHA1 m); [done|done| |done|by intros; apply HE']. intros x2 X2 _. simpl.
  apply wp_bind, (wp_update_if _ _ _ _ S2N_HASH_MD5_SHA1 m); [done|done| |done|by intros; apply HE']. intros x3 X3 _. simpl.
  apply wp_bind, (wp_update_if _ _ _ _ S2N_HASH_SHA224 m); [done|done| |done|by intros; apply HE']. intros x4 X4 _. simpl.
  apply wp_bind, (wp_update_if _ _ _ _ S2N_HASH_SHA256 m); [done|done| |done|by intros; apply HE']. intros x5 X5 _. simpl.
  apply wp_bind, (wp_update_if _ _ _ _ S2N_HASH_SHA384 m); [done|done| |done|by intros; apply HE']. intros x6 X6 _. simpl.
  apply (wp_update_if _ _ _ _ S2N_HASH_SHA512 m); [done|done| |done|by intros; apply HE']. intros x7 X7 _. simpl.
  apply HQ. split; [|done]. intros [] l; simpl; intros [= <-]; simpl; done.
Qed.

(** Messages, one after the other. *)
Fixpoint feed (msgs : list (list Z)) : Cmd prf_conn unit :=
  match msgs with [] => ret tt | x :: msgs' => s2n_conn_update_handshake_hashes x ;;; feed msgs' end.

Lemma wp_feed msgs : forall w c h m Q E,
  hashes c = Some h -> transcript_is (required_hash_algs c) m h -> zlen m + zlen (mjoin msgs) < 2 ^ 64 ->
  (forall h', transcript_is (required_hash_algs c) (m ++ mjoin msgs) h' -> Q tt w (set_hashes (Some h') c)) ->
  (forall e x, hash_failure w e -> E e w x) -> wp (feed msgs) (w, c) Q E.
Proof.
  induction msgs as [|x msgs IH]; intros w c h m Q E Hh Ht Hl HQ HE'; simpl.
  - apply wp_ret. specialize (HQ h). simpl in HQ. rewrite app_nil_r in HQ. specialize (HQ Ht). rewrite <- Hh in HQ. by destruct c.
  - simpl in Hl. rewrite zlen_app in Hl. pose proof (zlen_nonneg (mjoin msgs)).
    apply wp_bind, (wp_update_transcript _ _ h m); [done|done|lia| |done]. intros h1 Ht1.
    apply (IH _ _ h1 (m ++ x)); [done|done|rewrite zlen_app; lia| |done].
    intros h2 Ht2. rewrite <- app_assoc in Ht2. by apply HQ.
Qed.

(** ** The finished messages *)

Definition finished_label (m : s2n_mode) : list Z := match m with S2N_CLIENT => label "client finished" | S2N_SERVER => label "server finished" end.
Definition sender (m : s2n_mode) : list Z := match m with S2N_CLIENT => [67; 76; 78; 84] | S2N_SERVER => [83; 82; 86; 82] end.  (* CLNT, SRVR *)

(** RFC 6101 5.6.9: hash(master_secret + pad2 + hash(handshake_messages + Sender + master_secret + pad1)). *)
Definition sslv3_verify (ha : s2n_hash_algorithm) (pad : nat) secret (prefix msgs : list Z) : list Z :=
  hash_of ha (secret ++ repeat 92 pad ++ hash_of ha (msgs ++ prefix ++ secret ++ repeat 54 pad)).

(** RFC 5246 7.4.9 and RFC 2246 7.4.9: PRF(master_secret, finished_label, Hash(handshake_messages))[0..11]. *)
Definition verify_data (v : Z) alg secret (m : s2n_mode) (msgs : list Z) : list Z :=
  if v =? S2N_SSLv3 then
    sslv3_verify S2N_HASH_MD5 48 secret (sender m) msgs ++ sslv3_verify S2N_HASH_SHA1 40 secret (sender m) msgs
  else PRF v alg secret (finished_label m)
    (if v =? S2N_TLS12 then hash_of (s2n_hmac_hash_alg alg) msgs else hash_of S2N_HASH_MD5 msgs ++ hash_of S2N_HASH_SHA1 msgs) 12.

Definition with_work (x : s2n_hash_state) c : prf_conn := set_hashes (lset hash_workspace_lens x <$> hashes c) c.

Lemma with_work_self c h : hashes c = Some h -> with_work (hash_workspace h) c = c.
Proof. intros Hh. destruct c. simpl in *. subst. by destruct h. Qed.

Lemma wp_on_work {A} (cmd : Cmd s2n_hash_state A) w c h x Q E :
  hashes c = Some h -> wp cmd (w, x) (fun a w' y => Q a w' (with_work y c)) (fun e w' y => E e w' (with_work y c)) ->
  wp (on_hashes (zoom hash_workspace_lens cmd)) (w, with_work x c) Q E.
Proof.
  intros Hh Hcmd. apply (wp_on_hashes _ _ _ (lset hash_workspace_lens x h)); [simpl; by rewrite Hh|]. apply wp_zoom. simpl lget.
  eapply wp_mono; [apply Hcmd| |]; intros; unfold with_work in *; rewrite Hh in *; done.
Qed.

Lemma wp_copy_to_work w c h x src ha msgs Q E :
  hashes c = Some h -> hash_alloc x -> (forall y, src (lset hash_workspace_lens y h) = src h) -> hash_open ha msgs (src h) ->
  (forall y, hash_open ha msgs y -> Q tt w (with_work y c)) -> (forall e z, hash_failure w e -> E e w z) ->
  wp (on_hashes (h <-- get_obj ;; zoom hash_workspace_lens (s2n_hash_copy (src h)))) (w, with_work x c) Q E.
Proof.
  intros Hh Hx Hsrc Ho HQ HE'. apply (wp_on_hashes _ _ _ (lset hash_workspace_lens x h)); [simpl; by rewrite Hh|].
  apply wp_bind, wp_get_obj. rewrite Hsrc. apply wp_zoom, (wp_hash_copy _ _ _ ha msgs); [done|done| |by intros; apply HE'].
  intros y Hy. specialize (HQ y Hy). unfold with_work in HQ. by rewrite Hh in HQ.
Qed.

Lemma wp_transcript_digest w c h x src ha msgs size Q E :
  hashes c = Some h -> hash_alloc x -> (forall y, src (lset hash_workspace_lens y h) = src h) -> hash_open ha msgs (src h) ->
  size = s2n_hash_digest_size ha ->
  (forall y, hash_alloc y -> Q (hash_of ha msgs) w (with_work y c)) -> (forall e z, hash_failure w e -> E e w z) ->
  wp (transcript_digest src size) (w, with_work x c) Q E.
Proof.
  intros Hh Hx Hsrc Ho Hsize HQ HE'. apply (wp_on_hashes _ _ _ (lset hash_workspace_lens x h)); [simpl; by rewrite Hh|].
  apply wp_bind, wp_get_obj. rewrite Hsrc. apply wp_bind, wp_zoom, (wp_hash_copy _ _ _ ha msgs); [done|done| |by intros; apply HE'].
  intros y Hy. apply wp_zoom, (wp_hash_digest _ _ ha msgs); [done|done| |by intros; apply HE'].
  intros z Hz. specialize (HQ z (hash_closed_alloc _ _ Hz)). unfold with_work in HQ. by rewrite Hh in HQ.
Qed.

Lemma zslice_zsplice (l d : list Z) (pos : nat) : (pos + length d <= length l)%nat ->
  take (length d) (drop pos (zsplice l (Z.of_nat pos) d)) = d.
Proof.
  intros Hl. unfold zsplice. rewrite Nat2Z.id, drop_app_length' by (rewrite length_take; lia). by rewrite take_app_length.
Qed.

Lemma zsplice_again (l d d' : list Z) (pos : nat) : (pos + length d <= length l)%nat -> length d = length d' ->
  zsplice (zsplice l (Z.of_nat pos) d) (Z.of_nat pos) d' = zsplice l (Z.of_nat pos) d'.
Proof.
  intros Hl Hd. unfold zsplice. rewrite Nat2Z.id, take_app_length' by (rewrite length_take; lia). f_equal. f_equal.
  rewrite app_assoc, drop_app_length' by (rewrite length_app, length_take; lia). by rewrite Hd.
Qed.

Lemma lset_work (m : s2n_mode) (f : list Z) x c : lset (finished_lens m) f (with_work x c) = with_work x (lset (finished_lens m) f c).
Proof. by destruct m. Qed.

Lemma lget_work (m : s2n_mode) x c : lget (finished_lens m) (with_work x c) = lget (finished_lens m) c.
Proof. by destruct m. Qed.

Lemma lset_lset (m : s2n_mode) (f g : list Z) c : lset (finished_lens m) g (lset (finished_lens m) f c) = lset (finished_lens m) g c.
Proof. by destruct m. Qed.

Lemma lget_lset (m : s2n_mode) (f : list Z) c : lget (finished_lens m) (lset (finished_lens m) f c) = f.
Proof. by destruct m. Qed.

Lemma wp_sslv3_finished_digest w c h x (m : s2n_mode) prefix src ha (pad pos : nat) msgs Q E :
  hashes c = Some h -> hash_alloc x -> (forall y, src (lset hash_workspace_lens y h) = src h) -> hash_open ha msgs (src h) ->
  zlen msgs < 2 ^ 62 -> zlen prefix <= 4 -> zlen (master_secret c) <= 2 ^ 16 -> (pad <= 48)%nat ->
  (pos + Z.to_nat (s2n_hash_digest_size ha) <= length (lget (finished_lens m) c))%nat ->
  (forall y, hash_alloc y -> Q tt w (with_work y (lset (finished_lens m)
     (zsplice (lget (finished_lens m) c) (Z.of_nat pos) (sslv3_verify ha pad (master_secret c) prefix msgs)) c))) ->
  (forall e z, hash_failure w e -> E e w z) ->
  wp (sslv3_finished_digest m prefix src (Z.of_nat pad) (Z.of_nat pos) (s2n_hash_digest_size ha)) (w, with_work x c) Q E.
Proof.
  intros Hh Hx Hsrc Ho Hm Hpre Hms Hpad Hpos HQ HE'. set (ms := master_secret c) in *.
  assert (Hp : forall b : Z, zlen (repeat b pad) <= 48) by (intros; unfold zlen; rewrite repeat_length; lia).
  assert (Hd : forall msg, length (hash_of ha msg) = Z.to_nat (s2n_hash_digest_size ha)).
  { intros msg. pose proof (hash_of_length ha msg) as Hz. unfold zlen in Hz. lia. }
  apply wp_bind, wp_get_obj. change (master_secret (with_work x c)) with ms. rewrite !Nat2Z.id.
  apply wp_bind, (wp_copy_to_work _ _ h _ src ha msgs); [done..| |by intros; apply HE']. intros y1 H1.
  apply wp_bind, (wp_on_work _ _ _ h), (wp_hash_update _ _ ha msgs); [done|done|lia| |by intros; apply HE']. intros y2 H2.
  apply wp_bind, (wp_on_work _ _ _ h), (wp_hash_update _ _ ha (msgs ++ prefix)); [done|done|rewrite zlen_app; lia| |by intros; apply HE']. intros y3 H3.
  apply wp_bind, (wp_on_work _ _ _ h), (wp_hash_update _ _ ha ((msgs ++ prefix) ++ ms)); [done|done| | |by intros; apply HE'].
  { rewrite !zlen_app. specialize (Hp 54). lia. } intros y4 H4.
  apply wp_bind, (wp_on_work _ _ _ h), (wp_hash_digest _ _ ha (((msgs ++ prefix) ++ ms) ++ repeat 54 pad)); [done|done|done| |by intros; apply HE'].
  intros y5 H5. rewrite <- !app_assoc. set (d1 := hash_of ha _). assert (Hd1 : length d1 = Z.to_nat (s2n_hash_digest_size ha)) by apply Hd.
  apply wp_bind, wp_modify. rewrite lset_work. rewrite lget_work.
  set (c1 := lset (finished_lens m) _ c). assert (Hh1 : hashes c1 = Some h) by (by unfold c1; destruct m).
  assert (Hf1 : lget (finished_lens m) c1 = zsplice (lget (finished_lens m) c) (Z.of_nat pos) d1) by apply lget_lset.
  apply wp_bind, (wp_on_work _ _ _ h), wp_hash_reset; [done|by eauto| |by intros; apply HE']. intros y6 H6. rewrite (hc_alg _ _ H5) in H6.
  apply wp_bind, (wp_on_work _ _ _ h), (wp_hash_update _ _ ha []); [done|done|unfold zlen at 1; simpl; lia| |by intros; apply HE']. intros y7 H7.
  apply wp_bind, (wp_on_work _ _ _ h), (wp_hash_update _ _ ha ms); [done|done|specialize (Hp 92); lia| |by intros; apply HE']. intros y8 H8.
  apply wp_bind, wp_get_obj. rewrite lget_work.
  rewrite Hf1, <- Hd1, zslice_zsplice by lia.
  apply wp_bind, (wp_on_work _ _ _ h), (wp_hash_update _ _ ha (ms ++ repeat 92 pad)); [done|done| | |by intros; apply HE'].
  { rewrite zlen_app. specialize (Hp 92). pose proof (hash_of_length ha (msgs ++ prefix ++ ms ++ repeat 54 pad)) as Hz. fold d1 in Hz. rewrite Hz.
    assert (s2n_hash_digest_size ha <= 64) by (by destruct ha). lia. }
  intros y9 H9.
  apply wp_bind, (wp_on_work _ _ _ h), (wp_hash_digest _ _ ha ((ms ++ repeat 92 pad) ++ d1)); [done|done|done| |by intros; apply HE'].
  intros y10 H10. rewrite <- app_assoc. apply wp_bind, wp_modify. rewrite lset_work.
  rewrite lget_work. rewrite Hf1, zsplice_again; [|lia|by rewrite Hd].
  unfold c1. rewrite lset_lset. apply (wp_on_work _ _ _ h), wp_hash_reset; [by destruct m|by eauto| |by intros; apply HE'].
  intros y11 H11. apply HQ. by eauto.
Qed.

Lemma wp_set_finished_len w c n Q E :
  0 < n <= 48 -> (finished_len c = 0 \/ finished_len c = n) -> Q tt w (set_finished_len n c) ->
  wp (s2n_handshake_set_finished_len n) (w, c) Q E.
Proof.
  intros Hn Hl HQ. unfold s2n_handshake_set_finished_len, S2N_TLS_SECRET_LEN.
  apply wp_bind, wp_ensure; [intros _|intros Hz; zbool; lia]. apply wp_bind, wp_ensure; [intros _|intros Hz; zbool; lia].
  apply wp_bind, wp_modify, wp_bind, wp_get_obj. destruct (Z.eqb_spec (finished_len c) 0) as [Hz|Hz].
  - apply wp_ensure; [by intros _|simpl; intros Hn'; zbool; lia].
  - destruct Hl as [?|Hl]; [lia|]. apply wp_ensure; [intros _|intros Hn'; zbool; lia]. subst n. by destruct c.
Qed.

Lemma wp_self {A} (cmd : Cmd prf_conn A) w c h Q E :
  hashes c = Some h -> wp cmd (w, with_work (hash_workspace h) c) Q E -> wp cmd (w, c) Q E.
Proof. intros Hh. by rewrite with_work_self. Qed.

Lemma ready_work c x : prf_ready c -> hash_alloc x -> prf_ready (with_work x c).
Proof. intros [? ? (h & Hh & _) ? ?] Hx. split; try done. simpl. rewrite Hh. by eexists. Qed.

Lemma ready_lset c (m : s2n_mode) f : prf_ready c -> prf_ready (lset (finished_lens m) f c).
Proof. intros []. by destruct m. Qed.

Lemma transcript_work required m h x : transcript_is required m h -> hash_alloc x -> transcript_is required m (lset hash_workspace_lens x h).
Proof. intros [Ho _] Hx. split; [|done]. intros ha l Hl Hw. specialize (Ho ha l Hl Hw). by destruct ha; simpl in *; simplify_eq. Qed.

Lemma wp_prf_into {A} (l : lens prf_conn (list Z)) n (cmd : Cmd (prf_conn * list Z) A) w c Q E :
  wp cmd (w, (c, take (Z.to_nat n) (lget l c)))
    (fun a w' x => Q a w' (lset l (overwrite (snd x) (lget l (fst x))) (fst x)))
    (fun e w' x => E e w' (lset l (overwrite (snd x) (lget l (fst x))) (fst x))) ->
  wp (prf_into l n cmd) (w, c) Q E.
Proof. unfold wp, prf_into. by destruct (cmd _) as [[a|e|] [w' [x out]]]. Qed.

(** What a finished message needs of a connection, and what it changes. *)
Definition finished_size (v : Z) : Z := if v =? S2N_SSLv3 then 36 else 12.
Definition finished_hashes (v : Z) alg : list s2n_hash_algorithm :=
  if v =? S2N_TLS12 then [s2n_hmac_hash_alg alg] else [S2N_HASH_MD5; S2N_HASH_SHA1].
Definition finished_alg (v : Z) alg : bool := negb (v =? S2N_TLS12) || bool_decide (alg = S2N_HMAC_SHA256) || bool_decide (alg = S2N_HMAC_SHA384).

Record can_finish m c : Prop := {
  cf_ready : prf_ready c;
  cf_hashes : exists h, hashes c = Some h /\ transcript_is (required_hash_algs c) m h;
  cf_required : Forall (fun ha => required_hash_algs c ha = true) (finished_hashes (version c) (suite_prf_alg c));
  cf_len : finished_len c = 0 \/ finished_len c = finished_size (version c);
  cf_client : zlen (client_finished c) = S2N_TLS_SECRET_LEN;
  cf_server : zlen (server_finished c) = S2N_TLS_SECRET_LEN;
  cf_secret : zlen (master_secret c) = S2N_TLS_SECRET_LEN;
}.

Definition other_mode (m : s2n_mode) : s2n_mode := match m with S2N_CLIENT => S2N_SERVER | S2N_SERVER => S2N_CLIENT end.
Record finished_done (m : s2n_mode) (msgs : list Z) c c' : Prop := {
  fd_data : take (Z.to_nat (finished_size (version c))) (lget (finished_lens m) c') =
    verify_data (version c) (suite_prf_alg c) (master_secret c) m msgs;
  fd_len : finished_len c' = finished_size (version c);
  fd_other : lget (finished_lens (other_mode m)) c' = lget (finished_lens (other_mode m)) c;
  fd_secret : master_secret c' = master_secret c;
  fd_can : can_finish msgs c';
}.

Definition finished_call (m : s2n_mode) : Cmd prf_conn unit := match m with S2N_CLIENT => s2n_prf_client_finished | S2N_SERVER => s2n_prf_server_finished end.

(** The state after the array of one side was written. *)
Lemma finished_doneI (m : s2n_mode) msgs c ws x f :
  can_finish msgs c -> space_ok ws -> hash_alloc x -> zlen f = S2N_TLS_SECRET_LEN ->
  take (Z.to_nat (finished_size (version c))) f = verify_data (version c) (suite_prf_alg c) (master_secret c) m msgs ->
  finished_done m msgs c (lset (finished_lens m) f (scratch ws x (set_finished_len (finished_size (version c)) c))).
Proof.
  intros [Hr (h & Hh & Ht) Hreq Hl Hc Hs Hms] Hws Hx Hf Hv.
  assert (Hr' : prf_ready (scratch ws x (set_finished_len (finished_size (version c)) c))) by (apply scratch_ready; [by destruct Hr|done|done]).
  split; [by rewrite lget_lset|by destruct m|by destruct m|by destruct m|]. split.
  - by apply ready_lset.
  - exists (lset hash_workspace_lens x h). split; [destruct m; simpl; by rewrite Hh|]. destruct m; simpl; by apply transcript_work.
  - by destruct m.
  - right. by destruct m.
  - by destruct m.
  - by destruct m.
  - by destruct m.
Qed.

Lemma scratch_work c ws x : prf_space c = Some ws -> scratch ws x c = with_work x c.
Proof. intros Hw. destruct c. simpl in *. by subst. Qed.

Lemma two_digests (f d1 d2 : list Z) : length d1 = 16%nat -> length d2 = 20%nat -> length f = 48%nat ->
  let f' := zsplice (zsplice f (Z.of_nat 0) d1) (Z.of_nat 16) d2 in length f' = 48%nat /\ take 36 f' = d1 ++ d2.
Proof.
  intros H1 H2 Hf. unfold zsplice. rewrite !Nat2Z.id, H1, H2, take_0. cbn [app].
  rewrite take_app_length' by done. rewrite drop_app, (drop_ge d1) by lia. cbn [app]. rewrite H1, drop_drop. cbn [Nat.add Nat.sub]. split.
  - rewrite !length_app, length_drop. lia.
  - rewrite app_assoc, take_app_length' by (rewrite length_app; lia). done.
Qed.

Lemma open_of msgs c h ha l : can_finish msgs c -> hashes c = Some h -> hash_lens ha = Some l -> ha <> S2N_HASH_MD5_SHA1 ->
  In ha (finished_hashes (version c) (suite_prf_alg c)) -> hash_open ha msgs (lget l h).
Proof.
  intros [_ (h' & Hh' & [Ho _]) Hreq _ _ _ _] Hh Hl Hne Hin. assert (h' = h) as -> by congruence. apply Ho; [done|].
  rewrite Forall_forall in Hreq. specialize (Hreq ha). rewrite list_elem_of_In in Hreq. specialize (Hreq Hin). by destruct ha.
Qed.

Lemma wp_sslv3_finished w c (m : s2n_mode) msgs Q E :
  can_finish msgs c -> version c = S2N_SSLv3 -> zlen msgs < 2 ^ 62 ->
  (forall c', finished_done m msgs c c' -> Q tt w c') -> (forall e x, hash_failure w e -> E e w x) ->
  wp (s2n_prf_sslv3_finished m (sender m)) (w, c) Q E.
Proof.
  intros Hcf Hv Hm HQ HE'. pose proof Hcf as [Hr (h & Hh & Ht) Hreq Hl Hc Hs Hms]. pose proof Hr as [_ (ws & Hws & Hwok) _ _ _].
  assert (Hsz : finished_size (version c) = 36) by (by rewrite Hv). rewrite Hsz in Hl.
  assert (Hin : forall ha, ha = S2N_HASH_MD5 \/ ha = S2N_HASH_SHA1 -> In ha (finished_hashes (version c) (suite_prf_alg c))).
  { intros ha [->| ->]; rewrite Hv; simpl; tauto. }
  assert (Hf : length (lget (finished_lens m) c) = 48%nat).
  { unfold zlen, S2N_TLS_SECRET_LEN in *. destruct m; simpl; lia. }
  assert (Hsend : zlen (sender m) <= 4) by (by destruct m).
  apply wp_bind, wp_get_obj. rewrite Hh. apply wp_bind, wp_ret, wp_bind, wp_set_finished_len; [unfold MD5_DIGEST_LENGTH, SHA_DIGEST_LENGTH; lia|done|].
  change (MD5_DIGEST_LENGTH + SHA_DIGEST_LENGTH) with 36. rewrite <- Hsz. set (c1 := set_finished_len _ c).
  assert (Hh1 : hashes c1 = Some h) by done. apply (wp_self _ _ _ h); [done|]. apply wp_bind.
  apply (wp_sslv3_finished_digest _ c1 h _ m (sender m) md5 S2N_HASH_MD5 48 0 msgs); [done|apply Ht|done| |done|done|simpl; rewrite Hms; unfold S2N_TLS_SECRET_LEN; lia|lia| | |done].
  { apply (open_of _ c h _ md5_lens); try done. apply Hin. tauto. }
  { change (Z.to_nat (s2n_hash_digest_size S2N_HASH_MD5)) with 16%nat. destruct m; simpl in *; lia. }
  intros y1 Hy1. set (d1 := sslv3_verify _ _ _ _ _). set (c2 := lset (finished_lens m) _ c1).
  assert (Hh2 : hashes c2 = Some h) by (by unfold c2; destruct m).
  assert (Hd : forall ha msg, length (hash_of ha msg) = Z.to_nat (s2n_hash_digest_size ha)).
  { intros ha msg. pose proof (hash_of_length ha msg) as Hz. unfold zlen in Hz. lia. }
  assert (Hg : lget (finished_lens m) c1 = lget (finished_lens m) c) by (by destruct m).
  set (d2 := sslv3_verify S2N_HASH_SHA1 40 (master_secret c) (sender m) msgs).
  destruct (two_digests (lget (finished_lens m) c) d1 d2 (Hd _ _) (Hd _ _) Hf) as [Hl' Ht'].
  apply (wp_sslv3_finished_digest _ c2 h _ m (sender m) sha1 S2N_HASH_SHA1 40 16 msgs); [done|done|done| |done|done| |lia| | |done].
  { apply (open_of _ c h _ sha1_lens); try done. apply Hin. tauto. }
  { assert (master_secret c2 = master_secret c) as -> by (by destruct m). rewrite Hms. unfold S2N_TLS_SECRET_LEN. lia. }
  { change (Z.to_nat (s2n_hash_digest_size S2N_HASH_SHA1)) with 20%nat. unfold c2. rewrite lget_lset, Hg. unfold zsplice.
    rewrite !length_app, length_take, length_drop. lia. }
  intros y2 Hy2. assert (master_secret c2 = master_secret c) as -> by (by destruct m). unfold c2. rewrite lget_lset, lset_lset, Hg.
  rewrite <- lset_work, <- (scratch_work _ ws) by done.
  apply HQ, finished_doneI; [done|done|done|unfold zlen, S2N_TLS_SECRET_LEN; fold d2; rewrite Hl'; lia|].
  unfold finished_size, verify_data. rewrite Hv. exact Ht'.
Qed.

Lemma sha_length alg m : finished_alg S2N_TLS12 alg = true -> zlen (hash_of (s2n_hmac_hash_alg alg) m) <= 48.
Proof. intros Ha. rewrite hash_of_length. by destruct alg. Qed.

Lemma scratch_of_work c x ws hw : scratch ws hw (with_work x c) = scratch ws hw c.
Proof. unfold scratch, with_work, set_prf_space, set_hashes. simpl. by destruct c as [? ? [h|] ? ? ? ? ? ? ? ? ? ?]. Qed.

Lemma scratch_parts c ws hw : prf_ready (scratch ws hw c) -> space_ok ws /\ hash_alloc hw.
Proof. intros [_ (ws' & [= <-] & Hws) (h & Hh & Hhw) _ _]. simpl in Hh. destruct (hashes c) as [h0|]; simplify_eq/=. done. Qed.

(** The end, once the session hash is there. *)
Lemma wp_finished_prf w c x (m : s2n_mode) msgs a b Q E :
  can_finish msgs c -> version c <> S2N_SSLv3 -> finished_alg (version c) (suite_prf_alg c) = true -> s2n_is_in_fips_mode = false -> hash_alloc x ->
  seeds a b None = (if version c =? S2N_TLS12 then hash_of (s2n_hmac_hash_alg (suite_prf_alg c)) msgs
                    else hash_of S2N_HASH_MD5 msgs ++ hash_of S2N_HASH_SHA1 msgs) -> seed_sizes a b None ->
  (forall c', finished_done m msgs c c' -> Q tt w c') -> (forall e z, hash_failure w e -> E e w z) ->
  wp (prf_into (finished_lens m) S2N_TLS_FINISHED_LEN (s2n_prf (master_secret c) (finished_label m) (Some a) b None))
     (w, with_work x (set_finished_len S2N_TLS_FINISHED_LEN c)) Q E.
Proof.
  intros Hcf Hv Halg Hfips Hx Hseeds Hsz HQ HE'. pose proof Hcf as [Hr _ _ _ Hc Hs Hms].
  assert (Hsize : finished_size (version c) = 12) by (unfold finished_size; by destruct (Z.eqb_spec (version c) S2N_SSLv3)).
  change S2N_TLS_FINISHED_LEN with 12. rewrite <- Hsize. set (c1 := with_work x _).
  assert (Hr1 : prf_ready c1) by (apply ready_work; [by destruct Hr|done]).
  assert (Hf : length (lget (finished_lens m) c1) = 48%nat) by (unfold zlen, S2N_TLS_SECRET_LEN in *; destruct m; simpl; lia).
  apply wp_prf_into. rewrite Hsize at 1. change (Z.to_nat 12) with 12%nat.
  assert (Ht : length (take 12 (lget (finished_lens m) c1)) = 12%nat) by (rewrite length_take; lia).
  apply wp_prf; try done; [rewrite Hms; unfold S2N_TLS_SECRET_LEN; lia|by destruct m|unfold zlen; lia| |by intros; apply HE'].
  intros ws hw Hr2. cbn [fst snd]. rewrite Ht, Hseeds.
  set (v := PRF _ _ _ _ _ _). assert (Hvl : length v = 12%nat).
  { unfold v, PRF. change (version c1) with (version c). destruct (Z.eqb_spec (version c) S2N_SSLv3); [done|].
    destruct (Z.eqb_spec (version c) S2N_TLS12) as [E12|_].
    - apply P_hash_length. change (suite_prf_alg c1) with (suite_prf_alg c). rewrite E12 in Halg. by destruct (suite_prf_alg c).
    - unfold PRF10. rewrite length_zip_with, !P_hash_length by done. done. }
  destruct (scratch_parts _ _ _ Hr2) as [Hws Hhw]. unfold c1. rewrite scratch_of_work.
  assert (Hg : lget (finished_lens m) (scratch ws hw (set_finished_len (finished_size (version c)) c)) = lget (finished_lens m) c1)
    by (by destruct m).
  rewrite Hg. apply HQ, finished_doneI; [done|done|done| |].
  - rewrite zlen_overwrite; unfold zlen, S2N_TLS_SECRET_LEN; lia.
  - rewrite Hsize. change (Z.to_nat 12) with 12%nat. rewrite <- Hvl at 1. rewrite take_overwrite. unfold verify_data, v.
    change (version c1) with (version c). by destruct (Z.eqb_spec (version c) S2N_SSLv3).
Qed.

(** The whole function, after the messages. *)
Lemma wp_finished w c (m : s2n_mode) msgs Q E :
  can_finish msgs c -> s2n_is_in_fips_mode = false -> zlen msgs < 2 ^ 62 ->
  (finished_alg (version c) (suite_prf_alg c) = true -> forall c', finished_done m msgs c c' -> Q tt w c') ->
  (finished_alg (version c) (suite_prf_alg c) = false -> forall x, E S2N_ERR_PRF_INVALID_ALGORITHM w x) ->
  (forall e x, hash_failure w e -> E e w x) ->
  wp (finished_call m) (w, c) Q E.
Proof.
  intros Hcf Hfips Hm HQ HA HE'. pose proof Hcf as [Hr (h & Hh & Ht) Hreq Hl Hc Hs Hms]. pose proof Hr as [(p & ra & Hp & _) _ _ Hv _].
  set (ssl := match m with S2N_CLIENT => s2n_prf_sslv3_client_finished | S2N_SERVER => s2n_prf_sslv3_server_finished end).
  assert (Hcall : finished_call m = prf_finished m (finished_label m) ssl) by (by destruct m). rewrite Hcall.
  apply wp_bind, wp_bind, wp_get_obj, wp_ensure; [intros _|unfold params_is_null; simpl; by rewrite Hp].
  apply wp_bind, wp_get_obj. rewrite Hh. apply wp_bind, wp_ret.
  destruct (Z.eqb_spec (version c) S2N_SSLv3) as [Hv3|Hv3].
  { assert (Hssl : ssl = s2n_prf_sslv3_finished m (sender m)) by (by destruct m). rewrite Hssl.
    apply (wp_sslv3_finished _ _ m msgs); [done|done|done| |done]. apply HQ. unfold finished_alg. by rewrite Hv3. }
  assert (Hsz : finished_size (version c) = 12) by (unfold finished_size; by destruct (Z.eqb_spec (version c) S2N_SSLv3)). rewrite Hsz in Hl.
  apply wp_bind, wp_set_finished_len; [unfold S2N_TLS_FINISHED_LEN; lia|done|].
  assert (Hopen : forall ha l, hash_lens ha = Some l -> ha <> S2N_HASH_MD5_SHA1 -> In ha (finished_hashes (version c) (suite_prf_alg c)) -> hash_open ha msgs (lget l h)).
  { intros. by eapply open_of. }
  apply (wp_self _ _ _ h); [done|]. unfold finished_hashes in Hopen. destruct (Z.eqb_spec (version c) S2N_TLS12) as [Hv12|Hv12].
  - apply wp_bind. destruct (finished_alg (version c) (suite_prf_alg c)) eqn:Halg.
    2: { unfold finished_alg in Halg. rewrite (proj2 (Z.eqb_eq _ _) Hv12) in Halg. specialize (HA eq_refl). destruct (suite_prf_alg c); try done; apply wp_fail, HA. }
    assert (Hend : forall y, hash_alloc y -> wp (prf_into (finished_lens m) S2N_TLS_FINISHED_LEN
      (s2n_prf (master_secret c) (finished_label m) (Some (hash_of (s2n_hmac_hash_alg (suite_prf_alg c)) msgs)) None None))
      (w, with_work y (set_finished_len S2N_TLS_FINISHED_LEN c)) Q E).
    { intros y Hy. apply (wp_finished_prf _ _ _ m msgs); try done; [| |by apply HQ].
      - unfold seeds. simpl. rewrite (proj2 (Z.eqb_eq _ _) Hv12). by rewrite app_nil_r.
      - rewrite Hv12 in Halg. split; [|by split]. pose proof (sha_length _ msgs Halg). assert (MAX_UPDATE = 17535) by done. lia. }
    unfold finished_alg in Halg. rewrite (proj2 (Z.eqb_eq _ _) Hv12) in Halg. destruct (suite_prf_alg c); try done.
    + apply (wp_transcript_digest _ _ h _ _ S2N_HASH_SHA256 msgs); [done|apply Ht|done| |done|done|by intros; apply HE'].
      apply (Hopen _ sha256_lens); simpl; tauto || done.
    + apply (wp_transcript_digest _ _ h _ _ S2N_HASH_SHA384 msgs); [done|apply Ht|done| |done|done|by intros; apply HE'].
      apply (Hopen _ sha384_lens); simpl; tauto || done.
  - assert (Halg : finished_alg (version c) (suite_prf_alg c) = true).
    { unfold finished_alg. by rewrite (proj2 (Z.eqb_neq _ _) Hv12). }
    apply wp_bind, (wp_transcript_digest _ _ h _ _ S2N_HASH_MD5 msgs); [done|apply Ht|done| |done| |by intros; apply HE'].
    { apply (Hopen _ md5_lens); simpl; tauto || done. }
    intros y1 Hy1. apply wp_bind, (wp_transcript_digest _ _ h _ _ S2N_HASH_SHA1 msgs); [done|done|done| |done| |by intros; apply HE'].
    { apply (Hopen _ sha1_lens); simpl; tauto || done. }
    intros y2 Hy2. apply (wp_finished_prf _ _ _ m msgs); try done; [| |by apply HQ].
    + unfold seeds. simpl. rewrite (proj2 (Z.eqb_neq _ _) Hv12). by rewrite app_nil_r.
    + unfold seed_sizes. simpl. by rewrite !hash_of_length.
Qed.

Lemma can_finish_fed m m' c h : can_finish m c -> transcript_is (required_hash_algs c) m' h -> can_finish m' (set_hashes (Some h) c).
Proof.
  intros [Hr _ Hreq Hl Hc Hs Hms] Ht. split; try done.
  - destruct Hr. split; try done. exists h. split; [done|]. apply Ht.
  - by exists h.
Qed.

(** C13 The verify data of the finished messages covers the whole
    handshake.  The transcript hashes start empty and are fed the handshake
    messages one by one with s2n_conn_update_handshake_hashes; then
    s2n_prf_client_finished or s2n_prf_server_finished stores, as the data of
    its side, the verify data of the protocol version for the concatenation of
    the messages: PRF(master_secret, label, Hash(messages)) of 12 bytes for TLS
    1.0 to 1.2, the nested MD5 and SHA-1 of RFC 6101 of 36 bytes for SSLv3.  The
    length is recorded; the data of the other side, the master secret and the
    transcript stay, so that the other side's data and later messages can
    follow.  It fails only for an algorithm other than SHA-256 and SHA-384 in
    TLS 1.2, or if libcrypto fails. *)
Theorem finished_correct w c (m : s2n_mode) (msgs : list (list Z))
    (Hcan : can_finish [] c) (Hfips : s2n_is_in_fips_mode = false) (Hmsgs : zlen (mjoin msgs) < 2 ^ 62) :
  match (feed msgs ;;; finished_call m) (w, c) with
  | (Ok _, (w', c')) => w' = w /\ finished_alg (version c) (suite_prf_alg c) = true /\ finished_done m (mjoin msgs) c c'
  | (Err e, (w', _)) =>
      w' = w /\ (hash_failure w e \/ finished_alg (version c) (suite_prf_alg c) = false /\ e = S2N_ERR_PRF_INVALID_ALGORITHM)
  | (UB, _) => False
  end.
Proof.
  assert (Hrun : wp (feed msgs ;;; finished_call m) (w, c)
    (fun _ w' c' => w' = w /\ finished_alg (version c) (suite_prf_alg c) = true /\ finished_done m (mjoin msgs) c c')
    (fun e w' _ => w' = w /\ (hash_failure w e \/ finished_alg (version c) (suite_prf_alg c) = false /\ e = S2N_ERR_PRF_INVALID_ALGORITHM))).
  { pose proof Hcan as [_ (h & Hh & Ht) _ _ _ _ _].
    apply wp_bind, (wp_feed _ _ _ h []); [done|done|unfold zlen at 1; simpl; lia| |by eauto]. intros h' Ht'. simpl in Ht'.
    apply (wp_finished _ _ m (mjoin msgs)); [by eapply can_finish_fed|done|done| |by eauto|by eauto].
    intros Halg c' [Hd Hln Ho Hms Hcf]. split_goal; [done|done|]. split; try done. by destruct m. }
  unfold wp in Hrun. by destruct (bind _ _ _) as [[u|e|] [w' c']].
Qed.

(** ** The keys of a connection *)

(** A cipher object of the library, and session keys whose contexts are allocated. *)
Definition known_cipher (a : s2n_cipher) : Prop := In a (map fst key_setters).
Definition key_live (k : s2n_session_key) : Prop := exists e a, k = SessionKey (CtxLive e) (CtxLive a).

(** A command on a session key that leaves the world alone and is defined. *)
Definition key_cmd {A} (cmd : Cmd s2n_session_key A) : Prop :=
  forall w k, key_live k -> exists r k', cmd (w, k) = (r, (w, k')) /\ r <> UB /\ key_live k'.

Lemma key_cmd_ret {A} (x : A) : key_cmd (ret x).
Proof. intros w k Hk. by exists (Ok x), k. Qed.
Lemma key_cmd_ensure b e : key_cmd (ensure b e).
Proof. intros w k Hk. destruct b; by eexists _, k. Qed.
Lemma key_cmd_bind {A B} (cmd : Cmd s2n_session_key A) (f : A -> Cmd s2n_session_key B) :
  key_cmd cmd -> (forall x, key_cmd (f x)) -> key_cmd (bind cmd f).
Proof.
  intros Hc Hf w k Hk. destruct (Hc w k Hk) as (r & k1 & Hr & Hub & Hk1). unfold bind. rewrite Hr.
  destruct r as [x|e|]; [by apply Hf|by exists (Err e), k1|done].
Qed.
Lemma key_cmd_evp {A} (f : cipher_ctx -> A * cipher_ctx) : key_cmd (on_evp f).
Proof. intros w k (e & a & ->). eexists _, _. split; [reflexivity|]. split; [done|]. by eexists _, _. Qed.
Lemma key_cmd_aead {A} (f : aead_ctx -> A * aead_ctx) : key_cmd (on_aead f).
Proof. intros w k (e & a & ->). eexists _, _. split; [reflexivity|]. split; [done|]. by eexists _, _. Qed.
Lemma key_cmd_if {A} (b : bool) (x y : Cmd s2n_session_key A) : key_cmd x -> key_cmd y -> key_cmd (if b then x else y).
Proof. by destruct b. Qed.

Ltac solve_key_cmd :=
  repeat first [apply key_cmd_evp|apply key_cmd_aead|apply key_cmd_ret|apply key_cmd_ensure|apply key_cmd_if|apply key_cmd_bind; [|intros ?]].

Lemma key_cmd_setter a key : known_cipher a -> key_cmd (set_encryption_key a key) /\ key_cmd (set_decryption_key a key).
Proof.
  intros Ha. cbv [known_cipher key_setters map In fst] in Ha.
  repeat (destruct Ha as [<-|Ha]; [split; cbv [set_encryption_key set_decryption_key]; simpl; solve_key_cmd|]). done.
Qed.

Lemma key_cmd_init a : key_cmd (cipher_init a).
Proof. unfold cipher_init. destruct (io a); solve_key_cmd. Qed.

Lemma key_cmd_mac a key : key_cmd (set_mac_write_key a key).
Proof. unfold set_mac_write_key. destruct (_ || _); solve_key_cmd. Qed.

Lemma wp_key {A} (cmd : Cmd s2n_session_key A) w k Q E :
  key_cmd cmd -> key_live k -> (forall x k', cmd (w, k) = (Ok x, (w, k')) -> key_live k' -> Q x w k') ->
  (forall e k', cmd (w, k) = (Err e, (w, k')) -> E e w k') -> wp cmd (w, k) Q E.
Proof.
  intros Hc Hk HQ HE'. destruct (Hc w k Hk) as (r & k' & Hr & Hub & Hk'). unfold wp. rewrite Hr.
  destruct r as [x|e|]; [by apply HQ|by apply HE'|done].
Qed.

(** The setup of the key of one side, in the order of the calls. *)
Definition write_mac (a : s2n_cipher) (mac : list Z) : Cmd s2n_session_key unit :=
  match io a with S2N_COMPOSITE _ _ _ => set_mac_write_key a mac | _ => ret tt end.
Definition key_setup (own : bool) (a : s2n_cipher) (key mac : list Z) : Cmd s2n_session_key unit :=
  cipher_init a ;;; (if own then set_encryption_key a key else set_decryption_key a key) ;;; write_mac a mac.

(** The key block and its six parts, in the order of RFC 5246 6.3. *)
Definition key_block_size (v : Z) (ra : s2n_record_algorithm) : Z :=
  2 * (key_mac_size ra + key_material_size (cipher ra) + implicit_iv_size v (io (cipher ra))).
Definition expanded_block c : list Z :=
  PRF (version c) (suite_prf_alg c) (master_secret c) (label "key expansion") (server_random c ++ client_random c) (Z.to_nat S2N_MAX_KEY_BLOCK_LEN).
Definition part (m : s2n_mode) (start n : Z) (kb : list Z) : list Z := zslice kb (match m with S2N_CLIENT => start | S2N_SERVER => start + n end) n.
Definition mac_key (m : s2n_mode) (ra : s2n_record_algorithm) (kb : list Z) : list Z := part m 0 (key_mac_size ra) kb.
Definition write_key (m : s2n_mode) (ra : s2n_record_algorithm) (kb : list Z) : list Z :=
  part m (2 * key_mac_size ra) (key_material_size (cipher ra)) kb.
Definition write_iv (m : s2n_mode) (v : Z) (ra : s2n_record_algorithm) (kb : list Z) : list Z :=
  part m (2 * key_mac_size ra + 2 * key_material_size (cipher ra)) (implicit_iv_size v (io (cipher ra))) kb.

(** What is known of the record algorithms of the library. *)
Definition alg_sizes (ra : s2n_record_algorithm) (v : Z) : bool :=
  (0 <=? key_mac_size ra) && (0 <=? key_material_size (cipher ra)) &&
  (0 <=? implicit_iv_size v (io (cipher ra))) && (implicit_iv_size v (io (cipher ra)) <=? S2N_TLS_MAX_IV_LEN).

Lemma alg_sizes_checked : forallb (fun ra => forallb (alg_sizes ra) versions) record_algs = true.
Proof. vm_compute. reflexivity. Qed.

(** Only AES-256 with SHA-384, which is for TLS 1.2, needs more than the block before TLS 1.1. *)
Lemma key_block_fits : forallb (fun ra => forallb (fun v => (key_block_size v ra <=? S2N_MAX_KEY_BLOCK_LEN) ||
  (bool_decide (record_alg_symbol ra = "s2n_record_alg_aes256_sha384") && (v <=? S2N_TLS10))) versions) record_algs = true.
Proof. vm_compute. reflexivity. Qed.

Lemma alg_known ra : In ra record_algs -> known_cipher (cipher ra).
Proof.
  intros Hin. repeat (destruct Hin as [<-|Hin]; [unfold known_cipher; cbv [key_setters map fst]; simpl; tauto|]). done.
Qed.

Lemma alg_size_facts ra v : In ra record_algs -> In v versions ->
  0 <= key_mac_size ra /\ 0 <= key_material_size (cipher ra) /\ 0 <= implicit_iv_size v (io (cipher ra)) <= S2N_TLS_MAX_IV_LEN.
Proof.
  intros Hra Hv. pose proof alg_sizes_checked as Hall. rewrite forallb_forall in Hall. specialize (Hall _ Hra).
  rewrite forallb_forall in Hall. specialize (Hall _ Hv). unfold alg_sizes in Hall. zbool. lia.
Qed.

(** ** The key material *)

Lemma wp_take_slice w cursor n Q E :
  (n <= S2N_MAX_KEY_BLOCK_LEN - cursor -> Q (cursor, n) w (cursor + n)) -> (S2N_MAX_KEY_BLOCK_LEN - cursor < n -> E S2N_ERR_NULL w cursor) ->
  wp (take_slice n) (w, cursor) Q E.
Proof.
  intros HQ HE'. apply wp_bind, wp_get_obj, wp_bind, wp_ensure; intros Hz; zbool; [|by apply HE'].
  apply wp_bind, wp_put_obj, wp_ret. by apply HQ.
Qed.

(** The slices of the parts. *)
Definition material (v : Z) (ra : s2n_record_algorithm) (kb : list Z) : s2n_key_material :=
  let ms := key_mac_size ra in
  let ks := key_material_size (cipher ra) in
  let ivs := implicit_iv_size v (io (cipher ra)) in
  KeyMaterial kb (0, ms) (0 + ms, ms) (0 + ms + ms, ks) (0 + ms + ms + ks, ks) (0 + ms + ms + ks + ks, ivs) (0 + ms + ms + ks + ks + ivs, ivs).

Lemma wp_key_material_init w c p ra k Q E :
  secure (prf_record c) = Some p -> params_alg p = Some ra -> In ra record_algs -> In (version c) versions ->
  (key_block_size (version c) ra <= S2N_MAX_KEY_BLOCK_LEN -> Q tt w (c, material (version c) ra (key_block k))) ->
  (S2N_MAX_KEY_BLOCK_LEN < key_block_size (version c) ra -> forall x, E S2N_ERR_NULL w x) ->
  wp s2n_key_material_init (w, (c, k)) Q E.
Proof.
  intros Hp Ha Hin Hver HQ HE'. destruct (alg_size_facts _ _ Hin Hver) as (Hm & Hk & Hi & _).
  apply wp_bind, wp_zoom, (wp_secure_alg _ _ p ra); [done|done|]. apply wp_bind, wp_zoom, wp_get_obj. simpl.
  unfold key_block_size in HQ, HE'. apply wp_bind, wp_with_local. cbv zeta.
  set (ms := key_mac_size ra) in *. set (ks := key_material_size (cipher ra)) in *. set (ivs := implicit_iv_size _ _) in *.
  do 6 (apply wp_bind, wp_take_slice; [intros ?|intros ?; apply HE'; lia]). apply wp_ret. cbn [fst]. apply wp_zoom, wp_modify. apply HQ. lia.
Qed.

Lemma PRF_length v alg secret name seed n : (v = S2N_TLS12 -> alg <> S2N_HMAC_NONE) -> length (PRF v alg secret name seed n) = n.
Proof.
  intros Ha. unfold PRF. destruct (v =? S2N_SSLv3).
  - unfold PRF_sslv3. rewrite length_take. assert (n <= length (mjoin (map (sslv3_block secret seed) (seq 0 n))))%nat; [|lia].
    apply mjoin_blocks. intros i. pose proof (hash_of_length S2N_HASH_MD5 (secret ++ hash_of S2N_HASH_SHA1 (repeat (65 + Z.of_nat i) (S i) ++ secret ++ seed))) as Hz.
    unfold sslv3_block. unfold zlen in Hz. simpl s2n_hash_digest_size in Hz. unfold MD5_DIGEST_LENGTH in Hz. lia.
  - destruct (Z.eqb_spec v S2N_TLS12) as [Hv|_]; [apply P_hash_length; by apply Ha|].
    unfold PRF10. rewrite length_zip_with, !P_hash_length by done. lia.
Qed.

Lemma wp_generate w c p ra Q E :
  prf_ready c -> s2n_is_in_fips_mode = false -> secure (prf_record c) = Some p -> params_alg p = Some ra -> In ra record_algs ->
  zlen (master_secret c) = S2N_TLS_SECRET_LEN -> zlen (client_random c) = S2N_TLS_RANDOM_DATA_LEN -> zlen (server_random c) = S2N_TLS_RANDOM_DATA_LEN ->
  (forall ws hw, prf_ready (scratch ws hw c) -> key_block_size (version c) ra <= S2N_MAX_KEY_BLOCK_LEN ->
     Q tt w (scratch ws hw c, material (version c) ra (expanded_block c))) ->
  (S2N_MAX_KEY_BLOCK_LEN < key_block_size (version c) ra -> forall x, E S2N_ERR_NULL w x) ->
  (forall e x, hash_failure w e -> E e w x) ->
  wp s2n_prf_generate_key_material (w, (c, zero_key_material)) Q E.
Proof.
  intros Hr Hfips Hp Ha Hin Hms Hcr Hsr HQ HB HE'. pose proof Hr as [_ _ _ Hv _].
  assert (Hver : In (version c) versions) by (unfold versions, S2N_SSLv3, S2N_TLS12, S2N_TLS10, S2N_TLS11 in *; simpl; lia).
  apply wp_bind, wp_zoom, wp_get_obj. apply wp_bind, (wp_key_material_init _ _ p ra); [done..| |done]. intros Hfit.
  set (k := material _ _ _). assert (Hlen : length (key_block k) = 160%nat) by done.
  assert (Hrun : wp (s2n_prf (master_secret c) (label "key expansion") (Some (server_random c)) (Some (client_random c)) None) (w, (c, key_block k))
    (fun _ w' x => w' = w /\ snd x = expanded_block c /\ exists ws hw, fst x = scratch ws hw c /\ prf_ready (scratch ws hw c)) (fun e w' x => w' = w /\ hash_failure w e)).
  { apply wp_prf; try done; [rewrite Hms; by unfold S2N_TLS_SECRET_LEN|..].
    - unfold seed_sizes. simpl. rewrite Hcr, Hsr. done.
    - intros ws hw Hr'. split_goal; [done| |by exists ws, hw]. cbn [snd]. rewrite Hlen. unfold expanded_block, seeds. cbn [default from_option id]. by rewrite app_nil_r. }
  unfold wp in Hrun |- *. destruct (s2n_prf _ _ _ _ _ _) as [[u|e|] [w' [c' out]]]; simpl in Hrun; [| |done].
  - destruct Hrun as (-> & -> & ws & hw & -> & Hr'). destruct u. by apply HQ.
  - destruct Hrun as [-> He]. by apply HE'.
Qed.

(** ** Installing the keys *)

(** A connection with other sides of its secure parameters. *)
Definition sides (p : s2n_crypto_parameters) (cs ss : crypto_side) c : prf_conn :=
  set_prf_record (set_secure (Some (CryptoParameters (params_mem p) (params_alg p) cs ss)) (prf_record c)) c.

Lemma sides_self c p : secure (prf_record c) = Some p -> sides p (client_side p) (server_side p) c = c.
Proof. intros Hp. destruct c as [r ? ? ? ? ? ? ? ? ? ? ? ?]. simpl in *. destruct r. simpl in *. subst. by destruct p. Qed.

Lemma wp_on_client {A} (cmd : Cmd crypto_side A) w c p cs ss Q E :
  wp cmd (w, cs) (fun a w' s => Q a w' (sides p s ss c)) (fun e w' s => E e w' (sides p s ss c)) ->
  wp (on_secure S2N_CLIENT cmd) (w, sides p cs ss c) Q E.
Proof. intros Hc. apply wp_zoom. unfold wp, on_side, on_params, zoom in *. simpl. by destruct (cmd (w, cs)) as [[a|e|] [w' s]]. Qed.

Lemma wp_on_server {A} (cmd : Cmd crypto_side A) w c p cs ss Q E :
  wp cmd (w, ss) (fun a w' s => Q a w' (sides p cs s c)) (fun e w' s => E e w' (sides p cs s c)) ->
  wp (on_secure S2N_SERVER cmd) (w, sides p cs ss c) Q E.
Proof. intros Hc. apply wp_zoom. unfold wp, on_side, on_params, zoom in *. simpl. by destruct (cmd (w, ss)) as [[a|e|] [w' s]]. Qed.

(** A side whose MAC state was keyed before (with no key, by s2n_crypto_parameters_wipe). *)
Record side_ready (s : crypto_side) : Prop := {
  sr_key : key_live (session_key s);
  sr_mac : exists alg key, keyed alg key (record_mac s);
}.

(** The side after the expansion. *)
Record side_keyed w (own : bool) (ra : s2n_record_algorithm) (mac key iv : list Z) (s s' : crypto_side) : Prop := {
  sk_mac : mac_is (hmac_alg ra) mac (Some []) (record_mac s');
  sk_iv : implicit_iv s' = overwrite iv (implicit_iv s);
  sk_sequence : sequence_number s' = sequence_number s;
  sk_key : key_setup own (cipher ra) key mac (w, session_key s) = (Ok tt, (w, session_key s'));
}.

Lemma wp_seed_mac_side w (s : crypto_side) (ra : s2n_record_algorithm) mac Q E :
  (exists alg key, keyed alg key (record_mac s)) -> zlen mac < 2 ^ 32 ->
  (forall h, mac_is (hmac_alg ra) mac (Some []) h -> Q tt w (lset record_mac_lens h s)) -> (forall e x, hash_failure w e -> E e w x) ->
  wp (zoom record_mac_lens s2n_hmac_reset ;;; zoom record_mac_lens (s2n_hmac_init (hmac_alg ra) mac)) (w, s) Q E.
Proof.
  intros (alg & key & Hk) Hm HQ HE'. apply wp_bind, wp_zoom, (wp_hmac_reset _ _ alg key); [done| |by intros; apply HE'].
  intros h [Hk1 _]. apply wp_zoom, wp_hmac_init; [by eapply keyed_alloc|done| |by intros; apply HE'].
  intros h2 Hh2. by apply HQ.
Qed.

(** A failing step of the setup fails it. *)
Lemma setup_init_fails (own : bool) a key mac w k e k' : cipher_init a (w, k) = (Err e, (w, k')) -> key_setup own a key mac (w, k) = (Err e, (w, k')).
Proof. intros Hi. unfold key_setup, bind. by rewrite Hi. Qed.

Lemma setup_key_fails (own : bool) a key mac w k k1 e k' : cipher_init a (w, k) = (Ok tt, (w, k1)) ->
  (if own then set_encryption_key a key else set_decryption_key a key) (w, k1) = (Err e, (w, k')) ->
  key_setup own a key mac (w, k) = (Err e, (w, k')).
Proof. intros Hi Hs. unfold key_setup, bind. rewrite Hi. by rewrite Hs. Qed.

Lemma setup_rest (own : bool) a key mac w k k1 k2 : cipher_init a (w, k) = (Ok tt, (w, k1)) ->
  (if own then set_encryption_key a key else set_decryption_key a key) (w, k1) = (Ok tt, (w, k2)) ->
  key_setup own a key mac (w, k) = write_mac a mac (w, k2).
Proof. intros Hi Hs. unfold key_setup, bind. rewrite Hi. by rewrite Hs. Qed.

Lemma key_cmd_write_mac a mac : key_cmd (write_mac a mac).
Proof. unfold write_mac. destruct (io a); try apply key_cmd_ret. apply key_cmd_mac. Qed.

Lemma slices_of v ra kb : 0 <= key_mac_size ra -> 0 <= key_material_size (cipher ra) -> 0 <= implicit_iv_size v (io (cipher ra)) ->
  let k := material v ra kb in
  (slice_bytes k (client_mac k) = mac_key S2N_CLIENT ra kb /\ slice_bytes k (server_mac k) = mac_key S2N_SERVER ra kb) /\
  (slice_bytes k (client_key k) = write_key S2N_CLIENT ra kb /\ slice_bytes k (server_key k) = write_key S2N_SERVER ra kb) /\
  (slice_bytes k (client_iv k) = write_iv S2N_CLIENT v ra kb /\ slice_bytes k (server_iv k) = write_iv S2N_SERVER v ra kb).
Proof.
  intros Hm Hk Hi. unfold slice_bytes, mac_key, write_key, write_iv, part, zslice. simpl fst. simpl snd. simpl key_block.
  split_goal; (reflexivity || (f_equal; f_equal; lia)).
Qed.

Lemma lset_session_key (s : crypto_side) : lset session_key_lens (session_key s) s = s.
Proof. by destruct s. Qed.

Lemma wp_write_macs w c p cs ss (ra : s2n_record_algorithm) cm sm Q E :
  key_live (session_key cs) -> key_live (session_key ss) ->
  (forall k1 k2, write_mac (cipher ra) cm (w, session_key cs) = (Ok tt, (w, k1)) ->
     write_mac (cipher ra) sm (w, session_key ss) = (Ok tt, (w, k2)) ->
     Q tt w (sides p (lset session_key_lens k1 cs) (lset session_key_lens k2 ss) c)) ->
  (forall e k x, write_mac (cipher ra) cm (w, session_key cs) = (Err e, (w, k)) \/
     write_mac (cipher ra) sm (w, session_key ss) = (Err e, (w, k)) -> E e w x) ->
  wp (match io (cipher ra) with
      | S2N_COMPOSITE _ _ _ =>
          on_secure S2N_CLIENT (zoom session_key_lens (set_mac_write_key (cipher ra) cm)) ;;;
          on_secure S2N_SERVER (zoom session_key_lens (set_mac_write_key (cipher ra) sm))
      | _ => ret tt
      end) (w, sides p cs ss c) Q E.
Proof.
  intros Hc Hs HQ HE'. unfold write_mac in HQ, HE'. destruct (io (cipher ra)).
  1-3: apply wp_ret; specialize (HQ _ _ eq_refl eq_refl); by rewrite !lset_session_key in HQ.
  apply wp_bind, wp_on_client, wp_zoom, wp_key; [apply key_cmd_mac|done| |].
  - intros [] k1 Hk1 _. apply wp_on_server, wp_zoom, wp_key; [apply key_cmd_mac|done| |].
    + intros [] k2 Hk2 _. by apply HQ.
    + intros e k2 Hk2. eapply HE'. by right.
  - intros e k1 Hk1. eapply HE'. by left.
Qed.

Lemma wp_make_key_client w c p cs ss ra key Q E :
  params_alg p = Some ra -> known_cipher (cipher ra) -> key_live (session_key cs) ->
  let set := if bool_decide (mode (rbase (prf_record c)) = S2N_CLIENT) then set_encryption_key (cipher ra) key else set_decryption_key (cipher ra) key in
  (forall k1, set (w, session_key cs) = (Ok tt, (w, k1)) -> key_live k1 -> Q tt w (sides p (lset session_key_lens k1 cs) ss c)) ->
  (forall e k1 x, set (w, session_key cs) = (Err e, (w, k1)) -> E e w x) ->
  wp (make_key S2N_CLIENT key) (w, sides p cs ss c) Q E.
Proof.
  intros Ha Hkn Hl set HQ HE'. destruct (key_cmd_setter _ key Hkn) as [H1 H2].
  apply wp_bind, (wp_secure_alg _ _ (CryptoParameters (params_mem p) (params_alg p) cs ss) ra); [done|done|]. apply wp_bind, wp_get_obj.
  apply wp_on_client, wp_zoom. change (rbase (prf_record (sides p cs ss c))) with (rbase (prf_record c)). fold set.
  apply wp_key; [by apply key_cmd_if|done| |by intros; eapply HE']. intros []. apply HQ.
Qed.

Lemma wp_make_key_server w c p cs ss ra key Q E :
  params_alg p = Some ra -> known_cipher (cipher ra) -> key_live (session_key ss) ->
  let set := if bool_decide (mode (rbase (prf_record c)) = S2N_SERVER) then set_encryption_key (cipher ra) key else set_decryption_key (cipher ra) key in
  (forall k1, set (w, session_key ss) = (Ok tt, (w, k1)) -> key_live k1 -> Q tt w (sides p cs (lset session_key_lens k1 ss) c)) ->
  (forall e k1 x, set (w, session_key ss) = (Err e, (w, k1)) -> E e w x) ->
  wp (make_key S2N_SERVER key) (w, sides p cs ss c) Q E.
Proof.
  intros Ha Hkn Hl set HQ HE'. destruct (key_cmd_setter _ key Hkn) as [H1 H2].
  apply wp_bind, (wp_secure_alg _ _ (CryptoParameters (params_mem p) (params_alg p) cs ss) ra); [done|done|]. apply wp_bind, wp_get_obj.
  apply wp_on_server, wp_zoom. change (rbase (prf_record (sides p cs ss c))) with (rbase (prf_record c)). fold set.
  apply wp_key; [by apply key_cmd_if|done| |by intros; eapply HE']. intros []. apply HQ.
Qed.

Lemma wp_seed_client w c p cs ss ra mac Q E :
  (exists alg key, keyed alg key (record_mac cs)) -> zlen mac < 2 ^ 32 ->
  (forall h, mac_is (hmac_alg ra) mac (Some []) h -> Q tt w (sides p (lset record_mac_lens h cs) ss c)) ->
  (forall e x, hash_failure w e -> E e w x) -> wp (seed_mac S2N_CLIENT ra mac) (w, sides p cs ss c) Q E.
Proof.
  intros Hk Hm HQ HE'. pose proof (wp_seed_mac_side w cs ra mac (fun a w' s => Q a w' (sides p s ss c)) (fun e w' s => E e w' (sides p s ss c)) Hk Hm HQ
    ltac:(by intros; apply HE')) as Hrun. unfold wp, bind in Hrun. apply wp_bind, wp_on_client. unfold wp.
  destruct (zoom record_mac_lens s2n_hmac_reset (w, cs)) as [[[]|e|] [w1 s1]]; [by apply wp_on_client|done|done].
Qed.

Lemma wp_seed_server w c p cs ss ra mac Q E :
  (exists alg key, keyed alg key (record_mac ss)) -> zlen mac < 2 ^ 32 ->
  (forall h, mac_is (hmac_alg ra) mac (Some []) h -> Q tt w (sides p cs (lset record_mac_lens h ss) c)) ->
  (forall e x, hash_failure w e -> E e w x) -> wp (seed_mac S2N_SERVER ra mac) (w, sides p cs ss c) Q E.
Proof.
  intros Hk Hm HQ HE'. pose proof (wp_seed_mac_side w ss ra mac (fun a w' s => Q a w' (sides p cs s c)) (fun e w' s => E e w' (sides p cs s c)) Hk Hm HQ
    ltac:(by intros; apply HE')) as Hrun. unfold wp, bind in Hrun. apply wp_bind, wp_on_server. unfold wp.
  destruct (zoom record_mac_lens s2n_hmac_reset (w, ss)) as [[[]|e|] [w1 s1]]; [by apply wp_on_server|done|done].
Qed.

(** Whether the connection is the given side; then it encrypts with its key. *)
Definition own_side c (m : s2n_mode) : bool := bool_decide (mode (rbase (prf_record c)) = m).

Definition setup_failure w c p ra kb (e : s2n_error) : Prop :=
  exists (m : s2n_mode) k, key_setup (own_side c m) (cipher ra) (write_key m ra kb) (mac_key m ra kb) (w, session_key (lget (side_lens m) p)) = (Err e, (w, k)).

Lemma wp_install w c p ra kb Q E :
  secure (prf_record c) = Some p -> params_alg p = Some ra -> In ra record_algs -> In (version c) versions -> zlen kb = S2N_MAX_KEY_BLOCK_LEN ->
  side_ready (client_side p) -> side_ready (server_side p) ->
  (forall cs ss,
     side_keyed w (own_side c S2N_CLIENT) ra (mac_key S2N_CLIENT ra kb) (write_key S2N_CLIENT ra kb) (write_iv S2N_CLIENT (version c) ra kb) (client_side p) cs ->
     side_keyed w (own_side c S2N_SERVER) ra (mac_key S2N_SERVER ra kb) (write_key S2N_SERVER ra kb) (write_iv S2N_SERVER (version c) ra kb) (server_side p) ss ->
     suite_available c = true -> Q tt w (sides p cs ss c)) ->
  (suite_available c = false -> E S2N_ERR_PRF_INVALID_ALGORITHM w c) ->
  (forall e x, hash_failure w e \/ setup_failure w c p ra kb e -> E e w x) ->
  wp (install_key_material ra (material (version c) ra kb)) (w, c) Q E.
Proof.
  intros Hp Ha Hin Hver Hkb [Hkc Hmc] [Hks Hms] HQ HA HE'. destruct (alg_size_facts _ _ Hin Hver) as (Hm & Hk & Hi & Hi16).
  pose proof (alg_known _ Hin) as Hkn. destruct (slices_of (version c) ra kb Hm Hk Hi) as ((E1 & E2) & (E3 & E4) & E5 & E6).
  assert (Hzl : forall m : s2n_mode, zlen (mac_key m ra kb) < 2 ^ 32).
  { intros m. unfold mac_key, part, zslice, zlen in *. rewrite length_take, length_drop. unfold S2N_MAX_KEY_BLOCK_LEN in Hkb. lia. }
  assert (HF1 : forall (m : s2n_mode) e k x, key_setup (own_side c m) (cipher ra) (write_key m ra kb) (mac_key m ra kb) (w, session_key (lget (side_lens m) p)) = (Err e, (w, k)) -> E e w x).
  { intros m e k x Hf. apply HE'. right. by exists m, k. }
  unfold install_key_material, s2n_prf_make_client_key, s2n_prf_make_server_key. rewrite E1, E2, E3, E4, E5, E6.
  apply wp_bind, wp_get_obj, wp_bind, wp_ensure; [intros Hav|done]. rewrite <- (sides_self c p Hp) at 1.
  apply wp_bind, wp_on_client, wp_zoom, wp_key; [apply key_cmd_init|done| |intros e k1 H1; by eapply (HF1 S2N_CLIENT), setup_init_fails].
  intros [] k1 H1 L1. apply wp_bind, wp_on_server, wp_zoom, wp_key; [apply key_cmd_init|done| |intros e k2 H2; by eapply (HF1 S2N_SERVER), setup_init_fails].
  intros [] k2 H2 L2. apply wp_bind, wp_seed_client; [done|done| |by intros; apply HE'; left]. intros h1 M1.
  apply wp_bind, wp_seed_server; [done|done| |by intros; apply HE'; left]. intros h2 M2.
  apply wp_bind, (wp_make_key_client _ _ _ _ _ ra); [done|done|done| |intros e k x Hf; by eapply (HF1 S2N_CLIENT), setup_key_fails]. intros k3 H3 L3.
  apply wp_bind, (wp_make_key_server _ _ _ _ _ ra); [done|done|done| |intros e k x Hf; by eapply (HF1 S2N_SERVER), setup_key_fails]. intros k4 H4 L4.
  pose proof (setup_rest _ _ _ (mac_key S2N_CLIENT ra kb) _ _ _ _ H1 H3) as R1. pose proof (setup_rest _ _ _ (mac_key S2N_SERVER ra kb) _ _ _ _ H2 H4) as R2.
  apply wp_bind, wp_write_macs; [done|done| |].
  2: { intros e k x [Hf|Hf]; [eapply (HF1 S2N_CLIENT)|eapply (HF1 S2N_SERVER)]; [exact (eq_trans R1 Hf)|exact (eq_trans R2 Hf)]. }
  intros k5 k6 H5 H6. apply wp_bind, wp_ensure; [intros _|by simpl; rewrite Z.eqb_refl].
  apply wp_bind, wp_ensure; [intros _|simpl; intros Hz; zbool; lia].
  apply wp_bind, wp_on_client, wp_modify, wp_on_server, wp_modify. apply HQ; [| |done].
  - split; [done|done|done|exact (eq_trans R1 H5)].
  - split; [done|done|done|exact (eq_trans R2 H6)].
Qed.

(** C12 Key expansion gives each side its part of the key block.
    After s2n_prf_key_expansion for a record algorithm of the library, the key
    block is PRF(master_secret, "key expansion", server_random + client_random)
    of the protocol version, cut into client and server MAC key, client and
    server write key, client and server IV in the order of RFC 5246 6.3, with IVs
    for AEAD ciphers and for CBC before TLS 1.1 only.  Each side has a MAC state
    for exactly its MAC key, its IV, and the key that the calls on its cipher give,
    in their order, with its write key: an encryption key on the side of the
    connection, a decryption key on the other.  The sequence numbers and the rest
    of the connection stay.  It fails if the suite is not available, if the parts
    do not fit in the block (AES-256 with SHA-384 before TLS 1.1), if a call on a
    cipher fails or if libcrypto fails. *)
Theorem key_expansion_correct w c p ra
    (Hready : prf_ready c) (Hfips : s2n_is_in_fips_mode = false) (Hp : secure (prf_record c) = Some p) (Ha : params_alg p = Some ra)
    (Hra : In ra record_algs) (Hms : zlen (master_secret c) = S2N_TLS_SECRET_LEN) (Hcr : zlen (client_random c) = S2N_TLS_RANDOM_DATA_LEN)
    (Hsr : zlen (server_random c) = S2N_TLS_RANDOM_DATA_LEN) (Hc : side_ready (client_side p)) (Hs : side_ready (server_side p)) :
  let kb := expanded_block c in
  match s2n_prf_key_expansion (w, c) with
  | (Ok _, (w', c')) =>
      w' = w /\ suite_available c = true /\
      exists ws hw cs ss, c' = sides p cs ss (scratch ws hw c) /\
        side_keyed w (own_side c S2N_CLIENT) ra (mac_key S2N_CLIENT ra kb) (write_key S2N_CLIENT ra kb) (write_iv S2N_CLIENT (version c) ra kb) (client_side p) cs /\
        side_keyed w (own_side c S2N_SERVER) ra (mac_key S2N_SERVER ra kb) (write_key S2N_SERVER ra kb) (write_iv S2N_SERVER (version c) ra kb) (server_side p) ss
  | (Err e, (w', _)) =>
      w' = w /\ (hash_failure w e \/ setup_failure w c p ra kb e \/ (suite_available c = false /\ e = S2N_ERR_PRF_INVALID_ALGORITHM) \/
        (S2N_MAX_KEY_BLOCK_LEN < key_block_size (version c) ra /\ e = S2N_ERR_NULL))
  | (UB, _) => False
  end.
Proof.
  intros kb. set (F := fun (e : s2n_error) => hash_failure w e \/ setup_failure w c p ra kb e \/
    (suite_available c = false /\ e = S2N_ERR_PRF_INVALID_ALGORITHM) \/ (S2N_MAX_KEY_BLOCK_LEN < key_block_size (version c) ra /\ e = S2N_ERR_NULL)).
  set (G := fun c' => exists ws hw cs ss, c' = sides p cs ss (scratch ws hw c) /\
    side_keyed w (own_side c S2N_CLIENT) ra (mac_key S2N_CLIENT ra kb) (write_key S2N_CLIENT ra kb) (write_iv S2N_CLIENT (version c) ra kb) (client_side p) cs /\
    side_keyed w (own_side c S2N_SERVER) ra (mac_key S2N_SERVER ra kb) (write_key S2N_SERVER ra kb) (write_iv S2N_SERVER (version c) ra kb) (server_side p) ss).
  assert (Hver : In (version c) versions).
  { pose proof Hready as [_ _ _ Hv _]. unfold versions, S2N_SSLv3, S2N_TLS12, S2N_TLS10, S2N_TLS11 in *. simpl. lia. }
  assert (Hkb : zlen kb = S2N_MAX_KEY_BLOCK_LEN).
  { unfold zlen, kb, expanded_block. rewrite PRF_length; [done|apply Hready]. }
  assert (Hrun : wp s2n_prf_key_expansion (w, c) (fun _ w' c' => w' = w /\ suite_available c = true /\ G c') (fun e w' _ => w' = w /\ F e)).
  { apply wp_bind, (wp_secure_alg _ _ p ra); [done|done|]. apply wp_bind.
    pose proof (wp_generate w c p ra
      (fun _ w' x => w' = w /\ snd x = material (version c) ra kb /\ exists ws hw, fst x = scratch ws hw c)
      (fun e w' _ => w' = w /\ F e) Hready Hfips Hp Ha Hra Hms Hcr Hsr) as Hgen.
    assert (Hg : wp s2n_prf_generate_key_material (w, (c, zero_key_material))
      (fun _ w' x => w' = w /\ snd x = material (version c) ra kb /\ exists ws hw, fst x = scratch ws hw c) (fun e w' _ => w' = w /\ F e)).
    { apply Hgen; unfold F; [intros ws hw _ _; split_goal; [done|done|by exists ws, hw]|intros Hb x; tauto|intros e x He; tauto]. }
    clear Hgen. unfold wp in Hg |- *. destruct (s2n_prf_generate_key_material _) as [[u|e|] [w1 [c1 k]]]; [|done|done].
    simpl in Hg. destruct Hg as (-> & -> & ws & hw & ->).
    apply (wp_install w (scratch ws hw c) p ra kb (fun _ w' c' => w' = w /\ suite_available c = true /\ G c') (fun e w' _ => w' = w /\ F e)); try done.
    - intros cs ss Hcs Hss Hav. split_goal; [done|done|]. by exists ws, hw, cs, ss.
    - intros Hav. split; [done|]. unfold F. right. right. by left.
    - intros e x [He|He]; (split; [done|]); unfold F; tauto. }
  unfold wp in Hrun. by destruct (s2n_prf_key_expansion _) as [[u|e|] [w' c']].
Qed.
End Theorems.

(** ** A connection of TLS 1.2 with AES-128-CBC and SHA-1 *)

Definition demo_prf_env : PrfEnv := {|
  CRYPTO_tls1_prf _ out _ _ _ _ := (false, out);
  EVP_KDF_fetch _ := true;
  EVP_KDF_CTX_new := true;
  EVP_KDF_derive _ _ _ _ out := (false, out);
  sizeof_handshake_hashes := 512;
  sizeof_prf_working_space := 512;
|}.

(** A MAC state with no key, as s2n_crypto_parameters_wipe leaves it. *)
Definition demo_mac : s2n_hmac_state :=
  Eval vm_compute in snd (snd (@s2n_hmac_init demo_digests S2N_HMAC_NONE [] (demo_world, new_hmac))).
Definition demo_open (ha : s2n_hash_algorithm) : s2n_hash_state :=
  Eval cbv in snd (snd (@s2n_hash_init demo_digests ha (demo_world, new_hash))).
Definition demo_hashes : s2n_handshake_hashes :=
  HandshakeHashes None (demo_open S2N_HASH_MD5) (demo_open S2N_HASH_SHA1) (demo_open S2N_HASH_SHA224) (demo_open S2N_HASH_SHA256)
    (demo_open S2N_HASH_SHA384) (demo_open S2N_HASH_SHA512) (demo_open S2N_HASH_MD5_SHA1) (repeat 0 48) new_hash.
Definition demo_space : s2n_prf_working_space := WorkingSpace None new_hmac (repeat 0 64) (repeat 0 64).

Definition demo_cbc : s2n_record_algorithm := @s2n_record_alg_aes128_sha demo_libcrypto.
Definition demo_prf_side : @crypto_side demo_ciphers :=
  @CryptoSide demo_ciphers (@SessionKey demo_ciphers (CtxLive tt) (CtxLive [])) demo_mac (repeat 0 16) (be_bytes 8 7).
Definition demo_prf_params : @s2n_crypto_parameters demo_ciphers :=
  @CryptoParameters demo_ciphers None (Some demo_cbc) demo_prf_side demo_prf_side.
Definition demo_prf_conn (v : Z) : @prf_conn demo_ciphers :=
  @PrfConn demo_ciphers
    (@set_secure demo_ciphers (Some demo_prf_params) (demo_conn S2N_CLIENT v demo_cbc 7 zero_stuffer zero_stuffer zero_stuffer))
    (Some demo_space) (Some demo_hashes) (fun _ => true) S2N_HMAC_SHA256 true (repeat 1 32) (repeat 2 32) (repeat 3 48) (repeat 0 48) (repeat 0 48) 0 [].

Lemma demo_prf_ready v : S2N_SSLv3 <= v <= S2N_TLS12 -> @prf_ready demo_digests demo_ciphers (demo_prf_conn v).
Proof.
  intros Hv. split; [by exists demo_prf_params, demo_cbc| | |done|done].
  - exists demo_space. split; [done|]. split; [apply new_hmac_alloc|done|done].
  - exists demo_hashes. split; [done|]. split; by eauto.
Qed.

Abbreviation demo_prf v := (@s2n_prf demo_platform demo_libcrypto demo_digests demo_ciphers demo_prf_env [5; 6; 7] [8] (Some [9]) (Some [10]) None
  (demo_world, (demo_prf_conn v, repeat 1 50))).

Lemma prf_correct_witness :
  match demo_prf S2N_TLS11 with
  | (Ok _, (_, (_, out))) => out = @PRF10 demo_digests [5; 6; 7] [8] [9; 10] 50
  | (Err e, _) => @hash_failure demo_digests demo_world e
  | (UB, _) => False
  end.
Proof.
  pose proof (@prf_correct demo_platform demo_libcrypto demo_digests _ demo_ciphers demo_prf_env demo_world (demo_prf_conn S2N_TLS11) (repeat 1 50) [5; 6; 7] [8]
    (Some [9]) (Some [10]) None (demo_prf_ready S2N_TLS11 ltac:(done)) ltac:(reflexivity) ltac:(reflexivity) ltac:(done) ltac:(done) ltac:(done)) as H.
  destruct (demo_prf S2N_TLS11) as [[u|e|] [w' [c' out]]]; [|apply H|exact H]. destruct H as (_ & _ & Hout & _). exact Hout.
Defined.

(** The results, evaluated. *)
Example demo_prf_values :
  forallb (fun v => match demo_prf v with
    | (Ok _, (_, (_, out))) => bool_decide (out = @PRF demo_digests v S2N_HMAC_SHA256 [5; 6; 7] [8] [9; 10] 50)
    | _ => false end) [S2N_SSLv3; S2N_TLS10; S2N_TLS11; S2N_TLS12] = true.
Proof. vm_compute. reflexivity. Qed.

Lemma demo_can_finish v : S2N_SSLv3 <= v <= S2N_TLS12 -> @can_finish demo_digests demo_ciphers [] (demo_prf_conn v).
Proof.
  intros Hv. split; [by apply demo_prf_ready| | |by left|done|done|done].
  - exists demo_hashes. split; [done|]. split; [|split; by eauto]. intros [] l; simpl; intros [= <-] _; split; try done; split; by eauto.
  - unfold finished_hashes. case_match; by repeat constructor.
Qed.

Abbreviation demo_finish m := ((@feed demo_digests demo_ciphers [[1; 2; 3]; [4; 5]] ;;;
  @finished_call demo_platform demo_libcrypto demo_digests demo_ciphers demo_prf_env m) (demo_world, demo_prf_conn S2N_TLS12)).

Lemma finished_correct_witness :
  match demo_finish S2N_SERVER with
  | (Ok _, (_, c')) => take 12 (server_finished c') =
      @P_hash demo_digests S2N_HMAC_SHA256 (repeat 3 48) (label "server finished" ++ @hash_of demo_digests S2N_HASH_SHA256 [1; 2; 3; 4; 5]) 12
  | (Err e, _) => @hash_failure demo_digests demo_world e \/ e = S2N_ERR_PRF_INVALID_ALGORITHM
  | (UB, _) => False
  end.
Proof.
  pose proof (@finished_correct demo_platform demo_libcrypto demo_digests _ demo_ciphers demo_prf_env demo_world (demo_prf_conn S2N_TLS12) S2N_SERVER
    [[1; 2; 3]; [4; 5]] (demo_can_finish S2N_TLS12 ltac:(done)) ltac:(reflexivity) ltac:(reflexivity)) as H.
  destruct (demo_finish S2N_SERVER) as [[u|e|] [w' c']]; [|destruct H as [_ [H|[_ H]]]; [left; exact H|right; exact H]|exact H].
  destruct H as (_ & _ & Hd). exact (fd_data _ _ _ _ Hd).
Defined.

Example demo_finished :
  match demo_finish S2N_CLIENT with
  | (Ok _, (_, c')) => take 12 (client_finished c') = @verify_data demo_digests S2N_TLS12 S2N_HMAC_SHA256 (repeat 3 48) S2N_CLIENT [1; 2; 3; 4; 5] /\
      server_finished c' = repeat 0 48 /\ finished_len c' = 12
  | _ => False
  end.
Proof. vm_compute. split_goal; reflexivity. Qed.

Lemma demo_mac_keyed : @keyed demo_digests S2N_HMAC_NONE [] demo_mac.
Proof. split; try done; try (split; try done; split; by eauto); try (split; by eauto). Qed.

Lemma demo_side_ready : @side_ready demo_digests demo_ciphers demo_prf_side.
Proof. split; [by exists tt, []|]. exists S2N_HMAC_NONE, []. apply demo_mac_keyed. Qed.

Abbreviation demo_expand := (@s2n_prf_key_expansion demo_platform demo_libcrypto demo_digests demo_ciphers demo_prf_env (demo_world, demo_prf_conn S2N_TLS12)).
Abbreviation demo_block := (@expanded_block demo_digests demo_ciphers (demo_prf_conn S2N_TLS12)).

Lemma key_expansion_correct_witness :
  match demo_expand with
  | (Ok _, (w', c')) =>
      w' = demo_world /\ exists cs ss, secure (prf_record c') = Some (@CryptoParameters demo_ciphers None (Some demo_cbc) cs ss) /\
        @mac_is demo_digests S2N_HMAC_SHA1 (take 20 demo_block) (Some []) (record_mac cs) /\
        @mac_is demo_digests S2N_HMAC_SHA1 (take 20 (drop 20 demo_block)) (Some []) (record_mac ss)
  | (Err _, (w', _)) => w' = demo_world
  | (UB, _) => False
  end.
Proof.
  pose proof (@key_expansion_correct demo_platform demo_libcrypto demo_digests _ demo_ciphers demo_prf_env demo_world (demo_prf_conn S2N_TLS12) demo_prf_params demo_cbc
    (demo_prf_ready S2N_TLS12 ltac:(done)) ltac:(reflexivity) ltac:(reflexivity) ltac:(reflexivity) ltac:(do 7 right; left; reflexivity)
    ltac:(reflexivity) ltac:(reflexivity) ltac:(reflexivity) demo_side_ready demo_side_ready) as H. cbv zeta in H.
  destruct demo_expand as [[u|e|] [w' c']]; [|apply H|exact H].
  destruct H as (Hw & _ & ws & hw & cs & ss & Hc & Hcs & Hss). split; [exact Hw|]. exists cs, ss. rewrite Hc.
  split; [reflexivity|]. split; [exact (sk_mac _ _ _ _ _ _ _ _ Hcs)|exact (sk_mac _ _ _ _ _ _ _ _ Hss)].
Defined.

(** The MAC keys are 20 bytes, the write keys 16, and there are no IVs. *)
Example demo_expanded :
  match demo_expand with
  | (Ok _, (_, c')) => option_map (fun p => implicit_iv (client_side p)) (secure (prf_record c')) = Some (repeat 0 16)
  | _ => False
  end.
Proof. vm_compute. reflexivity. Qed.
End PrfTheorems.
Export PrfTheorems.
