(* ===== verification/Groups.v ===== *)
(** * Curves, KEMs and their preferences

    crypto/s2n_ecc_evp.c (the curves), tls/s2n_kem.c (the KEMs, the hybrid groups
    and the choice of a KEM), tls/s2n_ecc_preferences.c and
    tls/s2n_kem_preferences.c. *)
From stdpp Require Import strings.
From S2P Require Import Prelude Errors CMem Platform Safety Blob Alloc Stuffer NetworkOrder Connection Libcrypto CipherSuites.
Open Scope string_scope.
Open Scope Z_scope.

Module Groups.

(** ** crypto/s2n_ecc_evp.c *)

Definition TLS_EC_CURVE_SECP_256_R1 : Z := 23.
Definition TLS_EC_CURVE_SECP_384_R1 : Z := 24.
Definition TLS_EC_CURVE_SECP_521_R1 : Z := 25.
Definition TLS_EC_CURVE_ECDH_X25519 : Z := 29.
Definition TLS_PQ_KEM_EXTENSION_ID_KYBER_512_R3 : Z := 28.
Definition TLS_PQ_KEM_GROUP_ID_SECP256R1_MLKEM_768 : Z := 0x11EB.
Definition TLS_PQ_KEM_GROUP_ID_X25519_MLKEM_768 : Z := 0x11EC.
Definition TLS_PQ_KEM_GROUP_ID_X25519_KYBER_512_R3 : Z := 0x2F39.
Definition TLS_PQ_KEM_GROUP_ID_SECP256R1_KYBER_512_R3 : Z := 0x2F3A.
Definition TLS_PQ_KEM_GROUP_ID_SECP384R1_KYBER_768_R3 : Z := 0x2F3C.
Definition TLS_PQ_KEM_GROUP_ID_SECP521R1_KYBER_1024_R3 : Z := 0x2F3D.
Definition TLS_PQ_KEM_GROUP_ID_X25519_KYBER_768_R3 : Z := 0x6399.
Definition TLS_PQ_KEM_GROUP_ID_SECP256R1_KYBER_768_R3 : Z := 0x639A.
Definition SECP256R1_SHARE_SIZE : Z := ((32 * 2) + 1).
Definition SECP384R1_SHARE_SIZE : Z := ((48 * 2) + 1).
Definition SECP521R1_SHARE_SIZE : Z := ((66 * 2) + 1).
Definition X25519_SHARE_SIZE : Z := (32).
Definition S2N_MLKEM_768_PUBLIC_KEY_BYTES : Z := 1184.
Definition S2N_MLKEM_768_SECRET_KEY_BYTES : Z := 2400.
Definition S2N_MLKEM_768_SHARED_SECRET_BYTES : Z := 32.
Definition S2N_MLKEM_768_CIPHERTEXT_BYTES : Z := 1088.
Definition S2N_KYBER_512_R3_PUBLIC_KEY_BYTES : Z := 800.
Definition S2N_KYBER_512_R3_SECRET_KEY_BYTES : Z := 1632.
Definition S2N_KYBER_512_R3_SHARED_SECRET_BYTES : Z := 32.
Definition S2N_KYBER_512_R3_CIPHERTEXT_BYTES : Z := 768.
Definition S2N_KYBER_768_R3_PUBLIC_KEY_BYTES : Z := 1184.
Definition S2N_KYBER_768_R3_SECRET_KEY_BYTES : Z := 2400.
Definition S2N_KYBER_768_R3_SHARED_SECRET_BYTES : Z := 32.
Definition S2N_KYBER_768_R3_CIPHERTEXT_BYTES : Z := 1088.
Definition S2N_KYBER_1024_R3_PUBLIC_KEY_BYTES : Z := 1568.
Definition S2N_KYBER_1024_R3_SECRET_KEY_BYTES : Z := 3168.
Definition S2N_KYBER_1024_R3_SHARED_SECRET_BYTES : Z := 32.
Definition S2N_KYBER_1024_R3_CIPHERTEXT_BYTES : Z := 1568.
Definition S2N_KEM_GROUPS_COUNT : Z := 8.

(** The function behind [generate_key]. *)
Inductive generate_key_method :=
| s2n_ecc_evp_generate_key_nist_curves | s2n_ecc_evp_generate_key_x25519 | NullMethod.

Record s2n_ecc_named_curve := NamedCurve {
  curve_symbol : string;
  curve_iana_id : Z;  (* iana_id: uint16_t *)
  curve_nid : nid;  (* libcrypto_nid: int *)
  curve_name : string;
  share_size : Z;  (* uint8_t *)
  generate_key : generate_key_method;
}.
#[export] Instance curve_object : StaticObject s2n_ecc_named_curve := curve_symbol.

(** The array [ecc_curves] with its [count]. *)
Record s2n_ecc_preferences := EccPreferences { ecc_curves : list s2n_ecc_named_curve }.

(** ** tls/s2n_kem.h, tls/s2n_kem_preferences.h *)

Record s2n_kem := Kem {
  kem_symbol : string;
  kem_name : string;
  kem_nid : nid;  (* int *)
  kem_extension_id : Z;  (* uint16_t *)
  public_key_length : Z;
  private_key_length : Z;
  shared_secret_key_length : Z;
  ciphertext_length : Z;
}.
#[export] Instance kem_object : StaticObject s2n_kem := kem_symbol.

(** [iana_value] and the array [kems] with its [kem_count]. *)
Record s2n_iana_to_kem := IanaToKem { iana_to_kem_value : list Z; iana_to_kem_kems : list s2n_kem }.

Record s2n_kem_group := KemGroup {
  group_symbol : string;
  group_name : string;
  group_iana_id : Z;  (* iana_id: uint16_t *)
  group_curve : s2n_ecc_named_curve;  (* *curve *)
  group_kem : s2n_kem;  (* *kem *)
  send_kem_first : bool;
}.
#[export] Instance group_object : StaticObject s2n_kem_group := group_symbol.

(** The pointers are [None] when NULL. *)
Record s2n_kem_preferences := KemPreferences {
  kem_count : Z;  (* uint8_t *)
  kems : option (list s2n_kem);
  tls13_kem_group_count : Z;  (* uint8_t *)
  tls13_kem_groups : option (list s2n_kem_group);
  tls13_pq_hybrid_draft_revision : Z;  (* uint8_t *)
}.

Section Groups.
Context `{Libcrypto}.

Definition S2N_NID_KYBER512 : nid := if S2N_LIBCRYPTO_SUPPORTS_EVP_KEM then NID_KYBER512_R3 else NID_undef.

Definition S2N_NID_KYBER768 : nid := if S2N_LIBCRYPTO_SUPPORTS_EVP_KEM then NID_KYBER768_R3 else NID_undef.

Definition S2N_NID_KYBER1024 : nid := if S2N_LIBCRYPTO_SUPPORTS_EVP_KEM then NID_KYBER1024_R3 else NID_undef.

Definition S2N_NID_MLKEM768 : nid := if S2N_LIBCRYPTO_SUPPORTS_MLKEM then NID_MLKEM768 else NID_undef.

Definition s2n_ecc_curve_secp256r1 : s2n_ecc_named_curve := {|
  curve_symbol := "s2n_ecc_curve_secp256r1";
  curve_iana_id := TLS_EC_CURVE_SECP_256_R1;
  curve_nid := NID_X9_62_prime256v1;
  curve_name := "secp256r1";
  share_size := SECP256R1_SHARE_SIZE;
  generate_key := s2n_ecc_evp_generate_key_nist_curves;
|}.

Definition s2n_ecc_curve_secp384r1 : s2n_ecc_named_curve := {|
  curve_symbol := "s2n_ecc_curve_secp384r1";
  curve_iana_id := TLS_EC_CURVE_SECP_384_R1;
  curve_nid := NID_secp384r1;
  curve_name := "secp384r1";
  share_size := SECP384R1_SHARE_SIZE;
  generate_key := s2n_ecc_evp_generate_key_nist_curves;
|}.

Definition s2n_ecc_curve_secp521r1 : s2n_ecc_named_curve := {|
  curve_symbol := "s2n_ecc_curve_secp521r1";
  curve_iana_id := TLS_EC_CURVE_SECP_521_R1;
  curve_nid := NID_secp521r1;
  curve_name := "secp521r1";
  share_size := SECP521R1_SHARE_SIZE;
  generate_key := s2n_ecc_evp_generate_key_nist_curves;
|}.

(** Without the EVP APIs the object is zero. *)
Definition s2n_ecc_curve_x25519 : s2n_ecc_named_curve :=
  if EVP_APIS_SUPPORTED then {|
    curve_symbol := "s2n_ecc_curve_x25519";
    curve_iana_id := TLS_EC_CURVE_ECDH_X25519;
    curve_nid := NID_X25519;
    curve_name := "x25519";
    share_size := X25519_SHARE_SIZE;
    generate_key := s2n_ecc_evp_generate_key_x25519;
  |}
  else {|
    curve_symbol := "s2n_ecc_curve_x25519";
    curve_iana_id := 0;
    curve_nid := NID_undef;  (* 0 *)
    curve_name := "";
    share_size := 0;
    generate_key := NullMethod;
  |}.

Definition s2n_unsupported_curve : s2n_ecc_named_curve := {|
  curve_symbol := "s2n_unsupported_curve";
  curve_iana_id := 0;
  curve_nid := NID_X9_62_prime256v1;
  curve_name := "unsupported";
  share_size := SECP256R1_SHARE_SIZE;
  generate_key := s2n_ecc_evp_generate_key_nist_curves;
|}.

Definition s2n_all_supported_curves_list : list s2n_ecc_named_curve :=
  [s2n_ecc_curve_secp256r1; s2n_ecc_curve_secp384r1] ++
   (if EVP_APIS_SUPPORTED then [s2n_ecc_curve_x25519] else []) ++
   [s2n_ecc_curve_secp521r1].

Definition s2n_mlkem_768 : s2n_kem := {|
  kem_symbol := "s2n_mlkem_768";
  kem_name := "mlkem768";
  kem_nid := S2N_NID_MLKEM768;
  kem_extension_id := 0;
  public_key_length := S2N_MLKEM_768_PUBLIC_KEY_BYTES;
  private_key_length := S2N_MLKEM_768_SECRET_KEY_BYTES;
  shared_secret_key_length := S2N_MLKEM_768_SHARED_SECRET_BYTES;
  ciphertext_length := S2N_MLKEM_768_CIPHERTEXT_BYTES;
|}.

Definition s2n_kyber_512_r3 : s2n_kem := {|
  kem_symbol := "s2n_kyber_512_r3";
  kem_name := "kyber512r3";
  kem_nid := S2N_NID_KYBER512;
  kem_extension_id := TLS_PQ_KEM_EXTENSION_ID_KYBER_512_R3;
  public_key_length := S2N_KYBER_512_R3_PUBLIC_KEY_BYTES;
  private_key_length := S2N_KYBER_512_R3_SECRET_KEY_BYTES;
  shared_secret_key_length := S2N_KYBER_512_R3_SHARED_SECRET_BYTES;
  ciphertext_length := S2N_KYBER_512_R3_CIPHERTEXT_BYTES;
|}.

Definition s2n_kyber_768_r3 : s2n_kem := {|
  kem_symbol := "s2n_kyber_768_r3";
  kem_name := "kyber768r3";
  kem_nid := S2N_NID_KYBER768;
  kem_extension_id := 0;
  public_key_length := S2N_KYBER_768_R3_PUBLIC_KEY_BYTES;
  private_key_length := S2N_KYBER_768_R3_SECRET_KEY_BYTES;
  shared_secret_key_length := S2N_KYBER_768_R3_SHARED_SECRET_BYTES;
  ciphertext_length := S2N_KYBER_768_R3_CIPHERTEXT_BYTES;
|}.

Definition s2n_kyber_1024_r3 : s2n_kem := {|
  kem_symbol := "s2n_kyber_1024_r3";
  kem_name := "kyber1024r3";
  kem_nid := S2N_NID_KYBER1024;
  kem_extension_id := 0;
  public_key_length := S2N_KYBER_1024_R3_PUBLIC_KEY_BYTES;
  private_key_length := S2N_KYBER_1024_R3_SECRET_KEY_BYTES;
  shared_secret_key_length := S2N_KYBER_1024_R3_SHARED_SECRET_BYTES;
  ciphertext_length := S2N_KYBER_1024_R3_CIPHERTEXT_BYTES;
|}.

Definition tls12_kyber_kems : list s2n_kem :=
  [ s2n_kyber_512_r3 ].

Definition kem_mapping : list s2n_iana_to_kem :=
  [ {| iana_to_kem_value := TLS_ECDHE_KYBER_RSA_WITH_AES_256_GCM_SHA384; iana_to_kem_kems := tls12_kyber_kems |} ].

Definition s2n_secp256r1_mlkem_768 : s2n_kem_group := {|
  group_symbol := "s2n_secp256r1_mlkem_768";
  group_name := "SecP256r1MLKEM768";
  group_iana_id := TLS_PQ_KEM_GROUP_ID_SECP256R1_MLKEM_768;
  group_curve := s2n_ecc_curve_secp256r1;
  group_kem := s2n_mlkem_768;
  send_kem_first := false;
|}.

Definition s2n_x25519_mlkem_768 : s2n_kem_group := {|
  group_symbol := "s2n_x25519_mlkem_768";
  group_name := "X25519MLKEM768";
  group_iana_id := TLS_PQ_KEM_GROUP_ID_X25519_MLKEM_768;
  group_curve := s2n_ecc_curve_x25519;
  group_kem := s2n_mlkem_768;
  send_kem_first := true;
|}.

Definition s2n_secp256r1_kyber_512_r3 : s2n_kem_group := {|
  group_symbol := "s2n_secp256r1_kyber_512_r3";
  group_name := "secp256r1_kyber-512-r3";
  group_iana_id := TLS_PQ_KEM_GROUP_ID_SECP256R1_KYBER_512_R3;
  group_curve := s2n_ecc_curve_secp256r1;
  group_kem := s2n_kyber_512_r3;
  send_kem_first := false;
|}.

Definition s2n_secp256r1_kyber_768_r3 : s2n_kem_group := {|
  group_symbol := "s2n_secp256r1_kyber_768_r3";
  group_name := "SecP256r1Kyber768Draft00";
  group_iana_id := TLS_PQ_KEM_GROUP_ID_SECP256R1_KYBER_768_R3;
  group_curve := s2n_ecc_curve_secp256r1;
  group_kem := s2n_kyber_768_r3;
  send_kem_first := false;
|}.

Definition s2n_secp384r1_kyber_768_r3 : s2n_kem_group := {|
  group_symbol := "s2n_secp384r1_kyber_768_r3";
  group_name := "secp384r1_kyber-768-r3";
  group_iana_id := TLS_PQ_KEM_GROUP_ID_SECP384R1_KYBER_768_R3;
  group_curve := s2n_ecc_curve_secp384r1;
  group_kem := s2n_kyber_768_r3;
  send_kem_first := false;
|}.

Definition s2n_secp521r1_kyber_1024_r3 : s2n_kem_group := {|
  group_symbol := "s2n_secp521r1_kyber_1024_r3";
  group_name := "secp521r1_kyber-1024-r3";
  group_iana_id := TLS_PQ_KEM_GROUP_ID_SECP521R1_KYBER_1024_R3;
  group_curve := s2n_ecc_curve_secp521r1;
  group_kem := s2n_kyber_1024_r3;
  send_kem_first := false;
|}.

Definition s2n_x25519_kyber_512_r3 : s2n_kem_group := {|
  group_symbol := "s2n_x25519_kyber_512_r3";
  group_name := "x25519_kyber-512-r3";
  group_iana_id := TLS_PQ_KEM_GROUP_ID_X25519_KYBER_512_R3;
  group_curve := s2n_ecc_curve_x25519;
  group_kem := s2n_kyber_512_r3;
  send_kem_first := false;
|}.

Definition s2n_x25519_kyber_768_r3 : s2n_kem_group := {|
  group_symbol := "s2n_x25519_kyber_768_r3";
  group_name := "X25519Kyber768Draft00";
  group_iana_id := TLS_PQ_KEM_GROUP_ID_X25519_KYBER_768_R3;
  group_curve := s2n_ecc_curve_x25519;
  group_kem := s2n_kyber_768_r3;
  send_kem_first := false;
|}.

Definition ALL_SUPPORTED_KEM_GROUPS : list s2n_kem_group :=
  [ s2n_x25519_mlkem_768;
    s2n_secp256r1_mlkem_768;
    s2n_secp256r1_kyber_768_r3;
    s2n_x25519_kyber_768_r3;
    s2n_secp384r1_kyber_768_r3;
    s2n_secp521r1_kyber_1024_r3;
    s2n_secp256r1_kyber_512_r3;
    s2n_x25519_kyber_512_r3 ].

(** ** tls/s2n_ecc_preferences.c *)

Definition s2n_ecc_pref_list_20240501 : list s2n_ecc_named_curve :=
  [s2n_ecc_curve_secp256r1] ++
   (if EVP_APIS_SUPPORTED then [s2n_ecc_curve_x25519] else []) ++
   [s2n_ecc_curve_secp384r1; s2n_ecc_curve_secp521r1].

Definition s2n_ecc_pref_list_20140601 : list s2n_ecc_named_curve :=
  [ s2n_ecc_curve_secp256r1;
    s2n_ecc_curve_secp384r1 ].

Definition s2n_ecc_pref_list_20200310 : list s2n_ecc_named_curve :=
  (if EVP_APIS_SUPPORTED then [s2n_ecc_curve_x25519] else []) ++
   [s2n_ecc_curve_secp256r1; s2n_ecc_curve_secp384r1].

Definition s2n_ecc_pref_list_20230623 : list s2n_ecc_named_curve :=
  [s2n_ecc_curve_secp256r1] ++
   (if EVP_APIS_SUPPORTED then [s2n_ecc_curve_x25519] else []) ++
   [s2n_ecc_curve_secp384r1].

Definition s2n_ecc_pref_list_default_fips : list s2n_ecc_named_curve :=
  [ s2n_ecc_curve_secp256r1;
    s2n_ecc_curve_secp384r1 ].

Definition s2n_ecc_pref_list_20201021 : list s2n_ecc_named_curve :=
  [ s2n_ecc_curve_secp256r1;
    s2n_ecc_curve_secp384r1;
    s2n_ecc_curve_secp521r1 ].

Definition s2n_ecc_pref_list_20240603 : list s2n_ecc_named_curve :=
  (if EVP_APIS_SUPPORTED then [s2n_ecc_curve_x25519] else []) ++
   [s2n_ecc_curve_secp256r1; s2n_ecc_curve_secp384r1; s2n_ecc_curve_secp521r1].

Definition s2n_ecc_pref_list_20210816 : list s2n_ecc_named_curve :=
  [ s2n_ecc_curve_secp384r1 ].

Definition s2n_ecc_pref_list_test_all : list s2n_ecc_named_curve :=
  (if EVP_APIS_SUPPORTED then [s2n_ecc_curve_x25519] else []) ++
   [s2n_ecc_curve_secp256r1; s2n_ecc_curve_secp384r1; s2n_ecc_curve_secp521r1].

Definition s2n_ecc_preferences_20240501 : s2n_ecc_preferences := {| ecc_curves := s2n_ecc_pref_list_20240501 |}.

Definition s2n_ecc_preferences_20140601 : s2n_ecc_preferences := {| ecc_curves := s2n_ecc_pref_list_20140601 |}.

Definition s2n_ecc_preferences_20200310 : s2n_ecc_preferences := {| ecc_curves := s2n_ecc_pref_list_20200310 |}.

Definition s2n_ecc_preferences_20230623 : s2n_ecc_preferences := {| ecc_curves := s2n_ecc_pref_list_20230623 |}.

Definition s2n_ecc_preferences_default_fips : s2n_ecc_preferences := {| ecc_curves := s2n_ecc_pref_list_default_fips |}.

Definition s2n_ecc_preferences_20201021 : s2n_ecc_preferences := {| ecc_curves := s2n_ecc_pref_list_20201021 |}.

Definition s2n_ecc_preferences_20210816 : s2n_ecc_preferences := {| ecc_curves := s2n_ecc_pref_list_20210816 |}.

Definition s2n_ecc_preferences_20240603 : s2n_ecc_preferences := {| ecc_curves := s2n_ecc_pref_list_20240603 |}.

Definition s2n_ecc_preferences_test_all : s2n_ecc_preferences := {| ecc_curves := s2n_ecc_pref_list_test_all |}.

Definition s2n_ecc_preferences_null : s2n_ecc_preferences := {| ecc_curves := [] |}.

(** ** tls/s2n_kem_preferences.c *)

Definition pq_kems_r3_2021_05 : list s2n_kem :=
  [ s2n_kyber_512_r3 ].

Definition pq_kem_groups_r3_2021_05 : list s2n_kem_group :=
  [ s2n_x25519_kyber_512_r3;
    s2n_secp256r1_kyber_512_r3 ].

Definition pq_kem_groups_r3_2023_06 : list s2n_kem_group :=
  [ s2n_secp256r1_kyber_768_r3;
    s2n_x25519_kyber_768_r3;
    s2n_secp384r1_kyber_768_r3;
    s2n_secp521r1_kyber_1024_r3;
    s2n_secp256r1_kyber_512_r3;
    s2n_x25519_kyber_512_r3 ].

Definition pq_kem_groups_r3_2023_12 : list s2n_kem_group :=
  [ s2n_secp256r1_kyber_768_r3;
    s2n_secp384r1_kyber_768_r3;
    s2n_secp521r1_kyber_1024_r3;
    s2n_secp256r1_kyber_512_r3 ].

Definition pq_kem_groups_ietf_2024_10 : list s2n_kem_group :=
  [ s2n_x25519_mlkem_768;
    s2n_secp256r1_mlkem_768 ].

Definition pq_kem_groups_mixed_2024_10 : list s2n_kem_group :=
  [ s2n_x25519_mlkem_768;
    s2n_secp256r1_mlkem_768;
    s2n_secp256r1_kyber_768_r3;
    s2n_x25519_kyber_768_r3;
    s2n_secp384r1_kyber_768_r3;
    s2n_secp521r1_kyber_1024_r3;
    s2n_secp256r1_kyber_512_r3;
    s2n_x25519_kyber_512_r3 ].

Definition kem_preferences_pq_tls_1_0_2021_05 : s2n_kem_preferences := {|
  kem_count := 0;
  kems := None;
  tls13_kem_group_count := zlen pq_kem_groups_r3_2021_05;
  tls13_kem_groups := Some pq_kem_groups_r3_2021_05;
  tls13_pq_hybrid_draft_revision := 0;
|}.

Definition kem_preferences_pq_tls_1_0_2023_01 : s2n_kem_preferences := {|
  kem_count := 0;
  kems := None;
  tls13_kem_group_count := zlen pq_kem_groups_r3_2021_05;
  tls13_kem_groups := Some pq_kem_groups_r3_2021_05;
  tls13_pq_hybrid_draft_revision := 5;
|}.

Definition kem_preferences_pq_tls_1_3_2023_06 : s2n_kem_preferences := {|
  kem_count := 0;
  kems := None;
  tls13_kem_group_count := zlen pq_kem_groups_r3_2023_06;
  tls13_kem_groups := Some pq_kem_groups_r3_2023_06;
  tls13_pq_hybrid_draft_revision := 5;
|}.

Definition kem_preferences_pq_tls_1_3_2023_12 : s2n_kem_preferences := {|
  kem_count := 0;
  kems := None;
  tls13_kem_group_count := zlen pq_kem_groups_r3_2023_12;
  tls13_kem_groups := Some pq_kem_groups_r3_2023_12;
  tls13_pq_hybrid_draft_revision := 5;
|}.

Definition kem_preferences_pq_tls_1_3_ietf_2024_10 : s2n_kem_preferences := {|
  kem_count := 0;
  kems := None;
  tls13_kem_group_count := zlen pq_kem_groups_ietf_2024_10;
  tls13_kem_groups := Some pq_kem_groups_ietf_2024_10;
  tls13_pq_hybrid_draft_revision := 5;
|}.

Definition kem_preferences_pq_tls_1_3_mixed_2024_10 : s2n_kem_preferences := {|
  kem_count := 0;
  kems := None;
  tls13_kem_group_count := zlen pq_kem_groups_mixed_2024_10;
  tls13_kem_groups := Some pq_kem_groups_mixed_2024_10;
  tls13_pq_hybrid_draft_revision := 5;
|}.

Definition kem_preferences_all : s2n_kem_preferences := {|
  kem_count := 0;
  kems := None;
  tls13_kem_group_count := S2N_KEM_GROUPS_COUNT;
  tls13_kem_groups := Some ALL_SUPPORTED_KEM_GROUPS;
  tls13_pq_hybrid_draft_revision := 5;
|}.

Definition kem_preferences_null : s2n_kem_preferences := {|
  kem_count := 0;
  kems := None;
  tls13_kem_group_count := 0;
  tls13_kem_groups := None;
  tls13_pq_hybrid_draft_revision := 0;
|}.
End Groups.

(** ** Functions on preferences *)

(** The access [a[i]] to an array behind a pointer. *)
Definition array_get {X A} (a : option (list A)) (i : Z) : Cmd X A :=
  match a with
  | Some l => match (if i <? 0 then None else l !! Z.to_nat i) with Some x => ret x | None => undefined end
  | None => undefined
  end.

Section Functions.
Context `{Libcrypto} `{Platform} {X : Type}.

Definition s2n_ecc_preferences_includes_curve (p : s2n_ecc_preferences) (query_iana_id : Z) : bool :=
  existsb (fun curve => query_iana_id =? curve_iana_id curve) (ecc_curves p).

(** The loop over the preferences, with the product of the answers so far. *)
Fixpoint check_curves_loop (curves : list s2n_ecc_named_curve) (check : Z) : Cmd X unit :=
  match curves with
  | [] => ret tt
  | named_curve :: rest =>
      let curve_found :=
        if existsb (fun c => curve_iana_id named_curve =? curve_iana_id c) s2n_all_supported_curves_list
        then 1 else 0 in
      let check := check * curve_found in
      if check =? 0 then fail S2N_ERR_ECDHE_UNSUPPORTED_CURVE
      else check_curves_loop rest check
  end.
Definition s2n_check_ecc_preferences_curves_list (p : s2n_ecc_preferences) : Cmd X unit :=
  check_curves_loop (ecc_curves p) 1.

Definition s2n_kem_is_available (kem : s2n_kem) : bool :=
  if nid_number (kem_nid kem) =? nid_number NID_undef then false
  else
    let available := s2n_libcrypto_supports_evp_kem in
    if same_object kem s2n_mlkem_768 then available && s2n_libcrypto_supports_mlkem else available.

Definition s2n_kem_group_is_available (g : s2n_kem_group) : bool :=
  let available := s2n_kem_is_available (group_kem g) in
  if same_object (group_curve g) s2n_ecc_curve_x25519 then available && s2n_is_evp_apis_supported
  else available.

(** The loops [for (i = 0; i < tls13_kem_group_count; i++)], with [k] iterations left. *)
Fixpoint find_group (k : nat) (i : Z) (p : s2n_kem_preferences) (found : s2n_kem_group -> bool) :
    Cmd X (option s2n_kem_group) :=
  match k with
  | O => ret None
  | S k' =>
      g <-- array_get (tls13_kem_groups p) i ;;
      if found g then ret (Some g) else find_group k' (i + 1) p found
  end.

Definition s2n_kem_preferences_includes_tls13_kem_group (p : s2n_kem_preferences) (query_iana_id : Z) : Cmd X bool :=
  r <-- find_group (Z.to_nat (tls13_kem_group_count p)) 0 p (fun g => query_iana_id =? group_iana_id g) ;;
  ret (match r with Some _ => true | None => false end).

Definition s2n_tls13_client_must_use_hybrid_kem_length_prefix (p : s2n_kem_preferences) : bool :=
  tls13_pq_hybrid_draft_revision p =? 0.

Fixpoint count_groups (k : nat) (i count : Z) (p : s2n_kem_preferences) : Cmd X Z :=
  match k with
  | O => ret count
  | S k' =>
      g <-- array_get (tls13_kem_groups p) i ;;
      count_groups k' (i + 1) (if s2n_kem_group_is_available g then u32 (count + 1) else count) p
  end.
Definition s2n_kem_preferences_groups_available (p : s2n_kem_preferences) : Cmd X Z :=
  count_groups (Z.to_nat (tls13_kem_group_count p)) 0 0 p.

Definition s2n_kem_preferences_get_highest_priority_group (p : s2n_kem_preferences) : Cmd X (option s2n_kem_group) :=
  find_group (Z.to_nat (tls13_kem_group_count p)) 0 p s2n_kem_group_is_available.

(** ** tls/s2n_kem.c: the choice of a KEM for TLS 1.2 *)

Fixpoint to_kem_loop (mapping : list s2n_iana_to_kem) (iana_value : list Z) : Cmd X s2n_iana_to_kem :=
  match mapping with
  | [] => fail S2N_ERR_KEM_UNSUPPORTED_PARAMS
  | candidate :: rest =>
      e <-- s2n_constant_time_equals (LocalBuf iana_value) (LocalBuf (iana_to_kem_value candidate)) S2N_TLS_CIPHER_SUITE_LEN ;;
      if e : bool then ret candidate else to_kem_loop rest iana_value
  end.
Definition s2n_cipher_suite_to_kem (iana_value : list Z) : Cmd X s2n_iana_to_kem :=
  to_kem_loop kem_mapping iana_value.

Definition s2n_get_kem_from_extension_id (kem_id : Z) : Cmd X s2n_kem :=
  match List.find (fun k => kem_extension_id k =? kem_id) (concat (map iana_to_kem_kems kem_mapping)) with
  | Some k => ret k
  | None => fail S2N_ERR_KEM_UNSUPPORTED_PARAMS
  end.

Definition s2n_kem_check_kem_compatibility (iana_value : list Z) (candidate_kem : s2n_kem) : Cmd X bool :=
  compatible_kems <-- s2n_cipher_suite_to_kem iana_value ;;
  ret (existsb (fun k => kem_extension_id candidate_kem =? kem_extension_id k) (iana_to_kem_kems compatible_kems)).

Fixpoint without_peer_loop (k : nat) (i : Z) (iana_value : list Z) (server_kem_pref_list : option (list s2n_kem)) :
    Cmd X s2n_kem :=
  match k with
  | O => fail S2N_ERR_KEM_UNSUPPORTED_PARAMS
  | S k' =>
      kem <-- array_get server_kem_pref_list i ;;
      compatible <-- s2n_kem_check_kem_compatibility iana_value kem ;;
      if compatible : bool then ret kem else without_peer_loop k' (i + 1) iana_value server_kem_pref_list
  end.
Definition s2n_choose_kem_without_peer_pref_list (iana_value : list Z) (server_kem_pref_list : option (list s2n_kem))
    (num_server_supported_kems : Z) : Cmd X s2n_kem :=
  without_peer_loop (Z.to_nat num_server_supported_kems) 0 iana_value server_kem_pref_list.

End Functions.

Section PeerList.
Context `{Libcrypto} `{Platform}.

(** The client's identifiers, read from the stuffer over them. *)
Fixpoint client_kem_loop (n : nat) (candidate_server_kem : s2n_kem) : Cmd s2n_stuffer bool :=
  match n with
  | O => ret false
  | S n' =>
      candidate_client_kem_id <-- s2n_stuffer_read_uint16 ;;
      if kem_extension_id candidate_server_kem =? candidate_client_kem_id then ret true
      else client_kem_loop n' candidate_server_kem
  end.

Fixpoint with_peer_loop (k : nat) (i num_client_candidate_kems : Z) (iana_value : list Z)
    (server_kem_pref_list : option (list s2n_kem)) : Cmd s2n_stuffer s2n_kem :=
  match k with
  | O => fail S2N_ERR_KEM_UNSUPPORTED_PARAMS
  | S k' =>
      kem <-- array_get server_kem_pref_list i ;;
      compatible <-- s2n_kem_check_kem_compatibility iana_value kem ;;
      if negb compatible then with_peer_loop k' (i + 1) num_client_candidate_kems iana_value server_kem_pref_list
      else
        found <-- client_kem_loop (Z.to_nat num_client_candidate_kems) kem ;;
        if found : bool then ret kem
        else
          s2n_stuffer_reread ;;;
          with_peer_loop k' (i + 1) num_client_candidate_kems iana_value server_kem_pref_list
  end.

Definition s2n_choose_kem_with_peer_pref_list {X} (iana_value : list Z) (client_kem_ids : s2n_blob)
    (server_kem_pref_list : option (list s2n_kem)) (num_server_supported_kems : Z) : Cmd X s2n_kem :=
  r <-- with_local zero_stuffer
    (s2n_stuffer_init client_kem_ids ;;;
     s2n_stuffer_write client_kem_ids ;;;
     let num_client_candidate_kems := u8 (size client_kem_ids / 2) in
     with_peer_loop (Z.to_nat num_server_supported_kems) 0 num_client_candidate_kems iana_value server_kem_pref_list) ;;
  ret (fst r).
End PeerList.
End Groups.
Export Groups.
