(* ===== verification/SignatureSchemes.v ===== *)
(** * Signature schemes and certificate keys

    The data of tls/s2n_signature_scheme.c and tls/s2n_certificate_keys.c. *)
From stdpp Require Import strings.
From S2P Require Import Prelude Errors CMem Connection Libcrypto CipherSuites Groups.
Open Scope string_scope.
Open Scope Z_scope.

Module SignatureSchemes.

(** ** tls/s2n_tls_parameters.h *)

Definition TLS_SIGNATURE_SCHEME_PRIVATE_INTERNAL_RSA_PKCS1_MD5_SHA1 : Z := 0xFFFF.
Definition TLS_SIGNATURE_SCHEME_RSA_PKCS1_SHA1 : Z := 0x0201.
Definition TLS_SIGNATURE_SCHEME_RSA_PKCS1_SHA224 : Z := 0x0301.
Definition TLS_SIGNATURE_SCHEME_RSA_PKCS1_SHA256 : Z := 0x0401.
Definition TLS_SIGNATURE_SCHEME_RSA_PKCS1_SHA384 : Z := 0x0501.
Definition TLS_SIGNATURE_SCHEME_RSA_PKCS1_SHA512 : Z := 0x0601.
Definition TLS_SIGNATURE_SCHEME_ECDSA_SHA1 : Z := 0x0203.
Definition TLS_SIGNATURE_SCHEME_ECDSA_SHA224 : Z := 0x0303.
Definition TLS_SIGNATURE_SCHEME_ECDSA_SHA256 : Z := 0x0403.
Definition TLS_SIGNATURE_SCHEME_ECDSA_SHA384 : Z := 0x0503.
Definition TLS_SIGNATURE_SCHEME_ECDSA_SHA512 : Z := 0x0603.
Definition TLS_SIGNATURE_SCHEME_RSA_PSS_RSAE_SHA256 : Z := 0x0804.
Definition TLS_SIGNATURE_SCHEME_RSA_PSS_RSAE_SHA384 : Z := 0x0805.
Definition TLS_SIGNATURE_SCHEME_RSA_PSS_RSAE_SHA512 : Z := 0x0806.
Definition TLS_SIGNATURE_SCHEME_RSA_PSS_PSS_SHA256 : Z := 0x0809.
Definition TLS_SIGNATURE_SCHEME_RSA_PSS_PSS_SHA384 : Z := 0x080A.
Definition TLS_SIGNATURE_SCHEME_RSA_PSS_PSS_SHA512 : Z := 0x080B.
Definition TLS_SIGNATURE_SCHEME_LIST_MAX_LEN : Z := 128.

Record s2n_signature_scheme := SignatureScheme {
  scheme_symbol : string;
  scheme_iana_value : Z;  (* iana_value: uint16_t *)
  scheme_iana_name : string;  (* iana_name *)
  hash_alg : s2n_hash_algorithm;
  sig_alg : s2n_signature_algorithm;
  minimum_protocol_version : Z;  (* uint8_t *)
  maximum_protocol_version : Z;  (* uint8_t *)
  scheme_nid : nid;  (* libcrypto_nid: uint16_t *)
  signature_curve : option s2n_ecc_named_curve;
}.
#[export] Instance scheme_object : StaticObject s2n_signature_scheme := scheme_symbol.

(** The array [signature_schemes] with its [count]. *)
Record s2n_signature_preferences := SignaturePreferences { signature_schemes : list s2n_signature_scheme }.

Record s2n_certificate_key := CertificateKey {
  key_name : string;
  public_key_libcrypto_nid : nid;  (* uint16_t *)
  key_bits : Z;  (* bits: uint16_t *)
}.

(** The array [certificate_keys] with its [count]. *)
Record s2n_certificate_key_preferences := CertificateKeyPreferences {
  certificate_keys : list s2n_certificate_key
}.

Section Schemes.
Context `{Libcrypto}.

Definition s2n_null_sig_scheme : s2n_signature_scheme := {|
  scheme_symbol := "s2n_null_sig_scheme";
  scheme_iana_value := 0;
  scheme_iana_name := "null_sha0";
  hash_alg := S2N_HASH_NONE;
  sig_alg := S2N_SIGNATURE_ANONYMOUS;
  minimum_protocol_version := 0;
  maximum_protocol_version := 0;
  scheme_nid := NID_undef;
  signature_curve := None;
|}.

Definition s2n_rsa_pkcs1_md5_sha1 : s2n_signature_scheme := {|
  scheme_symbol := "s2n_rsa_pkcs1_md5_sha1";
  scheme_iana_value := TLS_SIGNATURE_SCHEME_PRIVATE_INTERNAL_RSA_PKCS1_MD5_SHA1;
  scheme_iana_name := "legacy_rsa_pkcs1_md5_sha1";
  hash_alg := S2N_HASH_MD5_SHA1;
  sig_alg := S2N_SIGNATURE_RSA;
  minimum_protocol_version := 0;
  maximum_protocol_version := S2N_TLS12;
  scheme_nid := NID_md5_sha1;
  signature_curve := None;
|}.

Definition s2n_rsa_pkcs1_sha1 : s2n_signature_scheme := {|
  scheme_symbol := "s2n_rsa_pkcs1_sha1";
  scheme_iana_value := TLS_SIGNATURE_SCHEME_RSA_PKCS1_SHA1;
  scheme_iana_name := "rsa_pkcs1_sha1";
  hash_alg := S2N_HASH_SHA1;
  sig_alg := S2N_SIGNATURE_RSA;
  minimum_protocol_version := 0;
  maximum_protocol_version := S2N_TLS12;
  scheme_nid := NID_sha1WithRSAEncryption;
  signature_curve := None;
|}.

Definition s2n_rsa_pkcs1_sha224 : s2n_signature_scheme := {|
  scheme_symbol := "s2n_rsa_pkcs1_sha224";
  scheme_iana_value := TLS_SIGNATURE_SCHEME_RSA_PKCS1_SHA224;
  scheme_iana_name := "legacy_rsa_pkcs1_sha224";
  hash_alg := S2N_HASH_SHA224;
  sig_alg := S2N_SIGNATURE_RSA;
  minimum_protocol_version := 0;
  maximum_protocol_version := S2N_TLS12;
  scheme_nid := NID_sha224WithRSAEncryption;
  signature_curve := None;
|}.

Definition s2n_rsa_pkcs1_sha256 : s2n_signature_scheme := {|
  scheme_symbol := "s2n_rsa_pkcs1_sha256";
  scheme_iana_value := TLS_SIGNATURE_SCHEME_RSA_PKCS1_SHA256;
  scheme_iana_name := "rsa_pkcs1_sha256";
  hash_alg := S2N_HASH_SHA256;
  sig_alg := S2N_SIGNATURE_RSA;
  minimum_protocol_version := 0;
  maximum_protocol_version := S2N_TLS12;
  scheme_nid := NID_sha256WithRSAEncryption;
  signature_curve := None;
|}.

Definition s2n_rsa_pkcs1_sha384 : s2n_signature_scheme := {|
  scheme_symbol := "s2n_rsa_pkcs1_sha384";
  scheme_iana_value := TLS_SIGNATURE_SCHEME_RSA_PKCS1_SHA384;
  scheme_iana_name := "rsa_pkcs1_sha384";
  hash_alg := S2N_HASH_SHA384;
  sig_alg := S2N_SIGNATURE_RSA;
  minimum_protocol_version := 0;
  maximum_protocol_version := S2N_TLS12;
  scheme_nid := NID_sha384WithRSAEncryption;
  signature_curve := None;
|}.

Definition s2n_rsa_pkcs1_sha512 : s2n_signature_scheme := {|
  scheme_symbol := "s2n_rsa_pkcs1_sha512";
  scheme_iana_value := TLS_SIGNATURE_SCHEME_RSA_PKCS1_SHA512;
  scheme_iana_name := "rsa_pkcs1_sha512";
  hash_alg := S2N_HASH_SHA512;
  sig_alg := S2N_SIGNATURE_RSA;
  minimum_protocol_version := 0;
  maximum_protocol_version := S2N_TLS12;
  scheme_nid := NID_sha512WithRSAEncryption;
  signature_curve := None;
|}.

Definition s2n_ecdsa_sha1 : s2n_signature_scheme := {|
  scheme_symbol := "s2n_ecdsa_sha1";
  scheme_iana_value := TLS_SIGNATURE_SCHEME_ECDSA_SHA1;
  scheme_iana_name := "ecdsa_sha1";
  hash_alg := S2N_HASH_SHA1;
  sig_alg := S2N_SIGNATURE_ECDSA;
  minimum_protocol_version := 0;
  maximum_protocol_version := S2N_TLS12;
  scheme_nid := NID_ecdsa_with_SHA1;
  signature_curve := None;
|}.

Definition s2n_ecdsa_sha224 : s2n_signature_scheme := {|
  scheme_symbol := "s2n_ecdsa_sha224";
  scheme_iana_value := TLS_SIGNATURE_SCHEME_ECDSA_SHA224;
  scheme_iana_name := "legacy_ecdsa_sha224";
  hash_alg := S2N_HASH_SHA224;
  sig_alg := S2N_SIGNATURE_ECDSA;
  minimum_protocol_version := 0;
  maximum_protocol_version := S2N_TLS12;
  scheme_nid := NID_ecdsa_with_SHA224;
  signature_curve := None;
|}.

Definition s2n_ecdsa_sha256 : s2n_signature_scheme := {|
  scheme_symbol := "s2n_ecdsa_sha256";
  scheme_iana_value := TLS_SIGNATURE_SCHEME_ECDSA_SHA256;
  scheme_iana_name := "ecdsa_sha256";
  hash_alg := S2N_HASH_SHA256;
  sig_alg := S2N_SIGNATURE_ECDSA;
  minimum_protocol_version := 0;
  maximum_protocol_version := 0;
  scheme_nid := NID_ecdsa_with_SHA256;
  signature_curve := Some s2n_ecc_curve_secp256r1;
|}.

Definition s2n_ecdsa_sha384 : s2n_signature_scheme := {|
  scheme_symbol := "s2n_ecdsa_sha384";
  scheme_iana_value := TLS_SIGNATURE_SCHEME_ECDSA_SHA384;
  scheme_iana_name := "ecdsa_sha384";
  hash_alg := S2N_HASH_SHA384;
  sig_alg := S2N_SIGNATURE_ECDSA;
  minimum_protocol_version := 0;
  maximum_protocol_version := 0;
  scheme_nid := NID_ecdsa_with_SHA384;
  signature_curve := Some s2n_ecc_curve_secp384r1;
|}.

Definition s2n_ecdsa_sha512 : s2n_signature_scheme := {|
  scheme_symbol := "s2n_ecdsa_sha512";
  scheme_iana_value := TLS_SIGNATURE_SCHEME_ECDSA_SHA512;
  scheme_iana_name := "ecdsa_sha512";
  hash_alg := S2N_HASH_SHA512;
  sig_alg := S2N_SIGNATURE_ECDSA;
  minimum_protocol_version := 0;
  maximum_protocol_version := 0;
  scheme_nid := NID_ecdsa_with_SHA512;
  signature_curve := Some s2n_ecc_curve_secp521r1;
|}.

Definition s2n_rsa_pss_rsae_sha256 : s2n_signature_scheme := {|
  scheme_symbol := "s2n_rsa_pss_rsae_sha256";
  scheme_iana_value := TLS_SIGNATURE_SCHEME_RSA_PSS_RSAE_SHA256;
  scheme_iana_name := "rsa_pss_rsae_sha256";
  hash_alg := S2N_HASH_SHA256;
  sig_alg := S2N_SIGNATURE_RSA_PSS_RSAE;
  minimum_protocol_version := 0;
  maximum_protocol_version := 0;
  scheme_nid := NID_rsassaPss;
  signature_curve := None;
|}.

Definition s2n_rsa_pss_rsae_sha384 : s2n_signature_scheme := {|
  scheme_symbol := "s2n_rsa_pss_rsae_sha384";
  scheme_iana_value := TLS_SIGNATURE_SCHEME_RSA_PSS_RSAE_SHA384;
  scheme_iana_name := "rsa_pss_rsae_sha384";
  hash_alg := S2N_HASH_SHA384;
  sig_alg := S2N_SIGNATURE_RSA_PSS_RSAE;
  minimum_protocol_version := 0;
  maximum_protocol_version := 0;
  scheme_nid := NID_rsassaPss;
  signature_curve := None;
|}.

Definition s2n_rsa_pss_rsae_sha512 : s2n_signature_scheme := {|
  scheme_symbol := "s2n_rsa_pss_rsae_sha512";
  scheme_iana_value := TLS_SIGNATURE_SCHEME_RSA_PSS_RSAE_SHA512;
  scheme_iana_name := "rsa_pss_rsae_sha512";
  hash_alg := S2N_HASH_SHA512;
  sig_alg := S2N_SIGNATURE_RSA_PSS_RSAE;
  minimum_protocol_version := 0;
  maximum_protocol_version := 0;
  scheme_nid := NID_rsassaPss;
  signature_curve := None;
|}.

Definition s2n_rsa_pss_pss_sha256 : s2n_signature_scheme := {|
  scheme_symbol := "s2n_rsa_pss_pss_sha256";
  scheme_iana_value := TLS_SIGNATURE_SCHEME_RSA_PSS_PSS_SHA256;
  scheme_iana_name := "rsa_pss_pss_sha256";
  hash_alg := S2N_HASH_SHA256;
  sig_alg := S2N_SIGNATURE_RSA_PSS_PSS;
  minimum_protocol_version := S2N_TLS12;
  maximum_protocol_version := 0;
  scheme_nid := NID_rsassaPss;
  signature_curve := None;
|}.

Definition s2n_rsa_pss_pss_sha384 : s2n_signature_scheme := {|
  scheme_symbol := "s2n_rsa_pss_pss_sha384";
  scheme_iana_value := TLS_SIGNATURE_SCHEME_RSA_PSS_PSS_SHA384;
  scheme_iana_name := "rsa_pss_pss_sha384";
  hash_alg := S2N_HASH_SHA384;
  sig_alg := S2N_SIGNATURE_RSA_PSS_PSS;
  minimum_protocol_version := S2N_TLS12;
  maximum_protocol_version := 0;
  scheme_nid := NID_rsassaPss;
  signature_curve := None;
|}.

Definition s2n_rsa_pss_pss_sha512 : s2n_signature_scheme := {|
  scheme_symbol := "s2n_rsa_pss_pss_sha512";
  scheme_iana_value := TLS_SIGNATURE_SCHEME_RSA_PSS_PSS_SHA512;
  scheme_iana_name := "rsa_pss_pss_sha512";
  hash_alg := S2N_HASH_SHA512;
  sig_alg := S2N_SIGNATURE_RSA_PSS_PSS;
  minimum_protocol_version := S2N_TLS12;
  maximum_protocol_version := 0;
  scheme_nid := NID_rsassaPss;
  signature_curve := None;
|}.

Definition s2n_sig_scheme_pref_list_all : list s2n_signature_scheme :=
  [ s2n_rsa_pkcs1_md5_sha1;
    s2n_rsa_pkcs1_sha1;
    s2n_rsa_pkcs1_sha224;
    s2n_rsa_pkcs1_sha256;
    s2n_rsa_pkcs1_sha384;
    s2n_rsa_pkcs1_sha512;
    s2n_ecdsa_sha1;
    s2n_ecdsa_sha224;
    s2n_ecdsa_sha256;
    s2n_ecdsa_sha384;
    s2n_ecdsa_sha512;
    s2n_rsa_pss_rsae_sha256;
    s2n_rsa_pss_rsae_sha384;
    s2n_rsa_pss_rsae_sha512;
    s2n_rsa_pss_pss_sha256;
    s2n_rsa_pss_pss_sha384;
    s2n_rsa_pss_pss_sha512 ].

Definition s2n_signature_preferences_all : s2n_signature_preferences := {| signature_schemes := s2n_sig_scheme_pref_list_all |}.

Definition s2n_sig_scheme_pref_list_20240501 : list s2n_signature_scheme :=
  [ s2n_ecdsa_sha256;
    s2n_ecdsa_sha384;
    s2n_ecdsa_sha512;
    s2n_rsa_pss_pss_sha256;
    s2n_rsa_pss_pss_sha384;
    s2n_rsa_pss_pss_sha512;
    s2n_rsa_pss_rsae_sha256;
    s2n_rsa_pss_rsae_sha384;
    s2n_rsa_pss_rsae_sha512;
    s2n_rsa_pkcs1_sha256;
    s2n_rsa_pkcs1_sha384;
    s2n_rsa_pkcs1_sha512 ].

Definition s2n_signature_preferences_20240501 : s2n_signature_preferences := {| signature_schemes := s2n_sig_scheme_pref_list_20240501 |}.

Definition s2n_sig_scheme_pref_list_20140601 : list s2n_signature_scheme :=
  [ s2n_rsa_pkcs1_sha256;
    s2n_rsa_pkcs1_sha384;
    s2n_rsa_pkcs1_sha512;
    s2n_rsa_pkcs1_sha224;
    s2n_ecdsa_sha256;
    s2n_ecdsa_sha384;
    s2n_ecdsa_sha512;
    s2n_ecdsa_sha224;
    s2n_rsa_pkcs1_sha1;
    s2n_ecdsa_sha1 ].

Definition s2n_sig_scheme_pref_list_20200207 : list s2n_signature_scheme :=
  [ s2n_rsa_pss_pss_sha256;
    s2n_rsa_pss_pss_sha384;
    s2n_rsa_pss_pss_sha512;
    s2n_rsa_pss_rsae_sha256;
    s2n_rsa_pss_rsae_sha384;
    s2n_rsa_pss_rsae_sha512;
    s2n_rsa_pkcs1_sha256;
    s2n_rsa_pkcs1_sha384;
    s2n_rsa_pkcs1_sha512;
    s2n_rsa_pkcs1_sha224;
    s2n_ecdsa_sha256;
    s2n_ecdsa_sha384;
    s2n_ecdsa_sha512;
    s2n_ecdsa_sha224;
    s2n_rsa_pkcs1_sha1;
    s2n_ecdsa_sha1 ].

Definition s2n_sig_scheme_pref_list_default_fips : list s2n_signature_scheme :=
  [ s2n_rsa_pkcs1_sha256;
    s2n_rsa_pkcs1_sha384;
    s2n_rsa_pkcs1_sha512;
    s2n_ecdsa_sha256;
    s2n_ecdsa_sha384;
    s2n_ecdsa_sha512;
    s2n_ecdsa_sha224 ].

Definition s2n_signature_preferences_default_fips : s2n_signature_preferences := {| signature_schemes := s2n_sig_scheme_pref_list_default_fips |}.

Definition s2n_sig_scheme_pref_list_20230317 : list s2n_signature_scheme :=
  [ s2n_rsa_pss_rsae_sha256;
    s2n_rsa_pss_rsae_sha384;
    s2n_rsa_pss_rsae_sha512;
    s2n_rsa_pkcs1_sha256;
    s2n_rsa_pkcs1_sha384;
    s2n_rsa_pkcs1_sha512;
    s2n_ecdsa_sha256;
    s2n_ecdsa_sha384;
    s2n_ecdsa_sha512;
    s2n_rsa_pss_pss_sha256;
    s2n_rsa_pss_pss_sha384;
    s2n_rsa_pss_pss_sha512 ].

Definition s2n_signature_preferences_20230317 : s2n_signature_preferences := {| signature_schemes := s2n_sig_scheme_pref_list_20230317 |}.

Definition s2n_sig_scheme_pref_list_20201021 : list s2n_signature_scheme :=
  [ s2n_rsa_pss_pss_sha256;
    s2n_rsa_pss_pss_sha384;
    s2n_rsa_pss_pss_sha512;
    s2n_rsa_pss_rsae_sha256;
    s2n_rsa_pss_rsae_sha384;
    s2n_rsa_pss_rsae_sha512;
    s2n_rsa_pkcs1_sha256;
    s2n_rsa_pkcs1_sha384;
    s2n_rsa_pkcs1_sha512;
    s2n_rsa_pkcs1_sha224;
    s2n_ecdsa_sha256;
    s2n_ecdsa_sha384;
    s2n_ecdsa_sha512;
    s2n_ecdsa_sha224;
    s2n_rsa_pkcs1_sha1;
    s2n_ecdsa_sha1 ].

Definition s2n_signature_preferences_20140601 : s2n_signature_preferences := {| signature_schemes := s2n_sig_scheme_pref_list_20140601 |}.

Definition s2n_signature_preferences_20200207 : s2n_signature_preferences := {| signature_schemes := s2n_sig_scheme_pref_list_20200207 |}.

Definition s2n_signature_preferences_20201021 : s2n_signature_preferences := {| signature_schemes := s2n_sig_scheme_pref_list_20201021 |}.

Definition s2n_signature_preferences_null : s2n_signature_preferences := {| signature_schemes := [] |}.

Definition s2n_sig_scheme_pref_list_20201110 : list s2n_signature_scheme :=
  [ s2n_rsa_pss_pss_sha256;
    s2n_rsa_pss_pss_sha384;
    s2n_rsa_pss_pss_sha512;
    s2n_rsa_pss_rsae_sha256;
    s2n_rsa_pss_rsae_sha384;
    s2n_rsa_pss_rsae_sha512;
    s2n_rsa_pkcs1_sha256;
    s2n_rsa_pkcs1_sha384;
    s2n_rsa_pkcs1_sha512;
    s2n_rsa_pkcs1_sha224;
    s2n_ecdsa_sha256;
    s2n_ecdsa_sha384;
    s2n_ecdsa_sha512;
    s2n_ecdsa_sha224 ].

Definition s2n_certificate_signature_preferences_20201110 : s2n_signature_preferences := {| signature_schemes := s2n_sig_scheme_pref_list_20201110 |}.

Definition s2n_sig_scheme_pref_list_20210816 : list s2n_signature_scheme :=
  [ s2n_rsa_pkcs1_sha384;
    s2n_rsa_pkcs1_sha512;
    s2n_ecdsa_sha384;
    s2n_ecdsa_sha512 ].

Definition s2n_signature_preferences_20210816 : s2n_signature_preferences := {| signature_schemes := s2n_sig_scheme_pref_list_20210816 |}.

Definition s2n_sig_scheme_pref_list_rfc9151 : list s2n_signature_scheme :=
  [ s2n_ecdsa_sha384;
    s2n_rsa_pss_pss_sha384;
    s2n_rsa_pss_rsae_sha384;
    s2n_rsa_pkcs1_sha384 ].

Definition s2n_cert_sig_scheme_pref_list_rfc9151 : list s2n_signature_scheme :=
  [ s2n_ecdsa_sha384;
    s2n_rsa_pkcs1_sha384 ].

Definition s2n_signature_preferences_rfc9151 : s2n_signature_preferences := {| signature_schemes := s2n_sig_scheme_pref_list_rfc9151 |}.

Definition s2n_certificate_signature_preferences_rfc9151 : s2n_signature_preferences := {| signature_schemes := s2n_cert_sig_scheme_pref_list_rfc9151 |}.

Definition s2n_sig_scheme_pref_list_20240521 : list s2n_signature_scheme :=
  [ s2n_ecdsa_sha256;
    s2n_ecdsa_sha384;
    s2n_ecdsa_sha512;
    s2n_rsa_pss_pss_sha256;
    s2n_rsa_pss_pss_sha384;
    s2n_rsa_pss_pss_sha512;
    s2n_rsa_pss_rsae_sha256;
    s2n_rsa_pss_rsae_sha384;
    s2n_rsa_pss_rsae_sha512;
    s2n_rsa_pkcs1_sha256;
    s2n_rsa_pkcs1_sha384;
    s2n_rsa_pkcs1_sha512;
    s2n_rsa_pkcs1_sha224;
    s2n_ecdsa_sha1;
    s2n_rsa_pkcs1_sha1 ].

Definition s2n_signature_preferences_20240521 : s2n_signature_preferences := {| signature_schemes := s2n_sig_scheme_pref_list_20240521 |}.

Definition s2n_sig_scheme_pref_list_test_all_fips : list s2n_signature_scheme :=
  [ s2n_rsa_pss_pss_sha256;
    s2n_rsa_pss_pss_sha384;
    s2n_rsa_pss_pss_sha512;
    s2n_rsa_pss_rsae_sha256;
    s2n_rsa_pss_rsae_sha384;
    s2n_rsa_pss_rsae_sha512;
    s2n_rsa_pkcs1_sha256;
    s2n_rsa_pkcs1_sha384;
    s2n_rsa_pkcs1_sha512;
    s2n_rsa_pkcs1_sha224;
    s2n_ecdsa_sha256;
    s2n_ecdsa_sha384;
    s2n_ecdsa_sha512;
    s2n_ecdsa_sha224 ].

Definition s2n_signature_preferences_test_all_fips : s2n_signature_preferences := {| signature_schemes := s2n_sig_scheme_pref_list_test_all_fips |}.

(** ** tls/s2n_certificate_keys.c *)

Definition s2n_rsa_rsae_1024 : s2n_certificate_key := {|
  key_name := "rsa_1024";
  public_key_libcrypto_nid := NID_rsaEncryption;
  key_bits := 1024;
|}.

Definition s2n_rsa_rsae_2048 : s2n_certificate_key := {|
  key_name := "rsa_2048";
  public_key_libcrypto_nid := NID_rsaEncryption;
  key_bits := 2048;
|}.

Definition s2n_rsa_rsae_3072 : s2n_certificate_key := {|
  key_name := "rsa_3072";
  public_key_libcrypto_nid := NID_rsaEncryption;
  key_bits := 3072;
|}.

Definition s2n_rsa_rsae_4096 : s2n_certificate_key := {|
  key_name := "rsa_4096";
  public_key_libcrypto_nid := NID_rsaEncryption;
  key_bits := 4096;
|}.

Definition s2n_rsa_pss_1024 : s2n_certificate_key := {|
  key_name := "rsa_pss_1024";
  public_key_libcrypto_nid := NID_rsassaPss;
  key_bits := 1024;
|}.

Definition s2n_rsa_pss_2048 : s2n_certificate_key := {|
  key_name := "rsa_pss_2048";
  public_key_libcrypto_nid := NID_rsassaPss;
  key_bits := 2048;
|}.

Definition s2n_rsa_pss_3072 : s2n_certificate_key := {|
  key_name := "rsa_pss_3072";
  public_key_libcrypto_nid := NID_rsassaPss;
  key_bits := 3072;
|}.

Definition s2n_rsa_pss_4096 : s2n_certificate_key := {|
  key_name := "rsa_pss_4096";
  public_key_libcrypto_nid := NID_rsassaPss;
  key_bits := 4096;
|}.

Definition s2n_ec_p256 : s2n_certificate_key := {|
  key_name := "ecdsa_p256";
  public_key_libcrypto_nid := NID_X9_62_prime256v1;
  key_bits := 256;
|}.

Definition s2n_ec_p384 : s2n_certificate_key := {|
  key_name := "ecdsa_p384";
  public_key_libcrypto_nid := NID_secp384r1;
  key_bits := 384;
|}.

Definition s2n_ec_p521 : s2n_certificate_key := {|
  key_name := "ecdsa_p521";
  public_key_libcrypto_nid := NID_secp521r1;
  key_bits := 521;
|}.

Definition s2n_certificate_keys_rfc9151 : list s2n_certificate_key :=
  [ s2n_ec_p384;
    s2n_rsa_rsae_3072;
    s2n_rsa_rsae_4096;
    s2n_rsa_pss_3072;
    s2n_rsa_pss_4096 ].

Definition s2n_certificate_key_preferences_rfc9151 : s2n_certificate_key_preferences := {| certificate_keys := s2n_certificate_keys_rfc9151 |}.
End Schemes.
End SignatureSchemes.
Export SignatureSchemes.
