(* ===== verification/CipherPreferences.v ===== *)
(** * Cipher preference lists

    The data of tls/s2n_cipher_preferences.c: each list of cipher suites, in the
    order of preference, and each [s2n_cipher_preferences] object. *)
From stdpp Require Import strings.
From S2P Require Import Prelude Errors CMem Connection Libcrypto CipherSuites.
Open Scope string_scope.
Open Scope Z_scope.

Module CipherPreferences.
Section Preferences.
Context `{Libcrypto}.

Definition S2N_TLS13_CIPHER_SUITES_20190801 : list s2n_cipher_suite :=
  [ s2n_tls13_aes_256_gcm_sha384;
    s2n_tls13_aes_128_gcm_sha256;
    s2n_tls13_chacha20_poly1305_sha256 ].

Definition S2N_TLS13_CLOUDFRONT_CIPHER_SUITES_20200716 : list s2n_cipher_suite :=
  [ s2n_tls13_aes_128_gcm_sha256;
    s2n_tls13_aes_256_gcm_sha384;
    s2n_tls13_chacha20_poly1305_sha256 ].

Definition cipher_suites_20190801 : list s2n_cipher_suite :=
  S2N_TLS13_CIPHER_SUITES_20190801 ++
  [ s2n_ecdhe_rsa_with_aes_128_gcm_sha256;
    s2n_ecdhe_rsa_with_aes_256_gcm_sha384;
    s2n_ecdhe_rsa_with_chacha20_poly1305_sha256;
    s2n_ecdhe_rsa_with_aes_128_cbc_sha;
    s2n_ecdhe_rsa_with_aes_128_cbc_sha256;
    s2n_ecdhe_rsa_with_aes_256_cbc_sha;
    s2n_rsa_with_aes_128_gcm_sha256;
    s2n_rsa_with_aes_128_cbc_sha256;
    s2n_rsa_with_aes_128_cbc_sha ].

Definition cipher_preferences_20190801 : s2n_cipher_preferences := {|
  suites := cipher_suites_20190801;
  allow_chacha20_boosting := false;
|}.

Definition cipher_suites_20210831 : list s2n_cipher_suite :=
  S2N_TLS13_CLOUDFRONT_CIPHER_SUITES_20200716 ++
  [ s2n_ecdhe_ecdsa_with_aes_128_gcm_sha256;
    s2n_ecdhe_rsa_with_aes_128_gcm_sha256;
    s2n_ecdhe_ecdsa_with_aes_256_gcm_sha384;
    s2n_ecdhe_rsa_with_aes_256_gcm_sha384;
    s2n_ecdhe_ecdsa_with_chacha20_poly1305_sha256;
    s2n_ecdhe_rsa_with_chacha20_poly1305_sha256;
    s2n_ecdhe_ecdsa_with_aes_128_cbc_sha;
    s2n_ecdhe_rsa_with_aes_128_cbc_sha;
    s2n_ecdhe_ecdsa_with_aes_128_cbc_sha256;
    s2n_ecdhe_rsa_with_aes_128_cbc_sha256;
    s2n_ecdhe_ecdsa_with_aes_256_cbc_sha;
    s2n_ecdhe_rsa_with_aes_256_cbc_sha;
    s2n_rsa_with_aes_128_gcm_sha256;
    s2n_rsa_with_aes_128_cbc_sha256;
    s2n_rsa_with_aes_128_cbc_sha ].

Definition cipher_preferences_20210831 : s2n_cipher_preferences := {|
  suites := cipher_suites_20210831;
  allow_chacha20_boosting := false;
|}.

Definition cipher_suites_default_fips : list s2n_cipher_suite :=
  [ s2n_ecdhe_ecdsa_with_aes_128_gcm_sha256;
    s2n_ecdhe_ecdsa_with_aes_256_gcm_sha384;
    s2n_ecdhe_ecdsa_with_aes_128_cbc_sha256;
    s2n_ecdhe_ecdsa_with_aes_256_cbc_sha384;
    s2n_ecdhe_rsa_with_aes_128_gcm_sha256;
    s2n_ecdhe_rsa_with_aes_256_gcm_sha384;
    s2n_ecdhe_rsa_with_aes_128_cbc_sha256;
    s2n_ecdhe_rsa_with_aes_256_cbc_sha384;
    s2n_dhe_rsa_with_aes_128_cbc_sha256;
    s2n_dhe_rsa_with_aes_256_cbc_sha256;
    s2n_dhe_rsa_with_aes_128_gcm_sha256;
    s2n_dhe_rsa_with_aes_256_gcm_sha384 ].

Definition cipher_preferences_default_fips : s2n_cipher_preferences := {|
  suites := cipher_suites_default_fips;
  allow_chacha20_boosting := false;
|}.

Definition cipher_suites_20140601 : list s2n_cipher_suite :=
  [ s2n_dhe_rsa_with_aes_128_cbc_sha256;
    s2n_dhe_rsa_with_aes_128_cbc_sha;
    s2n_dhe_rsa_with_3des_ede_cbc_sha;
    s2n_rsa_with_aes_128_cbc_sha256;
    s2n_rsa_with_aes_128_cbc_sha;
    s2n_rsa_with_3des_ede_cbc_sha;
    s2n_rsa_with_rc4_128_sha;
    s2n_rsa_with_rc4_128_md5 ].

Definition cipher_preferences_20140601 : s2n_cipher_preferences := {|
  suites := cipher_suites_20140601;
  allow_chacha20_boosting := false;
|}.

Definition cipher_preferences_20141001 : s2n_cipher_preferences := {|
  suites := cipher_suites_20140601;
  allow_chacha20_boosting := false;
|}.

Definition cipher_suites_20150202 : list s2n_cipher_suite :=
  [ s2n_dhe_rsa_with_aes_128_cbc_sha256;
    s2n_dhe_rsa_with_aes_128_cbc_sha;
    s2n_dhe_rsa_with_3des_ede_cbc_sha;
    s2n_rsa_with_aes_128_cbc_sha256;
    s2n_rsa_with_aes_128_cbc_sha;
    s2n_rsa_with_3des_ede_cbc_sha ].

Definition cipher_preferences_20150202 : s2n_cipher_preferences := {|
  suites := cipher_suites_20150202;
  allow_chacha20_boosting := false;
|}.

Definition cipher_suites_20150214 : list s2n_cipher_suite :=
  [ s2n_dhe_rsa_with_aes_128_gcm_sha256;
    s2n_dhe_rsa_with_aes_128_cbc_sha256;
    s2n_dhe_rsa_with_aes_128_cbc_sha;
    s2n_dhe_rsa_with_3des_ede_cbc_sha;
    s2n_rsa_with_aes_128_gcm_sha256;
    s2n_rsa_with_aes_128_cbc_sha256;
    s2n_rsa_with_aes_128_cbc_sha;
    s2n_rsa_with_3des_ede_cbc_sha ].

Definition cipher_preferences_20150214 : s2n_cipher_preferences := {|
  suites := cipher_suites_20150214;
  allow_chacha20_boosting := false;
|}.

Definition cipher_suites_20160411 : list s2n_cipher_suite :=
  [ s2n_ecdhe_rsa_with_aes_128_cbc_sha;
    s2n_ecdhe_rsa_with_aes_128_gcm_sha256;
    s2n_ecdhe_rsa_with_aes_256_gcm_sha384;
    s2n_ecdhe_rsa_with_aes_128_cbc_sha256;
    s2n_ecdhe_rsa_with_aes_256_cbc_sha;
    s2n_ecdhe_rsa_with_aes_256_cbc_sha384;
    s2n_rsa_with_aes_128_cbc_sha;
    s2n_rsa_with_aes_128_gcm_sha256;
    s2n_rsa_with_aes_256_gcm_sha384;
    s2n_rsa_with_aes_128_cbc_sha256;
    s2n_rsa_with_aes_256_cbc_sha;
    s2n_rsa_with_aes_256_cbc_sha256;
    s2n_rsa_with_3des_ede_cbc_sha ].

Definition cipher_preferences_20160411 : s2n_cipher_preferences := {|
  suites := cipher_suites_20160411;
  allow_chacha20_boosting := false;
|}.

Definition cipher_suites_20150306 : list s2n_cipher_suite :=
  [ s2n_ecdhe_rsa_with_aes_128_gcm_sha256;
    s2n_ecdhe_rsa_with_aes_256_gcm_sha384;
    s2n_ecdhe_rsa_with_aes_128_cbc_sha;
    s2n_ecdhe_rsa_with_aes_128_cbc_sha256;
    s2n_ecdhe_rsa_with_3des_ede_cbc_sha;
    s2n_ecdhe_rsa_with_aes_256_cbc_sha;
    s2n_rsa_with_aes_128_gcm_sha256;
    s2n_rsa_with_aes_128_cbc_sha256;
    s2n_rsa_with_aes_128_cbc_sha;
    s2n_rsa_with_3des_ede_cbc_sha ].

Definition cipher_preferences_20150306 : s2n_cipher_preferences := {|
  suites := cipher_suites_20150306;
  allow_chacha20_boosting := false;
|}.

Definition cipher_suites_20160804 : list s2n_cipher_suite :=
  [ s2n_ecdhe_rsa_with_aes_128_gcm_sha256;
    s2n_ecdhe_rsa_with_aes_256_gcm_sha384;
    s2n_ecdhe_rsa_with_aes_128_cbc_sha;
    s2n_ecdhe_rsa_with_aes_128_cbc_sha256;
    s2n_ecdhe_rsa_with_aes_256_cbc_sha;
    s2n_ecdhe_rsa_with_aes_256_cbc_sha384;
    s2n_rsa_with_aes_128_gcm_sha256;
    s2n_rsa_with_aes_256_gcm_sha384;
    s2n_rsa_with_aes_128_cbc_sha;
    s2n_rsa_with_aes_128_cbc_sha256;
    s2n_rsa_with_aes_256_cbc_sha;
    s2n_rsa_with_aes_256_cbc_sha256;
    s2n_rsa_with_3des_ede_cbc_sha ].

Definition cipher_preferences_20160804 : s2n_cipher_preferences := {|
  suites := cipher_suites_20160804;
  allow_chacha20_boosting := false;
|}.

Definition cipher_suites_20160824 : list s2n_cipher_suite :=
  [ s2n_ecdhe_rsa_with_aes_128_gcm_sha256;
    s2n_ecdhe_rsa_with_aes_256_gcm_sha384;
    s2n_ecdhe_rsa_with_aes_128_cbc_sha;
    s2n_ecdhe_rsa_with_aes_128_cbc_sha256;
    s2n_ecdhe_rsa_with_aes_256_cbc_sha;
    s2n_rsa_with_aes_128_gcm_sha256;
    s2n_rsa_with_aes_128_cbc_sha256;
    s2n_rsa_with_aes_128_cbc_sha ].

Definition cipher_preferences_20160824 : s2n_cipher_preferences := {|
  suites := cipher_suites_20160824;
  allow_chacha20_boosting := false;
|}.

Definition cipher_suites_20170210 : list s2n_cipher_suite :=
  [ s2n_ecdhe_rsa_with_aes_128_gcm_sha256;
    s2n_ecdhe_rsa_with_aes_256_gcm_sha384;
    s2n_ecdhe_rsa_with_chacha20_poly1305_sha256;
    s2n_ecdhe_rsa_with_aes_128_cbc_sha;
    s2n_ecdhe_rsa_with_aes_128_cbc_sha256;
    s2n_ecdhe_rsa_with_aes_256_cbc_sha;
    s2n_rsa_with_aes_128_gcm_sha256;
    s2n_rsa_with_aes_128_cbc_sha256;
    s2n_rsa_with_aes_128_cbc_sha ].

Definition cipher_preferences_20170210 : s2n_cipher_preferences := {|
  suites := cipher_suites_20170210;
  allow_chacha20_boosting := false;
|}.

Definition cipher_suites_20230317 : list s2n_cipher_suite :=
  [ s2n_ecdhe_ecdsa_with_aes_128_gcm_sha256;
    s2n_ecdhe_ecdsa_with_aes_256_gcm_sha384;
    s2n_ecdhe_ecdsa_with_aes_128_cbc_sha256;
    s2n_ecdhe_ecdsa_with_aes_256_cbc_sha384;
    s2n_ecdhe_rsa_with_aes_128_gcm_sha256;
    s2n_ecdhe_rsa_with_aes_256_gcm_sha384;
    s2n_ecdhe_rsa_with_aes_128_cbc_sha256;
    s2n_ecdhe_rsa_with_aes_256_cbc_sha384;
    s2n_tls13_aes_128_gcm_sha256;
    s2n_tls13_aes_256_gcm_sha384 ].

Definition cipher_preferences_20230317 : s2n_cipher_preferences := {|
  suites := cipher_suites_20230317;
  allow_chacha20_boosting := false;
|}.

Definition cipher_suites_20240331 : list s2n_cipher_suite :=
  [ s2n_ecdhe_ecdsa_with_aes_128_gcm_sha256;
    s2n_ecdhe_ecdsa_with_aes_256_gcm_sha384;
    s2n_ecdhe_ecdsa_with_aes_128_cbc_sha256;
    s2n_ecdhe_ecdsa_with_aes_256_cbc_sha384;
    s2n_ecdhe_rsa_with_aes_128_gcm_sha256;
    s2n_ecdhe_rsa_with_aes_256_gcm_sha384;
    s2n_ecdhe_rsa_with_aes_128_cbc_sha256;
    s2n_ecdhe_rsa_with_aes_256_cbc_sha384 ].

Definition cipher_preferences_20240331 : s2n_cipher_preferences := {|
  suites := cipher_suites_20240331;
  allow_chacha20_boosting := false;
|}.

Definition cipher_suites_20190122 : list s2n_cipher_suite :=
  [ s2n_ecdhe_rsa_with_chacha20_poly1305_sha256;
    s2n_ecdhe_rsa_with_aes_128_cbc_sha;
    s2n_ecdhe_rsa_with_aes_128_gcm_sha256;
    s2n_ecdhe_rsa_with_aes_256_gcm_sha384;
    s2n_ecdhe_rsa_with_aes_128_cbc_sha256;
    s2n_ecdhe_rsa_with_aes_256_cbc_sha;
    s2n_ecdhe_rsa_with_aes_256_cbc_sha384;
    s2n_rsa_with_aes_128_cbc_sha;
    s2n_rsa_with_aes_128_gcm_sha256;
    s2n_rsa_with_aes_256_gcm_sha384;
    s2n_rsa_with_aes_128_cbc_sha256;
    s2n_rsa_with_aes_256_cbc_sha;
    s2n_rsa_with_aes_256_cbc_sha256;
    s2n_rsa_with_3des_ede_cbc_sha ].

Definition cipher_preferences_20190122 : s2n_cipher_preferences := {|
  suites := cipher_suites_20190122;
  allow_chacha20_boosting := false;
|}.

Definition cipher_suites_20190121 : list s2n_cipher_suite :=
  [ s2n_ecdhe_rsa_with_aes_128_gcm_sha256;
    s2n_ecdhe_rsa_with_aes_256_gcm_sha384;
    s2n_ecdhe_rsa_with_chacha20_poly1305_sha256;
    s2n_ecdhe_rsa_with_aes_128_cbc_sha;
    s2n_ecdhe_rsa_with_aes_128_cbc_sha256;
    s2n_ecdhe_rsa_with_aes_256_cbc_sha;
    s2n_ecdhe_rsa_with_aes_256_cbc_sha384;
    s2n_rsa_with_aes_128_gcm_sha256;
    s2n_rsa_with_aes_256_gcm_sha384;
    s2n_rsa_with_aes_128_cbc_sha;
    s2n_rsa_with_aes_128_cbc_sha256;
    s2n_rsa_with_aes_256_cbc_sha;
    s2n_rsa_with_aes_256_cbc_sha256;
    s2n_rsa_with_3des_ede_cbc_sha ].

Definition cipher_preferences_20190121 : s2n_cipher_preferences := {|
  suites := cipher_suites_20190121;
  allow_chacha20_boosting := false;
|}.

Definition cipher_suites_20190120 : list s2n_cipher_suite :=
  [ s2n_ecdhe_rsa_with_aes_128_cbc_sha;
    s2n_ecdhe_rsa_with_aes_128_gcm_sha256;
    s2n_ecdhe_rsa_with_aes_256_gcm_sha384;
    s2n_ecdhe_rsa_with_chacha20_poly1305_sha256;
    s2n_ecdhe_rsa_with_aes_128_cbc_sha256;
    s2n_ecdhe_rsa_with_aes_256_cbc_sha;
    s2n_ecdhe_rsa_with_aes_256_cbc_sha384;
    s2n_rsa_with_aes_128_cbc_sha;
    s2n_rsa_with_aes_128_gcm_sha256;
    s2n_rsa_with_aes_256_gcm_sha384;
    s2n_rsa_with_aes_128_cbc_sha256;
    s2n_rsa_with_aes_256_cbc_sha;
    s2n_rsa_with_aes_256_cbc_sha256;
    s2n_rsa_with_3des_ede_cbc_sha ].

Definition cipher_preferences_20190120 : s2n_cipher_preferences := {|
  suites := cipher_suites_20190120;
  allow_chacha20_boosting := false;
|}.

Definition cipher_suites_20190214 : list s2n_cipher_suite :=
  [ s2n_ecdhe_ecdsa_with_aes_128_cbc_sha;
    s2n_ecdhe_rsa_with_aes_128_cbc_sha;
    s2n_ecdhe_ecdsa_with_aes_128_gcm_sha256;
    s2n_ecdhe_rsa_with_aes_128_gcm_sha256;
    s2n_ecdhe_ecdsa_with_aes_256_gcm_sha384;
    s2n_ecdhe_rsa_with_aes_256_gcm_sha384;
    s2n_ecdhe_ecdsa_with_aes_128_cbc_sha256;
    s2n_ecdhe_rsa_with_aes_128_cbc_sha256;
    s2n_ecdhe_ecdsa_with_aes_256_cbc_sha;
    s2n_ecdhe_rsa_with_aes_256_cbc_sha;
    s2n_ecdhe_ecdsa_with_aes_256_cbc_sha384;
    s2n_ecdhe_rsa_with_aes_256_cbc_sha384;
    s2n_rsa_with_aes_128_cbc_sha;
    s2n_rsa_with_aes_128_gcm_sha256;
    s2n_rsa_with_aes_256_gcm_sha384;
    s2n_rsa_with_aes_128_cbc_sha256;
    s2n_rsa_with_aes_256_cbc_sha;
    s2n_rsa_with_aes_256_cbc_sha256;
    s2n_rsa_with_3des_ede_cbc_sha;
    s2n_dhe_rsa_with_aes_128_cbc_sha;
    s2n_dhe_rsa_with_aes_128_gcm_sha256;
    s2n_dhe_rsa_with_aes_256_gcm_sha384;
    s2n_dhe_rsa_with_aes_128_cbc_sha256;
    s2n_dhe_rsa_with_aes_256_cbc_sha;
    s2n_dhe_rsa_with_aes_256_cbc_sha256 ].

Definition cipher_preferences_20190214 : s2n_cipher_preferences := {|
  suites := cipher_suites_20190214;
  allow_chacha20_boosting := false;
|}.

Definition cipher_suites_20190214_gcm : list s2n_cipher_suite :=
  [ s2n_ecdhe_ecdsa_with_aes_128_gcm_sha256;
    s2n_ecdhe_rsa_with_aes_128_gcm_sha256;
    s2n_ecdhe_ecdsa_with_aes_256_gcm_sha384;
    s2n_ecdhe_rsa_with_aes_256_gcm_sha384;
    s2n_ecdhe_ecdsa_with_aes_128_cbc_sha;
    s2n_ecdhe_rsa_with_aes_128_cbc_sha;
    s2n_ecdhe_ecdsa_with_aes_128_cbc_sha256;
    s2n_ecdhe_rsa_with_aes_128_cbc_sha256;
    s2n_ecdhe_ecdsa_with_aes_256_cbc_sha;
    s2n_ecdhe_rsa_with_aes_256_cbc_sha;
    s2n_ecdhe_ecdsa_with_aes_256_cbc_sha384;
    s2n_ecdhe_rsa_with_aes_256_cbc_sha384;
    s2n_rsa_with_aes_128_gcm_sha256;
    s2n_rsa_with_aes_256_gcm_sha384;
    s2n_rsa_with_aes_128_cbc_sha;
    s2n_rsa_with_aes_128_cbc_sha256;
    s2n_rsa_with_aes_256_cbc_sha;
    s2n_rsa_with_aes_256_cbc_sha256;
    s2n_rsa_with_3des_ede_cbc_sha;
    s2n_dhe_rsa_with_aes_128_gcm_sha256;
    s2n_dhe_rsa_with_aes_256_gcm_sha384;
    s2n_dhe_rsa_with_aes_128_cbc_sha;
    s2n_dhe_rsa_with_aes_128_cbc_sha256;
    s2n_dhe_rsa_with_aes_256_cbc_sha;
    s2n_dhe_rsa_with_aes_256_cbc_sha256 ].

Definition cipher_preferences_20190214_gcm : s2n_cipher_preferences := {|
  suites := cipher_suites_20190214_gcm;
  allow_chacha20_boosting := false;
|}.

Definition cipher_suites_20210825 : list s2n_cipher_suite :=
  S2N_TLS13_CLOUDFRONT_CIPHER_SUITES_20200716 ++
  [ s2n_ecdhe_ecdsa_with_aes_128_cbc_sha;
    s2n_ecdhe_rsa_with_aes_128_cbc_sha;
    s2n_ecdhe_ecdsa_with_aes_128_gcm_sha256;
    s2n_ecdhe_rsa_with_aes_128_gcm_sha256;
    s2n_ecdhe_ecdsa_with_aes_256_gcm_sha384;
    s2n_ecdhe_rsa_with_aes_256_gcm_sha384;
    s2n_ecdhe_ecdsa_with_aes_128_cbc_sha256;
    s2n_ecdhe_rsa_with_aes_128_cbc_sha256;
    s2n_ecdhe_ecdsa_with_aes_256_cbc_sha;
    s2n_ecdhe_rsa_with_aes_256_cbc_sha;
    s2n_ecdhe_ecdsa_with_aes_256_cbc_sha384;
    s2n_ecdhe_rsa_with_aes_256_cbc_sha384;
    s2n_rsa_with_aes_128_cbc_sha;
    s2n_rsa_with_aes_128_gcm_sha256;
    s2n_rsa_with_aes_256_gcm_sha384;
    s2n_rsa_with_aes_128_cbc_sha256;
    s2n_rsa_with_aes_256_cbc_sha;
    s2n_rsa_with_aes_256_cbc_sha256;
    s2n_rsa_with_3des_ede_cbc_sha;
    s2n_dhe_rsa_with_aes_128_cbc_sha;
    s2n_dhe_rsa_with_aes_128_gcm_sha256;
    s2n_dhe_rsa_with_aes_256_gcm_sha384;
    s2n_dhe_rsa_with_aes_128_cbc_sha256;
    s2n_dhe_rsa_with_aes_256_cbc_sha;
    s2n_dhe_rsa_with_aes_256_cbc_sha256 ].

Definition cipher_preferences_20210825 : s2n_cipher_preferences := {|
  suites := cipher_suites_20210825;
  allow_chacha20_boosting := false;
|}.

Definition cipher_suites_20210825_gcm : list s2n_cipher_suite :=
  S2N_TLS13_CLOUDFRONT_CIPHER_SUITES_20200716 ++
  [ s2n_ecdhe_ecdsa_with_aes_128_gcm_sha256;
    s2n_ecdhe_rsa_with_aes_128_gcm_sha256;
    s2n_ecdhe_ecdsa_with_aes_256_gcm_sha384;
    s2n_ecdhe_rsa_with_aes_256_gcm_sha384;
    s2n_ecdhe_ecdsa_with_aes_128_cbc_sha;
    s2n_ecdhe_rsa_with_aes_128_cbc_sha;
    s2n_ecdhe_ecdsa_with_aes_128_cbc_sha256;
    s2n_ecdhe_rsa_with_aes_128_cbc_sha256;
    s2n_ecdhe_ecdsa_with_aes_256_cbc_sha;
    s2n_ecdhe_rsa_with_aes_256_cbc_sha;
    s2n_ecdhe_ecdsa_with_aes_256_cbc_sha384;
    s2n_ecdhe_rsa_with_aes_256_cbc_sha384;
    s2n_rsa_with_aes_128_gcm_sha256;
    s2n_rsa_with_aes_256_gcm_sha384;
    s2n_rsa_with_aes_128_cbc_sha;
    s2n_rsa_with_aes_128_cbc_sha256;
    s2n_rsa_with_aes_256_cbc_sha;
    s2n_rsa_with_aes_256_cbc_sha256;
    s2n_rsa_with_3des_ede_cbc_sha;
    s2n_dhe_rsa_with_aes_128_gcm_sha256;
    s2n_dhe_rsa_with_aes_256_gcm_sha384;
    s2n_dhe_rsa_with_aes_128_cbc_sha;
    s2n_dhe_rsa_with_aes_128_cbc_sha256;
    s2n_dhe_rsa_with_aes_256_cbc_sha;
    s2n_dhe_rsa_with_aes_256_cbc_sha256 ].

Definition cipher_preferences_20210825_gcm : s2n_cipher_preferences := {|
  suites := cipher_suites_20210825_gcm;
  allow_chacha20_boosting := false;
|}.

Definition cipher_suites_20241008 : list s2n_cipher_suite :=
  S2N_TLS13_CLOUDFRONT_CIPHER_SUITES_20200716 ++
  [ s2n_ecdhe_ecdsa_with_aes_128_cbc_sha;
    s2n_ecdhe_rsa_with_aes_128_cbc_sha;
    s2n_ecdhe_ecdsa_with_aes_128_gcm_sha256;
    s2n_ecdhe_rsa_with_aes_128_gcm_sha256;
    s2n_ecdhe_ecdsa_with_aes_256_gcm_sha384;
    s2n_ecdhe_rsa_with_aes_256_gcm_sha384;
    s2n_ecdhe_ecdsa_with_aes_128_cbc_sha256;
    s2n_ecdhe_rsa_with_aes_128_cbc_sha256;
    s2n_ecdhe_ecdsa_with_aes_256_cbc_sha;
    s2n_ecdhe_rsa_with_aes_256_cbc_sha;
    s2n_ecdhe_ecdsa_with_aes_256_cbc_sha384;
    s2n_ecdhe_rsa_with_aes_256_cbc_sha384;
    s2n_rsa_with_aes_128_cbc_sha;
    s2n_rsa_with_aes_128_gcm_sha256;
    s2n_rsa_with_aes_256_gcm_sha384;
    s2n_rsa_with_aes_128_cbc_sha256;
    s2n_rsa_with_aes_256_cbc_sha;
    s2n_rsa_with_aes_256_cbc_sha256;
    s2n_dhe_rsa_with_aes_128_cbc_sha;
    s2n_dhe_rsa_with_aes_128_gcm_sha256;
    s2n_dhe_rsa_with_aes_256_gcm_sha384;
    s2n_dhe_rsa_with_aes_128_cbc_sha256;
    s2n_dhe_rsa_with_aes_256_cbc_sha;
    s2n_dhe_rsa_with_aes_256_cbc_sha256 ].

Definition cipher_preferences_20241008 : s2n_cipher_preferences := {|
  suites := cipher_suites_20241008;
  allow_chacha20_boosting := false;
|}.

Definition cipher_suites_20241008_gcm : list s2n_cipher_suite :=
  S2N_TLS13_CLOUDFRONT_CIPHER_SUITES_20200716 ++
  [ s2n_ecdhe_ecdsa_with_aes_128_gcm_sha256;
    s2n_ecdhe_rsa_with_aes_128_gcm_sha256;
    s2n_ecdhe_ecdsa_with_aes_256_gcm_sha384;
    s2n_ecdhe_rsa_with_aes_256_gcm_sha384;
    s2n_ecdhe_ecdsa_with_aes_128_cbc_sha;
    s2n_ecdhe_rsa_with_aes_128_cbc_sha;
    s2n_ecdhe_ecdsa_with_aes_128_cbc_sha256;
    s2n_ecdhe_rsa_with_aes_128_cbc_sha256;
    s2n_ecdhe_ecdsa_with_aes_256_cbc_sha;
    s2n_ecdhe_rsa_with_aes_256_cbc_sha;
    s2n_ecdhe_ecdsa_with_aes_256_cbc_sha384;
    s2n_ecdhe_rsa_with_aes_256_cbc_sha384;
    s2n_rsa_with_aes_128_gcm_sha256;
    s2n_rsa_with_aes_256_gcm_sha384;
    s2n_rsa_with_aes_128_cbc_sha;
    s2n_rsa_with_aes_128_cbc_sha256;
    s2n_rsa_with_aes_256_cbc_sha;
    s2n_rsa_with_aes_256_cbc_sha256;
    s2n_dhe_rsa_with_aes_128_gcm_sha256;
    s2n_dhe_rsa_with_aes_256_gcm_sha384;
    s2n_dhe_rsa_with_aes_128_cbc_sha;
    s2n_dhe_rsa_with_aes_128_cbc_sha256;
    s2n_dhe_rsa_with_aes_256_cbc_sha;
    s2n_dhe_rsa_with_aes_256_cbc_sha256 ].

Definition cipher_preferences_20241008_gcm : s2n_cipher_preferences := {|
  suites := cipher_suites_20241008_gcm;
  allow_chacha20_boosting := false;
|}.

Definition cipher_suites_20241009 : list s2n_cipher_suite :=
  S2N_TLS13_CIPHER_SUITES_20190801 ++
  [ s2n_ecdhe_rsa_with_aes_256_gcm_sha384;
    s2n_ecdhe_rsa_with_aes_128_gcm_sha256;
    s2n_ecdhe_rsa_with_aes_256_cbc_sha384;
    s2n_ecdhe_rsa_with_aes_256_cbc_sha;
    s2n_ecdhe_rsa_with_aes_128_cbc_sha256;
    s2n_dhe_rsa_with_aes_256_cbc_sha256;
    s2n_dhe_rsa_with_aes_128_cbc_sha256;
    s2n_dhe_rsa_with_aes_256_cbc_sha;
    s2n_dhe_rsa_with_aes_128_cbc_sha ].

Definition cipher_preferences_20241009 : s2n_cipher_preferences := {|
  suites := cipher_suites_20241009;
  allow_chacha20_boosting := false;
|}.

Definition cipher_suites_null : list s2n_cipher_suite :=
  [ s2n_null_cipher_suite ].

Definition cipher_preferences_null : s2n_cipher_preferences := {|
  suites := cipher_suites_null;
  allow_chacha20_boosting := false;
|}.

Definition cipher_suites_20170328 : list s2n_cipher_suite :=
  [ s2n_ecdhe_rsa_with_aes_128_cbc_sha;
    s2n_ecdhe_rsa_with_aes_128_gcm_sha256;
    s2n_ecdhe_rsa_with_aes_256_gcm_sha384;
    s2n_ecdhe_rsa_with_aes_128_cbc_sha256;
    s2n_ecdhe_rsa_with_aes_256_cbc_sha;
    s2n_ecdhe_rsa_with_aes_256_cbc_sha384;
    s2n_rsa_with_aes_128_cbc_sha;
    s2n_rsa_with_aes_128_gcm_sha256;
    s2n_rsa_with_aes_256_gcm_sha384;
    s2n_rsa_with_aes_128_cbc_sha256;
    s2n_rsa_with_aes_256_cbc_sha;
    s2n_rsa_with_aes_256_cbc_sha256;
    s2n_rsa_with_3des_ede_cbc_sha;
    s2n_dhe_rsa_with_aes_128_cbc_sha;
    s2n_dhe_rsa_with_aes_128_gcm_sha256;
    s2n_dhe_rsa_with_aes_256_gcm_sha384;
    s2n_dhe_rsa_with_aes_128_cbc_sha256;
    s2n_dhe_rsa_with_aes_256_cbc_sha;
    s2n_dhe_rsa_with_aes_256_cbc_sha256 ].

Definition cipher_preferences_20170328 : s2n_cipher_preferences := {|
  suites := cipher_suites_20170328;
  allow_chacha20_boosting := false;
|}.

Definition cipher_suites_20170328_gcm : list s2n_cipher_suite :=
  [ s2n_ecdhe_rsa_with_aes_128_gcm_sha256;
    s2n_ecdhe_rsa_with_aes_256_gcm_sha384;
    s2n_ecdhe_rsa_with_aes_128_cbc_sha;
    s2n_ecdhe_rsa_with_aes_128_cbc_sha256;
    s2n_ecdhe_rsa_with_aes_256_cbc_sha;
    s2n_ecdhe_rsa_with_aes_256_cbc_sha384;
    s2n_rsa_with_aes_128_gcm_sha256;
    s2n_rsa_with_aes_256_gcm_sha384;
    s2n_rsa_with_aes_128_cbc_sha;
    s2n_rsa_with_aes_128_cbc_sha256;
    s2n_rsa_with_aes_256_cbc_sha;
    s2n_rsa_with_aes_256_cbc_sha256;
    s2n_rsa_with_3des_ede_cbc_sha;
    s2n_dhe_rsa_with_aes_128_gcm_sha256;
    s2n_dhe_rsa_with_aes_256_gcm_sha384;
    s2n_dhe_rsa_with_aes_128_cbc_sha;
    s2n_dhe_rsa_with_aes_128_cbc_sha256;
    s2n_dhe_rsa_with_aes_256_cbc_sha;
    s2n_dhe_rsa_with_aes_256_cbc_sha256 ].

Definition cipher_preferences_20170328_gcm : s2n_cipher_preferences := {|
  suites := cipher_suites_20170328_gcm;
  allow_chacha20_boosting := false;
|}.

Definition cipher_suites_20170405 : list s2n_cipher_suite :=
  [ s2n_ecdhe_rsa_with_aes_128_cbc_sha256;
    s2n_ecdhe_rsa_with_aes_256_cbc_sha384;
    s2n_ecdhe_rsa_with_aes_128_gcm_sha256;
    s2n_ecdhe_rsa_with_aes_256_gcm_sha384;
    s2n_rsa_with_aes_128_cbc_sha;
    s2n_rsa_with_aes_128_gcm_sha256;
    s2n_rsa_with_aes_256_gcm_sha384;
    s2n_rsa_with_aes_128_cbc_sha256;
    s2n_rsa_with_aes_256_cbc_sha;
    s2n_rsa_with_aes_256_cbc_sha256;
    s2n_rsa_with_3des_ede_cbc_sha ].

Definition cipher_preferences_20170405 : s2n_cipher_preferences := {|
  suites := cipher_suites_20170405;
  allow_chacha20_boosting := false;
|}.

Definition cipher_suites_20170405_gcm : list s2n_cipher_suite :=
  [ s2n_ecdhe_rsa_with_aes_128_gcm_sha256;
    s2n_ecdhe_rsa_with_aes_256_gcm_sha384;
    s2n_ecdhe_rsa_with_aes_128_cbc_sha256;
    s2n_ecdhe_rsa_with_aes_256_cbc_sha384;
    s2n_rsa_with_aes_128_gcm_sha256;
    s2n_rsa_with_aes_256_gcm_sha384;
    s2n_rsa_with_aes_128_cbc_sha;
    s2n_rsa_with_aes_128_cbc_sha256;
    s2n_rsa_with_aes_256_cbc_sha;
    s2n_rsa_with_aes_256_cbc_sha256;
    s2n_rsa_with_3des_ede_cbc_sha ].

Definition cipher_preferences_20170405_gcm : s2n_cipher_preferences := {|
  suites := cipher_suites_20170405_gcm;
  allow_chacha20_boosting := false;
|}.

Definition cipher_suites_20170718 : list s2n_cipher_suite :=
  [ s2n_ecdhe_rsa_with_aes_128_cbc_sha;
    s2n_ecdhe_rsa_with_aes_128_gcm_sha256;
    s2n_ecdhe_rsa_with_aes_256_gcm_sha384;
    s2n_ecdhe_rsa_with_aes_128_cbc_sha256;
    s2n_ecdhe_rsa_with_aes_256_cbc_sha;
    s2n_ecdhe_rsa_with_aes_256_cbc_sha384;
    s2n_rsa_with_aes_128_cbc_sha;
    s2n_rsa_with_aes_128_gcm_sha256;
    s2n_rsa_with_aes_256_gcm_sha384;
    s2n_rsa_with_aes_128_cbc_sha256;
    s2n_rsa_with_aes_256_cbc_sha;
    s2n_rsa_with_aes_256_cbc_sha256 ].

Definition cipher_preferences_20170718 : s2n_cipher_preferences := {|
  suites := cipher_suites_20170718;
  allow_chacha20_boosting := false;
|}.

Definition cipher_suites_20170718_gcm : list s2n_cipher_suite :=
  [ s2n_ecdhe_rsa_with_aes_128_gcm_sha256;
    s2n_ecdhe_rsa_with_aes_256_gcm_sha384;
    s2n_ecdhe_rsa_with_aes_128_cbc_sha;
    s2n_ecdhe_rsa_with_aes_128_cbc_sha256;
    s2n_ecdhe_rsa_with_aes_256_cbc_sha;
    s2n_ecdhe_rsa_with_aes_256_cbc_sha384;
    s2n_rsa_with_aes_128_gcm_sha256;
    s2n_rsa_with_aes_256_gcm_sha384;
    s2n_rsa_with_aes_128_cbc_sha;
    s2n_rsa_with_aes_128_cbc_sha256;
    s2n_rsa_with_aes_256_cbc_sha;
    s2n_rsa_with_aes_256_cbc_sha256 ].

Definition cipher_preferences_20170718_gcm : s2n_cipher_preferences := {|
  suites := cipher_suites_20170718_gcm;
  allow_chacha20_boosting := false;
|}.

Definition cipher_suites_elb_security_policy_2015_04 : list s2n_cipher_suite :=
  [ s2n_ecdhe_ecdsa_with_aes_128_gcm_sha256;
    s2n_ecdhe_rsa_with_aes_128_gcm_sha256;
    s2n_ecdhe_ecdsa_with_aes_128_cbc_sha256;
    s2n_ecdhe_rsa_with_aes_128_cbc_sha256;
    s2n_ecdhe_ecdsa_with_aes_128_cbc_sha;
    s2n_ecdhe_rsa_with_aes_128_cbc_sha;
    s2n_ecdhe_ecdsa_with_aes_256_gcm_sha384;
    s2n_ecdhe_rsa_with_aes_256_gcm_sha384;
    s2n_ecdhe_ecdsa_with_aes_256_cbc_sha384;
    s2n_ecdhe_rsa_with_aes_256_cbc_sha384;
    s2n_ecdhe_rsa_with_aes_256_cbc_sha;
    s2n_ecdhe_ecdsa_with_aes_256_cbc_sha;
    s2n_rsa_with_aes_128_gcm_sha256;
    s2n_rsa_with_aes_128_cbc_sha256;
    s2n_rsa_with_aes_128_cbc_sha;
    s2n_rsa_with_aes_256_gcm_sha384;
    s2n_rsa_with_aes_256_cbc_sha256;
    s2n_rsa_with_aes_256_cbc_sha;
    s2n_rsa_with_3des_ede_cbc_sha ].

Definition elb_security_policy_2015_04 : s2n_cipher_preferences := {|
  suites := cipher_suites_elb_security_policy_2015_04;
  allow_chacha20_boosting := false;
|}.

Definition cipher_suites_elb_security_policy_2016_08 : list s2n_cipher_suite :=
  [ s2n_ecdhe_ecdsa_with_aes_128_gcm_sha256;
    s2n_ecdhe_rsa_with_aes_128_gcm_sha256;
    s2n_ecdhe_ecdsa_with_aes_128_cbc_sha256;
    s2n_ecdhe_rsa_with_aes_128_cbc_sha256;
    s2n_ecdhe_ecdsa_with_aes_128_cbc_sha;
    s2n_ecdhe_rsa_with_aes_128_cbc_sha;
    s2n_ecdhe_ecdsa_with_aes_256_gcm_sha384;
    s2n_ecdhe_rsa_with_aes_256_gcm_sha384;
    s2n_ecdhe_ecdsa_with_aes_256_cbc_sha384;
    s2n_ecdhe_rsa_with_aes_256_cbc_sha384;
    s2n_ecdhe_rsa_with_aes_256_cbc_sha;
    s2n_ecdhe_ecdsa_with_aes_256_cbc_sha;
    s2n_rsa_with_aes_128_gcm_sha256;
    s2n_rsa_with_aes_128_cbc_sha256;
    s2n_rsa_with_aes_128_cbc_sha;
    s2n_rsa_with_aes_256_gcm_sha384;
    s2n_rsa_with_aes_256_cbc_sha256;
    s2n_rsa_with_aes_256_cbc_sha ].

Definition elb_security_policy_2016_08 : s2n_cipher_preferences := {|
  suites := cipher_suites_elb_security_policy_2016_08;
  allow_chacha20_boosting := false;
|}.

Definition cipher_suites_elb_security_policy_tls_1_2_2017_01 : list s2n_cipher_suite :=
  [ s2n_ecdhe_ecdsa_with_aes_128_gcm_sha256;
    s2n_ecdhe_rsa_with_aes_128_gcm_sha256;
    s2n_ecdhe_ecdsa_with_aes_128_cbc_sha256;
    s2n_ecdhe_rsa_with_aes_128_cbc_sha256;
    s2n_ecdhe_ecdsa_with_aes_256_gcm_sha384;
    s2n_ecdhe_rsa_with_aes_256_gcm_sha384;
    s2n_ecdhe_ecdsa_with_aes_256_cbc_sha384;
    s2n_ecdhe_rsa_with_aes_256_cbc_sha384;
    s2n_rsa_with_aes_128_gcm_sha256;
    s2n_rsa_with_aes_128_cbc_sha256;
    s2n_rsa_with_aes_256_gcm_sha384;
    s2n_rsa_with_aes_256_cbc_sha256 ].

Definition elb_security_policy_tls_1_2_2017_01 : s2n_cipher_preferences := {|
  suites := cipher_suites_elb_security_policy_tls_1_2_2017_01;
  allow_chacha20_boosting := false;
|}.

Definition cipher_suites_elb_security_policy_tls_1_1_2017_01 : list s2n_cipher_suite :=
  [ s2n_ecdhe_ecdsa_with_aes_128_gcm_sha256;
    s2n_ecdhe_rsa_with_aes_128_gcm_sha256;
    s2n_ecdhe_ecdsa_with_aes_128_cbc_sha256;
    s2n_ecdhe_rsa_with_aes_128_cbc_sha256;
    s2n_ecdhe_ecdsa_with_aes_128_cbc_sha;
    s2n_ecdhe_rsa_with_aes_128_cbc_sha;
    s2n_ecdhe_ecdsa_with_aes_256_gcm_sha384;
    s2n_ecdhe_rsa_with_aes_256_gcm_sha384;
    s2n_ecdhe_ecdsa_with_aes_256_cbc_sha384;
    s2n_ecdhe_rsa_with_aes_256_cbc_sha384;
    s2n_ecdhe_rsa_with_aes_256_cbc_sha;
    s2n_ecdhe_ecdsa_with_aes_256_cbc_sha;
    s2n_rsa_with_aes_128_gcm_sha256;
    s2n_rsa_with_aes_128_cbc_sha256;
    s2n_rsa_with_aes_128_cbc_sha;
    s2n_rsa_with_aes_256_gcm_sha384;
    s2n_rsa_with_aes_256_cbc_sha256;
    s2n_rsa_with_aes_256_cbc_sha ].

Definition elb_security_policy_tls_1_1_2017_01 : s2n_cipher_preferences := {|
  suites := cipher_suites_elb_security_policy_tls_1_1_2017_01;
  allow_chacha20_boosting := false;
|}.

Definition cipher_suites_elb_security_policy_tls_1_2_ext_2018_06 : list s2n_cipher_suite :=
  [ s2n_ecdhe_ecdsa_with_aes_128_gcm_sha256;
    s2n_ecdhe_rsa_with_aes_128_gcm_sha256;
    s2n_ecdhe_ecdsa_with_aes_128_cbc_sha256;
    s2n_ecdhe_rsa_with_aes_128_cbc_sha256;
    s2n_ecdhe_ecdsa_with_aes_128_cbc_sha;
    s2n_ecdhe_rsa_with_aes_128_cbc_sha;
    s2n_ecdhe_ecdsa_with_aes_256_gcm_sha384;
    s2n_ecdhe_rsa_with_aes_256_gcm_sha384;
    s2n_ecdhe_ecdsa_with_aes_256_cbc_sha384;
    s2n_ecdhe_rsa_with_aes_256_cbc_sha384;
    s2n_ecdhe_rsa_with_aes_256_cbc_sha;
    s2n_ecdhe_ecdsa_with_aes_256_cbc_sha;
    s2n_rsa_with_aes_128_gcm_sha256;
    s2n_rsa_with_aes_128_cbc_sha256;
    s2n_rsa_with_aes_128_cbc_sha;
    s2n_rsa_with_aes_256_gcm_sha384;
    s2n_rsa_with_aes_256_cbc_sha256;
    s2n_rsa_with_aes_256_cbc_sha ].

Definition elb_security_policy_tls_1_2_ext_2018_06 : s2n_cipher_preferences := {|
  suites := cipher_suites_elb_security_policy_tls_1_2_ext_2018_06;
  allow_chacha20_boosting := false;
|}.

Definition cipher_suites_elb_security_policy_fs_2018_06 : list s2n_cipher_suite :=
  [ s2n_ecdhe_ecdsa_with_aes_128_gcm_sha256;
    s2n_ecdhe_rsa_with_aes_128_gcm_sha256;
    s2n_ecdhe_ecdsa_with_aes_128_cbc_sha256;
    s2n_ecdhe_rsa_with_aes_128_cbc_sha256;
    s2n_ecdhe_ecdsa_with_aes_128_cbc_sha;
    s2n_ecdhe_rsa_with_aes_128_cbc_sha;
    s2n_ecdhe_ecdsa_with_aes_256_gcm_sha384;
    s2n_ecdhe_rsa_with_aes_256_gcm_sha384;
    s2n_ecdhe_ecdsa_with_aes_256_cbc_sha384;
    s2n_ecdhe_rsa_with_aes_256_cbc_sha384;
    s2n_ecdhe_rsa_with_aes_256_cbc_sha;
    s2n_ecdhe_ecdsa_with_aes_256_cbc_sha ].

Definition elb_security_policy_fs_2018_06 : s2n_cipher_preferences := {|
  suites := cipher_suites_elb_security_policy_fs_2018_06;
  allow_chacha20_boosting := false;
|}.

Definition cipher_suites_elb_security_policy_fs_1_2_2019_08 : list s2n_cipher_suite :=
  [ s2n_ecdhe_ecdsa_with_aes_128_gcm_sha256;
    s2n_ecdhe_rsa_with_aes_128_gcm_sha256;
    s2n_ecdhe_ecdsa_with_aes_128_cbc_sha256;
    s2n_ecdhe_rsa_with_aes_128_cbc_sha256;
    s2n_ecdhe_ecdsa_with_aes_128_cbc_sha;
    s2n_ecdhe_rsa_with_aes_128_cbc_sha;
    s2n_ecdhe_ecdsa_with_aes_256_gcm_sha384;
    s2n_ecdhe_rsa_with_aes_256_gcm_sha384;
    s2n_ecdhe_ecdsa_with_aes_256_cbc_sha384;
    s2n_ecdhe_rsa_with_aes_256_cbc_sha384;
    s2n_ecdhe_rsa_with_aes_256_cbc_sha;
    s2n_ecdhe_ecdsa_with_aes_256_cbc_sha ].

Definition elb_security_policy_fs_1_2_2019_08 : s2n_cipher_preferences := {|
  suites := cipher_suites_elb_security_policy_fs_1_2_2019_08;
  allow_chacha20_boosting := false;
|}.

Definition cipher_suites_elb_security_policy_fs_1_1_2019_08 : list s2n_cipher_suite :=
  [ s2n_ecdhe_ecdsa_with_aes_128_gcm_sha256;
    s2n_ecdhe_rsa_with_aes_128_gcm_sha256;
    s2n_ecdhe_ecdsa_with_aes_128_cbc_sha256;
    s2n_ecdhe_rsa_with_aes_128_cbc_sha256;
    s2n_ecdhe_ecdsa_with_aes_128_cbc_sha;
    s2n_ecdhe_rsa_with_aes_128_cbc_sha;
    s2n_ecdhe_ecdsa_with_aes_256_gcm_sha384;
    s2n_ecdhe_rsa_with_aes_256_gcm_sha384;
    s2n_ecdhe_ecdsa_with_aes_256_cbc_sha384;
    s2n_ecdhe_rsa_with_aes_256_cbc_sha384;
    s2n_ecdhe_rsa_with_aes_256_cbc_sha;
    s2n_ecdhe_ecdsa_with_aes_256_cbc_sha ].

Definition elb_security_policy_fs_1_1_2019_08 : s2n_cipher_preferences := {|
  suites := cipher_suites_elb_security_policy_fs_1_1_2019_08;
  allow_chacha20_boosting := false;
|}.

Definition cipher_suites_elb_security_policy_fs_1_2_Res_2019_08 : list s2n_cipher_suite :=
  [ s2n_ecdhe_ecdsa_with_aes_128_gcm_sha256;
    s2n_ecdhe_rsa_with_aes_128_gcm_sha256;
    s2n_ecdhe_ecdsa_with_aes_128_cbc_sha256;
    s2n_ecdhe_rsa_with_aes_128_cbc_sha256;
    s2n_ecdhe_ecdsa_with_aes_256_gcm_sha384;
    s2n_ecdhe_rsa_with_aes_256_gcm_sha384;
    s2n_ecdhe_ecdsa_with_aes_256_cbc_sha384;
    s2n_ecdhe_rsa_with_aes_256_cbc_sha384 ].

Definition elb_security_policy_fs_1_2_Res_2019_08 : s2n_cipher_preferences := {|
  suites := cipher_suites_elb_security_policy_fs_1_2_Res_2019_08;
  allow_chacha20_boosting := false;
|}.

Definition cipher_suites_elb_security_policy_tls13_1_2_Ext2_2021_06 : list s2n_cipher_suite :=
  S2N_TLS13_CLOUDFRONT_CIPHER_SUITES_20200716 ++
  [ s2n_ecdhe_ecdsa_with_aes_128_gcm_sha256;
    s2n_ecdhe_rsa_with_aes_128_gcm_sha256;
    s2n_ecdhe_ecdsa_with_aes_128_cbc_sha256;
    s2n_ecdhe_rsa_with_aes_128_cbc_sha256;
    s2n_ecdhe_ecdsa_with_aes_128_cbc_sha;
    s2n_ecdhe_rsa_with_aes_128_cbc_sha;
    s2n_ecdhe_ecdsa_with_aes_256_gcm_sha384;
    s2n_ecdhe_rsa_with_aes_256_gcm_sha384;
    s2n_ecdhe_ecdsa_with_aes_256_cbc_sha384;
    s2n_ecdhe_rsa_with_aes_256_cbc_sha384;
    s2n_ecdhe_rsa_with_aes_256_cbc_sha;
    s2n_ecdhe_ecdsa_with_aes_256_cbc_sha;
    s2n_rsa_with_aes_128_gcm_sha256;
    s2n_rsa_with_aes_128_cbc_sha256;
    s2n_rsa_with_aes_128_cbc_sha;
    s2n_rsa_with_aes_256_gcm_sha384;
    s2n_rsa_with_aes_256_cbc_sha256;
    s2n_rsa_with_aes_256_cbc_sha ].

Definition elb_security_policy_tls13_1_2_Ext2_2021_06 : s2n_cipher_preferences := {|
  suites := cipher_suites_elb_security_policy_tls13_1_2_Ext2_2021_06;
  allow_chacha20_boosting := false;
|}.

Definition cipher_suites_cloudfront_upstream : list s2n_cipher_suite :=
  [ s2n_ecdhe_ecdsa_with_aes_256_gcm_sha384;
    s2n_ecdhe_rsa_with_aes_256_gcm_sha384;
    s2n_ecdhe_ecdsa_with_aes_128_gcm_sha256;
    s2n_ecdhe_rsa_with_aes_128_gcm_sha256;
    s2n_ecdhe_ecdsa_with_aes_256_cbc_sha384;
    s2n_ecdhe_rsa_with_aes_256_cbc_sha384;
    s2n_ecdhe_ecdsa_with_aes_256_cbc_sha;
    s2n_ecdhe_rsa_with_aes_256_cbc_sha;
    s2n_ecdhe_ecdsa_with_aes_128_cbc_sha256;
    s2n_ecdhe_rsa_with_aes_128_cbc_sha256;
    s2n_ecdhe_ecdsa_with_aes_128_cbc_sha;
    s2n_ecdhe_rsa_with_aes_128_cbc_sha;
    s2n_rsa_with_aes_256_gcm_sha384;
    s2n_rsa_with_aes_128_gcm_sha256;
    s2n_rsa_with_aes_256_cbc_sha;
    s2n_rsa_with_aes_128_cbc_sha256;
    s2n_rsa_with_aes_128_cbc_sha;
    s2n_rsa_with_3des_ede_cbc_sha;
    s2n_rsa_with_rc4_128_md5 ].

Definition cipher_preferences_cloudfront_upstream : s2n_cipher_preferences := {|
  suites := cipher_suites_cloudfront_upstream;
  allow_chacha20_boosting := false;
|}.

Definition cipher_suites_cloudfront_ssl_v_3 : list s2n_cipher_suite :=
  S2N_TLS13_CLOUDFRONT_CIPHER_SUITES_20200716 ++
  [ s2n_ecdhe_rsa_with_aes_128_gcm_sha256;
    s2n_ecdhe_rsa_with_aes_128_cbc_sha256;
    s2n_ecdhe_rsa_with_aes_128_cbc_sha;
    s2n_ecdhe_rsa_with_aes_256_gcm_sha384;
    s2n_ecdhe_rsa_with_chacha20_poly1305_sha256;
    s2n_ecdhe_rsa_with_aes_256_cbc_sha384;
    s2n_ecdhe_rsa_with_aes_256_cbc_sha;
    s2n_rsa_with_aes_128_gcm_sha256;
    s2n_rsa_with_aes_256_gcm_sha384;
    s2n_rsa_with_aes_128_cbc_sha256;
    s2n_rsa_with_aes_256_cbc_sha;
    s2n_rsa_with_aes_128_cbc_sha;
    s2n_rsa_with_3des_ede_cbc_sha;
    s2n_rsa_with_rc4_128_md5 ].

Definition cipher_preferences_cloudfront_ssl_v_3 : s2n_cipher_preferences := {|
  suites := cipher_suites_cloudfront_ssl_v_3;
  allow_chacha20_boosting := false;
|}.

Definition cipher_suites_cloudfront_tls_1_0_2014 : list s2n_cipher_suite :=
  S2N_TLS13_CLOUDFRONT_CIPHER_SUITES_20200716 ++
  [ s2n_ecdhe_ecdsa_with_aes_128_gcm_sha256;
    s2n_ecdhe_rsa_with_aes_128_gcm_sha256;
    s2n_ecdhe_ecdsa_with_aes_128_cbc_sha256;
    s2n_ecdhe_rsa_with_aes_128_cbc_sha256;
    s2n_ecdhe_ecdsa_with_aes_128_cbc_sha;
    s2n_ecdhe_rsa_with_aes_128_cbc_sha;
    s2n_ecdhe_ecdsa_with_aes_256_gcm_sha384;
    s2n_ecdhe_rsa_with_aes_256_gcm_sha384;
    s2n_ecdhe_ecdsa_with_chacha20_poly1305_sha256;
    s2n_ecdhe_rsa_with_chacha20_poly1305_sha256;
    s2n_ecdhe_ecdsa_with_aes_256_cbc_sha384;
    s2n_ecdhe_rsa_with_aes_256_cbc_sha384;
    s2n_ecdhe_ecdsa_with_aes_256_cbc_sha;
    s2n_ecdhe_rsa_with_aes_256_cbc_sha;
    s2n_rsa_with_aes_128_gcm_sha256;
    s2n_rsa_with_aes_256_gcm_sha384;
    s2n_rsa_with_aes_128_cbc_sha256;
    s2n_rsa_with_aes_256_cbc_sha;
    s2n_rsa_with_aes_128_cbc_sha;
    s2n_rsa_with_3des_ede_cbc_sha ].

Definition cipher_preferences_cloudfront_tls_1_0_2014 : s2n_cipher_preferences := {|
  suites := cipher_suites_cloudfront_tls_1_0_2014;
  allow_chacha20_boosting := false;
|}.

Definition cipher_suites_cloudfront_tls_1_0_2016 : list s2n_cipher_suite :=
  S2N_TLS13_CLOUDFRONT_CIPHER_SUITES_20200716 ++
  [ s2n_ecdhe_ecdsa_with_aes_128_gcm_sha256;
    s2n_ecdhe_rsa_with_aes_128_gcm_sha256;
    s2n_ecdhe_ecdsa_with_aes_128_cbc_sha256;
    s2n_ecdhe_rsa_with_aes_128_cbc_sha256;
    s2n_ecdhe_ecdsa_with_aes_128_cbc_sha;
    s2n_ecdhe_rsa_with_aes_128_cbc_sha;
    s2n_ecdhe_ecdsa_with_aes_256_gcm_sha384;
    s2n_ecdhe_rsa_with_aes_256_gcm_sha384;
    s2n_ecdhe_ecdsa_with_chacha20_poly1305_sha256;
    s2n_ecdhe_rsa_with_chacha20_poly1305_sha256;
    s2n_ecdhe_ecdsa_with_aes_256_cbc_sha384;
    s2n_ecdhe_rsa_with_aes_256_cbc_sha384;
    s2n_ecdhe_ecdsa_with_aes_256_cbc_sha;
    s2n_ecdhe_rsa_with_aes_256_cbc_sha;
    s2n_rsa_with_aes_128_gcm_sha256;
    s2n_rsa_with_aes_256_gcm_sha384;
    s2n_rsa_with_aes_128_cbc_sha256;
    s2n_rsa_with_aes_256_cbc_sha;
    s2n_rsa_with_aes_128_cbc_sha ].

Definition cipher_preferences_cloudfront_tls_1_0_2016 : s2n_cipher_preferences := {|
  suites := cipher_suites_cloudfront_tls_1_0_2016;
  allow_chacha20_boosting := false;
|}.

Definition cipher_suites_cloudfront_tls_1_1_2016 : list s2n_cipher_suite :=
  S2N_TLS13_CLOUDFRONT_CIPHER_SUITES_20200716 ++
  [ s2n_ecdhe_ecdsa_with_aes_128_gcm_sha256;
    s2n_ecdhe_rsa_with_aes_128_gcm_sha256;
    s2n_ecdhe_ecdsa_with_aes_128_cbc_sha256;
    s2n_ecdhe_rsa_with_aes_128_cbc_sha256;
    s2n_ecdhe_ecdsa_with_aes_128_cbc_sha;
    s2n_ecdhe_rsa_with_aes_128_cbc_sha;
    s2n_ecdhe_ecdsa_with_aes_256_gcm_sha384;
    s2n_ecdhe_rsa_with_aes_256_gcm_sha384;
    s2n_ecdhe_ecdsa_with_chacha20_poly1305_sha256;
    s2n_ecdhe_rsa_with_chacha20_poly1305_sha256;
    s2n_ecdhe_ecdsa_with_aes_256_cbc_sha384;
    s2n_ecdhe_rsa_with_aes_256_cbc_sha384;
    s2n_ecdhe_ecdsa_with_aes_256_cbc_sha;
    s2n_ecdhe_rsa_with_aes_256_cbc_sha;
    s2n_rsa_with_aes_128_gcm_sha256;
    s2n_rsa_with_aes_256_gcm_sha384;
    s2n_rsa_with_aes_128_cbc_sha256;
    s2n_rsa_with_aes_256_cbc_sha;
    s2n_rsa_with_aes_128_cbc_sha ].

Definition cipher_preferences_cloudfront_tls_1_1_2016 : s2n_cipher_preferences := {|
  suites := cipher_suites_cloudfront_tls_1_1_2016;
  allow_chacha20_boosting := false;
|}.

Definition cipher_suites_cloudfront_tls_1_2_2017 : list s2n_cipher_suite :=
  S2N_TLS13_CLOUDFRONT_CIPHER_SUITES_20200716 ++
  [ s2n_ecdhe_ecdsa_with_aes_128_gcm_sha256;
    s2n_ecdhe_rsa_with_aes_128_gcm_sha256;
    s2n_ecdhe_ecdsa_with_aes_128_cbc_sha256;
    s2n_ecdhe_rsa_with_aes_128_cbc_sha256;
    s2n_ecdhe_ecdsa_with_aes_256_gcm_sha384;
    s2n_ecdhe_rsa_with_aes_256_gcm_sha384;
    s2n_ecdhe_ecdsa_with_chacha20_poly1305_sha256;
    s2n_ecdhe_rsa_with_chacha20_poly1305_sha256;
    s2n_ecdhe_ecdsa_with_aes_256_cbc_sha384;
    s2n_ecdhe_rsa_with_aes_256_cbc_sha384;
    s2n_ecdhe_ecdsa_with_aes_256_cbc_sha;
    s2n_ecdhe_rsa_with_aes_256_cbc_sha;
    s2n_ecdhe_ecdsa_with_aes_128_cbc_sha;
    s2n_ecdhe_rsa_with_aes_128_cbc_sha;
    s2n_rsa_with_aes_128_gcm_sha256;
    s2n_rsa_with_aes_256_gcm_sha384;
    s2n_rsa_with_aes_128_cbc_sha256 ].

Definition cipher_preferences_cloudfront_tls_1_2_2017 : s2n_cipher_preferences := {|
  suites := cipher_suites_cloudfront_tls_1_2_2017;
  allow_chacha20_boosting := false;
|}.

Definition cipher_suites_cloudfront_tls_1_2_2018 : list s2n_cipher_suite :=
  S2N_TLS13_CLOUDFRONT_CIPHER_SUITES_20200716 ++
  [ s2n_ecdhe_ecdsa_with_aes_128_gcm_sha256;
    s2n_ecdhe_rsa_with_aes_128_gcm_sha256;
    s2n_ecdhe_ecdsa_with_aes_128_cbc_sha256;
    s2n_ecdhe_rsa_with_aes_128_cbc_sha256;
    s2n_ecdhe_ecdsa_with_aes_256_gcm_sha384;
    s2n_ecdhe_rsa_with_aes_256_gcm_sha384;
    s2n_ecdhe_ecdsa_with_chacha20_poly1305_sha256;
    s2n_ecdhe_rsa_with_chacha20_poly1305_sha256;
    s2n_ecdhe_ecdsa_with_aes_256_cbc_sha384;
    s2n_ecdhe_rsa_with_aes_256_cbc_sha384;
    s2n_rsa_with_aes_128_gcm_sha256;
    s2n_rsa_with_aes_256_gcm_sha384;
    s2n_rsa_with_aes_128_cbc_sha256 ].

Definition cipher_preferences_cloudfront_tls_1_2_2018 : s2n_cipher_preferences := {|
  suites := cipher_suites_cloudfront_tls_1_2_2018;
  allow_chacha20_boosting := false;
|}.

Definition cipher_suites_cloudfront_ssl_v_3_legacy : list s2n_cipher_suite :=
  [ s2n_ecdhe_ecdsa_with_aes_128_gcm_sha256;
    s2n_ecdhe_rsa_with_aes_128_gcm_sha256;
    s2n_ecdhe_ecdsa_with_aes_128_cbc_sha256;
    s2n_ecdhe_rsa_with_aes_128_cbc_sha256;
    s2n_ecdhe_ecdsa_with_aes_128_cbc_sha;
    s2n_ecdhe_rsa_with_aes_128_cbc_sha;
    s2n_ecdhe_ecdsa_with_aes_256_gcm_sha384;
    s2n_ecdhe_rsa_with_aes_256_gcm_sha384;
    s2n_ecdhe_ecdsa_with_aes_256_cbc_sha384;
    s2n_ecdhe_rsa_with_aes_256_cbc_sha384;
    s2n_ecdhe_ecdsa_with_aes_256_cbc_sha;
    s2n_ecdhe_rsa_with_aes_256_cbc_sha;
    s2n_rsa_with_aes_128_gcm_sha256;
    s2n_rsa_with_aes_256_gcm_sha384;
    s2n_rsa_with_aes_128_cbc_sha256;
    s2n_rsa_with_aes_256_cbc_sha;
    s2n_rsa_with_aes_128_cbc_sha;
    s2n_rsa_with_3des_ede_cbc_sha;
    s2n_rsa_with_rc4_128_md5 ].

Definition cipher_preferences_cloudfront_ssl_v_3_legacy : s2n_cipher_preferences := {|
  suites := cipher_suites_cloudfront_ssl_v_3_legacy;
  allow_chacha20_boosting := false;
|}.

Definition cipher_suites_cloudfront_tls_1_0_2014_legacy : list s2n_cipher_suite :=
  [ s2n_ecdhe_ecdsa_with_aes_128_gcm_sha256;
    s2n_ecdhe_rsa_with_aes_128_gcm_sha256;
    s2n_ecdhe_ecdsa_with_aes_128_cbc_sha256;
    s2n_ecdhe_rsa_with_aes_128_cbc_sha256;
    s2n_ecdhe_ecdsa_with_aes_128_cbc_sha;
    s2n_ecdhe_rsa_with_aes_128_cbc_sha;
    s2n_ecdhe_ecdsa_with_aes_256_gcm_sha384;
    s2n_ecdhe_rsa_with_aes_256_gcm_sha384;
    s2n_ecdhe_ecdsa_with_aes_256_cbc_sha384;
    s2n_ecdhe_rsa_with_aes_256_cbc_sha384;
    s2n_ecdhe_ecdsa_with_aes_256_cbc_sha;
    s2n_ecdhe_rsa_with_aes_256_cbc_sha;
    s2n_rsa_with_aes_128_gcm_sha256;
    s2n_rsa_with_aes_256_gcm_sha384;
    s2n_rsa_with_aes_128_cbc_sha256;
    s2n_rsa_with_aes_256_cbc_sha;
    s2n_rsa_with_aes_128_cbc_sha;
    s2n_rsa_with_3des_ede_cbc_sha ].

Definition cipher_preferences_cloudfront_tls_1_0_2014_legacy : s2n_cipher_preferences := {|
  suites := cipher_suites_cloudfront_tls_1_0_2014_legacy;
  allow_chacha20_boosting := false;
|}.

Definition cipher_suites_cloudfront_tls_1_0_2016_legacy : list s2n_cipher_suite :=
  [ s2n_ecdhe_ecdsa_with_aes_128_gcm_sha256;
    s2n_ecdhe_rsa_with_aes_128_gcm_sha256;
    s2n_ecdhe_ecdsa_with_aes_128_cbc_sha256;
    s2n_ecdhe_rsa_with_aes_128_cbc_sha256;
    s2n_ecdhe_ecdsa_with_aes_128_cbc_sha;
    s2n_ecdhe_rsa_with_aes_128_cbc_sha;
    s2n_ecdhe_ecdsa_with_aes_256_gcm_sha384;
    s2n_ecdhe_rsa_with_aes_256_gcm_sha384;
    s2n_ecdhe_ecdsa_with_aes_256_cbc_sha384;
    s2n_ecdhe_rsa_with_aes_256_cbc_sha384;
    s2n_ecdhe_ecdsa_with_aes_256_cbc_sha;
    s2n_ecdhe_rsa_with_aes_256_cbc_sha;
    s2n_rsa_with_aes_128_gcm_sha256;
    s2n_rsa_with_aes_256_gcm_sha384;
    s2n_rsa_with_aes_128_cbc_sha256;
    s2n_rsa_with_aes_256_cbc_sha;
    s2n_rsa_with_aes_128_cbc_sha ].

Definition cipher_preferences_cloudfront_tls_1_0_2016_legacy : s2n_cipher_preferences := {|
  suites := cipher_suites_cloudfront_tls_1_0_2016_legacy;
  allow_chacha20_boosting := false;
|}.

Definition cipher_suites_cloudfront_tls_1_1_2016_legacy : list s2n_cipher_suite :=
  [ s2n_ecdhe_ecdsa_with_aes_128_gcm_sha256;
    s2n_ecdhe_rsa_with_aes_128_gcm_sha256;
    s2n_ecdhe_ecdsa_with_aes_128_cbc_sha256;
    s2n_ecdhe_rsa_with_aes_128_cbc_sha256;
    s2n_ecdhe_ecdsa_with_aes_128_cbc_sha;
    s2n_ecdhe_rsa_with_aes_128_cbc_sha;
    s2n_ecdhe_ecdsa_with_aes_256_gcm_sha384;
    s2n_ecdhe_rsa_with_aes_256_gcm_sha384;
    s2n_ecdhe_ecdsa_with_aes_256_cbc_sha384;
    s2n_ecdhe_rsa_with_aes_256_cbc_sha384;
    s2n_ecdhe_ecdsa_with_aes_256_cbc_sha;
    s2n_ecdhe_rsa_with_aes_256_cbc_sha;
    s2n_rsa_with_aes_128_gcm_sha256;
    s2n_rsa_with_aes_256_gcm_sha384;
    s2n_rsa_with_aes_128_cbc_sha256;
    s2n_rsa_with_aes_256_cbc_sha;
    s2n_rsa_with_aes_128_cbc_sha ].

Definition cipher_preferences_cloudfront_tls_1_1_2016_legacy : s2n_cipher_preferences := {|
  suites := cipher_suites_cloudfront_tls_1_1_2016_legacy;
  allow_chacha20_boosting := false;
|}.

Definition cipher_suites_cloudfront_tls_1_2_2018_legacy : list s2n_cipher_suite :=
  [ s2n_ecdhe_ecdsa_with_aes_128_gcm_sha256;
    s2n_ecdhe_rsa_with_aes_128_gcm_sha256;
    s2n_ecdhe_ecdsa_with_aes_128_cbc_sha256;
    s2n_ecdhe_rsa_with_aes_128_cbc_sha256;
    s2n_ecdhe_ecdsa_with_aes_256_gcm_sha384;
    s2n_ecdhe_rsa_with_aes_256_gcm_sha384;
    s2n_ecdhe_ecdsa_with_aes_256_cbc_sha384;
    s2n_ecdhe_rsa_with_aes_256_cbc_sha384;
    s2n_rsa_with_aes_128_gcm_sha256;
    s2n_rsa_with_aes_256_gcm_sha384;
    s2n_rsa_with_aes_128_cbc_sha256 ].

Definition cipher_preferences_cloudfront_tls_1_2_2018_legacy : s2n_cipher_preferences := {|
  suites := cipher_suites_cloudfront_tls_1_2_2018_legacy;
  allow_chacha20_boosting := false;
|}.

Definition cipher_suites_cloudfront_tls_1_2_2019_legacy : list s2n_cipher_suite :=
  [ s2n_ecdhe_ecdsa_with_aes_128_gcm_sha256;
    s2n_ecdhe_rsa_with_aes_128_gcm_sha256;
    s2n_ecdhe_ecdsa_with_aes_256_gcm_sha384;
    s2n_ecdhe_rsa_with_aes_256_gcm_sha384;
    s2n_ecdhe_ecdsa_with_aes_256_cbc_sha384;
    s2n_ecdhe_rsa_with_aes_256_cbc_sha384;
    s2n_ecdhe_ecdsa_with_aes_128_cbc_sha256;
    s2n_ecdhe_rsa_with_aes_128_cbc_sha256 ].

Definition cipher_preferences_cloudfront_tls_1_2_2019_legacy : s2n_cipher_preferences := {|
  suites := cipher_suites_cloudfront_tls_1_2_2019_legacy;
  allow_chacha20_boosting := false;
|}.

Definition cipher_suites_cloudfront_upstream_tls10 : list s2n_cipher_suite :=
  [ s2n_ecdhe_ecdsa_with_aes_256_gcm_sha384;
    s2n_ecdhe_rsa_with_aes_256_gcm_sha384;
    s2n_ecdhe_ecdsa_with_aes_128_gcm_sha256;
    s2n_ecdhe_rsa_with_aes_128_gcm_sha256;
    s2n_ecdhe_ecdsa_with_aes_256_cbc_sha384;
    s2n_ecdhe_rsa_with_aes_256_cbc_sha384;
    s2n_ecdhe_ecdsa_with_aes_256_cbc_sha;
    s2n_ecdhe_rsa_with_aes_256_cbc_sha;
    s2n_ecdhe_ecdsa_with_aes_128_cbc_sha256;
    s2n_ecdhe_rsa_with_aes_128_cbc_sha256;
    s2n_ecdhe_ecdsa_with_aes_128_cbc_sha;
    s2n_ecdhe_rsa_with_aes_128_cbc_sha;
    s2n_rsa_with_aes_256_gcm_sha384;
    s2n_rsa_with_aes_128_gcm_sha256;
    s2n_rsa_with_aes_256_cbc_sha;
    s2n_rsa_with_aes_128_cbc_sha256;
    s2n_rsa_with_aes_128_cbc_sha;
    s2n_rsa_with_3des_ede_cbc_sha;
    s2n_rsa_with_rc4_128_md5 ].

Definition cipher_preferences_cloudfront_upstream_tls10 : s2n_cipher_preferences := {|
  suites := cipher_suites_cloudfront_upstream_tls10;
  allow_chacha20_boosting := false;
|}.

Definition cipher_suites_cloudfront_upstream_tls11 : list s2n_cipher_suite :=
  [ s2n_ecdhe_ecdsa_with_aes_256_gcm_sha384;
    s2n_ecdhe_rsa_with_aes_256_gcm_sha384;
    s2n_ecdhe_ecdsa_with_aes_128_gcm_sha256;
    s2n_ecdhe_rsa_with_aes_128_gcm_sha256;
    s2n_ecdhe_ecdsa_with_aes_256_cbc_sha384;
    s2n_ecdhe_rsa_with_aes_256_cbc_sha384;
    s2n_ecdhe_ecdsa_with_aes_256_cbc_sha;
    s2n_ecdhe_rsa_with_aes_256_cbc_sha;
    s2n_ecdhe_ecdsa_with_aes_128_cbc_sha256;
    s2n_ecdhe_rsa_with_aes_128_cbc_sha256;
    s2n_ecdhe_ecdsa_with_aes_128_cbc_sha;
    s2n_ecdhe_rsa_with_aes_128_cbc_sha;
    s2n_rsa_with_aes_256_gcm_sha384;
    s2n_rsa_with_aes_128_gcm_sha256;
    s2n_rsa_with_aes_256_cbc_sha;
    s2n_rsa_with_aes_128_cbc_sha256;
    s2n_rsa_with_aes_128_cbc_sha;
    s2n_rsa_with_3des_ede_cbc_sha;
    s2n_rsa_with_rc4_128_md5 ].

Definition cipher_preferences_cloudfront_upstream_tls11 : s2n_cipher_preferences := {|
  suites := cipher_suites_cloudfront_upstream_tls11;
  allow_chacha20_boosting := false;
|}.

Definition cipher_suites_cloudfront_upstream_tls12 : list s2n_cipher_suite :=
  [ s2n_ecdhe_ecdsa_with_aes_256_gcm_sha384;
    s2n_ecdhe_rsa_with_aes_256_gcm_sha384;
    s2n_ecdhe_ecdsa_with_aes_128_gcm_sha256;
    s2n_ecdhe_rsa_with_aes_128_gcm_sha256;
    s2n_ecdhe_ecdsa_with_aes_256_cbc_sha384;
    s2n_ecdhe_rsa_with_aes_256_cbc_sha384;
    s2n_ecdhe_ecdsa_with_aes_256_cbc_sha;
    s2n_ecdhe_rsa_with_aes_256_cbc_sha;
    s2n_ecdhe_ecdsa_with_aes_128_cbc_sha256;
    s2n_ecdhe_rsa_with_aes_128_cbc_sha256;
    s2n_ecdhe_ecdsa_with_aes_128_cbc_sha;
    s2n_ecdhe_rsa_with_aes_128_cbc_sha;
    s2n_rsa_with_aes_256_gcm_sha384;
    s2n_rsa_with_aes_128_gcm_sha256;
    s2n_rsa_with_aes_256_cbc_sha;
    s2n_rsa_with_aes_128_cbc_sha256;
    s2n_rsa_with_aes_128_cbc_sha;
    s2n_rsa_with_3des_ede_cbc_sha;
    s2n_rsa_with_rc4_128_md5 ].

Definition cipher_preferences_cloudfront_upstream_tls12 : s2n_cipher_preferences := {|
  suites := cipher_suites_cloudfront_upstream_tls12;
  allow_chacha20_boosting := false;
|}.

Definition cipher_suites_cloudfront_tls_1_2_2019 : list s2n_cipher_suite :=
  S2N_TLS13_CLOUDFRONT_CIPHER_SUITES_20200716 ++
  [ s2n_ecdhe_ecdsa_with_aes_128_gcm_sha256;
    s2n_ecdhe_rsa_with_aes_128_gcm_sha256;
    s2n_ecdhe_ecdsa_with_aes_256_gcm_sha384;
    s2n_ecdhe_rsa_with_aes_256_gcm_sha384;
    s2n_ecdhe_ecdsa_with_chacha20_poly1305_sha256;
    s2n_ecdhe_rsa_with_chacha20_poly1305_sha256;
    s2n_ecdhe_ecdsa_with_aes_256_cbc_sha384;
    s2n_ecdhe_rsa_with_aes_256_cbc_sha384;
    s2n_ecdhe_ecdsa_with_aes_128_cbc_sha256;
    s2n_ecdhe_rsa_with_aes_128_cbc_sha256 ].

Definition cipher_preferences_cloudfront_tls_1_2_2019 : s2n_cipher_preferences := {|
  suites := cipher_suites_cloudfront_tls_1_2_2019;
  allow_chacha20_boosting := false;
|}.

Definition cipher_suites_cloudfront_tls_1_2_2021 : list s2n_cipher_suite :=
  S2N_TLS13_CLOUDFRONT_CIPHER_SUITES_20200716 ++
  [ s2n_ecdhe_ecdsa_with_aes_128_gcm_sha256;
    s2n_ecdhe_rsa_with_aes_128_gcm_sha256;
    s2n_ecdhe_ecdsa_with_aes_256_gcm_sha384;
    s2n_ecdhe_rsa_with_aes_256_gcm_sha384;
    s2n_ecdhe_ecdsa_with_chacha20_poly1305_sha256;
    s2n_ecdhe_rsa_with_chacha20_poly1305_sha256 ].

Definition cipher_preferences_cloudfront_tls_1_2_2021 : s2n_cipher_preferences := {|
  suites := cipher_suites_cloudfront_tls_1_2_2021;
  allow_chacha20_boosting := false;
|}.

Definition cipher_preferences_cloudfront_tls_1_2_2021_chacha20_boosted : s2n_cipher_preferences := {|
  suites := cipher_suites_cloudfront_tls_1_2_2021;
  allow_chacha20_boosting := true;
|}.

Definition cipher_suites_aws_crt_sdk_ssl_v3 : list s2n_cipher_suite :=
  S2N_TLS13_CLOUDFRONT_CIPHER_SUITES_20200716 ++
  [ s2n_ecdhe_ecdsa_with_aes_128_gcm_sha256;
    s2n_ecdhe_rsa_with_aes_128_gcm_sha256;
    s2n_ecdhe_ecdsa_with_aes_256_gcm_sha384;
    s2n_ecdhe_rsa_with_aes_256_gcm_sha384;
    s2n_ecdhe_ecdsa_with_chacha20_poly1305_sha256;
    s2n_ecdhe_rsa_with_chacha20_poly1305_sha256;
    s2n_ecdhe_ecdsa_with_aes_128_cbc_sha256;
    s2n_ecdhe_rsa_with_aes_128_cbc_sha256;
    s2n_ecdhe_ecdsa_with_aes_256_cbc_sha384;
    s2n_ecdhe_rsa_with_aes_256_cbc_sha384;
    s2n_ecdhe_ecdsa_with_aes_128_cbc_sha;
    s2n_ecdhe_rsa_with_aes_128_cbc_sha;
    s2n_ecdhe_ecdsa_with_aes_256_cbc_sha;
    s2n_ecdhe_rsa_with_aes_256_cbc_sha;
    s2n_rsa_with_aes_128_gcm_sha256;
    s2n_rsa_with_aes_256_gcm_sha384;
    s2n_rsa_with_aes_128_cbc_sha256;
    s2n_rsa_with_aes_256_cbc_sha256;
    s2n_rsa_with_aes_128_cbc_sha;
    s2n_rsa_with_aes_256_cbc_sha;
    s2n_rsa_with_3des_ede_cbc_sha;
    s2n_rsa_with_rc4_128_md5 ].

Definition cipher_preferences_aws_crt_sdk_ssl_v3 : s2n_cipher_preferences := {|
  suites := cipher_suites_aws_crt_sdk_ssl_v3;
  allow_chacha20_boosting := false;
|}.

Definition cipher_suites_aws_crt_sdk_default : list s2n_cipher_suite :=
  S2N_TLS13_CLOUDFRONT_CIPHER_SUITES_20200716 ++
  [ s2n_ecdhe_ecdsa_with_aes_128_gcm_sha256;
    s2n_ecdhe_rsa_with_aes_128_gcm_sha256;
    s2n_ecdhe_ecdsa_with_aes_256_gcm_sha384;
    s2n_ecdhe_rsa_with_aes_256_gcm_sha384;
    s2n_ecdhe_ecdsa_with_chacha20_poly1305_sha256;
    s2n_ecdhe_rsa_with_chacha20_poly1305_sha256;
    s2n_ecdhe_ecdsa_with_aes_128_cbc_sha256;
    s2n_ecdhe_rsa_with_aes_128_cbc_sha256;
    s2n_ecdhe_ecdsa_with_aes_256_cbc_sha384;
    s2n_ecdhe_rsa_with_aes_256_cbc_sha384;
    s2n_ecdhe_ecdsa_with_aes_128_cbc_sha;
    s2n_ecdhe_rsa_with_aes_128_cbc_sha;
    s2n_ecdhe_ecdsa_with_aes_256_cbc_sha;
    s2n_ecdhe_rsa_with_aes_256_cbc_sha;
    s2n_rsa_with_aes_128_gcm_sha256;
    s2n_rsa_with_aes_256_gcm_sha384;
    s2n_rsa_with_aes_128_cbc_sha256;
    s2n_rsa_with_aes_256_cbc_sha256;
    s2n_rsa_with_aes_128_cbc_sha;
    s2n_rsa_with_aes_256_cbc_sha ].

Definition cipher_preferences_aws_crt_sdk_default : s2n_cipher_preferences := {|
  suites := cipher_suites_aws_crt_sdk_default;
  allow_chacha20_boosting := false;
|}.

Definition cipher_suites_aws_crt_sdk_tls_13 : list s2n_cipher_suite :=
  S2N_TLS13_CLOUDFRONT_CIPHER_SUITES_20200716.

Definition cipher_preferences_aws_crt_sdk_tls_13 : s2n_cipher_preferences := {|
  suites := cipher_suites_aws_crt_sdk_tls_13;
  allow_chacha20_boosting := false;
|}.

Definition cipher_suites_kms_tls_1_0_2018_10 : list s2n_cipher_suite :=
  [ s2n_ecdhe_rsa_with_aes_256_gcm_sha384;
    s2n_ecdhe_rsa_with_aes_128_gcm_sha256;
    s2n_ecdhe_rsa_with_aes_256_cbc_sha384;
    s2n_ecdhe_rsa_with_aes_256_cbc_sha;
    s2n_ecdhe_rsa_with_aes_128_cbc_sha256;
    s2n_ecdhe_rsa_with_3des_ede_cbc_sha;
    s2n_dhe_rsa_with_aes_256_cbc_sha256;
    s2n_dhe_rsa_with_aes_128_cbc_sha256;
    s2n_dhe_rsa_with_aes_256_cbc_sha;
    s2n_dhe_rsa_with_aes_128_cbc_sha ].

Definition cipher_preferences_kms_tls_1_0_2018_10 : s2n_cipher_preferences := {|
  suites := cipher_suites_kms_tls_1_0_2018_10;
  allow_chacha20_boosting := false;
|}.

Definition cipher_suites_kms_tls_1_0_2021_08 : list s2n_cipher_suite :=
  S2N_TLS13_CLOUDFRONT_CIPHER_SUITES_20200716 ++
  [ s2n_ecdhe_rsa_with_aes_256_gcm_sha384;
    s2n_ecdhe_rsa_with_aes_128_gcm_sha256;
    s2n_ecdhe_rsa_with_aes_256_cbc_sha384;
    s2n_ecdhe_rsa_with_aes_256_cbc_sha;
    s2n_ecdhe_rsa_with_aes_128_cbc_sha256;
    s2n_ecdhe_rsa_with_3des_ede_cbc_sha;
    s2n_dhe_rsa_with_aes_256_cbc_sha256;
    s2n_dhe_rsa_with_aes_128_cbc_sha256;
    s2n_dhe_rsa_with_aes_256_cbc_sha;
    s2n_dhe_rsa_with_aes_128_cbc_sha ].

Definition cipher_preferences_kms_tls_1_0_2021_08 : s2n_cipher_preferences := {|
  suites := cipher_suites_kms_tls_1_0_2021_08;
  allow_chacha20_boosting := false;
|}.

Definition cipher_suites_kms_pq_tls_1_0_2019_06 : list s2n_cipher_suite :=
  [ s2n_ecdhe_rsa_with_aes_256_gcm_sha384;
    s2n_ecdhe_rsa_with_aes_128_gcm_sha256;
    s2n_ecdhe_rsa_with_aes_256_cbc_sha384;
    s2n_ecdhe_rsa_with_aes_256_cbc_sha;
    s2n_ecdhe_rsa_with_aes_128_cbc_sha256;
    s2n_ecdhe_rsa_with_3des_ede_cbc_sha;
    s2n_dhe_rsa_with_aes_256_cbc_sha256;
    s2n_dhe_rsa_with_aes_128_cbc_sha256;
    s2n_dhe_rsa_with_aes_256_cbc_sha;
    s2n_dhe_rsa_with_aes_128_cbc_sha ].

Definition cipher_preferences_kms_pq_tls_1_0_2019_06 : s2n_cipher_preferences := {|
  suites := cipher_suites_kms_pq_tls_1_0_2019_06;
  allow_chacha20_boosting := false;
|}.

Definition cipher_preferences_kms_pq_tls_1_0_2020_02 : s2n_cipher_preferences := {|
  suites := cipher_suites_kms_pq_tls_1_0_2019_06;
  allow_chacha20_boosting := false;
|}.

Definition cipher_suites_kms_pq_tls_1_0_2020_07 : list s2n_cipher_suite :=
  [ s2n_ecdhe_rsa_with_aes_256_gcm_sha384;
    s2n_ecdhe_rsa_with_aes_128_gcm_sha256;
    s2n_ecdhe_rsa_with_aes_256_cbc_sha384;
    s2n_ecdhe_rsa_with_aes_256_cbc_sha;
    s2n_ecdhe_rsa_with_aes_128_cbc_sha256;
    s2n_ecdhe_rsa_with_3des_ede_cbc_sha;
    s2n_dhe_rsa_with_aes_256_cbc_sha256;
    s2n_dhe_rsa_with_aes_128_cbc_sha256;
    s2n_dhe_rsa_with_aes_256_cbc_sha;
    s2n_dhe_rsa_with_aes_128_cbc_sha ].

Definition cipher_preferences_kms_pq_tls_1_0_2020_07 : s2n_cipher_preferences := {|
  suites := cipher_suites_kms_pq_tls_1_0_2020_07;
  allow_chacha20_boosting := false;
|}.

Definition cipher_suites_pq_tls_1_0_2020_12 : list s2n_cipher_suite :=
  S2N_TLS13_CIPHER_SUITES_20190801 ++
  [ s2n_ecdhe_rsa_with_aes_256_gcm_sha384;
    s2n_ecdhe_rsa_with_aes_128_gcm_sha256;
    s2n_ecdhe_rsa_with_aes_256_cbc_sha384;
    s2n_ecdhe_rsa_with_aes_256_cbc_sha;
    s2n_ecdhe_rsa_with_aes_128_cbc_sha256;
    s2n_ecdhe_rsa_with_3des_ede_cbc_sha;
    s2n_dhe_rsa_with_aes_256_cbc_sha256;
    s2n_dhe_rsa_with_aes_128_cbc_sha256;
    s2n_dhe_rsa_with_aes_256_cbc_sha;
    s2n_dhe_rsa_with_aes_128_cbc_sha ].

Definition cipher_preferences_pq_tls_1_0_2020_12 : s2n_cipher_preferences := {|
  suites := cipher_suites_pq_tls_1_0_2020_12;
  allow_chacha20_boosting := false;
|}.

Definition cipher_suites_pq_tls_1_1_2021_05_17 : list s2n_cipher_suite :=
  [ s2n_ecdhe_ecdsa_with_aes_128_gcm_sha256;
    s2n_ecdhe_rsa_with_aes_128_gcm_sha256;
    s2n_ecdhe_ecdsa_with_aes_128_cbc_sha256;
    s2n_ecdhe_rsa_with_aes_128_cbc_sha256;
    s2n_ecdhe_ecdsa_with_aes_128_cbc_sha;
    s2n_ecdhe_rsa_with_aes_128_cbc_sha;
    s2n_ecdhe_ecdsa_with_aes_256_gcm_sha384;
    s2n_ecdhe_rsa_with_aes_256_gcm_sha384;
    s2n_ecdhe_ecdsa_with_aes_256_cbc_sha384;
    s2n_ecdhe_rsa_with_aes_256_cbc_sha384;
    s2n_ecdhe_rsa_with_aes_256_cbc_sha;
    s2n_ecdhe_ecdsa_with_aes_256_cbc_sha;
    s2n_rsa_with_aes_128_gcm_sha256;
    s2n_rsa_with_aes_128_cbc_sha256;
    s2n_rsa_with_aes_128_cbc_sha;
    s2n_rsa_with_aes_256_gcm_sha384;
    s2n_rsa_with_aes_256_cbc_sha256;
    s2n_rsa_with_aes_256_cbc_sha ].

Definition cipher_preferences_pq_tls_1_1_2021_05_17 : s2n_cipher_preferences := {|
  suites := cipher_suites_pq_tls_1_1_2021_05_17;
  allow_chacha20_boosting := false;
|}.

Definition cipher_suites_pq_tls_1_0_2021_05_18 : list s2n_cipher_suite :=
  [ s2n_ecdhe_ecdsa_with_aes_128_cbc_sha;
    s2n_ecdhe_rsa_with_aes_128_cbc_sha;
    s2n_ecdhe_ecdsa_with_aes_128_gcm_sha256;
    s2n_ecdhe_rsa_with_aes_128_gcm_sha256;
    s2n_ecdhe_ecdsa_with_aes_256_gcm_sha384;
    s2n_ecdhe_rsa_with_aes_256_gcm_sha384;
    s2n_ecdhe_ecdsa_with_aes_128_cbc_sha256;
    s2n_ecdhe_rsa_with_aes_128_cbc_sha256;
    s2n_ecdhe_ecdsa_with_aes_256_cbc_sha;
    s2n_ecdhe_rsa_with_aes_256_cbc_sha;
    s2n_ecdhe_ecdsa_with_aes_256_cbc_sha384;
    s2n_ecdhe_rsa_with_aes_256_cbc_sha384;
    s2n_rsa_with_aes_128_cbc_sha;
    s2n_rsa_with_aes_128_gcm_sha256;
    s2n_rsa_with_aes_256_gcm_sha384;
    s2n_rsa_with_aes_128_cbc_sha256;
    s2n_rsa_with_aes_256_cbc_sha;
    s2n_rsa_with_aes_256_cbc_sha256;
    s2n_rsa_with_3des_ede_cbc_sha;
    s2n_dhe_rsa_with_aes_128_cbc_sha;
    s2n_dhe_rsa_with_aes_128_gcm_sha256;
    s2n_dhe_rsa_with_aes_256_gcm_sha384;
    s2n_dhe_rsa_with_aes_128_cbc_sha256;
    s2n_dhe_rsa_with_aes_256_cbc_sha;
    s2n_dhe_rsa_with_aes_256_cbc_sha256 ].

Definition cipher_preferences_pq_tls_1_0_2021_05_18 : s2n_cipher_preferences := {|
  suites := cipher_suites_pq_tls_1_0_2021_05_18;
  allow_chacha20_boosting := false;
|}.

Definition cipher_suites_pq_tls_1_0_2021_05_19 : list s2n_cipher_suite :=
  [ s2n_ecdhe_ecdsa_with_aes_128_gcm_sha256;
    s2n_ecdhe_rsa_with_aes_128_gcm_sha256;
    s2n_ecdhe_ecdsa_with_aes_128_cbc_sha256;
    s2n_ecdhe_rsa_with_aes_128_cbc_sha256;
    s2n_ecdhe_ecdsa_with_aes_128_cbc_sha;
    s2n_ecdhe_rsa_with_aes_128_cbc_sha;
    s2n_ecdhe_ecdsa_with_aes_256_gcm_sha384;
    s2n_ecdhe_rsa_with_aes_256_gcm_sha384;
    s2n_ecdhe_ecdsa_with_aes_256_cbc_sha384;
    s2n_ecdhe_rsa_with_aes_256_cbc_sha384;
    s2n_ecdhe_rsa_with_aes_256_cbc_sha;
    s2n_ecdhe_ecdsa_with_aes_256_cbc_sha;
    s2n_rsa_with_aes_128_gcm_sha256;
    s2n_rsa_with_aes_128_cbc_sha256;
    s2n_rsa_with_aes_128_cbc_sha;
    s2n_rsa_with_aes_256_gcm_sha384;
    s2n_rsa_with_aes_256_cbc_sha256;
    s2n_rsa_with_aes_256_cbc_sha ].

Definition cipher_preferences_pq_tls_1_0_2021_05_19 : s2n_cipher_preferences := {|
  suites := cipher_suites_pq_tls_1_0_2021_05_19;
  allow_chacha20_boosting := false;
|}.

Definition cipher_suites_pq_tls_1_1_2021_05_21 : list s2n_cipher_suite :=
  S2N_TLS13_CLOUDFRONT_CIPHER_SUITES_20200716 ++
  [ s2n_ecdhe_ecdsa_with_aes_128_gcm_sha256;
    s2n_ecdhe_rsa_with_aes_128_gcm_sha256;
    s2n_ecdhe_ecdsa_with_aes_128_cbc_sha256;
    s2n_ecdhe_rsa_with_aes_128_cbc_sha256;
    s2n_ecdhe_ecdsa_with_aes_128_cbc_sha;
    s2n_ecdhe_rsa_with_aes_128_cbc_sha;
    s2n_ecdhe_ecdsa_with_aes_256_gcm_sha384;
    s2n_ecdhe_rsa_with_aes_256_gcm_sha384;
    s2n_ecdhe_ecdsa_with_aes_256_cbc_sha384;
    s2n_ecdhe_rsa_with_aes_256_cbc_sha384;
    s2n_ecdhe_rsa_with_aes_256_cbc_sha;
    s2n_ecdhe_ecdsa_with_aes_256_cbc_sha;
    s2n_rsa_with_aes_128_gcm_sha256;
    s2n_rsa_with_aes_128_cbc_sha256;
    s2n_rsa_with_aes_128_cbc_sha;
    s2n_rsa_with_aes_256_gcm_sha384;
    s2n_rsa_with_aes_256_cbc_sha256;
    s2n_rsa_with_aes_256_cbc_sha ].

Definition cipher_preferences_pq_tls_1_1_2021_05_21 : s2n_cipher_preferences := {|
  suites := cipher_suites_pq_tls_1_1_2021_05_21;
  allow_chacha20_boosting := false;
|}.

Definition cipher_suites_pq_tls_1_0_2021_05_22 : list s2n_cipher_suite :=
  S2N_TLS13_CLOUDFRONT_CIPHER_SUITES_20200716 ++
  [ s2n_ecdhe_ecdsa_with_aes_128_cbc_sha;
    s2n_ecdhe_rsa_with_aes_128_cbc_sha;
    s2n_ecdhe_ecdsa_with_aes_128_gcm_sha256;
    s2n_ecdhe_rsa_with_aes_128_gcm_sha256;
    s2n_ecdhe_ecdsa_with_aes_256_gcm_sha384;
    s2n_ecdhe_rsa_with_aes_256_gcm_sha384;
    s2n_ecdhe_ecdsa_with_aes_128_cbc_sha256;
    s2n_ecdhe_rsa_with_aes_128_cbc_sha256;
    s2n_ecdhe_ecdsa_with_aes_256_cbc_sha;
    s2n_ecdhe_rsa_with_aes_256_cbc_sha;
    s2n_ecdhe_ecdsa_with_aes_256_cbc_sha384;
    s2n_ecdhe_rsa_with_aes_256_cbc_sha384;
    s2n_rsa_with_aes_128_cbc_sha;
    s2n_rsa_with_aes_128_gcm_sha256;
    s2n_rsa_with_aes_256_gcm_sha384;
    s2n_rsa_with_aes_128_cbc_sha256;
    s2n_rsa_with_aes_256_cbc_sha;
    s2n_rsa_with_aes_256_cbc_sha256;
    s2n_rsa_with_3des_ede_cbc_sha;
    s2n_dhe_rsa_with_aes_128_cbc_sha;
    s2n_dhe_rsa_with_aes_128_gcm_sha256;
    s2n_dhe_rsa_with_aes_256_gcm_sha384;
    s2n_dhe_rsa_with_aes_128_cbc_sha256;
    s2n_dhe_rsa_with_aes_256_cbc_sha;
    s2n_dhe_rsa_with_aes_256_cbc_sha256 ].

Definition cipher_preferences_pq_tls_1_0_2021_05_22 : s2n_cipher_preferences := {|
  suites := cipher_suites_pq_tls_1_0_2021_05_22;
  allow_chacha20_boosting := false;
|}.

Definition cipher_suites_pq_tls_1_0_2021_05_23 : list s2n_cipher_suite :=
  S2N_TLS13_CLOUDFRONT_CIPHER_SUITES_20200716 ++
  [ s2n_ecdhe_ecdsa_with_aes_128_gcm_sha256;
    s2n_ecdhe_rsa_with_aes_128_gcm_sha256;
    s2n_ecdhe_ecdsa_with_aes_128_cbc_sha256;
    s2n_ecdhe_rsa_with_aes_128_cbc_sha256;
    s2n_ecdhe_ecdsa_with_aes_128_cbc_sha;
    s2n_ecdhe_rsa_with_aes_128_cbc_sha;
    s2n_ecdhe_ecdsa_with_aes_256_gcm_sha384;
    s2n_ecdhe_rsa_with_aes_256_gcm_sha384;
    s2n_ecdhe_ecdsa_with_aes_256_cbc_sha384;
    s2n_ecdhe_rsa_with_aes_256_cbc_sha384;
    s2n_ecdhe_rsa_with_aes_256_cbc_sha;
    s2n_ecdhe_ecdsa_with_aes_256_cbc_sha;
    s2n_rsa_with_aes_128_gcm_sha256;
    s2n_rsa_with_aes_128_cbc_sha256;
    s2n_rsa_with_aes_128_cbc_sha;
    s2n_rsa_with_aes_256_gcm_sha384;
    s2n_rsa_with_aes_256_cbc_sha256;
    s2n_rsa_with_aes_256_cbc_sha ].

Definition cipher_preferences_pq_tls_1_0_2021_05_23 : s2n_cipher_preferences := {|
  suites := cipher_suites_pq_tls_1_0_2021_05_23;
  allow_chacha20_boosting := false;
|}.

Definition cipher_suites_pq_tls_1_0_2021_05_24 : list s2n_cipher_suite :=
  S2N_TLS13_CIPHER_SUITES_20190801 ++
  [ s2n_ecdhe_rsa_with_aes_256_gcm_sha384;
    s2n_ecdhe_rsa_with_aes_128_gcm_sha256;
    s2n_ecdhe_rsa_with_aes_256_cbc_sha384;
    s2n_ecdhe_rsa_with_aes_256_cbc_sha;
    s2n_ecdhe_rsa_with_aes_128_cbc_sha256;
    s2n_ecdhe_rsa_with_3des_ede_cbc_sha;
    s2n_dhe_rsa_with_aes_256_cbc_sha256;
    s2n_dhe_rsa_with_aes_128_cbc_sha256;
    s2n_dhe_rsa_with_aes_256_cbc_sha;
    s2n_dhe_rsa_with_aes_128_cbc_sha ].

Definition cipher_preferences_pq_tls_1_0_2021_05_24 : s2n_cipher_preferences := {|
  suites := cipher_suites_pq_tls_1_0_2021_05_24;
  allow_chacha20_boosting := false;
|}.

Definition cipher_suites_pq_tls_1_0_2021_05_25 : list s2n_cipher_suite :=
  [ s2n_ecdhe_ecdsa_with_aes_128_gcm_sha256;
    s2n_ecdhe_rsa_with_aes_128_gcm_sha256;
    s2n_ecdhe_ecdsa_with_aes_256_gcm_sha384;
    s2n_ecdhe_rsa_with_aes_256_gcm_sha384;
    s2n_ecdhe_ecdsa_with_aes_128_cbc_sha;
    s2n_ecdhe_rsa_with_aes_128_cbc_sha;
    s2n_ecdhe_ecdsa_with_aes_128_cbc_sha256;
    s2n_ecdhe_rsa_with_aes_128_cbc_sha256;
    s2n_ecdhe_ecdsa_with_aes_256_cbc_sha;
    s2n_ecdhe_rsa_with_aes_256_cbc_sha;
    s2n_ecdhe_ecdsa_with_aes_256_cbc_sha384;
    s2n_ecdhe_rsa_with_aes_256_cbc_sha384;
    s2n_rsa_with_aes_128_gcm_sha256;
    s2n_rsa_with_aes_256_gcm_sha384;
    s2n_rsa_with_aes_128_cbc_sha;
    s2n_rsa_with_aes_128_cbc_sha256;
    s2n_rsa_with_aes_256_cbc_sha;
    s2n_rsa_with_aes_256_cbc_sha256;
    s2n_rsa_with_3des_ede_cbc_sha;
    s2n_dhe_rsa_with_aes_128_gcm_sha256;
    s2n_dhe_rsa_with_aes_256_gcm_sha384;
    s2n_dhe_rsa_with_aes_128_cbc_sha;
    s2n_dhe_rsa_with_aes_128_cbc_sha256;
    s2n_dhe_rsa_with_aes_256_cbc_sha;
    s2n_dhe_rsa_with_aes_256_cbc_sha256 ].

Definition cipher_preferences_pq_tls_1_0_2021_05_25 : s2n_cipher_preferences := {|
  suites := cipher_suites_pq_tls_1_0_2021_05_25;
  allow_chacha20_boosting := false;
|}.

Definition cipher_suites_pq_tls_1_0_2021_05_26 : list s2n_cipher_suite :=
  S2N_TLS13_CLOUDFRONT_CIPHER_SUITES_20200716 ++
  [ s2n_ecdhe_ecdsa_with_aes_128_gcm_sha256;
    s2n_ecdhe_rsa_with_aes_128_gcm_sha256;
    s2n_ecdhe_ecdsa_with_aes_256_gcm_sha384;
    s2n_ecdhe_rsa_with_aes_256_gcm_sha384;
    s2n_ecdhe_ecdsa_with_aes_128_cbc_sha;
    s2n_ecdhe_rsa_with_aes_128_cbc_sha;
    s2n_ecdhe_ecdsa_with_aes_128_cbc_sha256;
    s2n_ecdhe_rsa_with_aes_128_cbc_sha256;
    s2n_ecdhe_ecdsa_with_aes_256_cbc_sha;
    s2n_ecdhe_rsa_with_aes_256_cbc_sha;
    s2n_ecdhe_ecdsa_with_aes_256_cbc_sha384;
    s2n_ecdhe_rsa_with_aes_256_cbc_sha384;
    s2n_rsa_with_aes_128_gcm_sha256;
    s2n_rsa_with_aes_256_gcm_sha384;
    s2n_rsa_with_aes_128_cbc_sha;
    s2n_rsa_with_aes_128_cbc_sha256;
    s2n_rsa_with_aes_256_cbc_sha;
    s2n_rsa_with_aes_256_cbc_sha256;
    s2n_rsa_with_3des_ede_cbc_sha;
    s2n_dhe_rsa_with_aes_128_gcm_sha256;
    s2n_dhe_rsa_with_aes_256_gcm_sha384;
    s2n_dhe_rsa_with_aes_128_cbc_sha;
    s2n_dhe_rsa_with_aes_128_cbc_sha256;
    s2n_dhe_rsa_with_aes_256_cbc_sha;
    s2n_dhe_rsa_with_aes_256_cbc_sha256 ].

Definition cipher_preferences_pq_tls_1_0_2021_05_26 : s2n_cipher_preferences := {|
  suites := cipher_suites_pq_tls_1_0_2021_05_26;
  allow_chacha20_boosting := false;
|}.

Definition cipher_suites_pq_tls_1_3_2023_06_01 : list s2n_cipher_suite :=
  S2N_TLS13_CIPHER_SUITES_20190801 ++
  [ s2n_ecdhe_ecdsa_with_aes_128_gcm_sha256;
    s2n_ecdhe_rsa_with_aes_128_gcm_sha256;
    s2n_ecdhe_ecdsa_with_aes_256_gcm_sha384;
    s2n_ecdhe_rsa_with_aes_256_gcm_sha384;
    s2n_ecdhe_ecdsa_with_aes_128_cbc_sha;
    s2n_ecdhe_rsa_with_aes_128_cbc_sha;
    s2n_ecdhe_ecdsa_with_aes_128_cbc_sha256;
    s2n_ecdhe_rsa_with_aes_128_cbc_sha256;
    s2n_ecdhe_ecdsa_with_aes_256_cbc_sha;
    s2n_ecdhe_rsa_with_aes_256_cbc_sha;
    s2n_ecdhe_ecdsa_with_aes_256_cbc_sha384;
    s2n_ecdhe_rsa_with_aes_256_cbc_sha384;
    s2n_rsa_with_aes_128_gcm_sha256;
    s2n_rsa_with_aes_256_gcm_sha384;
    s2n_rsa_with_aes_128_cbc_sha;
    s2n_rsa_with_aes_128_cbc_sha256;
    s2n_rsa_with_aes_256_cbc_sha;
    s2n_rsa_with_aes_256_cbc_sha256;
    s2n_rsa_with_3des_ede_cbc_sha;
    s2n_dhe_rsa_with_aes_128_gcm_sha256;
    s2n_dhe_rsa_with_aes_256_gcm_sha384;
    s2n_dhe_rsa_with_aes_128_cbc_sha;
    s2n_dhe_rsa_with_aes_128_cbc_sha256;
    s2n_dhe_rsa_with_aes_256_cbc_sha;
    s2n_dhe_rsa_with_aes_256_cbc_sha256 ].

Definition cipher_preferences_pq_tls_1_3_2023_06_01 : s2n_cipher_preferences := {|
  suites := cipher_suites_pq_tls_1_3_2023_06_01;
  allow_chacha20_boosting := false;
|}.

Definition cipher_suites_20231213 : list s2n_cipher_suite :=
  [ s2n_tls13_aes_128_gcm_sha256;
    s2n_tls13_aes_256_gcm_sha384;
    s2n_ecdhe_ecdsa_with_aes_128_gcm_sha256;
    s2n_ecdhe_rsa_with_aes_128_gcm_sha256;
    s2n_ecdhe_ecdsa_with_aes_256_gcm_sha384;
    s2n_ecdhe_rsa_with_aes_256_gcm_sha384;
    s2n_ecdhe_ecdsa_with_aes_128_cbc_sha256;
    s2n_ecdhe_rsa_with_aes_128_cbc_sha256;
    s2n_ecdhe_ecdsa_with_aes_256_cbc_sha384;
    s2n_ecdhe_rsa_with_aes_256_cbc_sha384;
    s2n_rsa_with_aes_128_gcm_sha256;
    s2n_rsa_with_aes_256_gcm_sha384;
    s2n_rsa_with_aes_128_cbc_sha256;
    s2n_rsa_with_aes_256_cbc_sha256 ].

Definition cipher_preferences_20231213 : s2n_cipher_preferences := {|
  suites := cipher_suites_20231213;
  allow_chacha20_boosting := false;
|}.

Definition cipher_suites_20231214 : list s2n_cipher_suite :=
  [ s2n_tls13_aes_128_gcm_sha256;
    s2n_tls13_aes_256_gcm_sha384;
    s2n_ecdhe_ecdsa_with_aes_128_gcm_sha256;
    s2n_ecdhe_rsa_with_aes_128_gcm_sha256;
    s2n_ecdhe_ecdsa_with_aes_256_gcm_sha384;
    s2n_ecdhe_rsa_with_aes_256_gcm_sha384;
    s2n_ecdhe_ecdsa_with_aes_128_cbc_sha256;
    s2n_ecdhe_rsa_with_aes_128_cbc_sha256;
    s2n_ecdhe_ecdsa_with_aes_256_cbc_sha384;
    s2n_ecdhe_rsa_with_aes_256_cbc_sha384 ].

Definition cipher_preferences_20231214 : s2n_cipher_preferences := {|
  suites := cipher_suites_20231214;
  allow_chacha20_boosting := false;
|}.

Definition cipher_suites_kms_fips_tls_1_2_2018_10 : list s2n_cipher_suite :=
  [ s2n_ecdhe_rsa_with_aes_256_gcm_sha384;
    s2n_ecdhe_rsa_with_aes_128_gcm_sha256;
    s2n_ecdhe_rsa_with_aes_256_cbc_sha384;
    s2n_ecdhe_rsa_with_aes_128_cbc_sha256;
    s2n_dhe_rsa_with_aes_256_cbc_sha256;
    s2n_dhe_rsa_with_aes_128_cbc_sha256 ].

Definition cipher_preferences_kms_fips_tls_1_2_2018_10 : s2n_cipher_preferences := {|
  suites := cipher_suites_kms_fips_tls_1_2_2018_10;
  allow_chacha20_boosting := false;
|}.

Definition cipher_suites_kms_fips_tls_1_2_2021_08 : list s2n_cipher_suite :=
  [ s2n_tls13_aes_128_gcm_sha256;
    s2n_tls13_aes_256_gcm_sha384;
    s2n_ecdhe_rsa_with_aes_256_gcm_sha384;
    s2n_ecdhe_rsa_with_aes_128_gcm_sha256;
    s2n_ecdhe_rsa_with_aes_256_cbc_sha384;
    s2n_ecdhe_rsa_with_aes_128_cbc_sha256;
    s2n_dhe_rsa_with_aes_256_cbc_sha256;
    s2n_dhe_rsa_with_aes_128_cbc_sha256 ].

Definition cipher_preferences_kms_fips_tls_1_2_2021_08 : s2n_cipher_preferences := {|
  suites := cipher_suites_kms_fips_tls_1_2_2021_08;
  allow_chacha20_boosting := false;
|}.

Definition cipher_suites_20210816 : list s2n_cipher_suite :=
  [ s2n_ecdhe_ecdsa_with_aes_256_cbc_sha384;
    s2n_ecdhe_rsa_with_aes_256_cbc_sha384;
    s2n_ecdhe_ecdsa_with_aes_256_gcm_sha384;
    s2n_ecdhe_rsa_with_aes_256_gcm_sha384 ].

Definition cipher_preferences_20210816 : s2n_cipher_preferences := {|
  suites := cipher_suites_20210816;
  allow_chacha20_boosting := false;
|}.

Definition cipher_suites_20210816_gcm : list s2n_cipher_suite :=
  [ s2n_ecdhe_ecdsa_with_aes_256_gcm_sha384;
    s2n_ecdhe_rsa_with_aes_256_gcm_sha384;
    s2n_ecdhe_ecdsa_with_aes_256_cbc_sha384;
    s2n_ecdhe_rsa_with_aes_256_cbc_sha384 ].

Definition cipher_preferences_20210816_gcm : s2n_cipher_preferences := {|
  suites := cipher_suites_20210816_gcm;
  allow_chacha20_boosting := false;
|}.

Definition cipher_suites_20240603 : list s2n_cipher_suite :=
  [ s2n_tls13_aes_128_gcm_sha256;
    s2n_tls13_aes_256_gcm_sha384;
    s2n_tls13_chacha20_poly1305_sha256;
    s2n_ecdhe_ecdsa_with_aes_128_gcm_sha256;
    s2n_ecdhe_ecdsa_with_aes_128_cbc_sha256;
    s2n_ecdhe_ecdsa_with_aes_256_gcm_sha384;
    s2n_ecdhe_ecdsa_with_aes_256_cbc_sha384;
    s2n_ecdhe_ecdsa_with_chacha20_poly1305_sha256;
    s2n_ecdhe_rsa_with_aes_128_gcm_sha256;
    s2n_ecdhe_rsa_with_aes_128_cbc_sha256;
    s2n_ecdhe_rsa_with_aes_256_gcm_sha384;
    s2n_ecdhe_rsa_with_aes_256_cbc_sha384;
    s2n_ecdhe_rsa_with_chacha20_poly1305_sha256;
    s2n_ecdhe_ecdsa_with_aes_128_cbc_sha;
    s2n_ecdhe_ecdsa_with_aes_256_cbc_sha;
    s2n_ecdhe_rsa_with_aes_128_cbc_sha;
    s2n_ecdhe_rsa_with_aes_256_cbc_sha;
    s2n_dhe_rsa_with_aes_128_gcm_sha256;
    s2n_dhe_rsa_with_aes_128_cbc_sha256;
    s2n_dhe_rsa_with_aes_256_gcm_sha384;
    s2n_dhe_rsa_with_aes_256_cbc_sha256;
    s2n_dhe_rsa_with_aes_128_cbc_sha;
    s2n_dhe_rsa_with_aes_256_cbc_sha;
    s2n_ecdhe_rsa_with_3des_ede_cbc_sha;
    s2n_dhe_rsa_with_3des_ede_cbc_sha;
    s2n_rsa_with_aes_128_gcm_sha256;
    s2n_rsa_with_aes_128_cbc_sha256;
    s2n_rsa_with_aes_256_gcm_sha384;
    s2n_rsa_with_aes_256_cbc_sha256;
    s2n_rsa_with_aes_128_cbc_sha;
    s2n_rsa_with_aes_256_cbc_sha;
    s2n_rsa_with_3des_ede_cbc_sha ].

Definition cipher_preferences_20240603 : s2n_cipher_preferences := {|
  suites := cipher_suites_20240603;
  allow_chacha20_boosting := true;
|}.

Definition cipher_suites_rfc9151 : list s2n_cipher_suite :=
  [ s2n_ecdhe_ecdsa_with_aes_256_gcm_sha384;
    s2n_ecdhe_rsa_with_aes_256_gcm_sha384;
    s2n_rsa_with_aes_256_gcm_sha384;
    s2n_dhe_rsa_with_aes_256_gcm_sha384;
    s2n_tls13_aes_256_gcm_sha384 ].

Definition cipher_preferences_rfc9151 : s2n_cipher_preferences := {|
  suites := cipher_suites_rfc9151;
  allow_chacha20_boosting := false;
|}.

Definition cipher_suites_20250211 : list s2n_cipher_suite :=
  [ s2n_tls13_aes_256_gcm_sha384 ].

Definition cipher_preferences_20250211 : s2n_cipher_preferences := {|
  suites := cipher_suites_20250211;
  allow_chacha20_boosting := false;
|}.
End Preferences.
End CipherPreferences.
Export CipherPreferences.
