(* ===== verification/SecurityPolicies.v ===== *)
(** * Security policies

    The data of tls/s2n_security_policies.c: the policies, the table of the names
    under which an application selects one, and the deprecated names. *)
From stdpp Require Import strings.
From S2P Require Import Prelude Errors CMem Connection Libcrypto CipherSuites Groups SignatureSchemes CipherPreferences.
Open Scope string_scope.
Open Scope Z_scope.

Module SecurityPolicies.

(** tls/s2n_security_rules.h *)
Inductive s2n_security_rule_id := S2N_PERFECT_FORWARD_SECRECY | S2N_FIPS_140_3.
#[export] Instance rule_id_eq_dec : EqDecision s2n_security_rule_id.
Proof. solve_decision. Defined.

(** [rules] lists the identifiers whose entry in the C array is true. *)
Record s2n_security_policy := SecurityPolicy {
  policy_symbol : string;
  policy_minimum_version : Z;  (* minimum_protocol_version: uint8_t *)
  cipher_preferences : s2n_cipher_preferences;
  kem_preferences : s2n_kem_preferences;
  signature_preferences : s2n_signature_preferences;
  certificate_signature_preferences : option s2n_signature_preferences;
  ecc_preferences : s2n_ecc_preferences;
  certificate_key_preferences : option s2n_certificate_key_preferences;
  certificate_preferences_apply_locally : bool;
  rules : list s2n_security_rule_id;
}.
#[export] Instance policy_object : StaticObject s2n_security_policy := policy_symbol.

(** A row of security_policy_selection; its three flags are the state
    of [SecurityRules]. *)
Record policy_row := PolicyRow { version : string; security_policy : s2n_security_policy }.

Section Policies.
Context `{Libcrypto}.

Definition security_policy_20240501 : s2n_security_policy := {|
  policy_symbol := "security_policy_20240501";
  policy_minimum_version := S2N_TLS12;
  cipher_preferences := cipher_preferences_20240331;
  kem_preferences := kem_preferences_null;
  signature_preferences := s2n_signature_preferences_20240501;
  certificate_signature_preferences := None;
  ecc_preferences := s2n_ecc_preferences_20240501;
  certificate_key_preferences := None;
  certificate_preferences_apply_locally := false;
  rules := [S2N_PERFECT_FORWARD_SECRECY];
|}.

Definition security_policy_20240502 : s2n_security_policy := {|
  policy_symbol := "security_policy_20240502";
  policy_minimum_version := S2N_TLS12;
  cipher_preferences := cipher_preferences_20240331;
  kem_preferences := kem_preferences_null;
  signature_preferences := s2n_signature_preferences_20240501;
  certificate_signature_preferences := Some s2n_certificate_signature_preferences_20201110;
  ecc_preferences := s2n_ecc_preferences_20201021;
  certificate_key_preferences := None;
  certificate_preferences_apply_locally := false;
  rules := [S2N_PERFECT_FORWARD_SECRECY; S2N_FIPS_140_3];
|}.

Definition security_policy_20240503 : s2n_security_policy := {|
  policy_symbol := "security_policy_20240503";
  policy_minimum_version := S2N_TLS12;
  cipher_preferences := cipher_preferences_cloudfront_tls_1_2_2019;
  kem_preferences := kem_preferences_null;
  signature_preferences := s2n_signature_preferences_20240501;
  certificate_signature_preferences := Some s2n_certificate_signature_preferences_20201110;
  ecc_preferences := s2n_ecc_preferences_20240501;
  certificate_key_preferences := None;
  certificate_preferences_apply_locally := false;
  rules := [S2N_PERFECT_FORWARD_SECRECY];
|}.

Definition security_policy_20240730 : s2n_security_policy := {|
  policy_symbol := "security_policy_20240730";
  policy_minimum_version := S2N_TLS12;
  cipher_preferences := cipher_preferences_cloudfront_tls_1_2_2019;
  kem_preferences := kem_preferences_pq_tls_1_3_2023_06;
  signature_preferences := s2n_signature_preferences_20240501;
  certificate_signature_preferences := Some s2n_certificate_signature_preferences_20201110;
  ecc_preferences := s2n_ecc_preferences_20240501;
  certificate_key_preferences := None;
  certificate_preferences_apply_locally := false;
  rules := [S2N_PERFECT_FORWARD_SECRECY];
|}.

Definition security_policy_20241001 : s2n_security_policy := {|
  policy_symbol := "security_policy_20241001";
  policy_minimum_version := S2N_TLS12;
  cipher_preferences := cipher_preferences_cloudfront_tls_1_2_2019;
  kem_preferences := kem_preferences_pq_tls_1_3_ietf_2024_10;
  signature_preferences := s2n_signature_preferences_20240501;
  certificate_signature_preferences := Some s2n_certificate_signature_preferences_20201110;
  ecc_preferences := s2n_ecc_preferences_20240501;
  certificate_key_preferences := None;
  certificate_preferences_apply_locally := false;
  rules := [S2N_PERFECT_FORWARD_SECRECY];
|}.

Definition security_policy_20241001_pq_mixed : s2n_security_policy := {|
  policy_symbol := "security_policy_20241001_pq_mixed";
  policy_minimum_version := S2N_TLS12;
  cipher_preferences := cipher_preferences_cloudfront_tls_1_2_2019;
  kem_preferences := kem_preferences_pq_tls_1_3_mixed_2024_10;
  signature_preferences := s2n_signature_preferences_20240501;
  certificate_signature_preferences := Some s2n_certificate_signature_preferences_20201110;
  ecc_preferences := s2n_ecc_preferences_20240501;
  certificate_key_preferences := None;
  certificate_preferences_apply_locally := false;
  rules := [S2N_PERFECT_FORWARD_SECRECY];
|}.

Definition security_policy_20240603 : s2n_security_policy := {|
  policy_symbol := "security_policy_20240603";
  policy_minimum_version := S2N_TLS12;
  cipher_preferences := cipher_preferences_20240603;
  kem_preferences := kem_preferences_null;
  signature_preferences := s2n_signature_preferences_20240501;
  certificate_signature_preferences := Some s2n_certificate_signature_preferences_20201110;
  ecc_preferences := s2n_ecc_preferences_20240603;
  certificate_key_preferences := None;
  certificate_preferences_apply_locally := false;
  rules := [];
|}.

Definition security_policy_20170210 : s2n_security_policy := {|
  policy_symbol := "security_policy_20170210";
  policy_minimum_version := S2N_TLS10;
  cipher_preferences := cipher_preferences_20170210;
  kem_preferences := kem_preferences_null;
  signature_preferences := s2n_signature_preferences_20140601;
  certificate_signature_preferences := None;
  ecc_preferences := s2n_ecc_preferences_20140601;
  certificate_key_preferences := None;
  certificate_preferences_apply_locally := false;
  rules := [];
|}.

Definition security_policy_20240417 : s2n_security_policy := {|
  policy_symbol := "security_policy_20240417";
  policy_minimum_version := S2N_TLS10;
  cipher_preferences := cipher_preferences_20210831;
  kem_preferences := kem_preferences_null;
  signature_preferences := s2n_signature_preferences_20200207;
  certificate_signature_preferences := Some s2n_certificate_signature_preferences_20201110;
  ecc_preferences := s2n_ecc_preferences_20200310;
  certificate_key_preferences := None;
  certificate_preferences_apply_locally := false;
  rules := [];
|}.

Definition security_policy_20240416 : s2n_security_policy := {|
  policy_symbol := "security_policy_20240416";
  policy_minimum_version := S2N_TLS12;
  cipher_preferences := cipher_preferences_default_fips;
  kem_preferences := kem_preferences_null;
  signature_preferences := s2n_signature_preferences_default_fips;
  certificate_signature_preferences := Some s2n_signature_preferences_default_fips;
  ecc_preferences := s2n_ecc_preferences_default_fips;
  certificate_key_preferences := None;
  certificate_preferences_apply_locally := false;
  rules := [S2N_PERFECT_FORWARD_SECRECY; S2N_FIPS_140_3];
|}.

Definition security_policy_20230317 : s2n_security_policy := {|
  policy_symbol := "security_policy_20230317";
  policy_minimum_version := S2N_TLS12;
  cipher_preferences := cipher_preferences_20230317;
  kem_preferences := kem_preferences_null;
  signature_preferences := s2n_signature_preferences_20230317;
  certificate_signature_preferences := Some s2n_signature_preferences_20230317;
  ecc_preferences := s2n_ecc_preferences_20201021;
  certificate_key_preferences := None;
  certificate_preferences_apply_locally := false;
  rules := [S2N_PERFECT_FORWARD_SECRECY; S2N_FIPS_140_3];
|}.

Definition security_policy_20240331 : s2n_security_policy := {|
  policy_symbol := "security_policy_20240331";
  policy_minimum_version := S2N_TLS12;
  cipher_preferences := cipher_preferences_20240331;
  kem_preferences := kem_preferences_null;
  signature_preferences := s2n_signature_preferences_20230317;
  certificate_signature_preferences := Some s2n_signature_preferences_20230317;
  ecc_preferences := s2n_ecc_preferences_20201021;
  certificate_key_preferences := None;
  certificate_preferences_apply_locally := false;
  rules := [S2N_PERFECT_FORWARD_SECRECY; S2N_FIPS_140_3];
|}.

Definition security_policy_20190801 : s2n_security_policy := {|
  policy_symbol := "security_policy_20190801";
  policy_minimum_version := S2N_TLS10;
  cipher_preferences := cipher_preferences_20190801;
  kem_preferences := kem_preferences_null;
  signature_preferences := s2n_signature_preferences_20200207;
  certificate_signature_preferences := None;
  ecc_preferences := s2n_ecc_preferences_20200310;
  certificate_key_preferences := None;
  certificate_preferences_apply_locally := false;
  rules := [];
|}.

Definition security_policy_20190802 : s2n_security_policy := {|
  policy_symbol := "security_policy_20190802";
  policy_minimum_version := S2N_TLS10;
  cipher_preferences := cipher_preferences_20190801;
  kem_preferences := kem_preferences_null;
  signature_preferences := s2n_signature_preferences_20200207;
  certificate_signature_preferences := None;
  ecc_preferences := s2n_ecc_preferences_20140601;
  certificate_key_preferences := None;
  certificate_preferences_apply_locally := false;
  rules := [];
|}.

Definition security_policy_20170405 : s2n_security_policy := {|
  policy_symbol := "security_policy_20170405";
  policy_minimum_version := S2N_TLS10;
  cipher_preferences := cipher_preferences_20170405;
  kem_preferences := kem_preferences_null;
  signature_preferences := s2n_signature_preferences_20140601;
  certificate_signature_preferences := None;
  ecc_preferences := s2n_ecc_preferences_20140601;
  certificate_key_preferences := None;
  certificate_preferences_apply_locally := false;
  rules := [];
|}.

Definition security_policy_20170405_gcm : s2n_security_policy := {|
  policy_symbol := "security_policy_20170405_gcm";
  policy_minimum_version := S2N_TLS10;
  cipher_preferences := cipher_preferences_20170405_gcm;
  kem_preferences := kem_preferences_null;
  signature_preferences := s2n_signature_preferences_20140601;
  certificate_signature_preferences := None;
  ecc_preferences := s2n_ecc_preferences_20140601;
  certificate_key_preferences := None;
  certificate_preferences_apply_locally := false;
  rules := [];
|}.

Definition security_policy_elb_2015_04 : s2n_security_policy := {|
  policy_symbol := "security_policy_elb_2015_04";
  policy_minimum_version := S2N_TLS10;
  cipher_preferences := elb_security_policy_2015_04;
  kem_preferences := kem_preferences_null;
  signature_preferences := s2n_signature_preferences_20140601;
  certificate_signature_preferences := None;
  ecc_preferences := s2n_ecc_preferences_20140601;
  certificate_key_preferences := None;
  certificate_preferences_apply_locally := false;
  rules := [];
|}.

Definition security_policy_elb_2016_08 : s2n_security_policy := {|
  policy_symbol := "security_policy_elb_2016_08";
  policy_minimum_version := S2N_TLS10;
  cipher_preferences := elb_security_policy_2016_08;
  kem_preferences := kem_preferences_null;
  signature_preferences := s2n_signature_preferences_20140601;
  certificate_signature_preferences := None;
  ecc_preferences := s2n_ecc_preferences_20140601;
  certificate_key_preferences := None;
  certificate_preferences_apply_locally := false;
  rules := [];
|}.

Definition security_policy_elb_tls_1_1_2017_01 : s2n_security_policy := {|
  policy_symbol := "security_policy_elb_tls_1_1_2017_01";
  policy_minimum_version := S2N_TLS11;
  cipher_preferences := elb_security_policy_tls_1_1_2017_01;
  kem_preferences := kem_preferences_null;
  signature_preferences := s2n_signature_preferences_20140601;
  certificate_signature_preferences := None;
  ecc_preferences := s2n_ecc_preferences_20140601;
  certificate_key_preferences := None;
  certificate_preferences_apply_locally := false;
  rules := [];
|}.

Definition security_policy_elb_tls_1_2_2017_01 : s2n_security_policy := {|
  policy_symbol := "security_policy_elb_tls_1_2_2017_01";
  policy_minimum_version := S2N_TLS12;
  cipher_preferences := elb_security_policy_tls_1_2_2017_01;
  kem_preferences := kem_preferences_null;
  signature_preferences := s2n_signature_preferences_20140601;
  certificate_signature_preferences := None;
  ecc_preferences := s2n_ecc_preferences_20140601;
  certificate_key_preferences := None;
  certificate_preferences_apply_locally := false;
  rules := [];
|}.

Definition security_policy_elb_tls_1_2_ext_2018_06 : s2n_security_policy := {|
  policy_symbol := "security_policy_elb_tls_1_2_ext_2018_06";
  policy_minimum_version := S2N_TLS12;
  cipher_preferences := elb_security_policy_tls_1_2_ext_2018_06;
  kem_preferences := kem_preferences_null;
  signature_preferences := s2n_signature_preferences_20140601;
  certificate_signature_preferences := None;
  ecc_preferences := s2n_ecc_preferences_20140601;
  certificate_key_preferences := None;
  certificate_preferences_apply_locally := false;
  rules := [];
|}.

Definition security_policy_elb_fs_2018_06 : s2n_security_policy := {|
  policy_symbol := "security_policy_elb_fs_2018_06";
  policy_minimum_version := S2N_TLS10;
  cipher_preferences := elb_security_policy_fs_2018_06;
  kem_preferences := kem_preferences_null;
  signature_preferences := s2n_signature_preferences_20140601;
  certificate_signature_preferences := None;
  ecc_preferences := s2n_ecc_preferences_20140601;
  certificate_key_preferences := None;
  certificate_preferences_apply_locally := false;
  rules := [S2N_PERFECT_FORWARD_SECRECY];
|}.

Definition security_policy_elb_fs_1_2_2019_08 : s2n_security_policy := {|
  policy_symbol := "security_policy_elb_fs_1_2_2019_08";
  policy_minimum_version := S2N_TLS12;
  cipher_preferences := elb_security_policy_fs_1_2_2019_08;
  kem_preferences := kem_preferences_null;
  signature_preferences := s2n_signature_preferences_20140601;
  certificate_signature_preferences := None;
  ecc_preferences := s2n_ecc_preferences_20140601;
  certificate_key_preferences := None;
  certificate_preferences_apply_locally := false;
  rules := [S2N_PERFECT_FORWARD_SECRECY];
|}.

Definition security_policy_elb_fs_1_1_2019_08 : s2n_security_policy := {|
  policy_symbol := "security_policy_elb_fs_1_1_2019_08";
  policy_minimum_version := S2N_TLS11;
  cipher_preferences := elb_security_policy_fs_1_1_2019_08;
  kem_preferences := kem_preferences_null;
  signature_preferences := s2n_signature_preferences_20140601;
  certificate_signature_preferences := None;
  ecc_preferences := s2n_ecc_preferences_20140601;
  certificate_key_preferences := None;
  certificate_preferences_apply_locally := false;
  rules := [S2N_PERFECT_FORWARD_SECRECY];
|}.

Definition security_policy_elb_fs_1_2_Res_2019_08 : s2n_security_policy := {|
  policy_symbol := "security_policy_elb_fs_1_2_Res_2019_08";
  policy_minimum_version := S2N_TLS12;
  cipher_preferences := elb_security_policy_fs_1_2_Res_2019_08;
  kem_preferences := kem_preferences_null;
  signature_preferences := s2n_signature_preferences_20140601;
  certificate_signature_preferences := None;
  ecc_preferences := s2n_ecc_preferences_20140601;
  certificate_key_preferences := None;
  certificate_preferences_apply_locally := false;
  rules := [S2N_PERFECT_FORWARD_SECRECY];
|}.

Definition security_policy_cloudfront_upstream : s2n_security_policy := {|
  policy_symbol := "security_policy_cloudfront_upstream";
  policy_minimum_version := S2N_SSLv3;
  cipher_preferences := cipher_preferences_cloudfront_upstream;
  kem_preferences := kem_preferences_null;
  signature_preferences := s2n_signature_preferences_20140601;
  certificate_signature_preferences := None;
  ecc_preferences := s2n_ecc_preferences_20230623;
  certificate_key_preferences := None;
  certificate_preferences_apply_locally := false;
  rules := [];
|}.

Definition security_policy_cloudfront_upstream_tls10 : s2n_security_policy := {|
  policy_symbol := "security_policy_cloudfront_upstream_tls10";
  policy_minimum_version := S2N_TLS10;
  cipher_preferences := cipher_preferences_cloudfront_upstream_tls10;
  kem_preferences := kem_preferences_null;
  signature_preferences := s2n_signature_preferences_20140601;
  certificate_signature_preferences := None;
  ecc_preferences := s2n_ecc_preferences_20230623;
  certificate_key_preferences := None;
  certificate_preferences_apply_locally := false;
  rules := [];
|}.

Definition security_policy_cloudfront_upstream_tls11 : s2n_security_policy := {|
  policy_symbol := "security_policy_cloudfront_upstream_tls11";
  policy_minimum_version := S2N_TLS11;
  cipher_preferences := cipher_preferences_cloudfront_upstream_tls11;
  kem_preferences := kem_preferences_null;
  signature_preferences := s2n_signature_preferences_20140601;
  certificate_signature_preferences := None;
  ecc_preferences := s2n_ecc_preferences_20230623;
  certificate_key_preferences := None;
  certificate_preferences_apply_locally := false;
  rules := [];
|}.

Definition security_policy_cloudfront_upstream_tls12 : s2n_security_policy := {|
  policy_symbol := "security_policy_cloudfront_upstream_tls12";
  policy_minimum_version := S2N_TLS12;
  cipher_preferences := cipher_preferences_cloudfront_upstream_tls12;
  kem_preferences := kem_preferences_null;
  signature_preferences := s2n_signature_preferences_20140601;
  certificate_signature_preferences := None;
  ecc_preferences := s2n_ecc_preferences_20230623;
  certificate_key_preferences := None;
  certificate_preferences_apply_locally := false;
  rules := [];
|}.

Definition security_policy_cloudfront_ssl_v_3 : s2n_security_policy := {|
  policy_symbol := "security_policy_cloudfront_ssl_v_3";
  policy_minimum_version := S2N_SSLv3;
  cipher_preferences := cipher_preferences_cloudfront_ssl_v_3;
  kem_preferences := kem_preferences_null;
  signature_preferences := s2n_signature_preferences_20200207;
  certificate_signature_preferences := None;
  ecc_preferences := s2n_ecc_preferences_20200310;
  certificate_key_preferences := None;
  certificate_preferences_apply_locally := false;
  rules := [];
|}.

Definition security_policy_cloudfront_tls_1_0_2014 : s2n_security_policy := {|
  policy_symbol := "security_policy_cloudfront_tls_1_0_2014";
  policy_minimum_version := S2N_TLS10;
  cipher_preferences := cipher_preferences_cloudfront_tls_1_0_2014;
  kem_preferences := kem_preferences_null;
  signature_preferences := s2n_signature_preferences_20200207;
  certificate_signature_preferences := None;
  ecc_preferences := s2n_ecc_preferences_20200310;
  certificate_key_preferences := None;
  certificate_preferences_apply_locally := false;
  rules := [];
|}.

Definition security_policy_cloudfront_tls_1_0_2016 : s2n_security_policy := {|
  policy_symbol := "security_policy_cloudfront_tls_1_0_2016";
  policy_minimum_version := S2N_TLS10;
  cipher_preferences := cipher_preferences_cloudfront_tls_1_0_2016;
  kem_preferences := kem_preferences_null;
  signature_preferences := s2n_signature_preferences_20200207;
  certificate_signature_preferences := None;
  ecc_preferences := s2n_ecc_preferences_20200310;
  certificate_key_preferences := None;
  certificate_preferences_apply_locally := false;
  rules := [];
|}.

Definition security_policy_20241106 : s2n_security_policy := {|
  policy_symbol := "security_policy_20241106";
  policy_minimum_version := S2N_TLS12;
  cipher_preferences := cipher_preferences_cloudfront_tls_1_0_2016;
  kem_preferences := kem_preferences_null;
  signature_preferences := s2n_signature_preferences_20200207;
  certificate_signature_preferences := None;
  ecc_preferences := s2n_ecc_preferences_20200310;
  certificate_key_preferences := None;
  certificate_preferences_apply_locally := false;
  rules := [];
|}.

Definition security_policy_cloudfront_tls_1_1_2016 : s2n_security_policy := {|
  policy_symbol := "security_policy_cloudfront_tls_1_1_2016";
  policy_minimum_version := S2N_TLS11;
  cipher_preferences := cipher_preferences_cloudfront_tls_1_1_2016;
  kem_preferences := kem_preferences_null;
  signature_preferences := s2n_signature_preferences_20200207;
  certificate_signature_preferences := None;
  ecc_preferences := s2n_ecc_preferences_20200310;
  certificate_key_preferences := None;
  certificate_preferences_apply_locally := false;
  rules := [];
|}.

Definition security_policy_cloudfront_tls_1_2_2017 : s2n_security_policy := {|
  policy_symbol := "security_policy_cloudfront_tls_1_2_2017";
  policy_minimum_version := S2N_TLS12;
  cipher_preferences := cipher_preferences_cloudfront_tls_1_2_2017;
  kem_preferences := kem_preferences_null;
  signature_preferences := s2n_signature_preferences_20200207;
  certificate_signature_preferences := None;
  ecc_preferences := s2n_ecc_preferences_20200310;
  certificate_key_preferences := None;
  certificate_preferences_apply_locally := false;
  rules := [];
|}.

Definition security_policy_cloudfront_tls_1_2_2018 : s2n_security_policy := {|
  policy_symbol := "security_policy_cloudfront_tls_1_2_2018";
  policy_minimum_version := S2N_TLS12;
  cipher_preferences := cipher_preferences_cloudfront_tls_1_2_2018;
  kem_preferences := kem_preferences_null;
  signature_preferences := s2n_signature_preferences_20200207;
  certificate_signature_preferences := None;
  ecc_preferences := s2n_ecc_preferences_20200310;
  certificate_key_preferences := None;
  certificate_preferences_apply_locally := false;
  rules := [];
|}.

Definition security_policy_cloudfront_tls_1_2_2019 : s2n_security_policy := {|
  policy_symbol := "security_policy_cloudfront_tls_1_2_2019";
  policy_minimum_version := S2N_TLS12;
  cipher_preferences := cipher_preferences_cloudfront_tls_1_2_2019;
  kem_preferences := kem_preferences_null;
  signature_preferences := s2n_signature_preferences_20200207;
  certificate_signature_preferences := None;
  ecc_preferences := s2n_ecc_preferences_20200310;
  certificate_key_preferences := None;
  certificate_preferences_apply_locally := false;
  rules := [S2N_PERFECT_FORWARD_SECRECY];
|}.

Definition security_policy_cloudfront_tls_1_2_2021 : s2n_security_policy := {|
  policy_symbol := "security_policy_cloudfront_tls_1_2_2021";
  policy_minimum_version := S2N_TLS12;
  cipher_preferences := cipher_preferences_cloudfront_tls_1_2_2021;
  kem_preferences := kem_preferences_null;
  signature_preferences := s2n_signature_preferences_20200207;
  certificate_signature_preferences := None;
  ecc_preferences := s2n_ecc_preferences_20200310;
  certificate_key_preferences := None;
  certificate_preferences_apply_locally := false;
  rules := [S2N_PERFECT_FORWARD_SECRECY];
|}.

Definition security_policy_cloudfront_tls_1_2_2021_chacha20_boosted : s2n_security_policy := {|
  policy_symbol := "security_policy_cloudfront_tls_1_2_2021_chacha20_boosted";
  policy_minimum_version := S2N_TLS12;
  cipher_preferences := cipher_preferences_cloudfront_tls_1_2_2021_chacha20_boosted;
  kem_preferences := kem_preferences_null;
  signature_preferences := s2n_signature_preferences_20200207;
  certificate_signature_preferences := None;
  ecc_preferences := s2n_ecc_preferences_20200310;
  certificate_key_preferences := None;
  certificate_preferences_apply_locally := false;
  rules := [S2N_PERFECT_FORWARD_SECRECY];
|}.

Definition security_policy_cloudfront_ssl_v_3_legacy : s2n_security_policy := {|
  policy_symbol := "security_policy_cloudfront_ssl_v_3_legacy";
  policy_minimum_version := S2N_SSLv3;
  cipher_preferences := cipher_preferences_cloudfront_ssl_v_3_legacy;
  kem_preferences := kem_preferences_null;
  signature_preferences := s2n_signature_preferences_20140601;
  certificate_signature_preferences := None;
  ecc_preferences := s2n_ecc_preferences_20140601;
  certificate_key_preferences := None;
  certificate_preferences_apply_locally := false;
  rules := [];
|}.

Definition security_policy_cloudfront_tls_1_0_2014_legacy : s2n_security_policy := {|
  policy_symbol := "security_policy_cloudfront_tls_1_0_2014_legacy";
  policy_minimum_version := S2N_TLS10;
  cipher_preferences := cipher_preferences_cloudfront_tls_1_0_2014_legacy;
  kem_preferences := kem_preferences_null;
  signature_preferences := s2n_signature_preferences_20140601;
  certificate_signature_preferences := None;
  ecc_preferences := s2n_ecc_preferences_20140601;
  certificate_key_preferences := None;
  certificate_preferences_apply_locally := false;
  rules := [];
|}.

Definition security_policy_cloudfront_tls_1_0_2016_legacy : s2n_security_policy := {|
  policy_symbol := "security_policy_cloudfront_tls_1_0_2016_legacy";
  policy_minimum_version := S2N_TLS10;
  cipher_preferences := cipher_preferences_cloudfront_tls_1_0_2016_legacy;
  kem_preferences := kem_preferences_null;
  signature_preferences := s2n_signature_preferences_20140601;
  certificate_signature_preferences := None;
  ecc_preferences := s2n_ecc_preferences_20140601;
  certificate_key_preferences := None;
  certificate_preferences_apply_locally := false;
  rules := [];
|}.

Definition security_policy_cloudfront_tls_1_1_2016_legacy : s2n_security_policy := {|
  policy_symbol := "security_policy_cloudfront_tls_1_1_2016_legacy";
  policy_minimum_version := S2N_TLS11;
  cipher_preferences := cipher_preferences_cloudfront_tls_1_1_2016_legacy;
  kem_preferences := kem_preferences_null;
  signature_preferences := s2n_signature_preferences_20140601;
  certificate_signature_preferences := None;
  ecc_preferences := s2n_ecc_preferences_20140601;
  certificate_key_preferences := None;
  certificate_preferences_apply_locally := false;
  rules := [];
|}.

Definition security_policy_cloudfront_tls_1_2_2018_legacy : s2n_security_policy := {|
  policy_symbol := "security_policy_cloudfront_tls_1_2_2018_legacy";
  policy_minimum_version := S2N_TLS12;
  cipher_preferences := cipher_preferences_cloudfront_tls_1_2_2018_legacy;
  kem_preferences := kem_preferences_null;
  signature_preferences := s2n_signature_preferences_20140601;
  certificate_signature_preferences := None;
  ecc_preferences := s2n_ecc_preferences_20140601;
  certificate_key_preferences := None;
  certificate_preferences_apply_locally := false;
  rules := [];
|}.

Definition security_policy_cloudfront_tls_1_2_2019_legacy : s2n_security_policy := {|
  policy_symbol := "security_policy_cloudfront_tls_1_2_2019_legacy";
  policy_minimum_version := S2N_TLS12;
  cipher_preferences := cipher_preferences_cloudfront_tls_1_2_2019_legacy;
  kem_preferences := kem_preferences_null;
  signature_preferences := s2n_signature_preferences_20140601;
  certificate_signature_preferences := None;
  ecc_preferences := s2n_ecc_preferences_20140601;
  certificate_key_preferences := None;
  certificate_preferences_apply_locally := false;
  rules := [S2N_PERFECT_FORWARD_SECRECY];
|}.

Definition security_policy_aws_crt_sdk_ssl_v3 : s2n_security_policy := {|
  policy_symbol := "security_policy_aws_crt_sdk_ssl_v3";
  policy_minimum_version := S2N_SSLv3;
  cipher_preferences := cipher_preferences_aws_crt_sdk_ssl_v3;
  kem_preferences := kem_preferences_null;
  signature_preferences := s2n_signature_preferences_20200207;
  certificate_signature_preferences := None;
  ecc_preferences := s2n_ecc_preferences_20200310;
  certificate_key_preferences := None;
  certificate_preferences_apply_locally := false;
  rules := [];
|}.

Definition security_policy_aws_crt_sdk_tls_10 : s2n_security_policy := {|
  policy_symbol := "security_policy_aws_crt_sdk_tls_10";
  policy_minimum_version := S2N_TLS10;
  cipher_preferences := cipher_preferences_aws_crt_sdk_default;
  kem_preferences := kem_preferences_null;
  signature_preferences := s2n_signature_preferences_20200207;
  certificate_signature_preferences := None;
  ecc_preferences := s2n_ecc_preferences_20200310;
  certificate_key_preferences := None;
  certificate_preferences_apply_locally := false;
  rules := [];
|}.

Definition security_policy_aws_crt_sdk_tls_11 : s2n_security_policy := {|
  policy_symbol := "security_policy_aws_crt_sdk_tls_11";
  policy_minimum_version := S2N_TLS11;
  cipher_preferences := cipher_preferences_aws_crt_sdk_default;
  kem_preferences := kem_preferences_null;
  signature_preferences := s2n_signature_preferences_20200207;
  certificate_signature_preferences := None;
  ecc_preferences := s2n_ecc_preferences_20200310;
  certificate_key_preferences := None;
  certificate_preferences_apply_locally := false;
  rules := [];
|}.

Definition security_policy_aws_crt_sdk_tls_12 : s2n_security_policy := {|
  policy_symbol := "security_policy_aws_crt_sdk_tls_12";
  policy_minimum_version := S2N_TLS12;
  cipher_preferences := cipher_preferences_aws_crt_sdk_default;
  kem_preferences := kem_preferences_null;
  signature_preferences := s2n_signature_preferences_20200207;
  certificate_signature_preferences := None;
  ecc_preferences := s2n_ecc_preferences_20200310;
  certificate_key_preferences := None;
  certificate_preferences_apply_locally := false;
  rules := [];
|}.

Definition security_policy_aws_crt_sdk_tls_13 : s2n_security_policy := {|
  policy_symbol := "security_policy_aws_crt_sdk_tls_13";
  policy_minimum_version := S2N_TLS13;
  cipher_preferences := cipher_preferences_aws_crt_sdk_tls_13;
  kem_preferences := kem_preferences_null;
  signature_preferences := s2n_signature_preferences_20200207;
  certificate_signature_preferences := None;
  ecc_preferences := s2n_ecc_preferences_20200310;
  certificate_key_preferences := None;
  certificate_preferences_apply_locally := false;
  rules := [S2N_PERFECT_FORWARD_SECRECY];
|}.

Definition security_policy_aws_crt_sdk_ssl_v3_06_23 : s2n_security_policy := {|
  policy_symbol := "security_policy_aws_crt_sdk_ssl_v3_06_23";
  policy_minimum_version := S2N_SSLv3;
  cipher_preferences := cipher_preferences_aws_crt_sdk_ssl_v3;
  kem_preferences := kem_preferences_null;
  signature_preferences := s2n_signature_preferences_20200207;
  certificate_signature_preferences := None;
  ecc_preferences := s2n_ecc_preferences_20230623;
  certificate_key_preferences := None;
  certificate_preferences_apply_locally := false;
  rules := [];
|}.

Definition security_policy_aws_crt_sdk_tls_10_06_23 : s2n_security_policy := {|
  policy_symbol := "security_policy_aws_crt_sdk_tls_10_06_23";
  policy_minimum_version := S2N_TLS10;
  cipher_preferences := cipher_preferences_aws_crt_sdk_default;
  kem_preferences := kem_preferences_null;
  signature_preferences := s2n_signature_preferences_20200207;
  certificate_signature_preferences := None;
  ecc_preferences := s2n_ecc_preferences_20230623;
  certificate_key_preferences := None;
  certificate_preferences_apply_locally := false;
  rules := [];
|}.

Definition security_policy_aws_crt_sdk_tls_11_06_23 : s2n_security_policy := {|
  policy_symbol := "security_policy_aws_crt_sdk_tls_11_06_23";
  policy_minimum_version := S2N_TLS11;
  cipher_preferences := cipher_preferences_aws_crt_sdk_default;
  kem_preferences := kem_preferences_null;
  signature_preferences := s2n_signature_preferences_20200207;
  certificate_signature_preferences := None;
  ecc_preferences := s2n_ecc_preferences_20230623;
  certificate_key_preferences := None;
  certificate_preferences_apply_locally := false;
  rules := [];
|}.

Definition security_policy_aws_crt_sdk_tls_12_06_23 : s2n_security_policy := {|
  policy_symbol := "security_policy_aws_crt_sdk_tls_12_06_23";
  policy_minimum_version := S2N_TLS12;
  cipher_preferences := cipher_preferences_aws_crt_sdk_default;
  kem_preferences := kem_preferences_null;
  signature_preferences := s2n_signature_preferences_20200207;
  certificate_signature_preferences := None;
  ecc_preferences := s2n_ecc_preferences_20230623;
  certificate_key_preferences := None;
  certificate_preferences_apply_locally := false;
  rules := [];
|}.

Definition security_policy_aws_crt_sdk_tls_13_06_23 : s2n_security_policy := {|
  policy_symbol := "security_policy_aws_crt_sdk_tls_13_06_23";
  policy_minimum_version := S2N_TLS13;
  cipher_preferences := cipher_preferences_aws_crt_sdk_tls_13;
  kem_preferences := kem_preferences_null;
  signature_preferences := s2n_signature_preferences_20200207;
  certificate_signature_preferences := None;
  ecc_preferences := s2n_ecc_preferences_20230623;
  certificate_key_preferences := None;
  certificate_preferences_apply_locally := false;
  rules := [S2N_PERFECT_FORWARD_SECRECY];
|}.

Definition security_policy_kms_tls_1_0_2018_10 : s2n_security_policy := {|
  policy_symbol := "security_policy_kms_tls_1_0_2018_10";
  policy_minimum_version := S2N_TLS10;
  cipher_preferences := cipher_preferences_kms_tls_1_0_2018_10;
  kem_preferences := kem_preferences_null;
  signature_preferences := s2n_signature_preferences_20140601;
  certificate_signature_preferences := None;
  ecc_preferences := s2n_ecc_preferences_20140601;
  certificate_key_preferences := None;
  certificate_preferences_apply_locally := false;
  rules := [S2N_PERFECT_FORWARD_SECRECY];
|}.

Definition security_policy_kms_tls_1_0_2021_08 : s2n_security_policy := {|
  policy_symbol := "security_policy_kms_tls_1_0_2021_08";
  policy_minimum_version := S2N_TLS10;
  cipher_preferences := cipher_preferences_kms_tls_1_0_2021_08;
  kem_preferences := kem_preferences_null;
  signature_preferences := s2n_signature_preferences_20200207;
  certificate_signature_preferences := None;
  ecc_preferences := s2n_ecc_preferences_20200310;
  certificate_key_preferences := None;
  certificate_preferences_apply_locally := false;
  rules := [S2N_PERFECT_FORWARD_SECRECY];
|}.

Definition security_policy_kms_tls_1_2_2023_06 : s2n_security_policy := {|
  policy_symbol := "security_policy_kms_tls_1_2_2023_06";
  policy_minimum_version := S2N_TLS12;
  cipher_preferences := cipher_preferences_kms_tls_1_0_2021_08;
  kem_preferences := kem_preferences_null;
  signature_preferences := s2n_signature_preferences_20200207;
  certificate_signature_preferences := None;
  ecc_preferences := s2n_ecc_preferences_20200310;
  certificate_key_preferences := None;
  certificate_preferences_apply_locally := false;
  rules := [S2N_PERFECT_FORWARD_SECRECY];
|}.

Definition security_policy_kms_pq_tls_1_0_2019_06 : s2n_security_policy := {|
  policy_symbol := "security_policy_kms_pq_tls_1_0_2019_06";
  policy_minimum_version := S2N_TLS10;
  cipher_preferences := cipher_preferences_kms_pq_tls_1_0_2019_06;
  kem_preferences := kem_preferences_null;
  signature_preferences := s2n_signature_preferences_20140601;
  certificate_signature_preferences := None;
  ecc_preferences := s2n_ecc_preferences_20140601;
  certificate_key_preferences := None;
  certificate_preferences_apply_locally := false;
  rules := [S2N_PERFECT_FORWARD_SECRECY];
|}.

Definition security_policy_kms_pq_tls_1_0_2020_02 : s2n_security_policy := {|
  policy_symbol := "security_policy_kms_pq_tls_1_0_2020_02";
  policy_minimum_version := S2N_TLS10;
  cipher_preferences := cipher_preferences_kms_pq_tls_1_0_2020_02;
  kem_preferences := kem_preferences_null;
  signature_preferences := s2n_signature_preferences_20140601;
  certificate_signature_preferences := None;
  ecc_preferences := s2n_ecc_preferences_20140601;
  certificate_key_preferences := None;
  certificate_preferences_apply_locally := false;
  rules := [S2N_PERFECT_FORWARD_SECRECY];
|}.

Definition security_policy_kms_pq_tls_1_0_2020_07 : s2n_security_policy := {|
  policy_symbol := "security_policy_kms_pq_tls_1_0_2020_07";
  policy_minimum_version := S2N_TLS10;
  cipher_preferences := cipher_preferences_kms_pq_tls_1_0_2020_07;
  kem_preferences := kem_preferences_pq_tls_1_0_2021_05;
  signature_preferences := s2n_signature_preferences_20140601;
  certificate_signature_preferences := None;
  ecc_preferences := s2n_ecc_preferences_20140601;
  certificate_key_preferences := None;
  certificate_preferences_apply_locally := false;
  rules := [S2N_PERFECT_FORWARD_SECRECY];
|}.

Definition security_policy_pq_tls_1_0_2020_12 : s2n_security_policy := {|
  policy_symbol := "security_policy_pq_tls_1_0_2020_12";
  policy_minimum_version := S2N_TLS10;
  cipher_preferences := cipher_preferences_pq_tls_1_0_2020_12;
  kem_preferences := kem_preferences_pq_tls_1_0_2021_05;
  signature_preferences := s2n_signature_preferences_20200207;
  certificate_signature_preferences := None;
  ecc_preferences := s2n_ecc_preferences_20200310;
  certificate_key_preferences := None;
  certificate_preferences_apply_locally := false;
  rules := [S2N_PERFECT_FORWARD_SECRECY];
|}.

Definition security_policy_pq_tls_1_1_2021_05_17 : s2n_security_policy := {|
  policy_symbol := "security_policy_pq_tls_1_1_2021_05_17";
  policy_minimum_version := S2N_TLS11;
  cipher_preferences := cipher_preferences_pq_tls_1_1_2021_05_17;
  kem_preferences := kem_preferences_pq_tls_1_0_2021_05;
  signature_preferences := s2n_signature_preferences_20140601;
  certificate_signature_preferences := None;
  ecc_preferences := s2n_ecc_preferences_20200310;
  certificate_key_preferences := None;
  certificate_preferences_apply_locally := false;
  rules := [];
|}.

Definition security_policy_pq_tls_1_0_2021_05_18 : s2n_security_policy := {|
  policy_symbol := "security_policy_pq_tls_1_0_2021_05_18";
  policy_minimum_version := S2N_TLS10;
  cipher_preferences := cipher_preferences_pq_tls_1_0_2021_05_18;
  kem_preferences := kem_preferences_pq_tls_1_0_2021_05;
  signature_preferences := s2n_signature_preferences_20140601;
  certificate_signature_preferences := None;
  ecc_preferences := s2n_ecc_preferences_20200310;
  certificate_key_preferences := None;
  certificate_preferences_apply_locally := false;
  rules := [];
|}.

Definition security_policy_pq_tls_1_0_2021_05_19 : s2n_security_policy := {|
  policy_symbol := "security_policy_pq_tls_1_0_2021_05_19";
  policy_minimum_version := S2N_TLS10;
  cipher_preferences := cipher_preferences_pq_tls_1_0_2021_05_19;
  kem_preferences := kem_preferences_pq_tls_1_0_2021_05;
  signature_preferences := s2n_signature_preferences_20140601;
  certificate_signature_preferences := None;
  ecc_preferences := s2n_ecc_preferences_20200310;
  certificate_key_preferences := None;
  certificate_preferences_apply_locally := false;
  rules := [];
|}.

Definition security_policy_pq_tls_1_0_2021_05_20 : s2n_security_policy := {|
  policy_symbol := "security_policy_pq_tls_1_0_2021_05_20";
  policy_minimum_version := S2N_TLS10;
  cipher_preferences := cipher_preferences_kms_pq_tls_1_0_2020_07;
  kem_preferences := kem_preferences_pq_tls_1_0_2021_05;
  signature_preferences := s2n_signature_preferences_20140601;
  certificate_signature_preferences := None;
  ecc_preferences := s2n_ecc_preferences_20200310;
  certificate_key_preferences := None;
  certificate_preferences_apply_locally := false;
  rules := [S2N_PERFECT_FORWARD_SECRECY];
|}.

Definition security_policy_pq_tls_1_1_2021_05_21 : s2n_security_policy := {|
  policy_symbol := "security_policy_pq_tls_1_1_2021_05_21";
  policy_minimum_version := S2N_TLS11;
  cipher_preferences := cipher_preferences_pq_tls_1_1_2021_05_21;
  kem_preferences := kem_preferences_pq_tls_1_0_2021_05;
  signature_preferences := s2n_signature_preferences_20200207;
  certificate_signature_preferences := None;
  ecc_preferences := s2n_ecc_preferences_20200310;
  certificate_key_preferences := None;
  certificate_preferences_apply_locally := false;
  rules := [];
|}.

Definition security_policy_pq_tls_1_0_2021_05_22 : s2n_security_policy := {|
  policy_symbol := "security_policy_pq_tls_1_0_2021_05_22";
  policy_minimum_version := S2N_TLS10;
  cipher_preferences := cipher_preferences_pq_tls_1_0_2021_05_22;
  kem_preferences := kem_preferences_pq_tls_1_0_2021_05;
  signature_preferences := s2n_signature_preferences_20200207;
  certificate_signature_preferences := None;
  ecc_preferences := s2n_ecc_preferences_20200310;
  certificate_key_preferences := None;
  certificate_preferences_apply_locally := false;
  rules := [];
|}.

Definition security_policy_pq_tls_1_0_2021_05_23 : s2n_security_policy := {|
  policy_symbol := "security_policy_pq_tls_1_0_2021_05_23";
  policy_minimum_version := S2N_TLS10;
  cipher_preferences := cipher_preferences_pq_tls_1_0_2021_05_23;
  kem_preferences := kem_preferences_pq_tls_1_0_2021_05;
  signature_preferences := s2n_signature_preferences_20200207;
  certificate_signature_preferences := None;
  ecc_preferences := s2n_ecc_preferences_20200310;
  certificate_key_preferences := None;
  certificate_preferences_apply_locally := false;
  rules := [];
|}.

Definition security_policy_pq_tls_1_0_2021_05_24 : s2n_security_policy := {|
  policy_symbol := "security_policy_pq_tls_1_0_2021_05_24";
  policy_minimum_version := S2N_TLS10;
  cipher_preferences := cipher_preferences_pq_tls_1_0_2021_05_24;
  kem_preferences := kem_preferences_pq_tls_1_0_2021_05;
  signature_preferences := s2n_signature_preferences_20200207;
  certificate_signature_preferences := None;
  ecc_preferences := s2n_ecc_preferences_20200310;
  certificate_key_preferences := None;
  certificate_preferences_apply_locally := false;
  rules := [S2N_PERFECT_FORWARD_SECRECY];
|}.

Definition security_policy_pq_tls_1_0_2021_05_25 : s2n_security_policy := {|
  policy_symbol := "security_policy_pq_tls_1_0_2021_05_25";
  policy_minimum_version := S2N_TLS10;
  cipher_preferences := cipher_preferences_pq_tls_1_0_2021_05_25;
  kem_preferences := kem_preferences_pq_tls_1_0_2021_05;
  signature_preferences := s2n_signature_preferences_20140601;
  certificate_signature_preferences := None;
  ecc_preferences := s2n_ecc_preferences_20200310;
  certificate_key_preferences := None;
  certificate_preferences_apply_locally := false;
  rules := [];
|}.

Definition security_policy_pq_tls_1_0_2021_05_26 : s2n_security_policy := {|
  policy_symbol := "security_policy_pq_tls_1_0_2021_05_26";
  policy_minimum_version := S2N_TLS10;
  cipher_preferences := cipher_preferences_pq_tls_1_0_2021_05_26;
  kem_preferences := kem_preferences_pq_tls_1_0_2021_05;
  signature_preferences := s2n_signature_preferences_20200207;
  certificate_signature_preferences := None;
  ecc_preferences := s2n_ecc_preferences_20200310;
  certificate_key_preferences := None;
  certificate_preferences_apply_locally := false;
  rules := [];
|}.

Definition security_policy_pq_tls_1_0_2023_01_24 : s2n_security_policy := {|
  policy_symbol := "security_policy_pq_tls_1_0_2023_01_24";
  policy_minimum_version := S2N_TLS10;
  cipher_preferences := cipher_preferences_pq_tls_1_0_2021_05_24;
  kem_preferences := kem_preferences_pq_tls_1_0_2023_01;
  signature_preferences := s2n_signature_preferences_20200207;
  certificate_signature_preferences := None;
  ecc_preferences := s2n_ecc_preferences_20200310;
  certificate_key_preferences := None;
  certificate_preferences_apply_locally := false;
  rules := [S2N_PERFECT_FORWARD_SECRECY];
|}.

Definition security_policy_pq_tls_1_2_2023_04_07 : s2n_security_policy := {|
  policy_symbol := "security_policy_pq_tls_1_2_2023_04_07";
  policy_minimum_version := S2N_TLS12;
  cipher_preferences := cipher_preferences_pq_tls_1_1_2021_05_21;
  kem_preferences := kem_preferences_pq_tls_1_0_2021_05;
  signature_preferences := s2n_signature_preferences_20200207;
  certificate_signature_preferences := None;
  ecc_preferences := s2n_ecc_preferences_20200310;
  certificate_key_preferences := None;
  certificate_preferences_apply_locally := false;
  rules := [];
|}.

Definition security_policy_pq_tls_1_2_2023_04_08 : s2n_security_policy := {|
  policy_symbol := "security_policy_pq_tls_1_2_2023_04_08";
  policy_minimum_version := S2N_TLS12;
  cipher_preferences := cipher_preferences_pq_tls_1_0_2021_05_22;
  kem_preferences := kem_preferences_pq_tls_1_0_2021_05;
  signature_preferences := s2n_signature_preferences_20200207;
  certificate_signature_preferences := None;
  ecc_preferences := s2n_ecc_preferences_20200310;
  certificate_key_preferences := None;
  certificate_preferences_apply_locally := false;
  rules := [];
|}.

Definition security_policy_pq_tls_1_2_2023_04_09 : s2n_security_policy := {|
  policy_symbol := "security_policy_pq_tls_1_2_2023_04_09";
  policy_minimum_version := S2N_TLS12;
  cipher_preferences := cipher_preferences_pq_tls_1_0_2021_05_24;
  kem_preferences := kem_preferences_pq_tls_1_0_2021_05;
  signature_preferences := s2n_signature_preferences_20200207;
  certificate_signature_preferences := None;
  ecc_preferences := s2n_ecc_preferences_20200310;
  certificate_key_preferences := None;
  certificate_preferences_apply_locally := false;
  rules := [S2N_PERFECT_FORWARD_SECRECY];
|}.

Definition security_policy_pq_tls_1_2_2023_04_10 : s2n_security_policy := {|
  policy_symbol := "security_policy_pq_tls_1_2_2023_04_10";
  policy_minimum_version := S2N_TLS12;
  cipher_preferences := cipher_preferences_pq_tls_1_0_2021_05_26;
  kem_preferences := kem_preferences_pq_tls_1_0_2021_05;
  signature_preferences := s2n_signature_preferences_20200207;
  certificate_signature_preferences := None;
  ecc_preferences := s2n_ecc_preferences_20200310;
  certificate_key_preferences := None;
  certificate_preferences_apply_locally := false;
  rules := [];
|}.

Definition security_policy_pq_tls_1_3_2023_06_01 : s2n_security_policy := {|
  policy_symbol := "security_policy_pq_tls_1_3_2023_06_01";
  policy_minimum_version := S2N_TLS12;
  cipher_preferences := cipher_preferences_pq_tls_1_3_2023_06_01;
  kem_preferences := kem_preferences_pq_tls_1_3_2023_06;
  signature_preferences := s2n_signature_preferences_20200207;
  certificate_signature_preferences := None;
  ecc_preferences := s2n_ecc_preferences_20201021;
  certificate_key_preferences := None;
  certificate_preferences_apply_locally := false;
  rules := [];
|}.

Definition security_policy_pq_tls_1_2_2023_10_07 : s2n_security_policy := {|
  policy_symbol := "security_policy_pq_tls_1_2_2023_10_07";
  policy_minimum_version := S2N_TLS12;
  cipher_preferences := cipher_preferences_pq_tls_1_1_2021_05_21;
  kem_preferences := kem_preferences_pq_tls_1_3_2023_06;
  signature_preferences := s2n_signature_preferences_20200207;
  certificate_signature_preferences := None;
  ecc_preferences := s2n_ecc_preferences_20200310;
  certificate_key_preferences := None;
  certificate_preferences_apply_locally := false;
  rules := [];
|}.

Definition security_policy_pq_tls_1_2_2023_10_08 : s2n_security_policy := {|
  policy_symbol := "security_policy_pq_tls_1_2_2023_10_08";
  policy_minimum_version := S2N_TLS12;
  cipher_preferences := cipher_preferences_pq_tls_1_0_2021_05_22;
  kem_preferences := kem_preferences_pq_tls_1_3_2023_06;
  signature_preferences := s2n_signature_preferences_20200207;
  certificate_signature_preferences := None;
  ecc_preferences := s2n_ecc_preferences_20200310;
  certificate_key_preferences := None;
  certificate_preferences_apply_locally := false;
  rules := [];
|}.

Definition security_policy_pq_tls_1_2_2023_10_09 : s2n_security_policy := {|
  policy_symbol := "security_policy_pq_tls_1_2_2023_10_09";
  policy_minimum_version := S2N_TLS12;
  cipher_preferences := cipher_preferences_pq_tls_1_0_2021_05_24;
  kem_preferences := kem_preferences_pq_tls_1_3_2023_06;
  signature_preferences := s2n_signature_preferences_20200207;
  certificate_signature_preferences := None;
  ecc_preferences := s2n_ecc_preferences_20200310;
  certificate_key_preferences := None;
  certificate_preferences_apply_locally := false;
  rules := [S2N_PERFECT_FORWARD_SECRECY];
|}.

Definition security_policy_pq_tls_1_2_2023_10_10 : s2n_security_policy := {|
  policy_symbol := "security_policy_pq_tls_1_2_2023_10_10";
  policy_minimum_version := S2N_TLS12;
  cipher_preferences := cipher_preferences_pq_tls_1_0_2021_05_26;
  kem_preferences := kem_preferences_pq_tls_1_3_2023_06;
  signature_preferences := s2n_signature_preferences_20200207;
  certificate_signature_preferences := None;
  ecc_preferences := s2n_ecc_preferences_20200310;
  certificate_key_preferences := None;
  certificate_preferences_apply_locally := false;
  rules := [];
|}.

Definition security_policy_pq_20231213 : s2n_security_policy := {|
  policy_symbol := "security_policy_pq_20231213";
  policy_minimum_version := S2N_TLS12;
  cipher_preferences := cipher_preferences_20231213;
  kem_preferences := kem_preferences_pq_tls_1_3_2023_12;
  signature_preferences := s2n_signature_preferences_20230317;
  certificate_signature_preferences := None;
  ecc_preferences := s2n_ecc_preferences_20201021;
  certificate_key_preferences := None;
  certificate_preferences_apply_locally := false;
  rules := [];
|}.

Definition security_policy_pq_20231214 : s2n_security_policy := {|
  policy_symbol := "security_policy_pq_20231214";
  policy_minimum_version := S2N_TLS12;
  cipher_preferences := cipher_preferences_20231214;
  kem_preferences := kem_preferences_pq_tls_1_3_2023_12;
  signature_preferences := s2n_signature_preferences_20230317;
  certificate_signature_preferences := None;
  ecc_preferences := s2n_ecc_preferences_20201021;
  certificate_key_preferences := None;
  certificate_preferences_apply_locally := false;
  rules := [S2N_FIPS_140_3];
|}.

Definition security_policy_pq_20231215 : s2n_security_policy := {|
  policy_symbol := "security_policy_pq_20231215";
  policy_minimum_version := S2N_TLS12;
  cipher_preferences := cipher_preferences_kms_fips_tls_1_2_2021_08;
  kem_preferences := kem_preferences_pq_tls_1_3_2023_12;
  signature_preferences := s2n_signature_preferences_20230317;
  certificate_signature_preferences := None;
  ecc_preferences := s2n_ecc_preferences_20201021;
  certificate_key_preferences := None;
  certificate_preferences_apply_locally := false;
  rules := [S2N_FIPS_140_3];
|}.

Definition security_policy_aws_crt_sdk_tls_12_06_23_pq : s2n_security_policy := {|
  policy_symbol := "security_policy_aws_crt_sdk_tls_12_06_23_pq";
  policy_minimum_version := S2N_TLS12;
  cipher_preferences := cipher_preferences_aws_crt_sdk_default;
  kem_preferences := kem_preferences_pq_tls_1_3_mixed_2024_10;
  signature_preferences := s2n_signature_preferences_20200207;
  certificate_signature_preferences := None;
  ecc_preferences := s2n_ecc_preferences_20230623;
  certificate_key_preferences := None;
  certificate_preferences_apply_locally := false;
  rules := [];
|}.

Definition security_policy_pq_tls_1_2_2024_10_07 : s2n_security_policy := {|
  policy_symbol := "security_policy_pq_tls_1_2_2024_10_07";
  policy_minimum_version := S2N_TLS12;
  cipher_preferences := elb_security_policy_tls13_1_2_Ext2_2021_06;
  kem_preferences := kem_preferences_pq_tls_1_3_mixed_2024_10;
  signature_preferences := s2n_signature_preferences_20200207;
  certificate_signature_preferences := None;
  ecc_preferences := s2n_ecc_preferences_20200310;
  certificate_key_preferences := None;
  certificate_preferences_apply_locally := false;
  rules := [];
|}.

Definition security_policy_pq_tls_1_2_2024_10_08 : s2n_security_policy := {|
  policy_symbol := "security_policy_pq_tls_1_2_2024_10_08";
  policy_minimum_version := S2N_TLS12;
  cipher_preferences := cipher_preferences_20241008;
  kem_preferences := kem_preferences_pq_tls_1_3_mixed_2024_10;
  signature_preferences := s2n_signature_preferences_20200207;
  certificate_signature_preferences := None;
  ecc_preferences := s2n_ecc_preferences_20200310;
  certificate_key_preferences := None;
  certificate_preferences_apply_locally := false;
  rules := [];
|}.

Definition security_policy_pq_tls_1_2_2024_10_08_gcm : s2n_security_policy := {|
  policy_symbol := "security_policy_pq_tls_1_2_2024_10_08_gcm";
  policy_minimum_version := S2N_TLS12;
  cipher_preferences := cipher_preferences_20241008_gcm;
  kem_preferences := kem_preferences_pq_tls_1_3_mixed_2024_10;
  signature_preferences := s2n_signature_preferences_20200207;
  certificate_signature_preferences := None;
  ecc_preferences := s2n_ecc_preferences_20200310;
  certificate_key_preferences := None;
  certificate_preferences_apply_locally := false;
  rules := [];
|}.

Definition security_policy_pq_tls_1_2_2024_10_09 : s2n_security_policy := {|
  policy_symbol := "security_policy_pq_tls_1_2_2024_10_09";
  policy_minimum_version := S2N_TLS12;
  cipher_preferences := cipher_preferences_20241009;
  kem_preferences := kem_preferences_pq_tls_1_3_mixed_2024_10;
  signature_preferences := s2n_signature_preferences_20200207;
  certificate_signature_preferences := None;
  ecc_preferences := s2n_ecc_preferences_20200310;
  certificate_key_preferences := None;
  certificate_preferences_apply_locally := false;
  rules := [S2N_PERFECT_FORWARD_SECRECY];
|}.

Definition security_policy_kms_fips_tls_1_2_2018_10 : s2n_security_policy := {|
  policy_symbol := "security_policy_kms_fips_tls_1_2_2018_10";
  policy_minimum_version := S2N_TLS12;
  cipher_preferences := cipher_preferences_kms_fips_tls_1_2_2018_10;
  kem_preferences := kem_preferences_null;
  signature_preferences := s2n_signature_preferences_20140601;
  certificate_signature_preferences := None;
  ecc_preferences := s2n_ecc_preferences_20140601;
  certificate_key_preferences := None;
  certificate_preferences_apply_locally := false;
  rules := [S2N_PERFECT_FORWARD_SECRECY];
|}.

Definition security_policy_kms_fips_tls_1_2_2021_08 : s2n_security_policy := {|
  policy_symbol := "security_policy_kms_fips_tls_1_2_2021_08";
  policy_minimum_version := S2N_TLS12;
  cipher_preferences := cipher_preferences_kms_fips_tls_1_2_2021_08;
  kem_preferences := kem_preferences_null;
  signature_preferences := s2n_signature_preferences_20200207;
  certificate_signature_preferences := None;
  ecc_preferences := s2n_ecc_preferences_20140601;
  certificate_key_preferences := None;
  certificate_preferences_apply_locally := false;
  rules := [S2N_PERFECT_FORWARD_SECRECY];
|}.

Definition security_policy_kms_fips_tls_1_2_2024_10 : s2n_security_policy := {|
  policy_symbol := "security_policy_kms_fips_tls_1_2_2024_10";
  policy_minimum_version := S2N_TLS12;
  cipher_preferences := cipher_preferences_kms_fips_tls_1_2_2021_08;
  kem_preferences := kem_preferences_pq_tls_1_3_ietf_2024_10;
  signature_preferences := s2n_signature_preferences_20230317;
  certificate_signature_preferences := None;
  ecc_preferences := s2n_ecc_preferences_20201021;
  certificate_key_preferences := None;
  certificate_preferences_apply_locally := false;
  rules := [S2N_PERFECT_FORWARD_SECRECY; S2N_FIPS_140_3];
|}.

Definition security_policy_20140601 : s2n_security_policy := {|
  policy_symbol := "security_policy_20140601";
  policy_minimum_version := S2N_SSLv3;
  cipher_preferences := cipher_preferences_20140601;
  kem_preferences := kem_preferences_null;
  signature_preferences := s2n_signature_preferences_20140601;
  certificate_signature_preferences := None;
  ecc_preferences := s2n_ecc_preferences_20140601;
  certificate_key_preferences := None;
  certificate_preferences_apply_locally := false;
  rules := [];
|}.

Definition security_policy_20141001 : s2n_security_policy := {|
  policy_symbol := "security_policy_20141001";
  policy_minimum_version := S2N_TLS10;
  cipher_preferences := cipher_preferences_20141001;
  kem_preferences := kem_preferences_null;
  signature_preferences := s2n_signature_preferences_20140601;
  certificate_signature_preferences := None;
  ecc_preferences := s2n_ecc_preferences_20140601;
  certificate_key_preferences := None;
  certificate_preferences_apply_locally := false;
  rules := [];
|}.

Definition security_policy_20150202 : s2n_security_policy := {|
  policy_symbol := "security_policy_20150202";
  policy_minimum_version := S2N_TLS10;
  cipher_preferences := cipher_preferences_20150202;
  kem_preferences := kem_preferences_null;
  signature_preferences := s2n_signature_preferences_20140601;
  certificate_signature_preferences := None;
  ecc_preferences := s2n_ecc_preferences_20140601;
  certificate_key_preferences := None;
  certificate_preferences_apply_locally := false;
  rules := [];
|}.

Definition security_policy_20150214 : s2n_security_policy := {|
  policy_symbol := "security_policy_20150214";
  policy_minimum_version := S2N_TLS10;
  cipher_preferences := cipher_preferences_20150214;
  kem_preferences := kem_preferences_null;
  signature_preferences := s2n_signature_preferences_20140601;
  certificate_signature_preferences := None;
  ecc_preferences := s2n_ecc_preferences_20140601;
  certificate_key_preferences := None;
  certificate_preferences_apply_locally := false;
  rules := [];
|}.

Definition security_policy_20160411 : s2n_security_policy := {|
  policy_symbol := "security_policy_20160411";
  policy_minimum_version := S2N_TLS10;
  cipher_preferences := cipher_preferences_20160411;
  kem_preferences := kem_preferences_null;
  signature_preferences := s2n_signature_preferences_20140601;
  certificate_signature_preferences := None;
  ecc_preferences := s2n_ecc_preferences_20140601;
  certificate_key_preferences := None;
  certificate_preferences_apply_locally := false;
  rules := [];
|}.

Definition security_policy_20150306 : s2n_security_policy := {|
  policy_symbol := "security_policy_20150306";
  policy_minimum_version := S2N_TLS10;
  cipher_preferences := cipher_preferences_20150306;
  kem_preferences := kem_preferences_null;
  signature_preferences := s2n_signature_preferences_20140601;
  certificate_signature_preferences := None;
  ecc_preferences := s2n_ecc_preferences_20140601;
  certificate_key_preferences := None;
  certificate_preferences_apply_locally := false;
  rules := [];
|}.

Definition security_policy_20160804 : s2n_security_policy := {|
  policy_symbol := "security_policy_20160804";
  policy_minimum_version := S2N_TLS10;
  cipher_preferences := cipher_preferences_20160804;
  kem_preferences := kem_preferences_null;
  signature_preferences := s2n_signature_preferences_20140601;
  certificate_signature_preferences := None;
  ecc_preferences := s2n_ecc_preferences_20140601;
  certificate_key_preferences := None;
  certificate_preferences_apply_locally := false;
  rules := [];
|}.

Definition security_policy_20160824 : s2n_security_policy := {|
  policy_symbol := "security_policy_20160824";
  policy_minimum_version := S2N_TLS10;
  cipher_preferences := cipher_preferences_20160824;
  kem_preferences := kem_preferences_null;
  signature_preferences := s2n_signature_preferences_20140601;
  certificate_signature_preferences := None;
  ecc_preferences := s2n_ecc_preferences_20140601;
  certificate_key_preferences := None;
  certificate_preferences_apply_locally := false;
  rules := [];
|}.

Definition security_policy_20190122 : s2n_security_policy := {|
  policy_symbol := "security_policy_20190122";
  policy_minimum_version := S2N_TLS10;
  cipher_preferences := cipher_preferences_20190122;
  kem_preferences := kem_preferences_null;
  signature_preferences := s2n_signature_preferences_20140601;
  certificate_signature_preferences := None;
  ecc_preferences := s2n_ecc_preferences_20140601;
  certificate_key_preferences := None;
  certificate_preferences_apply_locally := false;
  rules := [];
|}.

Definition security_policy_20190121 : s2n_security_policy := {|
  policy_symbol := "security_policy_20190121";
  policy_minimum_version := S2N_TLS10;
  cipher_preferences := cipher_preferences_20190121;
  kem_preferences := kem_preferences_null;
  signature_preferences := s2n_signature_preferences_20140601;
  certificate_signature_preferences := None;
  ecc_preferences := s2n_ecc_preferences_20140601;
  certificate_key_preferences := None;
  certificate_preferences_apply_locally := false;
  rules := [];
|}.

Definition security_policy_20190120 : s2n_security_policy := {|
  policy_symbol := "security_policy_20190120";
  policy_minimum_version := S2N_TLS10;
  cipher_preferences := cipher_preferences_20190120;
  kem_preferences := kem_preferences_null;
  signature_preferences := s2n_signature_preferences_20140601;
  certificate_signature_preferences := None;
  ecc_preferences := s2n_ecc_preferences_20140601;
  certificate_key_preferences := None;
  certificate_preferences_apply_locally := false;
  rules := [];
|}.

Definition security_policy_20190214 : s2n_security_policy := {|
  policy_symbol := "security_policy_20190214";
  policy_minimum_version := S2N_TLS10;
  cipher_preferences := cipher_preferences_20190214;
  kem_preferences := kem_preferences_null;
  signature_preferences := s2n_signature_preferences_20140601;
  certificate_signature_preferences := None;
  ecc_preferences := s2n_ecc_preferences_20140601;
  certificate_key_preferences := None;
  certificate_preferences_apply_locally := false;
  rules := [];
|}.

Definition security_policy_20190214_gcm : s2n_security_policy := {|
  policy_symbol := "security_policy_20190214_gcm";
  policy_minimum_version := S2N_TLS10;
  cipher_preferences := cipher_preferences_20190214_gcm;
  kem_preferences := kem_preferences_null;
  signature_preferences := s2n_signature_preferences_20140601;
  certificate_signature_preferences := None;
  ecc_preferences := s2n_ecc_preferences_20140601;
  certificate_key_preferences := None;
  certificate_preferences_apply_locally := false;
  rules := [];
|}.

Definition security_policy_20210825 : s2n_security_policy := {|
  policy_symbol := "security_policy_20210825";
  policy_minimum_version := S2N_TLS10;
  cipher_preferences := cipher_preferences_20210825;
  kem_preferences := kem_preferences_null;
  signature_preferences := s2n_signature_preferences_20200207;
  certificate_signature_preferences := None;
  ecc_preferences := s2n_ecc_preferences_20200310;
  certificate_key_preferences := None;
  certificate_preferences_apply_locally := false;
  rules := [];
|}.

Definition security_policy_20210825_gcm : s2n_security_policy := {|
  policy_symbol := "security_policy_20210825_gcm";
  policy_minimum_version := S2N_TLS10;
  cipher_preferences := cipher_preferences_20210825_gcm;
  kem_preferences := kem_preferences_null;
  signature_preferences := s2n_signature_preferences_20200207;
  certificate_signature_preferences := None;
  ecc_preferences := s2n_ecc_preferences_20200310;
  certificate_key_preferences := None;
  certificate_preferences_apply_locally := false;
  rules := [];
|}.

Definition security_policy_20170328 : s2n_security_policy := {|
  policy_symbol := "security_policy_20170328";
  policy_minimum_version := S2N_TLS10;
  cipher_preferences := cipher_preferences_20170328;
  kem_preferences := kem_preferences_null;
  signature_preferences := s2n_signature_preferences_20140601;
  certificate_signature_preferences := None;
  ecc_preferences := s2n_ecc_preferences_20140601;
  certificate_key_preferences := None;
  certificate_preferences_apply_locally := false;
  rules := [];
|}.

Definition security_policy_20170328_gcm : s2n_security_policy := {|
  policy_symbol := "security_policy_20170328_gcm";
  policy_minimum_version := S2N_TLS10;
  cipher_preferences := cipher_preferences_20170328_gcm;
  kem_preferences := kem_preferences_null;
  signature_preferences := s2n_signature_preferences_20140601;
  certificate_signature_preferences := None;
  ecc_preferences := s2n_ecc_preferences_20140601;
  certificate_key_preferences := None;
  certificate_preferences_apply_locally := false;
  rules := [];
|}.

Definition security_policy_20170718 : s2n_security_policy := {|
  policy_symbol := "security_policy_20170718";
  policy_minimum_version := S2N_TLS10;
  cipher_preferences := cipher_preferences_20170718;
  kem_preferences := kem_preferences_null;
  signature_preferences := s2n_signature_preferences_20140601;
  certificate_signature_preferences := None;
  ecc_preferences := s2n_ecc_preferences_20140601;
  certificate_key_preferences := None;
  certificate_preferences_apply_locally := false;
  rules := [];
|}.

Definition security_policy_20170718_gcm : s2n_security_policy := {|
  policy_symbol := "security_policy_20170718_gcm";
  policy_minimum_version := S2N_TLS10;
  cipher_preferences := cipher_preferences_20170718_gcm;
  kem_preferences := kem_preferences_null;
  signature_preferences := s2n_signature_preferences_20140601;
  certificate_signature_preferences := None;
  ecc_preferences := s2n_ecc_preferences_20140601;
  certificate_key_preferences := None;
  certificate_preferences_apply_locally := false;
  rules := [];
|}.

Definition security_policy_20201021 : s2n_security_policy := {|
  policy_symbol := "security_policy_20201021";
  policy_minimum_version := S2N_TLS10;
  cipher_preferences := cipher_preferences_20190122;
  kem_preferences := kem_preferences_null;
  signature_preferences := s2n_signature_preferences_20201021;
  certificate_signature_preferences := None;
  ecc_preferences := s2n_ecc_preferences_20201021;
  certificate_key_preferences := None;
  certificate_preferences_apply_locally := false;
  rules := [];
|}.

Definition security_policy_20210816 : s2n_security_policy := {|
  policy_symbol := "security_policy_20210816";
  policy_minimum_version := S2N_TLS12;
  cipher_preferences := cipher_preferences_20210816;
  kem_preferences := kem_preferences_null;
  signature_preferences := s2n_signature_preferences_20210816;
  certificate_signature_preferences := None;
  ecc_preferences := s2n_ecc_preferences_20210816;
  certificate_key_preferences := None;
  certificate_preferences_apply_locally := false;
  rules := [S2N_PERFECT_FORWARD_SECRECY; S2N_FIPS_140_3];
|}.

Definition security_policy_20210816_gcm : s2n_security_policy := {|
  policy_symbol := "security_policy_20210816_gcm";
  policy_minimum_version := S2N_TLS12;
  cipher_preferences := cipher_preferences_20210816_gcm;
  kem_preferences := kem_preferences_null;
  signature_preferences := s2n_signature_preferences_20210816;
  certificate_signature_preferences := None;
  ecc_preferences := s2n_ecc_preferences_20210816;
  certificate_key_preferences := None;
  certificate_preferences_apply_locally := false;
  rules := [S2N_PERFECT_FORWARD_SECRECY; S2N_FIPS_140_3];
|}.

Definition security_policy_rfc9151 : s2n_security_policy := {|
  policy_symbol := "security_policy_rfc9151";
  policy_minimum_version := S2N_TLS12;
  cipher_preferences := cipher_preferences_rfc9151;
  kem_preferences := kem_preferences_null;
  signature_preferences := s2n_signature_preferences_rfc9151;
  certificate_signature_preferences := Some s2n_certificate_signature_preferences_rfc9151;
  ecc_preferences := s2n_ecc_preferences_20210816;
  certificate_key_preferences := Some s2n_certificate_key_preferences_rfc9151;
  certificate_preferences_apply_locally := true;
  rules := [];
|}.

Definition security_policy_20250211 : s2n_security_policy := {|
  policy_symbol := "security_policy_20250211";
  policy_minimum_version := S2N_TLS13;
  cipher_preferences := cipher_preferences_20250211;
  kem_preferences := kem_preferences_null;
  signature_preferences := s2n_signature_preferences_rfc9151;
  certificate_signature_preferences := Some s2n_certificate_signature_preferences_20201110;
  ecc_preferences := s2n_ecc_preferences_20210816;
  certificate_key_preferences := None;
  certificate_preferences_apply_locally := false;
  rules := [S2N_PERFECT_FORWARD_SECRECY];
|}.

Definition security_policy_test_all : s2n_security_policy := {|
  policy_symbol := "security_policy_test_all";
  policy_minimum_version := S2N_SSLv3;
  cipher_preferences := cipher_preferences_test_all;
  kem_preferences := kem_preferences_all;
  signature_preferences := s2n_signature_preferences_all;
  certificate_signature_preferences := None;
  ecc_preferences := s2n_ecc_preferences_test_all;
  certificate_key_preferences := None;
  certificate_preferences_apply_locally := false;
  rules := [];
|}.

Definition security_policy_test_all_tls12 : s2n_security_policy := {|
  policy_symbol := "security_policy_test_all_tls12";
  policy_minimum_version := S2N_SSLv3;
  cipher_preferences := cipher_preferences_test_all_tls12;
  kem_preferences := kem_preferences_pq_tls_1_0_2021_05;
  signature_preferences := s2n_signature_preferences_20201021;
  certificate_signature_preferences := None;
  ecc_preferences := s2n_ecc_preferences_20201021;
  certificate_key_preferences := None;
  certificate_preferences_apply_locally := false;
  rules := [];
|}.

Definition security_policy_test_all_fips : s2n_security_policy := {|
  policy_symbol := "security_policy_test_all_fips";
  policy_minimum_version := S2N_TLS12;
  cipher_preferences := cipher_preferences_test_all_fips;
  kem_preferences := kem_preferences_null;
  signature_preferences := s2n_signature_preferences_test_all_fips;
  certificate_signature_preferences := None;
  ecc_preferences := s2n_ecc_preferences_20201021;
  certificate_key_preferences := None;
  certificate_preferences_apply_locally := false;
  rules := [S2N_FIPS_140_3];
|}.

Definition security_policy_test_all_ecdsa : s2n_security_policy := {|
  policy_symbol := "security_policy_test_all_ecdsa";
  policy_minimum_version := S2N_TLS10;
  cipher_preferences := cipher_preferences_test_all_ecdsa;
  kem_preferences := kem_preferences_null;
  signature_preferences := s2n_signature_preferences_20201021;
  certificate_signature_preferences := None;
  ecc_preferences := s2n_ecc_preferences_test_all;
  certificate_key_preferences := None;
  certificate_preferences_apply_locally := false;
  rules := [S2N_PERFECT_FORWARD_SECRECY];
|}.

Definition security_policy_test_all_rsa_kex : s2n_security_policy := {|
  policy_symbol := "security_policy_test_all_rsa_kex";
  policy_minimum_version := S2N_TLS10;
  cipher_preferences := cipher_preferences_test_all_rsa_kex;
  kem_preferences := kem_preferences_null;
  signature_preferences := s2n_signature_preferences_20140601;
  certificate_signature_preferences := None;
  ecc_preferences := s2n_ecc_preferences_20140601;
  certificate_key_preferences := None;
  certificate_preferences_apply_locally := false;
  rules := [];
|}.

Definition security_policy_test_all_tls13 : s2n_security_policy := {|
  policy_symbol := "security_policy_test_all_tls13";
  policy_minimum_version := S2N_SSLv3;
  cipher_preferences := cipher_preferences_test_all_tls13;
  kem_preferences := kem_preferences_null;
  signature_preferences := s2n_signature_preferences_20201021;
  certificate_signature_preferences := None;
  ecc_preferences := s2n_ecc_preferences_test_all;
  certificate_key_preferences := None;
  certificate_preferences_apply_locally := false;
  rules := [S2N_PERFECT_FORWARD_SECRECY];
|}.

Definition security_policy_test_ecdsa_priority : s2n_security_policy := {|
  policy_symbol := "security_policy_test_ecdsa_priority";
  policy_minimum_version := S2N_SSLv3;
  cipher_preferences := cipher_preferences_test_ecdsa_priority;
  kem_preferences := kem_preferences_null;
  signature_preferences := s2n_signature_preferences_20201021;
  certificate_signature_preferences := None;
  ecc_preferences := s2n_ecc_preferences_test_all;
  certificate_key_preferences := None;
  certificate_preferences_apply_locally := false;
  rules := [];
|}.

Definition security_policy_null : s2n_security_policy := {|
  policy_symbol := "security_policy_null";
  policy_minimum_version := S2N_TLS10;
  cipher_preferences := cipher_preferences_null;
  kem_preferences := kem_preferences_null;
  signature_preferences := s2n_signature_preferences_null;
  certificate_signature_preferences := None;
  ecc_preferences := s2n_ecc_preferences_null;
  certificate_key_preferences := None;
  certificate_preferences_apply_locally := false;
  rules := [];
|}.

(** The rows before the one whose version is NULL. *)
Definition security_policy_selection : list policy_row :=
  [ {| version := "default"; security_policy := security_policy_20240501 |};
    {| version := "default_tls13"; security_policy := security_policy_20240503 |};
    {| version := "default_fips"; security_policy := security_policy_20240502 |};
    {| version := "default_pq"; security_policy := security_policy_20241001 |};
    {| version := "20241106"; security_policy := security_policy_20241106 |};
    {| version := "20240501"; security_policy := security_policy_20240501 |};
    {| version := "20240502"; security_policy := security_policy_20240502 |};
    {| version := "20240503"; security_policy := security_policy_20240503 |};
    {| version := "20230317"; security_policy := security_policy_20230317 |};
    {| version := "20240331"; security_policy := security_policy_20240331 |};
    {| version := "20240417"; security_policy := security_policy_20240417 |};
    {| version := "20240416"; security_policy := security_policy_20240416 |};
    {| version := "20240730"; security_policy := security_policy_20240730 |};
    {| version := "20241001"; security_policy := security_policy_20241001 |};
    {| version := "20241001_pq_mixed"; security_policy := security_policy_20241001_pq_mixed |};
    {| version := "ELBSecurityPolicy-TLS-1-0-2015-04"; security_policy := security_policy_elb_2015_04 |};
    {| version := "ELBSecurityPolicy-TLS-1-0-2015-05"; security_policy := security_policy_elb_2016_08 |};
    {| version := "ELBSecurityPolicy-2016-08"; security_policy := security_policy_elb_2016_08 |};
    {| version := "ELBSecurityPolicy-TLS-1-1-2017-01"; security_policy := security_policy_elb_tls_1_1_2017_01 |};
    {| version := "ELBSecurityPolicy-TLS-1-2-2017-01"; security_policy := security_policy_elb_tls_1_2_2017_01 |};
    {| version := "ELBSecurityPolicy-TLS-1-2-Ext-2018-06"; security_policy := security_policy_elb_tls_1_2_ext_2018_06 |};
    {| version := "ELBSecurityPolicy-FS-2018-06"; security_policy := security_policy_elb_fs_2018_06 |};
    {| version := "ELBSecurityPolicy-FS-1-2-2019-08"; security_policy := security_policy_elb_fs_1_2_2019_08 |};
    {| version := "ELBSecurityPolicy-FS-1-1-2019-08"; security_policy := security_policy_elb_fs_1_1_2019_08 |};
    {| version := "ELBSecurityPolicy-FS-1-2-Res-2019-08"; security_policy := security_policy_elb_fs_1_2_Res_2019_08 |};
    {| version := "CloudFront-Upstream"; security_policy := security_policy_cloudfront_upstream |};
    {| version := "CloudFront-Upstream-TLS-1-0"; security_policy := security_policy_cloudfront_upstream_tls10 |};
    {| version := "CloudFront-Upstream-TLS-1-1"; security_policy := security_policy_cloudfront_upstream_tls11 |};
    {| version := "CloudFront-Upstream-TLS-1-2"; security_policy := security_policy_cloudfront_upstream_tls12 |};
    {| version := "CloudFront-SSL-v-3"; security_policy := security_policy_cloudfront_ssl_v_3 |};
    {| version := "CloudFront-TLS-1-0-2014"; security_policy := security_policy_cloudfront_tls_1_0_2014 |};
    {| version := "CloudFront-TLS-1-0-2016"; security_policy := security_policy_cloudfront_tls_1_0_2016 |};
    {| version := "CloudFront-TLS-1-1-2016"; security_policy := security_policy_cloudfront_tls_1_1_2016 |};
    {| version := "CloudFront-TLS-1-2-2017"; security_policy := security_policy_cloudfront_tls_1_2_2017 |};
    {| version := "CloudFront-TLS-1-2-2018"; security_policy := security_policy_cloudfront_tls_1_2_2018 |};
    {| version := "CloudFront-TLS-1-2-2019"; security_policy := security_policy_cloudfront_tls_1_2_2019 |};
    {| version := "CloudFront-TLS-1-2-2021"; security_policy := security_policy_cloudfront_tls_1_2_2021 |};
    {| version := "CloudFront-TLS-1-2-2021-Chacha20-Boosted"; security_policy := security_policy_cloudfront_tls_1_2_2021_chacha20_boosted |};
    {| version := "CloudFront-SSL-v-3-Legacy"; security_policy := security_policy_cloudfront_ssl_v_3_legacy |};
    {| version := "CloudFront-TLS-1-0-2014-Legacy"; security_policy := security_policy_cloudfront_tls_1_0_2014_legacy |};
    {| version := "CloudFront-TLS-1-0-2016-Legacy"; security_policy := security_policy_cloudfront_tls_1_0_2016_legacy |};
    {| version := "CloudFront-TLS-1-1-2016-Legacy"; security_policy := security_policy_cloudfront_tls_1_1_2016_legacy |};
    {| version := "CloudFront-TLS-1-2-2018-Legacy"; security_policy := security_policy_cloudfront_tls_1_2_2018_legacy |};
    {| version := "CloudFront-TLS-1-2-2019-Legacy"; security_policy := security_policy_cloudfront_tls_1_2_2019_legacy |};
    {| version := "AWS-CRT-SDK-SSLv3.0"; security_policy := security_policy_aws_crt_sdk_ssl_v3 |};
    {| version := "AWS-CRT-SDK-TLSv1.0"; security_policy := security_policy_aws_crt_sdk_tls_10 |};
    {| version := "AWS-CRT-SDK-TLSv1.1"; security_policy := security_policy_aws_crt_sdk_tls_11 |};
    {| version := "AWS-CRT-SDK-TLSv1.2"; security_policy := security_policy_aws_crt_sdk_tls_12 |};
    {| version := "AWS-CRT-SDK-TLSv1.3"; security_policy := security_policy_aws_crt_sdk_tls_13 |};
    {| version := "AWS-CRT-SDK-SSLv3.0-2023"; security_policy := security_policy_aws_crt_sdk_ssl_v3_06_23 |};
    {| version := "AWS-CRT-SDK-TLSv1.0-2023"; security_policy := security_policy_aws_crt_sdk_tls_10_06_23 |};
    {| version := "AWS-CRT-SDK-TLSv1.1-2023"; security_policy := security_policy_aws_crt_sdk_tls_11_06_23 |};
    {| version := "AWS-CRT-SDK-TLSv1.2-2023"; security_policy := security_policy_aws_crt_sdk_tls_12_06_23 |};
    {| version := "AWS-CRT-SDK-TLSv1.2-2023-PQ"; security_policy := security_policy_aws_crt_sdk_tls_12_06_23_pq |};
    {| version := "AWS-CRT-SDK-TLSv1.3-2023"; security_policy := security_policy_aws_crt_sdk_tls_13_06_23 |};
    {| version := "KMS-TLS-1-0-2018-10"; security_policy := security_policy_kms_tls_1_0_2018_10 |};
    {| version := "KMS-TLS-1-0-2021-08"; security_policy := security_policy_kms_tls_1_0_2021_08 |};
    {| version := "KMS-TLS-1-2-2023-06"; security_policy := security_policy_kms_tls_1_2_2023_06 |};
    {| version := "KMS-FIPS-TLS-1-2-2018-10"; security_policy := security_policy_kms_fips_tls_1_2_2018_10 |};
    {| version := "KMS-FIPS-TLS-1-2-2021-08"; security_policy := security_policy_kms_fips_tls_1_2_2021_08 |};
    {| version := "KMS-FIPS-TLS-1-2-2024-10"; security_policy := security_policy_kms_fips_tls_1_2_2024_10 |};
    {| version := "PQ-TLS-1-0-2023-01-24"; security_policy := security_policy_pq_tls_1_0_2023_01_24 |};
    {| version := "PQ-TLS-1-2-2023-04-07"; security_policy := security_policy_pq_tls_1_2_2023_04_07 |};
    {| version := "PQ-TLS-1-2-2023-04-08"; security_policy := security_policy_pq_tls_1_2_2023_04_08 |};
    {| version := "PQ-TLS-1-2-2023-04-09"; security_policy := security_policy_pq_tls_1_2_2023_04_09 |};
    {| version := "PQ-TLS-1-2-2023-04-10"; security_policy := security_policy_pq_tls_1_2_2023_04_10 |};
    {| version := "PQ-TLS-1-3-2023-06-01"; security_policy := security_policy_pq_tls_1_3_2023_06_01 |};
    {| version := "PQ-TLS-1-2-2023-10-07"; security_policy := security_policy_pq_tls_1_2_2023_10_07 |};
    {| version := "PQ-TLS-1-2-2023-10-08"; security_policy := security_policy_pq_tls_1_2_2023_10_08 |};
    {| version := "PQ-TLS-1-2-2023-10-09"; security_policy := security_policy_pq_tls_1_2_2023_10_09 |};
    {| version := "PQ-TLS-1-2-2023-10-10"; security_policy := security_policy_pq_tls_1_2_2023_10_10 |};
    {| version := "PQ-TLS-1-2-2023-12-13"; security_policy := security_policy_pq_20231213 |};
    {| version := "PQ-TLS-1-2-2023-12-14"; security_policy := security_policy_pq_20231214 |};
    {| version := "PQ-TLS-1-2-2023-12-15"; security_policy := security_policy_pq_20231215 |};
    {| version := "PQ-TLS-1-2-2024-10-07"; security_policy := security_policy_pq_tls_1_2_2024_10_07 |};
    {| version := "PQ-TLS-1-2-2024-10-08"; security_policy := security_policy_pq_tls_1_2_2024_10_08 |};
    {| version := "PQ-TLS-1-2-2024-10-08_gcm"; security_policy := security_policy_pq_tls_1_2_2024_10_08_gcm |};
    {| version := "PQ-TLS-1-2-2024-10-09"; security_policy := security_policy_pq_tls_1_2_2024_10_09 |};
    {| version := "20140601"; security_policy := security_policy_20140601 |};
    {| version := "20141001"; security_policy := security_policy_20141001 |};
    {| version := "20150202"; security_policy := security_policy_20150202 |};
    {| version := "20150214"; security_policy := security_policy_20150214 |};
    {| version := "20150306"; security_policy := security_policy_20150306 |};
    {| version := "20160411"; security_policy := security_policy_20160411 |};
    {| version := "20160804"; security_policy := security_policy_20160804 |};
    {| version := "20160824"; security_policy := security_policy_20160824 |};
    {| version := "20170210"; security_policy := security_policy_20170210 |};
    {| version := "20170328"; security_policy := security_policy_20170328 |};
    {| version := "20170328_gcm"; security_policy := security_policy_20170328_gcm |};
    {| version := "20190214"; security_policy := security_policy_20190214 |};
    {| version := "20190214_gcm"; security_policy := security_policy_20190214_gcm |};
    {| version := "20210825"; security_policy := security_policy_20210825 |};
    {| version := "20210825_gcm"; security_policy := security_policy_20210825_gcm |};
    {| version := "20170405"; security_policy := security_policy_20170405 |};
    {| version := "20170405_gcm"; security_policy := security_policy_20170405_gcm |};
    {| version := "20170718"; security_policy := security_policy_20170718 |};
    {| version := "20170718_gcm"; security_policy := security_policy_20170718_gcm |};
    {| version := "20190120"; security_policy := security_policy_20190120 |};
    {| version := "20190121"; security_policy := security_policy_20190121 |};
    {| version := "20190122"; security_policy := security_policy_20190122 |};
    {| version := "20190801"; security_policy := security_policy_20190801 |};
    {| version := "20190802"; security_policy := security_policy_20190802 |};
    {| version := "20200207"; security_policy := security_policy_test_all_tls13 |};
    {| version := "20201021"; security_policy := security_policy_20201021 |};
    {| version := "20210816"; security_policy := security_policy_20210816 |};
    {| version := "20210816_GCM"; security_policy := security_policy_20210816_gcm |};
    {| version := "20240603"; security_policy := security_policy_20240603 |};
    {| version := "20250211"; security_policy := security_policy_20250211 |};
    {| version := "rfc9151"; security_policy := security_policy_rfc9151 |};
    {| version := "test_all"; security_policy := security_policy_test_all |};
    {| version := "test_all_fips"; security_policy := security_policy_test_all_fips |};
    {| version := "test_all_ecdsa"; security_policy := security_policy_test_all_ecdsa |};
    {| version := "test_all_rsa_kex"; security_policy := security_policy_test_all_rsa_kex |};
    {| version := "test_ecdsa_priority"; security_policy := security_policy_test_ecdsa_priority |};
    {| version := "test_all_tls12"; security_policy := security_policy_test_all_tls12 |};
    {| version := "test_all_tls13"; security_policy := security_policy_test_all_tls13 |};
    {| version := "null"; security_policy := security_policy_null |} ].

Definition deprecated_security_policies : list string :=
  [ "KMS-PQ-TLS-1-0-2019-06";
    "KMS-PQ-TLS-1-0-2020-02";
    "KMS-PQ-TLS-1-0-2020-07";
    "PQ-TLS-1-0-2020-12";
    "PQ-TLS-1-1-2021-05-17";
    "PQ-TLS-1-0-2021-05-18";
    "PQ-TLS-1-0-2021-05-19";
    "PQ-TLS-1-0-2021-05-20";
    "PQ-TLS-1-1-2021-05-21";
    "PQ-TLS-1-0-2021-05-22";
    "PQ-TLS-1-0-2021-05-23";
    "PQ-TLS-1-0-2021-05-24";
    "PQ-TLS-1-0-2021-05-25";
    "PQ-TLS-1-0-2021-05-26";
    "PQ-SIKE-TEST-TLS-1-0-2019-11";
    "PQ-SIKE-TEST-TLS-1-0-2020-02" ].
End Policies.
End SecurityPolicies.
Export SecurityPolicies.
