(* ===== verification/SecurityRules.v ===== *)
(** * Security rules and the use of security policies

    tls/s2n_security_rules.c with the FIPS rules of crypto/s2n_fips_rules.c: a
    policy may promise to follow rules, and the library checks at start-up that
    it does.  The functions of tls/s2n_security_policies.c that work on the table
    of policies follow: its initialization, the flags of a row, the lookup by
    name. *)
From Stdlib Require Import Ascii.
From stdpp Require Import strings.
From S2P Require Import Prelude Errors CMem Platform Safety Blob Alloc Stuffer StufferInv StufferWrite StufferSpec NetworkOrder StufferPrintf Connection Libcrypto CipherSuites Groups SignatureSchemes CipherPreferences SecurityPolicies.
Open Scope string_scope.
Open Scope Z_scope.

Module SecurityRules.

(** ** crypto/s2n_fips_rules.c *)

Definition fips_hash_algs : list s2n_hash_algorithm :=
  [ S2N_HASH_SHA224; S2N_HASH_SHA256; S2N_HASH_SHA384; S2N_HASH_SHA512 ].
Definition s2n_fips_validate_hash_algorithm (hash_alg : s2n_hash_algorithm) : bool :=
  existsb (fun a => bool_decide (a = hash_alg)) fips_hash_algs.

Definition fips_cipher_suite_ianas : list (list Z) :=
  [ TLS_ECDHE_ECDSA_WITH_AES_128_GCM_SHA256;
    TLS_ECDHE_ECDSA_WITH_AES_256_GCM_SHA384;
    TLS_ECDHE_ECDSA_WITH_AES_128_CBC_SHA256;
    TLS_ECDHE_ECDSA_WITH_AES_256_CBC_SHA384;
    TLS_ECDHE_ECDSA_WITH_AES_128_CBC_SHA;
    TLS_ECDHE_ECDSA_WITH_AES_256_CBC_SHA;
    TLS_ECDHE_RSA_WITH_AES_128_GCM_SHA256;
    TLS_ECDHE_RSA_WITH_AES_256_GCM_SHA384;
    TLS_DHE_RSA_WITH_AES_128_GCM_SHA256;
    TLS_DHE_RSA_WITH_AES_256_GCM_SHA384;
    TLS_ECDHE_RSA_WITH_AES_128_CBC_SHA256;
    TLS_ECDHE_RSA_WITH_AES_256_CBC_SHA384;
    TLS_DHE_RSA_WITH_AES_128_CBC_SHA256;
    TLS_DHE_RSA_WITH_AES_256_CBC_SHA256;
    TLS_ECDHE_RSA_WITH_AES_128_CBC_SHA;
    TLS_ECDHE_RSA_WITH_AES_256_CBC_SHA;
    TLS_DHE_RSA_WITH_AES_128_CBC_SHA;
    TLS_DHE_RSA_WITH_AES_256_CBC_SHA;
    TLS_AES_128_GCM_SHA256;
    TLS_AES_256_GCM_SHA384 ].
Definition s2n_fips_validate_cipher_suite (c : s2n_cipher_suite) : bool :=
  existsb (fun iana => (znth iana 0 =? znth (iana_value c) 0) && (znth iana 1 =? znth (iana_value c) 1))
    fips_cipher_suite_ianas.

Definition s2n_fips_validate_signature_scheme (s : s2n_signature_scheme) : bool :=
  s2n_fips_validate_hash_algorithm (hash_alg s).

Definition s2n_fips_validate_version (version : Z) : bool := S2N_TLS12 <=? version.

Section Fips.
Context `{Libcrypto}.

Definition fips_curves : list s2n_ecc_named_curve :=
  [ s2n_ecc_curve_secp256r1; s2n_ecc_curve_secp384r1; s2n_ecc_curve_secp521r1 ].
Definition s2n_fips_validate_curve (c : s2n_ecc_named_curve) : bool :=
  existsb (fun f => same_object f c) fips_curves.

Definition fips_kems : list s2n_kem := [ s2n_mlkem_768 ].
Definition s2n_fips_validate_kem (k : s2n_kem) : bool :=
  existsb (fun f => same_object f k) fips_kems.

Definition s2n_fips_validate_hybrid_group (g : s2n_kem_group) : bool :=
  if send_kem_first g then s2n_fips_validate_kem (group_kem g) else s2n_fips_validate_curve (group_curve g).
End Fips.

(** ** tls/s2n_security_rules.c *)

Record s2n_security_rule_result := RuleResult {
  found_error : bool;
  write_output : bool;
  output : s2n_stuffer;
}.
Definition set_found_error (v : bool) (r : s2n_security_rule_result) : s2n_security_rule_result :=
  RuleResult v (write_output r) (output r).
Definition set_write_output (v : bool) (r : s2n_security_rule_result) : s2n_security_rule_result :=
  RuleResult (found_error r) v (output r).
Definition output_lens : lens s2n_security_rule_result s2n_stuffer :=
  Lens output (fun o r => RuleResult (found_error r) (write_output r) o).
Definition zero_result : s2n_security_rule_result := RuleResult false false zero_stuffer.

Record s2n_security_rule := SecurityRule {
  rule_name : string;
  validate_cipher_suite : s2n_cipher_suite -> bool;
  validate_sig_scheme : s2n_signature_scheme -> bool;
  validate_cert_sig_scheme : s2n_signature_scheme -> bool;
  validate_curve : s2n_ecc_named_curve -> bool;
  validate_hybrid_group : s2n_kem_group -> bool;
  validate_version : Z -> bool;
}.

Definition s2n_security_rule_validate_forward_secret (c : s2n_cipher_suite) : bool :=
  is_ephemeral (kex_deref (key_exchange_alg c)).
Definition s2n_security_rule_all_sig_schemes (s : s2n_signature_scheme) : bool := true.
Definition s2n_security_rule_all_curves (c : s2n_ecc_named_curve) : bool := true.
Definition s2n_security_rule_all_hybrid_groups (g : s2n_kem_group) : bool := true.
Definition s2n_security_rule_all_versions (version : Z) : bool := true.

(** ** The table of policies *)

(** The flags of a row of security_policy_selection; they are all 0 at first. *)
Record policy_flags := PolicyFlags {
  ecc_extension_required : bool;
  pq_kem_extension_required : bool;
  supports_tls13 : bool;
}.
Definition zero_flags : policy_flags := PolicyFlags false false false.

Section Definitions.
Context `{Libcrypto} `{Platform}.

Definition security_rule_definitions (id : s2n_security_rule_id) : s2n_security_rule :=
  match id with
  | S2N_PERFECT_FORWARD_SECRECY => {|
      rule_name := "Perfect Forward Secrecy";
      validate_cipher_suite := s2n_security_rule_validate_forward_secret;
      validate_sig_scheme := s2n_security_rule_all_sig_schemes;
      validate_cert_sig_scheme := s2n_security_rule_all_sig_schemes;
      validate_curve := s2n_security_rule_all_curves;
      validate_hybrid_group := s2n_security_rule_all_hybrid_groups;
      validate_version := s2n_security_rule_all_versions;
    |}
  | S2N_FIPS_140_3 => {|
      rule_name := "FIPS 140-3 (2019)";
      validate_cipher_suite := s2n_fips_validate_cipher_suite;
      validate_sig_scheme := s2n_fips_validate_signature_scheme;
      validate_cert_sig_scheme := s2n_fips_validate_signature_scheme;
      validate_curve := s2n_fips_validate_curve;
      validate_hybrid_group := s2n_fips_validate_hybrid_group;
      validate_version := s2n_fips_validate_version;
    |}
  end.

(** The loop [for (uint8_t i = 0; security_policy_selection[i].version != NULL; i++)]
    up to a row whose policy is the given one, with [fuel] iterations left: the
    index of that row, or none when the end is reached. *)
Fixpoint find_row_u8 {X} (fuel : nat) (i : Z) (policy : s2n_security_policy) : Cmd X (option Z) :=
  match fuel with
  | O => undefined
  | S f =>
      match security_policy_selection !! Z.to_nat i with
      | None => ret None
      | Some row => if same_object (security_policy row) policy then ret (Some i) else find_row_u8 f (u8 (i + 1)) policy
      end
  end.

(** An 8-bit index has been everywhere after 256 iterations. *)
Definition s2n_security_policy_get_version {X} (policy : s2n_security_policy) : Cmd X string :=
  r <-- find_row_u8 256 0 policy ;;
  match r with
  | Some i =>
      match security_policy_selection !! Z.to_nat i with
      | Some row => ret (version row)
      | None => undefined
      end
  | None => fail S2N_ERR_INVALID_SECURITY_POLICY
  end.

Definition s2n_security_rule_result_process (condition : bool) (format : string) (args : list printf_arg) :
    Cmd s2n_security_rule_result unit :=
  if condition then ret tt
  else
    modify (set_found_error true) ;;;
    result <-- get_obj ;;
    if negb (write_output result) then ret tt
    else
      zoom output_lens (s2n_stuffer_vprintf format args) ;;;
      zoom output_lens (s2n_stuffer_write_char "010"%char).

(** A loop over an array from index [i] on. *)
Fixpoint for_each {X A} (i : Z) (l : list A) (body : Z -> A -> Cmd X unit) : Cmd X unit :=
  match l with
  | [] => ret tt
  | a :: rest => body i a ;;; for_each (i + 1) rest body
  end.

(** The loop [for (i = 0; i < count; i++)] over the array behind [a], with [k] iterations left. *)
Fixpoint for_counted {X A} (k : nat) (i : Z) (a : option (list A)) (body : Z -> A -> Cmd X unit) : Cmd X unit :=
  match k with
  | O => ret tt
  | S k' => x <-- array_get a i ;; body i x ;;; for_counted k' (i + 1) a body
  end.

Definition error_msg_format_name : string := "%s: policy %s: %s: %s (#%i)".
Definition error_msg_format_basic : string := "%s: policy %s: %s: %i".

Definition s2n_security_rule_validate_policy (rule : s2n_security_rule) (policy : s2n_security_policy) :
    Cmd s2n_security_rule_result unit :=
  r <-- attempt (s2n_security_policy_get_version policy) ;;
  let policy_name := match r with inl n => n | inr _ => "unnamed" end in
  for_each 0 (suites (cipher_preferences policy)) (fun i cipher_suite =>
    s2n_security_rule_result_process (validate_cipher_suite rule cipher_suite) error_msg_format_name
      [PrintStr (rule_name rule); PrintStr policy_name; PrintStr "cipher suite"; PrintStr (iana_name cipher_suite);
       PrintInt (i + 1)]) ;;;
  for_each 0 (signature_schemes (signature_preferences policy)) (fun _ sig_scheme =>
    s2n_security_rule_result_process (validate_sig_scheme rule sig_scheme) error_msg_format_name
      [PrintStr (rule_name rule); PrintStr policy_name; PrintStr "signature scheme";
       PrintStr (scheme_iana_name sig_scheme)]) ;;;
  match certificate_signature_preferences policy with
  | Some cert_sig_prefs =>
      for_each 0 (signature_schemes cert_sig_prefs) (fun _ sig_scheme =>
        s2n_security_rule_result_process (validate_cert_sig_scheme rule sig_scheme) error_msg_format_name
          [PrintStr (rule_name rule); PrintStr policy_name; PrintStr "certificate signature scheme";
           PrintStr (scheme_iana_name sig_scheme)])
  | None => ret tt
  end ;;;
  for_each 0 (ecc_curves (ecc_preferences policy)) (fun i curve =>
    s2n_security_rule_result_process (validate_curve rule curve) error_msg_format_name
      [PrintStr (rule_name rule); PrintStr policy_name; PrintStr "curve"; PrintStr (curve_name curve);
       PrintInt (i + 1)]) ;;;
  for_counted (Z.to_nat (tls13_kem_group_count (kem_preferences policy))) 0 (tls13_kem_groups (kem_preferences policy))
    (fun i kem_group =>
      s2n_security_rule_result_process (validate_hybrid_group rule kem_group) error_msg_format_name
        [PrintStr (rule_name rule); PrintStr policy_name; PrintStr "kem_group"; PrintStr (group_name kem_group);
         PrintInt (i + 1)]) ;;;
  s2n_security_rule_result_process (validate_version rule (policy_minimum_version policy)) error_msg_format_basic
    [PrintStr (rule_name rule); PrintStr policy_name; PrintStr "min version"; PrintInt (policy_minimum_version policy)].

(** The array [rules] in the order of its indices. *)
Definition s2n_security_policy_validate_security_rules (policy : s2n_security_policy) :
    Cmd s2n_security_rule_result unit :=
  for_each 0 [S2N_PERFECT_FORWARD_SECRECY; S2N_FIPS_140_3] (fun _ rule_id =>
    if negb (bool_decide (rule_id ∈ rules policy)) then ret tt
    else s2n_security_rule_validate_policy (security_rule_definitions rule_id) policy).

Definition s2n_security_rule_result_init_output : Cmd s2n_security_rule_result unit :=
  zoom output_lens (s2n_stuffer_growable_alloc 0) ;;;
  modify (set_write_output true).

Definition s2n_security_rule_result_free : Cmd s2n_security_rule_result unit :=
  zoom output_lens s2n_stuffer_free ;;;
  modify (fun _ => zero_result).

(** ** tls/s2n_security_policies.c *)

Definition S2N_IFF (a b : bool) : bool := Bool.eqb a b.
Definition NUM_RSA_PSS_SCHEMES : Z := 6.

Definition s2n_validate_kem_preferences {X} (p : s2n_kem_preferences) (pq_kem_extension_required : bool) : Cmd X unit :=
  let null_groups := match tls13_kem_groups p with None => true | Some _ => false end in
  let null_kems := match kems p with None => true | Some _ => false end in
  ensure (S2N_IFF (tls13_kem_group_count p =? 0) null_groups) S2N_ERR_INVALID_SECURITY_POLICY ;;;
  ensure (S2N_IFF (kem_count p =? 0) null_kems) S2N_ERR_INVALID_SECURITY_POLICY ;;;
  ensure (tls13_kem_group_count p <=? S2N_KEM_GROUPS_COUNT) S2N_ERR_ARRAY_INDEX_OOB ;;;
  if pq_kem_extension_required then
    ensure (0 <? kem_count p) S2N_ERR_INVALID_SECURITY_POLICY ;;;
    ensure (negb null_kems) S2N_ERR_INVALID_SECURITY_POLICY
  else
    ensure (kem_count p =? 0) S2N_ERR_INVALID_SECURITY_POLICY ;;;
    ensure null_kems S2N_ERR_INVALID_SECURITY_POLICY.

Definition s2n_validate_certificate_signature_preferences {X} (p : s2n_signature_preferences) : Cmd X unit :=
  let rsa_pss_scheme_count :=
    zlen (List.filter (fun s => nid_number (scheme_nid s) =? nid_number NID_rsassaPss) (signature_schemes p)) in
  ensure ((rsa_pss_scheme_count =? NUM_RSA_PSS_SCHEMES) || (rsa_pss_scheme_count =? 0)) S2N_ERR_INVALID_SECURITY_POLICY.

(** The state of the functions below is the flags of all rows, in order. *)
Definition set_flags (i : nat) (f : policy_flags -> policy_flags) : Cmd (list policy_flags) unit :=
  modify (alter f i).

(** The loop over the suites of the policy in row [i]. *)
Fixpoint suites_init_loop (i : nat) (p : s2n_kem_preferences) (l : list s2n_cipher_suite) :
    Cmd (list policy_flags) unit :=
  match l with
  | [] => ret tt
  | cipher :: rest =>
      (if S2N_TLS13 <=? minimum_required_tls_version cipher then
         set_flags i (fun f => PolicyFlags (ecc_extension_required f) (pq_kem_extension_required f) true)
       else ret tt) ;;;
      ensure (negb (xorb (s2n_is_valid_tls13_cipher (iana_value cipher))
                         (S2N_TLS13 <=? minimum_required_tls_version cipher))) S2N_ERR_INVALID_SECURITY_POLICY ;;;
      (if s2n_cipher_suite_requires_ecc_extension cipher then
         set_flags i (fun f => PolicyFlags true (pq_kem_extension_required f) (supports_tls13 f))
       else ret tt) ;;;
      (if s2n_cipher_suite_requires_pq_extension cipher && (0 <? kem_count p) then
         set_flags i (fun f => PolicyFlags (ecc_extension_required f) true (supports_tls13 f))
       else ret tt) ;;;
      suites_init_loop i p rest
  end.

(** The body of the loop over the rows. *)
Definition policy_init (in_unit_test : bool) (i : nat) (policy : s2n_security_policy) : Cmd (list policy_flags) unit :=
  let kem_preference := kem_preferences policy in
  s2n_check_ecc_preferences_curves_list (ecc_preferences policy) ;;;
  match certificate_signature_preferences policy with
  | Some p => s2n_validate_certificate_signature_preferences p
  | None => ret tt
  end ;;;
  (if negb (same_object policy security_policy_null) then
     ensure (negb (zlen (ecc_curves (ecc_preferences policy)) =? 0)) S2N_ERR_INVALID_SECURITY_POLICY
   else ret tt) ;;;
  suites_init_loop i kem_preference (suites (cipher_preferences policy)) ;;;
  flags <-- get_obj ;;
  let required := match flags !! i with Some f => pq_kem_extension_required f | None => false end in
  s2n_validate_kem_preferences kem_preference required ;;;
  if negb in_unit_test then
    r <-- with_local zero_result (s2n_security_policy_validate_security_rules policy) ;;
    ensure (negb (found_error (snd r))) S2N_ERR_INVALID_SECURITY_POLICY
  else ret tt.

Fixpoint policies_init_loop (in_unit_test : bool) (i : nat) (rows : list policy_row) : Cmd (list policy_flags) unit :=
  match rows with
  | [] => ret tt
  | row :: rest => policy_init in_unit_test i (security_policy row) ;;; policies_init_loop in_unit_test (S i) rest
  end.

Definition s2n_security_policies_init (in_unit_test : bool) : Cmd (list policy_flags) unit :=
  policies_init_loop in_unit_test 0 security_policy_selection.

(** The first row whose policy is the given one. *)
Fixpoint row_flags (rows : list policy_row) (flags : list policy_flags) (policy : s2n_security_policy) :
    option policy_flags :=
  match rows, flags with
  | row :: rows', f :: flags' =>
      if same_object (security_policy row) policy then Some f else row_flags rows' flags' policy
  | _, _ => None
  end.

Definition s2n_ecc_is_extension_required (flags : list policy_flags) (policy : s2n_security_policy) : bool :=
  match row_flags security_policy_selection flags policy with
  | Some f => ecc_extension_required f
  | None => existsb s2n_cipher_suite_requires_ecc_extension (suites (cipher_preferences policy))
  end.

Definition s2n_pq_kem_is_extension_required (flags : list policy_flags) (policy : s2n_security_policy) : bool :=
  match row_flags security_policy_selection flags policy with
  | Some f => pq_kem_extension_required f
  | None =>
      if kem_count (kem_preferences policy) =? 0 then false
      else existsb s2n_cipher_suite_requires_pq_extension (suites (cipher_preferences policy))
  end.

Definition s2n_security_policy_supports_tls13 {X} (flags : list policy_flags) (policy : s2n_security_policy) : Cmd X bool :=
  r <-- find_row_u8 256 0 policy ;;
  match r with
  | Some i => ret (match flags !! Z.to_nat i with Some f => supports_tls13 f | None => false end)
  | None =>
      ret (existsb (fun c => S2N_TLS13 <=? minimum_required_tls_version c) (suites (cipher_preferences policy)))
  end.

(** strcasecmp(a, b) == 0 *)
Fixpoint strcasecmp_equal (a b : string) : bool :=
  match a, b with
  | "", "" => true
  | String x a', String y b' => (tolower (char_value x) =? tolower (char_value y)) && strcasecmp_equal a' b'
  | _, _ => false
  end.

Definition s2n_find_security_policy_from_version {X} (v : string) : Cmd X s2n_security_policy :=
  match List.find (fun row => strcasecmp_equal v (version row)) security_policy_selection with
  | Some row => ret (security_policy row)
  | None =>
      if existsb (strcasecmp_equal v) deprecated_security_policies
      then fail S2N_ERR_DEPRECATED_SECURITY_POLICY
      else fail S2N_ERR_INVALID_SECURITY_POLICY
  end.
End Definitions.

Close Scope string_scope.

(** ** Specifications *)

Section Specs.
Context `{Libcrypto}.

Definition groups_of (policy : s2n_security_policy) : list s2n_kem_group :=
  default [] (tls13_kem_groups (kem_preferences policy)).

(** What it means for a policy to follow a rule. *)
Definition follows (rule : s2n_security_rule) (policy : s2n_security_policy) : bool :=
  forallb (validate_cipher_suite rule) (suites (cipher_preferences policy)) &&
  forallb (validate_sig_scheme rule) (signature_schemes (signature_preferences policy)) &&
  (match certificate_signature_preferences policy with
   | Some p => forallb (validate_cert_sig_scheme rule) (signature_schemes p)
   | None => true
   end) &&
  forallb (validate_curve rule) (ecc_curves (ecc_preferences policy)) &&
  forallb (validate_hybrid_group rule) (groups_of policy) &&
  validate_version rule (policy_minimum_version policy).

Definition keeps_promises (policy : s2n_security_policy) : bool :=
  forallb (fun id => S2N_IMPLIES (bool_decide (id ∈ rules policy)) (follows (security_rule_definitions id) policy))
    [S2N_PERFECT_FORWARD_SECRECY; S2N_FIPS_140_3].

(** The count of the hybrid groups is the length of their array. *)
Definition groups_wf (policy : s2n_security_policy) : bool :=
  tls13_kem_group_count (kem_preferences policy) =? zlen (groups_of policy).

(** The flags of a policy, from its cipher suites alone. *)
Definition flags_of (policy : s2n_security_policy) : policy_flags := {|
  ecc_extension_required := existsb s2n_cipher_suite_requires_ecc_extension (suites (cipher_preferences policy));
  pq_kem_extension_required :=
    existsb s2n_cipher_suite_requires_pq_extension (suites (cipher_preferences policy)) &&
    (0 <? kem_count (kem_preferences policy));
  supports_tls13 :=
    existsb (fun c => S2N_TLS13 <=? minimum_required_tls_version c) (suites (cipher_preferences policy));
|}.
End Specs.

(** ** The check of a rule *)

Section Rules.
Context `{Libcrypto} `{Platform}.
Implicit Types (w : world) (r : s2n_security_rule_result).

(** The result after a check that held or not, when nothing is printed. *)
Definition checked (ok : bool) (r : s2n_security_rule_result) : s2n_security_rule_result :=
  set_found_error (found_error r || negb ok) r.

Lemma checked_true r : checked true r = r.
Proof. destruct r as [f o st]. unfold checked, set_found_error. simpl. by rewrite orb_false_r. Qed.

Lemma checked_and a b r : checked b (checked a r) = checked (a && b) r.
Proof. unfold checked, set_found_error. simpl. f_equal. by destruct (found_error r), a, b. Qed.

Lemma checked_quiet a r : write_output (checked a r) = write_output r.
Proof. done. Qed.

Lemma process_run ok format args w r :
  write_output r = false ->
  s2n_security_rule_result_process ok format args (w, r) = (Ok tt, (w, checked ok r)).
Proof.
  intros Hq. unfold s2n_security_rule_result_process. destruct ok.
  - by rewrite checked_true.
  - unfold bind, modify, get_obj. simpl. rewrite Hq. simpl. unfold checked, ret.
    by rewrite orb_true_r.
Qed.

Lemma for_each_run {A} (P : A -> bool) (body : Z -> A -> Cmd s2n_security_rule_result unit) (l : list A) i w r :
  (forall j a r, write_output r = false -> body j a (w, r) = (Ok tt, (w, checked (P a) r))) ->
  write_output r = false -> for_each i l body (w, r) = (Ok tt, (w, checked (forallb P l) r)).
Proof.
  intros Hb. revert i r. induction l as [|a l IH]; intros i r Hq; simpl.
  - by rewrite checked_true.
  - rewrite (run_bind _ _ _ _ _ (Hb i a r Hq)), IH by done. by rewrite checked_and.
Qed.

Lemma array_get_middle {X A} (pre rest : list A) (a : A) (s : world * X) :
  array_get (Some (pre ++ a :: rest)) (zlen pre) s = (Ok a, s).
Proof.
  unfold array_get. pose proof (zlen_nonneg pre). destruct (Z.ltb_spec (zlen pre) 0); [lia|].
  unfold zlen. by rewrite Nat2Z.id, list_lookup_middle.
Qed.

Lemma for_counted_run {A} (P : A -> bool) (body : Z -> A -> Cmd s2n_security_rule_result unit) (pre l : list A) w r :
  (forall j a r, write_output r = false -> body j a (w, r) = (Ok tt, (w, checked (P a) r))) ->
  write_output r = false ->
  for_counted (length l) (zlen pre) (Some (pre ++ l)) body (w, r) = (Ok tt, (w, checked (forallb P l) r)).
Proof.
  intros Hb. revert pre r. induction l as [|a l IH]; intros pre r Hq; cbn [for_counted length forallb].
  - by rewrite checked_true.
  - rewrite (run_bind _ _ _ _ _ (array_get_middle pre l a _)).
    rewrite (run_bind _ _ _ _ _ (Hb (zlen pre) a r Hq)).
    rewrite cons_middle, app_assoc.
    replace (zlen pre + 1) with (zlen (pre ++ [a])) by (by rewrite zlen_app).
    rewrite IH by done. by rewrite checked_and.
Qed.

(** ** The loop with an 8-bit index *)

Lemma selection_length : length security_policy_selection = 117%nat.
Proof. reflexivity. Qed.

Fixpoint row_index (rows : list policy_row) (policy : s2n_security_policy) : option nat :=
  match rows with
  | [] => None
  | row :: rest => if same_object (security_policy row) policy then Some O else S <$> row_index rest policy
  end.

Lemma row_index_Some rows policy n :
  row_index rows policy = Some n ->
  exists row, rows !! n = Some row /\ same_object (security_policy row) policy = true.
Proof.
  revert n. induction rows as [|row rows IH]; intros n Hr; [done|]. simpl in Hr.
  destruct (same_object (security_policy row) policy) eqn:Hs.
  - injection Hr as <-. by exists row.
  - apply fmap_Some in Hr as (m & Hm & ->). apply (IH m Hm).
Qed.

(** No index reaches 256, so that the loop ends, at the first row of the policy. *)
Lemma find_row_run {X} policy (s : world * X) :
  find_row_u8 256 0 policy s = (Ok (Z.of_nat <$> row_index security_policy_selection policy), s).
Proof.
  assert (Hgen : forall rows i fuel, drop i security_policy_selection = rows -> (length rows < fuel)%nat ->
    (i <= 117)%nat ->
    find_row_u8 fuel (Z.of_nat i) policy s =
      (Ok ((fun n => Z.of_nat (i + n)) <$> row_index rows policy), s)).
  { intros rows. induction rows as [|row rows IH]; intros i fuel Hd Hf Hi; (destruct fuel as [|f]; [simpl in Hf; lia|]);
      cbn [find_row_u8]; rewrite Nat2Z.id.
    - rewrite lookup_ge_None_2; [done|]. apply (f_equal length) in Hd.
      rewrite length_drop, selection_length in Hd. rewrite selection_length. change (length []) with O in Hd. lia.
    - assert (Hl : security_policy_selection !! i = Some row).
      { rewrite <- (Nat.add_0_r i), <- lookup_drop, Hd. done. }
      rewrite Hl. simpl. destruct (same_object (security_policy row) policy).
      + unfold ret. simpl. by rewrite Nat.add_0_r.
      + assert (Hlt : (i < 117)%nat) by (apply lookup_lt_Some in Hl; by rewrite selection_length in Hl).
        rewrite u8_small by lia. replace (Z.of_nat i + 1) with (Z.of_nat (S i)) by lia.
        rewrite (IH (S i) f); [|by rewrite (drop_S _ _ _ Hl) in Hd; injection Hd|simpl in Hf; lia|lia].
        destruct (row_index rows policy) as [n|]; [|done]. simpl. do 3 f_equal. lia. }
  change 0 with (Z.of_nat 0). rewrite (Hgen security_policy_selection 0%nat 256%nat); [|done|rewrite selection_length; lia|lia].
  by destruct (row_index security_policy_selection policy).
Qed.

Lemma get_version_run {X} policy (s : world * X) :
  exists o, attempt (s2n_security_policy_get_version policy) s = (Ok o, s).
Proof.
  unfold attempt, s2n_security_policy_get_version.
  rewrite (run_bind _ _ _ _ _ (find_row_run policy s)).
  destruct (row_index security_policy_selection policy) as [n|] eqn:Hr; simpl; [|by eexists].
  apply row_index_Some in Hr as (row & Hl & _). rewrite Nat2Z.id, Hl. by eexists.
Qed.

Lemma validate_policy_run rule policy w r :
  groups_wf policy = true -> write_output r = false ->
  s2n_security_rule_validate_policy rule policy (w, r) = (Ok tt, (w, checked (follows rule policy) r)).
Proof.
  intros Hg Hq. unfold s2n_security_rule_validate_policy.
  destruct (get_version_run policy (w, r)) as [o Ho]. rewrite (run_bind _ _ _ _ _ Ho).
  assert (Hgroups : forall body r, (forall j a r, write_output r = false ->
      body j a (w, r) = (Ok tt, (w, checked (validate_hybrid_group rule a) r))) -> write_output r = false ->
    for_counted (Z.to_nat (tls13_kem_group_count (kem_preferences policy))) 0
      (tls13_kem_groups (kem_preferences policy)) body (w, r) =
    (Ok tt, (w, checked (forallb (validate_hybrid_group rule) (groups_of policy)) r))).
  { intros body r' Hb Hq'. apply Z.eqb_eq in Hg. rewrite Hg. unfold groups_of.
    destruct (tls13_kem_groups (kem_preferences policy)) as [l|]; simpl.
    - unfold zlen. rewrite Nat2Z.id. by apply (for_counted_run (validate_hybrid_group rule) body [] l).
    - unfold ret. by rewrite checked_true. }
  do 2 (erewrite run_bind by (apply for_each_run; [intros; by apply process_run|done])).
  erewrite run_bind.
  2: { instantiate (1 := (w, checked (match certificate_signature_preferences policy with
         | Some p => forallb (validate_cert_sig_scheme rule) (signature_schemes p) | None => true end) _)).
       destruct (certificate_signature_preferences policy).
       - apply for_each_run; [intros; by apply process_run|done].
       - unfold ret. by rewrite checked_true. }
  erewrite run_bind by (apply for_each_run; [intros; by apply process_run|done]).
  erewrite run_bind by (apply Hgroups; [intros; by apply process_run|done]).
  rewrite process_run by done. rewrite !checked_and. unfold follows. by rewrite !andb_assoc.
Qed.

Lemma validate_rules_run policy w r :
  groups_wf policy = true -> write_output r = false ->
  s2n_security_policy_validate_security_rules policy (w, r) = (Ok tt, (w, checked (keeps_promises policy) r)).
Proof.
  intros Hg Hq. unfold s2n_security_policy_validate_security_rules, keeps_promises.
  apply for_each_run; [|done]. intros _ id r' Hq'. destruct (bool_decide (id ∈ rules policy)); simpl.
  - by apply validate_policy_run.
  - unfold ret. by rewrite checked_true.
Qed.
End Rules.

(** ** Start-up *)

Section Init.
Context `{Libcrypto} `{!LibcryptoOk} `{Platform}.
Implicit Types (w : world) (flags : list policy_flags).

Lemma nid_eqb a b : (nid_number a =? nid_number b) = bool_decide (a = b).
Proof.
  destruct (decide (a = b)) as [->|Hne].
  - by rewrite Z.eqb_refl, bool_decide_eq_true_2.
  - rewrite (proj2 (Z.eqb_neq _ _)), bool_decide_eq_false_2; [done|done|].
    intros e. by apply Hne, nid_number_inj.
Qed.

(** What the start-up requires of a policy. *)
Definition version_consistent (c : s2n_cipher_suite) : bool :=
  negb (xorb (s2n_is_valid_tls13_cipher (iana_value c)) (S2N_TLS13 <=? minimum_required_tls_version c)).

Definition pss_count (p : s2n_signature_preferences) : Z :=
  zlen (List.filter (fun s => bool_decide (scheme_nid s = NID_rsassaPss)) (signature_schemes p)).

Definition policy_ok (policy : s2n_security_policy) : bool :=
  forallb (fun c => existsb (fun s => curve_iana_id c =? curve_iana_id s) s2n_all_supported_curves_list)
    (ecc_curves (ecc_preferences policy)) &&
  (match certificate_signature_preferences policy with
   | Some p => (pss_count p =? NUM_RSA_PSS_SCHEMES) || (pss_count p =? 0)
   | None => true
   end) &&
  (same_object policy security_policy_null || negb (zlen (ecc_curves (ecc_preferences policy)) =? 0)) &&
  forallb version_consistent (suites (cipher_preferences policy)) &&
  (kem_count (kem_preferences policy) =? 0) &&
  (match kems (kem_preferences policy) with None => true | Some _ => false end) &&
  S2N_IFF (tls13_kem_group_count (kem_preferences policy) =? 0)
    (match tls13_kem_groups (kem_preferences policy) with None => true | Some _ => false end) &&
  (tls13_kem_group_count (kem_preferences policy) <=? S2N_KEM_GROUPS_COUNT) &&
  groups_wf policy && keeps_promises policy.

Lemma check_curves_run {X} l k (s : world * X) :
  k <> 0 ->
  forallb (fun c => existsb (fun s => curve_iana_id c =? curve_iana_id s) s2n_all_supported_curves_list) l = true ->
  check_curves_loop l k s = (Ok tt, s).
Proof.
  revert k. induction l as [|c l IH]; intros k Hk Hl; [done|].
  cbn [forallb] in Hl. apply andb_true_iff in Hl as [Hc Hl]. cbn [check_curves_loop]. rewrite Hc, Z.mul_1_r.
  rewrite (proj2 (Z.eqb_neq k 0) Hk). by apply IH.
Qed.

Definition or_flags (a b : policy_flags) : policy_flags := {|
  ecc_extension_required := ecc_extension_required a || ecc_extension_required b;
  pq_kem_extension_required := pq_kem_extension_required a || pq_kem_extension_required b;
  supports_tls13 := supports_tls13 a || supports_tls13 b;
|}.

Definition suite_flags (p : s2n_kem_preferences) (l : list s2n_cipher_suite) : policy_flags := {|
  ecc_extension_required := existsb s2n_cipher_suite_requires_ecc_extension l;
  pq_kem_extension_required := existsb s2n_cipher_suite_requires_pq_extension l && (0 <? kem_count p);
  supports_tls13 := existsb (fun c => S2N_TLS13 <=? minimum_required_tls_version c) l;
|}.

Lemma if_flags_run (b : bool) i f flags w :
  (if b then set_flags i f else ret tt) (w, flags) = (Ok tt, (w, alter (fun a => if b then f a else a) i flags)).
Proof.
  destruct b; [done|]. unfold ret. do 3 f_equal. symmetry. by apply list_alter_id.
Qed.

Lemma suites_init_run i p l w flags :
  forallb version_consistent l = true ->
  suites_init_loop i p l (w, flags) = (Ok tt, (w, alter (fun f => or_flags f (suite_flags p l)) i flags)).
Proof.
  revert flags. induction l as [|c l IH]; intros flags Hl; cbn [suites_init_loop].
  - unfold ret. do 3 f_equal. symmetry. apply list_alter_id. intros [e q t]. unfold or_flags. simpl.
    by rewrite !orb_false_r.
  - cbn [forallb] in Hl. apply andb_true_iff in Hl as [Hc Hl].
    erewrite run_bind by apply if_flags_run. unfold version_consistent in Hc. rewrite run_ensure, Hc.
    do 2 (erewrite run_bind by apply if_flags_run). rewrite IH by done.
    rewrite !list_alter_alter_eq. f_equal. f_equal. apply list_alter_ext; [|done]. intros [e q t] _.
    unfold or_flags, suite_flags, compose. cbn [existsb].
    generalize (existsb s2n_cipher_suite_requires_ecc_extension l), (existsb s2n_cipher_suite_requires_pq_extension l),
      (existsb (fun c => S2N_TLS13 <=? minimum_required_tls_version c) l). intros x y z.
    destruct (s2n_cipher_suite_requires_ecc_extension c), (s2n_cipher_suite_requires_pq_extension c),
      (0 <? kem_count p), (S2N_TLS13 <=? minimum_required_tls_version c); simpl; f_equal;
      by rewrite ?andb_true_r, ?andb_false_r, ?orb_true_r, ?orb_false_r.
Qed.

Lemma policy_init_run i policy w flags :
  policy_ok policy = true -> flags !! i = Some zero_flags ->
  policy_init false i policy (w, flags) = (Ok tt, (w, <[i := flags_of policy]> flags)).
Proof.
  unfold policy_ok. rewrite !andb_true_iff. intros [[[[[[[[[Hcurves Hpss] Hecc] Hver] Hkc] Hkn] Hgi] Hgm] Hgw] Hrules] Hi.
  apply Z.eqb_eq in Hkc. unfold policy_init.
  erewrite run_bind by (by apply check_curves_run).
  erewrite run_bind.
  2: { instantiate (1 := (w, flags)). instantiate (1 := tt).
       destruct (certificate_signature_preferences policy) as [p|]; [|done].
       unfold s2n_validate_certificate_signature_preferences.
       rewrite (List.filter_ext _ (fun s => bool_decide (scheme_nid s = NID_rsassaPss))) by (intros s; apply nid_eqb).
       fold (pss_count p). by rewrite Hpss. }
  erewrite run_bind.
  2: { instantiate (1 := (w, flags)). instantiate (1 := tt).
       destruct (same_object policy security_policy_null); [done|]. simpl in Hecc |- *. by rewrite Hecc. }
  erewrite run_bind by (by apply suites_init_run). erewrite run_bind by done.
  assert (Hf : flags_of policy = suite_flags (kem_preferences policy) (suites (cipher_preferences policy))) by done.
  assert (Hz : forall f, or_flags zero_flags f = f) by (by intros []).
  assert (Hins : alter (fun f => or_flags f (suite_flags (kem_preferences policy) (suites (cipher_preferences policy)))) i flags
    = <[i := flags_of policy]> flags).
  { rewrite Hf. apply list_eq. intros j. destruct (decide (i = j)) as [<-|Hne].
    - rewrite list_lookup_alter_eq, Hi, list_lookup_insert_eq; simpl; [by rewrite Hz|by eapply lookup_lt_Some].
    - by rewrite list_lookup_alter_ne, list_lookup_insert_ne. }
  rewrite Hins. cbv beta. rewrite list_lookup_insert_eq by (by eapply lookup_lt_Some).
  assert (Hq : pq_kem_extension_required (flags_of policy) = false)
    by (simpl; rewrite Hkc; by rewrite andb_false_r).
  rewrite Hq. erewrite run_bind.
  2: { unfold s2n_validate_kem_preferences. rewrite Hkc. destruct (kems (kem_preferences policy)); [done|].
       rewrite run_ensure, Hgi, run_ensure. simpl. rewrite run_ensure, Hgm. done. }
  simpl. erewrite run_bind.
  2: { unfold with_local. rewrite validate_rules_run by done. done. }
  simpl. unfold checked. simpl. by rewrite Hrules.
Qed.

Lemma policies_init_run rows w done_ :
  forallb (fun row => policy_ok (security_policy row)) rows = true ->
  policies_init_loop false (length done_) rows (w, done_ ++ replicate (length rows) zero_flags) =
    (Ok tt, (w, done_ ++ map (fun row => flags_of (security_policy row)) rows)).
Proof.
  revert done_. induction rows as [|row rows IH]; intros done_ Hr; [done|].
  cbn [forallb] in Hr. apply andb_true_iff in Hr as [Hrow Hr]. cbn [policies_init_loop length replicate map].
  erewrite run_bind by (apply policy_init_run; [done|by rewrite list_lookup_middle]).
  rewrite insert_app_r_alt, Nat.sub_diag by done. cbn [insert list_insert].
  replace (S (length done_)) with (length (done_ ++ [flags_of (security_policy row)])) by (rewrite length_app; simpl; lia).
  rewrite (cons_middle _ done_ (replicate _ _)), app_assoc, (IH (done_ ++ [flags_of (security_policy row)])) by done. by rewrite <- app_assoc.
Qed.

(** Every policy of the table passes. *)
Lemma selection_ok : forallb (fun row => policy_ok (security_policy row)) security_policy_selection = true.
Proof.
  unfold security_policy_selection. cbn [forallb security_policy].
  repeat (apply andb_true_intro; split); [.. | reflexivity].
  all: cbv -[EVP_APIS_SUPPORTED]; destruct EVP_APIS_SUPPORTED; reflexivity.
Qed.
End Init.
End SecurityRules.
Export SecurityRules.
