(* ===== verification/PolicyTheorems.v ===== *)
(** * Theorems about security policies

    The start-up accepts every policy of the table and computes its flags; a
    policy keeps the promises it makes; the names select the right policy; and the
    check of a rule finds exactly the violations, as long as it does not print
    them. *)
From stdpp Require Import strings.
From S2P Require Import Prelude Errors CMem Platform Safety Blob Alloc Stuffer StufferInv StufferWrite StufferSpec NetworkOrder StufferPrintf Connection Libcrypto CipherSuites Groups SignatureSchemes CipherPreferences SecurityPolicies SecurityRules.
Open Scope Z_scope.

Module PolicyTheorems.

(** ** Rows with the same policy *)

Definition flags_eqb (a b : policy_flags) : bool :=
  Bool.eqb (ecc_extension_required a) (ecc_extension_required b) &&
  Bool.eqb (pq_kem_extension_required a) (pq_kem_extension_required b) &&
  Bool.eqb (supports_tls13 a) (supports_tls13 b).

Lemma flags_eqb_eq a b : flags_eqb a b = true -> a = b.
Proof. destruct a as [[] [] []], b as [[] [] []]; done. Qed.

Section Table.
Context `{Libcrypto}.

Lemma same_object_flags :
  forallb (fun r1 => forallb (fun r2 =>
    S2N_IMPLIES (same_object (security_policy r1) (security_policy r2))
      (flags_eqb (flags_of (security_policy r1)) (flags_of (security_policy r2))))
    security_policy_selection) security_policy_selection = true.
Proof. vm_compute. reflexivity. Qed.

Lemma same_policy_flags r1 r2 :
  r1 ∈ security_policy_selection -> r2 ∈ security_policy_selection ->
  same_object (security_policy r1) (security_policy r2) = true ->
  flags_of (security_policy r1) = flags_of (security_policy r2).
Proof.
  intros H1 H2 Hs. apply flags_eqb_eq.
  pose proof same_object_flags as Hall. rewrite forallb_forall in Hall.
  specialize (Hall r1 (proj1 (list_elem_of_In _ _) H1)). rewrite forallb_forall in Hall.
  specialize (Hall r2 (proj1 (list_elem_of_In _ _) H2)). by rewrite Hs in Hall.
Qed.

Lemma same_object_refl {A} `{StaticObject A} (a : A) : same_object a a = true.
Proof. apply String.eqb_refl. Qed.

Lemma row_index_found rows row :
  row ∈ rows -> exists n r, row_index rows (security_policy row) = Some n /\ rows !! n = Some r /\
    same_object (security_policy r) (security_policy row) = true.
Proof.
  intros Hin. induction rows as [|r rows IH]; [by apply elem_of_nil in Hin|]. simpl.
  destruct (same_object (security_policy r) (security_policy row)) eqn:Hs; [by exists 0%nat, r|].
  apply elem_of_cons in Hin as [->|Hin]; [by rewrite same_object_refl in Hs|].
  destruct (IH Hin) as (n & r' & -> & Hl & Hr). by exists (S n), r'.
Qed.

Lemma row_flags_index rows f policy :
  row_flags rows (map f rows) policy =
    match row_index rows policy with Some n => f <$> rows !! n | None => None end.
Proof.
  induction rows as [|r rows IH]; [done|]. simpl.
  destruct (same_object (security_policy r) policy); [done|]. rewrite IH.
  by destruct (row_index rows policy).
Qed.

(** The flags that the table holds for the policy of a row. *)
Lemma row_flags_selection row :
  row ∈ security_policy_selection ->
  row_flags security_policy_selection (map (fun r => flags_of (security_policy r)) security_policy_selection)
    (security_policy row) = Some (flags_of (security_policy row)).
Proof.
  intros Hin. rewrite row_flags_index. destruct (row_index_found _ _ Hin) as (n & r & -> & Hl & Hs).
  rewrite Hl. simpl. f_equal. apply same_policy_flags; [by eapply list_elem_of_lookup_2|done|done].
Qed.
End Table.

Section Theorems.
Context `{Libcrypto} `{!LibcryptoOk} `{Platform}.

(** The start-up of the library accepts its own table of policies, whatever the
    libcrypto: no check fails, the process does not end in undefined behaviour,
    and afterwards the flags of each row say what its cipher suites say: whether
    the elliptic curve extension or the KEM extension is needed and whether
    TLS 1.3 can be negotiated. *)
Theorem policies_init_correct (w : world) :
  exists flags,
    s2n_security_policies_init false (w, replicate 117 zero_flags) = (Ok tt, (w, flags)) /\
    forall row X (x : X), row ∈ security_policy_selection ->
      let policy := security_policy row in
      let suites := suites (cipher_preferences policy) in
      s2n_ecc_is_extension_required flags policy = existsb s2n_cipher_suite_requires_ecc_extension suites /\
      s2n_pq_kem_is_extension_required flags policy =
        existsb s2n_cipher_suite_requires_pq_extension suites && (0 <? kem_count (kem_preferences policy)) /\
      s2n_security_policy_supports_tls13 flags policy (w, x) =
        (Ok (existsb (fun c => S2N_TLS13 <=? minimum_required_tls_version c) suites), (w, x)).
Proof.
  exists (map (fun r => flags_of (security_policy r)) security_policy_selection). split.
  - unfold s2n_security_policies_init.
    pose proof (policies_init_run security_policy_selection w [] selection_ok) as Hrun.
    rewrite selection_length in Hrun. exact Hrun.
  - intros row X x Hin. cbv zeta.
    unfold s2n_ecc_is_extension_required, s2n_pq_kem_is_extension_required.
    rewrite row_flags_selection by done. split; [done|]. split; [done|].
    unfold s2n_security_policy_supports_tls13.
    rewrite (run_bind _ _ _ _ _ (find_row_run (security_policy row) (w, x))).
    destruct (row_index_found _ _ Hin) as (n & r & -> & Hl & Hs). cbn [fmap option_fmap option_map].
    rewrite Nat2Z.id.
    change (map (fun r => flags_of (security_policy r)) security_policy_selection)
      with ((fun r => flags_of (security_policy r)) <$> security_policy_selection).
    rewrite list_lookup_fmap, Hl. cbn [fmap option_fmap option_map].
    rewrite (same_policy_flags r row) by (done || by eapply list_elem_of_lookup_2). done.
Qed.

Lemma row_ok row : row ∈ security_policy_selection -> keeps_promises (security_policy row) = true.
Proof.
  intros Hin. pose proof selection_ok as Hall. rewrite forallb_forall in Hall.
  specialize (Hall row (proj1 (list_elem_of_In _ _) Hin)). unfold policy_ok in Hall.
  rewrite !andb_true_iff in Hall. apply Hall.
Qed.

Lemma row_follows row id :
  row ∈ security_policy_selection -> id ∈ rules (security_policy row) ->
  follows (security_rule_definitions id) (security_policy row) = true.
Proof.
  intros Hin Hid. pose proof (row_ok row Hin) as Hk. unfold keeps_promises in Hk. rewrite forallb_forall in Hk.
  specialize (Hk id ltac:(destruct id; simpl; tauto)). by rewrite bool_decide_eq_true_2 in Hk.
Qed.

Lemma forallb_elem {A} (f : A -> bool) l a : forallb f l = true -> a ∈ l -> f a = true.
Proof. rewrite forallb_forall. intros Hf Ha. by apply Hf, list_elem_of_In. Qed.

Lemma suite_iana_length row c :
  row ∈ security_policy_selection -> c ∈ suites (cipher_preferences (security_policy row)) ->
  length (iana_value c) = 2%nat.
Proof.
  intros Hrow Hc.
  assert (Hall : forallb (fun row => forallb (fun c => (length (iana_value c) =? 2)%nat)
    (suites (cipher_preferences (security_policy row)))) security_policy_selection = true) by (vm_compute; reflexivity).
  apply Nat.eqb_eq. exact (forallb_elem _ _ _ (forallb_elem _ _ _ Hall Hrow) Hc).
Qed.

(** The values of a cipher suite that FIPS 140-3 lists. *)
Lemma fips_suite_listed c :
  length (iana_value c) = 2%nat -> s2n_fips_validate_cipher_suite c = true -> iana_value c ∈ fips_cipher_suite_ianas.
Proof.
  intros Hlen Hv. destruct (iana_value c) as [|a [|b [|]]] eqn:Hi; try done.
  apply existsb_exists in Hv as (iana & Hin & Heq). rewrite Hi in Heq.
  apply andb_true_iff in Heq as [Ha Hb]. zbool. apply list_elem_of_In.
  assert (Hshape : forall i, In i fips_cipher_suite_ianas -> i = [znth i 0; znth i 1]).
  { intros i. simpl. intuition (subst; reflexivity). }
  rewrite (Hshape iana Hin) in Hin. rewrite Ha, Hb in Hin. exact Hin.
Qed.


(** The check of the rules finds every violation and nothing else: when it is not
    asked to print, it returns without touching memory, and an error is found
    exactly if there was one before or the policy breaks a rule it promises. *)
Theorem rules_check_correct (policy : s2n_security_policy) (w : world) (r : s2n_security_rule_result)
    (Hgroups : groups_wf policy = true) (Hquiet : write_output r = false) :
  exists r', s2n_security_policy_validate_security_rules policy (w, r) = (Ok tt, (w, r')) /\
    found_error r' = found_error r || negb (keeps_promises policy) /\
    output r' = output r /\ write_output r' = false.
Proof.
  exists (checked (keeps_promises policy) r). rewrite validate_rules_run by done. by split_goal.
Qed.

(** When the check is asked to print what it finds and meets a signature scheme that
    breaks the rule, it formats a message with one argument too few: undefined
    behaviour. *)
Theorem rule_output_undefined (rule : s2n_security_rule) (policy : s2n_security_policy) (w : world)
    (r : s2n_security_rule_result)
    (Hsuites : forallb (validate_cipher_suite rule) (suites (cipher_preferences policy)) = true)
    (Hschemes : forallb (validate_sig_scheme rule) (signature_schemes (signature_preferences policy)) = false)
    (Hprint : write_output r = true) (Houtput : stuffer_ok (hp w) (output r)) :
  fst (s2n_security_rule_validate_policy rule policy (w, r)) = UB.
Proof.
  assert (Hskip : forall i format args, s2n_security_rule_result_process true format args i = (Ok tt, i)) by done.
  assert (Hprint_ub : forall a b c d,
    s2n_security_rule_result_process false error_msg_format_name [PrintStr a; PrintStr b; PrintStr c; PrintStr d] (w, r) =
      (UB, (w, set_found_error true r))).
  { intros a b c d. unfold s2n_security_rule_result_process, bind, modify, get_obj. simpl. rewrite Hprint. simpl.
    unfold zoom. simpl. unfold s2n_stuffer_vprintf.
    rewrite (run_bind _ _ (w, output r) tt (w, output r)) by (by apply (stuffer_validate_ok w (output r))). by destruct r. }
  unfold s2n_security_rule_validate_policy.
  destruct (get_version_run policy (w, r)) as [o Ho]. rewrite (run_bind _ _ _ _ _ Ho).
  set (name := match o with inl n => n | inr _ => _ end).
  assert (Hpass : forall l i, forallb (validate_cipher_suite rule) l = true ->
    for_each i l (fun i c => s2n_security_rule_result_process (validate_cipher_suite rule c) error_msg_format_name
      [PrintStr (rule_name rule); PrintStr name; PrintStr "cipher suite"; PrintStr (iana_name c); PrintInt (i + 1)])
      (w, r) = (Ok tt, (w, r))).
  { intros l. induction l as [|c l IH]; intros i Hl; [done|]. cbn [forallb] in Hl.
    apply andb_true_iff in Hl as [Hc Hl]. cbn [for_each]. rewrite Hc, (run_bind _ _ _ _ _ (Hskip _ _ _)). by apply IH. }
  rewrite (run_bind _ _ _ _ _ (Hpass _ _ Hsuites)).
  assert (Hstop : forall l i, forallb (validate_sig_scheme rule) l = false ->
    exists s', for_each i l (fun _ s => s2n_security_rule_result_process (validate_sig_scheme rule s) error_msg_format_name
      [PrintStr (rule_name rule); PrintStr name; PrintStr "signature scheme"; PrintStr (scheme_iana_name s)])
      (w, r) = (UB, s')).
  { intros l. induction l as [|c l IH]; intros i Hl; [done|]. cbn [forallb] in Hl. cbn [for_each].
    destruct (validate_sig_scheme rule c) eqn:Hc.
    - rewrite (run_bind _ _ _ _ _ (Hskip _ _ _)). by apply IH.
    - unfold bind at 1. rewrite Hprint_ub. by eexists. }
  destruct (Hstop _ 0 Hschemes) as [s' Hs']. unfold bind at 1. rewrite Hs'. by destruct s'.
Qed.
End Theorems.

(** ** Names *)

(** The characters of a name in lower case. *)
Definition lower (v : string) : list Z := map tolower (string_bytes v).

Lemma strcasecmp_lower a b : strcasecmp_equal a b = true <-> lower a = lower b.
Proof.
  revert b. induction a as [|x a IH]; intros [|y b]; unfold lower in *; cbn [strcasecmp_equal string_bytes map]; try (split; congruence).
  rewrite andb_true_iff, IH, Z.eqb_eq. split; [intros [-> ->]; done|intros [= -> ->]; done].
Qed.

Section Names.
Context `{Libcrypto} `{Platform}.

Lemma versions_distinct : NoDup (map (fun row => lower (version row)) security_policy_selection).
Proof. apply (bool_decide_unpack _). vm_compute. exact I. Qed.

Lemma find_by_name rows row v :
  NoDup (map (fun row => lower (version row)) rows) -> row ∈ rows -> lower v = lower (version row) ->
  List.find (fun row => strcasecmp_equal v (version row)) rows = Some row.
Proof.
  intros Hnd Hin Hv. induction rows as [|r rows IH]; [by apply elem_of_nil in Hin|]. simpl in *.
  apply NoDup_cons in Hnd as [Hni Hnd]. destruct (strcasecmp_equal v (version r)) eqn:Hs.
  - apply strcasecmp_lower in Hs. apply elem_of_cons in Hin as [->|Hin]; [done|]. destruct Hni.
    rewrite <- Hs, Hv. apply list_elem_of_In, in_map_iff. exists row. split; [done|]. by apply list_elem_of_In.
  - apply elem_of_cons in Hin as [->|Hin]; [|by apply IH]. by apply strcasecmp_lower in Hv; congruence.
Qed.

(** A name selects the policy of its own row, in whatever case it is written; a name
    that is in no row is refused, as deprecated if it is on that list and as
    invalid otherwise.  No state changes. *)
Theorem find_policy_correct {X} (v : string) (s : world * X) :
  (forall row, row ∈ security_policy_selection -> lower v = lower (version row) ->
     s2n_find_security_policy_from_version v s = (Ok (security_policy row), s)) /\
  (~ (exists row, row ∈ security_policy_selection /\ lower v = lower (version row)) ->
     s2n_find_security_policy_from_version v s =
       (Err (if bool_decide (lower v ∈ map lower deprecated_security_policies)
             then S2N_ERR_DEPRECATED_SECURITY_POLICY else S2N_ERR_INVALID_SECURITY_POLICY), s)).
Proof.
  unfold s2n_find_security_policy_from_version. split.
  - intros row Hin Hv. by rewrite (find_by_name _ row) by (done || apply versions_distinct).
  - intros Hno. destruct (List.find _ _) as [row|] eqn:Hf.
    { apply find_some in Hf as [Hin Hs]. destruct Hno. exists row.
      split; [by apply list_elem_of_In|by apply strcasecmp_lower]. }
    assert (Hdep : existsb (strcasecmp_equal v) deprecated_security_policies =
      bool_decide (lower v ∈ map lower deprecated_security_policies)).
    { apply eq_true_iff_eq. rewrite existsb_exists, bool_decide_eq_true, list_elem_of_In, in_map_iff.
      split; intros (d & H1 & H2); exists d.
      - split; [by symmetry; apply strcasecmp_lower|done].
      - split; [done|by apply strcasecmp_lower]. }
    rewrite Hdep. by destruct (bool_decide _).
Qed.
End Names.

(** ** Witnesses *)

Definition demo_world' : world := World ∅ started_statics.

Lemma policies_init_correct_witness :
  exists flags, @s2n_security_policies_init demo_libcrypto demo_platform false (demo_world', replicate 117 zero_flags) =
    (Ok tt, (demo_world', flags)).
Proof.
  destruct (@policies_init_correct demo_libcrypto _ demo_platform demo_world') as (flags & Hrun & _).
  exists flags. exact Hrun.
Defined.


(** A policy that promises FIPS 140-3 but allows signatures with SHA-1. *)
Definition careless_policy `{Libcrypto} : s2n_security_policy := {|
  policy_symbol := "careless_policy";
  policy_minimum_version := S2N_TLS12;
  cipher_preferences := cipher_preferences security_policy_20240502;
  kem_preferences := kem_preferences_null;
  signature_preferences := s2n_signature_preferences_20140601;
  certificate_signature_preferences := None;
  ecc_preferences := s2n_ecc_preferences_default_fips;
  certificate_key_preferences := None;
  certificate_preferences_apply_locally := false;
  rules := [S2N_FIPS_140_3];
|}.

Lemma rules_check_correct_witness :
  exists r', @s2n_security_policy_validate_security_rules demo_libcrypto demo_platform
      (@careless_policy demo_libcrypto) (demo_world', zero_result) = (Ok tt, (demo_world', r')) /\ found_error r' = true.
Proof.
  destruct (@rules_check_correct demo_libcrypto demo_platform (@careless_policy demo_libcrypto) demo_world' zero_result
    eq_refl eq_refl) as (r' & Hrun & Hf & _). exists r'. split; [exact Hrun|]. rewrite Hf. vm_compute. reflexivity.
Defined.

Lemma rule_output_undefined_witness :
  fst (@s2n_security_rule_validate_policy demo_libcrypto demo_platform
    (@security_rule_definitions demo_libcrypto S2N_FIPS_140_3) (@careless_policy demo_libcrypto)
    (demo_world', RuleResult false true zero_stuffer)) = UB.
Proof.
  apply (@rule_output_undefined demo_libcrypto demo_platform).
  - vm_compute. reflexivity.
  - vm_compute. reflexivity.
  - reflexivity.
  - split; simpl; auto with s2n; lia.
Defined.

End PolicyTheorems.
Export PolicyTheorems.
