(* ===== verification/ConnectionParams.v ===== *)
(** * The negotiated parameters of a connection

    The fields of s2n_connection, s2n_config, s2n_handshake_parameters and
    s2n_kex_parameters that the negotiation of cipher suites, signatures and
    certificates reads and writes, on top of the fields of [Connection], and
    the functions of tls/s2n_connection.c and tls/s2n_handshake.c that look up
    preferences and certificates. *)
From stdpp Require Import strings.
From S2P Require Import Prelude Errors CMem Platform Safety Blob Alloc Stuffer Connection Libcrypto CipherSuites Groups SignatureSchemes SecurityPolicies.
Open Scope Z_scope.

Module ConnectionParams.

(** crypto/s2n_certificate.h: a certificate of a chain, with its [info]. *)
Record s2n_cert := Cert {
  pkey_type : s2n_pkey_type;
  signature_nid : Z;  (* info.signature_nid *)
  public_key_nid : Z;  (* info.public_key_nid *)
  public_key_bits : Z;  (* info.public_key_bits *)
}.

(** The chain as the list from [cert_chain->head] on. *)
Record s2n_cert_chain_and_key := CertChainAndKey {
  cert_chain : list s2n_cert;
  private_key : bool;  (* private_key != NULL *)
}.

(** [certs[S2N_CERT_TYPE_COUNT]], indexed by the type of the key. *)
Record certs_by_type := CertsByType {
  rsa_certs : option s2n_cert_chain_and_key;
  ecdsa_certs : option s2n_cert_chain_and_key;
  rsa_pss_certs : option s2n_cert_chain_and_key;
}.
Definition no_certs : certs_by_type := CertsByType None None None.

(** The access [certs[cert_type]]; an index that is not a certificate type is out of bounds. *)
Definition certs_index {X} (c : certs_by_type) (cert_type : s2n_pkey_type) : Cmd X (option s2n_cert_chain_and_key) :=
  match cert_type with
  | S2N_PKEY_TYPE_RSA => ret (rsa_certs c)
  | S2N_PKEY_TYPE_ECDSA => ret (ecdsa_certs c)
  | S2N_PKEY_TYPE_RSA_PSS => ret (rsa_pss_certs c)
  | S2N_PKEY_TYPE_SENTINEL | S2N_PKEY_TYPE_UNKNOWN => undefined
  end.

(** A pointer to a cipher suite: to a static object, or to the copy of one that
    s2n_cipher_suites_init makes for SSLv3. *)
Inductive suite_ref := StaticSuite (c : s2n_cipher_suite) | Sslv3Suite (c : s2n_cipher_suite).

(** The constant fields of the object behind it. *)
Definition suite_deref (r : suite_ref) : s2n_cipher_suite :=
  match r with StaticSuite c | Sslv3Suite c => c end.

(** Equality of pointers. *)
Definition same_suite (a b : suite_ref) : bool :=
  match a, b with
  | StaticSuite c, StaticSuite d | Sslv3Suite c, Sslv3Suite d => same_object c d
  | _, _ => false
  end.

(** The fields of a connection that negotiation uses. *)
Record conn_params := ConnParams {
  base : s2n_connection;  (* the fields of [Connection] *)
  security_policy_override : option s2n_security_policy;
  config_security_policy : option s2n_security_policy;  (* config->security_policy *)
  config_dhparams : bool;  (* config->dhparams != NULL *)
  default_certs_by_type : certs_by_type;  (* config->default_certs_by_type *)
  domain_certs : option (list certs_by_type);  (* config->domain_name_to_cert_map, its values in the order of iteration *)
  secure_renegotiation : bool;
  cipher_suite : suite_ref;  (* secure->cipher_suite *)
  negotiated_curve : option s2n_ecc_named_curve;  (* kex_params.server_ecc_evp_params.negotiated_curve *)
  client_pq_kem_extension : s2n_blob;  (* kex_params.client_pq_kem_extension *)
  negotiated_kem : option s2n_kem;  (* kex_params.kem_params.kem *)
  chosen_psk_hmac : s2n_hmac_algorithm;  (* psk_params.chosen_psk->hmac_alg *)
  client_cert_pkey_type : s2n_pkey_type;  (* handshake_params.client_cert_pkey_type *)
  peer_sig_scheme_list : list Z;  (* handshake_params.peer_sig_scheme_list: iana_list up to len *)
  server_cert_sig_scheme : s2n_signature_scheme;  (* *handshake_params.server_cert_sig_scheme *)
  client_cert_sig_scheme : s2n_signature_scheme;  (* *handshake_params.client_cert_sig_scheme *)
  exact_sni_match_exists : bool;
  exact_sni_matches : certs_by_type;
  wc_sni_match_exists : bool;
  wc_sni_matches : certs_by_type;
}.

Definition set_base (v : s2n_connection) (x : conn_params) : conn_params :=
  ConnParams v (security_policy_override x) (config_security_policy x) (config_dhparams x) (default_certs_by_type x) (domain_certs x) (secure_renegotiation x) (cipher_suite x) (negotiated_curve x) (client_pq_kem_extension x) (negotiated_kem x) (chosen_psk_hmac x) (client_cert_pkey_type x) (peer_sig_scheme_list x) (server_cert_sig_scheme x) (client_cert_sig_scheme x) (exact_sni_match_exists x) (exact_sni_matches x) (wc_sni_match_exists x) (wc_sni_matches x).
Definition set_security_policy_override (v : option s2n_security_policy) (x : conn_params) : conn_params :=
  ConnParams (base x) v (config_security_policy x) (config_dhparams x) (default_certs_by_type x) (domain_certs x) (secure_renegotiation x) (cipher_suite x) (negotiated_curve x) (client_pq_kem_extension x) (negotiated_kem x) (chosen_psk_hmac x) (client_cert_pkey_type x) (peer_sig_scheme_list x) (server_cert_sig_scheme x) (client_cert_sig_scheme x) (exact_sni_match_exists x) (exact_sni_matches x) (wc_sni_match_exists x) (wc_sni_matches x).
Definition set_config_security_policy (v : option s2n_security_policy) (x : conn_params) : conn_params :=
  ConnParams (base x) (security_policy_override x) v (config_dhparams x) (default_certs_by_type x) (domain_certs x) (secure_renegotiation x) (cipher_suite x) (negotiated_curve x) (client_pq_kem_extension x) (negotiated_kem x) (chosen_psk_hmac x) (client_cert_pkey_type x) (peer_sig_scheme_list x) (server_cert_sig_scheme x) (client_cert_sig_scheme x) (exact_sni_match_exists x) (exact_sni_matches x) (wc_sni_match_exists x) (wc_sni_matches x).
Definition set_secure_renegotiation (v : bool) (x : conn_params) : conn_params :=
  ConnParams (base x) (security_policy_override x) (config_security_policy x) (config_dhparams x) (default_certs_by_type x) (domain_certs x) v (cipher_suite x) (negotiated_curve x) (client_pq_kem_extension x) (negotiated_kem x) (chosen_psk_hmac x) (client_cert_pkey_type x) (peer_sig_scheme_list x) (server_cert_sig_scheme x) (client_cert_sig_scheme x) (exact_sni_match_exists x) (exact_sni_matches x) (wc_sni_match_exists x) (wc_sni_matches x).
Definition set_negotiated_kem (v : option s2n_kem) (x : conn_params) : conn_params :=
  ConnParams (base x) (security_policy_override x) (config_security_policy x) (config_dhparams x) (default_certs_by_type x) (domain_certs x) (secure_renegotiation x) (cipher_suite x) (negotiated_curve x) (client_pq_kem_extension x) v (chosen_psk_hmac x) (client_cert_pkey_type x) (peer_sig_scheme_list x) (server_cert_sig_scheme x) (client_cert_sig_scheme x) (exact_sni_match_exists x) (exact_sni_matches x) (wc_sni_match_exists x) (wc_sni_matches x).
Definition set_peer_sig_scheme_list (v : list Z) (x : conn_params) : conn_params :=
  ConnParams (base x) (security_policy_override x) (config_security_policy x) (config_dhparams x) (default_certs_by_type x) (domain_certs x) (secure_renegotiation x) (cipher_suite x) (negotiated_curve x) (client_pq_kem_extension x) (negotiated_kem x) (chosen_psk_hmac x) (client_cert_pkey_type x) v (server_cert_sig_scheme x) (client_cert_sig_scheme x) (exact_sni_match_exists x) (exact_sni_matches x) (wc_sni_match_exists x) (wc_sni_matches x).
Definition set_server_cert_sig_scheme (v : s2n_signature_scheme) (x : conn_params) : conn_params :=
  ConnParams (base x) (security_policy_override x) (config_security_policy x) (config_dhparams x) (default_certs_by_type x) (domain_certs x) (secure_renegotiation x) (cipher_suite x) (negotiated_curve x) (client_pq_kem_extension x) (negotiated_kem x) (chosen_psk_hmac x) (client_cert_pkey_type x) (peer_sig_scheme_list x) v (client_cert_sig_scheme x) (exact_sni_match_exists x) (exact_sni_matches x) (wc_sni_match_exists x) (wc_sni_matches x).
Definition set_client_cert_sig_scheme (v : s2n_signature_scheme) (x : conn_params) : conn_params :=
  ConnParams (base x) (security_policy_override x) (config_security_policy x) (config_dhparams x) (default_certs_by_type x) (domain_certs x) (secure_renegotiation x) (cipher_suite x) (negotiated_curve x) (client_pq_kem_extension x) (negotiated_kem x) (chosen_psk_hmac x) (client_cert_pkey_type x) (peer_sig_scheme_list x) (server_cert_sig_scheme x) v (exact_sni_match_exists x) (exact_sni_matches x) (wc_sni_match_exists x) (wc_sni_matches x).
Definition set_suite_field (v : suite_ref) (x : conn_params) : conn_params :=
  ConnParams (base x) (security_policy_override x) (config_security_policy x) (config_dhparams x) (default_certs_by_type x) (domain_certs x) (secure_renegotiation x) v (negotiated_curve x) (client_pq_kem_extension x) (negotiated_kem x) (chosen_psk_hmac x) (client_cert_pkey_type x) (peer_sig_scheme_list x) (server_cert_sig_scheme x) (client_cert_sig_scheme x) (exact_sni_match_exists x) (exact_sni_matches x) (wc_sni_match_exists x) (wc_sni_matches x).

(** [conn->secure->cipher_suite = v]; [kex_is_ephemeral] of [Connection] looks
    through the same pointer. *)
Definition set_cipher_suite (v : suite_ref) (x : conn_params) : conn_params :=
  set_suite_field v
    (set_base (set_kex_is_ephemeral (is_ephemeral (kex_deref (key_exchange_alg (suite_deref v)))) (base x)) x).

Definition base_lens : lens conn_params s2n_connection := Lens base set_base.

(** ** tls/s2n_connection.c: the preferences in force *)

Definition s2n_connection_get_security_policy : Cmd conn_params s2n_security_policy :=
  c <-- get_obj ;;
  match security_policy_override c, config_security_policy c with
  | Some p, _ => ret p
  | None, Some p => ret p
  | None, None => fail S2N_ERR_INVALID_SECURITY_POLICY
  end.

Definition s2n_connection_get_cipher_preferences : Cmd conn_params s2n_cipher_preferences :=
  c <-- get_obj ;;
  match security_policy_override c, config_security_policy c with
  | Some p, _ => ret (cipher_preferences p)
  | None, Some p => ret (cipher_preferences p)
  | None, None => fail S2N_ERR_INVALID_CIPHER_PREFERENCES
  end.

Definition s2n_connection_get_kem_preferences : Cmd conn_params s2n_kem_preferences :=
  c <-- get_obj ;;
  match security_policy_override c, config_security_policy c with
  | Some p, _ => ret (kem_preferences p)
  | None, Some p => ret (kem_preferences p)
  | None, None => fail S2N_ERR_INVALID_KEM_PREFERENCES
  end.

Definition s2n_connection_get_signature_preferences : Cmd conn_params s2n_signature_preferences :=
  c <-- get_obj ;;
  match security_policy_override c, config_security_policy c with
  | Some p, _ => ret (signature_preferences p)
  | None, Some p => ret (signature_preferences p)
  | None, None => fail S2N_ERR_INVALID_SIGNATURE_ALGORITHMS_PREFERENCES
  end.

Definition s2n_connection_get_ecc_preferences : Cmd conn_params s2n_ecc_preferences :=
  c <-- get_obj ;;
  match security_policy_override c, config_security_policy c with
  | Some p, _ => ret (ecc_preferences p)
  | None, Some p => ret (ecc_preferences p)
  | None, None => fail S2N_ERR_INVALID_ECC_PREFERENCES
  end.

(** The policy that they come from. *)
Definition policy_of (c : conn_params) : option s2n_security_policy :=
  match security_policy_override c with Some p => Some p | None => config_security_policy c end.

Section Preferences.
Context (w : world) (c : conn_params) (p : s2n_security_policy) (Hp : policy_of c = Some p).

Lemma get_security_policy_run : s2n_connection_get_security_policy (w, c) = (Ok p, (w, c)).
Proof.
  unfold policy_of, s2n_connection_get_security_policy, bind, get_obj in *.
  destruct (security_policy_override c), (config_security_policy c); by inversion Hp.
Qed.

Lemma get_kem_preferences_run : s2n_connection_get_kem_preferences (w, c) = (Ok (kem_preferences p), (w, c)).
Proof.
  unfold policy_of, s2n_connection_get_kem_preferences, bind, get_obj in *.
  destruct (security_policy_override c), (config_security_policy c); by inversion Hp.
Qed.

Lemma get_signature_preferences_run :
  s2n_connection_get_signature_preferences (w, c) = (Ok (signature_preferences p), (w, c)).
Proof.
  unfold policy_of, s2n_connection_get_signature_preferences, bind, get_obj in *.
  destruct (security_policy_override c), (config_security_policy c); by inversion Hp.
Qed.
End Preferences.

(** ** tls/s2n_handshake.c: certificates for a key type *)

Definition s2n_get_compatible_cert_chain_and_key (cert_type : s2n_pkey_type) :
    Cmd conn_params (option s2n_cert_chain_and_key) :=
  c <-- get_obj ;;
  if exact_sni_match_exists c then certs_index (exact_sni_matches c) cert_type
  else if wc_sni_match_exists c then certs_index (wc_sni_matches c) cert_type
  else certs_index (default_certs_by_type c) cert_type.

(** What it returns for a certificate type. *)
Definition compatible_certs (c : conn_params) : certs_by_type :=
  if exact_sni_match_exists c then exact_sni_matches c
  else if wc_sni_match_exists c then wc_sni_matches c
  else default_certs_by_type c.

Lemma get_compatible_run w c t :
  s2n_get_compatible_cert_chain_and_key t (w, c) = certs_index (compatible_certs c) t (w, c).
Proof.
  unfold s2n_get_compatible_cert_chain_and_key, bind, get_obj, compatible_certs.
  by destruct (exact_sni_match_exists c), (wc_sni_match_exists c).
Qed.
End ConnectionParams.
Export ConnectionParams.
