(* ===== verification/AuthSelection.v ===== *)
(** * Choosing how to authenticate: tls/s2n_auth_selection.c, tls/s2n_signature_algorithms.c

    Which certificates, cipher suites and signature schemes go together, and the
    selection of a signature scheme. *)
From stdpp Require Import strings.
From S2P Require Import Prelude Errors CMem Platform Safety Blob Alloc Stuffer StufferInv StufferWrite StufferSpec NetworkOrder Connection Libcrypto CipherSuites Groups SignatureSchemes SecurityPolicies ConnectionParams.
Open Scope Z_scope.

Module AuthSelection.

(** ** tls/s2n_auth_selection.c *)

Definition s2n_get_auth_method_for_cert_type {X} (cert_type : s2n_pkey_type) : Cmd X s2n_authentication_method :=
  match cert_type with
  | S2N_PKEY_TYPE_RSA | S2N_PKEY_TYPE_RSA_PSS => ret S2N_AUTHENTICATION_RSA
  | S2N_PKEY_TYPE_ECDSA => ret S2N_AUTHENTICATION_ECDSA
  | S2N_PKEY_TYPE_UNKNOWN | S2N_PKEY_TYPE_SENTINEL => fail S2N_ERR_CERT_TYPE_UNSUPPORTED
  end.

Definition s2n_signature_algorithm_get_pkey_type {X} (a : s2n_signature_algorithm) : Cmd X s2n_pkey_type :=
  match a with
  | S2N_SIGNATURE_RSA | S2N_SIGNATURE_RSA_PSS_RSAE => ret S2N_PKEY_TYPE_RSA
  | S2N_SIGNATURE_RSA_PSS_PSS => ret S2N_PKEY_TYPE_RSA_PSS
  | S2N_SIGNATURE_ECDSA => ret S2N_PKEY_TYPE_ECDSA
  | S2N_SIGNATURE_ANONYMOUS => fail S2N_ERR_INVALID_SIGNATURE_ALGORITHM
  end.

Definition s2n_is_sig_alg_valid_for_cipher_suite {X} (a : s2n_signature_algorithm) (c : s2n_cipher_suite) : Cmd X unit :=
  cert_type_for_sig_alg <-- s2n_signature_algorithm_get_pkey_type a ;;
  (if negb (is_ephemeral (kex_deref (key_exchange_alg c))) then
     ensure (bool_decide (cert_type_for_sig_alg <> S2N_PKEY_TYPE_RSA_PSS)) S2N_ERR_SAFETY
   else ret tt) ;;;
  if bool_decide (auth_method c <> S2N_AUTHENTICATION_METHOD_SENTINEL) then
    auth_method_for_sig_alg <-- s2n_get_auth_method_for_cert_type cert_type_for_sig_alg ;;
    ensure (bool_decide (auth_method c = auth_method_for_sig_alg)) S2N_ERR_SAFETY
  else ret tt.

Section Definitions.
Context `{Libcrypto} `{Platform}.

Definition s2n_certs_exist_for_sig_scheme (s : s2n_signature_scheme) : Cmd conn_params unit :=
  cert_type <-- s2n_signature_algorithm_get_pkey_type (sig_alg s) ;;
  cert <-- s2n_get_compatible_cert_chain_and_key cert_type ;;
  match cert with
  | None => fail S2N_ERR_NULL
  | Some cert =>
      c <-- get_obj ;;
      match signature_curve s with
      | Some curve =>
          if S2N_TLS13 <=? actual_protocol_version (base c) then
            ensure (private_key cert) S2N_ERR_NULL ;;;
            match cert_chain cert with
            | [] => fail S2N_ERR_NULL
            | head :: _ =>
                ensure (bool_decide (pkey_type head = S2N_PKEY_TYPE_ECDSA)) S2N_ERR_SAFETY ;;;
                ensure (public_key_nid head =? nid_number (curve_nid curve)) S2N_ERR_SAFETY
            end
          else ret tt
      | None => ret tt
      end
  end.

(** The loop over the certificate types. *)
Fixpoint auth_method_loop (types : list s2n_pkey_type) (auth : s2n_authentication_method) : Cmd conn_params unit :=
  match types with
  | [] => fail S2N_ERR_CERT_TYPE_UNSUPPORTED
  | i :: rest =>
      auth_method_for_cert_type <-- s2n_get_auth_method_for_cert_type i ;;
      if bool_decide (auth <> auth_method_for_cert_type) then auth_method_loop rest auth
      else
        cert <-- s2n_get_compatible_cert_chain_and_key i ;;
        match cert with Some _ => ret tt | None => auth_method_loop rest auth end
  end.

(** The indices below S2N_CERT_TYPE_COUNT. *)
Definition cert_types : list s2n_pkey_type := [S2N_PKEY_TYPE_RSA; S2N_PKEY_TYPE_ECDSA; S2N_PKEY_TYPE_RSA_PSS].

Definition s2n_certs_exist_for_auth_method (auth : s2n_authentication_method) : Cmd conn_params unit :=
  if bool_decide (auth = S2N_AUTHENTICATION_METHOD_SENTINEL) then ret tt
  else auth_method_loop cert_types auth.

Definition s2n_is_cipher_suite_valid_for_auth (c : s2n_cipher_suite) : Cmd conn_params unit :=
  s2n_certs_exist_for_auth_method (auth_method c).

Definition s2n_is_sig_scheme_valid_for_auth (s : s2n_signature_scheme) : Cmd conn_params unit :=
  s2n_certs_exist_for_sig_scheme s ;;;
  c <-- get_obj ;;
  if bool_decide (mode (base c) = S2N_SERVER) then
    s2n_is_sig_alg_valid_for_cipher_suite (sig_alg s) (suite_deref (cipher_suite c))
  else ret tt.

Definition s2n_is_cert_type_valid_for_auth (cert_type : s2n_pkey_type) : Cmd conn_params unit :=
  auth <-- s2n_get_auth_method_for_cert_type cert_type ;;
  c <-- get_obj ;;
  let suite_auth := auth_method (suite_deref (cipher_suite c)) in
  if bool_decide (suite_auth <> S2N_AUTHENTICATION_METHOD_SENTINEL) then
    ensure (bool_decide (auth = suite_auth)) S2N_ERR_CERT_TYPE_UNSUPPORTED
  else ret tt.

Definition s2n_select_certs_for_server_auth : Cmd conn_params s2n_cert_chain_and_key :=
  c <-- get_obj ;;
  cert_type <-- s2n_signature_algorithm_get_pkey_type (sig_alg (server_cert_sig_scheme c)) ;;
  chosen_certs <-- s2n_get_compatible_cert_chain_and_key cert_type ;;
  match chosen_certs with
  | None => fail S2N_ERR_CERT_TYPE_UNSUPPORTED
  | Some certs => ret certs
  end.

(** ** tls/s2n_signature_algorithms.c *)

Definition s2n_signature_scheme_validate_for_send (scheme : s2n_signature_scheme) : Cmd conn_params unit :=
  c <-- get_obj ;;
  ensure (minimum_protocol_version scheme <=? actual_protocol_version (base c)) S2N_ERR_SAFETY ;;;
  (if s2n_connection_is_quic_enabled (base c) && negb (maximum_protocol_version scheme =? 0) then
     ensure (S2N_TLS13 <=? maximum_protocol_version scheme) S2N_ERR_SAFETY
   else ret tt) ;;;
  (if negb s2n_is_rsa_pss_signing_supported then
     ensure (bool_decide (sig_alg scheme <> S2N_SIGNATURE_RSA_PSS_RSAE)) S2N_ERR_SAFETY
   else ret tt) ;;;
  if negb s2n_is_rsa_pss_certs_supported then
    ensure (bool_decide (sig_alg scheme <> S2N_SIGNATURE_RSA_PSS_PSS)) S2N_ERR_SAFETY
  else ret tt.

(** s2n_result_is_ok of a check. *)
Definition result_is_ok {X A} (c : Cmd X A) : Cmd X bool :=
  r <-- attempt c ;;
  ret (match r with inl _ => true | inr _ => false end).

Definition s2n_signature_scheme_is_valid_for_send (scheme : s2n_signature_scheme) : Cmd conn_params bool :=
  result_is_ok (s2n_signature_scheme_validate_for_send scheme).

Definition s2n_signature_scheme_validate_for_recv (scheme : s2n_signature_scheme) : Cmd conn_params unit :=
  s2n_signature_scheme_validate_for_send scheme ;;;
  c <-- get_obj ;;
  let v := actual_protocol_version (base c) in
  (if negb (maximum_protocol_version scheme =? S2N_UNKNOWN_PROTOCOL_VERSION) then
     ensure (v <=? maximum_protocol_version scheme) S2N_ERR_SAFETY
   else ret tt) ;;;
  ensure (negb (v =? S2N_UNKNOWN_PROTOCOL_VERSION)) S2N_ERR_SAFETY ;;;
  if S2N_TLS13 <=? v then
    ensure (bool_decide (hash_alg scheme <> S2N_HASH_SHA1)) S2N_ERR_SAFETY ;;;
    ensure (bool_decide (sig_alg scheme <> S2N_SIGNATURE_RSA)) S2N_ERR_SAFETY
  else ret tt.

Definition s2n_signature_scheme_is_valid_for_recv (scheme : s2n_signature_scheme) : Cmd conn_params bool :=
  result_is_ok (s2n_signature_scheme_validate_for_recv scheme).

Definition s2n_signature_algorithms_get_legacy_default (signer : s2n_mode) : Cmd conn_params s2n_signature_scheme :=
  c <-- get_obj ;;
  auth <--
    (if bool_decide (signer = S2N_CLIENT) then s2n_get_auth_method_for_cert_type (client_cert_pkey_type c)
     else ret (auth_method (suite_deref (cipher_suite c)))) ;;
  if bool_decide (auth = S2N_AUTHENTICATION_ECDSA) then ret s2n_ecdsa_sha1 else ret s2n_rsa_pkcs1_md5_sha1.

(** S2N_PEER_MODE *)
Definition S2N_PEER_MODE (m : s2n_mode) : s2n_mode :=
  match m with S2N_CLIENT => S2N_SERVER | S2N_SERVER => S2N_CLIENT end.

(** The field that [chosen_sig_scheme] points to for a signer. *)
Definition set_sig_scheme (signer : s2n_mode) (s : s2n_signature_scheme) : Cmd conn_params unit :=
  match signer with
  | S2N_CLIENT => modify (set_client_cert_sig_scheme s)
  | S2N_SERVER => modify (set_server_cert_sig_scheme s)
  end.

(** The loop over the local preferences for the value of the peer. *)
Fixpoint recv_loop (l : list s2n_signature_scheme) (signer : s2n_mode) (iana_value : Z) : Cmd conn_params unit :=
  match l with
  | [] => fail S2N_ERR_INVALID_SIGNATURE_SCHEME
  | candidate :: rest =>
      if negb (scheme_iana_value candidate =? iana_value) then recv_loop rest signer iana_value
      else
        valid <-- s2n_signature_scheme_is_valid_for_recv candidate ;;
        if negb valid then recv_loop rest signer iana_value else set_sig_scheme signer candidate
  end.

Definition s2n_signature_algorithm_recv : Cmd (conn_params * s2n_stuffer) unit :=
  c <-- zoom fst_lens get_obj ;;
  let peer_mode := S2N_PEER_MODE (mode (base c)) in
  if actual_protocol_version (base c) <? S2N_TLS12 then
    zoom fst_lens
      (s <-- s2n_signature_algorithms_get_legacy_default peer_mode ;;
       set_sig_scheme peer_mode s)
  else
    r <-- attempt (zoom snd_lens s2n_stuffer_read_uint16) ;;
    match r with
    | inr _ => fail S2N_ERR_BAD_MESSAGE
    | inl iana_value =>
        zoom fst_lens
          (p <-- s2n_connection_get_signature_preferences ;;
           recv_loop (signature_schemes p) peer_mode iana_value)
    end.

Definition s2n_signature_algorithms_validate_supported_by_peer (iana : Z) : Cmd conn_params unit :=
  c <-- get_obj ;;
  if existsb (fun v => v =? iana) (peer_sig_scheme_list c) then ret tt
  else fail S2N_ERR_NO_VALID_SIGNATURE_SCHEME.

Definition s2n_signature_algorithm_is_supported_by_peer (iana : Z) : Cmd conn_params bool :=
  result_is_ok (s2n_signature_algorithms_validate_supported_by_peer iana).

(** The loop over the local preferences, with the fallback found so far. *)
Fixpoint select_loop (l : list s2n_signature_scheme) (fallback_candidate : option s2n_signature_scheme) :
    Cmd conn_params s2n_signature_scheme :=
  match l with
  | [] =>
      match fallback_candidate with
      | Some s => ret s
      | None => fail S2N_ERR_NO_VALID_SIGNATURE_SCHEME
      end
  | candidate :: rest =>
      valid <-- s2n_signature_scheme_is_valid_for_recv candidate ;;
      if negb valid then select_loop rest fallback_candidate
      else
        auth <-- attempt (s2n_is_sig_scheme_valid_for_auth candidate) ;;
        match auth with
        | inr _ => select_loop rest fallback_candidate
        | inl _ =>
            is_peer_supported <-- s2n_signature_algorithm_is_supported_by_peer (scheme_iana_value candidate) ;;
            if is_peer_supported : bool then ret candidate
            else
              let is_default := same_object candidate s2n_ecdsa_sha1 || same_object candidate s2n_rsa_pkcs1_sha1 in
              select_loop rest
                (if is_default then Some candidate
                 else match fallback_candidate with None => Some candidate | Some _ => fallback_candidate end)
        end
  end.

Definition s2n_signature_algorithm_select : Cmd conn_params unit :=
  c <-- get_obj ;;
  if actual_protocol_version (base c) <? S2N_TLS12 then
    s <-- s2n_signature_algorithms_get_legacy_default (mode (base c)) ;;
    set_sig_scheme (mode (base c)) s
  else
    p <-- s2n_connection_get_signature_preferences ;;
    s <-- select_loop (signature_schemes p) None ;;
    set_sig_scheme (mode (base c)) s.

Fixpoint list_send_loop (l : list s2n_signature_scheme) : Cmd (conn_params * s2n_stuffer) unit :=
  match l with
  | [] => ret tt
  | scheme :: rest =>
      valid <-- zoom fst_lens (s2n_signature_scheme_is_valid_for_send scheme) ;;
      (if valid : bool then zoom snd_lens (s2n_stuffer_write_uint16 (scheme_iana_value scheme)) else ret tt) ;;;
      list_send_loop rest
  end.

Definition s2n_signature_algorithms_supported_list_send : Cmd (conn_params * s2n_stuffer) unit :=
  p <-- zoom fst_lens s2n_connection_get_signature_preferences ;;
  size <-- zoom snd_lens s2n_stuffer_reserve_uint16 ;;
  list_send_loop (signature_schemes p) ;;;
  zoom snd_lens (s2n_stuffer_write_vector_size size).

(** The list behind [sig_hash_algs] is the first component of the state. *)
Fixpoint recv_list_loop (pairs : nat) : Cmd (list Z * s2n_stuffer) unit :=
  match pairs with
  | O => ret tt
  | S n =>
      sig_scheme <-- zoom snd_lens s2n_stuffer_read_uint16 ;;
      zoom fst_lens (modify (fun l => (l ++ [sig_scheme])%list)) ;;;
      recv_list_loop n
  end.

Definition s2n_recv_supported_sig_scheme_list : Cmd (list Z * s2n_stuffer) unit :=
  length_of_all_pairs <-- zoom snd_lens s2n_stuffer_read_uint16 ;;
  s <-- zoom snd_lens get_obj ;;
  if s2n_stuffer_data_available s <? length_of_all_pairs then ret tt
  else if negb (length_of_all_pairs mod 2 =? 0) then zoom snd_lens (s2n_stuffer_skip_read length_of_all_pairs)
  else
    let pairs_available := length_of_all_pairs / 2 in
    ensure (pairs_available <=? TLS_SIGNATURE_SCHEME_LIST_MAX_LEN) S2N_ERR_TOO_MANY_SIGNATURE_SCHEMES ;;;
    zoom fst_lens (put_obj []) ;;;
    recv_list_loop (Z.to_nat pairs_available).
End Definitions.

(** ** The checks as predicates *)

Definition pkey_of (a : s2n_signature_algorithm) : option s2n_pkey_type :=
  match a with
  | S2N_SIGNATURE_RSA | S2N_SIGNATURE_RSA_PSS_RSAE => Some S2N_PKEY_TYPE_RSA
  | S2N_SIGNATURE_RSA_PSS_PSS => Some S2N_PKEY_TYPE_RSA_PSS
  | S2N_SIGNATURE_ECDSA => Some S2N_PKEY_TYPE_ECDSA
  | S2N_SIGNATURE_ANONYMOUS => None
  end.

Definition auth_of (a : s2n_signature_algorithm) : s2n_authentication_method :=
  match a with S2N_SIGNATURE_ECDSA => S2N_AUTHENTICATION_ECDSA | _ => S2N_AUTHENTICATION_RSA end.

(** The certificates for a key type. *)
Definition certs_for (c : conn_params) (t : s2n_pkey_type) : option s2n_cert_chain_and_key :=
  match t with
  | S2N_PKEY_TYPE_RSA => rsa_certs (compatible_certs c)
  | S2N_PKEY_TYPE_ECDSA => ecdsa_certs (compatible_certs c)
  | S2N_PKEY_TYPE_RSA_PSS => rsa_pss_certs (compatible_certs c)
  | S2N_PKEY_TYPE_SENTINEL | S2N_PKEY_TYPE_UNKNOWN => None
  end.

(** Whether a command returns, without any effect. *)
Definition decides {X} (b : bool) (c : Cmd X unit) (s : world * X) : Prop :=
  if b then c s = (Ok tt, s) else exists e, c s = (Err e, s).

Section Predicates.
Context `{Libcrypto} `{Platform}.
Implicit Types (w : world) (c : conn_params) (s : s2n_signature_scheme).

Lemma decides_bind {X A} b (c : Cmd X A) (k : A -> Cmd X unit) (s : world * X) a :
  c s = (Ok a, s) -> decides b (k a) s -> decides b (bind c k) s.
Proof. unfold decides, bind. by intros ->. Qed.

Lemma decides_fail {X A} (c : Cmd X A) (k : A -> Cmd X unit) (s : world * X) e :
  c s = (Err e, s) -> decides false (bind c k) s.
Proof. unfold decides, bind. intros ->. by exists e. Qed.

Lemma decides_ensure {X} b e (s : world * X) : decides b (ensure b e) s.
Proof. destruct b; [done|by exists e]. Qed.

Lemma decides_seq {X} a b (c d : Cmd X unit) (s : world * X) : decides a c s -> decides b d s -> decides (a && b) (c ;;; d) s.
Proof.
  unfold decides, bind. destruct a; simpl.
  - intros ->. by destruct b.
  - intros [e ->] _. by exists e.
Qed.

Lemma decides_if {X} (g b : bool) (c : Cmd X unit) (s : world * X) :
  decides b c s -> decides (S2N_IMPLIES g b) (if g then c else ret tt) s.
Proof. by destruct g. Qed.

Lemma decides_get {X} b (k : X -> Cmd X unit) w (x : X) : decides b (k x) (w, x) -> decides b (bind get_obj k) (w, x).
Proof. done. Qed.

Lemma decides_ok {X} b (c : Cmd X unit) (s : world * X) : decides b c s -> result_is_ok c s = (Ok b, s).
Proof. unfold decides, result_is_ok, attempt, bind. destruct b; [by intros ->|by intros [e ->]]. Qed.

Lemma decides_attempt {X B} b (c : Cmd X unit) (s : world * X) (k : unit + s2n_error -> Cmd X B) :
  decides b c s -> exists e, bind (attempt c) k s = k (if b then inl tt else inr e) s.
Proof. unfold decides, bind, attempt. destruct b; [intros ->; by exists S2N_ERR_OK|intros [e ->]; by exists e]. Qed.

Definition valid_for_send c s : bool :=
  (minimum_protocol_version s <=? actual_protocol_version (base c)) &&
  (S2N_IMPLIES (s2n_connection_is_quic_enabled (base c) && negb (maximum_protocol_version s =? 0))
     (S2N_TLS13 <=? maximum_protocol_version s) &&
   (S2N_IMPLIES (negb s2n_is_rsa_pss_signing_supported) (bool_decide (sig_alg s <> S2N_SIGNATURE_RSA_PSS_RSAE)) &&
    S2N_IMPLIES (negb s2n_is_rsa_pss_certs_supported) (bool_decide (sig_alg s <> S2N_SIGNATURE_RSA_PSS_PSS)))).

Lemma validate_for_send_decides w c s :
  decides (valid_for_send c s) (s2n_signature_scheme_validate_for_send s) (w, c).
Proof.
  apply decides_get. repeat apply decides_seq; try apply decides_if; apply decides_ensure.
Qed.

Definition valid_for_recv c s : bool :=
  let v := actual_protocol_version (base c) in
  valid_for_send c s &&
  (S2N_IMPLIES (negb (maximum_protocol_version s =? S2N_UNKNOWN_PROTOCOL_VERSION)) (v <=? maximum_protocol_version s) &&
   (negb (v =? S2N_UNKNOWN_PROTOCOL_VERSION) &&
    S2N_IMPLIES (S2N_TLS13 <=? v)
      (bool_decide (hash_alg s <> S2N_HASH_SHA1) && bool_decide (sig_alg s <> S2N_SIGNATURE_RSA)))).

Lemma validate_for_recv_decides w c s :
  decides (valid_for_recv c s) (s2n_signature_scheme_validate_for_recv s) (w, c).
Proof.
  apply decides_seq; [apply validate_for_send_decides|]. apply decides_get.
  repeat (apply decides_seq; [first [apply decides_if; apply decides_ensure|apply decides_ensure]|]).
  apply decides_if, decides_seq; apply decides_ensure.
Qed.

(** The local certificates can produce signatures of the scheme. *)
Definition certs_exist c s : bool :=
  match pkey_of (sig_alg s) with
  | None => false
  | Some t =>
      match certs_for c t with
      | None => false
      | Some cert =>
          match signature_curve s with
          | None => true
          | Some curve =>
              S2N_IMPLIES (S2N_TLS13 <=? actual_protocol_version (base c))
                (private_key cert &&
                 match cert_chain cert with
                 | [] => false
                 | head :: _ =>
                     bool_decide (pkey_type head = S2N_PKEY_TYPE_ECDSA) && (public_key_nid head =? nid_number (curve_nid curve))
                 end)
          end
      end
  end.

Lemma get_pkey_type_run {X} a (x : world * X) :
  s2n_signature_algorithm_get_pkey_type a x =
    match pkey_of a with Some t => (Ok t, x) | None => (Err S2N_ERR_INVALID_SIGNATURE_ALGORITHM, x) end.
Proof. by destruct a. Qed.

Lemma get_certs_run w c a t :
  pkey_of a = Some t -> s2n_get_compatible_cert_chain_and_key t (w, c) = (Ok (certs_for c t), (w, c)).
Proof. rewrite get_compatible_run. by destruct a; intros [= <-]. Qed.

Lemma certs_exist_decides w c s : decides (certs_exist c s) (s2n_certs_exist_for_sig_scheme s) (w, c).
Proof.
  unfold s2n_certs_exist_for_sig_scheme, certs_exist. pose proof (get_pkey_type_run (sig_alg s) (w, c)) as Hk.
  destruct (pkey_of (sig_alg s)) as [t|] eqn:Ht; [|by eapply decides_fail].
  eapply decides_bind; [exact Hk|]. eapply decides_bind; [exact (get_certs_run _ _ _ _ Ht)|].
  destruct (certs_for c t) as [cert|]; [|by eexists].
  apply decides_get. destruct (signature_curve s) as [curve|]; [|done].
  apply decides_if, decides_seq; [apply decides_ensure|].
  destruct (cert_chain cert) as [|head rest]; [by eexists|].
  apply decides_seq; apply decides_ensure.
Qed.

(** The signature algorithm goes with the cipher suite of a server. *)
Definition fits_suite (a : s2n_signature_algorithm) (c : s2n_cipher_suite) : bool :=
  S2N_IMPLIES (negb (is_ephemeral (kex_deref (key_exchange_alg c)))) (bool_decide (a <> S2N_SIGNATURE_RSA_PSS_PSS)) &&
  S2N_IMPLIES (bool_decide (auth_method c <> S2N_AUTHENTICATION_METHOD_SENTINEL)) (bool_decide (auth_method c = auth_of a)).

Lemma fits_suite_decides {X} a (c : s2n_cipher_suite) (s : world * X) :
  a <> S2N_SIGNATURE_ANONYMOUS -> decides (fits_suite a c) (s2n_is_sig_alg_valid_for_cipher_suite a c) s.
Proof.
  intros Ha. unfold s2n_is_sig_alg_valid_for_cipher_suite, s2n_signature_algorithm_get_pkey_type, fits_suite.
  destruct a; try done; (eapply decides_bind; [done|]);
    apply decides_seq; apply decides_if; try (eapply decides_bind; [done|]); apply decides_ensure.
Qed.

Definition valid_for_auth c s : bool :=
  certs_exist c s &&
  S2N_IMPLIES (bool_decide (mode (base c) = S2N_SERVER)) (fits_suite (sig_alg s) (suite_deref (cipher_suite c))).

Lemma valid_for_auth_decides w c s : decides (valid_for_auth c s) (s2n_is_sig_scheme_valid_for_auth s) (w, c).
Proof.
  unfold valid_for_auth. pose proof (certs_exist_decides w c s) as Hc. unfold s2n_is_sig_scheme_valid_for_auth.
  destruct (certs_exist c s) eqn:He; cbn [andb].
  - eapply decides_bind; [exact Hc|]. apply decides_get.
    apply decides_if, fits_suite_decides. intros Ha. unfold certs_exist in He. by rewrite Ha in He.
  - destruct Hc as [e Hc]. by eapply decides_fail.
Qed.

Definition offered c s : bool := existsb (fun v => v =? scheme_iana_value s) (peer_sig_scheme_list c).

Lemma offered_decides w c s :
  decides (offered c s) (s2n_signature_algorithms_validate_supported_by_peer (scheme_iana_value s)) (w, c).
Proof.
  apply decides_get. fold (offered c s). destruct (offered c s); [done|by exists S2N_ERR_NO_VALID_SIGNATURE_SCHEME].
Qed.

(** ** Selection *)

Definition is_default_scheme s : bool := same_object s s2n_ecdsa_sha1 || same_object s s2n_rsa_pkcs1_sha1.

(** The schemes that the connection could use, in order of preference. *)
Definition usable c (l : list s2n_signature_scheme) : list s2n_signature_scheme :=
  List.filter (fun s => valid_for_recv c s && valid_for_auth c s) l.

(** What is used when the peer offered none of them. *)
Definition fallback (l : list s2n_signature_scheme) (f : option s2n_signature_scheme) : option s2n_signature_scheme :=
  match List.find is_default_scheme (rev l) with
  | Some d => Some d
  | None => match f with Some _ => f | None => head l end
  end.

Definition selected c (l : list s2n_signature_scheme) (f : option s2n_signature_scheme) : option s2n_signature_scheme :=
  match List.find (offered c) (usable c l) with
  | Some s => Some s
  | None => fallback (usable c l) f
  end.

Lemma find_app {A} (f : A -> bool) l k :
  List.find f (l ++ k) = match List.find f l with Some a => Some a | None => List.find f k end.
Proof. induction l as [|a l IH]; [done|]. simpl. by destruct (f a). Qed.

Lemma fallback_cons s l f :
  fallback (s :: l) f =
    fallback l (if is_default_scheme s then Some s else match f with None => Some s | Some _ => f end).
Proof.
  unfold fallback. simpl rev. rewrite find_app. destruct (List.find is_default_scheme (rev l)); [done|]. simpl.
  destruct (is_default_scheme s); [done|]. by destruct f.
Qed.

Lemma select_loop_run w c l f :
  select_loop l f (w, c) =
    match selected c l f with
    | Some s => (Ok s, (w, c))
    | None => (Err S2N_ERR_NO_VALID_SIGNATURE_SCHEME, (w, c))
    end.
Proof.
  revert f. induction l as [|s l IH]; intros f.
  { unfold selected, fallback. simpl. by destruct f. }
  cbn [select_loop].
  rewrite (run_bind _ _ _ _ _ (decides_ok _ _ _ (validate_for_recv_decides w c s))).
  unfold selected, usable. cbn [List.filter]. destruct (valid_for_recv c s); cbn [negb andb]; [|apply IH].
  match goal with |- context [bind (attempt ?d) ?k (w, c)] =>
    destruct (decides_attempt _ d (w, c) k (valid_for_auth_decides w c s)) as [e He] end. rewrite He.
  destruct (valid_for_auth c s); [|apply IH].
  rewrite (run_bind _ _ _ _ _ (decides_ok _ _ _ (offered_decides w c s))). cbn [List.find].
  destruct (offered c s); [done|]. cbv zeta. rewrite IH. by rewrite fallback_cons.
Qed.
End Predicates.
End AuthSelection.
Export AuthSelection.
