(* ===== verification/AuthTheorems.v ===== *)
(** * The choice of a signature scheme, and its messages

    What the selection of AuthSelection.v amounts to: which scheme a connection
    ends up signing with, which one it accepts from its peer, and that the list
    of supported schemes crosses the wire unchanged. *)
From S2P Require Import Prelude Errors CMem Platform Safety Blob Alloc Stuffer StufferInv StufferWrite StufferSpec NetworkOrder StufferBuild Connection HandshakeTypes Libcrypto CipherSuites Groups SignatureSchemes SecurityPolicies ConnectionParams AuthSelection.
Close Scope string_scope.
Open Scope Z_scope.

Module AuthTheorems.

(** A connection whose own scheme is [s]. *)
Definition with_scheme (signer : s2n_mode) (s : s2n_signature_scheme) (c : conn_params) : conn_params :=
  match signer with S2N_CLIENT => set_client_cert_sig_scheme s c | S2N_SERVER => set_server_cert_sig_scheme s c end.

Lemma set_sig_scheme_run m s w c : set_sig_scheme m s (w, c) = (Ok tt, (w, with_scheme m s c)).
Proof. by destruct m. Qed.

(** ** What the search returns *)

Lemma find_first {A} (f : A -> bool) l a :
  List.find f l = Some a -> exists l1 l2, l = l1 ++ a :: l2 /\ f a = true /\ Forall (fun b => f b = false) l1.
Proof.
  induction l as [|b l IH]; [done|]. simpl. destruct (f b) eqn:Hb.
  - intros [= ->]. exists [], l. by split_goal.
  - intros Hf. destruct (IH Hf) as (l1 & l2 & -> & Ha & Hl). exists (b :: l1), l2. split_goal; [done..|by constructor].
Qed.

Lemma find_none_Forall {A} (f : A -> bool) l : List.find f l = None -> Forall (fun b => f b = false) l.
Proof.
  induction l as [|b l IH]; [done|]. simpl. destruct (f b) eqn:Hb; [done|]. intros Hf. constructor; auto.
Qed.

Section Select.
Context `{Libcrypto} `{Platform}.
Implicit Types (w : world) (c : conn_params) (s : s2n_signature_scheme) (l : list s2n_signature_scheme).

(** [s] is the choice among the usable schemes [l]: the first that the peer
    offered; if it offered none, the last of the two default schemes of TLS 1.2
    in the list; failing that the first of all. *)
Inductive prefers c l s : Prop :=
| prefers_offered l1 l2 :
    l = l1 ++ s :: l2 -> offered c s = true -> Forall (fun t => offered c t = false) l1 -> prefers c l s
| prefers_default l1 l2 :
    l = l1 ++ s :: l2 -> Forall (fun t => offered c t = false) l -> is_default_scheme s = true ->
    Forall (fun t => is_default_scheme t = false) l2 -> prefers c l s
| prefers_first l2 :
    l = s :: l2 -> Forall (fun t => offered c t = false) l ->
    Forall (fun t => is_default_scheme t = false) l -> prefers c l s.

Lemma selected_prefers c l s : selected c l None = Some s -> prefers c (usable c l) s.
Proof.
  unfold selected, fallback. destruct (List.find (offered c) (usable c l)) as [t|] eqn:Hf.
  - intros [= ->]. destruct (find_first _ _ _ Hf) as (l1 & l2 & -> & Hs & Hl). by eapply prefers_offered.
  - apply find_none_Forall in Hf.
    destruct (List.find is_default_scheme (rev (usable c l))) as [t|] eqn:Hd.
    + intros [= ->]. destruct (find_first _ _ _ Hd) as (l1 & l2 & Hr & Hs & Hl).
      apply (prefers_default c _ _ (rev l2) (rev l1)); try done.
      * apply (f_equal (@rev _)) in Hr. rewrite rev_involutive in Hr. rewrite Hr.
        rewrite rev_app_distr. simpl. by rewrite <- app_assoc.
      * by apply Forall_rev.
    + apply find_none_Forall in Hd. apply Forall_rev in Hd. rewrite rev_involutive in Hd.
      destruct (usable c l) as [|t l'] eqn:Hu; [done|]. intros [= ->]. by eapply prefers_first.
Qed.

Lemma selected_none c l : selected c l None = None -> usable c l = [].
Proof.
  unfold selected, fallback. destruct (List.find (offered c) _); [done|].
  destruct (List.find is_default_scheme _); [done|]. by destruct (usable c l).
Qed.

Lemma prefers_in c l s : prefers c l s -> In s l.
Proof. intros [l1 l2 ->|l1 l2 ->|l2 ->]; rewrite ?in_app_iff; simpl; auto. Qed.

Lemma select_run w c p :
  policy_of c = Some p -> S2N_TLS12 <= actual_protocol_version (base c) ->
  s2n_signature_algorithm_select (w, c) =
    match selected c (signature_schemes (signature_preferences p)) None with
    | Some s => (Ok tt, (w, with_scheme (mode (base c)) s c))
    | None => (Err S2N_ERR_NO_VALID_SIGNATURE_SCHEME, (w, c))
    end.
Proof.
  intros Hp Hv. unfold s2n_signature_algorithm_select. unfold bind at 1, get_obj at 1.
  replace (_ <? _) with false by lia.
  rewrite (run_bind _ _ _ _ _ (get_signature_preferences_run w c p Hp)).
  unfold bind at 1. rewrite select_loop_run. destruct (selected _ _ _) as [s|]; [|done]. apply set_sig_scheme_run.
Qed.

(** C29 From TLS 1.2 on, s2n_signature_algorithm_select sets the connection's own signature
    scheme, and nothing else, to the scheme its policy prefers among those that
    are allowed in the negotiated version and for which it has a certificate:
    the first that the peer offered; if the peer offered none of them, the last
    in the list of the two defaults of TLS 1.2, and without those the first of
    the list.  It fails, with S2N_ERR_NO_VALID_SIGNATURE_SCHEME and without
    changing the connection, exactly when no scheme is usable. *)
Theorem signature_select_correct c p w
    (Hpolicy : policy_of c = Some p) (Hversion : S2N_TLS12 <= actual_protocol_version (base c)) :
  let l := usable c (signature_schemes (signature_preferences p)) in
  match s2n_signature_algorithm_select (w, c) with
  | (Ok _, st) => exists s, prefers c l s /\ st = (w, with_scheme (mode (base c)) s c)
  | (Err e, st) => l = [] /\ e = S2N_ERR_NO_VALID_SIGNATURE_SCHEME /\ st = (w, c)
  | (UB, _) => False
  end.
Proof.
  cbv zeta. rewrite (select_run _ _ _ Hpolicy Hversion). destruct (selected _ _ _) as [s|] eqn:Hs.
  - exists s. split; [by apply selected_prefers|done].
  - split_goal; try done. by apply selected_none.
Qed.

(** The scheme that a connection signs with. *)
Definition own_scheme c : s2n_signature_scheme :=
  match mode (base c) with S2N_CLIENT => client_cert_sig_scheme c | S2N_SERVER => server_cert_sig_scheme c end.

Lemma own_with_scheme s c : own_scheme (with_scheme (mode (base c)) s c) = s.
Proof. unfold own_scheme, with_scheme. destruct (mode (base c)) eqn:Hm; simpl; by rewrite Hm. Qed.

Lemma select_certs_run w c t cert :
  pkey_of (sig_alg (server_cert_sig_scheme c)) = Some t -> certs_for c t = Some cert ->
  s2n_select_certs_for_server_auth (w, c) = (Ok cert, (w, c)).
Proof.
  intros Ht Hc. unfold s2n_select_certs_for_server_auth. unfold bind at 1, get_obj at 1.
  pose proof (get_pkey_type_run (sig_alg (server_cert_sig_scheme c)) (w, c)) as Hk. rewrite Ht in Hk.
  rewrite (run_bind _ _ _ _ _ Hk), (run_bind _ _ _ _ _ (get_certs_run w c _ _ Ht)). by rewrite Hc.
Qed.

Lemma certs_for_with_scheme m s c t : certs_for (with_scheme m s c) t = certs_for c t.
Proof. by destruct m. Qed.

(** The scheme that was selected can be used: it is one of the policy and within its own
    range of versions; in TLS 1.3 it neither hashes with SHA-1 nor signs with
    PKCS#1 v1.5, and an ECDSA scheme goes with a private key on its own curve;
    and a server that then looks for the certificate to send finds the one of
    the scheme's key type. *)
Theorem signature_select_sound c p w w' c'
    (Hpolicy : policy_of c = Some p) (Hversion : S2N_TLS12 <= actual_protocol_version (base c))
    (Hrun : s2n_signature_algorithm_select (w, c) = (Ok tt, (w', c'))) :
  let s := own_scheme c' in
  let v := actual_protocol_version (base c) in
  In s (signature_schemes (signature_preferences p)) /\
  minimum_protocol_version s <= v /\
  (maximum_protocol_version s <> S2N_UNKNOWN_PROTOCOL_VERSION -> v <= maximum_protocol_version s) /\
  (S2N_TLS13 <= v -> hash_alg s <> S2N_HASH_SHA1 /\ sig_alg s <> S2N_SIGNATURE_RSA) /\
  exists t cert, pkey_of (sig_alg s) = Some t /\ certs_for c t = Some cert /\
    (mode (base c) = S2N_SERVER -> s2n_select_certs_for_server_auth (w', c') = (Ok cert, (w', c'))) /\
    (forall curve, signature_curve s = Some curve -> S2N_TLS13 <= v ->
       private_key cert = true /\
       exists head rest, cert_chain cert = head :: rest /\ public_key_nid head = nid_number (curve_nid curve)).
Proof.
  rewrite (select_run _ _ _ Hpolicy Hversion) in Hrun. destruct (selected _ _ _) as [s|] eqn:Hs; [|done].
  injection Hrun as <- <-. apply selected_prefers, prefers_in in Hs.
  apply filter_In in Hs as [Hin Hok]. apply andb_true_iff in Hok as [Hrecv Hauth]. cbv zeta. rewrite own_with_scheme.
  unfold valid_for_recv, valid_for_send, valid_for_auth, S2N_IMPLIES in *. zbool. split_goal; [done|lia| | |].
  - intros Hm. destruct (maximum_protocol_version s =? S2N_UNKNOWN_PROTOCOL_VERSION) eqn:E; zbool; [done|]. simpl in *. lia.
  - intros Hv. replace (S2N_TLS13 <=? _) with true in * by lia. simpl in *. zbool. by decided.
  - unfold certs_exist in *. destruct (pkey_of (sig_alg s)) as [t|] eqn:Ht; [|done].
    destruct (certs_for c t) as [cert|] eqn:Hc; [|done]. exists t, cert. split_goal; [done..| |].
    + intros Hm. apply (select_certs_run _ _ t); [|by rewrite certs_for_with_scheme]. by rewrite Hm.
    + intros curve Hcurve Hv. rewrite Hcurve in *. unfold S2N_IMPLIES in *.
      replace (S2N_TLS13 <=? _) with true in * by lia. simpl in *. zbool. split; [done|].
      destruct (cert_chain cert) as [|hd tl]; [done|]. zbool. decided. by exists hd, tl.
Qed.
End Select.

(** ** What the peer signs with *)

Section Recv.
Context `{Libcrypto} `{Platform} `{!PlatformOk}.
Implicit Types (w : world) (c : conn_params).

Definition acceptable c (iana : Z) (s : s2n_signature_scheme) : bool :=
  (scheme_iana_value s =? iana) && valid_for_recv c s.

Lemma valid_for_recv_run w c s :
  s2n_signature_scheme_is_valid_for_recv s (w, c) = (Ok (valid_for_recv c s), (w, c)).
Proof. apply decides_ok, validate_for_recv_decides. Qed.

Lemma recv_loop_run w c l m iana :
  recv_loop l m iana (w, c) =
    match List.find (acceptable c iana) l with
    | Some s => (Ok tt, (w, with_scheme m s c))
    | None => (Err S2N_ERR_INVALID_SIGNATURE_SCHEME, (w, c))
    end.
Proof.
  induction l as [|s l IH]; [done|]. cbn [recv_loop List.find]. unfold acceptable at 1.
  destruct (scheme_iana_value s =? iana); cbn [negb andb]; [|apply IH].
  rewrite (run_bind _ _ _ _ _ (valid_for_recv_run w c s)).
  destruct (valid_for_recv c s); [apply set_sig_scheme_run|apply IH].
Qed.

Lemma wp_recv w c p (s : s2n_stuffer) Q E :
  policy_of c = Some p -> S2N_TLS12 <= actual_protocol_version (base c) -> world_ok w -> stuffer_ok (hp w) s ->
  (2 <= write_cursor s - read_cursor s ->
     let iana := be_value 0 (take 2 (unread (hp w) s)) in
     match List.find (acceptable c iana) (signature_schemes (signature_preferences p)) with
     | Some sch => Q tt w (with_scheme (S2N_PEER_MODE (mode (base c))) sch c, advanced 2 s)
     | None => E S2N_ERR_INVALID_SIGNATURE_SCHEME w (c, advanced 2 s)
     end) ->
  (write_cursor s - read_cursor s < 2 -> E S2N_ERR_BAD_MESSAGE w (c, s)) ->
  wp s2n_signature_algorithm_recv (w, (c, s)) Q E.
Proof.
  intros Hp Hv Hw Hs Hok Hbad. unfold s2n_signature_algorithm_recv.
  apply wp_bind, wp_zoom, wp_get_obj. simpl lset. simpl lget. cbv zeta. replace (_ <? _) with false by lia.
  apply wp_bind, wp_attempt, wp_zoom. cbn [lget lset snd_lens snd fst].
  apply (wp_read_uint w s W16); [apply Hw|done|..]; intros Hlen; cbn [width_bytes] in *.
  - apply wp_zoom. cbn [lget lset fst_lens snd fst]. specialize (Hok Hlen). cbv zeta in Hok.
    apply wp_bind. eapply wp_run; [by apply get_signature_preferences_run|].
    change (Z.to_nat 2) with 2%nat. unfold wp. rewrite recv_loop_run. by destruct (List.find _ _).
  - apply wp_fail. by apply Hbad.
Qed.

(** From TLS 1.2 on, the scheme that the peer announces is accepted only if it is the first
    entry of the policy with the announced value that is valid in the negotiated
    version (so neither SHA-1 nor PKCS#1 v1.5 in TLS 1.3); exactly two bytes are
    consumed and only the peer's scheme changes.  A value that is not
    acceptable is refused with S2N_ERR_INVALID_SIGNATURE_SCHEME and a truncated
    one with S2N_ERR_BAD_MESSAGE, and then the connection is as before. *)
Theorem signature_recv_correct c p w (s : s2n_stuffer)
    (Hpolicy : policy_of c = Some p) (Hversion : S2N_TLS12 <= actual_protocol_version (base c))
    (Hworld : world_ok w) (Hstuffer : stuffer_ok (hp w) s) :
  let schemes := signature_schemes (signature_preferences p) in
  let iana := be_value 0 (take 2 (unread (hp w) s)) in
  match s2n_signature_algorithm_recv (w, (c, s)) with
  | (Ok _, st) =>
      exists sch l1 l2, schemes = l1 ++ sch :: l2 /\
        scheme_iana_value sch = iana /\ valid_for_recv c sch = true /\
        (S2N_TLS13 <= actual_protocol_version (base c) ->
           hash_alg sch <> S2N_HASH_SHA1 /\ sig_alg sch <> S2N_SIGNATURE_RSA) /\
        Forall (fun t => acceptable c iana t = false) l1 /\
        st = (w, (with_scheme (S2N_PEER_MODE (mode (base c))) sch c, set_read_cursor (read_cursor s + 2) s))
  | (Err e, st) =>
      e = S2N_ERR_BAD_MESSAGE /\ zlen (unread (hp w) s) < 2 /\ st = (w, (c, s)) \/
      e = S2N_ERR_INVALID_SIGNATURE_SCHEME /\ Forall (fun t => acceptable c iana t = false) schemes /\
        st = (w, (c, set_read_cursor (read_cursor s + 2) s))
  | (UB, _) => False
  end.
Proof.
  intros schemes iana. pose proof (unread_len Hstuffer) as Hlen.
  enough (Hrun : wp s2n_signature_algorithm_recv (w, (c, s))
    (fun _ w' x => exists sch, List.find (acceptable c iana) schemes = Some sch /\
      (w', x) = (w, (with_scheme (S2N_PEER_MODE (mode (base c))) sch c, advanced 2 s)))
    (fun e w' x => e = S2N_ERR_BAD_MESSAGE /\ zlen (unread (hp w) s) < 2 /\ (w', x) = (w, (c, s)) \/
      e = S2N_ERR_INVALID_SIGNATURE_SCHEME /\ List.find (acceptable c iana) schemes = None /\
        (w', x) = (w, (c, advanced 2 s)))).
  { unfold wp in Hrun. destruct (s2n_signature_algorithm_recv _) as [[[]|e|] [w' x]]; [| |done].
    - destruct Hrun as (sch & Hf & Hst). destruct (find_first _ _ _ Hf) as (l1 & l2 & Hsch & Ha & Hl).
      unfold acceptable in Ha. zbool. exists sch, l1, l2. split_goal; try done. intros Hv13.
      unfold valid_for_recv, S2N_IMPLIES in *. zbool. replace (S2N_TLS13 <=? _) with true in * by lia.
      simpl in *. zbool. by decided.
    - destruct Hrun as [?|(He & Hf & Hst)]; [by left|right]. split_goal; try done. by apply find_none_Forall. }
  apply (wp_recv w c p); try done.
  - intros Hle. cbv zeta. fold iana schemes. destruct (List.find _ _) as [sch|] eqn:Hf; [by exists sch|by right].
  - intros Hlt. left. split_goal; [done|lia|done].
Qed.

(** ** The list of supported schemes *)

Definition supported c l : list Z := map scheme_iana_value (List.filter (valid_for_send c) l).

Definition encode_values (l : list Z) : list Z := concat (map (be_bytes 2) l).

Lemma zlen_encode_values l : zlen (encode_values l) = 2 * zlen l.
Proof.
  induction l as [|v l IH]; [done|]. unfold encode_values in *. cbn [map concat].
  rewrite zlen_app, zlen_be_bytes, IH, zlen_cons. lia.
Qed.

Lemma emits_list_send_loop c l : Forall (fun s => is_u16 (scheme_iana_value s)) l ->
  emits c (encode_values (supported c l)) (list_send_loop l).
Proof.
  induction l as [|s l IH]; intros Hl; [apply emits_ret|]. inversion Hl as [|? ? Hu Hl']; subst. cbn [list_send_loop].
  apply (emits_get c _ _ (valid_for_send c s)).
  { intros w. apply decides_ok, validate_for_send_decides. }
  unfold supported, encode_values in *. cbn [List.filter]. destruct (valid_for_send c s); cbn [map concat].
  - apply emits_seq; [|auto]. apply (emits_uint c W16). done.
  - apply (emits_seq c []); [apply emits_ret|auto].
Qed.

Lemma emits_supported_list c p :
  policy_of c = Some p ->
  Forall (fun s => is_u16 (scheme_iana_value s)) (signature_schemes (signature_preferences p)) ->
  zlen (supported c (signature_schemes (signature_preferences p))) < 2 ^ 15 ->
  emits c (vector 2 (encode_values (supported c (signature_schemes (signature_preferences p)))))
    s2n_signature_algorithms_supported_list_send.
Proof.
  intros Hp Hu Hlen. eapply emits_get; [intros w; by apply get_signature_preferences_run|].
  apply emits_vector; [lia|rewrite zlen_encode_values; lia|]. by apply emits_list_send_loop.
Qed.

Lemma parses_recv_list_loop l acc : Forall is_u16 l ->
  parses acc (encode_values l) tt (acc ++ l) (recv_list_loop (length l)).
Proof.
  revert acc. induction l as [|v l IH]; intros acc Hl.
  { rewrite app_nil_r. apply parses_ret. }
  inversion Hl as [|? ? Hv Hl']; subst. cbn [recv_list_loop length]. unfold encode_values in *. cbn [map concat].
  eapply parses_bind; [by apply (parses_uint acc W16)|].
  eapply (parses_bind _ []); [by apply parses_pure|].
  replace (acc ++ v :: l) with ((acc ++ [v]) ++ l) by (by rewrite <- app_assoc). auto.
Qed.

Lemma supported_u16 c l : Forall (fun s => is_u16 (scheme_iana_value s)) l -> Forall is_u16 (supported c l).
Proof.
  unfold supported. induction 1 as [|s l Hs Hl IH]; [constructor|]. cbn [List.filter].
  destruct (valid_for_send c s); [by constructor|done].
Qed.

Lemma parses_supported_list l acc : Forall is_u16 l -> zlen l <= TLS_SIGNATURE_SCHEME_LIST_MAX_LEN ->
  parses acc (vector 2 (encode_values l)) tt l s2n_recv_supported_sig_scheme_list.
Proof.
  intros Hl Hmax w s rest Hw Hs Hu. pose proof (zlen_nonneg l). pose proof (zlen_encode_values l) as Hz.
  unfold TLS_SIGNATURE_SCHEME_LIST_MAX_LEN in Hmax. unfold vector in *. rewrite <- app_assoc in Hu.
  assert (Hw16 : in_width W16 (zlen (encode_values l))) by (unfold in_width, width_bytes; lia).
  unfold s2n_recv_supported_sig_scheme_list.
  pose proof (parses_uint acc W16 _ Hw16 w s _ Hw Hs Hu) as Hread.
  change (read_uint W16) with s2n_stuffer_read_uint16 in Hread. rewrite (run_bind _ _ _ _ _ Hread).
  destruct (parsed_ok _ _ _ _ Hs Hu) as [Hs' Hu'].
  change (Z.to_nat (width_bytes W16)) with (Z.to_nat 2) in *.
  set (s1 := advanced (zlen (be_bytes (Z.to_nat 2) (zlen (encode_values l)))) s) in *.
  unfold bind at 1. cbn [zoom lget lset snd_lens get_obj fst snd].
  pose proof (unread_len Hs') as Hl1. rewrite Hu', zlen_app in Hl1. pose proof (zlen_nonneg rest).
  rewrite (data_available_eq Hs'). replace (_ <? _) with false by lia.
  assert (Hmod : zlen (encode_values l) mod 2 = 0) by (rewrite Hz, Z.mul_comm; by apply Z.mod_mul).
  assert (Hdiv : zlen (encode_values l) / 2 = zlen l) by (rewrite Hz, Z.mul_comm; by apply Z.div_mul).
  rewrite Hmod, Hdiv. cbn [Z.eqb negb]. cbv zeta.
  rewrite run_ensure. unfold TLS_SIGNATURE_SCHEME_LIST_MAX_LEN. replace (_ <=? 128) with true by lia.
  unfold bind at 1. cbn [zoom lget lset fst_lens put_obj snd fst].
  unfold zlen at 1. rewrite Nat2Z.id.
  rewrite (parses_recv_list_loop l [] Hl w s1 rest Hw Hs' Hu').
  unfold s1. by rewrite advanced_advanced, zlen_app.
Qed.

(** C39 The list of signature schemes survives the wire: when one side sends the schemes of its
    policy, the bytes are the two-byte length followed by the two-byte values of
    exactly the schemes that may be sent in the negotiated version, in order of
    preference; the other side reads back that list and consumes exactly those
    bytes.  Sending fails only when a stuffer of fixed size has no room. *)
Theorem supported_list_roundtrip c p w (s : s2n_stuffer) peer_list
    (Hpolicy : policy_of c = Some p) (Hworld : world_ok w) (Hstuffer : stuffer_ok (hp w) s) (Hempty : unread (hp w) s = [])
    (Hu16 : Forall (fun s => is_u16 (scheme_iana_value s)) (signature_schemes (signature_preferences p)))
    (Hmax : zlen (supported c (signature_schemes (signature_preferences p))) <= TLS_SIGNATURE_SCHEME_LIST_MAX_LEN) :
  let values := supported c (signature_schemes (signature_preferences p)) in
  match s2n_signature_algorithms_supported_list_send (w, (c, s)) with
  | (Ok _, (w', (c', s'))) =>
      c' = c /\ unread (hp w') s' = be_bytes 2 (2 * zlen values) ++ encode_values values /\
      s2n_recv_supported_sig_scheme_list (w', (peer_list, s')) =
        (Ok tt, (w', (values, set_read_cursor (write_cursor s') s')))
  | (Err _, (w', (c', s'))) => c' = c /\ stuffer_ok (hp w') s' /\ room s < 2 + 2 * zlen values
  | (UB, _) => False
  end.
Proof.
  intros values. unfold TLS_SIGNATURE_SCHEME_LIST_MAX_LEN in Hmax.
  pose proof (emits_supported_list c p Hpolicy Hu16 ltac:(lia) w s Hworld Hstuffer) as Hrun. fold values in Hrun, Hmax.
  assert (Hlv : zlen (vector 2 (encode_values values)) = 2 + 2 * zlen values).
  { unfold vector. by rewrite zlen_app, zlen_be_bytes, zlen_encode_values. }
  unfold wp in Hrun. destruct (s2n_signature_algorithms_supported_list_send _) as [[[]|e|] [w' [c' s']]]; [| |done].
  - destruct Hrun as [Hc Happ]. cbn [fst snd] in Hc, Happ. subst c'. pose proof (app_step _ _ _ _ _ Happ) as T.
    pose proof (unread_appended _ _ _ _ _ Hstuffer Happ) as Hu. rewrite Hempty in Hu. cbn [app] in Hu.
    pose proof (unread_len (step_stuffer _ _ _ _ T)) as Hl. rewrite Hu in Hl.
    split_goal; [done|by rewrite Hu; unfold vector; rewrite zlen_encode_values|].
    rewrite (parses_supported_list values peer_list (supported_u16 _ _ Hu16) Hmax w' s' []);
      [|by eapply step_world_ok|apply T|by rewrite app_nil_r].
    rewrite Hl. unfold advanced. do 4 f_equal. lia.
  - destruct Hrun as (Hc & T & Hr). cbn [fst snd] in Hc, T. split_goal; [done|apply T|lia].
Qed.
End Recv.

(** ** Witnesses *)

(** A server with an RSA certificate, in TLS 1.3, whose peer offers PSS and PKCS#1 schemes. *)
Definition demo_params (m : s2n_mode) (version : Z) : conn_params :=
  ConnParams (demo_connection m version) None (Some (@security_policy_20240417 demo_libcrypto)) false
    (CertsByType (Some (CertChainAndKey [Cert S2N_PKEY_TYPE_RSA 0 0 2048] true)) None None) None false
    (StaticSuite (@s2n_tls13_aes_128_gcm_sha256 demo_libcrypto)) None zero_blob None S2N_HMAC_NONE S2N_PKEY_TYPE_RSA
    [TLS_SIGNATURE_SCHEME_RSA_PKCS1_SHA256; TLS_SIGNATURE_SCHEME_RSA_PSS_RSAE_SHA256]
    s2n_null_sig_scheme s2n_null_sig_scheme false no_certs false no_certs.

(** The peer prefers PKCS#1, which TLS 1.3 forbids. *)
Lemma signature_select_correct_witness :
  exists s, @prefers (demo_params S2N_SERVER S2N_TLS13)
      [s2n_rsa_pss_rsae_sha256; s2n_rsa_pss_rsae_sha384;
       s2n_rsa_pss_rsae_sha512] s /\
    @s2n_signature_algorithm_select demo_libcrypto (World ∅ started_statics, demo_params S2N_SERVER S2N_TLS13) =
      (Ok tt, (World ∅ started_statics, set_server_cert_sig_scheme s (demo_params S2N_SERVER S2N_TLS13))).
Proof.
  pose proof (@signature_select_correct demo_libcrypto (demo_params S2N_SERVER S2N_TLS13) _
    (World ∅ started_statics) eq_refl ltac:(vm_compute; congruence)) as Hc.
  cbv zeta in Hc. destruct (s2n_signature_algorithm_select _) as [[[]|e|] st] eqn:Hrun.
  - destruct Hc as (s & Hp & ->). exists s. split; [exact Hp|reflexivity].
  - destruct Hc as [Hu _]. vm_compute in Hu. discriminate Hu.
  - destruct Hc.
Defined.

Lemma signature_select_sound_witness :
  sig_alg (s2n_rsa_pss_rsae_sha256) <> S2N_SIGNATURE_RSA.
Proof.
  refine (proj2 (proj1 (proj2 (proj2 (proj2 (@signature_select_sound demo_libcrypto
    (demo_params S2N_SERVER S2N_TLS13) _ (World ∅ started_statics) (World ∅ started_statics)
    (set_server_cert_sig_scheme (s2n_rsa_pss_rsae_sha256) (demo_params S2N_SERVER S2N_TLS13))
    eq_refl _ _)))) _)).
  - vm_compute. congruence.
  - vm_compute. reflexivity.
  - vm_compute. congruence.
Defined.

(** A stuffer that holds the value of PSS with SHA-256. *)
Definition announced_world : world := World {[ 1%positive := [8; 4] ]} started_statics.
Definition announced : s2n_stuffer := Stuffer (Blob (Some (Ptr 1 0)) 2 0 false) 0 2 2 false false false.

Lemma announced_ok : world_ok announced_world /\ stuffer_ok (hp announced_world) announced.
Proof.
  split.
  - split; [apply map_Forall_singleton; solve_bytes|]. split; [done|]. simpl. unfold is_u32. lia.
  - split; simpl; try done; try lia.
    split; simpl; unfold is_u32; try done; try lia. intros p [= <-]. solve_valid_access.
Qed.

Lemma signature_recv_correct_witness :
  exists sch, scheme_iana_value sch = TLS_SIGNATURE_SCHEME_RSA_PSS_RSAE_SHA256 /\
    @s2n_signature_algorithm_recv demo_libcrypto demo_platform (announced_world, (demo_params S2N_CLIENT S2N_TLS13, announced)) =
      (Ok tt, (announced_world, (set_server_cert_sig_scheme sch (demo_params S2N_CLIENT S2N_TLS13),
                                 set_read_cursor 2 announced))).
Proof.
  pose proof (@signature_recv_correct demo_libcrypto demo_platform (demo_params S2N_CLIENT S2N_TLS13) _ announced_world
    announced eq_refl ltac:(vm_compute; congruence) (proj1 announced_ok) (proj2 announced_ok)) as Hc.
  cbv zeta in Hc. destruct (s2n_signature_algorithm_recv _) as [[[]|e|] st].
  - destruct Hc as (sch & l1 & l2 & _ & Hi & _ & _ & _ & ->). exists sch. split; [|reflexivity].
    rewrite Hi. vm_compute. reflexivity.
  - exfalso. destruct Hc as [(_ & Hlt & _)|(_ & Hf & _)].
    + vm_compute in Hlt. discriminate Hlt.
    + rewrite Forall_forall in Hf. specialize (Hf s2n_rsa_pss_rsae_sha256). assert (Hfalse : true = false); [|discriminate].
      rewrite <- Hf; [vm_compute; reflexivity|]. apply (list_elem_of_lookup_2 _ 3%nat). reflexivity.
  - destruct Hc.
Defined.

Lemma supported_list_roundtrip_witness :
  match @s2n_signature_algorithms_supported_list_send demo_libcrypto demo_platform
          (demo_world, (demo_params S2N_CLIENT S2N_TLS13, set_read_cursor 4 demo_stuffer)) with
  | (Ok _, (w', (c', s'))) => c' = demo_params S2N_CLIENT S2N_TLS13
  | (Err _, (w', (c', s'))) => room (set_read_cursor 4 demo_stuffer) < 34
  | (UB, _) => False
  end.
Proof.
  pose proof (@supported_list_roundtrip demo_libcrypto demo_platform _ (demo_params S2N_CLIENT S2N_TLS13) _ demo_world
    (set_read_cursor 4 demo_stuffer) [] eq_refl demo_world_ok) as Hc. cbv zeta in Hc.
  specialize (Hc ltac:(apply set_read_ok; [exact demo_stuffer_ok|simpl; lia]) eq_refl).
  specialize (Hc ltac:(repeat constructor; vm_compute; congruence) ltac:(vm_compute; congruence)).
  destruct (s2n_signature_algorithms_supported_list_send _) as [[[]|e|] [w' [c' s']]]; [apply Hc| |exact Hc].
  destruct Hc as (_ & _ & Hr). exact Hr.
Defined.
End AuthTheorems.
Export AuthTheorems.
