(* ===== verification/KexSelection.v ===== *)
(** * Whether a key exchange can be used: tls/s2n_kex.c

    The functions behind the [connection_supported] and [configure_connection]
    members of the key exchanges, and s2n_kex_supported and s2n_configure_kex,
    which call through those members.  The choice of a KEM for TLS 1.2
    (tls/s2n_kem.c, in [Groups]) is the interesting case: it reads the list that
    the client sent. *)
From stdpp Require Import strings.
From S2P Require Import Prelude Errors CMem Platform Safety Blob Alloc Stuffer StufferInv StufferWrite StufferSpec NetworkOrder StufferBuild Connection Libcrypto CipherSuites Groups SignatureSchemes SecurityPolicies ConnectionParams.
Close Scope string_scope.
Open Scope Z_scope.

Module KexSelection.

Section Definitions.
Context `{Libcrypto} `{Platform}.

Definition s2n_check_tls13 (suite : s2n_cipher_suite) : Cmd conn_params bool :=
  c <-- get_obj ;;
  ret (S2N_TLS13 <=? s2n_connection_get_protocol_version (base c)).

Definition s2n_check_rsa_key (suite : s2n_cipher_suite) : Cmd conn_params bool :=
  cert <-- s2n_get_compatible_cert_chain_and_key S2N_PKEY_TYPE_RSA ;;
  ret (match cert with Some _ => true | None => false end).

Definition s2n_check_dhe (suite : s2n_cipher_suite) : Cmd conn_params bool :=
  c <-- get_obj ;; ret (config_dhparams c).

Definition s2n_check_ecdhe (suite : s2n_cipher_suite) : Cmd conn_params bool :=
  c <-- get_obj ;;
  ret (match negotiated_curve c with Some _ => true | None => false end).

(** The branch on the client's extension that s2n_check_kem and s2n_configure_kem share. *)
Definition choose_kem (suite : s2n_cipher_suite) (p : s2n_kem_preferences) : Cmd conn_params s2n_kem :=
  c <-- get_obj ;;
  let client_kem_pref_list := client_pq_kem_extension c in
  if is_null (data client_kem_pref_list)
  then s2n_choose_kem_without_peer_pref_list (iana_value suite) (kems p) (kem_count p)
  else s2n_choose_kem_with_peer_pref_list (iana_value suite) client_kem_pref_list (kems p) (kem_count p).

Definition s2n_check_kem (suite : s2n_cipher_suite) : Cmd conn_params bool :=
  kem_preferences <-- s2n_connection_get_kem_preferences ;;
  if negb s2n_pq_is_enabled || (kem_count kem_preferences =? 0) then ret false
  else
    r <-- attempt (s2n_cipher_suite_to_kem (iana_value suite)) ;;
    match r with
    | inr _ => ret false
    | inl supported_params =>
        if zlen (iana_to_kem_kems supported_params) =? 0 then ret false
        else
          r <-- attempt (choose_kem suite kem_preferences) ;;
          ret (match r with inl _ => true | inr _ => false end)
    end.

Definition s2n_configure_kem (suite : s2n_cipher_suite) : Cmd conn_params unit :=
  ensure s2n_pq_is_enabled S2N_ERR_UNIMPLEMENTED ;;;
  kem_preferences <-- s2n_connection_get_kem_preferences ;;
  chosen_kem <-- choose_kem suite kem_preferences ;;
  modify (set_negotiated_kem (Some chosen_kem)).

Definition s2n_check_hybrid_ecdhe_kem (suite : s2n_cipher_suite) : Cmd conn_params bool :=
  ecdhe_supported <-- s2n_check_ecdhe suite ;;
  kem_supported <-- s2n_check_kem suite ;;
  ret (ecdhe_supported && kem_supported).

Definition s2n_kex_configure_noop (suite : s2n_cipher_suite) : Cmd conn_params unit := ret tt.

(** The call through [connection_supported]; only these functions have its type. *)
Definition call_supported (m : kex_method) (suite : s2n_cipher_suite) : Cmd conn_params bool :=
  match m with
  | CipherSuites.s2n_check_tls13 => s2n_check_tls13 suite
  | CipherSuites.s2n_check_rsa_key => s2n_check_rsa_key suite
  | CipherSuites.s2n_check_dhe => s2n_check_dhe suite
  | CipherSuites.s2n_check_ecdhe => s2n_check_ecdhe suite
  | CipherSuites.s2n_check_kem => s2n_check_kem suite
  | CipherSuites.s2n_check_hybrid_ecdhe_kem => s2n_check_hybrid_ecdhe_kem suite
  | _ => undefined
  end.

(** The call through [configure_connection]. *)
Definition call_configure (m : kex_method) (suite : s2n_cipher_suite) : Cmd conn_params unit :=
  match m with
  | CipherSuites.s2n_configure_kem => s2n_configure_kem suite
  | CipherSuites.s2n_kex_configure_noop => s2n_kex_configure_noop suite
  | _ => undefined
  end.

Definition s2n_kex_supported (suite : s2n_cipher_suite) : Cmd conn_params bool :=
  call_supported (connection_supported (kex_deref (key_exchange_alg suite))) suite.

Definition s2n_configure_kex (suite : s2n_cipher_suite) : Cmd conn_params unit :=
  call_configure (configure_connection (kex_deref (key_exchange_alg suite))) suite.

Definition s2n_kex_is_ephemeral {X} (kex : s2n_kex) : Cmd X bool := ret (is_ephemeral (kex_deref kex)).
End Definitions.

(** ** The choice of a KEM, as a search *)

(** The KEMs that the count covers. *)
Definition kems_of (p : s2n_kem_preferences) : list s2n_kem :=
  take (Z.to_nat (kem_count p)) (default [] (kems p)).
Definition kems_wf (p : s2n_kem_preferences) : Prop :=
  0 <= kem_count p <= zlen (default [] (kems p)).

(** The identifiers in a list that a client sent: the code counts them in a uint8_t. *)
Fixpoint pairs (n : nat) (bs : list Z) : list Z :=
  match n with O => [] | S n => be_value 0 (take 2 bs) :: pairs n (drop 2 bs) end.
Definition client_ids (h : heap) (b : s2n_blob) : list Z :=
  pairs (Z.to_nat (u8 (size b / 2))) (blob_bytes h b).

Section Choice.
Context `{Libcrypto} `{Platform} `{!PlatformOk}.
Implicit Types (w : world) (suite : s2n_cipher_suite).

Definition kems_for (iana : list Z) : option s2n_iana_to_kem :=
  List.find (fun m => bool_decide (iana = iana_to_kem_value m)) kem_mapping.

Definition compatible (iana : list Z) (k : s2n_kem) : bool :=
  match kems_for iana with
  | Some m => existsb (fun k' => kem_extension_id k =? kem_extension_id k') (iana_to_kem_kems m)
  | None => false
  end.

Definition iana_ok (iana : list Z) : Prop := zlen iana = 2 /\ is_bytes iana.

Lemma local_operand h bs : iana_ok bs -> operand h (LocalBuf bs) S2N_TLS_CIPHER_SUITE_LEN (Some bs).
Proof.
  intros [Hl Hb]. unfold operand, buf_is, S2N_TLS_CIPHER_SUITE_LEN. rewrite Hl. split_goal; try done.
  rewrite <- Hl. apply zslice_full.
Qed.

Lemma mapping_ianas_ok : Forall (fun m => iana_ok (iana_to_kem_value m)) kem_mapping.
Proof. repeat constructor; unfold is_u8; lia. Qed.

Lemma to_kem_run {X} iana (s : world * X) : iana_ok iana ->
  s2n_cipher_suite_to_kem iana s =
    match kems_for iana with Some m => (Ok m, s) | None => (Err S2N_ERR_KEM_UNSUPPORTED_PARAMS, s) end.
Proof.
  intros Hi. unfold s2n_cipher_suite_to_kem, kems_for.
  assert (Hgen : forall l, Forall (fun m => iana_ok (iana_to_kem_value m)) l ->
    to_kem_loop l iana s = match List.find (fun m => bool_decide (iana = iana_to_kem_value m)) l with
      Some m => (Ok m, s) | None => (Err S2N_ERR_KEM_UNSUPPORTED_PARAMS, s) end); [|apply Hgen, mapping_ianas_ok].
  induction l as [|m l IH]; intros Hl; [done|]. inversion Hl as [|? ? Hm Hl']; subst. cbn [to_kem_loop List.find].
  destruct s as [w x].
  erewrite run_bind by (apply constant_time_equals_eq; [|by apply local_operand|by apply local_operand]; done).
  cbn. destruct (bool_decide (iana = iana_to_kem_value m)); [done|auto].
Qed.

Lemma compatibility_run {X} iana k m (s : world * X) : iana_ok iana -> kems_for iana = Some m ->
  s2n_kem_check_kem_compatibility iana k s = (Ok (compatible iana k), s).
Proof.
  intros Hi Hm. unfold s2n_kem_check_kem_compatibility, bind, compatible. rewrite (to_kem_run iana s Hi), Hm. done.
Qed.

Lemma array_get_run {X A} (l : list A) i a (s : world * X) :
  0 <= i -> l !! Z.to_nat i = Some a -> array_get (Some l) i s = (Ok a, s).
Proof. intros Hi Ha. unfold array_get. replace (i <? 0) with false by lia. by rewrite Ha. Qed.

Lemma without_peer_run {X} iana m p (s : world * X) : iana_ok iana -> kems_for iana = Some m -> kems_wf p ->
  s2n_choose_kem_without_peer_pref_list iana (kems p) (kem_count p) s =
    match List.find (compatible iana) (kems_of p) with
    | Some k => (Ok k, s) | None => (Err S2N_ERR_KEM_UNSUPPORTED_PARAMS, s)
    end.
Proof.
  intros Hi Hm Hwf. unfold s2n_choose_kem_without_peer_pref_list, kems_of, kems_wf in *.
  destruct (kems p) as [l|]; simpl in *; [|change (zlen []) with 0 in Hwf; by replace (kem_count p) with 0 by lia].
  assert (Hgen : forall n i, (i + n <= length l)%nat ->
    without_peer_loop n (Z.of_nat i) iana (Some l) s =
      match List.find (compatible iana) (take n (drop i l)) with
      | Some k => (Ok k, s) | None => (Err S2N_ERR_KEM_UNSUPPORTED_PARAMS, s) end).
  { induction n as [|n IH]; intros i Hn; [done|]. cbn [without_peer_loop].
    destruct (lookup_lt_is_Some_2 l i) as [k Hk]; [lia|].
    rewrite (run_bind _ _ _ _ _ (array_get_run l (Z.of_nat i) k s ltac:(lia) ltac:(by rewrite Nat2Z.id))).
    rewrite (run_bind _ _ _ _ _ (compatibility_run iana k m s Hi Hm)).
    rewrite (drop_S _ _ _ Hk). cbn [take List.find]. destruct (compatible iana k); [done|].
    replace (Z.of_nat i + 1) with (Z.of_nat (S i)) by lia. apply IH. lia. }
  rewrite (Hgen _ 0%nat); [done|]. unfold zlen in Hwf. lia.
Qed.

(** ** With the list of the client *)

Lemma client_kem_loop_wp n k w (s : s2n_stuffer) Q E :
  world_ok w -> stuffer_ok (hp w) s -> 2 * Z.of_nat n <= write_cursor s - read_cursor s ->
  (forall r, stuffer_ok (hp w) (set_read_cursor r s) ->
     Q (existsb (fun v => kem_extension_id k =? v) (pairs n (unread (hp w) s))) w (set_read_cursor r s)) ->
  wp (client_kem_loop n k) (w, s) Q E.
Proof.
  intros Hw. revert s. induction n as [|n IH]; intros s Hs Hlen HQ; cbn [client_kem_loop].
  { apply wp_ret. assert (Hid : s = set_read_cursor (read_cursor s) s) by (by destruct s). rewrite Hid at 1.
    apply HQ. by rewrite <- Hid. }
  apply wp_bind, (wp_read_uint w s W16); [apply Hw|done| |cbn [width_bytes]; lia]. intros _.
  cbn [width_bytes]. change (Z.to_nat 2) with 2%nat. cbn [pairs existsb] in HQ.
  assert (Hs' : stuffer_ok (hp w) (advanced 2 s)) by (apply advanced_ok; [done|lia]).
  destruct (kem_extension_id k =? _); cbn [orb] in HQ.
  - apply wp_ret. by apply HQ.
  - apply IH; [done|simpl; lia|]. intros r Hr. rewrite unread_advanced by (done || lia). by apply (HQ r).
Qed.

Lemma with_peer_loop_wp iana m l n i count w (s : s2n_stuffer) Q E :
  iana_ok iana -> kems_for iana = Some m -> world_ok w -> stuffer_ok (hp w) s -> read_cursor s = 0 ->
  (i + n <= length l)%nat -> 0 <= count -> 2 * count <= write_cursor s ->
  let ids := pairs (Z.to_nat count) (written (hp w) s) in
  (forall k s', List.find (fun k => compatible iana k && existsb (fun v => kem_extension_id k =? v) ids) (take n (drop i l)) = Some k ->
     Q k w s') ->
  (forall s', List.find (fun k => compatible iana k && existsb (fun v => kem_extension_id k =? v) ids) (take n (drop i l)) = None ->
     E S2N_ERR_KEM_UNSUPPORTED_PARAMS w s') ->
  wp (with_peer_loop n (Z.of_nat i) count iana (Some l)) (w, s) Q E.
Proof.
  intros Hi Hm Hw Hs Hrc Hn Hc Hlen ids. revert i Hn. induction n as [|n IH]; intros i Hn HQ HE; cbn [with_peer_loop].
  { apply wp_fail. by apply HE. }
  destruct (lookup_lt_is_Some_2 l i) as [k Hk]; [lia|].
  apply wp_bind. eapply wp_run; [by apply (array_get_run l (Z.of_nat i) k); [lia|rewrite Nat2Z.id]|].
  apply wp_bind. eapply wp_run; [by apply (compatibility_run _ _ m)|].
  rewrite (drop_S _ _ _ Hk) in HQ, HE. cbn [take List.find] in HQ, HE.
  assert (Hnext : negb (compatible iana k && existsb (fun v => kem_extension_id k =? v) ids) = true ->
    wp (with_peer_loop n (Z.of_nat i + 1) count iana (Some l)) (w, s) Q E).
  { intros Hno. apply negb_true_iff in Hno. rewrite Hno in HQ, HE.
    replace (Z.of_nat i + 1) with (Z.of_nat (S i)) by lia. apply IH; [lia|done|done]. }
  destruct (compatible iana k); cbn [negb andb] in *; [|by apply Hnext].
  apply wp_bind, client_kem_loop_wp; [done|done|lia|]. intros r Hr.
  replace (unread (hp w) s) with (written (hp w) s) by (unfold unread; by rewrite Hrc). fold ids.
  destruct (existsb _ ids); [apply wp_ret; by apply HQ|].
  apply wp_bind, wp_reread; [done|].
  replace (set_read_cursor 0 (set_read_cursor r s)) with s by (destruct s; simpl in *; by subst). by apply Hnext.
Qed.

Lemma write_self_run b w : world_ok w -> blob_ok (hp w) b ->
  s2n_stuffer_write b (w, Stuffer b 0 0 0 false false false) =
    (Ok tt, (w, Stuffer b 0 (size b) (size b) false false false)).
Proof.
  intros Hw Hb. pose proof (ok_size _ _ Hb) as Hz. unfold is_u32 in Hz.
  set (s0 := Stuffer b 0 0 0 false false false).
  assert (Hs0 : stuffer_ok (hp w) s0) by (split; simpl; try done; lia).
  apply wp_eq. unfold s2n_stuffer_write. apply wp_bind, wp_pre_validate; [done|].
  apply wp_bind, wp_blob_validate; [done|]. unfold s2n_stuffer_write_bytes.
  destruct (Z.eqb_spec (size b) 0) as [E|E].
  { apply wp_ret. unfold s0. by rewrite E. }
  destruct (data b) as [p|] eqn:Hp; [|by destruct (ok_null _ _ Hb Hp)].
  apply wp_bind, wp_ensure; [intros _|simpl; unfold S2N_MEM_IS_READABLE; by rewrite orb_true_r].
  apply wp_bind, wp_pre_validate; [done|]. apply wp_bind, wp_skip_write; [done|done|done| |].
  2: { intros e w' s' [Hlt _]. simpl in Hlt. lia. }
  intros w' s' Hext. destruct (ext_fits _ _ _ _ _ Hext) as [-> Hbl]; [simpl; lia|].
  destruct (ext_shape _ _ _ _ _ Hext) as [b' ->]. simpl in Hbl. subst b'.
  unfold extended_by. cbn [s0 blob read_cursor write_cursor high_water_mark alloced st_growable tainted].
  rewrite Z.add_0_l, Z.max_l by lia. apply wp_bind, wp_get_obj. cbn [blob write_cursor]. rewrite Hp, Z.sub_diag.
  apply wp_bind, wp_ptr_add_some. rewrite Z.add_0_r.
  apply wp_bind, wp_ensure; [intros _|unfold S2N_MEM_IS_READABLE; by rewrite orb_true_r].
  replace (same_ptr _ _) with true by (symmetry; unfold same_ptr; destruct p; by apply bool_decide_eq_true).
  apply wp_post_validate; [|done]. split; simpl; try done; lia.
Qed.

(** The KEM that the server prefers among those that go with the suite and that
    the client listed, if it sent a list. *)
Definition kem_choice (h : heap) (c : conn_params) suite (p : s2n_kem_preferences) : option s2n_kem :=
  let ext := client_pq_kem_extension c in
  List.find (fun k => compatible (iana_value suite) k &&
    (is_null (data ext) || existsb (fun v => kem_extension_id k =? v) (client_ids h ext))) (kems_of p).

Lemma find_ext {A} (f g : A -> bool) l : (forall a, f a = g a) -> List.find f l = List.find g l.
Proof. intros Hfg. induction l as [|a l IH]; [done|]. simpl. by rewrite Hfg, IH. Qed.

Lemma choose_kem_run w c suite p m :
  iana_ok (iana_value suite) -> kems_for (iana_value suite) = Some m -> kems_wf p -> world_ok w ->
  blob_ok (hp w) (client_pq_kem_extension c) ->
  choose_kem suite p (w, c) =
    match kem_choice (hp w) c suite p with
    | Some k => (Ok k, (w, c)) | None => (Err S2N_ERR_KEM_UNSUPPORTED_PARAMS, (w, c))
    end.
Proof.
  intros Hi Hm Hwf Hw Hb. unfold choose_kem, kem_choice. unfold bind at 1, get_obj at 1. cbv zeta.
  set (b := client_pq_kem_extension c) in *. destruct (data b) as [q|] eqn:Hq; cbn [is_null negb].
  2: { rewrite (without_peer_run _ m) by done. erewrite find_ext; [done|]. intros k. simpl. by rewrite andb_true_r. }
  cbn [orb]. unfold s2n_choose_kem_with_peer_pref_list. pose proof (ok_size _ _ Hb) as Hz. unfold is_u32 in Hz.
  set (s1 := Stuffer b 0 (size b) (size b) false false false).
  assert (Hs1 : stuffer_ok (hp w) s1) by (split; simpl; try done; lia).
  assert (Hids : client_ids (hp w) b = pairs (Z.to_nat (u8 (size b / 2))) (written (hp w) s1)).
  { unfold client_ids, written, blob_bytes. simpl. by rewrite Hq. }
  assert (Hu : 0 <= u8 (size b / 2) <= size b / 2).
  { unfold u8. pose proof (Z.div_pos (size b) 2 ltac:(lia) ltac:(lia)). split; [by apply Z.mod_pos_bound|].
    by apply Z.mod_le. }
  pose proof (Z.mul_div_le (size b) 2 ltac:(lia)).
  assert (Hrun : wp (r <-- with_local zero_stuffer
      (s2n_stuffer_init b ;;; s2n_stuffer_write b ;;;
       with_peer_loop (Z.to_nat (kem_count p)) 0 (u8 (size b / 2)) (iana_value suite) (kems p)) ;;
    ret (fst r)) (w, c)
    (fun k w' c' => List.find (fun k => compatible (iana_value suite) k &&
       existsb (fun v => kem_extension_id k =? v) (client_ids (hp w) b)) (kems_of p) = Some k /\ (w', c') = (w, c))
    (fun e w' c' => List.find (fun k => compatible (iana_value suite) k &&
       existsb (fun v => kem_extension_id k =? v) (client_ids (hp w) b)) (kems_of p) = None /\
       e = S2N_ERR_KEM_UNSUPPORTED_PARAMS /\ (w', c') = (w, c))).
  { apply wp_bind, wp_with_local, wp_bind, wp_init; [done|]. apply wp_bind.
    eapply wp_run; [by apply write_self_run|]. fold s1. rewrite Hids. unfold kems_of, kems_wf in *.
    destruct (kems p) as [l|]; cbn [from_option id] in *.
    - change 0 with (Z.of_nat 0) at 1.
      assert (Hcount : (0 + Z.to_nat (kem_count p) <= length l)%nat) by (unfold zlen in Hwf; lia).
      assert (Hroom : 2 * u8 (size b / 2) <= write_cursor s1) by (simpl; lia).
      eapply (with_peer_loop_wp _ m l); try done; lia.
    - change (zlen []) with 0 in Hwf. replace (kem_count p) with 0 by lia. apply wp_fail. done. }
  unfold wp in Hrun. destruct (bind _ _ (w, c)) as [[k|e|] [w' c']]; [| |done].
  - destruct Hrun as [-> Hst]. injection Hst as -> ->. done.
  - destruct Hrun as (-> & -> & Hst). injection Hst as -> ->. done.
Qed.

(** ** Key exchanges *)

Definition kem_supported (h : heap) (c : conn_params) suite (p : s2n_kem_preferences) : bool :=
  s2n_pq_is_enabled && negb (kem_count p =? 0) &&
  match kems_for (iana_value suite) with
  | Some m => negb (zlen (iana_to_kem_kems m) =? 0) && bool_decide (is_Some (kem_choice h c suite p))
  | None => false
  end.

(** The state in which negotiation runs. *)
Record kex_ready (w : world) (c : conn_params) (p : s2n_security_policy) : Prop := {
  kr_policy : policy_of c = Some p;
  kr_kems : kems_wf (kem_preferences p);
  kr_world : world_ok w;
  kr_ext : blob_ok (hp w) (client_pq_kem_extension c);
}.

Lemma check_kem_run w c suite p : kex_ready w c p -> iana_ok (iana_value suite) ->
  s2n_check_kem suite (w, c) = (Ok (kem_supported (hp w) c suite (kem_preferences p)), (w, c)).
Proof.
  intros [Hp Hk Hw Hb] Hi. unfold s2n_check_kem, kem_supported.
  rewrite (run_bind _ _ _ _ _ (get_kem_preferences_run w c p Hp)).
  destruct s2n_pq_is_enabled; cbn [negb orb andb]; [|done].
  destruct (kem_count (kem_preferences p) =? 0); cbn [negb andb]; [done|].
  unfold bind at 1, attempt at 1. rewrite (to_kem_run _ _ Hi).
  destruct (kems_for (iana_value suite)) as [m|] eqn:Hm; [|done].
  destruct (zlen (iana_to_kem_kems m) =? 0); cbn [negb andb]; [done|].
  unfold bind, attempt. rewrite (choose_kem_run _ _ _ _ m) by done.
  destruct (kem_choice _ _ _ _) as [k|]; [by rewrite bool_decide_eq_true_2|].
  rewrite bool_decide_eq_false_2; [done|]. by intros [? ?].
Qed.

(** The key exchange of a suite can be used. *)
Definition kex_usable (h : heap) (c : conn_params) (p : s2n_security_policy) suite : bool :=
  let curve := match negotiated_curve c with Some _ => true | None => false end in
  match key_exchange_alg suite with
  | s2n_tls13_kex => S2N_TLS13 <=? s2n_connection_get_protocol_version (base c)
  | s2n_rsa => match rsa_certs (compatible_certs c) with Some _ => true | None => false end
  | s2n_dhe => config_dhparams c
  | s2n_ecdhe => curve
  | s2n_kex_kem => kem_supported h c suite (kem_preferences p)
  | s2n_hybrid_ecdhe_kem => curve && kem_supported h c suite (kem_preferences p)
  end.

(** The connection after it is configured. *)
Definition kex_configured (h : heap) (c : conn_params) (p : s2n_security_policy) suite : conn_params :=
  match key_exchange_alg suite with
  | s2n_kex_kem | s2n_hybrid_ecdhe_kem => set_negotiated_kem (kem_choice h c suite (kem_preferences p)) c
  | _ => c
  end.

Lemma kex_supported_run w c suite p : kex_ready w c p -> iana_ok (iana_value suite) ->
  s2n_kex_supported suite (w, c) = (Ok (kex_usable (hp w) c p suite), (w, c)).
Proof.
  intros Hr Hi. unfold s2n_kex_supported, kex_usable.
  destruct (key_exchange_alg suite); cbn [kex_deref connection_supported call_supported s2n_kem_members s2n_rsa_members
    s2n_dhe_members s2n_ecdhe_members s2n_hybrid_ecdhe_kem_members s2n_tls13_kex_members].
  - by apply check_kem_run.
  - unfold s2n_check_rsa_key, bind. rewrite get_compatible_run. cbn. by destruct (rsa_certs (compatible_certs c)).
  - done.
  - unfold s2n_check_ecdhe, bind, get_obj. by destruct (negotiated_curve c).
  - unfold s2n_check_hybrid_ecdhe_kem, s2n_check_ecdhe. unfold bind, get_obj, ret. rewrite (check_kem_run _ _ _ _ Hr Hi). by destruct (negotiated_curve c).
  - done.
Qed.

Lemma configure_kex_run w c suite p : kex_ready w c p -> iana_ok (iana_value suite) ->
  kex_usable (hp w) c p suite = true ->
  s2n_configure_kex suite (w, c) = (Ok tt, (w, kex_configured (hp w) c p suite)).
Proof.
  intros [Hp Hk Hw Hb] Hi Hu. unfold s2n_configure_kex, kex_usable, kex_configured in *.
  assert (Hkem : kem_supported (hp w) c suite (kem_preferences p) = true ->
    s2n_configure_kem suite (w, c) =
      (Ok tt, (w, set_negotiated_kem (kem_choice (hp w) c suite (kem_preferences p)) c))).
  { unfold kem_supported, s2n_configure_kem. intros Hs. zbool. rewrite run_ensure.
    destruct s2n_pq_is_enabled; [|done]. rewrite (run_bind _ _ _ _ _ (get_kem_preferences_run w c p Hp)).
    destruct (kems_for (iana_value suite)) as [m|] eqn:Hm; [|done]. zbool. decided.
    unfold bind. rewrite (choose_kem_run _ _ _ _ m) by done. 
    destruct (kem_choice _ _ _ _) as [k|]; [done|]. match goal with Hn : is_Some None |- _ => by destruct Hn end. }
  destruct (key_exchange_alg suite); cbn; try done; [by apply Hkem|]. apply Hkem. by zbool.
Qed.
End Choice.
End KexSelection.
Export KexSelection.
