(* ===== verification/CipherSelection.v ===== *)
(** * Choosing a cipher suite: the functions of tls/s2n_cipher_suites.c

    Which suites are available, the search for a suite by its IANA value, and
    how a client and a server settle on one.  The fields of the static suites
    that the library writes are [suite_statics]; everything else about a suite
    is constant ([CipherSuites]). *)
From stdpp Require Import strings.
From S2P Require Import Prelude Errors CMem Platform Safety Blob Alloc Stuffer StufferInv StufferSpec HandshakeTables Connection HandshakeIO HandshakeNames Libcrypto CipherSuites Groups SignatureSchemes SecurityPolicies ConnectionParams AuthSelection KexSelection.
Close Scope string_scope.
Open Scope Z_scope.

Module CipherSelection.

(** ** The state of the suites *)

(** The pointer [sslv3_cipher_suite]: NULL, the suite itself, or an allocated copy. *)
Inductive sslv3_ptr := Sslv3Null | Sslv3Self | Sslv3Copy (p : ptr).

Record suite_state := SuiteState {
  available : bool;
  record_alg : option s2n_record_algorithm;
  sslv3_cipher_suite : sslv3_ptr;
}.

(** The static variables of the file; the suites by the name of their variable. *)
Record suite_statics := SuiteStatics {
  suite_states : gmap string suite_state;
  should_init_crypto : bool;
  crypto_initialized : bool;
}.

Definition idle_suite : suite_state := SuiteState false None Sslv3Null.
Definition state_of (st : suite_statics) (c : s2n_cipher_suite) : suite_state :=
  default idle_suite (suite_states st !! suite_symbol c).
Definition upd_state (c : s2n_cipher_suite) (f : suite_state -> suite_state) (st : suite_statics) : suite_statics :=
  SuiteStatics (<[suite_symbol c := f (state_of st c)]> (suite_states st)) (should_init_crypto st) (crypto_initialized st).

Definition set_available (v : bool) (x : suite_state) : suite_state := SuiteState v (record_alg x) (sslv3_cipher_suite x).
Definition set_record_alg (v : option s2n_record_algorithm) (x : suite_state) : suite_state :=
  SuiteState (available x) v (sslv3_cipher_suite x).
Definition set_sslv3 (v : sslv3_ptr) (x : suite_state) : suite_state := SuiteState (available x) (record_alg x) v.

(** The fields behind a pointer to a suite.  The copy for SSLv3 is written only
    when it is made, with [available] set and the SSLv3 record algorithm. *)
Definition ref_available (st : suite_statics) (r : suite_ref) : bool :=
  match r with StaticSuite c => available (state_of st c) | Sslv3Suite _ => true end.
Definition ref_record_alg (st : suite_statics) (r : suite_ref) : option s2n_record_algorithm :=
  match r with StaticSuite c => record_alg (state_of st c) | Sslv3Suite c => sslv3_record_alg c end.

(** [suite->sslv3_cipher_suite]; [None] is NULL. *)
Definition sslv3_of (st : suite_statics) (c : s2n_cipher_suite) : option suite_ref :=
  match sslv3_cipher_suite (state_of st c) with
  | Sslv3Null => None
  | Sslv3Self => Some (StaticSuite c)
  | Sslv3Copy _ => Some (Sslv3Suite c)
  end.

(** sizeof(struct s2n_cipher_suite) where pointers have 8 bytes. *)
Definition SIZEOF_CIPHER_SUITE : Z := 104.

Section Definitions.
Context `{Libcrypto} `{Platform}.

(** The static initialisers: only the null suite starts out available. *)
Definition initial_suites : suite_statics :=
  SuiteStatics {[ suite_symbol s2n_null_cipher_suite := SuiteState true (Some s2n_record_alg_null) Sslv3Null ]} true false.

Definition s2n_crypto_disable_init : Cmd suite_statics unit :=
  st <-- get_obj ;;
  ensure (negb (crypto_initialized st)) S2N_ERR_INITIALIZED ;;;
  put_obj (SuiteStatics (suite_states st) false (crypto_initialized st)).

(** s2n_dup of a suite: the bytes of the struct are not part of the heap model,
    the memory of the copy is. *)
Definition dup_suite {X} : Cmd X ptr :=
  m <-- get_mem ;;
  ensure (initialized m) S2N_ERR_NOT_INITIALIZED ;;;
  r <-- with_local zero_blob (s2n_alloc SIZEOF_CIPHER_SUITE) ;;
  match data (snd r) with Some p => ret p | None => fail S2N_ERR_NULL end.

(** One round of the loop of s2n_cipher_suites_init. *)
Definition init_suite (c : s2n_cipher_suite) : Cmd suite_statics unit :=
  modify (upd_state c (set_available false)) ;;;
  modify (upd_state c (set_record_alg None)) ;;;
  match List.find (fun r => is_available (cipher r)) (all_record_algs c) with
  | Some r => modify (upd_state c (set_available true)) ;;; modify (upd_state c (set_record_alg (Some r)))
  | None => ret tt
  end ;;;
  (if s2n_kex_includes (key_exchange_alg c) s2n_kex_kem && negb s2n_pq_is_enabled then
     modify (upd_state c (set_available false)) ;;; modify (upd_state c (set_record_alg None))
   else ret tt) ;;;
  if match sslv3_record_alg c with Some r => is_available (cipher r) | None => false end then
    new_suite <-- dup_suite ;;
    modify (upd_state c (set_sslv3 (Sslv3Copy new_suite)))
  else modify (upd_state c (set_sslv3 Sslv3Self)).

Fixpoint for_suites (l : list s2n_cipher_suite) (body : s2n_cipher_suite -> Cmd suite_statics unit) :
    Cmd suite_statics unit :=
  match l with [] => ret tt | c :: rest => body c ;;; for_suites rest body end.

Definition s2n_cipher_suites_init : Cmd suite_statics unit :=
  for_suites s2n_all_cipher_suites init_suite ;;;
  modify (fun st => SuiteStatics (suite_states st) (should_init_crypto st) true).

Definition cleanup_suite (c : s2n_cipher_suite) : Cmd suite_statics unit :=
  modify (upd_state c (set_available false)) ;;;
  modify (upd_state c (set_record_alg None)) ;;;
  st <-- get_obj ;;
  match sslv3_cipher_suite (state_of st c) with
  | Sslv3Copy p => with_local (Some p) (s2n_free_object SIZEOF_CIPHER_SUITE) ;;; ret tt
  | Sslv3Null => with_local None (s2n_free_object SIZEOF_CIPHER_SUITE) ;;; ret tt
  | Sslv3Self => ret tt
  end ;;;
  modify (upd_state c (set_sslv3 Sslv3Null)).

Definition s2n_cipher_suites_cleanup : Cmd suite_statics unit :=
  for_suites s2n_all_cipher_suites cleanup_suite.

(** ** Search by IANA value *)

(** memcmp on byte strings. *)
Fixpoint memcmp (a b : list Z) : comparison :=
  match a, b with
  | x :: a, y :: b => match Z.compare x y with Eq => memcmp a b | r => r end
  | _, _ => Eq
  end.

(** The loop of the binary search; [fuel] bounds the iterations. *)
Fixpoint iana_search {X} (fuel : nat) (iana : buffer) (low top : Z) : Cmd X s2n_cipher_suite :=
  match fuel with
  | O => undefined
  | S fuel =>
      if low <=? top then
        let mid := low + Z.quot (top - low) 2 in
        suite <-- array_get (Some s2n_all_cipher_suites) mid ;;
        bytes <-- load_buf iana S2N_TLS_CIPHER_SUITE_LEN ;;
        match memcmp (iana_value suite) bytes with
        | Eq => ret suite
        | Gt => iana_search fuel iana low (mid - 1)
        | Lt => iana_search fuel iana (mid + 1) top
        end
      else fail S2N_ERR_CIPHER_NOT_SUPPORTED
  end.

Definition s2n_cipher_suite_from_iana {X} (iana : buffer) (iana_len : Z) : Cmd X s2n_cipher_suite :=
  ensure (negb (buf_is_null iana)) S2N_ERR_NULL ;;;
  ensure (iana_len =? S2N_TLS_CIPHER_SUITE_LEN) S2N_ERR_SAFETY ;;;
  iana_search (S (length s2n_all_cipher_suites)) iana 0 (zlen s2n_all_cipher_suites - 1).

(** ** The client *)

Fixpoint client_find {X} (l : list s2n_cipher_suite) (wire : list Z) : Cmd X (option s2n_cipher_suite) :=
  match l with
  | [] => ret None
  | c :: rest =>
      e <-- s2n_constant_time_equals (LocalBuf wire) (LocalBuf (iana_value c)) S2N_TLS_CIPHER_SUITE_LEN ;;
      if e : bool then ret (Some c) else client_find rest wire
  end.

Definition s2n_is_hello_retry_message : Cmd s2n_connection bool :=
  c <-- get_obj ;;
  ok <-- result_is_ok (s2n_handshake_validate (handshake c)) ;;
  if ok : bool then m <-- active_message ;; ret (bool_decide (m = HELLO_RETRY_MSG)) else ret false.

Definition s2n_is_hello_retry_handshake (c : s2n_connection) : bool := IS_HELLO_RETRY_HANDSHAKE c.

(** The statics and the connection. *)
Abbreviation suites_conn := (suite_statics * conn_params)%type.

(** The end of s2n_set_cipher_as_client, once the suite has passed the checks. *)
Definition client_settle (cipher_suite_ : s2n_cipher_suite) : Cmd suites_conn unit :=
  x <-- get_obj ;; let '(st, c) := x in
  hrr_message <--
    (if s2n_is_hello_retry_handshake (base c)
     then zoom snd_lens (zoom base_lens s2n_is_hello_retry_message) else ret true) ;;
  if negb hrr_message then
    ensure (same_suite (cipher_suite c) (StaticSuite cipher_suite_)) S2N_ERR_CIPHER_NOT_SUPPORTED
  else
    zoom snd_lens (modify (set_cipher_suite (StaticSuite cipher_suite_))) ;;;
    if actual_protocol_version (base c) =? S2N_SSLv3 then
      match sslv3_of st cipher_suite_ with
      | Some r => zoom snd_lens (modify (set_cipher_suite r))
      | None => fail S2N_ERR_NULL
      end
    else ret tt.

Definition s2n_set_cipher_as_client (wire : list Z) : Cmd suites_conn unit :=
  security_policy <-- zoom snd_lens s2n_connection_get_security_policy ;;
  suite <-- client_find (suites (cipher_preferences security_policy)) wire ;;
  match suite with
  | None => fail S2N_ERR_CIPHER_NOT_SUPPORTED
  | Some cipher_suite_ =>
      x <-- get_obj ;; let '(st, c) := x in
      ensure (available (state_of st cipher_suite_)) S2N_ERR_CIPHER_NOT_SUPPORTED ;;;
      (if chosen_psk (base c) then
         ensure (bool_decide (prf_alg cipher_suite_ = chosen_psk_hmac c)) S2N_ERR_CIPHER_NOT_SUPPORTED
       else ret tt) ;;;
      client_settle cipher_suite_
  end.

(** ** The server *)

(** The loop over the suites on the wire: [n] left, from index [i]. *)
Fixpoint wire_loop {X} (n : nat) (i : Z) (match_ : list Z) (wire : option ptr) (cipher_suite_len : Z) : Cmd X bool :=
  match n with
  | O => ret false
  | S n =>
      theirs <-- ptr_add wire (i * cipher_suite_len + (cipher_suite_len - S2N_TLS_CIPHER_SUITE_LEN)) ;;
      e <-- s2n_constant_time_equals (LocalBuf match_) (HeapBuf theirs) S2N_TLS_CIPHER_SUITE_LEN ;;
      if e : bool then ret true else wire_loop n (i + 1) match_ wire cipher_suite_len
  end.

Definition s2n_wire_ciphers_contain {X} (match_ : list Z) (wire : option ptr) (count cipher_suite_len : Z) : Cmd X bool :=
  wire_loop (Z.to_nat count) 0 match_ wire cipher_suite_len.

Definition s2n_cipher_suite_uses_chacha20_alg (st : suite_statics) (r : suite_ref) : bool :=
  match ref_record_alg st r with
  | Some alg => same_object (cipher alg) s2n_chacha20_poly1305
  | None => false
  end.

Definition s2n_validate_chacha20_boosting {X} (st : suite_statics) (p : s2n_cipher_preferences) (wire : option ptr)
    (cipher_suite_len : Z) : Cmd X unit :=
  ensure (negb (is_null wire)) S2N_ERR_NULL ;;;
  ensure (allow_chacha20_boosting p) S2N_ERR_SAFETY ;;;
  clients_first_cipher_iana <-- ptr_add wire (cipher_suite_len - S2N_TLS_CIPHER_SUITE_LEN) ;;
  client_first_cipher_suite <-- s2n_cipher_suite_from_iana (HeapBuf clients_first_cipher_iana) S2N_TLS_CIPHER_SUITE_LEN ;;
  ensure (s2n_cipher_suite_uses_chacha20_alg st (StaticSuite client_first_cipher_suite)) S2N_ERR_SAFETY.

Definition s2n_handshake_is_renegotiation (c : s2n_connection) : bool := renegotiation (handshake c).

(** [higher_vers_match] and [non_chacha20_match]: set once. *)
Definition or_first (a : option suite_ref) (b : suite_ref) : option suite_ref :=
  match a with Some _ => a | None => Some b end.

Section Loop.
Context (wire : option ptr) (count cipher_suite_len : Z) (try_chacha20_boosting : bool).

Fixpoint server_loop (l : list s2n_cipher_suite) (higher_vers_match non_chacha20_match : option suite_ref) :
    Cmd suites_conn unit :=
  match l with
  | [] =>
      match non_chacha20_match, higher_vers_match with
      | Some m, _ => zoom snd_lens (modify (set_cipher_suite m))
      | None, Some m => zoom snd_lens (modify (set_cipher_suite m))
      | None, None => fail S2N_ERR_CIPHER_NOT_SUPPORTED
      end
  | ours :: rest =>
      let continue := server_loop rest higher_vers_match non_chacha20_match in
      offered <-- s2n_wire_ciphers_contain (iana_value ours) wire count cipher_suite_len ;;
      if negb offered then continue
      else
        x <-- get_obj ;; let '(st, c) := x in
        let v := actual_protocol_version (base c) in
        if negb (Bool.eqb (S2N_TLS13 <=? v) (S2N_TLS13 <=? minimum_required_tls_version ours)) then continue
        else
          match (if v =? S2N_SSLv3 then sslv3_of st ours else Some (StaticSuite ours)) with
          | None => undefined
          | Some match_ =>
              if negb (ref_available st match_) then continue
              else
                auth <-- attempt (zoom snd_lens (s2n_is_cipher_suite_valid_for_auth (suite_deref match_))) ;;
                match auth with
                | inr _ => continue
                | inl _ =>
                    kex_supported <-- zoom snd_lens (s2n_kex_supported (suite_deref match_)) ;;
                    if negb kex_supported then continue
                    else
                      configured <-- attempt (zoom snd_lens (s2n_configure_kex (suite_deref match_))) ;;
                      match configured with
                      | inr _ => continue
                      | inl _ =>
                          if chosen_psk (base c) && bool_decide (prf_alg (suite_deref match_) <> chosen_psk_hmac c)
                          then continue
                          else if v <? minimum_required_tls_version (suite_deref match_) then
                            server_loop rest (or_first higher_vers_match match_) non_chacha20_match
                          else if try_chacha20_boosting then
                            if s2n_cipher_suite_uses_chacha20_alg st match_ then
                              zoom snd_lens (modify (set_cipher_suite match_))
                            else server_loop rest higher_vers_match (or_first non_chacha20_match match_)
                          else zoom snd_lens (modify (set_cipher_suite match_))
                      end
                end
          end
  end.
End Loop.

Definition s2n_set_cipher_as_server (wire : option ptr) (count cipher_suite_len : Z) : Cmd suites_conn unit :=
  x <-- get_obj ;; let '(st, c) := x in
  fallback <--
    (if client_protocol_version (base c) <? server_protocol_version (base c)
     then s2n_wire_ciphers_contain TLS_FALLBACK_SCSV wire count cipher_suite_len else ret false) ;;
  ensure (negb fallback) S2N_ERR_FALLBACK_DETECTED ;;;
  scsv <-- s2n_wire_ciphers_contain TLS_EMPTY_RENEGOTIATION_INFO_SCSV wire count cipher_suite_len ;;
  (if scsv : bool then
     ensure (negb (s2n_handshake_is_renegotiation (base c))) S2N_ERR_BAD_MESSAGE ;;;
     zoom snd_lens (modify (set_secure_renegotiation true))
   else ret tt) ;;;
  security_policy <-- zoom snd_lens s2n_connection_get_security_policy ;;
  let p := cipher_preferences security_policy in
  try_chacha20_boosting <-- result_is_ok (s2n_validate_chacha20_boosting st p wire cipher_suite_len) ;;
  server_loop wire count cipher_suite_len try_chacha20_boosting (suites p) None None.

Definition s2n_set_cipher_as_sslv2_server (wire : option ptr) (count : Z) : Cmd suites_conn unit :=
  s2n_set_cipher_as_server wire count S2N_SSLv2_CIPHER_SUITE_LEN.
Definition s2n_set_cipher_as_tls_server (wire : option ptr) (count : Z) : Cmd suites_conn unit :=
  s2n_set_cipher_as_server wire count S2N_TLS_CIPHER_SUITE_LEN.
End Definitions.
End CipherSelection.
Export CipherSelection.
