(* ===== verification/CipherTheorems.v ===== *)
(** * What the choice of a cipher suite guarantees

    The binary search finds what a linear search finds; the suites that are
    available after start-up; what a client accepts and what a server picks. *)
From Stdlib Require Import Sorting.Sorted.
From stdpp Require Import strings.
From S2P Require Import Prelude Errors CMem Platform Safety Blob Alloc Stuffer StufferInv StufferSpec NetworkOrder HandshakeTables Connection HandshakeTypes HandshakeIO HandshakeNames Libcrypto CipherSuites Groups SignatureSchemes SecurityPolicies ConnectionParams AuthSelection AuthTheorems KexSelection CipherSelection.
Close Scope string_scope.
Open Scope Z_scope.

Module CipherTheorems.

(** ** The binary search *)

(** Two-byte strings are compared like the numbers they denote. *)
Lemma memcmp_value a b : iana_ok a -> iana_ok b -> memcmp a b = Z.compare (be_value 0 a) (be_value 0 b).
Proof.
  intros [La Ba] [Lb Bb]. destruct a as [|a0 [|a1 []]], b as [|b0 [|b1 []]]; try (unfold zlen in *; simpl in *; lia).
  unfold is_bytes in *. rewrite !Forall_cons in *. unfold is_u8 in *. simpl. destruct (Z.compare_spec a0 b0) as [->|Hlt|Hgt].
  - destruct (Z.compare_spec a1 b1) as [->|?|?]; symmetry; [apply Z.compare_eq_iff|apply Z.compare_lt_iff|apply Z.compare_gt_iff]; lia.
  - symmetry. apply Z.compare_lt_iff. lia.
  - symmetry. apply Z.compare_gt_iff. lia.
Qed.

Lemma iana_value_inj a b : iana_ok a -> iana_ok b -> be_value 0 a = be_value 0 b -> a = b.
Proof.
  intros [La Ba] [Lb Bb]. destruct a as [|a0 [|a1 []]], b as [|b0 [|b1 []]]; try (unfold zlen in *; simpl in *; lia).
  unfold is_bytes in *. rewrite !Forall_cons in *. unfold is_u8 in *. simpl. intros. do 2 f_equal; [|f_equal]; lia.
Qed.

Section Search.
Context `{Libcrypto}.

Definition suite_key (c : s2n_cipher_suite) : Z := be_value 0 (iana_value c).

(** The table is in strictly increasing order, as the search needs. *)
Lemma suites_sorted : Sorted Z.lt (map suite_key s2n_all_cipher_suites).
Proof. repeat constructor. Qed.

Lemma suites_iana_ok : Forall (fun c => iana_ok (iana_value c)) s2n_all_cipher_suites.
Proof. repeat constructor; unfold is_u8; simpl; lia. Qed.

Lemma suites_increasing i j c d :
  s2n_all_cipher_suites !! i = Some c -> s2n_all_cipher_suites !! j = Some d -> (i < j)%nat -> suite_key c < suite_key d.
Proof.
  intros Hi Hj Hlt. pose proof suites_sorted as Hs. apply Sorted_StronglySorted in Hs; [|intros ???; lia].
  assert (Hgen : forall l i j c d, StronglySorted Z.lt (map suite_key l) -> l !! i = Some c -> l !! j = Some d ->
    (i < j)%nat -> suite_key c < suite_key d); [|by eapply Hgen].
  clear. induction l as [|a l IH]; intros i j c d Hs Hi Hj Hlt; [done|].
  apply StronglySorted_inv in Hs as [Hs Ha]. destruct j as [|j]; [lia|]. destruct i as [|i]; simpl in *.
  - injection Hi as ->. rewrite List.Forall_forall in Ha. apply Ha, in_map. by eapply list_elem_of_In, list_elem_of_lookup_2.
  - eapply IH; [done..|lia].
Qed.

Lemma iana_ok_at i c : s2n_all_cipher_suites !! i = Some c -> iana_ok (iana_value c).
Proof. intros Hi. by apply (Forall_lookup_1 _ _ _ _ suites_iana_ok Hi). Qed.

Lemma iana_search_wp {X} fuel (iana : buffer) bs low top (w : world) (x : X) Q E :
  buf_is (hp w) iana 2 bs -> iana_ok bs ->
  0 <= low <= top + 1 -> top < zlen s2n_all_cipher_suites -> top - low + 1 < Z.of_nat fuel ->
  (forall i c, s2n_all_cipher_suites !! i = Some c -> Z.of_nat i < low -> suite_key c < be_value 0 bs) ->
  (forall i c, s2n_all_cipher_suites !! i = Some c -> top < Z.of_nat i -> be_value 0 bs < suite_key c) ->
  (forall i c, s2n_all_cipher_suites !! i = Some c -> iana_value c = bs -> Q c w x) ->
  ((forall i c, s2n_all_cipher_suites !! i = Some c -> iana_value c <> bs) -> E S2N_ERR_CIPHER_NOT_SUPPORTED w x) ->
  wp (iana_search fuel iana low top) (w, x) Q E.
Proof.
  intros Hbuf Hok. revert low top. induction fuel as [|fuel IH]; intros low top Hlow Htop Hfuel Hbelow Habove HQ HE; [lia|].
  cbn [iana_search]. destruct (Z.leb_spec low top) as [Hle|Hgt]; cycle 1.
  { apply wp_fail, HE. intros i c Hi Heq. destruct (Z.lt_ge_cases (Z.of_nat i) low) as [Hl|Hl].
    - specialize (Hbelow i c Hi Hl). unfold suite_key in Hbelow. rewrite Heq in Hbelow. lia.
    - specialize (Habove i c Hi ltac:(lia)). unfold suite_key in Habove. rewrite Heq in Habove. lia. }
  cbv zeta. rewrite Z.quot_div_nonneg by lia. set (mid := low + (top - low) / 2).
  assert (Hmid : low <= mid <= top).
  { pose proof (Z.div_pos (top - low) 2 ltac:(lia) ltac:(lia)). pose proof (Z.mul_div_le (top - low) 2 ltac:(lia)). lia. }
  destruct (lookup_lt_is_Some_2 s2n_all_cipher_suites (Z.to_nat mid)) as [c Hc]; [unfold zlen in *; lia|].
  apply wp_bind. eapply wp_run; [by apply (array_get_run _ _ c); [lia|]|].
  apply wp_bind, (wp_load_buf _ _ bs); [done|done|]. rewrite memcmp_value by (done || by eapply iana_ok_at).
  fold (suite_key c). destruct (Z.compare_spec (suite_key c) (be_value 0 bs)) as [Heq|Hlt|Hgt].
  - apply wp_ret, (HQ _ c Hc). apply iana_value_inj; [by eapply iana_ok_at|done|done].
  - apply IH; [lia|lia|lia| |done|done|done]. intros i d Hi Hlt'.
    destruct (decide (i = Z.to_nat mid)) as [->|Hne]; [by rewrite Hc in Hi; injection Hi as <-|].
    pose proof (suites_increasing i (Z.to_nat mid) d c Hi Hc ltac:(lia)). lia.
  - apply IH; [lia|lia|lia|done| |done|done]. intros i d Hi Hlt'.
    destruct (decide (i = Z.to_nat mid)) as [->|Hne]; [by rewrite Hc in Hi; injection Hi as <-|].
    pose proof (suites_increasing (Z.to_nat mid) i c d Hc Hi ltac:(lia)). lia.
Qed.

Definition linear_search (bs : list Z) : option s2n_cipher_suite :=
  List.find (fun c => bool_decide (iana_value c = bs)) s2n_all_cipher_suites.

Lemma linear_search_Some i c : s2n_all_cipher_suites !! i = Some c -> linear_search (iana_value c) = Some c.
Proof.
  intros Hi. unfold linear_search. destruct (List.find _ _) as [d|] eqn:Hf.
  - apply find_some in Hf as [Hin Heq]. decided. apply list_elem_of_In, list_elem_of_lookup in Hin as [j Hj].
    assert (Hkey : suite_key d = suite_key c) by (unfold suite_key; by rewrite Heq).
    destruct (Nat.lt_total i j) as [Hlt|[->|Hlt]].
    + pose proof (suites_increasing _ _ _ _ Hi Hj Hlt). lia.
    + congruence.
    + pose proof (suites_increasing _ _ _ _ Hj Hi Hlt). lia.
  - exfalso. assert (Hin : In c s2n_all_cipher_suites) by (by eapply list_elem_of_In, list_elem_of_lookup_2).
    pose proof (find_none _ _ Hf c Hin) as Hno. simpl in Hno. by decided.
Qed.

Lemma linear_search_None bs :
  (forall i c, s2n_all_cipher_suites !! i = Some c -> iana_value c <> bs) -> linear_search bs = None.
Proof.
  intros Hno. unfold linear_search. destruct (List.find _ _) as [d|] eqn:Hf; [|done].
  apply find_some in Hf as [Hin Heq]. decided. apply list_elem_of_In, list_elem_of_lookup in Hin as [j Hj].
  by destruct (Hno j d Hj).
Qed.

Lemma from_iana_run {X} (iana : buffer) bs (w : world) (x : X) :
  buf_is (hp w) iana 2 bs -> iana_ok bs -> buf_is_null iana = false ->
  s2n_cipher_suite_from_iana iana S2N_TLS_CIPHER_SUITE_LEN (w, x) =
    match linear_search bs with
    | Some c => (Ok c, (w, x)) | None => (Err S2N_ERR_CIPHER_NOT_SUPPORTED, (w, x))
    end.
Proof.
  intros Hbuf Hok Hnull. unfold s2n_cipher_suite_from_iana. rewrite Hnull, !run_ensure. cbn [negb]. rewrite Z.eqb_refl.
  assert (Hrun : wp (iana_search (S (length s2n_all_cipher_suites)) iana 0 (zlen s2n_all_cipher_suites - 1)) (w, x)
    (fun c w' x' => linear_search bs = Some c /\ (w', x') = (w, x))
    (fun e w' x' => linear_search bs = None /\ e = S2N_ERR_CIPHER_NOT_SUPPORTED /\ (w', x') = (w, x))).
  { apply (iana_search_wp _ _ bs); try done; try (unfold zlen; lia).
    - intros i c Hi Hlt. apply lookup_lt_Some in Hi. unfold zlen in Hlt. lia.
    - intros i c Hi <-. split; [by eapply linear_search_Some|done].
    - intros Hno. split_goal; [by apply linear_search_None|done..]. }
  unfold wp in Hrun. destruct (iana_search _ _ _ _ _) as [[c|e|] [w' x']]; [| |done].
  - by destruct Hrun as [-> [= -> ->]].
  - by destruct Hrun as (-> & -> & [= -> ->]).
Qed.

(** The binary search over the table of cipher suites is a linear search: for every
    two-byte value it terminates and returns the one suite with that value, or
    fails with S2N_ERR_CIPHER_NOT_SUPPORTED when the table has none; it reads
    only the table and the two bytes, and a NULL pointer or another length is
    refused. *)
Theorem from_iana_correct {X} (iana : buffer) (bs : list Z) (len : Z) (w : world) (x : X)
    (Hbuf : buf_is (hp w) iana 2 bs) (Hbytes : is_bytes bs) :
  s2n_cipher_suite_from_iana iana len (w, x) =
    (if buf_is_null iana then Err S2N_ERR_NULL
     else if negb (len =? 2) then Err S2N_ERR_SAFETY
     else match List.find (fun c => bool_decide (iana_value c = bs)) s2n_all_cipher_suites with
          | Some c => Ok c
          | None => Err S2N_ERR_CIPHER_NOT_SUPPORTED
          end, (w, x)).
Proof.
  destruct (buf_is_null iana) eqn:Hnull.
  { unfold s2n_cipher_suite_from_iana. by rewrite Hnull, run_ensure. }
  destruct (Z.eqb_spec len 2) as [->|Hne]; cbn [negb].
  - rewrite (from_iana_run _ bs); [|done|split; [apply Hbuf|done]|done]. unfold linear_search. by destruct (List.find _ _).
  - unfold s2n_cipher_suite_from_iana. rewrite Hnull, !run_ensure. cbn [negb].
    unfold S2N_TLS_CIPHER_SUITE_LEN. by rewrite (proj2 (Z.eqb_neq len 2)).
Qed.
End Search.

(** ** Availability *)

Section Init.
Context `{Libcrypto} `{Platform} `{!PlatformOk}.
Implicit Types (w : world) (st : suite_statics) (c d : s2n_cipher_suite).

Lemma state_of_upd c f st : state_of (upd_state c f st) c = f (state_of st c).
Proof. unfold state_of at 1, upd_state. simpl. by rewrite lookup_insert_eq. Qed.

Lemma state_of_upd_ne c d f st : suite_symbol c <> suite_symbol d -> state_of (upd_state c f st) d = state_of st d.
Proof. intros Hne. unfold state_of, upd_state. simpl. by rewrite lookup_insert_ne. Qed.

(** The record algorithm that start-up selects for a suite. *)
Definition best_record_alg c : option s2n_record_algorithm :=
  if s2n_kex_includes (key_exchange_alg c) s2n_kex_kem && negb s2n_pq_is_enabled then None
  else List.find (fun r => is_available (cipher r)) (all_record_algs c).

(** A suite has a copy of its own for SSLv3. *)
Definition has_sslv3_alg c : bool :=
  match sslv3_record_alg c with Some r => is_available (cipher r) | None => false end.

(** The memory of a copy. *)
Definition copy_ok (h : heap) (p : ptr) : Prop := valid_access h p SIZEOF_CIPHER_SUITE.

(** A suite after start-up. *)
Definition suite_started (h : heap) st c : Prop :=
  record_alg (state_of st c) = best_record_alg c /\
  (available (state_of st c) = true <-> is_Some (best_record_alg c)) /\
  match sslv3_cipher_suite (state_of st c) with
  | Sslv3Null => False
  | Sslv3Self => has_sslv3_alg c = false
  | Sslv3Copy p => has_sslv3_alg c = true /\ copy_ok h p
  end.

Definition heap_kept (h h' : heap) : Prop := forall k l, h !! k = Some l -> h' !! k = Some l.

Lemma copy_ok_kept h h' p : heap_kept h h' -> copy_ok h p -> copy_ok h' p.
Proof. intros Hk (l & Hl & Hb). exists l. split; [by apply Hk|done]. Qed.

Lemma started_kept h h' st c : heap_kept h h' -> suite_started h st c -> suite_started h' st c.
Proof.
  intros Hk (Hr & Ha & Hs). split; [done|]. split; [done|]. destruct (sslv3_cipher_suite _); try done.
  destruct Hs. split; [done|]. by eapply copy_ok_kept.
Qed.

Lemma wp_dup_suite {X} w (x : X) Q E :
  world_ok w ->
  (forall p w', world_ok w' -> heap_kept (hp w) (hp w') -> copy_ok (hp w') p -> Q p w' x) ->
  (forall e w', world_ok w' -> heap_kept (hp w) (hp w') -> E e w' x) ->
  wp dup_suite (w, x) Q E.
Proof.
  intros Hw HQ HE. pose proof Hw as [Hh (Hi & Hm)]. unfold dup_suite.
  apply wp_bind, wp_get_mem, wp_bind, wp_ensure; [intros _|congruence].
  apply wp_bind, wp_with_local, wp_alloc_blob; [done|unfold is_u32, SIZEOF_CIPHER_SUITE; lia|..].
  - intros w' b' (Hm' & Hh' & Hb & Hsz & Hg & Hf & Hfr & _). simpl.
    assert (Hk : heap_kept (hp w) (hp w')).
    { intros k l Hk. apply Hf; [done|]. by intros (p & ? & _). }
    assert (Hw' : world_ok w') by (split; [done|by rewrite Hm']).
    destruct (data b') as [p|] eqn:Hp; [|apply wp_fail; by apply HE].
    apply wp_ret, HQ; [done|done|]. unfold copy_ok. rewrite <- Hsz. by apply (blob_access_all _ b').
  - intros e w' b' (-> & Hm' & Hh' & _ & Hf & _). apply HE; [split; [done|by rewrite Hm']|].
    intros k l Hk. apply Hf; [done|]. by intros (p & ? & _).
Qed.

(** The common part of a round: the fields other than [sslv3_cipher_suite]. *)
Lemma init_fields_wp c w st (k : Cmd suite_statics unit) Q E :
  (forall st', state_of st' c = SuiteState (bool_decide (is_Some (best_record_alg c))) (best_record_alg c)
       (sslv3_cipher_suite (state_of st c)) ->
     (forall d, suite_symbol c <> suite_symbol d -> state_of st' d = state_of st d) -> wp k (w, st') Q E) ->
  wp (modify (upd_state c (set_available false)) ;;;
      modify (upd_state c (set_record_alg None)) ;;;
      match List.find (fun r => is_available (cipher r)) (all_record_algs c) with
      | Some r => modify (upd_state c (set_available true)) ;;; modify (upd_state c (set_record_alg (Some r)))
      | None => ret tt
      end ;;;
      (if s2n_kex_includes (key_exchange_alg c) s2n_kex_kem && negb s2n_pq_is_enabled then
         modify (upd_state c (set_available false)) ;;; modify (upd_state c (set_record_alg None))
       else ret tt) ;;; k) (w, st) Q E.
Proof.
  intros Hk. unfold best_record_alg in Hk.
  apply wp_bind, wp_modify, wp_bind, wp_modify, wp_bind.
  assert (Hfind : forall Q', (forall st', state_of st' c =
        SuiteState (bool_decide (is_Some (List.find (fun r => is_available (cipher r)) (all_record_algs c))))
          (List.find (fun r => is_available (cipher r)) (all_record_algs c)) (sslv3_cipher_suite (state_of st c)) ->
      (forall d, suite_symbol c <> suite_symbol d -> state_of st' d = state_of st d) -> Q' tt w st') ->
    wp match List.find (fun r => is_available (cipher r)) (all_record_algs c) with
      | Some r => modify (upd_state c (set_available true)) ;;; modify (upd_state c (set_record_alg (Some r)))
      | None => ret tt
      end (w, upd_state c (set_record_alg None) (upd_state c (set_available false) st)) Q' E).
  { intros Q' HQ'. destruct (List.find _ _) as [r|].
    - apply wp_bind, wp_modify, wp_modify, HQ'; [by rewrite !state_of_upd|].
      intros d Hd. by rewrite !state_of_upd_ne.
    - apply wp_ret, HQ'; [by rewrite !state_of_upd|]. intros d Hd. by rewrite !state_of_upd_ne. }
  apply Hfind. intros st1 Hst1 Hne1. apply wp_bind. destruct (_ && _) eqn:Hpq.
  - apply wp_bind, wp_modify, wp_modify, Hk; [by rewrite !state_of_upd, Hst1|].
    intros d Hd. by rewrite !state_of_upd_ne; [apply Hne1|..].
  - apply wp_ret, Hk; [done|done].
Qed.

Lemma init_suite_wp c w st Q E :
  world_ok w ->
  (forall w' st', world_ok w' -> heap_kept (hp w) (hp w') -> suite_started (hp w') st' c ->
     (forall d, suite_symbol c <> suite_symbol d -> state_of st' d = state_of st d) -> Q tt w' st') ->
  (forall e w' st', world_ok w' -> E e w' st') ->
  wp (init_suite c) (w, st) Q E.
Proof.
  intros Hw HQ HE. apply init_fields_wp. intros st1 Hst1 Hne1. fold (has_sslv3_alg c).
  assert (Hgo : forall w' v, world_ok w' -> heap_kept (hp w) (hp w') ->
    match v with Sslv3Null => False | Sslv3Self => has_sslv3_alg c = false
      | Sslv3Copy p => has_sslv3_alg c = true /\ copy_ok (hp w') p end ->
    Q tt w' (upd_state c (set_sslv3 v) st1)).
  { intros w' v Hw' Hk Hv. apply HQ; [done|done| |].
    - unfold suite_started. rewrite state_of_upd, Hst1. simpl. split_goal; [done| |done].
      by rewrite bool_decide_eq_true.
    - intros d Hd. by rewrite state_of_upd_ne, Hne1. }
  destruct (has_sslv3_alg c) eqn:Hs.
  - apply wp_bind, wp_dup_suite; [done| |].
    + intros p w' Hw' Hk Hp. by apply wp_modify, Hgo.
    + intros e w' Hw' _. by apply HE.
  - apply wp_modify. apply Hgo; [done|by intros k l|done].
Qed.

Lemma suite_symbols_distinct : NoDup (map suite_symbol s2n_all_cipher_suites).
Proof. apply (bool_decide_unpack _). vm_compute. exact I. Qed.

Lemma init_loop_wp l w st Q E :
  NoDup (map suite_symbol l) -> world_ok w ->
  (forall w' st', world_ok w' -> heap_kept (hp w) (hp w') -> (forall c, In c l -> suite_started (hp w') st' c) ->
     (forall d, ~ In (suite_symbol d) (map suite_symbol l) -> state_of st' d = state_of st d) -> Q tt w' st') ->
  (forall e w' st', world_ok w' -> E e w' st') ->
  wp (for_suites l init_suite) (w, st) Q E.
Proof.
  revert w st Q. induction l as [|c l IH]; intros w st Q Hnd Hw HQ HE; simpl in *.
  { apply wp_ret, HQ; try done. by intros k l. }
  apply NoDup_cons in Hnd as [Hni Hnd]. rewrite list_elem_of_In in Hni.
  apply wp_bind, init_suite_wp; [done| |done]. intros w1 st1 Hw1 Hk1 Hc Hne1.
  apply IH; [done|done| |done]. intros w2 st2 Hw2 Hk2 Hl Hne2.
  apply HQ; [done|intros k b Hk; by apply Hk2, Hk1| |].
  - intros d [<-|Hd]; [|by apply Hl]. apply (started_kept (hp w1)); [done|]. unfold suite_started. rewrite (Hne2 c Hni). apply Hc.
  - intros d Hd. rewrite Hne2, Hne1; [done| |]; intros Hx; apply Hd; auto.
Qed.

(** Start-up makes exactly the usable suites available: after s2n_cipher_suites_init
    each suite of the table has the first of its record algorithms whose cipher
    the libcrypto offers, and is available if and only if there is one (and, for
    post-quantum suites, if the libcrypto has the KEMs); its SSLv3 variant is the
    suite itself or a copy in fresh memory, never NULL.  Other suites and all
    memory that existed are untouched.  The only failure is a failed allocation. *)
Theorem cipher_suites_init_correct w st (Hworld : world_ok w) :
  match s2n_cipher_suites_init (w, st) with
  | (Ok _, (w', st')) =>
      world_ok w' /\ crypto_initialized st' = true /\
      (forall k l, hp w !! k = Some l -> hp w' !! k = Some l) /\
      (forall c, In c s2n_all_cipher_suites -> suite_started (hp w') st' c) /\
      (forall c, ~ In (suite_symbol c) (map suite_symbol s2n_all_cipher_suites) -> state_of st' c = state_of st c)
  | (Err _, (w', _)) => world_ok w'
  | (UB, _) => False
  end.
Proof.
  assert (Hrun : wp s2n_cipher_suites_init (w, st)
    (fun _ w' st' => world_ok w' /\ crypto_initialized st' = true /\ heap_kept (hp w) (hp w') /\
      (forall c, In c s2n_all_cipher_suites -> suite_started (hp w') st' c) /\
      (forall c, ~ In (suite_symbol c) (map suite_symbol s2n_all_cipher_suites) -> state_of st' c = state_of st c))
    (fun _ w' _ => world_ok w')).
  { apply wp_bind, init_loop_wp; [apply suite_symbols_distinct|done| |done]. intros w' st' Hw' Hk Hc Hne.
    apply wp_modify. split_goal; try done. }
  unfold wp in Hrun. by destruct (s2n_cipher_suites_init (w, st)) as [[[]|e|] [w' st']].
Qed.
End Init.

(** ** The client *)

Section Client.
Context `{Libcrypto} `{Platform}.
Implicit Types (w : world) (st : suite_statics) (c : conn_params) (s : s2n_cipher_suite).

Definition policy_suites (p : s2n_security_policy) : list s2n_cipher_suite := suites (cipher_preferences p).

Lemma client_find_run {X} l wire (x : world * X) :
  Forall (fun s => iana_ok (iana_value s)) l -> iana_ok wire ->
  client_find l wire x = (Ok (List.find (fun s => bool_decide (wire = iana_value s)) l), x).
Proof.
  intros Hl Hwire. induction Hl as [|s l Hs Hl IH]; [done|]. cbn [client_find List.find]. destruct x as [w x].
  erewrite run_bind by (apply constant_time_equals_eq; [|by apply local_operand|by apply local_operand]; done).
  cbn. by destruct (bool_decide (wire = iana_value s)).
Qed.

(** The connection processes a ServerHello that is not a HelloRetryRequest. *)
Definition after_retry (c : s2n_connection) : bool :=
  IS_HELLO_RETRY_HANDSHAKE c && bool_decide (ACTIVE_MESSAGE c <> HELLO_RETRY_MSG).

Lemma hello_retry_message_run w (c : s2n_connection) : position_in_table c = true ->
  s2n_is_hello_retry_message (w, c) = (Ok (bool_decide (ACTIVE_MESSAGE c = HELLO_RETRY_MSG)), (w, c)).
Proof.
  intros Hp. unfold s2n_is_hello_retry_message, result_is_ok, attempt, bind, get_obj.
  rewrite handshake_validate_ok by (unfold position_in_table, S2N_HANDSHAKES_COUNT, S2N_MAX_HANDSHAKE_LENGTH in Hp; zbool; lia).
  unfold ret, active_message, bind, get_obj. by rewrite Hp.
Qed.

(** The suite that goes into the connection: in SSLv3 it is the SSLv3 variant. *)
Definition in_use st c s : option suite_ref :=
  if actual_protocol_version (base c) =? S2N_SSLv3 then sslv3_of st s else Some (StaticSuite s).

Definition suites_ready st c (p : s2n_security_policy) : Prop :=
  policy_of c = Some p /\
  Forall (fun s => iana_ok (iana_value s) /\ is_Some (sslv3_of st s)) (policy_suites p).

Lemma suites_ready_iana st c p : suites_ready st c p -> Forall (fun s => iana_ok (iana_value s)) (policy_suites p).
Proof. intros [_ Hf]. eapply Forall_impl; [exact Hf|]. by intros s [? _]. Qed.

Lemma in_use_some st c p s : suites_ready st c p -> In s (policy_suites p) -> is_Some (in_use st c s).
Proof.
  intros [_ Hf] Hin. unfold in_use. destruct (_ =? _); [|done]. rewrite Forall_forall in Hf. by apply Hf, list_elem_of_In.
Qed.

Lemma client_settle_run w st c p s : suites_ready st c p -> In s (policy_suites p) -> position_in_table (base c) = true ->
  exists r, in_use st c s = Some r /\
  client_settle s (w, (st, c)) =
    (if after_retry (base c) then
       if same_suite (cipher_suite c) (StaticSuite s) then (Ok tt, (w, (st, c)))
       else (Err S2N_ERR_CIPHER_NOT_SUPPORTED, (w, (st, c)))
     else (Ok tt, (w, (st, set_cipher_suite r c)))).
Proof.
  intros Hready Hin Hposition. destruct (in_use_some _ _ _ _ Hready Hin) as [r Hr]. exists r. split; [done|].
  unfold client_settle. unfold bind at 1, get_obj at 1. cbn beta iota.
  assert (Hmsg : (if s2n_is_hello_retry_handshake (base c) then zoom snd_lens (zoom base_lens s2n_is_hello_retry_message)
          else ret true) (w, (st, c)) = (Ok (negb (after_retry (base c))), (w, (st, c)))).
  { unfold after_retry, s2n_is_hello_retry_handshake. destruct (IS_HELLO_RETRY_HANDSHAKE (base c)); [|done].
    unfold zoom. cbn [lget snd_lens snd base_lens]. rewrite (hello_retry_message_run _ _ Hposition). 
    cbn [lset snd_lens base_lens fst andb]. replace (set_base (base c) c) with c by (by destruct c).
    by rewrite bool_decide_not, negb_involutive. }
  rewrite (run_bind _ _ _ _ _ Hmsg), negb_involutive. destruct (after_retry (base c)).
  - unfold ensure. by destruct (same_suite _ _).
  - unfold bind. cbn. unfold in_use in Hr. destruct (_ =? S2N_SSLv3); [by rewrite Hr|by injection Hr as <-].
Qed.

(** C28 A client accepts only what it offered: when s2n_set_cipher_as_client succeeds, the two
    bytes of the server are those of an available suite of the client's policy,
    whose PRF is the hash of the chosen PSK if there is one.  The suite becomes
    that of the connection and nothing else changes; after a HelloRetryRequest
    the connection is not changed at all, and the suite is the one that was
    chosen then.  Otherwise it fails with S2N_ERR_CIPHER_NOT_SUPPORTED and the
    connection is as before. *)
Theorem client_suite_correct w st c p wire
    (Hready : suites_ready st c p) (Hwire : iana_ok wire) (Hposition : position_in_table (base c) = true) :
  match s2n_set_cipher_as_client wire (w, (st, c)) with
  | (Ok _, (w', (st', c'))) =>
      w' = w /\ st' = st /\
      exists s r, In s (policy_suites p) /\ iana_value s = wire /\ available (state_of st s) = true /\
        (chosen_psk (base c) = true -> prf_alg s = chosen_psk_hmac c) /\
        in_use st c s = Some r /\
        (if after_retry (base c) then c' = c /\ same_suite (cipher_suite c) (StaticSuite s) = true
         else c' = set_cipher_suite r c)
  | (Err e, x') => e = S2N_ERR_CIPHER_NOT_SUPPORTED /\ x' = (w, (st, c))
  | (UB, _) => False
  end.
Proof.
  unfold s2n_set_cipher_as_client. unfold bind at 1, zoom at 1. cbn [lget snd_lens snd].
  rewrite (get_security_policy_run w c p) by apply Hready. cbn [lset snd_lens fst].
  rewrite (run_bind _ _ _ _ _ (client_find_run _ _ _ (suites_ready_iana _ _ _ Hready) Hwire)).
  destruct (List.find _ _) as [s|] eqn:Hf; [|done]. apply find_some in Hf as [Hin Heq]. decided.
  destruct (client_settle_run w st c p s Hready Hin Hposition) as (r & Hr & Hrun).
  unfold bind at 1, get_obj at 1. cbn beta iota. rewrite run_ensure.
  destruct (available (state_of st s)) eqn:Ha; [|done].
  assert (Hpsk : (if chosen_psk (base c) then
      ensure (bool_decide (prf_alg s = chosen_psk_hmac c)) S2N_ERR_CIPHER_NOT_SUPPORTED else ret tt) (w, (st, c)) =
    (if S2N_IMPLIES (chosen_psk (base c)) (bool_decide (prf_alg s = chosen_psk_hmac c)) then Ok tt
     else Err S2N_ERR_CIPHER_NOT_SUPPORTED, (w, (st, c)))).
  { unfold S2N_IMPLIES. destruct (chosen_psk (base c)); [|done]. unfold ensure. simpl. by destruct (bool_decide _). }
  unfold bind. rewrite Hpsk. destruct (S2N_IMPLIES _ _) eqn:Himp; [|done]. rewrite Hrun.
  assert (Hsuite : chosen_psk (base c) = true -> prf_alg s = chosen_psk_hmac c).
  { intros Hc. unfold S2N_IMPLIES in Himp. rewrite Hc in Himp. simpl in Himp. by decided. }
  destruct (after_retry (base c)); [destruct (same_suite _ _) eqn:Hsame; [|done]|];
    split_goal; try done; exists s, r; split_goal; try done; congruence.
Qed.
End Client.
End CipherTheorems.
Export CipherTheorems.
