(* ===== verification/CipherServer.v ===== *)
(** * What a server picks

    The loop of s2n_set_cipher_as_server as a search over candidates. *)
From stdpp Require Import strings.
From S2P Require Import Prelude Errors CMem Platform Safety Blob Alloc Stuffer StufferInv StufferSpec NetworkOrder HandshakeTables Connection HandshakeTypes HandshakeIO HandshakeNames Libcrypto CipherSuites Groups SignatureSchemes SecurityPolicies ConnectionParams AuthSelection AuthTheorems KexSelection CipherSelection CipherTheorems.
Close Scope string_scope.
Open Scope Z_scope.

Module CipherServer.

(** ** The suites on the wire *)

(** The [n] two-byte values from index [i] on; each is at the end of an entry of [len] bytes. *)
Fixpoint wire_entries (h : heap) (q : ptr) (len : Z) (n : nat) (i : Z) : list (list Z) :=
  match n with
  | O => []
  | S n => bytes_at h (Ptr (blk q) (off q + (i * len + (len - 2)))) 2 :: wire_entries h q len n (i + 1)
  end.

Record wire_list := WireList { wire_at : ptr; wire_count : Z; wire_len : Z }.
Definition wire_suites (h : heap) (l : wire_list) : list (list Z) :=
  wire_entries h (wire_at l) (wire_len l) (Z.to_nat (wire_count l)) 0.

(** A list of at least one entry, all of it readable. *)
Record wire_ok (h : heap) (l : wire_list) : Prop := {
  wo_len : 2 <= wire_len l;
  wo_count : 0 < wire_count l;
  wo_access : valid_access h (wire_at l) (wire_count l * wire_len l);
}.

Section Server.
Context `{Libcrypto} `{Platform} `{!PlatformOk}.
Implicit Types (w : world) (st : suite_statics) (c : conn_params) (s : s2n_cipher_suite) (r : suite_ref).

Lemma heap_operand h p n : heap_ok h -> valid_access h p n -> operand h (HeapBuf (Some p)) n (Some (bytes_at h p n)).
Proof.
  intros Hh Hv. unfold operand, buf_is. split_goal; [by apply zlen_bytes_at|done|done|by apply bytes_at_is_bytes|done].
Qed.

Lemma entry_access h l i : wire_ok h l -> 0 <= i < wire_count l ->
  valid_access h (Ptr (blk (wire_at l)) (off (wire_at l) + (i * wire_len l + (wire_len l - 2)))) 2.
Proof. intros [Hl Hc Ha] Hi. apply (valid_access_sub _ _ _ _ _ Ha); nia. Qed.

Lemma wire_contain_run {X} m l w (x : X) : iana_ok m -> world_ok w -> wire_ok (hp w) l ->
  s2n_wire_ciphers_contain m (Some (wire_at l)) (wire_count l) (wire_len l) (w, x) =
    (Ok (bool_decide (m ∈ wire_suites (hp w) l)), (w, x)).
Proof.
  intros Hm [Hh _] Hl. unfold s2n_wire_ciphers_contain, wire_suites.
  assert (Hgen : forall n i, 0 <= i -> i + Z.of_nat n <= wire_count l ->
    wire_loop n i m (Some (wire_at l)) (wire_len l) (w, x) =
      (Ok (bool_decide (m ∈ wire_entries (hp w) (wire_at l) (wire_len l) n i)), (w, x))).
  { induction n as [|n IH]; intros i Hi Hn; cbn [wire_loop wire_entries]; [done|].
    unfold bind at 1. cbn [ptr_add]. unfold ret at 1.
    erewrite run_bind by (apply constant_time_equals_eq; [done|by apply local_operand|
      apply heap_operand; [done|apply entry_access; [done|lia]]]).
    unfold S2N_TLS_CIPHER_SUITE_LEN. destruct (bool_decide (m = _)) eqn:Hd; decided.
    - rewrite bool_decide_eq_true_2; [done|]. rewrite Hd at 1. by left.
    - rewrite IH by lia. do 2 f_equal. apply bool_decide_ext. rewrite elem_of_cons.
      split; [by right|by intros [?|?]]. }
  pose proof (wo_count _ _ Hl). apply Hgen; lia.
Qed.

(** ** Certificates for a suite *)

Definition auth_certs c s : bool :=
  match auth_method s with
  | S2N_AUTHENTICATION_METHOD_SENTINEL => true
  | S2N_AUTHENTICATION_RSA =>
      bool_decide (is_Some (rsa_certs (compatible_certs c))) || bool_decide (is_Some (rsa_pss_certs (compatible_certs c)))
  | S2N_AUTHENTICATION_ECDSA => bool_decide (is_Some (ecdsa_certs (compatible_certs c)))
  end.

Lemma auth_certs_decides w c s : decides (auth_certs c s) (s2n_is_cipher_suite_valid_for_auth s) (w, c).
Proof.
  unfold auth_certs, s2n_is_cipher_suite_valid_for_auth, s2n_certs_exist_for_auth_method.
  assert (Hget : forall (t : s2n_pkey_type) (k : option s2n_cert_chain_and_key -> Cmd conn_params unit) b,
    In t cert_types -> decides b (k (certs_for c t)) (w, c) -> decides b (bind (s2n_get_compatible_cert_chain_and_key t) k) (w, c)).
  { intros t k b Ht Hk. eapply decides_bind; [|exact Hk]. rewrite get_compatible_run. unfold certs_for.
    by destruct Ht as [<-|[<-|[<-|[]]]]. }
  assert (Hend : decides false (fail S2N_ERR_CERT_TYPE_UNSUPPORTED : Cmd conn_params unit) (w, c)) by (by eexists).
  destruct (auth_method s); cbn; [| |done].
  - apply Hget; [simpl; auto|]. unfold certs_for. destruct (rsa_certs _); cbn; [done|].
    apply Hget; [simpl; auto|]. unfold certs_for. by destruct (rsa_pss_certs _).
  - apply Hget; [simpl; auto|]. unfold certs_for. by destruct (ecdsa_certs _).
Qed.

(** ** Candidates *)

(** The start of the client's list decides about boosting. *)
Definition boosts (h : heap) st (p : s2n_cipher_preferences) (l : wire_list) : bool :=
  allow_chacha20_boosting p &&
  match wire_suites h l with
  | first :: _ =>
      match linear_search first with
      | Some s => s2n_cipher_suite_uses_chacha20_alg st (StaticSuite s)
      | None => false
      end
  | [] => false
  end.

Lemma boosting_run {X} st p l w (x : X) : world_ok w -> wire_ok (hp w) l ->
  result_is_ok (s2n_validate_chacha20_boosting st p (Some (wire_at l)) (wire_len l)) (w, x) =
    (Ok (boosts (hp w) st p l), (w, x)).
Proof.
  intros [Hh _] Hl. pose proof (entry_access _ _ 0 Hl ltac:(pose proof (wo_count _ _ Hl); lia)) as Ha.
  rewrite Z.mul_0_l, Z.add_0_l in Ha.
  unfold boosts, wire_suites. pose proof (wo_count _ _ Hl). destruct (Z.to_nat (wire_count l)) as [|n] eqn:Hn; [lia|].
  cbn [wire_entries]. rewrite Z.mul_0_l, Z.add_0_l. set (q := Ptr _ _) in *. apply decides_ok.
  unfold s2n_validate_chacha20_boosting. eapply decides_bind; [done|]. apply decides_seq; [apply decides_ensure|].
  eapply decides_bind; [done|]. change (Ptr _ _) with q.
  assert (Hi : iana_ok (bytes_at (hp w) q 2)) by (split; [by apply zlen_bytes_at|by apply bytes_at_is_bytes]).
  assert (Hb : buf_is (hp w) (HeapBuf (Some q)) 2 (bytes_at (hp w) q 2)) by (split; [by apply zlen_bytes_at|done]).
  pose proof (from_iana_run (HeapBuf (Some q)) _ w x Hb Hi eq_refl) as Hrun.
  destruct (linear_search _) as [s|]; [|by eapply decides_fail].
  eapply decides_bind; [exact Hrun|]. apply decides_ensure.
Qed.

(** A suite of the policy that the connection can use with this client. *)
Definition candidate (h : heap) st c (p : s2n_security_policy) (l : wire_list) s : option suite_ref :=
  if bool_decide (iana_value s ∈ wire_suites h l) &&
     Bool.eqb (S2N_TLS13 <=? actual_protocol_version (base c)) (S2N_TLS13 <=? minimum_required_tls_version s) then
    match in_use st c s with
    | None => None
    | Some r =>
        if ref_available st r && auth_certs c s && kex_usable h c p s &&
           S2N_IMPLIES (chosen_psk (base c)) (bool_decide (prf_alg s = chosen_psk_hmac c))
        then Some r else None
    end
  else None.

Lemma in_use_deref st c s r : in_use st c s = Some r -> suite_deref r = s.
Proof.
  unfold in_use, sslv3_of. destruct (_ =? _); [destruct (sslv3_cipher_suite _)|]; by intros [= <-].
Qed.

Lemma candidate_deref h st c p l s r : candidate h st c p l s = Some r -> suite_deref r = s.
Proof.
  unfold candidate. destruct (_ && _); [|done]. destruct (in_use st c s) eqn:Hu; [|done].
  destruct (_ && _); [|done]. intros [= <-]. by eapply in_use_deref.
Qed.

(** The version of the connection is enough for the suite. *)
Definition version_ok c r : bool := minimum_required_tls_version (suite_deref r) <=? actual_protocol_version (base c).

(** What the rest of the loop returns, given the matches it has saved. *)
Definition loop_choice (boost : bool) st c (cands : list suite_ref) (higher non_chacha : option suite_ref) : option suite_ref :=
  match (if boost then List.find (fun r => version_ok c r && s2n_cipher_suite_uses_chacha20_alg st r) cands else None) with
  | Some r => Some r
  | None =>
      match non_chacha with
      | Some r => Some r
      | None =>
          match List.find (version_ok c) cands with
          | Some r => Some r
          | None => match higher with Some r => Some r | None => head cands end
          end
      end
  end.

Record server_ready w st c (p : s2n_security_policy) (l : wire_list) : Prop := {
  sr_kex : kex_ready w c p;
  sr_suites : suites_ready st c p;
  sr_wire : wire_ok (hp w) l;
}.

Lemma configured_kem h c p s : exists k, kex_configured h c p s = set_negotiated_kem k c.
Proof.
  unfold kex_configured. destruct (key_exchange_alg s); try (eexists; reflexivity);
    exists (negotiated_kem c); by destruct c.
Qed.

Lemma loop_choice_version st c boost cands higher non r :
  version_ok c r = true -> (boost = false -> non = None) ->
  loop_choice boost st c (r :: cands) higher non =
    if boost then
      if s2n_cipher_suite_uses_chacha20_alg st r then Some r
      else loop_choice boost st c cands higher (or_first non r)
    else Some r.
Proof.
  intros Hv Hnon. unfold loop_choice, or_first. cbn [List.find]. rewrite Hv. cbn [andb]. destruct boost.
  - destruct (s2n_cipher_suite_uses_chacha20_alg st r); [done|]. destruct (List.find _ cands); [done|]. by destruct non.
  - by rewrite Hnon.
Qed.

Lemma loop_choice_higher st c boost cands higher non r :
  version_ok c r = false ->
  loop_choice boost st c (r :: cands) higher non = loop_choice boost st c cands (or_first higher r) non.
Proof.
  intros Hv. unfold loop_choice, or_first. cbn [List.find]. rewrite Hv. cbn [andb head].
  destruct boost; [destruct (List.find _ cands); [done|]|]; destruct non; try done;
    destruct (List.find (version_ok c) cands); try done; by destruct higher.
Qed.

(** The result of the loop, for some KEM that a candidate configured. *)
Definition loop_result w st c (choice : option suite_ref) (out : outcome unit * (world * (suite_statics * conn_params))) : Prop :=
  exists k, out =
    match choice with
    | Some r => (Ok tt, (w, (st, set_cipher_suite r (set_negotiated_kem k c))))
    | None => (Err S2N_ERR_CIPHER_NOT_SUPPORTED, (w, (st, set_negotiated_kem k c)))
    end.

Lemma loop_result_kem w st c k choice out : loop_result w st (set_negotiated_kem k c) choice out -> loop_result w st c choice out.
Proof. intros [k' ->]. by exists k'. Qed.

Lemma set_kem_id c : set_negotiated_kem (negotiated_kem c) c = c.
Proof. by destruct c. Qed.

Lemma zoom_snd_ok {X Y A} (cmd : Cmd Y A) a w (x : X) (y y' : Y) :
  cmd (w, y) = (Ok a, (w, y')) -> zoom snd_lens cmd (w, (x, y)) = (Ok a, (w, (x, y'))).
Proof. unfold zoom. simpl. by intros ->. Qed.

Lemma zoom_snd_err {X Y A} (cmd : Cmd Y A) e w (x : X) (y y' : Y) :
  cmd (w, y) = (Err e, (w, y')) -> zoom snd_lens cmd (w, (x, y)) = (Err e, (w, (x, y'))).
Proof. unfold zoom. simpl. by intros ->. Qed.

Lemma server_ready_kem w st c p l k : server_ready w st c p l -> server_ready w st (set_negotiated_kem k c) p l.
Proof. intros [[? ? ? ?] [? ?] ?]. by split; [split|split|]. Qed.

Lemma server_loop_run w st p l boost suites higher non c :
  server_ready w st c p l -> Forall (fun s => iana_ok (iana_value s) /\ is_Some (sslv3_of st s)) suites ->
  (boost = false -> non = None) ->
  loop_result w st c (loop_choice boost st c (omap (candidate (hp w) st c p l) suites) higher non)
    (server_loop (Some (wire_at l)) (wire_count l) (wire_len l) boost suites higher non (w, (st, c))).
Proof.
  intros Hr Hs. revert higher non c Hr. induction Hs as [|s suites [Hi Hv3] Hs IH]; intros higher non c Hr Hnon.
  { exists (negotiated_kem c). rewrite set_kem_id. unfold loop_choice. simpl. destruct boost, non, higher; try done;
    by specialize (Hnon eq_refl). }
  pose proof (sr_kex _ _ _ _ _ Hr) as Hkr. pose proof (kr_world _ _ _ Hkr) as Hw.
  assert (Hskip : candidate (hp w) st c p l s = None ->
    loop_result w st c (loop_choice boost st c (omap (candidate (hp w) st c p l) (s :: suites)) higher non)
      (server_loop (Some (wire_at l)) (wire_count l) (wire_len l) boost suites higher non (w, (st, c)))).
  { intros Hc. cbn [omap list_omap]. rewrite Hc. by apply IH. }
  cbn [server_loop]. cbv zeta.
  rewrite (run_bind _ _ _ _ _ (wire_contain_run _ _ _ _ Hi Hw (sr_wire _ _ _ _ _ Hr))).
  unfold candidate at 1 in Hskip. destruct (bool_decide (iana_value s ∈ _)) eqn:Hoff; cbn [negb andb] in *; [|by apply Hskip].
  unfold bind at 1, get_obj at 1. cbn beta iota.
  destruct (Bool.eqb _ _) eqn:Hcls; cbn [negb] in *; [|by apply Hskip].
  fold (in_use st c s). destruct (in_use st c s) as [r|] eqn:Hu.
  2: { exfalso. unfold in_use in Hu. destruct (_ =? _); [|done]. rewrite Hu in Hv3. by destruct Hv3. }
  rewrite (in_use_deref _ _ _ _ Hu). destruct (ref_available st r) eqn:Hav; cbn [negb andb] in *; [|by apply Hskip].
  pose proof (auth_certs_decides w c s) as Hauth. unfold bind at 1, attempt at 1.
  destruct (auth_certs c s) eqn:Hcert; cbn [andb] in *; cycle 1.
  { destruct Hauth as [e He]. rewrite (zoom_snd_err _ _ _ _ _ _ He). by apply Hskip. }
  rewrite (zoom_snd_ok _ _ _ _ _ _ Hauth).
  rewrite (run_bind _ _ _ _ _ (zoom_snd_ok _ _ _ _ _ _ (kex_supported_run _ _ _ _ Hkr Hi))).
  destruct (kex_usable (hp w) c p s) eqn:Hkex; cbn [negb andb] in *; [|by apply Hskip].
  unfold bind at 1, attempt at 1. rewrite (zoom_snd_ok _ _ _ _ _ _ (configure_kex_run _ _ _ _ Hkr Hi Hkex)).
  destruct (configured_kem (hp w) c p s) as [k ->]. apply (loop_result_kem _ _ _ k). clear Hskip.
  pose proof (server_ready_kem _ _ _ _ _ k Hr) as Hr'.
  assert (Hcand : candidate (hp w) st c p l s =
    if chosen_psk (base c) && bool_decide (prf_alg s <> chosen_psk_hmac c) then None else Some r).
  { unfold candidate. rewrite Hoff, Hcls, Hu, Hav, Hcert, Hkex. unfold S2N_IMPLIES. rewrite bool_decide_not.
    destruct (chosen_psk (base c)); [|done]. cbn. by destruct (bool_decide (prf_alg s = chosen_psk_hmac c)). }
  cbn [omap list_omap]. rewrite Hcand. destruct (_ && _); [exact (IH higher non _ Hr' Hnon)|].
  assert (Hver : version_ok c r = negb (actual_protocol_version (base c) <? minimum_required_tls_version s)).
  { unfold version_ok. rewrite (in_use_deref _ _ _ _ Hu). lia. }
  destruct (_ <? _); cbn [negb] in Hver.
  { rewrite loop_choice_higher by done. exact (IH (or_first higher r) non _ Hr' Hnon). }
  rewrite loop_choice_version by done. destruct boost; [|by exists k].
  destruct (s2n_cipher_suite_uses_chacha20_alg st r); [by exists k|]. exact (IH higher (or_first non r) _ Hr' ltac:(done)).
Qed.

(** ** The choice *)

(** Among the candidates, in the order of the server's policy: with boosting the
    first with ChaCha20; otherwise the first whose version is reached; and only
    if there is none, the first of all. *)
Definition server_choice (boost : bool) st c (cands : list suite_ref) : option suite_ref :=
  match (if boost then List.find (fun r => version_ok c r && s2n_cipher_suite_uses_chacha20_alg st r) cands else None) with
  | Some r => Some r
  | None => match List.find (version_ok c) cands with Some r => Some r | None => head cands end
  end.

Lemma server_choice_loop boost st c cands : loop_choice boost st c cands None None = server_choice boost st c cands.
Proof. unfold loop_choice, server_choice. by destruct (if boost then _ else _). Qed.

Lemma server_choice_In boost st c cands r : server_choice boost st c cands = Some r -> In r cands.
Proof.
  unfold server_choice. destruct boost; [destruct (List.find _ _) as [r'|] eqn:Hf|].
  1: { intros [= ->]. by apply find_some in Hf as [? _]. }
  all: destruct (List.find (version_ok c) cands) as [r''|] eqn:Hf'; [intros [= ->]; by apply find_some in Hf' as [? _]|].
  all: destruct cands; [done|]; intros [= ->]; by left.
Qed.

Lemma server_choice_None boost st c cands : server_choice boost st c cands = None -> cands = [].
Proof.
  unfold server_choice. destruct (if boost then _ else _); [done|]. destruct (List.find _ _); [done|]. by destruct cands.
Qed.

Definition offered_by (h : heap) (l : wire_list) (m : list Z) : bool := bool_decide (m ∈ wire_suites h l).
Definition candidates (h : heap) st c (p : s2n_security_policy) (l : wire_list) : list suite_ref :=
  omap (candidate h st c p l) (policy_suites p).

(** The client signals that it has fallen back from a version that we support. *)
Definition fell_back (h : heap) c (l : wire_list) : bool :=
  (client_protocol_version (base c) <? server_protocol_version (base c)) && offered_by h l TLS_FALLBACK_SCSV.

(** The connection after the renegotiation signal was noted. *)
Definition noted (h : heap) (l : wire_list) c : conn_params :=
  if offered_by h l TLS_EMPTY_RENEGOTIATION_INFO_SCSV then set_secure_renegotiation true c else c.

(** What the whole function does. *)
Definition server_result w st c (p : s2n_security_policy) (l : wire_list)
    (out : outcome unit * (world * (suite_statics * conn_params))) : Prop :=
  if fell_back (hp w) c l then out = (Err S2N_ERR_FALLBACK_DETECTED, (w, (st, c)))
  else if offered_by (hp w) l TLS_EMPTY_RENEGOTIATION_INFO_SCSV && renegotiation (handshake (base c)) then
    out = (Err S2N_ERR_BAD_MESSAGE, (w, (st, c)))
  else
    loop_result w st (noted (hp w) l c)
      (server_choice (boosts (hp w) st (cipher_preferences p) l) st c (candidates (hp w) st c p l)) out.

Lemma noted_ready w st c p l : server_ready w st c p l -> server_ready w st (noted (hp w) l c) p l.
Proof.
  intros Hr. unfold noted. destruct (offered_by _ _ _); [|done].
  destruct Hr as [[? ? ? ?] [? ?] ?]. by split; [split|split|].
Qed.

Lemma server_reduces w st c p l : server_ready w st c p l ->
  s2n_set_cipher_as_server (Some (wire_at l)) (wire_count l) (wire_len l) (w, (st, c)) =
    if fell_back (hp w) c l then (Err S2N_ERR_FALLBACK_DETECTED, (w, (st, c)))
    else if offered_by (hp w) l TLS_EMPTY_RENEGOTIATION_INFO_SCSV && renegotiation (handshake (base c)) then
      (Err S2N_ERR_BAD_MESSAGE, (w, (st, c)))
    else
      server_loop (Some (wire_at l)) (wire_count l) (wire_len l) (boosts (hp w) st (cipher_preferences p) l)
        (policy_suites p) None None (w, (st, noted (hp w) l c)).
Proof.
  intros Hr. pose proof (noted_ready _ _ _ _ _ Hr) as Hr1. unfold noted in *.
  pose proof (kr_world _ _ _ (sr_kex _ _ _ _ _ Hr)) as Hw. pose proof (sr_wire _ _ _ _ _ Hr) as Hl.
  unfold s2n_set_cipher_as_server. unfold bind at 1, get_obj at 1. cbn beta iota.
  assert (Hfb : (if client_protocol_version (base c) <? server_protocol_version (base c)
      then s2n_wire_ciphers_contain TLS_FALLBACK_SCSV (Some (wire_at l)) (wire_count l) (wire_len l) else ret false)
      (w, (st, c)) = (Ok (fell_back (hp w) c l), (w, (st, c)))).
  { unfold fell_back. destruct (_ <? _); [|done]. by apply wire_contain_run; [repeat constructor|..]. }
  rewrite (run_bind _ _ _ _ _ Hfb), run_ensure. destruct (fell_back (hp w) c l); [done|]. cbn [negb].
  erewrite run_bind by (apply wire_contain_run; [by repeat constructor|done|done]).
  fold (offered_by (hp w) l TLS_EMPTY_RENEGOTIATION_INFO_SCSV).
  assert (Hnote : (if offered_by (hp w) l TLS_EMPTY_RENEGOTIATION_INFO_SCSV then
       ensure (negb (s2n_handshake_is_renegotiation (base c))) S2N_ERR_BAD_MESSAGE ;;;
       zoom snd_lens (modify (set_secure_renegotiation true)) else ret tt) (w, (st, c)) =
     if offered_by (hp w) l TLS_EMPTY_RENEGOTIATION_INFO_SCSV && renegotiation (handshake (base c))
     then (Err S2N_ERR_BAD_MESSAGE, (w, (st, c))) else (Ok tt, (w, (st, noted (hp w) l c)))).
  { unfold noted. destruct (offered_by _ _ _); [|done]. rewrite run_ensure. unfold s2n_handshake_is_renegotiation.
    by destruct (renegotiation (handshake (base c))). }
  unfold bind at 1. rewrite Hnote. unfold noted. destruct (_ && _); [done|]. set (c1 := if offered_by _ _ _ then _ else c) in *.
  erewrite run_bind by (eapply zoom_snd_ok, get_security_policy_run, (sr_suites _ _ _ _ _ Hr1)).
  cbv zeta. by rewrite (run_bind _ _ _ _ _ (boosting_run _ _ _ _ _ Hw Hl)).
Qed.

Lemma set_cipher_server_run w st c p l : server_ready w st c p l ->
  server_result w st c p l
    (s2n_set_cipher_as_server (Some (wire_at l)) (wire_count l) (wire_len l) (w, (st, c))).
Proof.
  intros Hr. unfold server_result. rewrite (server_reduces _ _ _ _ _ Hr). destruct (fell_back _ _ _); [done|].
  destruct (_ && _); [done|]. pose proof (noted_ready _ _ _ _ _ Hr) as Hr1.
  pose proof (server_loop_run w st p l (boosts (hp w) st (cipher_preferences p) l) (policy_suites p) None None _ Hr1
    (proj2 (sr_suites _ _ _ _ _ Hr1)) ltac:(done)) as Hrun.
  rewrite server_choice_loop in Hrun. unfold noted in *. by destruct (offered_by _ _ _).
Qed.

(** C17 A server follows its own order of preference: s2n_set_cipher_as_server selects, among
    the suites of its policy that the client offered and that are usable with
    its certificates, key exchange parameters, PSK and protocol version, the
    first (the first with ChaCha20 if the policy boosts it and the client's own
    first choice uses it); a suite that needs a later version is taken only when
    there is no other.  Only the suite, the KEM that goes with the key exchange and the
    secure renegotiation flag change.  It fails if the client signals a fallback
    from a version the server supports, if the renegotiation signal comes in a
    renegotiation, or if there is no candidate at all, never otherwise. *)
Theorem server_suite_correct w st c p l (Hready : server_ready w st c p l) :
  let cands := candidates (hp w) st c p l in
  match s2n_set_cipher_as_server (Some (wire_at l)) (wire_count l) (wire_len l) (w, (st, c)) with
  | (Ok _, x') =>
      fell_back (hp w) c l = false /\
      exists r k, server_choice (boosts (hp w) st (cipher_preferences p) l) st c cands = Some r /\
        x' = (w, (st, set_cipher_suite r (set_negotiated_kem k (noted (hp w) l c))))
  | (Err e, (w', (st', c'))) =>
      w' = w /\ st' = st /\ cipher_suite c' = cipher_suite c /\
      (e = S2N_ERR_FALLBACK_DETECTED /\ fell_back (hp w) c l = true \/
       e = S2N_ERR_BAD_MESSAGE /\ offered_by (hp w) l TLS_EMPTY_RENEGOTIATION_INFO_SCSV = true /\
         renegotiation (handshake (base c)) = true \/
       e = S2N_ERR_CIPHER_NOT_SUPPORTED /\ cands = [])
  | (UB, _) => False
  end.
Proof.
  cbv zeta. pose proof (set_cipher_server_run _ _ _ _ _ Hready) as Hrun. unfold server_result in Hrun.
  destruct (fell_back (hp w) c l); [rewrite Hrun; split_goal; try done; by left|].
  destruct (_ && _) eqn:Hreneg; [rewrite Hrun; zbool; split_goal; try done; by right; left|].
  destruct Hrun as [k ->]. destruct (server_choice _ _ _ _) as [r|] eqn:Hc; [split; [done|]; by exists r, k|].
  split_goal; try done; [by unfold noted; destruct (offered_by _ _ _)|]. right; right.
  split; [done|]. by apply server_choice_None in Hc.
Qed.

Lemma candidate_In h st c p l r : In r (candidates h st c p l) ->
  exists s, In s (policy_suites p) /\ suite_deref r = s /\ candidate h st c p l s = Some r.
Proof.
  unfold candidates. rewrite <- list_elem_of_In, list_elem_of_omap. intros (s & Hin & Hc). exists s.
  split; [by apply list_elem_of_In|]. split; [by eapply candidate_deref|done].
Qed.

(** The suite a server settles on is one of its policy, was offered by the client, has an
    implementation, goes with a certificate that the server has and with the
    PSK in use; it is a TLS 1.3 suite exactly when the connection speaks TLS 1.3;
    and a client that has fallen back to a lower version is not served. *)
Theorem server_suite_sound w st c p l w' st' c' (Hready : server_ready w st c p l)
    (Hrun : s2n_set_cipher_as_server (Some (wire_at l)) (wire_count l) (wire_len l) (w, (st, c)) = (Ok tt, (w', (st', c')))) :
  let s := suite_deref (cipher_suite c') in
  In s (policy_suites p) /\ In (iana_value s) (wire_suites (hp w) l) /\
  ref_available st (cipher_suite c') = true /\
  (S2N_TLS13 <= actual_protocol_version (base c) <-> S2N_TLS13 <= minimum_required_tls_version s) /\
  auth_certs c s = true /\
  (chosen_psk (base c) = true -> prf_alg s = chosen_psk_hmac c) /\
  (client_protocol_version (base c) < server_protocol_version (base c) ->
     ~ In TLS_FALLBACK_SCSV (wire_suites (hp w) l)).
Proof.
  pose proof (set_cipher_server_run _ _ _ _ _ Hready) as Hres. unfold server_result in Hres. rewrite Hrun in Hres.
  destruct (fell_back (hp w) c l) eqn:Hfb; [done|]. destruct (_ && _); [done|]. destruct Hres as [k Hres].
  destruct (server_choice _ _ _ _) as [r|] eqn:Hc; [|done]. injection Hres as -> -> ->. cbv zeta.
  change (cipher_suite (set_cipher_suite r _)) with r.
  apply server_choice_In, candidate_In in Hc as (s & Hin & -> & Hc). unfold candidate in Hc.
  repeat case_match; try done. injection Hc as <-. zbool. decided. split_goal; try done.
  - by apply list_elem_of_In.
  - match goal with Hx : Bool.eqb _ _ = true |- _ => apply Bool.eqb_prop in Hx end. lia.
  - intros Hp. unfold S2N_IMPLIES in *. rewrite Hp in *. cbn in *. by decided.
  - intros Hlt Hfall. unfold fell_back, offered_by in Hfb. apply list_elem_of_In in Hfall.
    rewrite (proj2 (Z.ltb_lt _ _) Hlt), bool_decide_eq_true_2 in Hfb by done. done.
Qed.
End Server.

(** ** Witnesses *)

(** The suites of a library where every suite is available. *)
Definition demo_suites : suite_statics :=
  SuiteStatics (list_to_map (map (fun c => (suite_symbol c, SuiteState true (head (all_record_algs c)) Sslv3Self))
    (@s2n_all_cipher_suites demo_libcrypto))) true true.

(** A client that offers TLS_AES_256_GCM_SHA384 and TLS_AES_128_GCM_SHA256, in this order. *)
Definition offer_world : world := World {[ 1%positive := [0x13; 0x02; 0x13; 0x01] ]} started_statics.
Definition offer : wire_list := WireList (Ptr 1 0) 2 2.

Lemma demo_suites_ready m v : suites_ready demo_suites (demo_params m v) (@security_policy_20240417 demo_libcrypto).
Proof.
  split; [done|]. apply Forall_forall. intros s Hs.
  assert (Hb : forallb (fun s => bool_decide (zlen (iana_value s) = 2) && forallb (fun b => (0 <=? b) && (b <? 256)) (iana_value s) &&
    match sslv3_of demo_suites s with Some _ => true | None => false end)
    (policy_suites (@security_policy_20240417 demo_libcrypto)) = true) by (vm_compute; reflexivity).
  rewrite forallb_forall in Hb. apply list_elem_of_In in Hs. specialize (Hb s Hs). zbool. decided. split; [split; [done|]|].
  - apply Forall_forall. intros b Hb. apply list_elem_of_In in Hb.
    match goal with Hx : forallb _ _ = true |- _ => rewrite forallb_forall in Hx; specialize (Hx b Hb) end.
    zbool. unfold is_u8. lia.
  - by destruct (sslv3_of demo_suites s).
Qed.

Lemma demo_server_ready : @server_ready offer_world demo_suites (demo_params S2N_SERVER S2N_TLS13)
  (@security_policy_20240417 demo_libcrypto) offer.
Proof.
  split.
  - split; [done| | |apply blob_ok_zero].
    + unfold kems_wf. vm_compute. done.
    + split; [apply map_Forall_singleton; solve_bytes|]. split; [done|]. simpl. unfold is_u32. lia.
  - apply demo_suites_ready.
  - split; simpl; [lia|lia|]. solve_valid_access.
Qed.

(** The server's order wins: it takes the second offer of the client. *)
Lemma server_suite_correct_witness :
  exists r k, suite_deref r = @s2n_tls13_aes_128_gcm_sha256 demo_libcrypto /\
    @s2n_set_cipher_as_server demo_libcrypto demo_platform (Some (Ptr 1 0)) 2 2
      (offer_world, (demo_suites, demo_params S2N_SERVER S2N_TLS13)) =
    (Ok tt, (offer_world, (demo_suites, set_cipher_suite r (set_negotiated_kem k (demo_params S2N_SERVER S2N_TLS13))))).
Proof.
  assert (Hn : noted (hp offer_world) offer (demo_params S2N_SERVER S2N_TLS13) = demo_params S2N_SERVER S2N_TLS13)
    by (vm_compute; reflexivity).
  pose proof (@server_suite_correct demo_libcrypto demo_platform _ _ _ _ _ _ demo_server_ready) as Hc. cbv zeta in Hc.
  destruct (s2n_set_cipher_as_server _ _ _ _) as [[[]|e|] [w' [st' c']]].
  - destruct Hc as (_ & r & k & Hr & Hx). exists r, k. rewrite Hx, Hn. split; [|reflexivity].
    vm_compute in Hr. injection Hr as <-. vm_compute. reflexivity.
  - exfalso. destruct Hc as (_ & _ & _ & [(_ & Hf)|[(_ & Hf & _)|(_ & Hf)]]); vm_compute in Hf; discriminate Hf.
  - destruct Hc.
Defined.

Lemma offer_accepted : fst (@s2n_set_cipher_as_server demo_libcrypto demo_platform (Some (Ptr 1 0)) 2 2
  (offer_world, (demo_suites, demo_params S2N_SERVER S2N_TLS13))) = Ok tt.
Proof. vm_compute. reflexivity. Qed.

Lemma server_suite_sound_witness :
  exists s, In (iana_value s) [[0x13; 0x02]; [0x13; 0x01]].
Proof.
  pose proof offer_accepted as Hok.
  destruct (@s2n_set_cipher_as_server demo_libcrypto demo_platform (Some (Ptr 1 0)) 2 2
      (offer_world, (demo_suites, demo_params S2N_SERVER S2N_TLS13))) as [[[]|e|] [w' [st' c']]] eqn:Hrun.
  - exists (suite_deref (cipher_suite c')).
    exact (proj1 (proj2 (@server_suite_sound demo_libcrypto demo_platform _ _ _ _ _ _ _ _ _ demo_server_ready Hrun))).
  - discriminate Hok.
  - discriminate Hok.
Defined.

Lemma client_suite_correct_witness :
  exists r, @s2n_set_cipher_as_client demo_platform [0x13; 0x02]
      (offer_world, (demo_suites, demo_params S2N_CLIENT S2N_TLS13)) =
    (Ok tt, (offer_world, (demo_suites, set_cipher_suite r (demo_params S2N_CLIENT S2N_TLS13)))).
Proof.
  assert (Hiana : iana_ok [0x13; 0x02]) by (split; [done|solve_bytes]).
  pose proof (@client_suite_correct demo_platform offer_world demo_suites (demo_params S2N_CLIENT S2N_TLS13) _
    [0x13; 0x02] (demo_suites_ready _ _) Hiana eq_refl) as Hc.
  assert (Hok : fst (@s2n_set_cipher_as_client demo_platform [0x13; 0x02]
    (offer_world, (demo_suites, demo_params S2N_CLIENT S2N_TLS13))) = Ok tt) by (vm_compute; reflexivity).
  destruct (s2n_set_cipher_as_client _ _) as [[[]|e|] [w' [st' c']]].
  - destruct Hc as (-> & -> & s & r & _ & _ & _ & _ & _ & Hx). exists r.
    change (after_retry (base (demo_params S2N_CLIENT S2N_TLS13))) with false in Hx. rewrite Hx. reflexivity.
  - discriminate Hok.
  - destruct Hc.
Defined.

Lemma from_iana_correct_witness :
  @s2n_cipher_suite_from_iana demo_libcrypto unit (LocalBuf [0xC0; 0x2F]) 2 (offer_world, tt) =
    (Ok (@s2n_ecdhe_rsa_with_aes_128_gcm_sha256 demo_libcrypto), (offer_world, tt)).
Proof.
  rewrite (@from_iana_correct demo_libcrypto unit (LocalBuf [0xC0; 0x2F]) [0xC0; 0x2F] 2 offer_world tt).
  - vm_compute. reflexivity.
  - split; [done|]. vm_compute. done.
  - solve_bytes.
Defined.

Lemma cipher_suites_init_correct_witness :
  exists w' st', @s2n_cipher_suites_init demo_libcrypto demo_platform (offer_world, initial_suites) =
    (Ok tt, (w', st')) /\ @suite_started demo_libcrypto (hp w') st' (@s2n_rsa_with_3des_ede_cbc_sha demo_libcrypto).
Proof.
  assert (Hw : world_ok offer_world) by apply demo_server_ready.
  pose proof (@cipher_suites_init_correct demo_libcrypto demo_platform _ offer_world (initial_suites) Hw) as Hc.
  assert (Hok : fst (@s2n_cipher_suites_init demo_libcrypto demo_platform
    (offer_world, initial_suites)) = Ok tt) by (vm_compute; reflexivity).
  destruct (s2n_cipher_suites_init _) as [[[]|e|] [w' st']].
  - exists w', st'. split; [reflexivity|]. apply Hc. apply list_elem_of_In, (list_elem_of_lookup_2 _ 2%nat). reflexivity.
  - discriminate Hok.
  - destruct Hc.
Defined.
End CipherServer.
Export CipherServer.
